(* ===== verification/_CoqProject ===== *)
-Q . S2P
Prelude.v
Bytes.v
Base64.v
Dec.v
Params.v
Keys.v
Store.v
World.v
Instances.v
Eth.v
Keeper.v
StateDB.v
Snapshots.v
Supply.v
Finalize.v
Frame.v
Journal.v
Pending.v
Fee.v
Block.v
EthTx.v
Msg.v
Receipts.v
Tx.v
Associate.v
Ante.v
AppTx.v
Ledger.v
Pointer.v
Heap.v
Bloom.v
Logs.v
Synthetic.v
AppBlock.v
Optimistic.v
Invariance.v
MsgServer.v
Shape.v
Genesis.v
Float.v
FeeHistory.v
RpcTx.v
Filters.v
WorkerPool.v
Precompile.v
StaticCall.v
BankPrecompile.v
AddrPrecompile.v
PointerViewPrecompile.v
WasmQueries.v
StakingPrecompile.v
DistrPrecompile.v
WasmdPrecompile.v
IBCPrecompile.v
DynamicGas.v
GovPrecompile.v
PointerPrecompile.v
Migrations.v
AclMapping.v
WasmBindings.v
Queries.v
