(* ===== verification/Prelude.v ===== *)
(** * tabi-v3: a verification development of the EVM module and the block pipeline

    tabi-v3 is a Cosmos chain with an EVM.  This library models, as executable
    functions, the code that takes an Ethereum transaction from the mempool to a
    committed block, and proves what makes it correct.

    ** The program and its parts

    A transaction of the chain carries one EVM message (src/x/evm/types).  The
    ante handler (src/x/evm/ante, src/app/ante.go) recovers its sender, associates
    the sender's two addresses, checks and charges the fee and checks the nonce.
    The message server (src/x/evm/keeper/msg_server.go) then lets go-ethereum run
    it on a state database (src/x/evm/state), a stack of branched contexts over
    the keeper's store, the bank and the accounts.  Value that the EVM moves below
    the bank's unit is booked as a surplus; the surplus of each transaction and of
    each fee is recorded in the transient store, and the end of the block
    (src/x/evm/module.go) credits their sum, collects the fees, moves the base fee
    and stores the bloom.  The application (src/app/app.go) decodes and partitions
    a block, delivers its transactions, places the results, may process a
    proposal before it is decided, and checks the total supply before it commits
    (src/app/invariance.go).  Beside that path stand the registry of token
    pointers, the other messages of the module, genesis, the precompiled
    contracts by which EVM code reaches the modules of the chain
    (src/precompiles), the bindings by which wasm contracts reach the EVM
    (src/wasmbinding, src/x/evm/client/wasm), the upgrades of the module
    (src/x/evm/migrations), the accesses predicted for concurrent execution
    (src/aclmapping), and the logs, filters, receipts, transactions and fee
    histories of the JSON-RPC server (src/evmrpc), which read what the blocks
    have left.

    ** Conventions

    - A Go call that can panic has type [outcome]; a Go error is an [option Err]
      in the result, beside the state the code leaves when it returns the error.
      Methods with a pointer receiver are computations of the state monad [stm].
    - Integers of 64 bits are [Z] with their wrap-around written out ([u64],
      [i64]); [big.Int] and [sdk.Int] are [Z]; byte slices are lists of bytes and
      [common.Address] and [common.Hash] byte lists of fixed length.
    - A store is a finite map from byte strings to byte strings, iterated in the
      order of its keys; a context is a multi-store with branches, events and
      block data ([Ctx], with [cview] for the world it shows and [cput] and
      [cupd] for writes).
    - Code that is not in the repository is a type class with its documented
      behaviour as a class of laws: the bank and account keepers, hashing and
      signatures, multi-stores ([MultiStoreLaws]), decimals, protobuf and JSON
      codecs, go-ethereum's transactions, its EVM (any sequence of calls of the
      state database without minting, and of precompiles that keep the sum of the
      bank and the surplus; [EVMCalls] for how it calls a precompile), the wasm
      keeper, the staking and distribution modules, bech32, gas meters, the ABI of
      contracts, and the SDK's delivery.  Instances.v and the ends of the files
      give instances that satisfy the laws, on which every theorem with hypotheses
      is applied once.

    ** Files

    - Foundations.  Prelude: outcomes, the state monad, lists and machine
      integers.  Bytes: byte strings and big-endian codecs.  Base64: Go's
      encoding/base64.  Float: Go's float64.  Dec: the interface to decimals.
      Store: stores, iterators, multi-stores.  World: contexts and keepers.
      Instances: a concrete world.  Eth: the interface to go-ethereum.
    - Params (types/params.go) and Keys (types/keys.go): parameters and the key
      space.
    - Keeper (keeper/address.go, nonce.go, code.go, state.go, balance.go,
      coinbase.go): what the module knows of an account.
    - StateDB (src/x/evm/state): every method of [DBImpl] on the record [DBImpl].
      Snapshots, Supply, Finalize, Frame and Journal hold the theory of it.
    - Pending and Fee (keeper.go, fee.go, params.go of the keeper): nonces of the
      mempool and the dynamic base fee.
    - Block (module.go, deferred.go, ante.go, log.go, tx.go): the end of a block.
      Receipts (receipt.go, log.go, types/logs.go).
    - EthTx (types/ethtx): the five kinds of transaction data.  Msg: the message,
      the chain configuration and the recovery of the sender.
    - Tx (msg_server.go, evm.go, precompile.go, and the block context of
      keeper.go): running a transaction, and calls from other modules.
    - Associate, Ante (x/evm/ante, utils/helpers/associate.go): the ante handler.
      AppTx (app/antedecorators, utils/prioritized_txs.go, checkTotalBlockGas).
    - Ledger: what the transactions of a block leave for its end.  AppBlock
      (ProcessBlock and what it calls), Optimistic (ProcessProposalHandler,
      FinalizeBlocker), Invariance (app/invariance.go).
    - Pointer (keeper/pointer.go), MsgServer (the other messages), Shape (the
      types of the store), Genesis (genesis.go, keeper/genesis.go,
      types/genesis.go), Queries and StaticCall (keeper/grpc_query.go, view.go and
      the static calls of evm.go), Migrations (x/evm/migrations).
    - Synthetic (app/receipt.go): the hook that turns the events of wasm tokens
      into logs of their pointers, on a gas meter of its own ([metered]).
      AclMapping (src/aclmapping).
    - Heap (Go's container/heap), Bloom (evmrpc/bloom.go), Logs (the log fetcher
      of evmrpc/filter.go), Filters (the filter API of the same file), WorkerPool
      (evmrpc/worker_pool.go, as a step relation), FeeHistory (evmrpc/info.go),
      RpcTx (evmrpc/tx.go and the helpers of utils.go).
    - Precompile (precompiles/common: how a precompile is run and paid), and one
      file per contract: BankPrecompile, AddrPrecompile, PointerViewPrecompile,
      StakingPrecompile, DistrPrecompile, WasmdPrecompile, IBCPrecompile,
      GovPrecompile, PointerPrecompile.  A method is a computation that may panic
      and still leaves what it has written ([exec_m]); every access to a keeper
      consumes gas and may end it there.  DynamicGas: what holds of every call of
      the address, bank, distribution and IBC precompiles.
    - WasmQueries (the queries of wasm contracts) and WasmBindings (their
      messages, and the check of the accesses they declare).  A query is a
      computation of the monad [query_m] of StaticCall.

    ** What the theorems show

    - Value.  Finalize and Supply: from the creation of a state database through
      any calls to [Finalize], the wei in the bank plus the surplus is constant.
      Tx and Ante carry this to a transaction, those entered through the wasmd
      precompile included, and to its fee, Ledger to any sequence of them and of
      steps that make or destroy a known amount, Block to the end of the block,
      and AppBlock to the whole of [ProcessBlock], whose EVM transactions create
      and destroy nothing whatever the other modules mint and burn; Invariance says
      exactly when the check after a block passes, and Associate that an
      association moves funds and creates none.
    - The state database.  A revert restores the snapshot exactly (Snapshots);
      the layered temporary state refines a flat state with an undo stack
      (Journal); [Finalize] flushes the whole stack and clears destructed
      accounts (Finalize).
    - Transactions.  The conversions of transaction data are inverse, validation
      accepts exactly the data within its bounds and panics exactly where a nil
      is read (EthTx), the sender is recovered
      (Msg), a transaction is not accepted twice and priorities stay in their band
      (Ante); the decorators of the application look through nested messages
      (AppTx).
    - Blocks.  Results are placed at the positions of their transactions
      (AppBlock); optimistic processing refines direct processing and never waits
      in vain (Optimistic, a step relation for the calls of the consensus engine
      and the goroutine); the gas check of proposals is exact (AppTx).
    - The module's store.  Its keys are injective (Keys), its values keep their
      types along every run of the keeper's operations, and associations agree in
      both directions along careful ones (Shape), the pending
      nonces stay consistent (Pending), the base fee stays within its limits
      (Fee), the pointer registry refines a table for tokens of which none is a
      prefix of another and confuses native tokens otherwise (Pointer), pointer
      registrations and delegate calls respect it (MsgServer), an export and
      import restore what is exported (Genesis), the queries answer that table
      (Queries), and the upgrades of the supply, the cast accounts and the wasm
      pointers do exactly what they are for (Migrations).
    - Precompiles.  A call of a precompile as the EVM makes it is a step of the
      transaction as Tx assumes it: it conserves value, and when it fails, for
      lack of gas in the middle of a write too, nothing of it remains; a static
      call writes nothing (Precompile, for executors that meet the interfaces
      [LevelExecutor], [SafeExecutor] and [StaticExecutor], and DynamicGas for the
      four precompiles with dynamic gas that meet them; wasm contracts may call
      the EVM in turn, so the wasm precompile is not shown to).  [sendNative]
      moves exactly the value of the call and [send] serves only the pointers of
      the denomination and of those whose names extend it (BankPrecompile),
      [delegate] stakes exactly the value (StakingPrecompile), a batch of wasm
      messages shares it out exactly (WasmdPrecompile), rewards are
      withdrawn from all the validators or none (DistrPrecompile), only the
      two addresses of one key are associated (AddrPrecompile), a proposal is
      submitted as its JSON says with the value as deposit (GovPrecompile), a
      transfer without a timeout gets one in the future (IBCPrecompile), and a
      pointer is deployed with the metadata of its token and registered both ways
      (PointerPrecompile).
    - Wasm contracts.  A query changes nothing, whatever contract it calls
      (WasmQueries); the payload of a token operation that a query returns reaches
      the EVM unchanged when it is sent back, and a declared access covers exactly
      the accesses it should (WasmBindings).  The logs made from wasm events are
      appended to the receipt, numbered, and covered by its bloom, or the hook
      panics for lack of gas (Synthetic).  The accesses predicted for a message are
      filed under keys of their kind and declare its writes (AclMapping).
    - Log queries.  A bloom never turns away a matching log (Bloom, and Logs for
      the bloom that the end of a block stores); [eth_getLogs] returns the
      matching logs of the range in order, within its limits and as its readings
      of the latest height give the range, whatever the workers, other requests
      and the growing chain do meanwhile (Logs, Filters); the polls of a filter
      deliver logs in order and once, and all of them unless a range is cut
      (Filters: by the limit on logs, or by growth between two readings); a filter
      whose last block is a tag, or that has no first block, loses logs; a task
      given to the pool runs once, and the closing of a started pool waits for all
      of them (WorkerPool).
    - Wallets.  The receipts of a block number its transactions and logs without a
      gap and as [eth_getLogs] does, and the lookups by number, index and hash
      agree (RpcTx); a fee history is that of the window asked for, and the
      rewards at whole percentiles, computed in one pass in floating point, are
      what their definition says of the shares rounded down (FeeHistory).

    ** Bounds and fuel

    Loops over lists are structural.  [CalculateNextNonce] counts up from the
    account's nonce with as many steps as the sender has pending nonces, plus
    one; the theorem on it shows that the first free nonce is found within them.
    The search for nested messages is bounded by the code's own limit of five
    levels.  Loops over versions of pointers count down from the code's maximal
    version.  Moving an element in a heap takes at most as many rounds as the
    heap has elements, and merging sorted batches one round per log; both are
    shown to suffice.  The loop over the batches of a range, which does not end
    for a range at the largest height, takes its number of rounds as an argument,
    and the theorems ask for one round per hundred blocks.  The loop of a fee
    history takes one round per block of the window, which its theorem shows to be
    enough, and the pages of the mempool are bounded by the code's own limit of
    twenty.  Numbers of type float64 are those of the Standard Library's
    specification of binary64.

    ** Not modelled

    - The EVM, the SDK and the wasm machine, which are libraries; the JSON
      precompile, whose methods return parts of a text cut out by the JSON decoder
      of the library, the old versions of precompiles kept for tracing, and what
      precompiles tell a tracer.
    - The replay and block-test modes (src/x/evm/replay, blocktest,
      src/app/eth_replay.go), which read an external Ethereum database: the model
      is of a live chain.
    - The deployment of pointer contracts through a one-off EVM on the context
      under an open branch ([RunWithOneOffEVMInstance] of
      keeper/pointer_upgrade.go), with what rests on it: the handlers of
      src/x/evm/gov.go and the upgrades of the ERC pointers.  The registration of
      a contract that was deployed is modelled.
    - The JSON-RPC services other than logs, filters, fees, receipts and
      transactions: the listing of blocks, simulation, tracing, subscriptions and
      the servers, which do not change the state.
    - Command line and tools, the wiring of the application and of the wasm
      bindings; mutexes held throughout one operation, logging and metrics;
      [Copy] and [Cleanup] of the state database. *)

From Stdlib Require Export ZArith Lia.
From stdpp Require Export base gmap list strings sorting countable fin_maps.

(** ** Outcomes: a Go call that either returns or panics *)

Inductive outcome (A : Type) : Type :=
| Ret (a : A)
| Panic (msg : string).
Arguments Ret {A} a.
Arguments Panic {A} msg.

Definition outcome_bind {A B : Type} (o : outcome A) (f : A → outcome B) : outcome B :=
  match o with
  | Ret a => f a
  | Panic m => Panic m
  end.

(** The message of the run-time error for a nil pointer. *)
Definition nil_deref : string := "invalid memory address or nil pointer dereference".

Definition is_ret {A : Type} (o : outcome A) : bool :=
  match o with Ret _ => true | Panic _ => false end.

(** A call with a Go error beside its result: whether it returned without one,
    and its result. *)
Definition is_ok {A E : Type} (o : outcome (A * option E)) : bool :=
  match o with Ret (_, None) => true | _ => false end.
Definition result_or {A E : Type} (d : A) (o : outcome (A * option E)) : A :=
  match o with Ret (a, _) => a | Panic _ => d end.

Lemma is_ok_ret {A E} (d : A) (o : outcome (A * option E)) : is_ok o = true → o = Ret (result_or d o, None).
Proof. by destruct o as [[a [e|]]|]. Qed.

(** ** Computations over a mutable receiver

    A Go method with a pointer receiver of type [S] and result [A] is a
    [stm S A]: it takes the receiver's fields, and returns the result with
    the new fields, or panics. *)

Definition stm (S A : Type) : Type := S → outcome (A * S).

Definition sret {S A : Type} (a : A) : stm S A := λ s, Ret (a, s).

Definition sbind {S A B : Type} (m : stm S A) (f : A → stm S B) : stm S B :=
  λ s, match m s with
       | Ret (a, s') => f a s'
       | Panic msg => Panic msg
       end.

Definition sget {S A : Type} (f : S → A) : stm S A := λ s, Ret (f s, s).
Definition sput {S : Type} (f : S → S) : stm S unit := λ s, Ret (tt, f s).
Definition spanic {S A : Type} (msg : string) : stm S A := λ _, Panic msg.

(** The receiver after a computation; unchanged if it panics. *)
Definition exec {S A : Type} (m : stm S A) (s : S) : S :=
  match m s with Ret (_, s') => s' | Panic _ => s end.

Lemma exec_ret {S} (m : stm S unit) (s : S) : is_ret (m s) = true → m s = Ret (tt, exec m s).
Proof. unfold exec. by destruct (m s) as [[[] s']|]. Qed.

(** A [for _, x := range l] loop whose body has no result. *)
Fixpoint sfor {S A : Type} (l : list A) (body : A → stm S unit) : stm S unit :=
  match l with
  | [] => sret tt
  | x :: l' => sbind (body x) (λ _, sfor l' body)
  end.

(** [if c { body }] *)
Definition swhen {S : Type} (c : bool) (m : stm S unit) : stm S unit :=
  if c then m else sret tt.

Declare Scope stm_scope.
Delimit Scope stm_scope with stm.
Notation "'let!' x := m 'in' k" := (sbind m (λ x, k))
  (at level 10, x name, m at level 100, k at level 200) : stm_scope.
Notation "'do!' m ; k" := (sbind m (λ _, k))
  (at level 10, m at level 100, k at level 200) : stm_scope.

Declare Scope outcome_scope.
Delimit Scope outcome_scope with outcome.
Notation "'let*' x := m 'in' k" := (outcome_bind m (λ x, k))
  (at level 10, x name, m at level 100, k at level 200) : outcome_scope.

(** ** Automation *)

Create HintDb tabi.

(** Reduce a monadic term whose receiver is at hand. *)
Ltac mstep := unfold sbind, sret, sget, sput, spanic, swhen in *; simpl in *.

(** Case analysis on the [if]s and [match]es of a hypothesis or the goal. *)
Ltac split_match :=
  match goal with
  | |- context [match ?x with _ => _ end] => destruct x eqn:?
  | H : context [match ?x with _ => _ end] |- _ => destruct x eqn:?
  end; simplify_eq/=.

(** ** What a computation does to its receiver

    [Pres R m]: whenever [m] returns, the receiver before and after are related
    by [R]. *)

Definition Pres {S A : Type} (R : S → S → Prop) (m : stm S A) : Prop :=
  ∀ s a s', m s = Ret (a, s') → R s s'.

Section PresLemmas.
Context {S : Type} (R : S → S → Prop) `{!PreOrder R}.

Lemma Pres_ret {A} (a : A) : Pres R (sret a).
Proof. intros s a' s' [= _ <-]. reflexivity. Qed.
Lemma Pres_get {A} (f : S → A) : Pres R (sget f).
Proof. intros s a' s' [= _ <-]. reflexivity. Qed.
Lemma Pres_panic {A} msg : Pres R (spanic msg : stm S A).
Proof. intros s a' s' [=]. Qed.
Lemma Pres_put (f : S → S) : (∀ s, R s (f s)) → Pres R (sput f).
Proof. intros H s a' s' [= _ <-]. apply H. Qed.
Lemma Pres_bind {A B} (m : stm S A) (f : A → stm S B) :
  Pres R m → (∀ a, Pres R (f a)) → Pres R (sbind m f).
Proof.
  intros Hm Hf s b s'' H. unfold sbind in H. destruct (m s) as [[a s']|] eqn:E; [|done].
  transitivity s'; [by eapply Hm|by eapply Hf].
Qed.
Lemma Pres_when c (m : stm S unit) : Pres R m → Pres R (swhen c m).
Proof. intros H. destruct c; [done|apply Pres_ret]. Qed.
Lemma Pres_for {A} (l : list A) (body : A → stm S unit) :
  (∀ x, x ∈ l → Pres R (body x)) → Pres R (sfor l body).
Proof.
  induction l as [|x l IH]; intros H; simpl; [apply Pres_ret|].
  apply Pres_bind; [apply H; left|]. intros _. apply IH. intros y Hy. apply H. by right.
Qed.
End PresLemmas.

(** A loop whose body returns whenever [P] holds, and keeps [P]. *)
Lemma sfor_run {S A} (P : S → Prop) (R : S → S → Prop) `{!PreOrder R}
    (l : list A) (body : A → stm S unit) :
  (∀ x s, P s → ∃ s', body x s = Ret (tt, s') ∧ P s' ∧ R s s') →
  ∀ s, P s → ∃ s', sfor l body s = Ret (tt, s') ∧ P s' ∧ R s s'.
Proof.
  intros Hb. induction l as [|x l IH]; intros s Hs; simpl.
  - exists s. by split_and!.
  - destruct (Hb x s Hs) as (s1 & E1 & P1 & R1). destruct (IH s1 P1) as (s2 & E2 & P2 & R2).
    exists s2. unfold sbind. rewrite E1, E2. split_and!; [done|done|by transitivity s1].
Qed.

(** The relation of keeping an invariant. *)
Definition maintains {S : Type} (P : S → Prop) (s s' : S) : Prop := P s → P s'.
#[export] Instance maintains_preorder {S} (P : S → Prop) : PreOrder (maintains P).
Proof. split; unfold maintains; repeat intro; auto. Qed.

(** What one iteration of a loop establishes, from what all of them keep. *)
Lemma sfor_establishes {S A} (P Q : S → Prop) (l : list A) (body : A → stm S unit) x :
  x ∈ l →
  (∀ y, Pres (maintains P) (body y)) →
  (∀ y, Pres (maintains Q) (body y)) →
  (∀ s u s', P s → body x s = Ret (u, s') → Q s') →
  ∀ s u s', P s → sfor l body s = Ret (u, s') → Q s'.
Proof.
  intros Hx HP HQ Hest. induction l as [|y l IH]; [by apply elem_of_nil in Hx|].
  intros s u s' Hs H. simpl in H. unfold sbind in H.
  destruct (body y s) as [[u1 s1]|] eqn:E; [|done].
  assert (Hl : Pres (maintains Q) (sfor l body)) by (apply Pres_for; [apply _|auto]).
  apply elem_of_cons in Hx as [<-|Hx].
  - apply Hl in H. by apply H, (Hest s u1 s1).
  - by apply (IH Hx) in H; [|eapply HP].
Qed.

Create HintDb pres.

(** Follow the structure of a computation down to its primitive actions. *)
Ltac pres_step :=
  match goal with
  | |- ∀ _, _ => intro
  | |- Pres _ (sbind _ _) => apply Pres_bind; [try typeclasses eauto| |]
  | |- Pres _ (sret _) => apply Pres_ret; typeclasses eauto
  | |- Pres _ (sget _) => apply Pres_get; typeclasses eauto
  | |- Pres _ (spanic _) => apply Pres_panic
  | |- Pres _ (swhen _ _) => apply Pres_when; [try typeclasses eauto|]
  | |- Pres _ (sfor _ _) => apply Pres_for; [try typeclasses eauto|]
  | |- Pres _ (match ?x with _ => _ end) => destruct x eqn:?
  | |- Pres _ _ => solve [auto with pres nocore]
  end.
Ltac pres := repeat pres_step.

(** ** Machine-width integers *)

Definition two64 : Z := 18446744073709551616.
Definition maxUint64 : Z := 18446744073709551615.
Definition maxInt64 : Z := 9223372036854775807.

(** Conversion to [uint64], and to [int64], of an integer. *)
Definition u64 (z : Z) : Z := (z `mod` two64)%Z.
Definition i64 (z : Z) : Z :=
  let r := (z `mod` two64)%Z in if bool_decide (r ≤ maxInt64)%Z then r else (r - two64)%Z.

Definition is_u64 (z : Z) : Prop := (0 ≤ z < two64)%Z.

Lemma u64_range z : is_u64 (u64 z).
Proof. unfold is_u64, u64, two64. apply Z.mod_pos_bound. lia. Qed.

Lemma u64_id z : is_u64 z → u64 z = z.
Proof. intros H. apply Z.mod_small. exact H. Qed.

Lemma i64_id z : (-9223372036854775808 ≤ z ≤ maxInt64)%Z → i64 z = z.
Proof.
  unfold i64, maxInt64, two64. intros H.
  destruct (Z.ltb_spec z 0) as [Hn|Hn].
  - rewrite <- (Z.mod_unique z 18446744073709551616 (-1) (z + 18446744073709551616)) by lia.
    case_bool_decide; lia.
  - rewrite Z.mod_small by lia. case_bool_decide; lia.
Qed.

Lemma i64_max z : (i64 z ≤ maxInt64)%Z.
Proof.
  unfold i64. pose proof (Z.mod_pos_bound z two64 ltac:(unfold two64; lia)). case_bool_decide; [done|]. unfold maxInt64, two64 in *. lia.
Qed.

#[export] Hint Resolve u64_range : tabi.

(** ** Lists *)

Lemma fmap_cancel {A B : Type} (f : A → B) (g : B → A) (l : list A) :
  (∀ x, g (f x) = x) → g <$> (f <$> l) = l.
Proof. intros H. induction l as [|x l IH]; [done|]. rewrite !fmap_cons, H. by f_equal. Qed.

(** ** Filters that keep everything or nothing *)

Lemma filter_all {A} (P : A → Prop) `{!∀ x, Decision (P x)} (l : list A) : Forall P l → filter P l = l.
Proof. induction 1 as [|x l Hx _ IH]; [done|]. by rewrite filter_cons_True, IH. Qed.

Lemma filter_none {A} (P : A → Prop) `{!∀ x, Decision (P x)} (l : list A) : Forall (λ x, ¬ P x) l → filter P l = [].
Proof. induction 1 as [|x l Hx _ IH]; [done|]. by rewrite filter_cons_False. Qed.
