(* ===== verification/Bytes.v ===== *)
(** * Byte strings and fixed-size byte arrays

    Go's [[]byte] is a list of [Byte.byte]; [common.Address] ([[20]byte]) and
    [common.Hash] ([[32]byte]) are byte lists whose length is part of the
    type.  The big-endian codec of [encoding/binary] and the ordering of
    [bytes.Compare] (the order in which a store iterates) are here too. *)

From S2P Require Import Prelude.
From Stdlib Require Import Strings.Byte.
From Stdlib Require Eqdep_dec.
Local Open Scope Z_scope.

Notation byte := Byte.byte.
Notation bytes := (list Byte.byte).

#[export] Instance byte_eq_decision : EqDecision byte := Byte.byte_eq_dec.

#[export] Instance byte_countable : Countable byte.
Proof.
  refine (inj_countable Byte.to_N Byte.of_N _).
  intros b. apply Byte.of_to_N.
Defined.

(** ** Bytes as integers *)

Definition bval (b : byte) : Z := Z.of_N (Byte.to_N b).

Definition byte_of_Z (z : Z) : byte :=
  match Byte.of_N (Z.to_N (z `mod` 256)) with
  | Some b => b
  | None => x00
  end.

Lemma bval_range b : 0 ≤ bval b < 256.
Proof. unfold bval. pose proof (Byte.to_N_bounded b). lia. Qed.

Lemma bval_byte_of_Z z : bval (byte_of_Z z) = z `mod` 256.
Proof.
  unfold bval, byte_of_Z.
  pose proof (Z.mod_pos_bound z 256 ltac:(lia)) as Hb.
  destruct (Byte.of_N _) as [b|] eqn:E.
  - apply Byte.to_of_N in E. rewrite E. lia.
  - apply Byte.of_N_None_iff in E. lia.
Qed.

Lemma bval_inj a b : bval a = bval b → a = b.
Proof.
  unfold bval. intros H. apply N2Z.inj in H.
  pose proof (Byte.of_to_N a) as Ha. pose proof (Byte.of_to_N b) as Hb.
  rewrite H in Ha. congruence.
Qed.

(** ** Big-endian integers: [binary.BigEndian.PutUint64] and friends *)

Fixpoint be_enc (n : nat) (z : Z) : bytes :=
  match n with
  | O => []
  | S n' => byte_of_Z (z `div` 256 ^ Z.of_nat n') :: be_enc n' z
  end.

Fixpoint be_dec (l : bytes) : Z :=
  match l with
  | [] => 0
  | b :: l' => bval b * 256 ^ Z.of_nat (length l') + be_dec l'
  end.

Definition PutUint64 (z : Z) : bytes := be_enc 8 z.
Definition PutUint16 (z : Z) : bytes := be_enc 2 z.

(** [binary.BigEndian.Uint64] reads the first eight bytes, and panics
    (index out of range) on a shorter slice. *)
Definition Uint64 (l : bytes) : outcome Z :=
  if bool_decide (8 ≤ length l)%nat then Ret (be_dec (take 8 l))
  else Panic "index out of range".
Definition Uint16 (l : bytes) : outcome Z :=
  if bool_decide (2 ≤ length l)%nat then Ret (be_dec (take 2 l))
  else Panic "index out of range".

Lemma length_be_enc n z : length (be_enc n z) = n.
Proof. induction n; simpl; auto. Qed.

Lemma be_dec_enc n z : be_dec (be_enc n z) = z `mod` 256 ^ Z.of_nat n.
Proof.
  induction n as [|n IH]; cbn [be_enc be_dec].
  - by rewrite Z.mod_1_r.
  - rewrite IH, length_be_enc, bval_byte_of_Z.
    replace (256 ^ Z.of_nat (S n)) with (256 ^ Z.of_nat n * 256)
      by (rewrite Nat2Z.inj_succ, Z.pow_succ_r; lia).
    rewrite Z.rem_mul_r by lia. lia.
Qed.

Lemma be_dec_range l : 0 ≤ be_dec l < 256 ^ Z.of_nat (length l).
Proof.
  induction l as [|b l IH]; cbn [be_dec length].
  - change (256 ^ Z.of_nat 0) with 1. lia.
  - pose proof (bval_range b).
    rewrite Nat2Z.inj_succ, Z.pow_succ_r by lia. nia.
Qed.

Lemma be_enc_inj n a b :
  0 ≤ a < 256 ^ Z.of_nat n → 0 ≤ b < 256 ^ Z.of_nat n → be_enc n a = be_enc n b → a = b.
Proof.
  intros Ha Hb H. apply (f_equal be_dec) in H.
  rewrite !be_dec_enc in H. by rewrite !Z.mod_small in H.
Qed.

Lemma Uint64_PutUint64 z : Uint64 (PutUint64 z) = Ret (u64 z).
Proof.
  unfold Uint64, PutUint64. rewrite length_be_enc.
  rewrite bool_decide_eq_true_2 by lia.
  rewrite take_ge by (rewrite length_be_enc; lia). by rewrite be_dec_enc.
Qed.

Lemma Uint16_PutUint16 z : Uint16 (PutUint16 z) = Ret (z `mod` 65536).
Proof.
  unfold Uint16, PutUint16. rewrite length_be_enc.
  rewrite bool_decide_eq_true_2 by lia.
  rewrite take_ge by (rewrite length_be_enc; lia). by rewrite be_dec_enc.
Qed.

(** ** The order of [bytes.Compare] *)

Fixpoint bytes_leb (a b : bytes) : bool :=
  match a, b with
  | [], _ => true
  | _ :: _, [] => false
  | x :: a', y :: b' =>
      if bval x <? bval y then true
      else if bval y <? bval x then false else bytes_leb a' b'
  end.

Definition bytes_le (a b : bytes) : Prop := bytes_leb a b = true.

#[export] Instance bytes_le_dec : RelDecision bytes_le.
Proof. intros a b. unfold bytes_le. apply _. Defined.

Lemma bytes_le_refl a : bytes_le a a.
Proof. unfold bytes_le. induction a as [|x a IH]; simpl; [done|]. by rewrite Z.ltb_irrefl. Qed.

#[export] Instance bytes_le_trans : Transitive bytes_le.
Proof.
  unfold bytes_le. intros a. induction a as [|x a IH]; intros [|y b] [|z c]; simpl; try done.
  intros H1 H2.
  destruct (Z.ltb_spec (bval x) (bval y)), (Z.ltb_spec (bval y) (bval x)),
    (Z.ltb_spec (bval y) (bval z)), (Z.ltb_spec (bval z) (bval y)),
    (Z.ltb_spec (bval x) (bval z)), (Z.ltb_spec (bval z) (bval x)); try done; try lia.
  by eapply IH.
Qed.

#[export] Instance bytes_le_total : Total bytes_le.
Proof.
  unfold bytes_le. intros a. induction a as [|x a IH]; intros [|y b]; simpl; auto.
  destruct (Z.ltb_spec (bval x) (bval y)), (Z.ltb_spec (bval y) (bval x)); auto.
Qed.

#[export] Instance bytes_le_antisymm : AntiSymm (=) bytes_le.
Proof.
  unfold bytes_le. intros a. induction a as [|x a IH]; intros [|y b]; simpl; try done.
  destruct (Z.ltb_spec (bval x) (bval y)), (Z.ltb_spec (bval y) (bval x)); try done; try lia.
  intros H1 H2. f_equal; [|by apply IH]. apply bval_inj. lia.
Qed.

(** Big-endian encodings of one width are ordered like the integers. *)
Lemma be_dec_le (l k : bytes) : length l = length k → bytes_le l k ↔ be_dec l ≤ be_dec k.
Proof.
  unfold bytes_le. revert k. induction l as [|x l IH]; intros [|y k] Hl; try done.
  simpl in Hl. injection Hl as Hl. cbn [bytes_leb be_dec].
  pose proof (be_dec_range l). pose proof (be_dec_range k). rewrite Hl in *.
  destruct (Z.ltb_spec (bval x) (bval y)), (Z.ltb_spec (bval y) (bval x)); try lia.
  - split; [nia|done].
  - split; [done|nia].
  - rewrite (IH k eq_refl). assert (bval x = bval y) as -> by lia. lia.
Qed.

Lemma be_enc_le n a b :
  0 ≤ a < 256 ^ Z.of_nat n → 0 ≤ b < 256 ^ Z.of_nat n →
  bytes_le (be_enc n a) (be_enc n b) ↔ a ≤ b.
Proof.
  intros Ha Hb. rewrite be_dec_le by (by rewrite !length_be_enc).
  by rewrite !be_dec_enc, !Z.mod_small.
Qed.

Lemma be_enc_dec n l : length l = n → be_enc n (be_dec l) = l.
Proof.
  intros <-. pose proof (be_dec_range l). apply (anti_symm bytes_le); apply be_dec_le; rewrite ?length_be_enc, ?be_dec_enc, ?Z.mod_small; done || lia.
Qed.

(** ** Fixed-size arrays *)

Record barray (n : nat) : Type := mkBarray {
  ba : bytes;
  ba_len : Nat.eqb (length ba) n = true
}.
Arguments mkBarray {n} ba ba_len.
Arguments ba {n} _.

Lemma ba_length {n} (a : barray n) : length (ba a) = n.
Proof. destruct a as [l H]. simpl. by apply Nat.eqb_eq. Qed.

Lemma ba_inj {n} (a b : barray n) : ba a = ba b → a = b.
Proof.
  destruct a as [l H], b as [k K]. simpl. intros ->. f_equal.
  apply Eqdep_dec.UIP_dec. apply Bool.bool_dec.
Qed.

#[export] Instance ba_Inj n : Inj (=) (=) (@ba n).
Proof. intros a b. apply ba_inj. Qed.

#[export] Instance barray_eq_dec n : EqDecision (barray n).
Proof.
  refine (λ a b, match decide (ba a = ba b) with left H => left _ | right H => right _ end).
  - by apply ba_inj.
  - congruence.
Defined.

(** A byte list of the right length as an array. *)
Definition to_barray (n : nat) (l : bytes) : option (barray n) :=
  (if Nat.eqb (length l) n as b return (Nat.eqb (length l) n = b → option (barray n))
   then λ H, Some (mkBarray l H) else λ _, None) eq_refl.

Lemma to_barray_ba n (a : barray n) : to_barray n (ba a) = Some a.
Proof.
  unfold to_barray. destruct a as [l H]. simpl.
  generalize (eq_refl (Nat.eqb (length l) n)).
  generalize (Nat.eqb (length l) n) at 2 3 as b. intros [|] e.
  - f_equal. apply ba_inj. done.
  - rewrite H in e. discriminate.
Qed.

#[export] Instance barray_countable n : Countable (barray n).
Proof. refine (inj_countable ba (to_barray n) _). apply to_barray_ba. Defined.

(** The last [n] bytes of [l], padded with zeroes on the left: the cropping
    rule go-ethereum documents for [BytesToAddress] and [BytesToHash]. *)
Definition fit_bytes (n : nat) (l : bytes) : bytes :=
  replicate (n - length l) x00 ++ drop (length l - n) l.

Lemma length_fit_bytes n l : Nat.eqb (length (fit_bytes n l)) n = true.
Proof. apply Nat.eqb_eq. unfold fit_bytes. rewrite length_app, length_replicate, length_drop. lia. Qed.

Definition fit (n : nat) (l : bytes) : barray n := mkBarray (fit_bytes n l) (length_fit_bytes n l).

Notation Address := (barray 20).
Notation Hash := (barray 32).

(** [common.Address{}] and [common.Hash{}]. *)
Definition zero_address : Address := fit 20 [].
Definition zero_hash : Hash := fit 32 [].

(** Go string constants as bytes. *)
Definition str_bytes (s : string) : bytes := String.list_byte_of_string s.
