(* ===== verification/Base64.v ===== *)
(** * Base64 (Go's encoding/base64)

    The standard encoding with padding, by which wasm contracts hand binary data
    to the EVM module and get it back.  The decoder skips line breaks and takes
    only whole groups of four characters, as Go's does. *)

From S2P Require Import Prelude Bytes.
From Stdlib Require Import Strings.Byte.
Local Open Scope Z_scope.

Definition base64_alphabet : bytes :=
  str_bytes "ABCDEFGHIJKLMNOPQRSTUVWXYZabcdefghijklmnopqrstuvwxyz0123456789+/".
Definition padding : byte := x3d.
Definition is_line_break (b : byte) : bool := bool_decide (b = x0a) || bool_decide (b = x0d).

(** The character of a group of six bits, and back. *)
Definition enc6 (i : Z) : byte := default x00 (base64_alphabet !! Z.to_nat i).
Definition dec6 (b : byte) : option Z := Z.of_nat ∘ fst <$> list_find (λ c, c = b) base64_alphabet.

(** The six bits of a number from a position on. *)
Definition bits6 (val n : Z) : Z := Z.land (Z.shiftr val n) 63.

Fixpoint base64_encode (src : bytes) : bytes :=
  match src with
  | a :: b :: c :: rest =>
      let val := Z.lor (Z.lor (Z.shiftl (bval a) 16) (Z.shiftl (bval b) 8)) (bval c) in
      enc6 (bits6 val 18) :: enc6 (bits6 val 12) :: enc6 (bits6 val 6) :: enc6 (bits6 val 0) :: base64_encode rest
  | [a; b] =>
      let val := Z.lor (Z.shiftl (bval a) 16) (Z.shiftl (bval b) 8) in
      [enc6 (bits6 val 18); enc6 (bits6 val 12); enc6 (bits6 val 6); padding]
  | [a] =>
      let val := Z.shiftl (bval a) 16 in
      [enc6 (bits6 val 18); enc6 (bits6 val 12); padding; padding]
  | [] => []
  end.

(** The number of a group of four characters. *)
Definition quantum (d0 d1 d2 d3 : Z) : Z :=
  Z.lor (Z.lor (Z.lor (Z.shiftl d0 18) (Z.shiftl d1 12)) (Z.shiftl d2 6)) d3.
Definition quantum_byte (val n : Z) : byte := byte_of_Z (Z.shiftr val n).

Fixpoint decode_quanta (src : bytes) : option bytes :=
  match src with
  | [] => Some []
  | a :: b :: c :: d :: rest =>
      match dec6 a, dec6 b with
      | Some d0, Some d1 =>
          if bool_decide (c = padding) then
            if bool_decide (d = padding ∧ rest = []) then Some [quantum_byte (quantum d0 d1 0 0) 16] else None
          else
          match dec6 c with
          | None => None
          | Some d2 =>
              if bool_decide (d = padding) then
                let val := quantum d0 d1 d2 0 in
                if bool_decide (rest = []) then Some [quantum_byte val 16; quantum_byte val 8] else None
              else
              match dec6 d, decode_quanta rest with
              | Some d3, Some l =>
                  let val := quantum d0 d1 d2 d3 in
                  Some (quantum_byte val 16 :: quantum_byte val 8 :: quantum_byte val 0 :: l)
              | _, _ => None
              end
          end
      | _, _ => None
      end
  | _ => None
  end.

(** [base64.StdEncoding.EncodeToString] and [DecodeString]. *)
Definition base64_EncodeToString (src : bytes) : string := String.string_of_list_byte (base64_encode src).
Definition base64_DecodeString (s : string) : bytes + string :=
  match decode_quanta (filter (λ b, is_line_break b = false) (str_bytes s)) with
  | Some l => inl l
  | None => inr "illegal base64 data"%string
  end.

(** ** Decoding is the inverse of encoding *)

Definition ok6 (i : Z) : Prop :=
  dec6 (enc6 i) = Some i ∧ enc6 i ≠ padding ∧ is_line_break (enc6 i) = false.

#[local] Instance ok6_dec i : Decision (ok6 i).
Proof. unfold ok6. apply _. Defined.

Lemma enc6_ok i : 0 ≤ i < 64 → ok6 i.
Proof.
  assert (forallb (λ i, bool_decide (ok6 i)) (seqZ 0 64) = true) as H by (vm_compute; reflexivity).
  intros Hi. rewrite List.forallb_forall in H. apply (bool_decide_eq_true_1 _), H, list_elem_of_In, elem_of_seqZ. lia.
Qed.

Lemma bits6_range val n : 0 ≤ bits6 val n < 64.
Proof. unfold bits6. change 63 with (Z.ones 6). rewrite Z.land_ones by lia. by apply Z.mod_pos_bound. Qed.

Lemma bits6_ok val n : ok6 (bits6 val n).
Proof. apply enc6_ok, bits6_range. Qed.

(** Setting bits below those of a shifted number adds them. *)
Lemma lor_shiftl a n b : 0 ≤ n → 0 ≤ b < 2 ^ n → Z.lor (Z.shiftl a n) b = a * 2 ^ n + b.
Proof.
  intros Hn Hb. rewrite <- Z.shiftl_mul_pow2 by done. rewrite <- Z.add_lor_land.
  enough (Z.land (Z.shiftl a n) b = 0) by lia.
  apply Z.bits_inj'. intros i Hi. rewrite Z.land_spec, Z.bits_0. destruct (Z.lt_ge_cases i n).
  - by rewrite Z.shiftl_spec_low.
  - rewrite <- (Z.mod_small b (2 ^ n)) by done. rewrite Z.mod_pow2_bits_high by lia. apply andb_false_r.
Qed.

(** Four groups of six bits make up a number of 24 bits again. *)
Lemma quantum_bits val : 0 ≤ val < 2 ^ 24 →
  quantum (bits6 val 18) (bits6 val 12) (bits6 val 6) (bits6 val 0) = val.
Proof.
  intros Hv. pose proof (bits6_range val 0) as H0. pose proof (bits6_range val 6) as H6.
  pose proof (bits6_range val 12) as H12. unfold quantum.
  rewrite <- !Z.lor_assoc, (lor_shiftl _ 6), (lor_shiftl _ 12), (lor_shiftl _ 18) by lia.
  unfold bits6. change 63 with (Z.ones 6). rewrite !Z.land_ones, !Z.shiftr_div_pow2 by lia.
  change (2 ^ 18) with (64 * 64 * 64). change (2 ^ 12) with (64 * 64). change (2 ^ 6) with 64. change (2 ^ 0) with 1.
  change (2 ^ 24) with (64 * 64 * 64 * 64) in Hv. rewrite <- !Z.div_div, Z.div_1_r by lia.
  pose proof (Z.div_mod val 64 ltac:(done)) as E0. pose proof (Z.div_mod (val / 64) 64 ltac:(done)) as E1.
  pose proof (Z.div_mod (val / 64 / 64) 64 ltac:(done)) as E2.
  rewrite (Z.mod_small (val / 64 / 64 / 64)); [lia|]. split; [by repeat apply Z.div_pos; try lia|].
  by repeat (apply Z.div_lt_upper_bound; [lia|]); lia.
Qed.

Lemma quantum_byte_val a b c : let val := bval a * 65536 + (bval b * 256 + bval c) in
  quantum_byte val 16 = a ∧ quantum_byte val 8 = b ∧ quantum_byte val 0 = c ∧ 0 ≤ val < 2 ^ 24.
Proof.
  intros val. pose proof (bval_range a). pose proof (bval_range b). pose proof (bval_range c). unfold quantum_byte.
  assert (val / 256 = bval a * 256 + bval b) as E by (symmetry; apply (Z.div_unique _ _ _ (bval c)); subst val; lia).
  split_and!; [apply bval_inj; rewrite bval_byte_of_Z, Z.shiftr_div_pow2 by lia..| |].
  - change (2 ^ 16) with (256 * 256). rewrite <- Z.div_div, E by lia.
    symmetry. apply (Z.mod_unique _ _ 0); [lia|]. symmetry. apply (Z.div_unique _ _ _ (bval b)); lia.
  - change (2 ^ 8) with 256. rewrite E. symmetry. apply (Z.mod_unique _ _ (bval a)); lia.
  - change (2 ^ 0) with 1. rewrite Z.div_1_r. symmetry. apply (Z.mod_unique _ _ (bval a * 256 + bval b)); subst val; lia.
  - subst val; lia.
  - subst val; lia.
Qed.

Lemma group_val a b c : Z.lor (Z.lor (Z.shiftl (bval a) 16) (Z.shiftl (bval b) 8)) (bval c) = bval a * 65536 + (bval b * 256 + bval c).
Proof.
  pose proof (bval_range a). pose proof (bval_range b). pose proof (bval_range c).
  rewrite <- Z.lor_assoc, (lor_shiftl _ 8), (lor_shiftl _ 16) by lia. done.
Qed.

(** Lists by threes. *)
Lemma list_ind3 (P : bytes → Prop) :
  P [] → (∀ a, P [a]) → (∀ a b, P [a; b]) → (∀ a b c l, P l → P (a :: b :: c :: l)) → ∀ l, P l.
Proof. intros H0 H1 H2 H3. fix IH 1. intros [|a [|b [|c l]]]; [exact H0|exact (H1 a)|exact (H2 a b)|exact (H3 a b c l (IH l))]. Qed.

(** A short last group is one that ends in zero bytes, whose characters are left
    out. *)
Lemma short_val2 a b : let val := Z.lor (Z.shiftl (bval a) 16) (Z.shiftl (bval b) 8) in
  val = bval a * 65536 + (bval b * 256 + bval x00) ∧ bits6 val 0 = 0.
Proof.
  intros val. assert (Hv : val = bval a * 65536 + (bval b * 256 + bval x00)).
  { rewrite <- group_val. change (bval x00) with 0. by rewrite Z.lor_0_r. }
  split; [done|]. rewrite Hv. change (bval x00) with 0. unfold bits6. change 63 with (Z.ones 6).
  rewrite Z.land_ones, Z.shiftr_0_r by lia. change (2 ^ 6) with 64. Z.to_euclidean_division_equations; lia.
Qed.
Lemma short_val1 a : let val := Z.shiftl (bval a) 16 in
  val = bval a * 65536 + (bval x00 * 256 + bval x00) ∧ bits6 val 0 = 0 ∧ bits6 val 6 = 0.
Proof.
  intros val. assert (Hv : val = bval a * 65536 + (bval x00 * 256 + bval x00)).
  { rewrite <- group_val. change (bval x00) with 0. by rewrite !Z.lor_0_r. }
  rewrite Hv. change (bval x00) with 0. unfold bits6. change 63 with (Z.ones 6).
  rewrite !Z.land_ones, Z.shiftr_0_r, Z.shiftr_div_pow2 by lia. change (2 ^ 6) with 64.
  split_and!; [done|..]; Z.to_euclidean_division_equations; lia.
Qed.

Lemma decode_encode l : decode_quanta (base64_encode l) = Some l.
Proof.
  induction l as [|a|a b|a b c l IH] using list_ind3; [done|cbn [base64_encode decode_quanta]..].
  - destruct (short_val1 a) as (Hv & H0 & H6). destruct (quantum_byte_val a x00 x00) as (Ha & _ & _ & Hr).
    rewrite !(proj1 (bits6_ok _ _)), !bool_decide_eq_true_2 by done. repeat f_equal.
    rewrite <- H0 at 2. rewrite <- H6 at 1. rewrite Hv, quantum_bits by done. done.
  - destruct (short_val2 a b) as (Hv & H0). destruct (quantum_byte_val a b x00) as (Ha & Hb & _ & Hr).
    rewrite !(proj1 (bits6_ok _ _)), bool_decide_eq_false_2, !bool_decide_eq_true_2 by (done || apply bits6_ok).
    rewrite <- H0. rewrite Hv, quantum_bits by done. by rewrite Ha, Hb.
  - destruct (quantum_byte_val a b c) as (Ha & Hb & Hc & Hr).
    rewrite !(proj1 (bits6_ok _ _)), !bool_decide_eq_false_2, IH by apply bits6_ok.
    rewrite group_val, quantum_bits by done. by rewrite Ha, Hb, Hc.
Qed.

Lemma encode_no_breaks l : Forall (λ b, is_line_break b = false) (base64_encode l).
Proof.
  induction l as [|a|a b|a b c l IH] using list_ind3; cbn [base64_encode]; repeat constructor; try apply bits6_ok; done.
Qed.

(** What was encoded is decoded. *)
Lemma base64_roundtrip (l : bytes) : base64_DecodeString (base64_EncodeToString l) = inl l.
Proof.
  unfold base64_DecodeString, base64_EncodeToString, str_bytes. rewrite String.list_byte_of_string_of_list_byte.
  by rewrite (filter_all _ _ (encode_no_breaks l)), decode_encode.
Qed.
