(* ===== verification/Dec.v ===== *)
(** * Decimal arithmetic: the interface to [sdk.Dec]

    The SDK's fixed-point decimals are not part of this repository, so they
    are an interface here.  A [Dec] value is its integer representation, the
    number scaled by [10^18]; it may also be nil.  Conversion from integers and
    comparison are exact on that representation.  An arithmetic operation panics
    when its result has more bits than a decimal can have, and a division also
    when the divisor is zero.  That limit, the rounding of products and quotients
    and the JSON codec are operations of the class [SdkDec]; what the EVM module
    relies on is stated by [SdkDecLaws]. *)

From S2P Require Import Prelude Bytes.
Local Open Scope Z_scope.

(** [10^18], the scale. *)
Definition dec_one : Z := 1000000000000000000.

(** A possibly nil decimal, and its dereference. *)
Notation Dec := (option Z).
Definition dec_val (d : Dec) : outcome Z :=
  match d with
  | Some z => Ret z
  | None => Panic nil_deref
  end.

Definition NewDec (i : Z) : Z := i * dec_one.
(** [sdk.NewDecWithPrec(i, prec)] for [0 ≤ prec ≤ 18]. *)
Definition NewDecWithPrec (i prec : Z) : Z := i * 10 ^ (18 - prec).
(** [TruncateInt] drops the fraction (towards zero). *)
Definition TruncateInt (d : Z) : Z := Z.quot d dec_one.

Class SdkDec := {
  (** The largest number of bits of a decimal. *)
  maxDecBitLen : Z;
  (** The rounded product and quotient. *)
  dec_mul : Z → Z → Z;
  dec_quo : Z → Z → Z;
  dec_MarshalJSON : Z → bytes;
  dec_UnmarshalJSON : bytes → option Z
}.

Class SdkDecLaws `{SdkDec} : Prop := {
  (** A decimal holds every 256-bit integer that is scaled. *)
  maxDecBitLen_wide : 255 ≤ maxDecBitLen;
  (** [Mul] rounds the exact product to a nearest decimal. *)
  dec_mul_nearest : ∀ a b, 2 * Z.abs (dec_mul a b * dec_one - a * b) ≤ dec_one;
  (** [Quo] is off by less than one unit in the last place. *)
  dec_quo_close : ∀ a b, 0 < b → Z.abs (dec_quo a b * b - a * dec_one) < b;
  (** The JSON codec round-trips on decimals. *)
  dec_JSON : ∀ d, Z.abs d < 2 ^ maxDecBitLen → dec_UnmarshalJSON (dec_MarshalJSON d) = Some d
}.

(** ** Operations that panic when the result does not fit *)

Section Checked.
Context `{SdkDec}.

Definition dec_fits (d : Z) : Prop := Z.abs d < 2 ^ maxDecBitLen.
Definition dec_checked (d : Z) : outcome Z := if Z.abs d <? 2 ^ maxDecBitLen then Ret d else Panic "Int overflow".

Definition dec_Add (a b : Z) : outcome Z := dec_checked (a + b).
Definition dec_Sub (a b : Z) : outcome Z := dec_checked (a - b).
Definition dec_Mul (a b : Z) : outcome Z := dec_checked (dec_mul a b).
Definition dec_MulInt64 (d i : Z) : outcome Z := dec_checked (d * i).
Definition dec_Quo (a b : Z) : outcome Z := if b =? 0 then Panic "division by zero" else dec_checked (dec_quo a b).

Lemma dec_checked_fits d : dec_fits d → dec_checked d = Ret d.
Proof. intros Hd. unfold dec_checked. by rewrite (proj2 (Z.ltb_lt _ _) Hd). Qed.
Lemma dec_checked_inv d r : dec_checked d = Ret r → r = d ∧ dec_fits d.
Proof. unfold dec_checked. destruct (Z.ltb_spec (Z.abs d) (2 ^ maxDecBitLen)); [|done]. by intros [= <-]. Qed.
Lemma dec_fits_le d m : Z.abs d ≤ m → m < 2 ^ maxDecBitLen → dec_fits d.
Proof. unfold dec_fits. lia. Qed.
End Checked.

Section DecLemmas.
Context `{SdkDecLaws}.

Lemma dec_quo_unit a b : 0 ≤ a ≤ b → 0 < b → 0 ≤ dec_quo a b ≤ dec_one.
Proof.
  intros Ha Hb. pose proof (dec_quo_close a b Hb) as Hq. unfold dec_one in *. nia.
Qed.

Lemma dec_quo_0 b : 0 < b → dec_quo 0 b = 0.
Proof. intros Hb. pose proof (dec_quo_close 0 b Hb). nia. Qed.

Lemma dec_quo_self b : 0 < b → dec_quo b b = dec_one.
Proof. intros Hb. pose proof (dec_quo_close b b Hb). unfold dec_one in *. nia. Qed.

Lemma dec_mul_0_r a : dec_mul a 0 = 0.
Proof. pose proof (dec_mul_nearest a 0). unfold dec_one in *. lia. Qed.

Lemma dec_mul_one_r a : dec_mul a dec_one = a.
Proof. pose proof (dec_mul_nearest a dec_one). unfold dec_one in *. lia. Qed.

(** Multiplying by at least (at most) one does not decrease (increase) a
    non-negative decimal, in spite of rounding. *)
Lemma dec_mul_ge a b : 0 ≤ a → dec_one ≤ b → a ≤ dec_mul a b.
Proof. intros. pose proof (dec_mul_nearest a b). unfold dec_one in *. nia. Qed.

Lemma dec_mul_le a b : 0 ≤ a → b ≤ dec_one → dec_mul a b ≤ a.
Proof. intros. pose proof (dec_mul_nearest a b). unfold dec_one in *. nia. Qed.

Lemma dec_mul_nonneg a b : 0 ≤ a → 0 ≤ b → 0 ≤ dec_mul a b.
Proof. intros. pose proof (dec_mul_nearest a b). unfold dec_one in *. nia. Qed.

Lemma dec_mul_unit a b : 0 ≤ a ≤ dec_one → 0 ≤ b ≤ dec_one → 0 ≤ dec_mul a b ≤ a.
Proof. intros. split; [apply dec_mul_nonneg; lia|apply dec_mul_le; lia]. Qed.

End DecLemmas.

#[export] Hint Resolve dec_mul_nonneg dec_mul_ge dec_mul_le : tabi.

(** ** An instance: rounding half to even

    It shows that the laws can be satisfied, and lets concrete decimals be
    computed. *)

Definition round_half_even (n d : Z) : Z :=
  let q := n `div` d in
  let r := n `mod` d in
  if 2 * r <? d then q
  else if d <? 2 * r then q + 1
  else if Z.even q then q else q + 1.

Lemma round_half_even_nearest n d : 0 < d → 2 * Z.abs (round_half_even n d * d - n) ≤ d.
Proof.
  intros Hd. unfold round_half_even.
  pose proof (Z.div_mod n d ltac:(lia)). pose proof (Z.mod_pos_bound n d Hd).
  destruct (Z.ltb_spec (2 * (n `mod` d)) d); [nia|].
  destruct (Z.ltb_spec d (2 * (n `mod` d))); [nia|].
  destruct (Z.even _); nia.
Qed.

(** A self-delimiting byte encoding of integers for the instance: a sign byte,
    then the magnitude in big-endian form. *)
Definition Z_marshal (z : Z) : bytes :=
  byte_of_Z (Z.sgn z + 1) :: be_enc (Z.to_nat (Z.log2 (Z.abs z) + 1)) (Z.abs z).

Definition Z_unmarshal (l : bytes) : option Z :=
  match l with
  | [] => None
  | b :: l' => Some ((bval b - 1) * be_dec l')
  end.

Lemma Z_unmarshal_marshal z : Z_unmarshal (Z_marshal z) = Some z.
Proof.
  unfold Z_marshal, Z_unmarshal. rewrite bval_byte_of_Z, be_dec_enc.
  pose proof (Z.log2_nonneg (Z.abs z)).
  rewrite Z2Nat.id by lia.
  assert (Z.abs z < 256 ^ (Z.log2 (Z.abs z) + 1)).
  { destruct (Z.eq_dec (Z.abs z) 0) as [->|Hz]; [reflexivity|].
    pose proof (Z.log2_spec (Z.abs z) ltac:(lia)) as [_ Hl].
    eapply Z.lt_le_trans; [exact Hl|].
    rewrite <- Z.add_1_r. apply Z.pow_le_mono_l. lia. }
  rewrite (Z.mod_small (Z.abs z)) by lia.
  assert (-1 <= Z.sgn z <= 1) by (destruct z; simpl; lia).
  rewrite Z.mod_small by lia. f_equal.
  replace (Z.sgn z + 1 - 1) with (Z.sgn z) by lia. rewrite Z.mul_comm. apply Z.abs_sgn.
Qed.

Definition half_even_dec : SdkDec := {|
  maxDecBitLen := 315;
  dec_mul a b := round_half_even (a * b) dec_one;
  dec_quo a b := round_half_even (a * dec_one * Z.sgn b) (Z.abs b);
  dec_MarshalJSON := Z_marshal;
  dec_UnmarshalJSON := Z_unmarshal
|}.

Lemma half_even_dec_laws : @SdkDecLaws half_even_dec.
Proof.
  split; simpl.
  - done.
  - intros a b. apply round_half_even_nearest. unfold dec_one. lia.
  - intros a b Hb. rewrite Z.sgn_pos, Z.mul_1_r, (Z.abs_eq b) by lia.
    pose proof (round_half_even_nearest (a * dec_one) b Hb). lia.
  - intros d _. apply Z_unmarshal_marshal.
Qed.
