(* ===== verification/Params.v ===== *)
(** * Module parameters (x/evm/types/params.go)

    The parameter record, its defaults and its validation.  A parameter that
    is missing from the parameter store is a nil decimal. *)

From S2P Require Import Prelude Bytes Dec.
Local Open Scope Z_scope.

(** ** The parameters *)

Record Params : Type := mkParams {
  PriorityNormalizer : Dec;
  BaseFeePerGas : Dec;
  MaxDynamicBaseFeeUpwardAdjustment : Dec;
  MaxDynamicBaseFeeDownwardAdjustment : Dec;
  MinimumFeePerGas : Dec;
  DeliverTxHookWasmGasLimit : Z;
  WhitelistedCwCodeHashesForDelegateCall : list bytes;
  TargetGasUsedPerBlock : Z;
  MaximumFeePerGas : Dec;
  RegisterPointerDisabled : bool
}.

Definition DefaultPriorityNormalizer : Z := NewDec 1.
Definition DefaultBaseFeePerGas : Z := NewDec 0.
Definition DefaultMinFeePerGas : Z := NewDec 1000000000.
Definition DefaultDeliverTxHookWasmGasLimit : Z := 300000.
Definition DefaultMaxDynamicBaseFeeUpwardAdjustment : Z := NewDecWithPrec 189 4.
Definition DefaultMaxDynamicBaseFeeDownwardAdjustment : Z := NewDecWithPrec 39 4.
Definition DefaultTargetGasUsedPerBlock : Z := 250000.
Definition DefaultMaxFeePerGas : Z := NewDec 1000000000000.
Definition DefaultRegisterPointerDisabled : bool := false.

Definition DefaultParams : Params := {|
  PriorityNormalizer := Some DefaultPriorityNormalizer;
  BaseFeePerGas := Some DefaultBaseFeePerGas;
  MaxDynamicBaseFeeUpwardAdjustment := Some DefaultMaxDynamicBaseFeeUpwardAdjustment;
  MaxDynamicBaseFeeDownwardAdjustment := Some DefaultMaxDynamicBaseFeeDownwardAdjustment;
  MinimumFeePerGas := Some DefaultMinFeePerGas;
  DeliverTxHookWasmGasLimit := DefaultDeliverTxHookWasmGasLimit;
  WhitelistedCwCodeHashesForDelegateCall := [];
  TargetGasUsedPerBlock := DefaultTargetGasUsedPerBlock;
  MaximumFeePerGas := Some DefaultMaxFeePerGas;
  RegisterPointerDisabled := DefaultRegisterPointerDisabled
|}.

(** ** Validation

    Error messages omit the formatted values.  A validator returns nil ([None]) or an error message; it panics when it
    dereferences a nil decimal. *)

Notation verdict := (outcome (option string)).

(** [if err := a; err != nil { return err }; k] *)
Definition check (a k : verdict) : verdict :=
  outcome_bind a (λ e, match e with Some m => Ret (Some m) | None => k end).

Definition validateBaseFeeAdjustment (i : Dec) : verdict :=
  outcome_bind (dec_val i) (λ adjustment,
  if adjustment <? 0 then Ret (Some "negative base fee adjustment"%string)
  else if dec_one <? adjustment
  then Ret (Some "base fee adjustment must be less than or equal to 1"%string)
  else Ret None).

Definition validatePriorityNormalizer (i : Dec) : verdict :=
  outcome_bind (dec_val i) (λ v,
  if negb (0 <? v) then Ret (Some "nonpositive priority normalizer"%string) else Ret None).

Definition validateBaseFeePerGas (i : Dec) : verdict :=
  outcome_bind (dec_val i) (λ v,
  if v <? 0 then Ret (Some "negative base fee per gas"%string) else Ret None).

Definition validateMinFeePerGas (i : Dec) : verdict :=
  outcome_bind (dec_val i) (λ v,
  if v <? 0 then Ret (Some "negative min fee per gas"%string) else Ret None).

Definition validateMaxFeePerGas (i : Dec) : verdict :=
  outcome_bind (dec_val i) (λ v,
  if v <? 0 then Ret (Some "negative max fee per gas"%string) else Ret None).

Definition validateDeliverTxHookWasmGasLimit (v : Z) : verdict :=
  if v =? 0
  then Ret (Some "invalid deliver_tx_hook_wasm_gas_limit: must be greater than 0"%string)
  else Ret None.

(** The two validators that only check the dynamic type of their argument. *)
Definition validateWhitelistedCwHashesForDelegateCall (i : list bytes) : verdict := Ret None.
Definition validateRegisterPointerDisabled (i : bool) : verdict := Ret None.

Definition Validate (p : Params) : verdict :=
  check (validatePriorityNormalizer (PriorityNormalizer p))
  (check (validateBaseFeePerGas (BaseFeePerGas p))
  (check (validateMinFeePerGas (MinimumFeePerGas p))
  (check (validateMaxFeePerGas (MaximumFeePerGas p))
  (check (validateDeliverTxHookWasmGasLimit (DeliverTxHookWasmGasLimit p))
  (outcome_bind (dec_val (MinimumFeePerGas p)) (λ mn,
   outcome_bind (dec_val (BaseFeePerGas p)) (λ bs,
   if mn <? bs then Ret (Some "minimum fee cannot be lower than base fee"%string) else
   check (validateBaseFeeAdjustment (MaxDynamicBaseFeeUpwardAdjustment p))
   (check (validateBaseFeeAdjustment (MaxDynamicBaseFeeDownwardAdjustment p))
   (validateWhitelistedCwHashesForDelegateCall
      (WhitelistedCwCodeHashesForDelegateCall p)))))))))).

(** What a parameter set must satisfy: the specification of [Validate]. *)
Record params_ok (p : Params) (norm base mn mx up down : Z) : Prop := {
  ok_norm : PriorityNormalizer p = Some norm ∧ 0 < norm;
  ok_base : BaseFeePerGas p = Some base ∧ 0 ≤ base ≤ mn;
  ok_min : MinimumFeePerGas p = Some mn;
  ok_max : MaximumFeePerGas p = Some mx ∧ 0 ≤ mx;
  ok_up : MaxDynamicBaseFeeUpwardAdjustment p = Some up ∧ 0 ≤ up ≤ dec_one;
  ok_down : MaxDynamicBaseFeeDownwardAdjustment p = Some down ∧ 0 ≤ down ≤ dec_one;
  ok_gas : DeliverTxHookWasmGasLimit p ≠ 0
}.

Lemma check_None a k : check a k = Ret None ↔ a = Ret None ∧ k = Ret None.
Proof. unfold check. destruct a as [[|]|]; simpl; naive_solver. Qed.

Lemma dec_val_bind {A} (d : Dec) (f : Z → outcome A) (a : A) :
  outcome_bind (dec_val d) f = Ret a ↔ ∃ z, d = Some z ∧ f z = Ret a.
Proof. destruct d; simpl; naive_solver. Qed.

Ltac zbool :=
  repeat match goal with
  | H : context [?a <? ?b] |- _ => destruct (Z.ltb_spec a b); simplify_eq/=
  | H : context [?a =? ?b] |- _ => destruct (Z.eqb_spec a b); simplify_eq/=
  | |- context [?a <? ?b] => destruct (Z.ltb_spec a b); simplify_eq/=
  | |- context [?a =? ?b] => destruct (Z.eqb_spec a b); simplify_eq/=
  end.

(** [Params.Validate] accepts exactly the parameter sets with a positive
    priority normalizer, a non-negative base fee not above the minimum fee, a
    non-negative maximum fee, both base-fee adjustments between 0 and 1 and a
    non-zero hook gas limit; every parameter must be present. *)
Theorem Validate_iff (p : Params) :
  Validate p = Ret None ↔ ∃ norm base mn mx up down, params_ok p norm base mn mx up down.
Proof.
  unfold Validate, validatePriorityNormalizer, validateBaseFeePerGas, validateMinFeePerGas,
    validateMaxFeePerGas, validateDeliverTxHookWasmGasLimit, validateBaseFeeAdjustment,
    validateWhitelistedCwHashesForDelegateCall.
  rewrite !check_None, !dec_val_bind. split.
  - intros ((norm & Hn & ?) & (base & Hb & ?) & (mn & Hm & ?) & (mx & Hx & ?) & Hg & mn' & Hm' & Hr).
    apply dec_val_bind in Hr as (base' & Hb' & Hr). simplify_eq. zbool; try done.
    apply check_None in Hr as [Hu Hr]. apply check_None in Hr as [Hd _].
    apply dec_val_bind in Hu as (up & Hu & ?). apply dec_val_bind in Hd as (down & Hd & ?).
    zbool; try done. eexists norm, _, _, mx, up, down. split; eauto; split; eauto; lia.
  - intros (norm & base & mn & mx & up & down & [[Hn ?] [Hb ?] Hm [Hx ?] [Hu ?] [Hd ?] ?]).
    rewrite Hn, Hb, Hm, Hx, Hu, Hd. split_and!; eauto.
    + exists norm. split; [done|]. zbool; done || lia.
    + exists base. split; [done|]. zbool; done || lia.
    + exists mn. split; [done|]. zbool; done || lia.
    + exists mx. split; [done|]. zbool; done || lia.
    + by zbool.
    + exists mn. split; [done|]. unfold check. simpl. zbool; done || lia.
Qed.

(** The defaults pass validation. *)
Lemma DefaultParams_valid : Validate DefaultParams = Ret None.
Proof. reflexivity. Qed.

(** [Validate] does not compare the minimum with the maximum fee: a set whose
    maximum fee is below its minimum fee is accepted. *)
Lemma Validate_allows_max_below_min :
  ∃ p mn mx, Validate p = Ret None ∧ MinimumFeePerGas p = Some mn ∧ MaximumFeePerGas p = Some mx ∧ mx < mn.
Proof.
  exists {| PriorityNormalizer := Some dec_one; BaseFeePerGas := Some 0;
            MaxDynamicBaseFeeUpwardAdjustment := Some 0;
            MaxDynamicBaseFeeDownwardAdjustment := Some 0; MinimumFeePerGas := Some 5;
            DeliverTxHookWasmGasLimit := 1; WhitelistedCwCodeHashesForDelegateCall := [];
            TargetGasUsedPerBlock := 0; MaximumFeePerGas := Some 4;
            RegisterPointerDisabled := false |}, 5, 4.
  repeat split.
Qed.
