(* ===== verification/Keys.v ===== *)
(** * Store keys of the EVM module (x/evm/types/keys.go)

    The prefixes and key constructors of the module's store, and the key
    space as a data type with its encoding, shown injective. *)

From S2P Require Import Prelude Bytes.
From Stdlib Require Import Strings.Byte.
Local Open Scope Z_scope.

(** ** Prefixes *)

Definition EVMAddressToTabiAddressKeyPrefix : bytes := [x01].
Definition TabiAddressToEVMAddressKeyPrefix : bytes := [x02].
Definition StateKeyPrefix : bytes := [x03].
Definition CodeKeyPrefix : bytes := [x07].
Definition CodeHashKeyPrefix : bytes := [x08].
Definition CodeSizeKeyPrefix : bytes := [x09].
Definition NonceKeyPrefix : bytes := [x0a].
Definition ReceiptKeyPrefix : bytes := [x0b].
Definition BlockBloomPrefix : bytes := [x0d].
Definition TxHashesPrefix : bytes := [x0e].
Definition ReplaySeenAddrPrefix : bytes := [x12].
Definition ReplayedHeight : bytes := [x13].
Definition ReplayInitialHeight : bytes := [x14].
Definition PointerRegistryPrefix : bytes := [x15].
Definition PointerCWCodePrefix : bytes := [x16].
Definition PointerReverseRegistryPrefix : bytes := [x17].
Definition AnteSurplusPrefix : bytes := [x18].
Definition DeferredInfoPrefix : bytes := [x19].
Definition LegacyBlockBloomCutoffHeightKey : bytes := [x1a].
Definition BaseFeePerGasPrefix : bytes := [x1b].
Definition NextBaseFeePerGasPrefix : bytes := [x1c].

Definition PointerERC20NativePrefix : bytes := [x00].
Definition PointerERC20CW20Prefix : bytes := [x01].
Definition PointerERC721CW721Prefix : bytes := [x02].
Definition PointerCW20ERC20Prefix : bytes := [x03].
Definition PointerCW721ERC721Prefix : bytes := [x04].
Definition PointerERC1155CW1155Prefix : bytes := [x05].
Definition PointerCW1155ERC1155Prefix : bytes := [x06].

(** ** Key constructors *)

Definition EVMAddressToTabiAddressKey (evmAddress : Address) : bytes :=
  EVMAddressToTabiAddressKeyPrefix ++ ba evmAddress.

Definition TabiAddressToEVMAddressKey (tabiAddress : bytes) : bytes :=
  TabiAddressToEVMAddressKeyPrefix ++ tabiAddress.

Definition StateKey (evmAddress : Address) : bytes := StateKeyPrefix ++ ba evmAddress.

Definition ReceiptKey (txHash : Hash) : bytes := ReceiptKeyPrefix ++ ba txHash.

Definition BlockBloomKey (height : Z) : bytes := BlockBloomPrefix ++ PutUint64 (u64 height).

Definition TxHashesKey (height : Z) : bytes := TxHashesPrefix ++ PutUint64 (u64 height).

Definition PointerERC20NativeKey (token : bytes) : bytes :=
  (PointerRegistryPrefix ++ PointerERC20NativePrefix) ++ token.

Definition PointerERC20CW20Key (cw20Address : bytes) : bytes :=
  (PointerRegistryPrefix ++ PointerERC20CW20Prefix) ++ cw20Address.

Definition PointerERC721CW721Key (cw721Address : bytes) : bytes :=
  (PointerRegistryPrefix ++ PointerERC721CW721Prefix) ++ cw721Address.

Definition PointerERC1155CW1155Key (cw1155Address : bytes) : bytes :=
  (PointerRegistryPrefix ++ PointerERC1155CW1155Prefix) ++ cw1155Address.

Definition PointerCW20ERC20Key (erc20Addr : Address) : bytes :=
  (PointerRegistryPrefix ++ PointerCW20ERC20Prefix) ++ ba erc20Addr.

Definition PointerCW721ERC721Key (erc721Addr : Address) : bytes :=
  (PointerRegistryPrefix ++ PointerCW721ERC721Prefix) ++ ba erc721Addr.

Definition PointerCW1155ERC1155Key (erc1155Addr : Address) : bytes :=
  (PointerRegistryPrefix ++ PointerCW1155ERC1155Prefix) ++ ba erc1155Addr.

Definition PointerReverseRegistryKey (addr : Address) : bytes :=
  PointerReverseRegistryPrefix ++ ba addr.

(** ** The key space

    Every key the module reads or writes in its persistent store, as the code
    composes it from the constructors above (a pointer entry is the pointer
    key followed by its two-byte version). *)

Inductive store_key : Type :=
| KEvmToTabi (a : Address)
| KTabiToEvm (t : bytes)
| KState (a : Address) (slot : Hash)
| KCode (a : Address)
| KCodeHash (a : Address)
| KCodeSize (a : Address)
| KNonce (a : Address)
| KReceipt (h : Hash)
| KBlockBloom
| KLegacyBlockBloom (height : Z)
| KTxHashes (height : Z)
| KReplaySeen (a : Address)
| KReplayedHeight
| KReplayInitialHeight
| KERC20Native (token : bytes) (version : Z)
| KERC20CW20 (cw : bytes) (version : Z)
| KERC721CW721 (cw : bytes) (version : Z)
| KERC1155CW1155 (cw : bytes) (version : Z)
| KCW20ERC20 (a : Address) (version : Z)
| KCW721ERC721 (a : Address) (version : Z)
| KCW1155ERC1155 (a : Address) (version : Z)
| KReverse (a : Address) (version : Z)
| KBloomCutoff
| KBaseFee
| KNextBaseFee.

Definition encode_key (k : store_key) : bytes :=
  match k with
  | KEvmToTabi a => EVMAddressToTabiAddressKey a
  | KTabiToEvm t => TabiAddressToEVMAddressKey t
  | KState a s => StateKey a ++ ba s
  | KCode a => CodeKeyPrefix ++ ba a
  | KCodeHash a => CodeHashKeyPrefix ++ ba a
  | KCodeSize a => CodeSizeKeyPrefix ++ ba a
  | KNonce a => NonceKeyPrefix ++ ba a
  | KReceipt h => ReceiptKey h
  | KBlockBloom => BlockBloomPrefix
  | KLegacyBlockBloom h => BlockBloomKey h
  | KTxHashes h => TxHashesKey h
  | KReplaySeen a => ReplaySeenAddrPrefix ++ ba a
  | KReplayedHeight => ReplayedHeight
  | KReplayInitialHeight => ReplayInitialHeight
  | KERC20Native t v => PointerERC20NativeKey t ++ PutUint16 v
  | KERC20CW20 c v => PointerERC20CW20Key c ++ PutUint16 v
  | KERC721CW721 c v => PointerERC721CW721Key c ++ PutUint16 v
  | KERC1155CW1155 c v => PointerERC1155CW1155Key c ++ PutUint16 v
  | KCW20ERC20 a v => PointerCW20ERC20Key a ++ PutUint16 v
  | KCW721ERC721 a v => PointerCW721ERC721Key a ++ PutUint16 v
  | KCW1155ERC1155 a v => PointerCW1155ERC1155Key a ++ PutUint16 v
  | KReverse a v => PointerReverseRegistryKey a ++ PutUint16 v
  | KBloomCutoff => LegacyBlockBloomCutoffHeightKey
  | KBaseFee => BaseFeePerGasPrefix
  | KNextBaseFee => NextBaseFeePerGasPrefix
  end.

(** Heights are [int64] block heights (never negative) and versions [uint16]. *)
Definition key_wf (k : store_key) : Prop :=
  match k with
  | KLegacyBlockBloom h | KTxHashes h => 0 ≤ h ≤ maxInt64
  | KERC20Native _ v | KERC20CW20 _ v | KERC721CW721 _ v | KERC1155CW1155 _ v
  | KCW20ERC20 _ v | KCW721ERC721 _ v | KCW1155ERC1155 _ v | KReverse _ v => 0 ≤ v < 65536
  | _ => True
  end.

(** ** Lemmas *)

Lemma app_inv_suffix (a b c d : bytes) : length b = length d → a ++ b = c ++ d → a = c ∧ b = d.
Proof. intros Hl H. by apply app_inj_2. Qed.

Lemma cons_tail_inv (x y : byte) (l k : bytes) : x :: l = y :: k → l = k.
Proof. by injection 1. Qed.

Lemma PutUint16_inj v w :
  0 ≤ v < 65536 → 0 ≤ w < 65536 → PutUint16 v = PutUint16 w → v = w.
Proof. intros Hv Hw. by apply (be_enc_inj 2). Qed.

Lemma PutUint64_inj v w : is_u64 v → is_u64 w → PutUint64 v = PutUint64 w → v = w.
Proof. intros Hv Hw. by apply (be_enc_inj 8). Qed.

Lemma versioned_inj (p q : bytes) v w :
  0 ≤ v < 65536 → 0 ≤ w < 65536 → p ++ PutUint16 v = q ++ PutUint16 w → p = q ∧ v = w.
Proof.
  intros Hv Hw H. apply app_inv_suffix in H as [-> H]; [|by unfold PutUint16; rewrite !length_be_enc].
  split; [done|]. by apply PutUint16_inj.
Qed.

Lemma height_key_inj h k :
  0 ≤ h ≤ maxInt64 → 0 ≤ k ≤ maxInt64 → PutUint64 (u64 h) = PutUint64 (u64 k) → h = k.
Proof.
  unfold maxInt64. intros Hh Hk H.
  rewrite !u64_id in H by (unfold is_u64, two64; lia).
  apply PutUint64_inj; [unfold is_u64, two64; lia..|done].
Qed.

Ltac key_cases :=
  unfold encode_key, EVMAddressToTabiAddressKey, TabiAddressToEVMAddressKey, StateKey, ReceiptKey,
    BlockBloomKey, TxHashesKey, PointerERC20NativeKey, PointerERC20CW20Key, PointerERC721CW721Key,
    PointerERC1155CW1155Key, PointerCW20ERC20Key, PointerCW721ERC721Key, PointerCW1155ERC1155Key,
    PointerReverseRegistryKey in *;
  unfold EVMAddressToTabiAddressKeyPrefix, TabiAddressToEVMAddressKeyPrefix, StateKeyPrefix,
    CodeKeyPrefix, CodeHashKeyPrefix, CodeSizeKeyPrefix, NonceKeyPrefix, ReceiptKeyPrefix,
    BlockBloomPrefix, TxHashesPrefix, ReplaySeenAddrPrefix, ReplayedHeight, ReplayInitialHeight,
    PointerRegistryPrefix, PointerReverseRegistryPrefix, LegacyBlockBloomCutoffHeightKey,
    BaseFeePerGasPrefix, NextBaseFeePerGasPrefix, PointerERC20NativePrefix, PointerERC20CW20Prefix,
    PointerERC721CW721Prefix, PointerCW20ERC20Prefix, PointerCW721ERC721Prefix,
    PointerERC1155CW1155Prefix, PointerCW1155ERC1155Prefix in *;
  cbn [app] in *.

Lemma encode_key_injective (k1 k2 : store_key) :
  key_wf k1 → key_wf k2 → encode_key k1 = encode_key k2 → k1 = k2.
Proof.
  intros W1 W2 H.
  destruct k1, k2; key_cases; simpl in W1, W2; try discriminate H; try done;
    repeat match type of H with _ :: _ = _ :: _ => apply cons_tail_inv in H end;
    try (apply versioned_inj in H as [H ->]; [|done..]);
    try (apply height_key_inj in H; [|done..]); subst; try done;
    try (apply ba_inj in H; by subst).
  apply app_inv_suffix in H as [Ha Hb]; [|by rewrite !ba_length].
  apply ba_inj in Ha. apply ba_inj in Hb. by subst.
Qed.

(** Two keys given as constructor applications differ. *)
Ltac key_ne :=
  intros ?Hkey; key_cases;
  solve [ discriminate
        | repeat match goal with H : _ :: _ = _ :: _ |- _ => apply cons_tail_inv in H end;
          repeat match goal with H : ba _ = ba _ |- _ => apply ba_inj in H end; congruence ].

Lemma state_slot_ne (a b : Address) (k l : Hash) :
  (a, k) ≠ (b, l) → StateKey a ++ ba k ≠ StateKey b ++ ba l.
Proof.
  intros Hne H. apply app_inv_suffix in H as [Ha Hb]; [|by rewrite !ba_length].
  unfold StateKey, StateKeyPrefix in Ha. apply cons_tail_inv in Ha. simpl in Ha.
  apply ba_inj in Ha, Hb. congruence.
Qed.

(** The encoding of the module's key space is injective: two different
    logical keys (address associations, contract slots, code, nonces,
    receipts, blooms, pointer entries and their reverse entries, ...) never
    share a store key, so no component overwrites another's entry. *)
Theorem encode_key_inj (k1 k2 : store_key) :
  key_wf k1 → key_wf k2 → encode_key k1 = encode_key k2 → k1 = k2.
Proof. apply encode_key_injective. Qed.

Lemma encode_key_inj_witness :
  key_wf (KNonce zero_address) ∧ key_wf (KReverse zero_address 1) ∧
  (encode_key (KNonce zero_address) = encode_key (KNonce zero_address) →
   KNonce zero_address = KNonce zero_address).
Proof.
  split; [exact I|]. split; [simpl; lia|].
  apply (encode_key_inj (KNonce zero_address) (KNonce zero_address)); exact I.
Defined.
