(* ===== verification/Store.v ===== *)
(** * Key-value stores

    A [KVStore] is a finite map from byte strings to byte strings, iterated in
    the order of [bytes.Compare].  The file also states the interface of the
    SDK's cached multi-stores ([CacheMultiStore], [Write]) that contexts branch
    on. *)

From S2P Require Import Prelude Bytes.
Local Open Scope Z_scope.

Notation kvstore := (gmap (list Byte.byte) (list Byte.byte)).

(** ** Prefix stores and iteration *)

Definition strip_prefix (p k : bytes) : option bytes :=
  if bool_decide (take (length p) k = p) then Some (drop (length p) k) else None.

Definition strip_entry (p : bytes) (e : bytes * bytes) : option (bytes * bytes) :=
  (λ k, (k, e.2)) <$> strip_prefix p e.1.

(** [prefix.NewStore(store, p)], read-only view. *)
Definition prefix_store (p : bytes) (m : kvstore) : kvstore :=
  list_to_map (omap (strip_entry p) (map_to_list m)).

(** Writes through a prefix store. *)
Definition prefix_set (p k v : bytes) (m : kvstore) : kvstore := <[p ++ k := v]> m.
Definition prefix_delete (p k : bytes) (m : kvstore) : kvstore := delete (p ++ k) m.

Definition entry_le (a b : bytes * bytes) : Prop := bytes_le a.1 b.1.

#[export] Instance entry_le_dec : RelDecision entry_le.
Proof. intros a b. unfold entry_le. apply _. Defined.
#[export] Instance entry_le_trans : Transitive entry_le.
Proof. intros a b c. unfold entry_le. apply bytes_le_trans. Qed.
#[export] Instance entry_le_total : Total entry_le.
Proof. intros a b. unfold entry_le. apply bytes_le_total. Qed.

(** [store.Iterator(nil, nil)]: all entries, keys ascending. *)
Definition Iterator (m : kvstore) : list (bytes * bytes) := merge_sort entry_le (map_to_list m).
(** The entry [store.ReverseIterator(nil, nil)] is positioned at. *)
Definition ReverseIterator_first (m : kvstore) : option (bytes * bytes) := last (Iterator m).

Lemma strip_prefix_Some p k k' : strip_prefix p k = Some k' ↔ k = p ++ k'.
Proof.
  unfold strip_prefix. case_bool_decide as H.
  - split.
    + intros [= <-]. rewrite <- H at 1. by rewrite take_drop.
    + intros ->. by rewrite drop_app_length.
  - split; [done|]. intros ->. destruct H. by rewrite take_app_length.
Qed.

Lemma strip_entry_Some p e k v : strip_entry p e = Some (k, v) ↔ e = (p ++ k, v).
Proof.
  destruct e as [k0 v0]. unfold strip_entry. simpl. rewrite fmap_Some. split.
  - intros (k' & H%strip_prefix_Some & [= -> ->]). by subst.
  - intros [= -> ->]. exists k. by rewrite strip_prefix_Some.
Qed.

Lemma NoDup_prefix_keys (p : bytes) (m : kvstore) :
  base.NoDup (fst <$> omap (strip_entry p) (map_to_list m)).
Proof.
  pose proof (NoDup_fst_map_to_list m) as Hnd. revert Hnd.
  generalize (map_to_list m) as l. induction l as [|[k v] l IH]; simpl; [done|].
  intros [Hk Hnd]%NoDup_cons.
  destruct (strip_entry p (k, v)) as [[k' v']|] eqn:E; [|by apply IH].
  apply strip_entry_Some in E as [= -> ->]. simpl. apply NoDup_cons. split; [|by apply IH].
  intros ([k2 v2] & -> & Hin)%list_elem_of_fmap. apply Hk. simpl.
  apply list_elem_of_omap in Hin as (e & He & Hs). apply strip_entry_Some in Hs as ->.
  apply list_elem_of_fmap. by exists (p ++ k2, v2).
Qed.

Lemma lookup_prefix_store (p : bytes) (m : kvstore) (k : bytes) : prefix_store p m !! k = m !! (p ++ k).
Proof.
  apply option_eq. intros v. unfold prefix_store.
  rewrite <- elem_of_list_to_map by apply NoDup_prefix_keys.
  rewrite list_elem_of_omap. split.
  - intros (e & He & Hs). apply strip_entry_Some in Hs as ->. by apply elem_of_map_to_list in He.
  - intros H. exists (p ++ k, v). split; [by apply elem_of_map_to_list|].
    by apply strip_entry_Some.
Qed.

Lemma elem_of_Iterator (m : kvstore) (k v : bytes) : (k, v) ∈ Iterator m ↔ m !! k = Some v.
Proof. unfold Iterator. rewrite merge_sort_Permutation. apply elem_of_map_to_list. Qed.

Lemma Iterator_sorted (m : kvstore) : StronglySorted entry_le (Iterator m).
Proof. apply StronglySorted_merge_sort; apply _. Qed.

Lemma Iterator_NoDup (m : kvstore) : base.NoDup (fst <$> Iterator m).
Proof. unfold Iterator. rewrite merge_sort_Permutation. apply NoDup_fst_map_to_list. Qed.

(** Sorted entries with distinct keys are determined by their content. *)
Lemma sorted_entries_unique (l1 l2 : list (bytes * bytes)) :
  l1 ≡ₚ l2 → base.NoDup (fst <$> l1) → StronglySorted entry_le l1 → StronglySorted entry_le l2 → l1 = l2.
Proof.
  revert l2. induction l1 as [|a l1 IH]; intros l2 Hp Hnd H1 H2; [by apply Permutation_nil_l in Hp|].
  destruct l2 as [|b l2]; [by apply Permutation_nil_r in Hp|].
  apply StronglySorted_inv in H1 as [H1 Ha], H2 as [H2 Hb]. rewrite Forall_forall in Ha, Hb.
  assert (a = b) as ->.
  { assert (Hin : b ∈ a :: l1) by (rewrite Hp; left). apply elem_of_cons in Hin as [?|Hin]; [done|].
    assert (Hin' : a ∈ b :: l2) by (rewrite <- Hp; left). apply elem_of_cons in Hin' as [?|Hin']; [done|].
    exfalso. apply NoDup_cons in Hnd as [Hnd _]. apply Hnd.
    assert (a.1 = b.1) as -> by (apply (anti_symm bytes_le); [by apply Ha|by apply Hb]).
    by apply list_elem_of_fmap_2. }
  f_equal. apply NoDup_cons in Hnd as [_ Hnd]. by apply IH; [apply Permutation_cons_inv in Hp|..].
Qed.

Lemma lookup_delete_keys (p k : bytes) (ks : list bytes) (m : kvstore) :
  foldl (λ acc k, prefix_delete p k acc) m ks !! (p ++ k) = if bool_decide (k ∈ ks) then None else m !! (p ++ k).
Proof.
  revert m. induction ks as [|k' ks IH]; intros m; simpl; [done|].
  rewrite IH. unfold prefix_delete. destruct (decide (k = k')) as [->|Hne].
  - rewrite lookup_delete_eq, (bool_decide_true (k' ∈ k' :: ks)) by left. by case_bool_decide.
  - rewrite lookup_delete_ne by (intros H%app_inv_head; congruence).
    rewrite (bool_decide_ext (k ∈ k' :: ks) (k ∈ ks)); [done|]. rewrite elem_of_cons. naive_solver.
Qed.

Lemma lookup_delete_keys_out (p k : bytes) (ks : list bytes) (m : kvstore) :
  (∀ k', k ≠ p ++ k') → foldl (λ acc k, prefix_delete p k acc) m ks !! k = m !! k.
Proof.
  intros H. revert m. induction ks as [|k' ks IH]; intros m; simpl; [done|].
  rewrite IH. apply lookup_delete_ne. intros E. by apply (H k').
Qed.

(** Deleting the first entries of a prefix leaves the others, in order. *)
Lemma Iterator_delete_first (p : bytes) (n : nat) (m : kvstore) :
  Iterator (prefix_store p (foldl (λ acc k, prefix_delete p k acc) m
    (fst <$> take n (Iterator (prefix_store p m))))) = drop n (Iterator (prefix_store p m)).
Proof.
  set (es := Iterator (prefix_store p m)).
  assert (Hnd : base.NoDup (fst <$> take n es ++ drop n es)) by (rewrite take_drop; apply Iterator_NoDup).
  assert (Hs : StronglySorted entry_le (drop n es)).
  { eapply StronglySorted_app_1_r with (l1 := take n es). rewrite take_drop. apply Iterator_sorted. }
  rewrite fmap_app in Hnd. apply NoDup_app in Hnd as (_ & Hdis & Hnd).
  apply sorted_entries_unique; [|apply Iterator_NoDup|apply Iterator_sorted|done].
  apply NoDup_Permutation; [eapply NoDup_fmap_1, Iterator_NoDup|by eapply NoDup_fmap_1|].
  intros [k v]. rewrite elem_of_Iterator, lookup_prefix_store, lookup_delete_keys, <- lookup_prefix_store.
  assert ((k, v) ∈ es ↔ (k, v) ∈ take n es ∨ (k, v) ∈ drop n es) as Hes by (by rewrite <- elem_of_app, take_drop).
  case_bool_decide as Hk.
  - split; [done|]. intros Hin. exfalso. apply (Hdis k Hk). by apply (list_elem_of_fmap_2 fst _ (k, v)).
  - rewrite <- elem_of_Iterator. fold es. rewrite Hes. split; [|by right]. intros [Hin|?]; [|done].
    exfalso. apply Hk. by apply (list_elem_of_fmap_2 fst _ (k, v)).
Qed.

Lemma last_sorted_max (l : list (bytes * bytes)) e x :
  StronglySorted entry_le l → last l = Some e → x ∈ l → entry_le x e.
Proof.
  induction 1 as [|a l Hl IH Hall]; [done|].
  destruct l as [|b l]; intros Hlast Hin.
  - simpl in Hlast. injection Hlast as <-. apply list_elem_of_singleton in Hin as ->.
    apply bytes_le_refl.
  - change (last (b :: l) = Some e) in Hlast.
    apply elem_of_cons in Hin as [->|Hin]; [|by apply IH].
    rewrite Forall_forall in Hall. apply Hall.
    rewrite last_lookup in Hlast. by eapply list_elem_of_lookup_2.
Qed.

(** The reverse iterator starts at the greatest key, if there is any key. *)
Lemma ReverseIterator_first_Some (m : kvstore) (k v : bytes) :
  ReverseIterator_first m = Some (k, v) ↔
  m !! k = Some v ∧ ∀ k' v', m !! k' = Some v' → bytes_le k' k.
Proof.
  unfold ReverseIterator_first. split.
  - intros H. split.
    + apply elem_of_Iterator. rewrite last_lookup in H. by eapply list_elem_of_lookup_2.
    + intros k' v' H'. apply elem_of_Iterator in H'.
      apply (last_sorted_max _ _ _ (Iterator_sorted m) H) in H'. done.
  - intros [Hk Hmax]. apply elem_of_Iterator in Hk as Hin.
    destruct (last (Iterator m)) as [[k2 v2]|] eqn:E.
    + pose proof (last_sorted_max _ _ _ (Iterator_sorted m) E Hin) as Hle.
      rewrite last_lookup in E. apply list_elem_of_lookup_2, elem_of_Iterator in E.
      assert (k2 = k) as -> by (apply (anti_symm bytes_le); [by eapply Hmax|done]).
      congruence.
    + apply last_None in E. rewrite E in Hin. by apply elem_of_nil in Hin.
Qed.

Lemma ReverseIterator_first_None (m : kvstore) :
  ReverseIterator_first m = None ↔ m = ∅.
Proof.
  unfold ReverseIterator_first. rewrite last_None. unfold Iterator. split.
  - intros H. apply map_to_list_empty_iff. apply Permutation_nil_r.
    rewrite <- H. symmetry. apply merge_sort_Permutation.
  - intros ->. by rewrite map_to_list_empty.
Qed.

(** [Keeper.PurgePrefix]: delete every key under a prefix. *)
Definition PurgePrefix (p : bytes) (m : kvstore) : kvstore :=
  filter (λ e, strip_prefix p e.1 = None) m.

Lemma lookup_PurgePrefix_in (p : bytes) (m : kvstore) (k : bytes) :
  PurgePrefix p m !! (p ++ k) = None.
Proof.
  unfold PurgePrefix. apply map_lookup_filter_None. right. intros v _. simpl.
  intros H. assert (strip_prefix p (p ++ k) = Some k) by (by apply strip_prefix_Some). congruence.
Qed.

Lemma lookup_PurgePrefix_out (p : bytes) (m : kvstore) (k : bytes) :
  strip_prefix p k = None → PurgePrefix p m !! k = m !! k.
Proof.
  intros H. unfold PurgePrefix. apply option_eq. intros v.
  rewrite map_lookup_filter_Some. simpl. naive_solver.
Qed.

(** [deleteIfExists] (x/evm/state/state.go). *)
Definition deleteIfExists (p key : bytes) (m : kvstore) : kvstore :=
  match m !! (p ++ key) with
  | Some _ => delete (p ++ key) m
  | None => m
  end.

Lemma deleteIfExists_delete (p key : bytes) (m : kvstore) :
  deleteIfExists p key m = delete (p ++ key) m.
Proof.
  unfold deleteIfExists. destruct (m !! (p ++ key)) eqn:E; [done|].
  symmetry. by apply delete_id.
Qed.

(** ** Cached multi-stores: the SDK interface

    A context carries a multi-store; [ms_view] is the content it shows and
    [ms_put] replaces that content (a sequence of [Set]s and [Delete]s).
    [CacheMultiStore] opens a branch over a multi-store and [Write c p] is the
    parent [p] after the branch [c] has been written to it. *)

Class MultiStore (MS W : Type) := {
  ms_view : MS → W;
  ms_put : W → MS → MS;
  CacheMultiStore : MS → MS;
  Write : MS → MS → MS
}.

(** [branch_of p c]: [c] was opened over [p] and then only written to,
    directly or by flushing branches of its own. *)
Inductive branch_of `{MultiStore MS W} (p : MS) : MS → Prop :=
| branch_cache : branch_of p (CacheMultiStore p)
| branch_put c w : branch_of p c → branch_of p (ms_put w c)
| branch_write c g : branch_of p c → branch_of c g → branch_of p (Write g c).

Class MultiStoreLaws MS W `{MultiStore MS W} : Prop := {
  ms_view_put : ∀ w m, ms_view (ms_put w m) = w;
  (** A fresh branch shows what its parent shows. *)
  ms_view_cache : ∀ m, ms_view (CacheMultiStore m) = ms_view m;
  (** Flushing a branch makes its parent show what the branch shows. *)
  ms_view_write : ∀ p c, branch_of p c → ms_view (Write c p) = ms_view c
}.

#[export] Hint Constructors branch_of : tabi.

(** ** An instance: a stack of contents *)

Definition stack_ms (W : Type) : Type := W * list W.

Definition stack_multistore (W : Type) : MultiStore (stack_ms W) W := {|
  ms_view m := m.1;
  ms_put w m := (w, m.2);
  CacheMultiStore m := (m.1, m.1 :: m.2);
  Write c p := (c.1, p.2)
|}.

Lemma stack_multistore_laws W : @MultiStoreLaws (stack_ms W) W (stack_multistore W).
Proof. by split. Qed.
