(* ===== verification/World.v ===== *)
(** * Contexts, and the interfaces to the SDK's bank and account keepers

    [sdk.Context] as the EVM module uses it: a multi-store, an event manager
    and block data.  The bank and account keepers, and go-ethereum's hashing,
    are not in this repository: they are type classes, with the behaviour the
    module relies on as laws. *)

From S2P Require Import Prelude Bytes Store Params.
Local Open Scope Z_scope.

(** Go errors, by their message. *)
Notation Err := string.

(** [sdk.AccAddress]: a byte string of any length. *)
Notation AccAddress := (list Byte.byte).

(** ** Events *)

Inductive attr_value : Type :=
| VAcc (a : AccAddress)   (** [a.String()] *)
| VHex (a : Address)      (** [a.Hex()] *)
| VStr (s : string).

Record Event : Type := mkEvent {
  ev_type : string;
  ev_attrs : list (string * attr_value)
}.

(** ** go-ethereum's helpers *)

(** [common.BytesToAddress] and [common.BytesToHash]: the bytes cropped from
    the left, or padded with zeroes on the left. *)
Definition BytesToAddress (l : bytes) : Address := fit 20 l.
Definition BytesToHash (l : bytes) : Hash := fit 32 l.

Lemma fit_ba n (a : barray n) : fit n (ba a) = a.
Proof.
  apply ba_inj. simpl. unfold fit_bytes. rewrite ba_length, Nat.sub_diag. done.
Qed.

Lemma BytesToAddress_ba (a : Address) : BytesToAddress (ba a) = a.
Proof. apply fit_ba. Qed.
Lemma BytesToHash_ba (h : Hash) : BytesToHash (ba h) = h.
Proof. apply fit_ba. Qed.

Lemma ba_fit_id n (l : bytes) : length l = n → ba (fit n l) = l.
Proof. intros <-. simpl. unfold fit_bytes. by rewrite Nat.sub_diag. Qed.

Class EthCrypto := { Keccak256Hash : bytes → Hash }.

(** The hash of the empty code. *)
Definition EmptyCodeHash `{EthCrypto} : Hash := Keccak256Hash [].

(** ** The base denomination and the wei scale *)

Definition BaseDenom : string := "atabi".

(** [AtabiToWeiMultiplier] (x/evm/state/utils.go). *)
Definition AtabiToWeiMultiplier : Z := 1000000000000.

(** ** The bank keeper *)

(** A bank call: the bank's state after it, the events it emits, its error. *)
Notation bank_res B := (B * list Event * option Err)%type.

Class BankKeeper (B : Type) := {
  bk_GetBalance : B → AccAddress → string → Z;
  bk_LockedCoins : B → AccAddress → string → Z;
  bk_GetWeiBalance : B → AccAddress → Z;
  bk_SubUnlockedCoins : B → AccAddress → string → Z → bank_res B;
  bk_AddCoins : B → AccAddress → string → Z → bank_res B;
  bk_SubWei : B → AccAddress → Z → bank_res B;
  bk_AddWei : B → AccAddress → Z → bank_res B;
  bk_SendCoinsAndWei : B → AccAddress → AccAddress → Z → Z → bank_res B;
  bk_MintCoins : B → string → string → Z → bank_res B;
  (** The sum of all balances, in wei (used in statements only). *)
  bk_total : B → Z
}.

Section Bank.
Context `{BankKeeper B}.

(** The wei worth of an account, and the part of it that is not locked. *)
Definition wei_value (b : B) (a : AccAddress) : Z :=
  bk_GetBalance b a BaseDenom * AtabiToWeiMultiplier + bk_GetWeiBalance b a.
Definition spendable (b : B) (a : AccAddress) : Z :=
  wei_value b a - bk_LockedCoins b a BaseDenom * AtabiToWeiMultiplier.

(** [b'] is [b] with [d] wei added to the account [a], and nothing else of
    the base denomination changed. *)
Definition bank_moved (b b' : B) (a : AccAddress) (d : Z) : Prop :=
  wei_value b' a = wei_value b a + d ∧
  (∀ a', a' ≠ a → wei_value b' a' = wei_value b a') ∧
  (∀ a', bk_LockedCoins b' a' BaseDenom = bk_LockedCoins b a' BaseDenom) ∧
  bk_total b' = bk_total b + d.

Lemma bank_moved_spendable b b' a d :
  bank_moved b b' a d → spendable b' a = spendable b a + d.
Proof. intros (Hv & _ & Hl & _). unfold spendable. rewrite Hv, Hl. lia. Qed.

Lemma bank_moved_spendable_ne b b' a a' d :
  bank_moved b b' a d → a' ≠ a → spendable b' a' = spendable b a'.
Proof. intros (_ & Hv & Hl & _) Hne. unfold spendable. by rewrite Hv, Hl. Qed.

Lemma bank_moved_refl b a : bank_moved b b a 0.
Proof. unfold bank_moved. split_and!; done || lia. Qed.

Lemma bank_moved_trans b1 b2 b3 a d1 d2 :
  bank_moved b1 b2 a d1 → bank_moved b2 b3 a d2 → bank_moved b1 b3 a (d1 + d2).
Proof.
  intros (Hv & Ho & Hl & Ht) (Hv' & Ho' & Hl' & Ht'). split_and!.
  - lia.
  - intros a' Ha. by rewrite Ho', Ho.
  - intros a'. by rewrite Hl', Hl.
  - lia.
Qed.

End Bank.

(** What the EVM module relies on of the bank keeper: locked coins are part of
    the balance and the wei part is below one atabi; a successful call moves
    exactly the amount it is given; amounts that are covered succeed, and a
    withdrawal of more than the unlocked balance fails. *)
Class BankLaws (B : Type) `{BankKeeper B} : Prop := {
  bk_balances : ∀ b a,
    0 ≤ bk_LockedCoins b a BaseDenom ≤ bk_GetBalance b a BaseDenom ∧
    0 ≤ bk_GetWeiBalance b a < AtabiToWeiMultiplier;
  bk_SubUnlockedCoins_ok : ∀ b a n b' ev,
    0 ≤ n → bk_SubUnlockedCoins b a BaseDenom n = (b', ev, None) →
    bank_moved b b' a (- (n * AtabiToWeiMultiplier));
  bk_SubUnlockedCoins_enough : ∀ b a n,
    0 ≤ n ≤ bk_GetBalance b a BaseDenom - bk_LockedCoins b a BaseDenom →
    (bk_SubUnlockedCoins b a BaseDenom n).2 = None;
  bk_SubUnlockedCoins_short : ∀ b a n,
    bk_GetBalance b a BaseDenom - bk_LockedCoins b a BaseDenom < n →
    (bk_SubUnlockedCoins b a BaseDenom n).2 ≠ None;
  bk_AddCoins_ok : ∀ b a n b' ev,
    0 ≤ n → bk_AddCoins b a BaseDenom n = (b', ev, None) →
    bank_moved b b' a (n * AtabiToWeiMultiplier);
  bk_AddCoins_enough : ∀ b a n, 0 ≤ n → (bk_AddCoins b a BaseDenom n).2 = None;
  bk_SubWei_ok : ∀ b a w b' ev,
    0 ≤ w < AtabiToWeiMultiplier → bk_SubWei b a w = (b', ev, None) → bank_moved b b' a (- w);
  bk_SubWei_enough : ∀ b a w,
    0 ≤ w < AtabiToWeiMultiplier → w ≤ spendable b a → (bk_SubWei b a w).2 = None;
  bk_SubWei_short : ∀ b a w,
    0 ≤ w < AtabiToWeiMultiplier → spendable b a < w → (bk_SubWei b a w).2 ≠ None;
  bk_AddWei_ok : ∀ b a w b' ev,
    0 ≤ w < AtabiToWeiMultiplier → bk_AddWei b a w = (b', ev, None) → bank_moved b b' a w;
  bk_AddWei_enough : ∀ b a w,
    0 ≤ w < AtabiToWeiMultiplier → (bk_AddWei b a w).2 = None;
  (** A payment takes the amount from one account and gives it to the other. *)
  bk_SendCoinsAndWei_ok : ∀ b from to n w b' ev,
    0 ≤ n → 0 ≤ w < AtabiToWeiMultiplier → bk_SendCoinsAndWei b from to n w = (b', ev, None) →
    ∃ b1, bank_moved b b1 from (- (n * AtabiToWeiMultiplier + w)) ∧
          bank_moved b1 b' to (n * AtabiToWeiMultiplier + w);
  bk_SendCoinsAndWei_enough : ∀ b from to n w,
    0 ≤ n ≤ bk_GetBalance b from BaseDenom - bk_LockedCoins b from BaseDenom →
    0 ≤ w ≤ bk_GetWeiBalance b from → (bk_SendCoinsAndWei b from to n w).2 = None
}.

(** ** The account keeper *)

Class AccountKeeper (A : Type) := {
  ak_HasAccount : A → AccAddress → bool;
  (** [SetAccount(ctx, NewAccountWithAddress(ctx, addr))] *)
  ak_SetNewAccount : A → AccAddress → A;
  ak_GetModuleAddress : string → AccAddress
}.

(** ** The stores a context gives access to *)

Record World (B A : Type) : Type := mkWorld {
  w_evm : kvstore;        (** the module's persistent store *)
  w_transient : kvstore;  (** its transient store *)
  w_bank : B;
  w_acct : A;
  w_params : Params
}.
Arguments mkWorld {B A}.
Arguments w_evm {B A}.
Arguments w_transient {B A}.
Arguments w_bank {B A}.
Arguments w_acct {B A}.
Arguments w_params {B A}.

Section WorldUpdates.
Context {B A : Type}.
Definition set_evm (f : kvstore → kvstore) (w : World B A) : World B A :=
  mkWorld (f (w_evm w)) (w_transient w) (w_bank w) (w_acct w) (w_params w).
Definition set_transient (f : kvstore → kvstore) (w : World B A) : World B A :=
  mkWorld (w_evm w) (f (w_transient w)) (w_bank w) (w_acct w) (w_params w).
Definition set_bank (b : B) (w : World B A) : World B A :=
  mkWorld (w_evm w) (w_transient w) b (w_acct w) (w_params w).
Definition set_acct (a : A) (w : World B A) : World B A :=
  mkWorld (w_evm w) (w_transient w) (w_bank w) a (w_params w).
Definition set_params (p : Params) (w : World B A) : World B A :=
  mkWorld (w_evm w) (w_transient w) (w_bank w) (w_acct w) p.
End WorldUpdates.

(** ** Contexts *)

Record BlockInfo : Type := mkBlockInfo {
  ci_txIndex : Z;
  ci_height : Z;
  ci_isTracing : bool;
  ci_maxGas : option Z   (** [ConsensusParams().Block.MaxGas], when set *)
}.

Record Ctx (MS : Type) : Type := mkCtx {
  c_ms : MS;
  c_events : list Event;
  c_info : BlockInfo
}.
Arguments mkCtx {MS}.
Arguments c_ms {MS}.
Arguments c_events {MS}.
Arguments c_info {MS}.

Section Context.
Context `{MultiStore MS (World B A)}.

Definition cview (c : Ctx MS) : World B A := ms_view (c_ms c).
Definition cput (w : World B A) (c : Ctx MS) : Ctx MS :=
  mkCtx (ms_put w (c_ms c)) (c_events c) (c_info c).
(** [ctx.EventManager().EmitEvents(evs)] *)
Definition cemit (evs : list Event) (c : Ctx MS) : Ctx MS :=
  mkCtx (c_ms c) (c_events c ++ evs) (c_info c).
(** Apply a state change to the context's stores. *)
Definition cupd (f : World B A → World B A) (c : Ctx MS) : Ctx MS := cput (f (cview c)) c.

(** A branch of the context: cached stores and a fresh event manager. *)
Definition cbranch (c : Ctx MS) : Ctx MS :=
  mkCtx (CacheMultiStore (c_ms c)) [] (c_info c).
End Context.

Section ContextLemmas.
Context `{HL : MultiStoreLaws MS (World B A)}.

Lemma cview_cput w (c : Ctx MS) : cview (cput w c) = w.
Proof. apply ms_view_put. Qed.
Lemma cview_cemit evs (c : Ctx MS) : cview (cemit evs c) = cview c.
Proof. done. Qed.
Lemma cview_cupd f (c : Ctx MS) : cview (cupd f c) = f (cview c).
Proof. apply ms_view_put. Qed.
Lemma cview_cbranch (c : Ctx MS) : cview (cbranch c) = cview c.
Proof. apply ms_view_cache. Qed.

End ContextLemmas.

Create HintDb ctx.
#[export] Hint Rewrite @cview_cput @cview_cemit @cview_cupd @cview_cbranch using typeclasses eauto : ctx.
