(* ===== verification/Instances.v ===== *)
(** * A concrete world

    Instances of the interfaces of World.v: a bank that keeps the wei worth of
    each account in a map, an account keeper that keeps a set, and a stand-in
    hash.  They satisfy the laws, so the laws are consistent, and they let the
    model be evaluated on concrete inputs. *)

From S2P Require Import Prelude Bytes Store Params World.
Local Open Scope Z_scope.

(** ** A bank *)

Notation demo_bank := (gmap (list Byte.byte) N).

Definition demo_worth (b : demo_bank) (a : AccAddress) : Z := Z.of_N (default 0%N (b !! a)).
Definition demo_total (b : demo_bank) : Z := map_fold (λ _ v acc, Z.of_N v + acc) 0 b.
Definition demo_set (b : demo_bank) (a : AccAddress) (v : Z) : demo_bank := <[a := Z.to_N v]> b.

(** Take [v] wei from [a], if it has them; add [v] wei to [a]. *)
Definition demo_sub (b : demo_bank) (a : AccAddress) (v : Z) : bank_res demo_bank :=
  if bool_decide (v ≤ demo_worth b a)
  then (demo_set b a (demo_worth b a - v), [mkEvent "coin_spent" [("spender"%string, VAcc a)]], None)
  else (b, [], Some "insufficient funds"%string).
Definition demo_add (b : demo_bank) (a : AccAddress) (v : Z) : bank_res demo_bank :=
  (demo_set b a (demo_worth b a + v), [mkEvent "coin_received" [("receiver"%string, VAcc a)]], None).

Definition demo_bank_keeper : BankKeeper demo_bank := {|
  bk_GetBalance b a d :=
    if bool_decide (d = BaseDenom) then demo_worth b a `div` AtabiToWeiMultiplier else 0;
  bk_LockedCoins b a d := 0;
  bk_GetWeiBalance b a := demo_worth b a `mod` AtabiToWeiMultiplier;
  bk_SubUnlockedCoins b a d n := demo_sub b a (n * AtabiToWeiMultiplier);
  bk_AddCoins b a d n := demo_add b a (n * AtabiToWeiMultiplier);
  bk_SubWei b a w := demo_sub b a w;
  bk_AddWei b a w := demo_add b a w;
  bk_SendCoinsAndWei b from to n w :=
    let v := n * AtabiToWeiMultiplier + w in
    match demo_sub b from v with
    | (b', evs, None) => let '(b'', evs', e) := demo_add b' to v in (b'', evs ++ evs', e)
    | r => r
    end;
  bk_MintCoins b md d n := demo_add b (str_bytes md) (n * AtabiToWeiMultiplier);
  bk_total := demo_total
|}.

Lemma demo_worth_nonneg b a : 0 ≤ demo_worth b a.
Proof. unfold demo_worth. lia. Qed.

Lemma demo_value b a : @wei_value _ demo_bank_keeper b a = demo_worth b a.
Proof.
  unfold wei_value. simpl. unfold AtabiToWeiMultiplier.
  pose proof (Z.div_mod (demo_worth b a) 1000000000000 ltac:(lia)). lia.
Qed.

Lemma demo_spendable b a : @spendable _ demo_bank_keeper b a = demo_worth b a.
Proof. unfold spendable. rewrite demo_value. simpl. lia. Qed.

Lemma demo_worth_set b a v : 0 ≤ v → demo_worth (demo_set b a v) a = v.
Proof. intros Hv. unfold demo_worth, demo_set. rewrite lookup_insert_eq. simpl. lia. Qed.

Lemma demo_worth_set_ne b a a' v : a' ≠ a → demo_worth (demo_set b a v) a' = demo_worth b a'.
Proof. intros Hne. unfold demo_worth, demo_set. by rewrite lookup_insert_ne. Qed.

Lemma demo_total_insert (b : demo_bank) (a : AccAddress) (v : N) :
  b !! a = None → demo_total (<[a := v]> b) = Z.of_N v + demo_total b.
Proof.
  intros Hn. unfold demo_total. rewrite map_fold_insert_L; [done| |done].
  intros j1 j2 z1 z2 y _ _ _. lia.
Qed.

Lemma demo_total_set b a v :
  0 ≤ v → demo_total (demo_set b a v) = demo_total b + (v - demo_worth b a).
Proof.
  intros Hv. unfold demo_set, demo_worth. destruct (b !! a) as [o|] eqn:E; simpl.
  - rewrite <- (insert_delete_id b a o E) at 2. rewrite <- insert_delete_eq.
    rewrite !demo_total_insert by apply lookup_delete_eq. lia.
  - rewrite demo_total_insert by done. lia.
Qed.

Lemma demo_set_moved b a d :
  0 ≤ demo_worth b a + d →
  @bank_moved _ demo_bank_keeper b (demo_set b a (demo_worth b a + d)) a d.
Proof.
  intros Hd. unfold bank_moved. rewrite !demo_value. split_and!.
  - by rewrite demo_worth_set.
  - intros a' Hne. rewrite !demo_value. by apply demo_worth_set_ne.
  - done.
  - simpl. rewrite demo_total_set by done. lia.
Qed.

Lemma demo_sub_ok b a v b' ev :
  demo_sub b a v = (b', ev, None) → @bank_moved _ demo_bank_keeper b b' a (- v).
Proof.
  unfold demo_sub. case_bool_decide; [|done]. intros [= <- <-].
  replace (demo_worth b a - v) with (demo_worth b a + - v) by lia.
  apply demo_set_moved. lia.
Qed.

Lemma demo_add_ok b a v b' ev :
  0 ≤ v → demo_add b a v = (b', ev, None) → @bank_moved _ demo_bank_keeper b b' a v.
Proof.
  intros Hv [= <- <-]. apply demo_set_moved. pose proof (demo_worth_nonneg b a). lia.
Qed.

Lemma demo_sub_None b a v : (demo_sub b a v).2 = None ↔ v ≤ demo_worth b a.
Proof. unfold demo_sub. by case_bool_decide. Qed.

Lemma demo_bank_laws : @BankLaws demo_bank demo_bank_keeper.
Proof.
  assert (HM : 0 < AtabiToWeiMultiplier) by (unfold AtabiToWeiMultiplier; lia).
  split; simpl.
  - intros b a. pose proof (demo_worth_nonneg b a).
    pose proof (Z.mod_pos_bound (demo_worth b a) _ HM).
    pose proof (Z.div_pos (demo_worth b a) _ ltac:(done) HM). lia.
  - intros b a n b' ev Hn H. by apply demo_sub_ok in H.
  - intros b a n Hn. apply demo_sub_None.
    pose proof (Z.mul_div_le (demo_worth b a) _ HM). nia.
  - intros b a n Hn H. apply demo_sub_None in H.
    assert (n ≤ demo_worth b a `div` AtabiToWeiMultiplier)
      by (apply Z.div_le_lower_bound; lia). lia.
  - intros b a n b' ev Hn H. apply demo_add_ok in H; [done|nia].
  - done.
  - intros b a w b' ev Hw H. by apply demo_sub_ok in H.
  - intros b a w Hw. rewrite demo_spendable. by apply demo_sub_None.
  - intros b a w Hw. rewrite demo_spendable. intros Hs H. apply demo_sub_None in H. lia.
  - intros b a w b' ev Hw H. apply demo_add_ok in H; [done|lia].
  - done.
  - intros b from to n w b' ev Hn Hw H.
    destruct (demo_sub b from _) as [[b1 ev1] [e1|]] eqn:E; [done|].
    apply demo_sub_ok in E. exists b1. split; [done|].
    injection H as <- _. eapply demo_add_ok; [nia|reflexivity].
  - intros b from to n w Hn Hw.
    pose proof (Z.mul_div_le (demo_worth b from) _ HM).
    pose proof (Z.div_mod (demo_worth b from) AtabiToWeiMultiplier ltac:(lia)).
    assert (Hs : (demo_sub b from (n * AtabiToWeiMultiplier + w)).2 = None) by (apply demo_sub_None; nia).
    destruct (demo_sub b from _) as [[b1 ev1] e1]. simpl in Hs. by subst.
Qed.

(** ** Accounts, hashing, and the world they make *)

Definition demo_accounts : AccountKeeper (gset (list Byte.byte)) := {|
  ak_HasAccount s a := bool_decide (a ∈ s);
  ak_SetNewAccount s a := {[a]} ∪ s;
  ak_GetModuleAddress n := str_bytes n
|}.

Definition demo_crypto : EthCrypto := {| Keccak256Hash l := BytesToHash (Byte.xff :: take 31 l) |}.

Notation demo_world := (World demo_bank (gset (list Byte.byte))).

Definition demo_world0 : demo_world := mkWorld ∅ ∅ ∅ ∅ DefaultParams.
Definition demo_ctx (w : demo_world) : Ctx (stack_ms demo_world) :=
  mkCtx (w, []) [] (mkBlockInfo 0 1 false (Some 10000000)).

(** Addresses for examples: twenty bytes ending in the given number. *)
Definition addr_of (z : Z) : Address := fit 20 (be_enc 8 z).
Definition hash_of (z : Z) : Hash := fit 32 (be_enc 8 z).
