(* ===== verification/Eth.v ===== *)
(** * go-ethereum: numbers, hexadecimal forms and transactions

    [big.Int] of the Go library is modelled directly.  The parts of
    go-ethereum that the module calls (hexadecimal forms, transactions) and of
    two integer libraries are interfaces, with the documented behaviour the
    module relies on as laws. *)

From S2P Require Import Prelude Bytes World.
From Stdlib Require Import Strings.Byte Strings.Ascii.
Local Open Scope Z_scope.

(** ** math/big *)

Definition BitLen (z : Z) : Z := if z =? 0 then 0 else Z.log2 (Z.abs z) + 1.

(** [Bytes] is the shortest big-endian form of the absolute value. *)
Definition big_Bytes (z : Z) : bytes := be_enc (Z.to_nat ((BitLen z + 7) / 8)) (Z.abs z).
Definition big_SetBytes (l : bytes) : Z := be_dec l.

Lemma BitLen_nonneg z : 0 ≤ BitLen z.
Proof. unfold BitLen. destruct (z =? 0); [lia|]. pose proof (Z.log2_nonneg (Z.abs z)). lia. Qed.

Lemma BitLen_lt z : Z.abs z < 2 ^ BitLen z.
Proof.
  unfold BitLen. destruct (Z.eqb_spec z 0) as [->|H]; [simpl; lia|].
  rewrite Z.add_1_r. apply Z.log2_spec. lia.
Qed.

Lemma BitLen_le z n : 0 ≤ n → BitLen z ≤ n ↔ Z.abs z < 2 ^ n.
Proof.
  intros Hn. split.
  - intros H. pose proof (BitLen_lt z). pose proof (Z.pow_le_mono_r 2 (BitLen z) n ltac:(lia) H). lia.
  - unfold BitLen. destruct (Z.eqb_spec z 0) as [->|Hz]; [lia|]. intros H.
    apply Z.log2_lt_pow2 in H; lia.
Qed.

Lemma big_SetBytes_Bytes z : big_SetBytes (big_Bytes z) = Z.abs z.
Proof.
  unfold big_SetBytes, big_Bytes. rewrite be_dec_enc. apply Z.mod_small. split; [lia|].
  pose proof (BitLen_nonneg z). pose proof (Z.div_pos (BitLen z + 7) 8 ltac:(lia) ltac:(lia)).
  rewrite Z2Nat.id by done. change 256 with (2 ^ 8). rewrite <- Z.pow_mul_r by lia.
  apply Z.lt_le_trans with (2 ^ BitLen z); [apply BitLen_lt|]. apply Z.pow_le_mono_r; [lia|].
  pose proof (Z.div_mod (BitLen z + 7) 8 ltac:(lia)). pose proof (Z.mod_pos_bound (BitLen z + 7) 8 ltac:(lia)). lia.
Qed.

Lemma big_Bytes_nil z : big_Bytes z = [] → z = 0.
Proof. intros H. pose proof (big_SetBytes_Bytes z) as E. rewrite H in E. simpl in E. lia. Qed.

(** ** Hexadecimal forms *)

Class EthHex := {
  addr_Hex : Address → string;
  addr_String : Address → string;
  hash_Hex : Hash → string;
  hash_String : Hash → string;
  HexToAddress : string → Address;
  HexToHash : string → Hash;
  IsHexAddress : string → bool;
  EmptyTxsHash : Hash
}.

Class EthHexLaws `{EthHex} : Prop := {
  HexToAddress_Hex : ∀ a, HexToAddress (addr_Hex a) = a;
  HexToAddress_String : ∀ a, HexToAddress (addr_String a) = a;
  HexToHash_Hex : ∀ h, HexToHash (hash_Hex h) = h;
  HexToHash_String : ∀ h, HexToHash (hash_String h) = h;
  IsHexAddress_Hex : ∀ a, IsHexAddress (addr_Hex a) = true;
  addr_Hex_nonempty : ∀ a, addr_Hex a ≠ ""%string
}.

(** ** Bounded integers

    [NewIntFromBigInt] of the SDK panics on numbers that are too wide;
    [MustFromBig] of holiman/uint256 panics on overflow and gives nil for
    nil. *)
Class IntLibs := {
  NewIntFromBigInt : Z → outcome Z;
  MustFromBig : option Z → outcome (option Z)
}.

Class IntLibsLaws `{IntLibs} : Prop := {
  NewIntFromBigInt_ok : ∀ z, BitLen z ≤ 256 → NewIntFromBigInt z = Ret z;
  MustFromBig_ok : ∀ z, 0 ≤ z < 2 ^ 256 → MustFromBig (Some z) = Ret (Some z)
}.

(** ** Transactions

    The structures a transaction is made from; a [*big.Int] that may be nil is
    an [option Z], and a nil slice is the empty list. *)

Record EthAccessTuple : Type := mkEthAccessTuple { eat_Address : Address; eat_StorageKeys : list Hash }.

Record EthLegacyTx : Type := mkEthLegacyTx {
  el_Nonce : Z; el_GasPrice : option Z; el_Gas : Z; el_To : option Address; el_Value : option Z;
  el_Data : bytes; el_V : option Z; el_R : option Z; el_S : option Z
}.
Record EthAccessListTx : Type := mkEthAccessListTx {
  ea_ChainID : option Z; ea_Nonce : Z; ea_GasPrice : option Z; ea_Gas : Z; ea_To : option Address;
  ea_Value : option Z; ea_Data : bytes; ea_AccessList : list EthAccessTuple;
  ea_V : option Z; ea_R : option Z; ea_S : option Z
}.
Record EthDynamicFeeTx : Type := mkEthDynamicFeeTx {
  ed_ChainID : option Z; ed_Nonce : Z; ed_GasTipCap : option Z; ed_GasFeeCap : option Z; ed_Gas : Z;
  ed_To : option Address; ed_Value : option Z; ed_Data : bytes; ed_AccessList : list EthAccessTuple;
  ed_V : option Z; ed_R : option Z; ed_S : option Z
}.
(** Blobs, commitments and proofs are byte arrays of fixed lengths. *)
Record EthSidecar : Type := mkEthSidecar {
  es_Blobs : list bytes; es_Commitments : list bytes; es_Proofs : list bytes
}.
Record EthBlobTx : Type := mkEthBlobTx {
  eb_ChainID : option Z; eb_Nonce : Z; eb_GasTipCap : option Z; eb_GasFeeCap : option Z; eb_Gas : Z;
  eb_To : Address; eb_Value : option Z; eb_Data : bytes; eb_AccessList : list EthAccessTuple;
  eb_BlobFeeCap : option Z; eb_BlobHashes : list Hash; eb_Sidecar : option EthSidecar;
  eb_V : option Z; eb_R : option Z; eb_S : option Z
}.

Inductive EthTxData : Type :=
| EthLegacy (d : EthLegacyTx)
| EthAccessList (d : EthAccessListTx)
| EthDynamicFee (d : EthDynamicFeeTx)
| EthBlob (d : EthBlobTx).

Definition LegacyTxType : Z := 0.
Definition AccessListTxType : Z := 1.
Definition DynamicFeeTxType : Z := 2.
Definition BlobTxType : Z := 3.

(** [types.Transaction] and its accessors. *)
Class EthTransactions (T : Type) := {
  NewTx : EthTxData → T;
  tx_Type : T → Z;
  tx_ChainId : T → option Z;
  tx_Nonce : T → Z;
  tx_Gas : T → Z;
  tx_GasPrice : T → option Z;
  tx_GasFeeCap : T → option Z;
  tx_GasTipCap : T → option Z;
  tx_To : T → option Address;
  tx_Value : T → option Z;
  tx_Data : T → bytes;
  tx_AccessList : T → list EthAccessTuple;
  tx_BlobGasFeeCap : T → option Z;
  tx_BlobHashes : T → list Hash;
  tx_BlobTxSidecar : T → option EthSidecar;
  tx_RawSignatureValues : T → option Z * option Z * option Z;
  tx_Protected : T → bool;
  tx_Hash : T → Hash;
  tx_Cost : T → Z
}.

(** What the accessors give for a transaction made from complete data: no
    pointer of the structure is nil. *)
Definition data_complete (d : EthTxData) : Prop :=
  match d with
  | EthLegacy d => Forall is_Some [el_GasPrice d; el_Value d; el_V d; el_R d; el_S d]
  | EthAccessList d => Forall is_Some [ea_ChainID d; ea_GasPrice d; ea_Value d; ea_V d; ea_R d; ea_S d]
  | EthDynamicFee d =>
      Forall is_Some [ed_ChainID d; ed_GasTipCap d; ed_GasFeeCap d; ed_Value d; ed_V d; ed_R d; ed_S d]
  | EthBlob d =>
      Forall is_Some [eb_ChainID d; eb_GasTipCap d; eb_GasFeeCap d; eb_Value d; eb_BlobFeeCap d; eb_V d; eb_R d; eb_S d]
  end.

Definition data_Type (d : EthTxData) : Z :=
  match d with
  | EthLegacy _ => LegacyTxType | EthAccessList _ => AccessListTxType
  | EthDynamicFee _ => DynamicFeeTxType | EthBlob _ => BlobTxType
  end.
Definition data_Nonce (d : EthTxData) : Z :=
  match d with
  | EthLegacy d => el_Nonce d | EthAccessList d => ea_Nonce d | EthDynamicFee d => ed_Nonce d | EthBlob d => eb_Nonce d
  end.
Definition data_Gas (d : EthTxData) : Z :=
  match d with
  | EthLegacy d => el_Gas d | EthAccessList d => ea_Gas d | EthDynamicFee d => ed_Gas d | EthBlob d => eb_Gas d
  end.
Definition data_GasFeeCap (d : EthTxData) : option Z :=
  match d with
  | EthLegacy d => el_GasPrice d | EthAccessList d => ea_GasPrice d
  | EthDynamicFee d => ed_GasFeeCap d | EthBlob d => eb_GasFeeCap d
  end.
Definition data_GasTipCap (d : EthTxData) : option Z :=
  match d with
  | EthLegacy d => el_GasPrice d | EthAccessList d => ea_GasPrice d
  | EthDynamicFee d => ed_GasTipCap d | EthBlob d => eb_GasTipCap d
  end.
Definition data_To (d : EthTxData) : option Address :=
  match d with
  | EthLegacy d => el_To d | EthAccessList d => ea_To d | EthDynamicFee d => ed_To d | EthBlob d => Some (eb_To d)
  end.
Definition data_Value (d : EthTxData) : option Z :=
  match d with
  | EthLegacy d => el_Value d | EthAccessList d => ea_Value d | EthDynamicFee d => ed_Value d | EthBlob d => eb_Value d
  end.
Definition data_Data (d : EthTxData) : bytes :=
  match d with
  | EthLegacy d => el_Data d | EthAccessList d => ea_Data d | EthDynamicFee d => ed_Data d | EthBlob d => eb_Data d
  end.
Definition data_AccessList (d : EthTxData) : list EthAccessTuple :=
  match d with
  | EthLegacy _ => [] | EthAccessList d => ea_AccessList d | EthDynamicFee d => ed_AccessList d
  | EthBlob d => eb_AccessList d
  end.
Definition data_BlobFeeCap (d : EthTxData) : option Z :=
  match d with EthBlob d => eb_BlobFeeCap d | _ => None end.
Definition data_BlobHashes (d : EthTxData) : list Hash :=
  match d with EthBlob d => eb_BlobHashes d | _ => [] end.
Definition data_Sidecar (d : EthTxData) : option EthSidecar :=
  match d with EthBlob d => eb_Sidecar d | _ => None end.
Definition data_sig (d : EthTxData) : option Z * option Z * option Z :=
  match d with
  | EthLegacy d => (el_V d, el_R d, el_S d) | EthAccessList d => (ea_V d, ea_R d, ea_S d)
  | EthDynamicFee d => (ed_V d, ed_R d, ed_S d) | EthBlob d => (eb_V d, eb_R d, eb_S d)
  end.

(** The chain of a transaction and whether it is protected against replay; a
    legacy transaction has both in its [V] (EIP-155).  Other values of [V] are
    not described. *)
Definition data_ChainId (d : EthTxData) : option Z :=
  match d with
  | EthLegacy d =>
      match el_V d with
      | Some v => if (v =? 27) || (v =? 28) then Some 0 else if 35 <=? v then Some ((v - 35) / 2) else None
      | None => None
      end
  | EthAccessList d => ea_ChainID d
  | EthDynamicFee d => ed_ChainID d
  | EthBlob d => eb_ChainID d
  end.
Definition data_Protected (d : EthTxData) : option bool :=
  match d with
  | EthLegacy d =>
      match el_V d with
      | Some v => if (v =? 27) || (v =? 28) then Some false else if 35 <=? v then Some true else None
      | None => None
      end
  | _ => Some true
  end.

Class EthTransactionsLaws (T : Type) `{EthTransactions T} : Prop := {
  tx_Type_NewTx : ∀ d, data_complete d → tx_Type (NewTx d) = data_Type d;
  tx_ChainId_NewTx : ∀ d c, data_complete d → data_ChainId d = Some c → tx_ChainId (NewTx d) = Some c;
  tx_Nonce_NewTx : ∀ d, data_complete d → tx_Nonce (NewTx d) = data_Nonce d;
  tx_Gas_NewTx : ∀ d, data_complete d → tx_Gas (NewTx d) = data_Gas d;
  tx_GasPrice_NewTx : ∀ d, data_complete d → tx_GasPrice (NewTx d) = data_GasFeeCap d;
  tx_GasFeeCap_NewTx : ∀ d, data_complete d → tx_GasFeeCap (NewTx d) = data_GasFeeCap d;
  tx_GasTipCap_NewTx : ∀ d, data_complete d → tx_GasTipCap (NewTx d) = data_GasTipCap d;
  tx_To_NewTx : ∀ d, data_complete d → tx_To (NewTx d) = data_To d;
  tx_Value_NewTx : ∀ d, data_complete d → tx_Value (NewTx d) = data_Value d;
  tx_Data_NewTx : ∀ d, data_complete d → tx_Data (NewTx d) = data_Data d;
  tx_AccessList_NewTx : ∀ d, data_complete d → tx_AccessList (NewTx d) = data_AccessList d;
  tx_BlobGasFeeCap_NewTx : ∀ d, data_complete d → tx_BlobGasFeeCap (NewTx d) = data_BlobFeeCap d;
  tx_BlobHashes_NewTx : ∀ d, data_complete d → tx_BlobHashes (NewTx d) = data_BlobHashes d;
  tx_BlobTxSidecar_NewTx : ∀ d, data_complete d → tx_BlobTxSidecar (NewTx d) = data_Sidecar d;
  tx_RawSignatureValues_NewTx : ∀ d, data_complete d → tx_RawSignatureValues (NewTx d) = data_sig d;
  tx_Protected_NewTx : ∀ d b, data_complete d → data_Protected d = Some b → tx_Protected (NewTx d) = b
}.

(** ** Concrete instances *)

(** Hexadecimal forms: two letters for a byte. *)
Definition hex_digits : list Ascii.ascii :=
  ["0"; "1"; "2"; "3"; "4"; "5"; "6"; "7"; "8"; "9"; "a"; "b"; "c"; "d"; "e"; "f"]%char.
Definition hex_digit (z : Z) : Ascii.ascii := nth (Z.to_nat z) hex_digits "0"%char.
Definition digit_val (c : Ascii.ascii) : Z :=
  match list_find (eq c) hex_digits with Some (i, _) => Z.of_nat i | None => 0 end.

Fixpoint hex_of_bytes (l : bytes) : string :=
  match l with
  | [] => ""
  | b :: l' => String (hex_digit (bval b / 16)) (String (hex_digit (bval b `mod` 16)) (hex_of_bytes l'))
  end.
Fixpoint bytes_of_hex (s : string) : bytes :=
  match s with
  | String c (String d s') => byte_of_Z (digit_val c * 16 + digit_val d) :: bytes_of_hex s'
  | _ => []
  end.

Lemma byte_hex_roundtrip b :
  byte_of_Z (digit_val (hex_digit (bval b / 16)) * 16 + digit_val (hex_digit (bval b `mod` 16))) = b.
Proof. by destruct b. Qed.

Lemma bytes_hex_roundtrip l : bytes_of_hex (hex_of_bytes l) = l.
Proof. induction l as [|b l IH]; [done|]. cbn [hex_of_bytes bytes_of_hex]. by rewrite byte_hex_roundtrip, IH. Qed.

Definition plain_hex : EthHex := {|
  addr_Hex a := hex_of_bytes (ba a);
  addr_String a := hex_of_bytes (ba a);
  hash_Hex h := hex_of_bytes (ba h);
  hash_String h := hex_of_bytes (ba h);
  HexToAddress s := fit 20 (bytes_of_hex s);
  HexToHash s := fit 32 (bytes_of_hex s);
  IsHexAddress s := (String.length s =? 40)%nat;
  EmptyTxsHash := fit 32 [x56; xe8; x1f; x17]
|}.

Lemma length_hex l : String.length (hex_of_bytes l) = (2 * length l)%nat.
Proof. induction l as [|b l IH]; [done|]. cbn [hex_of_bytes String.length length]. lia. Qed.

Lemma plain_hex_laws : @EthHexLaws plain_hex.
Proof.
  split; simpl; intros; rewrite ?bytes_hex_roundtrip; try apply fit_ba.
  - by rewrite length_hex, ba_length.
  - pose proof (length_hex (ba a)) as H. rewrite ba_length in H. by intros E; rewrite E in H.
Qed.

Definition strict_ints : IntLibs := {|
  NewIntFromBigInt z := if BitLen z <=? 256 then Ret z else Panic "NewIntFromBigInt() out of bound";
  MustFromBig o :=
    match o with
    | None => Ret None
    | Some z => if (0 <=? z) && (z <? 2 ^ 256) then Ret (Some z) else Panic "overflow"
    end
|}.

Lemma strict_ints_laws : @IntLibsLaws strict_ints.
Proof.
  split; simpl; intros z Hz.
  - by destruct (Z.leb_spec (BitLen z) 256); [|lia].
  - by destruct (Z.leb_spec 0 z), (Z.ltb_spec z (2 ^ 256)); try lia.
Qed.

(** A transaction that is its data. *)
Definition plain_transactions : EthTransactions EthTxData := {|
  NewTx d := d;
  tx_Type := data_Type;
  tx_ChainId := data_ChainId;
  tx_Nonce := data_Nonce;
  tx_Gas := data_Gas;
  tx_GasPrice := data_GasFeeCap;
  tx_GasFeeCap := data_GasFeeCap;
  tx_GasTipCap := data_GasTipCap;
  tx_To := data_To;
  tx_Value := data_Value;
  tx_Data := data_Data;
  tx_AccessList := data_AccessList;
  tx_BlobGasFeeCap := data_BlobFeeCap;
  tx_BlobHashes := data_BlobHashes;
  tx_BlobTxSidecar := data_Sidecar;
  tx_RawSignatureValues := data_sig;
  tx_Protected d := default false (data_Protected d);
  tx_Hash d := fit 32 (PutUint64 (data_Nonce d) ++ data_Data d);
  tx_Cost d := data_Gas d * default 0 (data_GasFeeCap d) + default 0 (data_Value d)
|}.

Lemma plain_transactions_laws : @EthTransactionsLaws EthTxData plain_transactions.
Proof. split; simpl; try done. intros d b _ ->. done. Qed.
