(* ===== verification/Keeper.v ===== *)
(** * Account state in the keeper
    (x/evm/keeper/{address,nonce,code,state,balance,coinbase}.go and the
    replay hook of keeper.go)

    Address associations, nonces, contract code and storage, and balances.
    Readers are functions of the world; writers that emit events are functions
    of the context. *)

From S2P Require Import Prelude Bytes Store Params Keys World Instances.
From Stdlib Require Import Strings.Byte.
Local Open Scope Z_scope.

Definition EventTypeAddressAssociated : string := "address_associated".
Definition AttributeKeyEvmAddress : string := "evm_addr".
Definition AttributeKeyTabiAddress : string := "tabi_addr".
Definition FeeCollectorName : string := "fee_collector".
Definition ModuleName : string := "evm".

(** An account of the Ethereum trie, for replay mode. *)
Record EthAccount : Type := mkEthAccount {
  ea_Root : Hash;
  ea_Balance : option Z;
  ea_Nonce : Z;
  ea_CodeHash : bytes
}.

(** The keeper's configuration: replay and block-test modes, and the Ethereum
    state database they read ([Trie.GetAccount], [DB.ContractCode],
    [OpenStorageTrie] with [GetStorage]). *)
Class KeeperConfig := {
  EthReplayConfig_Enabled : bool;
  EthBlockTestConfig_Enabled : bool;
  Trie_GetAccount : Address → option EthAccount;
  DB_ContractCode : Address → Hash → option bytes;
  Trie_GetStorage : Address → bytes → Hash → outcome (option bytes)
}.

Section Keeper.
Context `{BK : BankKeeper B} `{AK : AccountKeeper A} `{EC : EthCrypto} `{KC : KeeperConfig}.
Context `{MST : MultiStore MS (World B A)}.
Notation World := (World B A).
Notation Ctx := (Ctx MS).

(** ** Address associations (address.go) *)

Definition GetTabiAddress (w : World) (evmAddress : Address) : option AccAddress :=
  w_evm w !! EVMAddressToTabiAddressKey evmAddress.

Definition GetTabiAddressOrDefault (w : World) (evmAddress : Address) : AccAddress :=
  match GetTabiAddress w evmAddress with
  | Some addr => addr
  | None => ba evmAddress
  end.

(** [copy(addr[:], bz)]: the first bytes of [bz], zeroes after them. *)
Definition copy_address (bz : bytes) : Address :=
  fit 20 (take 20 (bz ++ replicate 20 x00)).

Definition GetEVMAddress (w : World) (tabiAddress : AccAddress) : option Address :=
  copy_address <$> w_evm w !! TabiAddressToEVMAddressKey tabiAddress.

Definition GetEVMAddressOrDefault (w : World) (tabiAddress : AccAddress) : Address :=
  match GetEVMAddress w tabiAddress with
  | Some addr => addr
  | None => BytesToAddress tabiAddress
  end.

Definition SetAddressMapping (tabiAddress : AccAddress) (evmAddress : Address) (c : Ctx) : Ctx :=
  let c1 := cupd (set_evm (λ m,
    <[TabiAddressToEVMAddressKey tabiAddress := ba evmAddress]>
      (<[EVMAddressToTabiAddressKey evmAddress := tabiAddress]> m))) c in
  let c2 :=
    if negb (ak_HasAccount (w_acct (cview c1)) tabiAddress)
    then cupd (λ w, set_acct (ak_SetNewAccount (w_acct w) tabiAddress) w) c1
    else c1 in
  cemit [mkEvent EventTypeAddressAssociated
    [(AttributeKeyTabiAddress, VAcc tabiAddress); (AttributeKeyEvmAddress, VHex evmAddress)]] c2.

Definition DeleteAddressMapping (tabiAddress : AccAddress) (evmAddress : Address) (w : World) : World :=
  set_evm (λ m, delete (TabiAddressToEVMAddressKey tabiAddress)
                  (delete (EVMAddressToTabiAddressKey evmAddress) m)) w.

(** The callback of [IterateTabiAddressMapping] applied to each association
    in key order, until it returns true. *)
Fixpoint iterate_until {S : Type} (cb : bytes * bytes → S → S * bool)
    (l : list (bytes * bytes)) (s : S) : S :=
  match l with
  | [] => s
  | e :: l' => let '(s', stop) := cb e s in if stop then s' else iterate_until cb l' s'
  end.

Definition IterateTabiAddressMapping {S : Type} (w : World)
    (cb : Address → AccAddress → S → S * bool) (s : S) : S :=
  iterate_until (λ e, cb (BytesToAddress e.1) e.2)
    (Iterator (prefix_store EVMAddressToTabiAddressKeyPrefix (w_evm w))) s.

Definition CanAddressReceive (w : World) (addr : AccAddress) : bool :=
  let directCast := BytesToAddress addr in
  match GetTabiAddress w directCast with
  | Some associatedAddr => bool_decide (associatedAddr = addr)
  | None => true
  end.

(** ** Nonces (nonce.go) *)

Definition GetNonce (w : World) (addr : Address) : outcome Z :=
  match w_evm w !! (NonceKeyPrefix ++ ba addr) with
  | None => Ret 0
  | Some bz => Uint64 bz
  end.

Definition SetNonce (addr : Address) (nonce : Z) (w : World) : World :=
  set_evm (prefix_set NonceKeyPrefix (ba addr) (PutUint64 nonce)) w.

(** ** Balances (balance.go) *)

Definition GetBalance (w : World) (addr : AccAddress) : Z :=
  let allAtabi := bk_GetBalance (w_bank w) addr BaseDenom in
  let lockedAtabi := bk_LockedCoins (w_bank w) addr BaseDenom in
  let atabi := allAtabi - lockedAtabi in
  let wei := bk_GetWeiBalance (w_bank w) addr in
  atabi * AtabiToWeiMultiplier + wei.

(** ** Contract code (code.go) *)

Definition GetCode (w : World) (addr : Address) : option bytes :=
  match w_evm w !! (CodeKeyPrefix ++ ba addr) with
  | Some (b :: code) => Some (b :: code)
  | _ => None
  end.

(** [code] is the slice with nil and the empty slice identified: both are
    stored as the empty code. *)
Definition SetCode (addr : Address) (code : bytes) (c : Ctx) : Ctx :=
  let h := Keccak256Hash code in
  let c1 := cupd (set_evm (λ m,
    prefix_set CodeHashKeyPrefix (ba addr) (ba h)
      (prefix_set CodeSizeKeyPrefix (ba addr) (PutUint64 (Z.of_nat (length code)))
        (prefix_set CodeKeyPrefix (ba addr) code m)))) c in
  match GetTabiAddress (cview c1) addr with
  | Some _ => c1
  | None => SetAddressMapping (GetTabiAddressOrDefault (cview c1) addr) addr c1
  end.

Definition GetCodeHash (w : World) (addr : Address) : Hash :=
  match w_evm w !! (CodeHashKeyPrefix ++ ba addr) with
  | None =>
      if GetBalance w (GetTabiAddressOrDefault w addr) =? 0 then zero_hash else EmptyCodeHash
  | Some bz => BytesToHash bz
  end.

(** [int(binary.BigEndian.Uint64(bz))] on a 64-bit platform. *)
Definition GetCodeSize (w : World) (addr : Address) : outcome Z :=
  match w_evm w !! (CodeSizeKeyPrefix ++ ba addr) with
  | None => Ret 0
  | Some bz => outcome_bind (Uint64 bz) (λ n, Ret (i64 n))
  end.

(** ** Contract storage (state.go) *)

Definition GetState (w : World) (addr : Address) (hash : Hash) : outcome Hash :=
  match w_evm w !! (StateKey addr ++ ba hash) with
  | Some val => Ret (BytesToHash val)
  | None =>
      if EthReplayConfig_Enabled then
        let root := BytesToHash (default [] (w_evm w !! (ReplaySeenAddrPrefix ++ ba addr))) in
        outcome_bind (Trie_GetStorage addr (ba root) hash) (λ r,
        match r with
        | None => Ret zero_hash
        | Some val => Ret (BytesToHash val)
        end)
      else Ret zero_hash
  end.

Definition SetState (addr : Address) (key val : Hash) (w : World) : World :=
  if bool_decide (val = zero_hash)
  then set_evm (prefix_delete (StateKey addr) (ba key)) w
  else set_evm (prefix_set (StateKey addr) (ba key) (ba val)) w.

(** ** The fee collector (coinbase.go)

    The address is looked up once and cached in the keeper. *)

Definition GetFeeCollectorAddress (cache : option Address) (w : World)
    : (Address * option Err) * option Address :=
  match cache with
  | Some a => ((a, None), cache)
  | None =>
      match GetEVMAddress w (ak_GetModuleAddress FeeCollectorName) with
      | None => ((zero_address, Some "fee collector's EVM address not found"%string), None)
      | Some evmAddr => ((evmAddr, None), Some evmAddr)
      end
  end.

(** ** Amounts in wei (x/evm/state/utils.go) *)

(** [big.Int.Mod] is Euclidean, [big.Int.Quo] truncates. *)
Definition SplitAtabiWeiAmount (amt : Z) : Z * Z :=
  (Z.quot amt AtabiToWeiMultiplier, amt `mod` AtabiToWeiMultiplier).

(** ** The replay hook (keeper.go) *)

(** Run a bank call in a context: state and events always take effect. *)
Definition run_bank (f : B → bank_res B) (c : Ctx) : Ctx * option Err :=
  let '(b, evs, e) := f (w_bank (cview c)) in
  (cemit evs (cput (set_bank b (cview c)) c), e).

Definition PrepareReplayedAddr (addr : Address) (c : Ctx) : outcome Ctx :=
  if negb EthReplayConfig_Enabled then Ret c else
  match default [] (w_evm (cview c) !! (ReplaySeenAddrPrefix ++ ba addr)) with
  | _ :: _ => Ret c
  | [] =>
  match Trie_GetAccount addr with
  | None => Ret c
  | Some a =>
      let c1 := cupd (set_evm (prefix_set ReplaySeenAddrPrefix (ba addr) (ba (ea_Root a)))) c in
      outcome_bind
        (match ea_Balance a with
         | Some bal =>
             if bal =? 0 then Ret c1 else
             let '(atabi, wei) := SplitAtabiWeiAmount bal in
             let '(c2, e) := run_bank (λ b,
               bk_AddCoins b (GetTabiAddressOrDefault (cview c1) addr) BaseDenom atabi) c1 in
             match e with
             | Some m => Panic m
             | None =>
                 let '(c3, e') := run_bank (λ b,
                   bk_AddWei b (GetTabiAddressOrDefault (cview c2) addr) wei) c2 in
                 match e' with Some m => Panic m | None => Ret c3 end
             end
         | None => Ret c1
         end) (λ c2,
      let c3 := cupd (SetNonce addr (ea_Nonce a)) c2 in
      if bool_decide (ea_CodeHash a = ba EmptyCodeHash) then Ret c3 else
      let c4 := cupd (set_evm (prefix_set CodeHashKeyPrefix (ba addr) (ea_CodeHash a))) c3 in
      match DB_ContractCode addr (BytesToHash (ea_CodeHash a)) with
      | None => Panic "contract code not found"
      | Some [] => Ret c4
      | Some code =>
          Ret (cupd (set_evm (λ m,
            prefix_set CodeSizeKeyPrefix (ba addr) (PutUint64 (Z.of_nat (length code)))
              (prefix_set CodeKeyPrefix (ba addr) code m))) c4)
      end)
  end
  end.

(** The association maps agree with each other: every EVM address that has a
    Tabi address is the one recorded for that Tabi address. *)
Definition assoc_wf (w : World) : Prop :=
  ∀ e t, GetTabiAddress w e = Some t → GetEVMAddress w t = Some e.

End Keeper.

(** * Lemmas *)

(** ** Splitting an amount *)

Lemma SplitAtabiWeiAmount_spec amt :
  0 ≤ amt →
  let '(atabi, wei) := SplitAtabiWeiAmount amt in
  amt = atabi * AtabiToWeiMultiplier + wei ∧ 0 ≤ wei < AtabiToWeiMultiplier ∧ 0 ≤ atabi.
Proof.
  intros H. unfold SplitAtabiWeiAmount, AtabiToWeiMultiplier.
  pose proof (Z.quot_div_nonneg amt 1000000000000 ltac:(lia) ltac:(lia)).
  pose proof (Z.div_mod amt 1000000000000 ltac:(lia)).
  pose proof (Z.mod_pos_bound amt 1000000000000 ltac:(lia)).
  pose proof (Z.div_pos amt 1000000000000 ltac:(lia) ltac:(lia)). lia.
Qed.

Section KeeperLemmas.
Context `{BK : BankKeeper B} `{AK : AccountKeeper A} `{EC : EthCrypto} `{KC : KeeperConfig}.
Context `{MST : MultiStore MS (World B A)} `{MSL : !MultiStoreLaws MS (World B A)}.
Notation World := (World B A).
Notation Ctx := (Ctx MS).
Implicit Types (w : World) (c : Ctx) (a e : Address) (t : AccAddress).

Lemma copy_address_ba a : copy_address (ba a) = a.
Proof.
  apply ba_inj. unfold copy_address. rewrite ba_fit_id.
  - rewrite take_app_le by (rewrite ba_length; lia). by rewrite take_ge by (rewrite ba_length; lia).
  - rewrite length_take, length_app, ba_length, length_replicate. lia.
Qed.

Lemma set_evm_evm f w : w_evm (set_evm f w) = f (w_evm w).
Proof. done. Qed.

(** The store after [SetAddressMapping]; the other stores of the module and
    the bank are not touched. *)
(** What a bank call does to the stores. *)
Lemma run_bank_view (f : B → bank_res B) (c : Ctx) :
  cview (run_bank f c).1 = set_bank (f (w_bank (cview c))).1.1 (cview c) ∧
  (run_bank f c).2 = (f (w_bank (cview c))).2.
Proof.
  unfold run_bank. destruct (f (w_bank (cview c))) as [[b evs] e]. simpl.
  by rewrite cview_cemit, cview_cput.
Qed.

Lemma SetAddressMapping_evm t e c :
  w_evm (cview (SetAddressMapping t e c)) =
  <[TabiAddressToEVMAddressKey t := ba e]>
    (<[EVMAddressToTabiAddressKey e := t]> (w_evm (cview c))).
Proof.
  unfold SetAddressMapping. rewrite cview_cemit.
  destruct (negb _); rewrite ?cview_cupd; simpl; by rewrite ?cview_cupd.
Qed.

Lemma SetAddressMapping_bank t e c :
  w_bank (cview (SetAddressMapping t e c)) = w_bank (cview c).
Proof.
  unfold SetAddressMapping. rewrite cview_cemit.
  destruct (negb _); rewrite ?cview_cupd; simpl; by rewrite ?cview_cupd.
Qed.

Lemma SetAddressMapping_transient t e c :
  w_transient (cview (SetAddressMapping t e c)) = w_transient (cview c).
Proof.
  unfold SetAddressMapping. rewrite cview_cemit.
  destruct (negb _); rewrite ?cview_cupd; simpl; by rewrite ?cview_cupd.
Qed.

Lemma SetAddressMapping_GetTabi t e e' c :
  GetTabiAddress (cview (SetAddressMapping t e c)) e' =
  if decide (e' = e) then Some t else GetTabiAddress (cview c) e'.
Proof.
  unfold GetTabiAddress. rewrite SetAddressMapping_evm.
  rewrite lookup_insert_ne by key_ne. case_decide as He.
  - subst. by rewrite lookup_insert_eq.
  - rewrite lookup_insert_ne; [done|]. key_ne.
Qed.

Lemma SetAddressMapping_GetEVM t t' e c :
  GetEVMAddress (cview (SetAddressMapping t e c)) t' =
  if decide (t' = t) then Some e else GetEVMAddress (cview c) t'.
Proof.
  unfold GetEVMAddress. rewrite SetAddressMapping_evm. case_decide as Ht.
  - subst. rewrite lookup_insert_eq. simpl. by rewrite copy_address_ba.
  - rewrite lookup_insert_ne; [|key_ne]. by rewrite lookup_insert_ne by key_ne.
Qed.

Lemma SetAddressMapping_other_key t e c k :
  k ≠ TabiAddressToEVMAddressKey t → k ≠ EVMAddressToTabiAddressKey e →
  w_evm (cview (SetAddressMapping t e c)) !! k = w_evm (cview c) !! k.
Proof. intros H1 H2. rewrite SetAddressMapping_evm. by rewrite !lookup_insert_ne. Qed.

(** ** Association invariant *)

Lemma assoc_wf_SetAddressMapping t e c :
  assoc_wf (cview c) → GetEVMAddress (cview c) t = None →
  assoc_wf (cview (SetAddressMapping t e c)).
Proof.
  intros Hwf Hnone e' t'. rewrite SetAddressMapping_GetTabi, SetAddressMapping_GetEVM.
  case_decide as He.
  - subst. intros [= <-]. by rewrite decide_True.
  - intros H. apply Hwf in H. case_decide; congruence.
Qed.

Lemma DeleteAddressMapping_GetTabi t e e' w :
  GetTabiAddress (DeleteAddressMapping t e w) e' =
  if decide (e' = e) then None else GetTabiAddress w e'.
Proof.
  unfold GetTabiAddress, DeleteAddressMapping. rewrite set_evm_evm.
  rewrite lookup_delete_ne by key_ne. case_decide as He.
  - subst. by rewrite lookup_delete_eq.
  - rewrite lookup_delete_ne; [done|]. key_ne.
Qed.

Lemma DeleteAddressMapping_GetEVM t t' e w :
  GetEVMAddress (DeleteAddressMapping t e w) t' =
  if decide (t' = t) then None else GetEVMAddress w t'.
Proof.
  unfold GetEVMAddress, DeleteAddressMapping. rewrite set_evm_evm. case_decide as Ht.
  - subst. by rewrite lookup_delete_eq.
  - rewrite lookup_delete_ne; [|key_ne]. by rewrite lookup_delete_ne by key_ne.
Qed.

Lemma assoc_wf_DeleteAddressMapping t e w :
  assoc_wf w → GetTabiAddress w e = Some t → assoc_wf (DeleteAddressMapping t e w).
Proof.
  intros Hwf He e' t'. rewrite DeleteAddressMapping_GetTabi, DeleteAddressMapping_GetEVM.
  case_decide; [done|]. intros Hin. apply Hwf in Hin. apply Hwf in He.
  case_decide; congruence.
Qed.

(** ** Storage, nonces, code *)

Lemma SetState_GetState a k v w :
  EthReplayConfig_Enabled = false → GetState (SetState a k v w) a k = Ret v.
Proof.
  intros Hr. unfold SetState, GetState, prefix_set, prefix_delete. rewrite Hr.
  case_bool_decide as Hv; rewrite set_evm_evm.
  - rewrite lookup_delete_eq. by subst.
  - rewrite lookup_insert_eq. by rewrite BytesToHash_ba.
Qed.

Lemma SetState_evm_ne a k v w key :
  key ≠ StateKey a ++ ba k → w_evm (SetState a k v w) !! key = w_evm w !! key.
Proof.
  intros Hne. unfold SetState, prefix_set, prefix_delete. case_bool_decide; rewrite set_evm_evm.
  - by rewrite lookup_delete_ne.
  - by rewrite lookup_insert_ne.
Qed.

Lemma SetState_GetState_ne a b k l v w :
  (a, k) ≠ (b, l) → GetState (SetState a k v w) b l = GetState w b l.
Proof.
  intros Hne. unfold GetState. rewrite !SetState_evm_ne; [done|..].
  - key_ne.
  - by apply not_eq_sym, state_slot_ne.
Qed.

Lemma SetNonce_GetNonce a n w : GetNonce (SetNonce a n w) a = Ret (u64 n).
Proof.
  unfold GetNonce, SetNonce, prefix_set. rewrite set_evm_evm, lookup_insert_eq.
  apply Uint64_PutUint64.
Qed.

Lemma SetNonce_GetNonce_ne a b n w : a ≠ b → GetNonce (SetNonce a n w) b = GetNonce w b.
Proof.
  intros Hne. unfold GetNonce, SetNonce, prefix_set. rewrite set_evm_evm.
  rewrite lookup_insert_ne; [done|]. key_ne.
Qed.

Lemma GetBalance_spendable w t : GetBalance w t = spendable (w_bank w) t.
Proof. unfold GetBalance, spendable, wei_value. lia. Qed.

Lemma SetCode_other_key a code c key :
  key ≠ CodeKeyPrefix ++ ba a → key ≠ CodeSizeKeyPrefix ++ ba a →
  key ≠ CodeHashKeyPrefix ++ ba a → key ≠ EVMAddressToTabiAddressKey a →
  key ≠ TabiAddressToEVMAddressKey (ba a) →
  w_evm (cview (SetCode a code c)) !! key = w_evm (cview c) !! key.
Proof.
  intros H1 H2 H3 H4 H5. unfold SetCode, prefix_set. rewrite !cview_cupd.
  destruct (GetTabiAddress _ a) as [t|] eqn:E.
  - rewrite cview_cupd, set_evm_evm. by rewrite !lookup_insert_ne.
  - unfold GetTabiAddressOrDefault. rewrite E, SetAddressMapping_evm, cview_cupd, set_evm_evm.
    by rewrite !lookup_insert_ne.
Qed.

Lemma SetCode_store a code c :
  let m := w_evm (cview (SetCode a code c)) in
  m !! (CodeKeyPrefix ++ ba a) = Some code ∧
  m !! (CodeSizeKeyPrefix ++ ba a) = Some (PutUint64 (Z.of_nat (length code))) ∧
  m !! (CodeHashKeyPrefix ++ ba a) = Some (ba (Keccak256Hash code)).
Proof.
  cbv zeta. unfold SetCode, prefix_set. rewrite !cview_cupd.
  destruct (GetTabiAddress _ a) as [t|] eqn:E; rewrite ?SetAddressMapping_evm, ?cview_cupd, ?set_evm_evm;
    repeat (rewrite lookup_insert_ne by key_ne);
    split_and!; repeat (rewrite lookup_insert_ne by key_ne); by rewrite lookup_insert_eq.
Qed.

Lemma SetCode_GetTabi a b code c :
  GetTabiAddress (cview (SetCode a code c)) b =
  if decide (b = a) then Some (GetTabiAddressOrDefault (cview c) a) else GetTabiAddress (cview c) b.
Proof.
  assert (Hkeep : ∀ b, GetTabiAddress (cview (cupd (set_evm (λ m,
    prefix_set CodeHashKeyPrefix (ba a) (ba (Keccak256Hash code))
      (prefix_set CodeSizeKeyPrefix (ba a) (PutUint64 (Z.of_nat (length code)))
        (prefix_set CodeKeyPrefix (ba a) code m)))) c)) b = GetTabiAddress (cview c) b).
  { intros b'. unfold GetTabiAddress, prefix_set. rewrite cview_cupd, set_evm_evm.
    by rewrite !lookup_insert_ne by key_ne. }
  unfold SetCode. unfold GetTabiAddressOrDefault.
  rewrite Hkeep. destruct (GetTabiAddress (cview c) a) as [t|] eqn:E.
  - rewrite Hkeep. case_decide; congruence.
  - rewrite SetAddressMapping_GetTabi, Hkeep. done.
Qed.

End KeeperLemmas.

(** * The associations as a state machine

    The steps by which the module changes the two association maps: a new
    association of an unassociated Tabi address (EVMPreprocessDecorator,
    AssociateContractAddress), the cast association [SetCode] makes for a
    contract address, and the removal at self-destruction.  Nonce and storage
    writes are steps too. *)

Section Associations.
Context `{BK : BankKeeper B} `{AK : AccountKeeper A} `{EC : EthCrypto} `{KC : KeeperConfig}.
Context `{MST : MultiStore MS (World B A)}.

Inductive assoc_step : Ctx MS → Ctx MS → Prop :=
| step_associate t e c :
    GetEVMAddress (cview c) t = None →
    assoc_step c (SetAddressMapping t e c)
| step_set_code a code c :
    (GetTabiAddress (cview c) a = None → GetEVMAddress (cview c) (ba a) = None) →
    assoc_step c (SetCode a code c)
| step_delete t e c :
    GetTabiAddress (cview c) e = Some t →
    assoc_step c (cupd (DeleteAddressMapping t e) c)
| step_nonce a n c : assoc_step c (cupd (SetNonce a n) c)
| step_state a k v c : assoc_step c (cupd (SetState a k v) c).

End Associations.

Section KeeperTheorems.
Context `{BK : BankKeeper B} `{AK : AccountKeeper A} `{EC : EthCrypto} `{KC : KeeperConfig}.
Context `{MST : MultiStore MS (World B A)} `{MSL : !MultiStoreLaws MS (World B A)}.
Notation World := (World B A).
Notation Ctx := (Ctx MS).

Lemma assoc_wf_same_store (w w' : World) :
  (∀ e, GetTabiAddress w' e = GetTabiAddress w e) →
  (∀ t, GetEVMAddress w' t = GetEVMAddress w t) → assoc_wf w → assoc_wf w'.
Proof. intros H1 H2 Hwf e t. rewrite H1, H2. apply Hwf. Qed.

(** The context after the three code records are written, before the address
    is associated. *)
Definition code_written (a : Address) (code : bytes) : Ctx → Ctx :=
  cupd (set_evm (λ m,
    prefix_set CodeHashKeyPrefix (ba a) (ba (Keccak256Hash code))
      (prefix_set CodeSizeKeyPrefix (ba a) (PutUint64 (Z.of_nat (length code)))
        (prefix_set CodeKeyPrefix (ba a) code m)))).

Lemma code_written_GetTabi a code (c : Ctx) e :
  GetTabiAddress (cview (code_written a code c)) e = GetTabiAddress (cview c) e.
Proof.
  unfold GetTabiAddress, code_written, prefix_set. rewrite cview_cupd, set_evm_evm.
  by rewrite !lookup_insert_ne by key_ne.
Qed.

Lemma code_written_GetEVM a code (c : Ctx) t :
  GetEVMAddress (cview (code_written a code c)) t = GetEVMAddress (cview c) t.
Proof.
  unfold GetEVMAddress, code_written, prefix_set. rewrite cview_cupd, set_evm_evm.
  by rewrite !lookup_insert_ne by key_ne.
Qed.

Lemma SetCode_eq a code (c : Ctx) :
  SetCode a code c =
  match GetTabiAddress (cview c) a with
  | Some _ => code_written a code c
  | None => SetAddressMapping (ba a) a (code_written a code c)
  end.
Proof.
  unfold SetCode. fold (code_written a code c). unfold GetTabiAddressOrDefault.
  rewrite code_written_GetTabi. by destruct (GetTabiAddress (cview c) a).
Qed.

Lemma assoc_wf_SetCode a code (c : Ctx) :
  (GetTabiAddress (cview c) a = None → GetEVMAddress (cview c) (ba a) = None) →
  assoc_wf (cview c) → assoc_wf (cview (SetCode a code c)).
Proof.
  intros Hg Hwf.
  assert (assoc_wf (cview (code_written a code c))).
  { eapply assoc_wf_same_store; [..|exact Hwf]; intros;
      [apply code_written_GetTabi|apply code_written_GetEVM]. }
  rewrite SetCode_eq. destruct (GetTabiAddress (cview c) a) eqn:E; [done|].
  apply assoc_wf_SetAddressMapping; [done|]. rewrite code_written_GetEVM. by apply Hg.
Qed.

Lemma assoc_wf_step (c c' : Ctx) : assoc_step c c' → assoc_wf (cview c) → assoc_wf (cview c').
Proof.
  intros [t e c0 H|a code c0 H|t e c0 H|a n c0|a k v c0] Hwf; rewrite ?cview_cupd.
  - by apply assoc_wf_SetAddressMapping.
  - by apply assoc_wf_SetCode.
  - by apply assoc_wf_DeleteAddressMapping.
  - eapply assoc_wf_same_store; [..|exact Hwf]; intros;
      unfold GetTabiAddress, GetEVMAddress, SetNonce, prefix_set; rewrite set_evm_evm;
      by rewrite lookup_insert_ne by key_ne.
  - eapply assoc_wf_same_store; [..|exact Hwf]; intros;
      unfold GetTabiAddress, GetEVMAddress; by rewrite SetState_evm_ne by key_ne.
Qed.

(** Associations agree in both directions along every run of association
    steps: if every EVM address with a Tabi address is the one recorded for
    that Tabi address, this is still so after any sequence of associations,
    contract creations, self-destructions, nonce and storage writes, and no two
    EVM addresses then share a Tabi address. *)
Theorem associations_consistent (c c' : Ctx) :
  rtc assoc_step c c' → assoc_wf (cview c) →
  assoc_wf (cview c') ∧
  (∀ e1 e2 t, GetTabiAddress (cview c') e1 = Some t → GetTabiAddress (cview c') e2 = Some t → e1 = e2).
Proof.
  intros Hrtc Hwf.
  assert (Hwf' : assoc_wf (cview c')).
  { induction Hrtc; eauto using assoc_wf_step. }
  split; [done|]. intros e1 e2 t H1 H2. apply Hwf' in H1. apply Hwf' in H2. congruence.
Qed.

(** An association can be read back in both directions, leaves every other
    association alone, and does not touch balances, nonces, code or storage. *)
Theorem SetAddressMapping_spec (t : AccAddress) (e : Address) (c : Ctx) :
  let w := cview c in
  let w' := cview (SetAddressMapping t e c) in
  GetTabiAddress w' e = Some t ∧ GetEVMAddress w' t = Some e ∧
  (∀ e', e' ≠ e → GetTabiAddress w' e' = GetTabiAddress w e') ∧
  (∀ t', t' ≠ t → GetEVMAddress w' t' = GetEVMAddress w t') ∧
  (∀ a, GetBalance w' a = GetBalance w a) ∧
  (∀ a, GetNonce w' a = GetNonce w a) ∧
  (∀ a, GetCode w' a = GetCode w a ∧ GetCodeSize w' a = GetCodeSize w a) ∧
  (∀ a k, GetState w' a k = GetState w a k).
Proof.
  cbv zeta. split_and!.
  - rewrite SetAddressMapping_GetTabi. by rewrite decide_True.
  - rewrite SetAddressMapping_GetEVM. by rewrite decide_True.
  - intros e' He. rewrite SetAddressMapping_GetTabi. by rewrite decide_False.
  - intros t' Ht. rewrite SetAddressMapping_GetEVM. by rewrite decide_False.
  - intros a. unfold GetBalance. by rewrite SetAddressMapping_bank.
  - intros a. unfold GetNonce. by rewrite SetAddressMapping_other_key by key_ne.
  - intros a. unfold GetCode, GetCodeSize. by rewrite !SetAddressMapping_other_key by key_ne.
  - intros a k. unfold GetState. by rewrite !SetAddressMapping_other_key by key_ne.
Qed.

(** Code written to an address is read back with its size and hash, the
    other addresses keep theirs, and the address is associated afterwards: with
    the Tabi address it had, or with its own bytes. *)
Theorem SetCode_spec (a : Address) (code : bytes) (c : Ctx) :
  Z.of_nat (length code) ≤ maxInt64 →
  let w := cview c in
  let w' := cview (SetCode a code c) in
  GetCode w' a = (if decide (code = []) then None else Some code) ∧
  GetCodeSize w' a = Ret (Z.of_nat (length code)) ∧
  GetCodeHash w' a = Keccak256Hash code ∧
  GetTabiAddress w' a = Some (GetTabiAddressOrDefault w a) ∧
  (∀ b, b ≠ a → GetCode w' b = GetCode w b ∧ GetCodeSize w' b = GetCodeSize w b) ∧
  (∀ b, GetNonce w' b = GetNonce w b) ∧
  (∀ b k, GetState w' b k = GetState w b k).
Proof.
  intros Hlen. cbv zeta.
  destruct (SetCode_store a code c) as (H1 & H2 & H3). split_and!.
  - unfold GetCode. rewrite H1. by destruct code.
  - unfold GetCodeSize. rewrite H2, Uint64_PutUint64. simpl. f_equal.
    unfold maxInt64 in *. rewrite u64_id by (unfold is_u64, two64; lia).
    apply i64_id. unfold maxInt64. lia.
  - unfold GetCodeHash. rewrite H3. apply BytesToHash_ba.
  - rewrite SetCode_GetTabi. by rewrite decide_True.
  - intros b Hb. unfold GetCode, GetCodeSize. by rewrite !SetCode_other_key by key_ne.
  - intros b. unfold GetNonce. by rewrite SetCode_other_key by key_ne.
  - intros b k. unfold GetState. by rewrite !SetCode_other_key by key_ne.
Qed.

(** A storage slot reads back what was last written to it, zero included,
    and a write changes no other slot of any account, no nonce, no code and no
    association. *)
Theorem SetState_spec (a : Address) (k v : Hash) (w : World) :
  EthReplayConfig_Enabled = false →
  let w' := SetState a k v w in
  GetState w' a k = Ret v ∧
  (∀ b l, (b, l) ≠ (a, k) → GetState w' b l = GetState w b l) ∧
  (∀ b, GetNonce w' b = GetNonce w b ∧ GetCode w' b = GetCode w b ∧
        GetTabiAddress w' b = GetTabiAddress w b).
Proof.
  intros Hr. cbv zeta. split_and!.
  - by apply SetState_GetState.
  - intros b l Hne. apply SetState_GetState_ne. congruence.
  - intros b. unfold GetNonce, GetCode, GetTabiAddress. by rewrite !SetState_evm_ne by key_ne.
Qed.

(** An address may receive funds exactly when no other account is
    associated with the EVM address its bytes cast to. *)
Theorem CanAddressReceive_spec (w : World) (t : AccAddress) :
  CanAddressReceive w t = false ↔
  ∃ t', GetTabiAddress w (BytesToAddress t) = Some t' ∧ t' ≠ t.
Proof.
  unfold CanAddressReceive. destruct (GetTabiAddress w _) as [t'|].
  - rewrite bool_decide_eq_false. naive_solver.
  - naive_solver.
Qed.

End KeeperTheorems.

(** * Examples *)

Section KeeperExamples.
#[local] Existing Instances demo_bank_keeper demo_accounts demo_crypto.
#[local] Instance demo_stores : MultiStore (stack_ms demo_world) demo_world := stack_multistore demo_world.
#[local] Instance demo_stores_laws : MultiStoreLaws (stack_ms demo_world) demo_world :=
  stack_multistore_laws demo_world.

(** Replay and block-test modes off. *)
Definition live_config : KeeperConfig :=
  {| EthReplayConfig_Enabled := false; EthBlockTestConfig_Enabled := false;
     Trie_GetAccount _ := None; DB_ContractCode _ _ := None; Trie_GetStorage _ _ _ := Ret None |}.
#[local] Existing Instance live_config.

Lemma associations_consistent_witness :
  let c := demo_ctx demo_world0 in
  let c' := SetCode (addr_of 9) [x60] (SetAddressMapping (str_bytes "alice") (addr_of 7) c) in
  GetTabiAddress (cview c') (addr_of 7) = Some (str_bytes "alice") ∧
  assoc_wf (cview c').
Proof.
  split; [vm_compute; reflexivity|].
  refine (proj1 (associations_consistent (demo_ctx demo_world0) _ _ _)).
  - eapply rtc_l; [apply (step_associate (str_bytes "alice") (addr_of 7)); vm_compute; reflexivity|].
    eapply rtc_l; [apply (step_set_code (addr_of 9) [x60]); intros _; vm_compute; reflexivity|].
    apply rtc_refl.
  - intros e t H. unfold GetTabiAddress in H. simpl in H. discriminate H.
Defined.

Lemma SetAddressMapping_spec_witness :
  GetTabiAddress (cview (SetAddressMapping (str_bytes "alice") (addr_of 7) (demo_ctx demo_world0)))
    (addr_of 7) = Some (str_bytes "alice").
Proof.
  exact (proj1 (SetAddressMapping_spec (str_bytes "alice") (addr_of 7) (demo_ctx demo_world0))).
Defined.

Lemma SetCode_spec_witness :
  Z.of_nat (length [x60; x80]) ≤ maxInt64 ∧
  GetCode (cview (SetCode (addr_of 9) [x60; x80] (demo_ctx demo_world0))) (addr_of 9)
    = Some [x60; x80].
Proof.
  assert (H : Z.of_nat (length [x60; x80]) ≤ maxInt64) by (vm_compute; discriminate).
  split; [exact H|].
  exact (proj1 (SetCode_spec (addr_of 9) [x60; x80] (demo_ctx demo_world0) H)).
Defined.

Lemma SetState_spec_witness :
  GetState (SetState (addr_of 9) (hash_of 1) (hash_of 5) demo_world0) (addr_of 9) (hash_of 1)
    = Ret (hash_of 5).
Proof.
  exact (proj1 (SetState_spec (addr_of 9) (hash_of 1) (hash_of 5) demo_world0 eq_refl)).
Defined.

End KeeperExamples.
