(* ===== verification/StateDB.v ===== *)
(** * The EVM's state database
    (x/evm/state/{statedb,balance,state,accesslist,check,code,log,nonce,refund,
    transfer,utils,keys}.go)

    [DBImpl] keeps a stack of branched contexts, one per EVM snapshot, and next
    to it a stack of temporary states: logs, transient storage, account marks,
    the refund counter, access lists and the surplus.  Every method of the Go
    type is a computation over the record [DBImpl].

    Go maps keyed by [addr.Hex()] and [key.Hex()] are maps keyed by the address
    and the hash: the hexadecimal form and [HexToAddress] are inverse to each
    other.  [sdk.Int] amounts are integers. *)

From S2P Require Import Prelude Bytes Store Params Keys World Keeper.
From Stdlib Require Import Strings.Byte.
Local Open Scope Z_scope.
Local Open Scope stm_scope.

(** ** Constants (keys.go, utils.go) *)

Definition GasRefundKey : bytes := [x01].
Definition AccountCreated : bytes := [x01].
Definition AccountDeleted : bytes := [x02].
Definition CoinbaseAddressPrefix : bytes := str_bytes "evm_coinbase".

(** [uint64(txIdx)] is what [PutUint64] writes. *)
Definition GetCoinbaseAddress (txIdx : Z) : AccAddress := CoinbaseAddressPrefix ++ PutUint64 txIdx.

(** [0x0000000000000000000000000000000000001001] *)
Definition CustomPrecompileStartingAddr : Address := fit 20 [x10; x01].

(** ** Data *)

(** The fields of [ethtypes.Log] that the module reads or writes. *)
Record Log : Type := mkLog {
  l_Address : Address;
  l_Topics : list Hash;
  l_Data : bytes;
  l_Index : Z
}.

(** [tracing.BalanceChangeReason], as far as this package names them. *)
Inductive Reason : Type :=
| BalanceDecreaseSelfdestruct
| BalanceDecreaseSelfdestructBurn
| BalanceChangeTransfer
| OtherReason (n : Z).

(** Calls of the tracing hooks. *)
Inductive HookCall : Type :=
| OnBalanceChange (a : Address) (old new : Z) (reason : Reason)
| OnStorageChange (a : Address) (key old new : Hash)
| OnCodeChange (a : Address) (oldHash : Hash) (oldCode : option bytes) (newHash : Hash) (code : bytes)
| OnNonceChange (a : Address) (old new : Z)
| OnLog (l : Log).

(** Which hooks a logger has. *)
Record Hooks : Type := mkHooks {
  hk_balance : bool;
  hk_storage : bool;
  hk_code : bool;
  hk_nonce : bool;
  hk_log : bool
}.

Record accessList : Type := mkAccessList {
  Addresses : gmap Address Z;
  Slots : list (gset Hash)
}.

Record TemporaryState : Type := mkTemporaryState {
  logs : list Log;
  transientStates : gmap Address (gmap Hash Hash);
  transientAccounts : gmap Address bytes;
  transientModuleStates : gmap bytes bytes;
  transientAccessLists : accessList;
  surplus : Z
}.

Definition NewTemporaryState : TemporaryState :=
  mkTemporaryState [] ∅ ∅ ∅ (mkAccessList ∅ []) 0.

Record DBImpl (MS : Type) : Type := mkDBImpl {
  ctx : Ctx MS;
  snapshottedCtxs : list (Ctx MS);
  tempStateCurrent : TemporaryState;
  tempStatesHist : list TemporaryState;
  err : option Err;
  precompileErr : option Err;
  coinbaseAddress : AccAddress;
  coinbaseEvmAddress : Address;
  simulation : bool;
  eventsSuppressed : bool;
  logger : option Hooks;
  hook_calls : list HookCall   (** what the logger has been told *)
}.
Arguments mkDBImpl {MS}.
Arguments ctx {MS}.
Arguments snapshottedCtxs {MS}.
Arguments tempStateCurrent {MS}.
Arguments tempStatesHist {MS}.
Arguments err {MS}.
Arguments precompileErr {MS}.
Arguments coinbaseAddress {MS}.
Arguments coinbaseEvmAddress {MS}.
Arguments simulation {MS}.
Arguments eventsSuppressed {MS}.
Arguments logger {MS}.
Arguments hook_calls {MS}.

(** The order in which a [range] loop visits a map of account marks; Go leaves
    it open. *)
Class MapRange := { range_accounts : gmap Address bytes → list (Address * bytes) }.
Class MapRangeLaws `{MapRange} : Prop := {
  range_accounts_perm : ∀ m, range_accounts m ≡ₚ map_to_list m
}.

(** ** Field updates *)

Section Fields.
Context {MS : Type}.
Notation DB := (DBImpl MS).

Definition set_ctx (c : Ctx MS) (s : DB) : DB :=
  mkDBImpl c (snapshottedCtxs s) (tempStateCurrent s) (tempStatesHist s) (err s) (precompileErr s)
    (coinbaseAddress s) (coinbaseEvmAddress s) (simulation s) (eventsSuppressed s) (logger s) (hook_calls s).
Definition set_temp (f : TemporaryState → TemporaryState) (s : DB) : DB :=
  mkDBImpl (ctx s) (snapshottedCtxs s) (f (tempStateCurrent s)) (tempStatesHist s) (err s) (precompileErr s)
    (coinbaseAddress s) (coinbaseEvmAddress s) (simulation s) (eventsSuppressed s) (logger s) (hook_calls s).
Definition set_levels (cs : list (Ctx MS)) (ts : list TemporaryState) (s : DB) : DB :=
  mkDBImpl (ctx s) cs (tempStateCurrent s) ts (err s) (precompileErr s)
    (coinbaseAddress s) (coinbaseEvmAddress s) (simulation s) (eventsSuppressed s) (logger s) (hook_calls s).
Definition set_err (e : option Err) (s : DB) : DB :=
  mkDBImpl (ctx s) (snapshottedCtxs s) (tempStateCurrent s) (tempStatesHist s) e (precompileErr s)
    (coinbaseAddress s) (coinbaseEvmAddress s) (simulation s) (eventsSuppressed s) (logger s) (hook_calls s).
Definition set_precompileErr (e : option Err) (s : DB) : DB :=
  mkDBImpl (ctx s) (snapshottedCtxs s) (tempStateCurrent s) (tempStatesHist s) (err s) e
    (coinbaseAddress s) (coinbaseEvmAddress s) (simulation s) (eventsSuppressed s) (logger s) (hook_calls s).
Definition set_coinbaseEvmAddress (a : Address) (s : DB) : DB :=
  mkDBImpl (ctx s) (snapshottedCtxs s) (tempStateCurrent s) (tempStatesHist s) (err s) (precompileErr s)
    (coinbaseAddress s) a (simulation s) (eventsSuppressed s) (logger s) (hook_calls s).
Definition set_eventsSuppressed (b : bool) (s : DB) : DB :=
  mkDBImpl (ctx s) (snapshottedCtxs s) (tempStateCurrent s) (tempStatesHist s) (err s) (precompileErr s)
    (coinbaseAddress s) (coinbaseEvmAddress s) (simulation s) b (logger s) (hook_calls s).
Definition set_logger (h : option Hooks) (s : DB) : DB :=
  mkDBImpl (ctx s) (snapshottedCtxs s) (tempStateCurrent s) (tempStatesHist s) (err s) (precompileErr s)
    (coinbaseAddress s) (coinbaseEvmAddress s) (simulation s) (eventsSuppressed s) h (hook_calls s).
Definition add_call (h : HookCall) (s : DB) : DB :=
  mkDBImpl (ctx s) (snapshottedCtxs s) (tempStateCurrent s) (tempStatesHist s) (err s) (precompileErr s)
    (coinbaseAddress s) (coinbaseEvmAddress s) (simulation s) (eventsSuppressed s) (logger s)
    (hook_calls s ++ [h]).

(** [s.logger != nil && s.logger.On... != nil] *)
Definition hooked (f : Hooks → bool) (s : DB) : bool :=
  match logger s with Some h => f h | None => false end.
End Fields.

Definition set_logs (l : list Log) (t : TemporaryState) : TemporaryState :=
  mkTemporaryState l (transientStates t) (transientAccounts t) (transientModuleStates t)
    (transientAccessLists t) (surplus t).
Definition set_transientStates (m : gmap Address (gmap Hash Hash)) (t : TemporaryState) : TemporaryState :=
  mkTemporaryState (logs t) m (transientAccounts t) (transientModuleStates t)
    (transientAccessLists t) (surplus t).
Definition set_transientAccounts (m : gmap Address bytes) (t : TemporaryState) : TemporaryState :=
  mkTemporaryState (logs t) (transientStates t) m (transientModuleStates t)
    (transientAccessLists t) (surplus t).
Definition set_transientModuleStates (m : gmap bytes bytes) (t : TemporaryState) : TemporaryState :=
  mkTemporaryState (logs t) (transientStates t) (transientAccounts t) m
    (transientAccessLists t) (surplus t).
Definition set_transientAccessLists (al : accessList) (t : TemporaryState) : TemporaryState :=
  mkTemporaryState (logs t) (transientStates t) (transientAccounts t) (transientModuleStates t)
    al (surplus t).
Definition set_surplus (z : Z) (t : TemporaryState) : TemporaryState :=
  mkTemporaryState (logs t) (transientStates t) (transientAccounts t) (transientModuleStates t)
    (transientAccessLists t) z.

(** * The methods *)

Section StateDB.
Context `{BK : BankKeeper B} `{AK : AccountKeeper A} `{EC : EthCrypto} `{KC : KeeperConfig}.
Context `{MST : MultiStore MS (World B A)} `{MR : MapRange}.
Notation World := (World B A).
Notation Ctx := (Ctx MS).
Notation DB := (DBImpl MS).
Notation M := (stm (DBImpl MS)).

(** Read the current context's stores; change them; a keeper read that may
    panic. *)
Definition view {T : Type} (f : World → T) : M T := sget (λ s, f (cview (ctx s))).
Definition view_out {T : Type} (f : World → outcome T) : M T :=
  λ s, outcome_bind (f (cview (ctx s))) (λ a, Ret (a, s)).
Definition change (f : World → World) : M unit := sput (λ s, set_ctx (cupd f (ctx s)) s).

(** [s.k.PrepareReplayedAddr(s.ctx, addr)] *)
Definition prepare (addr : Address) : M unit :=
  λ s, outcome_bind (PrepareReplayedAddr addr (ctx s)) (λ c, Ret (tt, set_ctx c s)).

(** ** Snapshots (state.go) *)

Definition Snapshot : M Z :=
  λ s,
    let newCtx := cbranch (ctx s) in
    let cs := snapshottedCtxs s ++ [ctx s] in
    Ret (Z.of_nat (length cs) - 1,
         set_ctx newCtx (set_temp (λ _, NewTemporaryState)
           (set_levels cs (tempStatesHist s ++ [tempStateCurrent s]) s))).

Definition RevertToSnapshot (rev : Z) : M unit :=
  λ s,
    if rev <? 0 then Panic "index out of range" else
    let r := Z.to_nat rev in
    match snapshottedCtxs s !! r, tempStatesHist s !! r with
    | Some c, Some t =>
        (do! Snapshot; sret tt)
          (set_ctx c (set_temp (λ _, t)
            (set_levels (take r (snapshottedCtxs s)) (take r (tempStatesHist s)) s)))
    | _, _ => Panic "index out of range"
    end.

(** ** Construction (statedb.go)

    [cache] is the keeper's cached fee collector address; the second component
    of the result is the cache after the call. *)
Definition NewDBImpl (cache : option Address) (c : Ctx) (sim : bool)
    : outcome (DB * option Address) :=
  let '(feeCollector, _, cache') := GetFeeCollectorAddress cache (cview c) in
  let s := mkDBImpl c [] NewTemporaryState [] None None (GetCoinbaseAddress (ci_txIndex (c_info c)))
             feeCollector sim false None [] in
  outcome_bind (Snapshot s) (λ r, Ret (r.2, cache')).

(** The argument is [None] for the nil [sdk.Int]. *)
Definition AddSurplus (x : option Z) : M unit :=
  match x with
  | None => sret tt
  | Some z =>
      if z =? 0 then sret tt
      else sput (set_temp (λ t, set_surplus (surplus t + z) t))
  end.

Definition DisableEvents : M unit := sput (set_eventsSuppressed true).
Definition EnableEvents : M unit := sput (set_eventsSuppressed false).
Definition SetLogger (h : option Hooks) : M unit := sput (set_logger h).
Definition SetPrecompileError (e : option Err) : M unit := sput (set_precompileErr e).
Definition GetPrecompileError : M (option Err) := sget precompileErr.
Definition WithErr (e : option Err) : M unit := sput (set_err e).
Definition TxIndex : M Z := sget (λ s, ci_txIndex (c_info (ctx s))).

(** ** Balances (balance.go) *)

Definition getTabiAddress (evmAddr : Address) : M AccAddress :=
  sget (λ s,
    if bool_decide (coinbaseEvmAddress s = evmAddr) then coinbaseAddress s
    else GetTabiAddressOrDefault (cview (ctx s)) evmAddr).

Definition GetBalance (evmAddr : Address) : M Z :=
  do! prepare evmAddr;
  let! tabiAddr := getTabiAddress evmAddr in
  view (λ w, Keeper.GetBalance w tabiAddr).

(** A bank call in the current context.  [quiet] calls get a fresh event
    manager, which is dropped. *)
Definition bank_call (quiet : bool) (f : B → bank_res B) : M (option Err) :=
  λ s,
    let '(c, e) := run_bank f (ctx s) in
    let c' := if quiet then mkCtx (c_ms c) (c_events (ctx s)) (c_info c) else c in
    Ret (e, set_ctx c' s).

(** The part of [SubBalance] and of [AddBalance] for a positive amount. *)
Definition sub_positive (evmAddr : Address) (amt : Z) (reason : Reason) : M unit :=
  let! quiet := sget eventsSuppressed in
  let '(atabi, wei) := SplitAtabiWeiAmount amt in
  let! addr := getTabiAddress evmAddr in
  let! e := bank_call quiet (λ b, bk_SubUnlockedCoins b addr BaseDenom atabi) in
  match e with
  | Some _ => sput (set_err e)
  | None =>
  let! e2 := bank_call quiet (λ b, bk_SubWei b addr wei) in
  match e2 with
  | Some _ => sput (set_err e2)
  | None =>
  let! h := sget (hooked hk_balance) in
  do! swhen h
    (let! newBalance := GetBalance evmAddr in
     sput (add_call (OnBalanceChange evmAddr (newBalance + amt) newBalance reason)));
  sput (set_temp (λ t, set_surplus (surplus t + amt) t))
  end
  end.

Definition add_positive (evmAddr : Address) (amt : Z) (reason : Reason) : M unit :=
  let! quiet := sget eventsSuppressed in
  let '(atabi, wei) := SplitAtabiWeiAmount amt in
  let! addr := getTabiAddress evmAddr in
  let! e := bank_call quiet (λ b, bk_AddCoins b addr BaseDenom atabi) in
  match e with
  | Some _ => sput (set_err e)
  | None =>
  let! e2 := bank_call quiet (λ b, bk_AddWei b addr wei) in
  match e2 with
  | Some _ => sput (set_err e2)
  | None =>
  let! h := sget (hooked hk_balance) in
  do! swhen h
    (let! newBalance := GetBalance evmAddr in
     sput (add_call (OnBalanceChange evmAddr (newBalance - amt) newBalance reason)));
  sput (set_temp (λ t, set_surplus (surplus t - amt) t))
  end
  end.

(** The two methods call each other on a negative amount, once. *)
Definition SubBalance (evmAddr : Address) (amt : Z) (reason : Reason) : M unit :=
  do! prepare evmAddr;
  if amt =? 0 then sret tt
  else if amt <? 0 then (do! prepare evmAddr; add_positive evmAddr (- amt) reason)
  else sub_positive evmAddr amt reason.

Definition AddBalance (evmAddr : Address) (amt : Z) (reason : Reason) : M unit :=
  do! prepare evmAddr;
  if amt =? 0 then sret tt
  else if amt <? 0 then (do! prepare evmAddr; sub_positive evmAddr (- amt) reason)
  else add_positive evmAddr amt reason.

Definition send (from to : AccAddress) (amt : Z) : M unit :=
  let '(atabi, wei) := SplitAtabiWeiAmount amt in
  let! e := bank_call false (λ b, bk_SendCoinsAndWei b from to atabi wei) in
  match e with Some _ => sput (set_err e) | None => sret tt end.

(** [if s.err != nil { panic(s.err) }] *)
Definition panic_on_err : M unit :=
  let! e := sget err in
  match e with Some m => spanic m | None => sret tt end.

Definition SetBalance (evmAddr : Address) (amt : Z) (reason : Reason) : M unit :=
  let! sim := sget simulation in
  if negb sim then spanic "should never call SetBalance in a non-simulation setting" else
  let! tabiAddr := getTabiAddress evmAddr in
  let moduleAddr := ak_GetModuleAddress ModuleName in
  let! bal := GetBalance evmAddr in
  do! send tabiAddr moduleAddr bal;
  do! panic_on_err;
  let '(atabi, _) := SplitAtabiWeiAmount amt in
  let! e := bank_call false (λ b, bk_MintCoins b ModuleName BaseDenom (atabi + 1)) in
  match e with
  | Some m => spanic m
  | None => do! send moduleAddr tabiAddr amt; panic_on_err
  end.

(** ** Storage (state.go) *)

(** [PrepareReplayedAddr] on the base context, in [GetCommittedState], writes
    only in replay mode; there the branches above the base keep the content
    they had. *)
Definition GetCommittedState (addr : Address) (hash : Hash) : M Hash :=
  λ s,
    match snapshottedCtxs s with
    | [] => Panic "index out of range"
    | c0 :: cs =>
        outcome_bind (PrepareReplayedAddr addr c0) (λ c0',
        outcome_bind (Keeper.GetState (cview c0') addr hash) (λ v,
        Ret (v, set_levels (c0' :: cs) (tempStatesHist s) s)))
    end.

Definition GetState (addr : Address) (hash : Hash) : M Hash :=
  do! prepare addr;
  view_out (λ w, Keeper.GetState w addr hash).

Definition SetState (addr : Address) (key val : Hash) : M unit :=
  do! prepare addr;
  let! h := sget (hooked hk_storage) in
  do! swhen h
    (let! old := GetState addr key in
     sput (add_call (OnStorageChange addr key old val)));
  change (Keeper.SetState addr key val).

(** ** Transient state: the newest level that has the key *)

Fixpoint newest {T : Type} (f : TemporaryState → option T) (levels : list TemporaryState) : option T :=
  match levels with
  | [] => None
  | t :: rest => match f t with Some v => Some v | None => newest f rest end
  end.

(** The temporary states, from the current one down to the oldest. *)
Definition levels_down (s : DB) : list TemporaryState :=
  tempStateCurrent s :: rev (tempStatesHist s).

Definition getTransientAccount (acc : Address) : M (option bytes) :=
  sget (λ s, newest (λ t, transientAccounts t !! acc) (levels_down s)).
Definition getTransientModule (key : bytes) : M (option bytes) :=
  sget (λ s, newest (λ t, transientModuleStates t !! key) (levels_down s)).
Definition getTransientState (acc : Address) (key : Hash) : M (option Hash) :=
  sget (λ s, newest (λ t, m ← transientStates t !! acc; m !! key) (levels_down s)).

Definition GetTransientState (addr : Address) (key : Hash) : M Hash :=
  let! r := getTransientState addr key in sret (default zero_hash r).

Definition SetTransientState (addr : Address) (key val : Hash) : M unit :=
  sput (set_temp (λ t,
    let st := default ∅ (transientStates t !! addr) in
    set_transientStates (<[addr := <[key := val]> st]> (transientStates t)) t)).

(** ** Accounts (state.go) *)

Definition MarkAccount (acc : Address) (status : bytes) : M unit :=
  sput (set_temp (λ t, set_transientAccounts (<[acc := status]> (transientAccounts t)) t)).

Definition Created (acc : Address) : M bool :=
  let! v := getTransientAccount acc in
  sret (bool_decide (v = Some AccountCreated)).

Definition HasSelfDestructed (acc : Address) : M bool :=
  let! v := getTransientAccount acc in
  sret (bool_decide (v = Some AccountDeleted)).

(** The stores after [clearAccountState]. *)
Definition clear_account (acc : Address) (w : World) : World :=
  set_evm (λ m,
    deleteIfExists NonceKeyPrefix (ba acc)
      (deleteIfExists CodeHashKeyPrefix (ba acc)
        (deleteIfExists CodeSizeKeyPrefix (ba acc)
          (deleteIfExists CodeKeyPrefix (ba acc)
            (PurgePrefix (StateKey acc) m))))) w.

Definition clearAccountState (acc : Address) : M unit :=
  do! prepare acc;
  change (clear_account acc).

Definition CreateAccount (acc : Address) : M unit :=
  do! prepare acc;
  let! tracing := sget (λ s, ci_isTracing (c_info (ctx s))) in
  do! swhen (negb tracing) (clearAccountState acc);
  MarkAccount acc AccountCreated.

Definition SelfDestruct (acc : Address) : M unit :=
  do! prepare acc;
  let! r := view (λ w, GetTabiAddress w acc) in
  do! (match r with
       | Some tabiAddr => change (DeleteAddressMapping tabiAddr acc)
       | None => sret tt
       end);
  let! bal := GetBalance acc in
  do! SubBalance acc bal BalanceDecreaseSelfdestruct;
  MarkAccount acc AccountDeleted.

Definition Selfdestruct6780 (acc : Address) : M unit :=
  let! c := Created acc in
  swhen c (SelfDestruct acc).

(** [states] lists the entries of the map in the order they are visited. *)
Definition SetStorage (addr : Address) (states : list (Hash * Hash)) : M unit :=
  do! clearAccountState addr;
  sfor states (λ e, SetState addr e.1 e.2).

Definition handleResidualFundsInDestructedAccounts (st : TemporaryState) : M unit :=
  sfor (range_accounts (transientAccounts st)) (λ e,
    if negb (bool_decide (e.2 = AccountDeleted)) then sret tt else
    let! residual := GetBalance e.1 in
    if residual =? 0 then sret tt else
    do! SubBalance e.1 residual BalanceDecreaseSelfdestructBurn;
    let! coinbase := sget coinbaseEvmAddress in
    AddBalance coinbase residual BalanceDecreaseSelfdestructBurn).

Definition clearAccountStateIfDestructed (st : TemporaryState) : M unit :=
  sfor (range_accounts (transientAccounts st)) (λ e,
    if negb (bool_decide (e.2 = AccountDeleted)) then sret tt
    else clearAccountState e.1).

(** ** Flushing (statedb.go) *)

(** Write [cur] into the last context of the stack, that one into the one
    before, and so on down to the first. *)
Fixpoint flush_into (cs : list Ctx) (cur : Ctx) : list Ctx :=
  match cs with
  | [] => []
  | p :: rest =>
      let rest' := flush_into rest cur in
      let child := match rest' with [] => cur | c :: _ => c end in
      mkCtx (Write (c_ms child) (c_ms p)) (c_events p) (c_info p) :: rest'
  end.

Definition flushCtxs : M unit :=
  sput (λ s, set_levels (flush_into (snapshottedCtxs s) (ctx s)) (tempStatesHist s) s).

(** Emit the events of [c] in the base context. *)
Definition flushEvents (c : Ctx) : M unit :=
  λ s,
    match snapshottedCtxs s with
    | [] => Panic "index out of range"
    | c0 :: cs => Ret (tt, set_levels (cemit (c_events c) c0 :: cs) (tempStatesHist s) s)
    end.

Definition Finalize : M (option Z * option Err) :=
  let! sim := sget simulation in
  if sim then spanic "should never call finalize on a simulation DB" else
  let! e := sget err in
  match e with
  | Some _ => sret (None, e)
  | None =>
  let! cur := sget tempStateCurrent in
  do! handleResidualFundsInDestructedAccounts cur;
  do! clearAccountStateIfDestructed cur;
  let! hist := sget tempStatesHist in
  do! sfor hist (λ ts,
        do! handleResidualFundsInDestructedAccounts ts;
        clearAccountStateIfDestructed ts);
  do! flushCtxs;
  let! cs := sget snapshottedCtxs in
  do! sfor (tail cs) flushEvents;
  let! c := sget ctx in
  do! flushEvents c;
  let! t := sget tempStateCurrent in
  let! ts := sget tempStatesHist in
  sret (Some (foldl (λ acc x, acc + surplus x) (surplus t) ts), None)
  end.

(** [cache] is the keeper's cached fee collector address. *)
Definition CleanupForTracer (cache : option Address) : M (option Address) :=
  do! flushCtxs;
  let! cs := sget snapshottedCtxs in
  do! (match cs with c0 :: _ => sput (set_ctx c0) | [] => sret tt end);
  let! r := view (λ w, GetFeeCollectorAddress cache w) in
  do! sput (set_coinbaseEvmAddress r.1.1);
  do! sput (set_temp (λ _, NewTemporaryState));
  do! sput (set_levels [] []);
  do! Snapshot;
  sret r.2.

(** ** Access lists (accesslist.go) *)

Definition getCurrentAccessList : M accessList :=
  sget (λ s, transientAccessLists (tempStateCurrent s)).

Definition put_access_list (al : accessList) : M unit :=
  sput (set_temp (set_transientAccessLists al)).

Definition AddressInAccessList (addr : Address) : M bool :=
  do! prepare addr;
  let! al := getCurrentAccessList in
  if bool_decide (is_Some (Addresses al !! addr)) then sret true else
  sget (λ s, existsb (λ ts, bool_decide (is_Some (Addresses (transientAccessLists ts) !! addr)))
               (tempStatesHist s)).

(** Whether [slot] is recorded for [addr] in one access list; a slot index
    outside the slot list is a run-time error. *)
Definition slot_in (al : accessList) (addr : Address) (slot : Hash) : outcome bool :=
  match Addresses al !! addr with
  | Some idx =>
      if idx =? -1 then Ret false
      else if idx <? 0 then Panic "index out of range"
      else match Slots al !! Z.to_nat idx with
           | Some m => Ret (bool_decide (slot ∈ m))
           | None => Panic "index out of range"
           end
  | None => Ret false
  end.

(** The loop of [SlotInAccessList] over the older levels. *)
Fixpoint slot_in_hist (ts : list TemporaryState) (addr : Address) (slot : Hash) (addrOk : bool)
    : outcome (bool * bool) :=
  match ts with
  | [] => Ret (addrOk, false)
  | t :: rest =>
      let al := transientAccessLists t in
      outcome_bind (slot_in al addr slot) (λ slotOk,
      if slotOk then Ret (true, true)
      else slot_in_hist rest addr slot (addrOk || bool_decide (is_Some (Addresses al !! addr))))
  end.

Definition SlotInAccessList (addr : Address) (slot : Hash) : M (bool * bool) :=
  do! prepare addr;
  let! al := getCurrentAccessList in
  λ s,
    outcome_bind (slot_in al addr slot) (λ slotOk,
    if slotOk then Ret ((true, true), s)
    else outcome_bind
      (slot_in_hist (tempStatesHist s) addr slot (bool_decide (is_Some (Addresses al !! addr))))
      (λ r, Ret (r, s))).

Definition AddAddressToAccessList (addr : Address) : M unit :=
  do! prepare addr;
  let! al := getCurrentAccessList in
  if bool_decide (is_Some (Addresses al !! addr)) then sret tt
  else put_access_list (mkAccessList (<[addr := -1]> (Addresses al)) (Slots al)).

(** The slot maps are shared by reference with the list: adding to
    [al.Slots[idx]] is an update of the list in place. *)
Definition AddSlotToAccessList (addr : Address) (slot : Hash) : M unit :=
  do! prepare addr;
  let! al := getCurrentAccessList in
  match Addresses al !! addr with
  | Some idx =>
      if idx =? -1 then
        put_access_list (mkAccessList (<[addr := Z.of_nat (length (Slots al))]> (Addresses al))
                           (Slots al ++ [{[slot]}]))
      else if idx <? 0 then spanic "index out of range"
      else match Slots al !! Z.to_nat idx with
           | None => spanic "index out of range"
           | Some slotmap =>
               if bool_decide (slot ∈ slotmap) then sret tt
               else put_access_list (mkAccessList (Addresses al)
                      (<[Z.to_nat idx := {[slot]} ∪ slotmap]> (Slots al)))
           end
  | None =>
      put_access_list (mkAccessList (<[addr := Z.of_nat (length (Slots al))]> (Addresses al))
                         (Slots al ++ [{[slot]}]))
  end.

(** [addr.Cmp(CustomPrecompileStartingAddr) >= 0] *)
Definition is_custom_precompile (addr : Address) : bool :=
  bytes_leb (ba CustomPrecompileStartingAddr) (ba addr).

Definition Prepare (sender coinbase : Address) (dest : option Address)
    (precompiles : list Address) (txAccesses : list (Address * list Hash)) : M unit :=
  do! prepare sender;
  do! prepare coinbase;
  do! (match dest with Some d => prepare d | None => sret tt end);
  do! Snapshot;
  do! AddAddressToAccessList sender;
  do! (match dest with Some d => AddAddressToAccessList d | None => sret tt end);
  do! sfor precompiles (λ addr,
        let! tracing := sget (λ s, ci_isTracing (c_info (ctx s))) in
        if is_custom_precompile addr && negb tracing then sret tt
        else AddAddressToAccessList addr);
  do! sfor txAccesses (λ el,
        do! AddAddressToAccessList el.1;
        sfor el.2 (λ key, AddSlotToAccessList el.1 key));
  AddAddressToAccessList coinbase.

(** ** Nonces and code (nonce.go, code.go) *)

Definition GetNonce (addr : Address) : M Z :=
  do! prepare addr; view_out (λ w, Keeper.GetNonce w addr).

Definition SetNonce (addr : Address) (nonce : Z) : M unit :=
  do! prepare addr;
  let! h := sget (hooked hk_nonce) in
  do! swhen h
    (let! old := GetNonce addr in
     sput (add_call (OnNonceChange addr old nonce)));
  change (Keeper.SetNonce addr nonce).

Definition GetCodeHash (addr : Address) : M Hash :=
  do! prepare addr; view (λ w, Keeper.GetCodeHash w addr).
Definition GetCode (addr : Address) : M (option bytes) :=
  do! prepare addr; view (λ w, Keeper.GetCode w addr).
Definition GetCodeSize (addr : Address) : M Z :=
  do! prepare addr; view_out (λ w, Keeper.GetCodeSize w addr).

Definition SetCode (addr : Address) (code : bytes) : M unit :=
  do! prepare addr;
  let! h := sget (hooked hk_code) in
  do! swhen h
    (let! oldCode := GetCode addr in
     let! oldHash := GetCodeHash addr in
     sput (add_call (OnCodeChange addr oldHash oldCode (Keccak256Hash code) code)));
  sput (λ s, set_ctx (Keeper.SetCode addr code (ctx s)) s).

(** ** Existence (check.go) *)

Definition Exist (addr : Address) : M bool :=
  do! prepare addr;
  let! codeHash := GetCodeHash addr in
  if negb (bool_decide (codeHash = zero_hash)) then sret true else
  let! nonce := GetNonce addr in
  if 0 <? nonce then sret true else
  let! bal := GetBalance addr in
  if 0 <? bal then sret true else
  HasSelfDestructed addr.

(** The operands of [&&] are evaluated from the left, as far as needed. *)
Definition Empty (addr : Address) : M bool :=
  do! prepare addr;
  let! bal := GetBalance addr in
  if negb (bal =? 0) then sret false else
  let! nonce := GetNonce addr in
  if negb (nonce =? 0) then sret false else
  let! codeHash := GetCodeHash addr in
  sret (bool_decide (codeHash = zero_hash)).

(** ** Refunds (refund.go) *)

Definition GetRefund : M Z :=
  let! bz := getTransientModule GasRefundKey in
  match bz with
  | None => sret 0
  | Some b => λ s, outcome_bind (Uint64 b) (λ n, Ret (n, s))
  end.

Definition put_refund (n : Z) : M unit :=
  sput (set_temp (λ t,
    set_transientModuleStates (<[GasRefundKey := PutUint64 n]> (transientModuleStates t)) t)).

Definition AddRefund (gas : Z) : M unit :=
  let! refund := GetRefund in put_refund (u64 (refund + gas)).

Definition SubRefund (gas : Z) : M unit :=
  let! refund := GetRefund in
  if refund <? gas then spanic "Refund counter below zero" else put_refund (refund - gas).

(** ** Logs (log.go) *)

Definition all_logs (s : DB) : list Log :=
  concat (map logs (tempStatesHist s)) ++ logs (tempStateCurrent s).

Definition GetAllLogs : M (list Log) := sget all_logs.
Definition GetLogs : M (list Log) := GetAllLogs.

Definition AddLog (l : Log) : M unit :=
  let! ls := GetAllLogs in
  let l' := mkLog (l_Address l) (l_Topics l) (l_Data l) (Z.of_nat (length ls)) in
  do! sput (set_temp (λ t, set_logs (logs t ++ [l']) t));
  let! h := sget (hooked hk_log) in
  swhen h (sput (add_call (OnLog l'))).

(** ** Transfers (transfer.go) *)

(** The deferred [EnableEvents] runs on return. *)
Definition TransferWithoutEvents (sender recipient : Address) (amount : Z) : M unit :=
  do! DisableEvents;
  do! SubBalance sender amount BalanceChangeTransfer;
  do! AddBalance recipient amount BalanceChangeTransfer;
  EnableEvents.

End StateDB.
