(* ===== verification/Snapshots.v ===== *)
(** * Snapshots of the state database

    Every method works on the newest level only; a snapshot pushes a level and
    a revert drops the levels above it.  From this follow that a revert undoes
    everything since its snapshot, and that the stack of contexts is a chain of
    branches at all times. *)

From S2P Require Import Prelude Bytes Store Params Keys World Keeper StateDB Instances.
Local Open Scope Z_scope.
Local Open Scope stm_scope.

(** ** Runs of the database

    The calls the EVM and the precompiles make. *)

Inductive db_op : Type :=
| OpSnapshot
| OpRevertToSnapshot (rev : Z)
| OpSubBalance (a : Address) (amt : Z) (r : Reason)
| OpAddBalance (a : Address) (amt : Z) (r : Reason)
| OpTransferWithoutEvents (sender recipient : Address) (amt : Z)
| OpSetState (a : Address) (k v : Hash)
| OpSetStorage (a : Address) (states : list (Hash * Hash))
| OpSetTransientState (a : Address) (k v : Hash)
| OpCreateAccount (a : Address)
| OpSelfDestruct (a : Address)
| OpSelfdestruct6780 (a : Address)
| OpSetNonce (a : Address) (n : Z)
| OpSetCode (a : Address) (code : bytes)
| OpAddRefund (gas : Z)
| OpSubRefund (gas : Z)
| OpAddLog (l : Log)
| OpAddAddressToAccessList (a : Address)
| OpAddSlotToAccessList (a : Address) (slot : Hash)
| OpPrepare (sender coinbase : Address) (dest : option Address)
    (precompiles : list Address) (txAccesses : list (Address * list Hash))
| OpAddSurplus (x : option Z)
| OpSetBalance (a : Address) (amt : Z) (r : Reason)
| OpSetPrecompileError (e : option Err)
| OpSetLogger (h : option Hooks)
| OpDisableEvents
| OpEnableEvents.

Section Runs.
Context `{BK : BankKeeper B} `{AK : AccountKeeper A} `{EC : EthCrypto} `{KC : KeeperConfig}.
Context `{MST : MultiStore MS (World B A)}.

Definition run_op (op : db_op) : stm (DBImpl MS) unit :=
  match op with
  | OpSnapshot => do! Snapshot; sret tt
  | OpRevertToSnapshot rev => RevertToSnapshot rev
  | OpSubBalance a amt r => SubBalance a amt r
  | OpAddBalance a amt r => AddBalance a amt r
  | OpTransferWithoutEvents s r amt => TransferWithoutEvents s r amt
  | OpSetState a k v => SetState a k v
  | OpSetStorage a states => SetStorage a states
  | OpSetTransientState a k v => SetTransientState a k v
  | OpCreateAccount a => CreateAccount a
  | OpSelfDestruct a => SelfDestruct a
  | OpSelfdestruct6780 a => Selfdestruct6780 a
  | OpSetNonce a n => SetNonce a n
  | OpSetCode a code => SetCode a code
  | OpAddRefund g => AddRefund g
  | OpSubRefund g => SubRefund g
  | OpAddLog l => AddLog l
  | OpAddAddressToAccessList a => AddAddressToAccessList a
  | OpAddSlotToAccessList a k => AddSlotToAccessList a k
  | OpPrepare s c d ps tx => Prepare s c d ps tx
  | OpAddSurplus x => AddSurplus x
  | OpSetBalance a amt r => SetBalance a amt r
  | OpSetPrecompileError e => SetPrecompileError e
  | OpSetLogger h => SetLogger h
  | OpDisableEvents => DisableEvents
  | OpEnableEvents => EnableEvents
  end.

Definition run_ops (ops : list db_op) : stm (DBImpl MS) unit := sfor ops run_op.

(** [RevertToSnapshot] is only called with snapshots that are at least as new
    as [r]. *)
Definition reverts_from (r : Z) (op : db_op) : Prop :=
  match op with OpRevertToSnapshot rev => r ≤ rev | _ => True end.

(** The stack of contexts is a chain of branches up to the current one. *)
Fixpoint chain (cs : list (Ctx MS)) (cur : Ctx MS) : Prop :=
  match cs with
  | [] => True
  | p :: rest =>
      branch_of (c_ms p) (c_ms (match rest with [] => cur | c :: _ => c end)) ∧ chain rest cur
  end.

(** One temporary state per context, at least one level, and the chain. *)
Definition db_wf (s : DBImpl MS) : Prop :=
  snapshottedCtxs s ≠ [] ∧
  length (tempStatesHist s) = length (snapshottedCtxs s) ∧
  chain (snapshottedCtxs s) (ctx s).

(** [c'] is [c] after writes and emitted events. *)
Definition ctx_ext (c c' : Ctx MS) : Prop :=
  rtc (λ m m', ∃ w, m' = ms_put w m) (c_ms c) (c_ms c') ∧
  c_info c' = c_info c ∧ ∃ evs, c_events c' = c_events c ++ evs.

(** A step that stays on the newest level. *)
Definition level_step (s s' : DBImpl MS) : Prop :=
  snapshottedCtxs s' = snapshottedCtxs s ∧ tempStatesHist s' = tempStatesHist s ∧
  ctx_ext (ctx s) (ctx s') ∧
  coinbaseAddress s' = coinbaseAddress s ∧ coinbaseEvmAddress s' = coinbaseEvmAddress s ∧
  simulation s' = simulation s.

(** A step that does not touch the levels up to [r]. *)
Definition deep (r : nat) (s : DBImpl MS) : Prop :=
  (r < length (snapshottedCtxs s))%nat ∧ length (tempStatesHist s) = length (snapshottedCtxs s).
Definition keeps (r : nat) (s s' : DBImpl MS) : Prop :=
  deep r s →
  deep r s' ∧ take (S r) (snapshottedCtxs s') = take (S r) (snapshottedCtxs s) ∧
  take (S r) (tempStatesHist s') = take (S r) (tempStatesHist s).

(** The part of [Prepare] after its snapshot. *)
Definition prepare_lists (sender coinbase : Address) (dest : option Address)
    (precompiles : list Address) (txAccesses : list (Address * list Hash)) : stm (DBImpl MS) unit :=
  do! AddAddressToAccessList sender;
  do! (match dest with Some d => AddAddressToAccessList d | None => sret tt end);
  do! sfor precompiles (λ addr,
        let! tracing := sget (λ s, ci_isTracing (c_info (ctx s))) in
        if is_custom_precompile addr && negb tracing then sret tt
        else AddAddressToAccessList addr);
  do! sfor txAccesses (λ el,
        do! AddAddressToAccessList el.1;
        sfor el.2 (λ key, AddSlotToAccessList el.1 key));
  AddAddressToAccessList coinbase.

(** The operations that neither take nor restore a snapshot. *)
Definition is_level_op (op : db_op) : bool :=
  match op with OpSnapshot | OpRevertToSnapshot _ | OpPrepare _ _ _ _ _ => false | _ => true end.

End Runs.

Section SnapshotLemmas.
Context `{BK : BankKeeper B} `{AK : AccountKeeper A} `{EC : EthCrypto} `{KC : KeeperConfig}.
Context `{MST : MultiStore MS (World B A)} `{MR : MapRange}.
Hypothesis Hlive : EthReplayConfig_Enabled = false.
Notation DB := (DBImpl MS).

#[global] Instance ctx_ext_preorder : PreOrder (ctx_ext (MS := MS)).
Proof.
  split.
  - intros c. split_and!; [apply rtc_refl|done|]. exists []. by rewrite app_nil_r.
  - intros c1 c2 c3 (H1 & I1 & e1 & E1) (H2 & I2 & e2 & E2). split_and!.
    + by etransitivity.
    + congruence.
    + exists (e1 ++ e2). by rewrite E2, E1, app_assoc.
Qed.

#[global] Instance level_step_preorder : PreOrder (level_step (MS := MS)).
Proof.
  split.
  - intros s. by split_and!.
  - intros s1 s2 s3 (A1 & B1 & C1 & D1 & E1 & F1) (A2 & B2 & C2 & D2 & E2 & F2).
    split_and!; try congruence. by transitivity (ctx s2).
Qed.

#[global] Instance keeps_preorder r : PreOrder (keeps (MS := MS) r).
Proof.
  split.
  - intros s H. by split_and!.
  - intros s1 s2 s3 H1 H2 Hd. destruct (H1 Hd) as (Hd2 & A1 & B1).
    destruct (H2 Hd2) as (Hd3 & A2 & B2). split_and!; congruence || apply Hd3.
Qed.

Lemma set_ctx_id (s : DB) : set_ctx (ctx s) s = s.
Proof. by destruct s. Qed.

Lemma prepare_live a (s : DB) : prepare a s = Ret (tt, s).
Proof.
  unfold prepare, PrepareReplayedAddr. rewrite Hlive. simpl. by rewrite set_ctx_id.
Qed.

(** Sequencing after [prepare] outside replay mode. *)
Lemma bind_prepare {T} a (k : unit → stm DB T) (s : DB) : sbind (prepare a) k s = k tt s.
Proof. unfold sbind. by rewrite prepare_live. Qed.

(** ** Contexts only grow *)

Lemma ctx_ext_cput w (c : Ctx MS) : ctx_ext c (cput w c).
Proof.
  split_and!; [|done|exists []; simpl; by rewrite app_nil_r].
  apply rtc_once. by exists w.
Qed.
Lemma ctx_ext_cupd f (c : Ctx MS) : ctx_ext c (cupd f c).
Proof. apply ctx_ext_cput. Qed.
Lemma ctx_ext_cemit evs (c : Ctx MS) : ctx_ext c (cemit evs c).
Proof. split_and!; [apply rtc_refl|done|by exists evs]. Qed.

Lemma ctx_ext_run_bank (f : B → bank_res B) (c : Ctx MS) : ctx_ext c (run_bank f c).1.
Proof.
  unfold run_bank. destruct (f _) as [[b evs] e]. simpl. etransitivity; [apply ctx_ext_cput|apply ctx_ext_cemit].
Qed.

Lemma ctx_ext_SetAddressMapping t e (c : Ctx MS) : ctx_ext c (SetAddressMapping t e c).
Proof.
  unfold SetAddressMapping. etransitivity; [|apply ctx_ext_cemit].
  destruct (negb _).
  - etransitivity; apply ctx_ext_cupd.
  - apply ctx_ext_cupd.
Qed.

Lemma ctx_ext_SetCode a code (c : Ctx MS) : ctx_ext c (Keeper.SetCode a code c).
Proof.
  unfold Keeper.SetCode. destruct (GetTabiAddress _ a).
  - apply ctx_ext_cupd.
  - etransitivity; [apply ctx_ext_cupd|apply ctx_ext_SetAddressMapping].
Qed.

Lemma ctx_ext_branch (p c c' : Ctx MS) :
  ctx_ext c c' → branch_of (c_ms p) (c_ms c) → branch_of (c_ms p) (c_ms c').
Proof.
  intros (H & _) Hb. induction H as [|m m' m'' [w ->] _ IH]; [done|].
  apply IH. by constructor.
Qed.

(** ** Every method but the snapshots stays on its level *)

Lemma level_set_ctx (s : DB) c : ctx_ext (ctx s) c → level_step s (set_ctx c s).
Proof. intros H. by split_and!. Qed.
Lemma level_set_temp f (s : DB) : level_step s (set_temp f s).
Proof. by split_and!. Qed.

Lemma level_prepare a : Pres level_step (prepare a).
Proof. intros s u s' H. rewrite prepare_live in H. by simplify_eq. Qed.
Lemma level_change f : Pres level_step (change f).
Proof. apply Pres_put. intros s. apply level_set_ctx, ctx_ext_cupd. Qed.
Lemma level_view {T} (f : World B A → T) : Pres level_step (view f).
Proof. unfold view. pres. Qed.
Lemma level_view_out {T} (f : World B A → outcome T) : Pres level_step (view_out f).
Proof. intros s a s' H. unfold view_out in H. destruct (f _); by simplify_eq/=. Qed.
Lemma level_put_err e : Pres level_step (sput (set_err e)).
Proof. apply Pres_put. intros s. by split_and!. Qed.
Lemma level_put_temp f : Pres level_step (sput (set_temp f)).
Proof. apply Pres_put, level_set_temp. Qed.
Lemma level_put_call h : Pres level_step (sput (add_call h)).
Proof. apply Pres_put. intros s. by split_and!. Qed.
Lemma level_put_suppressed b : Pres level_step (sput (set_eventsSuppressed b)).
Proof. apply Pres_put. intros s. by split_and!. Qed.
Lemma level_put_logger h : Pres level_step (sput (set_logger h)).
Proof. apply Pres_put. intros s. by split_and!. Qed.
Lemma level_put_precompileErr e : Pres level_step (sput (set_precompileErr e)).
Proof. apply Pres_put. intros s. by split_and!. Qed.
Lemma level_put_code a code :
  Pres level_step (sput (λ s : DB, set_ctx (Keeper.SetCode a code (ctx s)) s)).
Proof. apply Pres_put. intros s. apply level_set_ctx, ctx_ext_SetCode. Qed.
Lemma level_bank_call q f : Pres level_step (bank_call q f).
Proof.
  intros s e s' H. unfold bank_call, run_bank in H.
  destruct (f _) as [[b evs] e0]. simplify_eq. apply level_set_ctx.
  assert (Hc : ctx_ext (ctx s) (cemit evs (cput (set_bank b (cview (ctx s))) (ctx s)))).
  { etransitivity; [apply ctx_ext_cput|apply ctx_ext_cemit]. }
  destruct q; [|exact Hc].
  destruct Hc as (Hp & Hi & _). split_and!; [exact Hp|done|].
  exists []. simpl. by rewrite app_nil_r.
Qed.

Hint Resolve level_prepare level_change level_view level_view_out level_put_err level_put_temp
  level_put_call level_put_suppressed level_put_logger level_put_precompileErr level_put_code
  level_bank_call : pres.

Lemma level_getTabiAddress a : Pres level_step (getTabiAddress a).
Proof. unfold getTabiAddress. pres. Qed.
Hint Resolve level_getTabiAddress : pres.
Lemma level_GetBalance a : Pres level_step (GetBalance a).
Proof. unfold GetBalance. pres. Qed.
Hint Resolve level_GetBalance : pres.
Lemma level_sub_positive a amt r : Pres level_step (sub_positive a amt r).
Proof. unfold sub_positive. pres. Qed.
Lemma level_add_positive a amt r : Pres level_step (add_positive a amt r).
Proof. unfold add_positive. pres. Qed.
Hint Resolve level_sub_positive level_add_positive : pres.
Lemma level_SubBalance a amt r : Pres level_step (SubBalance a amt r).
Proof. unfold SubBalance. pres. Qed.
Lemma level_AddBalance a amt r : Pres level_step (AddBalance a amt r).
Proof. unfold AddBalance. pres. Qed.
Lemma level_send f t amt : Pres level_step (send f t amt).
Proof. unfold send. pres. Qed.
Lemma level_panic_on_err : Pres level_step panic_on_err.
Proof. unfold panic_on_err. pres. Qed.
Hint Resolve level_SubBalance level_AddBalance level_send level_panic_on_err : pres.
Lemma level_GetState a k : Pres level_step (GetState a k).
Proof. unfold GetState. pres. Qed.
Lemma level_GetNonce a : Pres level_step (GetNonce a).
Proof. unfold GetNonce. pres. Qed.
Lemma level_GetCode a : Pres level_step (GetCode a).
Proof. unfold GetCode. pres. Qed.
Lemma level_GetCodeHash a : Pres level_step (GetCodeHash a).
Proof. unfold GetCodeHash. pres. Qed.
Hint Resolve level_GetState level_GetNonce level_GetCode level_GetCodeHash : pres.
Lemma level_SetState a k v : Pres level_step (SetState a k v).
Proof. unfold SetState. pres. Qed.
Lemma level_clearAccountState a : Pres level_step (clearAccountState a).
Proof. unfold clearAccountState. pres. Qed.
Lemma level_MarkAccount a st : Pres level_step (MarkAccount a st).
Proof. unfold MarkAccount. pres. Qed.
Hint Resolve level_SetState level_clearAccountState level_MarkAccount : pres.
Lemma level_SelfDestruct a : Pres level_step (SelfDestruct a).
Proof. unfold SelfDestruct. pres. Qed.
Hint Resolve level_SelfDestruct : pres.
Lemma level_GetRefund : Pres level_step GetRefund.
Proof.
  unfold GetRefund, getTransientModule. pres.
  intros s n s' H. destruct (Uint64 _); by simplify_eq/=.
Qed.
Lemma level_put_refund n : Pres level_step (put_refund n).
Proof. unfold put_refund. pres. Qed.
Lemma level_put_access_list al : Pres level_step (put_access_list al).
Proof. unfold put_access_list. pres. Qed.
Hint Resolve level_GetRefund level_put_refund level_put_access_list : pres.
Lemma level_AddAddress a : Pres level_step (AddAddressToAccessList a).
Proof. unfold AddAddressToAccessList, getCurrentAccessList. pres. Qed.
Lemma level_AddSlot a k : Pres level_step (AddSlotToAccessList a k).
Proof. unfold AddSlotToAccessList, getCurrentAccessList. pres. Qed.
Hint Resolve level_AddAddress level_AddSlot : pres.

Lemma level_residual st : Pres level_step (handleResidualFundsInDestructedAccounts st).
Proof. unfold handleResidualFundsInDestructedAccounts. pres. Qed.
Lemma level_clear_destructed st : Pres level_step (clearAccountStateIfDestructed st).
Proof. unfold clearAccountStateIfDestructed. pres. Qed.

Lemma level_prepare_lists s c d ps tx : Pres level_step (prepare_lists s c d ps tx).
Proof. unfold prepare_lists. pres. Qed.

Lemma Prepare_eq sender coinbase dest ps tx (s : DB) :
  Prepare sender coinbase dest ps tx s =
  sbind Snapshot (λ _, prepare_lists sender coinbase dest ps tx) s.
Proof.
  unfold Prepare. rewrite !bind_prepare. destruct dest; [rewrite bind_prepare|]; done.
Qed.

Lemma level_run_op op : is_level_op op = true → Pres level_step (run_op op).
Proof.
  destruct op; intros Hop; try discriminate Hop; simpl;
    unfold TransferWithoutEvents, DisableEvents, EnableEvents, SetStorage, SetTransientState,
      CreateAccount, Selfdestruct6780, Created, getTransientAccount, SetNonce, SetCode,
      AddRefund, SubRefund, AddLog, GetAllLogs, AddSurplus, SetBalance, SetPrecompileError, SetLogger;
    pres.
Qed.

(** ** Old levels are kept *)

Lemma keeps_level r (s s' : DB) : level_step s s' → keeps r s s'.
Proof. intros (Hc & Ht & _) [H1 H2]. unfold deep. rewrite Hc, Ht. by split_and!. Qed.

Lemma keeps_Snapshot r : Pres (keeps r) (Snapshot (MS := MS)).
Proof.
  intros s z s' H. unfold Snapshot in H. simplify_eq/=. intros [H1 H2].
  unfold deep. simpl. rewrite !length_app, !take_app_le by lia. simpl. split_and!; lia || done.
Qed.

Lemma keeps_RevertToSnapshot r rev :
  Z.of_nat r ≤ rev → Pres (keeps r) (RevertToSnapshot (MS := MS) rev).
Proof.
  intros Hr s u s' H [H1 H2]. unfold RevertToSnapshot in H.
  destruct (Z.ltb_spec rev 0); [done|].
  destruct (snapshottedCtxs s !! Z.to_nat rev) as [c|] eqn:Ec; [|done].
  destruct (tempStatesHist s !! Z.to_nat rev) as [t|] eqn:Et; [|done].
  unfold sbind, sret, Snapshot in H. simplify_eq/=. unfold deep. simpl.
  rewrite <- (take_S_r _ _ _ Ec), <- (take_S_r _ _ _ Et), !take_take, !length_take.
  apply lookup_lt_Some in Ec. apply lookup_lt_Some in Et.
  replace (S r `min` S (Z.to_nat rev))%nat with (S r) by lia. split_and!; lia || done.
Qed.

Lemma keeps_run_op r op : reverts_from (Z.of_nat r) op → Pres (keeps r) (run_op op).
Proof.
  intros Hop. destruct (is_level_op op) eqn:El.
  - intros s u s' H. eapply keeps_level, level_run_op; eauto.
  - destruct op; try discriminate El; simpl.
    + apply Pres_bind; [apply _|apply keeps_Snapshot|]. intros _. apply Pres_ret, _.
    + by apply keeps_RevertToSnapshot.
    + intros s u s' H. rewrite Prepare_eq in H. revert s u s' H.
      apply Pres_bind; [apply _|apply keeps_Snapshot|].
      intros _ s u s' H. by eapply keeps_level, level_prepare_lists.
Qed.

Lemma keeps_run_ops r ops :
  Forall (reverts_from (Z.of_nat r)) ops → Pres (keeps r) (run_ops ops).
Proof.
  intros Hops. apply Pres_for; [apply _|]. intros op Hin.
  apply keeps_run_op. by eapply Forall_forall in Hin.
Qed.

(** ** The chain of branches *)

Lemma chain_snoc (cs : list (Ctx MS)) p cur :
  chain (cs ++ [p]) cur ↔ chain cs p ∧ branch_of (c_ms p) (c_ms cur).
Proof.
  induction cs as [|c cs IH]; simpl; [tauto|]. rewrite IH. destruct cs; simpl; tauto.
Qed.

Lemma chain_ext (cs : list (Ctx MS)) c c' : ctx_ext c c' → chain cs c → chain cs c'.
Proof.
  intros Hext. destruct cs as [|p cs _] using rev_ind; [done|].
  rewrite !chain_snoc. intros [H1 H2]. split; [done|]. by eapply ctx_ext_branch.
Qed.

Lemma chain_take (cs : list (Ctx MS)) cur r c :
  chain cs cur → cs !! r = Some c → chain (take r cs) c.
Proof.
  revert cur. induction cs as [|p cs IH] using rev_ind; intros cur Hch Hr; [done|].
  apply chain_snoc in Hch as [Hch _].
  destruct (decide (r < length cs)%nat) as [Hlt|Hge].
  - rewrite lookup_app_l in Hr by done. rewrite take_app_le by lia. by eapply IH.
  - apply lookup_app_Some in Hr as [Hr|[_ Hr]]; [by apply lookup_lt_Some in Hr|].
    apply list_lookup_singleton_Some in Hr as [Hz ->].
    replace r with (length cs) by lia. by rewrite take_app_length.
Qed.

Lemma wf_level (s s' : DB) : level_step s s' → db_wf s → db_wf s'.
Proof.
  intros (Hc & Ht & He & _) (H1 & H2 & H3). unfold db_wf. rewrite Hc, Ht.
  split_and!; [done..|by eapply chain_ext].
Qed.

Lemma Snapshot_wf (s : DB) z s' :
  length (tempStatesHist s) = length (snapshottedCtxs s) → chain (snapshottedCtxs s) (ctx s) →
  Snapshot s = Ret (z, s') → db_wf s'.
Proof.
  intros Hl Hch H. unfold Snapshot in H. simplify_eq/=. unfold db_wf. simpl. split_and!.
  - intros E. by destruct (snapshottedCtxs s).
  - rewrite !length_app. simpl. lia.
  - apply chain_snoc. split; [done|]. simpl. constructor.
Qed.

Lemma RevertToSnapshot_wf rev (s : DB) u s' :
  db_wf s → RevertToSnapshot rev s = Ret (u, s') → db_wf s'.
Proof.
  intros (_ & Hl & Hch) H. unfold RevertToSnapshot in H.
  destruct (rev <? 0); [done|].
  destruct (snapshottedCtxs s !! Z.to_nat rev) as [c|] eqn:Ec; [|done].
  destruct (tempStatesHist s !! Z.to_nat rev) as [t|] eqn:Et; [|done].
  unfold sbind in H. destruct (Snapshot _) as [[z s1]|] eqn:Es; [|done].
  unfold sret in H. simplify_eq/=. eapply Snapshot_wf; [..|exact Es]; simpl.
  - rewrite !length_take. lia.
  - by eapply chain_take.
Qed.

Lemma wf_Snapshot (s : DB) z s' : db_wf s → Snapshot s = Ret (z, s') → db_wf s'.
Proof. intros (_ & H1 & H2). by apply Snapshot_wf. Qed.

Lemma wf_run_op op : Pres (maintains db_wf) (run_op op).
Proof.
  intros s u s' H Hwf. destruct (is_level_op op) eqn:El.
  - eapply wf_level; [by eapply level_run_op|done].
  - destruct op; try discriminate El; simpl in H.
    + unfold sbind in H. destruct (Snapshot s) as [[z s1]|] eqn:Es; [|done].
      unfold sret in H. simplify_eq. by eapply wf_Snapshot.
    + by eapply RevertToSnapshot_wf.
    + rewrite Prepare_eq in H. unfold sbind in H.
      destruct (Snapshot s) as [[z s1]|] eqn:Es; [|done].
      eapply wf_level; [by eapply level_prepare_lists|by eapply wf_Snapshot].
Qed.

Lemma wf_run_ops ops : Pres (maintains db_wf) (run_ops ops).
Proof. apply Pres_for; [apply _|]. intros op _. apply wf_run_op. Qed.

(** No call changes the simulation flag. *)
Lemma sim_run_op op : Pres (λ s s' : DB, simulation s' = simulation s) (run_op op).
Proof.
  intros s u s' H. destruct (is_level_op op) eqn:El.
  - by eapply level_run_op.
  - destruct op; try discriminate El; simpl in H.
    + unfold sbind, Snapshot, sret in H. by simplify_eq.
    + unfold RevertToSnapshot in H. destruct (rev <? 0); [done|].
      destruct (snapshottedCtxs s !! _); [|done]. destruct (tempStatesHist s !! _); [|done].
      unfold sbind, Snapshot, sret in H. by simplify_eq.
    + rewrite Prepare_eq in H. unfold sbind in H.
      destruct (Snapshot s) as [[z s1]|] eqn:Es; [|done]. unfold Snapshot in Es. simplify_eq.
      apply level_prepare_lists in H. by destruct H as (_ & _ & _ & _ & _ & ->).
Qed.

Lemma sim_run_ops ops (s s' : DB) u : run_ops ops s = Ret (u, s') → simulation s' = simulation s.
Proof.
  assert (PreOrder (λ s s' : DB, simulation s' = simulation s)).
  { split; [done|]. intros s1 s2 s3 H1 H2. congruence. }
  apply (Pres_for (λ s s' : DB, simulation s' = simulation s) ops run_op).
  intros op _. apply sim_run_op.
Qed.

Lemma NewDBImpl_sim cache (c : Ctx MS) sim s cache' :
  NewDBImpl cache c sim = Ret (s, cache') → simulation s = sim.
Proof.
  unfold NewDBImpl. destruct (GetFeeCollectorAddress cache (cview c)) as [[a e] ch].
  unfold Snapshot. intros H. by simplify_eq/=.
Qed.

Lemma NewDBImpl_wf cache (c : Ctx MS) sim s cache' :
  NewDBImpl cache c sim = Ret (s, cache') → db_wf s.
Proof.
  unfold NewDBImpl. destruct (GetFeeCollectorAddress cache (cview c)) as [[a e] ch].
  intros H. destruct (Snapshot _) as [[z s1]|] eqn:Es; simplify_eq/=.
  by eapply Snapshot_wf in Es.
Qed.

End SnapshotLemmas.

(** * Theorems *)

Section SnapshotTheorems.
Context `{BK : BankKeeper B} `{AK : AccountKeeper A} `{EC : EthCrypto} `{KC : KeeperConfig}.
Context `{MST : MultiStore MS (World B A)} `{MR : MapRange}.
Notation DB := (DBImpl MS).

(** C4: reverting to a snapshot undoes everything done since: whatever calls
    were made in between (nested snapshots and reverts included, as long as
    they do not go below this snapshot), [RevertToSnapshot] succeeds, and the
    contexts, their stores and events, and all temporary state are what they
    were right after the snapshot was taken.  Only the sticky fields (the
    errors, event suppression and the logger) are outside the snapshot. *)
Theorem RevertToSnapshot_restores (s s1 s2 : DB) (rev : Z) (ops : list db_op) :
  EthReplayConfig_Enabled = false →
  length (tempStatesHist s) = length (snapshottedCtxs s) →
  Snapshot s = Ret (rev, s1) →
  Forall (reverts_from rev) ops →
  run_ops ops s1 = Ret (tt, s2) →
  ∃ s3, RevertToSnapshot rev s2 = Ret (tt, s3) ∧
    ctx s3 = ctx s1 ∧ snapshottedCtxs s3 = snapshottedCtxs s1 ∧
    tempStateCurrent s3 = tempStateCurrent s1 ∧ tempStatesHist s3 = tempStatesHist s1 ∧
    err s3 = err s2 ∧ precompileErr s3 = precompileErr s2 ∧
    eventsSuppressed s3 = eventsSuppressed s2 ∧ hook_calls s3 = hook_calls s2.
Proof.
  intros Hlive Hl Hs Hops Hrun. unfold Snapshot in Hs. injection Hs as <- <-.
  rewrite length_app in Hops |- *. simpl in Hops |- *.
  replace (Z.of_nat (length (snapshottedCtxs s) + 1) - 1) with
    (Z.of_nat (length (snapshottedCtxs s))) in * by lia.
  destruct (keeps_run_ops Hlive (length (snapshottedCtxs s)) ops Hops _ _ _ Hrun)
    as ([Hlt Hlen] & Hc & Ht).
  { unfold deep. simpl. rewrite !length_app. simpl. lia. }
  simpl in Hc, Ht. set (r := length (snapshottedCtxs s)) in *.
  rewrite (take_ge (_ ++ _)) in Hc by (rewrite length_app; simpl; lia).
  rewrite (take_ge (_ ++ _)) in Ht by (rewrite length_app; simpl; lia).
  destruct (lookup_lt_is_Some_2 (snapshottedCtxs s2) r ltac:(lia)) as [c Ec].
  destruct (lookup_lt_is_Some_2 (tempStatesHist s2) r ltac:(lia)) as [t Et].
  rewrite (take_S_r _ _ _ Ec) in Hc. rewrite (take_S_r _ _ _ Et) in Ht.
  apply app_inj_tail in Hc as [Hc ->]. apply app_inj_tail in Ht as [Ht ->].
  unfold RevertToSnapshot. destruct (Z.ltb_spec (Z.of_nat r) 0); [lia|].
  rewrite Nat2Z.id, Ec, Et. eexists. split; [reflexivity|]. simpl. rewrite Hc, Ht.
  by split_and!.
Qed.

(** The contexts form a chain of branches at all times: after the database
    is created and any calls are made, every snapshotted context is the parent
    from which the next one was branched, the last one is the parent of the
    current context, and each has exactly one temporary state. *)
Theorem db_wf_reachable (cache cache' : option Address) (c : Ctx MS) (sim : bool) (ops : list db_op) (s0 s : DB) :
  EthReplayConfig_Enabled = false →
  NewDBImpl cache c sim = Ret (s0, cache') →
  run_ops ops s0 = Ret (tt, s) →
  db_wf s.
Proof.
  intros Hlive Hnew Hrun. eapply wf_run_ops; [done|exact Hrun|]. by eapply NewDBImpl_wf.
Qed.

End SnapshotTheorems.

(** * Examples *)

Section SnapshotExamples.
#[local] Existing Instances demo_bank_keeper demo_accounts demo_crypto live_config.
#[local] Instance demo_db_stores : MultiStore (stack_ms demo_world) demo_world := stack_multistore demo_world.

(** The database of a fresh transaction, and a run with a nested snapshot that
    is reverted. *)
Definition demo_db : DBImpl (stack_ms demo_world) :=
  match NewDBImpl None (demo_ctx demo_world0) false with
  | Ret (s, _) => s
  | Panic _ => mkDBImpl (demo_ctx demo_world0) [] NewTemporaryState [] None None [] zero_address false false None []
  end.

Definition demo_ops : list db_op :=
  [OpSetState (addr_of 1) (hash_of 2) (hash_of 3); OpSnapshot; OpAddRefund 7;
   OpAddBalance (addr_of 1) 5 BalanceChangeTransfer; OpRevertToSnapshot 2;
   OpSetNonce (addr_of 1) 4].

Lemma RevertToSnapshot_restores_witness :
  let s1 := exec Snapshot demo_db in
  let s2 := exec (run_ops demo_ops) s1 in
  ∃ s3, RevertToSnapshot 1 s2 = Ret (tt, s3) ∧ ctx s3 = ctx s1.
Proof.
  cbv zeta. assert (Hlive : EthReplayConfig_Enabled = false) by reflexivity.
  assert (Hl : length (tempStatesHist demo_db) = length (snapshottedCtxs demo_db))
    by (vm_compute; reflexivity).
  assert (Hs : Snapshot demo_db = Ret (1, exec Snapshot demo_db)) by reflexivity.
  assert (Hops : Forall (reverts_from 1) demo_ops) by (unfold demo_ops; repeat constructor; simpl; lia).
  assert (Hi : is_ret (run_ops demo_ops (exec Snapshot demo_db)) = true) by (vm_compute; reflexivity).
  apply exec_ret in Hi.
  destruct (RevertToSnapshot_restores _ _ _ _ _ Hlive Hl Hs Hops Hi) as (s3 & H & Hc & _).
  exists s3. split; [exact H|exact Hc].
Defined.

Lemma db_wf_reachable_witness : db_wf (exec (run_ops (OpSnapshot :: demo_ops)) demo_db).
Proof.
  assert (Hlive : EthReplayConfig_Enabled = false) by reflexivity.
  assert (Hn : NewDBImpl None (demo_ctx demo_world0) false = Ret (demo_db, None)) by reflexivity.
  assert (Hi : is_ret (run_ops (OpSnapshot :: demo_ops) demo_db) = true) by (vm_compute; reflexivity).
  apply exec_ret in Hi.
  exact (db_wf_reachable _ _ _ _ _ _ _ Hlive Hn Hi).
Defined.

End SnapshotExamples.
