(* ===== verification/Supply.v ===== *)
(** * Balances and the surplus

    [SubBalance] and [AddBalance] change the bank and book the opposite amount
    in the temporary state's surplus.  Over every level of the database the
    bank's total plus the booked surplus is therefore constant as long as no
    call failed, and [Finalize] hands the keeper exactly what the transaction
    took out of the bank. *)

From S2P Require Import Prelude Bytes Store Params Keys World Keeper StateDB Snapshots Instances.
Local Open Scope Z_scope.
Local Open Scope stm_scope.

Section SupplyDefs.
Context `{BK : BankKeeper B} `{AK : AccountKeeper A} `{EC : EthCrypto} `{KC : KeeperConfig}.
Context `{MST : MultiStore MS (World B A)}.
Notation DB := (DBImpl MS).

(** The bank a context shows, the account an EVM address stands for, and its
    balance. *)
Definition bank_of (c : Ctx MS) : B := w_bank (cview c).
Definition tabi_of (s : DB) (a : Address) : AccAddress :=
  if bool_decide (coinbaseEvmAddress s = a) then coinbaseAddress s
  else GetTabiAddressOrDefault (cview (ctx s)) a.
Definition balance_of (s : DB) (a : Address) : Z :=
  Keeper.GetBalance (cview (ctx s)) (tabi_of s a).

(** The receiver after a bank call that left the bank [b] and emitted [evs]. *)
Definition after_bank (b : B) (evs : list Event) (s : DB) : DB :=
  let c := cemit evs (cput (set_bank b (cview (ctx s))) (ctx s)) in
  set_ctx (if eventsSuppressed s then mkCtx (c_ms c) (c_events (ctx s)) (c_info c) else c) s.

(** [d] wei were moved to the account [t], with the surplus booked; nothing
    else of the stores or of the database changed. *)
Definition db_moved (s s' : DB) (t : AccAddress) (d : Z) : Prop :=
  (∃ b', cview (ctx s') = set_bank b' (cview (ctx s)) ∧ bank_moved (bank_of (ctx s)) b' t d) ∧
  tempStateCurrent s' =
    set_surplus (surplus (tempStateCurrent s) - d) (tempStateCurrent s) ∧
  err s' = err s ∧ level_step s s'.

Definition sum_surplus (ts : list TemporaryState) : Z := foldr (λ t acc, surplus t + acc) 0 ts.

(** The bank's total and the surplus booked on the newest level. *)
Definition cur_worth (s : DB) : Z := bk_total (bank_of (ctx s)) + surplus (tempStateCurrent s).

(** At every level the bank and the surplus booked so far add up to [K]. *)
Definition balanced (K : Z) (s : DB) : Prop :=
  err s = None →
  cur_worth s + sum_surplus (tempStatesHist s) = K ∧
  ∀ i c, snapshottedCtxs s !! i = Some c →
    bk_total (bank_of c) + sum_surplus (take (S i) (tempStatesHist s)) = K.

(** A step on the newest level that fails or conserves. *)
Definition conserves (s s' : DB) : Prop :=
  level_step s s' ∧ (err s' = None → err s = None ∧ cur_worth s' = cur_worth s).

(** Calls that create value: they are made by precompiles and in simulations. *)
Definition is_conserving (op : db_op) : bool :=
  match op with OpAddSurplus _ | OpSetBalance _ _ _ => false | _ => true end.

End SupplyDefs.

Section SupplyLemmas.
Context `{BK : BankKeeper B} `{AK : AccountKeeper A} `{EC : EthCrypto} `{KC : KeeperConfig}.
Context `{MST : MultiStore MS (World B A)} `{MSL : !MultiStoreLaws MS (World B A)} `{MR : MapRange}.
Context `{BL : !BankLaws B}.
Hypothesis Hlive : EthReplayConfig_Enabled = false.
Notation DB := (DBImpl MS).

Lemma getTabiAddress_run a (s : DB) : getTabiAddress a s = Ret (tabi_of s a, s).
Proof. done. Qed.

Lemma GetBalance_run a (s : DB) : GetBalance a s = Ret (balance_of s a, s).
Proof. unfold GetBalance. by rewrite (bind_prepare Hlive). Qed.

Lemma bank_call_run (f : B → bank_res B) (s : DB) :
  bank_call (eventsSuppressed s) f s =
  Ret ((f (bank_of (ctx s))).2, after_bank (f (bank_of (ctx s))).1.1 (f (bank_of (ctx s))).1.2 s).
Proof.
  unfold bank_call, run_bank, after_bank, bank_of.
  destruct (f (w_bank (cview (ctx s)))) as [[b evs] e]. done.
Qed.

Lemma after_bank_view b evs (s : DB) :
  cview (ctx (after_bank b evs s)) = set_bank b (cview (ctx s)).
Proof.
  unfold after_bank. simpl. destruct (eventsSuppressed s); unfold cview; simpl; apply ms_view_put.
Qed.

Lemma after_bank_bank b evs (s : DB) : bank_of (ctx (after_bank b evs s)) = b.
Proof. unfold bank_of. by rewrite after_bank_view. Qed.

(** The hook call after a balance change does not touch anything else. *)
Definition notify (a : Address) (d : Z) (r : Reason) (s : DB) : DB :=
  if hooked hk_balance s
  then add_call (OnBalanceChange a (balance_of s a + d) (balance_of s a) r) s else s.

Lemma sub_positive_run a amt r (s : DB) atabi wei :
  SplitAtabiWeiAmount amt = (atabi, wei) →
  sub_positive a amt r s =
  let '(b1, ev1, e1) := bk_SubUnlockedCoins (bank_of (ctx s)) (tabi_of s a) BaseDenom atabi in
  let s1 := after_bank b1 ev1 s in
  match e1 with
  | Some _ => Ret (tt, set_err e1 s1)
  | None =>
      let '(b2, ev2, e2) := bk_SubWei b1 (tabi_of s a) wei in
      let s2 := after_bank b2 ev2 s1 in
      match e2 with
      | Some _ => Ret (tt, set_err e2 s2)
      | None => Ret (tt, set_temp (λ t, set_surplus (surplus t + amt) t) (notify a amt r s2))
      end
  end.
Proof.
  intros Hsplit. unfold sub_positive. rewrite Hsplit.
  unfold sbind at 1. unfold sget at 1. unfold sbind at 1. rewrite getTabiAddress_run.
  unfold sbind at 1. rewrite bank_call_run.
  destruct (bk_SubUnlockedCoins _ _ _ _) as [[b1 ev1] [e1|]]; [done|]. simpl.
  unfold sbind at 1.
  change (eventsSuppressed s) with (eventsSuppressed (after_bank b1 ev1 s)).
  rewrite bank_call_run, after_bank_bank.
  destruct (bk_SubWei _ _ _) as [[b2 ev2] [e2|]]; [done|]. simpl.
  unfold sbind, sget, swhen, notify. destruct (hooked hk_balance _); [|done].
  by rewrite GetBalance_run.
Qed.

Lemma add_positive_run a amt r (s : DB) atabi wei :
  SplitAtabiWeiAmount amt = (atabi, wei) →
  add_positive a amt r s =
  let '(b1, ev1, e1) := bk_AddCoins (bank_of (ctx s)) (tabi_of s a) BaseDenom atabi in
  let s1 := after_bank b1 ev1 s in
  match e1 with
  | Some _ => Ret (tt, set_err e1 s1)
  | None =>
      let '(b2, ev2, e2) := bk_AddWei b1 (tabi_of s a) wei in
      let s2 := after_bank b2 ev2 s1 in
      match e2 with
      | Some _ => Ret (tt, set_err e2 s2)
      | None => Ret (tt, set_temp (λ t, set_surplus (surplus t - amt) t) (notify a (- amt) r s2))
      end
  end.
Proof.
  intros Hsplit. unfold add_positive. rewrite Hsplit.
  unfold sbind at 1. unfold sget at 1. unfold sbind at 1. rewrite getTabiAddress_run.
  unfold sbind at 1. rewrite bank_call_run.
  destruct (bk_AddCoins _ _ _ _) as [[b1 ev1] [e1|]]; [done|]. simpl.
  unfold sbind at 1.
  change (eventsSuppressed s) with (eventsSuppressed (after_bank b1 ev1 s)).
  rewrite bank_call_run, after_bank_bank.
  destruct (bk_AddWei _ _ _) as [[b2 ev2] [e2|]]; [done|]. simpl.
  unfold sbind, sget, swhen, notify. destruct (hooked hk_balance _); [|done].
  by rewrite GetBalance_run.
Qed.

(** Two successful bank calls on one account move the sum of what they move. *)
Lemma after_bank_moved (s : DB) b1 ev1 b2 ev2 a r k t d1 d2 :
  bank_moved (bank_of (ctx s)) b1 t d1 → bank_moved b1 b2 t d2 →
  let s' := set_temp (λ x, set_surplus (surplus x - (d1 + d2)) x)
              (notify a k r (after_bank b2 ev2 (after_bank b1 ev1 s))) in
  level_step s s' → db_moved s s' t (d1 + d2).
Proof.
  intros H1 H2 s' Hl.
  assert (Hv : cview (ctx s') = set_bank b2 (cview (ctx s))).
  { transitivity (cview (ctx (after_bank b2 ev2 (after_bank b1 ev1 s)))).
    - unfold s', notify. by destruct (hooked _ _).
    - by rewrite !after_bank_view. }
  split_and!; [exists b2; split; [done|by eapply bank_moved_trans]|..|done];
    unfold s', notify; by destruct (hooked _ _).
Qed.

(** [SubBalance] of a positive amount: it succeeds exactly when the unlocked
    balance covers the amount. *)
Lemma sub_positive_spec a amt r (s : DB) :
  0 < amt →
  ∃ s', sub_positive a amt r s = Ret (tt, s') ∧
    ((amt ≤ balance_of s a ∧ db_moved s s' (tabi_of s a) (- amt)) ∨
     (balance_of s a < amt ∧ err s' ≠ None)).
Proof.
  intros Hpos. pose proof (SplitAtabiWeiAmount_spec amt ltac:(lia)) as Hsplit.
  destruct (SplitAtabiWeiAmount amt) as [q w] eqn:Es. destruct Hsplit as (Hamt & Hw & Hq).
  pose proof (λ s', level_sub_positive Hlive a amt r s tt s') as Hlevel.
  rewrite (sub_positive_run a amt r s q w Es) in *.
  pose proof (bk_balances (bank_of (ctx s)) (tabi_of s a)) as [Hlk Hwb].
  assert (Hbal : balance_of s a = spendable (bank_of (ctx s)) (tabi_of s a)) by apply GetBalance_spendable.
  assert (HM : 0 < AtabiToWeiMultiplier) by (unfold AtabiToWeiMultiplier; lia).
  pose proof (bk_SubUnlockedCoins_enough (bank_of (ctx s)) (tabi_of s a) q) as Henough.
  pose proof (bk_SubUnlockedCoins_ok (bank_of (ctx s)) (tabi_of s a) q) as Hok.
  unfold spendable, wei_value in Hbal.
  destruct (bk_SubUnlockedCoins _ _ _ _) as [[b1 ev1] [e1|]].
  { eexists. split; [reflexivity|]. right. split; [|done].
    destruct (Z.lt_ge_cases (balance_of s a) amt); [done|]. exfalso.
    assert (0 ≤ q ≤ bk_GetBalance (bank_of (ctx s)) (tabi_of s a) BaseDenom -
      bk_LockedCoins (bank_of (ctx s)) (tabi_of s a) BaseDenom) as Hc by nia.
    by specialize (Henough Hc). }
  specialize (Hok b1 ev1 Hq eq_refl). pose proof (bank_moved_spendable _ _ _ _ Hok) as Hsp.
  unfold spendable, wei_value in Hsp.
  pose proof (bk_SubWei_enough b1 (tabi_of s a) w Hw) as Hen2.
  pose proof (bk_SubWei_short b1 (tabi_of s a) w Hw) as Hsh2.
  pose proof (bk_SubWei_ok b1 (tabi_of s a) w) as Hok2.
  unfold spendable, wei_value in Hen2, Hsh2.
  destruct (bk_SubWei _ _ _) as [[b2 ev2] [e2|]].
  - eexists. split; [reflexivity|]. right. split; [|done].
    destruct (Z.lt_ge_cases (balance_of s a) amt); [done|]. exfalso.
    by specialize (Hen2 ltac:(lia)).
  - specialize (Hok2 b2 ev2 Hw eq_refl). eexists. split; [reflexivity|]. left. split.
    + destruct (Z.lt_ge_cases (balance_of s a) amt); [|done]. exfalso.
      by apply Hsh2; [lia|].
    + replace (- amt) with (- (q * AtabiToWeiMultiplier) + - w) by lia.
      pose proof (after_bank_moved s b1 ev1 b2 ev2 a r amt _ _ _ Hok Hok2) as Hm. simpl in Hm.
      assert (Hf : ∀ x, set_surplus (surplus x + amt) x =
        set_surplus (surplus x - (- (q * AtabiToWeiMultiplier) + - w)) x) by (intros x; f_equal; lia).
      unfold set_temp in *. rewrite Hf in *. apply Hm. by apply Hlevel.
Qed.

Lemma add_positive_spec a amt r (s : DB) :
  0 < amt →
  ∃ s', add_positive a amt r s = Ret (tt, s') ∧ db_moved s s' (tabi_of s a) amt.
Proof.
  intros Hpos. pose proof (SplitAtabiWeiAmount_spec amt ltac:(lia)) as Hsplit.
  destruct (SplitAtabiWeiAmount amt) as [q w] eqn:Es. destruct Hsplit as (Hamt & Hw & Hq).
  pose proof (λ s', level_add_positive Hlive a amt r s tt s') as Hlevel.
  rewrite (add_positive_run a amt r s q w Es) in *.
  pose proof (bk_AddCoins_enough (bank_of (ctx s)) (tabi_of s a) q Hq) as Henough.
  pose proof (bk_AddCoins_ok (bank_of (ctx s)) (tabi_of s a) q) as Hok.
  destruct (bk_AddCoins _ _ _ _) as [[b1 ev1] e1]. simpl in Henough. subst e1.
  specialize (Hok b1 ev1 Hq eq_refl).
  pose proof (bk_AddWei_enough b1 (tabi_of s a) w Hw) as Hen2.
  pose proof (bk_AddWei_ok b1 (tabi_of s a) w) as Hok2.
  destruct (bk_AddWei _ _ _) as [[b2 ev2] e2]. simpl in Hen2. subst e2.
  specialize (Hok2 b2 ev2 Hw eq_refl). eexists. split; [reflexivity|].
  rewrite Hamt in *.
  apply (after_bank_moved s b1 ev1 b2 ev2 a r _ _ _ _ Hok Hok2). by apply Hlevel.
Qed.

(** ** Every conserving call conserves *)

#[global] Instance conserves_preorder : PreOrder (conserves (MS := MS)).
Proof.
  split.
  - intros s. by split.
  - intros s1 s2 s3 [L1 H1] [L2 H2]. split; [by transitivity s2|].
    intros E3. destruct (H2 E3) as [E2 W2]. destruct (H1 E2) as [E1 W1]. split; congruence.
Qed.

Lemma db_moved_conserves (s s' : DB) t d : db_moved s s' t d → conserves s s'.
Proof.
  intros ((b' & Hv & (_ & _ & _ & Htot)) & Ht & He & Hl). split; [done|]. rewrite He.
  intros Hs. split; [done|]. unfold cur_worth, bank_of in *. rewrite Hv, Ht. simpl. lia.
Qed.

Lemma cons_level (m : stm DB unit) :
  Pres level_step m →
  (∀ s u s', m s = Ret (u, s') → err s' = err s ∧ bank_of (ctx s') = bank_of (ctx s) ∧
     surplus (tempStateCurrent s') = surplus (tempStateCurrent s)) →
  Pres conserves m.
Proof.
  intros Hl H s u s' Hm. destruct (H _ _ _ Hm) as (He & Hb & Ht). split; [by eapply Hl|].
  rewrite He. unfold cur_worth. by rewrite Hb, Ht.
Qed.

Lemma cons_prepare a : Pres conserves (prepare a).
Proof. intros s u s' H. rewrite (prepare_live Hlive) in H. by simplify_eq. Qed.
Lemma cons_change (f : World B A → World B A) :
  (∀ w, w_bank (f w) = w_bank w) → Pres conserves (change f).
Proof.
  intros Hf. apply cons_level; [apply (level_change (MS := MS))|].
  intros s u s' H. unfold change, sput in H. simplify_eq/=. split_and!; [done| |done].
  unfold bank_of. rewrite cview_cupd. apply Hf.
Qed.
Lemma cons_view {T} (f : World B A → T) : Pres conserves (view f).
Proof. unfold view. pres. Qed.
Lemma cons_view_out {T} (f : World B A → outcome T) : Pres conserves (view_out f).
Proof. intros s a s' H. unfold view_out in H. destruct (f _); by simplify_eq/=. Qed.
Lemma cons_put_temp f : (∀ t, surplus (f t) = surplus t) → Pres conserves (sput (set_temp f)).
Proof.
  intros Hf. apply cons_level; [apply level_put_temp|].
  intros s u s' H. unfold sput in H. simplify_eq/=. by split_and!.
Qed.
Lemma cons_put_call h : Pres conserves (sput (add_call h)).
Proof.
  apply cons_level; [apply level_put_call|]. intros s u s' [= _ <-]. by split_and!.
Qed.
Lemma cons_put_suppressed b : Pres conserves (sput (set_eventsSuppressed b)).
Proof.
  apply cons_level; [apply level_put_suppressed|]. intros s u s' [= _ <-]. by split_and!.
Qed.
Lemma cons_put_logger h : Pres conserves (sput (set_logger h)).
Proof.
  apply cons_level; [apply level_put_logger|]. intros s u s' [= _ <-]. by split_and!.
Qed.
Lemma cons_put_precompileErr e : Pres conserves (sput (set_precompileErr e)).
Proof.
  apply cons_level; [apply level_put_precompileErr|]. intros s u s' [= _ <-]. by split_and!.
Qed.
Lemma cons_put_code a code :
  Pres conserves (sput (λ s : DB, set_ctx (Keeper.SetCode a code (ctx s)) s)).
Proof.
  apply cons_level; [apply level_put_code|]. intros s u s' [= _ <-]. split_and!; [done| |done].
  unfold bank_of. simpl. rewrite SetCode_eq. unfold code_written.
  destruct (GetTabiAddress _ a); rewrite ?SetAddressMapping_bank; by rewrite cview_cupd.
Qed.
Lemma cons_sub_positive a amt r : 0 < amt → Pres conserves (sub_positive a amt r).
Proof.
  intros Hpos s u s' H. destruct (sub_positive_spec a amt r s Hpos) as (s1 & H1 & Hc).
  rewrite H in H1. simplify_eq. destruct Hc as [[_ Hm]|[_ Herr]].
  - by eapply db_moved_conserves.
  - split; [by eapply (level_sub_positive Hlive)|done].
Qed.
Lemma cons_add_positive a amt r : 0 < amt → Pres conserves (add_positive a amt r).
Proof.
  intros Hpos s u s' H. destruct (add_positive_spec a amt r s Hpos) as (s1 & H1 & Hm).
  rewrite H in H1. simplify_eq. by eapply db_moved_conserves.
Qed.

Hint Resolve cons_prepare cons_change cons_view cons_view_out cons_put_temp cons_put_call
  cons_put_suppressed cons_put_logger cons_put_precompileErr cons_put_code : pres.
Hint Extern 1 (∀ _, _ = _) => (intros; reflexivity) : pres.

Lemma cons_SubBalance a amt r : Pres conserves (SubBalance a amt r).
Proof.
  unfold SubBalance. pres.
  - apply Z.ltb_lt in Heqb0. apply cons_add_positive. lia.
  - apply Z.ltb_ge in Heqb0. apply Z.eqb_neq in Heqb. apply cons_sub_positive. lia.
Qed.
Lemma cons_AddBalance a amt r : Pres conserves (AddBalance a amt r).
Proof.
  unfold AddBalance. pres.
  - apply Z.ltb_lt in Heqb0. apply cons_sub_positive. lia.
  - apply Z.ltb_ge in Heqb0. apply Z.eqb_neq in Heqb. apply cons_add_positive. lia.
Qed.
Lemma cons_GetBalance a : Pres conserves (GetBalance a).
Proof. unfold GetBalance, getTabiAddress. pres. Qed.
Lemma cons_GetState a k : Pres conserves (GetState a k).
Proof. unfold GetState. pres. Qed.
Lemma cons_GetNonce a : Pres conserves (GetNonce a).
Proof. unfold GetNonce. pres. Qed.
Lemma cons_GetCode a : Pres conserves (GetCode a).
Proof. unfold GetCode. pres. Qed.
Lemma cons_GetCodeHash a : Pres conserves (GetCodeHash a).
Proof. unfold GetCodeHash. pres. Qed.
Hint Resolve cons_SubBalance cons_AddBalance cons_GetBalance cons_GetState cons_GetNonce
  cons_GetCode cons_GetCodeHash : pres.
Lemma cons_change_SetState a k v : Pres conserves (change (Keeper.SetState a k v)).
Proof. apply cons_change. intros w. unfold Keeper.SetState. by case_bool_decide. Qed.
Hint Resolve cons_change_SetState : pres.
Lemma cons_SetState a k v : Pres conserves (SetState a k v).
Proof. unfold SetState. pres. Qed.
Lemma cons_clearAccountState a : Pres conserves (clearAccountState a).
Proof. unfold clearAccountState. pres. Qed.
Lemma cons_MarkAccount a st : Pres conserves (MarkAccount a st).
Proof. unfold MarkAccount. pres. Qed.
Hint Resolve cons_SetState cons_clearAccountState cons_MarkAccount : pres.
Lemma cons_SelfDestruct a : Pres conserves (SelfDestruct a).
Proof. unfold SelfDestruct. pres. Qed.
Lemma cons_GetRefund : Pres conserves GetRefund.
Proof.
  unfold GetRefund, getTransientModule. pres.
  intros s n s' H. destruct (Uint64 _); by simplify_eq/=.
Qed.
Lemma cons_put_refund n : Pres conserves (put_refund n).
Proof. unfold put_refund. pres. Qed.
Lemma cons_put_access_list al : Pres conserves (put_access_list al).
Proof. unfold put_access_list. pres. Qed.
Hint Resolve cons_SelfDestruct cons_GetRefund cons_put_refund cons_put_access_list : pres.
Lemma cons_AddAddress a : Pres conserves (AddAddressToAccessList a).
Proof. unfold AddAddressToAccessList, getCurrentAccessList. pres. Qed.
Lemma cons_AddSlot a k : Pres conserves (AddSlotToAccessList a k).
Proof. unfold AddSlotToAccessList, getCurrentAccessList. pres. Qed.
Hint Resolve cons_AddAddress cons_AddSlot : pres.
Lemma cons_prepare_lists s c d ps tx : Pres conserves (prepare_lists s c d ps tx).
Proof. unfold prepare_lists. pres. Qed.
Lemma cons_residual st : Pres conserves (handleResidualFundsInDestructedAccounts st).
Proof. unfold handleResidualFundsInDestructedAccounts. pres. Qed.
Lemma cons_clear_destructed st : Pres conserves (clearAccountStateIfDestructed st).
Proof. unfold clearAccountStateIfDestructed. pres. Qed.

Lemma cons_run_op op :
  is_level_op op = true → is_conserving op = true → Pres conserves (run_op op).
Proof.
  destruct op; intros Hop Hc; try discriminate Hop; try discriminate Hc; simpl;
    unfold TransferWithoutEvents, DisableEvents, EnableEvents, SetStorage, SetTransientState,
      CreateAccount, Selfdestruct6780, Created, getTransientAccount, SetNonce, SetCode,
      AddRefund, SubRefund, AddLog, GetAllLogs, SetPrecompileError, SetLogger;
    pres.
Qed.

(** ** The balance equation at every level *)

Lemma sum_surplus_app ts1 ts2 : sum_surplus (ts1 ++ ts2) = sum_surplus ts1 + sum_surplus ts2.
Proof. induction ts1 as [|t ts1 IH]; simpl; [done|]. rewrite IH. lia. Qed.

Lemma balanced_conserves K (s s' : DB) : conserves s s' → balanced K s → balanced K s'.
Proof.
  intros [(Hc & Ht & _) Hw] Hb He. destruct (Hw He) as [He0 Hw0].
  destruct (Hb He0) as [H1 H2]. rewrite Hc, Ht, Hw0. done.
Qed.

Lemma balanced_Snapshot K (s : DB) z s' :
  length (tempStatesHist s) = length (snapshottedCtxs s) →
  Snapshot s = Ret (z, s') → balanced K s → balanced K s'.
Proof.
  intros Hl H Hb. unfold Snapshot in H. simplify_eq/=. intros He. destruct (Hb He) as [H1 H2].
  unfold cur_worth, bank_of in *. simpl in *. rewrite cview_cbranch, sum_surplus_app. simpl. split.
  - lia.
  - intros i c Hi. apply lookup_app_Some in Hi as [Hi|[Hi Hc]].
    + pose proof (lookup_lt_Some _ _ _ Hi). rewrite take_app_le by lia. by apply H2.
    + apply list_lookup_singleton_Some in Hc as [Hz <-].
      rewrite take_ge by (rewrite length_app; simpl; lia). rewrite sum_surplus_app. simpl. lia.
Qed.

Lemma balanced_RevertToSnapshot K rev (s : DB) u s' :
  db_wf s → RevertToSnapshot rev s = Ret (u, s') → balanced K s → balanced K s'.
Proof.
  intros (_ & Hl & _) H Hb. unfold RevertToSnapshot in H. destruct (rev <? 0); [done|].
  set (r := Z.to_nat rev) in *.
  destruct (snapshottedCtxs s !! r) as [c|] eqn:Ec; [|done].
  destruct (tempStatesHist s !! r) as [t|] eqn:Et; [|done].
  unfold sbind in H. destruct (Snapshot _) as [[z s1]|] eqn:Es; [|done]. injection H as _ <-.
  apply (balanced_Snapshot K) in Es; [done|simpl; rewrite !length_take; lia|].
  intros He. destruct (Hb He) as [_ H2]. unfold cur_worth. simpl. split.
  - specialize (H2 r c Ec). rewrite (take_S_r _ _ _ Et), sum_surplus_app in H2. simpl in H2. lia.
  - intros i c' Hi. pose proof (lookup_lt_Some _ _ _ Hi) as Hlt. rewrite length_take in Hlt.
    rewrite lookup_take_lt in Hi by lia. rewrite take_take.
    replace (S i `min` r)%nat with (S i) by lia. by apply H2.
Qed.

Lemma balanced_run_op K op :
  is_conserving op = true → Pres (maintains (λ s, db_wf s ∧ balanced K s)) (run_op op).
Proof.
  intros Hop s u s' H [Hwf Hb]. split; [by eapply (wf_run_op Hlive)|].
  destruct (is_level_op op) eqn:El.
  - eapply balanced_conserves; [|done]. by eapply cons_run_op.
  - destruct op; try discriminate El; simpl in H.
    + unfold sbind in H. destruct (Snapshot s) as [[z s1]|] eqn:Es; [|done].
      unfold sret in H. simplify_eq. by eapply balanced_Snapshot; [apply Hwf|..].
    + by eapply balanced_RevertToSnapshot.
    + rewrite (Prepare_eq Hlive) in H. unfold sbind in H.
      destruct (Snapshot s) as [[z s1]|] eqn:Es; [|done].
      eapply balanced_conserves; [by eapply cons_prepare_lists|].
      by eapply balanced_Snapshot; [apply Hwf|..].
Qed.

Lemma balanced_run_ops K ops :
  Forall (λ op, is_conserving op = true) ops →
  Pres (maintains (λ s, db_wf s ∧ balanced K s)) (run_ops ops).
Proof.
  intros Hops. apply Pres_for; [apply _|]. intros op Hin. apply balanced_run_op.
  rewrite Forall_forall in Hops. by apply Hops.
Qed.

Lemma balanced_New cache (c : Ctx MS) sim s cache' :
  NewDBImpl cache c sim = Ret (s, cache') → balanced (bk_total (bank_of c)) s.
Proof.
  unfold NewDBImpl. destruct (GetFeeCollectorAddress cache (cview c)) as [[a e] ch].
  intros H. destruct (Snapshot _) as [[z s1]|] eqn:Es; simplify_eq/=.
  apply (balanced_Snapshot (bk_total (bank_of c))) in Es; [done|done|].
  intros _. unfold cur_worth. simpl. split; [lia|]. intros i c' Hi. by rewrite lookup_nil in Hi.
Qed.

(** ** Settling and flushing *)

(** The part of [Finalize] before the flush. *)
Definition settle : stm DB unit :=
  let! cur := sget tempStateCurrent in
  do! handleResidualFundsInDestructedAccounts cur;
  do! clearAccountStateIfDestructed cur;
  let! hist := sget tempStatesHist in
  sfor hist (λ ts,
    do! handleResidualFundsInDestructedAccounts ts;
    clearAccountStateIfDestructed ts).

Lemma balance_of_nonneg (s : DB) a : 0 ≤ balance_of s a.
Proof.
  unfold balance_of. rewrite GetBalance_spendable.
  pose proof (bk_balances (w_bank (cview (ctx s))) (tabi_of s a)).
  unfold spendable, wei_value, AtabiToWeiMultiplier in *. nia.
Qed.

Lemma SubBalance_spec a amt r (s : DB) :
  0 ≤ amt ≤ balance_of s a →
  ∃ s', SubBalance a amt r s = Ret (tt, s') ∧ err s' = err s ∧ conserves s s' ∧
        (0 < amt → db_moved s s' (tabi_of s a) (- amt)).
Proof.
  intros Hamt. unfold SubBalance. rewrite (bind_prepare Hlive).
  destruct (Z.eqb_spec amt 0) as [->|Hnz].
  { exists s. by split_and!. }
  destruct (Z.ltb_spec amt 0); [lia|].
  destruct (sub_positive_spec a amt r s ltac:(lia)) as (s' & E & [[_ Hm]|[? _]]); [|lia].
  exists s'. split_and!; [done|by destruct Hm as (_ & _ & ? & _)|by eapply db_moved_conserves|done].
Qed.

Lemma AddBalance_spec a amt r (s : DB) :
  0 ≤ amt →
  ∃ s', AddBalance a amt r s = Ret (tt, s') ∧ err s' = err s ∧ conserves s s' ∧
        (0 < amt → db_moved s s' (tabi_of s a) amt).
Proof.
  intros Hamt. unfold AddBalance. rewrite (bind_prepare Hlive).
  destruct (Z.eqb_spec amt 0) as [->|Hnz].
  { exists s. by split_and!. }
  destruct (Z.ltb_spec amt 0); [lia|].
  destruct (add_positive_spec a amt r s ltac:(lia)) as (s' & E & Hm).
  exists s'. split_and!; [done|by destruct Hm as (_ & _ & ? & _)|by eapply db_moved_conserves|done].
Qed.

(** Settling destructed accounts never fails, and conserves. *)
Lemma residual_run st (s : DB) :
  err s = None →
  ∃ s', handleResidualFundsInDestructedAccounts st s = Ret (tt, s') ∧ err s' = None ∧ conserves s s'.
Proof.
  intros Hs. apply (sfor_run (λ s : DB, err s = None) conserves); [|done].
  clear s Hs. intros [a mark] s He. simpl.
  destruct (negb _); [exists s; by split_and!|].
  unfold sbind at 1. rewrite GetBalance_run.
  pose proof (balance_of_nonneg s a).
  destruct (Z.eqb_spec (balance_of s a) 0); [exists s; by split_and!|].
  destruct (SubBalance_spec a (balance_of s a) BalanceDecreaseSelfdestructBurn s)
    as (s1 & E1 & Er1 & C1 & _); [lia|].
  destruct (AddBalance_spec (coinbaseEvmAddress s1) (balance_of s a)
    BalanceDecreaseSelfdestructBurn s1) as (s2 & E2 & Er2 & C2 & _); [lia|].
  exists s2. unfold sbind. rewrite E1. unfold sget. rewrite E2.
  split_and!; [done|congruence|by transitivity s1].
Qed.

Lemma clear_run st (s : DB) :
  err s = None →
  ∃ s', clearAccountStateIfDestructed st s = Ret (tt, s') ∧ err s' = None ∧ conserves s s'.
Proof.
  intros Hs. apply (sfor_run (λ s : DB, err s = None) conserves); [|done].
  clear s Hs. intros [a mark] s He. simpl.
  destruct (negb _); [exists s; by split_and!|].
  unfold clearAccountState. rewrite (bind_prepare Hlive). unfold change, sput.
  eexists. split; [reflexivity|]. split; [done|].
  eapply (cons_clearAccountState a). unfold clearAccountState. by rewrite (bind_prepare Hlive).
Qed.

Lemma settle_run (s : DB) :
  err s = None → ∃ s', settle s = Ret (tt, s') ∧ err s' = None ∧ conserves s s'.
Proof.
  intros He. unfold settle. unfold sbind at 1. unfold sget at 1.
  destruct (residual_run (tempStateCurrent s) s He) as (s1 & E1 & Er1 & C1).
  destruct (clear_run (tempStateCurrent s) s1 Er1) as (s2 & E2 & Er2 & C2).
  unfold sbind at 1. rewrite E1. unfold sbind at 1. rewrite E2. unfold sbind at 1, sget at 1.
  destruct (sfor_run (λ s : DB, err s = None) conserves (tempStatesHist s2) (λ ts,
    do! handleResidualFundsInDestructedAccounts ts; clearAccountStateIfDestructed ts))
    with (s := s2) as (s3 & E3 & Er3 & C3); [|done|].
  { intros ts s0 H0. destruct (residual_run ts s0 H0) as (x1 & X1 & Y1 & Z1).
    destruct (clear_run ts x1 Y1) as (x2 & X2 & Y2 & Z2). exists x2.
    unfold sbind. rewrite X1, X2. split_and!; [done|done|by transitivity x1]. }
  exists s3. rewrite E3. split_and!; [done|done|]. transitivity s1; [done|by transitivity s2].
Qed.

End SupplyLemmas.
