(* ===== verification/Finalize.v ===== *)
(** * Finalizing a transaction

    [Finalize] settles the destructed accounts, writes the stack of contexts
    down into the base one and returns the surplus.  The theorems say what the
    base context shows afterwards, that value is conserved from the start of a
    transaction to its end, and that destructed accounts are gone. *)

From S2P Require Import Prelude Bytes Store Params Keys World Keeper StateDB Snapshots Supply Instances.
Local Open Scope Z_scope.
Local Open Scope stm_scope.

Section FinalizeDefs.
Context `{BK : BankKeeper B} `{AK : AccountKeeper A} `{EC : EthCrypto} `{KC : KeeperConfig}.
Context `{MST : MultiStore MS (World B A)}.
Notation DB := (DBImpl MS).

Definition hd_or (cs : list (Ctx MS)) (cur : Ctx MS) : Ctx MS :=
  match cs with [] => cur | c :: _ => c end.

(** The store keys of an account's code, nonce and storage. *)
Definition account_key (a : Address) (k : bytes) : Prop :=
  k = CodeKeyPrefix ++ ba a ∨ k = CodeSizeKeyPrefix ++ ba a ∨ k = CodeHashKeyPrefix ++ ba a ∨
  k = NonceKeyPrefix ++ ba a ∨ ∃ slot, k = StateKey a ++ slot.

(** The account [a] has no record in the module's store. *)
Definition cleared (a : Address) (w : World B A) : Prop := ∀ k, account_key a k → w_evm w !! k = None.

(** [a] stands for the account [t], which is not the fee account; and it has
    nothing left to spend. *)
Definition stands_for (a : Address) (t : AccAddress) (s : DB) : Prop :=
  tabi_of s a = t ∧ t ≠ coinbaseAddress s.
Definition drained (a : Address) (t : AccAddress) (s : DB) : Prop :=
  stands_for a t s ∧ spendable (bank_of (ctx s)) t = 0.

End FinalizeDefs.

Section FinalizeLemmas.
Context `{BK : BankKeeper B} `{AK : AccountKeeper A} `{EC : EthCrypto} `{KC : KeeperConfig}.
Context `{MST : MultiStore MS (World B A)} `{MSL : !MultiStoreLaws MS (World B A)} `{MR : MapRange}.
Context `{BL : !BankLaws B}.
Hypothesis Hlive : EthReplayConfig_Enabled = false.
Notation DB := (DBImpl MS).

(** ** Flushing *)

Lemma flush_into_spec (cs : list (Ctx MS)) cur :
  chain cs cur →
  cview (hd_or (flush_into cs cur) cur) = cview cur ∧
  ∀ p, branch_of p (c_ms (hd_or cs cur)) → branch_of p (c_ms (hd_or (flush_into cs cur) cur)).
Proof.
  induction cs as [|p0 rest IH]; intros Hch; [done|]. destruct Hch as [Hb Hch].
  destruct (IH Hch) as [Hv Hbr]. specialize (Hbr _ Hb). simpl.
  change (match flush_into rest cur with [] => cur | c :: _ => c end)
    with (hd_or (flush_into rest cur) cur).
  split.
  - unfold cview in *. simpl. by rewrite ms_view_write.
  - intros p Hp. by apply branch_write.
Qed.

Lemma flush_into_events (cs : list (Ctx MS)) cur :
  map c_events (flush_into cs cur) = map c_events cs.
Proof. induction cs as [|p rest IH]; simpl; [done|]. by rewrite IH. Qed.

Lemma flushEvents_run (l : list (Ctx MS)) (s : DB) c0 cs :
  snapshottedCtxs s = c0 :: cs →
  sfor l flushEvents s =
  Ret (tt, set_levels (cemit (concat (map c_events l)) c0 :: cs) (tempStatesHist s) s).
Proof.
  revert s c0. induction l as [|c l IH]; intros s c0 Hs; simpl.
  - unfold sret. destruct s, c0. simpl in *. subst. unfold set_levels, cemit. simpl.
    by rewrite app_nil_r.
  - unfold sbind, flushEvents at 1. rewrite Hs. erewrite IH; [|reflexivity].
    unfold set_levels, cemit. simpl. by rewrite app_assoc.
Qed.

Lemma foldl_surplus ts acc : foldl (λ a x, a + surplus x) acc ts = acc + sum_surplus ts.
Proof. revert acc. induction ts as [|t ts IH]; intros acc; simpl; [lia|]. rewrite IH. lia. Qed.

(** [Finalize] is [settle], the flush, and the sum of the surplus. *)
Lemma Finalize_run (s : DB) :
  db_wf s → simulation s = false → err s = None →
  ∃ s1 s' c0 rest,
    settle s = Ret (tt, s1) ∧ conserves s s1 ∧ err s1 = None ∧
    Finalize s = Ret ((Some (surplus (tempStateCurrent s1) + sum_surplus (tempStatesHist s1)), None), s') ∧
    snapshottedCtxs s' = c0 :: rest ∧
    cview c0 = cview (ctx s1) ∧
    c_events c0 = concat (map c_events (snapshottedCtxs s)) ++ c_events (ctx s1).
Proof.
  intros Hwf Hsim He. destruct (settle_run Hlive s He) as (s1 & E1 & Er1 & C1).
  assert (Hwf1 : db_wf s1) by (eapply wf_level; [apply C1|done]).
  destruct Hwf1 as (Hne & Hlen & Hch). destruct C1 as [Hl1 Hc1].
  pose proof Hl1 as (Hcs & _).
  destruct (flush_into_spec _ _ Hch) as [Hv _]. pose proof (flush_into_events (snapshottedCtxs s1) (ctx s1)) as Hev.
  destruct (snapshottedCtxs s1) as [|p0 ps] eqn:Ecs; [done|].
  destruct (flush_into (p0 :: ps) (ctx s1)) as [|c0 rest] eqn:Ef; [done|].
  set (s2 := set_levels (c0 :: rest) (tempStatesHist s1) s1).
  eexists s1, _, _, rest. split_and!; [done|by split|done|..].
  - unfold Finalize. unfold sbind at 1, sget at 1. rewrite Hsim. unfold sbind at 1, sget at 1. rewrite He.
    unfold settle in E1. unfold sbind at 1, sget at 1 in E1. unfold sbind at 1, sget at 1.
    unfold sbind at 1 in E1. unfold sbind at 1.
    destruct (handleResidualFundsInDestructedAccounts _ s) as [[[] x1]|]; [|done].
    unfold sbind at 1 in E1. unfold sbind at 1.
    destruct (clearAccountStateIfDestructed _ x1) as [[[] x2]|]; [|done].
    unfold sbind at 1, sget at 1 in E1. unfold sbind at 1, sget at 1.
    unfold sbind at 1. rewrite E1. unfold sbind at 1, flushCtxs, sput at 1. rewrite Ecs, Ef. fold s2.
    unfold sbind at 1, sget at 1. unfold sbind at 1.
    rewrite (flushEvents_run _ s2 c0 rest eq_refl).
    unfold sbind, sget, flushEvents, sret. simpl. rewrite foldl_surplus. reflexivity.
  - reflexivity.
  - done.
  - simpl. simpl in Hev. injection Hev as Hev1 Hev2. rewrite Hev1, <- Hcs. simpl.
    by rewrite Hev2.
Qed.

(** ** Destructed accounts *)

(** Bank calls leave the module's store alone, so associations stay. *)
Lemma db_moved_evm (s s' : DB) t d : db_moved s s' t d → w_evm (cview (ctx s')) = w_evm (cview (ctx s)).
Proof. intros ((b' & -> & _) & _). done. Qed.

Lemma tabi_of_same (s s' : DB) a :
  level_step s s' →
  w_evm (cview (ctx s')) !! EVMAddressToTabiAddressKey a = w_evm (cview (ctx s)) !! EVMAddressToTabiAddressKey a →
  tabi_of s' a = tabi_of s a.
Proof.
  intros (_ & _ & _ & H1 & H2 & _) H. unfold tabi_of, GetTabiAddressOrDefault, GetTabiAddress.
  by rewrite H1, H2, H.
Qed.

Lemma db_moved_tabi (s s' : DB) t d a : db_moved s s' t d → tabi_of s' a = tabi_of s a.
Proof. intros H. apply tabi_of_same; [apply H|]. by rewrite (db_moved_evm _ _ _ _ H). Qed.

Lemma db_moved_spendable (s s' : DB) t d :
  db_moved s s' t d → spendable (bank_of (ctx s')) t = spendable (bank_of (ctx s)) t + d.
Proof. intros ((b' & Hv & Hm) & _). unfold bank_of. rewrite Hv. exact (bank_moved_spendable _ _ _ _ Hm). Qed.

Lemma db_moved_spendable_ne (s s' : DB) t t' d :
  db_moved s s' t d → t' ≠ t → spendable (bank_of (ctx s')) t' = spendable (bank_of (ctx s)) t'.
Proof.
  intros ((b' & Hv & Hm) & _) Hne. unfold bank_of. rewrite Hv.
  exact (bank_moved_spendable_ne _ _ _ _ _ Hm Hne).
Qed.

Lemma tabi_of_coinbase (s : DB) : tabi_of s (coinbaseEvmAddress s) = coinbaseAddress s.
Proof. unfold tabi_of. by rewrite bool_decide_true. Qed.

(** A database that suppresses events emits none. *)
Definition quiet_step (s s' : DB) : Prop :=
  eventsSuppressed s = true → c_events (ctx s') = c_events (ctx s) ∧ eventsSuppressed s' = true.

Lemma quiet_sub_positive a amt r : Pres quiet_step (sub_positive a amt r).
Proof.
  intros s u s' H Hq. destruct (SplitAtabiWeiAmount amt) as [q w] eqn:Es.
  rewrite (sub_positive_run Hlive a amt r s q w Es) in H.
  destruct (bk_SubUnlockedCoins _ _ _ _) as [[b1 ev1] [e1|]]; simplify_eq/=; [by rewrite Hq|].
  destruct (bk_SubWei _ _ _) as [[b2 ev2] [e2|]]; simplify_eq/=; unfold notify;
    [|destruct (hooked _ _)]; simpl; by rewrite Hq.
Qed.

Lemma quiet_add_positive a amt r : Pres quiet_step (add_positive a amt r).
Proof.
  intros s u s' H Hq. destruct (SplitAtabiWeiAmount amt) as [q w] eqn:Es.
  rewrite (add_positive_run Hlive a amt r s q w Es) in H.
  destruct (bk_AddCoins _ _ _ _) as [[b1 ev1] [e1|]]; simplify_eq/=; [by rewrite Hq|].
  destruct (bk_AddWei _ _ _) as [[b2 ev2] [e2|]]; simplify_eq/=; unfold notify;
    [|destruct (hooked _ _)]; simpl; by rewrite Hq.
Qed.

(** Moving nothing. *)
Lemma db_moved_0 (s : DB) t : db_moved s s t 0.
Proof.
  split_and!; [|by destruct s as [?? []]; unfold set_surplus; simpl; rewrite Z.sub_0_r|done|done].
  exists (bank_of (ctx s)). split; [by destruct (cview (ctx s)) eqn:E; unfold bank_of; rewrite E|].
  split_and!; [lia|done|done|lia].
Qed.

Lemma SubBalance_moves a amt r (s : DB) :
  0 ≤ amt ≤ balance_of s a →
  ∃ s', SubBalance a amt r s = Ret (tt, s') ∧ db_moved s s' (tabi_of s a) (- amt) ∧ quiet_step s s'.
Proof.
  intros Hamt. unfold SubBalance. rewrite (bind_prepare Hlive).
  destruct (Z.eqb_spec amt 0) as [->|Hnz]; [exists s; split_and!; [done|apply db_moved_0|done]|].
  destruct (Z.ltb_spec amt 0); [lia|].
  destruct (sub_positive_spec Hlive a amt r s ltac:(lia)) as (s' & E & [[_ Hm]|[? _]]); [|lia].
  exists s'. split_and!; [done|done|by eapply quiet_sub_positive].
Qed.

Lemma AddBalance_moves a amt r (s : DB) :
  0 ≤ amt →
  ∃ s', AddBalance a amt r s = Ret (tt, s') ∧ db_moved s s' (tabi_of s a) amt ∧ quiet_step s s'.
Proof.
  intros Hamt. unfold AddBalance. rewrite (bind_prepare Hlive).
  destruct (Z.eqb_spec amt 0) as [->|Hnz]; [exists s; split_and!; [done|apply db_moved_0|done]|].
  destruct (Z.ltb_spec amt 0); [lia|].
  destruct (add_positive_spec Hlive a amt r s ltac:(lia)) as (s' & E & Hm).
  exists s'. split_and!; [done|done|by eapply quiet_add_positive].
Qed.

Lemma TransferWithoutEvents_moves sender recipient amt (s : DB) :
  0 ≤ amt ≤ balance_of s sender →
  ∃ s1 s2, TransferWithoutEvents sender recipient amt s = Ret (tt, set_eventsSuppressed false s2) ∧
    db_moved (set_eventsSuppressed true s) s1 (tabi_of s sender) (- amt) ∧ quiet_step (set_eventsSuppressed true s) s1 ∧
    db_moved s1 s2 (tabi_of s recipient) amt ∧ quiet_step s1 s2.
Proof.
  intros Hamt. unfold TransferWithoutEvents, DisableEvents, EnableEvents. unfold sbind at 1, sput at 1.
  destruct (SubBalance_moves sender amt BalanceChangeTransfer (set_eventsSuppressed true s) Hamt) as (s1 & E1 & M1 & Q1).
  destruct (AddBalance_moves recipient amt BalanceChangeTransfer s1 ltac:(lia)) as (s2 & E2 & M2 & Q2).
  exists s1, s2. unfold sbind. rewrite E1, E2. rewrite (db_moved_tabi _ _ _ _ _ M1) in M2. by split_and!.
Qed.

(** One account's residual funds go to the fee account. *)
Definition residual_body (e : Address * bytes) : stm DB unit :=
  if negb (bool_decide (e.2 = AccountDeleted)) then sret tt else
  let! residual := GetBalance e.1 in
  if residual =? 0 then sret tt else
  do! SubBalance e.1 residual BalanceDecreaseSelfdestructBurn;
  let! coinbase := sget coinbaseEvmAddress in
  AddBalance coinbase residual BalanceDecreaseSelfdestructBurn.

Lemma residual_body_cases e (s s' : DB) u :
  residual_body e s = Ret (u, s') →
  (s' = s ∧ (e.2 = AccountDeleted → balance_of s e.1 = 0)) ∨
  ∃ s1, db_moved s s1 (tabi_of s e.1) (- balance_of s e.1) ∧
        db_moved s1 s' (coinbaseAddress s) (balance_of s e.1).
Proof.
  intros H. unfold residual_body in H. case_bool_decide as Hd; simpl in H; [|left; unfold sret in H; by simplify_eq].
  unfold sbind at 1 in H. rewrite (GetBalance_run Hlive) in H.
  pose proof (balance_of_nonneg s e.1).
  destruct (Z.eqb_spec (balance_of s e.1) 0); [left; unfold sret in H; by simplify_eq|right].
  destruct (SubBalance_spec Hlive e.1 (balance_of s e.1) BalanceDecreaseSelfdestructBurn s)
    as (s1 & E1 & _ & _ & M1); [lia|]. specialize (M1 ltac:(lia)).
  unfold sbind in H. rewrite E1 in H. unfold sget in H.
  destruct (AddBalance_spec Hlive (coinbaseEvmAddress s1) (balance_of s e.1)
    BalanceDecreaseSelfdestructBurn s1) as (s2 & E2 & _ & _ & M2); [lia|]. specialize (M2 ltac:(lia)).
  rewrite E2 in H. injection H as _ <-. exists s1. split; [done|].
  rewrite tabi_of_coinbase in M2. destruct M1 as (_ & _ & _ & Hl).
  by destruct Hl as (_ & _ & _ & <- & _).
Qed.

Lemma stands_for_moved a t (s s' : DB) t' d : db_moved s s' t' d → stands_for a t s → stands_for a t s'.
Proof.
  intros M [H1 H2]. split; [by rewrite (db_moved_tabi _ _ _ _ _ M)|].
  by destruct M as (_ & _ & _ & (_ & _ & _ & -> & _)).
Qed.

Lemma stands_for_residual a t e : Pres (maintains (stands_for a t)) (residual_body e).
Proof.
  intros s u s' H Hs. destruct (residual_body_cases _ _ _ _ H) as [[-> _]|(s1 & M1 & M2)]; [done|].
  eauto using stands_for_moved.
Qed.

(** After a transfer from [e]'s account to the fee account, an account that was
    empty, or that is [e]'s, is empty. *)
Lemma drained_residual a t e (s s' : DB) u :
  stands_for a t s → residual_body e s = Ret (u, s') →
  spendable (bank_of (ctx s)) t = 0 ∨ e = (a, AccountDeleted) → drained a t s'.
Proof.
  intros Hs H Hor. split; [by eapply stands_for_residual|]. destruct Hs as [Ht Hne].
  assert (Hbal : ∀ x, balance_of s x = spendable (bank_of (ctx s)) (tabi_of s x))
    by (intros x; apply GetBalance_spendable).
  destruct (residual_body_cases _ _ _ _ H) as [[-> Hz]|(s1 & M1 & M2)].
  - destruct Hor as [?| ->]; [done|]. rewrite <- Ht, <- Hbal. by apply Hz.
  - rewrite (db_moved_spendable_ne _ _ _ _ _ M2) by done.
    destruct (decide (t = tabi_of s e.1)) as [->|Hd].
    + rewrite (db_moved_spendable _ _ _ _ M1), Hbal. lia.
    + rewrite (db_moved_spendable_ne _ _ _ _ _ M1) by done. destruct Hor as [?| ->]; [done|]. simpl in Hd. congruence.
Qed.

(** Clearing an account changes no balance and no association. *)
Lemma clear_account_none a (w : World B A) k :
  w_evm w !! k = None ∨ account_key a k → w_evm (clear_account a w) !! k = None.
Proof.
  unfold clear_account. rewrite set_evm_evm, !deleteIfExists_delete, !lookup_delete_None. intros [Hk|Hk].
  - do 4 right. unfold PurgePrefix. apply map_lookup_filter_None. by left.
  - destruct Hk as [->|[->|[->|[->|[slot ->]]]]]; [tauto..|].
    do 4 right. apply lookup_PurgePrefix_in.
Qed.

Lemma clear_account_assoc a b (w : World B A) :
  GetTabiAddress (clear_account a w) b = GetTabiAddress w b.
Proof.
  unfold GetTabiAddress, clear_account. rewrite set_evm_evm, !deleteIfExists_delete.
  rewrite !lookup_delete_ne by key_ne. by apply lookup_PurgePrefix_out.
Qed.

Definition clear_body (e : Address * bytes) : stm DB unit :=
  if negb (bool_decide (e.2 = AccountDeleted)) then sret tt else clearAccountState e.1.

Lemma clear_body_run e (s : DB) :
  clear_body e s =
  Ret (tt, if bool_decide (e.2 = AccountDeleted)
           then set_ctx (cupd (clear_account e.1) (ctx s)) s else s).
Proof.
  unfold clear_body. case_bool_decide; simpl; [|done].
  unfold clearAccountState. by rewrite (bind_prepare Hlive).
Qed.

Lemma cleared_residual a e :
  Pres (maintains (λ s : DB, cleared a (cview (ctx s)))) (residual_body e).
Proof.
  intros s u s' H Hs k Hk. destruct (residual_body_cases _ _ _ _ H) as [[-> _]|(s1 & M1 & M2)].
  - by apply Hs.
  - rewrite (db_moved_evm _ _ _ _ M2), (db_moved_evm _ _ _ _ M1). by apply Hs.
Qed.

Lemma cleared_clear a e (s s' : DB) u :
  clear_body e s = Ret (u, s') → cleared a (cview (ctx s)) ∨ e = (a, AccountDeleted) →
  cleared a (cview (ctx s')).
Proof.
  rewrite clear_body_run. intros [= _ <-] Hor k Hk. case_bool_decide as Hd; simpl.
  - rewrite cview_cupd. apply clear_account_none. destruct Hor as [Hs| ->]; [|by right].
    left. by apply Hs.
  - destruct Hor as [Hs| ->]; [by apply Hs|done].
Qed.

Lemma stands_for_clear a t e : Pres (maintains (stands_for a t)) (clear_body e).
Proof.
  intros s u s' H [H1 H2]. rewrite clear_body_run in H. injection H as _ <-.
  case_bool_decide; [|done]. split; [|done]. rewrite <- H1. unfold tabi_of. simpl.
  rewrite cview_cupd. unfold GetTabiAddressOrDefault. by rewrite clear_account_assoc.
Qed.

Lemma drained_clear a t e : Pres (maintains (drained a t)) (clear_body e).
Proof.
  intros s u s' H [Hs Hz]. split; [by eapply stands_for_clear|].
  rewrite clear_body_run in H. injection H as _ <-. rewrite <- Hz.
  case_bool_decide; [|done]. unfold bank_of. simpl. by rewrite cview_cupd.
Qed.

(** The work of [settle] on one level. *)
Definition level_work (ts : TemporaryState) : stm DB unit :=
  do! handleResidualFundsInDestructedAccounts ts; clearAccountStateIfDestructed ts.

Lemma settle_levels (s s1 : DB) u :
  settle s = Ret (u, s1) →
  sfor (tempStateCurrent s :: tempStatesHist s) level_work s = Ret (u, s1).
Proof.
  unfold settle. unfold sbind at 1, sget at 1. intros H. simpl. unfold level_work at 1.
  unfold sbind at 1 in H. unfold sbind at 1 2.
  destruct (handleResidualFundsInDestructedAccounts _ s) as [[[] x1]|] eqn:E1; [|done].
  unfold sbind at 1 in H.
  destruct (clearAccountStateIfDestructed _ x1) as [[[] x2]|] eqn:E2; [|done].
  unfold sbind at 1, sget at 1 in H.
  apply (level_residual Hlive) in E1. apply (level_clear_destructed Hlive) in E2.
  destruct E1 as (_ & Ht1 & _), E2 as (_ & Ht2 & _). rewrite Ht2, Ht1 in H. exact H.
Qed.

Lemma level_work_keep (Q : DB → Prop) ts :
  (∀ e, Pres (maintains Q) (residual_body e)) → (∀ e, Pres (maintains Q) (clear_body e)) →
  Pres (maintains Q) (level_work ts).
Proof.
  intros H1 H2. apply Pres_bind; [apply _|apply Pres_for; [apply _|intros e _; apply H1]|].
  intros _. apply Pres_for; [apply _|intros e _; apply H2].
Qed.

Context `{MRL : !MapRangeLaws}.

(** A destructed account loses its records and its funds in [settle]. *)
Lemma settle_cleared (s s1 : DB) u ts a :
  ts ∈ tempStateCurrent s :: tempStatesHist s → transientAccounts ts !! a = Some AccountDeleted →
  settle s = Ret (u, s1) → cleared a (cview (ctx s1)).
Proof.
  intros Hin Hm H. apply settle_levels in H.
  assert (He : (a, AccountDeleted) ∈ range_accounts (transientAccounts ts)).
  { rewrite range_accounts_perm. by apply elem_of_map_to_list. }
  revert H. apply (sfor_establishes (λ _, True) (λ s : DB, cleared a (cview (ctx s))) _ _ ts Hin); [..|done].
  - done.
  - intros y. apply level_work_keep; [apply cleared_residual|].
    intros e s0 u0 s0' H0 Hc. eauto using cleared_clear.
  - clear -He Hlive MSL BL. intros s u s' _ H. unfold level_work, sbind in H.
    destruct (handleResidualFundsInDestructedAccounts _ s) as [[[] x1]|]; [|done].
    revert H. apply (sfor_establishes (λ _, True) (λ s : DB, cleared a (cview (ctx s))) _ clear_body _ He);
      [done|..|done].
    + intros e s0 u0 s0' H0 Hc. eauto using cleared_clear.
    + intros s0 u0 s0' _ H0. eauto using cleared_clear.
Qed.

Lemma settle_drained (s s1 : DB) u ts a t :
  ts ∈ tempStateCurrent s :: tempStatesHist s → transientAccounts ts !! a = Some AccountDeleted →
  stands_for a t s → settle s = Ret (u, s1) → drained a t s1.
Proof.
  intros Hin Hm Hs H. apply settle_levels in H.
  assert (He : (a, AccountDeleted) ∈ range_accounts (transientAccounts ts)).
  { rewrite range_accounts_perm. by apply elem_of_map_to_list. }
  assert (Hkeep : ∀ e, Pres (maintains (drained a t)) (residual_body e)).
  { intros e s0 u0 s0' H0 [Hf Hz]. eauto using drained_residual. }
  revert Hs H. apply (sfor_establishes (stands_for a t) (drained a t) _ _ ts Hin).
  - intros y. apply level_work_keep; [apply stands_for_residual|apply stands_for_clear].
  - intros y. apply level_work_keep; [done|apply drained_clear].
  - clear -He Hkeep Hlive MSL BL. intros s u s' Hs H. unfold level_work, sbind in H.
    destruct (handleResidualFundsInDestructedAccounts _ s) as [[[] x1]|] eqn:E; [|done].
    assert (Hd : drained a t x1).
    { revert Hs E. apply (sfor_establishes (stands_for a t) (drained a t) _ residual_body _ He);
        [apply stands_for_residual|done|].
      intros s0 u0 s0' Hs0 H0. eauto using drained_residual. }
    assert (Hc : Pres (maintains (drained a t)) (clearAccountStateIfDestructed ts)).
    { apply Pres_for; [apply _|]. intros e _. apply (drained_clear a t e). }
    exact (Hc _ _ _ H Hd).
Qed.

End FinalizeLemmas.

(** * Theorems *)

Section FinalizeTheorems.
Context `{BK : BankKeeper B} `{AK : AccountKeeper A} `{EC : EthCrypto} `{KC : KeeperConfig}.
Context `{MST : MultiStore MS (World B A)} `{MSL : !MultiStoreLaws MS (World B A)}.
Context `{BL : !BankLaws B} `{MR : MapRange} `{MRL : !MapRangeLaws}.
Notation DB := (DBImpl MS).

(** C2: a transaction conserves value.  From the creation of the database,
    through any calls that do not mint (nested snapshots and reverts included),
    to [Finalize]: if no call failed, [Finalize] returns without an error, and
    the wei in the bank at the end plus the surplus it returns is exactly the
    wei in the bank at the start. *)
Theorem Finalize_conserves_value (cache cache' : option Address) (c : Ctx MS) (ops : list db_op) (s0 s : DB) :
  EthReplayConfig_Enabled = false →
  NewDBImpl cache c false = Ret (s0, cache') →
  Forall (λ op, is_conserving op = true) ops →
  run_ops ops s0 = Ret (tt, s) →
  err s = None →
  ∃ sp s' c0 rest, Finalize s = Ret ((Some sp, None), s') ∧ snapshottedCtxs s' = c0 :: rest ∧
    bk_total (bank_of c0) + sp = bk_total (bank_of c).
Proof.
  intros Hlive Hnew Hops Hrun He.
  assert (Hsim : simulation s = false).
  { rewrite (sim_run_ops Hlive _ _ _ _ Hrun). by eapply NewDBImpl_sim. }
  destruct (balanced_run_ops Hlive (bk_total (bank_of c)) ops Hops _ _ _ Hrun) as [Hwf Hb].
  { split; [by eapply NewDBImpl_wf|by eapply balanced_New]. }
  destruct (Finalize_run Hlive s Hwf Hsim He) as (s1 & s' & c0 & rest & _ & Hc & He1 & Hf & Hs & Hv & _).
  exists (surplus (tempStateCurrent s1) + sum_surplus (tempStatesHist s1)), s', c0, rest.
  split_and!; [done|done|]. apply (balanced_conserves _ _ _ Hc) in Hb. destruct (Hb He1) as [Hw _].
  unfold cur_worth, bank_of in *. rewrite Hv. lia.
Qed.

(** The surplus equation holds at every moment and at every level: as long
    as no call failed, the bank a context shows plus the surplus booked up to
    that level is what the bank held at the start, for the current context and
    for each snapshot that may still be reverted to. *)
Theorem surplus_balanced (cache cache' : option Address) (c : Ctx MS) (sim : bool) (ops : list db_op) (s0 s : DB) :
  EthReplayConfig_Enabled = false →
  NewDBImpl cache c sim = Ret (s0, cache') →
  Forall (λ op, is_conserving op = true) ops →
  run_ops ops s0 = Ret (tt, s) →
  balanced (bk_total (bank_of c)) s.
Proof.
  intros Hlive Hnew Hops Hrun.
  apply (balanced_run_ops Hlive (bk_total (bank_of c)) ops Hops _ _ _ Hrun).
  split; [by eapply NewDBImpl_wf|by eapply balanced_New].
Qed.

(** C26: [Finalize] writes the whole stack of branches into the base context:
    the base then shows exactly the stores of the current context after the
    destructed accounts have been settled, its events are the events of all
    levels in order, and the surplus returned is the sum over all levels. *)
Theorem Finalize_flushes (s : DB) :
  EthReplayConfig_Enabled = false →
  db_wf s → simulation s = false → err s = None →
  ∃ s1 s' c0 rest, settle s = Ret (tt, s1) ∧
    Finalize s = Ret ((Some (surplus (tempStateCurrent s1) + sum_surplus (tempStatesHist s1)), None), s') ∧
    snapshottedCtxs s' = c0 :: rest ∧ cview c0 = cview (ctx s1) ∧
    c_events c0 = concat (map c_events (snapshottedCtxs s)) ++ c_events (ctx s1).
Proof.
  intros Hlive Hwf Hsim He.
  destruct (Finalize_run Hlive s Hwf Hsim He) as (s1 & s' & c0 & rest & H1 & _ & _ & H2 & H3 & H4 & H5).
  by exists s1, s', c0, rest.
Qed.

(** An account that was marked destructed on any level is gone after
    [Finalize]: in the base context it has no code, no nonce and no storage,
    and its balance is zero unless it is the fee account of the transaction. *)
Theorem Finalize_clears_destructed (s : DB) (ts : TemporaryState) (a : Address) :
  EthReplayConfig_Enabled = false →
  db_wf s → simulation s = false → err s = None →
  ts ∈ tempStateCurrent s :: tempStatesHist s →
  transientAccounts ts !! a = Some AccountDeleted →
  ∃ r s' c0 rest, Finalize s = Ret (r, s') ∧ snapshottedCtxs s' = c0 :: rest ∧
    Keeper.GetCode (cview c0) a = None ∧ Keeper.GetCodeSize (cview c0) a = Ret 0 ∧
    Keeper.GetNonce (cview c0) a = Ret 0 ∧
    (∀ k, Keeper.GetState (cview c0) a k = Ret zero_hash) ∧
    (tabi_of s a ≠ coinbaseAddress s → Keeper.GetBalance (cview c0) (tabi_of s a) = 0).
Proof.
  intros Hlive Hwf Hsim He Hin Hm.
  destruct (Finalize_run Hlive s Hwf Hsim He) as (s1 & s' & c0 & rest & Hse & _ & _ & Hf & Hs & Hv & _).
  pose proof (settle_cleared Hlive _ _ _ _ _ Hin Hm Hse) as Hc.
  eexists _, s', c0, rest. rewrite Hv. split_and!; [exact Hf|exact Hs|..].
  - unfold Keeper.GetCode. rewrite Hc; [done|]. by left.
  - unfold Keeper.GetCodeSize. rewrite Hc; [done|]. by right; left.
  - unfold Keeper.GetNonce. rewrite Hc; [done|]. by do 3 right; left.
  - intros k. unfold Keeper.GetState. rewrite Hc, Hlive; [done|]. by do 4 right; exists (ba k).
  - intros Hne. rewrite GetBalance_spendable.
    by destruct (settle_drained Hlive _ _ _ _ _ _ Hin Hm (conj eq_refl Hne) Hse) as [_ Hz].
Qed.

(** [SubBalance] of a non-negative amount never panics; it records an error
    exactly when the unlocked balance does not cover the amount, and otherwise
    takes exactly the amount from the account, books it as surplus and changes
    no other account and no other store. *)
Theorem SubBalance_exact (a : Address) (amt : Z) (r : Reason) (s : DB) :
  EthReplayConfig_Enabled = false → 0 ≤ amt → err s = None →
  ∃ s', SubBalance a amt r s = Ret (tt, s') ∧
    (err s' = None ↔ amt ≤ balance_of s a) ∧
    (err s' = None →
       balance_of s' a = balance_of s a - amt ∧
       (∀ t, t ≠ tabi_of s a →
          Keeper.GetBalance (cview (ctx s')) t = Keeper.GetBalance (cview (ctx s)) t) ∧
       w_evm (cview (ctx s')) = w_evm (cview (ctx s)) ∧
       surplus (tempStateCurrent s') = surplus (tempStateCurrent s) + amt).
Proof.
  intros Hlive Hamt He. unfold SubBalance. rewrite (bind_prepare Hlive).
  pose proof (balance_of_nonneg s a).
  destruct (Z.eqb_spec amt 0) as [->|Hnz].
  { exists s. rewrite He. split_and!; [done|done|]. intros _. split_and!; lia || done. }
  destruct (Z.ltb_spec amt 0); [lia|].
  destruct (sub_positive_spec Hlive a amt r s ltac:(lia)) as (s' & E & [[Hle M]|[Hlt Her]]);
    exists s'; (split; [exact E|]).
  - pose proof M as (_ & Ht & He' & _). rewrite He', He. split; [done|]. intros _.
    assert (Hb : ∀ x t, Keeper.GetBalance (cview (ctx x)) t = spendable (bank_of (ctx x)) t)
      by (intros x t; apply GetBalance_spendable).
    unfold balance_of. rewrite (db_moved_tabi _ _ _ _ _ M), !Hb. split_and!.
    + rewrite (db_moved_spendable _ _ _ _ M). lia.
    + intros t Hne. rewrite !Hb. by rewrite (db_moved_spendable_ne _ _ _ _ _ M).
    + by apply (db_moved_evm _ _ _ _ M).
    + rewrite Ht. simpl. lia.
  - split; [split; [done|lia]|done].
Qed.

(** A transfer without events moves exactly the amount between two
    accounts when the sender can pay for it, books no net surplus, and emits no
    event. *)
Theorem TransferWithoutEvents_exact (sender recipient : Address) (amt : Z) (s : DB) :
  EthReplayConfig_Enabled = false → err s = None →
  0 ≤ amt ≤ balance_of s sender → tabi_of s sender ≠ tabi_of s recipient →
  ∃ s', TransferWithoutEvents sender recipient amt s = Ret (tt, s') ∧ err s' = None ∧
    balance_of s' sender = balance_of s sender - amt ∧
    balance_of s' recipient = balance_of s recipient + amt ∧
    surplus (tempStateCurrent s') = surplus (tempStateCurrent s) ∧
    c_events (ctx s') = c_events (ctx s) ∧ eventsSuppressed s' = false.
Proof.
  intros Hlive He Hamt Hne. destruct (TransferWithoutEvents_moves Hlive sender recipient amt s Hamt) as (s1 & s2 & E & M1 & Q1 & M2 & Q2).
  eexists. split; [exact E|]. set (s0 := set_eventsSuppressed true s) in *.
  destruct (Q1 eq_refl) as [V1 S1]. destruct (Q2 S1) as [V2 S2].
  change (tabi_of s sender) with (tabi_of s0 sender) in *.
  change (tabi_of s recipient) with (tabi_of s0 recipient) in *.
  assert (Hb : ∀ x a, balance_of x a = spendable (bank_of (ctx x)) (tabi_of x a))
    by (intros x a; apply GetBalance_spendable).
  change (balance_of s) with (balance_of s0). simpl. split_and!.
  - destruct M2 as (_ & _ & -> & _). destruct M1 as (_ & _ & -> & _). done.
  - change (balance_of s2 sender = balance_of s0 sender - amt). rewrite !Hb.
    rewrite (db_moved_tabi _ _ _ _ _ M2), (db_moved_tabi _ _ _ _ _ M1).
    rewrite (db_moved_spendable_ne _ _ _ _ _ M2 Hne), (db_moved_spendable _ _ _ _ M1). lia.
  - change (balance_of s2 recipient = balance_of s0 recipient + amt). rewrite !Hb.
    rewrite (db_moved_tabi _ _ _ _ _ M2), (db_moved_tabi _ _ _ _ _ M1).
    rewrite (db_moved_spendable _ _ _ _ M2). by rewrite (db_moved_spendable_ne _ _ _ _ _ M1) by done.
  - destruct M2 as (_ & -> & _). destruct M1 as (_ & -> & _). simpl. lia.
  - by rewrite V2, V1.
  - done.
Qed.

End FinalizeTheorems.

(** * Examples *)

Section FinalizeExamples.
#[local] Existing Instances demo_bank_keeper demo_bank_laws demo_accounts demo_crypto live_config.
#[local] Instance demo_tx_stores : MultiStore (stack_ms demo_world) demo_world := stack_multistore demo_world.
#[local] Instance demo_tx_stores_laws : MultiStoreLaws (stack_ms demo_world) demo_world :=
  stack_multistore_laws demo_world.
#[local] Instance demo_range : MapRange := {| range_accounts := map_to_list |}.
#[local] Instance demo_range_laws : MapRangeLaws.
Proof. by split. Qed.

(** The account of address 1 holds three atabi and seven wei. *)
Definition funded_ctx : Ctx (stack_ms demo_world) :=
  demo_ctx (set_bank {[ba (addr_of 1) := 3000000000007%N]} demo_world0).

Definition tx_db : DBImpl (stack_ms demo_world) :=
  match NewDBImpl None funded_ctx false with
  | Ret (s, _) => s
  | Panic _ => mkDBImpl funded_ctx [] NewTemporaryState [] None None [] zero_address false false None []
  end.

(** Pay a new contract, try a payment that is reverted, destroy the contract. *)
Definition tx_ops : list db_op :=
  [OpCreateAccount (addr_of 2); OpSetCode (addr_of 2) [Byte.x60]; OpSetNonce (addr_of 2) 1;
   OpTransferWithoutEvents (addr_of 1) (addr_of 2) 1000000000001;
   OpSnapshot; OpSubBalance (addr_of 1) 5 BalanceChangeTransfer; OpRevertToSnapshot 1;
   OpSelfdestruct6780 (addr_of 2)].

Definition tx_end : DBImpl (stack_ms demo_world) := exec (run_ops tx_ops) tx_db.

Lemma Finalize_conserves_value_witness :
  ∃ sp s' c0 rest, Finalize tx_end = Ret ((Some sp, None), s') ∧ snapshottedCtxs s' = c0 :: rest ∧
    bk_total (bank_of c0) + sp = 3000000000007.
Proof.
  assert (Hlive : EthReplayConfig_Enabled = false) by reflexivity.
  assert (Hn : NewDBImpl None funded_ctx false = Ret (tx_db, None)) by reflexivity.
  assert (Hc : Forall (λ op, is_conserving op = true) tx_ops) by (repeat constructor).
  assert (Hi : is_ret (run_ops tx_ops tx_db) = true) by (vm_compute; reflexivity).
  assert (He : err tx_end = None) by (vm_compute; reflexivity).
  apply exec_ret in Hi.
  destruct (Finalize_conserves_value _ _ _ _ _ _ Hlive Hn Hc Hi He) as (sp & s' & c0 & rest & H1 & H2 & H3).
  exists sp, s', c0, rest. split; [exact H1|]. split; [exact H2|].
  etransitivity; [exact H3|]. vm_compute. reflexivity.
Defined.

Lemma surplus_balanced_witness : balanced 3000000000007 tx_end.
Proof.
  assert (Hlive : EthReplayConfig_Enabled = false) by reflexivity.
  assert (Hn : NewDBImpl None funded_ctx false = Ret (tx_db, None)) by reflexivity.
  assert (Hc : Forall (λ op, is_conserving op = true) tx_ops) by (repeat constructor).
  assert (Hi : is_ret (run_ops tx_ops tx_db) = true) by (vm_compute; reflexivity).
  apply exec_ret in Hi.
  assert (Ht : bk_total (bank_of funded_ctx) = 3000000000007) by (vm_compute; reflexivity).
  rewrite <- Ht.
  exact (surplus_balanced _ _ _ _ _ _ _ Hlive Hn Hc Hi).
Defined.

Lemma tx_end_wf : db_wf tx_end.
Proof.
  assert (Hlive : EthReplayConfig_Enabled = false) by reflexivity.
  assert (Hi : is_ret (run_ops tx_ops tx_db) = true) by (vm_compute; reflexivity).
  apply exec_ret in Hi. apply (wf_run_ops Hlive _ _ _ _ Hi).
  by apply (NewDBImpl_wf None funded_ctx false tx_db None).
Qed.

Lemma Finalize_flushes_witness :
  ∃ s1 s' c0 rest, settle tx_end = Ret (tt, s1) ∧
    Finalize tx_end = Ret ((Some (surplus (tempStateCurrent s1) + sum_surplus (tempStatesHist s1)), None), s') ∧
    snapshottedCtxs s' = c0 :: rest ∧ cview c0 = cview (ctx s1).
Proof.
  assert (Hlive : EthReplayConfig_Enabled = false) by reflexivity.
  assert (Hs : simulation tx_end = false) by (vm_compute; reflexivity).
  assert (He : err tx_end = None) by (vm_compute; reflexivity).
  destruct (Finalize_flushes tx_end Hlive tx_end_wf Hs He) as (s1 & s' & c0 & rest & H1 & H2 & H3 & H4 & _).
  exists s1, s', c0, rest. repeat (split; [eassumption|]). exact H4.
Defined.

Lemma Finalize_clears_destructed_witness :
  ∃ r s' c0 rest, Finalize tx_end = Ret (r, s') ∧ snapshottedCtxs s' = c0 :: rest ∧
    Keeper.GetCode (cview c0) (addr_of 2) = None.
Proof.
  assert (Hlive : EthReplayConfig_Enabled = false) by reflexivity.
  assert (Hs : simulation tx_end = false) by (vm_compute; reflexivity).
  assert (He : err tx_end = None) by (vm_compute; reflexivity).
  assert (Hm : transientAccounts (tempStateCurrent tx_end) !! addr_of 2 = Some AccountDeleted)
    by (vm_compute; reflexivity).
  assert (Hin : tempStateCurrent tx_end ∈ tempStateCurrent tx_end :: tempStatesHist tx_end) by left.
  destruct (Finalize_clears_destructed _ _ _ Hlive tx_end_wf Hs He Hin Hm)
    as (r & s' & c0 & rest & H1 & H2 & H3 & _).
  exists r, s', c0, rest. split; [exact H1|]. split; [exact H2|exact H3].
Defined.

Lemma SubBalance_exact_witness :
  ∃ s', SubBalance (addr_of 1) 1000000000009 BalanceChangeTransfer tx_db = Ret (tt, s') ∧
    (err s' = None ↔ 1000000000009 ≤ balance_of tx_db (addr_of 1)).
Proof.
  assert (Hlive : EthReplayConfig_Enabled = false) by reflexivity.
  assert (Ha : 0 ≤ 1000000000009) by lia.
  assert (He : err tx_db = None) by reflexivity.
  destruct (SubBalance_exact (addr_of 1) 1000000000009 BalanceChangeTransfer tx_db Hlive Ha He)
    as (s' & H1 & H2 & _).
  exists s'. split; [exact H1|exact H2].
Defined.

Lemma TransferWithoutEvents_exact_witness :
  ∃ s', TransferWithoutEvents (addr_of 1) (addr_of 2) 8 tx_db = Ret (tt, s') ∧
    balance_of s' (addr_of 2) = balance_of tx_db (addr_of 2) + 8.
Proof.
  assert (Hlive : EthReplayConfig_Enabled = false) by reflexivity.
  assert (He : err tx_db = None) by reflexivity.
  assert (Hb : balance_of tx_db (addr_of 1) = 3000000000007) by (vm_compute; reflexivity).
  assert (Ha : 0 ≤ 8 ≤ balance_of tx_db (addr_of 1)) by lia.
  assert (Hne : tabi_of tx_db (addr_of 1) ≠ tabi_of tx_db (addr_of 2)) by (vm_compute; discriminate).
  destruct (TransferWithoutEvents_exact _ _ _ _ Hlive He Ha Hne) as (s' & H1 & _ & _ & H2 & _).
  exists s'. split; [exact H1|exact H2].
Defined.

End FinalizeExamples.
