(* ===== verification/Frame.v ===== *)
(** * What the state database leaves alone

    The state database changes the module's persistent store, the bank and the
    accounts.  It never writes the module's transient store (where receipts,
    deferred records and the ante surplus are kept) nor the parameters: every
    part of the world that is kept by those three kinds of writes is the same
    on every level of the database, and in the base context after [Finalize]. *)

From S2P Require Import Prelude Bytes Store Params Keys World Keeper StateDB Snapshots Supply Finalize Instances.
Local Open Scope Z_scope.
Local Open Scope stm_scope.

(** A part of the world that the database's writes keep. *)
Class Framed {B A X : Type} (f : World B A → X) : Prop := {
  framed_evm : ∀ g w, f (set_evm g w) = f w;
  framed_bank : ∀ b w, f (set_bank b w) = f w;
  framed_acct : ∀ a w, f (set_acct a w) = f w
}.
#[export] Instance framed_transient {B A} : Framed (w_transient (B := B) (A := A)).
Proof. by split. Qed.
#[export] Instance framed_params {B A} : Framed (w_params (B := B) (A := A)).
Proof. by split. Qed.

(** The parts of the world transactions do not reach through the database. *)
Definition tx_frame {B A : Type} (w : World B A) : kvstore * Params := (w_transient w, w_params w).
#[export] Instance framed_tx_frame {B A} : Framed (tx_frame (B := B) (A := A)).
Proof. by split. Qed.

Section Frame.
Context `{BK : BankKeeper B} `{AK : AccountKeeper A} `{EC : EthCrypto} `{KC : KeeperConfig}.
Context `{MST : MultiStore MS (World B A)} `{MSL : !MultiStoreLaws MS (World B A)} `{MR : MapRange}.
Context {X : Type} (f : World B A → X) `{FR : !Framed f}.
Hypothesis Hlive : EthReplayConfig_Enabled = false.
Notation DB := (DBImpl MS).

Definition same_frame (s s' : DB) : Prop := f (cview (ctx s')) = f (cview (ctx s)).

#[local] Instance same_frame_preorder : PreOrder same_frame.
Proof. split; unfold same_frame; [done|]. intros s1 s2 s3 H1 H2. congruence. Qed.

Lemma fr_SetAddressMapping t e (c : Ctx MS) : f (cview (SetAddressMapping t e c)) = f (cview c).
Proof.
  unfold SetAddressMapping. rewrite cview_cemit. destruct (negb _); repeat (rewrite ?cview_cupd, ?framed_acct, ?framed_evm); done.
Qed.
Lemma fr_SetCode a code (c : Ctx MS) : f (cview (Keeper.SetCode a code c)) = f (cview c).
Proof.
  unfold Keeper.SetCode. destruct (GetTabiAddress _ a); rewrite ?fr_SetAddressMapping; by rewrite cview_cupd, framed_evm.
Qed.

Lemma fr_prepare a : Pres same_frame (prepare a).
Proof. intros s u s' H. rewrite (prepare_live Hlive) in H. by simplify_eq. Qed.
Lemma fr_change g : (∀ w, f (g w) = f w) → Pres same_frame (change g).
Proof. intros Hg. apply Pres_put. intros s. unfold same_frame. simpl. by rewrite cview_cupd. Qed.
Lemma fr_view {T} (g : World B A → T) : Pres same_frame (view g).
Proof. unfold view. pres. Qed.
Lemma fr_view_out {T} (g : World B A → outcome T) : Pres same_frame (view_out g).
Proof. intros s a s' H. unfold view_out in H. destruct (g _); by simplify_eq/=. Qed.
Lemma fr_put (g : DB → DB) : (∀ s, ctx (g s) = ctx s) → Pres same_frame (sput g).
Proof. intros Hg. apply Pres_put. intros s. unfold same_frame. by rewrite Hg. Qed.
Lemma fr_put_code a code : Pres same_frame (sput (λ s : DB, set_ctx (Keeper.SetCode a code (ctx s)) s)).
Proof. apply Pres_put. intros s. apply fr_SetCode. Qed.
Lemma fr_bank_call q g : Pres same_frame (bank_call q g).
Proof.
  intros s e s' H. unfold bank_call, run_bank in H. destruct (g _) as [[b evs] e0]. simplify_eq. unfold same_frame.
  assert (Hv : ∀ evs', cview (mkCtx (c_ms (cput (set_bank b (cview (ctx s))) (ctx s))) evs' (c_info (ctx s))) =
    set_bank b (cview (ctx s))) by (intros evs'; unfold cview; simpl; apply ms_view_put).
  destruct q; simpl; unfold cemit; rewrite Hv; apply framed_bank.
Qed.

Hint Resolve fr_prepare fr_view fr_view_out fr_put_code fr_bank_call : pres.
Hint Extern 2 (Pres same_frame (sput _)) => (apply fr_put; intros; reflexivity) : pres.
Hint Extern 2 (Pres same_frame (change _)) => (apply fr_change; intros; apply framed_evm) : pres.

Lemma fr_getTabiAddress a : Pres same_frame (getTabiAddress a).
Proof. unfold getTabiAddress. pres. Qed.
Hint Resolve fr_getTabiAddress : pres.
Lemma fr_GetBalance a : Pres same_frame (GetBalance a).
Proof. unfold GetBalance. pres. Qed.
Hint Resolve fr_GetBalance : pres.
Lemma fr_sub_positive a amt r : Pres same_frame (sub_positive a amt r).
Proof. unfold sub_positive. pres. Qed.
Lemma fr_add_positive a amt r : Pres same_frame (add_positive a amt r).
Proof. unfold add_positive. pres. Qed.
Hint Resolve fr_sub_positive fr_add_positive : pres.
Lemma fr_SubBalance a amt r : Pres same_frame (SubBalance a amt r).
Proof. unfold SubBalance. pres. Qed.
Lemma fr_AddBalance a amt r : Pres same_frame (AddBalance a amt r).
Proof. unfold AddBalance. pres. Qed.
Lemma fr_send from t amt : Pres same_frame (send from t amt).
Proof. unfold send. pres. Qed.
Lemma fr_panic_on_err : Pres same_frame panic_on_err.
Proof. unfold panic_on_err. pres. Qed.
Hint Resolve fr_SubBalance fr_AddBalance fr_send fr_panic_on_err : pres.
Lemma fr_GetState a k : Pres same_frame (GetState a k).
Proof. unfold GetState. pres. Qed.
Lemma fr_GetNonce a : Pres same_frame (GetNonce a).
Proof. unfold GetNonce. pres. Qed.
Lemma fr_GetCode a : Pres same_frame (GetCode a).
Proof. unfold GetCode. pres. Qed.
Lemma fr_GetCodeHash a : Pres same_frame (GetCodeHash a).
Proof. unfold GetCodeHash. pres. Qed.
Lemma fr_change_SetState a k v : Pres same_frame (change (Keeper.SetState a k v)).
Proof. apply fr_change. intros w. unfold Keeper.SetState. case_bool_decide; apply framed_evm. Qed.
Hint Resolve fr_GetState fr_GetNonce fr_GetCode fr_GetCodeHash fr_change_SetState : pres.
Lemma fr_SetState a k v : Pres same_frame (SetState a k v).
Proof. unfold SetState. pres. Qed.
Lemma fr_clearAccountState a : Pres same_frame (clearAccountState a).
Proof. unfold clearAccountState. pres. Qed.
Lemma fr_MarkAccount a st : Pres same_frame (MarkAccount a st).
Proof. unfold MarkAccount. pres. Qed.
Hint Resolve fr_SetState fr_clearAccountState fr_MarkAccount : pres.
Lemma fr_SelfDestruct a : Pres same_frame (SelfDestruct a).
Proof. unfold SelfDestruct. pres. Qed.
Lemma fr_GetRefund : Pres same_frame GetRefund.
Proof.
  unfold GetRefund, getTransientModule. pres.
  intros s n s' H. destruct (Uint64 _); by simplify_eq/=.
Qed.
Lemma fr_put_refund n : Pres same_frame (put_refund n).
Proof. unfold put_refund. pres. Qed.
Lemma fr_put_access_list al : Pres same_frame (put_access_list al).
Proof. unfold put_access_list. pres. Qed.
Hint Resolve fr_SelfDestruct fr_GetRefund fr_put_refund fr_put_access_list : pres.
Lemma fr_AddAddress a : Pres same_frame (AddAddressToAccessList a).
Proof. unfold AddAddressToAccessList, getCurrentAccessList. pres. Qed.
Lemma fr_AddSlot a k : Pres same_frame (AddSlotToAccessList a k).
Proof. unfold AddSlotToAccessList, getCurrentAccessList. pres. Qed.
Hint Resolve fr_AddAddress fr_AddSlot : pres.
Lemma fr_prepare_lists s c d ps tx : Pres same_frame (prepare_lists s c d ps tx).
Proof. unfold prepare_lists. pres. Qed.
Lemma fr_residual st : Pres same_frame (handleResidualFundsInDestructedAccounts st).
Proof. unfold handleResidualFundsInDestructedAccounts. pres. Qed.
Lemma fr_clear_destructed st : Pres same_frame (clearAccountStateIfDestructed st).
Proof. unfold clearAccountStateIfDestructed. pres. Qed.
Hint Resolve fr_residual fr_clear_destructed : pres.
Lemma fr_settle : Pres same_frame settle.
Proof. unfold settle. pres. Qed.

Lemma fr_run_op op : is_level_op op = true → Pres same_frame (run_op op).
Proof.
  destruct op; intros Hop; try discriminate Hop; simpl;
    unfold TransferWithoutEvents, DisableEvents, EnableEvents, SetStorage, SetTransientState,
      CreateAccount, Selfdestruct6780, Created, getTransientAccount, SetNonce, SetCode,
      AddRefund, SubRefund, AddLog, GetAllLogs, AddSurplus, SetBalance, SetPrecompileError, SetLogger;
    pres.
Qed.

(** ** All levels *)

Definition framed (v : X) (s : DB) : Prop :=
  f (cview (ctx s)) = v ∧ Forall (λ c, f (cview c) = v) (snapshottedCtxs s).

Lemma framed_level v (s s' : DB) : level_step s s' → same_frame s s' → framed v s → framed v s'.
Proof. intros (Hc & _) Hf [H1 H2]. unfold framed. rewrite Hc, Hf. done. Qed.

Lemma framed_Snapshot v (s s' : DB) z : Snapshot s = Ret (z, s') → framed v s → framed v s'.
Proof.
  intros H [H1 H2]. unfold Snapshot in H. simplify_eq/=. split; simpl; [by rewrite cview_cbranch|].
  apply Forall_app. by split; [|apply Forall_singleton].
Qed.

Lemma framed_RevertToSnapshot v rev (s s' : DB) u : RevertToSnapshot rev s = Ret (u, s') → framed v s → framed v s'.
Proof.
  intros H [H1 H2]. unfold RevertToSnapshot in H. destruct (rev <? 0); [done|].
  destruct (snapshottedCtxs s !! _) as [c|] eqn:Ec; [|done]. destruct (tempStatesHist s !! _); [|done].
  unfold sbind in H. destruct (Snapshot _) as [[z s1]|] eqn:Es; [|done]. injection H as _ <-.
  apply (framed_Snapshot v) in Es; [done|]. split; simpl; [|by apply Forall_take].
  exact (Forall_lookup_1 _ _ _ _ H2 Ec).
Qed.

Lemma framed_run_op v op : Pres (maintains (framed v)) (run_op op).
Proof.
  intros s u s' H Hf. destruct (is_level_op op) eqn:El.
  - eapply framed_level; [by eapply (level_run_op Hlive)|by eapply fr_run_op|done].
  - destruct op; try discriminate El; simpl in H.
    + unfold sbind in H. destruct (Snapshot s) as [[z s1]|] eqn:Es; [|done].
      unfold sret in H. simplify_eq. by eapply framed_Snapshot.
    + by eapply framed_RevertToSnapshot.
    + rewrite (Prepare_eq Hlive) in H. unfold sbind in H. destruct (Snapshot s) as [[z s1]|] eqn:Es; [|done].
      eapply framed_level; [by eapply (level_prepare_lists Hlive)|by eapply fr_prepare_lists|by eapply framed_Snapshot].
Qed.

Lemma framed_New cache (c : Ctx MS) sim s cache' : NewDBImpl cache c sim = Ret (s, cache') → framed (f (cview c)) s.
Proof.
  unfold NewDBImpl. destruct (GetFeeCollectorAddress cache (cview c)) as [[a e] ch].
  intros H. destruct (Snapshot _) as [[z s1]|] eqn:Es; simplify_eq/=.
  apply (framed_Snapshot (f (cview c))) in Es; [done|]. by split.
Qed.

Lemma framed_settle v (s s' : DB) u : settle s = Ret (u, s') → framed v s → f (cview (ctx s')) = v.
Proof. intros H [H1 _]. by rewrite (fr_settle _ _ _ H). Qed.

End Frame.

(** ** A property of every level

    [P w n] is about the stores [w] of a level and the surplus [n] booked up to
    it. *)

Section Levelled.
Context `{BK : BankKeeper B} `{AK : AccountKeeper A} `{EC : EthCrypto} `{KC : KeeperConfig}.
Context `{MST : MultiStore MS (World B A)} `{MSL : !MultiStoreLaws MS (World B A)} `{MR : MapRange} `{BL : !BankLaws B}.
Hypothesis Hlive : EthReplayConfig_Enabled = false.
Notation DB := (DBImpl MS).
Variable P : World B A → Z → Prop.

Definition levelled (s : DB) : Prop :=
  err s = None →
  P (cview (ctx s)) (surplus (tempStateCurrent s) + sum_surplus (tempStatesHist s)) ∧
  ∀ i c, snapshottedCtxs s !! i = Some c → P (cview c) (sum_surplus (take (S i) (tempStatesHist s))).

(** Value that moves between the bank and the surplus does not matter. *)
Hypothesis P_moves : ∀ w w' n n', bk_total (w_bank w') + n' = bk_total (w_bank w) + n → tx_frame w' = tx_frame w → P w n → P w' n'.

Lemma levelled_level (s s' : DB) : level_step s s' →
  (err s' = None → err s = None ∧ ∀ n, P (cview (ctx s)) (surplus (tempStateCurrent s) + n) → P (cview (ctx s')) (surplus (tempStateCurrent s') + n)) →
  levelled s → levelled s'.
Proof.
  intros (Hc & Ht & _) Hw Hl He. destruct (Hw He) as [He0 Hp]. destruct (Hl He0) as [H1 H2]. rewrite Hc, Ht. split; [by apply Hp|done].
Qed.

Lemma levelled_conserves (s s' : DB) : conserves s s' → same_frame tx_frame s s' → levelled s → levelled s'.
Proof.
  intros [Hl Hw] Hf. apply levelled_level; [done|]. intros He. destruct (Hw He) as [He0 Hcur]. split; [done|]. intros n.
  apply P_moves; [|done]. unfold cur_worth, bank_of in Hcur. lia.
Qed.

Lemma levelled_Snapshot (s : DB) z s' :
  length (tempStatesHist s) = length (snapshottedCtxs s) → Snapshot s = Ret (z, s') → levelled s → levelled s'.
Proof.
  intros Hl H Hb. unfold Snapshot in H. simplify_eq/=. intros He. destruct (Hb He) as [H1 H2].
  simpl in *. rewrite cview_cbranch, sum_surplus_app. simpl. split.
  - eapply P_moves; [|done|exact H1]. lia.
  - intros i c Hi. apply lookup_app_Some in Hi as [Hi|[Hi Hc]].
    + pose proof (lookup_lt_Some _ _ _ Hi). rewrite take_app_le by lia. by apply H2.
    + apply list_lookup_singleton_Some in Hc as [Hz <-].
      rewrite take_ge by (rewrite length_app; simpl; lia). rewrite sum_surplus_app. simpl.
      eapply P_moves; [|done|exact H1]. lia.
Qed.

Lemma levelled_RevertToSnapshot rev (s : DB) u s' :
  db_wf s → RevertToSnapshot rev s = Ret (u, s') → levelled s → levelled s'.
Proof.
  intros (_ & Hl & _) H Hb. unfold RevertToSnapshot in H. destruct (rev <? 0); [done|].
  set (r := Z.to_nat rev) in *.
  destruct (snapshottedCtxs s !! r) as [c|] eqn:Ec; [|done].
  destruct (tempStatesHist s !! r) as [t|] eqn:Et; [|done].
  unfold sbind in H. destruct (Snapshot _) as [[z s1]|] eqn:Es; [|done]. injection H as _ <-.
  apply levelled_Snapshot in Es; [done|simpl; rewrite !length_take; lia|].
  intros He. destruct (Hb He) as [_ H2]. simpl. split.
  - specialize (H2 r c Ec). rewrite (take_S_r _ _ _ Et), sum_surplus_app in H2. simpl in H2.
    eapply P_moves; [|done|exact H2]. lia.
  - intros i c' Hi. pose proof (lookup_lt_Some _ _ _ Hi) as Hlt. rewrite length_take in Hlt.
    rewrite lookup_take_lt in Hi by lia. rewrite take_take.
    replace (S i `min` r)%nat with (S i) by lia. by apply H2.
Qed.

Lemma levelled_run_op op (s s' : DB) u :
  is_conserving op = true → run_op op s = Ret (u, s') → db_wf s → levelled s → levelled s'.
Proof.
  intros Hop H Hwf Hb. destruct (is_level_op op) eqn:El.
  - eapply levelled_conserves; [by eapply (cons_run_op Hlive)|by eapply (fr_run_op tx_frame Hlive)|done].
  - destruct op; try discriminate El; simpl in H.
    + unfold sbind in H. destruct (Snapshot s) as [[z s1]|] eqn:Es; [|done].
      unfold sret in H. simplify_eq. by eapply levelled_Snapshot; [apply Hwf|..].
    + by eapply levelled_RevertToSnapshot.
    + rewrite (Prepare_eq Hlive) in H. unfold sbind in H.
      destruct (Snapshot s) as [[z s1]|] eqn:Es; [|done].
      eapply levelled_conserves; [by eapply (cons_prepare_lists Hlive)|by eapply (fr_prepare_lists tx_frame Hlive)|].
      by eapply levelled_Snapshot; [apply Hwf|..].
Qed.

Lemma levelled_New cache (c : Ctx MS) sim s cache' : NewDBImpl cache c sim = Ret (s, cache') → P (cview c) 0 → levelled s.
Proof.
  unfold NewDBImpl. destruct (GetFeeCollectorAddress cache (cview c)) as [[a e] ch].
  intros H HP. destruct (Snapshot _) as [[z s1]|] eqn:Es; simplify_eq/=.
  apply levelled_Snapshot in Es; [done|done|]. intros _. simpl. split; [done|]. intros i c' Hi. by rewrite lookup_nil in Hi.
Qed.
End Levelled.
