(* ===== verification/Journal.v ===== *)
(** * The temporary state as one flat state

    [DBImpl] spreads logs, transient storage, account marks, the refund counter
    and the access list over one temporary state per snapshot.  The
    specification here is a single flat record with an undo stack of saved
    copies.  Every call of the database refines the corresponding step of the
    specification, and every reader returns what the flat record holds. *)

From S2P Require Import Prelude Bytes Store Params Keys World Keeper StateDB Snapshots Instances.
Local Open Scope Z_scope.
Local Open Scope stm_scope.

(** ** The specification *)

Record Flat : Type := mkFlat {
  f_logs : list Log;
  f_transient : gmap (Address * Hash) Hash;
  f_marks : gmap Address bytes;
  f_refund : Z;
  f_addrs : gset Address;
  f_slots : gset (Address * Hash)
}.

Definition flat0 : Flat := mkFlat [] ∅ ∅ 0 ∅ ∅.

Definition sp_log (l : Log) (f : Flat) : Flat :=
  mkFlat (f_logs f ++ [mkLog (l_Address l) (l_Topics l) (l_Data l) (Z.of_nat (length (f_logs f)))])
    (f_transient f) (f_marks f) (f_refund f) (f_addrs f) (f_slots f).
Definition sp_transient (a : Address) (k v : Hash) (f : Flat) : Flat :=
  mkFlat (f_logs f) (<[(a, k) := v]> (f_transient f)) (f_marks f) (f_refund f) (f_addrs f) (f_slots f).
Definition sp_mark (a : Address) (st : bytes) (f : Flat) : Flat :=
  mkFlat (f_logs f) (f_transient f) (<[a := st]> (f_marks f)) (f_refund f) (f_addrs f) (f_slots f).
Definition sp_refund (n : Z) (f : Flat) : Flat :=
  mkFlat (f_logs f) (f_transient f) (f_marks f) n (f_addrs f) (f_slots f).
Definition sp_addr (a : Address) (f : Flat) : Flat :=
  mkFlat (f_logs f) (f_transient f) (f_marks f) (f_refund f) ({[a]} ∪ f_addrs f) (f_slots f).
Definition sp_slot (a : Address) (k : Hash) (f : Flat) : Flat :=
  mkFlat (f_logs f) (f_transient f) (f_marks f) (f_refund f) ({[a]} ∪ f_addrs f) ({[(a, k)]} ∪ f_slots f).

(** The addresses and slots that are warm at the start of a transaction. *)
Definition sp_prepare (tracing : bool) (sender coinbase : Address) (dest : option Address)
    (precompiles : list Address) (txAccesses : list (Address * list Hash)) (f : Flat) : Flat :=
  let f1 := sp_addr sender f in
  let f2 := match dest with Some d => sp_addr d f1 | None => f1 end in
  let f3 := foldl (λ g p, if is_custom_precompile p && negb tracing then g else sp_addr p g) f2 precompiles in
  let f4 := foldl (λ g el, foldl (λ h k, sp_slot el.1 k h) (sp_addr el.1 g) el.2) f3 txAccesses in
  sp_addr coinbase f4.

(** A state of the specification: the flat record and the saved copies, oldest
    first.  [None]: the call is rejected. *)
Definition spec_op (tracing : bool) (op : db_op) (st : Flat * list Flat) : option (Flat * list Flat) :=
  let '(f, saved) := st in
  match op with
  | OpSnapshot => Some (f, saved ++ [f])
  | OpRevertToSnapshot rev =>
      if rev <? 0 then None
      else g ← saved !! Z.to_nat rev; Some (g, take (S (Z.to_nat rev)) saved)
  | OpSetTransientState a k v => Some (sp_transient a k v f, saved)
  | OpCreateAccount a => Some (sp_mark a AccountCreated f, saved)
  | OpSelfDestruct a => Some (sp_mark a AccountDeleted f, saved)
  | OpSelfdestruct6780 a =>
      Some (if bool_decide (f_marks f !! a = Some AccountCreated)
            then sp_mark a AccountDeleted f else f, saved)
  | OpAddRefund g => Some (sp_refund (u64 (f_refund f + g)) f, saved)
  | OpSubRefund g => if f_refund f <? g then None else Some (sp_refund (u64 (f_refund f - g)) f, saved)
  | OpAddLog l => Some (sp_log l f, saved)
  | OpAddAddressToAccessList a => Some (sp_addr a f, saved)
  | OpAddSlotToAccessList a k => Some (sp_slot a k f, saved)
  | OpPrepare s c d ps tx => Some (sp_prepare tracing s c d ps tx f, saved ++ [f])
  | _ => Some (f, saved)
  end.

Fixpoint spec_ops (tracing : bool) (ops : list db_op) (st : Flat * list Flat) : option (Flat * list Flat) :=
  match ops with
  | [] => Some st
  | op :: rest => st' ← spec_op tracing op st; spec_ops tracing rest st'
  end.

(** ** The abstraction *)

(** The slots one access list holds. *)
Definition slots_at (al : accessList) (idx : Z) : gset Hash :=
  if idx =? -1 then ∅ else default ∅ (Slots al !! Z.to_nat idx).
Definition slots_of (al : accessList) : gset (Address * Hash) :=
  list_to_set (concat (map (λ e : Address * Z, pair e.1 <$> elements (slots_at al e.2)) (map_to_list (Addresses al)))).

(** Transient storage keyed by address and slot at once. *)
Definition flat_states (m : gmap Address (gmap Hash Hash)) : gmap (Address * Hash) Hash :=
  map_uncurry (M1 := gmap Address) (M2 := gmap Hash) (M12 := gmap (Address * Hash)) m.

(** One more level on top of a flat state. *)
Definition overlay (f : Flat) (t : TemporaryState) : Flat :=
  mkFlat (f_logs f ++ logs t)
    (flat_states (transientStates t) ∪ f_transient f)
    (transientAccounts t ∪ f_marks f)
    (match transientModuleStates t !! GasRefundKey with Some b => be_dec b | None => f_refund f end)
    (dom (Addresses (transientAccessLists t)) ∪ f_addrs f)
    (slots_of (transientAccessLists t) ∪ f_slots f).

(** The flat states after each level, oldest first. *)
Fixpoint flats (f : Flat) (ts : list TemporaryState) : list Flat :=
  match ts with
  | [] => []
  | t :: rest => overlay f t :: flats (overlay f t) rest
  end.

Definition flat {MS : Type} (s : DBImpl MS) : Flat :=
  overlay (foldl overlay flat0 (tempStatesHist s)) (tempStateCurrent s).
Definition abs {MS : Type} (s : DBImpl MS) : Flat * list Flat := (flat s, flats flat0 (tempStatesHist s)).

(** ** Well-formed levels *)

Definition al_wf (al : accessList) : Prop :=
  (∀ a i, Addresses al !! a = Some i → i = -1 ∨ 0 ≤ i < Z.of_nat (length (Slots al))) ∧
  (∀ a b i, Addresses al !! a = Some i → Addresses al !! b = Some i → i ≠ -1 → a = b).

Definition temp_wf (t : TemporaryState) : Prop :=
  al_wf (transientAccessLists t) ∧
  (∀ b, transientModuleStates t !! GasRefundKey = Some b → length b = 8%nat).

Definition temps_wf {MS : Type} (s : DBImpl MS) : Prop :=
  temp_wf (tempStateCurrent s) ∧ Forall temp_wf (tempStatesHist s) ∧
  length (tempStatesHist s) = length (snapshottedCtxs s).

(** All contexts carry the same block data. *)
Definition info_wf {MS : Type} (i : BlockInfo) (s : DBImpl MS) : Prop :=
  c_info (ctx s) = i ∧ Forall (λ c, c_info c = i) (snapshottedCtxs s).

(** A step that leaves the temporary states alone, but for the surplus. *)
Definition temp_same {MS : Type} (s s' : DBImpl MS) : Prop :=
  tempStatesHist s' = tempStatesHist s ∧
  set_surplus 0 (tempStateCurrent s') = set_surplus 0 (tempStateCurrent s).

(** * Lemmas *)

(** ** Access lists *)

Lemma elem_of_slots_of al a k :
  (a, k) ∈ slots_of al ↔ ∃ i, Addresses al !! a = Some i ∧ k ∈ slots_at al i.
Proof.
  unfold slots_of. rewrite elem_of_list_to_set, list_elem_of_In, in_concat. split.
  - intros (l & Hl & Hk). apply in_map_iff in Hl as ([b i] & <- & Hb). simpl in Hk.
    apply list_elem_of_In in Hk. apply list_elem_of_fmap in Hk as (k' & [= -> ->] & Hk).
    exists i. split; [by apply elem_of_map_to_list, list_elem_of_In|by apply elem_of_elements].
  - intros (i & Ha & Hk). exists (pair a <$> elements (slots_at al i)). split.
    + apply in_map_iff. exists (a, i). split; [done|]. by apply list_elem_of_In, elem_of_map_to_list.
    + apply list_elem_of_In, list_elem_of_fmap. exists k. split; [done|by apply elem_of_elements].
Qed.

Lemma slots_at_prefix al al' i extra :
  Slots al' = Slots al ++ extra → i = -1 ∨ 0 ≤ i < Z.of_nat (length (Slots al)) →
  slots_at al' i = slots_at al i.
Proof.
  intros He Hi. unfold slots_at. destruct (Z.eqb_spec i (-1)); [done|].
  rewrite He, lookup_app_l; [done|]. lia.
Qed.

(** The three ways an access list grows. *)
Definition al_add_addr (a : Address) (al : accessList) : accessList :=
  mkAccessList (<[a := -1]> (Addresses al)) (Slots al).
Definition al_new_slots (a : Address) (k : Hash) (al : accessList) : accessList :=
  mkAccessList (<[a := Z.of_nat (length (Slots al))]> (Addresses al)) (Slots al ++ [{[k]}]).
Definition al_add_slot (i : Z) (k : Hash) (m : gset Hash) (al : accessList) : accessList :=
  mkAccessList (Addresses al) (<[Z.to_nat i := {[k]} ∪ m]> (Slots al)).

Lemma al_wf_add_addr a al : al_wf al → al_wf (al_add_addr a al).
Proof.
  intros [H1 H2]. split; simpl.
  - intros b i Hb. apply lookup_insert_Some in Hb as [[_ <-]|[_ Hb]]; [by left|by eapply H1].
  - intros b c i Hb Hc Hi. apply lookup_insert_Some in Hb as [[_ <-]|[_ Hb]]; [done|].
    apply lookup_insert_Some in Hc as [[_ <-]|[_ Hc]]; [done|]. by eapply H2.
Qed.

Lemma al_wf_new_slots a k al : al_wf al → al_wf (al_new_slots a k al).
Proof.
  intros [H1 H2]. split; simpl; rewrite ?length_app; simpl.
  - intros b i Hb. apply lookup_insert_Some in Hb as [[_ <-]|[_ Hb]]; [right; lia|].
    apply H1 in Hb. lia.
  - intros b c i Hb Hc Hi. apply lookup_insert_Some in Hb as [[<- <-]|[Hbn Hb]];
      apply lookup_insert_Some in Hc as [[<- Hi']|[Hcn Hc]]; [done|..|by eapply H2].
    + apply H1 in Hc. lia.
    + apply H1 in Hb. lia.
Qed.

Lemma al_wf_add_slot i k m al : al_wf al → al_wf (al_add_slot i k m al).
Proof. intros [H1 H2]. split; simpl; [by rewrite length_insert|done]. Qed.

Lemma slots_add_addr a al :
  al_wf al → Addresses al !! a = None → slots_of (al_add_addr a al) = slots_of al.
Proof.
  intros Hwf Ha. apply set_eq. intros [b k]. rewrite !elem_of_slots_of. simpl. split.
  - intros (i & Hb & Hk). apply lookup_insert_Some in Hb as [[<- <-]|[Hne Hb]]; [|by exists i].
    unfold slots_at in Hk. simpl in Hk. set_solver.
  - intros (i & Hb & Hk). exists i. split; [|done]. rewrite lookup_insert_ne; [done|]. congruence.
Qed.

Lemma slots_new_slots a k al :
  al_wf al → (∀ i, Addresses al !! a = Some i → i = -1) →
  slots_of (al_new_slots a k al) = {[(a, k)]} ∪ slots_of al.
Proof.
  intros [Hr _] Ha. apply set_eq. intros [b l]. rewrite elem_of_union, elem_of_singleton, !elem_of_slots_of.
  simpl. assert (Hnew : slots_at (al_new_slots a k al) (Z.of_nat (length (Slots al))) = {[k]}).
  { unfold slots_at. simpl. destruct (Z.eqb_spec (Z.of_nat (length (Slots al))) (-1)); [lia|].
    by rewrite Nat2Z.id, list_lookup_middle. }
  split.
  - intros (i & Hb & Hl). apply lookup_insert_Some in Hb as [[<- <-]|[Hne Hb]].
    + rewrite Hnew in Hl. left. set_solver.
    + right. exists i. split; [done|]. by rewrite (slots_at_prefix al (al_new_slots a k al) i [{[k]}] eq_refl (Hr _ _ Hb)) in Hl.
  - intros [[= -> ->]|(i & Hb & Hl)].
    + exists (Z.of_nat (length (Slots al))). rewrite lookup_insert_eq, Hnew. set_solver.
    + exists i. destruct (decide (a = b)) as [->|Hne].
      * apply Ha in Hb as ->. unfold slots_at in Hl. simpl in Hl. set_solver.
      * rewrite lookup_insert_ne by done. split; [done|].
        by rewrite (slots_at_prefix al (al_new_slots a k al) i [{[k]}] eq_refl (Hr _ _ Hb)).
Qed.

Lemma slots_add_slot a i k m al :
  al_wf al → Addresses al !! a = Some i → i ≠ -1 → Slots al !! Z.to_nat i = Some m →
  slots_of (al_add_slot i k m al) = {[(a, k)]} ∪ slots_of al.
Proof.
  intros [Hr Hinj] Ha Hi Hm. apply set_eq. intros [b l].
  rewrite elem_of_union, elem_of_singleton, !elem_of_slots_of. simpl.
  assert (Hat : ∀ j, j = -1 ∨ 0 ≤ j → slots_at (al_add_slot i k m al) j =
    if decide (j = i) then {[k]} ∪ m else slots_at al j).
  { intros j Hj. unfold slots_at. simpl. case_decide as Hji.
    - subst j. destruct (Z.eqb_spec i (-1)); [done|].
      rewrite list_lookup_insert_eq; [done|]. by eapply lookup_lt_Some.
    - destruct (Z.eqb_spec j (-1)); [done|]. rewrite list_lookup_insert_ne; [done|].
      specialize (Hr _ _ Ha). lia. }
  assert (Hold : slots_at al i = m).
  { unfold slots_at. destruct (Z.eqb_spec i (-1)); [done|]. by rewrite Hm. }
  split.
  - intros (j & Hb & Hl). rewrite Hat in Hl by (specialize (Hr _ _ Hb); lia). case_decide as Hji.
    + subst j. assert (b = a) as -> by (by eapply Hinj). apply elem_of_union in Hl as [Hl|Hl].
      * left. set_solver.
      * right. exists i. by rewrite Hold.
    + right. by exists j.
  - intros [[= -> ->]|(j & Hb & Hl)].
    + exists i. rewrite Hat by (specialize (Hr _ _ Ha); lia). rewrite decide_True by done. set_solver.
    + exists j. rewrite Hat by (specialize (Hr _ _ Hb); lia). split; [done|].
      case_decide; [subst; set_solver|done].
Qed.

(** ** Overlays *)

Lemma lookup_flat_states m a k : flat_states m !! (a, k) = m !! a ≫= (.!! k).
Proof. unfold flat_states. apply lookup_map_uncurry. Qed.

Lemma overlay_new f : overlay f NewTemporaryState = f.
Proof.
  unfold overlay. simpl. unfold slots_of. simpl. rewrite map_to_list_empty, lookup_empty. simpl.
  destruct f as [l tr m r ad sl]. simpl. f_equal.
  - apply app_nil_r.
  - apply map_eq. intros [a k]. by rewrite lookup_union, lookup_flat_states, lookup_empty, (left_id_L None _).
  - by rewrite (left_id_L ∅ _).
  - rewrite dom_empty_L. by rewrite (left_id_L ∅ _).
  - by rewrite (left_id_L ∅ _).
Qed.

Lemma overlay_surplus f t : overlay f (set_surplus 0 t) = overlay f t.
Proof. done. Qed.

Lemma overlay_log f t l :
  overlay f (set_logs (logs t ++ [mkLog (l_Address l) (l_Topics l) (l_Data l)
    (Z.of_nat (length (f_logs (overlay f t))))]) t) = sp_log l (overlay f t).
Proof. unfold overlay, sp_log. simpl. by rewrite app_assoc. Qed.

Lemma overlay_transient f t a k v :
  overlay f (set_transientStates (<[a := <[k := v]> (default ∅ (transientStates t !! a))]> (transientStates t)) t)
  = sp_transient a k v (overlay f t).
Proof.
  unfold overlay, sp_transient. simpl. f_equal. rewrite insert_union_l. f_equal.
  apply map_eq. intros [b l]. rewrite lookup_flat_states.
  destruct (decide (a = b)) as [<-|Hne].
  - rewrite lookup_insert_eq. simpl. destruct (decide (k = l)) as [<-|Hkl].
    + by rewrite !lookup_insert_eq.
    + rewrite !lookup_insert_ne by congruence. rewrite lookup_flat_states.
      destruct (transientStates t !! a); simpl; [done|]. by rewrite lookup_empty.
  - rewrite !lookup_insert_ne by congruence. by rewrite lookup_flat_states.
Qed.

Lemma overlay_mark f t a st :
  overlay f (set_transientAccounts (<[a := st]> (transientAccounts t)) t) = sp_mark a st (overlay f t).
Proof. unfold overlay, sp_mark. simpl. by rewrite insert_union_l. Qed.

Lemma overlay_refund f t n :
  overlay f (set_transientModuleStates (<[GasRefundKey := PutUint64 n]> (transientModuleStates t)) t)
  = sp_refund (u64 n) (overlay f t).
Proof.
  unfold overlay, sp_refund. simpl. rewrite lookup_insert_eq. f_equal.
  unfold PutUint64. rewrite be_dec_enc. unfold u64, two64. f_equal.
Qed.

Lemma overlay_access f t al :
  overlay f (set_transientAccessLists al t) =
  mkFlat (f_logs (overlay f t)) (f_transient (overlay f t)) (f_marks (overlay f t)) (f_refund (overlay f t))
    (dom (Addresses al) ∪ f_addrs f) (slots_of al ∪ f_slots f).
Proof. done. Qed.

Lemma overlay_add_addr f t a :
  temp_wf t → Addresses (transientAccessLists t) !! a = None →
  overlay f (set_transientAccessLists (al_add_addr a (transientAccessLists t)) t) = sp_addr a (overlay f t).
Proof.
  intros [Hwf _] Ha. rewrite overlay_access. unfold sp_addr. f_equal.
  - simpl. by rewrite dom_insert_L, (assoc_L _).
  - simpl. by rewrite slots_add_addr.
Qed.

Lemma overlay_new_slots f t a k :
  temp_wf t → (∀ i, Addresses (transientAccessLists t) !! a = Some i → i = -1) →
  overlay f (set_transientAccessLists (al_new_slots a k (transientAccessLists t)) t) = sp_slot a k (overlay f t).
Proof.
  intros [Hwf _] Ha. rewrite overlay_access. unfold sp_slot. f_equal.
  - simpl. by rewrite dom_insert_L, (assoc_L _).
  - simpl. by rewrite slots_new_slots, (assoc_L _).
Qed.

Lemma overlay_add_slot f t a i k m :
  temp_wf t → Addresses (transientAccessLists t) !! a = Some i → i ≠ -1 →
  Slots (transientAccessLists t) !! Z.to_nat i = Some m →
  overlay f (set_transientAccessLists (al_add_slot i k m (transientAccessLists t)) t) = sp_slot a k (overlay f t).
Proof.
  intros [Hwf _] Ha Hi Hm. rewrite overlay_access. unfold sp_slot. f_equal.
  - simpl. apply elem_of_dom_2 in Ha. set_solver.
  - simpl. by rewrite (slots_add_slot a), (assoc_L _).
Qed.

(** ** The undo stack *)

Lemma flats_app f ts ts' : flats f (ts ++ ts') = flats f ts ++ flats (foldl overlay f ts) ts'.
Proof. revert f. induction ts as [|t ts IH]; intros f; simpl; [done|]. by rewrite IH. Qed.

Lemma flats_take f ts n : take n (flats f ts) = flats f (take n ts).
Proof. revert f n. induction ts as [|t ts IH]; intros f [|n]; simpl; [done..|]. by rewrite IH. Qed.

Lemma flats_lookup f ts n t :
  ts !! n = Some t → flats f ts !! n = Some (foldl overlay f (take (S n) ts)).
Proof.
  revert f n. induction ts as [|t' ts IH]; intros f n Hn; [done|]. destruct n as [|n]; simpl in *.
  - done.
  - by rewrite (IH _ _ Hn).
Qed.

(** ** Steps on one level *)

Section Journal.
Context `{BK : BankKeeper B} `{AK : AccountKeeper A} `{EC : EthCrypto} `{KC : KeeperConfig}.
Context `{MST : MultiStore MS (World B A)} `{MR : MapRange}.
Hypothesis Hlive : EthReplayConfig_Enabled = false.
Notation DB := (DBImpl MS).

(** [m] changes the flat state by [g], and stays on its level. *)
Definition Sim (i : BlockInfo) (g : Flat → Flat) (m : stm DB unit) : Prop :=
  ∀ s u s', m s = Ret (u, s') → temps_wf s → c_info (ctx s) = i →
    flat s' = g (flat s) ∧ temps_wf s' ∧ level_step s s'.

Lemma Sim_bind i g h (m k : stm DB unit) : Sim i g m → Sim i h k → Sim i (h ∘ g) (sbind m (λ _, k)).
Proof.
  intros Hm Hk s u s' H Hwf Hi. unfold sbind in H. destruct (m s) as [[u1 s1]|] eqn:E; [|done].
  destruct (Hm _ _ _ E Hwf Hi) as (F1 & W1 & L1).
  destruct (Hk _ _ _ H W1) as (F2 & W2 & L2).
  { destruct L1 as (_ & _ & (_ & -> & _) & _). done. }
  split_and!; [unfold compose; congruence|done|by transitivity s1].
Qed.

Lemma Sim_ret i : Sim i id (sret tt).
Proof. intros s u s' H Hwf Hi. unfold sret in H. by simplify_eq. Qed.

Lemma Sim_for {T} i (g : T → Flat → Flat) (l : list T) body :
  (∀ x, Sim i (g x) (body x)) → Sim i (λ f, foldl (λ f x, g x f) f l) (sfor l body).
Proof.
  intros Hb. induction l as [|x l IH]; simpl; [apply Sim_ret|].
  exact (Sim_bind i (g x) _ _ _ (Hb x) IH).
Qed.

Lemma temps_wf_cur (s s' : DB) :
  level_step s s' → temp_wf (tempStateCurrent s') → temps_wf s → temps_wf s'.
Proof. intros (Hc & Ht & _) Hw (_ & H2 & H3). unfold temps_wf. by rewrite Hc, Ht. Qed.

(** An update of the newest temporary state. *)
Lemma Sim_put i g f :
  (∀ s : DB, temps_wf s → overlay (foldl overlay flat0 (tempStatesHist s)) (f (tempStateCurrent s)) = g (flat s)) →
  (∀ t, temp_wf t → temp_wf (f t)) →
  Sim i g (sput (set_temp f)).
Proof.
  intros Hg Hf s u s' H Hwf Hi. unfold sput in H. simplify_eq.
  split_and!; [exact (Hg s Hwf)|eapply temps_wf_cur; [apply level_set_temp|apply Hf, Hwf|done]|apply level_set_temp].
Qed.

#[local] Instance temp_same_preorder : PreOrder (temp_same (MS := MS)).
Proof.
  split; [done|]. intros s1 s2 s3 [H1 H2] [H3 H4]. split; congruence.
Qed.

Notation tsame := (temp_same (MS := MS)).

Lemma temp_wf_surplus t t' : set_surplus 0 t' = set_surplus 0 t → temp_wf t → temp_wf t'.
Proof. destruct t, t'. unfold set_surplus. simpl. intros [= -> -> -> -> ->]. done. Qed.

Lemma Sim_same i (m : stm DB unit) : Pres level_step m → Pres tsame m → Sim i id m.
Proof.
  intros Hl Ht s u s' H Hwf Hi. pose proof (Hl _ _ _ H) as HL. destruct (Ht _ _ _ H) as [H1 H2].
  split_and!; [|eapply temps_wf_cur; [done|eapply temp_wf_surplus; [exact H2|apply Hwf]|done]|done].
  unfold flat. rewrite H1. unfold id. rewrite <- (overlay_surplus _ (tempStateCurrent s)), <- H2. done.
Qed.

(** *** Calls that do not touch the flat state *)

Lemma same_prepare a : Pres tsame (prepare a).
Proof. intros s u s' H. rewrite (prepare_live Hlive) in H. by simplify_eq. Qed.
Lemma same_change f : Pres tsame (change f).
Proof. by apply Pres_put. Qed.
Lemma same_view {T} (f : World B A → T) : Pres tsame (view f).
Proof. unfold view. pres. Qed.
Lemma same_view_out {T} (f : World B A → outcome T) : Pres tsame (view_out f).
Proof. intros s a s' H. unfold view_out in H. destruct (f _); by simplify_eq/=. Qed.
Lemma same_put_err e : Pres tsame (sput (set_err e)).
Proof. by apply Pres_put. Qed.
Lemma same_put_surplus (f : Z → Z) : Pres tsame (sput (set_temp (λ t, set_surplus (f (surplus t)) t))).
Proof. by apply Pres_put. Qed.
Lemma same_put_call h : Pres tsame (sput (add_call h)).
Proof. by apply Pres_put. Qed.
Lemma same_put_suppressed b : Pres tsame (sput (set_eventsSuppressed b)).
Proof. by apply Pres_put. Qed.
Lemma same_put_logger h : Pres tsame (sput (set_logger h)).
Proof. by apply Pres_put. Qed.
Lemma same_put_precompileErr e : Pres tsame (sput (set_precompileErr e)).
Proof. by apply Pres_put. Qed.
Lemma same_put_code a code : Pres tsame (sput (λ s : DB, set_ctx (Keeper.SetCode a code (ctx s)) s)).
Proof. by apply Pres_put. Qed.
Lemma same_bank_call q f : Pres tsame (bank_call q f).
Proof.
  intros s e s' H. unfold bank_call, run_bank in H. destruct (f _) as [[b evs] e0]. by simplify_eq.
Qed.
Hint Resolve same_prepare same_change same_view same_view_out same_put_err
  same_put_call same_put_suppressed same_put_logger same_put_precompileErr same_put_code
  same_bank_call : pres.

Lemma same_GetBalance a : Pres tsame (GetBalance a).
Proof. unfold GetBalance, getTabiAddress. pres. Qed.
Hint Resolve same_GetBalance : pres.
Lemma same_sub_positive a amt r : Pres tsame (sub_positive a amt r).
Proof. unfold sub_positive, getTabiAddress. pres. apply (same_put_surplus (λ x, x + amt)). Qed.
Lemma same_add_positive a amt r : Pres tsame (add_positive a amt r).
Proof. unfold add_positive, getTabiAddress. pres. apply (same_put_surplus (λ x, x - amt)). Qed.
Hint Resolve same_sub_positive same_add_positive : pres.
Lemma same_SubBalance a amt r : Pres tsame (SubBalance a amt r).
Proof. unfold SubBalance. pres. Qed.
Lemma same_AddBalance a amt r : Pres tsame (AddBalance a amt r).
Proof. unfold AddBalance. pres. Qed.
Lemma same_send f t amt : Pres tsame (send f t amt).
Proof. unfold send. pres. Qed.
Lemma same_panic_on_err : Pres tsame panic_on_err.
Proof. unfold panic_on_err. pres. Qed.
Lemma same_GetState a k : Pres tsame (GetState a k).
Proof. unfold GetState. pres. Qed.
Lemma same_GetNonce a : Pres tsame (GetNonce a).
Proof. unfold GetNonce. pres. Qed.
Lemma same_GetCode a : Pres tsame (GetCode a).
Proof. unfold GetCode. pres. Qed.
Lemma same_GetCodeHash a : Pres tsame (GetCodeHash a).
Proof. unfold GetCodeHash. pres. Qed.
Hint Resolve same_SubBalance same_AddBalance same_send same_panic_on_err same_GetState same_GetNonce
  same_GetCode same_GetCodeHash : pres.
Lemma same_SetState a k v : Pres tsame (SetState a k v).
Proof. unfold SetState. pres. Qed.
Lemma same_clearAccountState a : Pres tsame (clearAccountState a).
Proof. unfold clearAccountState. pres. Qed.
Hint Resolve same_SetState same_clearAccountState : pres.

(** The operations whose specification is the identity. *)
Definition is_neutral (op : db_op) : bool :=
  match op with
  | OpSubBalance _ _ _ | OpAddBalance _ _ _ | OpTransferWithoutEvents _ _ _ | OpSetState _ _ _
  | OpSetStorage _ _ | OpSetNonce _ _ | OpSetCode _ _ | OpAddSurplus _ | OpSetBalance _ _ _
  | OpSetPrecompileError _ | OpSetLogger _ | OpDisableEvents | OpEnableEvents => true
  | _ => false
  end.

Lemma same_run_op op : is_neutral op = true → Pres tsame (run_op op).
Proof.
  destruct op; intros Hop; try discriminate Hop; simpl;
    unfold TransferWithoutEvents, DisableEvents, EnableEvents, SetStorage, SetNonce, SetCode,
      AddSurplus, SetBalance, getTabiAddress, SetPrecompileError, SetLogger;
    pres; apply (same_put_surplus (λ x, x + _)).
Qed.

(** *** Readers *)

Lemma newest_flats {T} (g : TemporaryState → option T) (h : Flat → option T) ts :
  h flat0 = None →
  (∀ f t, h (overlay f t) = match g t with Some v => Some v | None => h f end) →
  newest g (rev ts) = h (foldl overlay flat0 ts).
Proof.
  intros H0 Hs. induction ts as [|t ts IH] using rev_ind; [done|].
  rewrite rev_app_distr, foldl_app. simpl. rewrite Hs, IH. done.
Qed.

Lemma levels_down_rev (s : DB) : levels_down s = rev (tempStatesHist s ++ [tempStateCurrent s]).
Proof. by rewrite rev_app_distr. Qed.

Lemma flat_foldl (s : DB) : flat s = foldl overlay flat0 (tempStatesHist s ++ [tempStateCurrent s]).
Proof. by rewrite foldl_app. Qed.

Lemma union_lookup_case {K V} `{Countable K} (m1 m2 : gmap K V) (k : K) :
  (m1 ∪ m2) !! k = match m1 !! k with Some v => Some v | None => m2 !! k end.
Proof. rewrite lookup_union. by destruct (m1 !! k), (m2 !! k). Qed.

Lemma newest_marks (s : DB) a : newest (λ t, transientAccounts t !! a) (levels_down s) = f_marks (flat s) !! a.
Proof.
  rewrite levels_down_rev, flat_foldl. apply (newest_flats _ (λ f, f_marks f !! a)); [done|].
  intros f t. apply union_lookup_case.
Qed.

Lemma newest_transient (s : DB) a k :
  newest (λ t, m ← transientStates t !! a; m !! k) (levels_down s) = f_transient (flat s) !! (a, k).
Proof.
  rewrite levels_down_rev, flat_foldl. apply (newest_flats _ (λ f, f_transient f !! (a, k))); [done|].
  intros f t. simpl. rewrite union_lookup_case, lookup_flat_states. done.
Qed.

Lemma newest_refund ts :
  Forall temp_wf ts →
  match newest (λ t, transientModuleStates t !! GasRefundKey) (rev ts) with
  | Some b => length b = 8%nat ∧ be_dec b = f_refund (foldl overlay flat0 ts)
  | None => f_refund (foldl overlay flat0 ts) = 0
  end.
Proof.
  induction ts as [|t ts IH] using rev_ind; intros Hwf; [done|].
  apply Forall_app in Hwf as [Hwf Ht]. apply Forall_singleton in Ht as [_ Hl].
  rewrite rev_app_distr, foldl_app. simpl.
  destruct (transientModuleStates t !! GasRefundKey) as [b|] eqn:E; [by split; [apply Hl|]|].
  by apply IH.
Qed.

Lemma Uint64_8 (b : bytes) : length b = 8%nat → Uint64 b = Ret (be_dec b).
Proof. intros Hl. unfold Uint64. rewrite Hl. simpl. by rewrite take_ge by lia. Qed.

Lemma GetRefund_flat (s : DB) : temps_wf s → GetRefund s = Ret (f_refund (flat s), s).
Proof.
  intros (Hc & Hh & _). unfold GetRefund, getTransientModule, sbind, sget.
  rewrite levels_down_rev, flat_foldl.
  pose proof (newest_refund (tempStatesHist s ++ [tempStateCurrent s])) as H.
  destruct (newest _ _) as [b|].
  - destruct H as [Hl <-]; [by apply Forall_app; split; [|apply Forall_singleton]|].
    by rewrite Uint64_8.
  - rewrite H; [done|]. by apply Forall_app; split; [|apply Forall_singleton].
Qed.

Lemma flat_refund_range (s : DB) : temps_wf s → is_u64 (f_refund (flat s)).
Proof.
  intros (Hc & Hh & _). rewrite flat_foldl.
  pose proof (newest_refund (tempStatesHist s ++ [tempStateCurrent s])) as H.
  destruct (newest _ _) as [b|].
  - destruct H as [Hl <-]; [by apply Forall_app; split; [|apply Forall_singleton]|].
    pose proof (be_dec_range b) as Hr. rewrite Hl in Hr. exact Hr.
  - rewrite H; [done|]. by apply Forall_app; split; [|apply Forall_singleton].
Qed.

Lemma elem_of_f_addrs ts a :
  a ∈ f_addrs (foldl overlay flat0 ts) ↔
  ∃ t, t ∈ ts ∧ is_Some (Addresses (transientAccessLists t) !! a).
Proof.
  induction ts as [|t ts IH] using rev_ind.
  - simpl. split; [set_solver|]. intros (t & Ht & _). by apply elem_of_nil in Ht.
  - rewrite foldl_app. simpl. rewrite elem_of_union, elem_of_dom, IH.
    setoid_rewrite elem_of_app. setoid_rewrite list_elem_of_singleton. naive_solver.
Qed.

Lemma elem_of_f_slots ts a k :
  (a, k) ∈ f_slots (foldl overlay flat0 ts) ↔
  ∃ t, t ∈ ts ∧ (a, k) ∈ slots_of (transientAccessLists t).
Proof.
  induction ts as [|t ts IH] using rev_ind.
  - simpl. split; [set_solver|]. intros (t & Ht & _). by apply elem_of_nil in Ht.
  - rewrite foldl_app. simpl. rewrite elem_of_union, IH.
    setoid_rewrite elem_of_app. setoid_rewrite list_elem_of_singleton. naive_solver.
Qed.

Lemma slot_in_spec al a k : al_wf al → slot_in al a k = Ret (bool_decide ((a, k) ∈ slots_of al)).
Proof.
  intros [Hr _]. unfold slot_in.
  assert (Hiff : (a, k) ∈ slots_of al ↔ ∃ i, Addresses al !! a = Some i ∧ k ∈ slots_at al i)
    by apply elem_of_slots_of.
  destruct (Addresses al !! a) as [i|] eqn:E.
  - unfold slots_at in Hiff. destruct (Z.eqb_spec i (-1)) as [->|Hi].
    + rewrite bool_decide_false; [done|]. rewrite Hiff. intros (j & [= <-] & Hk). simpl in Hk. set_solver.
    + destruct (Hr _ _ E) as [?|Hlt]; [done|]. destruct (Z.ltb_spec i 0); [lia|].
      destruct (lookup_lt_is_Some_2 (Slots al) (Z.to_nat i) ltac:(lia)) as [m Hm]. rewrite Hm.
      f_equal. apply bool_decide_ext. rewrite Hiff. split.
      * intros Hk. exists i. split; [done|]. destruct (Z.eqb_spec i (-1)); [done|]. by rewrite Hm.
      * intros (j & [= <-] & Hk). destruct (Z.eqb_spec i (-1)); [done|]. by rewrite Hm in Hk.
  - rewrite bool_decide_false; [done|]. rewrite Hiff. naive_solver.
Qed.

(** Two tests on a level. *)
Definition has_addr (a : Address) (t : TemporaryState) : bool :=
  bool_decide (is_Some (Addresses (transientAccessLists t) !! a)).
Definition has_slot (a : Address) (k : Hash) (t : TemporaryState) : bool :=
  bool_decide ((a, k) ∈ slots_of (transientAccessLists t)).

Lemma slot_in_hist_spec ts a k ok :
  Forall temp_wf ts →
  slot_in_hist ts a k ok =
  Ret (if existsb (has_slot a k) ts then (true, true) else (ok || existsb (has_addr a) ts, false)).
Proof.
  intros Hwf. revert ok. induction Hwf as [|t ts [Ht _] _ IH]; intros ok; simpl.
  - by rewrite orb_false_r.
  - rewrite slot_in_spec by done. fold (has_slot a k t). fold (has_addr a t).
    destruct (has_slot a k t); simpl; [done|]. rewrite IH. by rewrite orb_assoc.
Qed.

Lemma flat_has_addr (s : DB) a :
  bool_decide (a ∈ f_addrs (flat s)) = has_addr a (tempStateCurrent s) || existsb (has_addr a) (tempStatesHist s).
Proof.
  apply eq_bool_prop_intro. rewrite bool_decide_spec, flat_foldl, elem_of_f_addrs.
  rewrite orb_True, !Is_true_true, existsb_exists. unfold has_addr at 1. rewrite bool_decide_eq_true.
  setoid_rewrite elem_of_app. setoid_rewrite list_elem_of_singleton. setoid_rewrite <- list_elem_of_In.
  unfold has_addr. setoid_rewrite bool_decide_eq_true. naive_solver.
Qed.

Lemma flat_has_slot (s : DB) a k :
  bool_decide ((a, k) ∈ f_slots (flat s)) = has_slot a k (tempStateCurrent s) || existsb (has_slot a k) (tempStatesHist s).
Proof.
  apply eq_bool_prop_intro. rewrite bool_decide_spec, flat_foldl, elem_of_f_slots.
  rewrite orb_True, !Is_true_true, existsb_exists. unfold has_slot at 1. rewrite bool_decide_eq_true.
  setoid_rewrite elem_of_app. setoid_rewrite list_elem_of_singleton. setoid_rewrite <- list_elem_of_In.
  unfold has_slot. setoid_rewrite bool_decide_eq_true. naive_solver.
Qed.

Lemma has_slot_addr a k t : has_slot a k t = true → has_addr a t = true.
Proof.
  unfold has_slot, has_addr. rewrite !bool_decide_eq_true, elem_of_slots_of. intros (i & -> & _). done.
Qed.

Lemma SlotInAccessList_flat a k (s : DB) :
  temps_wf s →
  SlotInAccessList a k s =
  Ret ((bool_decide (a ∈ f_addrs (flat s)), bool_decide ((a, k) ∈ f_slots (flat s))), s).
Proof.
  intros ([Hal _] & Hh & _). unfold SlotInAccessList. rewrite (bind_prepare Hlive).
  unfold getCurrentAccessList, sbind, sget. rewrite slot_in_spec, flat_has_addr, flat_has_slot by done.
  fold (has_slot a k (tempStateCurrent s)). fold (has_addr a (tempStateCurrent s)). simpl.
  pose proof (has_slot_addr a k (tempStateCurrent s)) as Hc.
  destruct (has_slot a k (tempStateCurrent s)); simpl; [by rewrite Hc|].
  rewrite slot_in_hist_spec by done. simpl. destruct (existsb (has_slot a k) _) eqn:E; [|done].
  apply existsb_exists in E as (t & Ht & Hs). apply has_slot_addr in Hs.
  assert (existsb (has_addr a) (tempStatesHist s) = true) as -> by (apply existsb_exists; eauto).
  by rewrite orb_true_r.
Qed.

Lemma AddressInAccessList_flat a (s : DB) :
  AddressInAccessList a s = Ret (bool_decide (a ∈ f_addrs (flat s)), s).
Proof.
  unfold AddressInAccessList. rewrite (bind_prepare Hlive), flat_has_addr.
  unfold getCurrentAccessList, sbind, sget. fold (has_addr a (tempStateCurrent s)).
  by destruct (has_addr a (tempStateCurrent s)).
Qed.

Lemma all_logs_flat (s : DB) : all_logs s = f_logs (flat s).
Proof.
  unfold all_logs. rewrite flat_foldl.
  assert (H : ∀ ts, f_logs (foldl overlay flat0 ts) = concat (map logs ts)).
  { intros ts. induction ts as [|t ts IH] using rev_ind; [done|].
    rewrite foldl_app, map_app, concat_app. simpl. by rewrite IH, app_nil_r. }
  rewrite H, map_app, concat_app. simpl. by rewrite app_nil_r.
Qed.

(** *** Writers *)

Lemma Sim_MarkAccount i a st : Sim i (sp_mark a st) (MarkAccount a st).
Proof. apply Sim_put; [|done]. intros s _. apply overlay_mark. Qed.

Lemma Sim_SetTransientState i a k v : Sim i (sp_transient a k v) (SetTransientState a k v).
Proof. apply Sim_put; [|done]. intros s _. apply overlay_transient. Qed.

Lemma Sim_put_refund i n : Sim i (sp_refund (u64 n)) (put_refund n).
Proof.
  apply Sim_put.
  - intros s _. apply overlay_refund.
  - intros t [H1 _]. split; [done|]. intros b. simpl. rewrite lookup_insert_eq. intros [= <-].
    apply length_be_enc.
Qed.

Lemma Sim_put_access_list i g al (s : DB) s' u :
  overlay (foldl overlay flat0 (tempStatesHist s)) (set_transientAccessLists al (tempStateCurrent s)) = g (flat s) →
  al_wf al → put_access_list al s = Ret (u, s') → temps_wf s → c_info (ctx s) = i →
  flat s' = g (flat s) ∧ temps_wf s' ∧ level_step s s'.
Proof.
  intros Hg Hal H Hwf Hi. unfold put_access_list, sput in H. simplify_eq.
  split_and!; [exact Hg| |apply level_set_temp].
  eapply temps_wf_cur; [apply level_set_temp| |done]. split; [done|]. apply Hwf.
Qed.

Lemma sp_addr_present a (s : DB) :
  is_Some (Addresses (transientAccessLists (tempStateCurrent s)) !! a) → sp_addr a (flat s) = flat s.
Proof.
  intros Ha. apply elem_of_dom in Ha. unfold sp_addr, flat, overlay. simpl. f_equal. set_solver.
Qed.

Lemma Sim_AddAddress i a : Sim i (sp_addr a) (AddAddressToAccessList a).
Proof.
  intros s u s' H Hwf Hi. unfold AddAddressToAccessList in H. rewrite (bind_prepare Hlive) in H.
  unfold getCurrentAccessList in H. unfold sbind, sget in H. case_bool_decide as Hp.
  - unfold sret in H. simplify_eq. by rewrite sp_addr_present.
  - eapply Sim_put_access_list; [..|exact H|done|done].
    + apply (overlay_add_addr _ _ a); [apply Hwf|]. by apply eq_None_not_Some.
    + apply (al_wf_add_addr a), Hwf.
Qed.

Lemma Sim_AddSlot i a k : Sim i (sp_slot a k) (AddSlotToAccessList a k).
Proof.
  intros s u s' H Hwf Hi. unfold AddSlotToAccessList in H. rewrite (bind_prepare Hlive) in H.
  unfold getCurrentAccessList in H. unfold sbind, sget in H.
  set (al := transientAccessLists (tempStateCurrent s)) in *.
  assert (Hnew : (∀ j, Addresses al !! a = Some j → j = -1) →
    put_access_list (al_new_slots a k al) s = Ret (u, s') →
    flat s' = sp_slot a k (flat s) ∧ temps_wf s' ∧ level_step s s').
  { intros Hj Hput. eapply Sim_put_access_list; [..|exact Hput|done|done].
    - by apply (overlay_new_slots _ _ a k); [apply Hwf|].
    - apply (al_wf_new_slots a k), Hwf. }
  destruct (Addresses al !! a) as [j|] eqn:Ea; [|by apply Hnew].
  destruct (Z.eqb_spec j (-1)) as [->|Hj]; [apply Hnew; [by intros j [= <-]|exact H]|].
  destruct (j <? 0); [done|]. destruct (Slots al !! Z.to_nat j) as [m|] eqn:Em; [|done].
  case_bool_decide as Hk.
  - unfold sret in H. simplify_eq. split_and!; [|done|done].
    assert (Hin : (a, k) ∈ slots_of al).
    { apply elem_of_slots_of. exists j. split; [done|]. unfold slots_at.
      destruct (Z.eqb_spec j (-1)); [done|]. by rewrite Em. }
    apply elem_of_dom_2 in Ea. unfold sp_slot, flat, overlay. simpl. fold al. f_equal; set_solver.
  - eapply Sim_put_access_list; [..|exact H|done|done].
    + by apply (overlay_add_slot _ _ a j k m); [apply Hwf|..].
    + apply (al_wf_add_slot j k m), Hwf.
Qed.

Lemma Sim_ext i g h (m m' : stm DB unit) :
  (∀ f, g f = h f) → (∀ s, m s = m' s) → Sim i g m → Sim i h m'.
Proof. intros Hg Hm H s u s' E Hwf Hi. rewrite <- Hm in E. rewrite <- Hg. by apply (H s u s'). Qed.

Lemma Sim_prepare_lists i sender coinbase dest ps tx :
  Sim i (sp_prepare (ci_isTracing i) sender coinbase dest ps tx) (prepare_lists sender coinbase dest ps tx).
Proof.
  set (gd := λ f, match dest with Some d => sp_addr d f | None => f end).
  set (gp := λ p f, if is_custom_precompile p && negb (ci_isTracing i) then f else sp_addr p f).
  set (gt := λ (el : Address * list Hash) f, foldl (λ h k, sp_slot el.1 k h) (sp_addr el.1 f) el.2).
  apply (Sim_ext i (((((sp_addr coinbase) ∘ (λ f, foldl (λ f x, gt x f) f tx)) ∘
    (λ f, foldl (λ f x, gp x f) f ps)) ∘ gd) ∘ sp_addr sender) _ (prepare_lists sender coinbase dest ps tx));
    [done|done|].
  unfold prepare_lists. apply Sim_bind; [apply Sim_AddAddress|].
  apply Sim_bind; [unfold gd; destruct dest; [apply Sim_AddAddress|apply Sim_ret]|].
  apply Sim_bind; [apply (Sim_for i gp)|apply Sim_bind; [apply (Sim_for i gt)|apply Sim_AddAddress]].
  - intros p s u s' H Hwf Hi. unfold sbind, sget in H. rewrite Hi in H. unfold gp.
    destruct (is_custom_precompile p && negb (ci_isTracing i)).
    + by eapply Sim_ret.
    + by eapply Sim_AddAddress.
  - intros el. apply (Sim_ext i ((λ f, foldl (λ h k, sp_slot el.1 k h) f el.2) ∘ sp_addr el.1) _
      (do! AddAddressToAccessList el.1; sfor el.2 (λ key, AddSlotToAccessList el.1 key))); [done|done|].
    apply Sim_bind; [apply Sim_AddAddress|]. apply (Sim_for i (λ k, sp_slot el.1 k)).
    intros k. apply Sim_AddSlot.
Qed.

Lemma Sim_CreateAccount i a : Sim i (sp_mark a AccountCreated) (CreateAccount a).
Proof.
  apply (Sim_ext i (sp_mark a AccountCreated ∘ id) _ (sbind (do! prepare a;
    let! tracing := sget (λ s, ci_isTracing (c_info (ctx s))) in
    swhen (negb tracing) (clearAccountState a)) (λ _, MarkAccount a AccountCreated))); [done|..].
  - intros s. unfold CreateAccount, sbind, sget. rewrite (prepare_live Hlive). done.
  - apply Sim_bind; [apply Sim_same|apply Sim_MarkAccount].
    + apply Pres_bind; [apply _|by apply level_prepare|]. intros _.
      apply Pres_bind; [apply _|apply Pres_get, _|]. intros b. apply Pres_when; [apply _|].
      by apply level_clearAccountState.
    + pres.
Qed.

Lemma Sim_SelfDestruct i a : Sim i (sp_mark a AccountDeleted) (SelfDestruct a).
Proof.
  set (debit := do! prepare a;
    let! r := view (λ w, GetTabiAddress w a) in
    do! (match r with Some t => change (DeleteAddressMapping t a) | None => sret tt end);
    let! bal := GetBalance a in SubBalance a bal BalanceDecreaseSelfdestruct).
  apply (Sim_ext i (sp_mark a AccountDeleted ∘ id) _ (sbind debit (λ _, MarkAccount a AccountDeleted))); [done|..].
  - intros s. unfold SelfDestruct, debit, sbind. rewrite (prepare_live Hlive).
    destruct (view _ s) as [[r s1]|]; [|done].
    destruct r as [t|]; unfold change, sput, sret; by destruct (GetBalance a _) as [[bal s3]|].
  - apply Sim_bind; [apply Sim_same|apply Sim_MarkAccount]; unfold debit.
    + apply Pres_bind; [apply _|by apply level_prepare|]. intros _.
      apply Pres_bind; [apply _|apply level_view|]. intros r.
      apply Pres_bind; [apply _|destruct r; [apply (level_change (MS := MS))|apply Pres_ret, _]|]. intros _.
      apply Pres_bind; [apply _|by apply level_GetBalance|]. intros bal. by apply level_SubBalance.
    + pres.
Qed.

Lemma Sim_Selfdestruct6780 i a :
  Sim i (λ f, if bool_decide (f_marks f !! a = Some AccountCreated) then sp_mark a AccountDeleted f else f)
    (Selfdestruct6780 a).
Proof.
  intros s u s' H Hwf Hi. unfold Selfdestruct6780, Created, getTransientAccount in H.
  unfold sbind, sget, sret in H. rewrite newest_marks in H.
  destruct (bool_decide _).
  - by apply (Sim_SelfDestruct i a s u s').
  - by apply (Sim_ret i s u s').
Qed.

Lemma u64_u64 z : u64 (u64 z) = u64 z.
Proof. apply u64_id, u64_range. Qed.

Lemma Sim_AddRefund i gas : Sim i (λ f, sp_refund (u64 (f_refund f + gas)) f) (AddRefund gas).
Proof.
  intros s u s' H Hwf Hi. unfold AddRefund, sbind in H. rewrite GetRefund_flat in H by done.
  destruct (Sim_put_refund i _ _ _ _ H Hwf Hi) as (F & W & L). by rewrite F, u64_u64.
Qed.

Lemma Sim_AddLog i l : Sim i (sp_log l) (AddLog l).
Proof.
  intros s u s' H Hwf Hi. pose proof (level_run_op Hlive (OpAddLog l) eq_refl _ _ _ H) as HL.
  unfold AddLog, GetAllLogs, sbind, sget, sput in H. rewrite all_logs_flat in H.
  assert (Hs : tempStateCurrent s' = set_logs (logs (tempStateCurrent s) ++
    [mkLog (l_Address l) (l_Topics l) (l_Data l) (Z.of_nat (length (f_logs (flat s))))]) (tempStateCurrent s)).
  { unfold swhen, sput, sret in H. destruct (hooked _ _); by injection H as _ <-. }
  split_and!; [|eapply temps_wf_cur; [done|rewrite Hs; apply Hwf|done]|done].
  unfold flat at 1. destruct HL as (_ & -> & _). rewrite Hs. apply overlay_log.
Qed.

(** *** Snapshots *)

Lemma info_wf_level i (s s' : DB) : level_step s s' → info_wf i s → info_wf i s'.
Proof.
  intros (Hc & _ & (_ & Hi & _) & _) [H1 H2]. split; [congruence|by rewrite Hc].
Qed.

Lemma abs_level i op (s s' : DB) u g :
  Sim i g (run_op op) → spec_op (ci_isTracing i) op (abs s) = Some (g (flat s), flats flat0 (tempStatesHist s)) →
  run_op op s = Ret (u, s') → temps_wf s → info_wf i s →
  spec_op (ci_isTracing i) op (abs s) = Some (abs s') ∧ temps_wf s' ∧ info_wf i s'.
Proof.
  intros Hsim Hsp H Hwf Hi. destruct (Hsim _ _ _ H Hwf) as (F & W & L); [apply Hi|].
  split_and!; [|done|by eapply info_wf_level]. rewrite Hsp. unfold abs.
  destruct L as (_ & -> & _). by rewrite F.
Qed.

Lemma Snapshot_abs i (s s' : DB) z :
  Snapshot s = Ret (z, s') → temps_wf s → info_wf i s →
  abs s' = (flat s, flats flat0 (tempStatesHist s) ++ [flat s]) ∧ temps_wf s' ∧ info_wf i s'.
Proof.
  intros H (H1 & H2 & H3) [I1 I2]. unfold Snapshot in H. simplify_eq. unfold abs, flat. simpl.
  rewrite overlay_new, foldl_app, flats_app. simpl. split_and!; [done| |].
  - split_and!; simpl.
    + split; [split; intros; simplify_map_eq|intros b Hb; simplify_map_eq].
    + by apply Forall_app; split; [|apply Forall_singleton].
    + rewrite !length_app. simpl. lia.
  - split; simpl; [done|]. by apply Forall_app; split; [|apply Forall_singleton].
Qed.

Lemma RevertToSnapshot_abs i rev (s s' : DB) u :
  RevertToSnapshot rev s = Ret (u, s') → temps_wf s → info_wf i s →
  spec_op (ci_isTracing i) (OpRevertToSnapshot rev) (abs s) = Some (abs s') ∧ temps_wf s' ∧ info_wf i s'.
Proof.
  intros H (H1 & H2 & H3) [I1 I2]. unfold RevertToSnapshot in H. simpl.
  destruct (rev <? 0); [done|]. set (r := Z.to_nat rev) in *.
  destruct (snapshottedCtxs s !! r) as [c|] eqn:Ec; [|done].
  destruct (tempStatesHist s !! r) as [t|] eqn:Et; [|done].
  unfold sbind in H. destruct (Snapshot _) as [[z s1]|] eqn:Es; [|done].
  injection H as _ <-.
  apply (Snapshot_abs i) in Es as (E1 & E2 & E3).
  - split_and!; [|done|done]. rewrite E1, (flats_lookup _ _ _ _ Et). simpl. unfold flat. simpl.
    rewrite flats_take, (take_S_r _ _ _ Et), foldl_app, flats_app. done.
  - split_and!; simpl; [by eapply Forall_lookup_1|by apply Forall_take|rewrite !length_take; lia].
  - split; simpl; [by eapply (Forall_lookup_1 _ _ _ _ I2)|by apply Forall_take].
Qed.

(** *** Every call refines its specification *)

Lemma run_op_refines i op (s s' : DB) :
  run_op op s = Ret (tt, s') → temps_wf s → info_wf i s →
  spec_op (ci_isTracing i) op (abs s) = Some (abs s') ∧ temps_wf s' ∧ info_wf i s'.
Proof.
  intros H Hwf Hi. destruct (is_neutral op) eqn:En.
  { eapply (abs_level i op s s' tt id); [..|done|done|done].
    - apply Sim_same; [|by apply same_run_op]. apply level_run_op; [done|]. by destruct op.
    - by destruct op. }
  destruct op; try discriminate En.
  - simpl in H. unfold sbind in H. destruct (Snapshot s) as [[z s1]|] eqn:Es; [|done].
    injection H as <-. by destruct (Snapshot_abs i _ _ _ Es Hwf Hi) as (-> & ? & ?).
  - by apply (RevertToSnapshot_abs i rev s s' tt).
  - by eapply abs_level; [apply (Sim_SetTransientState i a k v)|..].
  - by eapply abs_level; [apply (Sim_CreateAccount i a)|..].
  - by eapply abs_level; [apply (Sim_SelfDestruct i a)|..].
  - by eapply (abs_level i); [apply (Sim_Selfdestruct6780 i a)|..].
  - by eapply (abs_level i); [apply (Sim_AddRefund i gas)|..].
  - change (SubRefund gas s = Ret (tt, s')) in H. unfold SubRefund, sbind in H.
    rewrite GetRefund_flat in H by done. unfold spec_op, abs at 1.
    destruct (f_refund (flat s) <? gas) eqn:E; [done|].
    destruct (Sim_put_refund i _ _ _ _ H Hwf (proj1 Hi)) as (F & W & L).
    split_and!; [|done|by eapply info_wf_level]. unfold abs. destruct L as (_ & -> & _). by rewrite F.
  - by eapply abs_level; [apply (Sim_AddLog i l)|..].
  - by eapply abs_level; [apply (Sim_AddAddress i a)|..].
  - by eapply abs_level; [apply (Sim_AddSlot i a slot)|..].
  - simpl in *. rewrite (Prepare_eq Hlive) in H. unfold sbind in H.
    destruct (Snapshot s) as [[z s1]|] eqn:Es; [|done].
    destruct (Snapshot_abs i _ _ _ Es Hwf Hi) as (Ea & W1 & I1).
    destruct (Sim_prepare_lists i _ _ _ _ _ _ _ _ H W1) as (F & W & L); [apply I1|].
    split_and!; [|done|by eapply info_wf_level]. unfold abs in *. destruct L as (_ & -> & _).
    apply pair_equal_spec in Ea as [Ea1 Ea2]. by rewrite F, Ea1, Ea2.
Qed.

Lemma run_ops_refines i ops (s s' : DB) :
  run_ops ops s = Ret (tt, s') → temps_wf s → info_wf i s →
  spec_ops (ci_isTracing i) ops (abs s) = Some (abs s') ∧ temps_wf s' ∧ info_wf i s'.
Proof.
  revert s. induction ops as [|op ops IH]; intros s H Hwf Hi.
  - injection H as <-. done.
  - unfold run_ops in H. simpl in H. unfold sbind in H.
    destruct (run_op op s) as [[[] s1]|] eqn:E; [|done].
    destruct (run_op_refines i op s s1 E Hwf Hi) as (E1 & W1 & I1).
    destruct (IH s1 H W1 I1) as (E2 & W2 & I2). cbn [spec_ops]. by rewrite E1.
Qed.

Lemma NewDBImpl_abs cache (c : Ctx MS) sim s cache' :
  NewDBImpl cache c sim = Ret (s, cache') →
  abs s = (flat0, [flat0]) ∧ temps_wf s ∧ info_wf (c_info c) s.
Proof.
  unfold NewDBImpl. destruct (GetFeeCollectorAddress cache (cview c)) as [[a e] ch].
  intros H. destruct (Snapshot _) as [[z s1]|] eqn:Es; [|done]. simpl in H. injection H as <- _.
  eapply (Snapshot_abs (c_info c)) in Es as (-> & W & I).
  - split_and!; [|done|done]. unfold flat. simpl. by rewrite overlay_new.
  - split_and!; simpl; [|done|done].
    split; [split; intros; simplify_map_eq|intros b Hb; simplify_map_eq].
  - by split.
Qed.

End Journal.

(** * Theorems *)

Section JournalTheorems.
Context `{BK : BankKeeper B} `{AK : AccountKeeper A} `{EC : EthCrypto} `{KC : KeeperConfig}.
Context `{MST : MultiStore MS (World B A)} `{MR : MapRange}.
Notation DB := (DBImpl MS).

(** C5: the layered temporary state refines a flat one with an undo stack.  For
    every run of calls on a new database, the logs, transient storage, account
    marks, refund counter and access list it stands for, and the saved copies
    it can revert to, are those of the specification run on the same calls; in
    particular the database accepts no call that the specification rejects. *)
Theorem temporary_state_refines (cache cache' : option Address) (c : Ctx MS) (sim : bool)
    (ops : list db_op) (s0 s : DB) :
  EthReplayConfig_Enabled = false →
  NewDBImpl cache c sim = Ret (s0, cache') →
  run_ops ops s0 = Ret (tt, s) →
  spec_ops (ci_isTracing (c_info c)) ops (flat0, [flat0]) = Some (abs s).
Proof.
  intros Hlive Hnew Hrun. destruct (NewDBImpl_abs _ _ _ _ _ Hnew) as (Ha & Hwf & Hi).
  rewrite <- Ha. by apply (run_ops_refines Hlive).
Qed.

(** The readers return what the flat state holds: the refund counter, the
    transient slot (zero when unset), the self-destruct mark, the logs in order,
    and membership of addresses and slots in the access list. *)
Theorem temporary_readers (ops : list db_op) (cache cache' : option Address) (c : Ctx MS) (sim : bool) (s0 s : DB) :
  EthReplayConfig_Enabled = false →
  NewDBImpl cache c sim = Ret (s0, cache') →
  run_ops ops s0 = Ret (tt, s) →
  let f := flat s in
  GetRefund s = Ret (f_refund f, s) ∧
  (∀ a k, GetTransientState a k s = Ret (default zero_hash (f_transient f !! (a, k)), s)) ∧
  (∀ a, HasSelfDestructed a s = Ret (bool_decide (f_marks f !! a = Some AccountDeleted), s)) ∧
  GetAllLogs s = Ret (f_logs f, s) ∧
  (∀ a, AddressInAccessList a s = Ret (bool_decide (a ∈ f_addrs f), s)) ∧
  (∀ a k, SlotInAccessList a k s = Ret ((bool_decide (a ∈ f_addrs f), bool_decide ((a, k) ∈ f_slots f)), s)).
Proof.
  intros Hlive Hnew Hrun. cbv zeta. destruct (NewDBImpl_abs _ _ _ _ _ Hnew) as (_ & Hwf0 & Hi).
  destruct (run_ops_refines Hlive _ _ _ _ Hrun Hwf0 Hi) as (_ & Hwf & _). split_and!.
  - by apply GetRefund_flat.
  - intros a k. unfold GetTransientState, getTransientState, sbind, sget, sret. by rewrite newest_transient.
  - intros a. unfold HasSelfDestructed, getTransientAccount, sbind, sget, sret. by rewrite newest_marks.
  - unfold GetAllLogs, sget. by rewrite all_logs_flat.
  - intros a. by apply AddressInAccessList_flat.
  - intros a k. by apply SlotInAccessList_flat.
Qed.

(** The refund counter is a 64-bit counter: on any reachable database
    [AddRefund] adds modulo 2^64, [SubRefund] subtracts, and [SubRefund] panics
    exactly when the counter would go below zero. *)
Theorem refund_counter (ops : list db_op) (cache cache' : option Address) (c : Ctx MS) (sim : bool)
    (s0 s : DB) (gas : Z) :
  EthReplayConfig_Enabled = false →
  NewDBImpl cache c sim = Ret (s0, cache') →
  run_ops ops s0 = Ret (tt, s) →
  is_u64 gas →
  ∃ r, GetRefund s = Ret (r, s) ∧ is_u64 r ∧
    (∃ s', AddRefund gas s = Ret (tt, s') ∧ GetRefund s' = Ret (u64 (r + gas), s')) ∧
    (r < gas → ∃ msg, SubRefund gas s = Panic msg) ∧
    (gas ≤ r → ∃ s', SubRefund gas s = Ret (tt, s') ∧ GetRefund s' = Ret (r - gas, s')).
Proof.
  intros Hlive Hnew Hrun Hgas. destruct (NewDBImpl_abs _ _ _ _ _ Hnew) as (_ & Hwf0 & Hi0).
  destruct (run_ops_refines Hlive _ _ _ _ Hrun Hwf0 Hi0) as (_ & Hwf & Hi).
  exists (f_refund (flat s)). pose proof (GetRefund_flat s Hwf) as Hget.
  assert (Hput : ∀ n, ∃ s', put_refund n s = Ret (tt, s') ∧ GetRefund s' = Ret (u64 n, s')).
  { intros n. eexists. split; [reflexivity|].
    destruct (Sim_put_refund _ n s tt _ eq_refl Hwf eq_refl) as (F & W & _).
    rewrite (GetRefund_flat _ W), F. done. }
  assert (Hr : is_u64 (f_refund (flat s))) by by apply flat_refund_range.
  split_and!; [done|done|..].
  - destruct (Hput (u64 (f_refund (flat s) + gas))) as (s' & H1 & H2).
    exists s'. unfold AddRefund, sbind. rewrite Hget. by rewrite u64_u64 in H2.
  - intros Hlt. eexists. unfold SubRefund, sbind. rewrite Hget. by rewrite (proj2 (Z.ltb_lt _ _) Hlt).
  - intros Hle. destruct (Hput (f_refund (flat s) - gas)) as (s' & H1 & H2).
    exists s'. unfold SubRefund, sbind. rewrite Hget. rewrite (proj2 (Z.ltb_ge _ _) Hle).
    unfold is_u64 in *. rewrite u64_id in H2 by (unfold is_u64; lia). done.
Qed.

End JournalTheorems.

(** * Examples *)

Section JournalExamples.
#[local] Existing Instances demo_bank_keeper demo_accounts demo_crypto live_config.
#[local] Instance demo_journal_stores : MultiStore (stack_ms demo_world) demo_world := stack_multistore demo_world.

Definition journal_ops : list db_op :=
  [OpPrepare (addr_of 1) (addr_of 9) (Some (addr_of 2)) [addr_of 5] [(addr_of 3, [hash_of 1; hash_of 2])];
   OpAddRefund 7; OpSnapshot; OpAddRefund 5; OpSetTransientState (addr_of 1) (hash_of 1) (hash_of 2);
   OpAddSlotToAccessList (addr_of 3) (hash_of 4); OpRevertToSnapshot 2; OpSubRefund 3;
   OpAddLog (mkLog (addr_of 1) [] [] 0)].

Lemma temporary_state_refines_witness :
  spec_ops false journal_ops (flat0, [flat0]) = Some (abs (exec (run_ops journal_ops) demo_db)).
Proof.
  assert (Hlive : EthReplayConfig_Enabled = false) by reflexivity.
  assert (Hn : NewDBImpl None (demo_ctx demo_world0) false = Ret (demo_db, None)) by reflexivity.
  assert (Hi : is_ret (run_ops journal_ops demo_db) = true) by (vm_compute; reflexivity).
  apply exec_ret in Hi.
  exact (temporary_state_refines _ _ _ _ _ _ _ Hlive Hn Hi).
Defined.

Lemma temporary_readers_witness :
  let s := exec (run_ops journal_ops) demo_db in GetRefund s = Ret (f_refund (flat s), s).
Proof.
  assert (Hlive : EthReplayConfig_Enabled = false) by reflexivity.
  assert (Hn : NewDBImpl None (demo_ctx demo_world0) false = Ret (demo_db, None)) by reflexivity.
  assert (Hi : is_ret (run_ops journal_ops demo_db) = true) by (vm_compute; reflexivity).
  apply exec_ret in Hi.
  exact (proj1 (temporary_readers _ _ _ _ _ _ _ Hlive Hn Hi)).
Defined.

Lemma refund_counter_witness :
  ∃ r, GetRefund (exec (run_ops journal_ops) demo_db) = Ret (r, exec (run_ops journal_ops) demo_db) ∧ is_u64 r.
Proof.
  assert (Hlive : EthReplayConfig_Enabled = false) by reflexivity.
  assert (Hn : NewDBImpl None (demo_ctx demo_world0) false = Ret (demo_db, None)) by reflexivity.
  assert (Hi : is_ret (run_ops journal_ops demo_db) = true) by (vm_compute; reflexivity).
  assert (Hg : is_u64 3) by (unfold is_u64, two64; lia).
  apply exec_ret in Hi.
  destruct (refund_counter _ _ _ _ _ _ _ _ Hlive Hn Hi Hg) as (r & H1 & H2 & _).
  exists r. split; [exact H1|exact H2].
Defined.

End JournalExamples.
