(* ===== verification/Pending.v ===== *)
(** * Pending nonces (x/evm/keeper/keeper.go)

    The keeper tracks the nonces of the transactions in the mempool: a sorted
    list per sender and an index from transaction keys to sender and nonce.  The
    two structures agree at all times, and the next nonce of a sender is the
    first one from the on-chain nonce that is not taken. *)

From S2P Require Import Prelude Bytes.
Local Open Scope Z_scope.

(** [tmtypes.TxKey] is an array of 32 bytes. *)
Notation TxKey := (barray 32).

Record PendingTx : Type := mkPendingTx {
  Key : TxKey;
  Nonce : Z;
  Priority : Z
}.

Record AddressNoncePair : Type := mkAddressNoncePair {
  anp_Address : Address;
  anp_Nonce : Z
}.

Record PendingState : Type := mkPendingState {
  pendingTxs : gmap Address (list PendingTx);
  keyToNonce : gmap TxKey AddressNoncePair
}.

Definition no_pending : PendingState := mkPendingState ∅ ∅.

Definition uint64Cmp (a b : Z) : Z := if a <? b then -1 else if a =? b then 0 else 1.

(** ** [sort.Find] of the Go library

    A binary search: [j - i] halves in each round, so [n] rounds are enough. *)
Fixpoint find_loop (rounds : nat) (cmp : nat → Z) (i j : nat) : nat :=
  match rounds with
  | O => i
  | S r =>
      if (i <? j)%nat then
        let h := Nat.div2 (i + j) in
        if 0 <? cmp h then find_loop r cmp (S h) j else find_loop r cmp i h
      else i
  end.

Definition sort_Find (n : nat) (cmp : nat → Z) : nat * bool :=
  let i := find_loop n cmp 0 n in (i, (i <? n)%nat && (cmp i =? 0)).

(** The comparison both callers pass: [uint64Cmp(nonce, pending[i].Nonce)]. *)
Definition nonce_cmp (nonce : Z) (pending : list PendingTx) (i : nat) : Z :=
  uint64Cmp nonce (default 0 (Nonce <$> pending !! i)).

Definition find_nonce (nonce : Z) (pending : list PendingTx) : nat * bool :=
  sort_Find (length pending) (nonce_cmp nonce pending).

(** ** [slices.SortStableFunc] by nonce *)

Fixpoint insert_tx (x : PendingTx) (l : list PendingTx) : list PendingTx :=
  match l with
  | [] => [x]
  | y :: l' => if Nonce x <=? Nonce y then x :: y :: l' else y :: insert_tx x l'
  end.
Definition sort_stable (l : list PendingTx) : list PendingTx := foldr insert_tx [] l.

(** ** The operations *)

(** The loop of [CalculateNextNonce] runs over [uint64]; every round but the
    last finds another pending nonce, so one round more than there are pending
    transactions is enough. *)
Fixpoint next_nonce_loop (rounds : nat) (pending : list PendingTx) (nextNonce : Z) : option Z :=
  match rounds with
  | O => None
  | S r =>
      if (find_nonce nextNonce pending).2
      then next_nonce_loop r pending (u64 (nextNonce + 1))
      else Some nextNonce
  end.

(** [nonce] is what [GetNonce] returns for the address; [None]: the loop has
    not ended after that many rounds. *)
Definition CalculateNextNonce (s : PendingState) (nonce : Z) (addr : Address) (includePending : bool)
    : option Z :=
  if negb includePending then Some nonce else
  let pending := default [] (pendingTxs s !! addr) in
  next_nonce_loop (S (length pending)) pending nonce.

(** The first pending transaction with the given nonce, and its position. *)
Fixpoint same_nonce (nonce : Z) (l : list PendingTx) (i : nat) : option (nat * PendingTx) :=
  match l with
  | [] => None
  | t :: l' => if Nonce t =? nonce then Some (i, t) else same_nonce nonce l' (S i)
  end.

Definition AddPendingNonce (key : TxKey) (addr : Address) (nonce priority : Z) (s : PendingState) : PendingState :=
  match keyToNonce s !! key with
  | Some _ => s
  | None =>
      let pending := default [] (pendingTxs s !! addr) in
      match same_nonce nonce pending 0 with
      | Some (i, t) =>
          if Priority t <? priority then
            mkPendingState
              (<[addr := <[i := mkPendingTx key (Nonce t) priority]> pending]> (pendingTxs s))
              (<[key := mkAddressNoncePair addr nonce]> (delete (Key t) (keyToNonce s)))
          else s
      | None =>
          mkPendingState
            (<[addr := sort_stable (pending ++ [mkPendingTx key nonce priority])]> (pendingTxs s))
            (<[key := mkAddressNoncePair addr nonce]> (keyToNonce s))
      end
  end.

Definition RemovePendingNonce (key : TxKey) (s : PendingState) : PendingState :=
  match keyToNonce s !! key with
  | None => s
  | Some tx =>
      let k2n := delete key (keyToNonce s) in
      let addr := anp_Address tx in
      let pendings := default [] (pendingTxs s !! addr) in
      let '(firstMatch, found) := find_nonce (anp_Nonce tx) pendings in
      if negb found then mkPendingState (pendingTxs s) k2n else
      let rest := take firstMatch pendings ++ drop (S firstMatch) pendings in
      mkPendingState
        (if bool_decide (rest = []) then delete addr (pendingTxs s) else <[addr := rest]> (pendingTxs s))
        k2n
  end.

(** ** What the tracker stands for *)

(** The calls that change it. *)
Inductive pend_op : Type :=
| Add (key : TxKey) (addr : Address) (nonce priority : Z)
| Remove (key : TxKey).

Definition pend_step (s : PendingState) (op : pend_op) : PendingState :=
  match op with
  | Add k a n p => AddPendingNonce k a n p s
  | Remove k => RemovePendingNonce k s
  end.

Definition op_wf (op : pend_op) : Prop := match op with Add _ _ n _ => is_u64 n | Remove _ => True end.

Definition pending_of (s : PendingState) (a : Address) : list PendingTx := default [] (pendingTxs s !! a).
Definition nonces_of (s : PendingState) (a : Address) : list Z := Nonce <$> pending_of s a.

(** Lists are kept sorted without duplicates and never empty, and the index
    holds exactly the listed transactions. *)
Record pend_wf (s : PendingState) : Prop := {
  pw_nonempty : ∀ a, pendingTxs s !! a ≠ Some [];
  pw_sorted : ∀ a, StronglySorted Z.lt (nonces_of s a);
  pw_range : ∀ a, Forall is_u64 (nonces_of s a);
  pw_index : ∀ k a n,
    keyToNonce s !! k = Some (mkAddressNoncePair a n) ↔
    ∃ t, t ∈ pending_of s a ∧ Key t = k ∧ Nonce t = n
}.

(** * Lemmas *)

(** ** The binary search *)

(** [r] splits the list at [x]. *)
Definition splits_at (ns : list Z) (x : Z) (r : nat) : Prop :=
  (∀ k v, (k < r)%nat → ns !! k = Some v → v < x) ∧ (∀ k v, (r ≤ k)%nat → ns !! k = Some v → x ≤ v).

Lemma sorted_lookup (ns : list Z) i j a b :
  StronglySorted Z.lt ns → (i < j)%nat → ns !! i = Some a → ns !! j = Some b → a < b.
Proof.
  intros Hs. revert i j. induction Hs as [|x l Hs IH Hx]; intros i j Hij Hi Hj; [done|].
  destruct j as [|j]; [lia|]. simpl in Hj. destruct i as [|i]; simpl in Hi.
  - simplify_eq. by eapply Forall_lookup_1 in Hx.
  - eapply (IH i j); eauto. lia.
Qed.

Lemma uint64Cmp_pos a b : (0 <? uint64Cmp a b) = (b <? a).
Proof.
  unfold uint64Cmp. destruct (Z.ltb_spec a b), (Z.eqb_spec a b), (Z.ltb_spec b a); simpl; lia.
Qed.
Lemma uint64Cmp_zero a b : (uint64Cmp a b =? 0) = (a =? b).
Proof. unfold uint64Cmp. destruct (Z.ltb_spec a b), (Z.eqb_spec a b); simpl; lia. Qed.

Lemma find_loop_spec rounds (ns : list Z) x i j :
  StronglySorted Z.lt ns → (j - i ≤ rounds)%nat → (i ≤ j ≤ length ns)%nat →
  (∀ k v, (k < i)%nat → ns !! k = Some v → v < x) →
  (∀ k v, (j ≤ k)%nat → ns !! k = Some v → x ≤ v) →
  let r := find_loop rounds (λ h, uint64Cmp x (default 0 (ns !! h))) i j in
  (r ≤ length ns)%nat ∧ splits_at ns x r.
Proof.
  intros Hs. revert i j. induction rounds as [|rounds IH]; intros i j Hr Hij Hlo Hhi; simpl.
  - assert (i = j) by lia. subst. split; [lia|done].
  - destruct (Nat.ltb_spec i j) as [Hlt|Hge]; [|assert (i = j) by lia; subst; split; [lia|done]].
    assert (Hh : (i ≤ Nat.div2 (i + j) < j)%nat) by (rewrite Nat.div2_div; pose proof (Nat.div_mod (i + j) 2); pose proof (Nat.mod_upper_bound (i + j) 2); lia).
    set (h := Nat.div2 (i + j)) in *.
    destruct (lookup_lt_is_Some_2 ns h ltac:(lia)) as [v Hv]. rewrite Hv. simpl.
    rewrite uint64Cmp_pos. destruct (Z.ltb_spec v x) as [Hvx|Hvx].
    + apply IH; [lia|lia| |done]. intros k w Hk Hw. destruct (decide (k = h)) as [->|Hne]; [congruence|].
      pose proof (sorted_lookup ns k h w v Hs ltac:(lia) Hw Hv). lia.
    + apply IH; [lia|lia|done|]. intros k w Hk Hw. destruct (decide (k = h)) as [->|Hne].
      * assert (w = v) by congruence. lia.
      * pose proof (sorted_lookup ns h k v w Hs ltac:(lia) Hv Hw). lia.
Qed.

Lemma find_loop_ext rounds f g i j :
  (∀ h, f h = g h) → find_loop rounds f i j = find_loop rounds g i j.
Proof.
  intros H. revert i j. induction rounds as [|r IH]; intros i j; simpl; [done|]. rewrite H, !IH. done.
Qed.

(** The search on a sorted list finds exactly what is there. *)
Lemma find_nonce_spec x (l : list PendingTx) :
  StronglySorted Z.lt (Nonce <$> l) →
  (∃ r, find_nonce x l = (r, true) ∧ (Nonce <$> l) !! r = Some x) ∨
  (∃ r, find_nonce x l = (r, false) ∧ x ∉ (Nonce <$> l)).
Proof.
  intros Hs. unfold find_nonce, sort_Find.
  rewrite (find_loop_ext _ _ (λ h, uint64Cmp x (default 0 ((Nonce <$> l) !! h))))
    by (intros h; unfold nonce_cmp; by rewrite list_lookup_fmap).
  rewrite <- (length_fmap Nonce l).
  destruct (find_loop_spec (length (Nonce <$> l)) (Nonce <$> l) x 0 (length (Nonce <$> l)) Hs)
    as [Hle [Hlo Hhi]]; [lia|lia|lia|intros k v Hk Hv; apply lookup_lt_Some in Hv; lia|].
  set (r := find_loop _ _ _ _) in *.
  unfold nonce_cmp. rewrite uint64Cmp_zero, <- list_lookup_fmap.
  destruct (Nat.ltb_spec r (length (Nonce <$> l))) as [Hlt|Hge]; simpl.
  - destruct (lookup_lt_is_Some_2 _ _ Hlt) as [v Hv]. rewrite Hv. simpl.
    destruct (Z.eqb_spec x v) as [->|Hne]; [left; by exists r|right]. exists r. split; [done|].
    intros Hin. apply list_elem_of_lookup in Hin as [k Hk].
    destruct (decide (k < r)%nat) as [Hkr|Hkr]; [specialize (Hlo k x Hkr Hk); lia|].
    destruct (decide (k = r)) as [->|Hkn]; [congruence|].
    pose proof (sorted_lookup _ r k v x Hs ltac:(lia) Hv Hk). specialize (Hhi r v ltac:(lia) Hv). lia.
  - right. exists r. split; [done|]. intros Hin. apply list_elem_of_lookup in Hin as [k Hk].
    pose proof (lookup_lt_Some _ _ _ Hk). specialize (Hlo k x ltac:(lia) Hk). lia.
Qed.

Lemma find_nonce_found x l :
  StronglySorted Z.lt (Nonce <$> l) → (find_nonce x l).2 = bool_decide (x ∈ (Nonce <$> l)).
Proof.
  intros Hs. destruct (find_nonce_spec x l Hs) as [(r & -> & Hr)|(r & -> & Hn)]; simpl.
  - rewrite bool_decide_true; [done|]. by eapply list_elem_of_lookup_2.
  - by rewrite bool_decide_false.
Qed.

(** ** Sorting *)

Lemma insert_tx_perm x l : insert_tx x l ≡ₚ x :: l.
Proof.
  induction l as [|y l IH]; simpl; [done|]. destruct (_ <=? _); [done|]. rewrite IH. apply Permutation_swap.
Qed.

Lemma insert_tx_sorted x l :
  StronglySorted Z.lt (Nonce <$> l) → Nonce x ∉ (Nonce <$> l) →
  StronglySorted Z.lt (Nonce <$> insert_tx x l).
Proof.
  induction l as [|y l IH]; intros Hs Hn; simpl.
  - repeat constructor.
  - simpl in Hs. apply StronglySorted_inv in Hs as [Hs Hy]. rewrite fmap_cons, not_elem_of_cons in Hn.
    destruct Hn as [Hne Hn]. destruct (Z.leb_spec (Nonce x) (Nonce y)).
    + assert (Hlt : Nonce x < Nonce y) by lia.
      simpl. constructor; [by constructor|]. constructor; [done|].
      eapply Forall_impl; [exact Hy|]. intros z Hz. simpl in Hz. lia.
    + simpl. constructor; [by apply IH|].
      rewrite (insert_tx_perm x l). simpl. constructor; [lia|done].
Qed.

(** Sorting a sorted list with one new element appended is an insertion. *)
Lemma sort_stable_snoc l x :
  StronglySorted Z.lt (Nonce <$> l) → Nonce x ∉ (Nonce <$> l) →
  StronglySorted Z.lt (Nonce <$> sort_stable (l ++ [x])) ∧ sort_stable (l ++ [x]) ≡ₚ x :: l.
Proof.
  unfold sort_stable. rewrite foldr_app. simpl. induction l as [|y l IH]; intros Hs Hn; simpl.
  - split; [repeat constructor|done].
  - simpl in Hs. apply StronglySorted_inv in Hs as [Hs Hy]. rewrite fmap_cons, not_elem_of_cons in Hn.
    destruct Hn as [Hne Hn]. destruct (IH Hs Hn) as [IH1 IH2]. split.
    + apply insert_tx_sorted; [done|]. rewrite IH2. simpl. rewrite not_elem_of_cons. split; [done|].
      intros Hin. rewrite Forall_forall in Hy. specialize (Hy _ Hin). lia.
    + rewrite insert_tx_perm, IH2. apply Permutation_swap.
Qed.

(** ** Positions in a list *)

Lemma same_nonce_spec n l i0 :
  match same_nonce n l i0 with
  | Some (i, t) => ∃ j, i = (i0 + j)%nat ∧ l !! j = Some t ∧ Nonce t = n
  | None => n ∉ (Nonce <$> l)
  end.
Proof.
  revert i0. induction l as [|t l IH]; intros i0; simpl.
  - apply not_elem_of_nil.
  - destruct (Z.eqb_spec (Nonce t) n) as [<-|Hne].
    + exists 0%nat. split_and!; [lia|done|done].
    + specialize (IH (S i0)). destruct (same_nonce n l (S i0)) as [[i u]|].
      * destruct IH as (j & -> & Hj & Hn). exists (S j). split_and!; [lia|done|done].
      * rewrite not_elem_of_cons. split; [congruence|done].
Qed.

Lemma elem_of_insert_at (l : list PendingTx) i t t' u :
  l !! i = Some t → (u ∈ <[i := t']> l ↔ u = t' ∨ ∃ j, j ≠ i ∧ l !! j = Some u).
Proof.
  intros Hi. pose proof (lookup_lt_Some _ _ _ Hi) as Hlt. rewrite list_elem_of_lookup. split.
  - intros [j Hj]. destruct (decide (j = i)) as [->|Hne].
    + rewrite list_lookup_insert_eq in Hj by done. left. congruence.
    + rewrite list_lookup_insert_ne in Hj by done. right. by exists j.
  - intros [->|(j & Hne & Hj)].
    + exists i. by rewrite list_lookup_insert_eq.
    + exists j. by rewrite list_lookup_insert_ne.
Qed.

Lemma elem_of_remove_at (l : list PendingTx) i u :
  u ∈ take i l ++ drop (S i) l ↔ ∃ j, j ≠ i ∧ l !! j = Some u.
Proof.
  rewrite elem_of_app, !list_elem_of_lookup. split.
  - intros [[j Hj]|[j Hj]].
    + exists j. apply lookup_take_Some in Hj as [Hj ?]. split; [lia|done].
    + exists (S i + j)%nat. rewrite lookup_drop in Hj. split; [lia|done].
  - intros (j & Hne & Hj). destruct (decide (j < i)%nat) as [Hlt|Hge].
    + left. exists j. by rewrite lookup_take_lt.
    + right. exists (j - S i)%nat. rewrite lookup_drop. by replace (S i + (j - S i))%nat with j by lia.
Qed.

Lemma sorted_remove_at (l : list Z) i :
  StronglySorted Z.lt l → StronglySorted Z.lt (take i l ++ drop (S i) l).
Proof.
  revert i. induction l as [|x l IH]; intros i Hs; [by rewrite take_nil, drop_nil|].
  apply StronglySorted_inv in Hs as [Hs Hx]. destruct i as [|i]; simpl; [done|].
  constructor; [by apply IH|]. apply Forall_app. split; [by apply Forall_take|by apply Forall_drop].
Qed.

(** Nonces identify the transactions of a sender. *)
Lemma pend_wf_inj s a i j u v :
  pend_wf s → pending_of s a !! i = Some u → pending_of s a !! j = Some v → Nonce u = Nonce v → i = j.
Proof.
  intros Hwf Hi Hj Hn. pose proof (pw_sorted s Hwf a) as Hs. unfold nonces_of in Hs.
  assert (Hi' : (Nonce <$> pending_of s a) !! i = Some (Nonce u)) by (by rewrite list_lookup_fmap, Hi).
  assert (Hj' : (Nonce <$> pending_of s a) !! j = Some (Nonce v)) by (by rewrite list_lookup_fmap, Hj).
  destruct (Nat.lt_trichotomy i j) as [Hlt|[?|Hlt]]; [|done|].
  - pose proof (sorted_lookup _ _ _ _ _ Hs Hlt Hi' Hj'). lia.
  - pose proof (sorted_lookup _ _ _ _ _ Hs Hlt Hj' Hi'). lia.
Qed.

Lemma pending_of_insert s a b l k2n :
  pending_of (mkPendingState (<[a := l]> (pendingTxs s)) k2n) b = if decide (a = b) then l else pending_of s b.
Proof. unfold pending_of. simpl. rewrite lookup_insert. by case_decide. Qed.

(** ** The invariant *)

Lemma no_pending_wf : pend_wf no_pending.
Proof.
  split; unfold nonces_of, pending_of, no_pending; simpl.
  - intros a. by rewrite lookup_empty.
  - intros a. rewrite lookup_empty. constructor.
  - intros a. rewrite lookup_empty. constructor.
  - intros k a n. rewrite !lookup_empty. split; [done|]. intros (t & Ht & _). by apply elem_of_nil in Ht.
Qed.

(** A state whose list for one sender was replaced by a well-formed one. *)
Lemma pend_wf_update s addr l k2n :
  pend_wf s → l ≠ [] → StronglySorted Z.lt (Nonce <$> l) → Forall is_u64 (Nonce <$> l) →
  (∀ k a n, k2n !! k = Some (mkAddressNoncePair a n) ↔
     ∃ t, t ∈ (if decide (addr = a) then l else pending_of s a) ∧ Key t = k ∧ Nonce t = n) →
  pend_wf (mkPendingState (<[addr := l]> (pendingTxs s)) k2n).
Proof.
  intros Hwf Hl Hs Hr Hidx. split.
  - intros a. simpl. rewrite lookup_insert. case_decide; [congruence|by apply pw_nonempty].
  - intros a. unfold nonces_of. rewrite pending_of_insert. case_decide; [done|by apply pw_sorted].
  - intros a. unfold nonces_of. rewrite pending_of_insert. case_decide; [done|by apply pw_range].
  - intros k a n. simpl. rewrite pending_of_insert. apply Hidx.
Qed.

Lemma pend_wf_append s key addr nonce priority :
  pend_wf s → is_u64 nonce → keyToNonce s !! key = None → nonce ∉ nonces_of s addr →
  pend_wf (mkPendingState
    (<[addr := sort_stable (pending_of s addr ++ [mkPendingTx key nonce priority])]> (pendingTxs s))
    (<[key := mkAddressNoncePair addr nonce]> (keyToNonce s))).
Proof.
  intros Hwf Hn Hk Hnew.
  destruct (sort_stable_snoc (pending_of s addr) (mkPendingTx key nonce priority)) as [Hs Hp];
    [by apply pw_sorted|done|].
  assert (Hfresh : ∀ a t, t ∈ pending_of s a → Key t ≠ key).
  { intros a t Ht <-. assert (keyToNonce s !! Key t = Some (mkAddressNoncePair a (Nonce t))); [|congruence].
    apply (pw_index s Hwf). by exists t. }
  apply pend_wf_update; [done| |done| |].
  - intros E. rewrite E in Hp. symmetry in Hp. by apply Permutation_nil_r in Hp.
  - rewrite Hp. simpl. constructor; [done|by apply pw_range].
  - intros k a n. rewrite lookup_insert. case_decide as Hkk.
    + subst k. split.
      * intros [= <- <-]. exists (mkPendingTx key nonce priority). rewrite decide_True by done.
        rewrite Hp. split_and!; [by left|done|done].
      * intros (t & Ht & Hkt & Hnt). case_decide as Ha; [|by apply Hfresh in Ht].
        rewrite Hp in Ht. apply elem_of_cons in Ht as [->|Ht]; [by subst|by apply Hfresh in Ht].
    + rewrite (pw_index s Hwf). case_decide as Ha; [subst a|done]. setoid_rewrite Hp.
      setoid_rewrite elem_of_cons. naive_solver.
Qed.

Lemma pend_wf_replace s key addr priority i t :
  pend_wf s → keyToNonce s !! key = None → pending_of s addr !! i = Some t →
  pend_wf (mkPendingState
    (<[addr := <[i := mkPendingTx key (Nonce t) priority]> (pending_of s addr)]> (pendingTxs s))
    (<[key := mkAddressNoncePair addr (Nonce t)]> (delete (Key t) (keyToNonce s)))).
Proof.
  intros Hwf Hk Hi. set (t' := mkPendingTx key (Nonce t) priority).
  assert (Hns : Nonce <$> <[i := t']> (pending_of s addr) = nonces_of s addr).
  { unfold nonces_of. rewrite list_fmap_insert. apply list_insert_id. by rewrite list_lookup_fmap, Hi. }
  assert (Hin : ∀ a u, u ∈ pending_of s a → keyToNonce s !! Key u = Some (mkAddressNoncePair a (Nonce u))).
  { intros a u Hu. apply (pw_index s Hwf). by exists u. }
  pose proof (Hin _ _ (list_elem_of_lookup_2 _ _ _ Hi)) as Ht.
  apply pend_wf_update; [done| |by rewrite Hns; apply pw_sorted|by rewrite Hns; apply pw_range|].
  { intros E. apply (f_equal length) in E. rewrite length_insert in E. by destruct (pending_of s addr). }
  intros k a n. rewrite lookup_insert. case_decide as Hkk; [subst k|rewrite lookup_delete; case_decide as Hkt].
  - split.
    + intros [= <- <-]. exists t'. rewrite decide_True by done.
      split_and!; [|done|done]. eapply elem_of_insert_at; [done|by left].
    + intros (u & Hu & Hku & Hnu). case_decide as Ha.
      * subst a. apply (elem_of_insert_at _ _ _ t' _ Hi) in Hu as [->|(j & _ & Hj)]; [simpl in Hnu; congruence|].
        apply list_elem_of_lookup_2, Hin in Hj. congruence.
      * apply Hin in Hu. congruence.
  - subst k. split; [done|]. intros (u & Hu & Hku & Hnu). exfalso. case_decide as Ha.
    + subst a. apply (elem_of_insert_at _ _ _ t' _ Hi) in Hu as [->|(j & Hne & Hj)]; [simpl in Hku; congruence|].
      pose proof (Hin _ _ (list_elem_of_lookup_2 _ _ _ Hj)) as Hu.
      apply Hne. eapply pend_wf_inj; [done..|]. congruence.
    + apply Hin in Hu. congruence.
  - rewrite (pw_index s Hwf). case_decide as Ha; [subst a|done].
    setoid_rewrite (λ u, elem_of_insert_at _ _ _ t' u Hi). split.
    + intros (u & Hu & Hku & Hnu). exists u. split_and!; [|done|done]. right.
      apply list_elem_of_lookup in Hu as [j Hj]. exists j. split; [congruence|done].
    + intros (u & [->|(j & _ & Hj)] & Hku & Hnu); [by simpl in Hku|]. exists u.
      split_and!; [by eapply list_elem_of_lookup_2|done|done].
Qed.

Lemma AddPendingNonce_wf key addr nonce priority s :
  is_u64 nonce → pend_wf s → pend_wf (AddPendingNonce key addr nonce priority s).
Proof.
  intros Hn Hwf. unfold AddPendingNonce. destruct (keyToNonce s !! key) eqn:Hk; [done|].
  fold (pending_of s addr). pose proof (same_nonce_spec nonce (pending_of s addr) 0) as Hs.
  destruct (same_nonce nonce (pending_of s addr) 0) as [[i t]|].
  - destruct Hs as (j & -> & Hj & <-). destruct (_ <? _); [|done]. by apply pend_wf_replace.
  - by apply pend_wf_append.
Qed.

(** What [RemovePendingNonce] finds for a tracked key. *)
Lemma remove_finds s key a n :
  pend_wf s → keyToNonce s !! key = Some (mkAddressNoncePair a n) →
  ∃ r t, find_nonce n (pending_of s a) = (r, true) ∧ pending_of s a !! r = Some t ∧ Key t = key ∧ Nonce t = n.
Proof.
  intros Hwf Hk. apply (pw_index s Hwf) in Hk as (t & Ht & Hkt & Hnt).
  apply list_elem_of_lookup in Ht as [j Hj].
  destruct (find_nonce_spec n (pending_of s a) (pw_sorted s Hwf a)) as [(r & Hf & Hr)|(r & _ & Hno)].
  - rewrite list_lookup_fmap in Hr. destruct (pending_of s a !! r) as [u|] eqn:Hu; [|done].
    injection Hr as Hun. exists r, u. assert (r = j) as -> by (eapply pend_wf_inj; eauto; congruence).
    split_and!; [done|done|congruence|congruence].
  - destruct Hno. rewrite <- Hnt. by apply list_elem_of_fmap_2, (list_elem_of_lookup_2 _ j).
Qed.

Lemma RemovePendingNonce_wf key s : pend_wf s → pend_wf (RemovePendingNonce key s).
Proof.
  intros Hwf. unfold RemovePendingNonce. destruct (keyToNonce s !! key) as [[a n]|] eqn:Hk; [|done].
  cbn [anp_Address anp_Nonce]. fold (pending_of s a). destruct (remove_finds s key a n Hwf Hk) as (r & t & -> & Hr & Hkt & Hnt). simpl.
  set (rest := take r (pending_of s a) ++ drop (S r) (pending_of s a)).
  set (m := if bool_decide (rest = []) then delete a (pendingTxs s) else <[a := rest]> (pendingTxs s)).
  assert (Hm : ∀ b, pending_of (mkPendingState m (delete key (keyToNonce s))) b =
    if decide (a = b) then rest else pending_of s b).
  { intros b. unfold pending_of, m. simpl. case_bool_decide as Hb.
    - rewrite lookup_delete. case_decide; [by rewrite Hb|done].
    - rewrite lookup_insert. by case_decide. }
  assert (Hns : Nonce <$> rest = take r (nonces_of s a) ++ drop (S r) (nonces_of s a))
    by (unfold rest, nonces_of; by rewrite fmap_app, fmap_take, fmap_drop).
  split.
  - intros b. unfold m. simpl. case_bool_decide; rewrite ?lookup_delete, ?lookup_insert; case_decide;
      try congruence; by apply pw_nonempty.
  - intros b. unfold nonces_of. rewrite Hm. case_decide; [|by apply pw_sorted].
    rewrite Hns. by apply sorted_remove_at, pw_sorted.
  - intros b. unfold nonces_of. rewrite Hm. case_decide; [|by apply pw_range].
    rewrite Hns. apply Forall_app; split; [apply Forall_take|apply Forall_drop]; by apply pw_range.
  - intros k b n'. rewrite Hm. simpl. rewrite lookup_delete. case_decide as Hkk.
    + subst k. split; [done|]. intros (u & Hu & Hku & Hnu). exfalso. case_decide as Hab.
      * subst b. apply elem_of_remove_at in Hu as (j & Hne & Hj). apply Hne.
        eapply pend_wf_inj; [done|exact Hj|exact Hr|].
        assert (keyToNonce s !! Key u = Some (mkAddressNoncePair a (Nonce u)))
          by (apply (pw_index s Hwf); exists u; split_and!; [by eapply list_elem_of_lookup_2|done|done]).
        congruence.
      * assert (keyToNonce s !! Key u = Some (mkAddressNoncePair b (Nonce u)))
          by (apply (pw_index s Hwf); by exists u). congruence.
    + rewrite (pw_index s Hwf). case_decide as Hab; [subst b|done].
      unfold rest. setoid_rewrite elem_of_remove_at. split.
      * intros (u & Hu & Hku & Hnu). apply list_elem_of_lookup in Hu as [j Hj].
        exists u. split_and!; [|done|done]. exists j. split; [congruence|done].
      * intros (u & (j & _ & Hj) & Hku & Hnu). exists u. split_and!; [by eapply list_elem_of_lookup_2|done|done].
Qed.

(** ** The next nonce *)

(** The loop stops at the first free nonce, wrapping around at [2^64]; [m]
    bounds the number of pending nonces still ahead. *)
Lemma next_nonce_loop_spec rounds pending n :
  StronglySorted Z.lt (Nonce <$> pending) → is_u64 n →
  (∃ k, (k < rounds)%nat ∧ u64 (n + Z.of_nat k) ∉ (Nonce <$> pending)) →
  ∃ k, (k < rounds)%nat ∧ next_nonce_loop rounds pending n = Some (u64 (n + Z.of_nat k)) ∧
    (u64 (n + Z.of_nat k) ∉ (Nonce <$> pending)) ∧
    ∀ j, (j < k)%nat → u64 (n + Z.of_nat j) ∈ (Nonce <$> pending).
Proof.
  intros Hs. revert n. induction rounds as [|rounds IH]; intros n Hn (k & Hk & Hfree); [lia|].
  cbn [next_nonce_loop]. rewrite find_nonce_found by done. case_bool_decide as Hin.
  - destruct k as [|k]; [rewrite Z.add_0_r, u64_id in Hfree by done; contradiction|].
    assert (Hshift : ∀ i : nat, u64 (u64 (n + 1) + Z.of_nat i) = u64 (n + Z.of_nat (S i))).
    { intros i. unfold u64. rewrite Zplus_mod_idemp_l. f_equal. lia. }
    destruct (IH (u64 (n + 1)) (u64_range _)) as (j & Hj & Hrun & Hfj & Hbelow).
    { exists k. rewrite Hshift. split; [lia|done]. }
    exists (S j). rewrite Hshift in Hrun, Hfj. split_and!; [lia|done|done|].
    intros [|i] Hi; [by rewrite Z.add_0_r, u64_id|]. rewrite <- Hshift. apply Hbelow. lia.
  - exists 0%nat. rewrite Z.add_0_r, u64_id by done. split_and!; [lia|done|done|lia].
Qed.

(** Among one more nonces than there are pending ones, one is free. *)
Lemma free_nonce_exists (ns : list Z) n :
  (Z.of_nat (length ns) < two64) →
  ∃ k, (k < S (length ns))%nat ∧ u64 (n + Z.of_nat k) ∉ ns.
Proof.
  intros Hlen. set (cands := (λ k : nat, u64 (n + Z.of_nat k)) <$> seq 0 (S (length ns))).
  destruct (decide (Forall (λ x, x ∈ ns) cands)) as [Hall|Hex].
  - exfalso. assert (Hnd : NoDup cands).
    { apply NoDup_fmap_2_strong; [|apply NoDup_seq]. intros i j Hi Hj E.
      apply elem_of_seq in Hi, Hj. unfold u64 in E.
      pose proof (Z.div_mod (n + Z.of_nat i) two64 ltac:(done)).
      pose proof (Z.div_mod (n + Z.of_nat j) two64 ltac:(done)). unfold two64 in *. nia. }
    assert (Hsub : cands ⊆+ ns) by (apply NoDup_submseteq; [done|by rewrite Forall_forall in Hall]).
    apply submseteq_length in Hsub. unfold cands in Hsub. rewrite length_fmap, length_seq in Hsub. lia.
  - apply not_Forall_Exists in Hex; [|intros x; apply _]. apply Exists_exists in Hex as (x & Hx & Hnx).
    apply list_elem_of_fmap in Hx as (k & -> & Hk). apply elem_of_seq in Hk. exists k. split; [lia|done].
Qed.

Lemma foldl_pend_wf ops s : Forall op_wf ops → pend_wf s → pend_wf (foldl pend_step s ops).
Proof.
  intros Hops. revert s. induction Hops as [|op ops Hop _ IH]; intros s Hs; simpl; [done|]. apply IH.
  destruct op; [by apply AddPendingNonce_wf|by apply RemovePendingNonce_wf].
Qed.

(** What [CalculateNextNonce] returns: the first free nonce, after at most as many
    steps as there are pending nonces. *)
Lemma first_free_nonce (s : PendingState) (nonce : Z) (addr : Address) :
  pend_wf s → is_u64 nonce → Z.of_nat (length (pending_of s addr)) < two64 →
  ∃ k, (k ≤ length (pending_of s addr))%nat ∧ CalculateNextNonce s nonce addr true = Some (u64 (nonce + Z.of_nat k)) ∧
    (u64 (nonce + Z.of_nat k) ∉ nonces_of s addr) ∧
    ∀ j, (j < k)%nat → u64 (nonce + Z.of_nat j) ∈ nonces_of s addr.
Proof.
  intros Hwf Hn Hlen. unfold CalculateNextNonce. simpl negb. fold (pending_of s addr).
  destruct (next_nonce_loop_spec (S (length (pending_of s addr))) (pending_of s addr) nonce) as
    (k & Hk & H1 & H2 & H3); [by apply pw_sorted|done| |].
  - rewrite <- (length_fmap Nonce). apply free_nonce_exists. by rewrite length_fmap.
  - exists k. split_and!; [lia|done..].
Qed.

(** * Theorems *)

(** The pending-nonce tracker is consistent after every sequence of
    additions and removals: each sender's list is sorted without duplicates and
    is never left empty, and the index maps a transaction key to a sender and
    nonce exactly when that sender's list has that transaction. *)
Theorem pending_consistent (ops : list pend_op) :
  Forall op_wf ops → pend_wf (foldl pend_step no_pending ops).
Proof.
  intros Hops. by apply foldl_pend_wf, no_pending_wf.
Qed.

(** [CalculateNextNonce] terminates and returns the first nonce, counting up
    from the on-chain nonce modulo 2^64, that no pending transaction of the
    sender uses. *)
Theorem CalculateNextNonce_first_free (s : PendingState) (nonce : Z) (addr : Address) :
  pend_wf s → is_u64 nonce → Z.of_nat (length (pending_of s addr)) < two64 →
  ∃ k, CalculateNextNonce s nonce addr true = Some (u64 (nonce + Z.of_nat k)) ∧
    (u64 (nonce + Z.of_nat k) ∉ nonces_of s addr) ∧
    ∀ j, (j < k)%nat → u64 (nonce + Z.of_nat j) ∈ nonces_of s addr.
Proof.
  intros Hwf Hn Hlen. destruct (first_free_nonce s nonce addr Hwf Hn Hlen) as (k & _ & H). by exists k.
Qed.

(** Removing a tracked transaction frees exactly its nonce: the sender's
    other nonces stay, other senders are untouched, and the key is no longer
    known. *)
Theorem RemovePendingNonce_frees (s : PendingState) (key : TxKey) (a : Address) (n : Z) :
  pend_wf s → keyToNonce s !! key = Some (mkAddressNoncePair a n) →
  let s' := RemovePendingNonce key s in
  (∀ m, m ∈ nonces_of s' a ↔ m ∈ nonces_of s a ∧ m ≠ n) ∧
  (∀ b, b ≠ a → pending_of s' b = pending_of s b) ∧
  keyToNonce s' !! key = None.
Proof.
  intros Hwf Hk. cbv zeta. unfold RemovePendingNonce. rewrite Hk. cbn [anp_Address anp_Nonce]. fold (pending_of s a).
  destruct (remove_finds s key a n Hwf Hk) as (r & t & -> & Hr & _ & Hnt). simpl.
  set (rest := take r (pending_of s a) ++ drop (S r) (pending_of s a)). split_and!.
  - intros m. unfold nonces_of at 1, pending_of at 1. simpl.
    assert (default [] ((if bool_decide (rest = []) then delete a (pendingTxs s)
      else <[a := rest]> (pendingTxs s)) !! a) = rest) as ->.
    { case_bool_decide as Hb; [by rewrite lookup_delete_eq, Hb|by rewrite lookup_insert_eq]. }
    unfold rest, nonces_of. rewrite !list_elem_of_fmap. setoid_rewrite elem_of_remove_at. split.
    + intros (u & -> & j & Hne & Hj). split; [exists u; split; [done|by eapply list_elem_of_lookup_2]|].
      intros E. apply Hne. eapply pend_wf_inj; [done|exact Hj|exact Hr|congruence].
    + intros [(u & -> & Hu) Hne]. apply list_elem_of_lookup in Hu as [j Hj]. exists u. split; [done|].
      exists j. split; [congruence|done].
  - intros b Hb. unfold pending_of. simpl. case_bool_decide.
    + by rewrite lookup_delete_ne.
    + by rewrite lookup_insert_ne.
  - apply lookup_delete_eq.
Qed.

(** Adding a transaction tracks exactly its nonce: a known key changes
    nothing; a fresh key for a free nonce adds that nonce to the sender's; for a
    taken nonce the list of nonces stays, and the new key takes the place of the
    old one exactly when its priority is higher.  Other senders are untouched. *)
Theorem AddPendingNonce_tracks (s : PendingState) (key : TxKey) (a : Address) (n priority : Z) :
  pend_wf s → is_u64 n →
  let s' := AddPendingNonce key a n priority s in
  (∀ b, b ≠ a → pending_of s' b = pending_of s b) ∧
  (is_Some (keyToNonce s !! key) → s' = s) ∧
  (keyToNonce s !! key = None →
    (∀ m, m ∈ nonces_of s' a ↔ m = n ∨ m ∈ nonces_of s a) ∧
    (n ∉ nonces_of s a → keyToNonce s' !! key = Some (mkAddressNoncePair a n)) ∧
    (∀ t, t ∈ pending_of s a → Nonce t = n →
       (Priority t < priority →
          keyToNonce s' !! key = Some (mkAddressNoncePair a n) ∧ keyToNonce s' !! Key t = None) ∧
       (priority ≤ Priority t → s' = s))).
Proof.
  intros Hwf Hn. cbv zeta. unfold AddPendingNonce.
  destruct (keyToNonce s !! key) as [p|] eqn:Hk; [by split_and!|].
  fold (pending_of s a). pose proof (same_nonce_spec n (pending_of s a) 0) as Hs.
  destruct (same_nonce n (pending_of s a) 0) as [[i t]|].
  - destruct Hs as (j & -> & Hj & <-). simpl Nat.add.
    assert (Hin : Nonce t ∈ nonces_of s a) by (by apply list_elem_of_fmap_2, (list_elem_of_lookup_2 _ j)).
    assert (Huniq : ∀ u, u ∈ pending_of s a → Nonce u = Nonce t → u = t).
    { intros u Hu Hnu. apply list_elem_of_lookup in Hu as [l Hl].
      assert (l = j) as -> by (by eapply pend_wf_inj). congruence. }
    destruct (Z.ltb_spec (Priority t) priority) as [Hlt|Hge].
    + split_and!; [intros b Hb; rewrite pending_of_insert; by rewrite decide_False| |intros _; split_and!].
      * intros [x Hx]. discriminate Hx.
      * intros m. unfold nonces_of at 1. rewrite pending_of_insert, decide_True by done.
        rewrite list_fmap_insert. simpl Nonce. rewrite list_insert_id by (by rewrite list_lookup_fmap, Hj).
        fold (nonces_of s a). naive_solver.
      * intros Hno. contradiction.
      * intros u Hu Hnu. rewrite (Huniq u Hu Hnu). simpl. rewrite lookup_insert_eq. split; [|lia].
        intros _. split; [done|].
        assert (Key t ≠ key).
        { intros E. assert (keyToNonce s !! Key t = Some (mkAddressNoncePair a (Nonce t)));
            [apply (pw_index s Hwf); exists t; by split_and!; [eapply list_elem_of_lookup_2|..]|congruence]. }
        rewrite lookup_insert_ne by done. apply lookup_delete_eq.
    + split_and!; [done|done|intros _; split_and!].
      * intros m. naive_solver.
      * intros Hno. contradiction.
      * intros u Hu Hnu. rewrite (Huniq u Hu Hnu). split; [lia|done].
  - split_and!; [intros b Hb; rewrite pending_of_insert; by rewrite decide_False| |intros _; split_and!].
    + intros [x Hx]. discriminate Hx.
    + intros m. unfold nonces_of at 1. rewrite pending_of_insert, decide_True by done.
      destruct (sort_stable_snoc (pending_of s a) (mkPendingTx key n priority)) as [_ Hp];
        [by apply pw_sorted|done|]. rewrite Hp. simpl. by rewrite elem_of_cons.
    + intros _. simpl. apply lookup_insert_eq.
    + intros t Ht Hnt. destruct Hs. rewrite <- Hnt. by apply list_elem_of_fmap_2.
Qed.

(** * Examples *)

Definition pend_example : PendingState :=
  foldl pend_step no_pending
    [Add (fit 32 [Byte.x01]) (fit 20 [Byte.xaa]) 5 10; Add (fit 32 [Byte.x02]) (fit 20 [Byte.xaa]) 3 10;
     Add (fit 32 [Byte.x03]) (fit 20 [Byte.xaa]) 4 10; Add (fit 32 [Byte.x04]) (fit 20 [Byte.xaa]) 4 20;
     Add (fit 32 [Byte.x05]) (fit 20 [Byte.xaa]) 8 1; Remove (fit 32 [Byte.x05])].

Lemma pend_example_wf : pend_wf pend_example.
Proof.
  unfold pend_example. apply foldl_pend_wf; [|apply no_pending_wf].
  repeat constructor; simpl; unfold is_u64, two64; lia.
Qed.

Lemma pending_consistent_witness : pend_wf pend_example.
Proof.
  apply (pending_consistent
    [Add (fit 32 [Byte.x01]) (fit 20 [Byte.xaa]) 5 10; Add (fit 32 [Byte.x02]) (fit 20 [Byte.xaa]) 3 10;
     Add (fit 32 [Byte.x03]) (fit 20 [Byte.xaa]) 4 10; Add (fit 32 [Byte.x04]) (fit 20 [Byte.xaa]) 4 20;
     Add (fit 32 [Byte.x05]) (fit 20 [Byte.xaa]) 8 1; Remove (fit 32 [Byte.x05])]).
  repeat constructor; simpl; unfold is_u64, two64; lia.
Defined.

(** Three pending nonces 3, 4, 5 from the on-chain nonce 3: the next is 6. *)
Lemma CalculateNextNonce_first_free_witness :
  CalculateNextNonce pend_example 3 (fit 20 [Byte.xaa]) true = Some 6 ∧
  ∃ k, CalculateNextNonce pend_example 3 (fit 20 [Byte.xaa]) true = Some (u64 (3 + Z.of_nat k)).
Proof.
  split; [vm_compute; reflexivity|].
  assert (Hn : is_u64 3) by (unfold is_u64, two64; lia).
  assert (Hl : Z.of_nat (length (pending_of pend_example (fit 20 [Byte.xaa]))) < two64) by (vm_compute; reflexivity).
  destruct (CalculateNextNonce_first_free _ _ _ pend_example_wf Hn Hl) as (k & H & _).
  exists k. exact H.
Defined.

Lemma RemovePendingNonce_frees_witness :
  keyToNonce (RemovePendingNonce (fit 32 [Byte.x02]) pend_example) !! (fit 32 [Byte.x02] : TxKey) = None.
Proof.
  assert (Hk : keyToNonce pend_example !! (fit 32 [Byte.x02] : TxKey) =
    Some (mkAddressNoncePair (fit 20 [Byte.xaa]) 3)) by (vm_compute; reflexivity).
  exact (proj2 (proj2 (RemovePendingNonce_frees _ _ _ _ pend_example_wf Hk))).
Defined.

Lemma AddPendingNonce_tracks_witness :
  is_Some (keyToNonce pend_example !! (fit 32 [Byte.x02] : TxKey)) ∧
  AddPendingNonce (fit 32 [Byte.x02]) (fit 20 [Byte.xaa]) 9 1 pend_example = pend_example.
Proof.
  assert (Hk : is_Some (keyToNonce pend_example !! (fit 32 [Byte.x02] : TxKey))) by (vm_compute; eauto).
  assert (Hn : is_u64 9) by (unfold is_u64, two64; lia).
  split; [exact Hk|].
  exact (proj1 (proj2 (AddPendingNonce_tracks pend_example (fit 32 [Byte.x02]) (fit 20 [Byte.xaa]) 9 1
    pend_example_wf Hn)) Hk).
Defined.
