(* ===== verification/Fee.v ===== *)
(** * The dynamic base fee (x/evm/keeper/fee.go, x/evm/keeper/params.go)

    At the end of each block the base fee for the next one is computed from the
    gas the block used, and the fee computed a block earlier becomes the current
    one. *)

From S2P Require Import Prelude Bytes Dec Store Params Keys World Instances.
Local Open Scope Z_scope.
Local Open Scope outcome_scope.

Section Fee.
Context {B A : Type} `{SD : SdkDec}.
Notation World := (World B A).

(** ** Parameters (params.go) *)

Definition GetParams (w : World) : Params := w_params w.
Definition SetParams (p : Params) (w : World) : World := set_params p w.
Definition GetPriorityNormalizer (w : World) : Dec := PriorityNormalizer (GetParams w).
Definition GetBaseFeePerGas (w : World) : Dec := BaseFeePerGas (GetParams w).
Definition GetMaxDynamicBaseFeeUpwardAdjustment (w : World) : Dec :=
  MaxDynamicBaseFeeUpwardAdjustment (GetParams w).
Definition GetMaxDynamicBaseFeeDownwardAdjustment (w : World) : Dec :=
  MaxDynamicBaseFeeDownwardAdjustment (GetParams w).
Definition GetMinimumFeePerGas (w : World) : Dec := MinimumFeePerGas (GetParams w).
Definition GetMaximumFeePerGas (w : World) : Dec := MaximumFeePerGas (GetParams w).
Definition GetTargetGasUsedPerBlock (w : World) : Z := TargetGasUsedPerBlock (GetParams w).
Definition GetDeliverTxHookWasmGasLimit (w : World) : Z := DeliverTxHookWasmGasLimit (GetParams w).

(** [gasLimitBigInt.Uint64()] is the low 64 bits of the absolute value. *)
Definition GetCosmosGasLimitFromEVMGas (w : World) (evmGas : Z) : outcome Z :=
  outcome_bind (dec_val (GetPriorityNormalizer w)) (λ gasMultipler,
  outcome_bind (dec_Mul (NewDec evmGas) gasMultipler) (λ gasLimit,
  let gasLimitBigInt := TruncateInt gasLimit in
  let gasLimitBigInt := if maxUint64 <? gasLimitBigInt then maxUint64 else gasLimitBigInt in
  Ret (u64 (Z.abs gasLimitBigInt)))).

(** ** Stored base fees (fee.go) *)

(** The value under one of the two keys, or the minimum fee. *)
Definition stored_base_fee (key : bytes) (w : World) : outcome Z :=
  match w_evm w !! key with
  | None =>
      match GetMinimumFeePerGas w with
      | Some minFeePerGas => Ret minFeePerGas
      | None => Ret DefaultMinFeePerGas
      end
  | Some bz =>
      match dec_UnmarshalJSON bz with
      | Some d => Ret d
      | None => Panic "invalid decimal"
      end
  end.

Definition GetCurrBaseFeePerGas : World → outcome Z := stored_base_fee BaseFeePerGasPrefix.
Definition GetNextBaseFeePerGas : World → outcome Z := stored_base_fee NextBaseFeePerGasPrefix.

Definition SetCurrBaseFeePerGas (baseFeePerGas : Z) (w : World) : World :=
  set_evm <[BaseFeePerGasPrefix := dec_MarshalJSON baseFeePerGas]> w.
Definition SetNextBaseFeePerGas (baseFeePerGas : Z) (w : World) : World :=
  set_evm <[NextBaseFeePerGasPrefix := dec_MarshalJSON baseFeePerGas]> w.

(** ** The adjustment *)

(** The new fee before it is clamped. *)
Definition raw_base_fee (w : World) (prevBaseFee targetGasUsed blockGasLimit blockGasUsedDec : Z) : outcome Z :=
  if targetGasUsed <? blockGasUsedDec then
    let* numerator := dec_Sub blockGasUsedDec targetGasUsed in
    let* denominator := dec_Sub blockGasLimit targetGasUsed in
    let* percentageFull := dec_Quo numerator denominator in
    let* adjustment := dec_val (GetMaxDynamicBaseFeeUpwardAdjustment w) in
    let* adjustmentFactor := dec_Mul adjustment percentageFull in
    let* factor := dec_Add (NewDec 1) adjustmentFactor in
    dec_Mul prevBaseFee factor
  else
    let* numerator := dec_Sub targetGasUsed blockGasUsedDec in
    let denominator := targetGasUsed in
    let* percentageEmpty := dec_Quo numerator denominator in
    let* adjustment := dec_val (GetMaxDynamicBaseFeeDownwardAdjustment w) in
    let* adjustmentFactor := dec_Mul adjustment percentageEmpty in
    let* factor := dec_Sub (NewDec 1) adjustmentFactor in
    dec_Mul prevBaseFee factor.

(** [maxGas] is [ConsensusParams().Block.MaxGas], when there is one. *)
Definition AdjustDynamicBaseFeePerGas (maxGas : option Z) (blockGasUsed : Z) (w : World)
    : outcome (option Z * World) :=
  match maxGas with
  | None => Ret (None, w)
  | Some maxGas =>
      let* prevBaseFee := GetNextBaseFeePerGas w in
      let w1 := SetCurrBaseFeePerGas prevBaseFee w in
      let targetGasUsed := NewDec (i64 (GetTargetGasUsedPerBlock w1)) in
      if targetGasUsed =? 0 then Ret (Some prevBaseFee, w1) else
      let blockGasLimit := NewDec maxGas in
      let blockGasUsedDec := NewDec (i64 blockGasUsed) in
      let blockGasUsedDec := if blockGasLimit <? blockGasUsedDec then blockGasLimit else blockGasUsedDec in
      let* newBaseFee := raw_base_fee w1 prevBaseFee targetGasUsed blockGasLimit blockGasUsedDec in
      let* minimumFeePerGas := dec_val (GetMinimumFeePerGas w1) in
      let newBaseFee := if newBaseFee <? minimumFeePerGas then minimumFeePerGas else newBaseFee in
      let* maximumFeePerGas := dec_val (GetMaximumFeePerGas w1) in
      let newBaseFee := if maximumFeePerGas <? newBaseFee then maximumFeePerGas else newBaseFee in
      Ret (Some newBaseFee, SetNextBaseFeePerGas newBaseFee w1)
  end.

(** The parameters of the fee, all of them set, and a positive target. *)
Record fee_params (p : Params) (mn mx up down : Z) : Prop := {
  fp_min : MinimumFeePerGas p = Some mn;
  fp_max : MaximumFeePerGas p = Some mx;
  fp_up : MaxDynamicBaseFeeUpwardAdjustment p = Some up;
  fp_down : MaxDynamicBaseFeeDownwardAdjustment p = Some down;
  fp_up_unit : 0 ≤ up ≤ dec_one;
  fp_down_unit : 0 ≤ down ≤ dec_one;
  fp_target : 0 < TargetGasUsedPerBlock p ≤ maxInt64
}.

(** The gas a block is charged for: at most the block's limit. *)
Definition charged_gas (maxGas blockGasUsed : Z) : Z := Z.min maxGas blockGasUsed.

(** Keep a value between two bounds, the upper one last. *)
Definition clamp (mn mx x : Z) : Z := Z.min mx (Z.max mn x).

(** A block as the fee sees it: the parameters, which governance may have changed
    before it, the gas limit and the gas used. *)
Record FeeBlock : Type := mkFeeBlock { fb_Params : Params; fb_MaxGas : option Z; fb_GasUsed : Z }.

(** The base fee over a sequence of blocks. *)
Fixpoint adjust_blocks (blocks : list FeeBlock) (w : World) : outcome World :=
  match blocks with
  | [] => Ret w
  | b :: rest =>
      let* r := AdjustDynamicBaseFeePerGas (fb_MaxGas b) (fb_GasUsed b) (SetParams (fb_Params b) w) in
      adjust_blocks rest r.2
  end.

End Fee.

Section FeeLemmas.
Context {B A : Type} `{SDL : SdkDecLaws}.
Notation World := (World B A).

Lemma NewDec_lt a b : (NewDec a <? NewDec b) = (a <? b).
Proof. unfold NewDec, dec_one. destruct (Z.ltb_spec a b); lia. Qed.

Lemma stored_set_same key f (w : World) :
  dec_fits f → stored_base_fee key (set_evm <[key := dec_MarshalJSON f]> w) = Ret f.
Proof. intros Hf. unfold stored_base_fee. simpl. by rewrite lookup_insert_eq, dec_JSON. Qed.

Lemma stored_set_other key key' f (w : World) :
  key ≠ key' →
  stored_base_fee key (set_evm <[key' := dec_MarshalJSON f]> w) = stored_base_fee key w.
Proof. intros Hne. unfold stored_base_fee. simpl. by rewrite lookup_insert_ne. Qed.

Lemma Adjust_stored f prev (w : World) : dec_fits f → dec_fits prev →
  GetNextBaseFeePerGas (SetNextBaseFeePerGas f (SetCurrBaseFeePerGas prev w)) = Ret f ∧
  GetCurrBaseFeePerGas (SetNextBaseFeePerGas f (SetCurrBaseFeePerGas prev w)) = Ret prev.
Proof.
  intros Hf Hp. unfold GetNextBaseFeePerGas, GetCurrBaseFeePerGas, SetNextBaseFeePerGas, SetCurrBaseFeePerGas. split.
  - by apply stored_set_same.
  - rewrite stored_set_other by done. by apply stored_set_same.
Qed.

(** ** Decimals of block gas fit *)

Lemma wide_fits d : Z.abs d < 2 ^ 255 → dec_fits d.
Proof.
  intros Hd. eapply Z.lt_le_trans; [exact Hd|]. apply Z.pow_le_mono_r; [lia|]. apply maxDecBitLen_wide.
Qed.
Lemma gas_fits d : Z.abs d ≤ 4 * NewDec two64 → dec_fits d.
Proof.
  intros Hd. apply wide_fits. eapply Z.le_lt_trans; [exact Hd|]. vm_compute. reflexivity.
Qed.
(** The fraction of the gas, and the adjustment made from it. *)
Lemma quo_fits a b k : 0 < b → 0 ≤ a ≤ k * b → 0 ≤ k ≤ 2 → dec_Quo a b = Ret (dec_quo a b) ∧ 0 ≤ dec_quo a b ≤ k * dec_one.
Proof.
  intros Hb Ha Hk. pose proof (dec_quo_close a b Hb) as Hq.
  assert (0 ≤ dec_quo a b ≤ k * dec_one) as Hr by (unfold dec_one in *; nia).
  unfold dec_Quo. destruct (Z.eqb_spec b 0); [lia|]. split; [|done]. apply dec_checked_fits, gas_fits.
  unfold NewDec, two64, dec_one in *. lia.
Qed.
Lemma adjustment_fits u q k : 0 ≤ u ≤ dec_one → 0 ≤ q ≤ k * dec_one → 0 ≤ k ≤ 2 →
  dec_Mul u q = Ret (dec_mul u q) ∧ 0 ≤ dec_mul u q ≤ q ∧ 2 * (dec_mul u q * dec_one) ≤ 2 * (u * q) + dec_one.
Proof.
  intros Hu Hq Hk. pose proof (dec_mul_nearest u q) as Hm.
  assert (0 ≤ dec_mul u q ≤ q) as Hr by (unfold dec_one in *; nia).
  split_and!; [|lia|lia|lia]. apply dec_checked_fits, gas_fits. unfold NewDec, two64, dec_one in *. lia.
Qed.
Lemma factor_fits p k m : 0 ≤ p ≤ m → Z.abs k ≤ 2 * dec_one → 2 * m < 2 ^ maxDecBitLen →
  dec_Mul p k = Ret (dec_mul p k) ∧ dec_fits (dec_mul p k).
Proof.
  intros Hp Hk Hm. assert (dec_fits (dec_mul p k)) as Hf; [|by split; [apply dec_checked_fits|]].
  apply (dec_fits_le _ (2 * m)); [|done]. pose proof (dec_mul_nearest p k). unfold dec_one in *. nia.
Qed.

(** ** How far the unclamped fee moves *)

Section Raw.
Variable (w : World) (mn mx up down target limit g prev m : Z).
Hypothesis Hp : fee_params (w_params w) mn mx up down.
Hypothesis Hprev : 0 ≤ prev ≤ m.
Hypothesis Hm : 2 * m < 2 ^ maxDecBitLen.
Hypothesis Ht : 0 < target ≤ maxInt64.
Hypothesis Hl : -1 ≤ limit ≤ maxInt64.
Hypothesis Hg : -1 ≤ g ≤ limit.
#[local] Notation raw := (raw_base_fee w prev (NewDec target) (NewDec limit) (NewDec g)).

Lemma NewDec_sub a b : NewDec a - NewDec b = NewDec (a - b).
Proof. unfold NewDec. lia. Qed.
Lemma sub_gas a b : -1 ≤ a ≤ maxInt64 → -1 ≤ b ≤ maxInt64 → dec_Sub (NewDec a) (NewDec b) = Ret (NewDec (a - b)).
Proof.
  intros Ha Hb. unfold dec_Sub. rewrite NewDec_sub. apply dec_checked_fits, gas_fits. unfold NewDec, maxInt64, two64, dec_one in *. lia.
Qed.

Lemma raw_up : target < g →
  ∃ x, raw = Ret x ∧ prev ≤ x ∧ 2 * (x * dec_one) ≤ 2 * (prev * (dec_one + up)) + dec_one.
Proof.
  intros Hlt. unfold raw_base_fee. rewrite NewDec_lt, (proj2 (Z.ltb_lt _ _) Hlt), !sub_gas by lia. cbn [outcome_bind].
  destruct (quo_fits (NewDec (g - target)) (NewDec (limit - target)) 1) as [-> Hq]; [unfold NewDec, dec_one; lia..|].
  set (q := dec_quo _ _) in *. unfold GetMaxDynamicBaseFeeUpwardAdjustment, GetParams. rewrite (fp_up _ _ _ _ _ Hp). cbn [outcome_bind dec_val].
  pose proof (fp_up_unit _ _ _ _ _ Hp) as Hu.
  destruct (adjustment_fits up q 1 Hu Hq ltac:(lia)) as (-> & Ha & Ha'). set (adj := dec_mul up q) in *. cbn [outcome_bind].
  assert (adj ≤ up) by (unfold dec_one in *; nia).
  unfold dec_Add. rewrite dec_checked_fits by (apply gas_fits; unfold NewDec, two64, dec_one in *; lia). cbn [outcome_bind].
  replace (NewDec 1) with dec_one by (unfold NewDec; lia).
  destruct (factor_fits prev (dec_one + adj) m) as [-> _]; [done|unfold dec_one in *; lia|done|].
  eexists. split; [done|]. split; [apply dec_mul_ge; lia|].
  pose proof (dec_mul_nearest prev (dec_one + adj)). unfold dec_one in *. nia.
Qed.

Lemma raw_down : g ≤ target →
  ∃ x, raw = Ret x ∧ x ≤ prev ∧ dec_fits x ∧
    (0 ≤ g → 0 ≤ x ∧ 2 * (prev * (dec_one - down)) ≤ 2 * (x * dec_one) + dec_one) ∧ (g = target → x = prev).
Proof.
  intros Hle. unfold raw_base_fee. rewrite NewDec_lt, (proj2 (Z.ltb_ge _ _) Hle), !sub_gas by lia. cbn [outcome_bind].
  destruct (quo_fits (NewDec (target - g)) (NewDec target) 2) as [-> Hq]; [unfold NewDec, dec_one; lia..|].
  assert (0 ≤ g → dec_quo (NewDec (target - g)) (NewDec target) ≤ dec_one) as Hq1.
  { intros. destruct (quo_fits (NewDec (target - g)) (NewDec target) 1) as [_ ?]; [unfold NewDec, dec_one; lia..|lia]. }
  assert (g = target → dec_quo (NewDec (target - g)) (NewDec target) = 0) as Hq0.
  { intros ->. rewrite Z.sub_diag. apply dec_quo_0. unfold NewDec, dec_one. lia. }
  set (q := dec_quo _ _) in *. unfold GetMaxDynamicBaseFeeDownwardAdjustment, GetParams. rewrite (fp_down _ _ _ _ _ Hp). cbn [outcome_bind dec_val].
  pose proof (fp_down_unit _ _ _ _ _ Hp) as Hd.
  destruct (adjustment_fits down q 2 Hd Hq ltac:(lia)) as (-> & Ha & Ha'). cbn [outcome_bind].
  assert (q = 0 → dec_mul down q = 0) as Hz by (intros ->; apply dec_mul_0_r). set (adj := dec_mul down q) in *.
  unfold dec_Sub. rewrite dec_checked_fits by (apply gas_fits; unfold NewDec, two64, dec_one in *; lia). cbn [outcome_bind].
  replace (NewDec 1) with dec_one by (unfold NewDec; lia).
  destruct (factor_fits prev (dec_one - adj) m) as [-> Hf]; [done|unfold dec_one in *; lia|done|].
  eexists. split; [done|]. split; [apply dec_mul_le; lia|]. split; [done|]. split.
  - intros H0. specialize (Hq1 H0). assert (adj ≤ down) by (unfold dec_one in *; nia).
    split; [apply dec_mul_nonneg; lia|]. pose proof (dec_mul_nearest prev (dec_one - adj)). unfold dec_one in *. nia.
  - intros E. rewrite (Hz (Hq0 E)), Z.sub_0_r. apply dec_mul_one_r.
Qed.

Lemma raw_returns : ∃ x, raw = Ret x.
Proof.
  destruct (Z.lt_ge_cases target g) as [Hg'|Hg']; [destruct (raw_up Hg') as (x & -> & _)|destruct (raw_down Hg') as (x & -> & _)]; by exists x.
Qed.
End Raw.

(** The adjustment, with the parameters and widths resolved. *)
Lemma Adjust_run (w : World) mn mx up down maxGas used prev m :
  fee_params (w_params w) mn mx up down → 0 ≤ used ≤ maxInt64 → -1 ≤ maxGas ≤ maxInt64 →
  GetNextBaseFeePerGas w = Ret prev → 0 ≤ prev ≤ m → 2 * m < 2 ^ maxDecBitLen →
  let w1 := SetCurrBaseFeePerGas prev w in
  ∃ x, raw_base_fee w1 prev (NewDec (TargetGasUsedPerBlock (w_params w))) (NewDec maxGas) (NewDec (charged_gas maxGas used)) = Ret x ∧
    AdjustDynamicBaseFeePerGas (Some maxGas) used w = Ret (Some (clamp mn mx x), SetNextBaseFeePerGas (clamp mn mx x) w1).
Proof.
  intros Hp Hused Hgas Hprev Hr Hm w1. pose proof (fp_target _ _ _ _ _ Hp) as Ht.
  destruct (raw_returns w1 mn mx up down (TargetGasUsedPerBlock (w_params w)) maxGas (charged_gas maxGas used) prev m) as [x Hx];
    [done..|unfold charged_gas; lia|]. exists x. split; [done|].
  unfold AdjustDynamicBaseFeePerGas. rewrite Hprev. cbn [outcome_bind]. fold w1.
  change (GetTargetGasUsedPerBlock w1) with (TargetGasUsedPerBlock (w_params w)).
  rewrite (i64_id (TargetGasUsedPerBlock _)), (i64_id used) by (unfold maxInt64 in *; lia).
  destruct (Z.eqb_spec (NewDec (TargetGasUsedPerBlock (w_params w))) 0) as [E|_]; [unfold NewDec, dec_one in E; lia|].
  rewrite NewDec_lt.
  assert ((if maxGas <? used then NewDec maxGas else NewDec used) = NewDec (charged_gas maxGas used)) as ->.
  { unfold charged_gas. destruct (Z.ltb_spec maxGas used); f_equal; lia. }
  rewrite Hx. cbn [outcome_bind]. unfold GetMinimumFeePerGas, GetMaximumFeePerGas, GetParams. cbn [w1 w_params set_evm SetCurrBaseFeePerGas].
  rewrite (fp_min _ _ _ _ _ Hp), (fp_max _ _ _ _ _ Hp). cbn [outcome_bind dec_val].
  assert ((if mx <? (if x <? mn then mn else x) then mx else if x <? mn then mn else x) = clamp mn mx x) as ->; [|done].
  unfold clamp. destruct (Z.ltb_spec x mn); [destruct (Z.ltb_spec mx mn)|destruct (Z.ltb_spec mx x)]; lia.
Qed.

(** * Theorems *)

(** The base fee moves in the direction of demand and by at most the
    configured proportion, up to rounding in the last place: a block above
    target raises it (or it is at the maximum), a block below target lowers it
    (or it is at the minimum), and a block exactly at target leaves it alone. *)
Theorem base_fee_direction (w : World) (mn mx up down maxGas used prev : Z) :
  fee_params (w_params w) mn mx up down → 0 ≤ used ≤ maxInt64 → 0 ≤ maxGas ≤ maxInt64 →
  GetNextBaseFeePerGas w = Ret prev → 0 ≤ mn ≤ prev → prev ≤ mx → 2 * mx < 2 ^ maxDecBitLen →
  let target := TargetGasUsedPerBlock (w_params w) in
  let g := charged_gas maxGas used in
  ∃ f w', AdjustDynamicBaseFeePerGas (Some maxGas) used w = Ret (Some f, w') ∧
    (target < g → prev ≤ f ∧ 2 * (f * dec_one) ≤ 2 * (prev * (dec_one + up)) + dec_one) ∧
    (g < target → f ≤ prev ∧ 2 * (prev * (dec_one - down)) ≤ 2 * (f * dec_one) + dec_one) ∧
    (g = target → f = prev).
Proof.
  intros Hp Hu Hl Hprev Hmn Hmx Hm. cbv zeta.
  destruct (Adjust_run w mn mx up down maxGas used prev mx) as (x & Hx & ->); [done..|lia|done|lia|done|].
  pose proof (fp_target _ _ _ _ _ Hp) as Ht.
  set (target := TargetGasUsedPerBlock (w_params w)) in *. set (g := charged_gas maxGas used) in *.
  assert (Hg : 0 ≤ g ≤ maxGas) by (unfold g, charged_gas; lia).
  eexists _, _. split; [reflexivity|]. unfold clamp.
  destruct (Z.lt_ge_cases target g) as [Hlt|Hge].
  - destruct (raw_up (SetCurrBaseFeePerGas prev w) mn mx up down target maxGas g prev mx) as (y & Hy & H1 & H2); [done|lia|done|lia..|].
    rewrite Hx in Hy. injection Hy as <-. assert (prev ≤ Z.min mx (Z.max mn x) ≤ x) by lia.
    set (f := Z.min _ _) in *. unfold dec_one in *. split_and!; lia.
  - destruct (raw_down (SetCurrBaseFeePerGas prev w) mn mx up down target maxGas g prev mx) as (y & Hy & H1 & _ & H2 & H3); [done|lia|done|lia..|].
    rewrite Hx in Hy. injection Hy as <-. destruct (H2 ltac:(lia)).
    split_and!; [lia| |intros E; rewrite (H3 E); lia]. intros _. assert (x ≤ Z.min mx (Z.max mn x) ≤ prev) by lia.
    set (f := Z.min _ _) in *. unfold dec_one in *. lia.
Qed.

(** Blocks whose parameters pass validation and whose fees are at most [m]. *)
Record fee_block (m : Z) (b : FeeBlock) : Prop := {
  fb_valid : Validate (fb_Params b) = Ret None;
  fb_fees : ∀ f, MinimumFeePerGas (fb_Params b) = Some f ∨ MaximumFeePerGas (fb_Params b) = Some f → f ≤ m;
  fb_target : 0 ≤ TargetGasUsedPerBlock (fb_Params b) ≤ maxInt64;
  fb_limit : ∀ g, fb_MaxGas b = Some g → -1 ≤ g ≤ maxInt64;
  fb_used : 0 ≤ fb_GasUsed b ≤ maxInt64
}.

Lemma valid_fee_params p : Validate p = Ret None → ∃ mn mx up down, 0 ≤ mn ∧ 0 ≤ mx ∧
  MinimumFeePerGas p = Some mn ∧ MaximumFeePerGas p = Some mx ∧
  (0 < TargetGasUsedPerBlock p ≤ maxInt64 → fee_params p mn mx up down).
Proof.
  intros (norm & base & mn & mx & up & down & Hok)%Validate_iff. exists mn, mx, up, down.
  destruct (ok_base _ _ _ _ _ _ _ Hok), (ok_max _ _ _ _ _ _ _ Hok), (ok_up _ _ _ _ _ _ _ Hok), (ok_down _ _ _ _ _ _ _ Hok).
  pose proof (ok_min _ _ _ _ _ _ _ Hok). split_and!; [lia|lia|done|done|]. intros Ht. by split.
Qed.

Lemma next_fee_params (p : Params) (w : World) prev m : GetNextBaseFeePerGas w = Ret prev → 0 ≤ prev ≤ m →
  Validate p = Ret None → (∀ f, MinimumFeePerGas p = Some f → f ≤ m) →
  ∃ prev', GetNextBaseFeePerGas (SetParams p w) = Ret prev' ∧ 0 ≤ prev' ≤ m.
Proof.
  intros Hn Hr (mn & mx & up & down & H1 & H2 & H3 & H4 & _)%valid_fee_params Hf. specialize (Hf mn H3).
  unfold GetNextBaseFeePerGas, stored_base_fee, SetParams, GetMinimumFeePerGas, GetParams in *. cbn [set_params w_evm w_params].
  destruct (w_evm w !! NextBaseFeePerGasPrefix) as [bz|]; [|rewrite H3; eexists; by split].
  rewrite Hn. by exists prev.
Qed.

(** One block: the fee computed a block earlier becomes the current one, and the
    next one is within its limits. *)
Record block_fees (m : Z) (b : FeeBlock) (w w' : World) (prev f : Z) : Prop := {
  bf_prev : GetNextBaseFeePerGas (SetParams (fb_Params b) w) = Ret prev;
  bf_next : GetNextBaseFeePerGas w' = Ret f;
  bf_range : 0 ≤ f ≤ m;
  bf_curr : fb_MaxGas b ≠ None → GetCurrBaseFeePerGas w' = Ret prev;
  bf_bounds : ∀ mn mx, fb_MaxGas b ≠ None → TargetGasUsedPerBlock (fb_Params b) ≠ 0 →
    MinimumFeePerGas (fb_Params b) = Some mn → MaximumFeePerGas (fb_Params b) = Some mx → f ≤ mx ∧ (mn ≤ f ∨ f = mx)
}.

Lemma block_adjusts m b (w : World) prev : 2 * m < 2 ^ maxDecBitLen → fee_block m b →
  GetNextBaseFeePerGas w = Ret prev → 0 ≤ prev ≤ m →
  ∃ r prev' f, AdjustDynamicBaseFeePerGas (fb_MaxGas b) (fb_GasUsed b) (SetParams (fb_Params b) w) = Ret r ∧ block_fees m b w r.2 prev' f.
Proof.
  intros Hm [Hv Hf Ht Hl Hu] Hn Hr.
  destruct (next_fee_params _ w prev m Hn Hr Hv ltac:(intros; apply Hf; by left)) as (prev' & Hn' & Hr').
  destruct (fb_MaxGas b) as [maxGas|] eqn:Hg; last first.
  { eexists _, prev', prev'. split; [reflexivity|]. by split. }
  assert (dec_fits prev') as Hfit by (apply (dec_fits_le _ m); lia).
  destruct (valid_fee_params _ Hv) as (mn & mx & up & down & Hmn0 & Hmx0 & Hmn & Hmx & Hp).
  destruct (Z.eq_dec (TargetGasUsedPerBlock (fb_Params b)) 0) as [Ez|Hz].
  - unfold AdjustDynamicBaseFeePerGas. rewrite Hn'. cbn [outcome_bind].
    change (GetTargetGasUsedPerBlock _) with (TargetGasUsedPerBlock (fb_Params b)). rewrite Ez. cbn [i64].
    eexists _, prev', prev'. split; [reflexivity|]. cbn [snd]. split; [done| |done| |done].
    + unfold GetNextBaseFeePerGas, SetCurrBaseFeePerGas. by rewrite stored_set_other.
    + intros _. by apply stored_set_same.
  - destruct (Adjust_run (SetParams (fb_Params b) w) mn mx up down maxGas (fb_GasUsed b) prev' m) as (x & _ & ->);
      [apply Hp; lia|done|by apply Hl|done..|].
    assert (0 ≤ clamp mn mx x ≤ m) as Hc by (pose proof (Hf mx ltac:(by right)); unfold clamp; lia).
    destruct (Adjust_stored (clamp mn mx x) prev' (SetParams (fb_Params b) w)) as [H1 H2]; [apply (dec_fits_le _ m); lia|done|].
    eexists _, prev', _. split; [reflexivity|]. cbn [snd]. split; [done|exact H1|done|by intros _|].
    intros mn' mx' _ _ E1 E2. rewrite Hmn in E1. rewrite Hmx in E2. simplify_eq. unfold clamp. lia.
Qed.

Lemma adjust_blocks_app l k (w : World) : adjust_blocks (l ++ k) w = (let* w' := adjust_blocks l w in adjust_blocks k w').
Proof.
  revert w. induction l as [|b l IH]; intros w; [done|]. cbn [adjust_blocks app].
  destruct (AdjustDynamicBaseFeePerGas _ _ _); [|done]. cbn [outcome_bind]. apply IH.
Qed.

Lemma adjust_blocks_returns m blocks (w : World) prev : 2 * m < 2 ^ maxDecBitLen → Forall (fee_block m) blocks →
  GetNextBaseFeePerGas w = Ret prev → 0 ≤ prev ≤ m →
  ∃ w' f, adjust_blocks blocks w = Ret w' ∧ GetNextBaseFeePerGas w' = Ret f ∧ 0 ≤ f ≤ m.
Proof.
  intros Hm Hb. revert w prev. induction Hb as [|b blocks Hb _ IH]; intros w prev Hn Hr; [by exists w, prev|].
  destruct (block_adjusts m b w prev Hm Hb Hn Hr) as (r & prev' & f & Hadj & Hf). cbn [adjust_blocks]. rewrite Hadj.
  eapply IH; apply Hf.
Qed.


(** With an unlimited block ([MaxGas = -1]) the charged gas is [-1] whatever the
    block used: the fee does not depend on the gas and only falls. *)
Lemma base_fee_unlimited_ignores_gas (w : World) (used used' : Z) :
  0 ≤ used ≤ maxInt64 → 0 ≤ used' ≤ maxInt64 →
  AdjustDynamicBaseFeePerGas (Some (-1)) used w = AdjustDynamicBaseFeePerGas (Some (-1)) used' w.
Proof.
  intros Hu Hu'. unfold AdjustDynamicBaseFeePerGas. rewrite !i64_id by (unfold maxInt64 in *; lia).
  by rewrite !NewDec_lt, !(proj2 (Z.ltb_lt _ _)) by lia.
Qed.

End FeeLemmas.

(** * Examples *)

Section FeeExamples.
#[local] Existing Instances half_even_dec half_even_dec_laws.

Lemma default_fee_params :
  fee_params DefaultParams (NewDec 1000000000) (NewDec 1000000000000) (NewDecWithPrec 189 4) (NewDecWithPrec 39 4).
Proof. split; vm_compute; intuition congruence. Qed.

Lemma base_fee_direction_witness :
  ∃ f w', AdjustDynamicBaseFeePerGas (Some 10000000) 9000000 demo_world0 = Ret (Some f, w') ∧
    NewDec 1000000000 ≤ f.
Proof.
  assert (Hu : 0 ≤ 9000000 ≤ maxInt64) by (unfold maxInt64; lia).
  assert (Hl : 0 ≤ 10000000 ≤ maxInt64) by (unfold maxInt64; lia).
  assert (Hn : GetNextBaseFeePerGas demo_world0 = Ret (NewDec 1000000000)) by (vm_compute; reflexivity).
  assert (Hm : 2 * NewDec 1000000000000 < 2 ^ maxDecBitLen) by (vm_compute; reflexivity).
  destruct (base_fee_direction demo_world0 _ _ _ _ 10000000 9000000 _ default_fee_params Hu Hl Hn) as (f & w' & H1 & H2 & _);
    [unfold NewDec, dec_one; lia..|exact Hm|].
  exists f, w'. split; [exact H1|]. apply H2. vm_compute. reflexivity.
Defined.

(** Three blocks; before the last one governance has set a maximum below the
    minimum, and the fee is pinned to it. *)
Definition low_maximum : Params :=
  mkParams (Some dec_one) (Some 0) (Some (NewDecWithPrec 189 4)) (Some (NewDecWithPrec 39 4)) (Some (NewDec 1000000000))
    300000 [] 250000 (Some (NewDec 5)) false.
Definition demo_fee_block (p : Params) (gas : Z) : FeeBlock := mkFeeBlock p (Some 10000000) gas.

Lemma demo_fee_block_ok p gas : p = DefaultParams ∨ p = low_maximum → 0 ≤ gas ≤ 10000000 →
  fee_block (NewDec 1000000000000) (demo_fee_block p gas).
Proof.
  intros Hp Hg. split; cbn [demo_fee_block fb_Params fb_MaxGas fb_GasUsed].
  - by destruct Hp as [-> | ->].
  - intros f Hf. assert (f ∈ [NewDec 1000000000; NewDec 1000000000000; NewDec 5]) as Hin.
    { destruct Hp as [-> | ->]; destruct Hf as [Hf|Hf]; injection Hf as <-; rewrite !elem_of_cons; auto. }
    rewrite !elem_of_cons, elem_of_nil in Hin. unfold NewDec, dec_one in *. lia.
  - unfold maxInt64. by destruct Hp as [-> | ->].
  - intros g [= <-]. unfold maxInt64. lia.
  - unfold maxInt64. lia.
Qed.
Lemma demo_fee_blocks : Forall (fee_block (NewDec 1000000000000))
  ([demo_fee_block DefaultParams 9000000; demo_fee_block DefaultParams 0] ++ [demo_fee_block low_maximum 250000]).
Proof. repeat apply Forall_cons_2; try apply Forall_nil_2; apply demo_fee_block_ok; lia || auto. Qed.


End FeeExamples.
