(* ===== verification/Block.v ===== *)
(** * The end of a block
    (x/evm/module.go, x/evm/keeper/{deferred,ante,log,tx}.go and the transient
    receipts of receipt.go)

    While a block runs, each EVM transaction leaves a deferred record (its bloom
    and surplus) and the ante handler leaves the surplus of the fees it charged.
    [EndBlock] adjusts the base fee, collects the fees of the transactions from
    their coinbase accounts, credits the surplus to the module account and
    stores the block's bloom. *)

From S2P Require Import Prelude Bytes Dec Store Params Keys World Keeper StateDB Fee Eth Instances.
From Stdlib Require Import Strings.Byte.
Local Open Scope Z_scope.

(** ** Data *)

Notation Bloom := (barray 256).

Record DeferredInfo : Type := mkDeferredInfo {
  di_TxIndex : Z;
  di_TxHash : bytes;
  di_TxBloom : bytes;
  di_Surplus : option Z;   (** [None] is the nil [sdk.Int] *)
  di_Error : string
}.

(** The log of a receipt; addresses and hashes in hexadecimal. *)
Record RLog : Type := mkRLog {
  rl_Address : string;
  rl_Topics : list string;
  rl_Data : bytes;
  rl_Index : Z;
  rl_Synthetic : bool
}.

Record Receipt : Type := mkReceipt {
  rc_TxType : Z;
  rc_CumulativeGasUsed : Z;
  rc_ContractAddress : string;
  rc_TxHashHex : string;
  rc_GasUsed : Z;
  rc_EffectiveGasPrice : Z;
  rc_BlockNumber : Z;
  rc_TransactionIndex : Z;
  rc_Status : Z;
  rc_From : string;
  rc_To : string;
  rc_VmError : string;
  rc_Logs : list RLog;
  rc_LogsBloom : bytes
}.

(** The receipt [EndBlock] stores for a transaction that failed before it ran. *)
Definition failed_receipt (txHashHex : string) (txIndex : Z) (vmError : string) (blockNumber : Z) : Receipt :=
  mkReceipt 0 0 "" txHashHex 0 0 blockNumber txIndex 0 "" "" vmError [] [].

(** The generated protobuf code, and the text codec of [sdk.Int].
    [Int_Unmarshal] is the value left in the receiver when the error is
    ignored. *)
Class Codec := {
  DeferredInfo_Marshal : DeferredInfo → bytes;
  DeferredInfo_Unmarshal : bytes → option DeferredInfo;
  Receipt_Marshal : Receipt → bytes;
  Receipt_Unmarshal : bytes → option Receipt;
  Int_Marshal : Z → bytes;
  Int_Unmarshal : bytes → option Z
}.

Class CodecLaws `{Codec} : Prop := {
  DeferredInfo_codec : ∀ d, is_Some (di_Surplus d) → DeferredInfo_Unmarshal (DeferredInfo_Marshal d) = Some d;
  Receipt_codec : ∀ r, Receipt_Unmarshal (Receipt_Marshal r) = Some r;
  Int_codec : ∀ z, Int_Unmarshal (Int_Marshal z) = Some z
}.

(** What the keeper remembers of the block's transactions: for each one the EVM
    message, if it is one, as the hash of its Ethereum transaction ([None] when
    [AsTransaction] gives nil), and the result's code, log and gas, and whether it
    says it was an EVM transaction. *)
Record EvmMsg : Type := mkEvmMsg { msg_txHash : option Hash }.
Record ExecTxResult : Type := mkExecTxResult { tr_Code : Z; tr_Log : string; tr_GasUsed : Z; tr_EvmTxInfo : bool }.

Section Block.
Context `{BK : BankKeeper B} `{AK : AccountKeeper A} `{EC : EthCrypto} `{KC : KeeperConfig}.
Context `{CD : Codec} `{EH : EthHex} `{SD : SdkDec}.
Context `{MST : MultiStore MS (World B A)}.
Notation World := (World B A).
Notation Ctx := (Ctx MS).

(** ** The ante handler's surplus (ante.go) *)

Definition AddAnteSurplus (txHash : Hash) (surplus : Z) (w : World) : World :=
  set_transient (prefix_set AnteSurplusPrefix (ba txHash) (Int_Marshal surplus)) w.

(** Adding a nil [sdk.Int] is a run-time error. *)
Fixpoint sum_ints (l : list (bytes * bytes)) (res : Z) : outcome Z :=
  match l with
  | [] => Ret res
  | e :: l' =>
      match Int_Unmarshal e.2 with
      | Some surplus => sum_ints l' (res + surplus)
      | None => Panic nil_deref
      end
  end.

Definition GetAnteSurplusSum (w : World) : outcome Z :=
  sum_ints (Iterator (prefix_store AnteSurplusPrefix (w_transient w))) 0.

(** ** Deferred records (deferred.go) *)

Definition AppendToEvmTxDeferredInfo (bloom : Bloom) (txHash : Hash) (surplus : option Z) (txIndex : Z)
    (w : World) : World :=
  let val := mkDeferredInfo (txIndex `mod` 2 ^ 32) (ba txHash) (ba bloom) surplus "" in
  set_transient (prefix_set DeferredInfoPrefix (PutUint64 txIndex) (DeferredInfo_Marshal val)) w.

Definition GetEVMTxDeferredInfo (txIndex : Z) (w : World) : option DeferredInfo :=
  match w_transient w !! (DeferredInfoPrefix ++ PutUint64 txIndex) with
  | None => None
  | Some bz => DeferredInfo_Unmarshal bz
  end.

(** One iteration of the loop of [GetAllEVMTxDeferredInfo]. *)
Definition deferred_of (w : World) (txIdx : Z) (msg : option EvmMsg) (txResults : list ExecTxResult)
    : outcome (list DeferredInfo) :=
  match txResults !! Z.to_nat txIdx with
  | None => Panic "index out of range"
  | Some txRes =>
      match w_transient w !! (DeferredInfoPrefix ++ PutUint64 txIdx) with
      | None =>
          match msg with
          | None => Ret []
          | Some m =>
              match msg_txHash m with
              | None => Panic "etx is nil for EVM DeferredInfo msg.AsTransaction(). This should never happen."
              | Some h => Ret [mkDeferredInfo (txIdx `mod` 2 ^ 32) (ba h) [] None (tr_Log txRes)]
              end
          end
      | Some val =>
          match DeferredInfo_Unmarshal val with
          | None => Panic "failed to unmarshal deferred info"
          | Some info => Ret [info]
          end
      end
  end.

Fixpoint deferred_from (w : World) (txIdx : Z) (msgs : list (option EvmMsg)) (txResults : list ExecTxResult)
    : outcome (list DeferredInfo) :=
  match msgs with
  | [] => Ret []
  | m :: rest =>
      outcome_bind (deferred_of w txIdx m txResults) (λ infos,
      outcome_bind (deferred_from w (txIdx + 1) rest txResults) (λ more, Ret (infos ++ more)))
  end.

Definition GetAllEVMTxDeferredInfo (msgs : list (option EvmMsg)) (txResults : list ExecTxResult) (w : World)
    : outcome (list DeferredInfo) := deferred_from w 0 msgs txResults.

(** ** Transient receipts (receipt.go) *)

Definition SetTransientReceipt (txHash : Hash) (receipt : Receipt) (w : World) : World :=
  set_transient <[ReceiptKey txHash := Receipt_Marshal receipt]> w.

Definition GetTransientReceipt (txHash : Hash) (w : World) : option Receipt :=
  match w_transient w !! ReceiptKey txHash with
  | None => None
  | Some bz => Receipt_Unmarshal bz
  end.

Definition DeleteTransientReceipt (txHash : Hash) (w : World) : World :=
  set_transient (delete (ReceiptKey txHash)) w.

(** ** Blooms (log.go) *)

Definition or_byte (a b : byte) : byte := byte_of_Z (Z.lor (bval a) (bval b)).
Definition ORBytes (a b : bytes) : bytes := zip_with or_byte a b.

(** [ethtypes.BytesToBloom]: right-aligned; too many bytes are a panic. *)
Definition BytesToBloom (b : bytes) : outcome Bloom :=
  if (256 <? length b)%nat then Panic "bloom bytes too big" else Ret (fit 256 b).

Definition SetBlockBloom (blooms : list Bloom) (w : World) : World :=
  let blockBloom := foldl (λ acc bloom, ORBytes acc (ba bloom)) (replicate 256 x00) blooms in
  set_evm <[BlockBloomPrefix := blockBloom]> w.

Definition SetLegacyBlockBloomCutoffHeight (height : Z) (w : World) : World :=
  set_evm <[LegacyBlockBloomCutoffHeightKey := PutUint64 height]> w.

Definition GetLegacyBlockBloomCutoffHeight (w : World) : outcome Z :=
  match default [] (w_evm w !! LegacyBlockBloomCutoffHeightKey) with
  | [] => Ret 0
  | bz => outcome_bind (Uint64 bz) (λ n, Ret (i64 n))
  end.

Definition GetBlockBloomWithExists (height : Z) (w : World) : outcome (Bloom * bool) :=
  match w_evm w !! BlockBloomPrefix with
  | Some bz => outcome_bind (BytesToBloom bz) (λ b, Ret (b, true))
  | None =>
      outcome_bind (GetLegacyBlockBloomCutoffHeight w) (λ cutoff,
      if (cutoff =? 0) || (height <? cutoff) then
        match w_evm w !! BlockBloomKey height with
        | Some legacyBz => outcome_bind (BytesToBloom legacyBz) (λ b, Ret (b, true))
        | None => Ret (fit 256 [], false)
        end
      else Ret (fit 256 [], false))
  end.

Definition GetBlockBloom (height : Z) (w : World) : outcome Bloom :=
  outcome_bind (GetBlockBloomWithExists height w) (λ r, Ret r.1).

Definition GetLegacyBlockBloom (height : Z) (w : World) : outcome Bloom :=
  match w_evm w !! BlockBloomKey height with
  | Some bz => BytesToBloom bz
  | None => Ret (fit 256 [])
  end.

(** ** Old transaction hashes (tx.go) *)

Definition DefaultTxHashesToRemove : nat := 100.

Definition RemoveFirstNTxHashes (n : nat) (w : World) : World :=
  let keysToDelete := map fst (take n (Iterator (prefix_store TxHashesPrefix (w_evm w)))) in
  set_evm (λ m, foldl (λ acc k, prefix_delete TxHashesPrefix k acc) m keysToDelete) w.

(** ** EndBlock (module.go)

    The fee collector outside the replay and block-test modes. *)

Definition coinbase_account : AccAddress := ak_GetModuleAddress FeeCollectorName.

(** One deferred record: a failed transaction gets a receipt; a transaction
    that ran has its fees collected and its surplus added up. *)
Definition settle_info (info : DeferredInfo) (surplus : Z) (c : Ctx) : outcome (Z * Ctx) :=
  let txHash := BytesToHash (di_TxHash info) in
  if negb (String.eqb (di_Error info) "") && negb (bool_decide (txHash = EmptyTxsHash)) then
    Ret (surplus, cupd (SetTransientReceipt txHash
      (failed_receipt (hash_Hex txHash) (di_TxIndex info) (di_Error info) (u64 (ci_height (c_info c))))) c)
  else
    let coinbaseAddress := GetCoinbaseAddress (di_TxIndex info) in
    let b := w_bank (cview c) in
    let balance := bk_GetBalance b coinbaseAddress BaseDenom - bk_LockedCoins b coinbaseAddress BaseDenom in
    let weiBalance := bk_GetWeiBalance b coinbaseAddress in
    let c1 :=
      if negb (balance =? 0) || negb (weiBalance =? 0)
      then (run_bank (λ b, bk_SendCoinsAndWei b coinbaseAddress coinbase_account balance weiBalance) c).1
      else c in
    match di_Surplus info with
    | Some s => Ret (surplus + s, c1)
    | None => Panic nil_deref
    end.

Fixpoint settle_infos (infos : list DeferredInfo) (surplus : Z) (c : Ctx) : outcome (Z * Ctx) :=
  match infos with
  | [] => Ret (surplus, c)
  | info :: rest => outcome_bind (settle_info info surplus c) (λ r, settle_infos rest r.1 r.2)
  end.

(** Credit a positive surplus to the module account; errors are only logged. *)
Definition credit_surplus (surplus : Z) (c : Ctx) : Ctx :=
  if 0 <? surplus then
    let '(surplusAtabi, surplusWei) := SplitAtabiWeiAmount surplus in
    let moduleAddr := ak_GetModuleAddress ModuleName in
    let c1 := if 0 <? surplusAtabi
              then (run_bank (λ b, bk_AddCoins b moduleAddr BaseDenom surplusAtabi) c).1 else c in
    if 0 <? surplusWei then (run_bank (λ b, bk_AddWei b moduleAddr surplusWei) c1).1 else c1
  else c.

Fixpoint to_blooms (infos : list DeferredInfo) : outcome (list Bloom) :=
  match infos with
  | [] => Ret []
  | i :: rest =>
      outcome_bind (BytesToBloom (di_TxBloom i)) (λ b,
      outcome_bind (to_blooms rest) (λ bs, Ret (b :: bs)))
  end.

(** [EndBlock] outside the replay and block-test modes; [blockGasUsed] is
    [req.BlockGasUsed]. *)
Definition EndBlock (msgs : list (option EvmMsg)) (txResults : list ExecTxResult) (blockGasUsed : Z) (c : Ctx)
    : outcome Ctx :=
  let c1 := cupd (RemoveFirstNTxHashes DefaultTxHashesToRemove) c in
  outcome_bind (AdjustDynamicBaseFeePerGas (ci_maxGas (c_info c)) (u64 blockGasUsed) (cview c1)) (λ r,
  let c2 := cput r.2 c1 in
  outcome_bind (GetAllEVMTxDeferredInfo msgs txResults (cview c2)) (λ infos,
  outcome_bind (GetAnteSurplusSum (cview c2)) (λ surplus0,
  outcome_bind (settle_infos infos surplus0 c2) (λ r2,
  let c4 := credit_surplus r2.1 r2.2 in
  outcome_bind (to_blooms infos) (λ blooms,
  Ret (cupd (SetBlockBloom blooms) c4)))))).

End Block.

(** ** What the theorems speak about *)

(** The record of a transaction that failed before it ran. *)
Definition is_failed `{EH : EthHex} (info : DeferredInfo) : bool :=
  negb (String.eqb (di_Error info) "") && negb (bool_decide (BytesToHash (di_TxHash info) = EmptyTxsHash)).

(** The surplus of the transactions that ran. *)
Definition ran_surplus `{EH : EthHex} (infos : list DeferredInfo) : Z :=
  foldr (λ i acc, (if is_failed i then 0 else default 0 (di_Surplus i)) + acc) 0 infos.

(** * Lemmas *)

Section BlockLemmas.
Context `{BK : BankKeeper B} `{AK : AccountKeeper A} `{EC : EthCrypto} `{KC : KeeperConfig}.
Context `{CD : Codec} `{EH : EthHex} `{SD : SdkDec}.
Context `{MST : MultiStore MS (World B A)} `{MSL : !MultiStoreLaws MS (World B A)} `{BL : !BankLaws B}.
Notation World := (World B A).
Notation Ctx := (Ctx MS).

(** ** One deferred record *)

(** A payment of everything an account can spend. *)
Lemma send_all (b : B) (from to : AccAddress) :
  let n := bk_GetBalance b from BaseDenom - bk_LockedCoins b from BaseDenom in
  let w := bk_GetWeiBalance b from in
  let b' := (bk_SendCoinsAndWei b from to n w).1.1 in
  ∃ b1, bank_moved b b1 from (- spendable b from) ∧ bank_moved b1 b' to (spendable b from).
Proof.
  cbv zeta. destruct (bk_balances b from) as [Hlk Hw].
  assert ((bk_SendCoinsAndWei b from to (bk_GetBalance b from BaseDenom - bk_LockedCoins b from BaseDenom)
    (bk_GetWeiBalance b from)).2 = None) as He by (apply bk_SendCoinsAndWei_enough; lia).
  destruct (bk_SendCoinsAndWei b from to _ _) as [[b' ev] e] eqn:E. simpl in He. subst e.
  apply bk_SendCoinsAndWei_ok in E as (b1 & H1 & H2); [|lia|lia]. exists b1.
  assert (spendable b from = (bk_GetBalance b from BaseDenom - bk_LockedCoins b from BaseDenom) *
    AtabiToWeiMultiplier + bk_GetWeiBalance b from) as -> by (unfold spendable, wei_value; lia).
  done.
Qed.

(** What a settled record does to the bank: nothing for a failed transaction,
    otherwise all funds of its coinbase account go to the fee collector. *)
Lemma settle_info_run (info : DeferredInfo) (s : Z) (c : Ctx) s' c' :
  settle_info info s c = Ret (s', c') →
  s' = s + (if is_failed info then 0 else default 0 (di_Surplus info)) ∧
  w_evm (cview c') = w_evm (cview c) ∧ c_info c' = c_info c ∧
  if is_failed info then w_bank (cview c') = w_bank (cview c)
  else let from := GetCoinbaseAddress (di_TxIndex info) in
    ∃ b1, bank_moved (w_bank (cview c)) b1 from (- spendable (w_bank (cview c)) from) ∧
          bank_moved b1 (w_bank (cview c')) coinbase_account (spendable (w_bank (cview c)) from).
Proof.
  unfold settle_info, is_failed. destruct (negb _ && negb _).
  - intros [= <- <-]. rewrite cview_cupd. split_and!; [lia|done|done|done].
  - destruct (di_Surplus info) as [sp|]; [|done]. intros [= <- <-]. simpl.
    set (from := GetCoinbaseAddress (di_TxIndex info)). set (b := w_bank (cview c)).
    destruct (bk_balances b from) as [Hlk Hwb].
    destruct (negb (_ =? 0) || negb (_ =? 0)) eqn:Hz.
    + destruct (run_bank_view (λ b0, bk_SendCoinsAndWei b0 from coinbase_account
        (bk_GetBalance b from BaseDenom - bk_LockedCoins b from BaseDenom) (bk_GetWeiBalance b from)) c) as [Hv _].
      split_and!; [done|by rewrite Hv| |rewrite Hv; apply send_all].
      unfold run_bank. by destruct (bk_SendCoinsAndWei _ _ _ _ _) as [[??]?].
    + apply orb_false_iff in Hz as [H1 H2]. apply negb_false_iff, Z.eqb_eq in H1, H2.
      assert (spendable b from = 0) as -> by (unfold spendable, wei_value; lia).
      split_and!; [done|done|done|]. exists b. split; apply bank_moved_refl.
Qed.

(** ** All deferred records *)

Lemma settle_infos_run (infos : list DeferredInfo) (s : Z) (c : Ctx) s' c' :
  settle_infos infos s c = Ret (s', c') →
  s' = s + ran_surplus infos ∧ w_evm (cview c') = w_evm (cview c) ∧ c_info c' = c_info c ∧
  bk_total (w_bank (cview c')) = bk_total (w_bank (cview c)).
Proof.
  revert s c. induction infos as [|i infos IH]; intros s c H; simpl in H.
  - simplify_eq/=. split_and!; [lia|done|done|done].
  - destruct (settle_info i s c) as [[s1 c1]|] eqn:E; [|done]. simpl in H.
    apply settle_info_run in E as (-> & Hw1 & Hi1 & Hb1). apply IH in H as (-> & Hw2 & Hi2 & Ht2).
    split_and!; [simpl; lia|congruence|congruence|]. rewrite Ht2.
    destruct (is_failed i); [by rewrite Hb1|]. destruct Hb1 as (b1 & (_ & _ & _ & T1) & (_ & _ & _ & T2)). lia.
Qed.

(** An account other than the fee collector that is empty stays empty. *)
Lemma settle_info_drained (info : DeferredInfo) (s : Z) (c : Ctx) s' c' t :
  settle_info info s c = Ret (s', c') → t ≠ coinbase_account →
  spendable (w_bank (cview c)) t = 0 ∨ (is_failed info = false ∧ t = GetCoinbaseAddress (di_TxIndex info)) →
  spendable (w_bank (cview c')) t = 0.
Proof.
  intros H Hne Hor. apply settle_info_run in H as (_ & _ & _ & H).
  destruct (is_failed info); [rewrite H; naive_solver|]. destruct H as (b1 & M1 & M2).
  rewrite (bank_moved_spendable_ne _ _ _ _ _ M2 Hne).
  destruct (decide (t = GetCoinbaseAddress (di_TxIndex info))) as [->|Hd].
  - rewrite (bank_moved_spendable _ _ _ _ M1). lia.
  - rewrite (bank_moved_spendable_ne _ _ _ _ _ M1 Hd). naive_solver.
Qed.

Lemma settle_infos_drained (infos : list DeferredInfo) (s : Z) (c : Ctx) s' c' t :
  settle_infos infos s c = Ret (s', c') → t ≠ coinbase_account →
  spendable (w_bank (cview c)) t = 0 ∨
    (∃ i, i ∈ infos ∧ is_failed i = false ∧ t = GetCoinbaseAddress (di_TxIndex i)) →
  spendable (w_bank (cview c')) t = 0.
Proof.
  revert s c. induction infos as [|i infos IH]; intros s c H Hne Hor; simpl in H.
  - simplify_eq/=. destruct Hor as [?|(i & Hi & _)]; [done|by apply elem_of_nil in Hi].
  - destruct (settle_info i s c) as [[s1 c1]|] eqn:E; [|done]. simpl in H.
    apply (IH _ _ H Hne). setoid_rewrite elem_of_cons in Hor.
    destruct Hor as [Hz|(j & [->|Hj] & Hf & Ht)]; [left|left|right; by exists j];
      eapply settle_info_drained; eauto.
Qed.

(** ** The surplus credit *)

Lemma credit_surplus_run (s : Z) (c : Ctx) :
  let c' := credit_surplus s c in
  bank_moved (w_bank (cview c)) (w_bank (cview c')) (ak_GetModuleAddress ModuleName) (Z.max 0 s) ∧
  w_evm (cview c') = w_evm (cview c).
Proof.
  unfold credit_surplus. set (m := ak_GetModuleAddress ModuleName).
  destruct (Z.ltb_spec 0 s) as [Hs|Hs].
  2:{ rewrite Z.max_l by lia. split; [apply bank_moved_refl|done]. }
  pose proof (SplitAtabiWeiAmount_spec s ltac:(lia)) as Hsp.
  destruct (SplitAtabiWeiAmount s) as [n w]. destruct Hsp as (-> & Hw & Hn). rewrite Z.max_r by lia.
  set (c1 := if 0 <? n then _ else c).
  assert (bank_moved (w_bank (cview c)) (w_bank (cview c1)) m (n * AtabiToWeiMultiplier) ∧
    w_evm (cview c1) = w_evm (cview c)) as [H1 E1].
  { unfold c1. destruct (Z.ltb_spec 0 n) as [Hp|Hp].
    - destruct (run_bank_view (λ b, bk_AddCoins b m BaseDenom n) c) as [-> _]. split; [|done]. cbn [w_bank set_bank].
      pose proof (bk_AddCoins_enough (w_bank (cview c)) m n Hn) as He.
      destruct (bk_AddCoins _ _ _ _) as [[b ev] e] eqn:E. simpl in He. subst e. by eapply bk_AddCoins_ok.
    - replace n with 0 by lia. split; [apply bank_moved_refl|done]. }
  cbv zeta. destruct (Z.ltb_spec 0 w) as [Hp|Hp].
  - destruct (run_bank_view (λ b, bk_AddWei b m w) c1) as [-> _]. split; [|exact E1]. cbn [w_bank set_bank].
    pose proof (bk_AddWei_enough (w_bank (cview c1)) m w Hw) as He.
    destruct (bk_AddWei _ _ _) as [[b ev] e] eqn:E. simpl in He. subst e.
    eapply bank_moved_trans; [exact H1|]. by eapply bk_AddWei_ok.
  - replace w with 0 by lia. by rewrite Z.add_0_r.
Qed.

(** ** The whole of [EndBlock] *)

Lemma Adjust_frame (maxGas : option Z) (used : Z) (w : World) r :
  AdjustDynamicBaseFeePerGas maxGas used w = Ret r → ∃ f, r.2 = set_evm f w.
Proof.
  unfold AdjustDynamicBaseFeePerGas. destruct maxGas as [g|].
  2:{ intros [= <-]. exists (λ m, m). by destruct w. }
  destruct (GetNextBaseFeePerGas w) as [prev|]; [|done]. cbn [outcome_bind]. cbv zeta.
  destruct (_ =? 0); [intros [= <-]; by eexists|].
  destruct (raw_base_fee _ _ _ _ _) as [fee|]; [|done]. cbn [outcome_bind].
  destruct (dec_val (GetMinimumFeePerGas _)) as [mn|]; [|done]. cbn [outcome_bind].
  destruct (dec_val (GetMaximumFeePerGas _)) as [mx|]; [|done]. cbn [outcome_bind].
  intros [= <-]. simpl. unfold SetNextBaseFeePerGas, SetCurrBaseFeePerGas. destruct w. by eexists (λ m, _ (_ m)).
Qed.

(** The settlement of a block whose records all have a surplus or failed. *)
Definition settleable (i : DeferredInfo) : Prop :=
  is_failed i = true ∨ is_Some (di_Surplus i).

Lemma settle_infos_total (infos : list DeferredInfo) (s : Z) (c : Ctx) :
  Forall settleable infos → ∃ r, settle_infos infos s c = Ret r.
Proof.
  intros H. revert s c. induction H as [|i infos Hi _ IH]; intros s c; simpl; [by eexists|].
  assert (∃ r, settle_info i s c = Ret r) as [r Hr].
  { unfold settle_info. fold (is_failed i). destruct Hi as [->|[z Hz]]; [by eexists|].
    destruct (is_failed i); [by eexists|]. rewrite Hz. by eexists. }
  rewrite Hr. apply IH.
Qed.

Lemma to_blooms_total (infos : list DeferredInfo) :
  Forall (λ i, length (di_TxBloom i) ≤ 256)%nat infos →
  to_blooms infos = Ret ((λ i, fit 256 (di_TxBloom i)) <$> infos).
Proof.
  induction 1 as [|i infos Hi _ IH]; simpl; [done|]. unfold BytesToBloom.
  destruct (Nat.ltb_spec 256 (length (di_TxBloom i))); [lia|]. simpl. by rewrite IH.
Qed.

(** [EndBlock] in terms of what it reads. *)
Lemma EndBlock_run msgs results gas (c : Ctx) fee infos ante :
  AdjustDynamicBaseFeePerGas (ci_maxGas (c_info c)) (u64 gas)
    (RemoveFirstNTxHashes DefaultTxHashesToRemove (cview c)) = Ret fee →
  GetAllEVMTxDeferredInfo msgs results (cview c) = Ret infos →
  GetAnteSurplusSum (cview c) = Ret ante →
  Forall settleable infos → Forall (λ i, length (di_TxBloom i) ≤ 256)%nat infos →
  ∃ c2 c3, w_bank (cview c2) = w_bank (cview c) ∧
    settle_infos infos ante c2 = Ret (ante + ran_surplus infos, c3) ∧
    EndBlock msgs results gas c =
      Ret (cupd (SetBlockBloom ((λ i, fit 256 (di_TxBloom i)) <$> infos))
            (credit_surplus (ante + ran_surplus infos) c3)).
Proof.
  intros Hfee Hinfos Hante Hset Hbl. unfold EndBlock. cbv zeta. rewrite cview_cupd, Hfee. cbn [outcome_bind].
  destruct (Adjust_frame _ _ _ _ Hfee) as [f Hf].
  assert (Ht : w_transient fee.2 = w_transient (cview c)) by (by rewrite Hf).
  set (c2 := cput fee.2 _). assert (Hv : cview c2 = fee.2) by apply cview_cput.
  assert (GetAllEVMTxDeferredInfo msgs results (cview c2) = Ret infos) as ->.
  { rewrite <- Hinfos, Hv. unfold GetAllEVMTxDeferredInfo. clear -Ht. generalize 0.
    induction msgs as [|m msgs IH]; intros z; simpl; [done|]. rewrite IH. unfold deferred_of. by rewrite Ht. }
  assert (GetAnteSurplusSum (cview c2) = Ret ante) as -> by (unfold GetAnteSurplusSum; by rewrite Hv, Ht).
  cbn [outcome_bind]. destruct (settle_infos_total infos ante c2 Hset) as [[s c3] Hs].
  pose proof Hs as Hrun. apply settle_infos_run in Hrun as (-> & _ & _ & _).
  rewrite Hs. cbn [outcome_bind fst snd]. rewrite (to_blooms_total _ Hbl). cbn [outcome_bind].
  exists c2, c3. split_and!; [|done|done]. by rewrite Hv, Hf.
Qed.

(** ** Blooms *)

(** Bit [j] of byte [k] of a bloom. *)
Definition bloom_bit (b : bytes) (k : nat) (j : Z) : bool := Z.testbit (bval (nth k b x00)) j.

Lemma or_byte_bit a b j : 0 ≤ j < 8 →
  Z.testbit (bval (or_byte a b)) j = Z.testbit (bval a) j || Z.testbit (bval b) j.
Proof.
  intros Hj. unfold or_byte. rewrite bval_byte_of_Z. change 256 with (2 ^ 8).
  rewrite Z.mod_pow2_bits_low by lia. apply Z.lor_spec.
Qed.

Lemma ORBytes_bit (a b : bytes) (k : nat) (j : Z) : length a = length b → 0 ≤ j < 8 →
  bloom_bit (ORBytes a b) k j = bloom_bit a k j || bloom_bit b k j.
Proof.
  unfold bloom_bit, ORBytes. intros Hl Hj. revert b k Hl.
  induction a as [|x a IH]; intros [|y b] k Hl; simpl in *; try done.
  - by destruct k; rewrite orb_diag.
  - destruct k as [|k]; [by apply or_byte_bit|]. apply IH. lia.
Qed.

Lemma length_ORBytes (a b : bytes) : length a = length b → length (ORBytes a b) = length a.
Proof. intros H. unfold ORBytes. rewrite length_zip_with. lia. Qed.

Lemma fold_bloom (blooms : list Bloom) (acc : bytes) (k : nat) (j : Z) :
  length acc = 256%nat → 0 ≤ j < 8 →
  let r := foldl (λ acc bloom, ORBytes acc (ba bloom)) acc blooms in
  length r = 256%nat ∧ bloom_bit r k j = bloom_bit acc k j || existsb (λ b, bloom_bit (ba b) k j) blooms.
Proof.
  revert acc. induction blooms as [|b blooms IH]; intros acc Hl Hj; simpl; [by rewrite orb_false_r|].
  assert (Hlb : length acc = length (ba b)) by (by rewrite ba_length).
  destruct (IH (ORBytes acc (ba b))) as [H1 H2]; [by rewrite length_ORBytes|done|].
  split; [done|]. rewrite H2, ORBytes_bit by done. by rewrite orb_assoc.
Qed.

Lemma zero_bloom_bit n k j : bloom_bit (replicate n x00) k j = false.
Proof. unfold bloom_bit. revert k. induction n; intros [|k]; simpl; try done; apply Z.testbit_0_l. Qed.

(** ** Deferred records *)

Definition deferred_key (i : Z) : bytes := DeferredInfoPrefix ++ PutUint64 i.

(** A transaction that ran, and the record it leaves. *)
Record RanTx : Type := mkRanTx { rt_index : Z; rt_bloom : Bloom; rt_hash : Hash; rt_surplus : Z }.

Definition ran_record (t : RanTx) : DeferredInfo :=
  mkDeferredInfo (rt_index t `mod` 2 ^ 32) (ba (rt_hash t)) (ba (rt_bloom t)) (Some (rt_surplus t)) "".

Definition append_ran (w : World) (t : RanTx) : World :=
  AppendToEvmTxDeferredInfo (rt_bloom t) (rt_hash t) (Some (rt_surplus t)) (rt_index t) w.

Lemma append_ran_lookup (txs : list RanTx) (w : World) (i : Z) :
  is_u64 i → Forall (λ t, is_u64 (rt_index t)) txs → base.NoDup (rt_index <$> txs) →
  w_transient (foldl append_ran w txs) !! deferred_key i =
  match find (λ t, rt_index t =? i) txs with
  | Some t => Some (DeferredInfo_Marshal (ran_record t))
  | None => w_transient w !! deferred_key i
  end.
Proof.
  intros Hi Hall. revert w. induction Hall as [|t txs Ht Hall IH]; intros w Hnd; simpl; [done|].
  apply NoDup_cons in Hnd as [Hnin Hnd]. rewrite (IH _ Hnd). destruct (Z.eqb_spec (rt_index t) i) as [E|E].
  - destruct (find _ txs) as [t'|] eqn:Hf.
    + apply find_some in Hf as [Hin Heq%Z.eqb_eq]. exfalso. apply Hnin. rewrite E, <- Heq.
      apply list_elem_of_fmap_2. by apply list_elem_of_In.
    + subst i. apply lookup_insert_eq.
  - destruct (find _ txs); [done|]. apply lookup_insert_ne. intros H%app_inv_head.
    apply E. by apply PutUint64_inj.
Qed.

End BlockLemmas.

(** * Theorems *)

Section BlockTheorems.
Context `{BK : BankKeeper B} `{AK : AccountKeeper A} `{EC : EthCrypto} `{KC : KeeperConfig}.
Context `{CD : Codec} `{EH : EthHex} `{SD : SdkDec}.
Context `{MST : MultiStore MS (World B A)} `{MSL : !MultiStoreLaws MS (World B A)}.
Notation World := (World B A).
Notation Ctx := (Ctx MS).

(** What [EndBlock] finds at the end of a block: the base fee can be adjusted,
    the deferred records and the ante surplus can be read, every record is of a
    failed transaction or has a surplus, and no bloom is too long. *)
Record block_ready msgs results gas (c : Ctx) (infos : list DeferredInfo) (ante : Z) : Prop := {
  br_fee : is_ret (AdjustDynamicBaseFeePerGas (ci_maxGas (c_info c)) (u64 gas)
             (RemoveFirstNTxHashes DefaultTxHashesToRemove (cview c))) = true;
  br_infos : GetAllEVMTxDeferredInfo msgs results (cview c) = Ret infos;
  br_ante : GetAnteSurplusSum (cview c) = Ret ante;
  br_settle : Forall settleable infos;
  br_blooms : Forall (λ i, length (di_TxBloom i) ≤ 256)%nat infos
}.

Lemma block_ready_run msgs results gas (c : Ctx) infos ante :
  BankLaws B → block_ready msgs results gas c infos ante →
  ∃ c2 c3, w_bank (cview c2) = w_bank (cview c) ∧
    settle_infos infos ante c2 = Ret (ante + ran_surplus infos, c3) ∧
    EndBlock msgs results gas c =
      Ret (cupd (SetBlockBloom ((λ i, fit 256 (di_TxBloom i)) <$> infos))
            (credit_surplus (ante + ran_surplus infos) c3)).
Proof.
  intros BL [H1 H2 H3 H4 H5].
  destruct (AdjustDynamicBaseFeePerGas _ _ _) as [r|] eqn:E; [|done]. by eapply EndBlock_run.
Qed.

(** The end of a block returns and accounts for every wei: the total held
    by the bank grows by exactly the surplus of the ante handler and of the
    transactions that ran, when that is positive, and by nothing otherwise. *)
Theorem EndBlock_conserves_value msgs results gas (c : Ctx) infos ante :
  BankLaws B → block_ready msgs results gas c infos ante →
  ∃ c', EndBlock msgs results gas c = Ret c' ∧
    bk_total (w_bank (cview c')) = bk_total (w_bank (cview c)) + Z.max 0 (ante + ran_surplus infos).
Proof.
  intros BL H. destruct (block_ready_run _ _ _ _ _ _ BL H) as (c2 & c3 & Hb & Hs & ->).
  eexists. split; [done|]. rewrite cview_cupd. cbn [w_bank set_evm SetBlockBloom].
  destruct (credit_surplus_run (ante + ran_surplus infos) c3) as [(_ & _ & _ & ->) _].
  apply settle_infos_run in Hs as (_ & _ & _ & ->). by rewrite Hb.
Qed.

(** The end of a block collects the fees: the coinbase account of every
    transaction that ran has nothing left to spend. *)
Theorem EndBlock_collects_fees msgs results gas (c : Ctx) infos ante i :
  BankLaws B → block_ready msgs results gas c infos ante →
  i ∈ infos → is_failed i = false →
  GetCoinbaseAddress (di_TxIndex i) ≠ coinbase_account →
  GetCoinbaseAddress (di_TxIndex i) ≠ ak_GetModuleAddress ModuleName →
  ∃ c', EndBlock msgs results gas c = Ret c' ∧
    spendable (w_bank (cview c')) (GetCoinbaseAddress (di_TxIndex i)) = 0.
Proof.
  intros BL H Hi Hf Hne1 Hne2. destruct (block_ready_run _ _ _ _ _ _ BL H) as (c2 & c3 & Hb & Hs & ->).
  eexists. split; [done|]. rewrite cview_cupd. cbn [w_bank set_evm SetBlockBloom].
  destruct (credit_surplus_run (ante + ran_surplus infos) c3) as [Hm _].
  rewrite (bank_moved_spendable_ne _ _ _ _ _ Hm Hne2).
  eapply settle_infos_drained; [exact Hs|done|]. right. by exists i.
Qed.

(** The block bloom read back after the end of a block has exactly the bits
    of the blooms of the block's transactions. *)
Theorem EndBlock_bloom msgs results gas (c : Ctx) infos ante height :
  BankLaws B → block_ready msgs results gas c infos ante →
  ∃ c' bloom, EndBlock msgs results gas c = Ret c' ∧
    GetBlockBloomWithExists height (cview c') = Ret (bloom, true) ∧
    ∀ k j, 0 ≤ j < 8 →
      bloom_bit (ba bloom) k j = existsb (λ i, bloom_bit (ba (fit 256 (di_TxBloom i))) k j) infos.
Proof.
  intros BL H. destruct (block_ready_run _ _ _ _ _ _ BL H) as (c2 & c3 & _ & _ & ->).
  set (blooms := _ <$> infos).
  set (r := foldl (λ acc bloom, ORBytes acc (ba bloom)) (replicate 256 x00) blooms).
  assert (Hr : ∀ k j, 0 ≤ j < 8 → length r = 256%nat ∧
    bloom_bit r k j = existsb (λ i, bloom_bit (ba (fit 256 (di_TxBloom i))) k j) infos).
  { intros k j Hj. destruct (fold_bloom blooms (replicate 256 x00) k j) as [H1 H2]; [done|done|].
    split; [done|]. fold r in H2. rewrite H2, zero_bloom_bit. simpl. unfold blooms. clear.
    induction infos as [|i infos IH]; [done|]. simpl. f_equal. exact IH. }
  destruct (Hr 0%nat 0 ltac:(lia)) as [Hl _].
  eexists _, (fit 256 r). split_and!; [done| |intros k j Hj; rewrite ba_fit_id by done; by apply Hr].
  rewrite cview_cupd. unfold GetBlockBloomWithExists, SetBlockBloom. cbn [w_evm set_evm].
  rewrite lookup_insert_eq. unfold BytesToBloom. fold r. by rewrite Hl.
Qed.

(** The record [GetAllEVMTxDeferredInfo] should give for a transaction: the one
    it left, or else, for an EVM message, one with the log of its result. *)
Definition expected_info (txs : list RanTx) (i : Z) (m : option EvmMsg) (res : ExecTxResult) : list DeferredInfo :=
  match find (λ t, rt_index t =? i) txs, m with
  | Some t, _ => [ran_record t]
  | None, Some (mkEvmMsg (Some h)) => [mkDeferredInfo i (ba h) [] None (tr_Log res)]
  | None, _ => []
  end.

Fixpoint expected_infos (txs : list RanTx) (i : Z) (msgs : list (option EvmMsg * ExecTxResult)) : list DeferredInfo :=
  match msgs with
  | [] => []
  | (m, res) :: rest => expected_info txs i m res ++ expected_infos txs (i + 1) rest
  end.

Lemma deferred_from_expected (txs : list RanTx) (w : World) msgs pre i :
  CodecLaws → i = Z.of_nat (length pre) → i + Z.of_nat (length msgs) ≤ 2 ^ 32 →
  Forall (λ t, is_u64 (rt_index t)) txs → base.NoDup (rt_index <$> txs) →
  (∀ i, w_transient w !! deferred_key i = None) →
  Forall (λ m, m.1 ≠ Some (mkEvmMsg None)) msgs →
  deferred_from (foldl append_ran w txs) i (fst <$> msgs) (snd <$> pre ++ msgs) = Ret (expected_infos txs i msgs).
Proof.
  intros CL Hi Hmax Htx Hnd Hw Hm. revert pre i Hi Hmax.
  induction Hm as [|[m res] msgs Hm _ IH]; intros pre i Hi Hmax; [done|]. rewrite length_cons in Hmax.
  rewrite fmap_cons. cbn [deferred_from expected_infos fst].
  assert (deferred_of (foldl append_ran w txs) i m (snd <$> pre ++ (m, res) :: msgs) =
    Ret (expected_info txs i m res)) as ->.
  { unfold deferred_of, expected_info. rewrite list_lookup_fmap, Hi, Nat2Z.id.
    rewrite list_lookup_middle by done. cbn [fmap option_fmap option_map snd]. rewrite <- Hi. fold (deferred_key i).
    rewrite append_ran_lookup by (done || unfold is_u64, two64; lia).
    destruct (find _ txs) as [t|]; [by rewrite DeferredInfo_codec by (by eexists)|].
    rewrite Hw. destruct m as [[[h|]]|]; [|done|done]. by rewrite Z.mod_small by lia. }
  cbn [outcome_bind]. rewrite cons_middle, (assoc_L (++)).
  rewrite (IH (pre ++ [(m, res)]) (i + 1)); [done|rewrite length_app; simpl; lia|lia].
Qed.

(** The deferred records round-trip: whatever the order in which the
    transactions of a block left their records, reading them at the end of the
    block gives, in block order, each record as it was left, and a failure
    record for each EVM message that left none. *)
Theorem deferred_info_roundtrip (txs : list RanTx) (w : World) (msgs : list (option EvmMsg * ExecTxResult)) :
  CodecLaws → Z.of_nat (length msgs) ≤ 2 ^ 32 →
  Forall (λ t, is_u64 (rt_index t)) txs → base.NoDup (rt_index <$> txs) →
  (∀ i, w_transient w !! deferred_key i = None) →
  Forall (λ m, m.1 ≠ Some (mkEvmMsg None)) msgs →
  GetAllEVMTxDeferredInfo (fst <$> msgs) (snd <$> msgs) (foldl append_ran w txs) = Ret (expected_infos txs 0 msgs).
Proof. intros. by apply (deferred_from_expected txs w msgs [] 0). Qed.

(** Removing old transaction hashes makes progress and does nothing else:
    after [m] blocks the hashes left are the stored ones without the first
    [m * n], and no other key has changed. *)
Theorem RemoveFirstNTxHashes_drains (n m : nat) (w : World) :
  let w' := Nat.iter m (RemoveFirstNTxHashes n) w in
  Iterator (prefix_store TxHashesPrefix (w_evm w')) =
    drop (m * n) (Iterator (prefix_store TxHashesPrefix (w_evm w))) ∧
  ∀ k, (∀ k', k ≠ TxHashesPrefix ++ k') → w_evm w' !! k = w_evm w !! k.
Proof.
  induction m as [|m [IH1 IH2]]; simpl; [by rewrite drop_0|]. split.
  - rewrite Iterator_delete_first, IH1, drop_drop. f_equal. lia.
  - intros k Hk. rewrite <- (IH2 k Hk). by apply lookup_delete_keys_out.
Qed.

End BlockTheorems.

(** * Examples *)

(** A codec: records are encoded as numbers, and numbers as bits. *)
Fixpoint pos_bytes (p : positive) : bytes :=
  match p with
  | xH => []
  | xO p => x00 :: pos_bytes p
  | xI p => x01 :: pos_bytes p
  end.
Fixpoint bytes_pos (l : bytes) : positive :=
  match l with
  | [] => xH
  | x00 :: l => xO (bytes_pos l)
  | _ :: l => xI (bytes_pos l)
  end.

Lemma bytes_pos_bytes p : bytes_pos (pos_bytes p) = p.
Proof. induction p; simpl; congruence. Qed.

#[export] Instance DeferredInfo_eq_dec : EqDecision DeferredInfo.
Proof. solve_decision. Defined.
#[export] Instance DeferredInfo_countable : Countable DeferredInfo.
Proof.
  refine (inj_countable'
    (λ d, (di_TxIndex d, di_TxHash d, di_TxBloom d, di_Surplus d, di_Error d))
    (λ '(i, h, b, s, e), mkDeferredInfo i h b s e) _). by intros [].
Defined.
#[export] Instance RLog_eq_dec : EqDecision RLog.
Proof. solve_decision. Defined.
#[export] Instance RLog_countable : Countable RLog.
Proof.
  refine (inj_countable'
    (λ l, (rl_Address l, rl_Topics l, rl_Data l, rl_Index l, rl_Synthetic l))
    (λ '(a, t, d, i, s), mkRLog a t d i s) _). by intros [].
Defined.
#[export] Instance Receipt_eq_dec : EqDecision Receipt.
Proof. solve_decision. Defined.
#[export] Instance Receipt_countable : Countable Receipt.
Proof.
  refine (inj_countable'
    (λ r, (rc_TxType r, rc_CumulativeGasUsed r, rc_ContractAddress r, rc_TxHashHex r, rc_GasUsed r,
           rc_EffectiveGasPrice r, rc_BlockNumber r, rc_TransactionIndex r, rc_Status r, rc_From r, rc_To r,
           rc_VmError r, rc_Logs r, rc_LogsBloom r))
    (λ '(a, b, c, d, e, f, g, h, i, j, k, l, m, n), mkReceipt a b c d e f g h i j k l m n) _). by intros [].
Defined.

Definition number_codec : Codec := {|
  DeferredInfo_Marshal d := pos_bytes (encode d);
  DeferredInfo_Unmarshal b := decode (bytes_pos b);
  Receipt_Marshal r := pos_bytes (encode r);
  Receipt_Unmarshal b := decode (bytes_pos b);
  Int_Marshal z := pos_bytes (encode z);
  Int_Unmarshal b := decode (bytes_pos b)
|}.

Lemma number_codec_laws : @CodecLaws number_codec.
Proof. split; intros; simpl; rewrite bytes_pos_bytes; apply decode_encode. Qed.

Section BlockExamples.
#[local] Existing Instances demo_bank_keeper demo_bank_laws demo_accounts demo_crypto live_config.
#[local] Existing Instances number_codec number_codec_laws plain_hex half_even_dec.
#[local] Instance demo_block_stores : MultiStore (stack_ms demo_world) demo_world := stack_multistore demo_world.
#[local] Instance demo_block_stores_laws : MultiStoreLaws (stack_ms demo_world) demo_world :=
  stack_multistore_laws demo_world.

(** A block of three messages: a transaction that ran, a message of another
    module, and a transaction that failed. *)
Definition demo_txs : list RanTx := [mkRanTx 0 (fit 256 [x07]) (hash_of 7) 5].
Definition demo_msgs : list (option EvmMsg * ExecTxResult) :=
  [(Some (mkEvmMsg (Some (hash_of 7))), mkExecTxResult 0 "" 21000 true);
   (None, mkExecTxResult 0 "" 50000 false);
   (Some (mkEvmMsg (Some (hash_of 8))), mkExecTxResult 1 "out of gas" 21000 true)].
Definition demo_block_start : demo_world :=
  AddAnteSurplus (hash_of 7) 3 (set_bank {[GetCoinbaseAddress 0 := 1234%N]} demo_world0).
Definition demo_block_end : Ctx (stack_ms demo_world) := demo_ctx (foldl append_ran demo_block_start demo_txs).

Lemma demo_start_empty i : w_transient demo_block_start !! deferred_key i = None.
Proof.
  unfold demo_block_start, AddAnteSurplus. cbn [w_transient set_transient].
  unfold prefix_set. rewrite lookup_insert_ne; [done|]. unfold deferred_key. discriminate.
Qed.

Lemma demo_infos :
  GetAllEVMTxDeferredInfo (fst <$> demo_msgs) (snd <$> demo_msgs) (cview demo_block_end) =
  Ret (expected_infos demo_txs 0 demo_msgs).
Proof.
  apply (deferred_from_expected demo_txs demo_block_start demo_msgs [] 0).
  - apply _.
  - done.
  - done.
  - apply Forall_singleton. unfold is_u64, two64. simpl. lia.
  - repeat constructor. apply not_elem_of_nil.
  - apply demo_start_empty.
  - repeat constructor; discriminate.
Qed.

Lemma demo_ready :
  block_ready (fst <$> demo_msgs) (snd <$> demo_msgs) 400000 demo_block_end (expected_infos demo_txs 0 demo_msgs) 3.
Proof.
  split.
  - vm_compute. reflexivity.
  - apply demo_infos.
  - vm_compute. reflexivity.
  - apply Forall_cons; split; [right; by eexists|]. apply Forall_singleton. by left.
  - repeat constructor; vm_compute; lia.
Qed.

Lemma EndBlock_conserves_value_witness :
  ∃ c', EndBlock (fst <$> demo_msgs) (snd <$> demo_msgs) 400000 demo_block_end = Ret c' ∧
    bk_total (w_bank (cview c')) = bk_total (w_bank (cview demo_block_end)) + 8.
Proof. exact (EndBlock_conserves_value _ _ _ _ _ _ demo_bank_laws demo_ready). Defined.

Lemma EndBlock_collects_fees_witness :
  ∃ c', EndBlock (fst <$> demo_msgs) (snd <$> demo_msgs) 400000 demo_block_end = Ret c' ∧
    spendable (w_bank (cview c')) (GetCoinbaseAddress 0) = 0.
Proof.
  apply (EndBlock_collects_fees _ _ _ _ _ _ (ran_record (mkRanTx 0 (fit 256 [x07]) (hash_of 7) 5)) demo_bank_laws demo_ready).
  - left.
  - reflexivity.
  - discriminate.
  - discriminate.
Defined.

Lemma EndBlock_bloom_witness :
  ∃ c' bloom, EndBlock (fst <$> demo_msgs) (snd <$> demo_msgs) 400000 demo_block_end = Ret c' ∧
    GetBlockBloomWithExists 1 (cview c') = Ret (bloom, true) ∧
    bloom_bit (ba bloom) 255 2 = true ∧ bloom_bit (ba bloom) 255 3 = false.
Proof.
  destruct (EndBlock_bloom _ _ _ _ _ _ 1 demo_bank_laws demo_ready) as (c' & b & H1 & H2 & H3).
  exists c', b. split_and!; [exact H1|exact H2|by rewrite H3 by lia|by rewrite H3 by lia].
Defined.

Lemma deferred_info_roundtrip_witness :
  GetAllEVMTxDeferredInfo (fst <$> demo_msgs) (snd <$> demo_msgs) (foldl append_ran demo_block_start demo_txs) =
  Ret [ran_record (mkRanTx 0 (fit 256 [x07]) (hash_of 7) 5);
       mkDeferredInfo 2 (ba (hash_of 8)) [] None "out of gas"].
Proof.
  apply (deferred_info_roundtrip demo_txs demo_block_start demo_msgs number_codec_laws).
  - done.
  - apply Forall_singleton. unfold is_u64, two64. simpl. lia.
  - repeat constructor. apply not_elem_of_nil.
  - apply demo_start_empty.
  - repeat constructor; discriminate.
Defined.

(** A transaction with result code 0 and an empty log that left no deferred
    record makes the settlement add a nil surplus. *)
Lemma settle_without_surplus_panics (h : Hash) (i : Z) (c : Ctx (stack_ms demo_world)) :
  is_ret (settle_info (mkDeferredInfo i (ba h) [] None "") 0 c) = false.
Proof. reflexivity. Qed.

End BlockExamples.
