(* ===== verification/EthTx.v ===== *)
(** * Transaction data (x/evm/types/ethtx)

    The protobuf form of Ethereum transactions: how it is made from a
    go-ethereum transaction, validated, read and turned back.  A [*sdk.Int] is
    an [option Z] (a pointer that is not nil holds a number), a nil slice is
    the empty list.  Calls that dereference nil panic. *)

From S2P Require Import Prelude Bytes World Eth.
From Stdlib Require Import Strings.Byte.
Local Open Scope Z_scope.
Local Open Scope outcome_scope.

(** ** int.go, validations.go, utils.go, txdata.go *)

Definition maxBitLen : Z := 256.
Definition IsValidInt256 (i : option Z) : bool :=
  match i with None => true | Some z => BitLen z <=? maxBitLen end.

(** [math.BigMin] of the sum of the tip and the base fee, and the fee cap. *)
Definition EffectiveGasPrice (baseFee feeCap tipCap : option Z) : outcome Z :=
  match baseFee, feeCap, tipCap with
  | Some b, Some f, Some t => Ret (Z.min (t + b) f)
  | _, _, _ => Panic nil_deref
  end.

Definition SetConvertIfPresent {U V S : Type} (orig : option U) (converter : U → outcome V) (setter : V → S → S)
    (s : S) : outcome S :=
  match orig with
  | None => Ret s
  | Some u => let* v := converter u in Ret (setter v s)
  end.

Definition rawSignatureValues (vBz rBz sBz : bytes) : Z * Z * Z :=
  let big bz := match bz with [] => 0 | _ => big_SetBytes bz end in
  (big vBz, big rBz, big sBz).

Definition fee (gasPrice : option Z) (gas : Z) : outcome Z :=
  match gasPrice with Some p => Ret (p * gas) | None => Panic nil_deref end.

Definition cost (fee : Z) (value : option Z) : Z :=
  match value with Some v => fee + v | None => fee end.

(** [sig[64] + 27] is a byte. *)
Definition DecodeSignature (sig : bytes) : (Z * Z * Z) + Err :=
  if negb (length sig =? 65)%nat then inr "wrong size for signature"%string
  else
    let r := big_SetBytes (take 32 sig) in
    let s := big_SetBytes (take 32 (drop 32 sig)) in
    let v := (bval (nth 64 sig x00) + 27) `mod` 256 in
    inl (r, s, v).

(** ** Data *)

Record AccessTuple : Type := mkAccessTuple { at_Address : string; at_StorageKeys : list string }.
Notation AccessList := (list AccessTuple).

Record AssociateTx : Type := mkAssociateTx {
  as_V : bytes; as_R : bytes; as_S : bytes; as_CustomMessage : string
}.
Record LegacyTx : Type := mkLegacyTx {
  lt_Nonce : Z; lt_GasPrice : option Z; lt_GasLimit : Z; lt_To : string; lt_Amount : option Z;
  lt_Data : bytes; lt_V : bytes; lt_R : bytes; lt_S : bytes
}.
Record AccessListTx : Type := mkAccessListTx {
  al_ChainID : option Z; al_Nonce : Z; al_GasPrice : option Z; al_GasLimit : Z; al_To : string;
  al_Amount : option Z; al_Data : bytes; al_Accesses : AccessList; al_V : bytes; al_R : bytes; al_S : bytes
}.
Record DynamicFeeTx : Type := mkDynamicFeeTx {
  df_ChainID : option Z; df_Nonce : Z; df_GasTipCap : option Z; df_GasFeeCap : option Z; df_GasLimit : Z;
  df_To : string; df_Amount : option Z; df_Data : bytes; df_Accesses : AccessList;
  df_V : bytes; df_R : bytes; df_S : bytes
}.
Record BlobTxSidecar : Type := mkBlobTxSidecar {
  sc_Blobs : list bytes; sc_Commitments : list bytes; sc_Proofs : list bytes
}.
Record BlobTx : Type := mkBlobTx {
  bt_ChainID : option Z; bt_Nonce : Z; bt_GasTipCap : option Z; bt_GasFeeCap : option Z; bt_GasLimit : Z;
  bt_To : string; bt_Amount : option Z; bt_Data : bytes; bt_Accesses : AccessList;
  bt_BlobFeeCap : option Z; bt_BlobHashes : list bytes; bt_Sidecar : option BlobTxSidecar;
  bt_V : bytes; bt_R : bytes; bt_S : bytes
}.

(** The implementations of the interface [TxData]. *)
Inductive TxData : Type :=
| TLegacy (tx : LegacyTx)
| TAccessList (tx : AccessListTx)
| TDynamicFee (tx : DynamicFeeTx)
| TBlob (tx : BlobTx)
| TAssociate (tx : AssociateTx).

Section EthTx.
Context `{EH : EthHex} `{IL : IntLibs} `{ET : EthTransactions T}.

Definition ValidateAddress (address : string) : option Err :=
  if IsHexAddress address then None else Some "address is not a valid ethereum hex address"%string.

Definition ValidateEthTx (tx : T) : option Err :=
  if negb (IsValidInt256 (tx_Value tx)) then Some "value overflow"%string
  else if negb (IsValidInt256 (tx_GasPrice tx)) then Some "gas price overflow"%string
  else if negb (IsValidInt256 (tx_GasFeeCap tx)) then Some "gas fee cap overflow"%string
  else if negb (IsValidInt256 (tx_GasTipCap tx)) then Some "gas tip cap overflow"%string
  else if negb (IsValidInt256 (tx_BlobGasFeeCap tx)) then Some "blob gas fee cap overflow"%string
  else None.

(** ** access_list.go *)

Definition NewAccessList (ethAccessList : list EthAccessTuple) : AccessList :=
  (λ tuple, mkAccessTuple (addr_String (eat_Address tuple)) (hash_String <$> eat_StorageKeys tuple)) <$> ethAccessList.

Definition ToEthAccessList (al : AccessList) : list EthAccessTuple :=
  (λ tuple, mkEthAccessTuple (HexToAddress (at_Address tuple)) (HexToHash <$> at_StorageKeys tuple)) <$> al.

(** The address a [To] field stands for. *)
Definition to_address (to : string) : option Address :=
  if String.eqb to "" then None else Some (HexToAddress to).

(** ** associate_tx.go *)

Definition NewAssociateTx (tx : T) (customMessage : string) : outcome AssociateTx :=
  match tx_RawSignatureValues tx with
  | (Some v, Some r, Some s) => Ret (mkAssociateTx (big_Bytes v) (big_Bytes r) (big_Bytes s) customMessage)
  | _ => Panic nil_deref
  end.

Definition AssociateTx_GetRawSignatureValues (tx : AssociateTx) : Z * Z * Z :=
  rawSignatureValues (as_V tx) (as_R tx) (as_S tx).

(** ** legacy_tx.go *)

(** A signature value that is given replaces the old one. *)
Definition set_sig (o : option Z) (old : bytes) : bytes :=
  match o with Some z => big_Bytes z | None => old end.

Definition LegacyTx_SetTo (v : string) (tx : LegacyTx) : LegacyTx :=
  mkLegacyTx (lt_Nonce tx) (lt_GasPrice tx) (lt_GasLimit tx) v (lt_Amount tx) (lt_Data tx) (lt_V tx) (lt_R tx) (lt_S tx).
Definition LegacyTx_SetAmount (v : Z) (tx : LegacyTx) : LegacyTx :=
  mkLegacyTx (lt_Nonce tx) (lt_GasPrice tx) (lt_GasLimit tx) (lt_To tx) (Some v) (lt_Data tx) (lt_V tx) (lt_R tx) (lt_S tx).
Definition LegacyTx_SetGasPrice (v : Z) (tx : LegacyTx) : LegacyTx :=
  mkLegacyTx (lt_Nonce tx) (Some v) (lt_GasLimit tx) (lt_To tx) (lt_Amount tx) (lt_Data tx) (lt_V tx) (lt_R tx) (lt_S tx).

Definition LegacyTx_SetSignatureValues (chainID v r s : option Z) (tx : LegacyTx) : LegacyTx :=
  mkLegacyTx (lt_Nonce tx) (lt_GasPrice tx) (lt_GasLimit tx) (lt_To tx) (lt_Amount tx) (lt_Data tx)
    (set_sig v (lt_V tx)) (set_sig r (lt_R tx)) (set_sig s (lt_S tx)).

Definition LegacyTx_TxType (tx : LegacyTx) : Z := LegacyTxType.
Definition LegacyTx_Copy (tx : LegacyTx) : TxData :=
  TLegacy (mkLegacyTx (lt_Nonce tx) (lt_GasPrice tx) (lt_GasLimit tx) (lt_To tx) (lt_Amount tx) (lt_Data tx)
             (lt_V tx) (lt_R tx) (lt_S tx)).
Definition LegacyTx_GetRawSignatureValues (tx : LegacyTx) : Z * Z * Z :=
  rawSignatureValues (lt_V tx) (lt_R tx) (lt_S tx).

(** The subtraction is on [uint64] when [V] fits. *)
Definition LegacyTx_GetChainID (tx : LegacyTx) : option Z :=
  let '(v, _, _) := LegacyTx_GetRawSignatureValues tx in
  if BitLen v <=? 64 then
    if (v =? 27) || (v =? 28) then Some 0 else Some (u64 (v - 35) / 2)
  else Some ((v - 35) / 2).

Definition LegacyTx_GetAccessList (tx : LegacyTx) : list EthAccessTuple := [].
Definition LegacyTx_GetData (tx : LegacyTx) : bytes := lt_Data tx.
Definition LegacyTx_GetGas (tx : LegacyTx) : Z := lt_GasLimit tx.
Definition LegacyTx_GetGasPrice (tx : LegacyTx) : option Z := lt_GasPrice tx.
Definition LegacyTx_GetGasTipCap (tx : LegacyTx) : option Z := LegacyTx_GetGasPrice tx.
Definition LegacyTx_GetGasFeeCap (tx : LegacyTx) : option Z := LegacyTx_GetGasPrice tx.
Definition LegacyTx_GetValue (tx : LegacyTx) : option Z := lt_Amount tx.
Definition LegacyTx_GetNonce (tx : LegacyTx) : Z := lt_Nonce tx.
Definition LegacyTx_GetTo (tx : LegacyTx) : option Address := to_address (lt_To tx).

Definition LegacyTx_AsEthereumData (tx : LegacyTx) : EthTxData :=
  let '(v, r, s) := LegacyTx_GetRawSignatureValues tx in
  EthLegacy (mkEthLegacyTx (LegacyTx_GetNonce tx) (LegacyTx_GetGasPrice tx) (LegacyTx_GetGas tx) (LegacyTx_GetTo tx)
    (LegacyTx_GetValue tx) (LegacyTx_GetData tx) (Some v) (Some r) (Some s)).

Definition LegacyTx_Fee (tx : LegacyTx) : outcome Z := fee (LegacyTx_GetGasPrice tx) (LegacyTx_GetGas tx).
Definition LegacyTx_Cost (tx : LegacyTx) : outcome Z :=
  let* f := LegacyTx_Fee tx in Ret (cost f (LegacyTx_GetValue tx)).
Definition LegacyTx_EffectiveGasPrice (tx : LegacyTx) (baseFee : option Z) : option Z := LegacyTx_GetGasPrice tx.
Definition LegacyTx_EffectiveFee (tx : LegacyTx) (baseFee : option Z) : outcome Z := LegacyTx_Fee tx.
Definition LegacyTx_EffectiveCost (tx : LegacyTx) (baseFee : option Z) : outcome Z := LegacyTx_Cost tx.

(** The checks that end every [Validate]: the amount, the recipient and the
    chain. *)
Definition negative_amount (amount : option Z) : bool :=
  match amount with Some a => a <? 0 | None => false end.
Definition invalid_to (to : string) : bool :=
  if String.eqb to "" then false else match ValidateAddress to with Some _ => true | None => false end.

Definition LegacyTx_Validate (tx : LegacyTx) : outcome (option Err) :=
  match LegacyTx_GetGasPrice tx with
  | None => Ret (Some "gas price cannot be nil"%string)
  | Some gasPrice =>
      if gasPrice <? 0 then Ret (Some "gas price cannot be negative"%string) else
      let* f := LegacyTx_Fee tx in
      if negb (IsValidInt256 (Some f)) then Ret (Some "fee out of bound"%string) else
      if negative_amount (LegacyTx_GetValue tx) then Ret (Some "amount cannot be negative"%string) else
      if invalid_to (lt_To tx) then Ret (Some "invalid to address"%string) else
      match LegacyTx_GetChainID tx with
      | None => Ret (Some "chain ID must be present on AccessList txs"%string)
      | Some _ => Ret None
      end
  end.

Definition NewLegacyTx (tx : T) : outcome (option LegacyTx * option Err) :=
  match ValidateEthTx tx with
  | Some e => Ret (None, Some e)
  | None =>
      let txData := mkLegacyTx (tx_Nonce tx) None (tx_Gas tx) "" None (tx_Data tx) [] [] [] in
      let '(v, r, s) := tx_RawSignatureValues tx in
      let* t1 := SetConvertIfPresent (tx_To tx) (λ a, Ret (addr_Hex a)) LegacyTx_SetTo txData in
      let* t2 := SetConvertIfPresent (tx_Value tx) NewIntFromBigInt LegacyTx_SetAmount t1 in
      let* t3 := SetConvertIfPresent (tx_GasPrice tx) NewIntFromBigInt LegacyTx_SetGasPrice t2 in
      let t4 := LegacyTx_SetSignatureValues (tx_ChainId tx) v r s t3 in
      let* err := LegacyTx_Validate t4 in
      Ret (Some t4, err)
  end.

(** ** access_list_tx.go *)

Definition AccessListTx_SetTo (v : string) (tx : AccessListTx) : AccessListTx :=
  mkAccessListTx (al_ChainID tx) (al_Nonce tx) (al_GasPrice tx) (al_GasLimit tx) v (al_Amount tx) (al_Data tx)
    (al_Accesses tx) (al_V tx) (al_R tx) (al_S tx).
Definition AccessListTx_SetAmount (v : Z) (tx : AccessListTx) : AccessListTx :=
  mkAccessListTx (al_ChainID tx) (al_Nonce tx) (al_GasPrice tx) (al_GasLimit tx) (al_To tx) (Some v) (al_Data tx)
    (al_Accesses tx) (al_V tx) (al_R tx) (al_S tx).
Definition AccessListTx_SetGasPrice (v : Z) (tx : AccessListTx) : AccessListTx :=
  mkAccessListTx (al_ChainID tx) (al_Nonce tx) (Some v) (al_GasLimit tx) (al_To tx) (al_Amount tx) (al_Data tx)
    (al_Accesses tx) (al_V tx) (al_R tx) (al_S tx).
Definition AccessListTx_SetAccesses (v : AccessList) (tx : AccessListTx) : AccessListTx :=
  mkAccessListTx (al_ChainID tx) (al_Nonce tx) (al_GasPrice tx) (al_GasLimit tx) (al_To tx) (al_Amount tx) (al_Data tx)
    v (al_V tx) (al_R tx) (al_S tx).

(** A chain ID that is given is converted to [sdk.Int]. *)
Definition set_chain_id (chainID old : option Z) : outcome (option Z) :=
  match chainID with
  | None => Ret old
  | Some c => let* i := NewIntFromBigInt c in Ret (Some i)
  end.

Definition AccessListTx_SetSignatureValues (chainID v r s : option Z) (tx : AccessListTx) : outcome AccessListTx :=
  let* c := set_chain_id chainID (al_ChainID tx) in
  Ret (mkAccessListTx c (al_Nonce tx) (al_GasPrice tx) (al_GasLimit tx) (al_To tx) (al_Amount tx) (al_Data tx)
         (al_Accesses tx) (set_sig v (al_V tx)) (set_sig r (al_R tx)) (set_sig s (al_S tx))).

Definition AccessListTx_TxType (tx : AccessListTx) : Z := AccessListTxType.
Definition AccessListTx_Copy (tx : AccessListTx) : TxData :=
  TAccessList (mkAccessListTx (al_ChainID tx) (al_Nonce tx) (al_GasPrice tx) (al_GasLimit tx) (al_To tx) (al_Amount tx)
    (al_Data tx) (al_Accesses tx) (al_V tx) (al_R tx) (al_S tx)).
Definition AccessListTx_GetChainID (tx : AccessListTx) : option Z := al_ChainID tx.
Definition AccessListTx_GetAccessList (tx : AccessListTx) : list EthAccessTuple := ToEthAccessList (al_Accesses tx).
Definition AccessListTx_GetData (tx : AccessListTx) : bytes := al_Data tx.
Definition AccessListTx_GetGas (tx : AccessListTx) : Z := al_GasLimit tx.
Definition AccessListTx_GetGasPrice (tx : AccessListTx) : option Z := al_GasPrice tx.
Definition AccessListTx_GetGasTipCap (tx : AccessListTx) : option Z := AccessListTx_GetGasPrice tx.
Definition AccessListTx_GetGasFeeCap (tx : AccessListTx) : option Z := AccessListTx_GetGasPrice tx.
Definition AccessListTx_GetValue (tx : AccessListTx) : option Z := al_Amount tx.
Definition AccessListTx_GetNonce (tx : AccessListTx) : Z := al_Nonce tx.
Definition AccessListTx_GetTo (tx : AccessListTx) : option Address := to_address (al_To tx).
Definition AccessListTx_GetRawSignatureValues (tx : AccessListTx) : Z * Z * Z :=
  rawSignatureValues (al_V tx) (al_R tx) (al_S tx).

Definition AccessListTx_AsEthereumData (tx : AccessListTx) : EthTxData :=
  let '(v, r, s) := AccessListTx_GetRawSignatureValues tx in
  EthAccessList (mkEthAccessListTx (AccessListTx_GetChainID tx) (AccessListTx_GetNonce tx) (AccessListTx_GetGasPrice tx)
    (AccessListTx_GetGas tx) (AccessListTx_GetTo tx) (AccessListTx_GetValue tx) (AccessListTx_GetData tx)
    (AccessListTx_GetAccessList tx) (Some v) (Some r) (Some s)).

Definition AccessListTx_Fee (tx : AccessListTx) : outcome Z := fee (AccessListTx_GetGasPrice tx) (AccessListTx_GetGas tx).
Definition AccessListTx_Cost (tx : AccessListTx) : outcome Z :=
  let* f := AccessListTx_Fee tx in Ret (cost f (AccessListTx_GetValue tx)).
Definition AccessListTx_EffectiveGasPrice (tx : AccessListTx) (baseFee : option Z) : option Z :=
  AccessListTx_GetGasPrice tx.
Definition AccessListTx_EffectiveFee (tx : AccessListTx) (baseFee : option Z) : outcome Z := AccessListTx_Fee tx.
Definition AccessListTx_EffectiveCost (tx : AccessListTx) (baseFee : option Z) : outcome Z := AccessListTx_Cost tx.

Definition AccessListTx_Validate (tx : AccessListTx) : outcome (option Err) :=
  match AccessListTx_GetGasPrice tx with
  | None => Ret (Some "gas price cannot be nil"%string)
  | Some gasPrice =>
      if gasPrice <? 0 then Ret (Some "gas price cannot be negative"%string) else
      if negative_amount (AccessListTx_GetValue tx) then Ret (Some "amount cannot be negative"%string) else
      let* f := AccessListTx_Fee tx in
      if negb (IsValidInt256 (Some f)) then Ret (Some "fee out of bound"%string) else
      if invalid_to (al_To tx) then Ret (Some "invalid to address"%string) else
      match AccessListTx_GetChainID tx with
      | None => Ret (Some "chain ID must be present on AccessList txs"%string)
      | Some _ => Ret None
      end
  end.

Definition NewAccessListTx (tx : T) : outcome (option AccessListTx * option Err) :=
  match ValidateEthTx tx with
  | Some e => Ret (None, Some e)
  | None =>
      let txData := mkAccessListTx None (tx_Nonce tx) None (tx_Gas tx) "" None (tx_Data tx) [] [] [] [] in
      let '(v, r, s) := tx_RawSignatureValues tx in
      let* t1 := SetConvertIfPresent (tx_To tx) (λ a, Ret (addr_Hex a)) AccessListTx_SetTo txData in
      let* t2 := SetConvertIfPresent (tx_Value tx) NewIntFromBigInt AccessListTx_SetAmount t1 in
      let* t3 := SetConvertIfPresent (tx_GasPrice tx) NewIntFromBigInt AccessListTx_SetGasPrice t2 in
      let* t4 := SetConvertIfPresent (Some (tx_AccessList tx)) (λ al, Ret (NewAccessList al)) AccessListTx_SetAccesses t3 in
      let* t5 := AccessListTx_SetSignatureValues (tx_ChainId tx) v r s t4 in
      let* err := AccessListTx_Validate t5 in
      Ret (Some t5, err)
  end.

(** ** dynamic_fee_tx.go *)

Definition DynamicFeeTx_SetTo (v : string) (tx : DynamicFeeTx) : DynamicFeeTx :=
  mkDynamicFeeTx (df_ChainID tx) (df_Nonce tx) (df_GasTipCap tx) (df_GasFeeCap tx) (df_GasLimit tx) v (df_Amount tx)
    (df_Data tx) (df_Accesses tx) (df_V tx) (df_R tx) (df_S tx).
Definition DynamicFeeTx_SetAmount (v : Z) (tx : DynamicFeeTx) : DynamicFeeTx :=
  mkDynamicFeeTx (df_ChainID tx) (df_Nonce tx) (df_GasTipCap tx) (df_GasFeeCap tx) (df_GasLimit tx) (df_To tx) (Some v)
    (df_Data tx) (df_Accesses tx) (df_V tx) (df_R tx) (df_S tx).
Definition DynamicFeeTx_SetGasFeeCap (v : Z) (tx : DynamicFeeTx) : DynamicFeeTx :=
  mkDynamicFeeTx (df_ChainID tx) (df_Nonce tx) (df_GasTipCap tx) (Some v) (df_GasLimit tx) (df_To tx) (df_Amount tx)
    (df_Data tx) (df_Accesses tx) (df_V tx) (df_R tx) (df_S tx).
Definition DynamicFeeTx_SetGasTipCap (v : Z) (tx : DynamicFeeTx) : DynamicFeeTx :=
  mkDynamicFeeTx (df_ChainID tx) (df_Nonce tx) (Some v) (df_GasFeeCap tx) (df_GasLimit tx) (df_To tx) (df_Amount tx)
    (df_Data tx) (df_Accesses tx) (df_V tx) (df_R tx) (df_S tx).
Definition DynamicFeeTx_SetAccesses (v : AccessList) (tx : DynamicFeeTx) : DynamicFeeTx :=
  mkDynamicFeeTx (df_ChainID tx) (df_Nonce tx) (df_GasTipCap tx) (df_GasFeeCap tx) (df_GasLimit tx) (df_To tx)
    (df_Amount tx) (df_Data tx) v (df_V tx) (df_R tx) (df_S tx).
Definition DynamicFeeTx_SetSignatureValues (chainID v r s : option Z) (tx : DynamicFeeTx) : outcome DynamicFeeTx :=
  let* c := set_chain_id chainID (df_ChainID tx) in
  Ret (mkDynamicFeeTx c (df_Nonce tx) (df_GasTipCap tx) (df_GasFeeCap tx) (df_GasLimit tx) (df_To tx) (df_Amount tx)
         (df_Data tx) (df_Accesses tx) (set_sig v (df_V tx)) (set_sig r (df_R tx)) (set_sig s (df_S tx))).

Definition DynamicFeeTx_TxType (tx : DynamicFeeTx) : Z := DynamicFeeTxType.
Definition DynamicFeeTx_Copy (tx : DynamicFeeTx) : TxData :=
  TDynamicFee (mkDynamicFeeTx (df_ChainID tx) (df_Nonce tx) (df_GasTipCap tx) (df_GasFeeCap tx) (df_GasLimit tx)
    (df_To tx) (df_Amount tx) (df_Data tx) (df_Accesses tx) (df_V tx) (df_R tx) (df_S tx)).
Definition DynamicFeeTx_GetChainID (tx : DynamicFeeTx) : option Z := df_ChainID tx.
Definition DynamicFeeTx_GetAccessList (tx : DynamicFeeTx) : list EthAccessTuple := ToEthAccessList (df_Accesses tx).
Definition DynamicFeeTx_GetData (tx : DynamicFeeTx) : bytes := df_Data tx.
Definition DynamicFeeTx_GetGas (tx : DynamicFeeTx) : Z := df_GasLimit tx.
Definition DynamicFeeTx_GetGasTipCap (tx : DynamicFeeTx) : option Z := df_GasTipCap tx.
Definition DynamicFeeTx_GetGasFeeCap (tx : DynamicFeeTx) : option Z := df_GasFeeCap tx.
Definition DynamicFeeTx_GetGasPrice (tx : DynamicFeeTx) : option Z := DynamicFeeTx_GetGasFeeCap tx.
Definition DynamicFeeTx_GetValue (tx : DynamicFeeTx) : option Z := df_Amount tx.
Definition DynamicFeeTx_GetNonce (tx : DynamicFeeTx) : Z := df_Nonce tx.
Definition DynamicFeeTx_GetTo (tx : DynamicFeeTx) : option Address := to_address (df_To tx).
Definition DynamicFeeTx_GetRawSignatureValues (tx : DynamicFeeTx) : Z * Z * Z :=
  rawSignatureValues (df_V tx) (df_R tx) (df_S tx).

Definition DynamicFeeTx_AsEthereumData (tx : DynamicFeeTx) : EthTxData :=
  let '(v, r, s) := DynamicFeeTx_GetRawSignatureValues tx in
  EthDynamicFee (mkEthDynamicFeeTx (DynamicFeeTx_GetChainID tx) (DynamicFeeTx_GetNonce tx) (DynamicFeeTx_GetGasTipCap tx)
    (DynamicFeeTx_GetGasFeeCap tx) (DynamicFeeTx_GetGas tx) (DynamicFeeTx_GetTo tx) (DynamicFeeTx_GetValue tx)
    (DynamicFeeTx_GetData tx) (DynamicFeeTx_GetAccessList tx) (Some v) (Some r) (Some s)).

Definition DynamicFeeTx_Fee (tx : DynamicFeeTx) : outcome Z := fee (DynamicFeeTx_GetGasFeeCap tx) (df_GasLimit tx).
Definition DynamicFeeTx_Cost (tx : DynamicFeeTx) : outcome Z :=
  let* f := DynamicFeeTx_Fee tx in Ret (cost f (DynamicFeeTx_GetValue tx)).
Definition DynamicFeeTx_EffectiveGasPrice (tx : DynamicFeeTx) (baseFee : option Z) : outcome Z :=
  EffectiveGasPrice baseFee (df_GasFeeCap tx) (df_GasTipCap tx).
Definition DynamicFeeTx_EffectiveFee (tx : DynamicFeeTx) (baseFee : option Z) : outcome Z :=
  let* p := DynamicFeeTx_EffectiveGasPrice tx baseFee in fee (Some p) (df_GasLimit tx).
Definition DynamicFeeTx_EffectiveCost (tx : DynamicFeeTx) (baseFee : option Z) : outcome Z :=
  let* f := DynamicFeeTx_EffectiveFee tx baseFee in Ret (cost f (DynamicFeeTx_GetValue tx)).

Definition DynamicFeeTx_Validate (tx : DynamicFeeTx) : outcome (option Err) :=
  match df_GasTipCap tx, df_GasFeeCap tx with
  | None, _ => Ret (Some "gas tip cap cannot nil"%string)
  | _, None => Ret (Some "gas fee cap cannot nil"%string)
  | Some tip, Some cap =>
      if tip <? 0 then Ret (Some "gas tip cap cannot be negative"%string) else
      if cap <? 0 then Ret (Some "gas fee cap cannot be negative"%string) else
      if cap <? tip then Ret (Some "max priority fee per gas higher than max fee per gas"%string) else
      let* f := DynamicFeeTx_Fee tx in
      if negb (IsValidInt256 (Some f)) then Ret (Some "fee out of bound"%string) else
      if negative_amount (DynamicFeeTx_GetValue tx) then Ret (Some "amount cannot be negative"%string) else
      if invalid_to (df_To tx) then Ret (Some "invalid to address"%string) else
      match DynamicFeeTx_GetChainID tx with
      | None => Ret (Some "chain ID must be present on AccessList txs"%string)
      | Some _ => Ret None
      end
  end.

Definition NewDynamicFeeTx (tx : T) : outcome (option DynamicFeeTx * option Err) :=
  match ValidateEthTx tx with
  | Some e => Ret (None, Some e)
  | None =>
      let txData := mkDynamicFeeTx None (tx_Nonce tx) None None (tx_Gas tx) "" None (tx_Data tx) [] [] [] [] in
      let '(v, r, s) := tx_RawSignatureValues tx in
      let* t1 := SetConvertIfPresent (tx_To tx) (λ a, Ret (addr_Hex a)) DynamicFeeTx_SetTo txData in
      let* t2 := SetConvertIfPresent (tx_Value tx) NewIntFromBigInt DynamicFeeTx_SetAmount t1 in
      let* t3 := SetConvertIfPresent (tx_GasFeeCap tx) NewIntFromBigInt DynamicFeeTx_SetGasFeeCap t2 in
      let* t4 := SetConvertIfPresent (tx_GasTipCap tx) NewIntFromBigInt DynamicFeeTx_SetGasTipCap t3 in
      let* t5 := SetConvertIfPresent (Some (tx_AccessList tx)) (λ al, Ret (NewAccessList al)) DynamicFeeTx_SetAccesses t4 in
      let* t6 := DynamicFeeTx_SetSignatureValues (tx_ChainId tx) v r s t5 in
      let* err := DynamicFeeTx_Validate t6 in
      Ret (Some t6, err)
  end.

(** ** blob_tx.go *)

Definition BlobTx_SetTo (v : string) (tx : BlobTx) : BlobTx :=
  mkBlobTx (bt_ChainID tx) (bt_Nonce tx) (bt_GasTipCap tx) (bt_GasFeeCap tx) (bt_GasLimit tx) v (bt_Amount tx)
    (bt_Data tx) (bt_Accesses tx) (bt_BlobFeeCap tx) (bt_BlobHashes tx) (bt_Sidecar tx) (bt_V tx) (bt_R tx) (bt_S tx).
Definition BlobTx_SetAmount (v : Z) (tx : BlobTx) : BlobTx :=
  mkBlobTx (bt_ChainID tx) (bt_Nonce tx) (bt_GasTipCap tx) (bt_GasFeeCap tx) (bt_GasLimit tx) (bt_To tx) (Some v)
    (bt_Data tx) (bt_Accesses tx) (bt_BlobFeeCap tx) (bt_BlobHashes tx) (bt_Sidecar tx) (bt_V tx) (bt_R tx) (bt_S tx).
Definition BlobTx_SetGasFeeCap (v : Z) (tx : BlobTx) : BlobTx :=
  mkBlobTx (bt_ChainID tx) (bt_Nonce tx) (bt_GasTipCap tx) (Some v) (bt_GasLimit tx) (bt_To tx) (bt_Amount tx)
    (bt_Data tx) (bt_Accesses tx) (bt_BlobFeeCap tx) (bt_BlobHashes tx) (bt_Sidecar tx) (bt_V tx) (bt_R tx) (bt_S tx).
Definition BlobTx_SetGasTipCap (v : Z) (tx : BlobTx) : BlobTx :=
  mkBlobTx (bt_ChainID tx) (bt_Nonce tx) (Some v) (bt_GasFeeCap tx) (bt_GasLimit tx) (bt_To tx) (bt_Amount tx)
    (bt_Data tx) (bt_Accesses tx) (bt_BlobFeeCap tx) (bt_BlobHashes tx) (bt_Sidecar tx) (bt_V tx) (bt_R tx) (bt_S tx).
Definition BlobTx_SetAccesses (v : AccessList) (tx : BlobTx) : BlobTx :=
  mkBlobTx (bt_ChainID tx) (bt_Nonce tx) (bt_GasTipCap tx) (bt_GasFeeCap tx) (bt_GasLimit tx) (bt_To tx) (bt_Amount tx)
    (bt_Data tx) v (bt_BlobFeeCap tx) (bt_BlobHashes tx) (bt_Sidecar tx) (bt_V tx) (bt_R tx) (bt_S tx).
Definition BlobTx_SetBlobFeeCap (v : Z) (tx : BlobTx) : BlobTx :=
  mkBlobTx (bt_ChainID tx) (bt_Nonce tx) (bt_GasTipCap tx) (bt_GasFeeCap tx) (bt_GasLimit tx) (bt_To tx) (bt_Amount tx)
    (bt_Data tx) (bt_Accesses tx) (Some v) (bt_BlobHashes tx) (bt_Sidecar tx) (bt_V tx) (bt_R tx) (bt_S tx).
Definition BlobTx_SetBlobHashes (v : list bytes) (tx : BlobTx) : BlobTx :=
  mkBlobTx (bt_ChainID tx) (bt_Nonce tx) (bt_GasTipCap tx) (bt_GasFeeCap tx) (bt_GasLimit tx) (bt_To tx) (bt_Amount tx)
    (bt_Data tx) (bt_Accesses tx) (bt_BlobFeeCap tx) v (bt_Sidecar tx) (bt_V tx) (bt_R tx) (bt_S tx).
Definition BlobTx_SetBlobSidecar (v : BlobTxSidecar) (tx : BlobTx) : BlobTx :=
  mkBlobTx (bt_ChainID tx) (bt_Nonce tx) (bt_GasTipCap tx) (bt_GasFeeCap tx) (bt_GasLimit tx) (bt_To tx) (bt_Amount tx)
    (bt_Data tx) (bt_Accesses tx) (bt_BlobFeeCap tx) (bt_BlobHashes tx) (Some v) (bt_V tx) (bt_R tx) (bt_S tx).
Definition BlobTx_SetSignatureValues (chainID v r s : option Z) (tx : BlobTx) : outcome BlobTx :=
  let* c := set_chain_id chainID (bt_ChainID tx) in
  Ret (mkBlobTx c (bt_Nonce tx) (bt_GasTipCap tx) (bt_GasFeeCap tx) (bt_GasLimit tx) (bt_To tx) (bt_Amount tx)
         (bt_Data tx) (bt_Accesses tx) (bt_BlobFeeCap tx) (bt_BlobHashes tx) (bt_Sidecar tx)
         (set_sig v (bt_V tx)) (set_sig r (bt_R tx)) (set_sig s (bt_S tx))).

Definition BlobTx_TxType (tx : BlobTx) : Z := BlobTxType.
Definition BlobTx_Copy (tx : BlobTx) : TxData :=
  TBlob (mkBlobTx (bt_ChainID tx) (bt_Nonce tx) (bt_GasTipCap tx) (bt_GasFeeCap tx) (bt_GasLimit tx) (bt_To tx)
    (bt_Amount tx) (bt_Data tx) (bt_Accesses tx) (bt_BlobFeeCap tx) (bt_BlobHashes tx) (bt_Sidecar tx)
    (bt_V tx) (bt_R tx) (bt_S tx)).
Definition BlobTx_GetChainID (tx : BlobTx) : option Z := bt_ChainID tx.
Definition BlobTx_GetAccessList (tx : BlobTx) : list EthAccessTuple := ToEthAccessList (bt_Accesses tx).
Definition BlobTx_GetData (tx : BlobTx) : bytes := bt_Data tx.
Definition BlobTx_GetGas (tx : BlobTx) : Z := bt_GasLimit tx.
(** [params.BlobTxBlobGasPerBlob] is 2^17. *)
Definition BlobTx_BlobGas (tx : BlobTx) : Z := u64 (131072 * Z.of_nat (length (bt_BlobHashes tx))).
Definition BlobTx_GetGasTipCap (tx : BlobTx) : option Z := bt_GasTipCap tx.
Definition BlobTx_GetGasFeeCap (tx : BlobTx) : option Z := bt_GasFeeCap tx.
Definition BlobTx_GetGasPrice (tx : BlobTx) : option Z := BlobTx_GetGasFeeCap tx.
Definition BlobTx_GetValue (tx : BlobTx) : option Z := bt_Amount tx.
Definition BlobTx_GetNonce (tx : BlobTx) : Z := bt_Nonce tx.
Definition BlobTx_GetTo (tx : BlobTx) : option Address :=
  if String.eqb (bt_To tx) "" then Some zero_address else Some (HexToAddress (bt_To tx)).
Definition BlobTx_GetBlobFeeCap (tx : BlobTx) : option Z := bt_BlobFeeCap tx.
(** [copy] fills the array from the left. *)
Definition copy_hash (bz : bytes) : Hash := fit 32 (take 32 (bz ++ replicate 32 x00)).
Definition BlobTx_GetBlobHashes (tx : BlobTx) : list Hash := copy_hash <$> bt_BlobHashes tx.
Definition BlobTx_GetRawSignatureValues (tx : BlobTx) : Z * Z * Z :=
  rawSignatureValues (bt_V tx) (bt_R tx) (bt_S tx).

Definition sidecarConverter (ethSidecar : EthSidecar) : BlobTxSidecar :=
  mkBlobTxSidecar (es_Blobs ethSidecar) (es_Commitments ethSidecar) (es_Proofs ethSidecar).

(** The conversion of a slice to an array of [n] bytes panics on a slice that is
    too short. *)
Definition to_array (n : Z) (b : bytes) : outcome bytes :=
  if Z.of_nat (length b) <? n then Panic "cannot convert slice to array" else Ret (take (Z.to_nat n) b).
Fixpoint map_outcome {X Y : Type} (f : X → outcome Y) (l : list X) : outcome (list Y) :=
  match l with
  | [] => Ret []
  | x :: l' => let* y := f x in let* ys := map_outcome f l' in Ret (y :: ys)
  end.
Definition BlobLength : Z := 131072.
Definition CommitmentLength : Z := 48.
Definition ProofLength : Z := 48.
Definition sidecarToEthSidecar (sidecar : option BlobTxSidecar) : outcome (option EthSidecar) :=
  match sidecar with
  | None => Ret None
  | Some sc =>
      let* blobs := map_outcome (to_array BlobLength) (sc_Blobs sc) in
      let* commitments := map_outcome (to_array CommitmentLength) (sc_Commitments sc) in
      let* proofs := map_outcome (to_array ProofLength) (sc_Proofs sc) in
      Ret (Some (mkEthSidecar blobs commitments proofs))
  end.

Definition BlobTx_AsEthereumData (tx : BlobTx) : outcome EthTxData :=
  let '(v, r, s) := BlobTx_GetRawSignatureValues tx in
  let* chainID := MustFromBig (BlobTx_GetChainID tx) in
  let* gasTipCap := MustFromBig (BlobTx_GetGasTipCap tx) in
  let* gasFeeCap := MustFromBig (BlobTx_GetGasFeeCap tx) in
  let* value := MustFromBig (BlobTx_GetValue tx) in
  let* blobFeeCap := MustFromBig (BlobTx_GetBlobFeeCap tx) in
  let* sidecar := sidecarToEthSidecar (bt_Sidecar tx) in
  let* v' := MustFromBig (Some v) in
  let* r' := MustFromBig (Some r) in
  let* s' := MustFromBig (Some s) in
  match BlobTx_GetTo tx with
  | None => Panic nil_deref
  | Some to =>
      Ret (EthBlob (mkEthBlobTx chainID (BlobTx_GetNonce tx) gasTipCap gasFeeCap (BlobTx_GetGas tx) to value
        (BlobTx_GetData tx) (BlobTx_GetAccessList tx) blobFeeCap (BlobTx_GetBlobHashes tx) sidecar v' r' s'))
  end.

Definition BlobTx_blobFee (tx : BlobTx) : outcome Z := fee (BlobTx_GetBlobFeeCap tx) (BlobTx_BlobGas tx).
Definition BlobTx_Fee (tx : BlobTx) : outcome Z :=
  let* f := fee (BlobTx_GetGasFeeCap tx) (bt_GasLimit tx) in
  let* b := BlobTx_blobFee tx in Ret (f + b).
Definition BlobTx_Cost (tx : BlobTx) : outcome Z :=
  let* f := BlobTx_Fee tx in Ret (cost f (BlobTx_GetValue tx)).
Definition BlobTx_EffectiveGasPrice (tx : BlobTx) (baseFee : option Z) : outcome Z :=
  EffectiveGasPrice baseFee (bt_GasFeeCap tx) (bt_GasTipCap tx).
Definition BlobTx_EffectiveFee (tx : BlobTx) (baseFee : option Z) : outcome Z :=
  let* p := BlobTx_EffectiveGasPrice tx baseFee in
  let* f := fee (Some p) (bt_GasLimit tx) in
  let* b := BlobTx_blobFee tx in Ret (f + b).
Definition BlobTx_EffectiveCost (tx : BlobTx) (baseFee : option Z) : outcome Z :=
  let* f := BlobTx_EffectiveFee tx baseFee in Ret (cost f (BlobTx_GetValue tx)).

Definition BlobTx_Validate (tx : BlobTx) : outcome (option Err) :=
  match bt_GasTipCap tx, bt_GasFeeCap tx with
  | None, _ => Ret (Some "gas tip cap cannot nil"%string)
  | _, None => Ret (Some "gas fee cap cannot nil"%string)
  | Some tip, Some cap =>
      if tip <? 0 then Ret (Some "gas tip cap cannot be negative"%string) else
      if cap <? 0 then Ret (Some "gas fee cap cannot be negative"%string) else
      if cap <? tip then Ret (Some "max priority fee per gas higher than max fee per gas"%string) else
      let* f := BlobTx_Fee tx in
      if negb (IsValidInt256 (Some f)) then Ret (Some "fee out of bound"%string) else
      if negative_amount (BlobTx_GetValue tx) then Ret (Some "amount cannot be negative"%string) else
      if invalid_to (bt_To tx) then Ret (Some "invalid to address"%string) else
      match BlobTx_GetChainID tx with
      | None => Ret (Some "chain ID must be present on AccessList txs"%string)
      | Some _ => Ret None
      end
  end.

Definition NewBlobTx (tx : T) : outcome (option BlobTx * option Err) :=
  match ValidateEthTx tx with
  | Some e => Ret (None, Some e)
  | None =>
      let txData := mkBlobTx None (tx_Nonce tx) None None (tx_Gas tx) "" None (tx_Data tx) [] None [] None [] [] [] in
      let '(v, r, s) := tx_RawSignatureValues tx in
      let* t1 := SetConvertIfPresent (tx_To tx) (λ a, Ret (addr_Hex a)) BlobTx_SetTo txData in
      let* t2 := SetConvertIfPresent (tx_Value tx) NewIntFromBigInt BlobTx_SetAmount t1 in
      let* t3 := SetConvertIfPresent (tx_GasFeeCap tx) NewIntFromBigInt BlobTx_SetGasFeeCap t2 in
      let* t4 := SetConvertIfPresent (tx_GasTipCap tx) NewIntFromBigInt BlobTx_SetGasTipCap t3 in
      let* t5 := SetConvertIfPresent (Some (tx_AccessList tx)) (λ al, Ret (NewAccessList al)) BlobTx_SetAccesses t4 in
      let* t6 := SetConvertIfPresent (tx_BlobGasFeeCap tx) NewIntFromBigInt BlobTx_SetBlobFeeCap t5 in
      let* t7 := SetConvertIfPresent (Some (tx_BlobHashes tx)) (λ hs, Ret (ba <$> hs)) BlobTx_SetBlobHashes t6 in
      let* t8 := SetConvertIfPresent (tx_BlobTxSidecar tx) (λ sc, Ret (sidecarConverter sc)) BlobTx_SetBlobSidecar t7 in
      let* t9 := BlobTx_SetSignatureValues (tx_ChainId tx) v r s t8 in
      let* err := BlobTx_Validate t9 in
      Ret (Some t9, err)
  end.

(** ** The interface TxData (txdata.go)

    The methods of the interface, by implementation; those of [AssociateTx]
    panic. *)

Definition not_implemented {X : Type} : outcome X := Panic "not implemented".

Definition TxData_TxType (td : TxData) : outcome Z :=
  match td with
  | TLegacy tx => Ret (LegacyTx_TxType tx) | TAccessList tx => Ret (AccessListTx_TxType tx)
  | TDynamicFee tx => Ret (DynamicFeeTx_TxType tx) | TBlob tx => Ret (BlobTx_TxType tx)
  | TAssociate _ => not_implemented
  end.
Definition TxData_Copy (td : TxData) : outcome TxData :=
  match td with
  | TLegacy tx => Ret (LegacyTx_Copy tx) | TAccessList tx => Ret (AccessListTx_Copy tx)
  | TDynamicFee tx => Ret (DynamicFeeTx_Copy tx) | TBlob tx => Ret (BlobTx_Copy tx)
  | TAssociate _ => not_implemented
  end.
Definition TxData_GetChainID (td : TxData) : outcome (option Z) :=
  match td with
  | TLegacy tx => Ret (LegacyTx_GetChainID tx) | TAccessList tx => Ret (AccessListTx_GetChainID tx)
  | TDynamicFee tx => Ret (DynamicFeeTx_GetChainID tx) | TBlob tx => Ret (BlobTx_GetChainID tx)
  | TAssociate _ => not_implemented
  end.
Definition TxData_GetAccessList (td : TxData) : outcome (list EthAccessTuple) :=
  match td with
  | TLegacy tx => Ret (LegacyTx_GetAccessList tx) | TAccessList tx => Ret (AccessListTx_GetAccessList tx)
  | TDynamicFee tx => Ret (DynamicFeeTx_GetAccessList tx) | TBlob tx => Ret (BlobTx_GetAccessList tx)
  | TAssociate _ => not_implemented
  end.
Definition TxData_GetData (td : TxData) : outcome bytes :=
  match td with
  | TLegacy tx => Ret (LegacyTx_GetData tx) | TAccessList tx => Ret (AccessListTx_GetData tx)
  | TDynamicFee tx => Ret (DynamicFeeTx_GetData tx) | TBlob tx => Ret (BlobTx_GetData tx)
  | TAssociate _ => not_implemented
  end.
Definition TxData_GetNonce (td : TxData) : outcome Z :=
  match td with
  | TLegacy tx => Ret (LegacyTx_GetNonce tx) | TAccessList tx => Ret (AccessListTx_GetNonce tx)
  | TDynamicFee tx => Ret (DynamicFeeTx_GetNonce tx) | TBlob tx => Ret (BlobTx_GetNonce tx)
  | TAssociate _ => not_implemented
  end.
Definition TxData_GetGas (td : TxData) : outcome Z :=
  match td with
  | TLegacy tx => Ret (LegacyTx_GetGas tx) | TAccessList tx => Ret (AccessListTx_GetGas tx)
  | TDynamicFee tx => Ret (DynamicFeeTx_GetGas tx) | TBlob tx => Ret (BlobTx_GetGas tx)
  | TAssociate _ => not_implemented
  end.
Definition TxData_GetGasPrice (td : TxData) : outcome (option Z) :=
  match td with
  | TLegacy tx => Ret (LegacyTx_GetGasPrice tx) | TAccessList tx => Ret (AccessListTx_GetGasPrice tx)
  | TDynamicFee tx => Ret (DynamicFeeTx_GetGasPrice tx) | TBlob tx => Ret (BlobTx_GetGasPrice tx)
  | TAssociate _ => not_implemented
  end.
Definition TxData_GetGasTipCap (td : TxData) : outcome (option Z) :=
  match td with
  | TLegacy tx => Ret (LegacyTx_GetGasTipCap tx) | TAccessList tx => Ret (AccessListTx_GetGasTipCap tx)
  | TDynamicFee tx => Ret (DynamicFeeTx_GetGasTipCap tx) | TBlob tx => Ret (BlobTx_GetGasTipCap tx)
  | TAssociate _ => not_implemented
  end.
Definition TxData_GetGasFeeCap (td : TxData) : outcome (option Z) :=
  match td with
  | TLegacy tx => Ret (LegacyTx_GetGasFeeCap tx) | TAccessList tx => Ret (AccessListTx_GetGasFeeCap tx)
  | TDynamicFee tx => Ret (DynamicFeeTx_GetGasFeeCap tx) | TBlob tx => Ret (BlobTx_GetGasFeeCap tx)
  | TAssociate _ => not_implemented
  end.
Definition TxData_GetValue (td : TxData) : outcome (option Z) :=
  match td with
  | TLegacy tx => Ret (LegacyTx_GetValue tx) | TAccessList tx => Ret (AccessListTx_GetValue tx)
  | TDynamicFee tx => Ret (DynamicFeeTx_GetValue tx) | TBlob tx => Ret (BlobTx_GetValue tx)
  | TAssociate _ => not_implemented
  end.
Definition TxData_GetTo (td : TxData) : outcome (option Address) :=
  match td with
  | TLegacy tx => Ret (LegacyTx_GetTo tx) | TAccessList tx => Ret (AccessListTx_GetTo tx)
  | TDynamicFee tx => Ret (DynamicFeeTx_GetTo tx) | TBlob tx => Ret (BlobTx_GetTo tx)
  | TAssociate _ => not_implemented
  end.
Definition TxData_GetRawSignatureValues (td : TxData) : Z * Z * Z :=
  match td with
  | TLegacy tx => LegacyTx_GetRawSignatureValues tx | TAccessList tx => AccessListTx_GetRawSignatureValues tx
  | TDynamicFee tx => DynamicFeeTx_GetRawSignatureValues tx | TBlob tx => BlobTx_GetRawSignatureValues tx
  | TAssociate tx => AssociateTx_GetRawSignatureValues tx
  end.
Definition TxData_AsEthereumData (td : TxData) : outcome EthTxData :=
  match td with
  | TLegacy tx => Ret (LegacyTx_AsEthereumData tx) | TAccessList tx => Ret (AccessListTx_AsEthereumData tx)
  | TDynamicFee tx => Ret (DynamicFeeTx_AsEthereumData tx) | TBlob tx => BlobTx_AsEthereumData tx
  | TAssociate _ => not_implemented
  end.
Definition TxData_Validate (td : TxData) : outcome (option Err) :=
  match td with
  | TLegacy tx => LegacyTx_Validate tx | TAccessList tx => AccessListTx_Validate tx
  | TDynamicFee tx => DynamicFeeTx_Validate tx | TBlob tx => BlobTx_Validate tx
  | TAssociate _ => not_implemented
  end.
Definition TxData_Fee (td : TxData) : outcome Z :=
  match td with
  | TLegacy tx => LegacyTx_Fee tx | TAccessList tx => AccessListTx_Fee tx
  | TDynamicFee tx => DynamicFeeTx_Fee tx | TBlob tx => BlobTx_Fee tx
  | TAssociate _ => not_implemented
  end.
Definition TxData_Cost (td : TxData) : outcome Z :=
  match td with
  | TLegacy tx => LegacyTx_Cost tx | TAccessList tx => AccessListTx_Cost tx
  | TDynamicFee tx => DynamicFeeTx_Cost tx | TBlob tx => BlobTx_Cost tx
  | TAssociate _ => not_implemented
  end.
Definition TxData_EffectiveGasPrice (td : TxData) (baseFee : option Z) : outcome (option Z) :=
  match td with
  | TLegacy tx => Ret (LegacyTx_EffectiveGasPrice tx baseFee)
  | TAccessList tx => Ret (AccessListTx_EffectiveGasPrice tx baseFee)
  | TDynamicFee tx => let* p := DynamicFeeTx_EffectiveGasPrice tx baseFee in Ret (Some p)
  | TBlob tx => let* p := BlobTx_EffectiveGasPrice tx baseFee in Ret (Some p)
  | TAssociate _ => not_implemented
  end.
Definition TxData_EffectiveFee (td : TxData) (baseFee : option Z) : outcome Z :=
  match td with
  | TLegacy tx => LegacyTx_EffectiveFee tx baseFee | TAccessList tx => AccessListTx_EffectiveFee tx baseFee
  | TDynamicFee tx => DynamicFeeTx_EffectiveFee tx baseFee | TBlob tx => BlobTx_EffectiveFee tx baseFee
  | TAssociate _ => not_implemented
  end.
Definition TxData_EffectiveCost (td : TxData) (baseFee : option Z) : outcome Z :=
  match td with
  | TLegacy tx => LegacyTx_EffectiveCost tx baseFee | TAccessList tx => AccessListTx_EffectiveCost tx baseFee
  | TDynamicFee tx => DynamicFeeTx_EffectiveCost tx baseFee | TBlob tx => BlobTx_EffectiveCost tx baseFee
  | TAssociate _ => not_implemented
  end.
Definition TxData_GetBlobHashes (td : TxData) : outcome (list Hash) :=
  match td with
  | TLegacy _ | TAccessList _ | TDynamicFee _ => Ret []
  | TBlob tx => Ret (BlobTx_GetBlobHashes tx)
  | TAssociate _ => not_implemented
  end.
Definition TxData_GetBlobFeeCap (td : TxData) : outcome (option Z) :=
  match td with
  | TLegacy _ | TAccessList _ | TDynamicFee _ => Ret None
  | TBlob tx => Ret (BlobTx_GetBlobFeeCap tx)
  | TAssociate _ => not_implemented
  end.

Definition NewTxDataFromTx (tx : T) : outcome (option TxData * option Err) :=
  let wrap {X} (inj : X → TxData) (r : outcome (option X * option Err)) : outcome (option TxData * option Err) :=
    let* p := r in
    match p.2 with Some e => Ret (None, Some e) | None => Ret (inj <$> p.1, None) end in
  if tx_Type tx =? DynamicFeeTxType then wrap TDynamicFee (NewDynamicFeeTx tx)
  else if tx_Type tx =? AccessListTxType then wrap TAccessList (NewAccessListTx tx)
  else if tx_Type tx =? BlobTxType then wrap TBlob (NewBlobTx tx)
  else wrap TLegacy (NewLegacyTx tx).

End EthTx.

(** ** Transactions that can be carried

    Amounts and fees fit 256 bits, the tip is at most the fee cap, signature
    values are not negative, and arrays have their lengths. *)

Definition in256 (o : option Z) : Prop := match o with Some z => 0 ≤ z < 2 ^ 256 | None => False end.
Definition nonneg (o : option Z) : Prop := match o with Some z => 0 ≤ z | None => False end.

Definition fees_ok (tip cap : option Z) (gas blobFee : Z) : Prop :=
  match tip, cap with
  | Some t, Some c => 0 ≤ t ≤ c ∧ 0 ≤ gas ∧ 0 ≤ blobFee ∧ c < 2 ^ 256 ∧ c * gas + blobFee < 2 ^ 256
  | _, _ => False
  end.

Definition arrays_ok (n : Z) (l : list bytes) : Prop := Forall (λ b, Z.of_nat (length b) = n) l.
Definition sidecar_ok (o : option EthSidecar) : Prop :=
  match o with
  | None => True
  | Some sc =>
      arrays_ok BlobLength (es_Blobs sc) ∧ arrays_ok CommitmentLength (es_Commitments sc) ∧
      arrays_ok ProofLength (es_Proofs sc)
  end.

Definition tx_ok (d : EthTxData) : Prop :=
  match d with
  | EthLegacy d =>
      fees_ok (el_GasPrice d) (el_GasPrice d) (el_Gas d) 0 ∧ in256 (el_Value d) ∧
      nonneg (el_V d) ∧ nonneg (el_R d) ∧ nonneg (el_S d)
  | EthAccessList d =>
      fees_ok (ea_GasPrice d) (ea_GasPrice d) (ea_Gas d) 0 ∧ in256 (ea_Value d) ∧ in256 (ea_ChainID d) ∧
      nonneg (ea_V d) ∧ nonneg (ea_R d) ∧ nonneg (ea_S d)
  | EthDynamicFee d =>
      fees_ok (ed_GasTipCap d) (ed_GasFeeCap d) (ed_Gas d) 0 ∧ in256 (ed_Value d) ∧ in256 (ed_ChainID d) ∧
      nonneg (ed_V d) ∧ nonneg (ed_R d) ∧ nonneg (ed_S d)
  | EthBlob d =>
      fees_ok (eb_GasTipCap d) (eb_GasFeeCap d) (eb_Gas d)
        (default 0 (eb_BlobFeeCap d) * u64 (131072 * Z.of_nat (length (eb_BlobHashes d)))) ∧
      in256 (eb_Value d) ∧ in256 (eb_ChainID d) ∧ in256 (eb_BlobFeeCap d) ∧
      in256 (eb_V d) ∧ in256 (eb_R d) ∧ in256 (eb_S d) ∧ sidecar_ok (eb_Sidecar d)
  end.

(** ** Valid transaction data *)

(** Both fee caps are present and ordered, the fee can be computed and fits 256
    bits, the amount is not negative, the recipient is empty or an address, and
    there is a chain ID. *)
Definition valid_fields `{EthHex} (tip cap : option Z) (f : outcome Z) (value : option Z) (to : string)
    (chain : option Z) : Prop :=
  ∃ t c x, tip = Some t ∧ cap = Some c ∧ f = Ret x ∧ 0 ≤ t ≤ c ∧ BitLen x ≤ 256 ∧
    (∀ a, value = Some a → 0 ≤ a) ∧ (to = ""%string ∨ IsHexAddress to = true) ∧ is_Some chain.

(** The terms of a transaction, read off its fields: both fee caps, the maximal fee
    at a fee cap, the amount, the recipient, and whether a chain ID is needed and
    missing.  A blob takes 131072 units of blob gas. *)
Record Terms : Type := mkTerms {
  tm_tip : option Z; tm_cap : option Z; tm_fee : Z → option Z; tm_value : option Z; tm_to : string; tm_chain : bool
}.
Definition terms_of (td : TxData) : option Terms :=
  match td with
  | TLegacy tx => Some (mkTerms (lt_GasPrice tx) (lt_GasPrice tx) (λ c, Some (c * lt_GasLimit tx)) (lt_Amount tx) (lt_To tx) true)
  | TAccessList tx =>
      Some (mkTerms (al_GasPrice tx) (al_GasPrice tx) (λ c, Some (c * al_GasLimit tx)) (al_Amount tx) (al_To tx)
              (bool_decide (is_Some (al_ChainID tx))))
  | TDynamicFee tx =>
      Some (mkTerms (df_GasTipCap tx) (df_GasFeeCap tx) (λ c, Some (c * df_GasLimit tx)) (df_Amount tx) (df_To tx)
              (bool_decide (is_Some (df_ChainID tx))))
  | TBlob tx =>
      Some (mkTerms (bt_GasTipCap tx) (bt_GasFeeCap tx)
              (λ c, (λ b, c * bt_GasLimit tx + b * ((131072 * Z.of_nat (length (bt_BlobHashes tx))) `mod` 2 ^ 64)) <$> bt_BlobFeeCap tx)
              (bt_Amount tx) (bt_To tx) (bool_decide (is_Some (bt_ChainID tx))))
  | TAssociate _ => None
  end.

(** Both fee caps are there, not negative and ordered. *)
Definition caps_ok (m : Terms) (t c : Z) : Prop := tm_tip m = Some t ∧ tm_cap m = Some c ∧ 0 ≤ t ≤ c.
Definition valid_tx `{EthHex} (td : TxData) : Prop :=
  ∃ m t c x, terms_of td = Some m ∧ caps_ok m t c ∧ tm_fee m c = Some x ∧ Z.abs x < 2 ^ 256 ∧
    (∀ a, tm_value m = Some a → 0 ≤ a) ∧ (tm_to m = ""%string ∨ IsHexAddress (tm_to m) = true) ∧ tm_chain m = true.
(** The data that cannot be validated: the association of an address, and a blob
    transaction that has its other fee caps but none for blobs. *)
Definition unreadable_tx (td : TxData) : Prop :=
  match td with
  | TAssociate _ => True
  | TBlob tx => bt_BlobFeeCap tx = None ∧ ∃ m t c, terms_of td = Some m ∧ caps_ok m t c
  | _ => False
  end.

(** * Lemmas *)

Section EthTxLemmas.
Context `{EH : EthHex} `{EHL : !EthHexLaws} `{IL : IntLibs} `{ILL : !IntLibsLaws}.
Context `{ET : EthTransactions T} `{ETL : !EthTransactionsLaws T}.

Lemma BitLen_256 z : 0 ≤ z < 2 ^ 256 → BitLen z ≤ 256.
Proof. intros H. apply BitLen_le; lia. Qed.

Lemma valid_in256 z : 0 ≤ z < 2 ^ 256 → IsValidInt256 (Some z) = true.
Proof. intros H. apply Z.leb_le. by apply BitLen_256. Qed.

Lemma convert_int {S} z (f : Z → S → S) s : 0 ≤ z < 2 ^ 256 → SetConvertIfPresent (Some z) NewIntFromBigInt f s = Ret (f z s).
Proof. intros H. simpl. by rewrite NewIntFromBigInt_ok by (by apply BitLen_256). Qed.

Lemma chain_id_set c old : 0 ≤ c < 2 ^ 256 → set_chain_id (Some c) old = Ret (Some c).
Proof. intros H. simpl. by rewrite NewIntFromBigInt_ok by (by apply BitLen_256). Qed.

Lemma sig_read z : 0 ≤ z → match big_Bytes z with [] => 0 | _ => big_SetBytes (big_Bytes z) end = z.
Proof.
  intros Hz. pose proof (big_SetBytes_Bytes z) as E. pose proof (big_Bytes_nil z) as N.
  destruct (big_Bytes z); [by rewrite N|lia].
Qed.

Lemma to_address_Hex a : to_address (addr_Hex a) = Some a.
Proof.
  unfold to_address. destruct (String.eqb_spec (addr_Hex a) "") as [E|_]; [by apply addr_Hex_nonempty in E|].
  by rewrite HexToAddress_Hex.
Qed.

Lemma invalid_to_Hex a : invalid_to (addr_Hex a) = false.
Proof. unfold invalid_to, ValidateAddress. rewrite IsHexAddress_Hex. by destruct (String.eqb _ _). Qed.

Lemma access_list_roundtrip al : ToEthAccessList (NewAccessList al) = al.
Proof.
  apply fmap_cancel. intros [a ks]. simpl. rewrite HexToAddress_String. f_equal.
  apply fmap_cancel, HexToHash_String.
Qed.

Lemma copy_hash_ba h : copy_hash (ba h) = h.
Proof.
  apply ba_inj. unfold copy_hash. rewrite ba_fit_id.
  - rewrite take_app_le by (rewrite ba_length; lia). by rewrite take_ge by (rewrite ba_length; lia).
  - rewrite length_take, length_app, ba_length, length_replicate. lia.
Qed.

Lemma arrays_roundtrip n l : arrays_ok n l → map_outcome (to_array n) l = Ret l.
Proof.
  induction 1 as [|b l Hb _ IH]; [done|]. cbn [map_outcome].
  assert (to_array n b = Ret b) as ->; [|cbn [outcome_bind]; by rewrite IH].
  unfold to_array. destruct (Z.ltb_spec (Z.of_nat (length b)) n); [lia|]. by rewrite take_ge by lia.
Qed.

Lemma sidecar_roundtrip o : sidecar_ok o → sidecarToEthSidecar (sidecarConverter <$> o) = Ret o.
Proof.
  destruct o as [[b c p]|]; [|done]. intros (Hb & Hc & Hp).
  unfold sidecarToEthSidecar, sidecarConverter. cbn [fmap option_fmap option_map sc_Blobs sc_Commitments sc_Proofs].
  by rewrite !arrays_roundtrip.
Qed.

Lemma ValidateEthTx_ok d : data_complete d →
  IsValidInt256 (data_Value d) = true → IsValidInt256 (data_GasFeeCap d) = true →
  IsValidInt256 (data_GasTipCap d) = true → IsValidInt256 (data_BlobFeeCap d) = true →
  ValidateEthTx (NewTx d) = None.
Proof.
  intros Hc H1 H2 H3 H4. unfold ValidateEthTx.
  rewrite tx_Value_NewTx, tx_GasPrice_NewTx, tx_GasFeeCap_NewTx, tx_GasTipCap_NewTx, tx_BlobGasFeeCap_NewTx by done.
  by rewrite H1, H2, H3, H4.
Qed.

(** The accessors of a transaction made from complete data. *)
Ltac read_tx Hc :=
  rewrite ?(tx_Type_NewTx _ Hc), ?(tx_Nonce_NewTx _ Hc), ?(tx_Gas_NewTx _ Hc), ?(tx_GasPrice_NewTx _ Hc),
    ?(tx_GasFeeCap_NewTx _ Hc), ?(tx_GasTipCap_NewTx _ Hc), ?(tx_To_NewTx _ Hc), ?(tx_Value_NewTx _ Hc),
    ?(tx_Data_NewTx _ Hc), ?(tx_AccessList_NewTx _ Hc), ?(tx_BlobGasFeeCap_NewTx _ Hc), ?(tx_BlobHashes_NewTx _ Hc),
    ?(tx_BlobTxSidecar_NewTx _ Hc), ?(tx_RawSignatureValues_NewTx _ Hc).

(** ** Validation *)

Lemma negative_amount_false value : negative_amount value = false ↔ ∀ a, value = Some a → 0 ≤ a.
Proof.
  destruct value as [a|]; simpl; [|naive_solver]. rewrite Z.ltb_ge. naive_solver.
Qed.

Lemma invalid_to_false to : invalid_to to = false ↔ to = ""%string ∨ IsHexAddress to = true.
Proof.
  unfold invalid_to, ValidateAddress. destruct (String.eqb_spec to "") as [->|Hne]; [naive_solver|].
  destruct (IsHexAddress to); naive_solver.
Qed.

(** The tail of checks, in either order of the fee and amount checks. *)
Lemma checks_tail (fee_bad amount_bad to_bad : bool) (chain : option Z) (e1 e2 e3 e4 : Err) :
  (if fee_bad then Ret (Some e1) else if amount_bad then Ret (Some e2) else if to_bad then Ret (Some e3)
   else match chain with None => Ret (Some e4) | Some _ => Ret None end) = Ret None ↔
  fee_bad = false ∧ amount_bad = false ∧ to_bad = false ∧ is_Some chain.
Proof. destruct fee_bad, amount_bad, to_bad, chain; naive_solver. Qed.

Lemma IsValidInt256_neg z : negb (IsValidInt256 (Some z)) = false ↔ BitLen z ≤ 256.
Proof. unfold IsValidInt256, maxBitLen. rewrite negb_false_iff. apply Z.leb_le. Qed.

Lemma LegacyTx_Validate_iff tx : LegacyTx_Validate tx = Ret None ↔
  valid_fields (lt_GasPrice tx) (lt_GasPrice tx) (LegacyTx_Fee tx) (lt_Amount tx) (lt_To tx) (LegacyTx_GetChainID tx).
Proof.
  unfold LegacyTx_Validate, LegacyTx_Fee, LegacyTx_GetGasPrice, LegacyTx_GetValue, valid_fields.
  destruct (lt_GasPrice tx) as [p|]; [|naive_solver]. cbn [fee outcome_bind].
  destruct (Z.ltb_spec p 0); [split; [done|intros (?&?&?&[= <-]&[= <-]&?&?&_); lia]|].
  rewrite checks_tail, IsValidInt256_neg, negative_amount_false, invalid_to_false. split.
  - intros (H1 & H2 & H3 & H4). exists p, p, (p * LegacyTx_GetGas tx). split_and!; done || lia.
  - intros (? & ? & x & [= <-] & [= <-] & [= <-] & _ & Hrest). tauto.
Qed.

Lemma AccessListTx_Validate_iff tx : AccessListTx_Validate tx = Ret None ↔
  valid_fields (al_GasPrice tx) (al_GasPrice tx) (AccessListTx_Fee tx) (al_Amount tx) (al_To tx) (al_ChainID tx).
Proof.
  unfold AccessListTx_Validate, AccessListTx_Fee, AccessListTx_GetGasPrice, AccessListTx_GetValue,
    AccessListTx_GetChainID, valid_fields.
  destruct (al_GasPrice tx) as [p|]; [|naive_solver]. cbn [fee outcome_bind].
  destruct (Z.ltb_spec p 0); [split; [done|intros (?&?&?&[= <-]&[= <-]&?&?&_); lia]|].
  rewrite checks_tail, IsValidInt256_neg, negative_amount_false, invalid_to_false. split.
  - intros (H1 & H2 & H3 & H4). exists p, p, (p * AccessListTx_GetGas tx). split_and!; done || lia.
  - intros (? & ? & x & [= <-] & [= <-] & [= <-] & _ & Hrest). tauto.
Qed.

(** The check of the two caps, with the rest of the checks after it. *)
Lemma checks_caps (t c : Z) (f : outcome Z) (value : option Z) (to : string) (chain : option Z)
    (e1 e2 e3 e4 e5 e6 e7 : Err) :
  (if t <? 0 then Ret (Some e1) else if c <? 0 then Ret (Some e2) else if c <? t then Ret (Some e3)
   else let* x := f in
     if negb (IsValidInt256 (Some x)) then Ret (Some e4) else if negative_amount value then Ret (Some e5)
     else if invalid_to to then Ret (Some e6)
     else match chain with None => Ret (Some e7) | Some _ => Ret None end) = Ret None ↔
  valid_fields (Some t) (Some c) f value to chain.
Proof.
  unfold valid_fields. destruct f as [x|m]; cbn [outcome_bind].
  - destruct (Z.ltb_spec t 0), (Z.ltb_spec c 0), (Z.ltb_spec c t);
      try (split; [done|intros (?&?&?&[= <-]&[= <-]&?&?&_); lia]).
    rewrite checks_tail, IsValidInt256_neg, negative_amount_false, invalid_to_false. split.
    + intros (Hx & Ha & Hto & Hch). exists t, c, x. split_and!; done || lia.
    + intros (? & ? & y & [= <-] & [= <-] & [= <-] & _ & Hrest). tauto.
  - split; [|by intros (?&?&?&_&_&?&_)]. by destruct (t <? 0), (c <? 0), (c <? t).
Qed.

Lemma DynamicFeeTx_Validate_iff tx : DynamicFeeTx_Validate tx = Ret None ↔
  valid_fields (df_GasTipCap tx) (df_GasFeeCap tx) (DynamicFeeTx_Fee tx) (df_Amount tx) (df_To tx) (df_ChainID tx).
Proof.
  unfold DynamicFeeTx_Validate, DynamicFeeTx_GetValue, DynamicFeeTx_GetChainID.
  destruct (df_GasTipCap tx) as [t|]; [|split; [done|by intros (?&?&?&?&_)]].
  destruct (df_GasFeeCap tx) as [c|]; [|split; [done|by intros (?&?&?&_&?&_)]]. apply checks_caps.
Qed.

Lemma BlobTx_Validate_iff tx : BlobTx_Validate tx = Ret None ↔
  valid_fields (bt_GasTipCap tx) (bt_GasFeeCap tx) (BlobTx_Fee tx) (bt_Amount tx) (bt_To tx) (bt_ChainID tx).
Proof.
  unfold BlobTx_Validate, BlobTx_GetValue, BlobTx_GetChainID.
  destruct (bt_GasTipCap tx) as [t|]; [|split; [done|by intros (?&?&?&?&_)]].
  destruct (bt_GasFeeCap tx) as [c|]; [|split; [done|by intros (?&?&?&_&?&_)]]. apply checks_caps.
Qed.

Lemma LegacyTx_has_chain tx : is_Some (LegacyTx_GetChainID tx).
Proof.
  unfold LegacyTx_GetChainID. destruct (LegacyTx_GetRawSignatureValues tx) as [[v ?] ?].
  destruct (BitLen v <=? 64); [destruct (_ || _)|]; by eexists.
Qed.

(** The checks on the fields are those on the terms. *)
Lemma valid_fields_terms td m (f : outcome Z) chain : terms_of td = Some m →
  (∀ c x, tm_cap m = Some c → f = Ret x ↔ tm_fee m c = Some x) → (is_Some chain ↔ tm_chain m = true) →
  valid_fields (tm_tip m) (tm_cap m) f (tm_value m) (tm_to m) chain ↔ valid_tx td.
Proof.
  intros Hm Hf Hc. unfold valid_fields, valid_tx, caps_ok. split.
  - intros (t & c & x & H1 & H2 & H3 & H4 & H5 & H6 & H7 & H8). exists m, t, c, x.
    apply BitLen_le in H5; [|lia]. rewrite (Hf c x H2) in H3. rewrite Hc in H8. by split_and!; try done; lia.
  - intros (m' & t & c & x & Hm' & (H1 & H2 & H4) & H3 & H5 & H6 & H7 & H8). rewrite Hm in Hm'. injection Hm' as <-.
    exists t, c, x. rewrite <- (Hf c x H2) in H3. rewrite <- Hc in H8. split_and!; try done; try lia. apply BitLen_le; lia.
Qed.

Lemma Validate_valid td : TxData_Validate td = Ret None ↔ valid_tx td.
Proof.
  destruct td as [tx|tx|tx|tx|tx]; cbn [TxData_Validate].
  - rewrite LegacyTx_Validate_iff. apply (valid_fields_terms (TLegacy tx) _ _ _ eq_refl); cbn [tm_cap tm_fee tm_chain].
    + intros c x Hc. unfold LegacyTx_Fee, LegacyTx_GetGasPrice. rewrite Hc. cbn. naive_solver.
    + split; [done|]. intros _. apply LegacyTx_has_chain.
  - rewrite AccessListTx_Validate_iff. apply (valid_fields_terms (TAccessList tx) _ _ _ eq_refl); cbn [tm_cap tm_fee tm_chain].
    + intros c x Hc. unfold AccessListTx_Fee, AccessListTx_GetGasPrice. rewrite Hc. cbn. naive_solver.
    + by rewrite bool_decide_eq_true.
  - rewrite DynamicFeeTx_Validate_iff. apply (valid_fields_terms (TDynamicFee tx) _ _ _ eq_refl); cbn [tm_cap tm_fee tm_chain].
    + intros c x Hc. unfold DynamicFeeTx_Fee, DynamicFeeTx_GetGasFeeCap. rewrite Hc. cbn. naive_solver.
    + by rewrite bool_decide_eq_true.
  - rewrite BlobTx_Validate_iff. apply (valid_fields_terms (TBlob tx) _ _ _ eq_refl); cbn [tm_cap tm_fee tm_chain].
    + intros c x Hc. unfold BlobTx_Fee, BlobTx_blobFee, BlobTx_GetGasFeeCap, BlobTx_GetBlobFeeCap, BlobTx_BlobGas, u64, two64. rewrite Hc.
      cbn [fee outcome_bind]. destruct (bt_BlobFeeCap tx) as [b|]; cbn [fee outcome_bind fmap option_fmap option_map]; [|done].
      change (2 ^ 64) with 18446744073709551616. split; intros H; injection H as <-; reflexivity.
    + by rewrite bool_decide_eq_true.
  - split; [done|]. by intros (m & ? & ? & ? & ? & _).
Qed.

Lemma Validate_panics td : is_ret (TxData_Validate td) = false ↔ unreadable_tx td.
Proof.
  destruct td as [tx|tx|tx|tx|tx]; cbn [TxData_Validate unreadable_tx]; [| | | |done].
  - unfold LegacyTx_Validate, LegacyTx_Fee. destruct (LegacyTx_GetGasPrice tx); [cbn [fee outcome_bind]|done].
    repeat case_match; done.
  - unfold AccessListTx_Validate, AccessListTx_Fee. destruct (AccessListTx_GetGasPrice tx); [cbn [fee outcome_bind]|done].
    repeat case_match; done.
  - unfold DynamicFeeTx_Validate, DynamicFeeTx_Fee, DynamicFeeTx_GetGasFeeCap.
    destruct (df_GasTipCap tx), (df_GasFeeCap tx); cbn [fee outcome_bind]; repeat case_match; done.
  - unfold BlobTx_Validate, BlobTx_Fee, BlobTx_blobFee, BlobTx_GetGasFeeCap, BlobTx_GetBlobFeeCap, caps_ok. cbn [terms_of].
    destruct (bt_GasTipCap tx) as [t|] eqn:Et; [|split; [done|intros (_ & m & ? & ? & [= <-] & H1 & _); cbn in H1; congruence]].
    destruct (bt_GasFeeCap tx) as [c|] eqn:Ec; [|split; [done|intros (_ & m & ? & ? & [= <-] & _ & H1 & _); cbn in H1; congruence]].
    transitivity (bt_BlobFeeCap tx = None ∧ 0 ≤ t ≤ c); last first.
    { split; [intros [Hb Hle]; split; [done|]; by eexists _, t, c|]. intros (Hb & m & t' & c' & Hm & H1 & H2 & Hle). split; [done|].
      injection Hm as <-. cbn in H1, H2. by simplify_eq. }
    cbn [fee outcome_bind].
    destruct (Z.ltb_spec t 0), (Z.ltb_spec c 0), (Z.ltb_spec c t); cbn [is_ret]; try (split; [done|lia]).
    destruct (bt_BlobFeeCap tx); cbn [fee outcome_bind]; [|naive_solver]. split; [|by intros [? _]]. repeat case_match; done.
Qed.

(** ** Conversion from go-ethereum *)

(** A recipient, written and read back. *)
Definition to_string (to : option Address) : string := match to with Some a => addr_Hex a | None => "" end.

Lemma to_string_ok to : to_string to = ""%string ∨ IsHexAddress (to_string to) = true.
Proof. destruct to as [a|]; simpl; [right; apply IsHexAddress_Hex|by left]. Qed.

Lemma to_address_string to : to_address (to_string to) = to.
Proof. destruct to as [a|]; [apply to_address_Hex|done]. Qed.

Lemma convert_to {S} (f : string → S → S) to (s : S) :
  (f ""%string s = s) → SetConvertIfPresent to (λ a, Ret (addr_Hex a)) f s = Ret (f (to_string to) s).
Proof. intros H. destruct to as [a|]; [done|]. simpl. by rewrite H. Qed.

(** Solve the arithmetic side conditions of the conversions. *)
Ltac ok_num := first [apply valid_in256; nia | apply BitLen_256; nia | nia | done].

Lemma NewLegacyTx_ok d : tx_ok (EthLegacy d) →
  ∃ t, NewLegacyTx (NewTx (EthLegacy d)) = Ret (Some t, None) ∧ LegacyTx_AsEthereumData t = EthLegacy d.
Proof.
  destruct d as [nonce [gp|] gas to [val|] data [v|] [r|] [s|]]; cbn -[Z.pow]; try tauto.
  intros ((Hle & Hgas & _ & Hgp & Hfee) & Hval & Hv & Hr & Hs).
  set (d := EthLegacy _). assert (Hc : data_complete d) by (repeat constructor; by eexists).
  set (t := mkLegacyTx nonce (Some gp) gas (to_string to) (Some val) data (big_Bytes v) (big_Bytes r) (big_Bytes s)).
  assert (HV : LegacyTx_Validate t = Ret None).
  { apply LegacyTx_Validate_iff. exists gp, gp, (gp * gas). split_and!; try ok_num.
    - intros a [= <-]. lia.
    - apply to_string_ok.
    - apply LegacyTx_has_chain. }
  exists t. split.
  - unfold NewLegacyTx. rewrite ValidateEthTx_ok by ok_num. read_tx Hc.
    cbn [d data_sig data_To data_Value data_GasFeeCap el_V el_R el_S el_To el_Value el_GasPrice].
    rewrite convert_to by done. cbn [outcome_bind]. rewrite !convert_int by lia. cbn [outcome_bind].
    rewrite convert_int by lia. cbn [outcome_bind].
    change (outcome_bind (LegacyTx_Validate t) (λ err, Ret (Some t, err)) = Ret (Some t, None)). by rewrite HV.
  - unfold LegacyTx_AsEthereumData, LegacyTx_GetRawSignatureValues, rawSignatureValues, LegacyTx_GetTo, t.
    cbn [lt_V lt_R lt_S lt_To]. by rewrite !sig_read, to_address_string.
Qed.

Lemma NewAccessListTx_ok d : tx_ok (EthAccessList d) →
  ∃ t, NewAccessListTx (NewTx (EthAccessList d)) = Ret (Some t, None) ∧ AccessListTx_AsEthereumData t = EthAccessList d.
Proof.
  destruct d as [[c|] nonce [gp|] gas to [val|] data al [v|] [r|] [s|]]; cbn -[Z.pow]; try tauto.
  intros ((Hle & Hgas & _ & Hgp & Hfee) & Hval & Hch & Hv & Hr & Hs).
  set (d := EthAccessList _). assert (Hc : data_complete d) by (repeat constructor; by eexists).
  set (t := mkAccessListTx (Some c) nonce (Some gp) gas (to_string to) (Some val) data (NewAccessList al)
              (big_Bytes v) (big_Bytes r) (big_Bytes s)).
  assert (HV : AccessListTx_Validate t = Ret None).
  { apply AccessListTx_Validate_iff. exists gp, gp, (gp * gas). split_and!; try ok_num.
    - intros a [= <-]. lia.
    - apply to_string_ok. }
  exists t. split.
  - unfold NewAccessListTx. rewrite ValidateEthTx_ok by ok_num. read_tx Hc.
    rewrite (tx_ChainId_NewTx d c Hc eq_refl).
    cbn [d data_sig data_To data_Value data_GasFeeCap data_AccessList ea_V ea_R ea_S ea_To ea_Value ea_GasPrice ea_AccessList].
    rewrite convert_to by done. cbn [outcome_bind]. do 2 (rewrite convert_int by lia; cbn [outcome_bind]).
    cbn [SetConvertIfPresent outcome_bind]. unfold AccessListTx_SetSignatureValues.
    rewrite chain_id_set by lia. cbn [outcome_bind].
    change (outcome_bind (AccessListTx_Validate t) (λ err, Ret (Some t, err)) = Ret (Some t, None)). by rewrite HV.
  - unfold AccessListTx_AsEthereumData, AccessListTx_GetRawSignatureValues, rawSignatureValues, AccessListTx_GetTo,
      AccessListTx_GetAccessList, t.
    cbn [al_V al_R al_S al_To al_Accesses]. by rewrite !sig_read, to_address_string, access_list_roundtrip.
Qed.

Lemma NewDynamicFeeTx_ok d : tx_ok (EthDynamicFee d) →
  ∃ t, NewDynamicFeeTx (NewTx (EthDynamicFee d)) = Ret (Some t, None) ∧ DynamicFeeTx_AsEthereumData t = EthDynamicFee d.
Proof.
  destruct d as [[c|] nonce [tip|] [cap|] gas to [val|] data al [v|] [r|] [s|]]; cbn -[Z.pow]; try tauto.
  intros ((Hle & Hgas & _ & Hgp & Hfee) & Hval & Hch & Hv & Hr & Hs).
  set (d := EthDynamicFee _). assert (Hc : data_complete d) by (repeat constructor; by eexists).
  set (t := mkDynamicFeeTx (Some c) nonce (Some tip) (Some cap) gas (to_string to) (Some val) data (NewAccessList al)
              (big_Bytes v) (big_Bytes r) (big_Bytes s)).
  assert (HV : DynamicFeeTx_Validate t = Ret None).
  { apply DynamicFeeTx_Validate_iff. exists tip, cap, (cap * gas). split_and!; try ok_num.
    - intros a [= <-]. lia.
    - apply to_string_ok. }
  exists t. split.
  - unfold NewDynamicFeeTx. rewrite ValidateEthTx_ok by ok_num. read_tx Hc.
    rewrite (tx_ChainId_NewTx d c Hc eq_refl).
    cbn [d data_sig data_To data_Value data_GasFeeCap data_GasTipCap data_AccessList ed_V ed_R ed_S ed_To ed_Value
      ed_GasFeeCap ed_GasTipCap ed_AccessList].
    rewrite convert_to by done. cbn [outcome_bind]. do 3 (rewrite convert_int by lia; cbn [outcome_bind]).
    cbn [SetConvertIfPresent outcome_bind]. unfold DynamicFeeTx_SetSignatureValues.
    rewrite chain_id_set by lia. cbn [outcome_bind].
    change (outcome_bind (DynamicFeeTx_Validate t) (λ err, Ret (Some t, err)) = Ret (Some t, None)). by rewrite HV.
  - unfold DynamicFeeTx_AsEthereumData, DynamicFeeTx_GetRawSignatureValues, rawSignatureValues, DynamicFeeTx_GetTo,
      DynamicFeeTx_GetAccessList, t.
    cbn [df_V df_R df_S df_To df_Accesses]. by rewrite !sig_read, to_address_string, access_list_roundtrip.
Qed.

Lemma BlobTx_AsEthereumData_ok c nonce tip cap gas to val data al bfee hs sc v r s :
  Forall in256 [Some c; Some tip; Some cap; Some val; Some bfee; Some v; Some r; Some s] → sidecar_ok sc →
  BlobTx_AsEthereumData (mkBlobTx (Some c) nonce (Some tip) (Some cap) gas (addr_Hex to) (Some val) data
    (NewAccessList al) (Some bfee) (ba <$> hs) (sidecarConverter <$> sc) (big_Bytes v) (big_Bytes r) (big_Bytes s)) =
  Ret (EthBlob (mkEthBlobTx (Some c) nonce (Some tip) (Some cap) gas to (Some val) data al (Some bfee) hs sc
    (Some v) (Some r) (Some s))).
Proof.
  rewrite !Forall_cons. intros (Hc & Htip & Hcap & Hval & Hb & Hv & Hr & Hs & _) Hsc. unfold in256 in *.
  unfold BlobTx_AsEthereumData, BlobTx_GetRawSignatureValues, rawSignatureValues, BlobTx_GetChainID,
    BlobTx_GetGasTipCap, BlobTx_GetGasFeeCap, BlobTx_GetValue, BlobTx_GetBlobFeeCap, BlobTx_GetTo.
  cbn [bt_V bt_R bt_S bt_ChainID bt_GasTipCap bt_GasFeeCap bt_Amount bt_BlobFeeCap bt_Sidecar bt_To].
  rewrite !sig_read by lia. rewrite !MustFromBig_ok by lia. rewrite sidecar_roundtrip by done. cbn [outcome_bind].
  destruct (String.eqb_spec (addr_Hex to) "") as [E|_]; [by apply addr_Hex_nonempty in E|].
  unfold BlobTx_GetBlobHashes, BlobTx_GetAccessList. cbn [bt_BlobHashes bt_Accesses].
  by rewrite HexToAddress_Hex, access_list_roundtrip, (fmap_cancel ba copy_hash hs copy_hash_ba).
Qed.

Lemma NewBlobTx_ok d : tx_ok (EthBlob d) →
  ∃ t, NewBlobTx (NewTx (EthBlob d)) = Ret (Some t, None) ∧ BlobTx_AsEthereumData t = Ret (EthBlob d).
Proof.
  destruct d as [[c|] nonce [tip|] [cap|] gas to [val|] data al [bfee|] hs sc [v|] [r|] [s|]]; cbn -[Z.pow u64]; try tauto.
  intros ((Hle & Hgas & Hbg & Hgp & Hfee) & Hval & Hch & Hbf & Hv & Hr & Hs & Hsc).
  set (d := EthBlob _). assert (Hc : data_complete d) by (repeat constructor; by eexists).
  set (t := mkBlobTx (Some c) nonce (Some tip) (Some cap) gas (addr_Hex to) (Some val) data (NewAccessList al)
              (Some bfee) (ba <$> hs) (sidecarConverter <$> sc) (big_Bytes v) (big_Bytes r) (big_Bytes s)).
  assert (HV : BlobTx_Validate t = Ret None).
  { apply BlobTx_Validate_iff. exists tip, cap, (cap * gas + bfee * u64 (131072 * Z.of_nat (length hs))).
    split_and!; try ok_num.
    - unfold BlobTx_Fee, BlobTx_blobFee, BlobTx_BlobGas, t. cbn -[u64 Z.mul]. by rewrite length_fmap.
    - intros a [= <-]. lia.
    - right. apply IsHexAddress_Hex. }
  exists t. split; [|apply BlobTx_AsEthereumData_ok; [rewrite !Forall_cons; unfold in256; split_and!; lia || by apply Forall_nil_2|done]].
  unfold NewBlobTx. rewrite ValidateEthTx_ok by ok_num. read_tx Hc. rewrite (tx_ChainId_NewTx d c Hc eq_refl).
  cbn [d data_sig data_To data_Value data_GasFeeCap data_GasTipCap data_AccessList data_BlobFeeCap data_BlobHashes
    data_Sidecar eb_V eb_R eb_S eb_To eb_Value eb_GasFeeCap eb_GasTipCap eb_AccessList eb_BlobFeeCap eb_BlobHashes eb_Sidecar].
  cbn [SetConvertIfPresent outcome_bind]. do 4 (rewrite NewIntFromBigInt_ok by ok_num; cbn [outcome_bind]).
  destruct sc as [sc|]; cbn [SetConvertIfPresent outcome_bind]; unfold BlobTx_SetSignatureValues;
    rewrite chain_id_set by lia; cbn [outcome_bind];
    change (outcome_bind (BlobTx_Validate t) (λ err, Ret (Some t, err)) = Ret (Some t, None)); by rewrite HV.
Qed.

End EthTxLemmas.

(** * Theorems *)

Section EthTxTheorems.
Context `{EH : EthHex} `{IL : IntLibs} `{ET : EthTransactions T}.

(** C35: a go-ethereum transaction of any type whose numbers fit is accepted by
    [NewTxDataFromTx], and turning the result back into go-ethereum data gives
    the transaction unchanged: nonce, fees, recipient, amount, data, access
    list, blobs, chain and signature. *)
Theorem tx_data_roundtrip (d : EthTxData) :
  EthHexLaws → IntLibsLaws → EthTransactionsLaws T → tx_ok d →
  ∃ td, NewTxDataFromTx (NewTx d) = Ret (Some td, None) ∧ TxData_AsEthereumData td = Ret d.
Proof.
  intros EHL ILL ETL Hok. unfold NewTxDataFromTx.
  assert (Hc : data_complete d).
  { destruct d as [d|d|d|d]; simpl in *; unfold fees_ok, in256, nonneg in Hok;
      repeat match goal with |- context [?p d] => destruct (p d); try tauto end;
      rewrite !Forall_cons; split_and!; by eexists || by apply Forall_nil_2. }
  rewrite (tx_Type_NewTx _ Hc). destruct d as [d|d|d|d]; cbn [data_Type].
  - destruct (NewLegacyTx_ok d Hok) as (t & Ht & Ha). exists (TLegacy t).
    split; [by rewrite Ht|exact (f_equal Ret Ha)].
  - destruct (NewAccessListTx_ok d Hok) as (t & Ht & Ha). exists (TAccessList t).
    split; [by rewrite Ht|exact (f_equal Ret Ha)].
  - destruct (NewDynamicFeeTx_ok d Hok) as (t & Ht & Ha). exists (TDynamicFee t).
    split; [by rewrite Ht|exact (f_equal Ret Ha)].
  - destruct (NewBlobTx_ok d Hok) as (t & Ht & Ha). exists (TBlob t). split; [by rewrite Ht|exact Ha].
Qed.

(** C37: the validation of transaction data, for each of its verdicts.  It accepts
    exactly the data whose fee caps are present, not negative and ordered, whose
    maximal fee, with that of its blobs, fits 256 bits, whose amount is not
    negative, whose recipient is empty or an address, and that has a chain ID
    unless it is a legacy transaction.  It panics exactly on associations and on
    blob transactions without a fee cap for blobs (whose other caps are in order),
    and returns an error for all other data. *)
Theorem tx_validate_exact (td : TxData) :
  (TxData_Validate td = Ret None ↔ valid_tx td) ∧
  (is_ret (TxData_Validate td) = false ↔ unreadable_tx td) ∧
  ((∃ e, TxData_Validate td = Ret (Some e)) ↔ ¬ valid_tx td ∧ ¬ unreadable_tx td).
Proof.
  pose proof (Validate_valid td) as H1. pose proof (Validate_panics td) as H2. split_and!; [done..|].
  rewrite <- H1, <- H2. destruct (TxData_Validate td) as [[e|]|]; simpl; split; try naive_solver.
Qed.

(** For validated data, the price, fee and cost at any base fee can be
    computed, and they never exceed the fee cap, the maximal fee and the maximal
    cost the sender agreed to; the maximal fee fits 256 bits. *)
Theorem effective_cost_bounded (td : TxData) (gas base : Z) :
  TxData_Validate td = Ret None → TxData_GetGas td = Ret gas → 0 ≤ gas → 0 ≤ base →
  ∃ cap p f' f c' c,
    TxData_GetGasFeeCap td = Ret (Some cap) ∧ TxData_EffectiveGasPrice td (Some base) = Ret (Some p) ∧
    TxData_EffectiveFee td (Some base) = Ret f' ∧ TxData_Fee td = Ret f ∧
    TxData_EffectiveCost td (Some base) = Ret c' ∧ TxData_Cost td = Ret c ∧
    0 ≤ p ≤ cap ∧ f' ≤ f ∧ c' ≤ c ∧ f < 2 ^ 256.
Proof.
  assert (Hcost : ∀ f' f v, f' ≤ f → cost f' v ≤ cost f v) by (intros ?? [v|]; simpl; lia).
  assert (Hbit : ∀ z, BitLen z ≤ 256 → z < 2 ^ 256) by (intros z Hz; apply BitLen_le in Hz; lia).
  destruct td as [tx|tx|tx|tx|tx]; cbn [TxData_Validate TxData_GetGas]; intros HV [= <-] Hg Hb.
  - apply LegacyTx_Validate_iff in HV as (t & c & x & Ht & Hc & Hx & Hle & Hfit & _). exists c, c, x, x.
    eexists _, _. simpl. unfold LegacyTx_EffectiveGasPrice, LegacyTx_EffectiveFee, LegacyTx_EffectiveCost, LegacyTx_Cost.
    rewrite Hx. split_and!; try done; try lia; try exact (f_equal Ret Hc). by apply Hbit.
  - apply AccessListTx_Validate_iff in HV as (t & c & x & Ht & Hc & Hx & Hle & Hfit & _). exists c, c, x, x.
    eexists _, _. simpl. unfold AccessListTx_EffectiveGasPrice, AccessListTx_EffectiveFee, AccessListTx_EffectiveCost,
      AccessListTx_Cost.
    rewrite Hx. split_and!; try done; try lia; try exact (f_equal Ret Hc). by apply Hbit.
  - apply DynamicFeeTx_Validate_iff in HV as (t & c & x & Ht & Hc & Hx & Hle & Hfit & _).
    unfold DynamicFeeTx_GetGas in Hg. pose proof Hx as Hx'. unfold DynamicFeeTx_Fee, DynamicFeeTx_GetGasFeeCap in Hx'.
    rewrite Hc in Hx'. injection Hx' as Hx'.
    exists c, (Z.min (t + base) c), (Z.min (t + base) c * df_GasLimit tx), x. eexists _, _. simpl.
    unfold DynamicFeeTx_EffectiveCost, DynamicFeeTx_EffectiveFee, DynamicFeeTx_EffectiveGasPrice, DynamicFeeTx_Cost.
    rewrite Hx, Ht, Hc. cbn [EffectiveGasPrice outcome_bind fee].
    split_and!; try done; try lia; try exact (f_equal Ret Hc); [nia|apply Hcost; nia|by apply Hbit].
  - apply BlobTx_Validate_iff in HV as (t & c & x & Ht & Hc & Hx & Hle & Hfit & _).
    unfold BlobTx_GetGas in Hg. pose proof Hx as Hx'. unfold BlobTx_Fee, BlobTx_GetGasFeeCap in Hx'.
    rewrite Hc in Hx'. cbn [fee outcome_bind] in Hx'.
    destruct (BlobTx_blobFee tx) as [b|] eqn:Hblob; [|done]. injection Hx' as Hx'.
    exists c, (Z.min (t + base) c), (Z.min (t + base) c * bt_GasLimit tx + b), x. eexists _, _. simpl.
    unfold BlobTx_EffectiveCost, BlobTx_EffectiveFee, BlobTx_EffectiveGasPrice, BlobTx_Cost.
    rewrite Hx, Ht, Hc, Hblob. cbn [EffectiveGasPrice outcome_bind fee].
    split_and!; try done; try lia; try exact (f_equal Ret Hc); [nia|apply Hcost; nia|by apply Hbit].
Qed.

(** A legacy transaction carries its chain in its signature as EIP-155 says:
    [V = 35 + 2 c] or [36 + 2 c] is read back as chain [c], whatever the size of
    [c], and [V = 27] or [28] as no chain. *)
Theorem legacy_chain_id (tx : LegacyTx) (c b : Z) :
  (b = 0 ∨ b = 1) → 0 ≤ c →
  (lt_V tx = big_Bytes (35 + 2 * c + b) → LegacyTx_GetChainID tx = Some c) ∧
  (lt_V tx = big_Bytes (27 + b) → LegacyTx_GetChainID tx = Some 0).
Proof.
  intros Hb Hc. unfold LegacyTx_GetChainID, LegacyTx_GetRawSignatureValues, rawSignatureValues.
  split; intros ->; rewrite sig_read by lia.
  - assert (Hdiv : (35 + 2 * c + b - 35) / 2 = c) by (symmetry; apply Z.div_unique with b; lia).
    destruct (Z.leb_spec (BitLen (35 + 2 * c + b)) 64) as [Hl|Hl]; [|by rewrite Hdiv].
    apply BitLen_le in Hl; [|lia].
    destruct (Z.eqb_spec (35 + 2 * c + b) 27), (Z.eqb_spec (35 + 2 * c + b) 28); try lia. simpl.
    rewrite u64_id by (unfold is_u64, two64; lia). by rewrite Hdiv.
  - destruct Hb as [-> | ->]; reflexivity.
Qed.

End EthTxTheorems.

(** * Examples *)

Section EthTxExamples.
#[local] Existing Instances plain_hex plain_hex_laws strict_ints strict_ints_laws.
#[local] Existing Instances plain_transactions plain_transactions_laws.

Definition example_address : Address := fit 20 [x42].
Definition example_hash : Hash := fit 32 [x07].

Definition example_dynamic : EthTxData :=
  EthDynamicFee (mkEthDynamicFeeTx (Some 9788) 7 (Some 2) (Some 1000000000) 21000 (Some example_address) (Some 5)
    [x01; x02] [mkEthAccessTuple example_address [example_hash]] (Some 1) (Some 12345) (Some 67890)).

Lemma tx_data_roundtrip_witness :
  ∃ td, NewTxDataFromTx (NewTx example_dynamic) = Ret (Some td, None) ∧ TxData_AsEthereumData td = Ret example_dynamic.
Proof.
  apply (tx_data_roundtrip example_dynamic plain_hex_laws strict_ints_laws plain_transactions_laws).
  repeat split; vm_compute; congruence.
Defined.

Definition example_data : TxData :=
  TDynamicFee (mkDynamicFeeTx (Some 9788) 7 (Some 2) (Some 1000000000) 21000 "" (Some 5) [] [] [] [] []).

Lemma effective_cost_bounded_witness :
  ∃ f' f, TxData_EffectiveFee example_data (Some 100) = Ret f' ∧ TxData_Fee example_data = Ret f ∧ f' ≤ f.
Proof.
  assert (HV : TxData_Validate example_data = Ret None) by reflexivity.
  assert (Hg : TxData_GetGas example_data = Ret 21000) by reflexivity.
  destruct (effective_cost_bounded example_data 21000 100 HV Hg ltac:(lia) ltac:(lia))
    as (cap & p & f' & f & c' & c & _ & _ & H1 & H2 & _ & _ & _ & H3 & _).
  exists f', f. split_and!; [exact H1|exact H2|exact H3].
Defined.

Lemma legacy_chain_id_witness :
  LegacyTx_GetChainID (mkLegacyTx 0 (Some 1) 21000 "" (Some 0) [] (big_Bytes (35 + 2 * 9788 + 1)) [] []) = Some 9788.
Proof.
  apply (legacy_chain_id (mkLegacyTx 0 (Some 1) 21000 "" (Some 0) [] (big_Bytes (35 + 2 * 9788 + 1)) [] []) 9788 1).
  - by right.
  - lia.
  - reflexivity.
Defined.

End EthTxExamples.
