(* ===== verification/Msg.v ===== *)
(** * EVM messages and the recovery of their sender
    (x/evm/types/{message_evm_transaction,codec,config}.go, x/evm/derived,
    x/evm/config, utils/helpers/address.go, and the stateless parts of
    x/evm/ante/{router,preprocess}.go)

    A transaction of the chain carries one EVM message; the ante handler
    unpacks it, recovers its sender from the signature and keeps the result in
    the message's [Derived] field. *)

From S2P Require Import Prelude Bytes Params World Eth EthTx Instances.
From Stdlib Require Import Strings.Byte.
Local Open Scope Z_scope.
Local Open Scope outcome_scope.

(** ** Data *)

Inductive SignerVersion : Type := London | Cancun.

#[export] Instance SignerVersion_eq_dec : EqDecision SignerVersion.
Proof. solve_decision. Defined.

Record Derived : Type := mkDerived {
  dv_SenderEVMAddr : Address;
  dv_SenderTabiAddr : AccAddress;
  dv_PubKey : option bytes;
  dv_IsAssociate : bool;
  dv_Version : SignerVersion
}.

(** [codectypes.Any]: the packed value and the cached unpacked one. *)
Record AnyData : Type := mkAnyData { any_CachedValue : option TxData; any_Value : bytes }.

Record MsgEVMTransaction : Type := mkMsgEVMTransaction {
  msg_Data : option AnyData;
  msg_Derived : option Derived
}.

(** The messages of a transaction, as far as the program tells them apart: the
    sender of an association ([None] when it is not a valid address), the
    messages inside an [authz.MsgExec] ([None] when [GetMessages] fails), the
    sender and the contract of a wasm dependency, and the type URL of any other. *)
Inductive SdkMsg : Type :=
| EVMMsg (m : MsgEVMTransaction)
| AssociateMsg (sender : option AccAddress)
| ExecMsg (msgs : option (list SdkMsg))
| WasmDependencyMsg (fromAddress : string) (contract : AccAddress + Err)
| OtherMsg (typeURL : string).
Notation SdkTx := (list SdkMsg).

(** The generated decoders. *)
Class TxCodec := {
  LegacyTx_Unmarshal : bytes → option LegacyTx;
  AccessListTx_Unmarshal : bytes → option AccessListTx;
  DynamicFeeTx_Unmarshal : bytes → option DynamicFeeTx;
  BlobTx_Unmarshal : bytes → option BlobTx;
  AssociateTx_Unmarshal : bytes → option AssociateTx
}.

(** go-ethereum's cryptography, signers and fork schedule, and the SDK's public
    keys.  [CompressPubkey] is [None] when the key cannot be parsed. *)
Class Secp256k1 := {
  ValidateSignatureValues : Z → Z → Z → bool → bool;
  Ecrecover : Hash → bytes → bytes + Err;
  CompressPubkey : bytes → option bytes;
  PubKey_Address : bytes → AccAddress
}.
Class Signers (T : Type) := {
  signer_Hash : SignerVersion → Z → T → Hash;
  frontier_Hash : T → Hash
}.

(** [params.ChainConfig]: block numbers and times of the upgrades. *)
Record EthChainConfig : Type := mkEthChainConfig {
  cfg_ChainID : option Z;
  cfg_HomesteadBlock : Z;
  cfg_DAOForkBlock : Z;
  cfg_DAOForkSupport : bool;
  cfg_EIP150Block : Z;
  cfg_EIP155Block : Z;
  cfg_EIP158Block : Z;
  cfg_ByzantiumBlock : Z;
  cfg_ConstantinopleBlock : Z;
  cfg_PetersburgBlock : Z;
  cfg_IstanbulBlock : Z;
  cfg_MuirGlacierBlock : Z;
  cfg_BerlinBlock : Z;
  cfg_LondonBlock : Z;
  cfg_ArrowGlacierBlock : Z;
  cfg_GrayGlacierBlock : Z;
  cfg_MergeNetsplitBlock : Z;
  cfg_ShanghaiTime : option Z;
  cfg_CancunTime : option Z;
  cfg_PragueTime : option Z;
  cfg_VerkleTime : option Z
}.
Class ForkRules := { IsCancun : EthChainConfig → Z → Z → bool }.
Class ForkRulesLaws `{ForkRules} : Prop := {
  IsCancun_spec : ∀ cfg num time,
    IsCancun cfg num time = true ↔ cfg_LondonBlock cfg ≤ num ∧ ∃ t, cfg_CancunTime cfg = Some t ∧ t ≤ time
}.

(** ** Configuration (types/config.go, config/config.go) *)

Record ChainConfig : Type := mkChainConfig { CancunTime : Z; PragueTime : Z; VerkleTime : Z }.

Definition getUpgradeTimestamp (i : Z) : option Z := if i <? 0 then None else Some (u64 i).

Definition EthereumConfig (cc : ChainConfig) (chainID : option Z) : EthChainConfig :=
  mkEthChainConfig chainID 0 0 false 0 0 0 0 0 0 0 0 0 0 0 0 0 (getUpgradeTimestamp 0)
    (getUpgradeTimestamp (CancunTime cc)) (getUpgradeTimestamp (PragueTime cc)) (getUpgradeTimestamp (VerkleTime cc)).

Definition DefaultChainConfig : ChainConfig := mkChainConfig 0 (-1) (-1).

Definition DefaultChainID : Z := 10123.
Definition ChainIDMapping : list (string * Z) := [("test-1"%string, 10123)].
Definition GetEVMChainID (cosmosChainID : string) : Z :=
  match find (λ e, String.eqb e.1 cosmosChainID) ChainIDMapping with
  | Some e => e.2
  | None => DefaultChainID
  end.
Definition IsLiveChainID (chainID : string) : bool :=
  match find (λ e, String.eqb e.1 chainID) ChainIDMapping with Some _ => true | None => false end.
Definition GetVersionWthDefault (chainID : string) (override defaultVersion : Z) : Z :=
  if (0 <? override) && negb (IsLiveChainID chainID) then override else defaultVersion.

(** ** The router (ante/router.go) *)

Definition is_evm_msg (m : SdkMsg) : bool := match m with EVMMsg _ => true | _ => false end.

Definition IsEVMMessage (tx : SdkTx) : bool + Err :=
  let hasEVMMsg := existsb is_evm_msg tx in
  if hasEVMMsg && negb (length tx =? 1)%nat then inr "EVM tx must have exactly one message"%string
  else inl hasEVMMsg.

(** [EVMRouterDecorator.AnteHandle]: one of two handlers, or an error. *)
Definition Router_AnteHandle {C R : Type} (evmAnteHandler defaultAnteHandler : C → SdkTx → bool → R) (fail : C → Err → R)
    (ctx : C) (tx : SdkTx) (simulate : bool) : R :=
  match IsEVMMessage tx with
  | inr e => fail ctx e
  | inl true => evmAnteHandler ctx tx simulate
  | inl false => defaultAnteHandler ctx tx simulate
  end.

Definition MustGetEVMTransactionMessage (tx : SdkTx) : outcome MsgEVMTransaction :=
  match tx with
  | [EVMMsg m] => Ret m
  | [_] => Panic "not EVM message"
  | _ => Panic "EVM transaction must have exactly 1 message"
  end.
Definition GetEVMTransactionMessage (tx : SdkTx) : option MsgEVMTransaction :=
  match tx with [EVMMsg m] => Some m | _ => None end.
Definition IsTxMsgAssociate (tx : SdkTx) : bool := match tx with [AssociateMsg _] => true | _ => false end.

(** ** Messages (types/codec.go, types/message_evm_transaction.go) *)

Section Messages.
Context `{EC : EthCrypto} `{EH : EthHex} `{IL : IntLibs} `{ET : EthTransactions T} `{TC : TxCodec}.

(** A value that was not cached is tried as each of the types in turn. *)
Definition UnpackTxData (any : option AnyData) : TxData + Err :=
  match any with
  | None => inr "protobuf Any message cannot be nil"%string
  | Some any =>
  match any_CachedValue any with
  | Some txData => inl txData
  | None =>
  match LegacyTx_Unmarshal (any_Value any) with Some ltx => inl (TLegacy ltx) | None =>
  match AccessListTx_Unmarshal (any_Value any) with Some atx => inl (TAccessList atx) | None =>
  match DynamicFeeTx_Unmarshal (any_Value any) with Some dtx => inl (TDynamicFee dtx) | None =>
  match BlobTx_Unmarshal (any_Value any) with Some btx => inl (TBlob btx) | None =>
  match AssociateTx_Unmarshal (any_Value any) with Some astx => inl (TAssociate astx) | None =>
  inr "cannot unpack Any into TxData"%string
  end end end end end end end.

Definition GetAssociateTx (msg : MsgEVMTransaction) : outcome (option AssociateTx) :=
  match UnpackTxData (msg_Data msg) with
  | inr e => Panic e
  | inl (TAssociate amsg) => Ret (Some amsg)
  | inl _ => Ret None
  end.

Definition IsAssociateTx (msg : MsgEVMTransaction) : outcome bool :=
  let* a := GetAssociateTx msg in Ret (match a with Some _ => true | None => false end).

Definition MaxAssociateCustomMessageLength : nat := 64.

Definition MsgEVMTransaction_ValidateBasic (msg : MsgEVMTransaction) : outcome (option Err) :=
  let* a := GetAssociateTx msg in
  match a with
  | Some amsg =>
      if (MaxAssociateCustomMessageLength <? String.length (as_CustomMessage amsg))%nat
      then Ret (Some "custom message can have at most 64 characters"%string) else Ret None
  | None => Ret None
  end.

(** [None] is the pair of nils. *)
Definition AsTransaction (msg : MsgEVMTransaction) : outcome (option (T * TxData)) :=
  match UnpackTxData (msg_Data msg) with
  | inr _ => Ret None
  | inl txData => let* d := TxData_AsEthereumData txData in Ret (Some (NewTx d, txData))
  end.

End Messages.

(** ** Addresses from signatures (utils/helpers/address.go) *)

Section Recovery.
Context `{EC : EthCrypto} `{SC : Secp256k1}.

(** [copy(sig[32-len(b):32], b)]: right-aligned; a longer slice is out of
    range. *)
Definition pad32 (b : bytes) : outcome bytes :=
  if (32 <? length b)%nat then Panic "slice bounds out of range" else Ret (replicate (32 - length b) x00 ++ b).

Definition RecoverPubkey (sighash : Hash) (R S Vb : Z) (homestead : bool) : outcome (bytes + Err) :=
  if 8 <? BitLen Vb then Ret (inr "invalid transaction v, r, s values"%string) else
  let V := (Z.abs Vb - 27) `mod` 256 in
  if negb (ValidateSignatureValues V R S homestead) then Ret (inr "invalid transaction v, r, s values"%string) else
  let* r := pad32 (big_Bytes R) in
  let* s := pad32 (big_Bytes S) in
  Ret (Ecrecover sighash (r ++ s ++ [byte_of_Z V])).

Definition PubkeyToEVMAddress (pub : bytes) : Address + Err :=
  match pub with
  | x04 :: rest => inl (fit 20 (drop 12 (ba (Keccak256Hash rest))))
  | _ => inr "invalid public key"%string
  end.

Definition PubkeyBytesToTabiPubKey (pub : bytes) : outcome bytes :=
  match CompressPubkey pub with Some k => Ret k | None => Panic nil_deref end.

Definition GetAddressesFromPubkeyBytes (pubkey : bytes) : outcome ((Address * AccAddress * bytes) + Err) :=
  match PubkeyToEVMAddress pubkey with
  | inr e => Ret (inr e)
  | inl evmAddr =>
      let* tabiPubkey := PubkeyBytesToTabiPubKey pubkey in
      Ret (inl (evmAddr, PubKey_Address tabiPubkey, tabiPubkey))
  end.

Definition GetAddresses (V R S : Z) (data : Hash) : outcome ((Address * AccAddress * bytes) + Err) :=
  let* p := RecoverPubkey data R S V true in
  match p with
  | inr e => Ret (inr e)
  | inl pubkey => GetAddressesFromPubkeyBytes pubkey
  end.

End Recovery.

(** ** Preprocessing (ante/preprocess.go) *)

Section Preprocess.
Context `{EC : EthCrypto} `{EH : EthHex} `{IL : IntLibs} `{ET : EthTransactions T} `{TC : TxCodec}.
Context `{SC : Secp256k1} `{SG : Signers T} `{FR : ForkRules}.

Definition AllowedTxTypes (version : SignerVersion) : list Z :=
  match version with
  | London => [LegacyTxType; AccessListTxType; DynamicFeeTxType]
  | Cancun => [LegacyTxType; AccessListTxType; DynamicFeeTxType; BlobTxType]
  end.

Definition isTxTypeAllowed (version : SignerVersion) (txType : Z) : bool :=
  existsb (λ t, t =? txType) (AllowedTxTypes version).

Definition AdjustV (V txType chainID : Z) : Z :=
  if negb (txType =? LegacyTxType) then V + 27 else V - chainID * 2 - 8.

(** The height and time of the context's block. *)
Definition GetVersion (height time : Z) (ethCfg : EthChainConfig) : SignerVersion :=
  if IsCancun ethCfg height (u64 time) then Cancun else London.

Definition set_Derived (d : Derived) (msg : MsgEVMTransaction) : MsgEVMTransaction :=
  mkMsgEVMTransaction (msg_Data msg) (Some d).

(** The message is changed in place: the result is the message afterwards. *)
Definition Preprocess (height time : Z) (msg : MsgEVMTransaction) : outcome (MsgEVMTransaction * option Err) :=
  match msg_Derived msg with
  | Some d =>
      match dv_PubKey d with
      | None => Ret (msg, Some "invalid pubkey"%string)
      | Some _ => Ret (msg, None)
      end
  | None =>
  match UnpackTxData (msg_Data msg) with
  | inr e => Ret (msg, Some e)
  | inl (TAssociate atx) =>
      let '(v, r, s) := AssociateTx_GetRawSignatureValues atx in
      let* a := GetAddresses (v + 27) r s (Keccak256Hash (str_bytes (as_CustomMessage atx))) in
      match a with
      | inr e => Ret (msg, Some e)
      | inl (evmAddr, tabiAddr, pubkey) =>
          Ret (set_Derived (mkDerived evmAddr tabiAddr (Some pubkey) true Cancun) msg, None)
      end
  | inl txData =>
      let* d := TxData_AsEthereumData txData in
      let ethTx := NewTx d in
      match tx_ChainId ethTx, tx_RawSignatureValues ethTx with
      | Some chainID, (Some v, Some r, Some s) =>
          let version := GetVersion height time (EthereumConfig DefaultChainConfig (Some chainID)) in
          if negb (isTxTypeAllowed version (tx_Type ethTx)) then Ret (msg, Some "invalid chain id for signer"%string) else
          let '(v', txHash) :=
            if tx_Protected ethTx then (AdjustV v (tx_Type ethTx) chainID, signer_Hash version chainID ethTx)
            else (v, frontier_Hash ethTx) in
          let* a := GetAddresses v' r s txHash in
          match a with
          | inr e => Ret (msg, Some e)
          | inl (evmAddr, tabiAddr, pubkey) =>
              Ret (set_Derived (mkDerived evmAddr tabiAddr (Some pubkey) false version) msg, None)
          end
      | _, _ => Panic nil_deref
      end
  end
  end.

End Preprocess.

(** ** What a signature should say

    [d] is signed with y-parity [b], for the chain [c] or, when [c] is [None],
    without replay protection (legacy only). *)
Definition signed_for (d : EthTxData) (c : option Z) (b r s : Z) : Prop :=
  (b = 0 ∨ b = 1) ∧
  match d, c with
  | EthLegacy _, Some c => 0 ≤ c ∧ data_sig d = (Some (35 + 2 * c + b), Some r, Some s)
  | EthLegacy _, None => data_sig d = (Some (27 + b), Some r, Some s)
  | _, Some c => data_ChainId d = Some c ∧ data_sig d = (Some b, Some r, Some s)
  | _, None => False
  end.

(** * Theorems *)

Section MsgTheorems.
Context `{EC : EthCrypto} `{EH : EthHex} `{IL : IntLibs} `{ET : EthTransactions T} `{TC : TxCodec}.
Context `{SC : Secp256k1} `{SG : Signers T} `{FR : ForkRules}.

Lemma version_Cancun `{!ForkRulesLaws} height time chainID :
  0 ≤ height → GetVersion height time (EthereumConfig DefaultChainConfig chainID) = Cancun.
Proof.
  intros Hh. unfold GetVersion. destruct (IsCancun _ _ _) eqn:E; [done|]. exfalso.
  apply not_true_iff_false in E. apply E, IsCancun_spec. split; [done|]. exists 0. split; [done|].
  apply u64_range.
Qed.

(** The chain, protection and adjusted [V] of a signed transaction. *)
Lemma signed_fields `{!EthTransactionsLaws T} d c b r s :
  data_complete d → signed_for d c b r s →
  ∃ v chain, tx_ChainId (NewTx d) = Some chain ∧ tx_RawSignatureValues (NewTx d) = (Some v, Some r, Some s) ∧
    match c with
    | Some c => chain = c ∧ tx_Protected (NewTx d) = true ∧ AdjustV v (tx_Type (NewTx d)) c = 27 + b
    | None => tx_Protected (NewTx d) = false ∧ v = 27 + b
    end.
Proof.
  intros Hc [Hb Hs]. rewrite tx_RawSignatureValues_NewTx, tx_Type_NewTx by done. destruct d as [d|d|d|d].
  - destruct c as [c|].
    + destruct Hs as [Hc0 Hs]. exists (35 + 2 * c + b), c.
      assert (Hv : el_V d = Some (35 + 2 * c + b)) by (simpl in Hs; congruence).
      assert (H27 : (35 + 2 * c + b =? 27) || (35 + 2 * c + b =? 28) = false).
      { destruct (Z.eqb_spec (35 + 2 * c + b) 27), (Z.eqb_spec (35 + 2 * c + b) 28); lia. }
      assert (H35 : (35 <=? 35 + 2 * c + b) = true) by (apply Z.leb_le; lia).
      split_and!; [|done|done| |].
      * apply tx_ChainId_NewTx; [done|]. unfold data_ChainId. rewrite Hv, H27, H35.
        f_equal. symmetry. apply Z.div_unique with b; lia.
      * apply tx_Protected_NewTx; [done|]. unfold data_Protected. by rewrite Hv, H27, H35.
      * unfold AdjustV. simpl. lia.
    + exists (27 + b), 0. assert (Hv : el_V d = Some (27 + b)) by (simpl in Hs; congruence).
      assert (H27 : (27 + b =? 27) || (27 + b =? 28) = true) by (destruct Hb as [-> | ->]; done).
      split_and!; [|done| |done].
      * apply tx_ChainId_NewTx; [done|]. unfold data_ChainId. by rewrite Hv, H27.
      * apply tx_Protected_NewTx; [done|]. unfold data_Protected. by rewrite Hv, H27.
  - destruct c as [c|]; [|done]. destruct Hs as [Hch Hs]. exists b, c.
    split_and!; [by apply tx_ChainId_NewTx|done|done|by apply tx_Protected_NewTx|]. unfold AdjustV. simpl. lia.
  - destruct c as [c|]; [|done]. destruct Hs as [Hch Hs]. exists b, c.
    split_and!; [by apply tx_ChainId_NewTx|done|done|by apply tx_Protected_NewTx|]. unfold AdjustV. simpl. lia.
  - destruct c as [c|]; [|done]. destruct Hs as [Hch Hs]. exists b, c.
    split_and!; [by apply tx_ChainId_NewTx|done|done|by apply tx_Protected_NewTx|]. unfold AdjustV. simpl. lia.
Qed.

(** Recovering the sender does not touch the transaction. *)
Lemma Preprocess_keeps_data height time msg msg' :
  Preprocess height time msg = Ret (msg', None) → msg_Data msg' = msg_Data msg.
Proof.
  intros H.
  unfold Preprocess, outcome_bind in H. repeat (case_match; try done); by simplify_eq/=.
Qed.

(** C36: the sender of a transaction of any type is recovered from the hash the
    transaction was signed over and with the right parity: [27 + b] for y-parity
    [b], whether the transaction is typed, protected legacy (with the chain in
    [V]) or unprotected legacy. *)
Theorem Preprocess_recovers (height time : Z) (msg : MsgEVMTransaction) (td : TxData) (d : EthTxData)
    (c : option Z) (b r s : Z) :
  EthTransactionsLaws T → ForkRulesLaws → 0 ≤ height →
  msg_Derived msg = None → UnpackTxData (msg_Data msg) = inl td → (∀ a, td ≠ TAssociate a) →
  TxData_AsEthereumData td = Ret d → data_complete d → signed_for d c b r s →
  Preprocess height time msg =
    (let hash := match c with Some c => signer_Hash Cancun c (NewTx d) | None => frontier_Hash (NewTx d) end in
     let* a := GetAddresses (27 + b) r s hash in
     match a with
     | inr e => Ret (msg, Some e)
     | inl (evmAddr, tabiAddr, pubkey) =>
         Ret (set_Derived (mkDerived evmAddr tabiAddr (Some pubkey) false Cancun) msg, None)
     end).
Proof.
  intros ETL FRL Hh Hder Hun Hna Hd Hcomp Hsig.
  destruct (signed_fields d c b r s Hcomp Hsig) as (v & chain & Hch & Hraw & Hv).
  assert (Htype : isTxTypeAllowed Cancun (tx_Type (NewTx d)) = true) by (rewrite tx_Type_NewTx by done; by destruct d).
  unfold Preprocess. rewrite Hder, Hun. destruct td as [t|t|t|t|t]; try (by destruct (Hna t));
    rewrite Hd; cbn [outcome_bind]; rewrite Hch, Hraw, version_Cancun, Htype by done; cbn [negb];
    (destruct c as [c|]; [destruct Hv as (-> & -> & ->)|destruct Hv as (-> & ->)]; reflexivity).
Qed.

(** Preprocessing is done once and cannot be forged: a message that went
    through it is not changed by a second pass, and a message that arrives with
    [Derived] set but no public key is rejected unchanged. *)
Theorem Preprocess_once (height time height' time' : Z) (msg msg' : MsgEVMTransaction) :
  (Preprocess height time msg = Ret (msg', None) → Preprocess height' time' msg' = Ret (msg', None)) ∧
  (∀ d, msg_Derived msg = Some d → dv_PubKey d = None →
     ∃ e, Preprocess height time msg = Ret (msg, Some e)).
Proof.
  split.
  - intros H. assert (∃ d k, msg_Derived msg' = Some d ∧ dv_PubKey d = Some k) as (d & k & Hd & Hk).
    { unfold Preprocess in H. destruct (msg_Derived msg) as [d|] eqn:Ed.
      { destruct (dv_PubKey d) as [k|] eqn:Ek; [|done]. injection H as <-. eauto. }
      assert (Hfin : ∀ (a : outcome ((Address * AccAddress * bytes) + Err)) isA v,
        (let* x := a in match x with
           | inr e => Ret (msg, Some e)
           | inl (evmAddr, tabiAddr, pubkey) =>
               Ret (set_Derived (mkDerived evmAddr tabiAddr (Some pubkey) isA v) msg, None)
           end) = Ret (msg', None) → ∃ d k, msg_Derived msg' = Some d ∧ dv_PubKey d = Some k).
      { intros [[[[e t] k]|e]|m] isA v; cbn [outcome_bind]; [|done|done]. intros [= <-]. eexists _, k. done. }
      destruct (UnpackTxData (msg_Data msg)) as [td|e]; [|done].
      destruct td as [t|t|t|t|t];
        try (destruct (TxData_AsEthereumData _) as [d|]; [|done]; cbn [outcome_bind] in H;
             destruct (tx_ChainId _) as [chain|]; [|done];
             destruct (tx_RawSignatureValues _) as [[[v|] [r|]] [s|]]; try done;
             destruct (negb _); [done|]; destruct (tx_Protected _); by apply Hfin in H).
      by apply Hfin in H. }
    unfold Preprocess. by rewrite Hd, Hk.
  - intros d Hd Hk. unfold Preprocess. rewrite Hd, Hk. by eexists.
Qed.

Lemma has_evm_msg (tx : SdkTx) : existsb is_evm_msg tx = true ↔ ∃ m, EVMMsg m ∈ tx.
Proof.
  rewrite existsb_exists. split.
  - intros ([m| | | |] & Hin & Hm); try done. exists m. by apply list_elem_of_In.
  - intros [m Hin]. exists (EVMMsg m). split; [by apply list_elem_of_In|done].
Qed.

Lemma has_no_evm_msg (tx : SdkTx) : existsb is_evm_msg tx = false ↔ Forall (λ m, is_evm_msg m = false) tx.
Proof. induction tx as [|m tx IH]; simpl; [by split|]. by rewrite orb_false_iff, IH, Forall_cons. Qed.

(** The router tells EVM transactions apart exactly: it takes the EVM path
    for a transaction that consists of one EVM message, the default path for one
    without EVM messages, and rejects an EVM message in company; on the EVM path
    the handlers can always get the message. *)
Theorem IsEVMMessage_exact (tx : SdkTx) :
  (IsEVMMessage tx = inl true ↔ ∃ m, MustGetEVMTransactionMessage tx = Ret m) ∧
  (IsEVMMessage tx = inl false ↔ Forall (λ m, is_evm_msg m = false) tx) ∧
  ((∃ e, IsEVMMessage tx = inr e) ↔ length tx ≠ 1%nat ∧ ∃ m, EVMMsg m ∈ tx).
Proof.
  assert (Hget : (∃ m, MustGetEVMTransactionMessage tx = Ret m) ↔
    existsb is_evm_msg tx = true ∧ length tx = 1%nat).
  { destruct tx as [|[m| | | |] [|m' tx]]; simpl; (split; [intros [x Hx]|intros [H1 H2]]); try done. by exists m. }
  rewrite Hget, <- has_no_evm_msg, <- has_evm_msg. unfold IsEVMMessage.
  destruct (existsb is_evm_msg tx), (Nat.eqb_spec (length tx) 1) as [Hl|Hl]; simpl;
    (split; [|split]); split; try done; try (by intros [? ?]); try (by intros [e [=]]); intros _; by eexists.
Qed.

End MsgTheorems.

(** * Examples *)

(** Stand-ins: a signature whose values are in range recovers the key made of
    the signed hash, and keys are their own addresses. *)
Definition demo_secp : Secp256k1 := {|
  ValidateSignatureValues v r s _ := (0 <=? v) && (v <=? 1) && (0 <? r) && (r <? 2 ^ 256) && (0 <? s) && (s <? 2 ^ 256);
  Ecrecover h sig := inl (x04 :: ba h);
  CompressPubkey pub := Some (x02 :: tail pub);
  PubKey_Address k := take 20 k
|}.
Definition demo_signers : Signers EthTxData := {|
  signer_Hash v c d := fit 32 (PutUint64 c ++ PutUint64 (data_Nonce d));
  frontier_Hash d := fit 32 (PutUint64 (data_Nonce d))
|}.
Definition demo_forks : ForkRules := {|
  IsCancun cfg num time :=
    (cfg_LondonBlock cfg <=? num) && match cfg_CancunTime cfg with Some t => t <=? time | None => false end
|}.
Lemma demo_forks_laws : @ForkRulesLaws demo_forks.
Proof.
  split. intros cfg num time. simpl. rewrite andb_true_iff, Z.leb_le.
  destruct (cfg_CancunTime cfg) as [t|]; [rewrite Z.leb_le|]; naive_solver.
Qed.
Definition no_codec : TxCodec := {|
  LegacyTx_Unmarshal _ := None; AccessListTx_Unmarshal _ := None; DynamicFeeTx_Unmarshal _ := None;
  BlobTx_Unmarshal _ := None; AssociateTx_Unmarshal _ := None
|}.

Section MsgExamples.
#[local] Existing Instances demo_crypto plain_hex strict_ints plain_transactions plain_transactions_laws.
#[local] Existing Instances demo_secp demo_signers demo_forks demo_forks_laws no_codec.

Definition demo_legacy (v : Z) : TxData :=
  TLegacy (mkLegacyTx 7 (Some 1000000000) 21000 "" (Some 5) [] (big_Bytes v) (big_Bytes 12345) (big_Bytes 67890)).
Definition demo_msg (v : Z) : MsgEVMTransaction :=
  mkMsgEVMTransaction (Some (mkAnyData (Some (demo_legacy v)) [])) None.
Definition demo_legacy_data (v : Z) : EthTxData :=
  EthLegacy (mkEthLegacyTx 7 (Some 1000000000) 21000 None (Some 5) [] (Some v) (Some 12345) (Some 67890)).

Lemma Preprocess_recovers_witness :
  ∃ msg', Preprocess 1 0 (demo_msg (35 + 2 * 10123 + 1)) = Ret (msg', None) ∧
    dv_PubKey <$> msg_Derived msg' = Some (Some (x02 :: ba (signer_Hash Cancun 10123 (demo_legacy_data (35 + 2 * 10123 + 1))))).
Proof.
  rewrite (Preprocess_recovers 1 0 (demo_msg (35 + 2 * 10123 + 1)) (demo_legacy (35 + 2 * 10123 + 1))
    (demo_legacy_data (35 + 2 * 10123 + 1)) (Some 10123) 1 12345 67890 plain_transactions_laws demo_forks_laws).
  - eexists. split; reflexivity.
  - lia.
  - reflexivity.
  - reflexivity.
  - discriminate.
  - reflexivity.
  - repeat constructor; by eexists.
  - split; [by right|]. split; [lia|reflexivity].
Defined.

End MsgExamples.
