(* ===== verification/Receipts.v ===== *)
(** * Receipts and logs
    (x/evm/keeper/receipt.go, the log conversions of log.go and types/logs.go)

    A transaction leaves its receipt in the transient store; at the end of the
    block the receipts are flushed to the receipt store with the gas used in the
    block up to each of them. *)

From S2P Require Import Prelude Bytes Store Params Keys World Keeper StateDB Fee Eth Block Instances.
From Stdlib Require Import Strings.Byte.
Local Open Scope Z_scope.

(** ** Data *)

(** [core.Message], the fields this module reads or sets. *)
Record Message : Type := mkMessage {
  m_To : option Address;
  m_From : Address;
  m_Nonce : Z;
  m_Value : option Z;
  m_GasLimit : Z;
  m_GasPrice : Z;
  m_GasFeeCap : Z;
  m_GasTipCap : Z;
  m_Data : bytes;
  m_AccessList : list EthAccessTuple;
  m_BlobGasFeeCap : option Z;
  m_BlobHashes : list Hash;
  m_SkipAccountChecks : bool
}.

(** A log with its place in the chain. *)
Record EthLog : Type := mkEthLog {
  lg_log : Log;
  lg_BlockNumber : Z;
  lg_TxHash : Hash;
  lg_TxIndex : Z
}.

(** What go-ethereum computes for a receipt. *)
Class EthReceipts := {
  CreateBloom : list Log → Bloom;
  CreateAddress : Address → Z → Address
}.

(** The receipt store (tabi-db), and [sort.Slice] of the Go library, which
    sorts but leaves the order of equal elements open. *)
Class ReceiptStore (R : Type) := {
  rs_GetLatestVersion : R → Z + Err;
  rs_Get : R → Z → bytes → option bytes + Err;
  rs_ApplyChangesetAsync : R → Z → list (bytes * bytes) → R * option Err
}.
Class SortSlice := {
  sort_by_index : list (Hash * Receipt) → list (Hash * Receipt);
  sort_by_hash : list (Hash * Receipt) → list (Hash * Receipt)
}.
Definition index_le (a b : Hash * Receipt) : Prop := rc_TransactionIndex a.2 ≤ rc_TransactionIndex b.2.
Definition hash_le (a b : Hash * Receipt) : Prop := bytes_le (ba a.1) (ba b.1).
Class SortSliceLaws `{SortSlice} : Prop := {
  sort_by_index_perm : ∀ l, sort_by_index l ≡ₚ l;
  sort_by_index_sorted : ∀ l, StronglySorted index_le (sort_by_index l);
  sort_by_hash_perm : ∀ l, sort_by_hash l ≡ₚ l;
  sort_by_hash_sorted : ∀ l, StronglySorted hash_le (sort_by_hash l)
}.

(** ** Logs (log.go, types/logs.go) *)

Definition u32 (z : Z) : Z := z `mod` 2 ^ 32.

Section Logs.
Context `{EH : EthHex}.

Definition convertLog (l : RLog) (receipt : Receipt) (logStartIndex : Z) : EthLog :=
  mkEthLog (mkLog (HexToAddress (rl_Address l)) (HexToHash <$> rl_Topics l) (rl_Data l) (u64 (rl_Index l + logStartIndex)))
    (rc_BlockNumber receipt) (HexToHash (rc_TxHashHex receipt)) (rc_TransactionIndex receipt).

Definition GetLogsForTx (receipt : Receipt) (logStartIndex : Z) : list EthLog :=
  (λ l, convertLog l receipt logStartIndex) <$> rc_Logs receipt.

Definition ConvertEthLog (l : Log) : RLog :=
  mkRLog (addr_Hex (l_Address l)) (hash_Hex <$> l_Topics l) (l_Data l) (u32 (l_Index l)) false.

Definition ConvertSyntheticEthLog (l : Log) : RLog :=
  let log := ConvertEthLog l in
  mkRLog (rl_Address log) (rl_Topics log) (rl_Data log) (rl_Index log) true.

Definition newLogFromEth (log : Log) : RLog :=
  mkRLog (addr_String (l_Address log)) (hash_String <$> l_Topics log) (l_Data log) (u32 (l_Index log)) false.

Definition NewLogsFromEth (ethlogs : list Log) : list RLog := newLogFromEth <$> ethlogs.

End Logs.

(** ** Receipts (receipt.go) *)

Section Receipts.
Context `{BK : BankKeeper B} `{AK : AccountKeeper A} `{EC : EthCrypto} `{KC : KeeperConfig}.
Context `{CD : Codec} `{EH : EthHex} `{ER : EthReceipts} `{SS : SortSlice} `{RS : ReceiptStore R}.
Context `{MST : MultiStore MS (World B A)}.
Notation World := (World B A).
Notation Ctx := (Ctx MS).
Notation DB := (DBImpl MS).

(** Errors of the codec and the stores are strings; [Receipt_Unmarshal] is
    [None] on an error. *)
Definition GetReceipt (txHash : Hash) (r : R) (w : World) : Receipt + Err :=
  match rs_GetLatestVersion r with
  | inr e => inr e
  | inl lv =>
  match rs_Get r lv (ReceiptKey txHash) with
  | inr e => inr e
  | inl bz =>
  match bz with
  | Some bz => match Receipt_Unmarshal bz with Some rc => inl rc | None => inr "unmarshal"%string end
  | None =>
      match w_evm w !! ReceiptKey txHash with
      | None => inr "not found"%string
      | Some bz => match Receipt_Unmarshal bz with Some rc => inl rc | None => inr "unmarshal"%string end
      end
  end end end.

(** The entries of the transient store, decoded. *)
Fixpoint decode_receipts (l : list (bytes * bytes)) : option (list (Hash * Receipt)) :=
  match l with
  | [] => Some []
  | (k, v) :: l' =>
      match Receipt_Unmarshal v with
      | None => None
      | Some r => match decode_receipts l' with None => None | Some rs => Some ((BytesToHash k, r) :: rs) end
      end
  end.

(** The loop over the receipts of one block: the receipts' new
    [CumulativeGasUsed], by transaction. *)
Fixpoint cum_gas (recs : list (Hash * Receipt)) (cumGas : Z) : list (Hash * Z) :=
  match recs with
  | [] => []
  | (h, r) :: recs' =>
      let cumGas := if 0 <? rc_EffectiveGasPrice r then u64 (cumGas + rc_GasUsed r) else cumGas in
      (h, cumGas) :: cum_gas recs' cumGas
  end.

Definition set_cumulative (gas : Z) (r : Receipt) : Receipt :=
  mkReceipt (rc_TxType r) gas (rc_ContractAddress r) (rc_TxHashHex r) (rc_GasUsed r) (rc_EffectiveGasPrice r)
    (rc_BlockNumber r) (rc_TransactionIndex r) (rc_Status r) (rc_From r) (rc_To r) (rc_VmError r) (rc_Logs r)
    (rc_LogsBloom r).

Definition block_receipts (n : Z) (receipts : list (Hash * Receipt)) : list (Hash * Receipt) :=
  filter (λ r, rc_BlockNumber r.2 = n) receipts.

(** The receipts are grouped by block; the groups share the receipts with the
    list, so what the loop writes shows there. *)
Definition with_cumulative (receipts : list (Hash * Receipt)) : list (Hash * Receipt) :=
  (λ hr, (hr.1, match list_to_map (M := gmap Hash Z)
                        (cum_gas (sort_by_index (block_receipts (rc_BlockNumber hr.2) receipts)) 0) !! hr.1 with
                | Some gas => set_cumulative gas hr.2
                | None => hr.2
                end)) <$> receipts.

Definition FlushTransientReceipts (r : R) (c : Ctx) : R * option Err :=
  match decode_receipts (Iterator (prefix_store ReceiptKeyPrefix (w_transient (cview c)))) with
  | None => (r, Some "unmarshal"%string)
  | Some [] => (r, None)
  | Some receipts =>
      let pairs := (λ hr, (ReceiptKey hr.1, Receipt_Marshal hr.2)) <$> sort_by_hash (with_cumulative receipts) in
      rs_ApplyChangesetAsync r (ci_height (c_info c)) pairs
  end.

(** [MockReceipt] of the tests is the same two steps. *)
Definition MockReceipt (txHash : Hash) (receipt : Receipt) (r : R) (c : Ctx) : Ctx * (R * option Err) :=
  let c1 := cupd (SetTransientReceipt txHash receipt) c in (c1, FlushTransientReceipts r c1).

(** [fmt.Sprintf("%s|%s", a, b)] *)
Definition join_errors (a b : string) : string := (a ++ "|" ++ b)%string.

Definition make_receipt (c : Ctx) (s : DB) (msg : Message) (txType : Z) (txHash : Hash) (gasUsed : Z) (vmError : string)
    : Receipt :=
  let ethLogs := all_logs s in
  let status := if String.eqb vmError "" then 1 else 0 in
  let to := match m_To msg with None => ""%string | Some a => addr_Hex a end in
  let contract :=
    match m_To msg with
    | None => addr_Hex (CreateAddress (m_From msg) (m_Nonce msg))
    | Some a => match m_Data msg with [] => ""%string | _ => addr_Hex a end
    end in
  let vmError' :=
    match precompileErr s with
    | Some e => if 0 <? status then vmError else join_errors vmError e
    | None => vmError
    end in
  mkReceipt txType 0 contract (hash_Hex txHash) gasUsed (u64 (m_GasPrice msg)) (u64 (ci_height (c_info c)))
    (u32 (ci_txIndex (c_info c))) status (addr_Hex (m_From msg)) to vmError' (ConvertEthLog <$> ethLogs)
    (ba (CreateBloom ethLogs)).

Definition WriteReceipt (s : DB) (msg : Message) (txType : Z) (txHash : Hash) (gasUsed : Z) (vmError : string) (c : Ctx)
    : Receipt * Ctx :=
  let receipt := make_receipt c s msg txType txHash gasUsed vmError in
  (receipt, cupd (SetTransientReceipt txHash receipt) c).

End Receipts.

(** ** The gas used in a block up to a transaction *)

Definition gas_of (r : Receipt) : Z := if 0 <? rc_EffectiveGasPrice r then rc_GasUsed r else 0.
Definition sum_gas (l : list (Hash * Receipt)) : Z := foldr (λ hr acc, gas_of hr.2 + acc) 0 l.

(** The receipts of the same block up to the one given. *)
Definition up_to (r : Receipt) (l : list (Hash * Receipt)) : list (Hash * Receipt) :=
  filter (λ hr, rc_TransactionIndex hr.2 ≤ rc_TransactionIndex r) (block_receipts (rc_BlockNumber r) l).

(** The transient store holds exactly these receipts. *)
Definition holds_receipts `{Codec} {B A} (w : World B A) (rs : gmap Hash Receipt) : Prop :=
  ∀ k v, w_transient w !! (ReceiptKeyPrefix ++ k) = Some v ↔
    ∃ h r, k = ba h ∧ rs !! h = Some r ∧ v = Receipt_Marshal r.

(** * Lemmas *)

Lemma sum_gas_app l1 l2 : sum_gas (l1 ++ l2) = sum_gas l1 + sum_gas l2.
Proof. induction l1 as [|x l1 IH]; simpl; [done|]. lia. Qed.

Lemma sum_gas_perm l1 l2 : l1 ≡ₚ l2 → sum_gas l1 = sum_gas l2.
Proof. induction 1; simpl; lia. Qed.

Lemma cum_gas_fst l c : fst <$> cum_gas l c = fst <$> l.
Proof. revert c. induction l as [|[h r] l IH]; intros c; [done|]. cbn [cum_gas]. rewrite !fmap_cons, IH. done. Qed.

Lemma u64_add a b : u64 (u64 a + b) = u64 (a + b).
Proof. unfold u64. apply Zplus_mod_idemp_l. Qed.

Lemma cum_gas_elem pre x post c :
  (x.1, u64 (c + sum_gas (pre ++ [x]))) ∈ cum_gas (pre ++ x :: post) (u64 c).
Proof.
  revert c. induction pre as [|[h r] pre IH]; intros c.
  - destruct x as [h r]. simpl. unfold gas_of. destruct (0 <? _).
    + rewrite u64_add, Z.add_0_r. left.
    + rewrite !Z.add_0_r. left.
  - simpl. right. unfold gas_of at 1. destruct (0 <? _).
    + rewrite u64_add, Z.add_assoc. apply IH.
    + rewrite Z.add_0_l. apply IH.
Qed.

(** In a list sorted by distinct indices, the elements up to one of them are the
    ones before it and itself. *)
Lemma filter_up_to pre x post :
  StronglySorted index_le (pre ++ x :: post) →
  base.NoDup ((λ hr, rc_TransactionIndex hr.2) <$> pre ++ x :: post) →
  filter (λ hr, rc_TransactionIndex hr.2 ≤ rc_TransactionIndex x.2) (pre ++ x :: post) = pre ++ [x].
Proof.
  intros Hs Hnd. rewrite filter_app, filter_cons, decide_True by done.
  rewrite filter_all, filter_none; [done| |].
  - apply Forall_forall. intros y Hy. rewrite fmap_app, fmap_cons in Hnd.
    apply NoDup_app in Hnd as (_ & _ & Hnd). apply NoDup_cons in Hnd as [Hx _].
    apply StronglySorted_app_1_r in Hs. apply StronglySorted_inv in Hs as [_ Hs].
    rewrite Forall_forall in Hs. specialize (Hs y Hy). unfold index_le in Hs.
    intros Hle. apply Hx. apply list_elem_of_fmap. exists y. split; [lia|done].
  - apply Forall_forall. intros y Hy. eapply (StronglySorted_app_1_elem_of index_le); [exact Hs|done|left].
Qed.

Lemma cum_gas_lookup `{SS : SortSlice} `{!SortSliceLaws} (l : list (Hash * Receipt)) (x : Hash * Receipt) :
  x ∈ l → base.NoDup (fst <$> l) →
  base.NoDup ((λ hr, rc_TransactionIndex hr.2) <$> block_receipts (rc_BlockNumber x.2) l) →
  list_to_map (M := gmap Hash Z) (cum_gas (sort_by_index (block_receipts (rc_BlockNumber x.2) l)) 0) !! x.1 =
  Some (u64 (sum_gas (up_to x.2 l))).
Proof.
  intros Hx Hnd Hidx. set (bl := block_receipts (rc_BlockNumber x.2) l) in *.
  assert (Hin : x ∈ sort_by_index bl).
  { rewrite sort_by_index_perm. apply list_elem_of_filter. done. }
  apply list_elem_of_split in Hin as (pre & post & E). rewrite E.
  assert (Hp : pre ++ x :: post ≡ₚ bl) by (rewrite <- E; apply sort_by_index_perm).
  apply elem_of_list_to_map_1.
  - rewrite cum_gas_fst, Hp. unfold bl, block_receipts. clear -Hnd.
    induction l as [|y l IH]; [constructor|]. rewrite fmap_cons in Hnd. apply NoDup_cons in Hnd as [Hy Hnd].
    rewrite filter_cons. case_decide; [|by apply IH]. rewrite fmap_cons. apply NoDup_cons. split; [|by apply IH].
    intros (z & Eq & Hz)%list_elem_of_fmap. apply list_elem_of_filter in Hz as [_ Hz].
    apply Hy. rewrite Eq. by apply list_elem_of_fmap_2.
  - pose proof (cum_gas_elem pre x post 0) as He. rewrite Z.add_0_l in He.
    assert (Hsum : sum_gas (pre ++ [x]) = sum_gas (up_to x.2 l)); [|by rewrite Hsum in He].
    unfold up_to. fold bl. rewrite <- (filter_up_to pre x post).
    + apply sum_gas_perm. by rewrite Hp.
    + rewrite <- E. apply sort_by_index_sorted.
    + by rewrite Hp.
Qed.

(** ** What the transient store holds *)

Lemma holds_receipts_set `{Codec} {B A} (w : World B A) rs h r :
  holds_receipts w rs → holds_receipts (SetTransientReceipt h r w) (<[h := r]> rs).
Proof.
  intros Hw k v. unfold SetTransientReceipt. cbn [w_transient set_transient]. unfold ReceiptKey.
  destruct (decide (k = ba h)) as [->|Hne].
  - rewrite lookup_insert_eq. split.
    + intros [= <-]. exists h, r. by rewrite lookup_insert_eq.
    + intros (h' & r' & ->%ba_inj & Hr & ->). rewrite lookup_insert_eq in Hr. congruence.
  - rewrite lookup_insert_ne by (intros E%app_inv_head; congruence). rewrite (Hw k v).
    split; intros (h' & r' & -> & Hr & ->); exists h', r'; (split_and!; [done| |done]).
    + by rewrite lookup_insert_ne by congruence.
    + by rewrite lookup_insert_ne in Hr by congruence.
Qed.

Definition enc_receipt `{Codec} (hr : Hash * Receipt) : bytes * bytes := (ba hr.1, Receipt_Marshal hr.2).

Lemma decode_enc `{Codec} `{!CodecLaws} (l : list (Hash * Receipt)) : decode_receipts (enc_receipt <$> l) = Some l.
Proof.
  induction l as [|[h r] l IH]; [done|]. rewrite fmap_cons. unfold enc_receipt at 1. cbn [decode_receipts fst snd].
  rewrite Receipt_codec, IH. unfold BytesToHash. by rewrite fit_ba.
Qed.

Lemma decode_held `{Codec} `{!CodecLaws} {B A} (w : World B A) rs :
  holds_receipts w rs →
  ∃ l, decode_receipts (Iterator (prefix_store ReceiptKeyPrefix (w_transient w))) = Some l ∧ l ≡ₚ map_to_list rs.
Proof.
  intros Hw. set (es := Iterator _).
  assert (Hp : es ≡ₚ enc_receipt <$> map_to_list rs).
  { apply NoDup_Permutation; [eapply NoDup_fmap_1, Iterator_NoDup| |].
    - apply NoDup_fmap_1 with (f := fst). rewrite <- list_fmap_compose.
      change (base.NoDup (ba ∘ fst <$> map_to_list rs)). rewrite list_fmap_compose.
      apply NoDup_fmap_2; [intros a b; apply ba_inj|apply NoDup_fst_map_to_list].
    - intros [k v]. unfold es. rewrite elem_of_Iterator, lookup_prefix_store, (Hw k v), list_elem_of_fmap. split.
      + intros (h & r & -> & Hr & ->). exists (h, r). split; [done|]. by apply elem_of_map_to_list.
      + intros ([h r] & [= -> ->] & Hr). exists h, r. split_and!; [done| |done]. by apply elem_of_map_to_list in Hr. }
  apply Permutation_map_inv in Hp as (l & E & Hl). exists l. split; [|by symmetry].
  rewrite E. apply decode_enc.
Qed.

Lemma with_cumulative_eq `{SS : SortSlice} `{!SortSliceLaws} (l : list (Hash * Receipt)) :
  base.NoDup (fst <$> l) →
  (∀ n, base.NoDup ((λ hr, rc_TransactionIndex hr.2) <$> block_receipts n l)) →
  with_cumulative l = (λ hr, (hr.1, set_cumulative (u64 (sum_gas (up_to hr.2 l))) hr.2)) <$> l.
Proof.
  intros Hnd Hidx. unfold with_cumulative. apply list_fmap_ext. intros i x Hx.
  rewrite cum_gas_lookup; [done|by eapply list_elem_of_lookup_2|done|apply Hidx].
Qed.

(** * Theorems *)

Section ReceiptTheorems.
Context `{BK : BankKeeper B} `{AK : AccountKeeper A} `{EC : EthCrypto} `{KC : KeeperConfig}.
Context `{CD : Codec} `{EH : EthHex} `{ER : EthReceipts} `{SS : SortSlice} `{RS : ReceiptStore R}.
Context `{MST : MultiStore MS (World B A)}.
Notation Ctx := (Ctx MS).
Notation DB := (DBImpl MS).

(** Flushing the receipts of a block hands the receipt store exactly one
    entry for each receipt of the transient store, in the order of the
    transaction hashes, each with the gas used by the transactions of its block
    up to and including its own. *)
Theorem FlushTransientReceipts_cumulative (r : R) (c : Ctx) (rs : gmap Hash Receipt) :
  CodecLaws → SortSliceLaws → holds_receipts (cview c) rs → rs ≠ ∅ →
  (∀ n, base.NoDup ((λ hr, rc_TransactionIndex hr.2) <$> block_receipts n (map_to_list rs))) →
  ∃ l, FlushTransientReceipts r c =
      rs_ApplyChangesetAsync r (ci_height (c_info c)) ((λ hr, (ReceiptKey hr.1, Receipt_Marshal hr.2)) <$> l) ∧
    StronglySorted hash_le l ∧
    l ≡ₚ (λ hr, (hr.1, set_cumulative (u64 (sum_gas (up_to hr.2 (map_to_list rs)))) hr.2)) <$> map_to_list rs.
Proof.
  intros CL SL Hw Hne Hidx. destruct (decode_held _ _ Hw) as (l & Hd & Hl).
  unfold FlushTransientReceipts. rewrite Hd. destruct l as [|x l0] eqn:El.
  { exfalso. apply Hne. apply map_to_list_empty_iff. symmetry. by apply Permutation_nil_l. }
  rewrite <- El in *. clear El x l0. eexists. split; [reflexivity|]. split; [apply sort_by_hash_sorted|].
  rewrite sort_by_hash_perm, with_cumulative_eq.
  - rewrite Hl at 1. apply reflexive_eq, list_fmap_ext. intros i x _. do 3 f_equal. apply sum_gas_perm.
    unfold up_to, block_receipts. by rewrite Hl.
  - rewrite Hl. apply NoDup_fst_map_to_list.
  - intros n. unfold block_receipts. rewrite Hl. apply Hidx.
Qed.

(** The logs of a transaction survive the receipt: read back from the
    receipt written for it, they have the address, topics and data they were
    emitted with, the index shifted by the logs of earlier transactions, and the
    transaction's hash, index and height. *)
Theorem receipt_logs_roundtrip (c : Ctx) (s : DB) msg txType txHash gasUsed vmError start :
  EthHexLaws → Forall (λ l, 0 ≤ l_Index l < 2 ^ 32) (all_logs s) →
  GetLogsForTx (make_receipt c s msg txType txHash gasUsed vmError) start =
  (λ l, mkEthLog (mkLog (l_Address l) (l_Topics l) (l_Data l) (u64 (l_Index l + start)))
          (u64 (ci_height (c_info c))) txHash (u32 (ci_txIndex (c_info c)))) <$> all_logs s.
Proof.
  intros EHL Hidx. unfold GetLogsForTx, make_receipt. cbn [rc_Logs]. rewrite <- list_fmap_compose.
  apply list_fmap_ext. intros i [a ts d ix] Hi. rewrite Forall_lookup in Hidx. specialize (Hidx i _ Hi). simpl in Hidx.
  unfold compose, convertLog, ConvertEthLog. cbn. unfold u32 at 1. rewrite Z.mod_small by done.
  by rewrite HexToAddress_Hex, HexToHash_Hex, (fmap_cancel hash_Hex HexToHash ts HexToHash_Hex).
Qed.

End ReceiptTheorems.

(** * Examples *)

#[export] Instance index_le_dec : RelDecision index_le.
Proof. intros a b. unfold index_le. apply _. Defined.
#[export] Instance index_le_trans : Transitive index_le.
Proof. intros a b c. unfold index_le. lia. Qed.
#[export] Instance index_le_total : Total index_le.
Proof. intros a b. unfold index_le. lia. Qed.
#[export] Instance hash_le_dec : RelDecision hash_le.
Proof. intros a b. unfold hash_le. apply _. Defined.
#[export] Instance hash_le_trans : Transitive hash_le.
Proof. intros a b c. unfold hash_le. apply bytes_le_trans. Qed.
#[export] Instance hash_le_total : Total hash_le.
Proof. intros a b. unfold hash_le. apply bytes_le_total. Qed.

Definition merge_sort_slice : SortSlice := {|
  sort_by_index := merge_sort index_le;
  sort_by_hash := merge_sort hash_le
|}.
Lemma merge_sort_slice_laws : @SortSliceLaws merge_sort_slice.
Proof.
  split; intros l; simpl;
    [apply merge_sort_Permutation|apply StronglySorted_merge_sort; apply _
    |apply merge_sort_Permutation|apply StronglySorted_merge_sort; apply _].
Qed.

(** A receipt store that is a map. *)
Definition map_receipt_store : ReceiptStore kvstore := {|
  rs_GetLatestVersion _ := inl 1;
  rs_Get m _ k := inl (m !! k);
  rs_ApplyChangesetAsync m _ pairs := (foldl (λ m e, <[e.1 := e.2]> m) m pairs, None)
|}.

Definition demo_receipts_ops : EthReceipts := {|
  CreateBloom ls := fit 256 (PutUint64 (Z.of_nat (length ls)));
  CreateAddress a n := fit 20 (PutUint64 n ++ ba a)
|}.

Section ReceiptExamples.
#[local] Existing Instances demo_bank_keeper demo_accounts demo_crypto live_config.
#[local] Existing Instances number_codec number_codec_laws plain_hex plain_hex_laws.
#[local] Existing Instances merge_sort_slice merge_sort_slice_laws map_receipt_store demo_receipts_ops.
#[local] Instance demo_receipt_stores : MultiStore (stack_ms demo_world) demo_world := stack_multistore demo_world.

(** Two receipts of one block, written out of order. *)
Definition demo_receipt (index gas : Z) : Receipt :=
  mkReceipt 2 0 "" "" gas 1000000000 1 index 1 "" "" "" [] [].
Definition demo_receipts : gmap Hash Receipt :=
  <[hash_of 1 := demo_receipt 1 30000]> (<[hash_of 2 := demo_receipt 0 21000]> ∅).
Definition demo_receipts_ctx : Ctx (stack_ms demo_world) :=
  demo_ctx (SetTransientReceipt (hash_of 1) (demo_receipt 1 30000)
             (SetTransientReceipt (hash_of 2) (demo_receipt 0 21000) demo_world0)).

Lemma demo_holds : holds_receipts (cview demo_receipts_ctx) demo_receipts.
Proof.
  apply holds_receipts_set, holds_receipts_set. intros k v. split; [done|].
  intros (h & r & _ & H & _). done.
Qed.

Lemma demo_receipts_list :
  map_to_list demo_receipts ≡ₚ [(hash_of 1, demo_receipt 1 30000); (hash_of 2, demo_receipt 0 21000)].
Proof.
  assert (Hne : hash_of 2 ≠ hash_of 1) by (intros E%(f_equal ba); vm_compute in E; discriminate).
  unfold demo_receipts. rewrite !map_to_list_insert; [|done|by rewrite lookup_insert_ne].
  by rewrite map_to_list_empty.
Qed.

Lemma FlushTransientReceipts_cumulative_witness :
  ∃ l, FlushTransientReceipts ∅ demo_receipts_ctx =
      rs_ApplyChangesetAsync ∅ 1 ((λ hr, (ReceiptKey hr.1, Receipt_Marshal hr.2)) <$> l) ∧
    (hash_of 1, set_cumulative 51000 (demo_receipt 1 30000)) ∈ l.
Proof.
  assert (Hne : demo_receipts ≠ ∅) by apply insert_non_empty.
  assert (Hidx : ∀ n, base.NoDup ((λ hr, rc_TransactionIndex hr.2) <$> block_receipts n (map_to_list demo_receipts))).
  { intros n. unfold block_receipts. rewrite demo_receipts_list. rewrite !filter_cons; repeat case_decide;
      simpl; apply (bool_decide_unpack _); vm_compute; exact I. }
  destruct (FlushTransientReceipts_cumulative ∅ demo_receipts_ctx demo_receipts
    number_codec_laws merge_sort_slice_laws demo_holds Hne Hidx) as (l & H1 & _ & H2).
  exists l. split; [exact H1|]. rewrite H2.
  assert (Hsum : sum_gas (up_to (demo_receipt 1 30000) (map_to_list demo_receipts)) = 51000).
  { rewrite (sum_gas_perm _ (up_to (demo_receipt 1 30000)
      [(hash_of 1, demo_receipt 1 30000); (hash_of 2, demo_receipt 0 21000)])); [reflexivity|].
    unfold up_to, block_receipts. by rewrite demo_receipts_list. }
  apply list_elem_of_fmap. exists (hash_of 1, demo_receipt 1 30000). split; [cbn [fst snd]; by rewrite Hsum|].
  apply elem_of_map_to_list. apply lookup_insert_eq.
Defined.

Definition demo_log_db : DBImpl (stack_ms demo_world) :=
  exec (AddLog (mkLog (addr_of 5) [hash_of 6] [x01] 0))
    (mkDBImpl demo_receipts_ctx [] NewTemporaryState [] None None [] zero_address false false None []).

Lemma receipt_logs_roundtrip_witness :
  GetLogsForTx (make_receipt demo_receipts_ctx demo_log_db
    (mkMessage None (addr_of 1) 0 (Some 0) 21000 1 1 1 [] [] None [] false) 2 (hash_of 1) 21000 "") 10 =
  [mkEthLog (mkLog (addr_of 5) [hash_of 6] [x01] 10) 1 (hash_of 1) 0].
Proof.
  rewrite (receipt_logs_roundtrip demo_receipts_ctx demo_log_db
    (mkMessage None (addr_of 1) 0 (Some 0) 21000 1 1 1 [] [] None [] false) 2 (hash_of 1) 21000 "" 10 plain_hex_laws).
  - reflexivity.
  - apply Forall_singleton. simpl. lia.
Defined.

End ReceiptExamples.
