(* ===== verification/Tx.v ===== *)
(** * Running EVM messages
    (x/evm/keeper/{msg_server,evm,precompile}.go and the block context of
    keeper.go)

    [EVMTransaction] is the handler of EVM transactions and [CallEVM] the entry
    for calls from other modules.  Both make a state database over the context,
    let go-ethereum's state transition run on it, write the database back, and
    leave a receipt and a deferred record.  Modelled outside the replay and
    block-test modes. *)

From S2P Require Import Prelude Bytes Dec Store Params Keys World Keeper StateDB Snapshots Supply Finalize Frame.
From S2P Require Import Fee Eth EthTx Msg Block Receipts Instances.
From Stdlib Require Import Strings.Byte Strings.Ascii.
Local Open Scope Z_scope.
Local Open Scope stm_scope.
Local Open Scope outcome_scope.

(** ** Data *)

(** What the context says about the transaction. *)
Record TxEnv : Type := mkTxEnv {
  te_TxSum : Hash;
  te_IsEVM : bool;
  te_EntryViaWasmd : bool;
  te_ChainID : string;
  te_Time : Z;
  te_TimeBytes : bytes + Err;   (** [Time.MarshalBinary()] *)
  te_HeaderHash : bytes
}.

Definition with_entry (b : bool) (env : TxEnv) : TxEnv :=
  mkTxEnv (te_TxSum env) (te_IsEVM env) b (te_ChainID env) (te_Time env) (te_TimeBytes env) (te_HeaderHash env).

(** [core.ExecutionResult] *)
Record ExecutionResult : Type := mkExecutionResult {
  er_UsedGas : Z;
  er_Err : option Err;
  er_ReturnData : bytes
}.

(** [vm.BlockContext] *)
Record BlockContext (D : Type) : Type := mkBlockContext {
  bc_Transfer : Address → Address → Z → stm D unit;
  bc_GetHash : Z → Hash;
  bc_Coinbase : Address;
  bc_GasLimit : Z;
  bc_BlockNumber : Z;
  bc_Time : Z;
  bc_Difficulty : Z;
  bc_BaseFee : Z;
  bc_BlobBaseFee : Z;
  bc_Random : Hash
}.
Arguments mkBlockContext {D}.
Arguments bc_Transfer {D}.
Arguments bc_GetHash {D}.
Arguments bc_Coinbase {D}.
Arguments bc_GasLimit {D}.
Arguments bc_BaseFee {D}.

Record MsgEVMTransactionResponse : Type := mkResponse {
  rsp_GasUsed : Z;
  rsp_VmError : string;
  rsp_ReturnData : bytes;
  rsp_Hash : string;
  rsp_Logs : list RLog
}.

(** ** What is run

    go-ethereum's state transition and transfer act on the database, whose context
    says how the transaction entered; the gas meters are the SDK's; the header
    hashes of past blocks are kept by the staking module. *)
Class EVM (MS : Type) := {
  TransitionDb : TxEnv → EthChainConfig → BlockContext (DBImpl MS) → Message → stm (DBImpl MS) (ExecutionResult + Err);
  core_Transfer : Address → Address → Z → stm (DBImpl MS) unit;
  historical_hash : Z → option bytes
}.
Class GasMeters (G : Type) := {
  gm_Limit : G → Z;
  gm_GasConsumedToLimit : G → Z;
  gm_ConsumeGas : Z → G → outcome G
}.

(** A step of the state transition: a call of the database that does not mint,
    or a custom precompile, which changes the newest level of the database and
    keeps the sum of the bank's total and the surplus, the module's transient
    store and its parameters. *)
Inductive evm_step `{BK : BankKeeper B} `{AK : AccountKeeper A} `{EC : EthCrypto} `{KC : KeeperConfig}
    `{MST : MultiStore MS (World B A)} : DBImpl MS → DBImpl MS → Prop :=
| evm_call op u s s' : is_conserving op = true → run_op op s = Ret (u, s') → evm_step s s'
| evm_precompile s s' : conserves s s' → same_frame tx_frame s s' → evm_step s s'.

(** The surplus recorded for a transaction so far, and a record whose surplus can
    be added to. *)
Definition recorded_surplus `{CD : Codec} {B A : Type} (idx : Z) (w : World B A) : Z :=
  match GetEVMTxDeferredInfo idx w with Some info => default 0 (di_Surplus info) | None => 0 end.
Definition recordable `{CD : Codec} {B A : Type} (idx : Z) (w : World B A) : Prop :=
  ∀ info, GetEVMTxDeferredInfo idx w = Some info → is_Some (di_Surplus info).

(** A call of the wasmd precompile in a transaction that entered through it: the
    contract may call back into the EVM, which leaves a receipt under the sum of
    the transaction and adds to its record; with the surplus of the record
    everything is accounted for. *)
Definition wasmd_step `{BK : BankKeeper B} `{MST : MultiStore MS (World B A)} `{CD : Codec} (env : TxEnv) (idx : Z) (s s' : DBImpl MS) : Prop :=
  let w := cview (ctx s) in let w' := cview (ctx s') in
  level_step s s' ∧ w_params w' = w_params w ∧
  (∀ k, k ≠ ReceiptKey (te_TxSum env) → k ≠ deferred_key idx → w_transient w' !! k = w_transient w !! k) ∧
  (recordable idx w → recordable idx w') ∧
  (err s' = None → err s = None ∧ cur_worth s' + recorded_surplus idx w' = cur_worth s + recorded_surplus idx w).

(** The steps of the transaction with index [idx]. *)
Inductive tx_step `{BK : BankKeeper B} `{AK : AccountKeeper A} `{EC : EthCrypto} `{KC : KeeperConfig}
    `{MST : MultiStore MS (World B A)} `{CD : Codec} (env : TxEnv) (idx : Z) : DBImpl MS → DBImpl MS → Prop :=
| step_evm s s' : evm_step s s' → tx_step env idx s s'
| step_wasmd s s' : te_EntryViaWasmd env = true → wasmd_step env idx s s' → tx_step env idx s s'.

Class EVMLaws (MS : Type) `{EVM MS} `{BK : BankKeeper B} `{AK : AccountKeeper A} `{EC : EthCrypto} `{KC : KeeperConfig}
    `{MST : MultiStore MS (World B A)} `{CD : Codec} : Prop := {
  TransitionDb_steps : ∀ env cfg bc msg s r s', TransitionDb env cfg bc msg s = Ret (r, s') →
    rtc (tx_step env (ci_txIndex (c_info (ctx s)))) s s'
}.

(** [Int.Uint64] of the SDK panics when the number does not fit. *)
Definition Int_Uint64 (z : Z) : outcome Z :=
  if (0 <=? z) && (z <? two64) then Ret z else Panic "Uint64() out of bounds".

Section Tx.
Context `{BK : BankKeeper B} `{AK : AccountKeeper A} `{EC : EthCrypto} `{KC : KeeperConfig}.
Context `{MST : MultiStore MS (World B A)} `{MR : MapRange} `{SD : SdkDec} `{CD : Codec}.
Context `{EH : EthHex} `{IL : IntLibs} `{ET : EthTransactions T} `{TC : TxCodec} `{ER : EthReceipts}.
Context `{VM : EVM MS} `{GM : GasMeters G}.
Notation World := (World B A).
Notation Ctx := (Ctx MS).
Notation DB := (DBImpl MS).

(** ** Gas (evm.go) *)

Definition getEvmGasLimitFromCtx (gm : G) (w : World) : outcome Z :=
  let tabiGasRemaining := u64 (gm_Limit gm - gm_GasConsumedToLimit gm) in
  if gm_Limit gm <=? 0 then Ret maxUint64 else
  let* normalizer := dec_val (GetPriorityNormalizer w) in
  let* evmGas := dec_Quo (NewDec tabiGasRemaining) normalizer in
  let evmGasBig := TruncateInt evmGas in
  let evmGasBig := if maxUint64 <? evmGasBig then maxUint64 else evmGasBig in
  Ret (u64 (Z.abs evmGasBig)).

Definition consumeEvmGas (usedEvmGas : Z) (w : World) (gm : G) : outcome G :=
  let* normalizer := dec_val (GetPriorityNormalizer w) in
  let* tabiGas := dec_Mul (NewDec usedEvmGas) normalizer in
  let* gas := Int_Uint64 (TruncateInt tabiGas) in
  gm_ConsumeGas gas gm.

Definition GetGasPool : Z := maxUint64.

(** ** The block context (keeper.go, precompile.go) *)

Definition payablePrecompiles : list string :=
  ["0x0000000000000000000000000000000000001001"; "0x0000000000000000000000000000000000001005";
   "0x0000000000000000000000000000000000001006"; "0x0000000000000000000000000000000000001002"]%string.
Definition IsPayablePrecompile (addr : option Address) : bool :=
  match addr with
  | None => false
  | Some a => existsb (String.eqb (addr_Hex a)) payablePrecompiles
  end.

Definition WasmdAddress : string := "0x0000000000000000000000000000000000001002".
Definition IsWasmdCall (to : option Address) : bool :=
  match to with None => false | Some a => bool_decide (a = HexToAddress WasmdAddress) end.

Definition txfer (sender recipient : Address) (amount : Z) : stm DB unit :=
  if IsPayablePrecompile (Some recipient) then TransferWithoutEvents sender recipient amount
  else core_Transfer sender recipient amount.

Definition getHistoricalHash (h : Z) : Hash :=
  match historical_hash h with None => zero_hash | Some b => BytesToHash b end.

Definition GetHashFn (env : TxEnv) (c : Ctx) (height : Z) : Hash :=
  if maxInt64 <? height then zero_hash else
  let h := i64 height in
  if ci_height (c_info c) =? h then BytesToHash (te_HeaderHash env)
  else if ci_height (c_info c) <? h then zero_hash
  else getHistoricalHash h.

Definition DefaultBlockGasLimit : Z := 35000000.

Definition GetVMBlockContext (env : TxEnv) (cache : option Address) (c : Ctx)
    : outcome ((BlockContext DB + Err) * option Address) :=
  let '(coinbase, e, cache') := GetFeeCollectorAddress cache (cview c) in
  match e with
  | Some e => Ret (inr e, cache')
  | None =>
  match te_TimeBytes env with
  | inr e => Ret (inr e, cache')
  | inl r =>
      let rh := Keccak256Hash r in
      let* fee := dec_val (GetBaseFeePerGas (cview c)) in
      let baseFee := TruncateInt fee in
      let gasLimit :=
        match ci_maxGas (c_info c) with
        | Some g => if 0 <? g then u64 g else DefaultBlockGasLimit
        | None => DefaultBlockGasLimit
        end in
      Ret (inl (mkBlockContext txfer (GetHashFn env c) coinbase gasLimit (ci_height (c_info c)) (u64 (te_Time env))
                  0 baseFee 1 rh), cache')
  end
  end.

(** [GetBaseFee] is nil outside the two special modes. *)
Definition GetBaseFee : option Z := None.

Definition GetEVMMessage (tx : T) (sender : Address) : outcome Message :=
  match tx_GasPrice tx, tx_GasFeeCap tx, tx_GasTipCap tx with
  | Some gasPrice, Some gasFeeCap, Some gasTipCap =>
      let gasPrice' := match GetBaseFee with
                       | Some baseFee => Z.min (gasTipCap + baseFee) gasFeeCap
                       | None => gasPrice
                       end in
      Ret (mkMessage (tx_To tx) sender (tx_Nonce tx) (tx_Value tx) (tx_Gas tx) gasPrice' gasFeeCap gasTipCap (tx_Data tx)
             (tx_AccessList tx) (tx_BlobGasFeeCap tx) (tx_BlobHashes tx) false)
  | _, _, _ => Panic nil_deref
  end.

(** The chain ID of the context. *)
Definition Keeper_ChainID (env : TxEnv) : Z := GetEVMChainID (te_ChainID env).

(** The receiver of the result is the database; the cache is the keeper's. *)
Definition applyEVMMessage (env : TxEnv) (msg : Message) (cache : option Address) (c : Ctx) (s : DB)
    : outcome ((ExecutionResult + Err) * DB * option Address) :=
  let* b := GetVMBlockContext env cache c in
  match b with
  | (inr e, cache') => Ret (inr e, s, cache')
  | (inl blockCtx, cache') =>
      let cfg := EthereumConfig DefaultChainConfig (Some (Keeper_ChainID env)) in
      let* r := TransitionDb env cfg blockCtx msg s in
      Ret (r.1, r.2, cache')
  end.

(** ** What follows a successful state transition *)

(** The base context after the database has been written to it: the stores and
    events of the database's first context. *)
Definition base_ctx (c : Ctx) (s : DB) : Ctx :=
  match snapshottedCtxs s with
  | c0 :: _ => mkCtx (c_ms c0) (c_events c0) (c_info c)
  | [] => c
  end.

Definition newline : string := String "010"%char "".

(** Logs that are read back from a receipt are added as new logs. *)
Definition add_logs (ls : list RLog) : stm DB unit :=
  sfor ls (λ l, AddLog (mkLog (HexToAddress (rl_Address l)) (HexToHash <$> rl_Topics l) (rl_Data l) 0)).

(** Nil is the surplus of a record that has none. *)
Definition add_surplus (a : Z) (b : option Z) : outcome Z :=
  match b with Some b => Ret (a + b) | None => Panic nil_deref end.

(** What a handler leaves: its results, the context, the meter and the cache. *)
Record TxOut (Res : Type) : Type := mkTxOut {
  to_res : Res;
  to_err : option Err;
  to_ctx : Ctx;
  to_meter : G;
  to_cache : option Address
}.

(** ** EVMTransaction (msg_server.go) *)

Definition PrepareCtxForEVMTransaction (env : TxEnv) (tx : T) : TxEnv :=
  if IsWasmdCall (tx_To tx) then with_entry true env else env.

(** A call that entered through the wasmd precompile may have left a receipt and
    a record of its own; they become part of the transaction's. *)
Definition absorb_synthetic (env : TxEnv) (res : MsgEVMTransactionResponse) (s : DB) (c : Ctx)
    : outcome (MsgEVMTransactionResponse * DB * Ctx * Z) :=
  if te_EntryViaWasmd env then
    let* r :=
      match GetTransientReceipt (te_TxSum env) (cview c) with
      | None => Ret (res, s, c)
      | Some syntheticReceipt =>
          let* a := add_logs (rc_Logs syntheticReceipt) s in
          let res' :=
            if String.eqb (rc_VmError syntheticReceipt) "" then res
            else mkResponse (rsp_GasUsed res)
                   (rsp_VmError res ++ newline ++ rc_VmError syntheticReceipt ++ newline)%string
                   (rsp_ReturnData res) (rsp_Hash res) (rsp_Logs res) in
          Ret (res', a.2, cupd (DeleteTransientReceipt (te_TxSum env)) c)
      end in
    let* extraSurplus :=
      match GetEVMTxDeferredInfo (ci_txIndex (c_info c)) (cview r.2) with
      | None => Ret 0
      | Some info => add_surplus 0 (di_Surplus info)
      end in
    Ret (r.1.1, r.1.2, r.2, extraSurplus)
  else Ret (res, s, c, 0).

(** The gas used, in the chain's unit, is charged to the original meter. *)
Definition charge_gas (gasUsed : Z) (w : World) (gm : G) : outcome G :=
  let* normalizer := dec_val (GetPriorityNormalizer w) in
  let* adjustedGasUsed := dec_MulInt64 normalizer (i64 gasUsed) in
  let* gas := Int_Uint64 (TruncateInt adjustedGasUsed) in
  gm_ConsumeGas gas gm.

(** The deferred part of the handler, after a state transition without error. *)
Definition finish_transaction (env : TxEnv) (tx : T) (emsg : Message) (res : MsgEVMTransactionResponse)
    (cache : option Address) (gm : G) (c : Ctx) (s : DB) : outcome (TxOut (option MsgEVMTransactionResponse)) :=
  let* f := Finalize s in
  match f with
  | ((Some surplus, None), s1) =>
      let* r := absorb_synthetic env res s1 (base_ctx c s1) in
      let '(res1, s2, c1, extraSurplus) := r in
      let '(receipt, c2) :=
        WriteReceipt s2 emsg (u32 (tx_Type tx)) (tx_Hash tx) (rsp_GasUsed res1) (rsp_VmError res1) c1 in
      let* bloom := BytesToBloom (rc_LogsBloom receipt) in
      let c3 := cupd (AppendToEvmTxDeferredInfo bloom (tx_Hash tx) (Some (surplus + extraSurplus))
                       (ci_txIndex (c_info c))) c2 in
      let* gm' := charge_gas (rsp_GasUsed res1) (cview c3) gm in
      Ret (mkTxOut _ (Some res1) None c3 gm' cache)
  | ((_, ferr), s1) => Ret (mkTxOut _ (Some res) ferr c gm cache)
  end.

Definition EVMTransaction (env : TxEnv) (msg : MsgEVMTransaction) (cache : option Address) (gm : G) (c : Ctx)
    : outcome (TxOut (option MsgEVMTransactionResponse)) :=
  let* isAssociate := IsAssociateTx msg in
  if isAssociate then Ret (mkTxOut _ (Some (mkResponse 0 "" [] "" [])) None c gm cache) else
  let* txo := AsTransaction msg in
  match txo, msg_Derived msg with
  | Some (tx, _), Some derived =>
      let env1 := PrepareCtxForEVMTransaction env tx in
      let* n := NewDBImpl cache c false in
      let* emsg := GetEVMMessage tx (dv_SenderEVMAddr derived) in
      let* a := applyEVMMessage env1 emsg n.2 c n.1 in
      let '(r, s, cache') := a in
      let hash := hash_Hex (tx_Hash tx) in
      match r with
      | inr applyErr => Ret (mkTxOut _ (Some (mkResponse 0 "" [] hash [])) (Some applyErr) c gm cache')
      | inl res =>
          let vmError := default ""%string (er_Err res) in
          finish_transaction env1 tx emsg
            (mkResponse (er_UsedGas res) vmError (er_ReturnData res) hash (NewLogsFromEth (all_logs s))) cache' gm c s
      end
  | _, _ => Panic nil_deref
  end.

(** ** CallEVM (evm.go) *)

Definition MaxInitCodeSize : nat := 49152.

(** [stateDB.GetNonce(from)] reads through the new database. *)
Definition CallEVM (env : TxEnv) (from : Address) (to : option Address) (val : option Z) (data : bytes)
    (cache : option Address) (gm : G) (c : Ctx) : outcome (TxOut bytes) :=
  let fail e cache gm := Ret (mkTxOut _ [] (Some e) c gm cache) in
  if te_IsEVM env && negb (te_EntryViaWasmd env)
  then fail "tabi does not support EVM->CW->EVM call pattern"%string cache gm else
  if match to with None => (MaxInitCodeSize <? length data)%nat | Some _ => false end
  then fail "max initcode size exceeded"%string cache gm else
  if match val with Some v => v <? 0 | None => false end then fail "invalid coins"%string cache gm else
  let value := default 0 val in
  let* n := NewDBImpl cache c false in
  let* nonce := StateDB.GetNonce from n.1 in
  let* gasLimit := getEvmGasLimitFromCtx gm (cview c) in
  let evmMsg := mkMessage to from nonce.1 (Some value) gasLimit 0 0 0 data [] None [] false in
  let* a := applyEVMMessage env evmMsg n.2 c nonce.2 in
  let '(r, s, cache') := a in
  match r with
  | inr e => fail e cache' gm
  | inl res =>
  let* gm1 := consumeEvmGas (er_UsedGas res) (cview c) gm in
  match er_Err res with
  | Some e => fail e cache' gm1
  | None =>
  let* f := Finalize s in
  match f with
  | ((Some surplus, None), s1) =>
      let c1 := base_ctx c s1 in
      let* l :=
        match GetTransientReceipt (te_TxSum env) (cview c1) with
        | None => Ret (s1, ""%string)
        | Some existingReceipt =>
            let* a := add_logs (rc_Logs existingReceipt) s1 in
            Ret (a.2, if String.eqb (rc_VmError existingReceipt) "" then ""%string
                      else (rc_VmError existingReceipt ++ newline ++ newline)%string)
        end in
      let* surplus' :=
        match GetEVMTxDeferredInfo (ci_txIndex (c_info c)) (cview c1) with
        | None => Ret surplus
        | Some existingDeferredInfo => add_surplus surplus (di_Surplus existingDeferredInfo)
        end in
      let '(receipt, c2) := WriteReceipt l.1 evmMsg LegacyTxType (te_TxSum env) (er_UsedGas res) l.2 c1 in
      let* bloom := BytesToBloom (rc_LogsBloom receipt) in
      let c3 := cupd (AppendToEvmTxDeferredInfo bloom (te_TxSum env) (Some surplus') (ci_txIndex (c_info c))) c2 in
      Ret (mkTxOut _ (er_ReturnData res) None c3 gm1 cache')
  | ((_, Some ferr), s1) => fail ferr cache' gm1
  | ((None, None), s1) => Panic nil_deref
  end end end.

End Tx.

(** * Lemmas *)

(** Calls of the database that do not mint are steps of the EVM. *)
Lemma run_ops_steps `{BK : BankKeeper B} `{AK : AccountKeeper A} `{EC : EthCrypto} `{KC : KeeperConfig}
    `{MST : MultiStore MS (World B A)} (ops : list db_op) (s s' : DBImpl MS) (u : unit) :
  Forall (λ op, is_conserving op = true) ops → run_ops ops s = Ret (u, s') → rtc evm_step s s'.
Proof.
  intros Hc. revert s. induction Hc as [|op ops Hop Hc IH]; intros s H.
  - injection H as _ <-. constructor.
  - unfold run_ops in H. cbn [sfor] in H. unfold sbind in H. destruct (run_op op s) as [[u1 s1]|] eqn:E; [|done].
    eapply rtc_l; [by eapply evm_call|by apply IH].
Qed.


Section TxLemmas.
Context `{BK : BankKeeper B} `{AK : AccountKeeper A} `{EC : EthCrypto} `{KC : KeeperConfig}.
Context `{MST : MultiStore MS (World B A)} `{MSL : !MultiStoreLaws MS (World B A)} `{MR : MapRange} `{BL : !BankLaws B}.
Context `{CD : Codec}.
Hypothesis Hlive : EthReplayConfig_Enabled = false.
Notation Ctx := (Ctx MS).
Notation DB := (DBImpl MS).

Lemma evm_step_simulation (s s' : DB) : evm_step s s' → simulation s' = simulation s.
Proof.
  intros [op u s1 s1' Hop Hrun|s1 s1' [Hl _] _].
  - by apply (sim_run_op Hlive op) in Hrun.
  - by destruct Hl as (_ & _ & _ & _ & _ & ?).
Qed.

Lemma NewDBImpl_info cache (c : Ctx) sim s cache' : NewDBImpl cache c sim = Ret (s, cache') → c_info (ctx s) = c_info c.
Proof. unfold NewDBImpl. destruct (GetFeeCollectorAddress cache (cview c)) as [[a e] ch]. by intros [= <- <-]. Qed.

(** What a level of the database of a transaction has kept of the stores [w0]. *)
Record held (env : TxEnv) (idx : Z) (w0 w : World B A) (n : Z) : Prop := {
  held_total : bk_total (w_bank w) + n + recorded_surplus idx w = bk_total (w_bank w0) + recorded_surplus idx w0;
  held_params : w_params w = w_params w0;
  held_record : recordable idx w0 → recordable idx w;
  held_rest : ∀ k, k ≠ ReceiptKey (te_TxSum env) → k ≠ deferred_key idx → w_transient w !! k = w_transient w0 !! k;
  held_plain : te_EntryViaWasmd env = false → w_transient w = w_transient w0
}.

Lemma held_moves env idx w0 w w' n n' :
  bk_total (w_bank w') + n' = bk_total (w_bank w) + n → tx_frame w' = tx_frame w → held env idx w0 w n → held env idx w0 w' n'.
Proof.
  intros Ht [= Htr Hp] [H1 H2 H3 H4 H5].
  assert (Hg : ∀ i, GetEVMTxDeferredInfo i w' = GetEVMTxDeferredInfo i w) by (intros i; unfold GetEVMTxDeferredInfo; by rewrite Htr).
  split; unfold recordable, recorded_surplus in *; rewrite ?Hg, ?Htr, ?Hp; try done. lia.
Qed.

Lemma tx_step_keeps env idx w0 (s s' : DB) : tx_step env idx s s' → db_wf s → levelled (held env idx w0) s → simulation s = false →
  db_wf s' ∧ levelled (held env idx w0) s' ∧ simulation s' = false.
Proof.
  intros Hstep Hwf Hl Hs. destruct Hstep as [s s' He|s s' Hent (Hlv & Hp & Hk & Hr & Hc)].
  - split_and!; [| |by rewrite (evm_step_simulation _ _ He)].
    + destruct He as [op u s s' Hop Hrun|s s' [Hlv _] _]; [by eapply (wf_run_op Hlive op)|by eapply wf_level].
    + destruct He as [op u s s' Hop Hrun|s s' Hc Hf].
      * by eapply (levelled_run_op Hlive); [apply held_moves|..].
      * by eapply levelled_conserves; [apply held_moves|..].
  - split_and!; [by eapply wf_level| |by destruct Hlv as (_ & _ & _ & _ & _ & ->)].
    eapply levelled_level; [done| |done]. intros He. destruct (Hc He) as [He0 Hw]. split; [done|].
    intros n [H1 H2 H3 H4 H5]. unfold cur_worth, bank_of in Hw. split.
    + lia.
    + by rewrite Hp.
    + auto.
    + intros k Hk1 Hk2. rewrite Hk by done. by apply H4.
    + rewrite Hent. discriminate.
Qed.

(** The context the database is written back to holds what the bank held before,
    up to the surplus and what the record has grown by. *)
Lemma transaction_settles env cache cache' (c : Ctx) (s0 s1 : DB) : let idx := ci_txIndex (c_info c) in
  NewDBImpl cache c false = Ret (s0, cache') → rtc (tx_step env idx) s0 s1 → err s1 = None →
  ∃ sp s2, Finalize s1 = Ret ((Some sp, None), s2) ∧ held env idx (cview c) (cview (base_ctx c s2)) sp.
Proof.
  intros idx Hnew Hsteps He.
  assert (Hkeep : db_wf s1 ∧ levelled (held env idx (cview c)) s1 ∧ simulation s1 = false).
  { assert (H0 : db_wf s0 ∧ levelled (held env idx (cview c)) s0 ∧ simulation s0 = false).
    { split_and!; [by eapply NewDBImpl_wf| |by eapply NewDBImpl_sim].
      eapply levelled_New; [apply held_moves|done|]. split; try done. lia. }
    clear Hnew He. induction Hsteps as [|s s' s'' Hstep _ IH]; [done|]. destruct H0 as (H1 & H2 & H3).
    apply IH. by eapply tx_step_keeps. }
  destruct Hkeep as (Hwf & Hl & Hsim).
  destruct (Finalize_run Hlive s1 Hwf Hsim He) as (s' & s2 & c0 & rest & Hset & Hc & He' & Hf & Hs & Hv & _).
  assert (Hview : cview (base_ctx c s2) = cview (ctx s')) by (unfold base_ctx; rewrite Hs; exact Hv).
  eexists _, s2. split; [exact Hf|]. rewrite Hview.
  eapply levelled_conserves; [apply held_moves|exact Hc|by eapply (fr_settle tx_frame Hlive)|done|done].
Qed.

(** Without calls through the wasmd precompile the transient store and the
    parameters are as before. *)
Lemma transition_settles cache cache' (c : Ctx) (s0 s1 : DB) :
  NewDBImpl cache c false = Ret (s0, cache') → rtc evm_step s0 s1 → err s1 = None →
  ∃ sp s2, Finalize s1 = Ret ((Some sp, None), s2) ∧
    bk_total (w_bank (cview (base_ctx c s2))) + sp = bk_total (w_bank (cview c)) ∧
    tx_frame (cview (base_ctx c s2)) = tx_frame (cview c).
Proof.
  intros Hnew Hsteps He. set (env := mkTxEnv zero_hash true false "" 0 (inl []) []).
  destruct (transaction_settles env cache cache' c s0 s1 Hnew) as (sp & s2 & Hf & [H1 H2 _ _ H5]); [|done|].
  { eapply rtc_subrel; [|exact Hsteps]. intros ? ?. apply step_evm. }
  specialize (H5 eq_refl). exists sp, s2. split; [done|].
  assert (Hg : recorded_surplus (ci_txIndex (c_info c)) (cview (base_ctx c s2)) = recorded_surplus (ci_txIndex (c_info c)) (cview c))
    by (unfold recorded_surplus, GetEVMTxDeferredInfo; by rewrite H5).
  split; [lia|]. unfold tx_frame. by rewrite H2, H5.
Qed.

(** The receipt and the record a handler leaves read back. *)
Lemma leaves_record `{!CodecLaws} `{EH : EthHex} `{ER : EthReceipts}
    (s : DB) msg txType h gas vmError sp idx (c : Ctx) :
  let rc := make_receipt c s msg txType h gas vmError in
  let c2 := (WriteReceipt s msg txType h gas vmError c).2 in
  let bloom := CreateBloom (all_logs s) in
  let c3 := cupd (AppendToEvmTxDeferredInfo bloom h (Some sp) idx) c2 in
  BytesToBloom (rc_LogsBloom rc) = Ret bloom ∧
  GetEVMTxDeferredInfo idx (cview c3) = Some (mkDeferredInfo (idx `mod` 2 ^ 32) (ba h) (rc_LogsBloom rc) (Some sp) "") ∧
  GetTransientReceipt h (cview c3) = Some rc ∧
  w_bank (cview c3) = w_bank (cview c) ∧ w_params (cview c3) = w_params (cview c) ∧
  (∀ k, k ≠ ReceiptKey h → k ≠ deferred_key idx → w_transient (cview c3) !! k = w_transient (cview c) !! k).
Proof.
  cbv zeta. unfold WriteReceipt. cbn [snd]. rewrite !cview_cupd.
  unfold GetEVMTxDeferredInfo, GetTransientReceipt, AppendToEvmTxDeferredInfo, SetTransientReceipt.
  cbn [w_transient set_transient w_bank w_params w_evm]. unfold prefix_set. split_and!; try done.
  - unfold BytesToBloom, make_receipt. cbn [rc_LogsBloom]. by rewrite ba_length, fit_ba.
  - rewrite lookup_insert_eq. by rewrite DeferredInfo_codec by (by eexists).
  - rewrite lookup_insert_ne by discriminate. rewrite lookup_insert_eq. apply Receipt_codec.
  - intros k H1 H2. by rewrite !lookup_insert_ne.
Qed.

Lemma GetNonce_run a (s : DB) n : Keeper.GetNonce (cview (ctx s)) a = Ret n → StateDB.GetNonce a s = Ret (n, s).
Proof. intros H. unfold StateDB.GetNonce. rewrite (bind_prepare Hlive). unfold view_out. by rewrite H. Qed.

Lemma AddLog_run l (s : DB) : ∃ s', AddLog l s = Ret (tt, s').
Proof. unfold AddLog, swhen. mstep. destruct (hooked hk_log _); by eexists. Qed.

Lemma add_logs_run `{EthHex} ls (s : DB) : ∃ s', add_logs ls s = Ret (tt, s').
Proof.
  unfold add_logs. revert s. induction ls as [|l ls IH]; intros s; [by eexists|]. cbn [sfor]. unfold sbind at 1.
  destruct (AddLog_run (mkLog (HexToAddress (rl_Address l)) (HexToHash <$> rl_Topics l) (rl_Data l) 0) s) as [s' ->].
  apply IH.
Qed.

Lemma Finalize_ok_err (s s' : DB) sp : Finalize s = Ret ((Some sp, None), s') → err s = None.
Proof. unfold Finalize. unfold sbind at 1, sget at 1. destruct (simulation s); [done|]. unfold sbind at 1, sget at 1. by destruct (err s). Qed.

(** Without an error there is a surplus. *)
Lemma Finalize_no_surplus (s s' : DB) : Finalize s ≠ Ret ((None, None), s').
Proof.
  intros H. unfold Finalize, sbind, sget in H. destruct (simulation s); [done|].
  destruct (err s) eqn:E; [by injection H|]. repeat (case_match; try done).
Qed.

End TxLemmas.

(** * Theorems *)

Section TxTheorems.
Context `{BK : BankKeeper B} `{AK : AccountKeeper A} `{EC : EthCrypto} `{KC : KeeperConfig}.
Context `{MST : MultiStore MS (World B A)} `{MSL : !MultiStoreLaws MS (World B A)} `{MR : MapRange} `{SD : SdkDec} `{CD : Codec}.
Context `{EH : EthHex} `{IL : IntLibs} `{ET : EthTransactions T} `{TC : TxCodec} `{ER : EthReceipts}.
Context `{VM : EVM MS} `{GM : GasMeters G}.
Notation Ctx := (Ctx MS).
Notation DB := (DBImpl MS).

(** An EVM message that is ready to run: it unpacks to a transaction whose
    sender is known and that is not an association. *)
Definition runnable (msg : MsgEVMTransaction) (tx : T) (emsg : Message) : Prop :=
  ∃ td d, UnpackTxData (msg_Data msg) = inl td ∧ (∀ a, td ≠ TAssociate a) ∧ AsTransaction msg = Ret (Some (tx, td)) ∧
    msg_Derived msg = Some d ∧ GetEVMMessage tx (dv_SenderEVMAddr d) = Ret emsg.

(** What a transaction that entered through the wasmd precompile absorbs. *)
Lemma absorb_run (env : TxEnv) (res : MsgEVMTransactionResponse) (s : DB) (c : Ctx) : let idx := ci_txIndex (c_info c) in
  (te_EntryViaWasmd env = true → recordable idx (cview c)) →
  ∃ res' s' c', absorb_synthetic env res s c =
      Ret (res', s', c', if te_EntryViaWasmd env then recorded_surplus idx (cview c) else 0) ∧
    rsp_GasUsed res' = rsp_GasUsed res ∧ (te_EntryViaWasmd env = false → res' = res) ∧
    w_bank (cview c') = w_bank (cview c) ∧ w_params (cview c') = w_params (cview c) ∧
    (∀ k, k ≠ ReceiptKey (te_TxSum env) → w_transient (cview c') !! k = w_transient (cview c) !! k).
Proof.
  intros idx Hrec. unfold absorb_synthetic. destruct (te_EntryViaWasmd env); [|by exists res, s, c]. specialize (Hrec eq_refl).
  assert (∃ res' s' c', match GetTransientReceipt (te_TxSum env) (cview c) with
      | None => Ret (res, s, c)
      | Some r =>
          let* a := add_logs (rc_Logs r) s in
          Ret (if String.eqb (rc_VmError r) "" then res
               else mkResponse (rsp_GasUsed res) (rsp_VmError res ++ newline ++ rc_VmError r ++ newline)%string
                      (rsp_ReturnData res) (rsp_Hash res) (rsp_Logs res), a.2, cupd (DeleteTransientReceipt (te_TxSum env)) c)
      end = Ret (res', s', c') ∧ rsp_GasUsed res' = rsp_GasUsed res ∧ w_bank (cview c') = w_bank (cview c) ∧
      w_params (cview c') = w_params (cview c) ∧
      (∀ k, k ≠ ReceiptKey (te_TxSum env) → w_transient (cview c') !! k = w_transient (cview c) !! k)) as (res' & s' & c' & Hr & H1 & H2 & H3 & H4).
  { destruct (GetTransientReceipt _ _) as [r|]; [|by exists res, s, c].
    destruct (add_logs_run (rc_Logs r) s) as [s' ->]. cbn [outcome_bind snd]. eexists _, _, _. split; [reflexivity|].
    rewrite cview_cupd. split_and!; [by destruct (String.eqb _ _)|done|done|]. intros k Hk. cbn. by apply lookup_delete_ne. }
  rewrite Hr. cbn [outcome_bind fst snd]. fold idx.
  assert (Hg : GetEVMTxDeferredInfo idx (cview c') = GetEVMTxDeferredInfo idx (cview c)).
  { unfold GetEVMTxDeferredInfo. rewrite H4; [done|]. unfold ReceiptKey. discriminate. }
  rewrite Hg. exists res', s', c'. split; [|done]. unfold recorded_surplus. destruct (GetEVMTxDeferredInfo idx (cview c)) as [info|] eqn:Ei; [|done].
  destruct (Hrec info Ei) as [z Hz]. by rewrite Hz.
Qed.

(** What follows a state transition: the receipt and the record are left, and
    everything is accounted for. *)
Lemma finish_transaction_run (env : TxEnv) (tx : T) (emsg : Message) (res0 : MsgEVMTransactionResponse)
    (cache cache0 cache1 : option Address) (gm : G) (c : Ctx) (s0 s1 : DB) : let idx := ci_txIndex (c_info c) in
  EthReplayConfig_Enabled = false → BankLaws B → CodecLaws →
  NewDBImpl cache0 c false = Ret (s0, cache1) → rtc (tx_step env idx) s0 s1 → err s1 = None →
  (te_EntryViaWasmd env = true → GetEVMTxDeferredInfo idx (cview c) = None) →
  ∃ r sp rc c', finish_transaction env tx emsg res0 cache gm c s1 =
      (let* gm' := charge_gas (rsp_GasUsed res0) (cview c) gm in Ret (mkTxOut _ (Some r) None c' gm' cache)) ∧
    (te_EntryViaWasmd env = false → r = res0) ∧
    bk_total (w_bank (cview c')) + sp = bk_total (w_bank (cview c)) ∧
    GetEVMTxDeferredInfo idx (cview c') = Some (mkDeferredInfo (idx `mod` 2 ^ 32) (ba (tx_Hash tx)) (rc_LogsBloom rc) (Some sp) "") ∧
    GetTransientReceipt (tx_Hash tx) (cview c') = Some rc ∧ (length (rc_LogsBloom rc) ≤ 256)%nat ∧
    rc_GasUsed rc = rsp_GasUsed res0 ∧ rc_Status rc = (if String.eqb (rsp_VmError r) "" then 1 else 0) ∧
    (∀ k, k ≠ ReceiptKey (tx_Hash tx) → k ≠ ReceiptKey (te_TxSum env) → k ≠ deferred_key idx →
      w_transient (cview c') !! k = w_transient (cview c) !! k).
Proof.
  intros idx Hlive BL CL Hnew Hsteps He Hnone.
  destruct (transaction_settles Hlive env _ _ _ _ _ Hnew Hsteps He) as (sp & s2 & Hf & [Htot Hpar Hrec Hrest Hplain]). fold idx in Htot, Hrec, Hrest.
  set (c1 := base_ctx c s2) in *. assert (Hidx : ci_txIndex (c_info c1) = idx) by (unfold c1, base_ctx; by destruct (snapshottedCtxs s2)).
  destruct (absorb_run env res0 s2 c1) as (r & s3 & c2 & Ha & Hg & Hres & Hb2 & Hp2 & Hk2).
  { rewrite Hidx. intros Hent. apply Hrec. intros info. by rewrite (Hnone Hent). }
  rewrite Hidx in Ha. set (extra := if te_EntryViaWasmd env then recorded_surplus idx (cview c1) else 0) in *.
  assert (Hextra : bk_total (w_bank (cview c1)) + (sp + extra) = bk_total (w_bank (cview c))).
  { unfold extra. destruct (te_EntryViaWasmd env).
    - unfold recorded_surplus in Htot at 2. rewrite (Hnone eq_refl) in Htot. lia.
    - assert (E : recorded_surplus idx (cview c1) = recorded_surplus idx (cview c))
        by (unfold recorded_surplus, GetEVMTxDeferredInfo; by rewrite (Hplain eq_refl)). lia. }
  pose proof (leaves_record s3 emsg (u32 (tx_Type tx)) (tx_Hash tx) (rsp_GasUsed r) (rsp_VmError r) (sp + extra) idx c2)
    as (Hbl & Hinfo & Hrc & Hb & Hp & Hk). unfold WriteReceipt in Hinfo, Hrc, Hb, Hp, Hk. cbn [snd] in Hinfo, Hrc, Hb, Hp, Hk.
  eexists r, (sp + extra), _, _. split; [|split_and!; [exact Hres| |exact Hinfo|exact Hrc| | |reflexivity|]].
  - unfold finish_transaction. rewrite Hf. cbn [outcome_bind]. fold c1. rewrite Ha. cbn [outcome_bind].
    unfold WriteReceipt. rewrite Hbl. cbn [outcome_bind]. fold idx. rewrite Hg.
    assert (Hch : ∀ w : World B A, w_params w = w_params (cview c) → charge_gas (rsp_GasUsed res0) w gm = charge_gas (rsp_GasUsed res0) (cview c) gm)
      by (intros w Hw; unfold charge_gas, GetPriorityNormalizer, GetParams; by rewrite Hw).
    rewrite Hg in Hp. rewrite Hch by (by rewrite Hp, Hp2). reflexivity.
  - rewrite Hb, Hb2. lia.
  - unfold make_receipt. cbn [rc_LogsBloom]. rewrite ba_length. lia.
  - unfold make_receipt. cbn [rc_GasUsed]. exact Hg.
  - intros k H1 H2 H3. rewrite Hk, Hk2 by done. by apply Hrest.
Qed.

(** The same from its result: when the handler returns without an error, either
    the message was an association and nothing changed, or the transaction
    accounts for every wei. *)
Lemma EVMTransaction_inv (env : TxEnv) (msg : MsgEVMTransaction) (cache : option Address) (gm : G) (c : Ctx) out :
  let idx := ci_txIndex (c_info c) in let c' := to_ctx _ out in
  EthReplayConfig_Enabled = false → BankLaws B → CodecLaws → EVMLaws MS →
  EVMTransaction env msg cache gm c = Ret out → to_err _ out = None → GetEVMTxDeferredInfo idx (cview c) = None →
  (IsAssociateTx msg = Ret true ∧ c' = c) ∨
  ∃ tx td info sp, AsTransaction msg = Ret (Some (tx, td)) ∧
    GetEVMTxDeferredInfo idx (cview c') = Some info ∧ di_Surplus info = Some sp ∧ di_Error info = ""%string ∧
    (length (di_TxBloom info) ≤ 256)%nat ∧ bk_total (w_bank (cview c')) + sp = bk_total (w_bank (cview c)) ∧
    (∀ k, k ≠ ReceiptKey (tx_Hash tx) → k ≠ ReceiptKey (te_TxSum env) → k ≠ deferred_key idx →
      w_transient (cview c') !! k = w_transient (cview c) !! k).
Proof.
  intros idx c' Hlive BL CL VML H He Hnone. unfold EVMTransaction in H. destruct (IsAssociateTx msg) as [b|] eqn:EA; [|done].
  cbn [outcome_bind] in H. destruct b; [left; by injection H as <-|right].
  destruct (AsTransaction msg) as [txo|] eqn:Et; [|done]. cbn [outcome_bind] in H.
  destruct txo as [[tx td]|]; [|done]. destruct (msg_Derived msg) as [d|] eqn:Ed; [|done]. exists tx, td.
  set (env1 := PrepareCtxForEVMTransaction env tx) in *.
  assert (Hsum : te_TxSum env1 = te_TxSum env) by (unfold env1, PrepareCtxForEVMTransaction; by destruct (IsWasmdCall _)).
  destruct (NewDBImpl cache c false) as [[s0 cache1]|] eqn:En; [|done]. cbn [outcome_bind fst snd] in H.
  destruct (GetEVMMessage tx (dv_SenderEVMAddr d)) as [emsg|] eqn:Em; [|done]. cbn [outcome_bind] in H.
  unfold applyEVMMessage in H. destruct (GetVMBlockContext env1 cache1 c) as [[[bc|e] cache2]|] eqn:Eb; cbn [outcome_bind] in H;
    [|by injection H as <-|done].
  destruct (TransitionDb _ _ _ _ _) as [[[res|e] s1]|] eqn:Etr; cbn [outcome_bind fst snd] in H; [|by injection H as <-|done].
  assert (Herr : err s1 = None).
  { unfold finish_transaction in H. destruct (Finalize s1) as [[[[sp|] [fe|]] s2]|] eqn:Ef; cbn [outcome_bind] in H;
      try (by injection H as <-); [by eapply Finalize_ok_err|by destruct (Finalize_no_surplus _ _ Ef)|done]. }
  apply TransitionDb_steps in Etr. rewrite (NewDBImpl_info _ _ _ _ _ En) in Etr.
  match type of H with finish_transaction _ _ _ ?res0 _ _ _ _ = _ =>
    destruct (finish_transaction_run env1 tx emsg res0 cache2 cache cache1 gm c s0 s1 Hlive BL CL En Etr Herr (λ _, Hnone))
      as (r & sp & rc & c3 & Hf & _ & Htot & Hinfo & _ & Hbl & _ & _ & Hk) end.
  rewrite Hf in H. destruct (charge_gas _ _ _) as [gm'|]; [|done]. cbn [outcome_bind] in H. injection H as <-. unfold c'. cbn [to_ctx].
  rewrite Hsum in Hk. eexists _, sp. split; [done|]. split; [exact Hinfo|]. by split_and!.
Qed.

(** C3: a transaction accounts for every wei.  When the state transition of a
    runnable message returns, no database call failed and the gas can be charged,
    the handler returns without an error, charges the gas used, and leaves a
    receipt with that gas and status and a deferred record with the bloom of the
    receipt; and the wei in the bank afterwards plus the surplus of the record is
    the wei in the bank before.  This includes transactions that enter through the
    wasmd precompile, which have no record yet: what the calls back into the EVM
    recorded becomes part of the record.  The state transition is go-ethereum's: it
    calls the database without minting, and the custom precompiles, which are
    assumed to keep the sum of the bank and the surplus (DynamicGas.v proves it for
    those of the address, bank, distribution and IBC modules). *)
Theorem EVMTransaction_accounts (env : TxEnv) (msg : MsgEVMTransaction) (tx : T) (emsg : Message)
    (cache cache1 cache2 : option Address) (gm gm' : G) (c : Ctx) (bc : BlockContext DB) (s0 s1 : DB)
    (res : ExecutionResult) :
  let env1 := PrepareCtxForEVMTransaction env tx in let idx := ci_txIndex (c_info c) in
  EthReplayConfig_Enabled = false → BankLaws B → CodecLaws → EVMLaws MS → runnable msg tx emsg →
  (te_EntryViaWasmd env1 = true → GetEVMTxDeferredInfo idx (cview c) = None) →
  NewDBImpl cache c false = Ret (s0, cache1) →
  GetVMBlockContext env1 cache1 c = Ret (inl bc, cache2) →
  TransitionDb env1 (EthereumConfig DefaultChainConfig (Some (Keeper_ChainID env1))) bc emsg s0 = Ret (inl res, s1) →
  err s1 = None → charge_gas (er_UsedGas res) (cview c) gm = Ret gm' →
  ∃ out r info rc sp, EVMTransaction env msg cache gm c = Ret out ∧ to_err _ out = None ∧ to_res _ out = Some r ∧ to_meter _ out = gm' ∧
    GetEVMTxDeferredInfo idx (cview (to_ctx _ out)) = Some info ∧ di_Surplus info = Some sp ∧
    bk_total (w_bank (cview (to_ctx _ out))) + sp = bk_total (w_bank (cview c)) ∧
    GetTransientReceipt (tx_Hash tx) (cview (to_ctx _ out)) = Some rc ∧ di_TxBloom info = rc_LogsBloom rc ∧
    rc_GasUsed rc = er_UsedGas res ∧ rc_Status rc = (if String.eqb (rsp_VmError r) "" then 1 else 0) ∧
    (te_EntryViaWasmd env1 = false → rsp_VmError r = default ""%string (er_Err res)).
Proof.
  intros env1 idx Hlive BL CL VML (td & d & Hun & Hna & Has & Hder & Hmsg) Hnone Hnew Hbc Htr He Hgas.
  assert (HA : IsAssociateTx msg = Ret false).
  { unfold IsAssociateTx, GetAssociateTx. rewrite Hun. destruct td as [t|t|t|t|t]; [done..|by destruct (Hna t)]. }
  pose proof (TransitionDb_steps _ _ _ _ _ _ _ Htr) as Hsteps. rewrite (NewDBImpl_info _ _ _ _ _ Hnew) in Hsteps.
  set (res0 := mkResponse (er_UsedGas res) (default ""%string (er_Err res)) (er_ReturnData res) (hash_Hex (tx_Hash tx))
                 (NewLogsFromEth (all_logs s1))).
  destruct (finish_transaction_run env1 tx emsg res0 cache2 cache cache1 gm c s0 s1 Hlive BL CL Hnew Hsteps He Hnone)
    as (r & sp & rc & c3 & Hf & Hr & Htot & Hinfo & Hrc & _ & Hg & Hst & _).
  cbn [res0 rsp_GasUsed] in Hf. rewrite Hgas in Hf. cbn [outcome_bind] in Hf.
  eexists _, r, _, rc, sp. split.
  - unfold EVMTransaction. rewrite HA. cbn [outcome_bind]. rewrite Has. cbn [outcome_bind]. rewrite Hder. fold env1.
    rewrite Hnew. cbn [outcome_bind fst snd]. rewrite Hmsg. cbn [outcome_bind].
    unfold applyEVMMessage. rewrite Hbc. cbn [outcome_bind]. rewrite Htr. cbn [outcome_bind fst snd]. exact Hf.
  - cbn [to_err to_res to_meter to_ctx]. split_and!; try done. intros Hent. by rewrite (Hr Hent).
Qed.

(** A transaction that fails leaves no trace: when the handler returns an
    error, the context and the gas meter are as before. *)
Theorem EVMTransaction_error (env : TxEnv) (msg : MsgEVMTransaction) (cache : option Address) (gm : G) (c : Ctx) out e :
  EVMTransaction env msg cache gm c = Ret out → to_err _ out = Some e →
  to_ctx _ out = c ∧ to_meter _ out = gm.
Proof.
  intros H He. unfold EVMTransaction in H. destruct (IsAssociateTx msg) as [b|]; [|done]. cbn [outcome_bind] in H.
  destruct b; [by injection H as <-|]. destruct (AsTransaction msg) as [txo|]; [|done]. cbn [outcome_bind] in H.
  destruct txo as [[tx td]|]; [|done]. destruct (msg_Derived msg) as [d|]; [|done].
  destruct (NewDBImpl _ _ _) as [n|]; [|done]. cbn [outcome_bind] in H.
  destruct (GetEVMMessage _ _) as [emsg|]; [|done]. cbn [outcome_bind] in H.
  destruct (applyEVMMessage _ _ _ _ _) as [[[[res|ae] s] cache']|]; [|by injection H as <-|done].
  cbn [outcome_bind] in H. unfold finish_transaction in H.
  destruct (Finalize s) as [[[sp ferr] s1]|]; [|done]. cbn [outcome_bind] in H.
  destruct sp as [sp|], ferr as [fe|]; try (by injection H as <-).
  destruct (absorb_synthetic _ _ _ _) as [[[[r1 s2] c1] x]|]; [|done]. cbn [outcome_bind] in H.
  destruct (WriteReceipt _ _ _ _ _ _ _) as [rc c2]. destruct (BytesToBloom _) as [bl|]; [|done]. cbn [outcome_bind] in H.
  destruct (charge_gas _ _ _) as [g|]; [|done]. cbn [outcome_bind] in H. by injection H as <-.
Qed.

(** A call from another module accounts for every wei, also when several
    calls are made in one transaction: the wei in the bank afterwards plus the
    surplus now recorded is the wei before plus the surplus recorded before. *)
Theorem CallEVM_accounts (env : TxEnv) (from : Address) (to : option Address) (val : option Z) (data : bytes)
    (cache cache1 cache2 : option Address) (gm gm1 : G) (c : Ctx) (bc : BlockContext DB) (s0 s1 : DB)
    (nonce gasLimit : Z) (res : ExecutionResult) :
  EthReplayConfig_Enabled = false → BankLaws B → CodecLaws → EVMLaws MS →
  te_IsEVM env = false ∨ te_EntryViaWasmd env = true → is_Some to ∨ (length data ≤ MaxInitCodeSize)%nat →
  0 ≤ default 0 val →
  NewDBImpl cache c false = Ret (s0, cache1) → Keeper.GetNonce (cview (ctx s0)) from = Ret nonce →
  getEvmGasLimitFromCtx gm (cview c) = Ret gasLimit → GetVMBlockContext env cache1 c = Ret (inl bc, cache2) →
  TransitionDb env (EthereumConfig DefaultChainConfig (Some (Keeper_ChainID env))) bc
    (mkMessage to from nonce (Some (default 0 val)) gasLimit 0 0 0 data [] None [] false) s0 = Ret (inl res, s1) →
  er_Err res = None → err s1 = None → consumeEvmGas (er_UsedGas res) (cview c) gm = Ret gm1 →
  recordable (ci_txIndex (c_info c)) (cview c) →
  ∃ out, CallEVM env from to val data cache gm c = Ret out ∧ to_err _ out = None ∧ to_res _ out = er_ReturnData res ∧
    bk_total (w_bank (cview (to_ctx _ out))) + recorded_surplus (ci_txIndex (c_info c)) (cview (to_ctx _ out)) =
    bk_total (w_bank (cview c)) + recorded_surplus (ci_txIndex (c_info c)) (cview c).
Proof.
  intros Hlive BL CL VML Hevm Hsize Hval Hnew Hnonce Hlim Hbc Htr Hvm He Hgas Hold.
  pose proof (TransitionDb_steps _ _ _ _ _ _ _ Htr) as Hsteps. rewrite (NewDBImpl_info _ _ _ _ _ Hnew) in Hsteps.
  destruct (transaction_settles Hlive env _ _ _ _ _ Hnew Hsteps He) as (sp & s2 & Hf & [Htot _ Hrec1 _ _]). specialize (Hrec1 Hold).
  set (msg := mkMessage to from nonce (Some (default 0 val)) gasLimit 0 0 0 data [] None [] false) in *.
  set (idx := ci_txIndex (c_info c)) in *. set (c1 := base_ctx c s2) in *.
  assert (∃ s3 vmErr, match GetTransientReceipt (te_TxSum env) (cview c1) with
      | None => Ret (s2, ""%string)
      | Some r => let* a := add_logs (rc_Logs r) s2 in
          Ret (a.2, if String.eqb (rc_VmError r) "" then ""%string else (rc_VmError r ++ newline ++ newline)%string)
      end = Ret (s3, vmErr)) as (s3 & vmErr & Hlogs).
  { destruct (GetTransientReceipt _ _) as [r|]; [|by eexists _, _].
    destruct (add_logs_run (rc_Logs r) s2) as [s3 ->]. by eexists _, _. }
  assert (match GetEVMTxDeferredInfo idx (cview c1) with
      | None => Ret sp | Some info => add_surplus sp (di_Surplus info) end = Ret (sp + recorded_surplus idx (cview c1))) as Hsp.
  { unfold recorded_surplus. destruct (GetEVMTxDeferredInfo idx (cview c1)) as [info|] eqn:Ei; [|by rewrite Z.add_0_r].
    destruct (Hrec1 info Ei) as [z Hz]. rewrite Hz. done. }
  pose proof (leaves_record s3 msg LegacyTxType (te_TxSum env) (er_UsedGas res) vmErr
    (sp + recorded_surplus idx (cview c1)) idx c1) as (Hbl & Hinfo & _ & Hb & _ & _).
  eexists. split.
  { unfold CallEVM.
    replace (te_IsEVM env && negb (te_EntryViaWasmd env)) with false by (destruct Hevm as [-> | ->]; by destruct (te_IsEVM env)).
    replace (match to with None => (MaxInitCodeSize <? length data)%nat | Some _ => false end) with false
      by (destruct to; [done|]; destruct Hsize as [[? ?]|?]; [done|]; symmetry; by apply Nat.ltb_ge).
    replace (match val with Some v => v <? 0 | None => false end) with false
      by (destruct val; [|done]; symmetry; by apply Z.ltb_ge).
    rewrite Hnew. cbn [outcome_bind fst snd]. rewrite (GetNonce_run Hlive from s0 nonce Hnonce). cbn [outcome_bind fst snd].
    rewrite Hlim. cbn [outcome_bind]. fold msg. unfold applyEVMMessage. rewrite Hbc. cbn [outcome_bind].
    rewrite Htr. cbn [outcome_bind fst snd]. rewrite Hgas. cbn [outcome_bind]. rewrite Hvm, Hf. cbn [outcome_bind].
    fold c1 idx. rewrite Hlogs. cbn [outcome_bind fst snd]. rewrite Hsp. cbn [outcome_bind].
    unfold WriteReceipt at 1. rewrite Hbl. cbn [outcome_bind]. reflexivity. }
  cbn [to_err to_res to_ctx]. split_and!; [done|done|]. unfold WriteReceipt in Hinfo, Hb. cbn [snd] in Hinfo, Hb.
  assert (Hrec : ∀ (w : World B A) i, GetEVMTxDeferredInfo idx w = Some i → recorded_surplus idx w = default 0 (di_Surplus i))
    by (intros w i Hw; unfold recorded_surplus; by rewrite Hw).
  rewrite (Hrec _ _ Hinfo), Hb. cbn [di_Surplus from_option id].
  lia.
Qed.

End TxTheorems.


(** * Examples *)

(** A meter with a limit and what was consumed. *)
Definition plain_meter : GasMeters (Z * Z) := {|
  gm_Limit g := g.1;
  gm_GasConsumedToLimit g := Z.min g.1 g.2;
  gm_ConsumeGas n g := if g.1 <? g.2 + n then Panic "out of gas" else Ret (g.1, g.2 + n)
|}.

Section TxExamples.
#[local] Existing Instances demo_bank_keeper demo_bank_laws demo_accounts demo_crypto live_config.
#[local] Existing Instances number_codec number_codec_laws plain_hex strict_ints plain_transactions no_codec.
#[local] Existing Instances half_even_dec demo_receipts_ops plain_meter.
#[local] Instance demo_call_stores : MultiStore (stack_ms demo_world) demo_world := stack_multistore demo_world.
#[local] Instance demo_call_stores_laws : MultiStoreLaws (stack_ms demo_world) demo_world :=
  stack_multistore_laws demo_world.
#[local] Instance demo_call_range : MapRange := {| range_accounts := map_to_list |}.

(** A state transition that runs the calls of [tx_ops], if the gas allows it. *)
Definition demo_result : ExecutionResult := mkExecutionResult 21000 None [x2a].
#[local] Instance demo_evm : EVM (stack_ms demo_world) := {|
  TransitionDb env cfg bc msg s :=
    if m_GasLimit msg <? 21000 then Ret (inr "intrinsic gas too low"%string, s)
    else let* r := run_ops tx_ops s in Ret (inl demo_result, r.2);
  core_Transfer := TransferWithoutEvents;
  historical_hash h := None
|}.

#[local] Instance demo_evm_laws : EVMLaws (stack_ms demo_world).
Proof.
  split. intros env cfg bc msg s r s'. simpl. destruct (m_GasLimit msg <? 21000); [by intros [= <- <-]|].
  destruct (run_ops tx_ops s) as [[u s1]|] eqn:E; [|done]. intros [= <- <-].
  eapply rtc_subrel; [intros ? ?; apply step_evm|]. eapply run_ops_steps; [|exact E]. repeat constructor.
Qed.

Definition demo_env : TxEnv := mkTxEnv (hash_of 9) false false "test-1" 1700000000 (inl [x01]) (ba (hash_of 3)).
Definition demo_run_msg (gas : Z) : MsgEVMTransaction :=
  mkMsgEVMTransaction (Some (mkAnyData (Some (TLegacy (mkLegacyTx 7 (Some 1000000000) gas "" (Some 5) []
    (big_Bytes 27) (big_Bytes 12345) (big_Bytes 67890)))) []))
    (Some (mkDerived (addr_of 1) (ba (addr_of 1)) (Some []) false Cancun)).

Definition demo_tx (gas : Z) : EthTxData :=
  EthLegacy (mkEthLegacyTx 7 (Some 1000000000) gas None (Some 5) [] (Some 27) (Some 12345) (Some 67890)).
Definition demo_emsg (gas : Z) : Message :=
  mkMessage None (addr_of 1) 7 (Some 5) gas 1000000000 1000000000 1000000000 [] [] None [] false.

(** The fee collector's address is in the keeper's cache. *)
Definition demo_cache : option Address := Some (addr_of 99).
Definition call_db : DBImpl (stack_ms demo_world) :=
  match NewDBImpl demo_cache funded_ctx false with Ret (s, _) => s | Panic _ => tx_db end.
Definition call_end : DBImpl (stack_ms demo_world) := exec (run_ops tx_ops) call_db.

Lemma demo_new : NewDBImpl demo_cache funded_ctx false = Ret (call_db, demo_cache).
Proof. reflexivity. Qed.
Lemma demo_block : ∃ bc, GetVMBlockContext demo_env demo_cache funded_ctx = Ret (inl bc, demo_cache).
Proof. eexists. reflexivity. Qed.
Lemma demo_runs env cfg bc msg :
  m_GasLimit msg <? 21000 = false → TransitionDb env cfg bc msg call_db = Ret (inl demo_result, call_end).
Proof.
  intros Hg. unfold TransitionDb, demo_evm. rewrite Hg.
  assert (Hi : is_ret (run_ops tx_ops call_db) = true) by (vm_compute; reflexivity).
  pose proof (exec_ret _ _ Hi) as Hr. rewrite Hr. unfold call_end. cbv beta iota delta [outcome_bind snd]. exact eq_refl.
Qed.
Lemma demo_runnable gas : runnable (demo_run_msg gas) (demo_tx gas) (demo_emsg gas).
Proof. eexists _, _. split_and!; [reflexivity|discriminate|reflexivity..]. Qed.

Lemma EVMTransaction_accounts_witness :
  ∃ out info sp, EVMTransaction demo_env (demo_run_msg 50000) demo_cache (100000, 0) funded_ctx = Ret out ∧
    to_err _ out = None ∧ GetEVMTxDeferredInfo 0 (cview (to_ctx _ out)) = Some info ∧ di_Surplus info = Some sp ∧
    bk_total (w_bank (cview (to_ctx _ out))) + sp = 3000000000007.
Proof.
  destruct demo_block as (bc & Hbc).
  assert (Hlive : EthReplayConfig_Enabled = false) by reflexivity.
  assert (He : err call_end = None) by (vm_compute; reflexivity).
  assert (Hent : te_EntryViaWasmd (PrepareCtxForEVMTransaction demo_env (demo_tx 50000)) = true →
    GetEVMTxDeferredInfo 0 (cview funded_ctx) = None) by discriminate.
  assert (Hgas : charge_gas 21000 (cview funded_ctx) (100000, 0) = Ret (100000, 21000)) by (vm_compute; reflexivity).
  assert (Ht : bk_total (w_bank (cview funded_ctx)) = 3000000000007) by (vm_compute; reflexivity).
  destruct (EVMTransaction_accounts demo_env (demo_run_msg 50000) (demo_tx 50000) (demo_emsg 50000) demo_cache demo_cache demo_cache
    (100000, 0) (100000, 21000) funded_ctx bc call_db call_end demo_result Hlive demo_bank_laws number_codec_laws demo_evm_laws
    (demo_runnable 50000) Hent demo_new Hbc (demo_runs _ _ bc (demo_emsg 50000) eq_refl) He Hgas)
    as (out & r & info & rc & sp & H1 & H2 & _ & _ & H3 & H4 & H5 & _).
  exists out, info, sp. rewrite <- Ht. split_and!; assumption.
Defined.

Lemma EVMTransaction_error_witness :
  ∃ out, EVMTransaction demo_env (demo_run_msg 20000) demo_cache (100000, 0) funded_ctx = Ret out ∧
    to_err _ out = Some "intrinsic gas too low"%string ∧ to_meter _ out = (100000, 0).
Proof.
  eexists. split; [reflexivity|]. split; [reflexivity|].
  refine (proj2 (EVMTransaction_error demo_env (demo_run_msg 20000) demo_cache (100000, 0) funded_ctx _ _ _ _)); reflexivity.
Defined.

Lemma CallEVM_accounts_witness :
  ∃ out, CallEVM demo_env (addr_of 1) (Some (addr_of 2)) (Some 1) [] demo_cache (1000000, 0) funded_ctx = Ret out ∧
    to_err _ out = None ∧ to_res _ out = [x2a] ∧
    bk_total (w_bank (cview (to_ctx _ out))) + recorded_surplus 0 (cview (to_ctx _ out)) = 3000000000007.
Proof.
  destruct demo_block as (bc & Hbc).
  assert (Hlive : EthReplayConfig_Enabled = false) by reflexivity.
  assert (He : err call_end = None) by (vm_compute; reflexivity).
  assert (Hn : Keeper.GetNonce (cview (ctx call_db)) (addr_of 1) = Ret 0) by (vm_compute; reflexivity).
  assert (Hl : getEvmGasLimitFromCtx (1000000, 0) (cview funded_ctx) = Ret 1000000) by (vm_compute; reflexivity).
  assert (Hg : consumeEvmGas 21000 (cview funded_ctx) (1000000, 0) = Ret (1000000, 21000)) by (vm_compute; reflexivity).
  assert (Hno : match GetEVMTxDeferredInfo 0 (cview funded_ctx) with Some _ => false | None => true end = true)
    by (vm_compute; reflexivity).
  assert (Hold : ∀ info, GetEVMTxDeferredInfo 0 (cview funded_ctx) = Some info → is_Some (di_Surplus info)).
  { intros info Hi. rewrite Hi in Hno. discriminate Hno. }
  assert (Ht : bk_total (w_bank (cview funded_ctx)) = 3000000000007) by (vm_compute; reflexivity).
  assert (Hz : 0 ≤ default 0 (Some 1)) by (simpl; lia).
  destruct (CallEVM_accounts demo_env (addr_of 1) (Some (addr_of 2)) (Some 1) [] demo_cache demo_cache demo_cache (1000000, 0) (1000000, 21000)
    funded_ctx bc call_db call_end 0 1000000 demo_result Hlive demo_bank_laws number_codec_laws demo_evm_laws
    (or_introl eq_refl) (or_introl (ex_intro _ _ eq_refl)) Hz demo_new Hn Hl Hbc
    (demo_runs _ _ bc (mkMessage (Some (addr_of 2)) (addr_of 1) 0 (Some 1) 1000000 0 0 0 [] [] None [] false) eq_refl) eq_refl He Hg Hold)
    as (out & H1 & H2 & H3 & H4).
  exists out. split_and!; [exact H1|exact H2|exact H3|]. etransitivity; [exact H4|]. rewrite Ht.
  unfold recorded_surplus. change (ci_txIndex (c_info funded_ctx)) with 0.
  destruct (GetEVMTxDeferredInfo 0 _); [discriminate Hno|reflexivity].
Defined.

End TxExamples.
