(* ===== verification/Associate.v ===== *)
(** * Associating addresses
    (utils/helpers/associate.go and the balance check of
    x/evm/ante/preprocess.go)

    Before an account is associated, funds sent to its EVM address are held by
    the account whose address has the same bytes (the cast account).  When the
    association is made, those funds move to the account itself. *)

From S2P Require Import Prelude Bytes Store Params Keys World Keeper Instances StateDB Snapshots.
Local Open Scope Z_scope.
Local Open Scope outcome_scope.

(** ** The SDK's accounts and coins *)

(** [ak_GetPubKey]: [None] when there is no account, [Some None] when it has no
    public key. *)
Class AccountKeys (A : Type) := {
  ak_GetPubKey : A → AccAddress → option (option bytes);
  (** [acc.SetPubKey(key)] then [SetAccount(ctx, acc)] *)
  ak_SetPubKey : A → AccAddress → bytes → A + Err;
  ak_RemoveAccount : A → AccAddress → A
}.
Class AccountKeysLaws (A : Type) `{AK : AccountKeeper A} `{AKK : AccountKeys A} : Prop := {
  ak_account_key : ∀ s a, ak_HasAccount s a = true ↔ is_Some (ak_GetPubKey s a);
  ak_new_account : ∀ s a, ak_HasAccount (ak_SetNewAccount s a) a = true
}.

(** [sdk.Coins]: amounts by denomination. *)
Notation Coins := (list (string * Z)).
Definition Coins_IsZero (cs : Coins) : bool := forallb (λ c, c.2 =? 0) cs.
Definition AmountOf (denom : string) (cs : Coins) : Z :=
  match find (λ c, String.eqb c.1 denom) cs with Some c => c.2 | None => 0 end.

Class CoinsKeeper (B : Type) := {
  bk_SpendableCoins : B → AccAddress → Coins;
  bk_AllLockedCoins : B → AccAddress → Coins;
  bk_SendCoins : B → AccAddress → AccAddress → Coins → bank_res B
}.
Class CoinsLaws (B : Type) `{BK : BankKeeper B} `{CK : CoinsKeeper B} : Prop := {
  bk_spendable_base : ∀ b a,
    AmountOf BaseDenom (bk_SpendableCoins b a) = bk_GetBalance b a BaseDenom - bk_LockedCoins b a BaseDenom;
  (** A payment of coins moves the amount of the base denomination. *)
  bk_SendCoins_ok : ∀ b from to cs b' ev,
    bk_SendCoins b from to cs = (b', ev, None) →
    ∃ b1, bank_moved b b1 from (- (AmountOf BaseDenom cs * AtabiToWeiMultiplier)) ∧
          bank_moved b1 b' to (AmountOf BaseDenom cs * AtabiToWeiMultiplier) ∧
          bk_GetWeiBalance b' from = bk_GetWeiBalance b from
}.

Section Associate.
Context `{BK : BankKeeper B} `{CK : CoinsKeeper B} `{AK : AccountKeeper A} `{AKK : AccountKeys A}.
Context `{MST : MultiStore MS (World B A)}.
Notation World := (World B A).
Notation Ctx := (Ctx MS).

(** ** AssociationHelper *)

(** Everything the cast account can spend goes to the account. *)
Definition move_spendable (castAddr tabiAddr : AccAddress) (c : Ctx) : Ctx * option Err :=
  let castAddrBalances := bk_SpendableCoins (w_bank (cview c)) castAddr in
  let '(c1, e1) :=
    if negb (Coins_IsZero castAddrBalances)
    then run_bank (λ b, bk_SendCoins b castAddr tabiAddr castAddrBalances) c else (c, None) in
  match e1 with
  | Some e => (c1, Some e)
  | None =>
      let castAddrWei := bk_GetWeiBalance (w_bank (cview c1)) castAddr in
      if negb (castAddrWei =? 0)
      then run_bank (λ b, bk_SendCoinsAndWei b castAddr tabiAddr 0 castAddrWei) c1 else (c1, None)
  end.

Definition MigrateBalance (evmAddr : Address) (tabiAddr : AccAddress) (c : Ctx) : Ctx * option Err :=
  let castAddr := ba evmAddr in
  let '(c2, e) := move_spendable castAddr tabiAddr c in
  match e with
  | Some e => (c2, Some e)
  | None =>
      (if Coins_IsZero (bk_AllLockedCoins (w_bank (cview c2)) castAddr)
       then cupd (λ w, set_acct (ak_RemoveAccount (w_acct w) castAddr) w) c2 else c2, None)
  end.

Definition AssociateAddresses (tabiAddr : AccAddress) (evmAddr : Address) (pubkey : bytes) (c : Ctx)
    : outcome (Ctx * option Err) :=
  let c1 := SetAddressMapping tabiAddr evmAddr c in
  match ak_GetPubKey (w_acct (cview c1)) tabiAddr with
  | None => Panic nil_deref
  | Some (Some _) => Ret (MigrateBalance evmAddr tabiAddr c1)
  | Some None =>
      match ak_SetPubKey (w_acct (cview c1)) tabiAddr pubkey with
      | inr e => Ret (c1, Some e)
      | inl a => Ret (MigrateBalance evmAddr tabiAddr (cupd (set_acct a) c1))
      end
  end.

(** [EVMPreprocessDecorator.IsAccountBalancePositive] *)
Definition IsAccountBalancePositive (tabiAddr : AccAddress) (evmAddr : Address) (w : World) : bool :=
  let b := w_bank w in
  (0 <? bk_GetBalance b tabiAddr BaseDenom) || (0 <? bk_GetBalance b (ba evmAddr) BaseDenom)
  || (0 <? bk_GetWeiBalance b tabiAddr) || (0 <? bk_GetWeiBalance b (ba evmAddr)).

End Associate.

(** * Lemmas *)

(** [b'] is [b] after [d] wei went from one account to another. *)
Definition transferred `{BankKeeper B} (b b' : B) (from to : AccAddress) (d : Z) : Prop :=
  wei_value b' from = wei_value b from - d ∧ wei_value b' to = wei_value b to + d ∧
  (∀ a, a ≠ from → a ≠ to → wei_value b' a = wei_value b a) ∧
  (∀ a, bk_LockedCoins b' a BaseDenom = bk_LockedCoins b a BaseDenom) ∧ bk_total b' = bk_total b.

Section Transfers.
Context `{BK : BankKeeper B}.

Lemma moved_transferred (b b1 b' : B) from to d :
  from ≠ to → bank_moved b b1 from (- d) → bank_moved b1 b' to d → transferred b b' from to d.
Proof.
  intros Hne (V1 & O1 & L1 & T1) (V2 & O2 & L2 & T2). split_and!.
  - rewrite (O2 from Hne). lia.
  - rewrite V2, (O1 to) by done. lia.
  - intros a Hf Ht. by rewrite O2, O1.
  - intros a. by rewrite L2, L1.
  - lia.
Qed.

Lemma transferred_refl (b : B) from to : transferred b b from to 0.
Proof. split_and!; done || lia. Qed.

Lemma transferred_trans (b b1 b2 : B) from to d1 d2 :
  transferred b b1 from to d1 → transferred b1 b2 from to d2 → transferred b b2 from to (d1 + d2).
Proof.
  intros (F1 & T1 & O1 & L1 & S1) (F2 & T2 & O2 & L2 & S2). split_and!; try lia.
  - intros a Hf Ht. by rewrite O2, O1.
  - intros a. by rewrite L2, L1.
Qed.

Lemma transferred_spendable (b b' : B) from to d :
  transferred b b' from to d →
  spendable b' from = spendable b from - d ∧ spendable b' to = spendable b to + d ∧
  ∀ a, a ≠ from → a ≠ to → spendable b' a = spendable b a.
Proof.
  intros (F & T & O & L & _). unfold spendable. rewrite !L. split_and!; [lia|lia|].
  intros a Hf Ht. by rewrite L, O.
Qed.

End Transfers.

Lemma zero_AmountOf denom (cs : Coins) : Coins_IsZero cs = true → AmountOf denom cs = 0.
Proof.
  intros H. unfold AmountOf. destruct (find _ cs) as [c|] eqn:E; [|done].
  apply find_some in E as [Hin _]. unfold Coins_IsZero in H. rewrite forallb_forall in H.
  by apply Z.eqb_eq, (H c Hin).
Qed.

Section AssociateLemmas.
Context `{BK : BankKeeper B} `{CK : CoinsKeeper B} `{AK : AccountKeeper A} `{AKK : AccountKeys A}.
Context `{MST : MultiStore MS (World B A)} `{MSL : !MultiStoreLaws MS (World B A)}.
Context `{BL : !BankLaws B} `{CL : !CoinsLaws B}.
Notation Ctx := (Ctx MS).

Lemma run_bank_info f (c : Ctx) : c_info (run_bank f c).1 = c_info c.
Proof. unfold run_bank. by destruct (f _) as [[b ev] e]. Qed.

(** What moving funds leaves alone. *)
Definition moves_only_bank (c c' : Ctx) : Prop :=
  bk_total (w_bank (cview c')) = bk_total (w_bank (cview c)) ∧ w_evm (cview c') = w_evm (cview c) ∧
  w_transient (cview c') = w_transient (cview c) ∧ w_params (cview c') = w_params (cview c) ∧ c_info c' = c_info c.

(** A bank call that succeeded, and what it says of the contexts. *)
Lemma run_bank_done f (c c' : Ctx) : run_bank f c = (c', None) →
  (∃ ev, f (w_bank (cview c)) = (w_bank (cview c'), ev, None)) ∧
  (bk_total (w_bank (cview c')) = bk_total (w_bank (cview c)) → moves_only_bank c c').
Proof.
  intros Hr. destruct (run_bank_view f c) as [V R]. pose proof (run_bank_info f c) as I. rewrite Hr in V, R, I. simpl in V, R, I.
  unfold moves_only_bank. rewrite V, I. cbn [w_bank w_evm w_transient w_params set_bank]. split; [|done].
  destruct (f (w_bank (cview c))) as [[b ev] e0]. simpl in R |- *. subst e0. by exists ev.
Qed.

(** Whatever the accounts, the payments keep the bank's total and touch nothing of
    the module; between different accounts they move what can be spent. *)
Lemma move_spendable_moves (cast t : AccAddress) (c c' : Ctx) : move_spendable cast t c = (c', None) →
  moves_only_bank c c' ∧ (cast ≠ t → transferred (w_bank (cview c)) (w_bank (cview c')) cast t (spendable (w_bank (cview c)) cast)).
Proof.
  intros H. unfold move_spendable in H. set (b := w_bank (cview c)) in *.
  set (cs := bk_SpendableCoins b cast) in *. set (x := AmountOf BaseDenom cs * AtabiToWeiMultiplier).
  destruct (if negb (Coins_IsZero cs) then _ else _) as [c1 e1] eqn:E1. destruct e1 as [|]; [done|].
  assert (moves_only_bank c c1 ∧ (cast ≠ t → transferred b (w_bank (cview c1)) cast t x ∧
    bk_GetWeiBalance (w_bank (cview c1)) cast = bk_GetWeiBalance b cast)) as [K1 T1].
  { destruct (Coins_IsZero cs) eqn:Z1; simpl in E1.
    - injection E1 as <-. unfold x. rewrite (zero_AmountOf _ _ Z1). split; [done|]. intros _. split; [apply transferred_refl|done].
    - apply run_bank_done in E1 as [(ev & Es) K]. apply bk_SendCoins_ok in Es as (b0 & M1 & M2 & Hw).
      split; [apply K; destruct M1 as (_ & _ & _ & M1), M2 as (_ & _ & _ & M2); lia|]. intros Hne. split; [by eapply moved_transferred|done]. }
  set (wei := bk_GetWeiBalance (w_bank (cview c1)) cast) in *.
  assert (moves_only_bank c1 c' ∧ (cast ≠ t → transferred (w_bank (cview c1)) (w_bank (cview c')) cast t wei)) as [K2 T2].
  { destruct (Z.eqb_spec wei 0) as [Hz|Hz]; simpl in H.
    - injection H as <-. split; [done|]. intros _. rewrite Hz. apply transferred_refl.
    - apply run_bank_done in H as [(ev & Es) K]. destruct (bk_balances (w_bank (cview c1)) cast) as [_ Hw]. fold wei in Hw.
      apply bk_SendCoinsAndWei_ok in Es as (b0 & M1 & M2); [|lia|done]. rewrite Z.mul_0_l, Z.add_0_l in M1, M2.
      split; [apply K; destruct M1 as (_ & _ & _ & M1), M2 as (_ & _ & _ & M2); lia|]. intros Hne. by eapply moved_transferred. }
  split; [destruct K1 as (?&?&?&?&?), K2 as (?&?&?&?&?); unfold moves_only_bank; split_and!; congruence|].
  intros Hne. destruct (T1 Hne) as [T1' W1]. assert (spendable b cast = x + wei) as ->.
  { unfold spendable, wei_value, x, cs. rewrite bk_spendable_base, W1. lia. }
  by eapply transferred_trans; [|apply T2].
Qed.

(** An account that pays itself can spend as much as before, and so can all others. *)
Lemma moved_self_spendable (b b1 b' : B) a d : bank_moved b b1 a (- d) → bank_moved b1 b' a d → ∀ x, spendable b' x = spendable b x.
Proof.
  intros (V1 & O1 & L1 & _) (V2 & O2 & L2 & _) x. unfold spendable. rewrite L2, L1.
  destruct (decide (x = a)) as [->|Hx]; [rewrite V2, V1; lia|by rewrite O2, O1].
Qed.
Lemma move_spendable_self (a : AccAddress) (c c' : Ctx) : move_spendable a a c = (c', None) →
  ∀ x, spendable (w_bank (cview c')) x = spendable (w_bank (cview c)) x.
Proof.
  intros H. unfold move_spendable in H. set (cs := bk_SpendableCoins (w_bank (cview c)) a) in *.
  destruct (if negb (Coins_IsZero cs) then _ else _) as [c1 e1] eqn:E1. destruct e1 as [|]; [done|].
  assert (S1 : ∀ x, spendable (w_bank (cview c1)) x = spendable (w_bank (cview c)) x).
  { destruct (Coins_IsZero cs); simpl in E1; [by injection E1 as <-|].
    apply run_bank_done in E1 as [(ev & (b0 & M1 & M2 & _)%bk_SendCoins_ok) _]. by eapply moved_self_spendable. }
  intros x. rewrite <- S1. destruct (Z.eqb_spec (bk_GetWeiBalance (w_bank (cview c1)) a) 0) as [Hz|Hz]; simpl in H; [by injection H as <-|].
  destruct (bk_balances (w_bank (cview c1)) a) as [_ Hw].
  apply run_bank_done in H as [(ev & (b0 & M1 & M2)%bk_SendCoinsAndWei_ok) _]; [|lia|done]. by eapply moved_self_spendable.
Qed.

Lemma MigrateBalance_run (e : Address) (t : AccAddress) (c c' : Ctx) : MigrateBalance e t c = (c', None) →
  ∃ c2, move_spendable (ba e) t c = (c2, None) ∧ c_info c' = c_info c2 ∧ ∃ a, cview c' = set_acct a (cview c2).
Proof.
  unfold MigrateBalance. destruct (move_spendable (ba e) t c) as [c2 [|]]; [done|]. intros [= <-]. exists c2. split; [done|].
  destruct (Coins_IsZero (bk_AllLockedCoins _ _)); [split; [done|eexists; by rewrite cview_cupd]|].
  split; [done|]. exists (w_acct (cview c2)). by destruct (cview c2).
Qed.

(** The migration moves everything the cast account can spend. *)
Lemma MigrateBalance_moves (e : Address) (t : AccAddress) (c c' : Ctx) :
  MigrateBalance e t c = (c', None) → ba e ≠ t →
  transferred (w_bank (cview c)) (w_bank (cview c')) (ba e) t (spendable (w_bank (cview c)) (ba e)) ∧
  w_evm (cview c') = w_evm (cview c) ∧ w_transient (cview c') = w_transient (cview c).
Proof.
  intros (c2 & [(_ & He & Ht & _) T]%move_spendable_moves & _ & a & ->)%MigrateBalance_run Hne. simpl. by split_and!; [apply T|..].
Qed.

Lemma MigrateBalance_keeps (e : Address) (t : AccAddress) (c c' : Ctx) : MigrateBalance e t c = (c', None) → moves_only_bank c c'.
Proof.
  intros (c2 & [K _]%move_spendable_moves & Hi & a & V)%MigrateBalance_run. unfold moves_only_bank. by rewrite V, Hi.
Qed.

End AssociateLemmas.

(** * Theorems *)

Section AssociateTheorems.
Context `{BK : BankKeeper B} `{CK : CoinsKeeper B} `{AK : AccountKeeper A} `{AKK : AccountKeys A}.
Context `{MST : MultiStore MS (World B A)} `{MSL : !MultiStoreLaws MS (World B A)}.
Notation Ctx := (Ctx MS).

Lemma AssociateAddresses_run t e pk (c c' : Ctx) :
  AssociateAddresses t e pk c = Ret (c', None) →
  ∃ c1, MigrateBalance e t c1 = (c', None) ∧ w_evm (cview c1) = w_evm (cview (SetAddressMapping t e c)) ∧
    w_bank (cview c1) = w_bank (cview c) ∧ w_transient (cview c1) = w_transient (cview c) ∧
    w_params (cview c1) = w_params (cview c) ∧ c_info c1 = c_info c.
Proof.
  set (c0 := SetAddressMapping t e c).
  assert (H0 : w_bank (cview c0) = w_bank (cview c) ∧ w_transient (cview c0) = w_transient (cview c) ∧
    w_params (cview c0) = w_params (cview c) ∧ c_info c0 = c_info c).
  { unfold c0, SetAddressMapping. rewrite cview_cemit. destruct (negb _); by rewrite !cview_cupd. }
  unfold AssociateAddresses. fold c0. destruct (ak_GetPubKey _ _) as [[k|]|]; [| |done].
  - intros [= H]. by exists c0.
  - destruct (ak_SetPubKey _ _ _) as [a|]; [|done]. intros [= H]. eexists. split; [exact H|]. by rewrite cview_cupd.
Qed.

(** The two addresses are associated both ways. *)
Lemma AssociateAddresses_maps t e pk (c c' : Ctx) :
  BankLaws B → CoinsLaws B → AssociateAddresses t e pk c = Ret (c', None) →
  GetTabiAddress (cview c') e = Some t ∧ GetEVMAddress (cview c') t = Some e.
Proof.
  intros BL CL H. apply AssociateAddresses_run in H as (c1 & H & He & _).
  apply MigrateBalance_keeps in H as (_ & Hev & _). unfold GetTabiAddress, GetEVMAddress. rewrite Hev, He.
  fold (GetTabiAddress (cview (SetAddressMapping t e c)) e). fold (GetEVMAddress (cview (SetAddressMapping t e c)) t).
  rewrite SetAddressMapping_GetTabi, SetAddressMapping_GetEVM. by rewrite !decide_True.
Qed.

(** The migration and the association write on the newest level only. *)
Lemma move_spendable_ext cast t (c : Ctx) : ctx_ext c (move_spendable cast t c).1.
Proof.
  unfold move_spendable. set (cs := bk_SpendableCoins _ _).
  assert (H1 : ctx_ext c (if negb (Coins_IsZero cs) then run_bank (λ b, bk_SendCoins b cast t cs) c else (c, None)).1)
    by (destruct (negb _); [apply ctx_ext_run_bank|done]).
  destruct (if negb (Coins_IsZero cs) then _ else _) as [c1 [e1|]]; [done|]. simpl in H1. etransitivity; [exact H1|].
  destruct (negb _); [apply ctx_ext_run_bank|done].
Qed.
Lemma MigrateBalance_ext e t (c : Ctx) : ctx_ext c (MigrateBalance e t c).1.
Proof.
  unfold MigrateBalance. pose proof (move_spendable_ext (ba e) t c) as H. destruct (move_spendable (ba e) t c) as [c2 [e2|]]; [done|].
  etransitivity; [exact H|]. simpl. destruct (Coins_IsZero _); [apply ctx_ext_cupd|done].
Qed.
Lemma AssociateAddresses_ext t e pk (c c' : Ctx) r : AssociateAddresses t e pk c = Ret (c', r) → ctx_ext c c'.
Proof.
  unfold AssociateAddresses. pose proof (ctx_ext_SetAddressMapping t e c) as H0. set (c0 := SetAddressMapping t e c) in *.
  destruct (ak_GetPubKey _ _) as [[k|]|]; [|destruct (ak_SetPubKey _ _ _) as [a|]|done]; intros [= H].
  - etransitivity; [exact H0|]. replace c' with (MigrateBalance e t c0).1 by (by rewrite H). apply MigrateBalance_ext.
  - etransitivity; [exact H0|]. etransitivity; [apply (ctx_ext_cupd (set_acct a))|].
    replace c' with (MigrateBalance e t (cupd (set_acct a) c0)).1 by (by rewrite H). apply MigrateBalance_ext.
  - by subst.
Qed.

(** An association keeps the bank's total, the transient store, the parameters
    and every nonce. *)
Lemma AssociateAddresses_keeps t e pk (c c' : Ctx) :
  BankLaws B → CoinsLaws B → AssociateAddresses t e pk c = Ret (c', None) →
  bk_total (w_bank (cview c')) = bk_total (w_bank (cview c)) ∧ w_transient (cview c') = w_transient (cview c) ∧
  w_params (cview c') = w_params (cview c) ∧ c_info c' = c_info c ∧
  ∀ a, Keeper.GetNonce (cview c') a = Keeper.GetNonce (cview c) a.
Proof.
  intros BL CL H. apply AssociateAddresses_run in H as (c1 & H & He & Hb & Ht & Hp & Hi).
  apply MigrateBalance_keeps in H as (K1 & K2 & K3 & K4 & K5). split_and!; try congruence.
  intros a. unfold Keeper.GetNonce. rewrite K2, He. by rewrite SetAddressMapping_other_key by key_ne.
Qed.

(** Associating an account loses no funds.  When it succeeds, the two
    addresses are associated both ways, everything the cast account could spend
    has moved to the account, no other account changed and the bank's total is
    the same; so the balance the EVM sees for the address is at least what it was. *)
Theorem AssociateAddresses_moves_funds (t : AccAddress) (e : Address) (pk : bytes) (c c' : Ctx) :
  BankLaws B → CoinsLaws B → ba e ≠ t →
  AssociateAddresses t e pk c = Ret (c', None) →
  let b := w_bank (cview c) in let b' := w_bank (cview c') in
  GetTabiAddress (cview c') e = Some t ∧ GetEVMAddress (cview c') t = Some e ∧
  spendable b' (ba e) = 0 ∧ spendable b' t = spendable b t + spendable b (ba e) ∧
  (∀ a, a ≠ ba e → a ≠ t → spendable b' a = spendable b a) ∧ bk_total b' = bk_total b.
Proof.
  intros BL CL Hne H. cbv zeta. destruct (AssociateAddresses_maps _ _ _ _ _ BL CL H) as [HT HE].
  apply AssociateAddresses_run in H as (c1 & H & He & Hb & _ & _ & _).
  destruct (MigrateBalance_moves e t c1 c' H Hne) as (T & Hev & _). rewrite Hb in T.
  destruct (transferred_spendable _ _ _ _ _ T) as (S1 & S2 & S3). split_and!; [done|done|lia|lia|exact S3|].
  by destruct T as (_ & _ & _ & _ & ?).
Qed.

End AssociateTheorems.

(** * Examples *)

(** Coins of the base denomination over the bank of Instances.v, and accounts
    that never have a public key. *)
Definition demo_coins : CoinsKeeper demo_bank := {|
  bk_SpendableCoins b a := [(BaseDenom, demo_worth b a `div` AtabiToWeiMultiplier)];
  bk_AllLockedCoins b a := [];
  bk_SendCoins b from to cs :=
    let v := AmountOf BaseDenom cs * AtabiToWeiMultiplier in
    if v <? 0 then (b, [], Some "invalid coins"%string) else
    match demo_sub b from v with
    | (b', evs, None) => let '(b'', evs', e) := demo_add b' to v in (b'', evs ++ evs', e)
    | r => r
    end
|}.
Definition demo_account_keys : AccountKeys (gset (list Byte.byte)) := {|
  ak_GetPubKey s a := if bool_decide (a ∈ s) then Some None else None;
  ak_SetPubKey s a k := inl s;
  ak_RemoveAccount s a := s ∖ {[a]}
|}.

Lemma demo_coins_laws : @CoinsLaws demo_bank demo_bank_keeper demo_coins.
Proof.
  assert (HM : 0 < AtabiToWeiMultiplier) by (unfold AtabiToWeiMultiplier; lia).
  split.
  - intros b a. unfold AmountOf. simpl. lia.
  - intros b from to cs b' ev. simpl. set (n := AmountOf BaseDenom cs).
    destruct (Z.ltb_spec (n * AtabiToWeiMultiplier) 0) as [|Hn]; [done|].
    destruct (demo_sub b from _) as [[b1 ev1] [e1|]] eqn:E; [done|]. intros [= <- _].
    exists b1. split_and!; [by apply demo_sub_ok in E|eapply demo_add_ok; [lia|reflexivity]|].
    assert (Hb1 : demo_worth b1 from = demo_worth b from - n * AtabiToWeiMultiplier).
    { pose proof (demo_sub_None b from (n * AtabiToWeiMultiplier)) as Hs. rewrite E in Hs. simpl in Hs.
      unfold demo_sub in E. case_bool_decide; [|done]. injection E as <- _. apply demo_worth_set. lia. }
    destruct (decide (from = to)) as [->|Hne].
    + rewrite demo_worth_set by (rewrite Hb1; pose proof (demo_worth_nonneg b to); lia). f_equal. lia.
    + rewrite demo_worth_set_ne, Hb1 by done.
      replace (demo_worth b from - n * AtabiToWeiMultiplier) with (demo_worth b from + (- n) * AtabiToWeiMultiplier) by lia.
      apply Z.mod_add. lia.
Qed.

Section AssociateExamples.
#[local] Existing Instances demo_bank_keeper demo_bank_laws demo_accounts demo_coins demo_coins_laws demo_account_keys.
#[local] Instance demo_assoc_stores : MultiStore (stack_ms demo_world) demo_world := stack_multistore demo_world.
#[local] Instance demo_assoc_stores_laws : MultiStoreLaws (stack_ms demo_world) demo_world :=
  stack_multistore_laws demo_world.

(** Address 7 was sent two atabi and five wei before it was associated. *)
Definition demo_assoc_ctx : Ctx (stack_ms demo_world) :=
  demo_ctx (set_bank {[ba (addr_of 7) := 2000000000005%N]} demo_world0).
Definition demo_assoc_end : Ctx (stack_ms demo_world) :=
  result_or demo_assoc_ctx (AssociateAddresses (str_bytes "alice") (addr_of 7) [] demo_assoc_ctx).

Lemma AssociateAddresses_moves_funds_witness :
  spendable (w_bank (cview demo_assoc_end)) (ba (addr_of 7)) = 0 ∧
  spendable (w_bank (cview demo_assoc_end)) (str_bytes "alice") =
    spendable (w_bank (cview demo_assoc_ctx)) (str_bytes "alice") + 2000000000005.
Proof.
  assert (Hne : ba (addr_of 7) ≠ str_bytes "alice") by (vm_compute; discriminate).
  assert (Hr : AssociateAddresses (str_bytes "alice") (addr_of 7) [] demo_assoc_ctx = Ret (demo_assoc_end, None))
    by (apply is_ok_ret; vm_compute; reflexivity).
  assert (Hs : spendable (w_bank (cview demo_assoc_ctx)) (ba (addr_of 7)) = 2000000000005) by (vm_compute; reflexivity).
  destruct (AssociateAddresses_moves_funds _ _ _ _ _ demo_bank_laws demo_coins_laws Hne Hr) as (_ & _ & H1 & H2 & _).
  split; [exact H1|]. rewrite Hs in H2. exact H2.
Defined.

End AssociateExamples.
