(* ===== verification/Ante.v ===== *)
(** * The ante handler of EVM transactions
    (x/evm/ante/{preprocess,basic,fee,sig,gas}.go, the chain of app/ante.go and
    app/antedecorators/priority.go)

    An EVM transaction passes five decorators before it runs: its sender is
    recovered and associated, its basic limits are checked, its fee is checked
    and charged, its chain and nonce are checked, and its gas limit is set.  A
    decorator takes the rest of the chain as [next].  What the SDK's context
    carries besides stores and events is the record [AnteCtx]; callbacks are
    functions. *)

From S2P Require Import Prelude Bytes Dec Store Params Keys World Keeper StateDB Snapshots Supply Finalize.
From S2P Require Import Pending Fee Eth EthTx Msg Block Receipts Tx Associate Instances.
Local Open Scope Z_scope.
Local Open Scope outcome_scope.

(** ** Constants *)

Definition EVMAssociatePriority : Z := maxInt64 - 101.
Definition MaxPriority : Z := maxInt64 - 1000.
Definition MinGasEVMTx : Z := 21000.
Definition EventTypeSigner : string := "signer".

(** ** Data *)

Inductive PendingTxCheckerResponse : Type := Accepted | Rejected | PendingTx'.

(** A transaction of the SDK: its messages, gas estimate, signers, and the gas
    limit of one that is an [sdk.FeeTx]. *)
Record AnteTx : Type := mkAnteTx {
  at_Msgs : SdkTx;
  at_GasEstimate : Z;
  at_Signers : list AccAddress;
  at_Gas : option Z
}.

(** The context: stores, events and block data; what it says of the transaction;
    the modes; what the handlers set.  [ax_GasMeter] is the limit of the meter,
    [None] for an infinite one; [ax_cache] is the keeper's cached address. *)
Record AnteCtx (MS B A : Type) : Type := mkAnteCtx {
  ax_ctx : Ctx MS;
  ax_env : TxEnv;
  ax_TxBytes : bytes;
  ax_IsCheckTx : bool;
  ax_IsReCheckTx : bool;
  ax_cache : option Address;
  ax_Priority : Z;
  ax_GasMeter : option Z;
  ax_GasEstimate : Z;
  ax_EVMNonce : Z;
  ax_EVMSenderAddress : string;
  ax_EVMTxHash : string;
  ax_DeliverTxCallback : option (Ctx MS → outcome (Ctx MS));
  ax_CheckTxCallback : option (Z → option Err → PendingState → PendingState);
  ax_ExpireTxHandler : option (PendingState → PendingState);
  ax_PendingTxChecker : option (World B A → PendingState → outcome PendingTxCheckerResponse)
}.
Arguments mkAnteCtx {MS B A}.
Arguments ax_ctx {MS B A}.
Arguments ax_env {MS B A}.
Arguments ax_TxBytes {MS B A}.
Arguments ax_IsCheckTx {MS B A}.
Arguments ax_IsReCheckTx {MS B A}.
Arguments ax_cache {MS B A}.
Arguments ax_Priority {MS B A}.
Arguments ax_GasMeter {MS B A}.
Arguments ax_GasEstimate {MS B A}.
Arguments ax_EVMNonce {MS B A}.
Arguments ax_EVMSenderAddress {MS B A}.
Arguments ax_EVMTxHash {MS B A}.
Arguments ax_DeliverTxCallback {MS B A}.
Arguments ax_CheckTxCallback {MS B A}.
Arguments ax_ExpireTxHandler {MS B A}.
Arguments ax_PendingTxChecker {MS B A}.

Section Updates.
Context {MS B A : Type}.
Notation AnteCtx := (AnteCtx MS B A).
Implicit Types x : AnteCtx.

Definition with_ctx (c : Ctx MS) x : AnteCtx :=
  mkAnteCtx c (ax_env x) (ax_TxBytes x) (ax_IsCheckTx x) (ax_IsReCheckTx x) (ax_cache x) (ax_Priority x) (ax_GasMeter x)
    (ax_GasEstimate x) (ax_EVMNonce x) (ax_EVMSenderAddress x) (ax_EVMTxHash x) (ax_DeliverTxCallback x)
    (ax_CheckTxCallback x) (ax_ExpireTxHandler x) (ax_PendingTxChecker x).
Definition with_cache (a : option Address) x : AnteCtx :=
  mkAnteCtx (ax_ctx x) (ax_env x) (ax_TxBytes x) (ax_IsCheckTx x) (ax_IsReCheckTx x) a (ax_Priority x) (ax_GasMeter x)
    (ax_GasEstimate x) (ax_EVMNonce x) (ax_EVMSenderAddress x) (ax_EVMTxHash x) (ax_DeliverTxCallback x)
    (ax_CheckTxCallback x) (ax_ExpireTxHandler x) (ax_PendingTxChecker x).
Definition WithPriority (p : Z) x : AnteCtx :=
  mkAnteCtx (ax_ctx x) (ax_env x) (ax_TxBytes x) (ax_IsCheckTx x) (ax_IsReCheckTx x) (ax_cache x) p (ax_GasMeter x)
    (ax_GasEstimate x) (ax_EVMNonce x) (ax_EVMSenderAddress x) (ax_EVMTxHash x) (ax_DeliverTxCallback x)
    (ax_CheckTxCallback x) (ax_ExpireTxHandler x) (ax_PendingTxChecker x).
Definition with_gas (meter : option Z) (estimate : Z) x : AnteCtx :=
  mkAnteCtx (ax_ctx x) (ax_env x) (ax_TxBytes x) (ax_IsCheckTx x) (ax_IsReCheckTx x) (ax_cache x) (ax_Priority x) meter
    estimate (ax_EVMNonce x) (ax_EVMSenderAddress x) (ax_EVMTxHash x) (ax_DeliverTxCallback x)
    (ax_CheckTxCallback x) (ax_ExpireTxHandler x) (ax_PendingTxChecker x).
(** [WithIsEVM(true)], [WithEVMNonce], [WithEVMSenderAddress] and [WithEVMTxHash] *)
Definition with_evm (nonce : Z) (sender hash : string) x : AnteCtx :=
  let e := ax_env x in
  mkAnteCtx (ax_ctx x)
    (mkTxEnv (te_TxSum e) true (te_EntryViaWasmd e) (te_ChainID e) (te_Time e) (te_TimeBytes e) (te_HeaderHash e))
    (ax_TxBytes x) (ax_IsCheckTx x) (ax_IsReCheckTx x) (ax_cache x) (ax_Priority x) (ax_GasMeter x)
    (ax_GasEstimate x) nonce sender hash (ax_DeliverTxCallback x)
    (ax_CheckTxCallback x) (ax_ExpireTxHandler x) (ax_PendingTxChecker x).
Definition WithDeliverTxCallback (f : Ctx MS → outcome (Ctx MS)) x : AnteCtx :=
  mkAnteCtx (ax_ctx x) (ax_env x) (ax_TxBytes x) (ax_IsCheckTx x) (ax_IsReCheckTx x) (ax_cache x) (ax_Priority x)
    (ax_GasMeter x) (ax_GasEstimate x) (ax_EVMNonce x) (ax_EVMSenderAddress x) (ax_EVMTxHash x) (Some f)
    (ax_CheckTxCallback x) (ax_ExpireTxHandler x) (ax_PendingTxChecker x).
(** [WithCheckTxCallback], [WithExpireTxHandler] and [WithPendingTxChecker] *)
Definition with_mempool (f : Z → option Err → PendingState → PendingState) (g : PendingState → PendingState)
    (h : option (World B A → PendingState → outcome PendingTxCheckerResponse)) x : AnteCtx :=
  mkAnteCtx (ax_ctx x) (ax_env x) (ax_TxBytes x) (ax_IsCheckTx x) (ax_IsReCheckTx x) (ax_cache x) (ax_Priority x)
    (ax_GasMeter x) (ax_GasEstimate x) (ax_EVMNonce x) (ax_EVMSenderAddress x) (ax_EVMTxHash x) (ax_DeliverTxCallback x)
    (Some f) (Some g) (match h with Some _ => h | None => ax_PendingTxChecker x end).
End Updates.

(** ** What is not in the repository

    go-ethereum's intrinsic gas, blob fee, and the first half of its state
    transition; the key of a transaction in the mempool; the uncompressed form
    of a public key ([None] when it is not a point of the curve). *)
Class AnteLibs (MS : Type) := {
  IntrinsicGas : bytes → list EthAccessTuple → bool → Z + Err;
  CalcBlobFee : Z → Z;
  StatelessChecks : EthChainConfig → BlockContext (DBImpl MS) → Message → stm (DBImpl MS) (option Err);
  BuyGas : EthChainConfig → BlockContext (DBImpl MS) → Message → stm (DBImpl MS) (option Err);
  Tx_Key : bytes → TxKey;
  ParsePubKey : bytes → option bytes
}.

(** The checks only read the state; buying gas only takes from balances. *)
Definition is_debit (op : db_op) : Prop := match op with OpSubBalance _ _ _ => True | _ => False end.

Class AnteLibsLaws (MS : Type) `{AL : AnteLibs MS} `{BK : BankKeeper B} `{AK : AccountKeeper A} `{EC : EthCrypto}
    `{KC : KeeperConfig} `{MST : MultiStore MS (World B A)} : Prop := {
  StatelessChecks_reads : ∀ cfg bc msg s r s', StatelessChecks cfg bc msg s = Ret (r, s') → s' = s;
  BuyGas_debits : ∀ cfg bc msg s r s', BuyGas cfg bc msg s = Ret (r, s') →
    ∃ ops, Forall is_debit ops ∧ run_ops ops s = Ret (tt, s')
}.

(** The errors of the SDK the decorators return, and [sdkerrors.Wrap]. *)
Definition ErrInsufficientFee : Err := "insufficient fee".
Definition ErrInvalidRequest : Err := "invalid request".
Definition ErrInsufficientFunds : Err := "insufficient funds".
Definition ErrWrongSequence : Err := "incorrect account sequence".
Definition ErrInvalidChainID : Err := "invalid chain-id".
Definition ErrOutOfGas : Err := "out of gas".
Definition ErrInvalidCoins : Err := "invalid coins".
Definition ErrUnsupportedTxType : Err := "unsupported tx type".
Definition ErrMaxInitCodeSizeExceeded : Err := "max initcode size exceeded".
Definition Wrap (e : Err) (desc : string) : Err := (desc ++ ": " ++ e)%string.

(** The number behind a pointer to a [big.Int]. *)
Definition deref (o : option Z) : outcome Z := match o with Some z => Ret z | None => Panic nil_deref end.

Section Handlers.
Context `{BK : BankKeeper B} `{CK : CoinsKeeper B} `{AK : AccountKeeper A} `{AKK : AccountKeys A}.
Context `{EC : EthCrypto} `{KC : KeeperConfig}.
Context `{MST : MultiStore MS (World B A)} `{MR : MapRange} `{SD : SdkDec} `{CD : Codec}.
Context `{EH : EthHex} `{IL : IntLibs} `{ET : EthTransactions T} `{TC : TxCodec}.
Context `{SC : Secp256k1} `{SG : Signers T} `{FR : ForkRules}.
Context `{VM : EVM MS} `{AL : AnteLibs MS}.
Notation World := (World B A).
Notation Ctx := (Ctx MS).
Notation DB := (DBImpl MS).
Notation AnteCtx := (AnteCtx MS B A).
Notation result := (outcome (AnteCtx * AnteTx * option Err)).
Notation Handler := (AnteCtx → AnteTx → bool → result).

Definition done (x : AnteCtx) (tx : AnteTx) : result := Ret (x, tx, None).
Definition fail (x : AnteCtx) (tx : AnteTx) (e : Err) : result := Ret (x, tx, Some e).

(** The message of the transaction is changed in place. *)
Definition set_msg (msg : MsgEVMTransaction) (tx : AnteTx) : AnteTx :=
  mkAnteTx [EVMMsg msg] (at_GasEstimate tx) (at_Signers tx) (at_Gas tx).

Definition signer_event (evmAddr : option Address) (tabiAddr : AccAddress) : Event :=
  mkEvent EventTypeSigner
    (match evmAddr with Some e => [(AttributeKeyEvmAddress, VHex e)] | None => [] end ++ [(AttributeKeyTabiAddress, VAcc tabiAddr)]).

Definition is_deliver (x : AnteCtx) : bool := negb (ax_IsCheckTx x) && negb (ax_IsReCheckTx x).

(** ** The sender (preprocess.go) *)

Definition Preprocess_AnteHandle (next : Handler) : Handler := λ x tx simulate,
  let* msg := MustGetEVMTransactionMessage (at_Msgs tx) in
  let* p := Preprocess (ci_height (c_info (ax_ctx x))) (te_Time (ax_env x)) msg in
  let tx := set_msg p.1 tx in
  match p.2, msg_Derived p.1 with
  | Some e, _ => fail x tx e
  | None, None => Panic nil_deref
  | None, Some derived =>
      let x := with_gas None (ax_GasEstimate x) x in
      let tabiAddr := dv_SenderTabiAddr derived in
      let evmAddr := dv_SenderEVMAddr derived in
      let x := with_ctx (cemit [signer_event (Some evmAddr) tabiAddr] (ax_ctx x)) x in
      let pubkey := default [] (dv_PubKey derived) in
      let isAssociated := bool_decide (is_Some (GetEVMAddress (cview (ax_ctx x)) tabiAddr)) in
      if dv_IsAssociate derived && isAssociated
      then fail x tx (Wrap ErrInvalidRequest "account already has association set")
      else if dv_IsAssociate derived then
        if negb (IsAccountBalancePositive tabiAddr evmAddr (cview (ax_ctx x)))
        then fail x tx (Wrap ErrInsufficientFunds "account needs to have a positive balance to force association")
        else
          let* r := AssociateAddresses tabiAddr evmAddr pubkey (ax_ctx x) in
          let x := with_ctx r.1 x in
          match r.2 with
          | Some e => fail x tx e
          | None => done (WithPriority EVMAssociatePriority x) tx
          end
      else if isAssociated then next x tx simulate
      else
        let* r := AssociateAddresses tabiAddr evmAddr pubkey (ax_ctx x) in
        match r.2 with
        | Some e => fail (with_ctx r.1 x) tx e
        | None =>
            let* c := if EthReplayConfig_Enabled then PrepareReplayedAddr evmAddr r.1 else Ret r.1 in
            next (with_ctx c x) tx simulate
        end
  end.

(** ** Basic limits (basic.go) *)

(** The callback after delivery: the nonce moves even if the transaction failed. *)
Definition bump_nonce (sender : Address) (startingNonce : Z) (callCtx : Ctx) : outcome Ctx :=
  let* n := Keeper.GetNonce (cview callCtx) sender in
  if n =? startingNonce then Ret (cupd (Keeper.SetNonce sender (u64 (startingNonce + 1))) callCtx) else Ret callCtx.

Definition basic_checks (maxGas : option Z) (etx : T) : outcome (option Err) :=
  let create := bool_decide (tx_To etx = None) in
  if create && (MaxInitCodeSize <? length (tx_Data etx))%nat then Ret (Some ErrMaxInitCodeSizeExceeded) else
  let* value := deref (tx_Value etx) in
  if value <? 0 then Ret (Some ErrInvalidCoins) else
  match IntrinsicGas (tx_Data etx) (tx_AccessList etx) create with
  | inr e => Ret (Some e)
  | inl intrGas =>
      if tx_Gas etx <? intrGas then Ret (Some ErrOutOfGas) else
      if tx_Type etx =? BlobTxType then Ret (Some ErrUnsupportedTxType) else
      match maxGas with
      | Some g => if (0 <? g) && (u64 g <? tx_Gas etx) then Ret (Some (Wrap ErrOutOfGas "tx gas limit exceeds block max gas")) else Ret None
      | None => Ret None
      end
  end.

Definition Basic_AnteHandle (next : Handler) : Handler := λ x tx simulate,
  let* msg := MustGetEVMTransactionMessage (at_Msgs tx) in
  let* txo := AsTransaction msg in
  match txo with
  | None => Panic nil_deref
  | Some (etx, _) =>
      let* x :=
        match msg_Derived msg with
        | Some derived =>
            if negb EthReplayConfig_Enabled && negb EthBlockTestConfig_Enabled then
              let* startingNonce := Keeper.GetNonce (cview (ax_ctx x)) (dv_SenderEVMAddr derived) in
              if is_deliver x && (startingNonce =? tx_Nonce etx)
              then Ret (WithDeliverTxCallback (bump_nonce (dv_SenderEVMAddr derived) startingNonce) x)
              else Ret x
            else Ret x
        | None => Ret x
        end in
      let* e := basic_checks (ci_maxGas (c_info (ax_ctx x))) etx in
      match e with
      | Some e => fail x tx e
      | None => next x tx simulate
      end
  end.

(** ** Fees (fee.go) *)

Definition getBaseFee (w : World) : outcome Z :=
  let* d := dec_val (GetBaseFeePerGas w) in Ret (TruncateInt d).
Definition getMinimumFee (w : World) : outcome Z :=
  let* d := dec_val (GetMinimumFeePerGas w) in Ret (TruncateInt d).

Definition CalculatePriority (w : World) (txData : TxData) : outcome Z :=
  let* p := TxData_EffectiveGasPrice txData (Some 0) in
  let* gp := deref p in
  let* normalizer := dec_val (GetPriorityNormalizer w) in
  let* normalized := dec_Quo (NewDec gp) normalizer in
  let priority := TruncateInt normalized in
  Ret (if MaxPriority <? priority then MaxPriority else priority).

(** The checks before the fee is charged. *)
Definition fee_checks (w : World) (ver : SignerVersion) (txData : TxData) : outcome (option Err) :=
  let* cap := TxData_GetGasFeeCap txData in
  let* base := getBaseFee w in
  let* feeCap := deref cap in
  if feeCap <? base then Ret (Some ErrInsufficientFee) else
  let* minimum := getMinimumFee w in
  if feeCap <? minimum then Ret (Some ErrInsufficientFee) else
  let* tip := TxData_GetGasTipCap txData in
  let* tipCap := deref tip in
  if tipCap <? 0 then Ret (Some (Wrap ErrInvalidRequest "gas fee cap cannot be negative")) else
  let* hashes := TxData_GetBlobHashes txData in
  if match ver with Cancun => negb (bool_decide (hashes = [])) | London => false end then
    let* b := TxData_GetBlobFeeCap txData in
    let* blobFeeCap := deref b in
    if blobFeeCap <? CalcBlobFee 0 then Ret (Some ErrInsufficientFee) else Ret None
  else Ret None.

(** The fee is charged through a state database; in delivery it is written
    back and its surplus recorded. *)
Definition charge_fee (deliver : bool) (cfg : EthChainConfig) (bc : BlockContext DB) (emsg : Message) (txHash : Hash)
    (c : Ctx) (s : DB) : outcome (Ctx * option Err) :=
  let* r := if deliver then StatelessChecks cfg bc emsg s else Ret (None, s) in
  match r.1 with
  | Some e => Ret (c, Some (Wrap ErrWrongSequence e))
  | None =>
  let* r := BuyGas cfg bc emsg r.2 in
  match r.1 with
  | Some e => Ret (c, Some (Wrap ErrInsufficientFunds e))
  | None =>
  if deliver then
    let* f := Finalize r.2 in
    match f with
    | ((Some surplus, None), s') => Ret (cupd (AddAnteSurplus txHash surplus) (base_ctx c s'), None)
    | ((_, Some e), s') => Ret (c, Some e)
    | ((None, None), s') => Panic nil_deref
    end
  else Ret (c, None)
  end end.

Definition FeeCheck_AnteHandle (next : Handler) : Handler := λ x tx simulate,
  if simulate then next x tx simulate else
  let* msg := MustGetEVMTransactionMessage (at_Msgs tx) in
  match UnpackTxData (msg_Data msg), msg_Derived msg with
  | inr e, _ => fail x tx e
  | inl _, None => Panic nil_deref
  | inl txData, Some derived =>
  let* e := fee_checks (cview (ax_ctx x)) (dv_Version derived) txData in
  match e with
  | Some e => fail x tx e
  | None =>
  let* txo := AsTransaction msg in
  match txo with
  | None => Panic nil_deref
  | Some (etx, _) =>
  let* emsg := GetEVMMessage etx (dv_SenderEVMAddr derived) in
  let* n := NewDBImpl (ax_cache x) (ax_ctx x) false in
  let* b := GetVMBlockContext (ax_env x) n.2 (ax_ctx x) in
  let x := with_cache b.2 x in
  match b.1 with
  | inr e => fail x tx e
  | inl blockCtx =>
  let cfg := EthereumConfig DefaultChainConfig (Some (Keeper_ChainID (ax_env x))) in
  let* r := charge_fee (is_deliver x) cfg blockCtx emsg (tx_Hash etx) (ax_ctx x) n.1 in
  let x := with_ctx r.1 x in
  match r.2 with
  | Some e => fail x tx e
  | None =>
      let* priority := CalculatePriority (cview (ax_ctx x)) txData in
      next (WithPriority (i64 priority) x) tx simulate
  end end end end end.

(** ** Chain and nonce (sig.go) *)

Definition hasSufficientBalance (w : World) (evmAddr : Address) (tx : T) : bool :=
  tx_Cost tx <=? Keeper.GetBalance w (GetTabiAddressOrDefault w evmAddr).

(** The answer for a transaction with a nonce in the future, when the mempool
    asks again. *)
Definition pending_check (evmAddr : Address) (txNonce : Z) (ethTx : T) (latest : World) (p : PendingState)
    : outcome PendingTxCheckerResponse :=
  let* nextNonceToBeMined := Keeper.GetNonce latest evmAddr in
  match CalculateNextNonce p nextNonceToBeMined evmAddr true with
  | None => Panic "the search for a free nonce does not end"
  | Some nextPendingNonce =>
      if txNonce <? nextNonceToBeMined then Ret Rejected
      else if txNonce <? nextPendingNonce then
        if negb (hasSufficientBalance latest evmAddr ethTx) then Ret PendingTx' else Ret Accepted
      else Ret PendingTx'
  end.

Definition chain_ok (txType : Z) (txChainID chainID : Z) : bool :=
  if txType =? LegacyTxType then (txChainID =? 0) || (txChainID =? chainID) else txChainID =? chainID.

Definition SigVerify_AnteHandle (next : Handler) : Handler := λ x tx simulate,
  let* msg := MustGetEVMTransactionMessage (at_Msgs tx) in
  let* txo := AsTransaction msg in
  match msg_Derived msg with
  | None => Panic nil_deref
  | Some derived =>
  let evmAddr := dv_SenderEVMAddr derived in
  let* nextNonce := Keeper.GetNonce (cview (ax_ctx x)) evmAddr in
  match txo with
  | None => Panic nil_deref
  | Some (ethTx, _) =>
  let txNonce := tx_Nonce ethTx in
  let x := with_evm txNonce (addr_Hex evmAddr) (hash_Hex (tx_Hash ethTx)) x in
  let* txChainID := deref (tx_ChainId ethTx) in
  if negb (chain_ok (tx_Type ethTx) txChainID (Keeper_ChainID (ax_env x))) then fail x tx ErrInvalidChainID else
  if ax_IsCheckTx x then
    if txNonce <? nextNonce then fail x tx ErrWrongSequence else
    let txKey := Tx_Key (ax_TxBytes x) in
    let onCheckTx priority (e : option Err) p :=
      match e with Some _ => p | None => AddPendingNonce txKey evmAddr txNonce priority p end in
    next (with_mempool onCheckTx (RemovePendingNonce txKey)
            (if nextNonce <? txNonce then Some (pending_check evmAddr txNonce ethTx) else None) x) tx simulate
  else if negb (txNonce =? nextNonce) then fail x tx ErrWrongSequence
  else next x tx simulate
  end end.

(** ** Gas (gas.go) *)

Definition Gas_AnteHandle (next : Handler) : Handler := λ x tx simulate,
  let* msg := MustGetEVMTransactionMessage (at_Msgs tx) in
  match UnpackTxData (msg_Data msg) with
  | inr e => fail x tx e
  | inl txData =>
      let* gas := TxData_GetGas txData in
      let* normalizer := dec_val (GetPriorityNormalizer (cview (ax_ctx x))) in
      let* adjusted := dec_MulInt64 normalizer (i64 gas) in
      let* limit := Int_Uint64 (TruncateInt adjusted) in
      next (with_gas (Some limit) (if MinGasEVMTx <=? at_GasEstimate tx then at_GasEstimate tx else limit) x) tx simulate
  end.

(** ** The chain (app/ante.go) *)

Definition ante_end : Handler := λ x tx _, done x tx.

Definition evmAnteHandler : Handler :=
  Preprocess_AnteHandle (Basic_AnteHandle (FeeCheck_AnteHandle (SigVerify_AnteHandle (Gas_AnteHandle ante_end)))).

(** The handler of the tracers charges no fee. *)
Definition tracerAnteHandler : Handler :=
  Preprocess_AnteHandle (Basic_AnteHandle (SigVerify_AnteHandle ante_end)).

(** ** Signers of other transactions (preprocess.go) *)

Definition associate_signer (msgs : SdkTx) (signer : AccAddress) (c : Ctx) : outcome (Ctx * option Err) :=
  let unknown := Ret (cemit [signer_event None signer] c, None) in
  match GetEVMAddress (cview c) signer with
  | Some evmAddr => Ret (cemit [signer_event (Some evmAddr) signer] c, None)
  | None =>
  match ak_GetPubKey (w_acct (cview c)) signer with
  | None => Panic nil_deref
  | Some None => unknown
  | Some (Some key) =>
  match ParsePubKey key with
  | None => unknown
  | Some pk =>
  match PubkeyToEVMAddress pk with
  | inr _ => unknown
  | inl evmAddr =>
      let c1 := SetAddressMapping signer evmAddr (cemit [signer_event (Some evmAddr) signer] c) in
      let '(c2, e) := MigrateBalance evmAddr signer c1 in
      match e with
      | Some e => Ret (c2, Some e)
      | None =>
          if IsTxMsgAssociate msgs && negb (0 <? bk_GetBalance (w_bank (cview c2)) signer BaseDenom)
             && negb (0 <? bk_GetWeiBalance (w_bank (cview c2)) signer)
          then Ret (c2, Some (Wrap ErrInsufficientFunds "account needs to have a positive balance to force association"))
          else Ret (c2, None)
      end
  end end end end.

Fixpoint associate_signers (msgs : SdkTx) (signers : list AccAddress) (c : Ctx) : outcome (Ctx * option Err) :=
  match signers with
  | [] => Ret (c, None)
  | s :: rest =>
      let* r := associate_signer msgs s c in
      match r.2 with
      | Some e => Ret r
      | None => associate_signers msgs rest r.1
      end
  end.

Definition EVMAddress_AnteHandle (next : Handler) : Handler := λ x tx simulate,
  let* r := associate_signers (at_Msgs tx) (at_Signers tx) (ax_ctx x) in
  let x := with_ctx r.1 x in
  match r.2 with
  | Some e => fail x tx e
  | None => next x tx simulate
  end.

(** ** Priorities of other transactions (antedecorators/priority.go) *)

Definition Priority_AnteHandle (next : Handler) : Handler := λ x tx simulate,
  next (WithPriority (Z.min (ax_Priority x) MaxPriority) x) tx simulate.

End Handlers.

(** * Lemmas *)

Section AnteLemmas.
Context `{BK : BankKeeper B} `{AK : AccountKeeper A} `{EC : EthCrypto} `{KC : KeeperConfig}.
Context `{MST : MultiStore MS (World B A)} `{MSL : !MultiStoreLaws MS (World B A)}.
Context `{MR : MapRange} `{MRL : !MapRangeLaws} `{BL : !BankLaws B}.
Hypothesis Hlive : EthReplayConfig_Enabled = false.
Notation Ctx := (Ctx MS).
Notation DB := (DBImpl MS).

(** ** Charging the fee *)

(** Taking from balances keeps the module's store and marks no account. *)
Definition debited (s s' : DB) : Prop :=
  w_evm (cview (ctx s')) = w_evm (cview (ctx s)) ∧
  transientAccounts (tempStateCurrent s') = transientAccounts (tempStateCurrent s).

#[local] Instance debited_preorder : PreOrder debited.
Proof. split; unfold debited; [done|]. intros s1 s2 s3 [] []. split; congruence. Qed.

Lemma debited_prepare a : Pres debited (prepare a).
Proof. intros s u s' H. rewrite (prepare_live Hlive) in H. by simplify_eq. Qed.
Lemma debited_view {X} (g : World B A → X) : Pres debited (view g).
Proof. unfold view. pres. Qed.
Lemma debited_bank_call q g : Pres debited (bank_call q g).
Proof.
  intros s e s' H. unfold bank_call, run_bank in H. destruct (g _) as [[b evs] e0]. simplify_eq. split; [|done].
  destruct q; unfold cview; simpl; by rewrite ms_view_put.
Qed.
Lemma debited_put (g : DB → DB) :
  (∀ s, ctx (g s) = ctx s ∧ transientAccounts (tempStateCurrent (g s)) = transientAccounts (tempStateCurrent s)) →
  Pres debited (sput g).
Proof. intros Hg. apply Pres_put. intros s. destruct (Hg s) as [H1 H2]. split; [by rewrite H1|done]. Qed.

Hint Resolve debited_prepare debited_view debited_bank_call : pres.
Hint Extern 2 (Pres debited (sput _)) => (apply debited_put; intros; by split) : pres.

Lemma debited_SubBalance a amt r : Pres debited (SubBalance a amt r).
Proof. unfold SubBalance, sub_positive, add_positive, GetBalance, getTabiAddress. pres. Qed.

Lemma debits_run (ops : list db_op) (s s' : DB) :
  Forall is_debit ops → run_ops ops s = Ret (tt, s') → debited s s' ∧ level_step s s'.
Proof.
  intros Hops. revert s. induction Hops as [|op ops Hop Hops IH]; intros s H.
  - injection H as <-. split; reflexivity.
  - unfold run_ops in H. cbn [sfor] in H. unfold sbind in H.
    destruct (run_op op s) as [[[] s1]|] eqn:E; [|done]. destruct op; try done. simpl in E.
    destruct (IH s1 H) as [D L]. split.
    + transitivity s1; [|done]. by eapply debited_SubBalance.
    + transitivity s1; [|done]. by eapply (level_SubBalance Hlive).
Qed.

Lemma debits_steps (ops : list db_op) (s s' : DB) :
  Forall is_debit ops → run_ops ops s = Ret (tt, s') → rtc evm_step s s'.
Proof.
  intros Hops. revert s. induction Hops as [|op ops Hop Hops IH]; intros s H.
  - injection H as <-. constructor.
  - unfold run_ops in H. cbn [sfor] in H. unfold sbind in H.
    destruct (run_op op s) as [[[] s1]|] eqn:E; [|done]. destruct op; try done.
    eapply rtc_l; [exact (evm_call (OpSubBalance a amt r) tt s s1 eq_refl E)|by apply IH].
Qed.

Lemma range_empty : range_accounts ∅ = [].
Proof. pose proof (range_accounts_perm ∅) as H. rewrite map_to_list_empty in H. by apply Permutation_nil_r in H. Qed.

(** Without marked accounts there is nothing to settle. *)
Lemma settle_unmarked (s : DB) :
  transientAccounts (tempStateCurrent s) = ∅ → Forall (λ t, transientAccounts t = ∅) (tempStatesHist s) →
  settle s = Ret (tt, s).
Proof.
  intros Hc Hh. unfold settle, handleResidualFundsInDestructedAccounts, clearAccountStateIfDestructed.
  unfold sbind at 1, sget at 1. rewrite Hc, range_empty. unfold sbind at 1. cbn [sfor sret].
  unfold sbind at 1. cbn [sfor sret]. unfold sbind at 1, sget at 1.
  induction Hh as [|t ts Ht Hh IH]; [done|]. cbn [sfor]. unfold sbind at 1. rewrite Ht, range_empty. exact IH.
Qed.

Lemma NewDBImpl_unmarked cache (c : Ctx) s cache' :
  NewDBImpl cache c false = Ret (s, cache') →
  transientAccounts (tempStateCurrent s) = ∅ ∧ Forall (λ t, transientAccounts t = ∅) (tempStatesHist s) ∧
  cview (ctx s) = cview c.
Proof.
  unfold NewDBImpl. destruct (GetFeeCollectorAddress cache (cview c)) as [[a e] ch]. unfold Snapshot. intros H.
  simplify_eq/=. split_and!; [done|by apply Forall_singleton|apply cview_cbranch].
Qed.

Context `{CD : Codec} `{AL : AnteLibs MS} `{ALL : !AnteLibsLaws MS}.

(** A fee that was charged in delivery: the bank lost the recorded surplus, and
    nothing else changed. *)
Definition fee_charged (h : Hash) (c c' : Ctx) : Prop :=
  ∃ sp, w_transient (cview c') = prefix_set AnteSurplusPrefix (ba h) (Int_Marshal sp) (w_transient (cview c)) ∧
    bk_total (w_bank (cview c')) + sp = bk_total (w_bank (cview c)) ∧
    w_params (cview c') = w_params (cview c) ∧ w_evm (cview c') = w_evm (cview c) ∧ c_info c' = c_info c.

Lemma charge_fee_run deliver cfg bc emsg h cache cache' (c c' : Ctx) s0 :
  NewDBImpl cache c false = Ret (s0, cache') → charge_fee deliver cfg bc emsg h c s0 = Ret (c', None) →
  if deliver then fee_charged h c c' else c' = c.
Proof.
  intros Hnew H. unfold charge_fee in H.
  destruct (if deliver then _ else _) as [[r1 s1]|] eqn:E1; [|done]. cbn [outcome_bind fst snd] in H.
  destruct r1; [done|].
  assert (s1 = s0) as ->.
  { destruct deliver; [by apply StatelessChecks_reads in E1|by injection E1]. }
  destruct (BuyGas _ _ _ _) as [[r2 s2]|] eqn:E2; [|done]. cbn [outcome_bind fst snd] in H.
  destruct r2; [done|]. apply BuyGas_debits in E2 as (ops & Hops & Hrun).
  destruct deliver; [|by injection H]. destruct (Finalize s2) as [[[[sp|] [e|]] s3]|] eqn:Ef; try done.
  cbn [outcome_bind] in H. injection H as <-. pose proof (Finalize_ok_err _ _ _ Ef) as He.
  destruct (transition_settles Hlive _ _ _ _ _ Hnew (debits_steps _ _ _ Hops Hrun) He) as (sp' & s3' & Ef' & Htot & Hfr).
  rewrite Ef in Ef'. injection Ef' as <- <-. injection Hfr as Ht Hp.
  destruct (NewDBImpl_unmarked _ _ _ _ Hnew) as (Hm1 & Hm2 & Hv).
  destruct (debits_run _ _ _ Hops Hrun) as [[Hd1 Hd2] Hl].
  assert (Hset : settle s2 = Ret (tt, s2)).
  { apply settle_unmarked; [congruence|]. by destruct Hl as (_ & -> & _). }
  assert (Hwf : db_wf s2) by (eapply wf_level; [exact Hl|by eapply NewDBImpl_wf]).
  assert (Hsim : simulation s2 = false).
  { destruct Hl as (_ & _ & _ & _ & _ & ->). by eapply NewDBImpl_sim. }
  destruct (Finalize_run Hlive s2 Hwf Hsim He) as (s' & s4 & c0 & rest & Hset' & _ & _ & Hf4 & Hs & Hview & _).
  rewrite Hset in Hset'. injection Hset' as <-. rewrite Ef in Hf4. injection Hf4 as _ <-.
  exists sp. rewrite !cview_cupd. unfold AddAnteSurplus. cbn [w_transient w_bank w_params w_evm set_transient].
  split_and!; [by rewrite Ht|lia|done| |].
  - unfold base_ctx. rewrite Hs. change (w_evm (cview c0) = w_evm (cview c)). rewrite Hview, Hd1. by rewrite Hv.
  - simpl. unfold base_ctx. by rewrite Hs.
Qed.

End AnteLemmas.

(** ** One lemma per decorator: what it means that the chain went through it *)

(** What the decorators do not change of the context. *)
Definition same_modes {MS B A} (x x' : AnteCtx MS B A) : Prop :=
  ax_TxBytes x' = ax_TxBytes x ∧ ax_IsCheckTx x' = ax_IsCheckTx x ∧ ax_IsReCheckTx x' = ax_IsReCheckTx x ∧
  te_ChainID (ax_env x') = te_ChainID (ax_env x) ∧ c_info (ax_ctx x') = c_info (ax_ctx x).

#[export] Instance same_modes_preorder {MS B A} : PreOrder (same_modes (MS := MS) (B := B) (A := A)).
Proof.
  split; [by repeat split|]. intros x1 x2 x3 (?&?&?&?&?) (?&?&?&?&?). repeat split; congruence.
Qed.

Section Decorators.
Context `{BK : BankKeeper B} `{CK : CoinsKeeper B} `{AK : AccountKeeper A} `{AKK : AccountKeys A}.
Context `{EC : EthCrypto} `{KC : KeeperConfig}.
Context `{MST : MultiStore MS (World B A)} `{MSL : !MultiStoreLaws MS (World B A)}.
Context `{MR : MapRange} `{MRL : !MapRangeLaws} `{SD : SdkDec} `{CD : Codec}.
Context `{EH : EthHex} `{IL : IntLibs} `{ET : EthTransactions T} `{TC : TxCodec}.
Context `{SC : Secp256k1} `{SG : Signers T} `{FR : ForkRules}.
Context `{VM : EVM MS} `{AL : AnteLibs MS} `{ALL : !AnteLibsLaws MS} `{BL : !BankLaws B} `{CL : !CoinsLaws B}.
Hypothesis Hlive : EthReplayConfig_Enabled = false.
Notation World := (World B A).
Notation Ctx := (Ctx MS).
Notation AnteCtx := (AnteCtx MS B A).
Notation Handler := (AnteCtx → AnteTx → bool → outcome (AnteCtx * AnteTx * option Err)).

Lemma is_deliver_modes (x x' : AnteCtx) : same_modes x x' → is_deliver x' = is_deliver x.
Proof. intros (_ & H1 & H2 & _). unfold is_deliver. by rewrite H1, H2. Qed.

(** Recovering and associating the sender keeps the bank's total and the nonces. *)
Definition sender_step (c c' : Ctx) : Prop :=
  bk_total (w_bank (cview c')) = bk_total (w_bank (cview c)) ∧ w_transient (cview c') = w_transient (cview c) ∧
  w_params (cview c') = w_params (cview c) ∧ ∀ a, Keeper.GetNonce (cview c') a = Keeper.GetNonce (cview c) a.

Lemma Preprocess_AnteHandle_run (next : Handler) x tx sim x' tx' :
  Preprocess_AnteHandle next x tx sim = Ret (x', tx', None) →
  ∃ msg msg' d x1, at_Msgs tx = [EVMMsg msg] ∧
    Preprocess (ci_height (c_info (ax_ctx x))) (te_Time (ax_env x)) msg = Ret (msg', None) ∧ msg_Derived msg' = Some d ∧
    sender_step (ax_ctx x) (ax_ctx x1) ∧ same_modes x x1 ∧ ax_DeliverTxCallback x1 = ax_DeliverTxCallback x ∧
    if dv_IsAssociate d then x' = WithPriority EVMAssociatePriority x1 ∧ tx' = set_msg msg' tx
    else next x1 (set_msg msg' tx) sim = Ret (x', tx', None).
Proof.
  unfold Preprocess_AnteHandle. intros H.
  destruct (at_Msgs tx) as [|[msg| | | |] [|? ?]] eqn:Em; try done. cbn [MustGetEVMTransactionMessage outcome_bind] in H.
  destruct (Preprocess _ _ msg) as [[msg' e]|] eqn:Ep; [|done]. cbn [outcome_bind fst snd] in H.
  destruct e; [done|]. destruct (msg_Derived msg') as [d|] eqn:Ed; [|done].
  set (x1 := with_ctx _ (with_gas None (ax_GasEstimate x) x)) in H.
  assert (Hassoc : ∀ c', AssociateAddresses (dv_SenderTabiAddr d) (dv_SenderEVMAddr d) (default [] (dv_PubKey d)) (ax_ctx x1) = Ret (c', None) →
    sender_step (ax_ctx x) c' ∧ same_modes x (with_ctx c' x1)).
  { intros c' Ha. apply AssociateAddresses_keeps in Ha as (K1 & K2 & K3 & K4 & K5); [|done..]. by repeat split. }
  set (t := dv_SenderTabiAddr d) in *. set (ea := dv_SenderEVMAddr d) in *.
  destruct (dv_IsAssociate d) eqn:Ea; cbn [andb] in H.
  - destruct (bool_decide _); [done|]. destruct (negb _); [done|].
    destruct (AssociateAddresses t ea _ _) as [[c' [e|]]|] eqn:Eas; try done. cbn [outcome_bind fst snd] in H.
    injection H as <- <-. destruct (Hassoc _ eq_refl). exists msg, msg', d, (with_ctx c' x1). by rewrite Ea.
  - destruct (bool_decide _).
    + exists msg, msg', d, x1. rewrite Ea. by repeat split.
    + destruct (AssociateAddresses t ea _ _) as [[c' [e|]]|] eqn:Eas; try done. cbn [outcome_bind fst snd] in H.
      rewrite Hlive in H. cbn [outcome_bind] in H. destruct (Hassoc _ eq_refl).
      exists msg, msg', d, (with_ctx c' x1). by rewrite Ea.
Qed.

Lemma Basic_AnteHandle_run (next : Handler) x tx sim x' tx' :
  Basic_AnteHandle next x tx sim = Ret (x', tx', None) →
  ∃ msg etx td x1, at_Msgs tx = [EVMMsg msg] ∧ AsTransaction msg = Ret (Some (etx, td)) ∧
    basic_checks (ci_maxGas (c_info (ax_ctx x))) etx = Ret None ∧ next x1 tx sim = Ret (x', tx', None) ∧
    ax_ctx x1 = ax_ctx x ∧ same_modes x x1 ∧
    (∀ d, EthBlockTestConfig_Enabled = false → msg_Derived msg = Some d → is_deliver x = true →
      Keeper.GetNonce (cview (ax_ctx x)) (dv_SenderEVMAddr d) = Ret (tx_Nonce etx) →
      ax_DeliverTxCallback x1 = Some (bump_nonce (dv_SenderEVMAddr d) (tx_Nonce etx))).
Proof.
  unfold Basic_AnteHandle. intros H.
  destruct (at_Msgs tx) as [|[msg| | | |] [|? ?]] eqn:Em; try done. cbn [MustGetEVMTransactionMessage outcome_bind] in H.
  destruct (AsTransaction msg) as [[[etx td]|]|] eqn:Ea; try done. cbn [outcome_bind] in H.
  destruct (match msg_Derived msg with Some _ => _ | None => _ end) as [x1|] eqn:E1; [|done]. cbn [outcome_bind] in H.
  assert (Hx : ax_ctx x1 = ax_ctx x ∧ same_modes x x1).
  { destruct (msg_Derived msg) as [d|]; [|by injection E1 as <-].
    destruct (negb _ && negb _); [|by injection E1 as <-].
    destruct (Keeper.GetNonce _ _); [|done]. cbn [outcome_bind] in E1.
    destruct (is_deliver x && _); injection E1 as <-; by repeat split. }
  destruct Hx as [Hc Hm]. rewrite Hc in H.
  destruct (basic_checks _ etx) as [[e|]|] eqn:Eb; try done. cbn [outcome_bind] in H.
  exists msg, etx, td, x1. split_and!; try done.
  intros d Hbt Hd Hdel Hn. rewrite Hd, Hlive, Hbt in E1. cbn [negb andb] in E1. rewrite Hn in E1. cbn [outcome_bind] in E1.
  rewrite Hdel, Z.eqb_refl in E1. cbn [andb] in E1. by injection E1 as <-.
Qed.

Lemma FeeCheck_AnteHandle_run (next : Handler) x tx x' tx' :
  FeeCheck_AnteHandle next x tx false = Ret (x', tx', None) →
  ∃ msg td d etx td' x1 p, at_Msgs tx = [EVMMsg msg] ∧ UnpackTxData (msg_Data msg) = inl td ∧ msg_Derived msg = Some d ∧
    AsTransaction msg = Ret (Some (etx, td')) ∧ fee_checks (cview (ax_ctx x)) (dv_Version d) td = Ret None ∧
    CalculatePriority (cview (ax_ctx x1)) td = Ret p ∧ next (WithPriority (i64 p) x1) tx false = Ret (x', tx', None) ∧
    ax_DeliverTxCallback x1 = ax_DeliverTxCallback x ∧ same_modes x x1 ∧
    if is_deliver x then fee_charged (tx_Hash etx) (ax_ctx x) (ax_ctx x1) else ax_ctx x1 = ax_ctx x.
Proof.
  unfold FeeCheck_AnteHandle. intros H.
  destruct (at_Msgs tx) as [|[msg| | | |] [|? ?]] eqn:Em; try done. cbn [MustGetEVMTransactionMessage outcome_bind] in H.
  destruct (UnpackTxData _) as [td|] eqn:Eu; [|done]. destruct (msg_Derived msg) as [d|] eqn:Ed; [|done].
  destruct (fee_checks _ _ _) as [[e|]|] eqn:Ef; try done. cbn [outcome_bind] in H.
  destruct (AsTransaction msg) as [[[etx td']|]|] eqn:Ea; try done. cbn [outcome_bind] in H.
  destruct (GetEVMMessage _ _) as [emsg|]; [|done]. cbn [outcome_bind] in H.
  destruct (NewDBImpl _ _ _) as [[s0 cache1]|] eqn:En; [|done]. cbn [outcome_bind fst snd] in H.
  destruct (GetVMBlockContext _ _ _) as [[[bc|e] cache2]|]; [| |done]; cbn [outcome_bind fst snd] in H; [|done].
  destruct (charge_fee _ _ _ _ _ _ _) as [[c1 e]|] eqn:Ec; [|done]. cbn [outcome_bind fst snd] in H. destruct e; [done|].
  destruct (CalculatePriority _ _) as [p|] eqn:Ep; [|done]. cbn [outcome_bind] in H.
  apply (charge_fee_run Hlive _ _ _ _ _ _ _ _ _ _ En) in Ec.
  exists msg, td, d, etx, td', (with_ctx c1 (with_cache cache2 x)), p. split_and!; try done.
  - repeat split. change (c_info c1 = c_info (ax_ctx x)).
    change (is_deliver (with_cache cache2 x)) with (is_deliver x) in Ec.
    destruct (is_deliver x); [by destruct Ec as (sp & _ & _ & _ & _ & Hi)|by rewrite Ec].
Qed.

Lemma SigVerify_AnteHandle_run (next : Handler) x tx sim x' tx' :
  SigVerify_AnteHandle next x tx sim = Ret (x', tx', None) → ax_IsCheckTx x = false →
  ∃ msg d etx td c x1, at_Msgs tx = [EVMMsg msg] ∧ msg_Derived msg = Some d ∧ AsTransaction msg = Ret (Some (etx, td)) ∧
    tx_ChainId etx = Some c ∧ chain_ok (tx_Type etx) c (GetEVMChainID (te_ChainID (ax_env x))) = true ∧
    Keeper.GetNonce (cview (ax_ctx x)) (dv_SenderEVMAddr d) = Ret (tx_Nonce etx) ∧
    next x1 tx sim = Ret (x', tx', None) ∧ ax_ctx x1 = ax_ctx x ∧ ax_DeliverTxCallback x1 = ax_DeliverTxCallback x ∧
    same_modes x x1 ∧ ax_Priority x1 = ax_Priority x.
Proof.
  unfold SigVerify_AnteHandle. intros H Hck.
  destruct (at_Msgs tx) as [|[msg| | | |] [|? ?]] eqn:Em; try done. cbn [MustGetEVMTransactionMessage outcome_bind] in H.
  destruct (AsTransaction msg) as [txo|] eqn:Ea; [|done]. cbn [outcome_bind] in H.
  destruct (msg_Derived msg) as [d|] eqn:Ed; [|done].
  destruct (Keeper.GetNonce _ _) as [n|] eqn:En; [|done]. cbn [outcome_bind] in H.
  destruct txo as [[etx td]|]; [|done]. destruct (tx_ChainId etx) as [c|] eqn:Ech; [|done]. cbn [deref outcome_bind] in H.
  destruct (chain_ok _ _ _) eqn:Eok; [|done]. cbn [negb] in H.
  change (ax_IsCheckTx (with_evm _ _ _ x)) with (ax_IsCheckTx x) in H. rewrite Hck in H.
  destruct (Z.eqb_spec (tx_Nonce etx) n) as [Hn|]; [|done]. cbn [negb] in H. rewrite <- Hn in En.
  eexists msg, d, etx, td, c, _. split_and!; try done.
Qed.

Lemma Gas_AnteHandle_run x tx sim x' tx' :
  Gas_AnteHandle ante_end x tx sim = Ret (x', tx', None) →
  tx' = tx ∧ ∃ limit est, x' = with_gas (Some limit) est x.
Proof.
  unfold Gas_AnteHandle. intros H. destruct (MustGetEVMTransactionMessage _) as [msg|]; [|done]. cbn [outcome_bind] in H.
  destruct (UnpackTxData _) as [td|]; [|done]. destruct (TxData_GetGas td) as [g|]; [|done]. cbn [outcome_bind] in H.
  destruct (dec_val _) as [n|]; [|done]. cbn [outcome_bind] in H.
  destruct (dec_MulInt64 _ _) as [a|]; [|done]. cbn [outcome_bind] in H. destruct (Int_Uint64 _) as [l|]; [|done].
  cbn [outcome_bind ante_end done] in H. injection H as <- <-. split; [done|]. by eexists _, _.
Qed.

(** The chain of decorators when it accepts a transaction it is to deliver: the
    association of the sender ends it; otherwise every check has passed, in the
    context [c1] after the sender was associated, and the fee was charged from
    there. *)
Record delivered (x : AnteCtx) (x' : AnteCtx) (msg : MsgEVMTransaction) (d : Derived) (etx : T) (c1 : Ctx) : Prop := {
  dl_sender : sender_step (ax_ctx x) c1;
  dl_derived : msg_Derived msg = Some d;
  dl_tx : ∃ td, AsTransaction msg = Ret (Some (etx, td));
  dl_basic : basic_checks (ci_maxGas (c_info (ax_ctx x))) etx = Ret None;
  dl_fees : ∃ td, UnpackTxData (msg_Data msg) = inl td ∧ fee_checks (cview c1) (dv_Version d) td = Ret None;
  dl_chain : ∃ id, tx_ChainId etx = Some id ∧ chain_ok (tx_Type etx) id (Keeper_ChainID (ax_env x)) = true;
  dl_nonce : Keeper.GetNonce (cview (ax_ctx x)) (dv_SenderEVMAddr d) = Ret (tx_Nonce etx);
  dl_charged : fee_charged (tx_Hash etx) c1 (ax_ctx x');
  dl_callback : ax_DeliverTxCallback x' = Some (bump_nonce (dv_SenderEVMAddr d) (tx_Nonce etx));
  dl_info : c_info (ax_ctx x') = c_info (ax_ctx x)
}.

Lemma fee_charged_nonce h (c c' : Ctx) a : fee_charged h c c' → Keeper.GetNonce (cview c') a = Keeper.GetNonce (cview c) a.
Proof. intros (sp & _ & _ & _ & He & _). unfold Keeper.GetNonce. by rewrite He. Qed.

Lemma evmAnteHandler_run x tx x' tx' :
  EthBlockTestConfig_Enabled = false → is_deliver x = true → evmAnteHandler x tx false = Ret (x', tx', None) →
  ∃ msg msg' d, at_Msgs tx = [EVMMsg msg] ∧
    Preprocess (ci_height (c_info (ax_ctx x))) (te_Time (ax_env x)) msg = Ret (msg', None) ∧
    msg_Derived msg' = Some d ∧ tx' = set_msg msg' tx ∧
    if dv_IsAssociate d then
      ax_Priority x' = EVMAssociatePriority ∧ sender_step (ax_ctx x) (ax_ctx x') ∧
      ax_DeliverTxCallback x' = ax_DeliverTxCallback x ∧ c_info (ax_ctx x') = c_info (ax_ctx x)
    else ∃ etx c1, delivered x x' msg' d etx c1.
Proof.
  intros Hbt Hdel H. unfold evmAnteHandler in H.
  apply Preprocess_AnteHandle_run in H as (msg & msg' & d & x1 & Hm & Hp & Hd & Hs & Hm1 & Hcb0 & H).
  exists msg, msg', d. pose proof (is_deliver_modes _ _ Hm1) as Hd1. rewrite Hdel in Hd1.
  destruct (dv_IsAssociate d) eqn:Ea; [destruct H as [-> ->]; by destruct Hm1 as (_ & _ & _ & _ & ?)|].
  apply Basic_AnteHandle_run in H as (m2 & etx & td & x2 & Em2 & Ht & Hb & H & Hc2 & Hm2 & Hcb).
  apply FeeCheck_AnteHandle_run in H as (m3 & td3 & d3 & etx3 & td3' & x3 & p & Em3 & Hu & Hd3 & Ht3 & Hf & _ & H & Hcb3 & Hm3 & Hch).
  pose proof (is_deliver_modes _ _ Hm2) as Hd2. rewrite Hd1 in Hd2. rewrite Hd2 in Hch.
  apply SigVerify_AnteHandle_run in H as (m4 & d4 & etx4 & td4 & id & x4 & Em4 & Hd4 & Ht4 & Hid & Hok & Hn & H & Hc4 & Hcb4 & Hm4 & _);
    [|pose proof (is_deliver_modes _ _ Hm3) as Hd3'; rewrite Hd2 in Hd3'; cbn; unfold is_deliver in Hd3'; by destruct (ax_IsCheckTx x3)].
  apply Gas_AnteHandle_run in H as (-> & limit & est & ->).
  cbn [set_msg at_Msgs] in Em2, Em3, Em4. simplify_eq. rewrite Ht in Ht3, Ht4. injection Ht3 as <- <-. injection Ht4 as <- <-.
  cbn [ax_ctx WithPriority ax_DeliverTxCallback ax_env] in *.
  rewrite (fee_charged_nonce _ _ _ _ Hch), Hc2 in Hn. destruct Hs as (Hs1 & Hs2 & Hs3 & Hs4).
  destruct Hm1 as (_ & _ & _ & He1 & Hi1), Hm2 as (_ & _ & _ & He2 & Hi2), Hm3 as (_ & _ & _ & He3 & Hi3), Hm4 as (_ & _ & _ & _ & Hi4).
  do 4 (split; [done|]). exists etx, (ax_ctx x1). split; try done.
  - by eexists.
  - by rewrite <- Hi1.
  - exists td3. by rewrite <- Hc2.
  - exists id. split; [done|]. unfold Keeper_ChainID. by rewrite <- He1, <- He2, <- He3.
  - by rewrite <- Hs4.
  - change (fee_charged (tx_Hash etx) (ax_ctx x1) (ax_ctx x4)). by rewrite Hc4, <- Hc2.
  - change (ax_DeliverTxCallback x4 = Some (bump_nonce (dv_SenderEVMAddr d) (tx_Nonce etx))). rewrite Hcb4, Hcb3. by apply Hcb.
  - change (c_info (ax_ctx x4) = c_info (ax_ctx x)). cbn in Hi4. congruence.
Qed.

End Decorators.

(** * Theorems *)

Section AnteTheorems.
Context `{BK : BankKeeper B} `{CK : CoinsKeeper B} `{AK : AccountKeeper A} `{AKK : AccountKeys A}.
Context `{EC : EthCrypto} `{KC : KeeperConfig}.
Context `{MST : MultiStore MS (World B A)} `{MSL : !MultiStoreLaws MS (World B A)}.
Context `{MR : MapRange} `{MRL : !MapRangeLaws} `{SD : SdkDec} `{CD : Codec}.
Context `{EH : EthHex} `{IL : IntLibs} `{ET : EthTransactions T} `{TC : TxCodec}.
Context `{SC : Secp256k1} `{SG : Signers T} `{FR : ForkRules}.
Context `{VM : EVM MS} `{AL : AnteLibs MS}.
Notation World := (World B A).
Notation Ctx := (Ctx MS).
Notation AnteCtx := (AnteCtx MS B A).

(** C19: a transaction that the ante handler accepts for delivery has paid, on the
    record.  Its sender was recovered; an association ends with its fixed
    priority and leaves the bank's total and the transient store alone.  Any
    other transaction carries the sender's next nonce, and the wei in the bank
    afterwards plus the surplus recorded under its hash is the wei before;
    nothing else is written to the transient store, and the nonce will move when
    the transaction is done, whether it fails or not. *)
Theorem evmAnteHandler_accounts (x x' : AnteCtx) (tx tx' : AnteTx) :
  EthReplayConfig_Enabled = false → EthBlockTestConfig_Enabled = false → BankLaws B → CoinsLaws B → AnteLibsLaws MS →
  is_deliver x = true → evmAnteHandler x tx false = Ret (x', tx', None) →
  let w := cview (ax_ctx x) in let w' := cview (ax_ctx x') in
  ∃ msg d, at_Msgs tx' = [EVMMsg msg] ∧ msg_Derived msg = Some d ∧
    if dv_IsAssociate d then
      ax_Priority x' = EVMAssociatePriority ∧ bk_total (w_bank w') = bk_total (w_bank w) ∧ w_transient w' = w_transient w
    else ∃ etx td sp, AsTransaction msg = Ret (Some (etx, td)) ∧
      Keeper.GetNonce w (dv_SenderEVMAddr d) = Ret (tx_Nonce etx) ∧
      bk_total (w_bank w') + sp = bk_total (w_bank w) ∧
      w_transient w' = prefix_set AnteSurplusPrefix (ba (tx_Hash etx)) (Int_Marshal sp) (w_transient w) ∧
      ax_DeliverTxCallback x' = Some (bump_nonce (dv_SenderEVMAddr d) (tx_Nonce etx)).
Proof.
  intros Hlive Hbt BL CL ALL Hdel H. cbv zeta.
  apply (evmAnteHandler_run Hlive) in H as (msg & msg' & d & _ & _ & Hd & -> & H); [|done..].
  exists msg', d. split_and!; [done..|]. destruct (dv_IsAssociate d).
  - by destruct H as (Hp & (H1 & H2 & _) & _).
  - destruct H as (etx & c1 & [(S1 & S2 & S3 & S4) _ [td Htd] _ _ _ Hn (sp & F1 & F2 & _) Hcb _]).
    exists etx, td, sp. rewrite <- S1, <- S2. by split_and!.
Qed.

(** After the callback of an accepted transaction the sender's nonce is past the
    transaction's. *)
Lemma bump_nonce_past sender n m (c c' : Ctx) :
  0 ≤ n < two64 - 1 → Keeper.GetNonce (cview c) sender = Ret m → n ≤ m → bump_nonce sender n c = Ret c' →
  ∃ m', Keeper.GetNonce (cview c') sender = Ret m' ∧ n < m'.
Proof.
  intros Hn Hm Hle. unfold bump_nonce. rewrite Hm. cbn [outcome_bind].
  destruct (Z.eqb_spec m n) as [->|Hne]; intros [= <-]; [|exists m; split; [done|lia]].
  exists (n + 1). split; [|lia]. rewrite cview_cupd.
  assert (Hu : u64 (n + 1) = n + 1) by (apply Z.mod_small; unfold two64 in *; lia). rewrite Hu.
  by rewrite SetNonce_GetNonce, Hu.
Qed.

(** C20: no transaction is delivered twice.  Once the handler has accepted a
    transaction and its callback has run (after an execution that did not lower
    the sender's nonce), the handler accepts the same transaction in no later
    context: one in which the same sender is recovered and the sender's nonce has
    not gone back. *)
Theorem replay_rejected (x x' x2 : AnteCtx) (tx tx' : AnteTx) (msg0 msg : MsgEVMTransaction) (d : Derived) (etx : T)
    (td : TxData) (f : Ctx → outcome Ctx) (c c' : Ctx) (n m m' : Z) :
  EthReplayConfig_Enabled = false → EthBlockTestConfig_Enabled = false → BankLaws B → CoinsLaws B → AnteLibsLaws MS →
  is_deliver x = true → evmAnteHandler x tx false = Ret (x', tx', None) →
  at_Msgs tx = [EVMMsg msg0] → at_Msgs tx' = [EVMMsg msg] → msg_Derived msg = Some d → dv_IsAssociate d = false →
  AsTransaction msg = Ret (Some (etx, td)) → 0 ≤ tx_Nonce etx < two64 - 1 →
  Keeper.GetNonce (cview c) (dv_SenderEVMAddr d) = Ret n → tx_Nonce etx ≤ n →
  ax_DeliverTxCallback x' = Some f → f c = Ret c' →
  is_deliver x2 = true →
  Preprocess (ci_height (c_info (ax_ctx x2))) (te_Time (ax_env x2)) msg0 =
    Preprocess (ci_height (c_info (ax_ctx x))) (te_Time (ax_env x)) msg0 →
  Keeper.GetNonce (cview c') (dv_SenderEVMAddr d) = Ret m →
  Keeper.GetNonce (cview (ax_ctx x2)) (dv_SenderEVMAddr d) = Ret m' → m ≤ m' →
  ∀ x3 tx3, evmAnteHandler x2 tx false ≠ Ret (x3, tx3, None).
Proof.
  intros Hlive Hbt BL CL ALL Hdel H Hm0 Hm Hd Ha Htx Hrange Hn Hle Hf Hcall Hdel2 Hpre Hm1 Hm2 Hge x3 tx3 H2.
  apply (evmAnteHandler_run Hlive) in H as (msg1 & msg' & d1 & E1 & Hp & Hd1 & -> & H); [|done..].
  apply (evmAnteHandler_run Hlive) in H2 as (msg2 & msg2' & d2 & E2 & Hp2 & Hd2 & -> & H2); [|done..].
  cbn [set_msg at_Msgs] in Hm. rewrite Hm0 in E1, E2. injection E1 as <-. injection E2 as <-. injection Hm as ->.
  rewrite Hpre, Hp in Hp2. injection Hp2 as <-. rewrite Hd in Hd1, Hd2. injection Hd1 as <-. injection Hd2 as <-.
  rewrite Ha in H, H2. destruct H as (e1 & c1 & [_ _ [t1 T1] _ _ _ _ _ Hcb _]), H2 as (e2 & c2 & [_ _ [t2 T2] _ _ _ Hn2 _ _ _]).
  rewrite Htx in T1, T2. injection T1 as <- _. injection T2 as <- _.
  rewrite Hf in Hcb. injection Hcb as ->.
  destruct (bump_nonce_past _ _ _ _ _ Hrange Hn Hle Hcall) as (k & Hk & Hlt).
  rewrite Hm1 in Hk. injection Hk as ->. rewrite Hm2 in Hn2. injection Hn2 as ->. lia.
Qed.

(** Priorities stay in their band.  A transaction whose fee was checked gets
    a priority between zero and [MaxPriority], so that the conversion to a 64-bit
    integer keeps it, and below the priority of associations. *)
Theorem priority_in_band (w : World) (ver : SignerVersion) (td : TxData) (p base norm : Z) :
  SdkDecLaws → getBaseFee w = Ret base → 0 ≤ base → dec_val (GetPriorityNormalizer w) = Ret norm → 0 < norm →
  fee_checks w ver td = Ret None → CalculatePriority w td = Ret p →
  0 ≤ p ≤ MaxPriority ∧ i64 p = p ∧ p < EVMAssociatePriority.
Proof.
  intros SL Hb Hb0 Hn Hn0 Hf Hp.
  assert (∃ cap tip gp, TxData_GetGasFeeCap td = Ret (Some cap) ∧ 0 ≤ cap ∧ TxData_GetGasTipCap td = Ret (Some tip) ∧ 0 ≤ tip ∧
    TxData_EffectiveGasPrice td (Some 0) = Ret (Some gp) ∧ p = Z.min MaxPriority (TruncateInt (dec_quo (NewDec gp) norm)))
    as (cap & tip & gp & H1 & H2 & H3 & H4 & H5 & ->).
  { unfold fee_checks in Hf. destruct (TxData_GetGasFeeCap td) as [cap|]; [|done]. cbn [outcome_bind] in Hf.
    rewrite Hb in Hf. cbn [outcome_bind] in Hf. destruct cap as [cap|]; [|done]. cbn [deref outcome_bind] in Hf.
    destruct (Z.ltb_spec cap base); [done|]. destruct (getMinimumFee w) as [mn|]; [|done]. cbn [outcome_bind] in Hf.
    destruct (cap <? mn); [done|]. destruct (TxData_GetGasTipCap td) as [tip|]; [|done]. cbn [outcome_bind] in Hf.
    destruct tip as [tip|]; [|done]. cbn [deref outcome_bind] in Hf. destruct (Z.ltb_spec tip 0); [done|].
    unfold CalculatePriority in Hp. destruct (TxData_EffectiveGasPrice td (Some 0)) as [[gp|]|]; try done.
    cbn [deref outcome_bind] in Hp. rewrite Hn in Hp. cbn [outcome_bind] in Hp.
    unfold dec_Quo in Hp. destruct (Z.eqb_spec norm 0); [done|]. destruct (dec_checked _) as [q|] eqn:Eq; [|done]. cbn [outcome_bind] in Hp.
    apply dec_checked_inv in Eq as [-> _]. exists cap, tip, gp.
    split_and!; try done; [lia|]. injection Hp as <-. destruct (Z.ltb_spec MaxPriority (TruncateInt (dec_quo (NewDec gp) norm))); lia. }
  assert (0 ≤ gp).
  { destruct td as [t|t|t|t|t]; cbn in H1, H3, H5; unfold LegacyTx_EffectiveGasPrice, AccessListTx_EffectiveGasPrice,
      LegacyTx_GetGasFeeCap, AccessListTx_GetGasFeeCap, DynamicFeeTx_EffectiveGasPrice, BlobTx_EffectiveGasPrice,
      DynamicFeeTx_GetGasFeeCap, DynamicFeeTx_GetGasTipCap, BlobTx_GetGasFeeCap, BlobTx_GetGasTipCap in *;
      try (injection H1 as H1; injection H3 as H3; rewrite ?H1, ?H3 in H5; cbn in H5); try done; injection H5 as H5; lia. }
  assert (0 ≤ TruncateInt (dec_quo (NewDec gp) norm)).
  { apply Z.quot_pos; [|done]. pose proof (dec_quo_close (NewDec gp) norm Hn0). unfold NewDec, dec_one in *. nia. }
  set (q := TruncateInt _) in *. assert (Hq : 0 ≤ Z.min MaxPriority q ≤ MaxPriority) by (unfold MaxPriority, maxInt64; lia).
  split_and!; [lia..| |unfold MaxPriority, EVMAssociatePriority in *; lia].
  unfold i64. rewrite Z.mod_small by (unfold MaxPriority, maxInt64, two64 in *; lia).
  rewrite bool_decide_true; [done|unfold MaxPriority in *; lia].
Qed.

(** A transaction with a nonce in the future waits for its turn.  When the
    mempool asks again, the answer is that it is rejected when its nonce was
    already used, and accepted when its sender has a pending transaction for
    every nonce up to and including its own and can pay its cost; otherwise it
    stays pending. *)
Theorem pending_check_waits (latest : World) (p : PendingState) (a : Address) (t n : Z) (etx : T) :
  pend_wf p → is_u64 n → n + Z.of_nat (length (pending_of p a)) < two64 → Keeper.GetNonce latest a = Ret n →
  ∃ r, pending_check a t etx latest p = Ret r ∧ (r = Rejected ↔ t < n) ∧
    (r = Accepted ↔ n ≤ t ∧ (∀ j, n ≤ j ≤ t → j ∈ nonces_of p a) ∧ hasSufficientBalance latest a etx = true).
Proof.
  intros Hwf Hu Hlen Hn. unfold pending_check. rewrite Hn. cbn [outcome_bind].
  assert (Hlen' : Z.of_nat (length (pending_of p a)) < two64) by (unfold is_u64 in Hu; lia).
  destruct (first_free_nonce p n a Hwf Hu Hlen') as (k & Hk & -> & Hfree & Hused).
  assert (Hsmall : ∀ j : nat, (j ≤ k)%nat → u64 (n + Z.of_nat j) = n + Z.of_nat j)
    by (intros j Hj; apply Z.mod_small; unfold is_u64 in Hu; lia).
  rewrite (Hsmall k) in * by done.
  assert (Hrun : ∀ j, n ≤ j < n + Z.of_nat k → j ∈ nonces_of p a).
  { intros j Hj. replace j with (u64 (n + Z.of_nat (Z.to_nat (j - n)))); [apply Hused; lia|].
    rewrite Hsmall by lia. lia. }
  destruct (Z.ltb_spec t n); [eexists; split; [done|]; split; split; [done..|intros (?&?&?); lia]|].
  destruct (Z.ltb_spec t (n + Z.of_nat k)).
  - destruct (hasSufficientBalance latest a etx); cbn [negb]; eexists; (split; [done|]); split; split; try done; try lia.
    intros _. split_and!; [lia| |done]. intros j Hj. apply Hrun. lia.
  - eexists. split; [done|]. split; split; try done; try lia. intros (_ & Hall & _). destruct Hfree. apply Hall. lia.
Qed.

End AnteTheorems.

(** * Examples *)

Section AnteExamples.
#[local] Existing Instances demo_bank_keeper demo_bank_laws demo_accounts demo_coins demo_coins_laws demo_account_keys.
#[local] Existing Instances demo_crypto live_config number_codec number_codec_laws half_even_dec half_even_dec_laws.
#[local] Existing Instances plain_hex strict_ints plain_transactions no_codec demo_secp demo_signers demo_forks.
#[local] Existing Instances demo_call_stores demo_call_stores_laws demo_call_range demo_evm.
#[local] Instance demo_ante_range_laws : MapRangeLaws.
Proof. by split. Qed.

(** Buying gas takes the price of the whole limit. *)
#[local] Instance demo_ante_libs : AnteLibs (stack_ms demo_world) := {|
  IntrinsicGas _ _ _ := inl 21000;
  CalcBlobFee _ := 1;
  StatelessChecks _ _ _ := sret None;
  BuyGas _ _ msg := (let! _ := StateDB.SubBalance (m_From msg) (m_GasLimit msg * m_GasPrice msg) BalanceChangeTransfer in sret None)%stm;
  Tx_Key b := fit 32 b;
  ParsePubKey b := Some b
|}.
#[local] Instance demo_ante_libs_laws : AnteLibsLaws (stack_ms demo_world).
Proof.
  split; [by intros ? ? ? ? ? ? [= _ <-]|]. intros cfg bc msg s r s' H. simpl in H. unfold sbind in H.
  destruct (StateDB.SubBalance _ _ _ s) as [[[] s1]|] eqn:E; [|done]. injection H as _ <-.
  exists [OpSubBalance (m_From msg) (m_GasLimit msg * m_GasPrice msg) BalanceChangeTransfer].
  split; [by repeat constructor|]. unfold run_ops. cbn [sfor]. unfold sbind. simpl run_op. by rewrite E.
Qed.

(** A legacy transaction with nonce 7 that pays one atabi per thousand gas. *)
Definition ante_msg : MsgEVMTransaction :=
  mkMsgEVMTransaction (Some (mkAnyData (Some (TLegacy (mkLegacyTx 7 (Some 1000000000) 21000 "" (Some 5) []
    (big_Bytes (35 + 2 * 10123 + 1)) (big_Bytes 12345) (big_Bytes 67890)))) [])) None.
Definition ante_tx : AnteTx := mkAnteTx [EVMMsg ante_msg] 0 [] None.
Definition no_sender : Derived := mkDerived (addr_of 0) [] None false Cancun.
Definition ante_msg' : MsgEVMTransaction := result_or ante_msg (Preprocess 1 1700000000 ante_msg).
Definition ante_sender : Derived := default no_sender (msg_Derived ante_msg').
Definition ante_world : demo_world :=
  Keeper.SetNonce (dv_SenderEVMAddr ante_sender) 7
    (set_bank {[ba (dv_SenderEVMAddr ante_sender) := 30000000000000%N]} demo_world0).
Definition ante_ctx (c : Ctx (stack_ms demo_world)) : AnteCtx (stack_ms demo_world) demo_bank (gset (list Byte.byte)) :=
  mkAnteCtx c demo_env [] false false demo_cache 0 None 0 0 "" "" None None None None.
Definition ante_start := ante_ctx (demo_ctx ante_world).
Definition ante_end_state := result_or (ante_start, ante_tx) (evmAnteHandler ante_start ante_tx false).

Lemma ante_accepts : evmAnteHandler ante_start ante_tx false = Ret (ante_end_state.1, ante_end_state.2, None).
Proof.
  assert (H : is_ok (evmAnteHandler ante_start ante_tx false) = true) by (vm_compute; reflexivity).
  rewrite (is_ok_ret (ante_start, ante_tx) _ H). fold ante_end_state. by destruct ante_end_state.
Qed.

Lemma ante_derived : at_Msgs ante_end_state.2 = [EVMMsg ante_msg'] ∧ msg_Derived ante_msg' = Some ante_sender.
Proof.
  assert (Hlive : EthReplayConfig_Enabled = false) by reflexivity.
  assert (Hbt : EthBlockTestConfig_Enabled = false) by reflexivity.
  destruct (evmAnteHandler_run Hlive ante_start ante_tx ante_end_state.1 ante_end_state.2 Hbt eq_refl ante_accepts)
    as (m & m' & d & Hm & Hp & Hd & Htx & _).
  injection Hm as <-. change (Preprocess 1 1700000000 ante_msg = Ret (m', None)) in Hp.
  unfold ante_sender, ante_msg'. rewrite Hp. cbn [result_or]. rewrite Htx, Hd. split; exact eq_refl.
Qed.

Lemma evmAnteHandler_accounts_witness :
  is_ok (evmAnteHandler ante_start ante_tx false) = true ∧
  ∃ sp, bk_total (w_bank (cview (ax_ctx ante_end_state.1))) + sp = 30000000000000.
Proof.
  split; [vm_compute; reflexivity|].
  assert (Hlive : EthReplayConfig_Enabled = false) by reflexivity.
  assert (Hbt : EthBlockTestConfig_Enabled = false) by reflexivity.
  assert (Hdel : is_deliver ante_start = true) by reflexivity.
  assert (Ha : dv_IsAssociate ante_sender = false) by (vm_compute; reflexivity).
  assert (Ht : bk_total (w_bank (cview (ax_ctx ante_start))) = 30000000000000) by (vm_compute; reflexivity).
  destruct (evmAnteHandler_accounts ante_start ante_end_state.1 ante_tx ante_end_state.2 Hlive Hbt demo_bank_laws
    demo_coins_laws demo_ante_libs_laws Hdel ante_accepts) as (msg & d & Hm & Hd & H).
  destruct ante_derived as [Hm' Hd']. rewrite Hm' in Hm. injection Hm as <-. rewrite Hd' in Hd. injection Hd as <-.
  rewrite Ha in H. destruct H as (etx & td & sp & _ & _ & Hs & _). exists sp. rewrite <- Ht. exact Hs.
Defined.

(** The nonce after the callback is 8: the transaction is not accepted again. *)
Definition ante_tx_data : EthTxData :=
  EthLegacy (mkEthLegacyTx 7 (Some 1000000000) 21000 None (Some 5) [] (Some (35 + 2 * 10123 + 1)) (Some 12345) (Some 67890)).
Definition ante_next : Ctx (stack_ms demo_world) :=
  cupd (Keeper.SetNonce (dv_SenderEVMAddr ante_sender) 8) (demo_ctx ante_world).

Lemma replay_rejected_witness :
  is_ok (evmAnteHandler (ante_ctx ante_next) ante_tx false) = false.
Proof.
  assert (Hlive : EthReplayConfig_Enabled = false) by reflexivity.
  assert (Hbt : EthBlockTestConfig_Enabled = false) by reflexivity.
  assert (Ha : dv_IsAssociate ante_sender = false) by (vm_compute; reflexivity).
  destruct ante_derived as [Hm Hd].
  assert (Htd : ∃ td, AsTransaction ante_msg' = Ret (Some (ante_tx_data, td))) by (eexists; vm_compute; reflexivity).
  destruct Htd as [td Htd].
  assert (Hr : 0 ≤ tx_Nonce ante_tx_data < two64 - 1) by (vm_compute; split; [discriminate|reflexivity]).
  assert (Hn : Keeper.GetNonce (cview (demo_ctx ante_world)) (dv_SenderEVMAddr ante_sender) = Ret 7) by (vm_compute; reflexivity).
  assert (Hn' : Keeper.GetNonce (cview ante_next) (dv_SenderEVMAddr ante_sender) = Ret 8) by (vm_compute; reflexivity).
  destruct (evmAnteHandler_run Hlive ante_start ante_tx ante_end_state.1 ante_end_state.2 Hbt eq_refl ante_accepts)
    as (m & m' & d & _ & _ & Hd1 & Htx & H).
  rewrite Htx in Hm. cbn [set_msg at_Msgs] in Hm. injection Hm as ->. rewrite Hd in Hd1. injection Hd1 as <-.
  rewrite Ha in H. destruct H as (etx & c1 & [_ _ [td' T1] _ _ _ _ _ Hcb _]). rewrite Htd in T1. injection T1 as <- _.
  assert (Hcall : bump_nonce (dv_SenderEVMAddr ante_sender) (tx_Nonce ante_tx_data) (demo_ctx ante_world) = Ret ante_next).
  { unfold bump_nonce. rewrite Hn. reflexivity. }
  destruct (evmAnteHandler (ante_ctx ante_next) ante_tx false) as [[[x3 tx3] [e|]]|] eqn:E; [reflexivity| |reflexivity].
  exfalso. refine (replay_rejected ante_start ante_end_state.1 (ante_ctx ante_next) ante_tx ante_end_state.2 ante_msg ante_msg' ante_sender
    ante_tx_data td _ (demo_ctx ante_world) ante_next 7 8 8 Hlive Hbt demo_bank_laws demo_coins_laws demo_ante_libs_laws
    eq_refl ante_accepts eq_refl _ Hd Ha Htd Hr Hn _ Hcb Hcall eq_refl eq_refl Hn' Hn' _ x3 tx3 E).
  - rewrite Htx. reflexivity.
  - simpl. lia.
  - lia.
Defined.

Lemma priority_in_band_witness :
  CalculatePriority demo_world0 (TLegacy (mkLegacyTx 7 (Some 1000000000) 21000 "" (Some 5) [] [] [] [])) = Ret 1000000000 ∧
  1000000000 < EVMAssociatePriority.
Proof.
  assert (Hp : CalculatePriority demo_world0 (TLegacy (mkLegacyTx 7 (Some 1000000000) 21000 "" (Some 5) [] [] [] []))
    = Ret 1000000000) by (vm_compute; reflexivity).
  split; [exact Hp|].
  assert (Hb : getBaseFee demo_world0 = Ret 0) by (vm_compute; reflexivity).
  assert (Hn : dec_val (GetPriorityNormalizer demo_world0) = Ret dec_one) by (vm_compute; reflexivity).
  assert (Hf : fee_checks demo_world0 London (TLegacy (mkLegacyTx 7 (Some 1000000000) 21000 "" (Some 5) [] [] [] [])) = Ret None)
    by (vm_compute; reflexivity).
  refine (proj2 (proj2 (priority_in_band demo_world0 London _ 1000000000 0 dec_one half_even_dec_laws Hb _ Hn _ Hf Hp)));
    unfold dec_one; lia.
Defined.

(** Nonces 3, 4 and 5 are pending: a transaction with nonce 4 may run. *)
Lemma pending_check_waits_witness :
  ∃ r, pending_check (fit 20 [Byte.xaa]) 4 (demo_tx 21000)
    (Keeper.SetNonce (fit 20 [Byte.xaa]) 3 (set_bank {[ba (fit 20 [Byte.xaa] : Address) := 30000000000000%N]} demo_world0)) pend_example = Ret r ∧
    (r = Rejected ↔ 4 < 3).
Proof.
  set (w := Keeper.SetNonce _ _ _).
  assert (Hn : is_u64 3) by (unfold is_u64, two64; lia).
  assert (Hl : 3 + Z.of_nat (length (pending_of pend_example (fit 20 [Byte.xaa]))) < two64) by (vm_compute; reflexivity).
  assert (Hg : Keeper.GetNonce w (fit 20 [Byte.xaa]) = Ret 3) by (vm_compute; reflexivity).
  destruct (pending_check_waits w pend_example (fit 20 [Byte.xaa]) 4 3 (demo_tx 21000) pend_example_wf Hn Hl Hg) as (r & H1 & H2 & _).
  exists r. split; [exact H1|exact H2].
Defined.

End AnteExamples.
