(* ===== verification/AppTx.v ===== *)
(** * The application's own checks of transactions
    (app/antedecorators/{authz_nested_message,gasless,accesscontrol_wasm_dependency}.go,
    utils/prioritized_txs.go, and checkTotalBlockGas, PartitionPrioritizedTxs and
    GetEVMMsg of app/app.go)

    Messages nest: an [authz.MsgExec] carries messages, among them other
    [authz.MsgExec]s.  The decorators look through the nesting for EVM messages
    and for wasm dependencies, the block's transactions are split into those with
    oracle messages and the others, and a proposed block is rejected when the gas
    its transactions ask for does not fit. *)

From S2P Require Import Prelude Bytes Dec Store Params Keys World Keeper StateDB Snapshots Supply Finalize.
From S2P Require Import Pending Fee Eth EthTx Msg Block Receipts Tx Associate Instances Ante.
From Stdlib Require Import Ascii.
Local Open Scope Z_scope.
Local Open Scope outcome_scope.

(** ** Text

    [strings.ToLower] and [strings.Contains] on the ASCII text of type URLs. *)

Definition lower_ascii (c : ascii) : ascii :=
  let n := nat_of_ascii c in if (65 <=? n)%nat && (n <=? 90)%nat then ascii_of_nat (n + 32) else c.
Fixpoint ToLower (s : string) : string :=
  match s with
  | EmptyString => EmptyString
  | String c s' => String (lower_ascii c) (ToLower s')
  end.
Fixpoint Contains (s substr : string) : bool :=
  String.prefix substr s || match s with EmptyString => false | String _ s' => Contains s' substr end.

(** [sdk.MsgTypeURL] of the messages the program knows by type. *)
Definition MsgTypeURL (m : SdkMsg) : string :=
  match m with
  | EVMMsg _ => "/tabilabs.tabiv2.evm.MsgEVMTransaction"
  | AssociateMsg _ => "/tabilabs.tabiv2.evm.MsgAssociate"
  | ExecMsg _ => "/cosmos.authz.v1beta1.MsgExec"
  | WasmDependencyMsg _ _ => "/cosmos.accesscontrol.v1beta1.MsgRegisterWasmDependency"
  | OtherMsg url => url
  end.

(** ** EVM messages inside authz (authz_nested_message.go) *)

Definition maxNestedMsgs : nat := 5.

(** What the loops do with one message; of an [authz.MsgExec], this is
    [CheckAuthzContainsEvm] at the given level. *)
Fixpoint contains_evm (nestedLvl : nat) (m : SdkMsg) : bool + Err :=
  match m with
  | EVMMsg _ => inl true
  | ExecMsg o =>
      if (maxNestedMsgs <=? nestedLvl)%nat then inr "permission denied, more nested msgs than permitted"%string else
      match o with
      | None => inr "messages contains unknown type"%string
      | Some msgs =>
          (fix loop (l : list SdkMsg) : bool + Err :=
             match l with
             | [] => inl false
             | m :: rest =>
                 match contains_evm (S nestedLvl) m with
                 | inr e => inr e
                 | inl true => inl true
                 | inl false => loop rest
                 end
             end) msgs
      end
  | _ => inl false
  end.
Definition CheckAuthzContainsEvm (msgs : option (list SdkMsg)) (nestedLvl : nat) : bool + Err :=
  contains_evm nestedLvl (ExecMsg msgs).

(** The error the decorator returns, if any. *)
Fixpoint authz_error (msgs : SdkTx) : option Err :=
  match msgs with
  | [] => None
  | ExecMsg o :: rest =>
      match CheckAuthzContainsEvm o 0 with
      | inr e => Some e
      | inl true => Some "permission denied, authz tx contains evm message"%string
      | inl false => authz_error rest
      end
  | _ :: rest => authz_error rest
  end.

Definition AuthzNested_AnteHandle {MS B A} (next : AnteCtx MS B A → AnteTx → bool → outcome (AnteCtx MS B A * AnteTx * option Err))
    (x : AnteCtx MS B A) (tx : AnteTx) (simulate : bool) : outcome (AnteCtx MS B A * AnteTx * option Err) :=
  match authz_error (at_Msgs tx) with
  | Some e => fail x tx e
  | None => next x tx simulate
  end.

(** ** Wasm dependencies (accesscontrol_wasm_dependency.go)

    The admin of a contract is kept by the wasm module. *)
Section WasmDependency.
(** [None] when there is no such contract. *)
Variable contract_admin : AccAddress → option string.

Definition SenderMatchesContractAdmin (from : string) (contract : AccAddress + Err) : outcome (bool + Err) :=
  match contract with
  | inr e => Ret (inr e)
  | inl addr =>
      match contract_admin addr with
      | None => Panic nil_deref
      | Some admin => Ret (inl (String.eqb admin from))
      end
  end.

(** Of an [authz.MsgExec], this is [CheckAuthzExecValid]; there is no bound on
    the nesting. *)
Fixpoint dependency_valid (m : SdkMsg) : outcome (bool + Err) :=
  match m with
  | WasmDependencyMsg from contract => SenderMatchesContractAdmin from contract
  | ExecMsg None => Ret (inr "messages contains unknown type"%string)
  | ExecMsg (Some msgs) =>
      (fix loop (l : list SdkMsg) : outcome (bool + Err) :=
         match l with
         | [] => Ret (inl true)
         | m :: rest =>
             match dependency_valid m with
             | Ret (inl true) => loop rest
             | stop => stop
             end
         end) msgs
  | _ => Ret (inl true)
  end.

Definition ErrWasmDependencyRegistrationFailed : Err := "wasm dependency registration failed".

(** The error the decorator returns, if any. *)
Fixpoint dependency_error (msgs : SdkTx) : outcome (option Err) :=
  match msgs with
  | [] => Ret None
  | m :: rest =>
      let* valid := dependency_valid m in
      match valid with
      | inr e => Ret (Some e)
      | inl false => Ret (Some (Wrap ErrWasmDependencyRegistrationFailed "permission denied, sender doesn't match contract admin"))
      | inl true => dependency_error rest
      end
  end.

Definition ACLWasmDependency_AnteHandle {MS B A} (next : AnteCtx MS B A → AnteTx → bool → outcome (AnteCtx MS B A * AnteTx * option Err))
    (x : AnteCtx MS B A) (tx : AnteTx) (simulate : bool) : outcome (AnteCtx MS B A * AnteTx * option Err) :=
  let* e := dependency_error (at_Msgs tx) in
  match e with
  | Some e => fail x tx e
  | None => next x tx simulate
  end.
End WasmDependency.

(** ** Transactions without fees (gasless.go) *)

Section Gasless.
Context `{BK : BankKeeper B} `{AK : AccountKeeper A} `{MST : MultiStore MS (World B A)}.
Notation AnteCtx := (AnteCtx MS B A).
Notation Handler := (AnteCtx → AnteTx → bool → outcome (AnteCtx * AnteTx * option Err)).

Definition evmAssociateIsGasless (sender : option AccAddress) (w : World B A) : outcome bool :=
  match sender with
  | None => Panic "decoding bech32 failed"
  | Some tabiAddr => Ret (negb (bool_decide (is_Some (GetEVMAddress w tabiAddr))))
  end.

(** The loop returns at the first message. *)
Definition IsTxGasless (msgs : SdkTx) (w : World B A) : outcome bool :=
  match msgs with
  | [] => Ret false
  | AssociateMsg sender :: _ =>
      let* gasless := evmAssociateIsGasless sender w in
      if negb gasless then Ret false else Ret (length msgs =? 1)%nat
  | _ :: _ => Ret false
  end.

(** The wrapped decorators run one after the other, each with an empty rest. *)
Fixpoint handleWrapped (wrapped : list (Handler → Handler)) (next : Handler) (x : AnteCtx) (tx : AnteTx) (simulate : bool)
    : outcome (AnteCtx * AnteTx * option Err) :=
  match wrapped with
  | [] => next x tx simulate
  | h :: rest =>
      let* r := h ante_end x tx simulate in
      match r with
      | (x', tx', Some e) => fail x' tx' e
      | (x', tx', None) => handleWrapped rest next x' tx' simulate
      end
  end.

Definition Gasless_AnteHandle (wrapped : list (Handler → Handler)) (next : Handler) : Handler := λ x tx simulate,
  let originalGasMeter := ax_GasMeter x in
  let x1 := with_gas None (ax_GasEstimate x) x in
  let* isGasless := IsTxGasless (at_Msgs tx) (cview (ax_ctx x)) in
  let x2 := if isGasless then x1 else with_gas originalGasMeter (ax_GasEstimate x) x1 in
  let isDeliverTx := is_deliver x2 && negb simulate in
  if isDeliverTx || negb isGasless then handleWrapped wrapped next x2 tx simulate else next x2 tx simulate.

End Gasless.

(** ** Prioritized transactions (prioritized_txs.go) *)

Definition maxNestedOracleMsgs : nat := 5.

Definition oracleMsgTypeURLs : list string :=
  ["/tabilabs.tabi.oracle.MsgAggregateExchangeRatePrevote"; "/tabilabs.tabi.oracle.MsgAggregateExchangeRateVote";
   "/tabilabs.tabi.oracle.MsgDelegateFeedConsent"; "/oracle.MsgAggregateExchangeRatePrevote";
   "/oracle.MsgAggregateExchangeRateVote"; "/oracle.MsgDelegateFeedConsent"]%string.

Definition isOracleTypeURL (typeURL : string) : bool :=
  if existsb (String.eqb typeURL) oracleMsgTypeURLs then true
  else let lower := ToLower typeURL in Contains lower ".oracle." || Contains lower "/oracle.".

Definition isOracleMsg (m : SdkMsg) : bool := isOracleTypeURL (MsgTypeURL m).

(** What the loop does with one message; of an [authz.MsgExec] that is not itself
    an oracle message, this is [containsOracleInAuthz] at the given level. *)
Fixpoint contains_oracle (nestedLvl : nat) (m : SdkMsg) : bool + Err :=
  if isOracleMsg m then inl true else
  match m with
  | ExecMsg o =>
      if (maxNestedOracleMsgs <=? nestedLvl)%nat then inl false else
      match o with
      | None => inr "messages contains unknown type"%string
      | Some msgs =>
          (fix loop (l : list SdkMsg) : bool + Err :=
             match l with
             | [] => inl false
             | m :: rest =>
                 match contains_oracle (S nestedLvl) m with
                 | inr e => inr e
                 | inl true => inl true
                 | inl false => loop rest
                 end
             end) msgs
      end
  | _ => inl false
  end.

Definition IsTxPrioritized (tx : option SdkTx) : bool :=
  match tx with
  | None => false
  | Some msgs => existsb (λ m, match contains_oracle 0 m with inl b => b | inr _ => false end) msgs
  end.

(** ** The block's transactions (app.go) *)

(** The transactions with their position in the block, the prioritized ones and
    the others, each in block order. *)
Fixpoint PartitionPrioritizedTxs {X : Type} (idx : nat) (txs : list (X * option AnteTx))
    : list (nat * (X * option AnteTx)) * list (nat * (X * option AnteTx)) :=
  match txs with
  | [] => ([], [])
  | t :: rest =>
      let '(prioritized, other) := PartitionPrioritizedTxs (S idx) rest in
      if IsTxPrioritized (at_Msgs <$> t.2) then ((idx, t) :: prioritized, other) else (prioritized, (idx, t) :: other)
  end.

Section BlockGas.
Context `{EC : EthCrypto} `{EH : EthHex} `{IL : IntLibs} `{ET : EthTransactions T} `{TC : TxCodec}.
Context `{BK : BankKeeper B} `{AK : AccountKeeper A}.

(** The message [EndBlock] looks at; a panic while looking gives none. *)
Definition GetEVMMsg (tx : option AnteTx) : option MsgEVMTransaction :=
  match tx with
  | None => None
  | Some t =>
      match GetEVMTransactionMessage (at_Msgs t) with
      | Some emsg => match IsAssociateTx emsg with Ret false => Some emsg | _ => None end
      | None => None
      end
  end.

(** The gas a transaction asks for; [None] for one that is not counted. *)
Definition gas_wanted (w : World B A) (tx : AnteTx) : outcome (option Z) :=
  let* isGasless := IsTxGasless (at_Msgs tx) w in
  if isGasless then Ret None else
  match IsEVMMessage (at_Msgs tx) with
  | inr _ => Ret None
  | inl true =>
      let* msg := MustGetEVMTransactionMessage (at_Msgs tx) in
      let* isAssociate := IsAssociateTx msg in
      if isAssociate then Ret None else
      let* txo := AsTransaction msg in
      match txo with
      | Some (etx, _) => Ret (Some (tx_Gas etx))
      | None => Panic nil_deref
      end
  | inl false => Ret (at_Gas tx)
  end.

(** The estimate is used when it is plausible. *)
Definition gas_counted (tx : AnteTx) (gasWanted : Z) : Z :=
  if (MinGasEVMTx <=? at_GasEstimate tx) && (at_GasEstimate tx <=? gasWanted) then at_GasEstimate tx else gasWanted.

(** The loop over the decoded transactions; the sums are 64-bit.  [limits] are
    [MaxGasWanted] and [MaxGas] of the consensus parameters, which may be nil. *)
Fixpoint block_gas_loop (w : World B A) (limits : option (Z * Z)) (txs : list AnteTx) (totalGas totalGasWanted : Z)
    : outcome bool :=
  match txs with
  | [] => Ret true
  | tx :: rest =>
      let* g := gas_wanted w tx in
      match g with
      | None => block_gas_loop w limits rest totalGas totalGasWanted
      | Some gasWanted =>
          if (i64 gasWanted <? 0) || (maxInt64 - i64 gasWanted <? i64 totalGas) then Ret false else
          let totalGasWanted := u64 (totalGasWanted + gasWanted) in
          let totalGas := u64 (totalGas + gas_counted tx gasWanted) in
          match limits with
          | None => Panic nil_deref
          | Some (maxGasWanted, maxGas) =>
              if u64 maxGasWanted <? totalGasWanted then Ret false else
              if u64 maxGas <? totalGas then Ret false else
              block_gas_loop w limits rest totalGas totalGasWanted
          end
      end
  end.

(** Transactions that cannot be decoded are skipped; a panic rejects the block. *)
Definition checkTotalBlockGas (w : World B A) (limits : option (Z * Z)) (txs : list (AnteTx + Err)) : bool :=
  match block_gas_loop w limits (omap (λ t, match t with inl tx => Some tx | inr _ => None end) txs) 0 0 with
  | Ret b => b
  | Panic _ => false
  end.

End BlockGas.

(** * Theorems *)

(** ** Nested messages *)

(** A message is free of EVM messages inside authz: everything inside can be
    read, nothing is nested too deep, and nothing inside is an EVM message. *)
Inductive evm_free : nat → SdkMsg → Prop :=
| free_exec lvl msgs :
    (lvl < maxNestedMsgs)%nat → Forall (evm_free (S lvl)) msgs → evm_free lvl (ExecMsg (Some msgs))
| free_associate lvl s : evm_free lvl (AssociateMsg s)
| free_dependency lvl f c : evm_free lvl (WasmDependencyMsg f c)
| free_other lvl u : evm_free lvl (OtherMsg u).

(** [m] is inside [outer], at some depth. *)
Inductive inside : SdkMsg → SdkMsg → Prop :=
| inside_here m msgs : m ∈ msgs → inside m (ExecMsg (Some msgs))
| inside_deeper m m' msgs : m' ∈ msgs → inside m m' → inside m (ExecMsg (Some msgs)).

(** Induction on messages with the hypothesis for the nested ones. *)
Lemma SdkMsg_nested_ind (P : SdkMsg → Prop) :
  (∀ m, P (EVMMsg m)) → (∀ s, P (AssociateMsg s)) → P (ExecMsg None) → (∀ l, Forall P l → P (ExecMsg (Some l))) →
  (∀ f c, P (WasmDependencyMsg f c)) → (∀ u, P (OtherMsg u)) → ∀ m, P m.
Proof.
  intros H1 H2 H3 H4 H5 H6. refine (fix go (m : SdkMsg) : P m := _).
  destruct m as [m|s|[l|]|f c|u]; [apply H1|apply H2| |exact H3|apply H5|apply H6].
  apply H4. induction l as [|m l IH]; constructor; [apply go|exact IH].
Qed.

Lemma contains_evm_free m lvl : contains_evm lvl m = inl false ↔ evm_free lvl m.
Proof.
  revert lvl. induction m as [m|s| |l IH|f c|u] using SdkMsg_nested_ind; intros lvl; cbn [contains_evm];
    try (split; [by constructor|done]); [split; [done|by inversion 1]| |].
  - destruct (maxNestedMsgs <=? lvl)%nat; (split; [done|by inversion 1]).
  - destruct (Nat.leb_spec maxNestedMsgs lvl) as [Hl|Hl].
    { split; [done|]. inversion 1. lia. }
    assert (Hloop : (fix loop (l : list SdkMsg) : bool + Err :=
      match l with
      | [] => inl false
      | m :: rest =>
          match contains_evm (S lvl) m with inr e => inr e | inl true => inl true | inl false => loop rest end
      end) l = inl false ↔ Forall (evm_free (S lvl)) l).
    { clear Hl. induction IH as [|m l Hm _ IHl]; [by split|]. rewrite Forall_cons, <- Hm, <- IHl.
      destruct (contains_evm (S lvl) m) as [[]|]; naive_solver. }
    rewrite Hloop. split; [by constructor|by inversion 1].
Qed.

Lemma evm_free_inside m lvl : evm_free lvl m → ∀ m', inside m' m → ∀ e, m' ≠ EVMMsg e.
Proof.
  intros Hf m' Hi. revert lvl Hf.
  induction Hi as [m' msgs Hin|m' m2 msgs Hin _ IH]; intros lvl Hf; inversion Hf as [? ? _ Hall| | |]; subst;
    rewrite Forall_forall in Hall; specialize (Hall _ Hin); [|by eapply IH].
  intros e ->. inversion Hall.
Qed.

Lemma authz_error_None (msgs : SdkTx) :
  authz_error msgs = None ↔ ∀ o, ExecMsg o ∈ msgs → evm_free 0 (ExecMsg o).
Proof.
  induction msgs as [|m msgs IH]; [split; [by intros _ ? ?%elem_of_nil|done]|].
  assert (Hcons : (∀ o, ExecMsg o ∈ m :: msgs → evm_free 0 (ExecMsg o)) ↔
    (∀ o, ExecMsg o = m → evm_free 0 (ExecMsg o)) ∧ (∀ o, ExecMsg o ∈ msgs → evm_free 0 (ExecMsg o))).
  { setoid_rewrite elem_of_cons. naive_solver. }
  rewrite Hcons, <- IH.
  destruct m as [m|s|o|f c|u]; cbn [authz_error]; try (split; [intros H; by split|by intros [_ ?]]).
  unfold CheckAuthzContainsEvm. destruct (contains_evm 0 (ExecMsg o)) as [[]|] eqn:E.
  - split; [done|]. intros [H _]. specialize (H o eq_refl). apply contains_evm_free in H. congruence.
  - apply contains_evm_free in E. split; [|by intros [_ ?]]. intros H. split; [by intros ? [= ->]|done].
  - split; [done|]. intros [H _]. specialize (H o eq_refl). apply contains_evm_free in H. congruence.
Qed.

(** No EVM message hides inside authz.  The decorator passes a transaction on
    exactly when every [authz.MsgExec] of it can be read to the bottom, nests at
    most five deep and has no EVM message in it; so of a transaction that is
    passed on, no message at any depth inside an [authz.MsgExec] is an EVM
    message. *)
Theorem authz_hides_no_evm (msgs : SdkTx) :
  (authz_error msgs = None ↔ ∀ o, ExecMsg o ∈ msgs → evm_free 0 (ExecMsg o)) ∧
  (authz_error msgs = None → ∀ o m e, ExecMsg o ∈ msgs → inside m (ExecMsg o) → m ≠ EVMMsg e).
Proof.
  split; [apply authz_error_None|]. intros H o m e Ho Hi. rewrite authz_error_None in H.
  by eapply evm_free_inside; [apply H|].
Qed.

(** ** Wasm dependencies *)

Section WasmDependencyTheorems.
Variable contract_admin : AccAddress → option string.

(** Registered by the admin of the contract. *)
Definition by_admin (from : string) (contract : AccAddress + Err) : Prop :=
  ∃ addr, contract = inl addr ∧ contract_admin addr = Some from.

(** Everything in a message can be read, and every registration in it is by the
    admin. *)
Inductive admin_only : SdkMsg → Prop :=
| admin_exec msgs : Forall admin_only msgs → admin_only (ExecMsg (Some msgs))
| admin_dependency f c : by_admin f c → admin_only (WasmDependencyMsg f c)
| admin_evm m : admin_only (EVMMsg m)
| admin_associate s : admin_only (AssociateMsg s)
| admin_other u : admin_only (OtherMsg u).

Lemma SenderMatchesContractAdmin_iff f c : SenderMatchesContractAdmin contract_admin f c = Ret (inl true) ↔ by_admin f c.
Proof.
  unfold SenderMatchesContractAdmin, by_admin. destruct c as [addr|]; [|split; [done|by intros (? & ? & _)]].
  destruct (contract_admin addr) as [admin|] eqn:E; [|split; [done|intros (? & [= <-] & ?); congruence]].
  destruct (String.eqb_spec admin f) as [->|Hne].
  - split; [|done]. intros _. by exists addr.
  - split; [done|]. intros (? & [= <-] & ?). congruence.
Qed.

Lemma dependency_valid_iff m : dependency_valid contract_admin m = Ret (inl true) ↔ admin_only m.
Proof.
  induction m as [m|s| |l IH|f c|u] using SdkMsg_nested_ind; cbn [dependency_valid];
    try (split; [by constructor|done]); [split; [done|by inversion 1]| |].
  - assert (Hloop : (fix loop (l : list SdkMsg) : outcome (bool + Err) :=
      match l with
      | [] => Ret (inl true)
      | m :: rest => match dependency_valid contract_admin m with Ret (inl true) => loop rest | stop => stop end
      end) l = Ret (inl true) ↔ Forall admin_only l).
    { induction IH as [|m l Hm _ IHl]; [by split|]. rewrite Forall_cons, <- Hm, <- IHl.
      destruct (dependency_valid contract_admin m) as [[[]|]|]; naive_solver. }
    rewrite Hloop. split; [by constructor|by inversion 1].
  - rewrite SenderMatchesContractAdmin_iff. split; [by constructor|by inversion 1].
Qed.

Lemma admin_only_inside m : admin_only m → ∀ m', inside m' m → admin_only m'.
Proof.
  intros Hf m' Hi. revert Hf.
  induction Hi as [m' msgs Hin|m' m2 msgs Hin _ IH]; inversion 1 as [? Hall| | | |]; subst;
    rewrite Forall_forall in Hall; specialize (Hall _ Hin); auto.
Qed.

Lemma dependency_error_None (msgs : SdkTx) : dependency_error contract_admin msgs = Ret None ↔ Forall admin_only msgs.
Proof.
  induction msgs as [|m msgs IH]; [by split|]. cbn [dependency_error]. rewrite Forall_cons, <- dependency_valid_iff, <- IH.
  destruct (dependency_valid contract_admin m) as [[[]|]|]; simpl; naive_solver.
Qed.

(** Only the admin of a contract registers its dependencies.  The decorator
    runs the next one exactly when every message can be read to the bottom and
    every registration in it is by the admin; so of a transaction it passes on,
    no registration at any depth inside an [authz.MsgExec] is by another account. *)
Theorem dependency_by_admin {MS B A} (x : AnteCtx MS B A) (tx : AnteTx) (simulate : bool) :
  (ACLWasmDependency_AnteHandle contract_admin (λ x' tx' _, Ret (x', tx', None)) x tx simulate = Ret (x, tx, None) ↔
    Forall admin_only (at_Msgs tx)) ∧
  (Forall admin_only (at_Msgs tx) → ∀ m f c, m ∈ at_Msgs tx →
    WasmDependencyMsg f c = m ∨ inside (WasmDependencyMsg f c) m → by_admin f c).
Proof.
  split.
  - rewrite <- dependency_error_None. unfold ACLWasmDependency_AnteHandle, fail.
    destruct (dependency_error _ _) as [[e|]|]; naive_solver.
  - intros Hall m f c Hm Hin. rewrite Forall_forall in Hall. specialize (Hall _ Hm).
    assert (admin_only (WasmDependencyMsg f c)) as Ha by (destruct Hin as [<-|Hin]; [done|by eapply admin_only_inside]).
    by inversion Ha.
Qed.

End WasmDependencyTheorems.

(** ** Transactions without fees *)

Section GaslessTheorems.
Context `{BK : BankKeeper B} `{AK : AccountKeeper A} `{MST : MultiStore MS (World B A)}.
Notation Handler := (AnteCtx MS B A → AnteTx → bool → outcome (AnteCtx MS B A * AnteTx * option Err)).

(** Only an association is free of fees.  A transaction is gasless exactly
    when it is one [MsgAssociate] of an account without an association; and the
    decorator skips the fee decorators it wraps only for a gasless transaction
    that is not being delivered. *)
Theorem gasless_only_associate (wrapped : list (Handler → Handler)) (next : Handler) (x : AnteCtx MS B A) (tx : AnteTx) (simulate : bool) :
  (∀ w : World B A, IsTxGasless (at_Msgs tx) w = Ret true ↔ ∃ a, at_Msgs tx = [AssociateMsg (Some a)] ∧ GetEVMAddress w a = None) ∧
  (IsTxGasless (at_Msgs tx) (cview (ax_ctx x)) ≠ Ret true ∨ (is_deliver x = true ∧ simulate = false) →
    is_ret (IsTxGasless (at_Msgs tx) (cview (ax_ctx x))) = true →
    ∃ meter, Gasless_AnteHandle wrapped next x tx simulate =
      handleWrapped wrapped next (with_gas meter (ax_GasEstimate x) x) tx simulate).
Proof.
  split.
  - intros w. unfold IsTxGasless. destruct (at_Msgs tx) as [|[m|[a|]|o|f c|u] rest]; try (split; [done|by intros (? & ? & _)]).
    cbn [evmAssociateIsGasless outcome_bind]. destruct (GetEVMAddress w a) as [e|] eqn:E.
    + rewrite bool_decide_true by (by eexists). split; [done|]. intros (a' & [= -> ->] & H). congruence.
    + rewrite bool_decide_false by (by intros [? ?]). cbn [negb]. destruct rest; [|split; [done|by intros (? & ? & _)]].
      split; [|done]. intros _. by exists a.
  - intros Hor Hret. unfold Gasless_AnteHandle. destruct (IsTxGasless _ _) as [g|]; [|done]. cbn [outcome_bind].
    destruct g; cbn [negb].
    + destruct Hor as [?|[Hd ->]]; [done|]. exists None.
      change (is_deliver (with_gas None (ax_GasEstimate x) x)) with (is_deliver x). by rewrite Hd.
    + exists (ax_GasMeter x). by rewrite orb_true_r.
Qed.

End GaslessTheorems.

(** ** The partition *)

(** The positions of the two parts. *)
Lemma partition_spec {X : Type} (txs : list (X * option AnteTx)) (idx : nat) :
  let r := PartitionPrioritizedTxs idx txs in
  (r.1 ++ r.2 ≡ₚ imap (λ i t, ((idx + i)%nat, t)) txs) ∧
  Forall (λ e, IsTxPrioritized (at_Msgs <$> e.2.2) = true) r.1 ∧ Forall (λ e, IsTxPrioritized (at_Msgs <$> e.2.2) = false) r.2 ∧
  StronglySorted lt (fst <$> r.1) ∧ StronglySorted lt (fst <$> r.2) ∧
  Forall (λ e, (idx ≤ e.1)%nat) r.1 ∧ Forall (λ e, (idx ≤ e.1)%nat) r.2.
Proof.
  revert idx. induction txs as [|t txs IH]; intros idx; cbn [PartitionPrioritizedTxs].
  { split_and!; by constructor. }
  specialize (IH (S idx)). cbv zeta in *. destruct (PartitionPrioritizedTxs (S idx) txs) as [p o]. cbn [fst snd] in *.
  destruct IH as (H1 & H2 & H3 & H4 & H5 & H6 & H7).
  assert (Hmap : imap (λ i t, ((idx + i)%nat, t)) (t :: txs) = (idx, t) :: imap (λ i t, ((S idx + i)%nat, t)) txs).
  { cbn [imap]. f_equal; [f_equal; lia|]. apply imap_ext. intros i y _. simpl. f_equal. lia. }
  assert (Hlow : ∀ l, Forall (λ e : nat * (X * option AnteTx), (S idx ≤ e.1)%nat) l →
    Forall (lt idx) (fst <$> l) ∧ Forall (λ e, (idx ≤ e.1)%nat) l).
  { intros l Hl. split; [apply Forall_fmap|]; eapply Forall_impl; try exact Hl; simpl; lia. }
  destruct (Hlow p H6) as [Hp1 Hp2], (Hlow o H7) as [Ho1 Ho2]. rewrite Hmap.
  destruct (IsTxPrioritized (at_Msgs <$> t.2)) eqn:E; cbn [fst snd app fmap list_fmap].
  - split_and!; try done; [by constructor|by constructor|by constructor|by constructor].
  - split_and!; try done; [|by constructor|by constructor|by constructor].
    rewrite <- H1. symmetry. apply Permutation_middle.
Qed.

(** The partition of a block loses, duplicates and reorders nothing.  The two
    parts together are the block's transactions with their positions; the first
    holds the prioritized ones and the second the others, each in block order. *)
Theorem PartitionPrioritizedTxs_stable {X : Type} (txs : list (X * option AnteTx)) :
  let r := PartitionPrioritizedTxs 0 txs in
  (r.1 ++ r.2 ≡ₚ imap (λ i t, (i, t)) txs) ∧
  Forall (λ e, IsTxPrioritized (at_Msgs <$> e.2.2) = true) r.1 ∧ Forall (λ e, IsTxPrioritized (at_Msgs <$> e.2.2) = false) r.2 ∧
  StronglySorted lt (fst <$> r.1) ∧ StronglySorted lt (fst <$> r.2).
Proof. destruct (partition_spec txs 0) as (H1 & H2 & H3 & H4 & H5 & _). cbv zeta. by split_and!. Qed.

(** ** The gas of a block *)

Section BlockGasTheorems.
Context `{EC : EthCrypto} `{EH : EthHex} `{IL : IntLibs} `{ET : EthTransactions T} `{TC : TxCodec}.
Context `{BK : BankKeeper B} `{AK : AccountKeeper A}.

(** The transactions that are counted, with the gas they ask for. *)
Definition counted (w : World B A) (txs : list AnteTx) : list (AnteTx * Z) :=
  omap (λ tx, match gas_wanted w tx with Ret (Some g) => Some (tx, g) | _ => None end) txs.
Definition sum_wanted (l : list (AnteTx * Z)) : Z := foldr (λ e acc, e.2 + acc) 0 l.
Definition sum_counted (l : list (AnteTx * Z)) : Z := foldr (λ e acc, gas_counted e.1 e.2 + acc) 0 l.

(** Gas and estimates are unsigned 64-bit numbers. *)
Definition gas_in_range (e : AnteTx * Z) : Prop := is_u64 e.2 ∧ is_u64 (at_GasEstimate e.1).

Lemma gas_counted_range e : gas_in_range e → 0 ≤ gas_counted e.1 e.2 ≤ e.2.
Proof.
  intros [H1 H2]. unfold gas_counted, is_u64 in *. destruct (_ && _) eqn:E; [|lia].
  apply andb_true_iff in E as [_ E%Z.leb_le]. lia.
Qed.

Lemma sums_nonneg l : Forall gas_in_range l → 0 ≤ sum_wanted l ∧ 0 ≤ sum_counted l ≤ sum_wanted l.
Proof.
  induction 1 as [|e l He _ IH]; simpl; [lia|]. pose proof (gas_counted_range e He). lia.
Qed.

Lemma i64_small z : 0 ≤ z ≤ maxInt64 → i64 z = z.
Proof. intros H. unfold i64. rewrite Z.mod_small by (unfold maxInt64, two64 in *; lia). by rewrite bool_decide_true by lia. Qed.
Lemma i64_large z : is_u64 z → maxInt64 < z → i64 z < 0.
Proof. intros [H1 H2] H. unfold i64. rewrite Z.mod_small by done. rewrite bool_decide_false by lia. lia. Qed.
Lemma u64_small z : 0 ≤ z ≤ maxInt64 + maxInt64 → u64 z = z.
Proof. intros H. apply Z.mod_small. unfold maxInt64, two64 in *. lia. Qed.

Lemma block_gas_loop_run (w : World B A) mw mg (txs : list AnteTx) tg tw :
  Forall (λ tx, is_ret (gas_wanted w tx) = true) txs → Forall gas_in_range (counted w txs) →
  0 ≤ tg ≤ tw → tw ≤ mw → tg ≤ mg → mw ≤ maxInt64 → mg ≤ maxInt64 →
  block_gas_loop w (Some (mw, mg)) txs tg tw =
  Ret (bool_decide (tw + sum_wanted (counted w txs) ≤ mw ∧ tg + sum_counted (counted w txs) ≤ mg)).
Proof.
  intros Hret. revert tg tw. induction Hret as [|tx txs Htx Hret IH]; intros tg tw Hr Ht1 Ht2 Ht3 Hm1 Hm2.
  { simpl. by rewrite bool_decide_true by (simpl; lia). }
  cbn [block_gas_loop]. unfold counted in *. cbn [omap list_omap] in *.
  destruct (gas_wanted w tx) as [[g|]|]; [|by apply IH|done]. cbn [outcome_bind].
  apply Forall_cons in Hr as [[Hg He] Hr]. cbn [fst snd] in *. cbn [sum_wanted sum_counted foldr fst snd].
  pose proof (sums_nonneg _ Hr) as Hs. pose proof (gas_counted_range (tx, g) (conj Hg He)) as Hc. cbn [fst snd] in Hc.
  fold (sum_wanted (omap (λ tx, match gas_wanted w tx with Ret (Some g) => Some (tx, g) | _ => None end) txs)).
  fold (sum_counted (omap (λ tx, match gas_wanted w tx with Ret (Some g) => Some (tx, g) | _ => None end) txs)).
  set (l := omap _ txs) in *.
  assert (Hsmall : tw + g ≤ mw → i64 g = g ∧ u64 (tw + g) = tw + g ∧ u64 (tg + gas_counted tx g) = tg + gas_counted tx g).
  { intros H. unfold is_u64 in Hg. split_and!; [apply i64_small|apply u64_small|apply u64_small]; unfold maxInt64 in *; lia. }
  rewrite (i64_small tg) by lia. rewrite (u64_small mw), (u64_small mg) by (unfold maxInt64 in *; lia).
  destruct (Z.leb_spec (tw + g) mw) as [Hfit|Hbig].
  - destruct (Hsmall Hfit) as (-> & -> & ->). destruct Hg as [Hg0 _].
    destruct (Z.ltb_spec g 0); [lia|]. destruct (Z.ltb_spec (maxInt64 - g) tg); [lia|]. cbn [orb].
    destruct (Z.ltb_spec mw (tw + g)); [lia|].
    destruct (Z.ltb_spec mg (tg + gas_counted tx g)); [by rewrite bool_decide_false by lia|].
    rewrite IH by (done || lia). f_equal. apply bool_decide_ext. lia.
  - rewrite bool_decide_false by lia. destruct (Z.leb_spec g maxInt64) as [Hle|Hgt].
    + destruct Hg as [Hg0 _]. rewrite (i64_small g) by lia. destruct (_ || _); [done|].
      rewrite (u64_small (tw + g)) by (unfold maxInt64 in *; lia). by destruct (Z.ltb_spec mw (tw + g)); [|lia].
    + pose proof (i64_large g Hg Hgt). by destruct (Z.ltb_spec (i64 g) 0); [|lia].
Qed.

(** A proposed block is accepted exactly when its gas fits.  When no
    transaction makes the check panic, the check accepts a block exactly when the
    gas its transactions ask for is within [MaxGasWanted] and the gas they are
    expected to use within [MaxGas]; the sums are those of unbounded integers, so
    no overflow of the 64-bit counters lets a block through or keeps one out. *)
Theorem checkTotalBlockGas_exact (w : World B A) (maxGasWanted maxGas : Z) (txs : list (AnteTx + Err)) :
  let decoded := omap (λ t, match t with inl tx => Some tx | inr _ => None end) txs in
  0 ≤ maxGasWanted ≤ maxInt64 → 0 ≤ maxGas ≤ maxInt64 →
  Forall (λ tx, is_ret (gas_wanted w tx) = true) decoded → Forall gas_in_range (counted w decoded) →
  checkTotalBlockGas w (Some (maxGasWanted, maxGas)) txs = true ↔
  sum_wanted (counted w decoded) ≤ maxGasWanted ∧ sum_counted (counted w decoded) ≤ maxGas.
Proof.
  cbv zeta. intros H1 H2 H3 H4. unfold checkTotalBlockGas. rewrite block_gas_loop_run by (done || lia).
  by rewrite bool_decide_eq_true, !Z.add_0_l.
Qed.

End BlockGasTheorems.

(** * Examples *)

Section AppTxExamples.
#[local] Existing Instances demo_crypto plain_hex strict_ints plain_transactions no_codec.
#[local] Existing Instances demo_bank_keeper demo_accounts.

(** Two transactions of another module, one with a plausible estimate, and one
    that cannot be decoded. *)
Definition demo_block_txs : list (AnteTx + Err) :=
  [inl (mkAnteTx [OtherMsg "/cosmos.bank.v1beta1.MsgSend"] 0 [] (Some 100000)); inr "tx parse error"%string;
   inl (mkAnteTx [OtherMsg "/cosmos.bank.v1beta1.MsgSend"] 30000 [] (Some 80000))].

Lemma checkTotalBlockGas_exact_witness :
  checkTotalBlockGas demo_world0 (Some (200000, 130000)) demo_block_txs = true ∧
  checkTotalBlockGas demo_world0 (Some (200000, 129999)) demo_block_txs = false.
Proof.
  split; [|reflexivity].
  apply (checkTotalBlockGas_exact demo_world0 200000 130000 demo_block_txs).
  - unfold maxInt64. lia.
  - unfold maxInt64. lia.
  - repeat constructor.
  - repeat constructor; vm_compute; congruence.
  - vm_compute. split; discriminate.
Defined.

End AppTxExamples.
