(* ===== verification/Ledger.v ===== *)
(** * The ledger of a block

    What the transactions of a block leave for its end: the fee surplus of the
    ante handler under the hash of each transaction, and a deferred record under
    its index.  A step of the block is [ledger_step] when the wei it took out of
    the bank are recorded, and [ledger_move] when it also made or destroyed some.
    Whatever the order of the steps, the records at the end of the block hold exactly
    what the bank lost since its beginning and nobody destroyed, and EndBlock credits
    it back. *)

From S2P Require Import Prelude Bytes Dec Store Params Keys World Keeper StateDB Snapshots Supply Finalize.
From S2P Require Import Fee Eth EthTx Msg Block Receipts Tx Instances.
Local Open Scope Z_scope.

(** ** The surplus of the ante handler *)

Section AnteSum.
Context `{CD : Codec} `{CL : !CodecLaws}.

Lemma sum_ints_acc l a z : sum_ints l (a + z) = outcome_bind (sum_ints l a) (λ n, Ret (n + z)).
Proof.
  revert a. induction l as [|e l IH]; intros a; simpl; [done|]. destruct (Int_Unmarshal e.2) as [s|]; [|done].
  rewrite <- IH. f_equal. lia.
Qed.

Lemma sum_ints_perm l l' a : l ≡ₚ l' → sum_ints l a = sum_ints l' a.
Proof.
  intros H. revert a. induction H as [|e l l' _ IH|e1 e2 l|l1 l2 l3 _ IH1 _ IH2]; intros a; simpl.
  - done.
  - destruct (Int_Unmarshal e.2); [apply IH|done].
  - destruct (Int_Unmarshal e1.2), (Int_Unmarshal e2.2); try done. f_equal. lia.
  - by rewrite IH1.
Qed.

Lemma sum_ints_insert (m : kvstore) k z n a :
  m !! k = None → sum_ints (Iterator m) a = Ret n → sum_ints (Iterator (<[k := Int_Marshal z]> m)) a = Ret (n + z).
Proof.
  intros Hk H. rewrite (sum_ints_perm _ ((k, Int_Marshal z) :: Iterator m)).
  - simpl. rewrite Int_codec, sum_ints_acc, H. done.
  - unfold Iterator. rewrite !merge_sort_Permutation. by rewrite map_to_list_insert.
Qed.

Lemma prefix_store_set (p k v : bytes) (m : kvstore) :
  prefix_store p (prefix_set p k v m) = <[k := v]> (prefix_store p m).
Proof.
  apply map_eq. intros j. rewrite lookup_prefix_store. unfold prefix_set.
  destruct (decide (j = k)) as [->|Hne]; [by rewrite !lookup_insert_eq|].
  rewrite !lookup_insert_ne by (done || intros ?%app_inv_head; congruence). by rewrite lookup_prefix_store.
Qed.

Lemma prefix_store_ext (p : bytes) (m m' : kvstore) :
  (∀ k, m' !! (p ++ k) = m !! (p ++ k)) → prefix_store p m' = prefix_store p m.
Proof. intros H. apply map_eq. intros j. rewrite !lookup_prefix_store. apply H. Qed.

End AnteSum.

(** ** Steps of a block *)

Section Ledger.
Context `{BK : BankKeeper B} `{AK : AccountKeeper A} `{EC : EthCrypto} `{KC : KeeperConfig}.
Context `{MST : MultiStore MS (World B A)} `{MSL : !MultiStoreLaws MS (World B A)} `{SD : SdkDec} `{CD : Codec} `{CL : !CodecLaws}.
Context `{EH : EthHex}.
Notation World := (World B A).
Notation Ctx := (Ctx MS).

Definition total (c : Ctx) : Z := bk_total (w_bank (cview c)).
Definition ante_store (c : Ctx) : kvstore := prefix_store AnteSurplusPrefix (w_transient (cview c)).
Definition record_at (j : Z) (c : Ctx) : option bytes := w_transient (cview c) !! deferred_key j.
Definition surplus_at (j : Z) (c : Ctx) : Z := recorded_surplus j (cview c).

(** A record EndBlock can settle as that of a transaction that ran. *)
Definition good_record (info : DeferredInfo) : Prop :=
  is_Some (di_Surplus info) ∧ di_Error info = ""%string ∧ (length (di_TxBloom info) ≤ 256)%nat.
Definition recorded (j : Z) (c : Ctx) : Prop := ∃ info, GetEVMTxDeferredInfo j (cview c) = Some info ∧ good_record info.

(** The delivery of the transaction at index [i]: the surplus [fee] of the ante
    handler and the surplus of the record account for what the bank lost, but for
    what the delivery made out of nothing. *)
Record ledger_move (i : Z) (fee : option (Hash * Z)) (made : Z) (c c' : Ctx) : Prop := {
  ls_ante : ante_store c' = match fee with Some (h, sp) => <[ba h := Int_Marshal sp]> (ante_store c) | None => ante_store c end;
  ls_others : ∀ j, is_u64 j → j ≠ i → record_at j c' = record_at j c;
  ls_record : record_at i c' = record_at i c ∨ recorded i c';
  ls_total : total c' + from_option snd 0 fee + surplus_at i c' = total c + surplus_at i c + made
}.
Definition ledger_step (i : Z) (fee : option (Hash * Z)) : Ctx → Ctx → Prop := ledger_move i fee 0.

(** What happens between the transactions. *)
Definition quiet (c c' : Ctx) : Prop := total c' = total c ∧ w_transient (cview c') = w_transient (cview c).

(** Two contexts with the same record have the same surplus. *)
Lemma surplus_at_ext j (c c' : Ctx) : record_at j c' = record_at j c → surplus_at j c' = surplus_at j c.
Proof. unfold record_at, surplus_at, recorded_surplus, GetEVMTxDeferredInfo, deferred_key. by intros ->. Qed.
Lemma recorded_ext j (c c' : Ctx) : record_at j c' = record_at j c → recorded j c → recorded j c'.
Proof. unfold recorded, record_at, GetEVMTxDeferredInfo, deferred_key. by intros ->. Qed.

Lemma quiet_step i (c c' : Ctx) : quiet c c' → ledger_step i None c c'.
Proof.
  intros [Ht Hw]. assert (Hrec : ∀ j, record_at j c' = record_at j c) by (intros j; unfold record_at; by rewrite Hw).
  split; [unfold ante_store; by rewrite Hw|intros; apply Hrec|left; apply Hrec|]. simpl.
  rewrite Ht, (surplus_at_ext i c c') by apply Hrec. lia.
Qed.

Lemma ledger_step_trans i fee (c c1 c' : Ctx) : ledger_step i fee c c1 → ledger_step i None c1 c' → ledger_step i fee c c'.
Proof.
  intros [S1 S2 S3 S4] [R1 R2 R3 R4]. split.
  - by rewrite R1.
  - intros j Hj Hne. by rewrite R2, S2.
  - destruct R3 as [R3|?]; [|by right]. destruct S3 as [S3|S3]; [left; congruence|right; by eapply recorded_ext].
  - simpl in R4. lia.
Qed.

Lemma quiet_then_move i fee made (c c1 c' : Ctx) : quiet c c1 → ledger_move i fee made c1 c' → ledger_move i fee made c c'.
Proof.
  intros [Ht Hw] [S1 S2 S3 S4].
  assert (Hrec : ∀ j, record_at j c1 = record_at j c) by (intros j; unfold record_at; by rewrite Hw).
  assert (Ha : ante_store c1 = ante_store c) by (unfold ante_store; by rewrite Hw).
  split; [by rewrite <- Ha|intros; rewrite S2, Hrec; done|by rewrite <- Hrec|].
  rewrite <- (surplus_at_ext i c c1) by apply Hrec. lia.
Qed.
Lemma quiet_then_step i fee (c c1 c' : Ctx) : quiet c c1 → ledger_step i fee c1 c' → ledger_step i fee c c'.
Proof. apply quiet_then_move. Qed.

Definition fees (l : list (Z * option (Hash * Z))) : Z := foldr (λ e acc, from_option snd 0 e.2 + acc) 0 l.
Definition fee_hashes (l : list (Z * option (Hash * Z))) : list Hash := omap (λ e, fst <$> e.2) l.
Definition surpluses (js : list Z) (c : Ctx) : Z := foldr (λ j acc, surplus_at j c + acc) 0 js.

(** At the beginning of a block the transient store holds no surplus. *)
Definition clean (c : Ctx) : Prop := ante_store c = ∅ ∧ ∀ j, is_u64 j → record_at j c = None.

(** The state of the books after the transactions of [l], when [made] wei were made
    out of nothing since [c0]. *)
Record books (c0 : Ctx) (made : Z) (l : list (Z * option (Hash * Z))) (c : Ctx) : Prop := {
  bk_sum : GetAnteSurplusSum (cview c) = Ret (fees l);
  bk_hashes : ∀ k, is_Some (ante_store c !! k) → ∃ h, h ∈ fee_hashes l ∧ k = ba h;
  bk_none : ∀ j, is_u64 j → j ∉ l.*1 → record_at j c = None;
  bk_good : ∀ j, j ∈ l.*1 → record_at j c = None ∨ recorded j c;
  bk_balance : total c + fees l + surpluses l.*1 c = total c0 + made
}.

Lemma fees_app l l' : fees (l ++ l') = fees l + fees l'.
Proof. induction l as [|e l IH]; simpl; [done|]. lia. Qed.
Lemma surpluses_app js js' c : surpluses (js ++ js') c = surpluses js c + surpluses js' c.
Proof. induction js as [|j js IH]; simpl; [done|]. lia. Qed.
Lemma surpluses_perm js js' c : js ≡ₚ js' → surpluses js c = surpluses js' c.
Proof. induction 1; simpl; lia. Qed.

Lemma surpluses_ext js (c c' : Ctx) : Forall (λ j, record_at j c' = record_at j c) js → surpluses js c' = surpluses js c.
Proof. induction 1 as [|j js Hj _ IH]; simpl; [done|]. rewrite IH, (surplus_at_ext j c c') by done. done. Qed.
Lemma surplus_at_None j (c : Ctx) : record_at j c = None → surplus_at j c = 0.
Proof. unfold record_at, surplus_at, recorded_surplus, GetEVMTxDeferredInfo, deferred_key. by intros ->. Qed.

Lemma books_start (c : Ctx) : clean c → books c 0 [] c.
Proof.
  intros [Ha Hr]. split; simpl.
  - unfold GetAnteSurplusSum. fold (ante_store c). rewrite Ha. unfold Iterator. by rewrite map_to_list_empty.
  - intros k [v Hv]. by rewrite Ha, lookup_empty in Hv.
  - intros j Hj _. by apply Hr.
  - by intros j ?%elem_of_nil.
  - lia.
Qed.

(** What others do to the bank. *)
Lemma books_foreign c0 made l (c c' : Ctx) :
  books c0 made l c → w_transient (cview c') = w_transient (cview c) → books c0 (made + (total c' - total c)) l c'.
Proof.
  intros [H1 H2 H3 H4 H5] Hw.
  assert (Hrec : ∀ j, record_at j c' = record_at j c) by (intros j; unfold record_at; by rewrite Hw).
  split.
  - unfold GetAnteSurplusSum in *. by rewrite Hw.
  - unfold ante_store in *. by rewrite Hw.
  - intros j Hj Hn. rewrite Hrec. by apply H3.
  - intros j Hj. rewrite Hrec. destruct (H4 j Hj) as [?|Hg]; [by left|right]. eapply recorded_ext; [apply Hrec|done].
  - rewrite (surpluses_ext _ c c') by (apply Forall_forall; intros; apply Hrec). lia.
Qed.

Lemma books_step c0 made l i fee d (c c' : Ctx) :
  books c0 made l c → ledger_move i fee d c c' → is_u64 i → Forall is_u64 l.*1 → i ∉ l.*1 →
  (∀ h sp, fee = Some (h, sp) → h ∉ fee_hashes l) → books c0 (made + d) (l ++ [(i, fee)]) c'.
Proof.
  intros [H1 H2 H3 H4 H5] [S1 S2 S3 S4] Hi Hl Hnew Hfresh. rewrite Forall_forall in Hl.
  assert (Hold : ∀ j, j ∈ l.*1 → record_at j c' = record_at j c).
  { intros j Hj. apply S2; [by apply Hl|]. by intros ->. }
  assert (Hfst : (l ++ [(i, fee)]).*1 = l.*1 ++ [i]) by (by rewrite fmap_app).
  assert (Hi0 : surplus_at i c = 0) by (apply surplus_at_None, H3; done).
  split.
  - rewrite fees_app. simpl. rewrite Z.add_0_r. unfold GetAnteSurplusSum in *. fold (ante_store c) in H1. fold (ante_store c').
    rewrite S1. destruct fee as [[h sp]|]; simpl; [|by rewrite Z.add_0_r]. apply sum_ints_insert; [|done].
    destruct (ante_store c !! ba h) eqn:E; [|done]. destruct (H2 (ba h)) as (h' & Hin & Heq); [by eexists|].
    apply ba_inj in Heq. subst h'. by destruct (Hfresh h sp eq_refl).
  - intros k [v Hv]. rewrite S1 in Hv. unfold fee_hashes. rewrite omap_app. setoid_rewrite elem_of_app.
    destruct fee as [[h sp]|]; simpl; [|destruct (H2 k) as (h' & ? & ?); [by eexists|]; exists h'; auto].
    destruct (decide (k = ba h)) as [->|Hne]; [exists h; split; [right; by apply list_elem_of_singleton|done]|].
    rewrite lookup_insert_ne in Hv by done. destruct (H2 k) as (h' & ? & ?); [by eexists|]. exists h'; auto.
  - intros j Hj. rewrite Hfst, elem_of_app, list_elem_of_singleton. intros Hn.
    rewrite S2 by naive_solver. apply H3; naive_solver.
  - intros j. rewrite Hfst, elem_of_app, list_elem_of_singleton. intros [Hj| ->].
    + rewrite (Hold j Hj). destruct (H4 j Hj) as [?|Hg]; [by left|right]. eapply recorded_ext; [by apply Hold|done].
    + destruct S3 as [->|Hg]; [left; by apply H3|by right].
  - rewrite fees_app, Hfst, surpluses_app. simpl.
    rewrite (surpluses_ext l.*1 c c') by (by apply Forall_forall). lia.
Qed.

(** ** Reading the records at the end of the block *)

(** A transaction without a record, if it is an EVM transaction, failed with a
    log and has a hash. *)
Definition explained (j : Z) (m : option EvmMsg) (res : ExecTxResult) (c : Ctx) : Prop :=
  record_at j c = None → ∀ e, m = Some e →
    tr_Log res ≠ ""%string ∧ ∃ h, msg_txHash e = Some h ∧ BytesToHash (ba h) ≠ EmptyTxsHash.

Lemma deferred_from_read (c : Ctx) (msgs : list (option EvmMsg * ExecTxResult)) pre i :
  i = Z.of_nat (length pre) →
  (∀ k m res, msgs !! k = Some (m, res) → let j := i + Z.of_nat k in
    (record_at j c = None ∨ recorded j c) ∧ explained j m res c) →
  ∃ infos, deferred_from (cview c) i (fst <$> msgs) (snd <$> pre ++ msgs) = Ret infos ∧
    Forall settleable infos ∧ Forall (λ x, length (di_TxBloom x) ≤ 256)%nat infos ∧
    ran_surplus infos = surpluses ((λ k, i + Z.of_nat k) <$> seq 0 (length msgs)) c.
Proof.
  revert pre i. induction msgs as [|[m res] msgs IH]; intros pre i Hi Hall; [by exists []|].
  destruct (IH (pre ++ [(m, res)]) (i + 1)) as (infos & Hrun & Hs & Hb & Hsum).
  { rewrite length_app. simpl. lia. }
  { intros k m' res' Hk. specialize (Hall (S k) m' res' Hk). cbv zeta in *.
    by replace (i + 1 + Z.of_nat k) with (i + Z.of_nat (S k)) by lia. }
  destruct (Hall 0%nat m res eq_refl) as [Hrec Hexp]. cbv zeta in Hrec, Hexp. rewrite Z.add_0_r in Hrec, Hexp.
  assert (∃ l, deferred_of (cview c) i m (snd <$> pre ++ (m, res) :: msgs) = Ret l ∧ Forall settleable l ∧
    Forall (λ x, length (di_TxBloom x) ≤ 256)%nat l ∧ ran_surplus l = surplus_at i c) as (l & Hl & Hl1 & Hl2 & Hl3).
  { unfold deferred_of. rewrite list_lookup_fmap, Hi, Nat2Z.id, list_lookup_middle by done.
    cbn [fmap option_fmap option_map snd]. rewrite <- Hi. change (DeferredInfoPrefix ++ PutUint64 i) with (deferred_key i).
    fold (record_at i c). destruct Hrec as [Hnone|(info & Hget & Hg1 & Hg2 & Hg3)].
    - rewrite Hnone, (surplus_at_None _ _ Hnone). destruct m as [e|]; [|exists []; by split_and!].
      destruct (Hexp Hnone e eq_refl) as (Hlog & h & -> & Hh). eexists. split; [done|].
      assert (Hf : is_failed (mkDeferredInfo (i `mod` 2 ^ 32) (ba h) [] None (tr_Log res)) = true).
      { unfold is_failed. cbn [di_Error di_TxHash]. rewrite bool_decide_false by done.
        destruct (String.eqb_spec (tr_Log res) ""); [done|reflexivity]. }
      split_and!; [apply Forall_singleton; by left|apply Forall_singleton; simpl; lia|]. unfold ran_surplus. simpl foldr. by rewrite Hf.
    - unfold surplus_at, recorded_surplus. rewrite Hget. unfold GetEVMTxDeferredInfo in Hget. fold (deferred_key i) in Hget.
      fold (record_at i c) in Hget. destruct (record_at i c); [|done]. rewrite Hget. eexists. split; [done|].
      split_and!; [apply Forall_singleton; by right|by apply Forall_singleton|].
      unfold ran_surplus. simpl foldr. unfold is_failed. rewrite Hg2. simpl. lia. }
  exists (l ++ infos). split_and!.
  - rewrite fmap_cons. cbn [deferred_from fst]. rewrite Hl. cbn [outcome_bind].
    rewrite <- app_assoc in Hrun. cbn [app] in Hrun. by rewrite Hrun.
  - by apply Forall_app.
  - by apply Forall_app.
  - cbn [length seq fmap list_fmap surpluses foldr]. rewrite Z.add_0_r.
    assert (Happ : ran_surplus (l ++ infos) = ran_surplus l + ran_surplus infos).
    { clear. induction l as [|x l IH]; simpl; [done|]. unfold ran_surplus in *. lia. }
    rewrite Happ, Hl3, Hsum. f_equal. rewrite <- seq_shift, <- list_fmap_compose.
    unfold surpluses. f_equal. apply list_fmap_ext. intros ? k _. simpl. lia.
Qed.

(** The end of a block whose steps kept the books credits what the bank lost and
    nobody destroyed. *)
Lemma EndBlock_settles_books (c0 c : Ctx) made l (msgs : list (option EvmMsg * ExecTxResult)) gas :
  BankLaws B → books c0 made l c → Z.of_nat (length msgs) ≤ 2 ^ 32 → l.*1 ≡ₚ Z.of_nat <$> seq 0 (length msgs) →
  (∀ k m res, msgs !! k = Some (m, res) → explained (Z.of_nat k) m res c) →
  is_ret (AdjustDynamicBaseFeePerGas (ci_maxGas (c_info c)) (u64 gas)
    (RemoveFirstNTxHashes DefaultTxHashesToRemove (cview c))) = true →
  ∃ c', EndBlock (fst <$> msgs) (snd <$> msgs) gas c = Ret c' ∧ total c' = total c + Z.max 0 (total c0 + made - total c).
Proof.
  intros BL [H1 H2 H3 H4 H5] Hlen Hperm Hexp Hfee.
  assert (Hin : ∀ k, (k < length msgs)%nat → Z.of_nat k ∈ l.*1).
  { intros k Hk. rewrite Hperm. apply list_elem_of_fmap_2, elem_of_seq. lia. }
  destruct (deferred_from_read c msgs [] 0) as (infos & Hrun & Hs & Hb & Hsum); [done| |].
  { intros k m res Hk. cbv zeta. rewrite Z.add_0_l. split; [|by eapply Hexp]. apply H4, Hin. by eapply lookup_lt_Some. }
  destruct (AdjustDynamicBaseFeePerGas _ _ _) as [fee|] eqn:Efee; [|done].
  destruct (EndBlock_run (fst <$> msgs) (snd <$> msgs) gas c fee infos (fees l)) as (c2 & c3 & Hb2 & Hset & ->); [done..|].
  eexists. split; [done|]. unfold total at 1. rewrite cview_cupd. cbn [w_bank set_evm SetBlockBloom].
  destruct (credit_surplus_run (fees l + ran_surplus infos) c3) as [(_ & _ & _ & ->) _].
  apply settle_infos_run in Hset as (_ & _ & _ & ->). rewrite Hb2, Hsum. fold (total c).
  rewrite (surpluses_perm _ _ _ Hperm) in H5.
  replace ((λ k : nat, 0 + Z.of_nat k) <$> seq 0 (length msgs)) with (Z.of_nat <$> seq 0 (length msgs))
    by (apply list_fmap_ext; intros; lia). f_equal. lia.
Qed.

End Ledger.
