(* ===== verification/Pointer.v ===== *)
(** * The registry of token pointers
    (x/evm/keeper/pointer.go and the versions of x/evm/artifacts)

    A pointer is a contract of one virtual machine that stands for a token of
    the other.  The registry keeps, for every kind of token and version of the
    pointer contract, the pointer of a token, and for every pointer its token.
    Go strings are byte strings here. *)

From S2P Require Import Prelude Bytes Store Params Keys World Instances Eth Keeper Msg.
From Stdlib Require Import Strings.Byte.
Local Open Scope Z_scope.
Local Open Scope outcome_scope.

(** ** Versions and kinds *)

(** [CurrentVersion] of the packages under artifacts. *)
Definition native_CurrentVersion : Z := 1.
Definition cw721_CurrentVersion : Z := 6.
Definition cw1155_CurrentVersion : Z := 2.
Definition erc20_CurrentVersion : Z := 2.
Definition erc721_CurrentVersion : Z := 6.
Definition erc1155_CurrentVersion : Z := 1.
(** That of cw20 can be overridden for tests, not on a live chain. *)
Definition cw20_currentVersion : Z := 2.
Definition cw20_CurrentVersion (chainID : string) (versionOverride : Z) : Z :=
  GetVersionWthDefault chainID versionOverride cw20_currentVersion.

(** The kind of the token a pointer stands for. *)
Inductive PointerType : Type :=
| PT_ERC20 | PT_ERC721 | PT_NATIVE | PT_CW20 | PT_CW721 | PT_ERC1155 | PT_CW1155.

#[export] Instance PointerType_eq_dec : EqDecision PointerType.
Proof. solve_decision. Defined.
#[export] Instance PointerType_countable : Countable PointerType.
Proof.
  refine (inj_countable'
    (λ p, match p with PT_ERC20 => 0%nat | PT_ERC721 => 1%nat | PT_NATIVE => 2%nat | PT_CW20 => 3%nat
          | PT_CW721 => 4%nat | PT_ERC1155 => 5%nat | PT_CW1155 => 6%nat end)
    (λ n, match n with 0%nat => PT_ERC20 | 1%nat => PT_ERC721 | 2%nat => PT_NATIVE | 3%nat => PT_CW20
          | 4%nat => PT_CW721 | 5%nat => PT_ERC1155 | _ => PT_CW1155 end) _).
  by intros [].
Defined.

(** The text form of account addresses. *)
Class Bech32 := {
  acc_String : AccAddress → bytes;
  AccAddressFromBech32 : bytes → option AccAddress
}.
Class Bech32Laws `{Bech32} : Prop := {
  bech32_roundtrip : ∀ a, a ≠ [] → (length a ≤ 255)%nat → AccAddressFromBech32 (acc_String a) = Some a
}.
Definition MustAccAddressFromBech32 `{Bech32} (s : bytes) : outcome AccAddress :=
  match AccAddressFromBech32 s with Some a => Ret a | None => Panic "decoding bech32 failed" end.

Definition ErrorPointerToPointerNotAllowed : Err := "cannot create a pointer to a pointer: invalid request".

Section Pointer.
Context `{BK : BankKeeper B} `{AK : AccountKeeper A} `{BE : Bech32}.
Notation World := (World B A).
(** The chain, and the override of the version of cw20. *)
Variable chainID : string.
Variable versionOverride : Z.

(** ** Entries *)

Definition setPointerInfo (pref addr : bytes) (version : Z) (w : World) : World :=
  set_evm (prefix_set pref (PutUint16 version) addr) w.
Definition deletePointerInfo (pref : bytes) (version : Z) (w : World) : World :=
  set_evm (prefix_delete pref (PutUint16 version)) w.

(** The entry the reverse iterator starts at. *)
Definition GetAnyPointerInfo (w : World) (pref : bytes) : outcome (option (bytes * Z)) :=
  match ReverseIterator_first (prefix_store pref (w_evm w)) with
  | None => Ret None
  | Some (key, addr) => let* version := Uint16 key in Ret (Some (addr, version))
  end.

(** The loop over the versions below [n], from the greatest. *)
Fixpoint point_query (w : World) (pref : bytes) (n : nat) : option (bytes * Z) :=
  match n with
  | O => None
  | S v =>
      match w_evm w !! (pref ++ PutUint16 (Z.of_nat v)) with
      | Some value => Some (value, Z.of_nat v)
      | None => point_query w pref v
      end
  end.

Definition GetPointerInfo (isTracing : bool) (w : World) (pref : bytes) (maxVersion : Z) : outcome (option (bytes * Z)) :=
  match ReverseIterator_first (prefix_store pref (w_evm w)) with
  | None => if isTracing then Ret (point_query w pref (S (Z.to_nat maxVersion))) else Ret None
  | Some (key, addr) => let* version := Uint16 key in Ret (Some (addr, version))
  end.

Definition evmAddressIsPointer (w : World) (addr : Address) : outcome bool :=
  let* r := GetAnyPointerInfo w (PointerReverseRegistryKey addr) in Ret (bool_decide (is_Some r)).
Definition cwAddressIsPointer (w : World) (addr : bytes) : outcome bool :=
  let* r := GetAnyPointerInfo w (PointerReverseRegistryKey (BytesToAddress addr)) in Ret (bool_decide (is_Some r)).

(** The common part of the setters: the two entries, unless the token is itself
    a pointer. *)
Definition set_pointer (isPointer : outcome bool) (key pointer : bytes) (pointerAddr : Address) (token : bytes)
    (version : Z) (w : World) : outcome (World * option Err) :=
  let* b := isPointer in
  if b then Ret (w, Some ErrorPointerToPointerNotAllowed)
  else Ret (setPointerInfo (PointerReverseRegistryKey pointerAddr) token version (setPointerInfo key pointer version w), None).

(** ** Pointers to native and wasm tokens: contracts of the EVM *)

Definition SetERC20NativePointerWithVersion (token : bytes) (addr : Address) (version : Z) (w : World) :=
  set_pointer (cwAddressIsPointer w token) (PointerERC20NativeKey token) (ba addr) addr token version w.
Definition SetERC20NativePointer (token : bytes) (addr : Address) (w : World) :=
  SetERC20NativePointerWithVersion token addr native_CurrentVersion w.
Definition SetERC20CW20PointerWithVersion (cw20Address : bytes) (addr : Address) (version : Z) (w : World) :=
  set_pointer (cwAddressIsPointer w cw20Address) (PointerERC20CW20Key cw20Address) (ba addr) addr cw20Address version w.
Definition SetERC20CW20Pointer (cw20Address : bytes) (addr : Address) (w : World) :=
  SetERC20CW20PointerWithVersion cw20Address addr (cw20_CurrentVersion chainID versionOverride) w.
Definition SetERC721CW721PointerWithVersion (cw721Address : bytes) (addr : Address) (version : Z) (w : World) :=
  set_pointer (cwAddressIsPointer w cw721Address) (PointerERC721CW721Key cw721Address) (ba addr) addr cw721Address version w.
Definition SetERC721CW721Pointer (cw721Address : bytes) (addr : Address) (w : World) :=
  SetERC721CW721PointerWithVersion cw721Address addr cw721_CurrentVersion w.
Definition SetERC1155CW1155PointerWithVersion (cw1155Address : bytes) (addr : Address) (version : Z) (w : World) :=
  set_pointer (cwAddressIsPointer w cw1155Address) (PointerERC1155CW1155Key cw1155Address) (ba addr) addr cw1155Address version w.
Definition SetERC1155CW1155Pointer (cw1155Address : bytes) (addr : Address) (w : World) :=
  SetERC1155CW1155PointerWithVersion cw1155Address addr cw1155_CurrentVersion w.

(** An address read from an entry. *)
Definition to_address (r : outcome (option (bytes * Z))) : outcome (option (Address * Z)) :=
  let* o := r in Ret ((λ e, (BytesToAddress e.1, e.2)) <$> o).

Definition GetERC20NativePointer (isTracing : bool) (w : World) (token : bytes) : outcome (option (Address * Z)) :=
  to_address (GetPointerInfo isTracing w (PointerERC20NativeKey token) native_CurrentVersion).
Definition GetERC20CW20Pointer (isTracing : bool) (w : World) (cw20Address : bytes) : outcome (option (Address * Z)) :=
  to_address (GetPointerInfo isTracing w (PointerERC20CW20Key cw20Address) (cw20_CurrentVersion chainID versionOverride)).
Definition GetERC721CW721Pointer (isTracing : bool) (w : World) (cw721Address : bytes) : outcome (option (Address * Z)) :=
  to_address (GetPointerInfo isTracing w (PointerERC721CW721Key cw721Address) cw721_CurrentVersion).
Definition GetERC1155CW1155Pointer (isTracing : bool) (w : World) (cw1155Address : bytes) : outcome (option (Address * Z)) :=
  to_address (GetPointerInfo isTracing w (PointerERC1155CW1155Key cw1155Address) cw1155_CurrentVersion).

(** The common part of the deletions. *)
Definition delete_pointer (key : bytes) (pointer : outcome (option Address)) (version : Z) (w : World) : outcome World :=
  let* o := pointer in
  match o with
  | None => Ret w
  | Some addr => Ret (deletePointerInfo (PointerReverseRegistryKey addr) version (deletePointerInfo key version w))
  end.
Definition just_address {X} (r : outcome (option (X * Z))) : outcome (option X) := let* o := r in Ret (fst <$> o).

Definition DeleteERC20NativePointer (isTracing : bool) (token : bytes) (version : Z) (w : World) : outcome World :=
  delete_pointer (PointerERC20NativeKey token) (just_address (GetERC20NativePointer isTracing w token)) version w.
Definition DeleteERC20CW20Pointer (isTracing : bool) (cw20Address : bytes) (version : Z) (w : World) : outcome World :=
  delete_pointer (PointerERC20CW20Key cw20Address) (just_address (GetERC20CW20Pointer isTracing w cw20Address)) version w.
Definition DeleteERC721CW721Pointer (isTracing : bool) (cw721Address : bytes) (version : Z) (w : World) : outcome World :=
  delete_pointer (PointerERC721CW721Key cw721Address) (just_address (GetERC721CW721Pointer isTracing w cw721Address)) version w.
Definition DeleteERC1155CW1155Pointer (isTracing : bool) (cw1155Address : bytes) (version : Z) (w : World) : outcome World :=
  delete_pointer (PointerERC1155CW1155Key cw1155Address) (just_address (GetERC1155CW1155Pointer isTracing w cw1155Address)) version w.

(** ** Pointers to tokens of the EVM: wasm contracts *)

Definition SetCW20ERC20PointerWithVersion (erc20Address : Address) (addr : bytes) (version : Z) (w : World) :=
  set_pointer (evmAddressIsPointer w erc20Address) (PointerCW20ERC20Key erc20Address) addr (BytesToAddress addr) (ba erc20Address) version w.
Definition SetCW20ERC20Pointer (erc20Address : Address) (addr : bytes) (w : World) :=
  SetCW20ERC20PointerWithVersion erc20Address addr erc20_CurrentVersion w.
Definition SetCW721ERC721PointerWithVersion (erc721Address : Address) (addr : bytes) (version : Z) (w : World) :=
  set_pointer (evmAddressIsPointer w erc721Address) (PointerCW721ERC721Key erc721Address) addr (BytesToAddress addr) (ba erc721Address) version w.
Definition SetCW721ERC721Pointer (erc721Address : Address) (addr : bytes) (w : World) :=
  SetCW721ERC721PointerWithVersion erc721Address addr erc721_CurrentVersion w.
Definition SetCW1155ERC1155PointerWithVersion (erc1155Address : Address) (addr : bytes) (version : Z) (w : World) :=
  set_pointer (evmAddressIsPointer w erc1155Address) (PointerCW1155ERC1155Key erc1155Address) addr (BytesToAddress addr) (ba erc1155Address) version w.
Definition SetCW1155ERC1155Pointer (erc1155Address : Address) (addr : bytes) (w : World) :=
  SetCW1155ERC1155PointerWithVersion erc1155Address addr erc1155_CurrentVersion w.

(** An account address read from an entry. *)
Definition to_account (r : outcome (option (bytes * Z))) : outcome (option (AccAddress * Z)) :=
  let* o := r in
  match o with
  | None => Ret None
  | Some (addrBz, version) => let* a := MustAccAddressFromBech32 addrBz in Ret (Some (a, version))
  end.

Definition GetCW20ERC20Pointer (isTracing : bool) (w : World) (erc20Address : Address) : outcome (option (AccAddress * Z)) :=
  to_account (GetPointerInfo isTracing w (PointerCW20ERC20Key erc20Address) erc20_CurrentVersion).
Definition GetCW721ERC721Pointer (isTracing : bool) (w : World) (erc721Address : Address) : outcome (option (AccAddress * Z)) :=
  to_account (GetPointerInfo isTracing w (PointerCW721ERC721Key erc721Address) erc721_CurrentVersion).
Definition GetCW1155ERC1155Pointer (isTracing : bool) (w : World) (erc1155Address : Address) : outcome (option (AccAddress * Z)) :=
  to_account (GetPointerInfo isTracing w (PointerCW1155ERC1155Key erc1155Address) erc1155_CurrentVersion).

(** The key of a wasm contract in the reverse registry. *)
Definition cast_account (r : outcome (option (AccAddress * Z))) : outcome (option Address) :=
  let* o := r in Ret ((λ e, BytesToAddress (acc_String e.1)) <$> o).

Definition DeleteCW20ERC20Pointer (isTracing : bool) (erc20Address : Address) (version : Z) (w : World) : outcome World :=
  delete_pointer (PointerCW20ERC20Key erc20Address) (cast_account (GetCW20ERC20Pointer isTracing w erc20Address)) version w.
Definition DeleteCW721ERC721Pointer (isTracing : bool) (erc721Address : Address) (version : Z) (w : World) : outcome World :=
  delete_pointer (PointerCW721ERC721Key erc721Address) (cast_account (GetCW721ERC721Pointer isTracing w erc721Address)) version w.
Definition DeleteCW1155ERC1155Pointer (isTracing : bool) (erc1155Address : Address) (version : Z) (w : World) : outcome World :=
  delete_pointer (PointerCW1155ERC1155Key erc1155Address) (cast_account (GetCW1155ERC1155Pointer isTracing w erc1155Address)) version w.

(** ** From a pointer to its token *)

Definition GetCW20Pointee (w : World) (erc20Address : Address) := GetAnyPointerInfo w (PointerReverseRegistryKey erc20Address).
Definition GetCW721Pointee (w : World) (erc721Address : Address) := GetAnyPointerInfo w (PointerReverseRegistryKey erc721Address).
Definition GetCW1155Pointee (w : World) (erc1155Address : Address) := GetAnyPointerInfo w (PointerReverseRegistryKey erc1155Address).
Definition GetERC20Pointee (w : World) (cw20Address : bytes) :=
  to_address (GetAnyPointerInfo w (PointerReverseRegistryKey (BytesToAddress cw20Address))).
Definition GetERC721Pointee (w : World) (cw721Address : bytes) :=
  to_address (GetAnyPointerInfo w (PointerReverseRegistryKey (BytesToAddress cw721Address))).
Definition GetERC1155Pointee (w : World) (cw1155Address : bytes) :=
  to_address (GetAnyPointerInfo w (PointerReverseRegistryKey (BytesToAddress cw1155Address))).
(** [erc20Address] is the hexadecimal form, read. *)
Definition GetNativePointee (w : World) (erc20Address : Address) := GetAnyPointerInfo w (PointerReverseRegistryKey erc20Address).

(** The pointer of a wasm token of any kind. *)
Definition GetAnyPointeeInfo (isTracing : bool) (w : World) (cwAddress : bytes) : outcome (option (Address * Z)) :=
  let* r20 := GetERC20CW20Pointer isTracing w cwAddress in
  match r20 with Some r => Ret (Some r) | None =>
  let* r721 := GetERC721CW721Pointer isTracing w cwAddress in
  match r721 with Some r => Ret (Some r) | None =>
  GetERC1155CW1155Pointer isTracing w cwAddress
  end end.

End Pointer.

(** * The registry as a table

    The table holds the pointer of a token for each kind and version, and the
    token of a pointer for each version.  A token that is a prefix of another
    token of its kind is confused with it ([native_pointer_confused] below), so
    the tokens of a kind are taken from a set without such pairs; addresses of
    the EVM are one, and so are the addresses of wasm contracts. *)

Record Registry : Type := mkRegistry {
  rg_pointer : gmap (PointerType * bytes * Z) bytes;
  rg_token : gmap (Address * Z) bytes
}.

(** The entry of the greatest version, if there is any. *)
Definition is_latest (f : Z → option bytes) (o : option (bytes * Z)) : Prop :=
  match o with
  | None => ∀ v, f v = None
  | Some (x, v) => f v = Some x ∧ ∀ v', is_Some (f v') → v' ≤ v
  end.

Definition is_u16 (v : Z) : Prop := 0 ≤ v < 65536.

(** Tokens of the EVM, whose pointers are wasm contracts. *)
Definition erc_type (t : PointerType) : bool :=
  match t with PT_ERC20 | PT_ERC721 | PT_ERC1155 => true | _ => false end.

Definition type_byte (t : PointerType) : byte :=
  match t with
  | PT_NATIVE => x00 | PT_CW20 => x01 | PT_CW721 => x02 | PT_ERC20 => x03 | PT_ERC721 => x04
  | PT_CW1155 => x05 | PT_ERC1155 => x06
  end.
Definition type_key (t : PointerType) (token : bytes) : bytes := x15 :: type_byte t :: token.

(** Operations on the registry. *)
Inductive PointerOp : Type :=
| OpSetERC (t : PointerType) (token : bytes) (addr : Address) (version : Z)
| OpSetCW (t : PointerType) (erc : Address) (addr : AccAddress) (version : Z)
| OpDelete (isTracing : bool) (t : PointerType) (token : bytes) (version : Z).

Section Table.
Context `{BK : BankKeeper B} `{AK : AccountKeeper A} `{BE : Bech32}.
Notation World := (World B A).
Variable chainID : string.
Variable versionOverride : Z.

Definition exec_op (op : PointerOp) (w : World) : outcome (World * option Err) :=
  match op with
  | OpSetERC PT_NATIVE token addr v => SetERC20NativePointerWithVersion token addr v w
  | OpSetERC PT_CW20 token addr v => SetERC20CW20PointerWithVersion token addr v w
  | OpSetERC PT_CW721 token addr v => SetERC721CW721PointerWithVersion token addr v w
  | OpSetERC PT_CW1155 token addr v => SetERC1155CW1155PointerWithVersion token addr v w
  | OpSetERC _ _ _ _ => Ret (w, None)
  | OpSetCW PT_ERC20 erc addr v => SetCW20ERC20PointerWithVersion erc (acc_String addr) v w
  | OpSetCW PT_ERC721 erc addr v => SetCW721ERC721PointerWithVersion erc (acc_String addr) v w
  | OpSetCW PT_ERC1155 erc addr v => SetCW1155ERC1155PointerWithVersion erc (acc_String addr) v w
  | OpSetCW _ _ _ _ => Ret (w, None)
  | OpDelete tr t token v =>
      let* w' :=
        match t with
        | PT_NATIVE => DeleteERC20NativePointer tr token v w
        | PT_CW20 => DeleteERC20CW20Pointer chainID versionOverride tr token v w
        | PT_CW721 => DeleteERC721CW721Pointer tr token v w
        | PT_CW1155 => DeleteERC1155CW1155Pointer tr token v w
        | PT_ERC20 => DeleteCW20ERC20Pointer tr (BytesToAddress token) v w
        | PT_ERC721 => DeleteCW721ERC721Pointer tr (BytesToAddress token) v w
        | PT_ERC1155 => DeleteCW1155ERC1155Pointer tr (BytesToAddress token) v w
        end in
      Ret (w', None)
  end.

Fixpoint exec_ops (ops : list PointerOp) (w : World) : outcome (World * list (option Err)) :=
  match ops with
  | [] => Ret (w, [])
  | op :: rest =>
      let* r := exec_op op w in
      let* r' := exec_ops rest r.1 in
      Ret (r'.1, r.2 :: r'.2)
  end.

(** The pointers as the getters of the kinds return them. *)
Definition get_erc (t : PointerType) (isTracing : bool) (w : World) (token : bytes) : outcome (option (Address * Z)) :=
  match t with
  | PT_NATIVE => GetERC20NativePointer isTracing w token
  | PT_CW20 => GetERC20CW20Pointer chainID versionOverride isTracing w token
  | PT_CW721 => GetERC721CW721Pointer isTracing w token
  | PT_CW1155 => GetERC1155CW1155Pointer isTracing w token
  | _ => Ret None
  end.
Definition get_cw (t : PointerType) (isTracing : bool) (w : World) (erc : Address) : outcome (option (AccAddress * Z)) :=
  match t with
  | PT_ERC20 => GetCW20ERC20Pointer isTracing w erc
  | PT_ERC721 => GetCW721ERC721Pointer isTracing w erc
  | PT_ERC1155 => GetCW1155ERC1155Pointer isTracing w erc
  | _ => Ret None
  end.

(** The operations on the table. *)
Definition table_set (t : PointerType) (token pointer : bytes) (v : Z) (r : Registry) : Registry :=
  mkRegistry (<[(t, token, v) := pointer]> (rg_pointer r)) (<[(BytesToAddress pointer, v) := token]> (rg_token r)).
Definition not_pointer (r : Registry) (token : bytes) : Prop := ∀ v, rg_token r !! (BytesToAddress token, v) = None.

Inductive table_op (r : Registry) : PointerOp → Registry → option Err → Prop :=
| table_set_erc t token addr v : not_pointer r token →
    table_op r (OpSetERC t token addr v) (table_set t token (ba addr) v r) None
| table_set_cw t erc addr v : not_pointer r (ba erc) →
    table_op r (OpSetCW t erc addr v) (table_set t (ba erc) (acc_String addr) v r) None
| table_refuse_erc t token addr v : ¬ not_pointer r token →
    table_op r (OpSetERC t token addr v) r (Some ErrorPointerToPointerNotAllowed)
| table_refuse_cw t erc addr v : ¬ not_pointer r (ba erc) →
    table_op r (OpSetCW t erc addr v) r (Some ErrorPointerToPointerNotAllowed)
| table_delete tr t token v pointer v0 :
    is_latest (λ v', rg_pointer r !! (t, token, v')) (Some (pointer, v0)) →
    table_op r (OpDelete tr t token v)
      (mkRegistry (delete (t, token, v) (rg_pointer r)) (delete (BytesToAddress pointer, v) (rg_token r))) None
| table_delete_none tr t token v :
    is_latest (λ v', rg_pointer r !! (t, token, v')) None →
    table_op r (OpDelete tr t token v) r None.

Inductive table_ops : Registry → list PointerOp → Registry → list (option Err) → Prop :=
| table_done r : table_ops r [] r []
| table_more r op r1 e ops r2 es : table_op r op r1 e → table_ops r1 ops r2 es → table_ops r (op :: ops) r2 (e :: es).

(** Tokens without confusion. *)
Variable tokens : PointerType → bytes → Prop.
Definition no_confusion : Prop :=
  (∀ t p q, tokens t p → tokens t (p ++ q) → q = []) ∧ (∀ t p, tokens t p → erc_type t = true → length p = 20%nat).
Definition legal_account (a : AccAddress) : Prop := a ≠ [] ∧ (length a ≤ 255)%nat.
Definition legal_op (op : PointerOp) : Prop :=
  match op with
  | OpSetERC t token _ v => erc_type t = false ∧ tokens t token ∧ is_u16 v
  | OpSetCW t erc addr v => erc_type t = true ∧ tokens t (ba erc) ∧ legal_account addr ∧ is_u16 v
  | OpDelete _ t token v => tokens t token ∧ is_u16 v
  end.

(** The store holds the table. *)
Definition legal_pointer (t : PointerType) (x : bytes) : Prop :=
  if erc_type t then ∃ a, legal_account a ∧ x = acc_String a else length x = 20%nat.
Record holds (w : World) (r : Registry) : Prop := {
  holds_pointer : ∀ t p v, tokens t p → is_u16 v → w_evm w !! (type_key t p ++ PutUint16 v) = rg_pointer r !! (t, p, v);
  holds_only_pointers : ∀ s, is_Some (w_evm w !! (x15 :: s)) → ∃ t p v, tokens t p ∧ is_u16 v ∧ x15 :: s = type_key t p ++ PutUint16 v;
  holds_token : ∀ a v, is_u16 v → w_evm w !! (PointerReverseRegistryKey a ++ PutUint16 v) = rg_token r !! (a, v);
  holds_only_tokens : ∀ s, is_Some (w_evm w !! (x17 :: s)) → ∃ a v, is_u16 v ∧ x17 :: s = PointerReverseRegistryKey a ++ PutUint16 v;
  holds_legal : ∀ t p v x, rg_pointer r !! (t, p, v) = Some x → tokens t p ∧ is_u16 v ∧ legal_pointer t x;
  holds_versions : ∀ a v x, rg_token r !! (a, v) = Some x → is_u16 v
}.

(** ** The latest version *)

Lemma Uint16_u16 v : is_u16 v → Uint16 (PutUint16 v) = Ret v.
Proof. intros Hv. rewrite Uint16_PutUint16. f_equal. by apply Z.mod_small. Qed.

Lemma latest_in_store (m : kvstore) (pref : bytes) (f : Z → option bytes) :
  (∀ v, is_u16 v → m !! (pref ++ PutUint16 v) = f v) → (∀ v, is_Some (f v) → is_u16 v) →
  (∀ s, is_Some (m !! (pref ++ s)) → ∃ v, is_u16 v ∧ s = PutUint16 v) →
  match ReverseIterator_first (prefix_store pref m) with
  | None => is_latest f None
  | Some (k, x) => ∃ v, Uint16 k = Ret v ∧ is_latest f (Some (x, v))
  end.
Proof.
  intros Hf Hu Honly. destruct (ReverseIterator_first _) as [[k x]|] eqn:E.
  - apply ReverseIterator_first_Some in E as [Hk Hmax]. rewrite lookup_prefix_store in Hk.
    destruct (Honly k) as (v & Hv & ->); [by eexists|]. exists v. split; [by apply Uint16_u16|].
    split; [by rewrite <- Hf|]. intros v' [y Hy]. assert (is_u16 v') as Hv' by (apply Hu; by eexists).
    assert (bytes_le (PutUint16 v') (PutUint16 v)) as Hle.
    { apply (Hmax _ y). by rewrite lookup_prefix_store, Hf. }
    by apply (be_enc_le 2) in Hle.
  - apply ReverseIterator_first_None in E. intros v. destruct (f v) as [x|] eqn:Ef; [|done].
    rewrite <- Hf, <- lookup_prefix_store, E in Ef by (apply Hu; by eexists). done.
Qed.

Lemma is_latest_unique f o o' : is_latest f o → is_latest f o' → o = o'.
Proof.
  destruct o as [[x v]|], o' as [[x' v']|]; simpl; try done.
  - intros [H1 H2] [H3 H4]. assert (v = v') as -> by (apply Z.le_antisymm; [apply H4|apply H2]; by eexists). congruence.
  - intros [H1 _] H2. by rewrite H2 in H1.
  - intros H1 [H2 _]. by rewrite H1 in H2.
Qed.

Lemma point_query_none (w : World) (pref : bytes) n :
  (∀ v, w_evm w !! (pref ++ PutUint16 v) = None) → point_query w pref n = None.
Proof. intros H. induction n as [|n IH]; simpl; [done|]. by rewrite H. Qed.

(** ** Keys *)

Lemma type_byte_inj t t' : type_byte t = type_byte t' → t = t'.
Proof. by destruct t, t'. Qed.

Lemma versioned_key_inj p v p' v' : is_u16 v → is_u16 v' → p ++ PutUint16 v = p' ++ PutUint16 v' → p = p' ∧ v = v'.
Proof. apply versioned_inj. Qed.

Lemma type_key_inj t p v t' p' v' : is_u16 v → is_u16 v' →
  type_key t p ++ PutUint16 v = type_key t' p' ++ PutUint16 v' → t = t' ∧ p = p' ∧ v = v'.
Proof.
  intros Hv Hv' H. apply versioned_key_inj in H as [H ->]; [|done|done]. unfold type_key in H.
  injection H as Ht ->. by apply type_byte_inj in Ht as ->.
Qed.

Lemma reverse_key_inj a v a' v' : is_u16 v → is_u16 v' →
  PointerReverseRegistryKey a ++ PutUint16 v = PointerReverseRegistryKey a' ++ PutUint16 v' → a = a' ∧ v = v'.
Proof.
  intros Hv Hv' H. apply versioned_key_inj in H as [H ->]; [|done|done]. unfold PointerReverseRegistryKey in H.
  apply app_inv_head in H. split; [by apply ba_inj|done].
Qed.

(** Two tokens of a kind are not confused. *)
Lemma token_of_key t p s p' v : no_confusion → tokens t p → tokens t p' → p ++ s = p' ++ PutUint16 v → p = p' ∧ s = PutUint16 v.
Proof.
  intros [Hfree _] Hp Hp' H. destruct (app_eq_inv _ _ _ _ H) as [(k & -> & ->)|(k & -> & E)].
  - assert (k = []) as -> by (by apply (Hfree t p')). by rewrite app_nil_r.
  - assert (k = []) as -> by (by apply (Hfree t p)). by rewrite app_nil_r.
Qed.

(** ** Reading *)

Lemma GetPointerInfo_latest (w : World) (r : Registry) tr t p n :
  no_confusion → holds w r → tokens t p →
  ∃ o, GetPointerInfo tr w (type_key t p) n = Ret o ∧ is_latest (λ v, rg_pointer r !! (t, p, v)) o.
Proof.
  intros Hnc Hh Hp.
  assert (HL := latest_in_store (w_evm w) (type_key t p) (λ v, rg_pointer r !! (t, p, v))
    (λ v, holds_pointer _ _ Hh t p v Hp) (λ v '(ex_intro _ x Hx), proj1 (proj2 (holds_legal _ _ Hh t p v x Hx)))).
  specialize (HL ltac:(intros s Hs;
    destruct (holds_only_pointers _ _ Hh (type_byte t :: p ++ s) Hs) as (t' & p' & v & Hp' & Hv & E);
    unfold type_key in E; simpl in E; injection E as Ht E; apply type_byte_inj in Ht as ->;
    destruct (token_of_key t' p s p' v Hnc Hp Hp' E) as [-> ->]; by exists v)).
  unfold GetPointerInfo. destruct (ReverseIterator_first _) as [[k x]|] eqn:E.
  - destruct HL as (v & Hk & HL). rewrite Hk. by exists (Some (x, v)).
  - exists None. split; [|done]. destruct tr; [|done]. f_equal. apply point_query_none. intros v.
    apply ReverseIterator_first_None in E. by rewrite <- lookup_prefix_store, E.
Qed.

Lemma GetAnyPointerInfo_latest (w : World) (r : Registry) a :
  holds w r → ∃ o, GetAnyPointerInfo w (PointerReverseRegistryKey a) = Ret o ∧ is_latest (λ v, rg_token r !! (a, v)) o.
Proof.
  intros Hh.
  assert (HL := latest_in_store (w_evm w) (PointerReverseRegistryKey a) (λ v, rg_token r !! (a, v))
    (λ v, holds_token _ _ Hh a v) (λ v '(ex_intro _ x Hx), holds_versions _ _ Hh a v x Hx)).
  specialize (HL ltac:(intros s Hs;
    destruct (holds_only_tokens _ _ Hh (ba a ++ s) Hs) as (a' & v & Hv & E);
    change (PointerReverseRegistryKey a ++ s = PointerReverseRegistryKey a' ++ PutUint16 v) in E;
    apply app_inj_1 in E as [_ ->]; [by exists v|by unfold PointerReverseRegistryKey; rewrite !length_app, !ba_length])).
  unfold GetAnyPointerInfo. destruct (ReverseIterator_first _) as [[k x]|] eqn:E; [|by exists None].
  destruct HL as (v & Hk & HL). rewrite Hk. by exists (Some (x, v)).
Qed.

Lemma is_pointer_iff (w : World) (r : Registry) token :
  holds w r → ∃ b, cwAddressIsPointer w token = Ret b ∧ (b = false ↔ not_pointer r token).
Proof.
  intros Hh. unfold cwAddressIsPointer. destruct (GetAnyPointerInfo_latest w r (BytesToAddress token) Hh) as (o & -> & HL).
  simpl. eexists. split; [done|]. rewrite bool_decide_eq_false, <- eq_None_not_Some. destruct o as [[x v]|].
  - split; [done|]. intros Hn. destruct HL as [HL _]. by rewrite Hn in HL.
  - by split.
Qed.

(** ** Writing *)

Lemma reverse_not_pointer a v s : PointerReverseRegistryKey a ++ PutUint16 v ≠ x15 :: s.
Proof. done. Qed.
Lemma pointer_not_reverse t p v s : type_key t p ++ PutUint16 v ≠ x17 :: s.
Proof. done. Qed.

(** Changing one entry of each half of the store, and of the table. *)
Lemma holds_alter (w w' : World) (r : Registry) t token a v (x y : option bytes) :
  holds w r → tokens t token → is_u16 v → (∀ z, x = Some z → legal_pointer t z) →
  w_evm w' = partial_alter (λ _, y) (PointerReverseRegistryKey a ++ PutUint16 v)
    (partial_alter (λ _, x) (type_key t token ++ PutUint16 v) (w_evm w)) →
  holds w' (mkRegistry (partial_alter (λ _, x) (t, token, v) (rg_pointer r)) (partial_alter (λ _, y) (a, v) (rg_token r))).
Proof.
  intros Hh Ht Hv Hl Hw. split; rewrite ?Hw; simpl.
  - intros t' p' v' Hp' Hv'. rewrite lookup_partial_alter_ne by (by intros E%reverse_not_pointer).
    destruct (decide ((t, token, v) = (t', p', v'))) as [[= <- <- <-]|Hne]; [by rewrite !lookup_partial_alter_eq|].
    rewrite !lookup_partial_alter_ne; [by apply holds_pointer|done|]. intros E. apply Hne. by destruct (type_key_inj _ _ _ _ _ _ Hv Hv' E) as (-> & -> & ->).
  - intros s. rewrite lookup_partial_alter_ne by apply reverse_not_pointer.
    destruct (decide (type_key t token ++ PutUint16 v = x15 :: s)) as [E|Hne]; [intros _; by exists t, token, v|].
    rewrite lookup_partial_alter_ne by done. by apply (holds_only_pointers _ _ Hh).
  - intros a' v' Hv'. destruct (decide ((a, v) = (a', v'))) as [[= <- <-]|Hne]; [by rewrite !lookup_partial_alter_eq|].
    rewrite !lookup_partial_alter_ne; [by apply holds_token|done|by intros E%pointer_not_reverse|].
    intros E. apply Hne. by destruct (reverse_key_inj _ _ _ _ Hv Hv' E) as (-> & ->).
  - intros s. destruct (decide (PointerReverseRegistryKey a ++ PutUint16 v = x17 :: s)) as [E|Hne]; [intros _; by exists a, v|].
    rewrite !lookup_partial_alter_ne by done. by apply (holds_only_tokens _ _ Hh).
  - intros t' p' v' z. destruct (decide ((t, token, v) = (t', p', v'))) as [[= <- <- <-]|Hne].
    + rewrite lookup_partial_alter_eq. auto.
    + rewrite lookup_partial_alter_ne by done. by apply (holds_legal _ _ Hh).
  - intros a' v' z. destruct (decide ((a, v) = (a', v'))) as [[= <- <-]|Hne]; [done|].
    rewrite lookup_partial_alter_ne by done. by apply (holds_versions _ _ Hh).
Qed.

Lemma holds_set (w : World) (r : Registry) t token pointer v :
  holds w r → tokens t token → is_u16 v → legal_pointer t pointer →
  holds (setPointerInfo (PointerReverseRegistryKey (BytesToAddress pointer)) token v
          (setPointerInfo (type_key t token) pointer v w)) (table_set t token pointer v r).
Proof.
  intros Hh Ht Hv Hl. apply (holds_alter w _ r t token (BytesToAddress pointer) v (Some pointer) (Some token)); [done..| |done].
  by intros z [= <-].
Qed.

Lemma holds_delete (w : World) (r : Registry) t token a v :
  holds w r → tokens t token → is_u16 v →
  holds (deletePointerInfo (PointerReverseRegistryKey a) v (deletePointerInfo (type_key t token) v w))
    (mkRegistry (delete (t, token, v) (rg_pointer r)) (delete (a, v) (rg_token r))).
Proof. intros Hh Ht Hv. by apply (holds_alter w _ r t token a v None None). Qed.

(** ** Each operation *)

Lemma set_pointer_refines (w : World) (r : Registry) t token pointer v :
  holds w r → tokens t token → is_u16 v → legal_pointer t pointer →
  ∃ w' r' e, set_pointer (cwAddressIsPointer w token) (type_key t token) pointer (BytesToAddress pointer) token v w = Ret (w', e) ∧
    holds w' r' ∧
    (not_pointer r token ∧ r' = table_set t token pointer v r ∧ e = None ∨
     ¬ not_pointer r token ∧ r' = r ∧ e = Some ErrorPointerToPointerNotAllowed).
Proof.
  intros Hh Ht Hv Hl. unfold set_pointer. destruct (is_pointer_iff w r token Hh) as ([] & -> & Hb); simpl.
  - exists w, r. eexists. split; [done|]. split; [done|]. right. split; [|done]. intros Hn. by apply Hb in Hn.
  - eexists _, (table_set t token pointer v r), None. split; [done|]. split; [by apply holds_set|].
    left. split; [by apply Hb|done].
Qed.

Lemma delete_pointer_refines (w : World) (r : Registry) tr t token v f n :
  no_confusion → holds w r → tokens t token → is_u16 v →
  (∀ o, is_latest (λ v', rg_pointer r !! (t, token, v')) o → GetPointerInfo tr w (type_key t token) n = Ret o →
    f = Ret ((λ e, BytesToAddress e.1) <$> o)) →
  ∃ w' r', delete_pointer (type_key t token) f v w = Ret w' ∧ holds w' r' ∧ table_op r (OpDelete tr t token v) r' None.
Proof.
  intros Hnc Hh Ht Hv Hf. destruct (GetPointerInfo_latest w r tr t token n Hnc Hh Ht) as (o & Ho & HL).
  unfold delete_pointer. rewrite (Hf o HL Ho). destruct o as [[x v0]|]; simpl.
  - eexists _, _. split; [done|]. split; [by apply holds_delete|]. by apply (table_delete r tr t token v x v0).
  - exists w, r. split; [done|]. split; [done|]. by constructor.
Qed.

Lemma to_account_legal `{HBL : !Bech32Laws} (r : Registry) t token o :
  erc_type t = true → (∀ v x, rg_pointer r !! (t, token, v) = Some x → legal_pointer t x) →
  is_latest (λ v', rg_pointer r !! (t, token, v')) o →
  ∃ oa, to_account (Ret o) = Ret oa ∧ o = (λ e, (acc_String e.1, e.2)) <$> oa ∧ ∀ a v, oa = Some (a, v) → legal_account a.
Proof.
  intros Ht Hl HL. destruct o as [[x v]|]; [|by exists None]. destruct HL as [HL _].
  specialize (Hl v x HL). unfold legal_pointer in Hl. rewrite Ht in Hl. destruct Hl as (a & [Hne Hlen] & ->).
  exists (Some (a, v)). simpl. unfold MustAccAddressFromBech32. rewrite bech32_roundtrip by done.
  split_and!; [done|done|]. by intros ? ? [= <- <-].
Qed.

Lemma delete_erc (w : World) (r : Registry) tr t token v n :
  no_confusion → holds w r → tokens t token → is_u16 v →
  ∃ w' r', delete_pointer (type_key t token) (just_address (to_address (GetPointerInfo tr w (type_key t token) n))) v w = Ret w' ∧
    holds w' r' ∧ table_op r (OpDelete tr t token v) r' None.
Proof.
  intros Hnc Hh Ht Hv. apply (delete_pointer_refines _ _ _ _ _ _ _ n); [done..|]. intros o _ ->.
  by destruct o as [[x v0]|].
Qed.

Lemma delete_cw `{HBL : !Bech32Laws} (w : World) (r : Registry) tr t token v n :
  no_confusion → holds w r → tokens t token → is_u16 v → erc_type t = true →
  ∃ w' r', delete_pointer (type_key t token) (cast_account (to_account (GetPointerInfo tr w (type_key t token) n))) v w = Ret w' ∧
    holds w' r' ∧ table_op r (OpDelete tr t token v) r' None.
Proof.
  intros Hnc Hh Ht Hv Het. apply (delete_pointer_refines _ _ _ _ _ _ _ n); [done..|]. intros o HL ->.
  destruct (to_account_legal r t token o Het) as (oa & -> & -> & _); [|done|].
  - intros v' x Hx. by apply (holds_legal _ _ Hh) in Hx as (_ & _ & ?).
  - by destruct oa as [[a v0]|].
Qed.

Lemma exec_op_refines `{HBL : !Bech32Laws} (op : PointerOp) (w : World) (r : Registry) :
  no_confusion → legal_op op → holds w r →
  ∃ w' e r', exec_op op w = Ret (w', e) ∧ table_op r op r' e ∧ holds w' r'.
Proof.
  intros Hnc Hop Hh. destruct op as [t token addr v|t erc addr v|tr t token v]; simpl in Hop.
  - destruct Hop as (Het & Ht & Hv).
    destruct (set_pointer_refines w r t token (ba addr) v) as (w' & r' & e & E & Hh' & Hc); [done..| |].
    { unfold legal_pointer. rewrite Het. apply ba_length. }
    rewrite BytesToAddress_ba in E. exists w', e, r'. split; [by destruct t|]. split; [|done].
    destruct Hc as [(Hn & -> & ->)|(Hn & -> & ->)]; by constructor.
  - destruct Hop as (Het & Ht & Ha & Hv).
    destruct (set_pointer_refines w r t (ba erc) (acc_String addr) v) as (w' & r' & e & E & Hh' & Hc); [done..| |].
    { unfold legal_pointer. rewrite Het. by exists addr. }
    unfold cwAddressIsPointer in E. rewrite BytesToAddress_ba in E.
    exists w', e, r'. split; [by destruct t|]. split; [|done].
    destruct Hc as [(Hn & -> & ->)|(Hn & -> & ->)]; by constructor.
  - destruct Hop as (Ht & Hv).
    assert (Hlen : erc_type t = true → ba (BytesToAddress token) = token).
    { intros Het. apply ba_fit_id. by apply (proj2 Hnc t). }
    assert (∃ w' r', exec_op (OpDelete tr t token v) w = Ret (w', None) ∧ table_op r (OpDelete tr t token v) r' None ∧ holds w' r')
      as (w' & r' & E & Hop & Hh'); [|by exists w', None, r'].
    destruct (erc_type t) eqn:Het.
    + destruct t; try done; simpl; unfold DeleteCW20ERC20Pointer, DeleteCW721ERC721Pointer, DeleteCW1155ERC1155Pointer,
        GetCW20ERC20Pointer, GetCW721ERC721Pointer, GetCW1155ERC1155Pointer, PointerCW20ERC20Key, PointerCW721ERC721Key,
        PointerCW1155ERC1155Key; rewrite (Hlen eq_refl);
      match goal with |- context [GetPointerInfo tr w _ ?n] =>
        destruct (delete_cw w r tr _ token v n Hnc Hh Ht Hv eq_refl) as (w' & r' & E & ? & ?) end;
      exists w', r'; (split; [exact (f_equal (λ o, let* x := o in Ret (x, None)) E)|done]).
    + destruct t; try done; simpl; unfold DeleteERC20NativePointer, DeleteERC20CW20Pointer, DeleteERC721CW721Pointer,
        DeleteERC1155CW1155Pointer, GetERC20NativePointer, GetERC20CW20Pointer, GetERC721CW721Pointer, GetERC1155CW1155Pointer;
      match goal with |- context [GetPointerInfo tr w _ ?n] =>
        destruct (delete_erc w r tr _ token v n Hnc Hh Ht Hv) as (w' & r' & E & ? & ?) end;
      exists w', r'; (split; [exact (f_equal (λ o, let* x := o in Ret (x, None)) E)|done]).
Qed.

Definition no_pointers (w : World) : Prop := (∀ s, w_evm w !! (x15 :: s) = None) ∧ ∀ s, w_evm w !! (x17 :: s) = None.

Lemma holds_empty (w : World) : no_pointers w → holds w (mkRegistry ∅ ∅).
Proof.
  intros [H15 H17]. split; simpl.
  - intros t p v _ _. by rewrite lookup_empty, <- (H15 (type_byte t :: p ++ PutUint16 v)).
  - intros s [x Hx]. by rewrite H15 in Hx.
  - intros a v _. by rewrite lookup_empty, <- (H17 (ba a ++ PutUint16 v)).
  - intros s [x Hx]. by rewrite H17 in Hx.
  - intros t p v x. by rewrite lookup_empty.
  - intros a v x. by rewrite lookup_empty.
Qed.

Lemma exec_ops_refines `{HBL : !Bech32Laws} (ops : list PointerOp) (w : World) (r : Registry) :
  no_confusion → Forall legal_op ops → holds w r →
  ∃ w' es r', exec_ops ops w = Ret (w', es) ∧ table_ops r ops r' es ∧ holds w' r'.
Proof.
  intros Hnc Hops. revert w r. induction Hops as [|op ops Hop _ IH]; intros w r Hh.
  { exists w, [], r. split_and!; [done|constructor|done]. }
  destruct (exec_op_refines op w r Hnc Hop Hh) as (w1 & e & r1 & E & Ht & Hh1).
  destruct (IH w1 r1 Hh1) as (w2 & es & r2 & E2 & Ht2 & Hh2).
  exists w2, (e :: es), r2. split_and!; [|by econstructor|done]. simpl. rewrite E. simpl. by rewrite E2.
Qed.

Lemma get_erc_latest (w : World) (r : Registry) tr t p :
  no_confusion → holds w r → tokens t p → erc_type t = false →
  ∃ o, get_erc t tr w p = Ret ((λ e, (BytesToAddress e.1, e.2)) <$> o) ∧ is_latest (λ v, rg_pointer r !! (t, p, v)) o.
Proof.
  intros Hnc Hh Hp Het.
  assert (H : ∀ n, ∃ o, to_address (GetPointerInfo tr w (type_key t p) n) = Ret ((λ e, (BytesToAddress e.1, e.2)) <$> o) ∧
    is_latest (λ v, rg_pointer r !! (t, p, v)) o).
  { intros n. destruct (GetPointerInfo_latest w r tr t p n Hnc Hh Hp) as (o & -> & HL). by exists o. }
  destruct t; try done; apply H.
Qed.

Lemma get_cw_latest `{HBL : !Bech32Laws} (w : World) (r : Registry) tr t a :
  no_confusion → holds w r → tokens t (ba a) → erc_type t = true →
  ∃ o, get_cw t tr w a = Ret o ∧ is_latest (λ v, rg_pointer r !! (t, ba a, v)) ((λ e, (acc_String e.1, e.2)) <$> o) ∧
    ∀ p v, o = Some (p, v) → legal_account p.
Proof.
  intros Hnc Hh Hp Het.
  assert (H : ∀ n, ∃ o, to_account (GetPointerInfo tr w (type_key t (ba a)) n) = Ret o ∧
    is_latest (λ v, rg_pointer r !! (t, ba a, v)) ((λ e, (acc_String e.1, e.2)) <$> o) ∧
    ∀ p v, o = Some (p, v) → legal_account p).
  { intros n. destruct (GetPointerInfo_latest w r tr t (ba a) n Hnc Hh Hp) as (o & -> & HL).
    destruct (to_account_legal r t (ba a) o Het) as (oa & -> & -> & Hleg); [|done|by exists oa].
    intros v x Hx. by apply (holds_legal _ _ Hh) in Hx as (_ & _ & ?). }
  destruct t; try done; apply H.
Qed.

(** The registry is a table.  From an empty registry, any run of setters (of
    any version) and deletions over tokens of which none is a prefix of another
    of its kind returns, with the errors of the table: a token that is itself a
    pointer is refused.  Afterwards every getter of every kind, tracing or not,
    returns the entry of the latest version in the table, and so does the lookup
    of the token of a pointer. *)
Theorem pointer_registry_refines `{HBL : !Bech32Laws} (ops : list PointerOp) (w : World) :
  no_pointers w → no_confusion → Forall legal_op ops →
  ∃ w' es r, exec_ops ops w = Ret (w', es) ∧ table_ops (mkRegistry ∅ ∅) ops r es ∧
    (∀ tr t p, tokens t p → erc_type t = false →
      ∃ o, get_erc t tr w' p = Ret ((λ e, (BytesToAddress e.1, e.2)) <$> o) ∧ is_latest (λ v, rg_pointer r !! (t, p, v)) o) ∧
    (∀ tr t a, tokens t (ba a) → erc_type t = true →
      ∃ o, get_cw t tr w' a = Ret o ∧ is_latest (λ v, rg_pointer r !! (t, ba a, v)) ((λ e, (acc_String e.1, e.2)) <$> o)) ∧
    (∀ a, ∃ o, GetNativePointee w' a = Ret o ∧ is_latest (λ v, rg_token r !! (a, v)) o).
Proof.
  intros Hw Hnc Hops. destruct (exec_ops_refines ops w _ Hnc Hops (holds_empty w Hw)) as (w' & es & r & E & Ht & Hh).
  exists w', es, r. split; [done|]. split; [done|]. split_and!.
  - intros tr t p. by apply get_erc_latest.
  - intros tr t a Hta Het. destruct (get_cw_latest w' r tr t a Hnc Hh Hta Het) as (o & ? & ? & _). by exists o.
  - intros a. by apply GetAnyPointerInfo_latest.
Qed.

End Table.

(** ** Tokens of which one is a prefix of the other *)

Section Confusion.
Context `{BK : BankKeeper B} `{AK : AccountKeeper A}.
Notation World := (World B A).

(** The two entries under the key of the shorter token. *)
Lemma confused_entries (w : World) token c suffix (a b : bytes) k :
  (∀ s, w_evm w !! (x15 :: s) = None) →
  prefix_store (type_key PT_NATIVE token) (<[type_key PT_NATIVE (token ++ c :: suffix) ++ PutUint16 1 := b]>
    (<[type_key PT_NATIVE token ++ PutUint16 1 := a]> (w_evm w))) !! k =
  if decide (k = c :: suffix ++ PutUint16 1) then Some b else if decide (k = PutUint16 1) then Some a else None.
Proof.
  intros Hw. rewrite lookup_prefix_store.
  replace (type_key PT_NATIVE (token ++ c :: suffix) ++ PutUint16 1) with (type_key PT_NATIVE token ++ (c :: suffix ++ PutUint16 1))
    by (unfold type_key; simpl; by rewrite <- app_assoc).
  destruct (decide (k = c :: suffix ++ PutUint16 1)) as [->|H1]; [by rewrite lookup_insert_eq|].
  rewrite lookup_insert_ne by (by intros ?%app_inv_head). destruct (decide (k = PutUint16 1)) as [->|H2]; [by rewrite lookup_insert_eq|].
  rewrite lookup_insert_ne by (by intros ?%app_inv_head). apply Hw.
Qed.

Lemma native_not_reverse token a s s' : PointerERC20NativeKey token ++ s ≠ PointerReverseRegistryKey a ++ s'.
Proof. intros E. apply (f_equal head) in E. by change (Some x15 = Some x17) in E. Qed.

Lemma setPointerInfo_evm pref addr v (w : World) : w_evm (setPointerInfo pref addr v w) = <[pref ++ PutUint16 v := addr]> (w_evm w).
Proof. done. Qed.

Lemma no_reverse_entry (w : World) (token : bytes) :
  (∀ s, w_evm w !! (PointerReverseRegistryKey (BytesToAddress token) ++ s) = None) → cwAddressIsPointer w token = Ret false.
Proof.
  intros H. unfold cwAddressIsPointer, GetAnyPointerInfo.
  assert (prefix_store (PointerReverseRegistryKey (BytesToAddress token)) (w_evm w) = ∅) as ->.
  { apply map_empty. intros k. by rewrite lookup_prefix_store. }
  done.
Qed.

(** What is found under the key of a token is an entry of that token or of one
    whose name extends it, and the greatest key of them. *)
Lemma GetPointerInfo_entry (tr : bool) (w : World) pref n x version : GetPointerInfo tr w pref n = Ret (Some (x, version)) →
  ∃ more v, is_u16 v ∧ w_evm w !! (pref ++ more ++ PutUint16 v) = Some x ∧
    (∀ s, is_Some (w_evm w !! (pref ++ s)) → bytes_le s (more ++ PutUint16 v)) ∧ (more = [] → version = v).
Proof.
  unfold GetPointerInfo. destruct (ReverseIterator_first _) as [[k y]|] eqn:E.
  - apply ReverseIterator_first_Some in E as [Hk Hmax]. rewrite lookup_prefix_store in Hk. destruct (Uint16 k) as [v0|] eqn:Hu; [|done]. intros [= <- <-].
    assert (Hlen : (2 ≤ length k)%nat) by (unfold Uint16 in Hu; by case_bool_decide).
    set (l := drop (length k - 2) k). assert (Hl : length l = 2%nat) by (unfold l; rewrite length_drop; lia).
    assert (Hv : PutUint16 (be_dec l) = l) by (by apply be_enc_dec). pose proof (be_dec_range l) as Hr. rewrite Hl in Hr.
    exists (take (length k - 2) k), (be_dec l). rewrite Hv. unfold l at 2 3. rewrite take_drop. split_and!; [done|done| |].
    + intros s [z Hz]. apply (Hmax s z). by rewrite lookup_prefix_store.
    + intros Hm. assert (Hkl : k = l) by (rewrite <- (take_drop (length k - 2) k), Hm; done).
      rewrite Hkl, <- Hv, Uint16_u16 in Hu by done. by injection Hu.
  - destruct tr; [|done]. apply ReverseIterator_first_None in E. rewrite point_query_none; [done|].
    intros v. by rewrite <- lookup_prefix_store, E.
Qed.

(** The contract [a] is registered for the native token [token] at a version. *)
Definition native_pointer (w : World) (token : bytes) (version : Z) (a : Address) : Prop :=
  is_u16 version ∧ ∃ x, w_evm w !! (PointerERC20NativeKey token ++ PutUint16 version) = Some x ∧ BytesToAddress x = a.

(** The contract is registered for the token or for one whose name extends it; where
    no such other token has a pointer, it is the latest pointer of the token. *)
Definition native_pointer_found (w : World) (token : bytes) (a : Address) : Prop :=
  ∃ more v, native_pointer w (token ++ more) v a ∧
    ((∀ more' v' a', native_pointer w (token ++ more') v' a' → more' = []) →
     more = [] ∧ ∀ v' a', native_pointer w token v' a' → v' ≤ v).

Lemma GetERC20NativePointer_found (tr : bool) (w : World) token a version :
  GetERC20NativePointer tr w token = Ret (Some (a, version)) → native_pointer_found w token a.
Proof.
  unfold GetERC20NativePointer, to_address. destruct (GetPointerInfo _ _ _ _) as [[[x v0]|]|] eqn:E; try done. intros [= <- <-].
  apply GetPointerInfo_entry in E as (more & v & Hv & Hx & Hmax & _). exists more, v.
  assert (Hk : ∀ m v', PointerERC20NativeKey (token ++ m) ++ PutUint16 v' = PointerERC20NativeKey token ++ m ++ PutUint16 v')
    by (intros; unfold PointerERC20NativeKey; by rewrite <- !app_assoc).
  assert (Hn : native_pointer w (token ++ more) v (BytesToAddress x)) by (split; [done|]; exists x; by rewrite Hk).
  split; [done|]. intros Hfree. assert (more = []) as -> by (by eapply Hfree). split; [done|].
  intros v' a' (Hv' & y & Hy & _). apply (be_enc_le 2); [done..|]. apply (Hmax (PutUint16 v')). by exists y.
Qed.

(** A native token whose name is a prefix of another one loses its pointer
    to it.  In an empty registry, register a pointer for a token and then one for
    a token whose name extends it (by a byte other than zero): the getter returns
    the pointer of the second token for the first. *)
Theorem native_pointer_confused (isTracing : bool) (token : bytes) (c : byte) (suffix : bytes) (a b : Address) (w : World) :
  no_pointers w → c ≠ x00 → BytesToAddress (token ++ c :: suffix) ≠ a →
  ∃ w1 w2 version, SetERC20NativePointer token a w = Ret (w1, None) ∧
    SetERC20NativePointer (token ++ c :: suffix) b w1 = Ret (w2, None) ∧
    GetERC20NativePointer isTracing w2 token = Ret (Some (b, version)).
Proof.
  intros [H15 H17] Hc Ha.
  set (w1 := setPointerInfo (PointerReverseRegistryKey a) token 1 (setPointerInfo (PointerERC20NativeKey token) (ba a) 1 w)).
  set (w2 := setPointerInfo (PointerReverseRegistryKey b) (token ++ c :: suffix) 1
    (setPointerInfo (PointerERC20NativeKey (token ++ c :: suffix)) (ba b) 1 w1)).
  exists w1, w2. unfold SetERC20NativePointer, SetERC20NativePointerWithVersion, set_pointer.
  rewrite (no_reverse_entry w) by (intros s; apply H17).
  rewrite (no_reverse_entry w1).
  2:{ intros s. unfold w1. rewrite setPointerInfo_evm. rewrite setPointerInfo_evm.
      rewrite lookup_insert_ne; [rewrite lookup_insert_ne by apply native_not_reverse; apply H17|]. intros E. apply Ha.
      apply app_inj_1 in E as [E _].
      - unfold PointerReverseRegistryKey in E. by apply app_inv_head, ba_inj in E.
      - unfold PointerReverseRegistryKey. by rewrite !length_app, !ba_length. }
  set (k := c :: suffix ++ PutUint16 1).
  assert (Hfirst : ReverseIterator_first (prefix_store (PointerERC20NativeKey token) (w_evm w2)) = Some (k, ba b)).
  { assert (Hlook : ∀ k', prefix_store (PointerERC20NativeKey token) (w_evm w2) !! k' =
      if decide (k' = k) then Some (ba b) else if decide (k' = PutUint16 1) then Some (ba a) else None).
    { intros k'. transitivity (prefix_store (type_key PT_NATIVE token) (<[type_key PT_NATIVE (token ++ c :: suffix) ++ PutUint16 1 := ba b]>
        (<[type_key PT_NATIVE token ++ PutUint16 1 := ba a]> (w_evm w))) !! k'); [|by apply confused_entries].
      rewrite !lookup_prefix_store.
      unfold w2, w1. do 4 rewrite setPointerInfo_evm.
      rewrite lookup_insert_ne by (intros E; symmetry in E; by apply native_not_reverse in E).
      rewrite (insert_insert_ne _ (PointerERC20NativeKey (token ++ c :: suffix) ++ _)) by apply native_not_reverse.
      by rewrite lookup_insert_ne by (intros E; symmetry in E; by apply native_not_reverse in E). }
    apply ReverseIterator_first_Some. split; [by rewrite Hlook, decide_True by done|]. intros k' v'. rewrite Hlook.
    destruct (decide _) as [->|_]; [intros _; apply bytes_le_refl|]. destruct (decide _) as [->|_]; [intros _|done].
    change (bytes_leb [x00; x01] (c :: suffix ++ PutUint16 1) = true). cbn [bytes_leb]. pose proof (bval_range c). assert (bval c ≠ 0) by (intros E; by apply Hc, bval_inj).
    change (bval x00) with 0. destruct (Z.ltb_spec 0 (bval c)); [done|lia]. }
  assert (Hk : Uint16 k = Ret (be_dec (take 2 k))).
  { unfold Uint16. rewrite bool_decide_true; [done|]. unfold k. rewrite length_cons, length_app. unfold PutUint16. rewrite length_be_enc. lia. }
  exists (be_dec (take 2 k)). unfold GetERC20NativePointer, GetPointerInfo. rewrite Hfirst, Hk. cbn -[BytesToAddress be_dec].
  by rewrite BytesToAddress_ba.
Qed.
End Confusion.

(** * Examples *)

(** Addresses marked by a byte. *)
Definition marked_bech32 : Bech32 := {|
  acc_String a := x74 :: a;
  AccAddressFromBech32 s := match s with x74 :: a => Some a | _ => None end
|}.
Lemma marked_bech32_laws : @Bech32Laws marked_bech32.
Proof. by split. Qed.

Section PointerExamples.
#[local] Existing Instances demo_bank_keeper demo_accounts marked_bech32 marked_bech32_laws.

(** Names of three letters, and addresses of the EVM. *)
Definition demo_tokens (t : PointerType) (p : bytes) : Prop := length p = if erc_type t then 20%nat else 3%nat.
Definition demo_ops : list PointerOp :=
  [OpSetERC PT_NATIVE [x61; x62; x63] (fit 20 [x01]) 1; OpSetCW PT_ERC20 (fit 20 [x02]) [x05; x06] 2;
   OpSetERC PT_NATIVE [x61; x62; x63] (fit 20 [x03]) 2; OpSetCW PT_ERC721 (fit 20 [x01]) [x07] 6;
   OpDelete false PT_ERC20 (ba (fit 20 [x02])) 2].

Lemma demo_no_confusion : no_confusion demo_tokens.
Proof.
  split.
  - unfold demo_tokens. intros t p q Hp Hq. rewrite length_app in Hq. destruct q; [done|]. simpl in Hq. lia.
  - unfold demo_tokens. intros t p Hp Ht. by rewrite Ht in Hp.
Qed.

Lemma pointer_registry_refines_witness : ∃ w' es r,
  exec_ops "" 0 demo_ops demo_world0 = Ret (w', es) ∧ table_ops (mkRegistry ∅ ∅) demo_ops r es ∧
  ∃ o, get_erc "" 0 PT_NATIVE false w' [x61; x62; x63] = Ret ((λ e, (BytesToAddress e.1, e.2)) <$> o) ∧
    is_latest (λ v, rg_pointer r !! (PT_NATIVE, [x61; x62; x63], v)) o.
Proof.
  destruct (pointer_registry_refines "" 0 demo_tokens demo_ops demo_world0) as (w' & es & r & E & Ht & Hg & _).
  - split; intros s; apply lookup_empty.
  - apply demo_no_confusion.
  - repeat constructor; simpl; done || lia.
  - exists w', es, r. split; [done|]. split; [done|]. by apply Hg.
Defined.

Lemma native_pointer_confused_witness : ∃ w1 w2 version,
  SetERC20NativePointer [x61; x62] (fit 20 [x01]) demo_world0 = Ret (w1, None) ∧
  SetERC20NativePointer [x61; x62; x63] (fit 20 [x02]) w1 = Ret (w2, None) ∧
  GetERC20NativePointer false w2 [x61; x62] = Ret (Some (fit 20 [x02], version)).
Proof.
  apply (native_pointer_confused false [x61; x62] x63 [] (fit 20 [x01]) (fit 20 [x02]) demo_world0).
  - split; intros s; apply lookup_empty.
  - done.
  - done.
Defined.
End PointerExamples.
