(* ===== verification/Heap.v ===== *)
(** * Go's container/heap

    The binary heap of the Go library over a slice: [Push] appends an element
    and moves it up, [Pop] swaps the root with the last element, moves the new
    root down and takes the last element off.  Both keep the heap order, and
    [Pop] returns a least element. *)

From S2P Require Import Prelude.

Section Heap.
Context {A : Type}.
(** [Less] of the interface, on elements. *)
Variable less : A → A → bool.

Definition parent (j : nat) : nat := (j - 1) / 2.

Definition less_at (l : list A) (i j : nat) : bool :=
  match l !! i, l !! j with Some x, Some y => less x y | _, _ => false end.

Definition swap (i j : nat) (l : list A) : list A :=
  match l !! i, l !! j with Some x, Some y => <[i := y]> (<[j := x]> l) | _, _ => l end.

(** The loops; an index at least halves on the way up and doubles on the way
    down, so as many rounds as there are elements are enough. *)
Fixpoint up (rounds : nat) (l : list A) (j : nat) : list A :=
  match rounds with
  | O => l
  | S r =>
      let i := parent j in
      if bool_decide (i = j) || negb (less_at l j i) then l
      else up r (swap i j l) i
  end.

Fixpoint down (rounds : nat) (l : list A) (i n : nat) : list A :=
  match rounds with
  | O => l
  | S r =>
      let j1 := 2 * i + 1 in
      if n <=? j1 then l else
      let j2 := j1 + 1 in
      let j := if (j2 <? n) && less_at l j2 j1 then j2 else j1 in
      if negb (less_at l j i) then l else down r (swap i j l) j n
  end.

Definition Push (x : A) (h : list A) : list A :=
  let h' := h ++ [x] in up (length h') h' (length h' - 1).

(** [None]: the heap is empty, where Go's [Pop] panics. *)
Definition Pop (h : list A) : option (A * list A) :=
  match h with
  | [] => None
  | _ =>
      let n := length h - 1 in
      let h' := down (length h) (swap 0 n h) 0 n in
      (λ x, (x, take n h')) <$> h' !! n
  end.

(** ** Swapping *)

Lemma lookup_swap l i j x y k : l !! i = Some x → l !! j = Some y →
  swap i j l !! k = if decide (k = i) then Some y else if decide (k = j) then Some x else l !! k.
Proof.
  intros Hi Hj. unfold swap. rewrite Hi, Hj. pose proof (lookup_lt_Some _ _ _ Hi). pose proof (lookup_lt_Some _ _ _ Hj).
  case_decide as Eki; [subst; rewrite list_lookup_insert_eq; [done|by rewrite length_insert]|].
  rewrite list_lookup_insert_ne by done.
  case_decide as Ekj; [subst; by rewrite list_lookup_insert_eq|]. by rewrite list_lookup_insert_ne.
Qed.

Lemma length_swap i j l : length (swap i j l) = length l.
Proof. unfold swap. repeat case_match; rewrite ?length_insert; done. Qed.

Lemma swap_perm i j l : swap i j l ≡ₚ l.
Proof.
  unfold swap. destruct (l !! i) as [x|] eqn:Hi; [|done]. destruct (l !! j) as [y|] eqn:Hj; [|done].
  by apply Permutation_insert_swap.
Qed.

Lemma up_perm r l j : up r l j ≡ₚ l.
Proof.
  revert l j. induction r as [|r IH]; intros l j; simpl; [done|]. destruct (_ || _); [done|]. by rewrite IH, swap_perm.
Qed.

Lemma down_perm r l i n : down r l i n ≡ₚ l.
Proof.
  revert l i. induction r as [|r IH]; intros l i; [done|]. cbn [down]. destruct (n <=? 2 * i + 1); [done|].
  destruct (negb _); [done|]. by rewrite IH, swap_perm.
Qed.

(** ** The heap order

    For a total preorder [R] with [less] as its strict part. *)

Variable R : A → A → Prop.
Hypothesis R_trans : Transitive R.
Hypothesis less_R : ∀ x y, less x y = true → R x y.
Hypothesis not_less_R : ∀ x y, less x y = false → R y x.

(** [R] between the elements at two indices, where both exist. *)
Definition below (l : list A) (i j : nat) : Prop := ∀ x y, l !! i = Some x → l !! j = Some y → R x y.

(** The first [n] elements are in heap order, but perhaps not the edge above
    [hole]. *)
Definition heap_above (l : list A) (n hole : nat) : Prop :=
  (∀ k, 0 < k < n → k ≠ hole → below l (parent k) k) ∧
  (∀ c, 0 < c < n → parent c = hole → 0 < hole → below l (parent hole) c).
(** The same for the edges below [hole]. *)
Definition heap_below (l : list A) (n hole : nat) : Prop :=
  (∀ k, 0 < k < n → parent k ≠ hole → below l (parent k) k) ∧
  (∀ c, 0 < c < n → parent c = hole → 0 < hole → below l (parent hole) c).
Definition heap (l : list A) (n : nat) : Prop := ∀ k, 0 < k < n → below l (parent k) k.

Lemma parent_spec k : 0 < k → k = 2 * parent k + 1 ∨ k = 2 * parent k + 2.
Proof.
  intros Hk. unfold parent. pose proof (Nat.div_mod (k - 1) 2). pose proof (Nat.mod_upper_bound (k - 1) 2). lia.
Qed.

Lemma parent_lt k : 0 < k → parent k < k.
Proof. intros Hk. destruct (parent_spec k Hk); lia. Qed.

Lemma parent_child k i : 0 < k → parent k = i ↔ k = 2 * i + 1 ∨ k = 2 * i + 2.
Proof. intros Hk. destruct (parent_spec k Hk); lia. Qed.

Lemma below_trans l i j k : is_Some (l !! j) → below l i j → below l j k → below l i k.
Proof. intros [y Hy] H1 H2 x z Hx Hz. by apply (R_trans x y z); [apply H1|apply H2]. Qed.

Lemma lookup_is_Some l (i n : nat) : i < n → n ≤ length l → ∃ x : A, l !! i = Some x.
Proof. intros Hi Hn. apply lookup_lt_is_Some. lia. Qed.

(** ** Moving up *)

Lemma up_step l n j : n ≤ length l → 0 < j < n → heap_above l n j → less_at l j (parent j) = true →
  heap_above (swap (parent j) j l) n (parent j).
Proof.
  intros Hn Hj [Hk Hc] Hless. pose proof (parent_lt j ltac:(lia)) as Hp. set (i := parent j) in *.
  destruct (lookup_is_Some l j n) as [x Hx]; [lia|done|]. destruct (lookup_is_Some l i n) as [y Hy]; [lia|done|].
  unfold less_at in Hless. rewrite Hx, Hy in Hless. apply less_R in Hless.
  pose proof (λ k, lookup_swap l i j y x k Hy Hx) as E. split.
  - intros k Hkn Hki u v. rewrite !E. rewrite (decide_False (P := k = i)) by done.
    destruct (decide (k = j)) as [->|Hkj].
    { fold i. rewrite decide_True by done. by intros [= <-] [= <-]. }
    destruct (decide (parent k = i)) as [Epi|Epi].
    { intros [= <-] Hv. apply (R_trans _ y); [done|]. apply (Hk k Hkn Hkj); [by rewrite Epi|done]. }
    destruct (decide (parent k = j)) as [Epj|Epj].
    { intros [= <-] Hv. by apply (Hc k Hkn Epj ltac:(lia)). }
    by apply Hk.
  - intros c Hcn Hci Hi u v. pose proof (parent_lt i Hi). rewrite !E.
    rewrite (decide_False (P := parent i = i)), (decide_False (P := parent i = j)) by lia.
    assert (Hci' : c ≠ i) by (intros ->; lia). rewrite (decide_False (P := c = i)) by done.
    assert (Hui : ∀ u, l !! parent i = Some u → R u y) by (intros u' Hu'; apply (Hk i ltac:(lia) ltac:(lia)); done).
    destruct (decide (c = j)) as [->|Hcj]; [intros Hu [= <-]; by apply Hui|].
    intros Hu Hv. apply (R_trans _ y); [by apply Hui|]. apply (Hk c Hcn Hcj); [by rewrite Hci|done].
Qed.

Lemma up_heap r l n j : n ≤ length l → j < n → j < r → heap_above l n j → heap (up r l j) n.
Proof.
  revert l j. induction r as [|r IH]; intros l j Hn Hj Hr Hh; [lia|]. cbn [up].
  destruct (decide (j = 0)) as [->|H0].
  { rewrite bool_decide_true by done. simpl. intros k Hk. apply Hh; lia. }
  pose proof (parent_lt j ltac:(lia)). rewrite bool_decide_false by lia. simpl.
  destruct (less_at l j (parent j)) eqn:E; simpl.
  - apply IH; [by rewrite length_swap|lia|lia|]. by apply up_step; [|lia| |].
  - intros k Hk. destruct (decide (k = j)) as [->|Hne]; [|by apply Hh].
    intros u v Hu Hv. unfold less_at in E. rewrite Hv, Hu in E. by apply not_less_R.
Qed.

(** ** Moving down *)

Lemma down_step l n i j : n ≤ length l → i < n → 0 < j < n → parent j = i → heap_below l n i → less_at l j i = true →
  (∀ k, 0 < k < n → parent k = i → below l j k) → heap_below (swap i j l) n j.
Proof.
  intros Hn Hi Hj Hji [Hk Hc] Hless Hmin. pose proof (parent_lt j ltac:(lia)) as Hp. rewrite Hji in Hp.
  destruct (lookup_is_Some l j n) as [x Hx]; [lia|done|]. destruct (lookup_is_Some l i n) as [y Hy]; [lia|done|].
  unfold less_at in Hless. rewrite Hx, Hy in Hless. apply less_R in Hless.
  pose proof (λ k, lookup_swap l i j y x k Hy Hx) as E. split.
  - intros k Hkn Hkj u v. rewrite !E. rewrite (decide_False (P := parent k = j)) by done.
    pose proof (parent_lt k ltac:(lia)).
    destruct (decide (parent k = i)) as [Epi|Epi].
    { rewrite (decide_False (P := k = i)) by lia. intros [= <-].
      destruct (decide (k = j)) as [->|]; [by intros [= <-]|]. intros Hv. by apply (Hmin k Hkn Epi). }
    destruct (decide (k = i)) as [->|Hki].
    { intros Hu [= <-]. by apply (Hc j Hj Hji ltac:(lia)). }
    rewrite (decide_False (P := k = j)) by (intros ->; done). by apply Hk.
  - intros c Hcn Hcj _ u v. rewrite Hji, !E. rewrite decide_True by done. pose proof (parent_lt c ltac:(lia)).
    rewrite (decide_False (P := c = i)), (decide_False (P := c = j)) by lia.
    intros [= <-] Hv. apply (Hk c Hcn); [lia|by rewrite Hcj|done].
Qed.

Lemma down_heap r l i n : n ≤ length l → n < r + i → heap_below l n i → heap (down r l i n) n.
Proof.
  revert l i. induction r as [|r IH]; intros l i Hn Hr Hh; cbn [down].
  { intros k Hk. apply Hh; [done|]. pose proof (parent_lt k ltac:(lia)). lia. }
  destruct (Nat.leb_spec n (2 * i + 1)) as [Hle|Hlt].
  { intros k Hk. apply Hh; [done|]. intros Hp%parent_child; lia. }
  set (j := if (2 * i + 1 + 1 <? n) && less_at l (2 * i + 1 + 1) (2 * i + 1) then 2 * i + 1 + 1 else 2 * i + 1).
  assert (Hj : 0 < j < n ∧ parent j = i ∧ ∀ k, 0 < k < n → parent k = i → below l j k).
  { assert (Hrefl : ∀ k, below l k k).
    { intros k u v Hu Hv. assert (u = v) as -> by congruence. destruct (less v v) eqn:Ev; auto. }
    subst j. destruct (Nat.ltb_spec (2 * i + 1 + 1) n) as [H2|H2]; cbn [andb].
    2:{ split; [lia|]. split; [apply parent_child; lia|]. intros k Hk [-> | ->]%parent_child; [apply Hrefl|lia..]. }
    destruct (lookup_is_Some l (2 * i + 1 + 1) n) as [x2 Hx2]; [lia|done|].
    destruct (lookup_is_Some l (2 * i + 1) n) as [x1 Hx1]; [lia|done|].
    unfold less_at. rewrite Hx2, Hx1. replace (2 * i + 2) with (2 * i + 1 + 1) in * by lia.
    destruct (less x2 x1) eqn:El; (split; [lia|]); (split; [apply parent_child; lia|]);
      intros k Hk Hp%parent_child; [|lia| |lia]; replace (2 * i + 2) with (2 * i + 1 + 1) in Hp by lia;
      destruct Hp as [-> | ->]; try apply Hrefl; intros u v Hu Hv; simplify_eq; auto. }
  destruct Hj as (Hjn & Hji & Hmin).
  destruct (less_at l j i) eqn:E; cbn [negb].
  - apply IH; [by rewrite length_swap| |]; [apply parent_child in Hji; lia|]. apply down_step; try done. lia.
  - intros k Hk. destruct (decide (parent k = i)) as [Hp|Hp]; [|by apply Hh]. rewrite Hp.
    destruct (lookup_is_Some l j n) as [x Hx]; [lia|done|]. apply (below_trans l i j k); [by eexists| |by apply Hmin].
    intros u v Hu Hv. unfold less_at in E. rewrite Hv, Hu in E. by apply not_less_R.
Qed.

(** The elements from [n] on stay where they are. *)
Lemma down_lookup_ge r l i n k : n ≤ length l → n ≤ k → down r l i n !! k = l !! k.
Proof.
  revert l i. induction r as [|r IH]; intros l i Hn Hk; [done|]. cbn [down].
  destruct (Nat.leb_spec n (2 * i + 1)) as [Hle|Hlt]; [done|]. set (j := if _ && _ then _ else _).
  assert (Hj : j < n).
  { subst j. destruct (Nat.ltb_spec (2 * i + 1 + 1) n); cbn [andb]; [destruct (less_at _ _ _)|]; lia. }
  destruct (negb _); [done|]. rewrite IH by (rewrite ?length_swap; lia).
  destruct (lookup_is_Some l j n) as [x Hx]; [lia|done|]. destruct (lookup_is_Some l i n) as [y Hy]; [lia|done|].
  rewrite (lookup_swap l i j y x) by done. by rewrite !decide_False by lia.
Qed.

(** ** The root *)

Lemma heap_root l k : heap l (length l) → 0 < k → below l 0 k.
Proof.
  intros Hh. induction (lt_wf k) as [k _ IH]. intros Hk x y Hx Hy. pose proof (lookup_lt_Some _ _ _ Hy).
  pose proof (parent_lt k Hk) as Hp. destruct (decide (parent k = 0)) as [E|E].
  { apply (Hh k); [lia|by rewrite E|done]. }
  destruct (lookup_is_Some l (parent k) (length l)) as [z Hz]; [lia|done|].
  apply (R_trans _ z); [by apply (IH (parent k)); [lia|lia|..]|]. by apply (Hh k); [lia|..].
Qed.

(** ** The operations *)

Lemma heap_nil : heap [] 0.
Proof. intros k Hk. lia. Qed.

Lemma Push_spec x h : heap h (length h) → heap (Push x h) (length (Push x h)) ∧ Push x h ≡ₚ x :: h.
Proof.
  intros Hh. unfold Push. assert (Hp : up (length (h ++ [x])) (h ++ [x]) (length (h ++ [x]) - 1) ≡ₚ x :: h).
  { rewrite up_perm. by rewrite Permutation_app_comm. }
  split; [|done]. rewrite (Permutation_length Hp). rewrite length_app. simpl length.
  replace (length h + 1 - 1) with (length h) by lia.
  apply up_heap; [rewrite length_app; simpl; lia|lia|lia|]. split.
  - intros k Hk Hkh u v Hu Hv. rewrite lookup_app_l in Hv by lia.
    pose proof (parent_lt k ltac:(lia)). rewrite lookup_app_l in Hu by lia. by apply (Hh k); [lia|..].
  - intros c Hc Hp' H0. apply parent_child in Hp'; lia.
Qed.

Lemma Pop_spec h : heap h (length h) → h ≠ [] →
  ∃ x h', Pop h = Some (x, h') ∧ h ≡ₚ x :: h' ∧ heap h' (length h') ∧ Forall (R x) h'.
Proof.
  intros Hh Hne. destruct h as [|x0 t] eqn:Eh; [done|]. rewrite <- Eh in *. assert (Hx : h !! 0 = Some x0) by by subst.
  assert (Hlen : length h = S (length t)) by by subst. set (n := length h - 1).
  destruct (lookup_is_Some h n (length h)) as [z Hz]; [lia|done|].
  set (s := swap 0 n h). set (h' := down (length h) s 0 n).
  assert (Hs : length s = length h) by apply length_swap.
  assert (Hl' : length h' = length h) by (unfold h'; by rewrite (Permutation_length (down_perm _ _ _ _))).
  assert (Hn : h' !! n = Some x0).
  { unfold h'. rewrite down_lookup_ge by lia. unfold s. rewrite (lookup_swap h 0 n x0 z) by done.
    destruct (decide (n = 0)) as [E|E]; [rewrite E in Hz; congruence|]. by rewrite decide_True by done. }
  exists x0, (take n h').
  assert (Hpop : Pop h = Some (x0, take n h')).
  { unfold Pop. fold n s h'. rewrite Hn. subst h. done. }
  assert (Hperm : h ≡ₚ x0 :: take n h').
  { rewrite <- (swap_perm 0 n h) at 1. fold s. rewrite <- (down_perm (length h) s 0 n). fold h'.
    rewrite <- (take_drop_middle h' n x0 Hn) at 1. rewrite (drop_ge h') by lia. by rewrite Permutation_app_comm. }
  split_and!; [done|done| |].
  - rewrite length_take. replace (n `min` length h') with n by lia. intros k Hk u v Hu Hv.
    rewrite lookup_take_lt in Hv by lia. pose proof (parent_lt k ltac:(lia)). rewrite lookup_take_lt in Hu by lia.
    revert u v Hu Hv. apply (down_heap (length h) s 0 n); [lia|lia| |done]. split; [|lia].
    intros k' Hk' Hp' u v. unfold s. rewrite !(lookup_swap h 0 n x0 z) by done. pose proof (parent_lt k' ltac:(lia)).
    rewrite !decide_False by lia. apply Hh. lia.
  - apply Forall_forall. intros y Hy. assert (Hy' : y ∈ h) by (rewrite Hperm; by right).
    apply list_elem_of_lookup in Hy' as [k Hk]. destruct (decide (k = 0)) as [->|Hk0].
    + assert (y = x0) as -> by congruence. destruct (less x0 x0) eqn:E; auto.
    + by apply (heap_root h k); [|lia|..].
Qed.

End Heap.
