(* ===== verification/Bloom.v ===== *)
(** * Bloom filters of log queries
    (evmrpc/bloom.go, and the exact match of evmrpc/filter.go)

    A query for logs names addresses and, for each position, topics.  Before the
    logs of a transaction or a block are read, its bloom is asked whether it can
    have a matching one.  The bloom is made by go-ethereum when the receipt is
    written; the filter never turns away a log that matches. *)

From S2P Require Import Prelude Bytes Store Params Keys World Keeper StateDB Fee Eth Block Instances Receipts.
From Stdlib Require Import Strings.Byte.
Local Open Scope Z_scope.

(** [filters.FilterCriteria] of go-ethereum. *)
Record FilterCriteria : Type := mkFilterCriteria {
  fc_BlockHash : option Hash;
  fc_FromBlock : option Z;
  fc_ToBlock : option Z;
  fc_Addresses : list Address;
  fc_Topics : list (list Hash)
}.

Section Bloom.
Context `{EC : EthCrypto}.

(** ** bloom.go *)

Definition BitMasks : list Z := [1; 2; 4; 8; 16; 32; 64; 128].

(** An array of three indices. *)
Definition bloomIndexes : Type := list Z.

Definition calcBloomIndexes (b : bytes) : bloomIndexes :=
  let h := ba (Keccak256Hash b) in
  (λ i, Z.land (Z.shiftl (bval (nth (2 * i) h x00)) 8) 2047 + bval (nth (2 * i + 1) h x00)) <$> [0; 1; 2]%nat.

(** A clause is a byte slice, [None] the nil one. *)
Definition encode_filter (filter : list (option bytes)) : option (list bloomIndexes) :=
  mapM (λ clause, calcBloomIndexes <$> clause) filter.

Definition EncodeFilters (addresses : list Address) (topics : list (list Hash)) : list (list bloomIndexes) :=
  let filters := replicate (1 + length topics) [] in
  let filters := if (0 <? length addresses)%nat then filters ++ [(λ a : Address, Some (ba a)) <$> addresses] else filters in
  let filters := filters ++ ((λ topicList : list Hash, (λ t : Hash, Some (ba t)) <$> topicList) <$> topics) in
  foldl (λ res filter,
    match filter with
    | [] => res
    | _ => match encode_filter filter with Some bloomBits => res ++ [bloomBits] | None => res end
    end) [] filters.

Definition BloomByteLength : Z := 256.

(** [BitMasks[bit%8]] and the byte of an array of 256 bytes; both indices are in
    range for a bit below 2048. *)
Definition matchBloomIndexes (bloom : Bloom) (idx : bloomIndexes) : bool :=
  forallb (λ bit,
    let whichByte := bval (nth (Z.to_nat (BloomByteLength - 1 - bit / 8)) (ba bloom) x00) in
    let mask := nth (Z.to_nat (bit `mod` 8)) BitMasks 0 in
    negb (Z.land whichByte mask =? 0)) idx.

Definition matchFilter (bloom : Bloom) (filter : list bloomIndexes) : bool := existsb (matchBloomIndexes bloom) filter.

Definition MatchFilters (bloom : Bloom) (filters : list (list bloomIndexes)) : bool := forallb (matchFilter bloom) filters.

(** ** Exact matches (filter.go) *)

Fixpoint matchTopics (topics : list (list Hash)) (eventTopics : list Hash) : bool :=
  match topics with
  | [] => true
  | topicList :: topics' =>
      (match topicList with
       | [] => true
       | _ => match eventTopics with [] => false | t :: _ => existsb (λ topic, bool_decide (topic = t)) topicList end
       end) && matchTopics topics' (tail eventTopics)
  end.

Definition IsLogExactMatch (log : Log) (crit : FilterCriteria) : bool :=
  (bool_decide (fc_Addresses crit = []) || existsb (λ a, bool_decide (l_Address log = a)) (fc_Addresses crit)) &&
  matchTopics (fc_Topics crit) (l_Topics log).

(** ** go-ethereum's blooms

    The three bits of a byte string: the low eleven bits of the first three
    pairs of bytes of its hash.  Bit [n] of a bloom is counted from its end. *)
Definition bloom_values (d : bytes) : list Z :=
  let h := ba (Keccak256Hash d) in
  (λ i, (bval (nth (2 * i) h x00) * 256 + bval (nth (2 * i + 1) h x00)) `mod` 2048) <$> [0; 1; 2]%nat.
Definition bloom_has (b : bytes) (n : Z) : Prop := bloom_bit b (Z.to_nat (255 - n / 8)) (n `mod` 8) = true.
(** All three bits of [d]. *)
Definition bloom_covers (b : bytes) (d : bytes) : Prop := Forall (bloom_has b) (bloom_values d).
(** The bits of a log: of its address and of its topics. *)
Definition bloom_of_log (b : bytes) (l : Log) : Prop :=
  bloom_covers b (ba (l_Address l)) ∧ Forall (λ t : Hash, bloom_covers b (ba t)) (l_Topics l).

(** [CreateBloom] adds the address and the topics of every log. *)
Class EthReceiptsLaws `{ER : EthReceipts} : Prop := {
  CreateBloom_covers : ∀ logs, Forall (bloom_of_log (ba (CreateBloom logs))) logs
}.

(** * Lemmas *)

Lemma calcBloomIndexes_values d : calcBloomIndexes d = bloom_values d.
Proof.
  unfold calcBloomIndexes, bloom_values. apply list_fmap_ext. intros _ i _.
  set (x := bval (nth (2 * i) _ _)). set (y := bval (nth (2 * i + 1) _ _)).
  pose proof (bval_range (nth (2 * i) (ba (Keccak256Hash d)) x00)) as Hx. fold x in Hx.
  pose proof (bval_range (nth (2 * i + 1) (ba (Keccak256Hash d)) x00)) as Hy. fold y in Hy.
  change 2047 with (Z.ones 11). rewrite Z.land_ones, Z.shiftl_mul_pow2 by lia. change (2 ^ 11) with 2048. change (2 ^ 8) with 256.
  change 2048 with (8 * 256). rewrite Z.mul_mod_distr_r by lia.
  pose proof (Z.div_mod x 8 ltac:(lia)). pose proof (Z.mod_pos_bound x 8 ltac:(lia)).
  apply (Z.mod_unique_pos _ _ (x / 8)); lia.
Qed.


Lemma bloom_values_range d n : n ∈ bloom_values d → 0 ≤ n < 2048.
Proof. intros (i & -> & _)%list_elem_of_fmap. apply Z.mod_pos_bound. lia. Qed.

Lemma BitMasks_nth n : 0 ≤ n < 8 → nth (Z.to_nat n) BitMasks 0 = 2 ^ n.
Proof. intros Hn. assert (n = 0 ∨ n = 1 ∨ n = 2 ∨ n = 3 ∨ n = 4 ∨ n = 5 ∨ n = 6 ∨ n = 7) as H by lia.
  repeat destruct H as [-> | H]; [done..|]. by subst. Qed.

Lemma matchBloomIndexes_covers (bloom : Bloom) d : matchBloomIndexes bloom (calcBloomIndexes d) = true ↔ bloom_covers (ba bloom) d.
Proof.
  rewrite calcBloomIndexes_values. unfold matchBloomIndexes, bloom_covers.
  rewrite forallb_forall, Forall_forall. setoid_rewrite <- list_elem_of_In.
  apply forall_proper. intros n. split; intros H Hn; specialize (H Hn); revert H;
    pose proof (Z.mod_pos_bound n 8 ltac:(lia)) as Hm; rewrite BitMasks_nth by lia;
    unfold bloom_has, bloom_bit, BloomByteLength; rewrite <- Z.shiftl_1_l, negb_true_iff, Z.eqb_neq;
    change (256 - 1 - n / 8) with (255 - n / 8).
  - intros H. destruct (Z.testbit _ _) eqn:E; [done|]. exfalso. apply H. apply Z.bits_inj'. intros k Hk.
    rewrite Z.land_spec, Z.bits_0. destruct (decide (k = n `mod` 8)) as [->|Hne]; [by rewrite E|].
    rewrite Z.shiftl_1_l, Z.pow2_bits_false by done. apply andb_false_r.
  - intros E H. apply (f_equal (λ z, Z.testbit z (n `mod` 8))) in H. revert H.
    by rewrite Z.land_spec, Z.bits_0, Z.shiftl_1_l, Z.pow2_bits_true, E by lia.
Qed.

(** The filters of a query: one for the addresses and one for each position
    that names topics. *)
Lemma encode_filter_all (l : list bytes) : encode_filter (Some <$> l) = Some (calcBloomIndexes <$> l).
Proof. unfold encode_filter. apply mapM_Some. rewrite Forall2_fmap. apply Forall_Forall2_diag, Forall_true. done. Qed.

Lemma foldl_encode (l : list (list bytes)) (res : list (list bloomIndexes)) :
  foldl (λ res filter,
    match filter with
    | [] => res
    | _ => match encode_filter filter with Some bloomBits => res ++ [bloomBits] | None => res end
    end) res ((λ c : list bytes, Some <$> c) <$> l) = res ++ ((λ c : list bytes, calcBloomIndexes <$> c) <$> filter (λ c : list bytes, c ≠ []) l).
Proof.
  revert res. induction l as [|c l IH]; intros res; [by rewrite app_nil_r|]. rewrite fmap_cons. cbn [foldl]. rewrite IH.
  destruct c as [|d c]; [done|]. pose proof (encode_filter_all (d :: c)) as E. rewrite filter_cons_True by done.
  rewrite !fmap_cons in *. rewrite E. by rewrite <- app_assoc.
Qed.

Definition clauses (crit : FilterCriteria) : list (list bytes) :=
  filter (λ l, l ≠ []) (((ba <$> fc_Addresses crit) : list bytes) :: ((λ ts : list Hash, ba <$> ts) <$> fc_Topics crit)).

Lemma EncodeFilters_eq crit : EncodeFilters (fc_Addresses crit) (fc_Topics crit) = (λ c : list bytes, calcBloomIndexes <$> c) <$> clauses crit.
Proof.
  unfold EncodeFilters, clauses. cbv zeta.
  set (l := replicate (1 + length (fc_Topics crit)) [] ++ (if (0 <? length (fc_Addresses crit))%nat then [ba <$> fc_Addresses crit] else [])
    ++ ((λ ts : list Hash, ba <$> ts) <$> fc_Topics crit) : list (list bytes)).
  match goal with |- foldl _ [] ?x = _ => assert (x = (λ c : list bytes, Some <$> c) <$> l) as -> end.
  { assert ((λ a : Address, Some (ba a)) <$> fc_Addresses crit = Some <$> (ba <$> fc_Addresses crit)) as -> by (by rewrite <- list_fmap_compose).
    assert ((λ ts : list Hash, (λ t : Hash, Some (ba t)) <$> ts) <$> fc_Topics crit =
      (λ c : list bytes, Some <$> c) <$> ((λ ts : list Hash, ba <$> ts) <$> fc_Topics crit)) as ->.
    { rewrite <- list_fmap_compose. apply list_fmap_ext. intros _ ts _. unfold compose. by rewrite <- list_fmap_compose. }
    unfold l. rewrite !fmap_app, fmap_replicate. destruct (0 <? _)%nat; [by rewrite <- app_assoc|done]. }
  rewrite foldl_encode, app_nil_l. f_equal. unfold l. rewrite !filter_app.
  assert (filter (λ c : list bytes, c ≠ []) (replicate (1 + length (fc_Topics crit)) []) = []) as ->.
  { generalize (1 + length (fc_Topics crit))%nat. intros n. induction n; [done|]. by rewrite replicate_S, filter_cons_False by auto. }
  rewrite app_nil_l. destruct (fc_Addresses crit) as [|a l']; [done|]. simpl. done.
Qed.

(** ** Matches *)

Lemma matchTopics_covers (b : Bloom) topics evs : matchTopics topics evs = true → Forall (λ t : Hash, bloom_covers (ba b) (ba t)) evs →
  Forall (λ ts : list Hash, ts ≠ [] → Exists (λ t : Hash, bloom_covers (ba b) (ba t)) ts) topics.
Proof.
  revert evs. induction topics as [|ts topics IH]; intros evs; simpl; [constructor|]. intros [Hm Hr]%andb_prop Hb. constructor.
  - intros Hne. destruct ts as [|t0 ts]; [done|]. destruct evs as [|t evs]; [done|]. apply Forall_cons in Hb as [Hb _].
    apply existsb_exists in Hm as (x & Hx & ->%bool_decide_eq_true). apply list_elem_of_In in Hx.
    apply Exists_exists. by exists t.
  - apply (IH (tail evs)); [done|]. destruct evs; [done|]. by apply Forall_cons in Hb as [_ ?].
Qed.

Lemma exact_match_passes (b : Bloom) (log : Log) crit : IsLogExactMatch log crit = true → bloom_of_log (ba b) log →
  MatchFilters b (EncodeFilters (fc_Addresses crit) (fc_Topics crit)) = true.
Proof.
  intros [Ha Ht]%andb_prop [Hba Hbt]. rewrite EncodeFilters_eq. unfold MatchFilters. apply forallb_forall. intros f Hf.
  apply list_elem_of_In, list_elem_of_fmap in Hf as (c & -> & Hc). unfold clauses in Hc. apply list_elem_of_filter in Hc as [Hne Hc].
  unfold matchFilter. apply existsb_exists.
  assert (Hex : Exists (bloom_covers (ba b)) c).
  { apply elem_of_cons in Hc as [->|Hc].
    - apply orb_prop in Ha as [E%bool_decide_eq_true|Ha]; [by rewrite E in Hne|].
      apply existsb_exists in Ha as (a & Ha & <-%bool_decide_eq_true). apply list_elem_of_In in Ha. apply Exists_exists.
      exists (ba (l_Address log)). split; [|done]. by apply list_elem_of_fmap_2.
    - apply list_elem_of_fmap in Hc as (ts & -> & Hts).
      pose proof (matchTopics_covers b _ _ Ht Hbt) as H. rewrite Forall_forall in H. specialize (H _ Hts).
      rewrite Exists_fmap. apply H. intros ->. done. }
  apply Exists_exists in Hex as (d & Hd & Hcov). exists (calcBloomIndexes d). split.
  - apply list_elem_of_In, list_elem_of_fmap. by exists d.
  - by apply matchBloomIndexes_covers.
Qed.

End Bloom.
