(* ===== verification/Logs.v ===== *)
(** * Queries for logs
    (the log fetcher of evmrpc/filter.go, evmrpc/worker_pool.go and
    evmrpc/utils.go)

    [eth_getLogs] fetches the blocks of a range in batches, skipping those whose
    bloom rules a match out, collects the matching logs of each block from the
    receipts of its transactions, sorts the logs of each batch and merges the
    batches with a heap.  The batches run on a pool of workers, so blocks and
    batches arrive in any order, and all of them share a cache of blocks and
    receipts.

    The cache is a map; what evictions and other workers do to it between two
    accesses is the function [meanwhile]. *)

From S2P Require Import Prelude Bytes Dec Store Params Keys World Keeper StateDB Fee Eth Block Instances EthTx Msg Receipts Heap Bloom.
From Stdlib Require Import Strings.Byte.
Local Open Scope Z_scope.
Local Open Scope stm_scope.

(** ** Data *)

(** [coretypes.ResultBlock], the parts that are read. *)
Record ResultBlock : Type := mkResultBlock { rb_Hash : bytes; rb_Height : Z; rb_Txs : list bytes }.

(** A log with the hash of its block. *)
Record FoundLog : Type := mkFoundLog { fl_log : EthLog; fl_BlockHash : Hash }.

Record BlockCacheEntry : Type := mkBlockCacheEntry {
  ce_Block : option ResultBlock;
  ce_Bloom : Bloom;
  ce_Receipts : gmap Hash Receipt
}.
(** The cache and the number of accesses so far. *)
Record CacheState : Type := mkCacheState { cs_access : nat; cs_entries : gmap Z BlockCacheEntry }.

Definition zero_bloom : Bloom := fit 256 [].
Definition ShellEVMTxType : Z := 4294967295.
Definition WorkerBatchSize : Z := 100.

Record FilterConfig : Type := mkFilterConfig { cfg_timeout : Z; cfg_maxLog : Z; cfg_maxBlock : Z }.

(** ** Merging sorted batches *)

Definition log_number (l : FoundLog) : Z := lg_BlockNumber (fl_log l).
Definition log_index (l : FoundLog) : Z := l_Index (lg_log (fl_log l)).

Record kWayMergeItem : Type := mkItem { it_log : FoundLog; it_batchIdx : nat; it_itemIdx : nat }.

Definition log_less (a b : FoundLog) : bool :=
  if negb (log_number a =? log_number b) then log_number a <? log_number b else log_index a <? log_index b.
Definition logMergeHeap_Less (a b : kWayMergeItem) : bool := log_less (it_log a) (it_log b).

(** The heap of the first elements of the batches that have one. *)
Fixpoint first_items (i : nat) (batches : list (list FoundLog)) (h : list kWayMergeItem) : list kWayMergeItem :=
  match batches with
  | [] => h
  | [] :: rest => first_items (S i) rest h
  | (l :: _) :: rest => first_items (S i) rest (Push logMergeHeap_Less (mkItem l i 0) h)
  end.

(** Every round takes one log; [None]: the heap is not empty after that many. *)
Fixpoint merge_loop (rounds : nat) (batches : list (list FoundLog)) (h : list kWayMergeItem) (res : list FoundLog)
    : option (list FoundLog) :=
  match Pop logMergeHeap_Less h with
  | None => Some res
  | Some (item, h') =>
      match rounds with
      | O => None
      | S r =>
          let nextItemIdx := S (it_itemIdx item) in
          let h'' := match batches !! it_batchIdx item ≫= (.!! nextItemIdx) with
                     | Some l => Push logMergeHeap_Less (mkItem l (it_batchIdx item) nextItemIdx) h'
                     | None => h'
                     end in
          merge_loop r batches h'' (res ++ [it_log item])
      end
  end.

Definition mergeSortedLogs (batches : list (list FoundLog)) : option (list FoundLog) :=
  let totalSize := length (mjoin batches) in
  if (totalSize =? 0)%nat then Some [] else merge_loop totalSize batches (first_items 0 batches []) [].

(** ** The cache *)

Section Cache.
Variable meanwhile : nat → gmap Z BlockCacheEntry → gmap Z BlockCacheEntry.

Definition cache_Get (height : Z) : stm CacheState (option BlockCacheEntry) := λ s,
  let m := meanwhile (cs_access s) (cs_entries s) in Ret (m !! height, mkCacheState (S (cs_access s)) m).
Definition cache_update (f : gmap Z BlockCacheEntry → gmap Z BlockCacheEntry) : stm CacheState unit :=
  sput (λ s, mkCacheState (cs_access s) (f (cs_entries s))).

Definition getCachedReceipt (blockHeight : Z) (txHash : Hash) : stm CacheState (option Receipt) :=
  let! e := cache_Get blockHeight in sret (e ≫= λ e, ce_Receipts e !! txHash).

(** Entries are pointers: the entry at the height is changed in place. *)
Definition fillMissingFields (block : option ResultBlock) (bloom : Bloom) (e : BlockCacheEntry) : BlockCacheEntry :=
  mkBlockCacheEntry
    (match ce_Block e with None => block | b => b end)
    (if bool_decide (ce_Bloom e = zero_bloom) && negb (bool_decide (bloom = zero_bloom)) then bloom else ce_Bloom e)
    (ce_Receipts e).

Definition loadOrStoreCacheEntry (blockHeight : Z) (block : option ResultBlock) : stm CacheState unit :=
  let fill := match block with
              | Some _ => cache_update (alter (fillMissingFields block zero_bloom) blockHeight)
              | None => sret tt
              end in
  let! e := cache_Get blockHeight in
  match e with
  | Some _ => fill
  | None =>
      let! e := cache_Get blockHeight in
      match e with
      | Some _ => fill
      | None => cache_update (<[blockHeight := mkBlockCacheEntry block zero_bloom ∅]>)
      end
  end.

Definition setCachedReceipt (blockHeight : Z) (block : option ResultBlock) (txHash : Hash) (receipt : Receipt) : stm CacheState unit :=
  do! loadOrStoreCacheEntry blockHeight block;
  cache_update (alter (λ e, mkBlockCacheEntry (ce_Block e) (ce_Bloom e) (<[txHash := receipt]> (ce_Receipts e))) blockHeight).

End Cache.

(** ** The log fetcher *)

(** What the node answers: the latest height, and the latest height when a query
    reads it again (the chain grows meanwhile), its latest state with the receipt
    store, the state at a height (with the height the state really is of), whether the EVM
    store has a version, the blocks of the consensus client by height and by hash
    at the n-th attempt ([None]: no such block), and the codec of transactions. *)
Record Node (B A R : Type) : Type := mkNode {
  nd_latest : Z;
  nd_latest_again : Z;
  nd_world : World B A;
  nd_receipts : R;
  nd_at : Z → Z * World B A;
  nd_VersionExists : Z → bool;
  nd_Block : nat → Z → option ResultBlock + Err;
  nd_BlockByHash : nat → Hash → option ResultBlock + Err;
  nd_TxDecoder : Z → bytes → SdkTx + Err;
  nd_sha256 : bytes → Hash;
  nd_tags : list Z
}.
Arguments nd_latest {B A R}. Arguments nd_latest_again {B A R}. Arguments nd_world {B A R}. Arguments nd_receipts {B A R}. Arguments nd_at {B A R}.
Arguments nd_VersionExists {B A R}. Arguments nd_Block {B A R}. Arguments nd_BlockByHash {B A R}.
Arguments nd_TxDecoder {B A R}. Arguments nd_sha256 {B A R}. Arguments nd_tags {B A R}.

(** What the workers decide: whether the n-th task that fetches blocks, or that
    collects logs, is accepted, and the order in which blocks and batches
    arrive. *)
Record Workers : Type := mkWorkers {
  wk_Submit : nat → option Err;
  wk_SubmitLogs : nat → option Err;
  wk_blocks : list (option ResultBlock) → list (option ResultBlock);
  wk_batches : list (list (option ResultBlock)) → list (list (option ResultBlock))
}.

(** [sort.Slice] on logs. *)
Class SortLogs := { sort_logs : list FoundLog → list FoundLog }.

Section Fetcher.
Context `{BK : BankKeeper B} `{AK : AccountKeeper A} `{EC : EthCrypto} `{CD : Codec} `{EH : EthHex} `{IL : IntLibs}.
Context `{ET : EthTransactions T} `{TC : TxCodec} `{RS : ReceiptStore R} `{SL : SortLogs}.
Variable meanwhile : nat → gmap Z BlockCacheEntry → gmap Z BlockCacheEntry.
Variable nd : Node B A R.
Variable includeSyntheticReceipts : bool.

(** *** utils.go *)

(** The tags are the numbers of the finalized, latest, safe and pending block. *)
Definition getHeightFromBigIntBlockNumber (latest : Z) (blockNumber : Z) : Z :=
  if bool_decide (i64 blockNumber ∈ nd_tags nd) then latest else i64 blockNumber.

(** The first result of at most [1 + retries] attempts. *)
Fixpoint with_retry (get : nat → option ResultBlock + Err) (attempt retries : nat) : option ResultBlock + Err :=
  match get attempt, retries with
  | inr _, S r => with_retry get (S attempt) r
  | res, _ => res
  end.
Definition blockByNumberWithRetry (height : Z) (maxRetries : nat) : ResultBlock + Err :=
  match with_retry (λ n, nd_Block nd n height) 0 maxRetries with
  | inr e => inr e
  | inl None => inr "could not find block for height"%string
  | inl (Some b) => inl b
  end.
Definition blockByHashWithRetry (hash : Hash) (maxRetries : nat) : ResultBlock + Err :=
  match with_retry (λ n, nd_BlockByHash nd n hash) 0 maxRetries with
  | inr e => inr e
  | inl None => inr "could not find block for hash"%string
  | inl (Some b) => inl b
  end.

(** The hashes a transaction of a block counts for. *)
Definition tx_hashes (height : Z) (tx : bytes) : outcome (list Hash) :=
  let synthetic := if includeSyntheticReceipts then [nd_sha256 nd tx] else [] in
  match nd_TxDecoder nd height tx with
  | inr _ => Ret []
  | inl (EVMMsg evmTx :: _) =>
      outcome_bind (IsAssociateTx evmTx) (λ assoc,
      if assoc then Ret [] else
      outcome_bind (AsTransaction evmTx) (λ ethtx,
      match ethtx with
      | None => Panic nil_deref
      | Some (t, _) => Ret (tx_Hash t :: synthetic)
      end))
  | inl _ => Ret synthetic
  end.
Fixpoint txs_hashes (height : Z) (txs : list bytes) : outcome (list Hash) :=
  match txs with
  | [] => Ret []
  | tx :: txs' => outcome_bind (tx_hashes height tx) (λ h, outcome_bind (txs_hashes height txs') (λ hs, Ret (h ++ hs)))
  end.
Definition getTxHashesFromBlock (block : ResultBlock) : outcome (list Hash) := txs_hashes (rb_Height block) (rb_Txs block).

(** *** Collecting the logs of a block *)

(** [ethtypes.Bloom(b)]: a conversion from a slice to an array. *)
Definition to_Bloom (b : bytes) : outcome Bloom :=
  if (length b <? 256)%nat then Panic "cannot convert slice to array" else Ret (fit 256 (take 256 b)).

Definition lift {X : Type} (o : outcome X) : stm CacheState X := λ s, outcome_bind o (λ x, Ret (x, s)).

Definition set_TxIndex (i : Z) (l : EthLog) : EthLog := mkEthLog (lg_log l) (lg_BlockNumber l) (lg_TxHash l) i.

Definition receipt_logs (crit : FilterCriteria) (filters : list (list bloomIndexes)) (applyExactMatch : bool) (receipt : Receipt)
    (totalLogs evmTxIndex : Z) : outcome (list EthLog) :=
  let allLogs := set_TxIndex evmTxIndex <$> GetLogsForTx receipt totalLogs in
  if negb (bool_decide (fc_Addresses crit = [])) || negb (bool_decide (fc_Topics crit = [])) then
    if (0 <? length (rc_LogsBloom receipt))%nat then
      outcome_bind (to_Bloom (rc_LogsBloom receipt)) (λ bloom,
      if MatchFilters bloom filters
      then Ret (if applyExactMatch then filter (λ l, IsLogExactMatch (lg_log l) crit) allLogs else allLogs)
      else Ret [])
    else Ret []
  else Ret allLogs.

Definition skip_receipt (receipt : Receipt) : bool :=
  negb includeSyntheticReceipts && ((rc_TxType receipt =? ShellEVMTxType) || (rc_EffectiveGasPrice receipt =? 0)).

Fixpoint collect_hashes (block : ResultBlock) (crit : FilterCriteria) (filters : list (list bloomIndexes)) (applyExactMatch : bool)
    (hashes : list Hash) (totalLogs evmTxIndex : Z) : stm CacheState (list EthLog) :=
  match hashes with
  | [] => sret []
  | hash :: hashes' =>
      let! cached := getCachedReceipt meanwhile (rb_Height block) hash in
      let! found :=
        match cached with
        | Some receipt => sret (Some receipt)
        | None =>
            match GetReceipt hash (nd_receipts nd) (nd_world nd) with
            | inr _ => sret None
            | inl receipt => do! setCachedReceipt meanwhile (rb_Height block) (Some block) hash receipt; sret (Some receipt)
            end
        end in
      match found with
      | None => collect_hashes block crit filters applyExactMatch hashes' totalLogs evmTxIndex
      | Some receipt =>
          if skip_receipt receipt then collect_hashes block crit filters applyExactMatch hashes' totalLogs evmTxIndex else
          let! logs := lift (receipt_logs crit filters applyExactMatch receipt totalLogs evmTxIndex) in
          let! more := collect_hashes block crit filters applyExactMatch hashes'
            (u64 (totalLogs + Z.of_nat (length (rc_Logs receipt)))) (evmTxIndex + 1) in
          sret (logs ++ more)
      end
  end.

Definition collectLogs (block : ResultBlock) (crit : FilterCriteria) (filters : list (list bloomIndexes)) (applyExactMatch : bool)
    : stm CacheState (list EthLog) :=
  let! hashes := lift (getTxHashesFromBlock block) in collect_hashes block crit filters applyExactMatch hashes 0 0.

(** A nil block is dereferenced. *)
Definition GetLogsForBlockPooled (block : option ResultBlock) (crit : FilterCriteria) (filters : list (list bloomIndexes))
    : stm CacheState (list FoundLog) :=
  match block with
  | None => spanic nil_deref
  | Some b =>
      let! logs := collectLogs b crit filters true in
      sret ((λ l, mkFoundLog l (BytesToHash (rb_Hash b))) <$> logs)
  end.

(** A task of the worker pool: a panic ends the task and is only logged. *)
Definition recovered {X : Type} (m : stm CacheState X) : stm CacheState (option X) := λ s,
  match m s with Ret (x, s') => Ret (Some x, s') | Panic _ => Ret (None, s) end.

Fixpoint batch_logs (batch : list (option ResultBlock)) (crit : FilterCriteria) (filters : list (list bloomIndexes))
    : stm CacheState (list FoundLog) :=
  match batch with
  | [] => sret []
  | b :: batch' =>
      let! logs := GetLogsForBlockPooled b crit filters in
      let! more := batch_logs batch' crit filters in
      sret (logs ++ more)
  end.
Fixpoint sorted_batches (batches : list (list (option ResultBlock))) (crit : FilterCriteria) (filters : list (list bloomIndexes))
    : stm CacheState (list (list FoundLog)) :=
  match batches with
  | [] => sret []
  | batch :: batches' =>
      let! logs := recovered (batch_logs batch crit filters) in
      let! more := sorted_batches batches' crit filters in
      sret (match logs with Some l => [sort_logs l] | None => [] end ++ more)
  end.

(** *** Fetching blocks *)

Definition has_filters (crit : FilterCriteria) : bool :=
  negb (bool_decide (fc_Addresses crit = [])) || negb (bool_decide (fc_Topics crit = [])).

(** The bloom of the block at a height, and whether there is one that can be
    trusted. *)
Definition height_bloom (crit : FilterCriteria) (height : Z) : outcome (Bloom * bool) :=
  if has_filters crit then
    let '(providerHeight, w) := nd_at nd height in
    if (providerHeight =? height) && nd_VersionExists nd providerHeight
    then GetBlockBloomWithExists providerHeight w else Ret (zero_bloom, false)
  else Ret (zero_bloom, false).

(** One height: nothing, a block for the channel, or an error. *)
Definition fetch_height (crit : FilterCriteria) (filters : list (list bloomIndexes)) (height : Z)
    : stm CacheState (option (option ResultBlock) + Err) :=
  if height =? 0 then sret (inl None) else
  let! cachedEntry := cache_Get meanwhile height in
  match cachedEntry with
  | Some e => sret (inl (Some (ce_Block e)))
  | None =>
  let! cachedEntry := cache_Get meanwhile height in
  match cachedEntry with
  | Some e => sret (inl (Some (ce_Block e)))
  | None =>
      let! bloom := lift (height_bloom crit height) in
      if bloom.2 && negb (MatchFilters bloom.1 filters) then sret (inl None) else
      match blockByNumberWithRetry height 1 with
      | inr _ => sret (inr "failed to fetch block at height"%string)
      | inl block =>
          do! loadOrStoreCacheEntry meanwhile height (Some block);
          do! swhen (negb (bool_decide (bloom.1 = zero_bloom))) (cache_update (alter (fillMissingFields (Some block) bloom.1) height));
          sret (inl (Some (Some block)))
      end
  end end.

(** A task over heights: the blocks it sends and the errors it reports; a panic
    ends it. *)
Fixpoint process_heights (crit : FilterCriteria) (filters : list (list bloomIndexes)) (heights : list Z) (s : CacheState)
    : list (option ResultBlock) * list Err * CacheState :=
  match heights with
  | [] => ([], [], s)
  | height :: heights' =>
      match fetch_height crit filters height s with
      | Panic _ => ([], [], s)
      | Ret (r, s1) =>
          let '(bs, es, s2) := process_heights crit filters heights' s1 in
          match r with
          | inl None => (bs, es, s2)
          | inl (Some b) => (b :: bs, es, s2)
          | inr e => (bs, e :: es, s2)
          end
      end
  end.
Definition processBatch (start end_ : Z) (crit : FilterCriteria) (filters : list (list bloomIndexes)) (s : CacheState)
    : list (option ResultBlock) * list Err * CacheState :=
  process_heights crit filters (seqZ start (end_ - start + 1)) s.

Fixpoint process_batches (ranges : list (Z * Z)) (crit : FilterCriteria) (filters : list (list bloomIndexes)) (s : CacheState)
    : list (option ResultBlock) * list Err * CacheState :=
  match ranges with
  | [] => ([], [], s)
  | (start, end_) :: ranges' =>
      let '(bs, es, s1) := processBatch start end_ crit filters s in
      let '(bs', es', s2) := process_batches ranges' crit filters s1 in
      (bs ++ bs', es ++ es', s2)
  end.

Variable wk : Workers.
Variable cfg : FilterConfig.

Definition overloaded : Err := "system overloaded, please reduce request frequency".

(** The tasks that are submitted.  The loop runs over int64: [None] when it has
    not ended after that many rounds, or when a task would not end because its
    last height is the largest int64. *)
Fixpoint batch_ranges (rounds : nat) (n : nat) (batchStart end_ : Z) : option (list (Z * Z) + Err) :=
  if end_ <? batchStart then Some (inl []) else
  match rounds with
  | O => None
  | S r =>
      let batchEnd := i64 (batchStart + WorkerBatchSize - 1) in
      let batchEnd := if end_ <? batchEnd then end_ else batchEnd in
      match wk_Submit wk n with
      | Some _ => Some (inr overloaded)
      | None =>
          if (batchEnd =? maxInt64) && (batchStart <=? batchEnd) then None else
          match batch_ranges r (S n) (i64 (batchStart + WorkerBatchSize)) end_ with
          | Some (inl l) => Some (inl ((batchStart, batchEnd) :: l))
          | res => res
          end
      end
  end.

(** The heights a query is about, when [latest] is the latest height. *)
Definition query_range (latest : Z) (crit : FilterCriteria) (lastToHeight : Z) : Z * Z :=
  let begin := match fc_FromBlock crit with Some n => getHeightFromBigIntBlockNumber latest n | None => latest end in
  let end_ := match fc_ToBlock crit with Some n => getHeightFromBigIntBlockNumber latest n | None => latest end in
  let begin := match fc_ToBlock crit, fc_FromBlock crit with
               | Some _, None => if end_ <? begin then end_ else begin
               | _, _ => begin
               end in
  (if begin <? lastToHeight then lastToHeight else begin, end_).

(** The channel of blocks, the last height and whether the number of logs is
    limited.  The latest height is read again here: an open range that has become
    too long is cut at its beginning. *)
Definition fetchBlocksByCrit (rounds : nat) (crit : FilterCriteria) (lastToHeight : Z) (filters : list (list bloomIndexes))
    : stm CacheState (option (list (option ResultBlock) * Z * bool + Err)) :=
  match fc_BlockHash crit with
  | Some hash =>
      if bool_decide (hash = zero_hash) then sret (Some (inl ([], 0, false))) else
      match blockByHashWithRetry hash 1 with
      | inr _ => sret (Some (inl ([], 0, false)))
      | inl block => sret (Some (inl ([Some block], 0, false)))
      end
  | None =>
      let applyOpenEndedLogLimit := (0 <? cfg_maxLog cfg) &&
        (match fc_FromBlock crit with None => true | _ => false end || match fc_ToBlock crit with None => true | _ => false end) in
      let '(begin, end_) := query_range (nd_latest_again nd) crit lastToHeight in
      let blockRange := i64 (end_ - begin + 1) in
      if negb applyOpenEndedLogLimit && (0 <? cfg_maxBlock cfg) && (cfg_maxBlock cfg <? blockRange)
      then sret (Some (inr "block range too large"%string)) else
      let begin := if applyOpenEndedLogLimit && (cfg_maxBlock cfg <? blockRange)
                   then Z.max 1 (i64 (end_ - cfg_maxBlock cfg + 1)) else begin in
      if end_ <? begin then sret (Some (inr "fromBlock is after toBlock"%string)) else
      if i64 (end_ - begin + 1) <? 0 then spanic "makechan: size out of range" else
      match batch_ranges rounds 0 begin end_ with
      | None => sret None
      | Some (inr e) => sret (Some (inr e))
      | Some (inl ranges) => λ s,
          let '(bs, es, s') := process_batches ranges crit filters s in
          Ret (Some (match es with e :: _ => inr e | [] => inl (wk_blocks wk bs, end_, applyOpenEndedLogLimit) end), s')
      end
  end.

(** *** The whole query *)

(** Batches of [WorkerBatchSize] blocks and a last one. *)
Fixpoint block_batches (blocks batch : list (option ResultBlock)) : list (list (option ResultBlock)) :=
  match blocks with
  | [] => if (0 <? length batch)%nat then [batch] else []
  | b :: blocks' =>
      let batch' := batch ++ [b] in
      if WorkerBatchSize <=? Z.of_nat (length batch') then batch' :: block_batches blocks' [] else block_batches blocks' batch'
  end.
Fixpoint submit_all {X : Type} (n : nat) (l : list X) : option Err :=
  match l with
  | [] => None
  | _ :: l' => match wk_SubmitLogs wk n with Some _ => Some overloaded | None => submit_all (S n) l' end
  end.

(** The logs and the last height; [None] when a loop does not end. *)
Definition GetLogsByFilters (rounds : nat) (crit : FilterCriteria) (lastToHeight : Z)
    : stm CacheState (option (list FoundLog * Z + Err)) :=
  let '(begin, end_) := query_range (nd_latest nd) crit lastToHeight in
  if cfg_maxBlock cfg <? i64 (end_ - begin + 1) then sret (Some (inr "block range too large"%string)) else
  let filters := EncodeFilters (fc_Addresses crit) (fc_Topics crit) in
  let! fetched := fetchBlocksByCrit rounds crit lastToHeight filters in
  match fetched with
  | None => sret None
  | Some (inr e) => sret (Some (inr e))
  | Some (inl (blocks, end_, applyOpenEndedLogLimit)) =>
      let batches := block_batches blocks [] in
      match submit_all 0 batches with
      | Some e => sret (Some (inr e))
      | None =>
          let! sortedBatches := sorted_batches (wk_batches wk batches) crit filters in
          match mergeSortedLogs sortedBatches with
          | None => sret None
          | Some res =>
              let res := if applyOpenEndedLogLimit && (cfg_maxLog cfg <=? Z.of_nat (length res))
                         then take (Z.to_nat (cfg_maxLog cfg)) res else res in
              sret (Some (inl (res, end_)))
          end
      end
  end.

End Fetcher.

(** * Lemmas *)

(** ** Merging *)

Definition log_le (a b : FoundLog) : Prop :=
  log_number a < log_number b ∨ log_number a = log_number b ∧ log_index a ≤ log_index b.
Definition log_lt (a b : FoundLog) : Prop :=
  log_number a < log_number b ∨ log_number a = log_number b ∧ log_index a < log_index b.

#[export] Instance log_le_trans : Transitive log_le.
Proof. intros a b c. unfold log_le. lia. Qed.

Lemma log_less_le a b : log_less a b = true → log_le a b.
Proof.
  unfold log_less, log_le. destruct (Z.eqb_spec (log_number a) (log_number b)); simpl; intros H%Z.ltb_lt; lia.
Qed.
Lemma not_log_less_le a b : log_less a b = false → log_le b a.
Proof.
  unfold log_less, log_le. destruct (Z.eqb_spec (log_number a) (log_number b)); simpl; intros H%Z.ltb_ge; lia.
Qed.

Section Merge.
Variable batches : list (list FoundLog).
Hypothesis Hsorted : Forall (StronglySorted log_le) batches.

Definition item_le (a b : kWayMergeItem) : Prop := log_le (it_log a) (it_log b).
Notation item_heap h := (heap item_le h (length h)).

(** What is left of the batch of an item, the item's log first. *)
Definition item_rest (it : kWayMergeItem) : list FoundLog := drop (it_itemIdx it) (default [] (batches !! it_batchIdx it)).
Definition item_ok (it : kWayMergeItem) : Prop := ∃ rest, item_rest it = it_log it :: rest.

#[local] Instance item_le_trans : Transitive item_le.
Proof. intros a b c. apply log_le_trans. Qed.

Lemma item_Push it h : item_heap h → item_heap (Push logMergeHeap_Less it h) ∧ Push logMergeHeap_Less it h ≡ₚ it :: h.
Proof. apply Push_spec; [apply _|intros x y; apply log_less_le|intros x y; apply not_log_less_le]. Qed.

Lemma item_Pop h : item_heap h → h ≠ [] →
  ∃ it h', Pop logMergeHeap_Less h = Some (it, h') ∧ h ≡ₚ it :: h' ∧ item_heap h' ∧ Forall (item_le it) h'.
Proof. apply Pop_spec; [apply _|intros x y; apply log_less_le|intros x y; apply not_log_less_le]. Qed.

Lemma item_rest_sorted it : StronglySorted log_le (item_rest it).
Proof.
  unfold item_rest. destruct (batches !! it_batchIdx it) as [l|] eqn:E; simpl; [|rewrite drop_nil; constructor].
  rewrite Forall_lookup in Hsorted. specialize (Hsorted _ _ E).
  rewrite <- (take_drop (it_itemIdx it) l) in Hsorted. by apply StronglySorted_app in Hsorted as (_ & _ & ?).
Qed.

(** The first log of an item is the least of what is left of all of them. *)
Lemma item_least it h : item_ok it → Forall item_ok h → Forall (item_le it) h → Forall (log_le (it_log it)) (h ≫= item_rest).
Proof.
  intros _ Hok Hle. apply Forall_forall. intros l (it' & Hl & Hit')%list_elem_of_bind.
  rewrite Forall_forall in Hok, Hle. destruct (Hok _ Hit') as [rest Hr]. specialize (Hle _ Hit').
  pose proof (item_rest_sorted it') as Hs. rewrite Hr in *. apply StronglySorted_inv in Hs as [_ Hs]. rewrite Forall_forall in Hs.
  apply elem_of_cons in Hl as [->|Hl]; [done|]. by eapply log_le_trans; [|apply Hs].
Qed.

(** The heap after a round: the rest of the item's batch is still there. *)
Lemma next_item it h' : item_ok it → Forall item_ok h' → item_heap h' →
  let h'' := match batches !! it_batchIdx it ≫= (.!! S (it_itemIdx it)) with
             | Some l => Push logMergeHeap_Less (mkItem l (it_batchIdx it) (S (it_itemIdx it))) h'
             | None => h'
             end in
  item_heap h'' ∧ Forall item_ok h'' ∧ it_log it :: (h'' ≫= item_rest) ≡ₚ (it :: h') ≫= item_rest.
Proof.
  intros [rest Hr] Hok Hh. cbv zeta. rewrite bind_cons, Hr. unfold item_rest in Hr.
  destruct (batches !! it_batchIdx it) as [b|] eqn:Eb; simpl in Hr; [|by rewrite drop_nil in Hr]. simpl mbind at 1.
  assert (Hrest : drop (S (it_itemIdx it)) b = rest).
  { replace (S (it_itemIdx it)) with (it_itemIdx it + 1)%nat by lia. by rewrite <- drop_drop, Hr. }
  change (Some b ≫= (.!! S (it_itemIdx it))) with (b !! S (it_itemIdx it)).
  assert (Hhd : b !! S (it_itemIdx it) = rest !! 0%nat).
  { rewrite <- Hrest, lookup_drop. by rewrite Nat.add_0_r. }
  rewrite Hhd. destruct rest as [|l rest]; [done|]. simpl lookup. cbv iota.
  set (it' := mkItem l (it_batchIdx it) (S (it_itemIdx it))).
  assert (Hr' : item_rest it' = l :: rest) by (unfold item_rest; simpl; by rewrite Eb).
  destruct (item_Push it' h' Hh) as [Hh'' Hp]. split; [done|]. split.
  - rewrite Hp. constructor; [by exists rest|done].
  - rewrite Hp, bind_cons, Hr'. done.
Qed.

Lemma merge_loop_spec rounds h res : (length (h ≫= item_rest) ≤ rounds)%nat → item_heap h → Forall item_ok h →
  StronglySorted log_le res → (∀ a b, a ∈ res → b ∈ h ≫= item_rest → log_le a b) →
  ∃ out, merge_loop rounds batches h res = Some out ∧ out ≡ₚ res ++ (h ≫= item_rest) ∧ StronglySorted log_le out.
Proof.
  revert h res. induction rounds as [|r IH]; intros h res Hlen Hh Hok Hres Hle.
  all: destruct (decide (h = [])) as [->|Hne]; [exists res; simpl; rewrite app_nil_r; done|].
  all: destruct (item_Pop h Hh Hne) as (it & h' & Hpop & Hp & Hh' & Hmin); cbn [merge_loop]; rewrite Hpop.
  all: rewrite Hp in Hok; apply Forall_cons in Hok as [Hit Hok].
  all: pose proof Hit as [rest Hrest]; rewrite Hp, bind_cons, Hrest in Hlen; simpl in Hlen.
  1: lia.
  destruct (next_item it h' Hit Hok Hh') as (Hh'' & Hok'' & Hperm). cbv zeta in Hh'', Hok'', Hperm. set (h'' := match _ with Some _ => _ | None => _ end) in *.
  assert (Hall : ∀ a, a ∈ h'' ≫= item_rest → a ∈ h ≫= item_rest) by (intros a Ha; rewrite Hp, <- Hperm; by right).
  assert (Hleast : Forall (log_le (it_log it)) (h'' ≫= item_rest)).
  { assert (Hrs : Forall (log_le (it_log it)) rest).
    { pose proof (item_rest_sorted it) as Hs. rewrite Hrest in Hs. by apply StronglySorted_inv in Hs as [_ ?]. }
    rewrite bind_cons, Hrest in Hperm. simpl in Hperm. apply Permutation_cons_inv in Hperm. rewrite Hperm.
    apply Forall_app. split; [done|]. by apply item_least. }
  destruct (IH h'' (res ++ [it_log it])) as (out & Eo & Ho & Hso); [| done | done | | |].
  - apply Permutation_length in Hperm. rewrite bind_cons, Hrest in Hperm. simpl in Hperm. lia.
  - apply StronglySorted_app_2; [|done|repeat constructor]. intros a b Ha ->%list_elem_of_singleton. apply Hle; [done|].
    rewrite Hp, bind_cons, Hrest. by left.
  - intros a b [Ha | ->%list_elem_of_singleton]%elem_of_app Hb; [by apply Hle, Hall|]. rewrite Forall_forall in Hleast. by apply Hleast.
  - exists out. split; [done|]. split; [|done]. rewrite Ho, Hp, <- Hperm. by rewrite <- app_assoc.
Qed.

Lemma first_items_spec n bs h : (∀ i b, bs !! i = Some b → batches !! (n + i)%nat = Some b) → item_heap h → Forall item_ok h →
  let h' := first_items n bs h in
  item_heap h' ∧ Forall item_ok h' ∧ h' ≫= item_rest ≡ₚ (h ≫= item_rest) ++ mjoin bs.
Proof.
  revert n h. induction bs as [|b bs IH]; intros n h Hbs Hh Hok; cbv zeta; simpl; [by rewrite app_nil_r|].
  assert (Hbs' : ∀ i b, bs !! i = Some b → batches !! (S n + i)%nat = Some b).
  { intros i b' Hb'. replace (S n + i)%nat with (n + S i)%nat by lia. by apply (Hbs (S i)). }
  destruct b as [|l b]; [by apply IH|].
  set (it := mkItem l n 0). destruct (item_Push it h Hh) as [Hh' Hp].
  assert (Hr : item_rest it = l :: b).
  { unfold item_rest. simpl. specialize (Hbs 0%nat _ eq_refl). rewrite Nat.add_0_r in Hbs. by rewrite Hbs. }
  destruct (IH (S n) (Push logMergeHeap_Less it h)) as (H1 & H2 & H3); [done|done|rewrite Hp; constructor; [by exists b|done]|].
  split; [done|]. split; [done|]. rewrite H3, Hp, bind_cons, Hr. simpl. rewrite <- Permutation_middle.
  rewrite (Permutation_app_comm b), <- app_assoc. constructor. by rewrite (Permutation_app_comm b).
Qed.
End Merge.

Lemma mergeSortedLogs_spec batches : Forall (StronglySorted log_le) batches →
  ∃ out, mergeSortedLogs batches = Some out ∧ out ≡ₚ mjoin batches ∧ StronglySorted log_le out.
Proof.
  intros Hs. unfold mergeSortedLogs. destruct (Nat.eqb_spec (length (mjoin batches)) 0) as [E|E].
  { apply length_zero_iff_nil in E. exists []. rewrite E. split_and!; [done|done|constructor]. }
  destruct (first_items_spec batches 0 batches []) as (Hh & Hok & Hp); [done|apply heap_nil|constructor|].
  rewrite app_nil_l in Hp.
  destruct (merge_loop_spec batches Hs (length (mjoin batches)) (first_items 0 batches []) []) as (out & Eo & Ho & Hso).
  - by rewrite Hp.
  - done.
  - done.
  - constructor.
  - by intros a b ?%elem_of_nil.
  - exists out. split; [done|]. split; [by rewrite Ho, Hp|done].
Qed.

Lemma fmap_filter_commute {X Y : Type} (f : X → Y) (P : Y → bool) (l : list X) :
  f <$> filter (λ x, P (f x)) l = filter (λ y, P y) (f <$> l).
Proof.
  induction l as [|x l IH]; [done|]. rewrite fmap_cons, !filter_cons. destruct (decide (P (f x))); [|done]. by rewrite fmap_cons, IH.
Qed.

(** ** Receipts and their blooms *)

(** A receipt without a bloom has no logs; the bloom of a receipt with one has
    the bits of every log. *)
Definition receipt_bloom_ok `{EC : EthCrypto} `{EH : EthHex} (rc : Receipt) : Prop :=
  rc_LogsBloom rc = [] ∧ rc_Logs rc = [] ∨
  length (rc_LogsBloom rc) = 256%nat ∧ Forall (λ l, bloom_of_log (rc_LogsBloom rc) (lg_log (convertLog l rc 0))) (rc_Logs rc).

Lemma make_receipt_bloom `{EC : EthCrypto} `{EH : EthHex} `{EHL : !EthHexLaws} `{ER : EthReceipts} `{ERL : !EthReceiptsLaws}
    {MS : Type} (c : Ctx MS) (s : DBImpl MS) msg txType txHash gasUsed vmError :
  receipt_bloom_ok (make_receipt c s msg txType txHash gasUsed vmError).
Proof.
  right. unfold make_receipt. cbn [rc_LogsBloom rc_Logs]. split; [apply ba_length|]. rewrite Forall_fmap.
  eapply Forall_impl; [apply (CreateBloom_covers (all_logs s))|]. intros [a ts d i] [Ha Ht].
  unfold bloom_of_log, compose, convertLog, ConvertEthLog in *. cbn in *.
  by rewrite HexToAddress_Hex, (fmap_cancel hash_Hex HexToHash ts HexToHash_Hex).
Qed.

Lemma failed_receipt_bloom `{EC : EthCrypto} `{EH : EthHex} h i e n : receipt_bloom_ok (failed_receipt h i e n).
Proof. by left. Qed.

(** ** The reference: no cache, no bloom, no batches *)

Section Reference.
Context `{BK : BankKeeper B} `{AK : AccountKeeper A} `{EC : EthCrypto} `{CD : Codec} `{EH : EthHex} `{IL : IntLibs}.
Context `{ET : EthTransactions T} `{TC : TxCodec} `{RS : ReceiptStore R} `{SL : SortLogs}.
Variable nd : Node B A R.
Variable synthetic : bool.

Fixpoint all_logs_of (hashes : list Hash) (totalLogs evmTxIndex : Z) : list EthLog :=
  match hashes with
  | [] => []
  | hash :: hashes' =>
      match GetReceipt hash (nd_receipts nd) (nd_world nd) with
      | inr _ => all_logs_of hashes' totalLogs evmTxIndex
      | inl rc =>
          if skip_receipt synthetic rc then all_logs_of hashes' totalLogs evmTxIndex else
          (set_TxIndex evmTxIndex <$> GetLogsForTx rc totalLogs) ++
          all_logs_of hashes' (u64 (totalLogs + Z.of_nat (length (rc_Logs rc)))) (evmTxIndex + 1)
      end
  end.

(** All logs of a block, and the matching ones. *)
Definition all_block_logs (block : ResultBlock) : list FoundLog :=
  match getTxHashesFromBlock nd synthetic block with
  | Ret hashes => (λ l, mkFoundLog l (BytesToHash (rb_Hash block))) <$> all_logs_of hashes 0 0
  | Panic _ => []
  end.
Definition matches (crit : FilterCriteria) (l : FoundLog) : bool := IsLogExactMatch (lg_log (fl_log l)) crit.
Definition block_logs (crit : FilterCriteria) (block : ResultBlock) : list FoundLog := filter (λ l, matches crit l) (all_block_logs block).

Hypothesis Hreceipts : ∀ hash rc, GetReceipt hash (nd_receipts nd) (nd_world nd) = inl rc → receipt_bloom_ok rc.

Lemma no_filters_match crit l : has_filters crit = false → IsLogExactMatch l crit = true.
Proof.
  unfold has_filters, IsLogExactMatch. intros [Ha Ht]%orb_false_elim. apply negb_false_iff, bool_decide_eq_true in Ha, Ht.
  by rewrite Ha, Ht.
Qed.

Lemma receipt_logs_exact crit rc total i : receipt_bloom_ok rc →
  receipt_logs crit (EncodeFilters (fc_Addresses crit) (fc_Topics crit)) true rc total i =
  Ret (filter (λ l, IsLogExactMatch (lg_log l) crit) (set_TxIndex i <$> GetLogsForTx rc total)).
Proof.
  intros Hok. unfold receipt_logs. fold (has_filters crit). destruct (has_filters crit) eqn:Hf.
  2:{ rewrite filter_all; [done|]. apply Forall_true. intros l. by rewrite no_filters_match. }
  destruct Hok as [[Hb Hl]|[Hb Hl]].
  { rewrite Hb. unfold GetLogsForTx. by rewrite Hl. }
  rewrite Hb. simpl Nat.ltb. cbv iota. unfold to_Bloom. rewrite Hb. simpl Nat.ltb. cbv iota. simpl outcome_bind.
  rewrite take_ge by lia. destruct (MatchFilters _ _) eqn:Em; [done|]. f_equal. symmetry. apply filter_none.
  unfold GetLogsForTx. rewrite !Forall_fmap. eapply Forall_impl; [exact Hl|]. intros l Hbl Hm%Is_true_true_1.
  assert (Hpass : MatchFilters (fit 256 (rc_LogsBloom rc)) (EncodeFilters (fc_Addresses crit) (fc_Topics crit)) = true); [|congruence].
  eapply exact_match_passes; [exact Hm|]. by rewrite ba_fit_id.
Qed.
End Reference.

(** ** Coherence of the cache

    Whatever is in the cache is what the node would answer, so a run with any
    cache gives the result of a run without. *)

Section Coherence.
Context `{BK : BankKeeper B} `{AK : AccountKeeper A} `{EC : EthCrypto} `{CD : Codec} `{EH : EthHex} `{IL : IntLibs}.
Context `{ET : EthTransactions T} `{TC : TxCodec} `{RS : ReceiptStore R} `{SL : SortLogs}.
Variable meanwhile : nat → gmap Z BlockCacheEntry → gmap Z BlockCacheEntry.
Variable nd : Node B A R.
Variable synthetic : bool.
(** The block at each height. *)
Variable chain : Z → ResultBlock.
Hypothesis chain_height : ∀ h, rb_Height (chain h) = h.

Definition entry_ok (h : Z) (e : BlockCacheEntry) : Prop :=
  ce_Block e = Some (chain h) ∧
  ∀ hash rc, ce_Receipts e !! hash = Some rc → GetReceipt hash (nd_receipts nd) (nd_world nd) = inl rc.
Definition coherent (m : gmap Z BlockCacheEntry) : Prop := ∀ h e, m !! h = Some e → entry_ok h e.
Hypothesis meanwhile_coherent : ∀ n m, coherent m → coherent (meanwhile n m).

(** [m] returns, keeps the cache coherent, and its result satisfies [P]. *)
Definition runs {X : Type} (m : stm CacheState X) (P : X → Prop) : Prop :=
  ∀ s, coherent (cs_entries s) → ∃ x s', m s = Ret (x, s') ∧ coherent (cs_entries s') ∧ P x.

Lemma runs_ret {X} (x : X) (P : X → Prop) : P x → runs (sret x) P.
Proof. intros HP s Hs. by exists x, s. Qed.

Lemma runs_bind {X Y} (m : stm CacheState X) (f : X → stm CacheState Y) P Q :
  runs m P → (∀ x, P x → runs (f x) Q) → runs (sbind m f) Q.
Proof.
  intros Hm Hf s Hs. destruct (Hm s Hs) as (x & s1 & E & Hs1 & HP). destruct (Hf x HP s1 Hs1) as (y & s2 & E2 & Hs2 & HQ).
  exists y, s2. unfold sbind. by rewrite E.
Qed.

Lemma runs_weaken {X} (m : stm CacheState X) (P Q : X → Prop) : (∀ x, P x → Q x) → runs m P → runs m Q.
Proof. intros HPQ Hm s Hs. destruct (Hm s Hs) as (x & s1 & E & Hs1 & HP). exists x, s1. auto. Qed.

Lemma runs_lift {X} (x : X) (o : outcome X) (P : X → Prop) : o = Ret x → P x → runs (lift o) P.
Proof. intros -> HP s Hs. by exists x, s. Qed.

Lemma runs_Get h : runs (cache_Get meanwhile h) (λ o, ∀ e, o = Some e → entry_ok h e).
Proof.
  intros s Hs. eexists _, _. split; [done|]. apply (meanwhile_coherent (cs_access s)) in Hs. split; [done|].
  intros e He. by apply Hs.
Qed.

Lemma runs_alter f h : (∀ e, entry_ok h e → entry_ok h (f e)) → runs (cache_update (alter f h)) (λ _, True).
Proof.
  intros Hf s Hs. eexists _, _. split; [done|]. split; [|done]. intros h' e. simpl. rewrite lookup_alter_Some.
  intros [(-> & e0 & He0 & ->)|[_ He]]; [by apply Hf, Hs|by apply Hs].
Qed.

Lemma fill_ok h bloom e : entry_ok h e → entry_ok h (fillMissingFields (Some (chain h)) bloom e).
Proof. intros [Hb Hr]. split; [|done]. unfold fillMissingFields. simpl. by rewrite Hb. Qed.

Lemma runs_loadOrStore h : runs (loadOrStoreCacheEntry meanwhile h (Some (chain h))) (λ _, True).
Proof.
  assert (Hfill : ∀ bloom, runs (cache_update (alter (fillMissingFields (Some (chain h)) bloom) h)) (λ _, True)).
  { intros bloom. apply runs_alter. intros e. apply fill_ok. }
  unfold loadOrStoreCacheEntry. eapply runs_bind; [apply runs_Get|]. intros [e|] _; [apply Hfill|].
  eapply runs_bind; [apply runs_Get|]. intros [e|] _; [apply Hfill|].
  intros s Hs. eexists _, _. split; [done|]. split; [|done]. intros h' e. simpl.
  rewrite lookup_insert_Some. intros [[<- <-]|[_ He]]; [|by apply Hs]. split; [done|]. simpl. intros hash rc. by rewrite lookup_empty.
Qed.

Lemma runs_setCachedReceipt h hash rc : GetReceipt hash (nd_receipts nd) (nd_world nd) = inl rc →
  runs (setCachedReceipt meanwhile h (Some (chain h)) hash rc) (λ _, True).
Proof.
  intros Hrc. unfold setCachedReceipt. eapply runs_bind; [apply runs_loadOrStore|]. intros _ _. apply runs_alter.
  intros e [Hb Hr]. split; [done|]. simpl. intros hash' rc'. rewrite lookup_insert_Some. intros [[<- <-]|[_ H]]; [done|by apply Hr].
Qed.

Lemma runs_getCachedReceipt h hash : runs (getCachedReceipt meanwhile h hash)
  (λ o, ∀ rc, o = Some rc → GetReceipt hash (nd_receipts nd) (nd_world nd) = inl rc).
Proof.
  unfold getCachedReceipt. eapply runs_bind; [apply runs_Get|]. intros o Ho. apply runs_ret. intros rc Hrc.
  apply bind_Some in Hrc as (e & He & Hrc). by apply (Ho e He).
Qed.

(** A receipt is found exactly when the node has it. *)
Lemma runs_receipt h hash :
  runs (let! cached := getCachedReceipt meanwhile h hash in
        match cached with
        | Some receipt => sret (Some receipt)
        | None =>
            match GetReceipt hash (nd_receipts nd) (nd_world nd) with
            | inr _ => sret None
            | inl receipt => do! setCachedReceipt meanwhile h (Some (chain h)) hash receipt; sret (Some receipt)
            end
        end)
    (λ o, o = match GetReceipt hash (nd_receipts nd) (nd_world nd) with inl rc => Some rc | inr _ => None end).
Proof.
  eapply runs_bind; [apply runs_getCachedReceipt|]. intros [rc|] Hrc; [apply runs_ret; by rewrite (Hrc rc)|].
  destruct (GetReceipt hash _ _) as [rc|e] eqn:E; [|by apply runs_ret].
  eapply runs_bind; [by apply runs_setCachedReceipt|]. intros _ _. by apply runs_ret.
Qed.

(** ** Collecting *)

Hypothesis Hreceipts : ∀ hash rc, GetReceipt hash (nd_receipts nd) (nd_world nd) = inl rc → receipt_bloom_ok rc.
Variable crit : FilterCriteria.
Notation filters := (EncodeFilters (fc_Addresses crit) (fc_Topics crit)).

Lemma runs_collect h hashes total i :
  runs (collect_hashes meanwhile nd synthetic (chain h) crit filters true hashes total i)
    (λ l, l = filter (λ l, IsLogExactMatch (lg_log l) crit) (all_logs_of nd synthetic hashes total i)).
Proof.
  revert total i. induction hashes as [|hash hashes IH]; intros total i; cbn [collect_hashes all_logs_of]; [by apply runs_ret|].
  rewrite chain_height. pose proof (runs_receipt h hash) as Hr. intros s Hs.
  destruct (Hr s Hs) as (o & s1 & E & Hs1 & ->). unfold sbind in E |- *. destruct (getCachedReceipt meanwhile h hash s) as [[cached s0]|]; [|done].
  rewrite E. clear Hr E. revert s1 Hs1. 
  destruct (GetReceipt hash (nd_receipts nd) (nd_world nd)) as [rc|e] eqn:Erc; [|apply IH].
  destruct (skip_receipt synthetic rc); [apply IH|].
  eapply (runs_bind _ _ (λ l, l = _)); [eapply runs_lift; [by apply receipt_logs_exact, (Hreceipts hash)|reflexivity]|]. intros l ->.
  eapply runs_bind; [apply IH|]. intros more ->. apply runs_ret. by rewrite filter_app.
Qed.

Notation filtered := (block_logs nd synthetic crit).
Definition logs_of (b : option ResultBlock) : list FoundLog := match b with Some b => filtered b | None => [] end.
(** A block of the chain whose transactions can be read. *)
Definition good_block (b : option ResultBlock) : Prop :=
  ∃ h, b = Some (chain h) ∧ is_ret (getTxHashesFromBlock nd synthetic (chain h)) = true.

Lemma runs_block b : good_block b → runs (GetLogsForBlockPooled meanwhile nd synthetic b crit filters) (λ l, l = logs_of b).
Proof.
  intros (h & -> & Hret). unfold GetLogsForBlockPooled, collectLogs, logs_of, block_logs, all_block_logs.
  destruct (getTxHashesFromBlock nd synthetic (chain h)) as [hashes|] eqn:E; [|done].
  eapply runs_bind.
  { eapply (runs_bind _ _ (λ l, l = hashes)); [by eapply runs_lift|]. intros x ->. apply runs_collect. }
  intros l ->. apply runs_ret.
  exact (fmap_filter_commute (λ l, mkFoundLog l (BytesToHash (rb_Hash (chain h)))) (matches crit) _).
Qed.

Lemma runs_batch batch : Forall good_block batch →
  runs (batch_logs meanwhile nd synthetic batch crit filters) (λ l, l = batch ≫= logs_of).
Proof.
  induction 1 as [|b batch Hb _ IH]; cbn [batch_logs]; [by apply runs_ret|].
  eapply runs_bind; [by apply runs_block|]. intros l ->. eapply runs_bind; [exact IH|]. intros more ->. by apply runs_ret.
Qed.

Lemma runs_recovered {X} (m : stm CacheState X) P : runs m P → runs (recovered m) (λ o, ∃ x, o = Some x ∧ P x).
Proof.
  intros Hm s Hs. destruct (Hm s Hs) as (x & s' & E & Hs' & HP). exists (Some x), s'. unfold recovered. rewrite E. eauto.
Qed.

Hypothesis sort_perm : ∀ l, sort_logs l ≡ₚ l.
Hypothesis sort_sorted : ∀ l, StronglySorted log_le (sort_logs l).

Lemma runs_sorted_batches batches : Forall (Forall good_block) batches →
  runs (sorted_batches meanwhile nd synthetic batches crit filters)
    (λ out, Forall (StronglySorted log_le) out ∧ mjoin out ≡ₚ mjoin batches ≫= logs_of).
Proof.
  induction 1 as [|batch batches Hb _ IH]; cbn [sorted_batches]; [apply runs_ret; by split|].
  eapply runs_bind; [by apply runs_recovered, runs_batch|]. intros o (l & -> & ->).
  eapply runs_bind; [exact IH|]. intros out [Hs Hp]. apply runs_ret. split; [by constructor|].
  change (mjoin ([sort_logs (batch ≫= logs_of)] ++ out)) with (sort_logs (batch ≫= logs_of) ++ mjoin out).
  change (mjoin (batch :: batches)) with (batch ++ mjoin batches). by rewrite bind_app, sort_perm, Hp.
Qed.

(** ** Fetching *)

(** What a height needs: its block can be fetched and read, and the bloom of its
    state, if one is trusted, has the bits of the block's logs. *)
Definition height_ok (h : Z) : Prop := h ≠ 0 →
  blockByNumberWithRetry nd h 1 = inl (chain h) ∧ is_ret (getTxHashesFromBlock nd synthetic (chain h)) = true ∧
  ∃ b e, height_bloom nd crit h = Ret (b, e) ∧
    (e = true → Forall (λ l, bloom_of_log (ba b) (lg_log (fl_log l))) (all_block_logs nd synthetic (chain h))).
Definition height_logs (h : Z) : list FoundLog := if h =? 0 then [] else filtered (chain h).

Definition fetched (h : Z) (r : option (option ResultBlock) + Err) : Prop :=
  r = inl (Some (Some (chain h))) ∧ h ≠ 0 ∨ r = inl None ∧ height_logs h = [].

Lemma bloom_rules_out (b : Bloom) h : Forall (λ l, bloom_of_log (ba b) (lg_log (fl_log l))) (all_block_logs nd synthetic (chain h)) →
  MatchFilters b filters = false → filtered (chain h) = [].
Proof.
  intros Hb Hm. apply filter_none. eapply Forall_impl; [exact Hb|]. intros l Hl Hml%Is_true_true_1.
  rewrite (exact_match_passes b _ crit Hml Hl) in Hm. done.
Qed.

Lemma runs_fetch_height h : height_ok h → runs (fetch_height meanwhile nd crit filters h) (fetched h).
Proof.
  intros Hok. unfold fetch_height. destruct (Z.eqb_spec h 0) as [->|H0]; [apply runs_ret; by right|].
  destruct (Hok H0) as (Hblock & Hret & b & e & Hbloom & Hcov).
  assert (Hcached : ∀ o e, (∀ e, o = Some e → entry_ok h e) → o = Some e → fetched h (inl (Some (ce_Block e)))).
  { intros o e' He ->. left. by destruct (He _ eq_refl) as [-> _]. }
  eapply runs_bind; [apply runs_Get|]. intros [e1|] H1; [apply runs_ret; by eapply Hcached|].
  eapply runs_bind; [apply runs_Get|]. intros [e2|] H2; [apply runs_ret; by eapply Hcached|].
  eapply (runs_bind _ _ (λ x, x = (b, e))); [by eapply runs_lift|]. intros x ->. cbn [fst snd].
  destruct (e && negb (MatchFilters b filters)) eqn:Esk.
  { apply andb_prop in Esk as [-> Em%negb_true_iff]. apply runs_ret. right. split; [done|]. unfold height_logs.
    destruct (Z.eqb_spec h 0); [done|]. by apply (bloom_rules_out b); [apply Hcov|]. }
  rewrite Hblock. eapply runs_bind; [apply runs_loadOrStore|]. intros _ _.
  eapply (runs_bind _ _ (λ _, True)).
  { destruct (bool_decide (b = zero_bloom)); [by apply runs_ret|]. apply runs_alter. intros e'. apply fill_ok. }
  intros _ _. apply runs_ret. by left.
Qed.

Lemma process_heights_spec heights s : Forall height_ok heights → coherent (cs_entries s) →
  ∃ bs s', process_heights meanwhile nd crit filters heights s = (bs, [], s') ∧ coherent (cs_entries s') ∧
    Forall good_block bs ∧ bs ≫= logs_of = heights ≫= height_logs.
Proof.
  intros Hok. revert s. induction Hok as [|h heights Hh _ IH]; intros s Hs; cbn [process_heights]; [by exists [], s|].
  destruct (runs_fetch_height h Hh s Hs) as (r & s1 & -> & Hs1 & Hr). destruct (IH s1 Hs1) as (bs & s2 & -> & Hs2 & Hg & Hl).
  destruct Hr as [[-> H0]|[-> Hn]].
  - exists (Some (chain h) :: bs), s2. destruct (Hh H0) as (_ & Hret & _). split; [done|]. split; [done|].
    split; [constructor; [by exists h|done]|]. rewrite !bind_cons, Hl. simpl. unfold height_logs. by destruct (Z.eqb_spec h 0).
  - exists bs, s2. split; [done|]. split; [done|]. split; [done|]. by rewrite bind_cons, Hl, Hn.
Qed.

Definition range_heights (r : Z * Z) : list Z := seqZ r.1 (r.2 - r.1 + 1).

Lemma process_batches_spec ranges s : Forall height_ok (ranges ≫= range_heights) → coherent (cs_entries s) →
  ∃ bs s', process_batches meanwhile nd ranges crit filters s = (bs, [], s') ∧ coherent (cs_entries s') ∧
    Forall good_block bs ∧ bs ≫= logs_of = (ranges ≫= range_heights) ≫= height_logs.
Proof.
  revert s. induction ranges as [|[a b] ranges IH]; intros s Hok Hs; cbn [process_batches]; [by exists [], s|].
  rewrite bind_cons in Hok |- *. apply Forall_app in Hok as [Hok1 Hok2]. unfold processBatch.
  destruct (process_heights_spec _ s Hok1 Hs) as (bs & s1 & E & Hs1 & Hg & Hl). unfold range_heights in E. cbn [fst snd] in E. rewrite E.
  destruct (IH s1 Hok2 Hs1) as (bs' & s2 & -> & Hs2 & Hg' & Hl'). exists (bs ++ bs'), s2.
  split; [done|]. split; [done|]. split; [by apply Forall_app|]. by rewrite !bind_app, Hl, Hl'.
Qed.

End Coherence.

(** ** Batches *)

Lemma batch_ranges_spec wk rounds n start end_ :
  (∀ n, wk_Submit wk n = None) → -9223372036854775808 ≤ start → end_ ≤ maxInt64 - 200 → end_ - start < Z.of_nat rounds * 100 →
  ∃ l, batch_ranges wk rounds n start end_ = Some (inl l) ∧ l ≫= range_heights = seqZ start (end_ - start + 1).
Proof.
  intros Hsub. revert n start. induction rounds as [|r IH]; intros n start Hs He Hr; cbn [batch_ranges].
  all: destruct (Z.ltb_spec end_ start) as [Hlt|Hge]; [exists []; by rewrite seqZ_nil by lia|].
  { lia. }
  rewrite Hsub. unfold WorkerBatchSize. unfold maxInt64 in *. rewrite !i64_id by (unfold maxInt64; lia).
  set (e := if end_ <? start + 100 - 1 then end_ else start + 100 - 1).
  assert (Hee : e = Z.min end_ (start + 99)) by (subst e; destruct (Z.ltb_spec end_ (start + 100 - 1)); lia).
  destruct (Z.eqb_spec e 9223372036854775807); [lia|]. cbn [andb].
  destruct (IH (S n) (start + 100)) as (l & -> & Hl); [lia|lia|lia|].
  exists ((start, e) :: l). split; [done|]. rewrite bind_cons, Hl. unfold range_heights. cbn [fst snd].
  destruct (decide (end_ < start + 100)).
  - rewrite (seqZ_nil (start + 100)) by lia. rewrite app_nil_r. f_equal. lia.
  - replace (end_ - start + 1) with ((e - start + 1) + (end_ - (start + 100) + 1)) by lia.
    rewrite (seqZ_app start (e - start + 1)) by lia. by replace (start + (e - start + 1)) with (start + 100) by lia.
Qed.

Lemma block_batches_join blocks batch : mjoin (block_batches blocks batch) = batch ++ blocks.
Proof.
  revert batch. induction blocks as [|b blocks IH]; intros batch; cbn [block_batches].
  - destruct batch; [done|]. simpl. by rewrite app_nil_r.
  - destruct (_ <=? _).
    + change (mjoin ((batch ++ [b]) :: block_batches blocks [])) with ((batch ++ [b]) ++ mjoin (block_batches blocks [])).
      by rewrite IH, <- app_assoc.
    + by rewrite IH, <- app_assoc.
Qed.

Lemma submit_all_none {X} wk n (l : list X) : (∀ n, wk_SubmitLogs wk n = None) → submit_all wk n l = None.
Proof. intros H. revert n. induction l as [|x l IH]; intros n; simpl; [done|]. by rewrite H. Qed.

Lemma sorted_strict_unique l ref : l ≡ₚ ref → StronglySorted log_le l → StronglySorted log_lt ref → l = ref.
Proof.
  intros Hp Hl Hr.
  assert (Hle : StronglySorted log_le ref).
  { clear Hp Hl. induction Hr as [|x r Hr IH Hx]; constructor; [done|]. eapply Forall_impl; [exact Hx|]. unfold log_lt, log_le. lia. }
  assert (Hne : ∀ a b, a ∈ ref → b ∈ ref → log_le a b → log_le b a → a = b).
  { clear Hp Hl Hle. induction Hr as [|x r Hr IH Hx]; intros a b; [by intros ?%elem_of_nil|].
    rewrite Forall_forall in Hx. rewrite !elem_of_cons. intros [-> | Ha] [-> | Hb] H1 H2; [done|..|by apply IH].
    - specialize (Hx _ Hb). unfold log_lt, log_le in *. lia.
    - specialize (Hx _ Ha). unfold log_lt, log_le in *. lia. }
  apply (StronglySorted_unique_strong log_le); [|done..]. intros x y Hx Hy. rewrite Hp in Hx. by apply Hne.
Qed.

(** * Theorems *)

(** [sort.Slice] with [log_less]: a sorted permutation. *)
Class SortLogsLaws `{SortLogs} : Prop := {
  sort_logs_perm : ∀ l, sort_logs l ≡ₚ l;
  sort_logs_sorted : ∀ l, StronglySorted log_le (sort_logs l)
}.

(** The pool accepts every task; blocks and batches arrive in any order. *)
Record workers_ok (wk : Workers) : Prop := {
  wo_Submit : ∀ n, wk_Submit wk n = None;
  wo_SubmitLogs : ∀ n, wk_SubmitLogs wk n = None;
  wo_blocks : ∀ l, wk_blocks wk l ≡ₚ l;
  wo_batches : ∀ l, wk_batches wk l ≡ₚ l
}.

Section LogTheorems.
Context `{BK : BankKeeper B} `{AK : AccountKeeper A} `{EC : EthCrypto} `{CD : Codec} `{EH : EthHex} `{IL : IntLibs}.
Context `{ET : EthTransactions T} `{TC : TxCodec} `{RS : ReceiptStore R} `{SL : SortLogs} `{SLL : !SortLogsLaws}.

(** The node has the chain: the cache and whatever changes it agree with the
    node, and the blooms of receipts are right. *)
Record node_ok (meanwhile : nat → gmap Z BlockCacheEntry → gmap Z BlockCacheEntry) (nd : Node B A R) (chain : Z → ResultBlock) : Prop := {
  no_height : ∀ h, rb_Height (chain h) = h;
  no_meanwhile : ∀ n m, coherent nd chain m → coherent nd chain (meanwhile n m);
  no_receipts : ∀ hash rc, GetReceipt hash (nd_receipts nd) (nd_world nd) = inl rc → receipt_bloom_ok rc
}.

Definition open_ended (cfg : FilterConfig) (crit : FilterCriteria) : bool :=
  (0 <? cfg_maxLog cfg) &&
  (match fc_FromBlock crit with None => true | _ => false end || match fc_ToBlock crit with None => true | _ => false end).

(** The matching logs of the blocks of a range. *)
Definition range_logs (nd : Node B A R) (synthetic : bool) (chain : Z → ResultBlock) (crit : FilterCriteria) (begin end_ : Z) : list FoundLog :=
  seqZ begin (end_ - begin + 1) ≫= height_logs nd synthetic chain crit.

(** The first block of a range, after the cut of an open one. *)
Definition cut_begin (cfg : FilterConfig) (crit : FilterCriteria) (begin end_ : Z) : Z :=
  if open_ended cfg crit && (cfg_maxBlock cfg <? end_ - begin + 1) then Z.max 1 (end_ - cfg_maxBlock cfg + 1) else begin.

Lemma fetch_range meanwhile nd synthetic wk cfg chain rounds crit last s begin0 end_ : let begin := cut_begin cfg crit begin0 end_ in
  node_ok meanwhile nd chain → workers_ok wk → fc_BlockHash crit = None → query_range nd (nd_latest_again nd) crit last = (begin0, end_) →
  0 < cfg_maxBlock cfg → -9223372036854775808 ≤ end_ - begin0 + 1 ≤ maxInt64 →
  -9223372036854775808 ≤ begin ≤ end_ → end_ ≤ maxInt64 - 200 → end_ - begin + 1 ≤ cfg_maxBlock cfg → end_ - begin < maxInt64 →
  end_ - begin < Z.of_nat rounds * 100 →
  (∀ h, begin ≤ h ≤ end_ → height_ok nd synthetic chain crit h) → coherent nd chain (cs_entries s) →
  ∃ bs s', fetchBlocksByCrit meanwhile nd wk cfg rounds crit last (EncodeFilters (fc_Addresses crit) (fc_Topics crit)) s =
      Ret (Some (inl (bs, end_, open_ended cfg crit)), s') ∧ coherent nd chain (cs_entries s') ∧
    Forall (good_block nd synthetic chain) bs ∧ bs ≫= logs_of nd synthetic crit ≡ₚ range_logs nd synthetic chain crit begin end_.
Proof.
  intros begin Hn Hw Hbh Hq Hpos Hi0 Hb He Hmax Hsmall Hr Hok Hs. unfold fetchBlocksByCrit. rewrite Hbh, Hq. fold (open_ended cfg crit).
  rewrite (i64_id (end_ - begin0 + 1)) by (unfold maxInt64 in *; lia).
  assert (Hcut : negb (open_ended cfg crit) && (0 <? cfg_maxBlock cfg) && (cfg_maxBlock cfg <? end_ - begin0 + 1) = false ∧
    (if open_ended cfg crit && (cfg_maxBlock cfg <? end_ - begin0 + 1) then Z.max 1 (i64 (end_ - cfg_maxBlock cfg + 1)) else begin0) = begin).
  { unfold begin, cut_begin in *. destruct (Z.ltb_spec (cfg_maxBlock cfg) (end_ - begin0 + 1)) as [Hc|Hc]; [|by rewrite !andb_false_r].
    destruct (open_ended cfg crit); cbn [andb negb] in *; [|lia]. split; [done|]. rewrite i64_id; [done|]. unfold maxInt64 in *. lia. }
  destruct Hcut as [-> ->].
  assert (Hi : i64 (end_ - begin + 1) = end_ - begin + 1) by (apply i64_id; unfold maxInt64 in *; lia).
  destruct (Z.ltb_spec end_ begin); [lia|]. rewrite Hi. destruct (Z.ltb_spec (end_ - begin + 1) 0); [lia|].
  destruct (batch_ranges_spec wk rounds 0 begin end_ (wo_Submit _ Hw)) as (l & -> & Hl); [lia|done|done|].
  destruct (process_batches_spec meanwhile nd synthetic chain (no_meanwhile _ _ _ Hn) crit l s) as (bs & s' & -> & Hs' & Hg & Hlog).
  - rewrite Hl. apply Forall_forall. intros h Hh%elem_of_seqZ. apply Hok. lia.
  - done.
  - eexists _, s'. split; [done|]. split; [done|]. split; [by rewrite (wo_blocks _ Hw)|].
    rewrite (wo_blocks _ Hw). rewrite Hlog, Hl. done.
Qed.

(** A query for logs returns the matching logs.  Whatever a cache that agrees with
    the node holds, whatever other workers do to it that keeps it so, and in whatever
    order blocks and batches arrive, a query over a range of heights that can be
    served returns the logs of the blocks in the range that match the addresses and
    topics (as many as the limit allows when the range is open), in the order of
    blocks and indices.  When no two of the logs have the same place, the answer is
    their list. *)
Lemma GetLogsByFilters_exact meanwhile nd synthetic wk cfg chain rounds crit last s begin1 end1 begin0 end_ : let begin := cut_begin cfg crit begin0 end_ in
  node_ok meanwhile nd chain → workers_ok wk → fc_BlockHash crit = None →
  query_range nd (nd_latest nd) crit last = (begin1, end1) → -9223372036854775808 ≤ end1 - begin1 + 1 ≤ maxInt64 → end1 - begin1 + 1 ≤ cfg_maxBlock cfg →
  query_range nd (nd_latest_again nd) crit last = (begin0, end_) →
  0 < cfg_maxBlock cfg → -9223372036854775808 ≤ end_ - begin0 + 1 ≤ maxInt64 →
  -9223372036854775808 ≤ begin ≤ end_ → end_ ≤ maxInt64 - 200 → end_ - begin + 1 ≤ cfg_maxBlock cfg → end_ - begin < maxInt64 →
  end_ - begin < Z.of_nat rounds * 100 →
  (∀ h, begin ≤ h ≤ end_ → height_ok nd synthetic chain crit h) → coherent nd chain (cs_entries s) →
  ∃ logs s', GetLogsByFilters meanwhile nd synthetic wk cfg rounds crit last s =
      Ret (Some (inl (if open_ended cfg crit then take (Z.to_nat (cfg_maxLog cfg)) logs else logs, end_)), s') ∧
    coherent nd chain (cs_entries s') ∧
    logs ≡ₚ range_logs nd synthetic chain crit begin end_ ∧ StronglySorted log_le logs ∧
    (StronglySorted log_lt (range_logs nd synthetic chain crit begin end_) → logs = range_logs nd synthetic chain crit begin end_).
Proof.
  intros begin Hn Hw Hbh Hq1 Hi1 Hmax1 Hq Hpos Hi0 Hb He Hmax Hsmall Hr Hok Hs.
  destruct (fetch_range meanwhile nd synthetic wk cfg chain rounds crit last s begin0 end_) as (bs & s1 & Ef & Hs1 & Hg & Hl); try done.
  unfold GetLogsByFilters. rewrite Hq1, i64_id by (unfold maxInt64 in *; lia).
  destruct (Z.ltb_spec (cfg_maxBlock cfg) (end1 - begin1 + 1)); [lia|]. unfold sbind at 1. rewrite Ef.
  rewrite (submit_all_none wk 0 (block_batches bs []) (wo_SubmitLogs _ Hw)).
  assert (Hgb : Forall (Forall (good_block nd synthetic chain)) (wk_batches wk (block_batches bs []))).
  { rewrite (wo_batches _ Hw). rewrite <- (app_nil_l bs), <- block_batches_join in Hg. apply Forall_forall. intros batch Hbt.
    apply Forall_forall. intros b Hbb. rewrite Forall_forall in Hg. apply Hg, list_elem_of_join. by exists batch. }
  destruct (runs_sorted_batches meanwhile nd synthetic chain (no_height _ _ _ Hn) (no_meanwhile _ _ _ Hn) (no_receipts _ _ _ Hn)
    crit sort_logs_perm sort_logs_sorted _ Hgb s1 Hs1) as (out & s2 & Eo & Hs2 & Hso & Hpo).
  unfold sbind. rewrite Eo. destruct (mergeSortedLogs_spec out Hso) as (logs & -> & Hpl & Hsl).
  assert (Hlogs : logs ≡ₚ range_logs nd synthetic chain crit begin end_).
  { rewrite Hpl, Hpo, (wo_batches _ Hw), block_batches_join. done. }
  exists logs, s2. split.
  - destruct (open_ended cfg crit); [|done]. cbn [andb]. destruct (Z.leb_spec (cfg_maxLog cfg) (Z.of_nat (length logs))); [done|].
    by rewrite (take_ge logs) by lia.
  - split_and!; [done|done|done|]. by apply sorted_strict_unique.
Qed.

Lemma query_range_numbers (nd : Node B A R) latest f t addresses topics last : i64 f ∉ nd_tags nd → i64 t ∉ nd_tags nd →
  query_range nd latest (mkFilterCriteria None (Some f) (Some t) addresses topics) last = (if i64 f <? last then last else i64 f, i64 t).
Proof.
  intros Hf Ht. unfold query_range, getHeightFromBigIntBlockNumber. cbn [fc_FromBlock fc_ToBlock]. by rewrite !bool_decide_false.
Qed.

Lemma batch_ranges_wrap wk rounds n start : (∀ n, wk_Submit wk n = None) → -9223372036854775808 ≤ start →
  start + Z.of_nat rounds * 100 + 200 ≤ maxInt64 → batch_ranges wk rounds n start maxInt64 = None.
Proof.
  intros Hsub. revert n start. induction rounds as [|r IH]; intros n start Hs Hr; cbn [batch_ranges].
  all: destruct (Z.ltb_spec maxInt64 start); [lia|].
  1: done.
  rewrite Hsub. unfold WorkerBatchSize. rewrite !i64_id by lia.
  destruct (Z.ltb_spec maxInt64 (start + 100 - 1)); [lia|]. destruct (Z.eqb_spec (start + 100 - 1) maxInt64); [lia|]. cbn [andb].
  rewrite IH by lia. done.
Qed.

(** Two queries escape the limit on the number of blocks.  From height zero
    to the largest int64 the number of blocks wraps to a negative one and making
    the channel panics.  At the largest int64 alone the batches wrap around: as
    long as the pool accepts them, batches of negative heights go on being
    submitted, for each of the first 10^17 rounds. *)
Theorem height_overflow meanwhile (nd : Node B A R) synthetic wk cfg addresses topics s :
  (∀ n, wk_Submit wk n = None) → 0 ≤ nd_latest nd → 0 ∉ nd_tags nd → maxInt64 ∉ nd_tags nd → 1 ≤ cfg_maxBlock cfg →
  (∀ rounds, ∃ msg,
    GetLogsByFilters meanwhile nd synthetic wk cfg rounds (mkFilterCriteria None (Some 0) (Some maxInt64) addresses topics) 0 s = Panic msg) ∧
  (∀ rounds, Z.of_nat rounds ≤ 10 ^ 17 →
    GetLogsByFilters meanwhile nd synthetic wk cfg rounds (mkFilterCriteria None (Some maxInt64) (Some maxInt64) addresses topics) 0 s =
    Ret (None, s)).
Proof.
  intros Hsub Hl H0 Hm Hmax. split; intros rounds.
  - exists "makechan: size out of range"%string. unfold GetLogsByFilters, fetchBlocksByCrit. rewrite !query_range_numbers by done.
    change (if i64 0 <? 0 then 0 else i64 0) with 0. change (i64 maxInt64) with maxInt64.
    change (i64 (maxInt64 - 0 + 1)) with (-9223372036854775808).
    destruct (Z.ltb_spec (cfg_maxBlock cfg) (-9223372036854775808)); [lia|]. unfold sbind.
    cbn [fc_BlockHash fc_FromBlock fc_ToBlock orb]. by rewrite !andb_false_r.
  - intros Hr. unfold GetLogsByFilters, fetchBlocksByCrit. rewrite !query_range_numbers by done.
    change (if i64 maxInt64 <? 0 then 0 else i64 maxInt64) with maxInt64. change (i64 maxInt64) with maxInt64.
    change (i64 (maxInt64 - maxInt64 + 1)) with 1. destruct (Z.ltb_spec (cfg_maxBlock cfg) 1); [lia|]. unfold sbind.
    cbn [fc_BlockHash fc_FromBlock fc_ToBlock orb]. rewrite !andb_false_r.
    change (maxInt64 <? maxInt64) with false. change (i64 (maxInt64 - maxInt64 + 1) <? 0) with false. cbv iota.
    assert (batch_ranges wk rounds 0 maxInt64 maxInt64 = None) as ->; [|done].
    destruct rounds as [|r]; [done|]. cbn [batch_ranges]. change (maxInt64 <? maxInt64) with false. cbv iota. rewrite Hsub.
    unfold WorkerBatchSize. change (i64 (maxInt64 + 100 - 1)) with (-9223372036854775710).
    change (i64 (maxInt64 + 100)) with (-9223372036854775709).
    change (maxInt64 <? -9223372036854775710) with false. cbv iota. change (-9223372036854775710 =? maxInt64) with false. cbn [andb].
    rewrite batch_ranges_wrap; [done|done|lia|unfold maxInt64; lia].
Qed.
End LogTheorems.

(** ** The bloom of a block *)

Section BlockBloom.
Context `{BK : BankKeeper B} `{AK : AccountKeeper A} `{EC : EthCrypto} `{KC : KeeperConfig}.
Context `{CD : Codec} `{EH : EthHex} `{SD : SdkDec} `{ER : EthReceipts} `{ERL : !EthReceiptsLaws}.
Context `{MST : MultiStore MS (World B A)} `{MSL : !MultiStoreLaws MS (World B A)}.

(** A bloom with more bits covers more. *)
Lemma bloom_of_log_mono (b b' : bytes) l : (∀ k j, 0 ≤ j < 8 → bloom_bit b k j = true → bloom_bit b' k j = true) →
  bloom_of_log b l → bloom_of_log b' l.
Proof.
  intros H [Ha Ht]. assert (Hc : ∀ d, bloom_covers b d → bloom_covers b' d).
  { intros d Hd. eapply Forall_impl; [exact Hd|]. intros n. apply H. apply Z.mod_pos_bound. lia. }
  split; [by apply Hc|]. eapply Forall_impl; [exact Ht|]. intros t. apply Hc.
Qed.

(** The bloom of a block hides no log.  After EndBlock the bloom recorded
    for the block can be read, and it lets every query pass that matches a log of
    one of the block's transactions: each log of which go-ethereum made the
    bloom in the transaction's deferred record. *)
Theorem EndBlock_bloom_sound msgs results gas (c : Ctx MS) infos ante height :
  BankLaws B → block_ready msgs results gas c infos ante →
  ∃ c' bloom, EndBlock msgs results gas c = Ret c' ∧ GetBlockBloomWithExists height (cview c') = Ret (bloom, true) ∧
    ∀ i logs log crit, i ∈ infos → di_TxBloom i = ba (CreateBloom logs) → log ∈ logs → IsLogExactMatch log crit = true →
      MatchFilters bloom (EncodeFilters (fc_Addresses crit) (fc_Topics crit)) = true.
Proof.
  intros BL H. destruct (EndBlock_bloom msgs results gas c infos ante height BL H) as (c' & bloom & E & Eb & Hbits).
  exists c', bloom. split; [done|]. split; [done|]. intros i logs log crit Hi Hb Hlog Hm.
  apply (exact_match_passes bloom log crit Hm). eapply bloom_of_log_mono.
  2:{ pose proof (CreateBloom_covers logs) as Hc. rewrite Forall_forall in Hc. by apply Hc. }
  intros k j Hj Hbit. rewrite Hbits by done. apply existsb_exists. exists i. split; [by apply list_elem_of_In|].
  rewrite Hb, ba_fit_id by apply ba_length. done.
Qed.
End BlockBloom.

(** * Examples *)

(** The bloom with all bits. *)
Definition full_bloom : Bloom := fit 256 (replicate 256 xff).
Definition full_receipts : EthReceipts := {| CreateBloom _ := full_bloom; CreateAddress a n := addr_of n |}.

Lemma full_bloom_bytes : ba full_bloom = replicate 256 xff.
Proof. apply ba_fit_id. by rewrite length_replicate. Qed.

Lemma full_bloom_log `{EC : EthCrypto} l : bloom_of_log (ba full_bloom) l.
Proof.
  assert (H : ∀ d, bloom_covers (ba full_bloom) d).
  { intros d. apply Forall_forall. intros n Hn%bloom_values_range. unfold bloom_has, bloom_bit. rewrite full_bloom_bytes.
    assert (Hk : (Z.to_nat (255 - n / 8) < 256)%nat) by (pose proof (Z.div_pos n 8); lia).
    assert (Hx : nth (Z.to_nat (255 - n / 8)) (replicate 256 xff) x00 = xff).
    { apply nth_lookup_Some with (d := x00). by apply lookup_replicate_2. }
    rewrite Hx. change (bval xff) with (Z.ones 8). apply Z.ones_spec_low. apply Z.mod_pos_bound. lia. }
  split; [done|]. apply Forall_true. done.
Qed.

Section LogExamples.
#[local] Existing Instances demo_bank_keeper demo_bank_laws demo_accounts demo_crypto live_config.
#[local] Existing Instances number_codec number_codec_laws plain_hex strict_ints plain_transactions no_codec half_even_dec.
#[local] Existing Instances map_receipt_store full_receipts.
#[local] Instance unsorted_logs : SortLogs := {| sort_logs l := l |}.
#[local] Instance demo_log_stores : MultiStore (stack_ms demo_world) demo_world := stack_multistore demo_world.
#[local] Instance demo_log_stores_laws : MultiStoreLaws (stack_ms demo_world) demo_world := stack_multistore_laws demo_world.
#[local] Instance full_receipts_laws : EthReceiptsLaws.
Proof. split. intros logs. apply Forall_true. intros l. apply full_bloom_log. Qed.

(** A block of one transaction that ran with a full bloom. *)
Definition full_txs : list RanTx := [mkRanTx 0 full_bloom (hash_of 7) 5].
Definition full_msgs : list (option EvmMsg * ExecTxResult) :=
  [(Some (mkEvmMsg (Some (hash_of 7))), mkExecTxResult 0 "" 21000 true)].
Definition full_block_end : Ctx (stack_ms demo_world) := demo_ctx (foldl append_ran demo_block_start full_txs).

Lemma full_ready : block_ready (fst <$> full_msgs) (snd <$> full_msgs) 400000 full_block_end (expected_infos full_txs 0 full_msgs) 3.
Proof.
  split.
  - vm_compute. reflexivity.
  - apply (deferred_from_expected full_txs demo_block_start full_msgs [] 0); [apply _|done|done| | | |].
    + apply Forall_singleton. unfold is_u64, two64. simpl. lia.
    + repeat constructor. apply not_elem_of_nil.
    + apply demo_start_empty.
    + repeat constructor; discriminate.
  - vm_compute. reflexivity.
  - apply Forall_singleton. right. by eexists.
  - repeat constructor.
Qed.

Lemma EndBlock_bloom_sound_witness :
  ∃ c' bloom, EndBlock (fst <$> full_msgs) (snd <$> full_msgs) 400000 full_block_end = Ret c' ∧
    GetBlockBloomWithExists 1 (cview c') = Ret (bloom, true) ∧
    MatchFilters bloom (EncodeFilters [addr_of 5] [[hash_of 6]]) = true.
Proof.
  destruct (EndBlock_bloom_sound _ _ _ _ _ _ 1 demo_bank_laws full_ready) as (c' & b & H1 & H2 & H3).
  exists c', b. split_and!; [exact H1|exact H2|].
  apply (H3 (ran_record (mkRanTx 0 full_bloom (hash_of 7) 5)) [mkLog (addr_of 5) [hash_of 6] [x01] 0]
           (mkLog (addr_of 5) [hash_of 6] [x01] 0) (mkFilterCriteria None None None [addr_of 5] [[hash_of 6]])).
  - left.
  - reflexivity.
  - left.
  - vm_compute. reflexivity.
Defined.

Definition overflow_node : Node demo_bank (gset bytes) kvstore :=
  mkNode _ _ _ 3 3 demo_world0 ∅ (λ h, (h, demo_world0)) (λ _, true) (λ _ _, inl None) (λ _ _, inl None) (λ _ _, inl []) (fit 32) [-4; -3; -2; -1].

Lemma height_overflow_witness :
  let wk := mkWorkers (λ _, None) (λ _, None) (λ l, l) (λ l, l) in
  let cfg := mkFilterConfig 0 10000 2000 in
  GetLogsByFilters (λ _ m, m) overflow_node true wk cfg 1000 (mkFilterCriteria None (Some maxInt64) (Some maxInt64) [] []) 0 (mkCacheState 0 ∅) =
  Ret (None, mkCacheState 0 ∅).
Proof.
  cbv zeta. refine (proj2 (height_overflow (λ _ m, m) overflow_node true _ _ [] [] _ _ _ _ _ _) 1000%nat _).
  - reflexivity.
  - simpl. lia.
  - vm_compute. intros H. repeat (apply elem_of_cons in H as [H|H]; [discriminate H|]). by apply elem_of_nil in H.
  - vm_compute. intros H. repeat (apply elem_of_cons in H as [H|H]; [discriminate H|]). by apply elem_of_nil in H.
  - simpl. lia.
  - vm_compute. discriminate.
Defined.
End LogExamples.
