(* ===== verification/Synthetic.v ===== *)
(** * Logs of token contracts in receipts
    (app/receipt.go)

    A CosmWasm token that has a pointer contract on the EVM side should look like
    an EVM token.  After a transaction the application translates the wasm events of
    such contracts into logs of their pointers, appends them to the receipt of
    the transaction, or makes a shell receipt for it, and records the bloom for
    the end of the block.

    The hook runs on a gas meter of its own, with a limit from the parameters: what
    it reads and writes costs gas, and it panics when the gas runs out.

    The events are those of the response of the transaction; the queries of
    contracts, the gas of store accesses, the ABI of the TransferBatch event and the
    text form of integers are third-party code. *)

From S2P Require Import Prelude Bytes Dec Store Params Keys World Keeper StateDB Fee Eth Block Instances EthTx Msg Receipts Pointer Heap Bloom Logs Tx Ledger.
From stdpp Require Import pretty.
From Stdlib Require Import Strings.Byte Strings.Ascii.
Local Open Scope Z_scope.
Local Open Scope outcome_scope.

(** ** Data *)

(** [abci.Event]. *)
Record AbciEvent : Type := mkAbciEvent { ae_Type : string; ae_Attributes : list (string * string) }.

Record Action : Type := mkAction {
  ac_Type : string;
  ac_Amount : option Z;
  ac_Amounts : list (option Z);
  ac_TokenId : option Z;
  ac_TokenIds : list (option Z);
  ac_Sender : Hash;
  ac_Recipient : Hash;
  ac_Spender : Hash;
  ac_Operator : Hash;
  ac_Owner : Hash;
  ac_From : Hash;
  ac_To : Hash
}.

(** ** Gas *)

(** Metered code goes from the gas that is left, which is negative once it has run
    out, to its outcome and the gas left then. *)
Definition metered (X : Type) : Type := Z → outcome X * Z.
Definition mret {X : Type} (x : X) : metered X := λ g, (Ret x, g).
Definition mbind {X Y : Type} (m : metered X) (k : X → metered Y) : metered Y := λ g,
  match m g with (Ret x, g') => k x g' | (Panic e, g') => (Panic e, g') end.
(** Code that does not use the meter. *)
Definition unmetered {X : Type} (o : outcome X) : metered X := λ g, (o, g).
(** [ConsumeGas]. *)
Definition spend (n : N) : metered unit := λ g, let g' := g - Z.of_N n in (if g' <? 0 then Panic "out of gas" else Ret tt, g').

Declare Scope metered_scope.
Delimit Scope metered_scope with metered.
Notation "'let$' x := m 'in' k" := (mbind m (λ x, k)) (at level 200, x binder, m at level 100, k at level 200) : metered_scope.
Notation "'do$' m ; k" := (mbind m (λ _, k)) (at level 200, m at level 100, k at level 200) : metered_scope.
Local Open Scope metered_scope.

(** The accesses to stores: keeper calls that read or write. *)
Inductive HookAccess : Type :=
  | CW20PointerRead (contract : string) | CW721PointerRead (contract : string) | CW1155PointerRead (contract : string)
  | EVMAddressRead (a : AccAddress) | TabiAddressRead (a : Address)
  | ReceiptRead (h : Hash) | ReceiptWrite (h : Hash) (r : Receipt)
  | DeferredRead | DeferredWrite (bloom : Bloom) (h : Hash) (surplus : option Z).

(** wasmd, the gas of the SDK's stores, its integers, JSON and the packing of ABI
    arguments. *)
Class WasmEvents (W : Type) := {
  WasmModuleEventType : string;
  AttributeKeyContractAddr : string;
  EventTypeCW721PreTransferOwner : string;
  NewIntFromString : string → option Z;
  QuerySmart : W → AccAddress → bytes → metered (bytes + Err);
  access_gas : W → HookAccess → N;
  (** The error of [json.Unmarshal] is [None]; a missing allowance is nil. *)
  AllowanceResponse_Unmarshal : bytes → option (option Z);
  TransferBatch_Pack : list (option Z) → list (option Z) → outcome (bytes + Err)
}.

Definition ShellReceiptTxType : Z := 4294967295.

(** [strings.Split(s, ",")]. *)
Fixpoint split_commas (s : string) : list string :=
  match s with
  | EmptyString => [EmptyString]
  | String c s' =>
      if Ascii.eqb c ","%char then EmptyString :: split_commas s' else
      match split_commas s' with
      | [] => [String c EmptyString]
      | p :: ps => String c p :: ps
      end
  end.

(** [fmt.Sprintf] of the owner's key. *)
Definition getOwnerEventKey (contractAddr tokenID : string) : string := (contractAddr ++ "-" ++ tokenID)%string.

Definition one_of (s : string) (l : list string) : bool := existsb (String.eqb s) l.

Section Topics.
Context `{EH : EthHex}.
Definition ERC20ApprovalTopic : Hash := HexToHash "0x8c5be1e5ebec7d5bd14f71427d1e84f3dd0314c0f7b2291e5b200ac8c7c3b925".
Definition ERC20TransferTopic : Hash := HexToHash "0xddf252ad1be2c89b69c2b068fc378daa952ba7f163c4a11628f55a4df523b3ef".
Definition ERC721TransferTopic : Hash := HexToHash "0xddf252ad1be2c89b69c2b068fc378daa952ba7f163c4a11628f55a4df523b3ef".
Definition ERC721ApprovalTopic : Hash := HexToHash "0x8c5be1e5ebec7d5bd14f71427d1e84f3dd0314c0f7b2291e5b200ac8c7c3b925".
Definition ERC721ApproveAllTopic : Hash := HexToHash "0x17307eab39ab6107e8899845ad3d59bd9653f200f220920489ca2b5937696c31".
Definition ERC1155TransferSingleTopic : Hash := HexToHash "0xc3d58168c5ae7397731d063d5bbf3d657854427343f4c083240f7aacaa2d0f62".
Definition ERC1155TransferBatchTopic : Hash := HexToHash "0x4a39dc06d4c0dbc64b70af90fd698a233a518aa5d07e595d983b8c0526c8f7fb".
Definition ERC1155ApprovalForAllTopic : Hash := HexToHash "0x17307eab39ab6107e8899845ad3d59bd9653f200f220920489ca2b5937696c31".
Definition EmptyHash : Hash := HexToHash "0x0".
Definition TrueHash : Hash := HexToHash "0x1".
End Topics.

(** A nil integer is dereferenced. *)
Definition BigToHash (z : option Z) : outcome Hash :=
  match z with Some z => Ret (BytesToHash (big_Bytes z)) | None => Panic nil_deref end.

(** ** Events *)

Definition GetEventsOfType (events : list AbciEvent) (ty : string) : list AbciEvent :=
  List.filter (λ e, String.eqb (ae_Type e) ty) events.

Fixpoint attr_of (attrs : list (string * string)) (attribute : string) : option string :=
  match attrs with
  | [] => None
  | (k, v) :: rest => if String.eqb k attribute then Some v else attr_of rest attribute
  end.
Definition GetAttributeValue (event : AbciEvent) (attribute : string) : option string := attr_of (ae_Attributes event) attribute.

(** The owner events with three attributes, by contract and token. *)
Fixpoint owner_events_map (ownerEvents : list AbciEvent) (m : gmap string (list AbciEvent)) : gmap string (list AbciEvent) :=
  match ownerEvents with
  | [] => m
  | e :: rest =>
      match ae_Attributes e with
      | [(_, contract); (_, token); _] =>
          let key := getOwnerEventKey contract token in
          owner_events_map rest (<[key := default [] (m !! key) ++ [e]]> m)
      | _ => owner_events_map rest m
      end
  end.

Section Translate.
Context `{BK : BankKeeper B} `{AK : AccountKeeper A} `{EC : EthCrypto} `{EH : EthHex} `{BE : Bech32}.
Context `{WE : WasmEvents (World B A)}.
Notation World := (World B A).

Definition safeBigIntFromString (s : string) : option Z := NewIntFromString s.

(** [GetEVMAddressOrDefault] and [GetTabiAddressOrDefault] with the metered context. *)
Definition evm_address (w : World) (a : AccAddress) : metered Address :=
  do$ spend (access_gas w (EVMAddressRead a)); mret (GetEVMAddressOrDefault w a).
Definition tabi_address (w : World) (a : Address) : metered AccAddress :=
  do$ spend (access_gas w (TabiAddressRead a)); mret (GetTabiAddressOrDefault w a).

Definition GetEvmAddressHash (w : World) (addrStr : string) : metered Hash :=
  match AccAddressFromBech32 (str_bytes addrStr) with
  | Some tabiAddr => let$ evmAddr := evm_address w tabiAddr in mret (BytesToHash (ba evmAddr))
  | None => mret EmptyHash
  end.

Definition new_action (ty : string) : Action :=
  mkAction ty None [] None [] (BytesToHash []) (BytesToHash []) (BytesToHash []) (BytesToHash []) (BytesToHash [])
    (BytesToHash []) (BytesToHash []).

(** The switch over the key of an attribute, on the current action. *)
Definition set_field (w : World) (key value : string) (a : Action) : metered Action :=
  let '(mkAction ty am ams id ids se re sp op ow fr to) := a in
  if String.eqb key "amount" then mret (mkAction ty (safeBigIntFromString value) ams id ids se re sp op ow fr to)
  else if String.eqb key "amounts" then mret (mkAction ty am (safeBigIntFromString <$> split_commas value) id ids se re sp op ow fr to)
  else if String.eqb key "token_id" then mret (mkAction ty am ams (safeBigIntFromString value) ids se re sp op ow fr to)
  else if String.eqb key "token_ids" then mret (mkAction ty am ams id (safeBigIntFromString <$> split_commas value) se re sp op ow fr to)
  else if String.eqb key "sender" then (let$ h := GetEvmAddressHash w value in mret (mkAction ty am ams id ids h re sp op ow fr to))
  else if String.eqb key "recipient" then (let$ h := GetEvmAddressHash w value in mret (mkAction ty am ams id ids se h sp op ow fr to))
  else if String.eqb key "spender" then (let$ h := GetEvmAddressHash w value in mret (mkAction ty am ams id ids se re h op ow fr to))
  else if String.eqb key "operator" then (let$ h := GetEvmAddressHash w value in mret (mkAction ty am ams id ids se re sp h ow fr to))
  else if String.eqb key "owner" then (let$ h := GetEvmAddressHash w value in mret (mkAction ty am ams id ids se re sp op h fr to))
  else if String.eqb key "from" then (let$ h := GetEvmAddressHash w value in mret (mkAction ty am ams id ids se re sp op ow h to))
  else if String.eqb key "to" then (let$ h := GetEvmAddressHash w value in mret (mkAction ty am ams id ids se re sp op ow fr h))
  else mret a.

(** The actions so far, the current one last. *)
Fixpoint actions_from (w : World) (attrs : list (string * string)) (actions : list Action) : metered (list Action) :=
  match attrs with
  | [] => mret actions
  | (key, value) :: rest =>
      if String.eqb key "action" then actions_from w rest (actions ++ [new_action value]) else
      match last actions with
      | None => actions_from w rest actions
      | Some cur => let$ cur := set_field w key value cur in actions_from w rest (removelast actions ++ [cur])
      end
  end.
Definition GetActionsFromWasmEvent (w : World) (event : AbciEvent) : metered (list Action) := actions_from w (ae_Attributes event) [].

Definition mk_log (pointerAddr : Address) (topics : list Hash) (data : bytes) : Log := mkLog pointerAddr topics data 0.

(** *** CW20 *)

Definition dq : bytes := [x22].
Definition allowance_query (owner spender : AccAddress) : bytes :=
  str_bytes "{" ++ dq ++ str_bytes "allowance" ++ dq ++ str_bytes ":{" ++ dq ++ str_bytes "owner" ++ dq ++ str_bytes ":" ++ dq ++
  acc_String owner ++ dq ++ str_bytes "," ++ dq ++ str_bytes "spender" ++ dq ++ str_bytes ":" ++ dq ++ acc_String spender ++ dq ++ str_bytes "}}".

Definition cw20_action (w : World) (pointerAddr : Address) (contractAddr : string) (action : Action) : metered (list Log) :=
  if one_of (ac_Type action) ["mint"; "burn"; "send"; "transfer"; "transfer_from"; "send_from"; "burn_from"] then
    match ac_Amount action with
    | None => mret []
    | Some amount =>
        mret [mk_log pointerAddr [ERC20TransferTopic; ac_From action; ac_To action] (ba (BytesToHash (big_Bytes amount)))]
    end
  else if one_of (ac_Type action) ["increase_allowance"; "decrease_allowance"] then
    let$ contract := unmetered (MustAccAddressFromBech32 (str_bytes contractAddr)) in
    let$ owner := tabi_address w (BytesToAddress (ba (ac_Owner action))) in
    let$ spender := tabi_address w (BytesToAddress (ba (ac_Spender action))) in
    let$ ret := QuerySmart w contract (allowance_query owner spender) in
    match ret with
    | inr _ => mret []
    | inl ret =>
        match AllowanceResponse_Unmarshal ret with
        | None => mret []
        | Some allowance =>
            let$ h := unmetered (BigToHash allowance) in
            mret [mk_log pointerAddr [ERC20ApprovalTopic; ac_Owner action; ac_Spender action] (ba h)]
        end
    end
  else mret [].

(** A panic, also one for lack of gas, ends the translation of the event: the
    logs so far remain. *)
Fixpoint cw20_actions (w : World) (pointerAddr : Address) (contractAddr : string) (actions : list Action) (res : list Log) (g : Z) : list Log * Z :=
  match actions with
  | [] => (res, g)
  | a :: rest =>
      match cw20_action w pointerAddr contractAddr a g with
      | (Ret logs, g') => cw20_actions w pointerAddr contractAddr rest (res ++ logs) g'
      | (Panic _, g') => (res, g')
      end
  end.
Definition translateCW20Event (w : World) (wasmEvent : AbciEvent) (pointerAddr : Address) (contractAddr : string) : metered (list Log) := λ g,
  match GetActionsFromWasmEvent w wasmEvent g with
  | (Ret actions, g') => let '(res, g'') := cw20_actions w pointerAddr contractAddr actions [] g' in (Ret res, g'')
  | (Panic _, g') => (Ret [], g')
  end.

(** *** CW721 *)

Definition is_transfer_nft (ty : string) : bool := one_of ty ["transfer_nft"; "send_nft"; "burn"].

(** The owner of the [n]-th transfer of a token in this transaction, when an
    event told it. *)
Definition owner_of (w : World) (ownerEventsMap : gmap string (list AbciEvent)) (key : string) (n : nat) : metered (option Hash) :=
  match ownerEventsMap !! key with
  | None => mret None
  | Some ownerEvents =>
      match ownerEvents !! n with
      | None => mret None
      | Some e =>
          match ae_Attributes e !! 2%nat with
          | None => mret None
          | Some (_, owner) =>
              match AccAddressFromBech32 (str_bytes owner) with
              | None => mret None
              | Some a => let$ ownerEvmAddr := evm_address w a in mret (Some (BytesToHash (ba ownerEvmAddr)))
              end
          end
      end
  end.

Definition cw721_action (w : World) (pointerAddr : Address) (contractAddr : string) (ownerEventsMap : gmap string (list AbciEvent))
    (counters : gmap string nat) (action : Action) : metered (list Log * gmap string nat) :=
  let log topics data := [mk_log pointerAddr topics (ba data)] in
  let token id := BytesToHash (big_Bytes id) in
  if is_transfer_nft (ac_Type action) then
    match ac_TokenId action with
    | None => mret ([], counters)
    | Some id =>
        let key := getOwnerEventKey contractAddr (pretty id) in
        let currentCounter := default 0%nat (counters !! key) in
        let$ owner := owner_of w ownerEventsMap key currentCounter in
        mret (log [ERC721TransferTopic; default (ac_Sender action) owner; ac_Recipient action; token id] EmptyHash,
              <[key := S currentCounter]> counters)
    end
  else mret (
  if String.eqb (ac_Type action) "mint" then
    match ac_TokenId action with
    | None => []
    | Some id => log [ERC721TransferTopic; EmptyHash; ac_Owner action; token id] EmptyHash
    end
  else if String.eqb (ac_Type action) "approve" then
    match ac_TokenId action with
    | None => []
    | Some id => log [ERC721ApprovalTopic; ac_Sender action; ac_Spender action; token id] EmptyHash
    end
  else if String.eqb (ac_Type action) "revoke" then
    match ac_TokenId action with
    | None => []
    | Some id => log [ERC721ApprovalTopic; ac_Sender action; EmptyHash; token id] EmptyHash
    end
  else if String.eqb (ac_Type action) "approve_all" then
    log [ERC721ApproveAllTopic; ac_Sender action; ac_Operator action] TrueHash
  else if String.eqb (ac_Type action) "revoke_all" then
    log [ERC721ApproveAllTopic; ac_Sender action; ac_Operator action] EmptyHash
  else [], counters).

Fixpoint cw721_actions (w : World) (pointerAddr : Address) (contractAddr : string) (ownerEventsMap : gmap string (list AbciEvent))
    (counters : gmap string nat) (actions : list Action) : metered (list Log * gmap string nat) :=
  match actions with
  | [] => mret ([], counters)
  | a :: rest =>
      let$ r := cw721_action w pointerAddr contractAddr ownerEventsMap counters a in
      let$ more := cw721_actions w pointerAddr contractAddr ownerEventsMap r.2 rest in
      mret (r.1 ++ more.1, more.2)
  end.
Definition translateCW721Event (w : World) (wasmEvent : AbciEvent) (pointerAddr : Address) (contractAddr : string)
    (ownerEventsMap : gmap string (list AbciEvent)) (counters : gmap string nat) : metered (list Log * gmap string nat) :=
  let$ actions := GetActionsFromWasmEvent w wasmEvent in
  cw721_actions w pointerAddr contractAddr ownerEventsMap counters actions.

(** *** CW1155 *)

Definition cw1155_action (pointerAddr : Address) (action : Action) : outcome (list Log) :=
  let ty := ac_Type action in
  if one_of ty ["transfer_single"; "mint_single"; "burn_single"] then
    let fromHash := if String.eqb ty "mint_single" then EmptyHash else ac_Owner action in
    let toHash := if String.eqb ty "burn_single" then EmptyHash else ac_Recipient action in
    match ac_TokenId action, ac_Amount action with
    | Some id, Some amount =>
        Ret [mk_log pointerAddr [ERC1155TransferSingleTopic; ac_Sender action; fromHash; toHash]
               (ba (BytesToHash (big_Bytes id)) ++ ba (BytesToHash (big_Bytes amount)))]
    | _, _ => Ret []
    end
  else if one_of ty ["transfer_batch"; "mint_batch"; "burn_batch"] then
    let fromHash := if String.eqb ty "mint_batch" then EmptyHash else ac_Owner action in
    let toHash := if String.eqb ty "burn_batch" then EmptyHash else ac_Recipient action in
    match ac_TokenIds action, ac_Amounts action with
    | [], _ | _, [] => Ret []
    | ids, amounts =>
        let* value := TransferBatch_Pack ids amounts in
        match value with
        | inr _ => Ret []
        | inl value => Ret [mk_log pointerAddr [ERC1155TransferBatchTopic; ac_Sender action; fromHash; toHash] value]
        end
    end
  else if String.eqb ty "approve_all" then
    Ret [mk_log pointerAddr [ERC1155ApprovalForAllTopic; ac_Sender action; ac_Operator action] (ba TrueHash)]
  else if String.eqb ty "revoke_all" then
    Ret [mk_log pointerAddr [ERC1155ApprovalForAllTopic; ac_Sender action; ac_Operator action] (ba EmptyHash)]
  else Ret [].

Fixpoint cw1155_actions (pointerAddr : Address) (actions : list Action) : outcome (list Log) :=
  match actions with
  | [] => Ret []
  | a :: rest =>
      let* logs := cw1155_action pointerAddr a in
      let* more := cw1155_actions pointerAddr rest in
      Ret (logs ++ more)
  end.
Definition translateCW1155Event (w : World) (wasmEvent : AbciEvent) (pointerAddr : Address) : metered (list Log) :=
  let$ actions := GetActionsFromWasmEvent w wasmEvent in
  unmetered (cw1155_actions pointerAddr actions).

End Translate.

(** ** The hook *)

(** What the hook reads of its context and of the transaction: the block, the gas
    consumed so far on the meter of the transaction and what is left on it (nothing
    bounds it if the meter is infinite), and the signers of a transaction that has
    some. *)
Record HookCtx : Type := mkHookCtx {
  hk_info : BlockInfo;
  hk_gasConsumed : Z;
  hk_gasLeft : option Z;
  hk_signers : option (list AccAddress)
}.

Definition set_Index (i : nat) (l : RLog) : RLog :=
  mkRLog (rl_Address l) (rl_Topics l) (rl_Data l) (u32 (Z.of_nat i)) (rl_Synthetic l).

Section Hook.
Context `{BK : BankKeeper B} `{AK : AccountKeeper A} `{EC : EthCrypto} `{EH : EthHex} `{BE : Bech32}.
Context `{WE : WasmEvents (World B A)} `{CD : Codec} `{ER : EthReceipts}.
Notation World := (World B A).
Variable chainID : string.
Variable versionOverride : Z.

(** [log.Index = uint(len(logs))] for each of the new logs. *)
Fixpoint append_logs (logs new : list Log) : list Log :=
  match new with
  | [] => logs
  | l :: rest => append_logs (logs ++ [mkLog (l_Address l) (l_Topics l) (l_Data l) (u64 (Z.of_nat (length logs)))]) rest
  end.

(** One wasm event. *)
Definition event_logs (isTracing : bool) (w : World) (ownerEventsMap : gmap string (list AbciEvent)) (wasmEvent : AbciEvent)
    (logs : list Log) (counters : gmap string nat) : metered (list Log * gmap string nat) :=
  match GetAttributeValue wasmEvent AttributeKeyContractAddr with
  | None => mret (logs, counters)
  | Some contractAddr =>
      do$ spend (access_gas w (CW20PointerRead contractAddr));
      let$ p := unmetered (GetERC20CW20Pointer chainID versionOverride isTracing w (str_bytes contractAddr)) in
      match p with
      | Some (pointerAddr, _) =>
          let$ new := translateCW20Event w wasmEvent pointerAddr contractAddr in
          mret (append_logs logs new, counters)
      | None =>
      do$ spend (access_gas w (CW721PointerRead contractAddr));
      let$ p := unmetered (GetERC721CW721Pointer isTracing w (str_bytes contractAddr)) in
      match p with
      | Some (pointerAddr, _) =>
          let$ r := translateCW721Event w wasmEvent pointerAddr contractAddr ownerEventsMap counters in
          mret (append_logs logs r.1, r.2)
      | None =>
      do$ spend (access_gas w (CW1155PointerRead contractAddr));
      let$ p := unmetered (GetERC1155CW1155Pointer isTracing w (str_bytes contractAddr)) in
      match p with
      | Some (pointerAddr, _) =>
          let$ new := translateCW1155Event w wasmEvent pointerAddr in
          mret (append_logs logs new, counters)
      | None => mret (logs, counters)
      end end end
  end.
Fixpoint events_logs (isTracing : bool) (w : World) (ownerEventsMap : gmap string (list AbciEvent)) (wasmEvents : list AbciEvent)
    (logs : list Log) (counters : gmap string nat) : metered (list Log) :=
  match wasmEvents with
  | [] => mret logs
  | e :: rest =>
      let$ r := event_logs isTracing w ownerEventsMap e logs counters in
      events_logs isTracing w ownerEventsMap rest r.1 r.2
  end.

(** The logs of the events of a transaction. *)
Definition synthetic_logs (isTracing : bool) (w : World) (events : list AbciEvent) : metered (list Log) :=
  let wasmEvents := GetEventsOfType events WasmModuleEventType in
  let ownerEventsMap := owner_events_map (GetEventsOfType events EventTypeCW721PreTransferOwner) ∅ in
  events_logs isTracing w ownerEventsMap wasmEvents [] ∅.

(** The receipt of a transaction that has none. *)
Definition shell_receipt (h : HookCtx) (from : string) (txHash : Hash) (logs : list Log) : Receipt :=
  mkReceipt ShellReceiptTxType 0 "" (hash_Hex txHash) (hk_gasConsumed h) 0 (u64 (ci_height (hk_info h))) (u32 (ci_txIndex (hk_info h))) 1
    from "" ""
    (ConvertSyntheticEthLog <$> logs) (ba (CreateBloom logs)).

(** The receipt with the logs appended, and its bloom. *)
Definition with_logs (r : Receipt) (logs : list Log) : Receipt * Bloom :=
  let set_logs ls bz := mkReceipt (rc_TxType r) (rc_CumulativeGasUsed r) (rc_ContractAddress r) (rc_TxHashHex r) (rc_GasUsed r)
    (rc_EffectiveGasPrice r) (rc_BlockNumber r) (rc_TransactionIndex r) (rc_Status r) (rc_From r) (rc_To r) (rc_VmError r) ls bz in
  let all := imap set_Index (rc_Logs r ++ (ConvertSyntheticEthLog <$> logs)) in
  let bloom := CreateBloom (lg_log <$> GetLogsForTx (set_logs all (rc_LogsBloom r)) 0) in
  (set_logs all (ba bloom), bloom).

(** The receipt the logs go to, with its bloom. *)
Definition hook_receipt (h : HookCtx) (w : World) (txHash : Hash) (logs : list Log) : metered (Receipt * Bloom) :=
  do$ spend (access_gas w (ReceiptRead txHash));
  match GetTransientReceipt txHash w with
  | Some r => mret (with_logs r logs)
  | None =>
      let$ from := match hk_signers h with
                   | Some (s :: _) => let$ a := evm_address w s in mret (addr_Hex a)
                   | _ => mret ""%string
                   end in
      mret (shell_receipt h from txHash logs, CreateBloom logs)
  end.

(** Reading the record is paid on the meter of the transaction. *)
Definition pay_transaction (h : HookCtx) (n : N) : metered unit := λ g,
  match hk_gasLeft h with
  | Some gas => (if gas - Z.of_N n <? 0 then Panic "out of gas" else Ret tt, g)
  | None => (Ret tt, g)
  end.

Definition AddCosmosEventsToEVMReceiptIfApplicable (h : HookCtx) (checksum : Hash) (evmTxHash : option string)
    (events : list AbciEvent) (w : World) : outcome World :=
  if bool_decide (GetEventsOfType events WasmModuleEventType = []) then Ret w else
  let wasmToEvmEventGasLimit := GetDeliverTxHookWasmGasLimit w in
  ((let$ logs := synthetic_logs (ci_isTracing (hk_info h)) w events in
    match logs with
    | [] => mret w
    | _ =>
        let txHash := match evmTxHash with Some s => HexToHash s | None => checksum end in
        let$ rb := hook_receipt h w txHash logs in
        do$ spend (access_gas w (ReceiptWrite txHash rb.1));
        let w1 := SetTransientReceipt txHash rb.1 w in
        do$ pay_transaction h (access_gas w1 DeferredRead);
        let surplus := match GetEVMTxDeferredInfo (ci_txIndex (hk_info h)) w1 with Some d => di_Surplus d | None => Some 0 end in
        do$ spend (access_gas w1 (DeferredWrite rb.2 txHash surplus));
        mret (AppendToEvmTxDeferredInfo rb.2 txHash surplus (ci_txIndex (hk_info h)) w1)
    end) wasmToEvmEventGasLimit).1.

End Hook.

(** * Indices, blooms and records *)

Definition indexed (logs : list Log) : Prop := ∀ i l, logs !! i = Some l → l_Index l = u64 (Z.of_nat i).

Lemma append_logs_indexed logs new : indexed logs → indexed (append_logs logs new).
Proof.
  revert logs. induction new as [|l new IH]; intros logs Hi; [done|]. apply IH. intros i k.
  destruct (decide (i < length logs)%nat) as [Hlt|Hge].
  - rewrite lookup_app_l by done. apply Hi.
  - rewrite lookup_app_r by lia. intros H. apply list_lookup_singleton_Some in H as [E <-]. simpl. do 2 f_equal. lia.
Qed.

(** The appended logs are the new ones, but for their indices. *)
Definition content (l : Log) : Address * list Hash * bytes := (l_Address l, l_Topics l, l_Data l).
Lemma append_logs_content logs new : content <$> append_logs logs new = (content <$> logs) ++ (content <$> new).
Proof.
  revert logs. induction new as [|l new IH]; intros logs; simpl; [by rewrite app_nil_r|].
  rewrite IH, fmap_app. by rewrite <- app_assoc.
Qed.

Lemma u32_u64 z : u32 (u64 z) = u32 z.
Proof. unfold u32, u64, two64. rewrite <- Znumtheory.Zmod_div_mod; [done|lia|lia|]. by exists (2 ^ 32). Qed.

Lemma imap_indexed `{EH : EthHex} logs :
  indexed logs → imap set_Index (ConvertSyntheticEthLog <$> logs) = ConvertSyntheticEthLog <$> logs.
Proof.
  intros Hi. apply list_eq. intros i. rewrite list_lookup_imap, list_lookup_fmap.
  destruct (logs !! i) as [l|] eqn:E; simpl; [|done]. apply Hi in E.
  unfold set_Index, ConvertSyntheticEthLog, ConvertEthLog. simpl. by rewrite E, u32_u64.
Qed.

Lemma convert_synthetic_bloom `{EC : EthCrypto} `{EH : EthHex} `{EHL : !EthHexLaws} bz rc (l : Log) :
  bloom_of_log bz l → bloom_of_log bz (lg_log (convertLog (ConvertSyntheticEthLog l) rc 0)).
Proof.
  destruct l as [a ts d i]. intros [Ha Ht]. unfold bloom_of_log, compose, convertLog, ConvertSyntheticEthLog, ConvertEthLog in *. cbn in *.
  by rewrite HexToAddress_Hex, (fmap_cancel hash_Hex HexToHash ts HexToHash_Hex).
Qed.

Lemma spend_bind {X} n (k : metered X) g :
  (do$ spend n; k) g = if g - Z.of_N n <? 0 then (Panic "out of gas", g - Z.of_N n) else k (g - Z.of_N n).
Proof. unfold mbind, spend. by destruct (_ <? 0). Qed.
Lemma mbind_Ret {X Y} (m : metered X) (k : X → metered Y) g y g' :
  mbind m k g = (Ret y, g') → ∃ x g1, m g = (Ret x, g1) ∧ k x g1 = (Ret y, g').
Proof. unfold mbind. destruct (m g) as [[x|] g1]; [|done]. intros H. by exists x, g1. Qed.

Lemma mbind_assoc {X Y X'} (m : metered X) (k : X → metered Y) (k' : Y → metered X') g :
  mbind (mbind m k) k' g = mbind m (λ x, mbind (k x) k') g.
Proof. unfold mbind. by destruct (m g) as [[x|] g1]. Qed.
Lemma mbind_mret {X} (m : metered X) g : mbind m mret g = m g.
Proof. unfold mbind. by destruct (m g) as [[x|] g1]. Qed.

Section HookLemmas.
Context `{BK : BankKeeper B} `{AK : AccountKeeper A} `{EC : EthCrypto} `{EH : EthHex} `{EHL : !EthHexLaws} `{BE : Bech32}.
Context `{WE : WasmEvents (World B A)} `{CD : Codec} `{CDL : !CodecLaws} `{ER : EthReceipts} `{ERL : !EthReceiptsLaws}.
Notation World := (World B A).
Variable chainID : string.
Variable versionOverride : Z.
#[local] Notation hook := (AddCosmosEventsToEVMReceiptIfApplicable chainID versionOverride).
#[local] Notation syn := (synthetic_logs chainID versionOverride).

Lemma event_logs_indexed t (w : World) m e logs cs r g g' :
  event_logs chainID versionOverride t w m e logs cs g = (Ret r, g') → indexed logs → indexed r.1.
Proof.
  unfold event_logs. intros H Hi. destruct (GetAttributeValue e AttributeKeyContractAddr) as [a|]; [|by injection H as <-].
  apply mbind_Ret in H as ([] & g1 & _ & H). apply mbind_Ret in H as ([[p ?]|] & g2 & _ & H).
  { apply mbind_Ret in H as (new & g3 & _ & [= <- _]). by apply append_logs_indexed. }
  apply mbind_Ret in H as ([] & g3 & _ & H). apply mbind_Ret in H as ([[p ?]|] & g4 & _ & H).
  { apply mbind_Ret in H as (new & g5 & _ & [= <- _]). by apply append_logs_indexed. }
  apply mbind_Ret in H as ([] & g5 & _ & H). apply mbind_Ret in H as ([[p ?]|] & g6 & _ & H); [|by injection H as <-].
  apply mbind_Ret in H as (new & g7 & _ & [= <- _]). by apply append_logs_indexed.
Qed.
Lemma events_logs_indexed t (w : World) m es logs cs r g g' :
  events_logs chainID versionOverride t w m es logs cs g = (Ret r, g') → indexed logs → indexed r.
Proof.
  revert logs cs g. induction es as [|e es IH]; intros logs cs g; simpl; [by intros [= <-]|].
  intros (r1 & g1 & E & H)%mbind_Ret Hi. eapply IH; [done|]. by eapply event_logs_indexed.
Qed.
Lemma synthetic_logs_indexed t (w : World) events logs g g' : syn t w events g = (Ret logs, g') → indexed logs.
Proof. intros H. eapply events_logs_indexed; [exact H|]. intros i l. by rewrite lookup_nil. Qed.

(** The receipt the logs go to, and its bloom. *)
Definition sender_text (h : HookCtx) (w : World) : string :=
  match hk_signers h with Some (s :: _) => addr_Hex (GetEVMAddressOrDefault w s) | _ => ""%string end.
Definition new_receipt (h : HookCtx) (w : World) (txHash : Hash) (logs : list Log) : Receipt * Bloom :=
  match GetTransientReceipt txHash w with
  | Some r => with_logs r logs
  | None => (shell_receipt h (sender_text h w) txHash logs, CreateBloom logs)
  end.
Definition hook_hash (checksum : Hash) (evmTxHash : option string) : Hash :=
  match evmTxHash with Some s => HexToHash s | None => checksum end.
Definition old_logs (txHash : Hash) (w : World) : list RLog :=
  match GetTransientReceipt txHash w with Some r => rc_Logs r | None => [] end.
Definition old_surplus (i : Z) (w : World) : option Z :=
  match GetEVMTxDeferredInfo i w with Some d => di_Surplus d | None => Some 0 end.

(** What writing the receipt and the record costs on the meter of the hook, and
    whether [g] pays for it and the meter of the transaction for reading the record. *)
Definition receipt_gas (h : HookCtx) (w : World) (txHash : Hash) : N :=
  access_gas w (ReceiptRead txHash) +
  match GetTransientReceipt txHash w, hk_signers h with None, Some (s :: _) => access_gas w (EVMAddressRead s) | _, _ => 0 end.
Definition write_gas (h : HookCtx) (w : World) (txHash : Hash) (logs : list Log) : N :=
  let rb := new_receipt h w txHash logs in
  access_gas w (ReceiptWrite txHash rb.1) +
  access_gas (SetTransientReceipt txHash rb.1 w) (DeferredWrite rb.2 txHash (old_surplus (ci_txIndex (hk_info h)) w)).
Definition affordable (h : HookCtx) (w : World) (txHash : Hash) (logs : list Log) (g : Z) : bool :=
  (Z.of_N (receipt_gas h w txHash + write_gas h w txHash logs) <=? g) &&
  match hk_gasLeft h with
  | Some gas => Z.of_N (access_gas (SetTransientReceipt txHash (new_receipt h w txHash logs).1 w) DeferredRead) <=? gas
  | None => true
  end.

Lemma new_receipt_logs h w txHash logs :
  indexed logs → rc_Logs (new_receipt h w txHash logs).1 = imap set_Index (old_logs txHash w ++ (ConvertSyntheticEthLog <$> logs)).
Proof.
  intros Hi. unfold new_receipt, old_logs. destruct (GetTransientReceipt txHash w); [done|]. simpl. by rewrite imap_indexed.
Qed.
Lemma new_receipt_bytes h w txHash logs :
  rc_LogsBloom (new_receipt h w txHash logs).1 = ba (new_receipt h w txHash logs).2.
Proof. unfold new_receipt. by destruct (GetTransientReceipt txHash w). Qed.
Lemma new_receipt_bloom h w txHash logs : receipt_bloom_ok (new_receipt h w txHash logs).1.
Proof.
  unfold new_receipt. destruct (GetTransientReceipt txHash w) as [r|].
  - right. split; [apply ba_length|]. unfold with_logs. cbn [fst rc_LogsBloom rc_Logs].
    match goal with |- context [CreateBloom ?ls] => pose proof (CreateBloom_covers ls) as Hc end.
    unfold GetLogsForTx in Hc at 2. rewrite !Forall_fmap in Hc. exact Hc.
  - right. split; [apply ba_length|]. unfold shell_receipt. cbn [fst rc_LogsBloom rc_Logs].
    apply Forall_fmap. eapply Forall_impl; [apply CreateBloom_covers|]. intros l. apply convert_synthetic_bloom.
Qed.

Lemma hook_receipt_run h w txHash logs g : 
  ∃ g', hook_receipt h w txHash logs g =
    (if Z.of_N (receipt_gas h w txHash) <=? g then Ret (new_receipt h w txHash logs) else Panic "out of gas", g') ∧
    (Z.of_N (receipt_gas h w txHash) ≤ g → g' = g - Z.of_N (receipt_gas h w txHash)).
Proof.
  unfold hook_receipt, receipt_gas, new_receipt, sender_text. rewrite spend_bind.
  destruct (GetTransientReceipt txHash w) as [r|]; [|destruct (hk_signers h) as [[|s ss]|]].
  all: try unfold evm_address; unfold mbind, mret, spend.
  all: repeat (match goal with |- context [?x <? ?y] => destruct (Z.ltb_spec x y) | |- context [?x <=? ?y] => destruct (Z.leb_spec x y) end);
    try lia; eexists; (split; [reflexivity|lia]).
Qed.

Lemma synthetic_logs_wasm t (w : World) events logs g g' :
  syn t w events g = (Ret logs, g') → logs ≠ [] → GetEventsOfType events WasmModuleEventType ≠ [].
Proof. unfold synthetic_logs. intros H Hne E. rewrite E in H. simpl in H. by injection H as <-. Qed.

(** What is written when there are logs. *)
Definition hook_write (h : HookCtx) (txHash : Hash) (logs : list Log) (w : World) : World :=
  let i := ci_txIndex (hk_info h) in
  let rb := new_receipt h w txHash logs in
  AppendToEvmTxDeferredInfo rb.2 txHash (old_surplus i w) i (SetTransientReceipt txHash rb.1 w).

Lemma surplus_kept txHash r i (w : World) : old_surplus i (SetTransientReceipt txHash r w) = old_surplus i w.
Proof.
  unfold old_surplus, GetEVMTxDeferredInfo, SetTransientReceipt. cbn [w_transient set_transient]. by rewrite lookup_insert_ne by discriminate.
Qed.

Lemma hook_run h checksum evmHash events (w : World) logs g : let txHash := hook_hash checksum evmHash in
  syn (ci_isTracing (hk_info h)) w events (GetDeliverTxHookWasmGasLimit w) = (Ret logs, g) → logs ≠ [] →
  hook h checksum evmHash events w =
    if affordable h w txHash logs g then Ret (hook_write h txHash logs w) else Panic "out of gas".
Proof.
  intros txHash Hs Hne. unfold AddCosmosEventsToEVMReceiptIfApplicable.
  rewrite bool_decide_eq_false_2 by (by eapply synthetic_logs_wasm). cbv zeta. unfold mbind at 1. rewrite Hs.
  destruct logs as [|l logs]; [done|]. fold (hook_hash checksum evmHash). fold txHash. unfold affordable, hook_write, write_gas. cbv zeta.
  unfold mbind at 1. destruct (hook_receipt_run h w txHash (l :: logs) g) as (g1 & -> & Hg1).
  destruct (Z.leb_spec (Z.of_N (receipt_gas h w txHash)) g) as [Hr|Hr].
  2:{ match goal with |- context [?x <=? g] => destruct (Z.leb_spec x g) end; [lia|done]. }
  specialize (Hg1 Hr). set (rb := new_receipt h w txHash (l :: logs)). set (w1 := SetTransientReceipt txHash rb.1 w).
  fold (old_surplus (ci_txIndex (hk_info h)) w1). rewrite spend_bind. unfold w1 at 3 4. rewrite surplus_kept. fold w1.
  unfold pay_transaction. unfold mbind at 1. destruct (hk_gasLeft h) as [gas|].
  all: rewrite ?spend_bind; unfold mret.
  all: repeat (match goal with |- context [?x <? ?y] => destruct (Z.ltb_spec x y) | |- context [?x <=? ?y] => destruct (Z.leb_spec x y) end);
    cbn [andb fst]; try lia; try done; rewrite ?spend_bind; repeat (match goal with |- context [?x <? ?y] => destruct (Z.ltb_spec x y) end); done || lia.
Qed.

(** Either nothing happens, or there are logs and they are written. *)
Lemma hook_inv h checksum evmHash events (w w' : World) :
  hook h checksum evmHash events w = Ret w' →
  w' = w ∨ ∃ logs, w' = hook_write h (hook_hash checksum evmHash) logs w.
Proof.
  intros H. destruct (syn (ci_isTracing (hk_info h)) w events (GetDeliverTxHookWasmGasLimit w)) as [[[|l logs]|] g] eqn:Es.
  - left. unfold AddCosmosEventsToEVMReceiptIfApplicable, mbind in H. rewrite Es in H. destruct (bool_decide _); by injection H as <-.
  - right. exists (l :: logs). rewrite (hook_run _ _ _ _ _ _ _ Es) in H by done. destruct (affordable _ _ _ _ _); [by injection H as <-|done].
  - left. unfold AddCosmosEventsToEVMReceiptIfApplicable, mbind in H. rewrite Es in H. destruct (bool_decide _); [by injection H as <-|done].
Qed.

Lemma hook_write_spec h txHash logs (w : World) :
  let i := ci_txIndex (hk_info h) in
  let rb := new_receipt h w txHash logs in
  let w' := hook_write h txHash logs w in
  GetTransientReceipt txHash w' = Some rb.1 ∧
  (is_Some (old_surplus i w) →
    GetEVMTxDeferredInfo i w' = Some (mkDeferredInfo (i `mod` 2 ^ 32) (ba txHash) (rc_LogsBloom rb.1) (old_surplus i w) "")) ∧
  (∀ k, k ≠ ReceiptKey txHash → k ≠ deferred_key i → w_transient w' !! k = w_transient w !! k) ∧
  w_evm w' = w_evm w ∧ w_bank w' = w_bank w ∧ w_acct w' = w_acct w ∧ w_params w' = w_params w.
Proof.
  cbv zeta. rewrite new_receipt_bytes. unfold hook_write. destruct (new_receipt h w txHash logs) as [rc bloom].
  unfold GetTransientReceipt, GetEVMTxDeferredInfo, AppendToEvmTxDeferredInfo, SetTransientReceipt, prefix_set.
  cbn [w_transient set_transient fst snd w_evm w_bank w_acct w_params]. split_and!; try done.
  - rewrite lookup_insert_ne by discriminate. rewrite lookup_insert_eq. apply Receipt_codec.
  - intros Hs. rewrite lookup_insert_eq. by rewrite DeferredInfo_codec.
  - intros k H1 H2. by rewrite !lookup_insert_ne.
Qed.

(** C12: the logs of a transaction's wasm events end up in its receipt, or the
    hook panics for lack of gas.  Once the events are translated on the hook's gas
    meter, whose limit is a parameter, and give logs: if what is left of the gas pays
    for the receipt and the record, and the transaction's own meter for reading the
    record, the receipt has the logs after those it had, all of them numbered from
    zero in order, with a bloom that no query for one of them misses; the record for
    the end of the block gets that bloom and keeps its surplus; and nothing else in
    the stores changes.  Otherwise the hook panics: in particular when the gas ran
    out in the translation of an event, which keeps the logs made so far. *)
Theorem hook_appends_logs h checksum evmHash events (w : World) logs g :
  let i := ci_txIndex (hk_info h) in
  let txHash := hook_hash checksum evmHash in
  syn (ci_isTracing (hk_info h)) w events (GetDeliverTxHookWasmGasLimit w) = (Ret logs, g) → logs ≠ [] → is_Some (old_surplus i w) →
  if affordable h w txHash logs g
  then ∃ w' r, hook h checksum evmHash events w = Ret w' ∧ GetTransientReceipt txHash w' = Some r ∧
    rc_Logs r = imap set_Index (old_logs txHash w ++ (ConvertSyntheticEthLog <$> logs)) ∧
    receipt_bloom_ok r ∧
    GetEVMTxDeferredInfo i w' = Some (mkDeferredInfo (i `mod` 2 ^ 32) (ba txHash) (rc_LogsBloom r) (old_surplus i w) "") ∧
    (∀ k, k ≠ ReceiptKey txHash → k ≠ deferred_key i → w_transient w' !! k = w_transient w !! k) ∧
    w_evm w' = w_evm w ∧ w_bank w' = w_bank w ∧ w_acct w' = w_acct w ∧ w_params w' = w_params w
  else hook h checksum evmHash events w = Panic "out of gas".
Proof.
  cbv zeta. intros Hsyn Hne Hsp. pose proof (synthetic_logs_indexed _ _ _ _ _ _ Hsyn) as Hi.
  rewrite (hook_run h checksum evmHash events w logs g Hsyn Hne).
  destruct (affordable h w (hook_hash checksum evmHash) logs g); [|done].
  destruct (hook_write_spec h (hook_hash checksum evmHash) logs w) as (Hr & Hd & Hrest).
  exists (hook_write h (hook_hash checksum evmHash) logs w), (new_receipt h w (hook_hash checksum evmHash) logs).1.
  split_and!; [done|done|by apply new_receipt_logs|apply new_receipt_bloom|by apply Hd|apply Hrest..].
Qed.
End HookLemmas.

(** ** The hook in the books of the block *)

Section HookLedger.
Context `{BK : BankKeeper B} `{AK : AccountKeeper A} `{EC : EthCrypto} `{EH : EthHex} `{BE : Bech32}.
Context `{WE : WasmEvents (World B A)} `{CD : Codec} `{CDL : !CodecLaws} `{ER : EthReceipts}.
Context `{MST : MultiStore MS (World B A)} `{MSL : !MultiStoreLaws MS (World B A)}.
Notation Ctx := (Ctx MS).

(** The hook after the delivery of the transaction of a context with [info]: it
    is not called, or runs on the stores the transaction left; one that runs out of
    gas may have written the receipt before. *)
Definition hook_ran (info : BlockInfo) (c c' : Ctx) : Prop :=
  c' = c ∨ (∃ h r, c' = cupd (SetTransientReceipt h r) c) ∨
  ∃ chainID versionOverride h checksum evmHash events w', hk_info h = info ∧
    AddCosmosEventsToEVMReceiptIfApplicable chainID versionOverride h checksum evmHash events (cview c) = Ret w' ∧
    c' = cupd (λ _, w') c.

(** A receipt is not in the books. *)
Lemma receipt_step i h r (c : Ctx) : ledger_step i None c (cupd (SetTransientReceipt h r) c).
Proof.
  assert (Hk : ∀ k, k ≠ ReceiptKey h → w_transient (cview (cupd (SetTransientReceipt h r) c)) !! k = w_transient (cview c) !! k).
  { intros k Hk. rewrite cview_cupd. cbn. by rewrite lookup_insert_ne. }
  assert (Hrec : ∀ j, record_at j (cupd (SetTransientReceipt h r) c) = record_at j c) by (intros j; apply Hk; unfold deferred_key; discriminate).
  split.
  - apply prefix_store_ext. intros k. apply Hk. unfold ReceiptKey. discriminate.
  - intros j _ _. apply Hrec.
  - left. apply Hrec.
  - rewrite (surplus_at_ext i c) by apply Hrec. unfold Ledger.total. rewrite cview_cupd. simpl. lia.
Qed.

Lemma hook_ran_step info (c c' : Ctx) :
  let i := ci_txIndex info in
  hook_ran info c c' → is_u64 i → record_at i c = None ∨ recorded i c → ledger_step i None c c'.
Proof.
  cbv zeta. intros [->|[(h & r & ->)|(chainID & ov & h & ck & eh & evs & w' & Hinfo & Hrun & ->)]] Hu Hold; [by apply quiet_step|apply receipt_step|].
  apply hook_inv in Hrun as [->|[logs ->]].
  { apply quiet_step. split; [unfold Ledger.total|]; by rewrite cview_cupd. }
  set (i := ci_txIndex info) in *. set (t := hook_hash ck eh).
  assert (Hsp : old_surplus i (cview c) = Some (surplus_at i c)).
  { unfold old_surplus, surplus_at, recorded_surplus. destruct Hold as [Hn|(d & Hg & [z Hz] & _)].
    - unfold GetEVMTxDeferredInfo. unfold record_at, deferred_key in Hn. by rewrite Hn.
    - by rewrite Hg, Hz. }
  destruct (hook_write_spec h t logs (cview c)) as (_ & Hd & Hk & _ & Hb & _). rewrite Hinfo in Hd, Hk. fold i in Hd, Hk.
  rewrite Hsp in Hd. specialize (Hd ltac:(by eexists)).
  split.
  - unfold ante_store. rewrite cview_cupd. apply prefix_store_ext. intros k. apply Hk; unfold ReceiptKey, deferred_key; discriminate.
  - intros j Hj Hne. unfold record_at. rewrite cview_cupd. apply Hk; [unfold ReceiptKey, deferred_key; discriminate|].
    unfold deferred_key. intros E%app_inv_head. apply Hne. by apply PutUint64_inj.
  - right. eexists. rewrite cview_cupd. split; [exact Hd|]. split; [by eexists|]. split; [done|].
    cbn [di_TxBloom]. unfold new_receipt. destruct (GetTransientReceipt t (cview c)); cbn [fst with_logs shell_receipt rc_LogsBloom];
      rewrite ba_length; lia.
  - unfold Ledger.total, surplus_at at 1, recorded_surplus. rewrite cview_cupd, Hd, Hb. simpl. unfold surplus_at. lia.
Qed.
End HookLedger.

(** * Owners of transferred tokens

    A specification without counters: the transfer of a token in a transaction
    takes the owner from the owner event with the number of transfers of the
    token before it. *)

Section Reference.
Context `{BK : BankKeeper B} `{AK : AccountKeeper A} `{EC : EthCrypto} `{EH : EthHex} `{BE : Bech32}.
Context `{WE : WasmEvents (World B A)}.
Notation World := (World B A).
Variable chainID : string.
Variable versionOverride : Z.
Variable isTracing : bool.
Variable w : World.
Variable owners : gmap string (list AbciEvent).

(** The key of the token an action transfers. *)
Definition transfer_key (contractAddr : string) (a : Action) : option string :=
  if is_transfer_nft (ac_Type a) then (λ id, getOwnerEventKey contractAddr (pretty id)) <$> ac_TokenId a else None.

Definition occurrences (key : string) (prior : list string) : nat := length (List.filter (String.eqb key) prior).

Definition cw721_log (p : Address) (contractAddr : string) (prior : list string) (a : Action) : metered (list Log) :=
  match transfer_key contractAddr a, ac_TokenId a with
  | Some key, Some id =>
      let$ owner := owner_of w owners key (occurrences key prior) in
      mret [mk_log p [ERC721TransferTopic; default (ac_Sender a) owner; ac_Recipient a; BytesToHash (big_Bytes id)] (ba EmptyHash)]
  | _, _ => let$ r := cw721_action w p contractAddr owners ∅ a in mret r.1
  end.
Fixpoint cw721_logs (p : Address) (contractAddr : string) (prior : list string) (actions : list Action) : metered (list Log) :=
  match actions with
  | [] => mret []
  | a :: rest =>
      let$ logs := cw721_log p contractAddr prior a in
      let$ more := cw721_logs p contractAddr (prior ++ option_list (transfer_key contractAddr a)) rest in
      mret (logs ++ more)
  end.

(** The logs of an event, and the tokens it transfers. *)
Definition event_ref (prior : list string) (e : AbciEvent) : metered (list Log * list string) :=
  match GetAttributeValue e AttributeKeyContractAddr with
  | None => mret ([], [])
  | Some a =>
      do$ spend (access_gas w (CW20PointerRead a));
      let$ p := unmetered (GetERC20CW20Pointer chainID versionOverride isTracing w (str_bytes a)) in
      match p with
      | Some (p, _) => let$ l := translateCW20Event w e p a in mret (l, [])
      | None =>
      do$ spend (access_gas w (CW721PointerRead a));
      let$ p := unmetered (GetERC721CW721Pointer isTracing w (str_bytes a)) in
      match p with
      | Some (p, _) =>
          let$ actions := GetActionsFromWasmEvent w e in
          let$ l := cw721_logs p a prior actions in
          mret (l, omap (transfer_key a) actions)
      | None =>
      do$ spend (access_gas w (CW1155PointerRead a));
      let$ p := unmetered (GetERC1155CW1155Pointer isTracing w (str_bytes a)) in
      match p with
      | Some (p, _) => let$ l := translateCW1155Event w e p in mret (l, [])
      | None => mret ([], [])
      end end end
  end.
Fixpoint events_ref (prior : list string) (es : list AbciEvent) : metered (list Log) :=
  match es with
  | [] => mret []
  | e :: rest =>
      let$ r := event_ref prior e in
      let$ more := events_ref (prior ++ r.2) rest in
      mret (r.1 ++ more)
  end.

Definition counts (prior : list string) (cs : gmap string nat) : Prop := ∀ k, default 0%nat (cs !! k) = occurrences k prior.

Lemma occurrences_app k l l' : occurrences k (l ++ l') = (occurrences k l + occurrences k l')%nat.
Proof. unfold occurrences. by rewrite List.filter_app, length_app. Qed.

Lemma counts_insert prior cs key :
  counts prior cs → counts (prior ++ [key]) (<[key := S (occurrences key prior)]> cs).
Proof.
  intros Hc k. rewrite occurrences_app. destruct (decide (k = key)) as [->|Hne].
  - rewrite lookup_insert_eq. simpl. unfold occurrences at 3. simpl. rewrite String.eqb_refl. simpl. lia.
  - rewrite lookup_insert_ne by done. rewrite Hc. unfold occurrences at 3. simpl.
    destruct (String.eqb_spec k key); [done|]. simpl. lia.
Qed.

(** The run [m] of the code does what the run [m'] of the specification does,
    with the result in the relation [R]. *)
Definition follows {X Y : Type} (R : Y → X → Prop) (m' : outcome Y * Z) (m : outcome X * Z) : Prop :=
  match m' with
  | (Ret y, g) => ∃ x, m = (Ret x, g) ∧ R y x
  | (Panic e, g) => m = (Panic e, g)
  end.
Lemma follows_bind {X Y X' Y'} (R : Y → X → Prop) (R' : Y' → X' → Prop) (m' : metered Y) (m : metered X) k' k g :
  follows R (m' g) (m g) → (∀ y x g1, R y x → follows R' (k' y g1) (k x g1)) → follows R' (mbind m' k' g) (mbind m k g).
Proof.
  unfold mbind. intros Hm Hk. destruct (m' g) as [[y|e] g1]; simpl in Hm; [|by rewrite Hm]. destruct Hm as (x & -> & HR). by apply Hk.
Qed.
Lemma follows_same {X X' Y'} (R' : Y' → X' → Prop) (m : metered X) k' k g :
  (∀ x g1, follows R' (k' x g1) (k x g1)) → follows R' (mbind m k' g) (mbind m k g).
Proof. intros Hk. eapply (follows_bind eq); [destruct (m g) as [[x|] g1]; simpl; [by exists x|done]|]. intros y x g1 <-. apply Hk. Qed.

Lemma cw721_action_counts p c prior cs a g :
  counts prior cs →
  follows (λ l r, r.1 = l ∧ counts (prior ++ option_list (transfer_key c a)) r.2) (cw721_log p c prior a g) (cw721_action w p c owners cs a g).
Proof.
  intros Hc. unfold cw721_log, transfer_key, cw721_action. destruct (is_transfer_nft (ac_Type a)).
  - destruct (ac_TokenId a) as [id|]; cbn [fmap option_fmap option_map].
    + rewrite Hc. apply follows_same. intros o g1. eexists. split; [reflexivity|]. split; [done|].
      cbn [snd option_list]. rewrite Hc. by apply counts_insert.
    + eexists. split; [reflexivity|]. split; [done|]. by rewrite app_nil_r.
  - eexists. split; [reflexivity|]. split; [reflexivity|]. simpl. by rewrite app_nil_r.
Qed.

Lemma cw721_actions_counts p c prior cs actions g :
  counts prior cs →
  follows (λ l r, r.1 = l ∧ counts (prior ++ omap (transfer_key c) actions) r.2) (cw721_logs p c prior actions g)
    (cw721_actions w p c owners cs actions g).
Proof.
  revert prior cs g. induction actions as [|a actions IH]; intros prior cs g Hc; simpl.
  { eexists. split; [reflexivity|]. by rewrite app_nil_r. }
  eapply follows_bind; [by apply cw721_action_counts|]. intros l r g1 [<- Hc1].
  eapply follows_bind; [by apply IH|]. intros l2 r2 g2 [<- Hc2]. eexists. split; [reflexivity|]. split; [done|].
  rewrite <- app_assoc in Hc2. by destruct (transfer_key c a).
Qed.

Lemma event_logs_ref prior cs logs e g :
  counts prior cs →
  follows (λ r x, x.1 = append_logs logs r.1 ∧ counts (prior ++ r.2) x.2) (event_ref prior e g)
    (event_logs chainID versionOverride isTracing w owners e logs cs g).
Proof.
  intros Hc. unfold event_ref, event_logs.
  assert (Hsame : counts (prior ++ []) cs) by (by rewrite app_nil_r).
  destruct (GetAttributeValue e AttributeKeyContractAddr) as [a|]; [|by eexists].
  apply follows_same. intros _ g1. apply follows_same. intros [[p ?]|] g2.
  { apply follows_same. intros l g3. by eexists. }
  apply follows_same. intros _ g3. apply follows_same. intros [[p ?]|] g4.
  { unfold translateCW721Event. rewrite mbind_assoc. apply follows_same. intros actions g5.
    eapply follows_bind; [by apply cw721_actions_counts|]. intros l r g6 [<- Hc']. by eexists. }
  apply follows_same. intros _ g5. apply follows_same. intros [[p ?]|] g6; [|by eexists].
  apply follows_same. intros l g7. by eexists.
Qed.

Lemma events_logs_ref prior cs logs es g :
  counts prior cs →
  follows (λ more x, content <$> x = content <$> (logs ++ more)) (events_ref prior es g)
    (events_logs chainID versionOverride isTracing w owners es logs cs g).
Proof.
  revert prior cs logs g. induction es as [|e es IH]; intros prior cs logs g Hc; simpl.
  { eexists. split; [reflexivity|]. by rewrite app_nil_r. }
  eapply follows_bind; [by apply event_logs_ref|]. intros r x g1 [-> Hc1]. rewrite <- (mbind_mret (events_logs _ _ _ _ _ _ _ _)).
  eapply follows_bind; [by apply IH|].
  intros more y g2 Hy. eexists. split; [reflexivity|]. rewrite Hy, !fmap_app, append_logs_content. by rewrite app_assoc.
Qed.
End Reference.

(** The logs of a transaction are those of the specification: in the order
    of the events, and when a token is transferred several times in one
    transaction, the n-th transfer is reported as from the owner that the n-th owner
    event of the token names, across all the events of the transaction.  The gas is
    the same, and so are the panics. *)
Theorem synthetic_logs_owners `{BK : BankKeeper B} `{AK : AccountKeeper A} `{EC : EthCrypto} `{EH : EthHex} `{BE : Bech32}
    `{WE : WasmEvents (World B A)} chainID versionOverride isTracing (w : World B A) (events : list AbciEvent) g :
  let owners := owner_events_map (GetEventsOfType events EventTypeCW721PreTransferOwner) ∅ in
  follows (λ ref logs, content <$> logs = content <$> ref)
    (events_ref chainID versionOverride isTracing w owners [] (GetEventsOfType events WasmModuleEventType) g)
    (synthetic_logs chainID versionOverride isTracing w events g).
Proof. apply (events_logs_ref chainID versionOverride isTracing w _ [] ∅ []). intros k. by rewrite lookup_empty. Qed.

(** * Examples *)

(** Decimal integers. *)
Fixpoint decimal (s : string) (acc : Z) : option Z :=
  match s with
  | EmptyString => Some acc
  | String c s' =>
      let d := Z.of_nat (nat_of_ascii c) - 48 in
      if (0 <=? d) && (d <=? 9) then decimal s' (10 * acc + d) else None
  end.
Definition demo_wasm (W : Type) : WasmEvents W := {|
  WasmModuleEventType := "wasm";
  AttributeKeyContractAddr := "_contract_address";
  EventTypeCW721PreTransferOwner := "cw721_pretransfer_owner";
  NewIntFromString s := if String.eqb s "" then None else decimal s 0;
  QuerySmart _ _ _ := mret (inr "no such contract"%string);
  access_gas _ _ := 1000%N;
  AllowanceResponse_Unmarshal _ := None;
  TransferBatch_Pack _ _ := Ret (inr "cannot pack"%string)
|}.

Section SyntheticExamples.
#[local] Existing Instances demo_bank_keeper demo_accounts demo_crypto marked_bech32.
#[local] Existing Instances number_codec number_codec_laws plain_hex plain_hex_laws full_receipts.
#[local] Instance demo_wasm_events : WasmEvents demo_world := demo_wasm demo_world.
#[local] Instance full_receipts_cover : EthReceiptsLaws.
Proof. split. intros logs. apply Forall_true. intros l. apply full_bloom_log. Qed.

(** A world where the contract "nft" has an ERC721 pointer. *)
Definition nft_world : demo_world :=
  match SetERC721CW721Pointer (str_bytes "nft") (addr_of 33) demo_world0 with Ret (w, _) => w | Panic _ => demo_world0 end.
Definition nft_transfer (token : string) : AbciEvent :=
  mkAbciEvent "wasm" [("_contract_address", "nft"); ("action", "transfer_nft"); ("sender", "top"); ("recipient", "tbob"); ("token_id", token)]%string.
Definition nft_owner (token owner : string) : AbciEvent :=
  mkAbciEvent "cw721_pretransfer_owner" [("contract", "nft"); ("token", token); ("owner", owner)]%string.
Definition nft_ctx : HookCtx := mkHookCtx (mkBlockInfo 3 7 false None) 50000 (Some 2000) (Some [[x01; x02]]).
(** Who a transfer is from. *)
Definition froms (o : outcome (list Log) * Z) : outcome (list (option Hash)) * Z :=
  (let* l := o.1 in Ret ((λ x, l_Topics x !! 1%nat) <$> l), o.2).
Definition hash_of_name (s : string) : option Hash := Some (BytesToHash (ba (GetEVMAddressOrDefault nft_world (str_bytes s)))).

(** Two pointers, two addresses and an owner for each transfer, at a price of 1000. *)
Lemma owners_in_order :
  froms (synthetic_logs "" 0 false nft_world
    [nft_owner "7" "talice"; nft_transfer "7"; nft_owner "7" "tcarol"; nft_transfer "7"] 300000) =
  (Ret [hash_of_name "alice"; hash_of_name "carol"], 290000).
Proof. vm_compute. reflexivity. Qed.
Lemma owners_out_of_gas :
  froms (synthetic_logs "" 0 false nft_world
    [nft_owner "7" "talice"; nft_transfer "7"; nft_owner "7" "tcarol"; nft_transfer "7"] 9999) = (Panic "out of gas", -1).
Proof. vm_compute. reflexivity. Qed.

(** The owner events are stored under the text of the token, and looked up under
    the decimal form of its number: for a token that is written differently the
    transfer is reported as from the sender. *)
Lemma owner_not_found :
  froms (synthetic_logs "" 0 false nft_world [nft_owner "007" "talice"; nft_transfer "007"] 300000) = (Ret [hash_of_name "op"], 296000).
Proof. vm_compute. reflexivity. Qed.

Definition nft_events : list AbciEvent := [nft_owner "7" "talice"; nft_transfer "7"].
Lemma nft_limit : GetDeliverTxHookWasmGasLimit nft_world = 300000.
Proof. vm_compute. reflexivity. Qed.
Lemma nft_logs : ∃ logs, synthetic_logs "" 0 false nft_world nft_events 300000 = (Ret logs, 295000) ∧ length logs = 1%nat.
Proof. eexists. split; [vm_compute; reflexivity|vm_compute; reflexivity]. Qed.
Lemma nft_no_record : old_surplus 3 nft_world = Some 0.
Proof. vm_compute. reflexivity. Qed.
Lemma nft_no_receipt : old_logs (hash_of 9) nft_world = [].
Proof. vm_compute. reflexivity. Qed.
Lemma nft_affordable logs : affordable nft_ctx nft_world (hash_of 9) logs 295000 = true.
Proof.
  assert (H : GetTransientReceipt (hash_of 9) nft_world = None) by (vm_compute; reflexivity).
  unfold affordable, write_gas, receipt_gas. rewrite H. reflexivity.
Qed.

Lemma hook_appends_logs_witness :
  ∃ w' r, AddCosmosEventsToEVMReceiptIfApplicable "" 0 nft_ctx (hash_of 9) None nft_events nft_world = Ret w' ∧
    GetTransientReceipt (hash_of 9) w' = Some r ∧ length (rc_Logs r) = 1%nat ∧ receipt_bloom_ok r.
Proof.
  destruct nft_logs as (logs & E & Hl).
  pose proof (hook_appends_logs "" 0 nft_ctx (hash_of 9) None nft_events nft_world logs 295000) as H. cbv zeta in H.
  change (hook_hash (hash_of 9) None) with (hash_of 9) in H. rewrite nft_affordable, nft_limit in H.
  destruct H as (w' & r & H1 & H2 & H3 & H4 & _).
  - exact E.
  - intros ->. discriminate Hl.
  - exists 0. exact nft_no_record.
  - exists w', r. split; [exact H1|]. split; [exact H2|]. split; [|exact H4].
    rewrite H3, length_imap, length_app, length_fmap, Hl. by rewrite nft_no_receipt.
Defined.
End SyntheticExamples.
