(* ===== verification/AppBlock.v ===== *)
(** * Processing a block
    (ProcessBlock and what it calls in app/app.go: DecodeTransactionsConcurrently,
    ProcessBlockSynchronous, ExecuteTxsConcurrently, ProcessTXsWithOCC)

    The transactions of a block are decoded, split into prioritized and other
    ones, delivered in that order, each with its index in the block, and their
    results and EVM messages are put back in block order for the end of the block.
    The SDK's base application delivers a transaction: its ante handler runs on a
    branch of the stores that is kept when it accepts, then its message runs on
    another branch that is kept when it succeeds, then the callback and the hook
    that adds the logs of wasm events (Synthetic.v) run. *)

From S2P Require Import Prelude Bytes Dec Store Params Keys World Keeper StateDB Snapshots Supply Finalize.
From S2P Require Import Pending Fee Eth EthTx Msg Block Receipts Tx Associate Instances Ante AppTx Ledger Pointer Synthetic.
Local Open Scope Z_scope.
Local Open Scope outcome_scope.

(** ** The base application

    Decoding, the parts of a block in other modules ([ba_Mid]; [ba_EndBefore] and
    [ba_EndAfter] are the modules before and after this one at the end of the
    block), the bank's deferred balances, and the delivery of one transaction and
    of a batch. *)
Class BaseApp (MS : Type) := {
  ba_txDecoder : bytes → AnteTx + Err;
  ba_Begin : Ctx MS → Ctx MS;
  ba_Mid : Ctx MS → Ctx MS;
  ba_EndBefore : Ctx MS → Ctx MS;
  ba_EndAfter : Ctx MS → Ctx MS;
  ba_WriteDeferredBalances : Ctx MS → Ctx MS;
  ba_DeliverTx : bytes → option AnteTx → Ctx MS → ExecTxResult * Ctx MS;
  ba_DeliverTxBatch : list (nat * (bytes * option AnteTx)) → Ctx MS → list ExecTxResult * Ctx MS
}.

Definition WithTxIndex {MS} (i : Z) (c : Ctx MS) : Ctx MS :=
  mkCtx (c_ms c) (c_events c) (mkBlockInfo i (ci_height (c_info c)) (ci_isTracing (c_info c)) (ci_maxGas (c_info c))).

Section AppBlock.
Context `{BK : BankKeeper B} `{AK : AccountKeeper A} `{EC : EthCrypto} `{KC : KeeperConfig}.
Context `{MST : MultiStore MS (World B A)} `{SD : SdkDec} `{CD : Codec}.
Context `{EH : EthHex} `{IL : IntLibs} `{ET : EthTransactions T} `{TC : TxCodec}.
Context `{SC : Secp256k1} `{SG : Signers T} `{FR : ForkRules} `{BA : BaseApp MS}.
Notation Ctx := (Ctx MS).
Notation placed := (nat * (bytes * option AnteTx))%type.

(** [DecodeTransactionsConcurrently]: each goroutine writes its own position; an
    error or a panic leaves it nil. *)
Definition decode_tx (height time : Z) (encodedTx : bytes) : option AnteTx :=
  match ba_txDecoder encodedTx with
  | inr _ => None
  | inl typedTx =>
      match IsEVMMessage (at_Msgs typedTx) with
      | inl true =>
          match MustGetEVMTransactionMessage (at_Msgs typedTx) with
          | Ret msg =>
              match Preprocess height time msg with
              | Ret (msg', None) => Some (set_msg msg' typedTx)
              | _ => None
              end
          | Panic _ => None
          end
      | _ => Some typedTx
      end
  end.
Definition DecodeTransactionsConcurrently (height time : Z) (txs : list bytes) : list (option AnteTx) :=
  decode_tx height time <$> txs.

(** [DeliverTxWithResult] for each transaction, in order. *)
Fixpoint ProcessBlockSynchronous (txs : list placed) (c : Ctx) : list ExecTxResult * Ctx :=
  match txs with
  | [] => ([], c)
  | (i, (bz, tx)) :: rest =>
      let '(res, c1) := ba_DeliverTx bz tx (WithTxIndex (Z.of_nat i) c) in
      let '(more, c2) := ProcessBlockSynchronous rest c1 in
      (res :: more, c2)
  end.

Definition ProcessTXsWithOCC (txs : list placed) (c : Ctx) : list ExecTxResult * Ctx := ba_DeliverTxBatch txs c.

Definition ExecuteTxsConcurrently (isOCCEnabled : bool) (txs : list placed) (c : Ctx) : list ExecTxResult * Ctx :=
  if isOCCEnabled then ProcessTXsWithOCC txs c else ProcessBlockSynchronous txs c.

(** The results of one part are written to their positions; an index past the
    end of the results is a panic. *)
Fixpoint place_results (positions : list nat) (results : list ExecTxResult) (acc : list (option ExecTxResult))
    : outcome (list (option ExecTxResult)) :=
  match positions, results with
  | [], _ => Ret acc
  | i :: more, r :: rs => place_results more rs (<[i := Some r]> acc)
  | _ :: _, [] => Panic "index out of range"
  end.

(** The message as EndBlock reads it. *)
Definition evm_msg_of (m : MsgEVMTransaction) : EvmMsg :=
  match AsTransaction m with
  | Ret (Some (etx, _)) => mkEvmMsg (Some (tx_Hash etx))
  | _ => mkEvmMsg None
  end.

(** The transactions of the block: the prioritized ones, what comes between, and
    the others. *)
Definition run_txs (isOCCEnabled : bool) (typedTxs : list (bytes * option AnteTx)) (c : Ctx)
    : outcome (list ExecTxResult * Ctx) :=
  let '(prioritized, other) := PartitionPrioritizedTxs 0 typedTxs in
  let '(prioritizedResults, c1) := ExecuteTxsConcurrently isOCCEnabled prioritized c in
  let* placed1 := place_results (fst <$> prioritized) prioritizedResults (replicate (length typedTxs) None) in
  let c2 := ba_Mid (ba_WriteDeferredBalances c1) in
  let '(otherResults, c3) := ExecuteTxsConcurrently isOCCEnabled other c2 in
  let* placed2 := place_results (fst <$> other) otherResults placed1 in
  let c4 := ba_WriteDeferredBalances c3 in
  match mapM id placed2 with
  | Some txResults => Ret (txResults, c4)
  | None => Panic nil_deref
  end.

(** 64-bit, over the transactions that say they are EVM transactions. *)
Definition evm_gas_used (results : list ExecTxResult) : Z :=
  foldl (λ acc r, if tr_EvmTxInfo r then i64 (acc + tr_GasUsed r) else acc) 0 results.

Definition ProcessBlock (isOCCEnabled : bool) (time : Z) (txs : list bytes) (c : Ctx) : outcome (list ExecTxResult * Ctx) :=
  let c0 := ba_Begin c in
  let typedTxs := DecodeTransactionsConcurrently (ci_height (c_info c0)) time txs in
  let* r := run_txs isOCCEnabled (zip txs typedTxs) c0 in
  let '(txResults, c1) := r in
  let evmTxs := (λ t, evm_msg_of <$> GetEVMMsg t) <$> typedTxs in
  let* c2 := EndBlock evmTxs txResults (evm_gas_used txResults) (ba_EndBefore c1) in
  Ret (txResults, ba_EndAfter c2).

End AppBlock.

(** ** What the base application promises *)

Section Delivery.
Context `{BK : BankKeeper B} `{CK : CoinsKeeper B} `{AK : AccountKeeper A} `{AKK : AccountKeys A}.
Context `{EC : EthCrypto} `{KC : KeeperConfig}.
Context `{MST : MultiStore MS (World B A)} `{MR : MapRange} `{SD : SdkDec} `{CD : Codec}.
Context `{EH : EthHex} `{IL : IntLibs} `{ET : EthTransactions T} `{TC : TxCodec} `{ER : EthReceipts}.
Context `{SC : Secp256k1} `{SG : Signers T} `{FR : ForkRules}.
Context `{VM : EVM MS} `{AL : AnteLibs MS} `{GM : GasMeters G} `{BA : BaseApp MS} `{BE : Bech32} `{WE : WasmEvents (World B A)}.
Notation Ctx := (Ctx MS).
Notation AnteCtx := (AnteCtx MS B A).

(** A context for delivery, and the callback the ante handler left, if any; the
    writes of one that panics are dropped. *)
Definition fresh_ctx (x : AnteCtx) (c : Ctx) : Prop := ax_ctx x = c ∧ is_deliver x = true ∧ ax_DeliverTxCallback x = None.
Definition call_back (x : AnteCtx) (c c' : Ctx) : Prop :=
  match ax_DeliverTxCallback x with
  | Some f => c' = match f c with Ret c1 => c1 | Panic _ => c end
  | None => c' = c
  end.

(** The delivery of an EVM transaction: when the ante handler rejects it (or
    panics), its writes are dropped; otherwise they are kept, and those of the
    message are kept too when it succeeds. *)
Inductive evm_delivery (tx : AnteTx) (c : Ctx) (res : ExecTxResult) (c' : Ctx) : Prop :=
| delivery_rejected (x : AnteCtx) :
    fresh_ctx x c → is_ok (evmAnteHandler x tx false) = false → tr_Log res ≠ ""%string →
    quiet c c' → evm_delivery tx c res c'
| delivery_failed (x x' : AnteCtx) tx' msg (env : TxEnv) (cache : option Address) (gm : G) :
    fresh_ctx x c → evmAnteHandler x tx false = Ret (x', tx', None) →
    at_Msgs tx' = [EVMMsg msg] →
    (∀ out, EVMTransaction env msg cache gm (ax_ctx x') = Ret out → to_err _ out ≠ None) →
    tr_Log res ≠ ""%string → call_back x' (ax_ctx x') c' → evm_delivery tx c res c'
| delivery_ran (x x' : AnteCtx) tx' msg (env : TxEnv) (cache : option Address) (gm : G) out c1 :
    fresh_ctx x c → evmAnteHandler x tx false = Ret (x', tx', None) →
    at_Msgs tx' = [EVMMsg msg] →
    EVMTransaction env msg cache gm (ax_ctx x') = Ret out → to_err _ out = None →
    call_back x' (to_ctx _ out) c1 → hook_ran (c_info c) c1 c' → evm_delivery tx c res c'.

(** The Ethereum transaction of an EVM transaction. *)
Definition eth_tx (tx : AnteTx) : option T :=
  match at_Msgs tx with
  | [EVMMsg m] => match AsTransaction m with Ret (Some (etx, _)) => Some etx | _ => None end
  | _ => None
  end.

Definition is_evm_tx (tx : AnteTx) : bool := match eth_tx tx with Some _ => true | None => false end.

(** Any other transaction may make or destroy coins.  It leaves alone the fee
    surplus and the records of other transactions, and its own record is made by the
    calls into the EVM it makes; one with an EVM message that leaves no record has a
    log. *)
Definition other_delivery (tx : option AnteTx) (c : Ctx) (res : ExecTxResult) (c' : Ctx) : Prop :=
  let i := ci_txIndex (c_info c) in
  ante_store c' = ante_store c ∧ (∀ j, is_u64 j → j ≠ i → record_at j c' = record_at j c) ∧
  (record_at i c' = record_at i c ∨ recorded i c') ∧ (is_Some (GetEVMMsg tx) → record_at i c' = None → tr_Log res ≠ ""%string).

(** Other modules have stores of their own; what they do to the bank is free. *)
Class BaseAppLaws : Prop := {
  ba_Mid_frame : ∀ c, w_transient (cview (ba_Mid c)) = w_transient (cview c);
  ba_EndBefore_frame : ∀ c, w_transient (cview (ba_EndBefore c)) = w_transient (cview c);
  ba_WriteDeferredBalances_frame : ∀ c, w_transient (cview (ba_WriteDeferredBalances c)) = w_transient (cview c);
  ba_DeliverTxBatch_serial : ∀ txs c, ba_DeliverTxBatch txs c = ProcessBlockSynchronous txs c;
  ba_DeliverTx_evm : ∀ bz tx c res c', is_evm_tx tx = true → ba_DeliverTx bz (Some tx) c = (res, c') →
    evm_delivery tx c res c';
  ba_DeliverTx_other : ∀ bz o c res c', (∀ tx, o = Some tx → is_evm_tx tx = false) → ba_DeliverTx bz o c = (res, c') →
    other_delivery o c res c'
}.

(** ** What the others make

    The wei that a delivery makes out of nothing, or destroys when it is negative:
    none in the case of an EVM transaction, and otherwise what the bank and the record
    have more than before. *)
Definition made_by (tx : option AnteTx) (i : Z) (c c' : Ctx) : Z :=
  match tx with
  | Some tx => if is_evm_tx tx then 0 else total c' + surplus_at i c' - (total c + surplus_at i c)
  | None => total c' + surplus_at i c' - (total c + surplus_at i c)
  end.
Fixpoint made_in (txs : list (nat * (bytes * option AnteTx))) (c : Ctx) : Z :=
  match txs with
  | [] => 0
  | (i, (bz, tx)) :: rest =>
      let c1 := (ba_DeliverTx bz tx (WithTxIndex (Z.of_nat i) c)).2 in
      made_by tx (Z.of_nat i) c c1 + made_in rest c1
  end.
(** The same for the transactions of a block and what comes between them. *)
Definition others_made (typed : list (bytes * option AnteTx)) (c : Ctx) : Z :=
  let '(prioritized, other) := PartitionPrioritizedTxs 0 typed in
  let c1 := (ProcessBlockSynchronous prioritized c).2 in
  let c2 := ba_Mid (ba_WriteDeferredBalances c1) in
  let c3 := (ProcessBlockSynchronous other c2).2 in
  made_in prioritized c + (total c2 - total c1) + made_in other c2 + (total (ba_WriteDeferredBalances c3) - total c3).

End Delivery.

(** * Lemmas *)

Section DeliveryLemmas.
Context `{BK : BankKeeper B} `{CK : CoinsKeeper B} `{AK : AccountKeeper A} `{AKK : AccountKeys A}.
Context `{EC : EthCrypto} `{KC : KeeperConfig}.
Context `{MST : MultiStore MS (World B A)} `{MSL : !MultiStoreLaws MS (World B A)}.
Context `{MR : MapRange} `{MRL : !MapRangeLaws} `{SD : SdkDec} `{CD : Codec} `{CDL : !CodecLaws}.
Context `{EH : EthHex} `{IL : IntLibs} `{ET : EthTransactions T} `{TC : TxCodec} `{ER : EthReceipts}.
Context `{SC : Secp256k1} `{SG : Signers T} `{FR : ForkRules}.
Context `{VM : EVM MS} `{VML : !EVMLaws MS} `{AL : AnteLibs MS} `{ALL : !AnteLibsLaws MS}.
Context `{BL : !BankLaws B} `{CL : !CoinsLaws B} `{GM : GasMeters G} `{BA : BaseApp MS} `{BE : Bech32} `{WE : WasmEvents (World B A)}.
Hypothesis Hlive : EthReplayConfig_Enabled = false.
Hypothesis Htest : EthBlockTestConfig_Enabled = false.
Notation Ctx := (Ctx MS).
Notation AnteCtx := (AnteCtx MS B A).

(** The fee of the ante handler is a step of the ledger. *)
Lemma fee_charged_step i (c1 c' : Ctx) h : fee_charged h c1 c' → ∃ sp, ledger_step i (Some (h, sp)) c1 c' ∧ record_at i c' = record_at i c1.
Proof.
  intros (sp & Ht & Hb & _). exists sp.
  assert (Hrec : ∀ j, record_at j c' = record_at j c1).
  { intros j. unfold record_at, deferred_key. rewrite Ht. unfold prefix_set. by rewrite lookup_insert_ne. }
  split; [|apply Hrec]. split.
  - unfold ante_store. by rewrite Ht, prefix_store_set.
  - intros; apply Hrec.
  - left. apply Hrec.
  - unfold total. simpl. rewrite (surplus_at_ext i c1 c') by apply Hrec. lia.
Qed.

Lemma sender_quiet (c c1 : Ctx) : sender_step c c1 → quiet c c1.
Proof. by intros (H1 & H2 & _). Qed.

Lemma call_back_quiet (x : AnteCtx) a n (c c' : Ctx) :
  ax_DeliverTxCallback x = Some (bump_nonce a n) → call_back x c c' → quiet c c'.
Proof.
  unfold call_back. intros ->. unfold bump_nonce. destruct (Keeper.GetNonce _ _) as [m|]; [|by intros ->]. cbn [outcome_bind].
  destruct (m =? n); intros ->; [|done]. split; [unfold total|]; by rewrite cview_cupd.
Qed.

(** A transaction that ran leaves its record. *)
Lemma ran_step (env : TxEnv) msg cache (gm : G) (c : Ctx) out : let i := ci_txIndex (c_info c) in
  EVMTransaction env msg cache gm c = Ret out → to_err _ out = None → record_at i c = None → is_u64 i →
  (IsAssociateTx msg = Ret true ∧ to_ctx _ out = c) ∨ (ledger_step i None c (to_ctx _ out) ∧ recorded i (to_ctx _ out)).
Proof.
  cbv zeta. intros H Hok Hnone Hi.
  destruct (EVMTransaction_inv env msg cache gm c out Hlive BL CDL VML H Hok)
    as [Ha|(tx & td & info & sp & _ & Hget & Hsp & Herr & Hbl & Htot & Hk)]; [|by left|right].
  { unfold record_at, deferred_key in Hnone. unfold GetEVMTxDeferredInfo. by rewrite Hnone. }
  assert (Hrec : recorded (ci_txIndex (c_info c)) (to_ctx _ out)) by (exists info; split; [done|by repeat split; eauto]).
  split; [|done]. split.
  - apply prefix_store_ext. intros k. apply Hk; unfold ReceiptKey, deferred_key; discriminate.
  - intros j Hj Hne. unfold record_at. apply Hk; [unfold ReceiptKey, deferred_key; discriminate..|].
    unfold deferred_key. intros E%app_inv_head. apply Hne. by apply PutUint64_inj.
  - by right.
  - unfold surplus_at at 1, recorded_surplus. rewrite Hget, Hsp. rewrite (surplus_at_None _ c Hnone).
    unfold total. simpl. lia.
Qed.

Lemma AsTransaction_ext m m' : msg_Data m' = msg_Data m → AsTransaction m' = AsTransaction m.
Proof. unfold AsTransaction. by intros ->. Qed.
Lemma IsAssociateTx_ext m m' : msg_Data m' = msg_Data m → IsAssociateTx m' = IsAssociateTx m.
Proof. unfold IsAssociateTx, GetAssociateTx. by intros ->. Qed.

(** What the ante handler leaves when it accepts the transaction [tx]. *)
Lemma ante_step (x : AnteCtx) c tx x' tx' msg :
  fresh_ctx x c → evmAnteHandler x tx false = Ret (x', tx', None) → at_Msgs tx' = [EVMMsg msg] →
  let i := ci_txIndex (c_info c) in
  ∃ fee m0, ledger_step i fee c (ax_ctx x') ∧ (∀ c c', call_back x' c c' → quiet c c') ∧
    (∀ h sp, fee = Some (h, sp) → tx_Hash <$> eth_tx tx = Some h) ∧
    record_at i (ax_ctx x') = record_at i c ∧ c_info (ax_ctx x') = c_info c ∧
    at_Msgs tx = [EVMMsg m0] ∧ msg_Data msg = msg_Data m0.
Proof.
  intros (<- & Hdel & Hcb0) Hante Hm. cbv zeta.
  apply (evmAnteHandler_run Hlive) in Hante as (m0 & m' & d & Em & Hp & Hder & -> & H); [|done..].
  cbn [set_msg at_Msgs] in Hm. injection Hm as ->. apply Preprocess_keeps_data in Hp.
  destruct (dv_IsAssociate d).
  - destruct H as (_ & Hs & Hcb & Hi). exists None, m0. pose proof (sender_quiet _ _ Hs) as Hq.
    split_and!; try done; [by apply quiet_step|unfold call_back; rewrite Hcb, Hcb0; by intros c c' ->|].
    destruct Hq as [_ Hw]. unfold record_at. by rewrite Hw.
  - destruct H as (etx & c1 & [Hs _ [td Htd] _ _ _ _ Hch Hcb Hi]).
    destruct (fee_charged_step (ci_txIndex (c_info (ax_ctx x))) _ _ _ Hch) as (sp & Hstep & Hrec).
    pose proof (sender_quiet _ _ Hs) as Hq.
    exists (Some (tx_Hash etx, sp)), m0. split_and!; try done.
    + by eapply quiet_then_step.
    + intros c c' Hc. by eapply call_back_quiet.
    + intros h sp' [= <- <-]. unfold eth_tx. rewrite Em, <- (AsTransaction_ext m0 msg Hp), Htd. done.
    + rewrite Hrec. destruct Hq as [_ Hw]. unfold record_at. by rewrite Hw.
Qed.

Lemma quiet_record i (c c' : Ctx) : quiet c c' → record_at i c' = record_at i c.
Proof. intros [_ Hw]. unfold record_at. by rewrite Hw. Qed.
Lemma recorded_some i (c : Ctx) : recorded i c → record_at i c ≠ None.
Proof. intros (info & Hget & _) Hno. unfold GetEVMTxDeferredInfo in Hget. unfold record_at, deferred_key in Hno. by rewrite Hno in Hget. Qed.

Lemma evm_delivery_step tx (c : Ctx) res c' :
  evm_delivery (G := G) tx c res c' →
  let i := ci_txIndex (c_info c) in is_u64 i → record_at i c = None →
  ∃ fee, ledger_step i fee c c' ∧ (∀ h sp, fee = Some (h, sp) → tx_Hash <$> eth_tx tx = Some h) ∧
    (is_Some (GetEVMMsg (Some tx)) → record_at i c' = None → tr_Log res ≠ ""%string).
Proof.
  intros Hd. cbv zeta. intros Hi Hnone.
  destruct Hd as [x Hx Hrej Hlog Hq|x x' tx' msg env cache gm Hx Hante Hm Hfail Hlog Hcb|x x' tx' msg env cache gm out c1 Hx Hante Hm Hrun Hok Hcb Hhook].
  { exists None. split; [by apply quiet_step|]. by split. }
  - destruct (ante_step x c tx x' tx' msg Hx Hante Hm) as (fee & m0 & Hs & Hq & Hh & _). exists fee. split; [|done].
    eapply ledger_step_trans; [exact Hs|]. by apply quiet_step, (Hq _ _ Hcb).
  - destruct (ante_step x c tx x' tx' msg Hx Hante Hm) as (fee & m0 & Hs & Hq & Hh & Hrec & Hinfo & Em & Hdata). exists fee.
    pose proof (Hq _ _ Hcb) as Hq1.
    destruct (ran_step _ _ _ _ _ _ Hrun Hok) as [[Ha Hc]|[Hstep Hgood]]; [by rewrite Hinfo, Hrec|by rewrite Hinfo| |].
    + rewrite Hc in Hq1. assert (Hstep : ledger_step (ci_txIndex (c_info c)) None c1 c').
      { eapply hook_ran_step; [exact Hhook|done|]. left. rewrite (quiet_record _ _ _ Hq1). by rewrite Hrec. }
      split; [eapply ledger_step_trans; [exact Hs|]; by eapply quiet_then_step|]. split; [done|].
      intros [m Hm']. exfalso. unfold GetEVMMsg in Hm'. rewrite Em in Hm'. cbn [GetEVMTransactionMessage] in Hm'.
      by rewrite <- (IsAssociateTx_ext m0 msg Hdata), Ha in Hm'.
    + rewrite Hinfo in Hstep, Hgood.
      apply (recorded_ext _ _ c1) in Hgood; [|by apply quiet_record].
      assert (Hhs : ledger_step (ci_txIndex (c_info c)) None c1 c') by (eapply hook_ran_step; [exact Hhook|done|by right]).
      split; [eapply ledger_step_trans; [exact Hs|]; eapply ledger_step_trans; [exact Hstep|]; by eapply quiet_then_step|].
      split; [done|]. intros _ Hno. exfalso. destruct (ls_record _ _ _ _ _ Hhs) as [E|Hg].
      * rewrite E in Hno. by apply (recorded_some _ _ Hgood).
      * by apply (recorded_some _ _ Hg).
Qed.

(** ** Delivering a list of transactions *)

Context `{BAL : !BaseAppLaws (G := G)}.
Notation placed := (nat * (bytes * option AnteTx))%type.

Definition hash_of_tx (t : option AnteTx) : option Hash := t ≫= λ tx, tx_Hash <$> eth_tx tx.
Definition placed_hashes (txs : list placed) : list Hash := omap (λ e, hash_of_tx e.2.2) txs.
Definition positions (txs : list placed) : list Z := (λ e, Z.of_nat e.1) <$> txs.

(** The result of a transaction with an EVM message and no record has a log. *)
Definition logged (c : Ctx) (e : placed) (res : ExecTxResult) : Prop :=
  is_Some (GetEVMMsg e.2.2) → record_at (Z.of_nat e.1) c = None → tr_Log res ≠ ""%string.

Lemma deliver_step (e : placed) (c : Ctx) res c' :
  ba_DeliverTx e.2.1 e.2.2 (WithTxIndex (Z.of_nat e.1) c) = (res, c') → is_u64 (Z.of_nat e.1) → record_at (Z.of_nat e.1) c = None →
  ∃ fee, ledger_move (Z.of_nat e.1) fee (made_by e.2.2 (Z.of_nat e.1) c c') c c' ∧
    (∀ h sp, fee = Some (h, sp) → hash_of_tx e.2.2 = Some h) ∧ logged c' e res.
Proof.
  destruct e as [i [bz o]]; cbn [fst snd]; intros H Hi Hnone.
  assert (Hq : quiet c (WithTxIndex (Z.of_nat i) c)) by done.
  assert (Hother : other_delivery o (WithTxIndex (Z.of_nat i) c) res c' →
    made_by o (Z.of_nat i) c c' = total c' + surplus_at (Z.of_nat i) c' - (total c + surplus_at (Z.of_nat i) c) →
    ∃ fee, ledger_move (Z.of_nat i) fee (made_by o (Z.of_nat i) c c') c c' ∧
      (∀ h sp, fee = Some (h, sp) → hash_of_tx o = Some h) ∧ logged c' (i, (bz, o)) res).
  { intros (H1 & H2 & H3 & H4) ->. exists None. split; [|by split]. split; [exact H1|exact H2|exact H3|]. simpl. lia. }
  destruct o as [tx|]; [destruct (is_evm_tx tx) eqn:Ep|].
  - apply (ba_DeliverTx_evm bz tx _ _ _ Ep) in H. destruct (evm_delivery_step _ _ _ _ H Hi Hnone) as (fee & H1 & H2 & H3).
    exists fee. unfold made_by. rewrite Ep. split; [by eapply quiet_then_move|]. by split.
  - apply Hother; [|unfold made_by; by rewrite Ep]. apply (ba_DeliverTx_other bz); [by intros ? [= <-]|done].
  - apply Hother; [|done]. by apply (ba_DeliverTx_other bz).
Qed.

Lemma process_books (txs : list placed) (c0 c : Ctx) made l results c' :
  ProcessBlockSynchronous txs c = (results, c') → books c0 made l c →
  Forall is_u64 (l.*1 ++ positions txs) → base.NoDup (l.*1 ++ positions txs) → base.NoDup (placed_hashes txs) →
  (∀ h, h ∈ fee_hashes l → h ∉ placed_hashes txs) →
  ∃ l', books c0 (made + made_in txs c) (l ++ l') c' ∧ l'.*1 = positions txs ∧ (∀ h, h ∈ fee_hashes l' → h ∈ placed_hashes txs) ∧
    Forall2 (logged c') txs results ∧ (∀ j, is_u64 j → j ∉ positions txs → record_at j c' = record_at j c).
Proof.
  revert c made l results. induction txs as [|[i [bz t]] txs IH]; intros c made l results H Hbooks Hu Hnd Hh Hfresh.
  { simpl in H. injection H as <- <-. exists []. simpl. rewrite app_nil_r, Z.add_0_r. split_and!; try done. }
  cbn [ProcessBlockSynchronous] in H. destruct (ba_DeliverTx bz t _) as [res c1] eqn:Ed.
  destruct (ProcessBlockSynchronous txs c1) as [more c2] eqn:Em. injection H as <- <-.
  cbn [positions fmap list_fmap] in Hu, Hnd. fold (positions txs) in Hu, Hnd. cbn [fst] in Hu, Hnd.
  pose proof Hu as Hu'. apply Forall_app in Hu' as [Hul [Hui Hut]%Forall_cons].
  pose proof Hnd as Hnd'. apply NoDup_app in Hnd' as (Hn1 & Hn2 & Hn3). apply NoDup_cons in Hn3 as [Hn3 Hn4].
  assert (Hil : Z.of_nat i ∉ l.*1) by (intros Hin; apply (Hn2 _ Hin); left).
  destruct (deliver_step (i, (bz, t)) c res c1) as (fee & Hstep & Hfee & Hlog); [done|done|by eapply bk_none|].
  cbn [fst snd] in Hstep, Hfee.
  set (e := (Z.of_nat i, fee)). assert (Hfst : (l ++ [e]).*1 = l.*1 ++ [Z.of_nat i]) by (by rewrite fmap_app).
  assert (Hph : placed_hashes ((i, (bz, t)) :: txs) = option_list (hash_of_tx t) ++ placed_hashes txs).
  { unfold placed_hashes. cbn [omap list_omap snd]. by destruct (hash_of_tx t). }
  rewrite Hph in Hh, Hfresh. apply NoDup_app in Hh as (_ & Hh2 & Hh3).
  assert (Hfh : ∀ h sp, fee = Some (h, sp) → h ∈ option_list (hash_of_tx t)).
  { intros h sp E. rewrite (Hfee h sp E). left. }
  destruct (IH c1 (made + made_by t (Z.of_nat i) c c1) (l ++ [e]) more Em) as (l' & Hb & Hl' & Hhl & Hlogs & Hrecs).
  - eapply books_step; [exact Hbooks|done..|]. intros h sp E Hin. apply (Hfresh h Hin), elem_of_app. left. by eapply Hfh.
  - by rewrite Hfst, <- app_assoc.
  - by rewrite Hfst, <- app_assoc.
  - done.
  - intros h. unfold fee_hashes. rewrite omap_app, elem_of_app. intros [Hin|Hin].
    + intros Hin'. apply (Hfresh h Hin), elem_of_app. by right.
    + destruct fee as [[h' sp]|]; simpl in Hin; [|by apply elem_of_nil in Hin].
      apply list_elem_of_singleton in Hin as ->. apply Hh2. by eapply Hfh.
  - exists (e :: l'). split_and!.
    + rewrite <- app_assoc in Hb. cbn [made_in]. rewrite Ed. cbn [snd]. by rewrite Z.add_assoc.
    + rewrite fmap_cons, Hl'. done.
    + intros h. rewrite Hph, elem_of_app. unfold fee_hashes. cbn [omap list_omap snd e]. destruct fee as [[h' sp]|]; simpl.
      * intros [->|Hin]%elem_of_cons; [left; by eapply Hfh|right; by apply Hhl].
      * intros Hin. right. by apply Hhl.
    + constructor; [|done]. intros H1 H2. apply Hlog; [done|]. rewrite <- Hrecs; done.
    + intros j Hj Hni. apply not_elem_of_cons in Hni as [Hne Hj']. rewrite Hrecs by done. by eapply ls_others.
Qed.

(** ** Putting the results back *)

Lemma place_results_spec (ps : list nat) (rs : list ExecTxResult) (acc : list (option ExecTxResult)) :
  length rs = length ps → base.NoDup ps → Forall (λ i, (i < length acc)%nat) ps →
  ∃ acc', place_results ps rs acc = Ret acc' ∧ length acc' = length acc ∧
    (∀ k i r, ps !! k = Some i → rs !! k = Some r → acc' !! i = Some (Some r)) ∧
    (∀ i, i ∉ ps → acc' !! i = acc !! i).
Proof.
  revert rs acc. induction ps as [|i ps IH]; intros rs acc Hlen Hnd Hlt.
  { exists acc. split_and!; try done. }
  destruct rs as [|r rs]; [done|]. apply NoDup_cons in Hnd as [Hni Hnd]. apply Forall_cons in Hlt as [Hi Hlt].
  destruct (IH rs (<[i := Some r]> acc)) as (acc' & Hrun & Hl & Hin & Hout).
  { simpl in Hlen. lia. } { done. } { by rewrite length_insert. }
  exists acc'. rewrite length_insert in Hl. split_and!; [done|done| |].
  - intros [|k] j r' Hj Hr; [|by eapply Hin]. simpl in Hj, Hr. simplify_eq. rewrite (Hout j) by done.
    by apply list_lookup_insert_eq.
  - intros j Hj. apply not_elem_of_cons in Hj as [Hne Hj]. rewrite (Hout j) by done. by apply list_lookup_insert_ne.
Qed.

Lemma Execute_serial occ (txs : list placed) (c : Ctx) :
  (∀ txs c, ba_DeliverTxBatch txs c = ProcessBlockSynchronous txs c) →
  ExecuteTxsConcurrently occ txs c = ProcessBlockSynchronous txs c.
Proof. intros Hb. unfold ExecuteTxsConcurrently, ProcessTXsWithOCC. destruct occ; [apply Hb|done]. Qed.

Lemma process_length (txs : list placed) (c : Ctx) : length (ProcessBlockSynchronous txs c).1 = length txs.
Proof.
  revert c. induction txs as [|[i [bz t]] txs IH]; intros c; [done|]. cbn [ProcessBlockSynchronous].
  destruct (ba_DeliverTx bz t _) as [res c1]. specialize (IH c1). destruct (ProcessBlockSynchronous txs c1). simpl in *. lia.
Qed.

(** The two parts of a block, with what happens between them. *)
Record block_trace (occ : bool) (typed : list (bytes * option AnteTx)) (c : Ctx) (results : list ExecTxResult)
    (p o : list placed) (rp ro : list ExecTxResult) (c1 c3 : Ctx) : Prop := {
  bt_parts : PartitionPrioritizedTxs 0 typed = (p, o);
  bt_first : ProcessBlockSynchronous p c = (rp, c1);
  bt_second : ProcessBlockSynchronous o (ba_Mid (ba_WriteDeferredBalances c1)) = (ro, c3);
  bt_run : run_txs occ typed c = Ret (results, ba_WriteDeferredBalances c3);
  bt_length : length results = length typed;
  bt_order : (p ++ o).*1 ≡ₚ seq 0 (length typed);
  bt_txs : ∀ i e, (i, e) ∈ p ++ o ↔ typed !! i = Some e;
  bt_results : ∀ k e r, (p ++ o) !! k = Some e → (rp ++ ro) !! k = Some r → results !! e.1 = Some r
}.

Lemma partition_positions {X : Type} (typed : list (X * option AnteTx)) :
  let r := PartitionPrioritizedTxs 0 typed in
  (r.1 ++ r.2).*1 ≡ₚ seq 0 (length typed) ∧ ∀ i e, (i, e) ∈ r.1 ++ r.2 ↔ typed !! i = Some e.
Proof.
  cbv zeta. destruct (partition_spec typed 0) as [Hp _]. cbv zeta in Hp. split.
  - rewrite Hp. match goal with |- ?a ≡ₚ ?b => replace a with b; [done|] end. clear. symmetry. apply list_eq. intros i. rewrite list_lookup_fmap, list_lookup_imap.
    destruct (typed !! i) eqn:E; simpl.
    + rewrite lookup_seq_lt by (by eapply lookup_lt_Some). done.
    + rewrite lookup_seq_ge by (by apply lookup_ge_None). done.
  - intros i e. rewrite Hp, list_elem_of_lookup. split.
    + intros [k Hk]. rewrite list_lookup_imap in Hk. destruct (typed !! k) eqn:E; [|done]. by simplify_eq/=.
    + intros H. exists i. by rewrite list_lookup_imap, H.
Qed.

Lemma run_txs_trace occ (typed : list (bytes * option AnteTx)) (c : Ctx) :
  (∀ txs c, ba_DeliverTxBatch txs c = ProcessBlockSynchronous txs c) →
  ∃ results p o rp ro c1 c3, block_trace occ typed c results p o rp ro c1 c3.
Proof.
  intros Hocc. destruct (PartitionPrioritizedTxs 0 typed) as [p o] eqn:Epart.
  destruct (partition_positions typed) as [Hord Htx]. cbv zeta in *. rewrite Epart in Hord, Htx. cbn [fst snd] in *.
  destruct (ProcessBlockSynchronous p c) as [rp c1] eqn:E1.
  destruct (ProcessBlockSynchronous o (ba_Mid (ba_WriteDeferredBalances c1))) as [ro c3] eqn:E3.
  pose proof (process_length p c) as Hl1. rewrite E1 in Hl1. pose proof (process_length o (ba_Mid (ba_WriteDeferredBalances c1))) as Hl3.
  rewrite E3 in Hl3. cbn [fst] in Hl1, Hl3.
  assert (Hnd : base.NoDup (p ++ o).*1) by (rewrite Hord; apply NoDup_seq). rewrite fmap_app in Hnd.
  apply NoDup_app in Hnd as (Hn1 & Hn2 & Hn3).
  assert (Hlt : ∀ i, i ∈ p.*1 ∨ i ∈ o.*1 ↔ (i < length typed)%nat).
  { intros i. rewrite <- elem_of_app, <- fmap_app, Hord, elem_of_seq. lia. }
  destruct (place_results_spec p.*1 rp (replicate (length typed) None)) as (a1 & R1 & L1 & I1 & O1);
    [by rewrite length_fmap|done|apply Forall_forall; intros; rewrite length_replicate; apply Hlt; by left|].
  rewrite length_replicate in L1.
  destruct (place_results_spec o.*1 ro a1) as (a2 & R2 & L2 & I2 & O2);
    [by rewrite length_fmap|done|apply Forall_forall; intros; rewrite L1; apply Hlt; by right|].
  assert (Hfin : ∀ k e r, (p ++ o) !! k = Some e → (rp ++ ro) !! k = Some r → a2 !! e.1 = Some (Some r)).
  { intros k e r He Hr. apply lookup_app_Some in He as [He|[Hge He]].
    - rewrite lookup_app_l in Hr by (rewrite Hl1; by eapply lookup_lt_Some).
      rewrite O2; [eapply I1; [by rewrite list_lookup_fmap, He|done]|]. apply Hn2.
      apply list_elem_of_fmap_2. by eapply list_elem_of_lookup_2.
    - rewrite lookup_app_r in Hr by lia. rewrite Hl1 in Hr. eapply I2; [by rewrite list_lookup_fmap, He|done]. }
  assert (∃ results, mapM id a2 = Some results) as [results Hres].
  { apply mapM_is_Some_2, Forall_lookup. intros i x Hx.
    assert (Hi : (i < length typed)%nat) by (rewrite <- L1, <- L2; by eapply lookup_lt_Some).
    assert (Hin : i ∈ (p ++ o).*1) by (rewrite Hord; apply elem_of_seq; lia).
    apply list_elem_of_fmap in Hin as (e & -> & He). apply list_elem_of_lookup_1 in He as [k Hk].
    destruct ((rp ++ ro) !! k) as [r|] eqn:Er.
    - rewrite (Hfin k e r Hk Er) in Hx. injection Hx as <-. by eexists.
    - apply lookup_ge_None in Er. apply lookup_lt_Some in Hk. rewrite length_app in *. lia. }
  pose proof Hres as Hres'. rewrite mapM_Some in Hres'.
  exists results, p, o, rp, ro, c1, c3. split; try done.
  - unfold run_txs. rewrite Epart, Execute_serial, E1, R1 by done. cbn [outcome_bind]. rewrite Execute_serial, E3, R2 by done. cbn [outcome_bind].
    by rewrite Hres.
  - rewrite <- L1, <- L2. symmetry. by eapply Forall2_length.
  - intros k e r He Hr. specialize (Hfin k e r He Hr).
    eapply Forall2_lookup_l in Hres' as (y & Hy & Hid); [|exact Hfin]. by injection Hid as ->.
Qed.

End DeliveryLemmas.

(** * Theorems *)

Section AppBlockTheorems.
Context `{BK : BankKeeper B} `{CK : CoinsKeeper B} `{AK : AccountKeeper A} `{AKK : AccountKeys A}.
Context `{EC : EthCrypto} `{KC : KeeperConfig}.
Context `{MST : MultiStore MS (World B A)} `{MSL : !MultiStoreLaws MS (World B A)}.
Context `{MR : MapRange} `{MRL : !MapRangeLaws} `{SD : SdkDec} `{CD : Codec}.
Context `{EH : EthHex} `{IL : IntLibs} `{ET : EthTransactions T} `{TC : TxCodec} `{ER : EthReceipts}.
Context `{SC : Secp256k1} `{SG : Signers T} `{FR : ForkRules}.
Context `{VM : EVM MS} `{AL : AnteLibs MS} `{GM : GasMeters G} `{BA : BaseApp MS} `{BE : Bech32} `{WE : WasmEvents (World B A)}.
Notation Ctx := (Ctx MS).

Lemma omap_imap {X Y W : Type} (f : Y → option W) (g : nat → X → Y) (h : X → option W) (l : list X) :
  (∀ i x, f (g i x) = h x) → omap f (imap g l) = omap h l.
Proof.
  revert g. induction l as [|x l IH]; intros g Hg; [done|]. cbn [imap omap list_omap]. rewrite Hg.
  rewrite (IH (g ∘ S)) by (intros; apply Hg). done.
Qed.

Lemma omap_snd {X Y W : Type} (f : Y → option W) (l : list (X * Y)) : omap f l.*2 = omap (λ e, f e.2) l.
Proof. induction l as [|[x y] l IH]; [done|]. cbn [fmap list_fmap omap list_omap snd]. by rewrite <- IH. Qed.

(** The books after the transactions of a block. *)
Lemma run_txs_books occ (typed : list (bytes * option AnteTx)) (c : Ctx) :
  EthReplayConfig_Enabled = false → EthBlockTestConfig_Enabled = false → BankLaws B → CoinsLaws B → CodecLaws →
  EVMLaws MS → AnteLibsLaws MS → BaseAppLaws (G := G) →
  clean c → Z.of_nat (length typed) ≤ 2 ^ 32 → base.NoDup (omap (λ e, hash_of_tx e.2) typed) →
  ∃ results c' l, run_txs occ typed c = Ret (results, c') ∧ length results = length typed ∧ books c (others_made typed c) l c' ∧
    l.*1 ≡ₚ Z.of_nat <$> seq 0 (length typed) ∧
    ∀ i e r, typed !! i = Some e → results !! i = Some r → logged c' (i, e) r.
Proof.
  intros Hlive Htest BL CL CDL VML ALL BAL Hclean Hlen Hnd.
  destruct (run_txs_trace occ typed c ba_DeliverTxBatch_serial) as (results & p & o & rp & ro & c1 & c3 & [Hp H1 H3 Hrun Hl Hord Htx Hres]).
  assert (Hpos : positions (p ++ o) ≡ₚ Z.of_nat <$> seq 0 (length typed)).
  { unfold positions. rewrite <- Hord, <- list_fmap_compose. done. }
  assert (Hu : Forall is_u64 (positions (p ++ o))).
  { rewrite Hpos. apply Forall_fmap, Forall_forall. intros k Hk%elem_of_seq. simpl. unfold is_u64, two64. lia. }
  assert (HNp : base.NoDup (positions (p ++ o))).
  { rewrite Hpos. apply NoDup_fmap_2; [intros ? ?; lia|apply NoDup_seq]. }
  assert (HNh : base.NoDup (placed_hashes (p ++ o))).
  { destruct (partition_spec typed 0) as [Hperm _]. rewrite Hp in Hperm. cbn [fst snd] in Hperm. unfold placed_hashes.
    rewrite Hperm, (omap_imap _ _ (λ e, hash_of_tx e.2)) by done. exact Hnd. }
  unfold positions, placed_hashes in Hu, HNp, HNh. rewrite fmap_app in Hu, HNp. rewrite omap_app in HNh.
  fold (positions p) (positions o) in Hu, HNp. fold (placed_hashes p) (placed_hashes o) in HNh.
  apply Forall_app in Hu as [Hu1 Hu2]. pose proof HNp as HNp'. apply NoDup_app in HNp' as (Np1 & Np2 & Np3).
  apply NoDup_app in HNh as (Nh1 & Nh2 & Nh3).
  destruct (process_books Hlive Htest p c c 0 [] rp c1 H1 (books_start c Hclean) Hu1 Np1 Nh1) as (l1 & B1 & L1 & F1 & G1 & R1);
    [by intros ? ?%elem_of_nil|]. cbn [app] in B1.
  set (c2 := ba_Mid (ba_WriteDeferredBalances c1)) in *.
  assert (Hq : w_transient (cview c2) = w_transient (cview c1)) by (unfold c2; by rewrite ba_Mid_frame, ba_WriteDeferredBalances_frame).
  apply (books_foreign _ _ _ _ c2) in B1; [|done].
  destruct (process_books Hlive Htest o c c2 _ l1 ro c3 H3 B1) as (l2 & B2 & L2 & F2 & G2 & R2).
  { rewrite L1. by apply Forall_app. } { by rewrite L1. } { done. } { intros h Hh. by apply Nh2, F1. }
  pose proof (ba_WriteDeferredBalances_frame c3) as Hq3. apply (books_foreign _ _ _ _ (ba_WriteDeferredBalances c3)) in B2; [|done].
  exists results, (ba_WriteDeferredBalances c3), (l1 ++ l2). split_and!; [done|done| | |].
  { unfold others_made. rewrite Hp, H1. cbn [snd]. fold c2. rewrite H3. cbn [snd]. exact B2. }
  { rewrite fmap_app, L1, L2. unfold positions. by rewrite <- fmap_app. }
  intros i e r He Hr. apply Htx in He. apply list_elem_of_lookup_1 in He as [k Hk].
  assert (Hrec : ∀ j, record_at j (ba_WriteDeferredBalances c3) = record_at j c3).
  { intros j. unfold record_at. by rewrite Hq3. }
  assert (Hall : Forall2 (logged (ba_WriteDeferredBalances c3)) (p ++ o) (rp ++ ro)).
  { apply Forall2_app.
    - apply Forall2_same_length_lookup. split; [by eapply Forall2_length|]. intros k' e' r' He' Hr' Hg Hno.
      eapply (Forall2_lookup_lr _ _ _ _ _ _ G1 He' Hr' Hg).
      assert (Hin : Z.of_nat e'.1 ∈ positions p) by (apply (list_elem_of_fmap_2 (λ e, Z.of_nat e.1)); by eapply list_elem_of_lookup_2).
      rewrite Hrec, R2 in Hno; [|rewrite Forall_forall in Hu1; by apply Hu1|by apply Np2].
      unfold record_at in *. by rewrite Hq in Hno.
    - eapply Forall2_impl; [exact G2|]. intros e' r' Hlg Hg Hno. apply Hlg; [done|]. by rewrite <- Hrec. }
  assert (Hk' : is_Some ((rp ++ ro) !! k)).
  { apply lookup_lt_is_Some_2. rewrite <- (Forall2_length _ _ _ Hall). by eapply lookup_lt_Some. }
  destruct Hk' as [r' Hr']. pose proof (Hres k _ r' Hk Hr') as Hr2. cbn [fst] in Hr2. rewrite Hr2 in Hr. injection Hr as <-.
  by eapply Forall2_lookup_lr in Hall.
Qed.


(** Delivering a block in two parts is the same as delivering it in one order,
    and puts everything back in its place.  With and without optimistic
    concurrency the transactions are delivered once each, the prioritized ones
    first, each with its index in the block, and position [i] of the results holds
    what the delivery of transaction [i] returned. *)
Theorem run_txs_in_place (occ : bool) (typed : list (bytes * option AnteTx)) (c : Ctx) :
  (∀ txs c, ba_DeliverTxBatch txs c = ProcessBlockSynchronous txs c) →
  ∃ results p o rp ro c1 c3, block_trace occ typed c results p o rp ro c1 c3.
Proof. intros Hocc. by apply run_txs_trace. Qed.

End AppBlockTheorems.

(** * Examples *)

Section AppBlockExamples.
#[local] Existing Instances demo_bank_keeper demo_bank_laws demo_accounts demo_coins demo_coins_laws demo_account_keys.
#[local] Existing Instances demo_crypto live_config number_codec number_codec_laws half_even_dec half_even_dec_laws.
#[local] Existing Instances plain_hex strict_ints plain_transactions no_codec demo_secp demo_signers demo_forks.
#[local] Existing Instances demo_receipts_ops plain_meter demo_call_stores demo_call_stores_laws demo_call_range demo_evm.
#[local] Existing Instances demo_evm_laws demo_ante_range_laws demo_ante_libs demo_ante_libs_laws marked_bech32.
#[local] Instance demo_app_wasm : WasmEvents demo_world := demo_wasm demo_world.
Notation DCtx := (Ctx (stack_ms demo_world)).

(** An application that runs the handlers in the order of the SDK; other
    transactions do nothing. *)
Definition demo_callback (x : AnteCtx (stack_ms demo_world) demo_bank (gset (list Byte.byte))) (c : DCtx) : DCtx :=
  match ax_DeliverTxCallback x with
  | Some f => match f c with Ret c1 => c1 | Panic _ => c end
  | None => c
  end.
Definition demo_fail : ExecTxResult := mkExecTxResult 1 "failed" 0 true.
Definition demo_deliver_evm (tx : AnteTx) (c : DCtx) : ExecTxResult * DCtx :=
  match evmAnteHandler (ante_ctx c) tx false with
  | Ret (x', tx', None) =>
      match at_Msgs tx' with
      | [EVMMsg msg] =>
          match EVMTransaction demo_env msg (ax_cache x') (100000, 0) (ax_ctx x') with
          | Ret out =>
              match to_err _ out with
              | None => (mkExecTxResult 0 "" 21000 true, demo_callback x' (to_ctx _ out))
              | Some _ => (demo_fail, demo_callback x' (ax_ctx x'))
              end
          | Panic _ => (demo_fail, demo_callback x' (ax_ctx x'))
          end
      | _ => (demo_fail, c)
      end
  | _ => (demo_fail, c)
  end.
Definition demo_deliver (bz : bytes) (o : option AnteTx) (c : DCtx) : ExecTxResult * DCtx :=
  match o with
  | Some tx => if is_evm_tx tx then demo_deliver_evm tx c else (demo_fail, c)
  | None => (demo_fail, c)
  end.
Fixpoint demo_batch (txs : list (nat * (bytes * option AnteTx))) (c : DCtx) : list ExecTxResult * DCtx :=
  match txs with
  | [] => ([], c)
  | (i, (bz, tx)) :: rest =>
      let '(res, c1) := demo_deliver bz tx (WithTxIndex (Z.of_nat i) c) in
      let '(more, c2) := demo_batch rest c1 in
      (res :: more, c2)
  end.
#[local] Instance demo_app : BaseApp (stack_ms demo_world) := {|
  ba_txDecoder bz := match bz with [Byte.x01] => inl ante_tx | _ => inr "tx parse error"%string end;
  ba_Begin c := c;
  ba_Mid c := c;
  ba_EndBefore c := c;
  ba_EndAfter c := c;
  ba_WriteDeferredBalances c := c;
  ba_DeliverTx := demo_deliver;
  ba_DeliverTxBatch := demo_batch
|}.

Lemma demo_callback_spec x c : call_back x c (demo_callback x c).
Proof. unfold call_back, demo_callback. by destruct (ax_DeliverTxCallback x). Qed.

Lemma demo_deliver_evm_spec tx c res c' : demo_deliver_evm tx c = (res, c') → evm_delivery (G := Z * Z) tx c res c'.
Proof.
  unfold demo_deliver_evm. intros H.
  assert (Hf : fresh_ctx (ante_ctx c) c) by done.
  destruct (evmAnteHandler (ante_ctx c) tx false) as [[[x' tx'] [e|]]|] eqn:Ea.
  - injection H as <- <-. eapply delivery_rejected; [done|by rewrite Ea|done|done].
  - assert (Hm : ∃ msg, at_Msgs tx' = [EVMMsg msg]).
    { apply (evmAnteHandler_run (KC := live_config) eq_refl) in Ea as (m & m' & d & _ & _ & _ & -> & _); [by exists m'|done..]. }
    destruct Hm as [msg Hm]. rewrite Hm in H.
    destruct (EVMTransaction demo_env msg (ax_cache x') (100000, 0) (ax_ctx x')) as [out|] eqn:Er.
    + destruct (to_err _ out) as [e|] eqn:Ee; injection H as <- <-.
      * eapply delivery_failed; [done|done|done| |done|apply demo_callback_spec]. intros out' Ho. rewrite Er in Ho. by injection Ho as <-; rewrite Ee.
      * by eapply (delivery_ran _ _ _ _ (ante_ctx c) x' tx' msg demo_env (ax_cache x') (100000, 0) out); try apply demo_callback_spec; try (by left).
    + injection H as <- <-. eapply delivery_failed; [done|done|done| |done|apply demo_callback_spec]. intros out' Ho. by rewrite Er in Ho.
  - injection H as <- <-. eapply delivery_rejected; [done|by rewrite Ea|done|done].
Qed.

#[local] Instance demo_app_laws : BaseAppLaws (G := Z * Z).
Proof.
  split; [done|done|done| | |].
  - intros txs. simpl. induction txs as [|[i [bz t]] txs IH]; intros c; [done|]. cbn [demo_batch ProcessBlockSynchronous].
    change (ba_DeliverTx bz t (WithTxIndex (Z.of_nat i) c)) with (demo_deliver bz t (WithTxIndex (Z.of_nat i) c)).
    destruct (demo_deliver bz t _) as [res c1]. by rewrite IH.
  - intros bz tx c res c' Hp H. change (demo_deliver bz (Some tx) c = (res, c')) in H. unfold demo_deliver in H.
    rewrite Hp in H. by apply demo_deliver_evm_spec.
  - intros bz o c res c' Hp H. assert (res = demo_fail ∧ c' = c) as [-> ->].
    { change (demo_deliver bz o c = (res, c')) in H. unfold demo_deliver in H. destruct o as [tx|]; [rewrite (Hp tx eq_refl) in H|]; by injection H. }
    split_and!; [done|done|by left|done].
Qed.

(** A block of the transaction of Ante.v and one that cannot be decoded. *)
Definition demo_block : list bytes := [[Byte.x01]; [Byte.x02]].
Definition demo_typed : list (option AnteTx) := DecodeTransactionsConcurrently 1 1700000000 demo_block.
Definition demo_run : outcome (list ExecTxResult * DCtx) := run_txs true (zip demo_block demo_typed) (demo_ctx ante_world).
Definition demo_block_fee : bool :=
  match demo_run with
  | Ret (results, c1) =>
      is_ret (AdjustDynamicBaseFeePerGas (ci_maxGas (c_info c1)) (u64 (evm_gas_used results))
        (RemoveFirstNTxHashes DefaultTxHashesToRemove (cview c1)))
  | Panic _ => true
  end.

Lemma demo_clean : clean (demo_ctx ante_world).
Proof.
  split; [by vm_compute|]. intros j _. unfold record_at.
  change (w_transient (cview (demo_ctx ante_world))) with (∅ : kvstore). apply lookup_empty.
Qed.


Lemma run_txs_in_place_witness :
  ∃ results p o rp ro c1 c3, block_trace true (zip demo_block demo_typed) (demo_ctx ante_world) results p o rp ro c1 c3.
Proof. apply (run_txs_in_place true (zip demo_block demo_typed) (demo_ctx ante_world)). apply ba_DeliverTxBatch_serial. Defined.

End AppBlockExamples.
