(* ===== verification/Optimistic.v ===== *)
(** * Optimistic processing of proposed blocks
    (ProcessProposalHandler, FinalizeBlocker and the optimistic processing
    information of app/app.go)

    When a block is proposed, a goroutine starts to process it while consensus
    goes on.  When a block is decided, its results are used if it is that block
    and nothing aborted it; otherwise the decided block is processed then.  The
    calls of the consensus engine come one after the other; the goroutine runs
    between them, and is done when it sends on the completion channel. *)

From S2P Require Import Prelude Bytes World Eth.
From stdpp Require Import relations.

Section Optimistic.
(** Chain states, blocks and responses; the hash of a block. *)
Context {S Block R H : Type} `{EqDecision H}.
Variable Hash_of : Block → H.
(** [ProcessBlock] from the committed state, with the state it leaves; an error
    or a panic. *)
Variable process : S → Block → outcome ((S * R) + Err).
(** [checkTotalBlockGas], and whether an upgrade is planned for the block. *)
Variable gas_ok : S → Block → bool.
Variable upgrade_planned : S → Block → bool.
(** [LightInvarianceChecks] on the state that was written. *)
Variable invariance : S → outcome unit.

(** ** State *)

Record OptimisticProcessingInfo : Type := mkInfo {
  oi_Hash : H;
  oi_Aborted : bool;
  oi_Completion : bool;          (** a signal is in the channel, whose capacity is one *)
  oi_Result : option R
}.

Record AppState : Type := mkApp {
  ap_committed : S;              (** the state that was written last *)
  ap_proposal : option S;        (** the state processed for a proposal *)
  ap_info : option OptimisticProcessingInfo;
  ap_worker : option Block       (** the goroutine, while it runs *)
}.

Inductive ProposalStatus : Type := ACCEPT | REJECT.

(** ** Operations *)

(** Sending without blocking: a full channel drops the signal. *)
Definition signalCompletion (i : OptimisticProcessingInfo) : OptimisticProcessingInfo :=
  mkInfo (oi_Hash i) (oi_Aborted i) true (oi_Result i).
Definition set_aborted (i : OptimisticProcessingInfo) : OptimisticProcessingInfo :=
  mkInfo (oi_Hash i) true (oi_Completion i) (oi_Result i).
Definition with_info (i : option OptimisticProcessingInfo) (s : AppState) : AppState :=
  mkApp (ap_committed s) (ap_proposal s) i (ap_worker s).

Definition ClearOptimisticProcessingInfo (s : AppState) : AppState := with_info None s.

Definition optimisticAbortLocked (s : AppState) : AppState :=
  match ap_info s with
  | None => s
  | Some info => with_info (Some (signalCompletion (set_aborted info))) s
  end.

Definition optimisticCommitLocked (res : R + Err) (s : AppState) : AppState :=
  match ap_info s with
  | None => s
  | Some info =>
      match res with
      | inr _ => with_info (Some (signalCompletion (set_aborted info))) s
      | inl r => with_info (Some (signalCompletion (mkInfo (oi_Hash info) (oi_Aborted info) (oi_Completion info) (Some r)))) s
      end
  end.

Definition ProcessProposalHandler (b : Block) (s : AppState) : ProposalStatus * AppState :=
  if negb (gas_ok (ap_committed s) b) then (REJECT, s) else
  match ap_info s with
  | None =>
      let s1 := with_info (Some (mkInfo (Hash_of b) false false None)) s in
      if upgrade_planned (ap_committed s) b then (ACCEPT, optimisticAbortLocked s1)
      else (ACCEPT, mkApp (ap_committed s1) (ap_proposal s1) (ap_info s1) (Some b))
  | Some info =>
      if bool_decide (oi_Hash info = Hash_of b) then (ACCEPT, s) else (ACCEPT, with_info (Some (set_aborted info)) s)
  end.

(** The goroutine, to its end: it processes its block on the proposal state. *)
Definition worker_done (s : AppState) : AppState :=
  match ap_worker s with
  | None => s
  | Some b =>
      let stopped prop := mkApp (ap_committed s) prop (ap_info s) None in
      match process (ap_committed s) b with
      | Ret (inl (st, r)) => optimisticCommitLocked (inl r) (stopped (Some st))
      | Ret (inr e) => optimisticCommitLocked (inr e) (stopped None)
      | Panic _ => optimisticAbortLocked (stopped None)
      end
  end.

(** The state is written, then checked: a panic of the check leaves it written. *)
Definition write_state (st : option S) (s : AppState) : outcome unit * AppState :=
  match st with
  | None => (Panic nil_deref, s)
  | Some st' => (invariance st', mkApp st' None (ap_info s) (ap_worker s))
  end.

Definition recovered : Err := "FinalizeBlocker panic".

Definition finalize_directly (b : Block) (s : AppState) : (R + Err) * AppState :=
  match process (ap_committed s) b with
  | Ret (inl (st, r)) => match write_state (Some st) s with (Ret _, s1) => (inl r, s1) | (Panic _, s1) => (inr recovered, s1) end
  | Ret (inr e) => (inr e, s)
  | Panic _ => (inr recovered, s)
  end.

(** The results of the goroutine; without any, building the response panics. *)
Definition finalize_optimistic (info : OptimisticProcessingInfo) (s : AppState) : (R + Err) * AppState :=
  match write_state (ap_proposal s) s with
  | (Ret _, s1) => match oi_Result info with Some r => (inl r, s1) | None => (inr recovered, s1) end
  | (Panic _, s1) => (inr recovered, s1)
  end.

(** [None] while it waits for the goroutine. *)
Definition FinalizeBlocker (b : Block) (s : AppState) : option ((R + Err) * AppState) :=
  match ap_info s with
  | None => let '(r, s1) := finalize_directly b s in Some (r, ClearOptimisticProcessingInfo s1)
  | Some info =>
      if oi_Completion info then
        let s0 := with_info (Some (mkInfo (oi_Hash info) (oi_Aborted info) false (oi_Result info))) s in
        let '(r, s1) :=
          if negb (oi_Aborted info) && bool_decide (oi_Hash info = Hash_of b) then finalize_optimistic info s0
          else finalize_directly b s0 in
        Some (r, ClearOptimisticProcessingInfo s1)
      else None
  end.

(** ** The machine *)

Definition start (st : S) : AppState := mkApp st None None None.

(** What happens between decisions: a proposal, or the end of the goroutine. *)
Inductive silent_step : AppState → AppState → Prop :=
| step_propose b s r s' : ProcessProposalHandler b s = (r, s') → silent_step s s'
| step_worker s : is_Some (ap_worker s) → silent_step s (worker_done s).

(** A run, with the decided blocks and what was answered. *)
Inductive app_run : AppState → list (Block * (R + Err)) → AppState → Prop :=
| run_end s : app_run s [] s
| run_silent s s1 tr s' : silent_step s s1 → app_run s1 tr s' → app_run s tr s'
| run_finalize b r s s1 tr s' :
    FinalizeBlocker b s = Some (r, s1) → app_run s1 tr s' → app_run s ((b, r) :: tr) s'.

(** The specification: a decided block is processed when it is decided, and its
    state is written, also when the check then fails. *)
Definition spec_finalize (b : Block) (st : S) : (R + Err) * S :=
  match process st b with
  | Ret (inl (st', r)) => match invariance st' with Ret _ => (inl r, st') | Panic _ => (inr recovered, st') end
  | Ret (inr e) => (inr e, st)
  | Panic _ => (inr recovered, st)
  end.

Inductive spec_run : S → list (Block * (R + Err)) → S → Prop :=
| spec_end st : spec_run st [] st
| spec_block b r st st1 tr st' :
    spec_finalize b st = (r, st1) → spec_run st1 tr st' → spec_run st ((b, r) :: tr) st'.

(** The invariant.  While the goroutine runs, the information is about its block
    and no signal was sent.  When it is done and was not aborted, the results are
    those of processing a block with that hash from the committed state. *)
Definition app_inv (s : AppState) : Prop :=
  match ap_info s with
  | None => ap_worker s = None
  | Some info =>
      match ap_worker s with
      | Some b => oi_Completion info = false ∧ (oi_Aborted info = false → oi_Hash info = Hash_of b)
      | None =>
          oi_Completion info = true ∧
          (oi_Aborted info = false → ∃ b st r, oi_Hash info = Hash_of b ∧ process (ap_committed s) b = Ret (inl (st, r)) ∧
            ap_proposal s = Some st ∧ oi_Result info = Some r)
      end
  end.

Lemma app_inv_start st : app_inv (start st).
Proof. done. Qed.

Lemma propose_inv b s : app_inv s → app_inv (ProcessProposalHandler b s).2.
Proof.
  unfold app_inv, ProcessProposalHandler. intros Hinv. destruct (negb (gas_ok _ b)); [done|].
  destruct (ap_info s) as [info|] eqn:Ei.
  - case_bool_decide; cbn [snd]; [by rewrite Ei|]. cbn [with_info ap_info ap_worker ap_committed ap_proposal set_aborted oi_Completion oi_Aborted].
    destruct (ap_worker s); by destruct Hinv.
  - destruct (upgrade_planned _ b); cbn; [|done]. rewrite Hinv. done.
Qed.

Lemma worker_inv s : app_inv s → is_Some (ap_worker s) → app_inv (worker_done s) ∧ ap_worker (worker_done s) = None.
Proof.
  intros Hinv [b Hb]. unfold app_inv in Hinv. rewrite Hb in Hinv. destruct (ap_info s) as [info|] eqn:Ei; [|done].
  destruct Hinv as [Hc Ha]. unfold worker_done. rewrite Hb.
  destruct (process (ap_committed s) b) as [[[st r]|e]|] eqn:Ep; unfold optimisticCommitLocked, optimisticAbortLocked;
    cbn [ap_info]; rewrite Ei; (split; [|done]); split; try done; cbn; try done.
  intros Hab. exists b, st, r. split_and!; try done. by apply Ha.
Qed.

(** With different hashes for different blocks, what [FinalizeBlocker] returns and
    commits is what the specification says. *)
Lemma finalize_spec b s r s' :
  (∀ b1 b2, Hash_of b1 = Hash_of b2 → b1 = b2) → app_inv s → FinalizeBlocker b s = Some (r, s') →
  (r, ap_committed s') = spec_finalize b (ap_committed s) ∧ app_inv s'.
Proof.
  intros Hinj Hinv. unfold FinalizeBlocker, app_inv in *.
  assert (Hdir : ∀ s0, ap_committed s0 = ap_committed s → ap_worker s0 = None →
    ∀ r1 s1, finalize_directly b s0 = (r1, s1) → (r1, ap_committed s1) = spec_finalize b (ap_committed s) ∧ ap_worker s1 = None).
  { intros s0 Hc Hw r1 s1 Hf. unfold finalize_directly, write_state, spec_finalize in *. rewrite Hc in Hf.
    destruct (process (ap_committed s) b) as [[[st r0]|e]|]; [destruct (invariance st)| |]; injection Hf as <- <-; cbn; by rewrite ?Hc. }
  destruct (ap_info s) as [info|] eqn:Ei.
  - destruct (oi_Completion info) eqn:Ec; [|done]. destruct (ap_worker s) eqn:Ew; [by destruct Hinv|].
    destruct Hinv as [_ Hres]. set (s0 := with_info _ s).
    destruct (oi_Aborted info) eqn:Ea; cbn [negb andb]; [|case_bool_decide as Hh].
    2:{ destruct (Hres eq_refl) as (b' & st & r' & Hb & Hp & Hst & Hr'). rewrite Hb in Hh. apply Hinj in Hh as ->.
        unfold finalize_optimistic, write_state, spec_finalize. cbn [s0 with_info ap_proposal]. rewrite Hst, Hr', Hp.
        destruct (invariance st); intros [= <- <-]; by split. }
    all: destruct (finalize_directly b s0) as [r1 s1] eqn:Ef; intros [= <- <-];
      destruct (Hdir s0 eq_refl Ew r1 s1 Ef) as [H1 H2]; by split.
  - destruct (finalize_directly b s) as [r1 s1] eqn:Ef. intros [= <- <-].
    destruct (Hdir s eq_refl Hinv r1 s1 Ef) as [H1 H2]. by split.
Qed.

Lemma silent_inv s s' : app_inv s → silent_step s s' → app_inv s' ∧ ap_committed s' = ap_committed s.
Proof.
  intros Hinv Hs. destruct Hs as [b s0 r s1 Hp|s0 Hw].
  - pose proof (propose_inv b s0 Hinv) as H1. rewrite Hp in H1. split; [done|]. unfold ProcessProposalHandler in Hp.
    repeat case_match; unfold optimisticAbortLocked in Hp; by simplify_eq/=.
  - split; [by apply worker_inv|]. destruct Hw as [b Hb]. unfold worker_done. rewrite Hb.
    destruct (process _ b) as [[[st r]|e]|]; unfold optimisticCommitLocked, optimisticAbortLocked; cbn [ap_info];
      by destruct (ap_info s0).
Qed.

Lemma run_inv s tr s' :
  (∀ b1 b2, Hash_of b1 = Hash_of b2 → b1 = b2) → app_run s tr s' → app_inv s →
  app_inv s' ∧ spec_run (ap_committed s) tr (ap_committed s').
Proof.
  intros Hinj Hrun. induction Hrun as [s|s s1 tr s' Hstep _ IH|b r s s1 tr s' Hf _ IH]; intros Hinv.
  - split; [done|constructor].
  - apply silent_inv in Hstep as [H1 H2]; [|done]. rewrite <- H2. by apply IH.
  - apply finalize_spec in Hf as [Hspec H1]; [|done..]. destruct (IH H1) as [H2 H3].
    split; [done|]. econstructor; [by rewrite <- Hspec|done].
Qed.

(** C6: optimistic processing is invisible.  Whatever blocks are proposed,
    whenever the goroutine ends, and whichever blocks are decided, the answers and
    the written states are those of processing each decided block when it is
    decided. *)
Theorem optimistic_refines (st : S) (tr : list (Block * (R + Err))) (s : AppState) :
  (∀ b1 b2, Hash_of b1 = Hash_of b2 → b1 = b2) → app_run (start st) tr s → spec_run st tr (ap_committed s).
Proof. intros Hinj Hrun. by apply run_inv in Hrun as [_ ?]; [|done|]. Qed.

(** C39: deciding a block never waits forever.  In every state that can be reached,
    [FinalizeBlocker] answers at once, or the goroutine is running and
    [FinalizeBlocker] answers when it is done. *)
Theorem finalize_not_stuck (st : S) (tr : list (Block * (R + Err))) (s : AppState) (b : Block) :
  (∀ b1 b2, Hash_of b1 = Hash_of b2 → b1 = b2) → app_run (start st) tr s →
  is_Some (FinalizeBlocker b s) ∨ (is_Some (ap_worker s) ∧ is_Some (FinalizeBlocker b (worker_done s))).
Proof.
  intros Hinj Hrun. apply run_inv in Hrun as [Hinv _]; [|done|done].
  assert (Hidle : ∀ s0, app_inv s0 → ap_worker s0 = None → is_Some (FinalizeBlocker b s0)).
  { intros s0 H0 Hw. unfold app_inv in H0. rewrite Hw in H0. unfold FinalizeBlocker. destruct (ap_info s0) as [info|].
    - destruct H0 as [-> _]. destruct (if negb _ && _ then _ else _). by eexists.
    - destruct (finalize_directly b s0). by eexists. }
  destruct (ap_worker s) as [b'|] eqn:Ew; [right|left; by apply Hidle].
  destruct (worker_inv s Hinv) as [H1 H2]; [by rewrite Ew|]. split; [by eexists|by apply Hidle].
Qed.

End Optimistic.

(** * Examples

    A chain that adds up numbers: block 5 is proposed, then block 7 is proposed
    and decided. *)
Section OptimisticExamples.
Definition add_block (st b : Z) : outcome ((Z * Z) + Err) := Ret (inl (st + b, b)%Z).
Definition always (st b : Z) : bool := true.
Definition never (st b : Z) : bool := false.
Definition no_check (st : Z) : outcome unit := Ret tt.
Notation propose := (ProcessProposalHandler (R := Z) (λ b : Z, b) always never).
Notation finalize := (FinalizeBlocker (λ b : Z, b) add_block no_check).

Definition demo_proposed : AppState := (propose 7%Z (propose 5%Z (start 0%Z)).2).2.
Definition demo_worked : AppState := worker_done add_block demo_proposed.

Lemma demo_waits : finalize 7%Z demo_proposed = None.
Proof. reflexivity. Qed.

Lemma demo_app_run : ∃ s, finalize 7%Z demo_worked = Some (inl 7%Z, s) ∧
  app_run (λ b : Z, b) add_block always never no_check (start 0%Z) [(7%Z, inl 7%Z)] s.
Proof.
  eexists. split; [reflexivity|]. eapply run_silent; [eapply (step_propose _ _ _ _ 5%Z); reflexivity|].
  eapply run_silent; [eapply (step_propose _ _ _ _ 7%Z); reflexivity|].
  eapply run_silent; [apply step_worker; by eexists|]. eapply run_finalize; [reflexivity|]. constructor.
Qed.

Lemma optimistic_refines_witness : spec_run add_block no_check 0%Z [(7%Z, inl 7%Z)] 7%Z.
Proof.
  destruct demo_app_run as (s & Hs & Hrun).
  pose proof (optimistic_refines (λ b : Z, b) add_block always never no_check 0%Z [(7%Z, inl 7%Z)] s (λ b1 b2 E, E) Hrun) as H.
  injection Hs as <-. exact H.
Defined.

Lemma demo_proposed_run : app_run (λ b : Z, b) add_block always never no_check (start 0%Z) [] demo_proposed.
Proof.
  eapply run_silent; [eapply (step_propose _ _ _ _ 5%Z); reflexivity|].
  eapply run_silent; [eapply (step_propose _ _ _ _ 7%Z); reflexivity|]. constructor.
Qed.

Lemma finalize_not_stuck_witness : is_Some (ap_worker demo_proposed) ∧ is_Some (finalize 7%Z demo_worked).
Proof.
  destruct (finalize_not_stuck (λ b : Z, b) add_block always never no_check 0%Z [] demo_proposed 7%Z (λ b1 b2 E, E) demo_proposed_run)
    as [H|H]; [|exact H].
  rewrite demo_waits in H. destruct H as [? H]. discriminate H.
Defined.

End OptimisticExamples.
