(* ===== verification/Invariance.v ===== *)
(** * The check of the total supply after a block
    (LightInvarianceChecks and LightInvarianceTotalSupply of app/invariance.go)

    After the state of a block was written and before it is committed, the
    balances the block changed are added up as they were and as they are; the
    chain stops when the difference is not what was minted or burnt.  The bank's
    store is the committed one with a list of changes. *)

From S2P Require Import Prelude Bytes Store World Eth Block Instances.
From Stdlib Require Import Strings.Byte.
Local Open Scope Z_scope.
Local Open Scope outcome_scope.

(** ** Data *)

(** A changed pair of the commitment store. *)
Record KVPair : Type := mkKVPair { kp_Key : bytes; kp_Value : bytes; kp_Delete : bool }.

Fixpoint has_prefix (p k : bytes) : bool :=
  match p, k with
  | [], _ => true
  | a :: p', b :: k' => bool_decide (a = b) && has_prefix p' k'
  | _ :: _, [] => false
  end.
Definition GetChangedPairs (changes : list KVPair) (p : bytes) : list KVPair := filter (λ x, has_prefix p (kp_Key x)) changes.

(** ** Parsing *)

(** The address and the denomination of a key of a balance; [None] when the key
    is too short. *)
Definition parse_balance_key (k : bytes) : option (bytes * bytes) :=
  match k with
  | _ :: l :: rest =>
      let addrLen := Z.to_nat (bval l) in
      if (length k <? addrLen + 2)%nat then None else Some (take addrLen rest, drop addrLen rest)
  | _ => None
  end.

Section Invariance.
Context `{CD : Codec}.
(** The bank module: its one-byte prefixes, the amount of a marshalled coin, and
    the split of an amount of wei. *)
Variables SupplyByte BalancesByte WeiBalancesByte : byte.
Variable Coin_Unmarshal : bytes → option Z.
Variable split : Z → Z * Z.
Definition SupplyKey : bytes := [SupplyByte].
Definition BalancesPrefix : bytes := [BalancesByte].
Definition WeiBalancesPrefix : bytes := [WeiBalancesByte].
(** [CreateAccountBalancesPrefix]: the address with its length. *)
Definition account_prefix (addr : bytes) : bytes := BalancesPrefix ++ byte_of_Z (Z.of_nat (length addr)) :: addr.
Definition denom : bytes := str_bytes BaseDenom.

(** ** The loops *)

Fixpoint atabi_post (pairs : list KVPair) (total : Z) (addrs : list bytes) : outcome (Z * list bytes) :=
  match pairs with
  | [] => Ret (total, addrs)
  | p :: rest =>
      match parse_balance_key (kp_Key p) with
      | None => atabi_post rest total addrs
      | Some (addr, d) =>
          if negb (bool_decide (d = denom)) then atabi_post rest total addrs
          else if kp_Delete p then atabi_post rest total (addrs ++ [addr])
          else match Coin_Unmarshal (kp_Value p) with
               | None => atabi_post rest total addrs
               | Some balance =>
                   if balance <? 0 then Panic "negative balance found"
                   else atabi_post rest (total + balance) (addrs ++ [addr])
               end
      end
  end.

Fixpoint sum_pre (unmarshal : bytes → option Z) (keys : list bytes) (ckv : kvstore) (total : Z) : Z :=
  match keys with
  | [] => total
  | k :: rest =>
      match ckv !! k with
      | None => sum_pre unmarshal rest ckv total
      | Some val =>
          match unmarshal val with
          | None => sum_pre unmarshal rest ckv total
          | Some balance => sum_pre unmarshal rest ckv (total + balance)
          end
      end
  end.

Fixpoint wei_post (pairs : list KVPair) (total : Z) (addrs : list bytes) : outcome (Z * list bytes) :=
  match pairs with
  | [] => Ret (total, addrs)
  | p :: rest =>
      match kp_Key p with
      | [] => wei_post rest total addrs
      | _ :: addr =>
          if kp_Delete p then wei_post rest total (addrs ++ [addr])
          else match Int_Unmarshal (kp_Value p) with
               | None => wei_post rest total addrs
               | Some amt =>
                   if amt <? 0 then Panic "negative wei balance found"
                   else wei_post rest (total + amt) (addrs ++ [addr])
               end
      end
  end.

(** The change of the supply; the loop stops at the base denomination. *)
Fixpoint supply_changed (pairs : list KVPair) (pre : Z) : Z :=
  match pairs with
  | [] => 0
  | p :: rest =>
      if bool_decide (tail (kp_Key p) = denom) then
        if kp_Delete p then - pre
        else match Int_Unmarshal (kp_Value p) with None => 0 | Some amt => amt - pre end
      else supply_changed rest pre
  end.

(** ** The check *)

Definition LightInvarianceTotalSupply (ckv : kvstore) (changes : list KVPair) : outcome unit :=
  let* a := atabi_post (GetChangedPairs changes BalancesPrefix) 0 [] in
  let '(atabiPost, atabiChanged) := a in
  let atabiPre := sum_pre Coin_Unmarshal ((λ addr, account_prefix addr ++ denom) <$> atabiChanged) ckv 0 in
  let* w := wei_post (GetChangedPairs changes WeiBalancesPrefix) 0 [] in
  let '(weiPost, weiChanged) := w in
  let weiPre := sum_pre Int_Unmarshal ((λ addr, WeiBalancesPrefix ++ addr) <$> weiChanged) ckv 0 in
  match ckv !! (SupplyKey ++ denom) ≫= λ bz, Some (Int_Unmarshal bz) with
  | Some None => Ret tt
  | pre =>
      let preTotalSupply := match pre with Some (Some amt) => amt | _ => 0 end in
      let supplyChanged := supply_changed (GetChangedPairs changes SupplyKey) preTotalSupply in
      let '(weiDiffInAtabi, weiDiffRemainder) := split (weiPost - weiPre) in
      if negb (weiDiffRemainder =? 0) then Panic "non-zero wei diff found!"
      else if negb (atabiPre - atabiPost - weiDiffInAtabi + supplyChanged =? 0) then Panic "unexpected atabibalance total found!"
      else Ret tt
  end.

(** [memiavl] is whether the bank's store is a commitment store. *)
Definition LightInvarianceChecks (SupplyEnabled memiavl : bool) (ckv : kvstore) (changes : list KVPair) : outcome unit :=
  if SupplyEnabled && memiavl then LightInvarianceTotalSupply ckv changes else Ret tt.

End Invariance.

(** * Sums over a store *)

Definition contribution (f : bytes → bytes → Z) (m : kvstore) (k : bytes) : Z := from_option (f k) 0 (m !! k).
Definition sum_store (f : bytes → bytes → Z) (m : kvstore) : Z := foldr (λ kv acc, f kv.1 kv.2 + acc) 0 (map_to_list m).

(** The store after the block. *)
Definition apply_change (m : kvstore) (p : KVPair) : kvstore :=
  if kp_Delete p then delete (kp_Key p) m else <[kp_Key p := kp_Value p]> m.
Definition apply_changes (m : kvstore) (changes : list KVPair) : kvstore := foldl apply_change m changes.

(** What a change adds to a sum. *)
Definition delta (f : bytes → bytes → Z) (m : kvstore) (p : KVPair) : Z :=
  (if kp_Delete p then 0 else f (kp_Key p) (kp_Value p)) - contribution f m (kp_Key p).
Definition deltas (f : bytes → bytes → Z) (m : kvstore) (ps : list KVPair) : Z := foldr (λ p acc, delta f m p + acc) 0 ps.

Lemma sum_store_perm (f : bytes → bytes → Z) l l' : l ≡ₚ l' → foldr (λ kv acc, f kv.1 kv.2 + acc) 0 l = foldr (λ (kv : bytes * bytes) acc, f kv.1 kv.2 + acc) 0 l'.
Proof. induction 1; simpl; lia. Qed.

Lemma sum_store_delete (f : bytes → bytes → Z) (m : kvstore) k : sum_store f (delete k m) = sum_store f m - contribution f m k.
Proof.
  unfold sum_store, contribution. destruct (m !! k) as [v|] eqn:E; simpl; [|rewrite delete_id by done; lia].
  rewrite (sum_store_perm f (map_to_list m) ((k, v) :: map_to_list (delete k m))); [simpl; lia|].
  symmetry. by apply map_to_list_delete.
Qed.

Lemma sum_store_insert (f : bytes → bytes → Z) (m : kvstore) k v : sum_store f (<[k := v]> m) = sum_store f m - contribution f m k + f k v.
Proof.
  rewrite <- sum_store_delete, <- insert_delete_eq. unfold sum_store at 1.
  rewrite (sum_store_perm f _ ((k, v) :: map_to_list (delete k m))); [simpl; unfold sum_store; lia|].
  apply map_to_list_insert. apply lookup_delete_eq.
Qed.

Lemma sum_store_changes (f : bytes → bytes → Z) (m : kvstore) changes :
  base.NoDup (kp_Key <$> changes) → sum_store f (apply_changes m changes) = sum_store f m + deltas f m changes.
Proof.
  revert m. induction changes as [|p ps IH]; intros m Hnd; simpl; [lia|].
  rewrite fmap_cons in Hnd. apply NoDup_cons in Hnd as [Hni Hnd]. rewrite (IH _ Hnd).
  assert (Hsame : deltas f (apply_change m p) ps = deltas f m ps).
  { clear IH Hnd. induction ps as [|q ps IH]; [done|]. simpl. rewrite fmap_cons in Hni. apply not_elem_of_cons in Hni as [Hne Hni].
    rewrite IH by done. f_equal. unfold delta, contribution, apply_change. f_equal.
    destruct (kp_Delete p); [by rewrite lookup_delete_ne|by rewrite lookup_insert_ne]. }
  rewrite Hsame. unfold delta, apply_change. destruct (kp_Delete p); [rewrite sum_store_delete|rewrite sum_store_insert]; lia.
Qed.

(** * The theorem *)

Section InvarianceTheorems.
Context `{CD : Codec}.
Variables SupplyByte BalancesByte WeiBalancesByte : byte.
Variable Coin_Unmarshal : bytes → option Z.
Variable split : Z → Z * Z.
Notation check := (LightInvarianceTotalSupply SupplyByte BalancesByte WeiBalancesByte Coin_Unmarshal split).

(** The amounts a pair of the bank's store holds. *)
Definition is_balance (k : bytes) : bool :=
  has_prefix [BalancesByte] k && match parse_balance_key k with Some (_, d) => bool_decide (d = denom) | None => false end.
Definition atabi_at (k v : bytes) : Z := if is_balance k then default 0 (Coin_Unmarshal v) else 0.
Definition wei_at (k v : bytes) : Z := if has_prefix [WeiBalancesByte] k then default 0 (Int_Unmarshal v) else 0.
Definition supply_in (m : kvstore) : Z := default 0 (m !! (SupplyByte :: denom) ≫= Int_Unmarshal).

(** A change that can be read and leaves no negative amount. *)
Definition readable (p : KVPair) : Prop :=
  kp_Delete p = false →
  (is_balance (kp_Key p) = true → ∃ n, Coin_Unmarshal (kp_Value p) = Some n ∧ 0 ≤ n) ∧
  (has_prefix [WeiBalancesByte] (kp_Key p) = true → ∃ n, Int_Unmarshal (kp_Value p) = Some n ∧ 0 ≤ n) ∧
  (kp_Key p = SupplyByte :: denom → is_Some (Int_Unmarshal (kp_Value p))).

Lemma byte_of_Z_bval b : byte_of_Z (bval b) = b.
Proof. apply bval_inj. rewrite bval_byte_of_Z. apply Z.mod_small, bval_range. Qed.

Lemma balance_key_parts k addr : parse_balance_key k = Some (addr, denom) → has_prefix [BalancesByte] k = true →
  account_prefix BalancesByte addr ++ denom = k.
Proof.
  destruct k as [|b [|l rest]]; simpl; try done. rewrite andb_true_r, bool_decide_eq_true. intros H <-.
  destruct (Nat.ltb_spec (S (S (length rest))) (Z.to_nat (bval l) + 2)) as [|Hle]; [done|]. injection H as <- Hd.
  unfold account_prefix, BalancesPrefix. simpl. rewrite length_take, Nat.min_l by lia.
  pose proof (bval_range l). rewrite Z2Nat.id by lia. by rewrite byte_of_Z_bval, <- Hd, take_drop.
Qed.

Lemma sum_pre_from unmarshal keys ckv t : sum_pre unmarshal keys ckv t = t + sum_pre unmarshal keys ckv 0.
Proof.
  revert t. induction keys as [|k ks IH]; intros t; simpl; [lia|].
  destruct (ckv !! k) as [v|]; [|apply IH]. destruct (unmarshal v) as [n|]; [|apply IH]. rewrite IH, (IH (0 + n)). lia.
Qed.

Lemma sum_pre_cons unmarshal k keys ckv t :
  sum_pre unmarshal (k :: keys) ckv t = t + default 0 (ckv !! k ≫= unmarshal) + sum_pre unmarshal keys ckv 0.
Proof.
  simpl. destruct (ckv !! k) as [v|]; simpl; [destruct (unmarshal v) as [n|]; simpl|]; rewrite sum_pre_from; lia.
Qed.

(** The balances of the base denomination: the sums of the loops differ by what
    the changes add. *)
Lemma atabi_loop (ckv : kvstore) (changes : list KVPair) t addrs :
  Forall readable changes →
  ∃ post more, atabi_post Coin_Unmarshal (GetChangedPairs changes [BalancesByte]) t addrs = Ret (t + post, addrs ++ more) ∧
    post - sum_pre Coin_Unmarshal ((λ addr, account_prefix BalancesByte addr ++ denom) <$> more) ckv 0 =
      deltas atabi_at ckv changes.
Proof.
  intros Hr. revert t addrs. induction Hr as [|p ps Hp _ IH]; intros t addrs.
  { exists 0, []. rewrite app_nil_r. split; [by rewrite Z.add_0_r|done]. }
  unfold GetChangedPairs. rewrite filter_cons.
  change (deltas atabi_at ckv (p :: ps)) with (delta atabi_at ckv p + deltas atabi_at ckv ps).
  fold (GetChangedPairs ps [BalancesByte]).
  destruct (is_balance (kp_Key p)) eqn:Hb.
  2:{ assert (delta atabi_at ckv p = 0) as ->.
      { unfold delta, contribution, atabi_at. rewrite Hb. destruct (kp_Delete p), (ckv !! kp_Key p); simpl; lia. }
      destruct (IH t addrs) as (post & more & HI & HS). exists post, more. split; [|lia]. rewrite <- HI.
      case_decide as Hpre; [|done]. simpl. unfold is_balance in Hb. rewrite (Is_true_true_1 _ Hpre) in Hb. simpl in Hb.
      destruct (parse_balance_key (kp_Key p)) as [[addr d]|]; [|done]. by rewrite Hb. }
  pose proof Hb as Hb'. unfold is_balance in Hb'. apply andb_true_iff in Hb' as [Hpre Hk].
  destruct (parse_balance_key (kp_Key p)) as [[addr d]|] eqn:Ek; [|done]. apply bool_decide_eq_true in Hk as ->.
  pose proof (balance_key_parts _ _ Ek Hpre) as Hkey.
  assert (Hc : contribution atabi_at ckv (kp_Key p) = default 0 (ckv !! kp_Key p ≫= Coin_Unmarshal)).
  { unfold contribution, atabi_at. rewrite Hb. by destruct (ckv !! kp_Key p). }
  rewrite decide_True by (by rewrite Hpre). cbn [atabi_post]. rewrite Ek, bool_decide_true by done. cbn [negb].
  unfold delta. rewrite Hc. destruct (kp_Delete p) eqn:Ed.
  - destruct (IH t (addrs ++ [addr])) as (post & more & HI & HS). exists post, (addr :: more).
    rewrite HI, <- app_assoc. split; [done|]. rewrite fmap_cons, sum_pre_cons. cbv beta. rewrite Hkey. lia.
  - destruct (Hp Ed) as [(n & Hn & Hpos)%(λ h, h Hb) _]. rewrite Hn. destruct (Z.ltb_spec n 0) as [|_]; [lia|].
    destruct (IH (t + n) (addrs ++ [addr])) as (post & more & HI & HS). exists (n + post), (addr :: more).
    rewrite HI, <- app_assoc. split; [do 2 f_equal; lia|]. rewrite fmap_cons, sum_pre_cons. cbv beta. rewrite Hkey.
    assert (atabi_at (kp_Key p) (kp_Value p) = n) as -> by (unfold atabi_at; by rewrite Hb, Hn). lia.
Qed.

(** The balances of wei. *)
Lemma wei_loop (ckv : kvstore) (changes : list KVPair) t addrs :
  Forall readable changes →
  ∃ post more, wei_post (GetChangedPairs changes [WeiBalancesByte]) t addrs = Ret (t + post, addrs ++ more) ∧
    post - sum_pre Int_Unmarshal ((λ addr, WeiBalancesPrefix WeiBalancesByte ++ addr) <$> more) ckv 0 =
      deltas wei_at ckv changes.
Proof.
  intros Hr. revert t addrs. induction Hr as [|p ps Hp _ IH]; intros t addrs.
  { exists 0, []. rewrite app_nil_r. split; [by rewrite Z.add_0_r|done]. }
  unfold GetChangedPairs. rewrite filter_cons.
  change (deltas wei_at ckv (p :: ps)) with (delta wei_at ckv p + deltas wei_at ckv ps).
  fold (GetChangedPairs ps [WeiBalancesByte]).
  assert (Hc : contribution wei_at ckv (kp_Key p) =
    if has_prefix [WeiBalancesByte] (kp_Key p) then default 0 (ckv !! kp_Key p ≫= Int_Unmarshal) else 0).
  { unfold contribution, wei_at. by destruct (ckv !! kp_Key p), (has_prefix _ _). }
  unfold delta, wei_at at 1. rewrite Hc. destruct (has_prefix [WeiBalancesByte] (kp_Key p)) eqn:Hpre.
  2:{ rewrite decide_False by (by intros []). destruct (IH t addrs) as (post & more & HI & HS). exists post, more.
      split; [done|]. rewrite HS. destruct (kp_Delete p); lia. }
  rewrite decide_True by done.
  destruct (kp_Key p) as [|b addr] eqn:Ek; [done|].
  assert (b = WeiBalancesByte) as ->.
  { simpl in Hpre. rewrite andb_true_r, bool_decide_eq_true in Hpre. done. }
  cbn [wei_post]. rewrite Ek. destruct (kp_Delete p) eqn:Ed.
  - destruct (IH t (addrs ++ [addr])) as (post & more & HI & HS). exists post, (addr :: more).
    rewrite HI, <- app_assoc. split; [done|]. rewrite fmap_cons, sum_pre_cons. cbv beta.
    change (WeiBalancesPrefix WeiBalancesByte ++ addr) with (WeiBalancesByte :: addr). lia.
  - rewrite <- Ek in Hpre. destruct (Hp Ed) as [_ [(n & Hn & Hpos)%(λ h, h Hpre) _]]. rewrite Hn.
    destruct (Z.ltb_spec n 0) as [|_]; [lia|].
    destruct (IH (t + n) (addrs ++ [addr])) as (post & more & HI & HS). exists (n + post), (addr :: more).
    rewrite HI, <- app_assoc. split; [do 2 f_equal; lia|]. rewrite fmap_cons, sum_pre_cons. cbv beta.
    change (WeiBalancesPrefix WeiBalancesByte ++ addr) with (WeiBalancesByte :: addr). change (default 0 (Some n)) with n. lia.
Qed.

Lemma apply_changes_other (m : kvstore) changes k : k ∉ kp_Key <$> changes → apply_changes m changes !! k = m !! k.
Proof.
  revert m. induction changes as [|p ps IH]; intros m Hk; [done|]. rewrite fmap_cons in Hk.
  apply not_elem_of_cons in Hk as [Hne Hk]. simpl. rewrite IH by done. unfold apply_change.
  destruct (kp_Delete p); [by rewrite lookup_delete_ne|by rewrite lookup_insert_ne].
Qed.

(** The supply. *)
Lemma supply_loop (ckv : kvstore) (changes : list KVPair) :
  base.NoDup (kp_Key <$> changes) → Forall readable changes →
  supply_changed (GetChangedPairs changes [SupplyByte]) (supply_in ckv) =
    supply_in (apply_changes ckv changes) - supply_in ckv.
Proof.
  revert ckv. induction changes as [|p ps IH]; intros ckv Hnd Hr; [simpl; lia|].
  rewrite fmap_cons in Hnd. apply NoDup_cons in Hnd as [Hni Hnd]. apply Forall_cons in Hr as [Hp Hr].
  unfold GetChangedPairs. rewrite filter_cons. fold (GetChangedPairs ps [SupplyByte]).
  destruct (decide (kp_Key p = SupplyByte :: denom)) as [Ek|Hne].
  - rewrite decide_True by (rewrite Ek; simpl; by rewrite bool_decide_true).
    cbn [supply_changed]. rewrite bool_decide_true by (by rewrite Ek). simpl.
    unfold supply_in at 3. rewrite apply_changes_other by (by rewrite <- Ek). unfold apply_change.
    destruct (kp_Delete p) eqn:Ed; [rewrite Ek, lookup_delete_eq; simpl; unfold supply_in; lia|].
    destruct (Hp Ed) as (_ & _ & [n Hn]%(λ h, h Ek)). rewrite Hn, Ek, lookup_insert_eq. simpl. rewrite Hn. unfold supply_in. simpl. lia.
  - assert (Hsame : supply_in (apply_change ckv p) = supply_in ckv).
    { unfold supply_in, apply_change. destruct (kp_Delete p); [by rewrite lookup_delete_ne|by rewrite lookup_insert_ne]. }
    simpl. rewrite <- Hsame, <- (IH (apply_change ckv p)) by done.
    destruct (decide _) as [Hpre|]; [|done]. cbn [supply_changed]. rewrite bool_decide_false; [done|].
    intros Ht. apply Hne. destruct (kp_Key p) as [|b k]; [done|]. simpl in *. apply andb_True in Hpre as [Hb _].
    apply bool_decide_unpack in Hb. by rewrite Hb, Ht.
Qed.

(** The bank's split of an amount of wei: the remainder vanishes exactly for
    the multiples of 10^12, which are then the quotient times 10^12. *)
Definition split_law : Prop :=
  ∀ z, ((split z).2 = 0 ↔ (10^12 | z)) ∧ ((split z).2 = 0 → z = (split z).1 * 10^12).

(** C17: the check passes exactly when the block preserved value: the wei of all
    accounts changed by a whole number q of base units, and the base units of all
    accounts together with q changed by what was minted or burnt.  So a block
    that creates or loses a single wei stops the chain, and one that conserves
    them never does; the check only reads the changed pairs. *)
Theorem light_invariance_exact (ckv : kvstore) (changes : list KVPair)
  (Hsplit : split_law) (Hnd : base.NoDup (kp_Key <$> changes)) (Hr : Forall readable changes)
  (Hsupply : ∀ v, ckv !! (SupplyByte :: denom) = Some v → is_Some (Int_Unmarshal v)) :
  check ckv changes = Ret tt ↔
  ∃ q, sum_store wei_at (apply_changes ckv changes) - sum_store wei_at ckv = q * 10^12 ∧
    sum_store atabi_at (apply_changes ckv changes) - sum_store atabi_at ckv + q =
      supply_in (apply_changes ckv changes) - supply_in ckv.
Proof.
  rewrite !(sum_store_changes _ _ _ Hnd), <- (supply_loop _ _ Hnd Hr).
  destruct (atabi_loop ckv changes 0 [] Hr) as (ap & am & HA & HAs).
  destruct (wei_loop ckv changes 0 [] Hr) as (wp & wm & HW & HWs).
  unfold LightInvarianceTotalSupply, BalancesPrefix, SupplyKey. rewrite HA. cbn [outcome_bind].
  change (WeiBalancesPrefix WeiBalancesByte) with [WeiBalancesByte] in *. rewrite HW. cbn [outcome_bind].
  change ([SupplyByte] ++ denom) with (SupplyByte :: denom). rewrite !app_nil_l, !Z.add_0_l in *.
  assert (Hpre : ∃ pre, (ckv !! (SupplyByte :: denom) ≫= λ bz, Some (Int_Unmarshal bz)) = pre ∧ pre ≠ Some None ∧
    match pre with Some (Some amt) => amt | _ => 0 end = supply_in ckv).
  { unfold supply_in. destruct (ckv !! (SupplyByte :: denom)) as [v|] eqn:E; simpl; [|by exists None].
    destruct (Hsupply v eq_refl) as [n Hn]. rewrite Hn. by exists (Some (Some n)). }
  destruct Hpre as (pre & -> & Hne & Hpre).
  destruct (Hsplit (deltas wei_at ckv changes)) as [Hdiv Hquot]. rewrite <- HAs, <- HWs in *.
  set (sup := supply_changed _ (supply_in ckv)). set (apre := sum_pre _ _ _ _) in *. set (wdiff := wp - _) in *.
  transitivity ((let '(q, r) := split wdiff in
    if negb (r =? 0) then Panic "non-zero wei diff found!"
    else if negb (apre - ap - q + sup =? 0) then Panic "unexpected atabibalance total found!" else Ret tt) = Ret tt).
  { unfold sup. rewrite <- Hpre. by destruct pre as [[n|]|]. }
  destruct (split wdiff) as [q r]. simpl in *. destruct (Z.eqb_spec r 0) as [Hr0|Hr0]; simpl.
  - specialize (Hquot Hr0). destruct (Z.eqb_spec (apre - ap - q + sup) 0) as [Hz|Hz]; simpl.
    + split; [intros _; exists q; lia|done].
    + split; [done|]. intros (q' & Hw & Ha). exfalso. assert (q' = q) by lia. lia.
  - split; [done|]. intros (q' & Hw & _). exfalso. apply Hr0, Hdiv. exists q'. lia.
Qed.

End InvarianceTheorems.

(** * Examples *)

Section InvarianceExamples.
#[local] Existing Instances number_codec number_codec_laws.

(** Coins as their amounts; account 1 sends one unit and its 5 wei to account 2,
    which already holds wei, and two units are burnt. *)
Definition demo_coin (b : bytes) : option Z := Int_Unmarshal b.
Definition demo_split (z : Z) : Z * Z := (Z.quot z (10^12), z `mod` 10^12).
Definition balance_key (a : byte) : bytes := account_prefix x02 [a] ++ denom.
Definition bank_before : kvstore :=
  list_to_map [(balance_key x01, Int_Marshal 10); (x04 :: [x01], Int_Marshal 5); (x04 :: [x02], Int_Marshal (10^12 - 5));
    (x00 :: denom, Int_Marshal 11)].
Definition bank_changes (got : Z) : list KVPair :=
  [mkKVPair (balance_key x01) (Int_Marshal 7) false; mkKVPair (balance_key x02) (Int_Marshal got) false;
   mkKVPair (x04 :: [x01]) [] true; mkKVPair (x04 :: [x02]) [] true; mkKVPair (x00 :: denom) (Int_Marshal 9) false].

Lemma demo_split_law : split_law demo_split.
Proof.
  intros z. unfold demo_split; cbn [fst snd].
  pose proof (Z.quot_rem' z (10^12)). pose proof (Z.div_mod z (10^12) ltac:(lia)).
  assert (Hd : z `mod` 10^12 = 0 → z = Z.quot z (10^12) * 10^12).
  { intros E. rewrite E in *. assert (Z.rem z (10^12) = 0) by (apply Z.rem_divide; [lia|]; exists (z `div` 10^12); lia). lia. }
  split; [|done]. split; [apply Z.mod_divide; lia|]. intros Hz. by apply Z.mod_divide.
Qed.

Lemma bank_changes_readable got : 0 ≤ got → Forall (readable x00 x02 x04 demo_coin) (bank_changes got).
Proof.
  intros Hg. unfold demo_coin.
  assert (Hm : ∀ k z, 0 ≤ z → readable x00 x02 x04 demo_coin (mkKVPair k (Int_Marshal z) false)).
  { intros k z Hz _. cbn [kp_Value]. unfold demo_coin. rewrite Int_codec. eauto 10. }
  assert (Hdel : ∀ k, readable x00 x02 x04 demo_coin (mkKVPair k [] true)) by (by intros k ?).
  repeat (apply Forall_cons; split); auto with lia.
Qed.

(** A block that conserves value, and one that creates a unit. *)
Lemma light_invariance_exact_witness :
  LightInvarianceTotalSupply x00 x02 x04 demo_coin demo_split bank_before (bank_changes 2) = Ret tt ∧
  LightInvarianceTotalSupply x00 x02 x04 demo_coin demo_split bank_before (bank_changes 3) ≠ Ret tt.
Proof.
  assert (Hs : ∀ v, bank_before !! (x00 :: denom) = Some v → is_Some (Int_Unmarshal v)).
  { assert (E : bank_before !! (x00 :: denom) = Some (Int_Marshal 11)) by (vm_compute; reflexivity).
    intros v Hv. rewrite E in Hv. apply (inj Some) in Hv. rewrite <- Hv, Int_codec. eauto. }
  assert (Hnd : ∀ got, base.NoDup (kp_Key <$> bank_changes got)).
  { intros got. assert (base.NoDup (kp_Key <$> bank_changes 0)) by (apply (bool_decide_unpack _); vm_compute; exact I). done. }
  split.
  - apply (light_invariance_exact x00 x02 x04 demo_coin demo_split bank_before (bank_changes 2) demo_split_law
      (Hnd 2) (bank_changes_readable 2 ltac:(lia)) Hs).
    exists (-1). split; vm_compute; reflexivity.
  - vm_compute. discriminate.
Defined.
End InvarianceExamples.
