(* ===== verification/MsgServer.v ===== *)
(** * The other messages of the module
    (RegisterPointer, AssociateContractAddress and Send of
    x/evm/keeper/msg_server.go, the internal calls of x/evm/keeper/evm.go and
    GetStoredPointerCodeID of x/evm/keeper/pointer.go)

    The text forms of account addresses are byte strings, as in Pointer.v. *)

From S2P Require Import Prelude Bytes Dec Store Params Keys World Instances Eth Keeper StateDB Finalize Frame Block EthTx Msg Receipts Tx Associate.
From S2P Require Import Pointer.
From Stdlib Require Import Strings.Byte.
Local Open Scope Z_scope.
Local Open Scope outcome_scope.

(** ** The wasm and bank modules *)

(** Contracts are instantiated and migrated by the module account; the message
    of a migration is the empty object. *)
Class WasmKeeper (MS : Type) := {
  wk_Instantiate : Z → AccAddress → AccAddress → list (string * string) → string → Ctx MS → Ctx MS * (AccAddress + Err);
  wk_Migrate : AccAddress → AccAddress → Z → Ctx MS → Ctx MS * option Err;
  wk_HasContract : Ctx MS → AccAddress → bool
}.
(** The message server of the bank: sender and recipient as text. *)
Class BankMsgServer (MS : Type) := { bank_Send : bytes → bytes → Coins → Ctx MS → Ctx MS * option Err }.

(** ** Messages *)

Record MsgRegisterPointer : Type := mkMsgRegisterPointer { rp_Sender : bytes; rp_PointerType : PointerType; rp_ErcAddress : string }.
Record MsgAssociateContractAddress : Type := mkMsgAssociateContractAddress { ac_Sender : bytes; ac_Address : bytes }.
Record MsgSend : Type := mkMsgSend { ms_FromAddress : bytes; ms_ToAddress : string; ms_Amount : Coins }.
Record MsgInternalEVMCall : Type := mkMsgInternalEVMCall {
  ic_Sender : bytes; ic_To : string; ic_Value : option Z; ic_Data : bytes
}.
Record MsgInternalEVMDelegateCall : Type := mkMsgInternalEVMDelegateCall {
  id_Sender : bytes; id_FromContract : bytes; id_To : string; id_CodeHash : bytes; id_Data : bytes
}.

Definition EventTypePointerRegistered : string := "pointer_registered".
Definition AttributeKeyPointerType : string := "pointer_type".
Definition AttributeKeyPointee : string := "pointee".
Definition AttributeKeyPointerAddress : string := "pointer_address".
Definition AttributeKeyPointerVersion : string := "pointer_version".

(** The errors of decoding an account address, of registering a pointer again
    and of a missing association; the last two name the address. *)
Definition ErrBech32 : Err := "decoding bech32 failed".
Definition ErrAlreadyRegistered : Err := "pointer already registered".
Definition AssociationMissingErr : Err := "address is not linked".

Section MsgServer.
Context `{BK : BankKeeper B} `{AK : AccountKeeper A} `{EC : EthCrypto} `{KC : KeeperConfig}.
Context `{MST : MultiStore MS (World B A)} `{MR : MapRange} `{SD : SdkDec} `{CD : Codec}.
Context `{EH : EthHex} `{IL : IntLibs} `{ET : EthTransactions T} `{TC : TxCodec} `{ER : EthReceipts}.
Context `{VM : EVM MS} `{GM : GasMeters G} `{BE : Bech32} `{WK : WasmKeeper MS} `{BMS : BankMsgServer MS}.
Notation World := (World B A).
Notation Ctx := (Ctx MS).
Notation TxOut := (TxOut (MS := MS) (G := G)).

(** ** Validation *)

Definition MsgRegisterPointer_ValidateBasic (m : MsgRegisterPointer) : option Err :=
  match AccAddressFromBech32 (rp_Sender m) with
  | None => Some "Invalid sender address"%string
  | Some _ => if IsHexAddress (rp_ErcAddress m) then None else Some "invalid address"%string
  end.
Definition MsgAssociateContractAddress_ValidateBasic (m : MsgAssociateContractAddress) : option Err :=
  match AccAddressFromBech32 (ac_Sender m) with
  | None => Some "Invalid sender address"%string
  | Some _ => match AccAddressFromBech32 (ac_Address m) with None => Some "invalid address"%string | Some _ => None end
  end.

(** ** Pointers *)

(** The code of the wasm pointers to a kind of token, at its current version. *)
Definition GetStoredPointerCodeID (w : World) (pointerType : PointerType) : outcome Z :=
  let read p version :=
    match w_evm w !! (PointerCWCodePrefix ++ p ++ PutUint16 version) with
    | None => Ret 0
    | Some bz => Uint64 bz
    end in
  match pointerType with
  | PT_ERC20 => read PointerCW20ERC20Prefix erc20_CurrentVersion
  | PT_ERC721 => read PointerCW721ERC721Prefix erc721_CurrentVersion
  | PT_ERC1155 => read PointerCW1155ERC1155Prefix erc1155_CurrentVersion
  | _ => Ret 0
  end.

(** What the switches of the handler choose for a kind of token: the current
    version and its text, the field of the payload, the name in the event, the
    getter and the setter. *)
Record PointerCase : Type := mkPointerCase {
  pc_version : Z;
  pc_versionText : string;
  pc_field : string;
  pc_name : string;
  pc_get : bool → World → Address → outcome (option (AccAddress * Z));
  pc_set : Address → bytes → World → outcome (World * option Err)
}.
Definition pointer_case (t : PointerType) : outcome PointerCase :=
  match t with
  | PT_ERC20 => Ret (mkPointerCase erc20_CurrentVersion "2" "erc20_address" "erc20" GetCW20ERC20Pointer SetCW20ERC20Pointer)
  | PT_ERC721 => Ret (mkPointerCase erc721_CurrentVersion "6" "erc721_address" "erc721" GetCW721ERC721Pointer SetCW721ERC721Pointer)
  | PT_ERC1155 => Ret (mkPointerCase erc1155_CurrentVersion "1" "erc1155_address" "erc1155" GetCW1155ERC1155Pointer SetCW1155ERC1155Pointer)
  | _ => Panic "unknown pointer type"
  end.

Definition RegisterPointer (msg : MsgRegisterPointer) (c : Ctx) : outcome (Ctx * option AccAddress * option Err) :=
  if RegisterPointerDisabled (w_params (cview c))
  then Ret (c, None, Some "registering CW->ERC pointers has been disabled"%string) else
  let* pc := pointer_case (rp_PointerType msg) in
  let erc := HexToAddress (rp_ErcAddress msg) in
  let* existing := pc_get pc (ci_isTracing (c_info c)) (cview c) erc in
  if match existing with Some (_, existingVersion) => pc_version pc <=? existingVersion | None => false end
  then Ret (c, None, Some ErrAlreadyRegistered) else
  let* codeID := GetStoredPointerCodeID (cview c) (rp_PointerType msg) in
  let moduleAcct := ak_GetModuleAddress ModuleName in
  let '(c1, r) :=
    match existing with
    | Some (existingPointer, _) =>
        let '(c1, e) := wk_Migrate existingPointer moduleAcct codeID c in
        (c1, match e with None => inl existingPointer | Some err => inr err end)
    | None =>
        wk_Instantiate codeID moduleAcct moduleAcct [(pc_field pc, rp_ErcAddress msg)]
          ("Pointer of " ++ rp_ErcAddress msg)%string c
    end in
  match r with
  | inr e => Ret (c1, None, Some e)
  | inl pointerAddr =>
      let* s := pc_set pc erc (acc_String pointerAddr) (cview c1) in
      let c2 := cemit [mkEvent EventTypePointerRegistered
        [(AttributeKeyPointerType, VStr (pc_name pc)); (AttributeKeyPointerAddress, VAcc pointerAddr);
         (AttributeKeyPointee, VStr (rp_ErcAddress msg)); (AttributeKeyPointerVersion, VStr (pc_versionText pc))]] (cput s.1 c1) in
      Ret (c2, Some pointerAddr, s.2)
  end.

(** ** Associations and payments *)

Definition AssociateContractAddress (msg : MsgAssociateContractAddress) (c : Ctx) : outcome (Ctx * option Err) :=
  let* addr := MustAccAddressFromBech32 (ac_Address msg) in
  if negb (wk_HasContract c addr) then Ret (c, Some "no wasm contract found at the given address"%string) else
  match GetEVMAddress (cview c) addr with
  | Some _ => Ret (c, Some "contract already has an associated address"%string)
  | None => Ret (SetAddressMapping addr (BytesToAddress addr) c, None)
  end.

Definition Send (msg : MsgSend) (c : Ctx) : Ctx * option Err :=
  let recipient := GetTabiAddressOrDefault (cview c) (HexToAddress (ms_ToAddress msg)) in
  bank_Send (ms_FromAddress msg) (acc_String recipient) (ms_Amount msg) c.

(** ** Calls from wasm contracts *)

Definition HandleInternalEVMCall (env : TxEnv) (req : MsgInternalEVMCall) (cache : option Address) (gm : G) (c : Ctx)
    : outcome (TxOut bytes) :=
  let to := if String.eqb (ic_To req) "" then None else Some (HexToAddress (ic_To req)) in
  match AccAddressFromBech32 (ic_Sender req) with
  | None => Ret (mkTxOut _ [] (Some ErrBech32) c gm cache)
  | Some senderAddr => CallEVM env (GetEVMAddressOrDefault (cview c) senderAddr) to (ic_Value req) (ic_Data req) cache gm c
  end.

Definition HandleInternalEVMDelegateCall (env : TxEnv) (req : MsgInternalEVMDelegateCall) (cache : option Address) (gm : G) (c : Ctx)
    : outcome (TxOut bytes) :=
  let fail e := Ret (mkTxOut _ [] (Some e) c gm cache) in
  if String.eqb (id_To req) "" then fail "cannot use a CosmWasm contract to delegate-create an EVM contract"%string else
  let to := HexToAddress (id_To req) in
  let* pointee := GetAnyPointerInfo (cview c) (PointerReverseRegistryKey (BytesToAddress (id_FromContract req))) in
  if match pointee with Some (addr, _) => bool_decide (BytesToAddress addr ≠ to) | None => true end
  then fail "only pointer contract can make delegatecalls"%string else
  match AccAddressFromBech32 (id_Sender req) with
  | None => fail ErrBech32
  | Some senderAddr =>
  match GetEVMAddress (cview c) senderAddr with
  | None => fail AssociationMissingErr
  | Some senderEvmAddr => CallEVM env senderEvmAddr (Some to) (Some 0) (id_Data req) cache gm c
  end end.

End MsgServer.

(** * Theorems *)

Section MsgServerTheorems.
Context `{BK : BankKeeper B} `{AK : AccountKeeper A} `{EC : EthCrypto} `{KC : KeeperConfig}.
Context `{MST : MultiStore MS (World B A)} `{MSL : !MultiStoreLaws MS (World B A)} `{MR : MapRange} `{SD : SdkDec} `{CD : Codec}.
Context `{EH : EthHex} `{IL : IntLibs} `{ET : EthTransactions T} `{TC : TxCodec} `{ER : EthReceipts}.
Context `{VM : EVM MS} `{GM : GasMeters G} `{BE : Bech32} `{WK : WasmKeeper MS}.
Notation World := (World B A).
Notation Ctx := (Ctx MS).

(** The registry of pointers is the same. *)
Definition same_registry (w w' : World) : Prop :=
  (∀ s, w_evm w' !! (x15 :: s) = w_evm w !! (x15 :: s)) ∧ (∀ s, w_evm w' !! (x17 :: s) = w_evm w !! (x17 :: s)).

(** Creating or migrating a pointer contract leaves the registry alone, and a
    contract has an address. *)
Class WasmLaws : Prop := {
  wk_instantiate_registry : ∀ code creator admin msg label c,
    same_registry (cview c) (cview (wk_Instantiate code creator admin msg label c).1);
  wk_instantiate_account : ∀ code creator admin msg label c a,
    (wk_Instantiate code creator admin msg label c).2 = inl a → legal_account a;
  wk_migrate_registry : ∀ a caller code c, same_registry (cview c) (cview (wk_Migrate a caller code c).1)
}.

Variable tokens : PointerType → bytes → Prop.
(** Every address of the EVM is a possible token. *)
Definition all_erc : Prop := ∀ t (erc : Address), erc_type t = true → tokens t (ba erc).

Lemma holds_same_registry (w w' : World) r : same_registry w w' → holds tokens w r → holds tokens w' r.
Proof.
  intros [H15 H17] Hh. split.
  - intros t p v Ht Hv. rewrite <- (holds_pointer _ _ _ Hh) by done. apply (H15 (type_byte t :: p ++ PutUint16 v)).
  - intros s. rewrite H15. apply (holds_only_pointers _ _ _ Hh).
  - intros a v Hv. rewrite <- (holds_token _ _ _ Hh) by done. apply (H17 (ba a ++ PutUint16 v)).
  - intros s. rewrite H17. apply (holds_only_tokens _ _ _ Hh).
  - apply (holds_legal _ _ _ Hh).
  - apply (holds_versions _ _ _ Hh).
Qed.

(** The handler's choice for the tokens of the EVM, in terms of the table. *)
Lemma pointer_case_spec t pc : pointer_case (B := B) (A := A) t = Ret pc →
  erc_type t = true ∧ is_u16 (pc_version pc) ∧ pc_get pc = get_cw t ∧
  ∀ erc x w, pc_set pc erc x w =
    set_pointer (cwAddressIsPointer w (ba erc)) (type_key t (ba erc)) x (BytesToAddress x) (ba erc) (pc_version pc) w.
Proof.
  assert (Hcast : ∀ (w : World) erc, cwAddressIsPointer w (ba erc) = evmAddressIsPointer w erc).
  { intros w erc. unfold cwAddressIsPointer. by rewrite BytesToAddress_ba. }
  destruct t; simpl; try done; intros [= <-]; (split_and!; [done..|]); intros erc x w; by rewrite Hcast.
Qed.

Lemma latest_after_set r t (erc : Address) x v o :
  is_latest (λ v', rg_pointer r !! (t, ba erc, v')) o → match o with Some (_, v0) => v0 < v | None => True end →
  is_latest (λ v', rg_pointer (table_set t (ba erc) x v r) !! (t, ba erc, v')) (Some (x, v)).
Proof.
  intros HL Hv. simpl. split; [by rewrite lookup_insert_eq|]. intros v' Hs.
  destruct (decide (v = v')) as [->|Hne]; [lia|]. rewrite lookup_insert_ne in Hs by congruence.
  destruct o as [[y v0]|]; simpl in HL; [|by rewrite HL in Hs; destruct Hs]. destruct HL as [_ HL]. specialize (HL v' Hs). lia.
Qed.

(** The contract behind the new entry: the migrated one or a new one. *)
Lemma pointer_contract `{HWL : !WasmLaws} (existing : option (AccAddress * Z)) code m field erc label (c c1 : Ctx) p :
  (∀ a v, existing = Some (a, v) → legal_account a) →
  match existing with
  | Some (existingPointer, _) =>
      let '(c1, e) := wk_Migrate existingPointer m code c in
      (c1, match e with None => inl existingPointer | Some err => inr err end)
  | None => wk_Instantiate code m m [(field, erc)] label c
  end = (c1, inl p) →
  same_registry (cview c) (cview c1) ∧ legal_account p.
Proof.
  intros Hleg H. destruct existing as [[a v0]|].
  - pose proof (wk_migrate_registry a m code c) as Hs. destruct (wk_Migrate a m code c) as [c2 [e|]]; [done|].
    injection H as -> ->. split; [done|by eapply Hleg].
  - pose proof (wk_instantiate_registry code m m [(field, erc)] label c) as Hs.
    pose proof (wk_instantiate_account code m m [(field, erc)] label c p) as Ha. rewrite H in *. split; [done|by apply Ha].
Qed.

Lemma acc_String_inj `{HBL : !Bech32Laws} a b : legal_account a → legal_account b → acc_String a = acc_String b → a = b.
Proof. intros [Ha La] [Hb Lb] E. apply (f_equal AccAddressFromBech32) in E. rewrite !bech32_roundtrip in E by done. by injection E. Qed.

(** Registering a pointer for a token of the EVM records it, once.  When the
    handler succeeds, the pointer it answers is the one the getter returns, at the
    current version; the registry is the old one with this entry; and the same
    message is then refused without effect. *)
Theorem RegisterPointer_registers `{HBL : !Bech32Laws} `{HWL : !WasmLaws} (msg : MsgRegisterPointer) (c c' : Ctx) (p : AccAddress) (r : Registry) :
  no_confusion tokens → all_erc → holds tokens (cview c) r → RegisterPointer msg c = Ret (c', Some p, None) →
  ∃ pc, pointer_case (B := B) (A := A) (rp_PointerType msg) = Ret pc ∧
    let erc := HexToAddress (rp_ErcAddress msg) in
    holds tokens (cview c') (table_set (rp_PointerType msg) (ba erc) (acc_String p) (pc_version pc) r) ∧
    (∀ tr, get_cw (rp_PointerType msg) tr (cview c') erc = Ret (Some (p, pc_version pc))) ∧
    ∃ e, RegisterPointer msg c' = Ret (c', None, Some e).
Proof.
  intros Hnc Herc Hh H. unfold RegisterPointer in H. set (erc := HexToAddress (rp_ErcAddress msg)) in *.
  set (t := rp_PointerType msg) in *. destruct (RegisterPointerDisabled _); [done|].
  destruct (pointer_case t) as [pc|] eqn:Epc; [|done]. cbn [outcome_bind] in H. exists pc. split; [done|].
  destruct (pointer_case_spec t pc Epc) as (Het & Hv & Hget & Hset).
  destruct (get_cw_latest tokens (cview c) r (ci_isTracing (c_info c)) t erc Hnc Hh (Herc _ _ Het) Het) as (existing & E & HL & Hleg).
  rewrite Hget, E in H. cbn [outcome_bind] in H.
  destruct (match existing with Some (_, v0) => pc_version pc <=? v0 | None => false end) eqn:Ev; [done|].
  destruct (GetStoredPointerCodeID (cview c) t) as [code|]; [|done]. cbn [outcome_bind] in H.
  match type of H with (match ?x with (_, _) => _ end = _) => destruct x as [c1 [p0|e]] eqn:Ec end; [|done].
  destruct (pointer_contract existing code _ _ _ _ c c1 p0 Hleg Ec) as [Hs Hl].
  destruct (set_pointer_refines tokens (cview c1) r t (ba erc) (acc_String p0) (pc_version pc)
    (holds_same_registry _ _ _ Hs Hh) (Herc _ _ Het) Hv) as (w' & r' & e & Eset & Hh' & Hc).
  { unfold legal_pointer. rewrite Het. by exists p0. }
  rewrite Hset, Eset in H. cbn [outcome_bind fst snd] in H. injection H as Hc' -> ->.
  destruct Hc as [(_ & -> & _)|(_ & _ & ?)]; [|done].
  assert (Hw' : cview c' = w') by (rewrite <- Hc'; by rewrite cview_cemit, cview_cput). rewrite Hw'. cbv zeta.
  assert (Hgot : ∀ tr, get_cw t tr w' erc = Ret (Some (p, pc_version pc))).
  { intros tr. destruct (get_cw_latest tokens w' _ tr t erc Hnc Hh' (Herc _ _ Het) Het) as (o & -> & HL' & Hleg').
    pose proof (is_latest_unique _ _ _ HL' (latest_after_set r t erc (acc_String p) (pc_version pc) _ HL
      ltac:(destruct existing as [[a v0]|]; [apply Z.leb_gt in Ev; done|done]))) as Ho.
    destruct o as [[a v0]|]; [|done]. injection Ho as Ha ->. do 3 f_equal. by apply acc_String_inj; [by eapply Hleg'|..]. }
  split; [done|]. split; [done|]. unfold RegisterPointer. fold erc t. destruct (RegisterPointerDisabled _); [by eexists|].
  rewrite Epc. cbn [outcome_bind]. rewrite Hget, Hw', Hgot. cbn [outcome_bind]. rewrite Z.leb_refl. by eexists.
Qed.

(** A delegate call comes from a pointer to the contract it calls.  When the
    handler returns without an error, the registry has the called contract as the
    token of the calling wasm contract, and the call was made by the associated
    address of the sender and without value; a refused call changes nothing. *)
Theorem delegate_call_only_pointer (env : TxEnv) (req : MsgInternalEVMDelegateCall) (cache : option Address) (gm : G) (c : Ctx)
    (r : Registry) (out : TxOut (MS := MS) (G := G) bytes) :
  holds tokens (cview c) r → HandleInternalEVMDelegateCall env req cache gm c = Ret out →
  (to_err _ out = None → ∃ token v sender e,
    is_latest (λ v, rg_token r !! (BytesToAddress (id_FromContract req), v)) (Some (token, v)) ∧
    BytesToAddress token = HexToAddress (id_To req) ∧
    AccAddressFromBech32 (id_Sender req) = Some sender ∧ GetEVMAddress (cview c) sender = Some e ∧
    CallEVM env e (Some (HexToAddress (id_To req))) (Some 0) (id_Data req) cache gm c = Ret out) ∧
  ((∀ token v, is_latest (λ v, rg_token r !! (BytesToAddress (id_FromContract req), v)) (Some (token, v)) →
      BytesToAddress token ≠ HexToAddress (id_To req)) → is_Some (to_err _ out) ∧ to_ctx _ out = c ∧ to_meter _ out = gm).
Proof.
  intros Hh H. unfold HandleInternalEVMDelegateCall in H.
  destruct (String.eqb _ _); [injection H as <-; by split|].
  destruct (GetAnyPointerInfo_latest tokens (cview c) r (BytesToAddress (id_FromContract req)) Hh) as (o & Eo & HL).
  rewrite Eo in H. cbn [outcome_bind] in H.
  destruct o as [[token v]|]; [|injection H as <-; by split].
  destruct (bool_decide _) eqn:Eb; [injection H as <-; by split|].
  apply bool_decide_eq_false in Eb. assert (BytesToAddress token = HexToAddress (id_To req)) as Hto
    by (destruct (decide (BytesToAddress token = HexToAddress (id_To req))); [done|by destruct Eb]).
  split; [|intros Hno; by destruct (Hno token v HL)]. intros Hok.
  destruct (AccAddressFromBech32 (id_Sender req)) as [sender|]; [|injection H as <-; done].
  destruct (GetEVMAddress (cview c) sender) as [e|] eqn:Ee; [|injection H as <-; done]. by exists token, v, sender, e.
Qed.

End MsgServerTheorems.

(** * Examples *)

Section MsgServerExamples.
#[local] Existing Instances demo_bank_keeper demo_bank_laws demo_accounts demo_crypto live_config.
#[local] Existing Instances number_codec number_codec_laws plain_hex strict_ints plain_transactions no_codec.
#[local] Existing Instances half_even_dec demo_receipts_ops plain_meter demo_call_stores demo_call_stores_laws demo_call_range demo_evm.
#[local] Existing Instances marked_bech32 marked_bech32_laws.

(** Every new contract gets the same address. *)
Definition demo_wasm : WasmKeeper (stack_ms demo_world) := {|
  wk_Instantiate _ _ _ _ _ c := (c, inl [x05; x06]);
  wk_Migrate _ _ _ c := (c, None);
  wk_HasContract _ a := bool_decide (a = [x05; x06])
|}.
#[local] Existing Instance demo_wasm.
#[local] Instance demo_wasm_laws : WasmLaws.
Proof. split; simpl; try done. intros _ _ _ _ _ _ a [= <-]. split; [done|simpl; lia]. Qed.

Lemma demo_all_erc : all_erc demo_tokens.
Proof. intros t erc Ht. unfold demo_tokens. rewrite Ht. apply ba_length. Qed.

Definition demo_token_address : string := "0000000000000000000000000000000000000002".
Definition demo_register : MsgRegisterPointer := mkMsgRegisterPointer [x74; x01] PT_ERC20 demo_token_address.
Definition demo_registered : Ctx (stack_ms demo_world) :=
  match RegisterPointer demo_register funded_ctx with Ret (c, _, _) => c | Panic _ => funded_ctx end.

Lemma funded_no_pointers : no_pointers (cview funded_ctx).
Proof. split; intros s; reflexivity. Qed.
Lemma demo_register_runs : RegisterPointer demo_register funded_ctx = Ret (demo_registered, Some [x05; x06], None).
Proof. reflexivity. Qed.

Lemma RegisterPointer_registers_witness :
  get_cw PT_ERC20 false (cview demo_registered) (HexToAddress demo_token_address) = Ret (Some ([x05; x06], 2)) ∧
  ∃ e, RegisterPointer demo_register demo_registered = Ret (demo_registered, None, Some e).
Proof.
  destruct (RegisterPointer_registers demo_tokens demo_register funded_ctx demo_registered [x05; x06] (mkRegistry ∅ ∅)
    demo_no_confusion demo_all_erc (holds_empty demo_tokens _ funded_no_pointers) demo_register_runs) as (pc & Hpc & _ & Hg & He).
  injection Hpc as <-. split; [apply Hg|exact He].
Defined.

(** A pointer to the token, and an account that is associated. *)
Definition delegate_start : demo_world := cview (SetAddressMapping [x08] (addr_of 50) funded_ctx).
Definition delegate_token : Address := HexToAddress demo_token_address.
Definition delegate_ctx : Ctx (stack_ms demo_world) :=
  cput (setPointerInfo (PointerReverseRegistryKey (BytesToAddress [x74; x05; x06])) (ba delegate_token) 2
    (setPointerInfo (type_key PT_ERC20 (ba delegate_token)) [x74; x05; x06] 2 delegate_start)) funded_ctx.
Definition demo_delegate : MsgInternalEVMDelegateCall :=
  mkMsgInternalEVMDelegateCall [x74; x08] [x74; x05; x06] demo_token_address [] [].

Lemma delegate_holds : holds demo_tokens (cview delegate_ctx) (table_set PT_ERC20 (ba delegate_token) [x74; x05; x06] 2 (mkRegistry ∅ ∅)).
Proof.
  apply holds_set; [|by apply demo_all_erc|by unfold is_u16|by exists [x05; x06]; split; [split; [done|simpl; lia]|]].
  apply holds_empty. split; intros s; unfold delegate_start; rewrite SetAddressMapping_evm;
    rewrite !lookup_insert_ne by discriminate; apply funded_no_pointers.
Qed.

Definition call_ok {R} (o : outcome (TxOut (MS := stack_ms demo_world) (G := Z * Z) R)) : bool :=
  match o with Ret out => match to_err _ out with None => true | Some _ => false end | Panic _ => false end.
Lemma call_ok_ret {R} (o : outcome (TxOut (MS := stack_ms demo_world) (G := Z * Z) R)) :
  call_ok o = true → ∃ out, o = Ret out ∧ to_err _ out = None.
Proof. destruct o as [out|]; [|done]. simpl. destruct (to_err _ out) eqn:E; [done|]. intros _. by exists out. Qed.

Lemma delegate_call_only_pointer_witness : ∃ out token,
  HandleInternalEVMDelegateCall demo_env demo_delegate demo_cache (1000000, 0) delegate_ctx = Ret out ∧
  to_err _ out = None ∧ BytesToAddress token = delegate_token.
Proof.
  assert (Hok : call_ok (HandleInternalEVMDelegateCall demo_env demo_delegate demo_cache (1000000, 0) delegate_ctx) = true)
    by (vm_compute; reflexivity).
  destruct (call_ok_ret _ Hok) as (out & Hout & He).
  destruct (delegate_call_only_pointer demo_tokens demo_env demo_delegate demo_cache (1000000, 0) delegate_ctx _ out
    delegate_holds Hout) as [Hp _].
  destruct (Hp He) as (token & v & sender & e & _ & Ht & _). exists out, token. split_and!; assumption.
Defined.
End MsgServerExamples.
