(* ===== verification/Shape.v ===== *)
(** * The shape of the module's store

    The types the module's accounts have in its store: which keys and values an
    association, code, storage and a nonce are made of, and which of them come
    together.  The keeper's operations keep the shape. *)

From S2P Require Import Prelude Bytes Store Params Keys World Instances StateDB Keeper Pointer.
From Stdlib Require Import Strings.Byte.
Local Open Scope Z_scope.

Section Shape.
Context `{EC : EthCrypto}.

(** Associations are of addresses of twenty bytes and accounts, and agree in both
    directions if [agreeing]; storage is of hashes, none of them zero; code comes
    with its hash and its size; nonces have 64 bits. *)
Record shape_of (agreeing : bool) (m : kvstore) : Prop := {
  sh_assoc : ∀ s t, m !! (x01 :: s) = Some t → length s = 20%nat ∧ legal_account t ∧ (agreeing = true → m !! (x02 :: t) = Some s);
  sh_assoc_back : ∀ t s, m !! (x02 :: t) = Some s → length s = 20%nat ∧ legal_account t ∧ (agreeing = true → m !! (x01 :: s) = Some t);
  sh_state : ∀ s v, m !! (x03 :: s) = Some v → length s = 52%nat ∧ length v = 32%nat ∧ fit 32 v ≠ zero_hash;
  sh_code : ∀ s v, m !! (x07 :: s) = Some v → length s = 20%nat ∧
    m !! (x08 :: s) = Some (ba (Keccak256Hash v)) ∧ m !! (x09 :: s) = Some (PutUint64 (Z.of_nat (length v)));
  sh_code_hash : ∀ s, is_Some (m !! (x08 :: s)) → is_Some (m !! (x07 :: s));
  sh_code_size : ∀ s, is_Some (m !! (x09 :: s)) → is_Some (m !! (x07 :: s));
  sh_nonce : ∀ s v, m !! (x0a :: s) = Some v → length s = 20%nat ∧ ∃ n, is_u64 n ∧ v = PutUint64 n
}.

Variable agreeing : bool.
Notation shape := (shape_of agreeing).

(** The keys the shape is about. *)
Definition account_byte (b : byte) : bool := match b with x01 | x02 | x03 | x07 | x08 | x09 | x0a => true | _ => false end.
Definition is_account_key (k : bytes) : bool := match k with b :: _ => account_byte b | [] => false end.

Lemma shape_ext (m m' : kvstore) : (∀ k, is_account_key k = true → m' !! k = m !! k) → shape m → shape m'.
Proof.
  intros Heq [H1 H2 H3 H4 H5 H6 H7].
  assert (E : ∀ b s, account_byte b = true → m' !! (b :: s) = m !! (b :: s)) by (intros b s Hb; by apply Heq).
  split; intros s; rewrite !E by done; try (by auto).
  - intros t. rewrite !E by done. apply H1.
  - intros t. rewrite !E by done. apply H2.
Qed.

(** ** Adding entries *)

Lemma shape_associate (m : kvstore) t (e : Address) :
  legal_account t → (agreeing = true → m !! (x01 :: ba e) = None ∧ m !! (x02 :: t) = None) → shape m →
  shape (<[x02 :: t := ba e]> (<[x01 :: ba e := t]> m)).
Proof.
  intros Ht Hfree Hs. set (m' := <[x02 :: t := ba e]> _).
  assert (E1 : ∀ s, m' !! (x01 :: s) = if decide (s = ba e) then Some t else m !! (x01 :: s)).
  { intros s. unfold m'. rewrite lookup_insert_ne by done. destruct (decide (s = ba e)) as [->|Hne]; [by rewrite lookup_insert_eq|].
    rewrite lookup_insert_ne; [done|congruence]. }
  assert (E2 : ∀ t', m' !! (x02 :: t') = if decide (t' = t) then Some (ba e) else m !! (x02 :: t')).
  { intros t'. unfold m'. destruct (decide (t' = t)) as [->|Hne]; [by rewrite lookup_insert_eq|].
    rewrite !lookup_insert_ne; [done|done|congruence]. }
  assert (E : ∀ b s, b ≠ x01 → b ≠ x02 → m' !! (b :: s) = m !! (b :: s)).
  { intros b s Hb1 Hb2. unfold m'. by rewrite !lookup_insert_ne by congruence. }
  split; intros s; rewrite ?(E _ s) by done; try (by apply Hs).
  - intros t0. rewrite E1, E2. destruct (decide (s = ba e)) as [->|Hne].
    + intros [= <-]. rewrite decide_True by done. split_and!; [apply ba_length|done|done].
    + intros H. destruct (sh_assoc _ _ Hs _ _ H) as (Hl & Ht0 & Hb). split_and!; [done..|]. intros Ha. specialize (Hb Ha).
      destruct (Hfree Ha) as [_ H2]. by rewrite decide_False by congruence.
  - intros s'. rewrite E1, E2. destruct (decide (s = t)) as [->|Hne].
    + intros [= <-]. rewrite decide_True by done. split_and!; [apply ba_length|done|done].
    + intros H. destruct (sh_assoc_back _ _ Hs _ _ H) as (Hl & Ht0 & Hb). split_and!; [done..|]. intros Ha. specialize (Hb Ha).
      destruct (Hfree Ha) as [H1 _]. by rewrite decide_False by congruence.
Qed.

Lemma shape_code (m : kvstore) (a : Address) code : shape m →
  shape (<[x08 :: ba a := ba (Keccak256Hash code)]> (<[x09 :: ba a := PutUint64 (Z.of_nat (length code))]> (<[x07 :: ba a := code]> m))).
Proof.
  intros Hs. set (m' := <[x08 :: ba a := _]> _).
  assert (E7 : ∀ s, m' !! (x07 :: s) = if decide (s = ba a) then Some code else m !! (x07 :: s)).
  { intros s. unfold m'. rewrite !(lookup_insert_ne _ (_ :: ba a)) by done.
    destruct (decide (s = ba a)) as [->|Hne]; [by rewrite lookup_insert_eq|]. rewrite lookup_insert_ne; [done|congruence]. }
  assert (E8 : ∀ s, m' !! (x08 :: s) = if decide (s = ba a) then Some (ba (Keccak256Hash code)) else m !! (x08 :: s)).
  { intros s. unfold m'. destruct (decide (s = ba a)) as [->|Hne]; [by rewrite lookup_insert_eq|].
    rewrite !lookup_insert_ne; [done|congruence..]. }
  assert (E9 : ∀ s, m' !! (x09 :: s) = if decide (s = ba a) then Some (PutUint64 (Z.of_nat (length code))) else m !! (x09 :: s)).
  { intros s. unfold m'. rewrite lookup_insert_ne by congruence.
    destruct (decide (s = ba a)) as [->|Hne]; [by rewrite lookup_insert_eq|]. rewrite !lookup_insert_ne; [done|congruence..]. }
  assert (E : ∀ b s, b ≠ x07 → b ≠ x08 → b ≠ x09 → m' !! (b :: s) = m !! (b :: s)).
  { intros b s Hb1 Hb2 Hb3. unfold m'. by rewrite !lookup_insert_ne by congruence. }
  split; intros s; rewrite ?(E _ s), ?E7, ?E8, ?E9 by done; try (by apply Hs).
  - intros t. rewrite ?(E _ t) by done. apply (sh_assoc _ _ Hs).
  - intros t. rewrite ?(E _ t) by done. apply (sh_assoc_back _ _ Hs).
  - intros v. destruct (decide (s = ba a)) as [->|Hne].
    + intros [= <-]. split_and!; [apply ba_length|done..].
    + apply (sh_code _ _ Hs).
  - destruct (decide (s = ba a)); [by eexists|apply (sh_code_hash _ _ Hs)].
  - destruct (decide (s = ba a)); [by eexists|apply (sh_code_size _ _ Hs)].
Qed.

(** One entry of a kind the other clauses do not mention. *)
Lemma shape_insert (m : kvstore) b k v : account_byte b = false ∨
  (b = x03 ∧ length k = 52%nat ∧ length v = 32%nat ∧ fit 32 v ≠ zero_hash) ∨
  (b = x0a ∧ length k = 20%nat ∧ ∃ n, is_u64 n ∧ v = PutUint64 n) → shape m → shape (<[b :: k := v]> m).
Proof.
  intros Hb Hs. destruct Hb as [Hb|Hb].
  { eapply shape_ext; [|done]. intros k' Hk'. apply lookup_insert_ne. intros <-. simpl in Hk'. congruence. }
  assert (E : ∀ b' s, b' ≠ b → <[b :: k := v]> m !! (b' :: s) = m !! (b' :: s)).
  { intros b' s Hne. apply lookup_insert_ne. congruence. }
  split; intros s; rewrite ?(E _ s) by (by destruct Hb as [[-> _] | [-> _]]).
  - intros t. rewrite (E _ t) by (by destruct Hb as [[-> _] | [-> _]]). apply Hs.
  - intros t. rewrite (E _ t) by (by destruct Hb as [[-> _] | [-> _]]). apply Hs.
  - intros v'. rewrite lookup_insert. case_decide as Hk; [|by apply Hs].
    intros [= <-]. destruct Hb as [[-> Hb] | [-> _]]; [|done]. by simplify_eq.
  - intros v'. apply Hs.
  - apply Hs.
  - apply Hs.
  - intros v'. rewrite lookup_insert. case_decide as Hk; [|by apply Hs].
    intros [= <-]. destruct Hb as [[-> _] | [-> Hb]]; [done|]. by simplify_eq.
Qed.

(** ** Removing entries

    What is left keeps the shape when an association goes in both directions
    and code goes with its hash and size. *)
Lemma shape_remove (m m' : kvstore) :
  (∀ k, m' !! k = None ∨ m' !! k = m !! k) →
  (agreeing = true → ∀ s t, m !! (x01 :: s) = Some t → m !! (x02 :: t) = Some s → is_Some (m' !! (x01 :: s)) ↔ is_Some (m' !! (x02 :: t))) →
  (∀ s, m' !! (x07 :: s) = None ↔ m' !! (x08 :: s) = None ∨ m !! (x07 :: s) = None) →
  (∀ s, m' !! (x07 :: s) = None ↔ m' !! (x09 :: s) = None ∨ m !! (x07 :: s) = None) →
  shape m → shape m'.
Proof.
  intros Hsub Ha H8 H9 Hs.
  assert (Hin : ∀ k v, m' !! k = Some v → m !! k = Some v) by (intros k v Hv; destruct (Hsub k); congruence).
  assert (Hkeep : ∀ k v, m !! k = Some v → is_Some (m' !! k) → m' !! k = Some v) by (intros k v Hv [v' Hv']; apply Hin in Hv' as Hw; congruence).
  split; intros s.
  - intros t H. destruct (sh_assoc _ _ Hs _ _ (Hin _ _ H)) as (Hl & Ht & Hb). split_and!; [done..|].
    intros Hag. specialize (Hb Hag). apply Hkeep; [done|]. apply (Ha Hag s t); eauto.
  - intros t H. destruct (sh_assoc_back _ _ Hs _ _ (Hin _ _ H)) as (Hl & Ht & Hb). split_and!; [done..|].
    intros Hag. specialize (Hb Hag). apply Hkeep; [done|]. apply (Ha Hag t s); eauto.
  - intros v H. by apply (sh_state _ _ Hs), Hin.
  - intros v H. destruct (sh_code _ _ Hs _ _ (Hin _ _ H)) as (Hl & Hh & Hz). split_and!; [done|apply Hkeep|apply Hkeep]; try done.
    + destruct (m' !! (x08 :: s)) eqn:E; [by eexists|]. rewrite (proj2 (H8 s)) in H by (by left). done.
    + destruct (m' !! (x09 :: s)) eqn:E; [by eexists|]. rewrite (proj2 (H9 s)) in H by (by left). done.
  - intros [v H]. destruct (sh_code_hash _ _ Hs s) as [c Hc]; [by rewrite (Hin _ _ H)|].
    destruct (m' !! (x07 :: s)) eqn:E; [by eexists|]. apply H8 in E as [E|E]; congruence.
  - intros [v H]. destruct (sh_code_size _ _ Hs s) as [c Hc]; [by rewrite (Hin _ _ H)|].
    destruct (m' !! (x07 :: s)) eqn:E; [by eexists|]. apply H9 in E as [E|E]; congruence.
  - intros v H. by apply (sh_nonce _ _ Hs), Hin.
Qed.

Lemma shape_dissociate (m : kvstore) t (e : Address) : (agreeing = true → m !! (x01 :: ba e) = Some t) → shape m →
  shape (delete (x02 :: t) (delete (x01 :: ba e) m)).
Proof.
  intros He Hs. apply (shape_remove m); [| | | |done].
  - intros k. rewrite !lookup_delete. repeat case_decide; auto.
  - intros Hag s t' H1 H2. specialize (He Hag). pose proof (sh_assoc _ _ Hs _ _ He) as (_ & _ & Ht). specialize (Ht Hag).
    destruct (decide (s = ba e)) as [->|Hne].
    + assert (t' = t) as -> by congruence. rewrite lookup_delete_eq, lookup_delete_ne, lookup_delete_eq by done.
      split; by intros [].
    + assert (t' ≠ t) by (intros ->; congruence). rewrite !lookup_delete_ne by congruence. rewrite H1, H2. split; by eexists.
  - intros s. rewrite !lookup_delete_ne by done. split; [by right|]. intros [H|H]; [|done].
    destruct (m !! (x07 :: s)) eqn:E; [|done]. by destruct (sh_code _ _ Hs _ _ E) as (_ & ? & _); congruence.
  - intros s. rewrite !lookup_delete_ne by done. split; [by right|]. intros [H|H]; [|done].
    destruct (m !! (x07 :: s)) eqn:E; [|done]. by destruct (sh_code _ _ Hs _ _ E) as (_ & _ & ?); congruence.
Qed.

Lemma shape_cleared (m : kvstore) (a : Address) : shape m →
  shape (delete (x0a :: ba a) (delete (x08 :: ba a) (delete (x09 :: ba a) (delete (x07 :: ba a) (PurgePrefix (StateKey a) m))))).
Proof.
  intros Hs.
  assert (P : ∀ b s, b ≠ x03 → PurgePrefix (StateKey a) m !! (b :: s) = m !! (b :: s)).
  { intros b s Hb. apply lookup_PurgePrefix_out. destruct (strip_prefix _ _) eqn:E; [|done].
    apply strip_prefix_Some in E. by injection E as ->. }
  apply (shape_remove m); [| | | |done].
  - intros k. rewrite !lookup_delete. repeat case_decide; auto. destruct (PurgePrefix _ m !! k) eqn:E; [|by left].
    right. unfold PurgePrefix in E. apply map_lookup_filter_Some in E as [-> _]. done.
  - intros _ s t H1 H2. rewrite !lookup_delete_ne, !P by done. rewrite H1, H2. split; by eexists.
  - intros s. rewrite !lookup_delete, !P by done. repeat case_decide; simplify_eq; [by split; [left|]|].
    split; [by right|]. intros [H'|H']; [|done]. destruct (m !! (x07 :: s)) eqn:E; [|done].
    by destruct (sh_code _ _ Hs _ _ E) as (_ & ? & _); congruence.
  - intros s. rewrite !lookup_delete, !P by done. repeat case_decide; simplify_eq; [by split; [left|]|].
    split; [by right|]. intros [H'|H']; [|done]. destruct (m !! (x07 :: s)) eqn:E; [|done].
    by destruct (sh_code _ _ Hs _ _ E) as (_ & _ & ?); congruence.
Qed.
End Shape.

(** ** The keeper's steps

    The writes to the accounts' keys, one keeper operation each: an association,
    contract code (whose address is associated with itself when it has no
    association), the end of an association, the clearing of an account, nonces,
    storage, and any write to keys of other kinds.  [SetAddressMapping] overwrites
    what it finds: the steps are [careful] when only addresses and accounts without
    an association are associated, and associations end as they are. *)

Section Steps.
Context `{BK : BankKeeper B} `{AK : AccountKeeper A} `{EC : EthCrypto} `{KC : KeeperConfig}.
Context `{MST : MultiStore MS (World B A)} `{MSL : !MultiStoreLaws MS (World B A)}.
Notation Ctx := (Ctx MS).
Variable careful : bool.
Notation shape := (shape_of careful).

Inductive store_step : Ctx → Ctx → Prop :=
| store_associate t e c :
    legal_account t → (careful = true → GetTabiAddress (cview c) e = None ∧ GetEVMAddress (cview c) t = None) →
    store_step c (SetAddressMapping t e c)
| store_code a code c :
    (careful = true → GetTabiAddress (cview c) a = None → GetEVMAddress (cview c) (ba a) = None) →
    store_step c (SetCode a code c)
| store_dissociate t e c :
    (careful = true → GetTabiAddress (cview c) e = Some t) → store_step c (cupd (DeleteAddressMapping t e) c)
| store_clear a c : store_step c (cupd (clear_account a) c)
| store_nonce a n c : is_u64 n → store_step c (cupd (SetNonce a n) c)
| store_state a k v c : store_step c (cupd (SetState a k v) c)
| store_other c c' :
    (∀ k, is_account_key k = true → w_evm (cview c') !! k = w_evm (cview c) !! k) → store_step c c'.

Lemma legal_address (a : Address) : legal_account (ba a).
Proof. split; [|rewrite ba_length; lia]. intros H. pose proof (ba_length a). rewrite H in *. done. Qed.

Lemma GetEVMAddress_None (w : World B A) t : GetEVMAddress w t = None → w_evm w !! (x02 :: t) = None.
Proof. unfold GetEVMAddress. by intros H%fmap_None. Qed.

Lemma shape_SetState (w : World B A) a k v : shape (w_evm w) → shape (w_evm (SetState a k v w)).
Proof.
  intros Hs. unfold SetState, prefix_set, prefix_delete. case_bool_decide as Hv; rewrite set_evm_evm.
  - apply (shape_remove _ (w_evm w)); [| | | |done]; unfold StateKey; cbn [StateKeyPrefix app].
    + intros k'. rewrite lookup_delete. case_decide; auto.
    + intros _ s t H1 H2. rewrite !lookup_delete_ne, H1, H2 by done. split; by eexists.
    + intros s. rewrite !lookup_delete_ne by done. destruct (w_evm w !! (x07 :: s)) eqn:E; [|tauto].
      destruct (sh_code _ _ Hs _ _ E) as (_ & -> & _). naive_solver.
    + intros s. rewrite !lookup_delete_ne by done. destruct (w_evm w !! (x07 :: s)) eqn:E; [|tauto].
      destruct (sh_code _ _ Hs _ _ E) as (_ & _ & ->). naive_solver.
  - unfold StateKey. cbn [StateKeyPrefix app]. apply shape_insert; [|done]. right. left.
    rewrite length_app, !ba_length. split_and!; [done..|]. by rewrite fit_ba.
Qed.

Lemma shape_step (c c' : Ctx) : store_step c c' → shape (w_evm (cview c)) → shape (w_evm (cview c')).
Proof.
  intros [t e c0 Ht H|a code c0 H|t e c0 H|a c0|a n c0 Hn|a k v c0|c0 c1 H] Hs.
  - rewrite SetAddressMapping_evm. apply shape_associate; [done| |done]. intros [H1 H2]%H. split; [done|by apply GetEVMAddress_None].
  - assert (Hc : shape (w_evm (cview (code_written a code c0)))).
    { unfold code_written, prefix_set. rewrite cview_cupd, set_evm_evm. by apply shape_code. }
    rewrite SetCode_eq. destruct (GetTabiAddress (cview c0) a) eqn:E; [done|]. rewrite SetAddressMapping_evm.
    apply shape_associate; [apply legal_address| |done]. intros Hc'. split.
    + by rewrite <- (code_written_GetTabi a code c0 a) in E.
    + apply GetEVMAddress_None. rewrite code_written_GetEVM. by apply H.
  - rewrite cview_cupd. unfold DeleteAddressMapping. rewrite set_evm_evm. by apply shape_dissociate.
  - rewrite cview_cupd. unfold clear_account. rewrite set_evm_evm, !deleteIfExists_delete. by apply shape_cleared.
  - rewrite cview_cupd. unfold SetNonce, prefix_set. rewrite set_evm_evm. apply shape_insert; [|done]. right. right.
    split_and!; [done|apply ba_length|by exists n].
  - rewrite cview_cupd. by apply shape_SetState.
  - by eapply shape_ext.
Qed.

(** What the shape gives the readers: none of them meets a value it cannot
    decode. *)
Lemma shape_readers (w : World B A) a : shape (w_evm w) →
  (∃ n, is_u64 n ∧ GetNonce w a = Ret n) ∧
  GetCodeSize w a = Ret (i64 (u64 (Z.of_nat (length (default [] (GetCode w a)))))) ∧
  (∀ code, GetCode w a = Some code → GetCodeHash w a = Keccak256Hash code) ∧
  (careful = true → ∀ t, GetTabiAddress w a = Some t → GetEVMAddress w t = Some a).
Proof.
  intros Hs. split_and!.
  - unfold GetNonce. destruct (w_evm w !! _) as [v|] eqn:E; [|by exists 0].
    destruct (sh_nonce _ _ Hs _ _ E) as (_ & n & Hn & ->). exists n. by rewrite Uint64_PutUint64, u64_id.
  - unfold GetCodeSize, GetCode. destruct (w_evm w !! (CodeSizeKeyPrefix ++ _)) as [v|] eqn:E.
    + destruct (sh_code_size _ _ Hs (ba a)) as [code Hc]; [by eexists|].
      destruct (sh_code _ _ Hs _ _ Hc) as (_ & _ & Hz). change (CodeSizeKeyPrefix ++ ba a) with (x09 :: ba a) in E.
      change (CodeKeyPrefix ++ ba a) with (x07 :: ba a). rewrite Hc. simplify_eq.
      rewrite Uint64_PutUint64. by destruct code.
    + destruct (w_evm w !! (CodeKeyPrefix ++ _)) as [v|] eqn:Ec; [|done].
      destruct (sh_code _ _ Hs _ _ Ec) as (_ & _ & Hz). change (CodeSizeKeyPrefix ++ ba a) with (x09 :: ba a) in E. congruence.
  - intros code. unfold GetCode, GetCodeHash. destruct (w_evm w !! (CodeKeyPrefix ++ _)) as [[|b v]|] eqn:Ec; [done| |done].
    intros [= <-]. destruct (sh_code _ _ Hs _ _ Ec) as (_ & Hh & _). change (CodeHashKeyPrefix ++ ba a) with (x08 :: ba a).
    rewrite Hh. by rewrite BytesToHash_ba.
  - intros Hc t Ht. destruct (sh_assoc _ _ Hs _ _ Ht) as (_ & _ & Hb). specialize (Hb Hc). unfold GetEVMAddress.
    change (TabiAddressToEVMAddressKey t) with (x02 :: t). rewrite Hb. simpl. by rewrite copy_address_ba.
Qed.

(** C30: the store keeps its types along every run of the keeper's operations:
    from a store of the module's shape (an empty one, for instance), any
    sequence of associations, contract creations, dissociations, clearings of
    accounts, writes of 64-bit nonces, storage writes and writes to other kinds of
    keys leads to a store in which every nonce decodes to a 64-bit number, every code
    comes with its own length and hash, and associations are between addresses and
    accounts.  [SetAddressMapping] does not look at what it overwrites, so the two
    directions of the associations agree only along careful runs, which associate
    only addresses and accounts that have no association and end associations as they
    are; along these an address with an account is the address recorded for that
    account. *)
Theorem store_keeps_shape (c c' : Ctx) :
  rtc store_step c c' → shape (w_evm (cview c)) →
  shape (w_evm (cview c')) ∧ ∀ a,
  (∃ n, is_u64 n ∧ GetNonce (cview c') a = Ret n) ∧
  GetCodeSize (cview c') a = Ret (i64 (u64 (Z.of_nat (length (default [] (GetCode (cview c') a)))))) ∧
  (∀ code, GetCode (cview c') a = Some code → GetCodeHash (cview c') a = Keccak256Hash code) ∧
  (careful = true → ∀ t, GetTabiAddress (cview c') a = Some t → GetEVMAddress (cview c') t = Some a).
Proof.
  intros Hrun Hs. assert (Hs' : shape (w_evm (cview c'))) by (induction Hrun; eauto using shape_step).
  split; [done|]. intros a. by apply shape_readers.
Qed.

Lemma shape_empty : shape ∅.
Proof. split; intros *; rewrite ?lookup_empty; try done; by intros []. Qed.
End Steps.

Section ShapeExamples.
#[local] Existing Instances demo_bank_keeper demo_accounts demo_crypto live_config.
#[local] Instance demo_stores : MultiStore (stack_ms demo_world) demo_world := stack_multistore demo_world.
#[local] Instance demo_stores_laws : MultiStoreLaws (stack_ms demo_world) demo_world := stack_multistore_laws demo_world.

Lemma store_keeps_shape_witness :
  let c := demo_ctx demo_world0 in
  let c' := cupd (SetNonce (addr_of 9) 1) (SetCode (addr_of 9) [x60] (SetAddressMapping (str_bytes "alice") (addr_of 7) c)) in
  shape_of true (w_evm (cview c')).
Proof.
  refine (proj1 (store_keeps_shape true (demo_ctx demo_world0) _ _ _)).
  - eapply rtc_l; [apply (store_associate true (str_bytes "alice") (addr_of 7)); [split; [done|vm_compute; lia]|intros _; vm_compute; split; reflexivity]|].
    eapply rtc_l; [apply (store_code true (addr_of 9) [x60]); intros _ _; vm_compute; reflexivity|].
    eapply rtc_l; [apply (store_nonce true (addr_of 9) 1); split; [done|reflexivity]|].
    apply rtc_refl.
  - apply shape_empty.
Defined.

(** An address that is associated again: its old account still names it. *)
Lemma careless_disagrees :
  let c := SetAddressMapping (str_bytes "bob") (addr_of 7) (SetAddressMapping (str_bytes "alice") (addr_of 7) (demo_ctx demo_world0)) in
  rtc (store_step false) (demo_ctx demo_world0) c ∧ GetEVMAddress (cview c) (str_bytes "alice") = Some (addr_of 7) ∧
  GetTabiAddress (cview c) (addr_of 7) = Some (str_bytes "bob").
Proof.
  split; [|split; [rewrite SetAddressMapping_GetEVM, decide_False, SetAddressMapping_GetEVM, decide_True|rewrite SetAddressMapping_GetTabi, decide_True]; done].
  eapply rtc_l; [apply (store_associate false (str_bytes "alice") (addr_of 7)); [split; [done|vm_compute; lia]|done]|].
  eapply rtc_l; [apply (store_associate false (str_bytes "bob") (addr_of 7)); [split; [done|vm_compute; lia]|done]|]. apply rtc_refl.
Qed.
End ShapeExamples.
