(* ===== verification/Genesis.v ===== *)
(** * Genesis of the EVM module
    (x/evm/genesis.go, x/evm/keeper/genesis.go, x/evm/types/genesis.go and the
    iterators of the keeper)

    The module's state is exported to a list of records and initialised from
    one.  The text forms of account addresses are byte strings, as in Pointer.v. *)

From S2P Require Import Prelude Bytes Dec Store Params Keys World Instances Eth Keeper Fee Pointer Shape.
From Stdlib Require Import Strings.Byte.
Local Open Scope Z_scope.
Local Open Scope outcome_scope.

(** ** Records (genesis.pb.go) *)

Record AddressAssociation : Type := mkAddressAssociation { aa_TabiAddress : bytes; aa_EthAddress : string }.
Record Code : Type := mkCode { cd_Address : string; cd_Code : bytes }.
Record ContractState : Type := mkContractState { cs_Address : string; cs_Key : bytes; cs_Value : bytes }.
Record Nonce : Type := mkNonce { no_Address : string; no_Nonce : Z }.
Record Serialized : Type := mkSerialized { sr_Prefix : bytes; sr_Key : bytes; sr_Value : bytes }.

Record GenesisState : Type := mkGenesisState {
  gs_Params : Params;
  gs_AddressAssociations : list AddressAssociation;
  gs_Codes : list Code;
  gs_States : list ContractState;
  gs_Nonces : list Nonce;
  gs_Serialized : list Serialized
}.

Definition DefaultGenesis : GenesisState := mkGenesisState DefaultParams [] [] [] [] [].

(** ** What is called *)

(** Module accounts, and the upload of the wasm code of a kind of pointers (from
    the files embedded in the packages under artifacts). *)
Class ModuleAccounts (A : Type) := { ak_SetModuleAccount : A → string → A }.
Class WasmCodes (MS : Type) := { wk_Create : PointerType → Ctx MS → Ctx MS * (Z + Err) }.
(** [crypto.CreateAddress] *)
Class CreateAddresses := { CreateAddress : Address → Z → Address }.

Definition CoinbaseSeedAddress : string := "0000000000000000000000000000000000000001".
Definition CoinbaseNonce : Z := 42.
Definition Keeper_GetCoinbaseAddress `{EthHex} `{CreateAddresses} : Address :=
  CreateAddress (HexToAddress CoinbaseSeedAddress) CoinbaseNonce.

Section Genesis.
Context `{BK : BankKeeper B} `{AK : AccountKeeper A} `{MAK : ModuleAccounts A} `{EC : EthCrypto} `{KC : KeeperConfig}.
Context `{MST : MultiStore MS (World B A)} `{EH : EthHex} `{BE : Bech32} `{WC : WasmCodes MS} `{CA : CreateAddresses}.
Notation World := (World B A).
Notation Ctx := (Ctx MS).

(** ** Iterators

    A callback that can panic, until it returns true. *)
Fixpoint iterate_out {S : Type} (cb : bytes * bytes → S → outcome (S * bool)) (l : list (bytes * bytes)) (s : S) : outcome S :=
  match l with
  | [] => Ret s
  | e :: l' => let* r := cb e s in if r.2 then Ret r.1 else iterate_out cb l' r.1
  end.

Definition IterateAllCode {S : Type} (w : World) (cb : Address → bytes → S → S * bool) (s : S) : S :=
  iterate_until (λ e, cb (BytesToAddress e.1) e.2) (Iterator (prefix_store CodeKeyPrefix (w_evm w))) s.
(** The key is cut at the length of an address. *)
Definition IterateState {S : Type} (w : World) (cb : Address → Hash → Hash → S → S * bool) (s : S) : outcome S :=
  iterate_out (λ e s,
    if (length e.1 <? 20)%nat then Panic "slice bounds out of range"
    else Ret (cb (BytesToAddress (take 20 e.1)) (BytesToHash (drop 20 e.1)) (BytesToHash e.2) s))
    (Iterator (prefix_store StateKeyPrefix (w_evm w))) s.
Definition IterateAllNonces {S : Type} (w : World) (cb : Address → Z → S → S * bool) (s : S) : outcome S :=
  iterate_out (λ e s, let* n := Uint64 e.2 in Ret (cb (BytesToAddress e.1) n s))
    (Iterator (prefix_store NonceKeyPrefix (w_evm w))) s.
Definition IterateAll {S : Type} (w : World) (pref : bytes) (cb : bytes → bytes → S → S * bool) (s : S) : S :=
  iterate_until (λ e, cb e.1 e.2) (Iterator (prefix_store pref (w_evm w))) s.

(** ** Export *)

Definition exported_prefixes : list bytes :=
  [ReceiptKeyPrefix; BlockBloomPrefix; TxHashesPrefix; PointerRegistryPrefix; PointerCWCodePrefix; PointerReverseRegistryPrefix].

Definition ExportGenesis (w : World) : outcome GenesisState :=
  let associations := IterateTabiAddressMapping w (λ evmAddr tabiAddr acc,
    (acc ++ [mkAddressAssociation (acc_String tabiAddr) (addr_Hex evmAddr)], false)) [] in
  let codes := IterateAllCode w (λ addr code acc, (acc ++ [mkCode (addr_Hex addr) code], false)) [] in
  let* states := IterateState w (λ addr key val acc, (acc ++ [mkContractState (addr_Hex addr) (ba key) (ba val)], false)) [] in
  let* nonces := IterateAllNonces w (λ addr nonce acc, (acc ++ [mkNonce (addr_Hex addr) nonce], false)) [] in
  let serialized := foldl (λ acc prefix,
    IterateAll w prefix (λ key val acc, (acc ++ [mkSerialized prefix key val], false)) acc) [] exported_prefixes in
  Ret (mkGenesisState (GetParams w) associations codes states nonces serialized).

(** ** Export as a stream *)

Definition GENESIS_EXPORT_STREAM_SERIALIZED_LEN_MAX : nat := 1000.

(** The entries of one prefix: a chunk is sent when it has grown past the
    maximum, and the last one at the end. *)
Fixpoint serialized_chunks (genesis : list Serialized → GenesisState) (prefix : bytes) (l : list (bytes * bytes)) (acc : list Serialized)
    : list GenesisState :=
  match l with
  | [] => [genesis acc]
  | e :: l' =>
      let acc' := acc ++ [mkSerialized prefix e.1 e.2] in
      if (GENESIS_EXPORT_STREAM_SERIALIZED_LEN_MAX <? length acc')%nat
      then genesis acc' :: serialized_chunks genesis prefix l' []
      else serialized_chunks genesis prefix l' acc'
  end.

(** The states sent on the channel, in order. *)
Definition ExportGenesisStream (w : World) : outcome (list GenesisState) :=
  let params := GetParams w in
  let ch := [mkGenesisState params [] [] [] [] []] in
  let ch := IterateTabiAddressMapping w (λ evmAddr tabiAddr ch,
    (ch ++ [mkGenesisState params [mkAddressAssociation (acc_String tabiAddr) (addr_Hex evmAddr)] [] [] [] []], false)) ch in
  let ch := IterateAllCode w (λ addr code ch, (ch ++ [mkGenesisState params [] [mkCode (addr_Hex addr) code] [] [] []], false)) ch in
  let* ch := IterateState w (λ addr key val ch,
    (ch ++ [mkGenesisState params [] [] [mkContractState (addr_Hex addr) (ba key) (ba val)] [] []], false)) ch in
  let* ch := IterateAllNonces w (λ addr nonce ch,
    (ch ++ [mkGenesisState params [] [] [] [mkNonce (addr_Hex addr) nonce] []], false)) ch in
  Ret (foldl (λ ch prefix,
    ch ++ serialized_chunks (mkGenesisState params [] [] [] []) prefix (Iterator (prefix_store prefix (w_evm w))) []) ch exported_prefixes).

(** ** Import *)

Definition set_association (aa : AddressAssociation) (c : Ctx) : outcome Ctx :=
  let* tabiAddr := MustAccAddressFromBech32 (aa_TabiAddress aa) in
  Ret (SetAddressMapping tabiAddr (HexToAddress (aa_EthAddress aa)) c).

Fixpoint for_each {X : Type} (body : X → Ctx → outcome Ctx) (l : list X) (c : Ctx) : outcome Ctx :=
  match l with
  | [] => Ret c
  | x :: l' => let* c1 := body x c in for_each body l' c1
  end.

(** The upload of one code: its id is recorded under the version, or an error is
    logged. *)
Definition create_code (t : PointerType) (prefix : bytes) (version : Z) (c : Ctx) : Ctx :=
  let '(c1, r) := wk_Create t c in
  match r with
  | inr _ => c1
  | inl codeID => cupd (set_evm (prefix_set (PointerCWCodePrefix ++ prefix) (PutUint16 version) (PutUint64 codeID))) c1
  end.

(** Outside the replay mode. *)
Definition Keeper_InitGenesis (genState : GenesisState) (c : Ctx) : outcome Ctx :=
  let c1 := cupd (λ w, set_acct (ak_SetModuleAccount (w_acct w) ModuleName) w) c in
  let c2 := cupd (SetParams (gs_Params genState)) c1 in
  let c3 := SetAddressMapping (ak_GetModuleAddress FeeCollectorName) Keeper_GetCoinbaseAddress c2 in
  let* c4 := for_each set_association (gs_AddressAssociations genState) c3 in
  let c5 := create_code PT_ERC20 PointerCW20ERC20Prefix erc20_CurrentVersion c4 in
  let c6 := create_code PT_ERC721 PointerCW721ERC721Prefix erc721_CurrentVersion c5 in
  Ret (create_code PT_ERC1155 PointerCW1155ERC1155Prefix erc1155_CurrentVersion c6).

Definition set_code (code : Code) (c : Ctx) : outcome Ctx := Ret (SetCode (HexToAddress (cd_Address code)) (cd_Code code) c).
Definition set_state (st : ContractState) (c : Ctx) : outcome Ctx :=
  Ret (cupd (SetState (HexToAddress (cs_Address st)) (BytesToHash (cs_Key st)) (BytesToHash (cs_Value st))) c).
Definition set_nonce (n : Nonce) (c : Ctx) : outcome Ctx := Ret (cupd (SetNonce (HexToAddress (no_Address n)) (no_Nonce n)) c).
Definition set_serialized (s : Serialized) (c : Ctx) : outcome Ctx :=
  match sr_Key s with
  | [] => Ret (cupd (set_evm (<[sr_Prefix s := sr_Value s]>)) c)
  | _ => Ret (cupd (set_evm (prefix_set (sr_Prefix s) (sr_Key s) (sr_Value s))) c)
  end.

Definition InitGenesis (genState : GenesisState) (c : Ctx) : outcome Ctx :=
  let* c1 := Keeper_InitGenesis genState c in
  let c2 := cupd (SetParams (gs_Params genState)) c1 in
  let* c3 := for_each set_association (gs_AddressAssociations genState) c2 in
  let* c4 := for_each set_code (gs_Codes genState) c3 in
  let* c5 := for_each set_state (gs_States genState) c4 in
  let* c6 := for_each set_nonce (gs_Nonces genState) c5 in
  for_each set_serialized (gs_Serialized genState) c6.

(** ** Validation *)

Definition GenesisState_Validate (g : GenesisState) : verdict := Validate (gs_Params g).

(** Of a stream, one valid state is enough. *)
Fixpoint validate_stream (l : list GenesisState) (passed : bool) (e : option Err) : verdict :=
  match l with
  | [] => Ret (if passed then None else e)
  | g :: l' =>
      let* r := GenesisState_Validate g in
      match r with
      | Some err => validate_stream l' passed (Some err)
      | None => validate_stream l' true e
      end
  end.
Definition ValidateStream (l : list GenesisState) : verdict := validate_stream l false None.

End Genesis.

(** * Lemmas *)

(** ** Iterators that never stop *)

Lemma iterate_until_all {S : Type} (f : bytes * bytes → S) (l : list (bytes * bytes)) (acc : list S) :
  iterate_until (λ e acc, (acc ++ [f e], false)) l acc = acc ++ (f <$> l).
Proof.
  revert acc. induction l as [|e l IH]; intros acc; simpl; [by rewrite app_nil_r|]. by rewrite IH, <- app_assoc.
Qed.

(** The results of a decoding that can panic. *)
Fixpoint map_out {X Y : Type} (g : X → outcome Y) (l : list X) : outcome (list Y) :=
  match l with
  | [] => Ret []
  | e :: l' => let* y := g e in let* ys := map_out g l' in Ret (y :: ys)
  end.

Lemma iterate_out_map {X S : Type} (g : bytes * bytes → outcome X) (f : X → S) cb (l : list (bytes * bytes)) acc :
  (∀ e acc, cb e acc = let* x := g e in Ret (acc ++ [f x], false)) →
  iterate_out cb l acc = let* xs := map_out g l in Ret (acc ++ (f <$> xs)).
Proof.
  intros Hcb. revert acc. induction l as [|e l IH]; intros acc; simpl; [by rewrite app_nil_r|]. rewrite Hcb.
  destruct (g e) as [x|]; [|done]. simpl. rewrite IH. destruct (map_out g l); [|done]. simpl. by rewrite <- app_assoc.
Qed.

(** ** Stores that grow towards a store *)

(** [s'] is [s] with writes of entries of [m]; the keys in [K] are written. *)
Definition grows (m : kvstore) (K : bytes → Prop) (s s' : kvstore) : Prop :=
  (∀ k, K k → s' !! k = m !! k) ∧ (∀ k, s' !! k = s !! k ∨ s' !! k = m !! k).

Lemma grows_refl m s : grows m (λ _, False) s s.
Proof. split; [done|]. by left. Qed.

Lemma grows_trans m K1 K2 s s1 s2 : grows m K1 s s1 → grows m K2 s1 s2 → grows m (λ k, K1 k ∨ K2 k) s s2.
Proof.
  intros [H1 O1] [H2 O2]. split.
  - intros k [Hk|Hk]; [|by apply H2]. destruct (O2 k) as [->|]; [by apply H1|done].
  - intros k. destruct (O2 k) as [->|]; [apply O1|by right].
Qed.

Lemma grows_weaken m (K K' : bytes → Prop) s s' : (∀ k, K' k → K k) → grows m K s s' → grows m K' s s'.
Proof. intros HK [H O]. split; [|done]. intros k Hk. by apply H, HK. Qed.

Lemma grows_insert m K s s' k v : grows m K s s' → m !! k = Some v → grows m (λ k', K k' ∨ k = k') s (<[k := v]> s').
Proof.
  intros Hg Hk. eapply (grows_trans _ K (λ k', k = k')); [exact Hg|]. split.
  - intros k' <-. by rewrite lookup_insert_eq.
  - intros k'. destruct (decide (k = k')) as [<-|Hne]; [right; by rewrite lookup_insert_eq|left; by rewrite lookup_insert_ne].
Qed.

(** ** The part of the store that is exported *)

Definition exported_byte (b : byte) : bool :=
  match b with
  | x01 | x02 | x03 | x07 | x08 | x09 | x0a | x0b | x0d | x0e | x15 | x16 | x17 => true
  | _ => false
  end.
Definition is_exported (k : bytes) : bool := match k with b :: _ => exported_byte b | [] => false end.
Definition exported_part (m : kvstore) : kvstore := filter (λ e, is_exported e.1 = true) m.

Lemma exported_lookup m k : is_exported k = true → exported_part m !! k = m !! k.
Proof.
  intros Hk. apply option_eq. intros v. unfold exported_part. rewrite map_lookup_filter_Some. naive_solver.
Qed.
Lemma not_exported_lookup m k : is_exported k = false → exported_part m !! k = None.
Proof.
  intros Hk. unfold exported_part. apply map_lookup_filter_None. right. intros v _ H. simpl in H. congruence.
Qed.

Section GenesisTheorems.
Context `{BK : BankKeeper B} `{AK : AccountKeeper A} `{MAK : ModuleAccounts A} `{EC : EthCrypto} `{KC : KeeperConfig}.
Context `{MST : MultiStore MS (World B A)} `{MSL : !MultiStoreLaws MS (World B A)}.
Context `{EH : EthHex} `{EHL : !EthHexLaws} `{BE : Bech32} `{BEL : !Bech32Laws} `{WC : WasmCodes MS} `{CA : CreateAddresses}.
Notation World := (World B A).
Notation Ctx := (Ctx MS).

(** Uploading code leaves the module's store and parameters alone. *)
Class WasmCodesLaws : Prop := {
  wk_create_keeps : ∀ t c, w_evm (cview (wk_Create t c).1) = w_evm (cview c) ∧ w_params (cview (wk_Create t c).1) = w_params (cview c)
}.

(** The stores an export can read back: of the module's shape, with an
    association for every contract, the coinbase of the fee collector and the
    ids of the pointers' codes, as genesis wrote them. *)
Record exportable (m : kvstore) : Prop := {
  ex_shape :> shape_of true m;
  ex_code_assoc : ∀ s, is_Some (m !! (x07 :: s)) → is_Some (m !! (x01 :: s));
  ex_coinbase : m !! EVMAddressToTabiAddressKey Keeper_GetCoinbaseAddress = Some (ak_GetModuleAddress FeeCollectorName);
  ex_code_ids : is_Some (m !! (x16 :: x03 :: PutUint16 erc20_CurrentVersion)) ∧
    is_Some (m !! (x16 :: x04 :: PutUint16 erc721_CurrentVersion)) ∧ is_Some (m !! (x16 :: x06 :: PutUint16 erc1155_CurrentVersion))
}.

(** ** What is exported *)

Definition assoc_record (e : bytes * bytes) : AddressAssociation := mkAddressAssociation (acc_String e.2) (addr_Hex (BytesToAddress e.1)).
Definition code_record (e : bytes * bytes) : Code := mkCode (addr_Hex (BytesToAddress e.1)) e.2.
Definition state_record (e : bytes * bytes) : ContractState :=
  mkContractState (addr_Hex (BytesToAddress (take 20 e.1))) (ba (BytesToHash (drop 20 e.1))) (ba (BytesToHash e.2)).
Definition nonce_record (e : bytes * bytes) : Nonce := mkNonce (addr_Hex (BytesToAddress e.1)) (be_dec (take 8 e.2)).
Definition entries (p : bytes) (m : kvstore) : list (bytes * bytes) := Iterator (prefix_store p m).

Lemma elem_of_entries p m k v : (k, v) ∈ entries p m ↔ m !! (p ++ k) = Some v.
Proof. unfold entries. by rewrite elem_of_Iterator, lookup_prefix_store. Qed.

Lemma map_out_all {X Y : Type} (g : X → outcome Y) (f : X → Y) l : (∀ e, e ∈ l → g e = Ret (f e)) → map_out g l = Ret (f <$> l).
Proof.
  induction l as [|e l IH]; intros H; [done|]. simpl. rewrite H by left. simpl. rewrite IH; [done|]. intros e' He. apply H. by right.
Qed.

(** The export in terms of the decoded entries. *)
Definition state_entry (e : bytes * bytes) : outcome ContractState :=
  if (length e.1 <? 20)%nat then Panic "slice bounds out of range" else Ret (state_record e).
Definition nonce_entry (e : bytes * bytes) : outcome Nonce :=
  let* n := Uint64 e.2 in Ret (mkNonce (addr_Hex (BytesToAddress e.1)) n).

Lemma IterateState_map {S : Type} (w : World) (f : ContractState → S) acc :
  IterateState w (λ a k v acc, (acc ++ [f (mkContractState (addr_Hex a) (ba k) (ba v))], false)) acc =
  let* xs := map_out state_entry (entries [x03] (w_evm w)) in Ret (acc ++ (f <$> xs)).
Proof. apply (iterate_out_map state_entry f). intros e acc'. unfold state_entry. by destruct (_ <? _)%nat. Qed.

Lemma IterateAllNonces_map {S : Type} (w : World) (f : Nonce → S) acc :
  IterateAllNonces w (λ a n acc, (acc ++ [f (mkNonce (addr_Hex a) n)], false)) acc =
  let* xs := map_out nonce_entry (entries [x0a] (w_evm w)) in Ret (acc ++ (f <$> xs)).
Proof. apply (iterate_out_map nonce_entry f). intros e acc'. unfold nonce_entry. by destruct (Uint64 _). Qed.

Lemma ExportGenesis_eq (w : World) : ExportGenesis w =
  let* states := map_out state_entry (entries [x03] (w_evm w)) in
  let* nonces := map_out nonce_entry (entries [x0a] (w_evm w)) in
  Ret (mkGenesisState (w_params w) (assoc_record <$> entries [x01] (w_evm w)) (code_record <$> entries [x07] (w_evm w)) states nonces
    (mjoin ((λ p, (λ e, mkSerialized p e.1 e.2) <$> entries p (w_evm w)) <$> exported_prefixes))).
Proof.
  unfold ExportGenesis. rewrite (IterateState_map w id).
  destruct (map_out state_entry _) as [states|]; [|done]. cbn [outcome_bind].
  rewrite (IterateAllNonces_map w id). destruct (map_out nonce_entry _) as [nonces|]; [|done]. cbn [outcome_bind].
  unfold IterateTabiAddressMapping, IterateAllCode.
  rewrite (iterate_until_all assoc_record), (iterate_until_all code_record), !app_nil_l, !list_fmap_id.
  f_equal. f_equal. unfold IterateAll, exported_prefixes. cbn [foldl].
  rewrite !(iterate_until_all (λ e, mkSerialized _ e.1 e.2)). rewrite !fmap_cons. simpl. by rewrite <- !app_assoc, app_nil_r.
Qed.

Lemma ExportGenesis_run (w : World) : exportable (w_evm w) →
  ExportGenesis w = Ret (mkGenesisState (w_params w)
    (assoc_record <$> entries [x01] (w_evm w)) (code_record <$> entries [x07] (w_evm w))
    (state_record <$> entries [x03] (w_evm w)) (nonce_record <$> entries [x0a] (w_evm w))
    (mjoin ((λ p, (λ e, mkSerialized p e.1 e.2) <$> entries p (w_evm w)) <$> exported_prefixes))).
Proof.
  intros Hex. rewrite ExportGenesis_eq.
  rewrite (map_out_all _ state_record), (map_out_all _ nonce_record); [done|..]; intros [k v] He; apply elem_of_entries in He.
  - destruct (sh_nonce _ _ (ex_shape _ Hex) _ _ He) as (_ & n & _ & ->). unfold nonce_entry, nonce_record, Uint64. cbn [fst snd].
    rewrite bool_decide_true; [done|]. unfold PutUint64. rewrite length_be_enc. lia.
  - destruct (sh_state _ _ (ex_shape _ Hex) _ _ He) as (Hl & _). unfold state_entry. cbn [fst].
    destruct (Nat.ltb_spec (length k) 20); [lia|done].
Qed.

(** ** What is imported *)

Definition cgrows (m : kvstore) (K : bytes → Prop) (c c' : Ctx) : Prop :=
  grows m K (w_evm (cview c)) (w_evm (cview c')) ∧ w_params (cview c') = w_params (cview c).

Lemma cgrows_trans m K1 K2 (c c1 c2 : Ctx) : cgrows m K1 c c1 → cgrows m K2 c1 c2 → cgrows m (λ k, K1 k ∨ K2 k) c c2.
Proof. intros [H1 P1] [H2 P2]. split; [by eapply grows_trans|congruence]. Qed.

Lemma for_each_fmap {X Y : Type} (f : X → Y) (body : Y → Ctx → outcome Ctx) (l : list X) (c : Ctx) :
  for_each body (f <$> l) c = for_each (λ x, body (f x)) l c.
Proof.
  revert c. induction l as [|x l IH]; intros c; [done|]. rewrite fmap_cons. simpl. destruct (body (f x) c); simpl; [apply IH|done].
Qed.

(** A loop writes what its iterations write, as long as something that growing
    keeps holds. *)
Lemma for_each_grows {X : Type} (m : kvstore) (I : Ctx → Prop) (body : X → Ctx → outcome Ctx) (K : X → bytes → Prop) (l : list X) :
  (∀ K c c', I c → cgrows m K c c' → I c') →
  (∀ x c, x ∈ l → I c → ∃ c', body x c = Ret c' ∧ cgrows m (K x) c c') →
  ∀ c, I c → ∃ c', for_each body l c = Ret c' ∧ cgrows m (λ k, ∃ x, x ∈ l ∧ K x k) c c'.
Proof.
  intros HI. induction l as [|x l IH]; intros Hb c Hc.
  { exists c. split; [done|]. split; [|done]. eapply grows_weaken; [|apply grows_refl]. by intros k (x & ?%elem_of_nil & _). }
  destruct (Hb x c) as (c1 & E1 & G1); [left|done|].
  destruct (IH ltac:(intros y c0 Hy; apply Hb; by right) c1) as (c2 & E2 & G2); [by eapply HI|].
  exists c2. split; [simpl; by rewrite E1|].
  destruct (cgrows_trans _ _ _ _ _ _ G1 G2) as [Hg Hp]. split; [|done].
  eapply grows_weaken; [|exact Hg]. intros k (y & Hy & Hk). apply elem_of_cons in Hy as [->|Hy]; [by left|right; by exists y].
Qed.

Section Import.
Context (m : kvstore) (Hex : exportable m).
Notation em := (exported_part m).

Lemma SetAddressMapping_grows t e (c : Ctx) : m !! EVMAddressToTabiAddressKey e = Some t →
  cgrows em (λ k, k = EVMAddressToTabiAddressKey e ∨ k = TabiAddressToEVMAddressKey t) c (SetAddressMapping t e c).
Proof.
  intros H. destruct (sh_assoc _ _ (ex_shape _ Hex) _ _ H) as (_ & _ & H2). specialize (H2 eq_refl). split.
  - rewrite SetAddressMapping_evm. eapply grows_weaken.
    2:{ apply grows_insert; [apply grows_insert; [apply grows_refl|]|]; by rewrite exported_lookup. }
    naive_solver.
  - unfold SetAddressMapping. rewrite cview_cemit. destruct (negb _); by rewrite !cview_cupd.
Qed.

Lemma set_association_grows e (c : Ctx) : e ∈ entries [x01] m →
  ∃ c', set_association (assoc_record e) c = Ret c' ∧ cgrows em (λ k, k = x01 :: e.1 ∨ k = x02 :: e.2) c c'.
Proof.
  destruct e as [s t]. intros He. apply elem_of_entries in He. destruct (sh_assoc _ _ (ex_shape _ Hex) _ _ He) as (Hs & [Ht1 Ht2] & _).
  unfold set_association, MustAccAddressFromBech32, assoc_record. cbn [aa_TabiAddress aa_EthAddress fst snd].
  rewrite bech32_roundtrip, HexToAddress_Hex by done. eexists. split; [done|].
  assert (Hk : EVMAddressToTabiAddressKey (BytesToAddress s) = x01 :: s).
  { unfold EVMAddressToTabiAddressKey, BytesToAddress. by rewrite ba_fit_id. }
  rewrite <- Hk. apply SetAddressMapping_grows. by rewrite Hk.
Qed.

Definition codes_associated (c : Ctx) : Prop := ∀ s, is_Some (m !! (x07 :: s)) → is_Some (w_evm (cview c) !! (x01 :: s)).

Lemma codes_associated_grows K (c c' : Ctx) : codes_associated c → cgrows em K c c' → codes_associated c'.
Proof.
  intros Hc [[_ Ho] _] s Hs. destruct (Ho (x01 :: s)) as [-> | ->]; [by apply Hc|].
  rewrite exported_lookup by done. by apply (ex_code_assoc _ Hex).
Qed.

Lemma set_code_grows e (c : Ctx) : e ∈ entries [x07] m → codes_associated c →
  ∃ c', set_code (code_record e) c = Ret c' ∧ cgrows em (λ k, k = x07 :: e.1 ∨ k = x08 :: e.1 ∨ k = x09 :: e.1) c c'.
Proof.
  destruct e as [s v]. intros He Hc. apply elem_of_entries in He. destruct (sh_code _ _ (ex_shape _ Hex) _ _ He) as (Hs & Hh & Hz).
  unfold set_code, code_record. cbn [cd_Address cd_Code fst snd]. rewrite HexToAddress_Hex. eexists. split; [done|].
  assert (Hb : ba (BytesToAddress s) = s) by (by apply ba_fit_id).
  rewrite SetCode_eq. unfold GetTabiAddress, EVMAddressToTabiAddressKey. rewrite Hb.
  destruct (Hc s) as [t Ht]; [by eexists|]. change (EVMAddressToTabiAddressKeyPrefix ++ s) with (x01 :: s). rewrite Ht.
  unfold code_written, prefix_set. split; [|by rewrite cview_cupd]. rewrite cview_cupd, set_evm_evm, Hb.
  eapply grows_weaken.
  2:{ apply grows_insert; [apply grows_insert; [apply grows_insert; [apply grows_refl|]|]|]; by rewrite exported_lookup. }
  simpl. naive_solver.
Qed.

Lemma set_state_grows e (c : Ctx) : e ∈ entries [x03] m →
  ∃ c', set_state (state_record e) c = Ret c' ∧ cgrows em (λ k, k = x03 :: e.1) c c'.
Proof.
  destruct e as [s v]. intros He. apply elem_of_entries in He. destruct (sh_state _ _ (ex_shape _ Hex) _ _ He) as (Hs & Hv & Hnz).
  unfold set_state, state_record. cbn [cs_Address cs_Key cs_Value fst snd].
  rewrite HexToAddress_Hex, !BytesToHash_ba. eexists. split; [done|].
  unfold SetState. rewrite bool_decide_false by done. unfold prefix_set, StateKey.
  assert (ba (BytesToAddress (take 20 s)) = take 20 s) as -> by (apply ba_fit_id; rewrite length_take; lia).
  assert (ba (BytesToHash (drop 20 s)) = drop 20 s) as -> by (apply ba_fit_id; rewrite length_drop; lia).
  assert (ba (BytesToHash v) = v) as -> by (by apply ba_fit_id).
  split; [|by rewrite cview_cupd]. rewrite cview_cupd, set_evm_evm, <- app_assoc, take_drop.
  eapply grows_weaken; [|apply grows_insert; [apply grows_refl|by rewrite exported_lookup]]. simpl. naive_solver.
Qed.

Lemma set_nonce_grows e (c : Ctx) : e ∈ entries [x0a] m →
  ∃ c', set_nonce (nonce_record e) c = Ret c' ∧ cgrows em (λ k, k = x0a :: e.1) c c'.
Proof.
  destruct e as [s v]. intros He. apply elem_of_entries in He. destruct (sh_nonce _ _ (ex_shape _ Hex) _ _ He) as (Hs & n & Hn & ->).
  unfold set_nonce, nonce_record. cbn [no_Address no_Nonce fst snd]. rewrite HexToAddress_Hex. eexists. split; [done|].
  unfold SetNonce, prefix_set. assert (ba (BytesToAddress s) = s) as -> by (by apply ba_fit_id).
  rewrite take_ge by (unfold PutUint64; rewrite length_be_enc; lia). unfold PutUint64 at 2. rewrite be_dec_enc.
  change (256 ^ Z.of_nat 8) with two64. fold (u64 n). rewrite u64_id by done.
  split; [|by rewrite cview_cupd]. rewrite cview_cupd, set_evm_evm.
  eapply grows_weaken; [|apply grows_insert; [apply grows_refl|by rewrite exported_lookup]]. simpl. naive_solver.
Qed.

Lemma set_serialized_grows p e (c : Ctx) : is_exported p = true → e ∈ entries p m →
  ∃ c', set_serialized (mkSerialized p e.1 e.2) c = Ret c' ∧ cgrows em (λ k, k = p ++ e.1) c c'.
Proof.
  destruct e as [s v]. intros Hp He. apply elem_of_entries in He. cbn [fst snd].
  assert (Hem : em !! (p ++ s) = Some v) by (rewrite exported_lookup; [done|by destruct p]).
  unfold set_serialized. cbn [sr_Key sr_Prefix sr_Value]. destruct s as [|b s]; rewrite ?app_nil_r in *;
    (eexists; split; [done|]; split; [|by rewrite cview_cupd]; rewrite cview_cupd, set_evm_evm;
     eapply grows_weaken; [|apply grows_insert; [apply grows_refl|exact Hem]]; naive_solver).
Qed.

Lemma serialized_grows (c : Ctx) : ∃ c',
  for_each set_serialized (mjoin ((λ p, (λ e, mkSerialized p e.1 e.2) <$> entries p m) <$> exported_prefixes)) c = Ret c' ∧
  cgrows em (λ k, is_Some (m !! k) ∧ ∃ p, p ∈ exported_prefixes ∧ ∃ s, k = p ++ s) c c'.
Proof.
  destruct (for_each_grows em (λ _, True) set_serialized (λ s k, k = sr_Prefix s ++ sr_Key s)
    (mjoin ((λ p, (λ e, mkSerialized p e.1 e.2) <$> entries p m) <$> exported_prefixes))) with (c := c) as (c' & E & Hg & Hp); [done| |done|].
  - intros x c1 Hx _. apply list_elem_of_join in Hx as (l & Hl & (p & -> & Hp)%list_elem_of_fmap).
    apply list_elem_of_fmap in Hl as (e & -> & He). apply set_serialized_grows; [|done].
    unfold exported_prefixes in Hp. set_unfold. by destruct Hp as [->|[->|[->|[->|[->|[->|[]]]]]]].
  - exists c'. split; [done|]. split; [|done]. eapply grows_weaken; [|exact Hg]. intros k ([v Hv] & p & Hp' & s & ->).
    exists (mkSerialized p s v). split; [|done]. apply list_elem_of_join.
    exists ((λ e, mkSerialized p e.1 e.2) <$> entries p m). split; [|by apply (list_elem_of_fmap_2 (λ p, (λ e, mkSerialized p e.1 e.2) <$> entries p m))].
    apply (list_elem_of_fmap_2 (λ e, mkSerialized p e.1 e.2) _ (s, v)). by apply elem_of_entries.
Qed.

(** The keys of the code ids. *)
Definition code_id_key (k : bytes) : Prop :=
  k = x16 :: x03 :: PutUint16 erc20_CurrentVersion ∨ k = x16 :: x04 :: PutUint16 erc721_CurrentVersion ∨
  k = x16 :: x06 :: PutUint16 erc1155_CurrentVersion.

Lemma create_code_other `{HWC : !WasmCodesLaws} t p v (c : Ctx) :
  (∀ k, k ≠ x16 :: p ++ PutUint16 v → w_evm (cview (create_code t p v c)) !! k = w_evm (cview c) !! k) ∧
  w_params (cview (create_code t p v c)) = w_params (cview c).
Proof.
  unfold create_code. destruct (wk_create_keeps t c) as [He Hp]. destruct (wk_Create t c) as [c1 [id|e]]; simpl in *.
  - split; [|by rewrite cview_cupd]. intros k Hk. rewrite cview_cupd, set_evm_evm. unfold prefix_set.
    rewrite lookup_insert_ne by (intros E; apply Hk; by rewrite <- E). by rewrite He.
  - split; [|done]. intros k _. by rewrite He.
Qed.

Lemma Keeper_InitGenesis_run `{HWC : !WasmCodesLaws} (g : GenesisState) (c : Ctx) :
  gs_AddressAssociations g = assoc_record <$> entries [x01] m →
  ∃ c', Keeper_InitGenesis g c = Ret c' ∧ w_params (cview c') = gs_Params g ∧
    ∀ k, ¬ code_id_key k → w_evm (cview c') !! k = w_evm (cview c) !! k ∨ w_evm (cview c') !! k = em !! k.
Proof.
  intros Hg. unfold Keeper_InitGenesis. rewrite Hg.
  set (c2 := cupd (SetParams _) _).
  assert (H2 : w_evm (cview c2) = w_evm (cview c) ∧ w_params (cview c2) = gs_Params g).
  { unfold c2. by rewrite !cview_cupd. }
  set (c3 := SetAddressMapping _ _ c2).
  destruct (SetAddressMapping_grows (ak_GetModuleAddress FeeCollectorName) Keeper_GetCoinbaseAddress c2 (ex_coinbase _ Hex)) as [[_ G3] P3].
  destruct (for_each_grows em (λ _, True) set_association (λ a k, False) (assoc_record <$> entries [x01] m)) with (c := c3)
    as (c4 & E4 & [_ G4] & P4); [done| |done|].
  { intros x c1 Hx _. apply list_elem_of_fmap in Hx as (e & -> & He). destruct (set_association_grows e c1 He) as (c1' & E & Hgr & Hp).
    exists c1'. split; [done|]. split; [|done]. by eapply grows_weaken; [|exact Hgr]. }
  rewrite E4. cbn [outcome_bind]. set (c5 := create_code PT_ERC20 _ _ c4). set (c6 := create_code PT_ERC721 _ _ c5).
  destruct (create_code_other PT_ERC20 PointerCW20ERC20Prefix erc20_CurrentVersion c4) as [O5 P5].
  destruct (create_code_other PT_ERC721 PointerCW721ERC721Prefix erc721_CurrentVersion c5) as [O6 P6].
  destruct (create_code_other PT_ERC1155 PointerCW1155ERC1155Prefix erc1155_CurrentVersion c6) as [O7 P7].
  eexists. split; [done|]. split; [by rewrite P7; unfold c6; rewrite P6; unfold c5; rewrite P5, P4; unfold c3; rewrite P3; apply H2|].
  intros k Hk. rewrite O7 by (intros ->; apply Hk; by right; right). unfold c6. rewrite O6 by (intros ->; apply Hk; by right; left).
  unfold c5. rewrite O5 by (intros ->; apply Hk; by left).
  destruct (G4 k) as [->|]; [|by right]. unfold c3. destruct (G3 k) as [->|]; [|by right]. left. by rewrite (proj1 H2).
Qed.

(** Every exported key is written by one of the loops. *)
Lemma exported_key_written k : is_Some (m !! k) → is_exported k = true →
  (∃ e, e ∈ entries [x01] m ∧ (k = x01 :: e.1 ∨ k = x02 :: e.2)) ∨
  (∃ e, e ∈ entries [x07] m ∧ (k = x07 :: e.1 ∨ k = x08 :: e.1 ∨ k = x09 :: e.1)) ∨
  (∃ e, e ∈ entries [x03] m ∧ k = x03 :: e.1) ∨ (∃ e, e ∈ entries [x0a] m ∧ k = x0a :: e.1) ∨
  (is_Some (m !! k) ∧ ∃ p, p ∈ exported_prefixes ∧ ∃ s, k = p ++ s).
Proof.
  intros [v Hv] He. destruct k as [|b s]; [done|].
  assert (Hser : [b] ∈ exported_prefixes → is_Some (m !! (b :: s)) ∧ ∃ p, p ∈ exported_prefixes ∧ ∃ s', b :: s = p ++ s').
  { intros Hb. split; [by eexists|]. exists [b]. split; [done|]. by exists s. }
  assert (Hin : ∀ p : byte, b = p → (s, v) ∈ entries [p] m) by (intros p ->; by apply elem_of_entries).
  assert (Hcode : ∀ p : byte, is_Some (m !! (x07 :: s)) → ∃ v', (s, v') ∈ entries [x07] m).
  { intros _ [v' Hv']. exists v'. by apply elem_of_entries. }
  destruct b; try discriminate He.
  - left. exists (s, v). split; [by apply Hin|by left].
  - left. exists (v, s). split; [|by right]. apply elem_of_entries. by apply (sh_assoc_back _ _ (ex_shape _ Hex)).
  - do 2 right. left. exists (s, v). split; [by apply Hin|done].
  - right. left. exists (s, v). split; [by apply Hin|by left].
  - right. left. destruct (Hcode x08) as [v' H]; [by apply (sh_code_hash _ _ (ex_shape _ Hex)); eexists|]. exists (s, v'). split; [done|by right; left].
  - right. left. destruct (Hcode x09) as [v' H]; [by apply (sh_code_size _ _ (ex_shape _ Hex)); eexists|]. exists (s, v'). split; [done|by right; right].
  - do 3 right. left. exists (s, v). split; [by apply Hin|done].
  - do 4 right. apply Hser. unfold exported_prefixes. set_solver.
  - do 4 right. apply Hser. unfold exported_prefixes. set_solver.
  - do 4 right. apply Hser. unfold exported_prefixes. set_solver.
  - do 4 right. apply Hser. unfold exported_prefixes. set_solver.
  - do 4 right. apply Hser. unfold exported_prefixes. set_solver.
  - do 4 right. apply Hser. unfold exported_prefixes. set_solver.
Qed.

Lemma entries_written {X : Type} (rec : bytes * bytes → X) (K : bytes * bytes → bytes → Prop) (body : X → Ctx → outcome Ctx)
    (I : Ctx → Prop) p (c : Ctx) :
  (∀ K c c', I c → cgrows em K c c' → I c') →
  (∀ e c, e ∈ entries p m → I c → ∃ c', body (rec e) c = Ret c' ∧ cgrows em (K e) c c') → I c →
  ∃ c', for_each body (rec <$> entries p m) c = Ret c' ∧ cgrows em (λ k, ∃ e, e ∈ entries p m ∧ K e k) c c'.
Proof.
  intros HI Hb Hc. rewrite for_each_fmap. by apply (for_each_grows em I (λ e, body (rec e)) K).
Qed.

Lemma InitGenesis_run `{HWC : !WasmCodesLaws} (g : GenesisState) (c : Ctx) :
  gs_AddressAssociations g = assoc_record <$> entries [x01] m → gs_Codes g = code_record <$> entries [x07] m →
  gs_States g = state_record <$> entries [x03] m → gs_Nonces g = nonce_record <$> entries [x0a] m →
  gs_Serialized g = mjoin ((λ p, (λ e, mkSerialized p e.1 e.2) <$> entries p m) <$> exported_prefixes) →
  w_evm (cview c) = ∅ →
  ∃ c', InitGenesis g c = Ret c' ∧ w_evm (cview c') = em ∧ w_params (cview c') = gs_Params g.
Proof.
  intros Ha Hc Hs Hn Hz H0. unfold InitGenesis.
  destruct (Keeper_InitGenesis_run g c Ha) as (c1 & -> & P1 & O1). cbn [outcome_bind]. rewrite Ha, Hc, Hs, Hn, Hz.
  set (c2 := cupd (SetParams (gs_Params g)) c1).
  destruct (entries_written assoc_record (λ e k, k = x01 :: e.1 ∨ k = x02 :: e.2) set_association (λ _, True) [x01] c2)
    as (c3 & -> & G3); [done|intros e c' He _; by apply set_association_grows|done|]. cbn [outcome_bind].
  assert (I3 : codes_associated c3).
  { intros s Hv. destruct (ex_code_assoc _ Hex _ Hv) as [t Ht]. destruct G3 as [[HK _] _].
    rewrite (HK (x01 :: s)); [rewrite exported_lookup by done; by eexists|]. exists (s, t). split; [by apply elem_of_entries|by left]. }
  destruct (entries_written code_record (λ e k, k = x07 :: e.1 ∨ k = x08 :: e.1 ∨ k = x09 :: e.1) set_code codes_associated [x07] c3)
    as (c4 & -> & G4); [apply codes_associated_grows|intros e c' He HI; by apply set_code_grows|done|]. cbn [outcome_bind].
  destruct (entries_written state_record (λ e k, k = x03 :: e.1) set_state (λ _, True) [x03] c4)
    as (c5 & -> & G5); [done|intros e c' He _; by apply set_state_grows|done|]. cbn [outcome_bind].
  destruct (entries_written nonce_record (λ e k, k = x0a :: e.1) set_nonce (λ _, True) [x0a] c5)
    as (c6 & -> & G6); [done|intros e c' He _; by apply set_nonce_grows|done|]. cbn [outcome_bind].
  destruct (serialized_grows c6) as (c7 & E7 & G7). exists c7. split; [done|].
  destruct (cgrows_trans _ _ _ _ _ _ G3 (cgrows_trans _ _ _ _ _ _ G4 (cgrows_trans _ _ _ _ _ _ G5 (cgrows_trans _ _ _ _ _ _ G6 G7))))
    as [[HK HO] HP].
  split; [|rewrite HP; unfold c2; by rewrite cview_cupd].
  apply map_eq. intros k. destruct (em !! k) as [v|] eqn:Ek.
  - unfold exported_part in Ek. apply map_lookup_filter_Some in Ek as [Hk He]. simpl in He.
    rewrite HK, exported_lookup by done || (apply exported_key_written; [by eexists|done]). done.
  - destruct (HO k) as [->|]; [|congruence]. unfold c2. rewrite cview_cupd. change (w_evm (SetParams (gs_Params g) (cview c1))) with (w_evm (cview c1)).
    destruct (O1 k) as [->|]; [|by rewrite H0|congruence]. intros Hid.
    destruct (ex_code_ids _ Hex) as (H1 & H2 & H3).
    destruct Hid as [->|[->| ->]]; rewrite exported_lookup, eq_None_not_Some in Ek by done; done.
Qed.

End Import.

(** C27: export and import lose nothing of what is exported.  From a store in the
    shape the module keeps it in, the export returns, and initialising an empty
    module store from it returns with exactly the exported part of the store: the
    associations in both directions, storage, code with hashes and sizes, nonces,
    receipts, blooms, transaction hashes, pointers and the code ids the import had
    overwritten; and with the parameters. *)
Theorem genesis_roundtrip `{HWC : !WasmCodesLaws} (w : World) (c0 : Ctx) :
  exportable (w_evm w) → w_evm (cview c0) = ∅ →
  ∃ g c', ExportGenesis w = Ret g ∧ InitGenesis g c0 = Ret c' ∧
    w_evm (cview c') = exported_part (w_evm w) ∧ w_params (cview c') = w_params w.
Proof.
  intros Hex H0. destruct (InitGenesis_run (w_evm w) Hex (mkGenesisState (w_params w)
    (assoc_record <$> entries [x01] (w_evm w)) (code_record <$> entries [x07] (w_evm w))
    (state_record <$> entries [x03] (w_evm w)) (nonce_record <$> entries [x0a] (w_evm w))
    (mjoin ((λ p, (λ e, mkSerialized p e.1 e.2) <$> entries p (w_evm w)) <$> exported_prefixes))) c0) as (c' & E & He & Hp); [done..|].
  eexists _, c'. split; [by apply ExportGenesis_run|]. by split_and!.
Qed.

(** ** The stream *)

(** The records of a stream of states, in order. *)
Definition merge_stream (params : Params) (l : list GenesisState) : GenesisState :=
  mkGenesisState params (mjoin (gs_AddressAssociations <$> l)) (mjoin (gs_Codes <$> l)) (mjoin (gs_States <$> l))
    (mjoin (gs_Nonces <$> l)) (mjoin (gs_Serialized <$> l)).

Definition merge (g1 g2 : GenesisState) : GenesisState :=
  mkGenesisState (gs_Params g1) (gs_AddressAssociations g1 ++ gs_AddressAssociations g2) (gs_Codes g1 ++ gs_Codes g2)
    (gs_States g1 ++ gs_States g2) (gs_Nonces g1 ++ gs_Nonces g2) (gs_Serialized g1 ++ gs_Serialized g2).

Lemma merge_stream_app p l1 l2 : merge_stream p (l1 ++ l2) = merge (merge_stream p l1) (merge_stream p l2).
Proof. unfold merge_stream, merge. simpl. by rewrite !fmap_app, !join_app. Qed.

Lemma merge_stream_cons p g l : gs_Params g = p → merge_stream p (g :: l) = merge g (merge_stream p l).
Proof. by intros <-. Qed.

(** States of one record each. *)
Lemma join_singletons {X Y : Type} (f : X → list Y) (h : X → Y) l : (∀ x, f x = [h x]) → mjoin (f <$> l) = h <$> l.
Proof. intros H. induction l as [|x l IH]; [done|]. change (f x ++ mjoin (f <$> l) = h x :: (h <$> l)). by rewrite IH, H. Qed.

Lemma join_empties {X Y : Type} (f : X → list Y) l : (∀ x, f x = []) → mjoin (f <$> l) = [].
Proof. intros H. induction l as [|x l IH]; [done|]. change (f x ++ mjoin (f <$> l) = []). by rewrite IH, H. Qed.

Lemma merge_chunks p prefix l acc :
  merge_stream p (serialized_chunks (mkGenesisState p [] [] [] []) prefix l acc) =
  mkGenesisState p [] [] [] [] (acc ++ ((λ e, mkSerialized prefix e.1 e.2) <$> l)).
Proof.
  revert acc. induction l as [|e l IH]; intros acc; [done|]. cbn [serialized_chunks].
  destruct (_ <? _)%nat.
  - rewrite merge_stream_cons, IH by done. unfold merge. simpl. by rewrite <- app_assoc.
  - rewrite IH. simpl. by rewrite <- app_assoc.
Qed.

Definition small_chunk (p : Params) (g : GenesisState) : Prop :=
  gs_Params g = p ∧ (length (gs_AddressAssociations g) + length (gs_Codes g) + length (gs_States g) + length (gs_Nonces g) +
    length (gs_Serialized g) ≤ GENESIS_EXPORT_STREAM_SERIALIZED_LEN_MAX + 1)%nat.

Lemma chunks_small p prefix l acc : (length acc ≤ GENESIS_EXPORT_STREAM_SERIALIZED_LEN_MAX)%nat →
  Forall (small_chunk p) (serialized_chunks (mkGenesisState p [] [] [] []) prefix l acc).
Proof.
  revert acc. induction l as [|e l IH]; intros acc Hl; cbn [serialized_chunks].
  { constructor; [|constructor]. split; [done|]. cbn [gs_AddressAssociations gs_Codes gs_States gs_Nonces gs_Serialized]. simpl length at 1 2 3 4. lia. }
  destruct (Nat.ltb_spec GENESIS_EXPORT_STREAM_SERIALIZED_LEN_MAX (length (acc ++ [mkSerialized prefix e.1 e.2]))); [|by apply IH].
  constructor; [|apply IH; cbn [length]; lia]. split; [done|]. cbn [gs_AddressAssociations gs_Codes gs_States gs_Nonces gs_Serialized].
  rewrite length_app. simpl length. lia.
Qed.

Definition chunks (w : World) (prefix : bytes) : list GenesisState :=
  serialized_chunks (mkGenesisState (w_params w) [] [] [] []) prefix (entries prefix (w_evm w)) [].

Lemma ExportGenesisStream_eq (w : World) : ExportGenesisStream w =
  let* states := map_out state_entry (entries [x03] (w_evm w)) in
  let* nonces := map_out nonce_entry (entries [x0a] (w_evm w)) in
  let p := w_params w in
  Ret ([mkGenesisState p [] [] [] [] []] ++ ((λ e, mkGenesisState p [assoc_record e] [] [] [] []) <$> entries [x01] (w_evm w)) ++
    ((λ e, mkGenesisState p [] [code_record e] [] [] []) <$> entries [x07] (w_evm w)) ++
    ((λ s, mkGenesisState p [] [] [s] [] []) <$> states) ++ ((λ n, mkGenesisState p [] [] [] [n] []) <$> nonces) ++
    mjoin (chunks w <$> exported_prefixes)).
Proof.
  unfold ExportGenesisStream. cbv zeta.
  rewrite (IterateState_map w (λ s, mkGenesisState (GetParams w) [] [] [s] [] [])).
  destruct (map_out state_entry _) as [states|]; [|done]. cbn [outcome_bind].
  rewrite (IterateAllNonces_map w (λ n, mkGenesisState (GetParams w) [] [] [] [n] [])).
  destruct (map_out nonce_entry _) as [nonces|]; [|done]. cbn [outcome_bind].
  unfold IterateTabiAddressMapping, IterateAllCode.
  rewrite (iterate_until_all (λ e, mkGenesisState (GetParams w) [assoc_record e] [] [] [] [])),
    (iterate_until_all (λ e, mkGenesisState (GetParams w) [] [code_record e] [] [] [])).
  unfold exported_prefixes. cbn [foldl]. rewrite !fmap_cons. simpl. by rewrite <- !app_assoc, app_nil_r.
Qed.

Lemma merge_stream_fmap {X : Type} p (h : X → GenesisState) l : merge_stream p (h <$> l) =
  mkGenesisState p (mjoin ((gs_AddressAssociations ∘ h) <$> l)) (mjoin ((gs_Codes ∘ h) <$> l)) (mjoin ((gs_States ∘ h) <$> l))
    (mjoin ((gs_Nonces ∘ h) <$> l)) (mjoin ((gs_Serialized ∘ h) <$> l)).
Proof. unfold merge_stream. by rewrite <- !list_fmap_compose. Qed.

Lemma merge_all_chunks (w : World) ps : merge_stream (w_params w) (mjoin (chunks w <$> ps)) =
  mkGenesisState (w_params w) [] [] [] [] (mjoin ((λ p, (λ e, mkSerialized p e.1 e.2) <$> entries p (w_evm w)) <$> ps)).
Proof.
  induction ps as [|q ps IH]; [done|]. change (mjoin (chunks w <$> q :: ps)) with (chunks w q ++ mjoin (chunks w <$> ps)).
  rewrite merge_stream_app, IH. unfold chunks. by rewrite merge_chunks.
Qed.

Lemma all_chunks_small (w : World) ps : Forall (small_chunk (w_params w)) (mjoin (chunks w <$> ps)).
Proof.
  induction ps as [|q ps IH]; [by constructor|]. change (mjoin (chunks w <$> q :: ps)) with (chunks w q ++ mjoin (chunks w <$> ps)).
  apply Forall_app_2; [|done]. apply chunks_small. simpl. lia.
Qed.

(** The stream of an export carries the export.  The two exports panic on
    the same stores; when they return, the records of the streamed states,
    kind by kind and in order, are those of the single state, every streamed
    state has the module's parameters, and none has more than 1001 records. *)
Theorem stream_carries_export (w : World) :
  match ExportGenesis w, ExportGenesisStream w with
  | Ret g, Ret l => merge_stream (gs_Params g) l = g ∧ Forall (small_chunk (gs_Params g)) l
  | Panic _, Panic _ => True
  | _, _ => False
  end.
Proof.
  rewrite ExportGenesis_eq, ExportGenesisStream_eq.
  destruct (map_out state_entry _) as [states|]; [|done]. cbn [outcome_bind].
  destruct (map_out nonce_entry _) as [nonces|]; [|done]. cbn [outcome_bind gs_Params]. cbv zeta. split.
  - rewrite !merge_stream_app, !merge_stream_fmap, merge_all_chunks. unfold merge. simpl.
    repeat match goal with
    | |- context [mjoin (?f <$> ?l)] => first [rewrite (join_empties f l) by done | rewrite (join_singletons f assoc_record l) by done
        | rewrite (join_singletons f code_record l) by done | rewrite (join_singletons f id l) by done]
    end.
    by rewrite !app_nil_r, !list_fmap_id.
  - rewrite !Forall_app, !Forall_fmap. split_and!; [|apply Forall_true; intros x; split; simpl; lia || done..|apply all_chunks_small].
    constructor; [|constructor]. split; simpl; lia || done.
Qed.

End GenesisTheorems.

(** * Examples *)

Section GenesisExamples.
#[local] Existing Instances demo_bank_keeper demo_accounts demo_crypto live_config plain_hex plain_hex_laws.
#[local] Existing Instances marked_bech32 marked_bech32_laws.
#[local] Instance genesis_stores : MultiStore (stack_ms demo_world) demo_world := stack_multistore demo_world.
#[local] Instance genesis_stores_laws : MultiStoreLaws (stack_ms demo_world) demo_world := stack_multistore_laws demo_world.
#[local] Instance demo_module_accounts : ModuleAccounts (gset (list Byte.byte)) := {| ak_SetModuleAccount a _ := a |}.
#[local] Instance demo_codes : WasmCodes (stack_ms demo_world) := {| wk_Create _ c := (c, inl 1) |}.
#[local] Instance demo_codes_laws : WasmCodesLaws.
Proof. by split. Qed.
#[local] Instance demo_create_addresses : CreateAddresses := {| CreateAddress a n := addr_of n |}.

(** A contract with code, storage and a nonce, a pointer, and what genesis
    writes. *)
Definition genesis_entries : list (bytes * bytes) :=
  let a := ba (addr_of 9) in
  [(x01 :: ba Keeper_GetCoinbaseAddress, ak_GetModuleAddress FeeCollectorName); (x02 :: ak_GetModuleAddress FeeCollectorName, ba Keeper_GetCoinbaseAddress);
   (x01 :: a, a); (x02 :: a, a);
   (x07 :: a, [x60]); (x08 :: a, ba (Keccak256Hash [x60])); (x09 :: a, PutUint64 1);
   (x03 :: a ++ ba (hash_of 1), ba (hash_of 2)); (x0a :: a, PutUint64 7);
   (x16 :: x03 :: PutUint16 2, PutUint64 4); (x16 :: x04 :: PutUint16 6, PutUint64 5); (x16 :: x06 :: PutUint16 1, PutUint64 6);
   (x15 :: x00 :: [x61; x00; x01], a); (x1b :: [], [x01])].
Definition genesis_world : demo_world := set_evm (λ _, list_to_map genesis_entries) demo_world0.

Lemma genesis_NoDup : base.NoDup (fst <$> genesis_entries).
Proof. apply (bool_decide_unpack _). vm_compute. exact I. Qed.

Lemma genesis_lookup k v : w_evm genesis_world !! k = Some v → (k, v) ∈ genesis_entries.
Proof. apply elem_of_list_to_map, genesis_NoDup. Qed.

Ltac entry_cases H :=
  apply genesis_lookup in H; unfold genesis_entries in H;
  repeat (apply elem_of_cons in H as [H|H]; [try discriminate H; injection H as ? ?; subst|]); [..|by apply elem_of_nil in H].

Lemma genesis_exportable : exportable (w_evm genesis_world).
Proof.
  split; [split|..].
  - intros s t H. entry_cases H; (split; [reflexivity|split; [split; [discriminate|simpl; lia]|vm_compute; reflexivity]]).
  - intros s t H. entry_cases H; (split; [reflexivity|split; [split; [discriminate|simpl; lia]|vm_compute; reflexivity]]).
  - intros s v H. entry_cases H. split; [reflexivity|split; [reflexivity|discriminate]].
  - intros s v H. entry_cases H. split_and!; [reflexivity|vm_compute; reflexivity..].
  - intros s [v H]. entry_cases H. eexists. vm_compute. reflexivity.
  - intros s [v H]. entry_cases H. eexists. vm_compute. reflexivity.
  - intros s v H. entry_cases H. split; [reflexivity|]. exists 7. split; [unfold is_u64, two64; lia|reflexivity].
  - intros s [v H]. entry_cases H. eexists. vm_compute. reflexivity.
  - vm_compute. reflexivity.
  - split_and!; eexists; vm_compute; reflexivity.
Qed.

Lemma genesis_roundtrip_witness : ∃ g c', ExportGenesis genesis_world = Ret g ∧ InitGenesis g (demo_ctx demo_world0) = Ret c' ∧
  w_evm (cview c') = exported_part (list_to_map genesis_entries).
Proof.
  assert (H0 : w_evm (cview (demo_ctx demo_world0)) = ∅) by reflexivity.
  destruct (genesis_roundtrip genesis_world (demo_ctx demo_world0) genesis_exportable H0) as (g & c' & E1 & E2 & E3 & _).
  exists g, c'. split_and!; assumption.
Defined.
End GenesisExamples.
