(* ===== verification/Float.v ===== *)
(** * float64
    (the floating-point numbers of Go, used in evmrpc/info.go)

    The IEEE binary64 numbers of the Standard Library's [SpecFloat], whose
    operations round as Go's do, and how whole numbers go through them: a product
    that has at most 53 bits is exact, and a hundredth of a number below [2^52],
    truncated, is the quotient of the integers. *)

From S2P Require Import Prelude Bytes.
From Stdlib Require Import Floats.SpecFloat.
Local Open Scope Z_scope.

Notation float64 := spec_float.

Definition float_of (n : Z) : float64 := binary_normalize 53 1024 n 0 false.
Definition float_mul : float64 → float64 → float64 := SFmul 53 1024.
Definition float_div : float64 → float64 → float64 := SFdiv 53 1024.

(** [uint64(f)]: the fraction is discarded.  Go leaves the result open when the
    value does not fit: [unfit] is what the machine gives then. *)
Definition uint64_of (unfit : float64 → Z) (f : float64) : Z :=
  match f with
  | S754_zero _ => 0
  | S754_finite false m e =>
      let n := Z.shiftl (Zpos m) e in if n <? 2 ^ 64 then n else u64 (unfit f)
  | _ => u64 (unfit f)
  end.

(** ** Digits and shifts *)

Lemma digits_spec (p : positive) : 2 ^ (Zpos (digits2_pos p) - 1) ≤ Zpos p < 2 ^ Zpos (digits2_pos p).
Proof.
  induction p as [p IH|p IH|]; cbn [digits2_pos]; [..|done]; rewrite Pos2Z.inj_succ;
    replace (Z.succ (Zpos (digits2_pos p)) - 1) with (Z.succ (Zpos (digits2_pos p) - 1)) by lia; rewrite !Z.pow_succ_r by lia; lia.
Qed.
Lemma digits_unique m d : 0 < d → 2 ^ (d - 1) ≤ m < 2 ^ d → Zdigits2 m = d.
Proof.
  intros Hd Hm. destruct m as [|p|p]; [pose proof (Z.pow_pos_nonneg 2 (d - 1)); lia| |lia]. simpl.
  pose proof (digits_spec p) as Hp. destruct (Z.lt_trichotomy (Zpos (digits2_pos p)) d) as [H|[H|H]]; [|done|].
  - pose proof (Z.pow_le_mono_r 2 (Zpos (digits2_pos p)) (d - 1)). lia.
  - pose proof (Z.pow_le_mono_r 2 d (Zpos (digits2_pos p) - 1)). lia.
Qed.
Lemma digits_bounds m : 0 < m → 0 < Zdigits2 m ∧ 2 ^ (Zdigits2 m - 1) ≤ m < 2 ^ Zdigits2 m.
Proof. intros Hm. destruct m as [|p|]; [lia| |lia]. split; [done|]. apply digits_spec. Qed.
Lemma digits_shift m n : 0 < m → 0 ≤ n → Zdigits2 (m * 2 ^ n) = Zdigits2 m + n.
Proof.
  intros Hm Hn. destruct (digits_bounds m Hm) as [Hd Hb]. apply digits_unique; [lia|].
  replace (Zdigits2 m + n - 1) with (Zdigits2 m - 1 + n) by lia. rewrite !Z.pow_add_r by lia. pose proof (Z.pow_pos_nonneg 2 n). nia.
Qed.

Lemma iter_pos_nat {X} (f : X → X) p x : SpecFloat.iter_pos f p x = Nat.iter (Pos.to_nat p) f x.
Proof.
  revert x. induction p as [p IH|p IH|]; intros x; cbn [SpecFloat.iter_pos]; [| |done]; rewrite !IH, <- Nat.iter_add;
    [rewrite <- Nat.iter_succ_r|]; f_equal; lia.
Qed.
Lemma shr_1_m r : 0 ≤ shr_m r → shr_m (shr_1 r) = shr_m r / 2.
Proof.
  destruct r as [[|[p|p|]|] ? ?]; cbn [shr_1 shr_m]; try done; intros _; [apply (Z.div_unique _ 2 _ 1)|apply (Z.div_unique _ 2 _ 0)]; lia.
Qed.
Lemma shr_1_exact m : 0 ≤ m → shr_1 (Build_shr_record (2 * m) false false) = Build_shr_record m false false.
Proof. by destruct m. Qed.
Lemma shr_exact m e n : 0 ≤ m → 0 ≤ n → shr (Build_shr_record (m * 2 ^ n) false false) e n = (Build_shr_record m false false, e + n).
Proof.
  intros Hm Hn. destruct n as [|p|]; [change (2 ^ 0) with 1; by rewrite Z.mul_1_r, Z.add_0_r| |lia]. unfold shr. f_equal.
  rewrite iter_pos_nat, <- (positive_nat_Z p). generalize (Pos.to_nat p) as k. induction k as [|k IH]; [change (2 ^ Z.of_nat 0) with 1; by rewrite Z.mul_1_r|].
  rewrite Nat.iter_succ_r. etransitivity; [|exact IH]. f_equal.
  rewrite Nat2Z.inj_succ, Z.pow_succ_r by lia. replace (m * (2 * 2 ^ Z.of_nat k)) with (2 * (m * 2 ^ Z.of_nat k)) by lia. apply shr_1_exact. lia.
Qed.

(** ** Rounding *)

(** A number of 53 digits, followed by zeros, is kept as it is. *)
Lemma round_exact m e n : 0 < m → Zdigits2 m = 53 → -1074 ≤ e ≤ 971 → 0 ≤ n →
  binary_round_aux 53 1024 false (m * 2 ^ n) (e - n) loc_Exact = S754_finite false (Z.to_pos m) e.
Proof.
  intros Hm Hd He Hn. unfold binary_round_aux, shr_fexp, fexp, emin. rewrite digits_shift, Hd by lia. cbn [shr_record_of_loc].
  replace (Z.max (53 + n + (e - n) - 53) (3 - 1024 - 53) - (e - n)) with n by lia.
  rewrite shr_exact by lia. cbn [shr_m loc_of_shr_record round_nearest_even]. rewrite Hd.
  replace (Z.max (53 + (e - n + n) - 53) (3 - 1024 - 53) - (e - n + n)) with 0 by lia. cbn [shr shr_m].
  destruct m as [|p|]; [lia| |lia]. destruct (Z.leb_spec (e - n + n) (1024 - 53)); [|lia]. f_equal. lia.
Qed.

(** A number of 53 or 54 digits is cut to 53 and may be rounded up by one. *)
Lemma round_near q e l : 2 ^ 52 ≤ q < 2 ^ 54 → -1074 ≤ e ≤ 900 →
  ∃ s c m e', binary_round_aux 53 1024 false q e l = S754_finite false m e' ∧ 0 ≤ s ≤ 1 ∧ 0 ≤ c ≤ 1 ∧ e + s ≤ e' ≤ e + s + 1 ∧
    Zpos m * 2 ^ (e' - e - s) = q / 2 ^ s + c.
Proof.
  intros Hq He. set (s := if q <? 2 ^ 53 then 0 else 1).
  assert (Hs : 0 ≤ s ≤ 1) by (unfold s; destruct (q <? 2 ^ 53); lia).
  assert (Hds : Zdigits2 q = 53 + s).
  { apply digits_unique; [lia|]. unfold s. destruct (Z.ltb_spec q (2 ^ 53)); simpl; lia. }
  assert (Hq1 : 2 ^ 52 ≤ q / 2 ^ s < 2 ^ 53) by (unfold s; destruct (Z.ltb_spec q (2 ^ 53)); 
      (split; [apply Z.div_le_lower_bound|apply Z.div_lt_upper_bound]; lia)).
  assert (Hshr : ∃ r, shr_fexp 53 1024 q e l = (r, e + s) ∧ shr_m r = q / 2 ^ s).
  { unfold shr_fexp, fexp, emin. rewrite Hds. replace (Z.max (53 + s + e - 53) (3 - 1024 - 53) - e) with s by lia.
    assert (Hm : shr_m (shr_record_of_loc q l) = q) by (by destruct l as [|[]]). unfold s. destruct (q <? 2 ^ 53); simpl shr.
    - exists (shr_record_of_loc q l). rewrite Hm, Z.div_1_r, Z.add_0_r. done.
    - eexists. split; [done|]. rewrite shr_1_m; rewrite Hm; [done|lia]. }
  destruct Hshr as (r & Er & Hr). unfold binary_round_aux. rewrite Er.
  set (v := round_nearest_even (shr_m r) (loc_of_shr_record r)).
  assert (Hv : ∃ c, 0 ≤ c ≤ 1 ∧ v = q / 2 ^ s + c).
  { unfold v. rewrite Hr. destruct (loc_of_shr_record r) as [|[]]; simpl; [exists 0; lia| |exists 0; lia|exists 1; lia].
    destruct (Z.even _); [exists 0; lia|exists 1; lia]. }
  destruct Hv as (c & Hc & ->). exists s, c. set (x := q / 2 ^ s) in *. unfold shr_fexp, fexp, emin. cbn [shr_record_of_loc].
  destruct (decide (x + c = 2 ^ 53)) as [E|Hne].
  - rewrite E. change (Zdigits2 (2 ^ 53)) with 54. replace (Z.max (54 + (e + s) - 53) (3 - 1024 - 53) - (e + s)) with 1 by lia.
    change (2 ^ 53) with (2 ^ 52 * 2 ^ 1). rewrite shr_exact by lia. cbn [shr_m]. destruct (Z.leb_spec (e + s + 1) (1024 - 53)); [|lia].
    eexists _, _. split; [reflexivity|]. split_and!; try lia. replace (e + s + 1 - e - s) with 1 by lia. done.
  - rewrite (digits_unique (x + c) 53) by lia. replace (Z.max (53 + (e + s) - 53) (3 - 1024 - 53) - (e + s)) with 0 by lia.
    cbn [shr shr_m]. destruct (x + c) as [|p|] eqn:Ex; [lia| |lia]. destruct (Z.leb_spec (e + s) (1024 - 53)); [|lia].
    eexists _, _. split; [reflexivity|]. split_and!; try lia. replace (e + s - e - s) with 0 by lia. lia.
Qed.

(** ** Whole numbers *)

Definition mantissa (n : Z) : Z := n * 2 ^ (53 - Zdigits2 n).
Lemma mantissa_digits n : 0 < n < 2 ^ 53 → 0 < mantissa n ∧ Zdigits2 (mantissa n) = 53 ∧ 0 < Zdigits2 n ≤ 53.
Proof.
  intros Hn. destruct (digits_bounds n) as [H1 H2]; [lia|].
  assert (Zdigits2 n ≤ 53) by (destruct (Z.le_gt_cases (Zdigits2 n) 53); [done|]; pose proof (Z.pow_le_mono_r 2 53 (Zdigits2 n - 1)); lia).
  unfold mantissa. rewrite digits_shift by lia. pose proof (Z.pow_pos_nonneg 2 (53 - Zdigits2 n)). split_and!; nia || lia.
Qed.

Lemma float_of_whole n : 0 < n < 2 ^ 53 → float_of n = S754_finite false (Z.to_pos (mantissa n)) (Zdigits2 n - 53).
Proof.
  intros Hn. destruct (mantissa_digits n Hn) as (H1 & H2 & H3). destruct n as [|p|]; [lia| |lia].
  unfold float_of, binary_normalize, binary_round. set (d := Zdigits2 (Zpos p)) in *.
  assert (Hal : shl_align p 0 (fexp 53 1024 (Zpos (digits2_pos p) + 0)) = (Z.to_pos (mantissa (Zpos p)), d - 53)).
  { change (Zpos (digits2_pos p)) with d. unfold fexp, emin. replace (Z.max (d + 0 - 53) (3 - 1024 - 53)) with (d - 53) by lia.
    unfold shl_align, mantissa. fold d. destruct (d - 53 - 0) as [|k|k] eqn:Ek; [|lia|].
    - replace (53 - d) with 0 by lia. replace (d - 53) with 0 by lia. by rewrite Z.mul_1_r.
    - f_equal. replace (53 - d) with (Zpos k) by lia. clear. rewrite <- (Pos2Z.id (Pos.iter xO p k)). f_equal.
      induction k as [|k IH] using Pos.peano_ind; [simpl; lia|]. rewrite Pos.iter_succ, Pos2Z.inj_xO, IH, Pos2Z.inj_succ, Z.pow_succ_r; lia. }
  rewrite Hal. rewrite Z2Pos.id by done.
  replace (mantissa (Zpos p)) with (mantissa (Zpos p) * 2 ^ 0) at 1 by lia. replace (d - 53) with (d - 53 - 0) at 1 by lia.
  apply round_exact; done || lia.
Qed.

Lemma float_mul_whole a b : 0 < a → 0 < b → a * b < 2 ^ 53 → float_mul (float_of a) (float_of b) = float_of (a * b).
Proof.
  intros Ha Hb Hab. rewrite !float_of_whole by nia. destruct (mantissa_digits a) as (A1 & A2 & A3); [nia|]. destruct (mantissa_digits b) as (B1 & B2 & B3); [nia|].
  destruct (mantissa_digits (a * b)) as (C1 & C2 & C3); [nia|]. destruct (digits_bounds a Ha) as [_ Da]. destruct (digits_bounds b Hb) as [_ Db].
  destruct (digits_bounds (a * b)) as [_ Dc]; [nia|].
  assert (Hge : Zdigits2 a + Zdigits2 b - 1 ≤ Zdigits2 (a * b)).
  { destruct (Z.le_gt_cases (Zdigits2 a + Zdigits2 b - 1) (Zdigits2 (a * b))); [done|].
    assert (2 ^ Zdigits2 (a * b) ≤ 2 ^ (Zdigits2 a - 1) * 2 ^ (Zdigits2 b - 1)) by (rewrite <- Z.pow_add_r by lia; apply Z.pow_le_mono_r; lia).
    pose proof (Z.pow_pos_nonneg 2 (Zdigits2 a - 1)). pose proof (Z.pow_pos_nonneg 2 (Zdigits2 b - 1)). nia. }
  unfold float_mul, SFmul. rewrite Pos2Z.inj_mul, !Z2Pos.id by done. set (n := 53 - Zdigits2 a - Zdigits2 b + Zdigits2 (a * b)).
  replace (mantissa a * mantissa b) with (mantissa (a * b) * 2 ^ n).
  - replace (Zdigits2 a - 53 + (Zdigits2 b - 53)) with (Zdigits2 (a * b) - 53 - n) by lia. apply round_exact; done || lia.
  - unfold mantissa. transitivity (a * b * (2 ^ (53 - Zdigits2 (a * b)) * 2 ^ n)); [lia|]. rewrite <- Z.pow_add_r by lia.
    transitivity (a * b * (2 ^ (53 - Zdigits2 a) * 2 ^ (53 - Zdigits2 b))); [|lia]. rewrite <- Z.pow_add_r by lia. do 2 f_equal. lia.
Qed.

(** A hundredth, with some binary places and perhaps one unit more, truncated. *)
Lemma hundredth_floor t n c : 0 ≤ t → 7 ≤ n → 0 ≤ c ≤ 1 → (t * 2 ^ n / 100 + c) / 2 ^ n = t / 100.
Proof.
  intros Ht Hn Hc. assert (Hp : 128 ≤ 2 ^ n) by (change 128 with (2 ^ 7); by apply Z.pow_le_mono_r).
  pose proof (Z.div_mod t 100) as Ht1. pose proof (Z.mod_pos_bound t 100) as Ht2. set (u := t / 100) in *. set (f := t `mod` 100) in *.
  pose proof (Z.div_mod (t * 2 ^ n) 100) as Hq1. pose proof (Z.mod_pos_bound (t * 2 ^ n) 100) as Hq2.
  set (q := t * 2 ^ n / 100) in *. symmetry. apply (Z.div_unique _ _ _ (q + c - u * 2 ^ n)); [left|]; nia.
Qed.

Lemma float_hundredth unfit t : 0 ≤ t < 2 ^ 52 → uint64_of unfit (float_div (float_of t) (float_of 100)) = t / 100.
Proof.
  intros Ht. destruct (decide (t = 0)) as [->|Hne]; [done|]. rewrite (float_of_whole t) by lia.
  change (float_of 100) with (S754_finite false 7036874417766400 (-46)). destruct (mantissa_digits t) as (M1 & M2 & M3); [lia|].
  destruct (digits_bounds t) as [_ Dt]; [lia|]. set (d := Zdigits2 t) in *.
  assert (Hd : d ≤ 52) by (destruct (Z.le_gt_cases d 52); [done|]; pose proof (Z.pow_le_mono_r 2 52 (d - 1)); lia).
  unfold float_div, SFdiv, SFdiv_core_binary. rewrite Z2Pos.id by done. rewrite M2.
  change (Zdigits2 7036874417766400) with 53. unfold fexp, emin.
  replace (Z.min (Z.max (53 + (d - 53) - (53 + -46) - 53) (3 - 1024 - 53)) (d - 53 - -46)) with (d - 60) by lia.
  replace (d - 53 - -46 - (d - 60)) with 53 by lia. rewrite Z.shiftl_mul_pow2 by lia.
  set (l := new_location _). assert (Hq : mantissa t * 2 ^ 53 / 7036874417766400 = t * 2 ^ (60 - d) / 100).
  { unfold mantissa. fold d. change 7036874417766400 with (100 * 2 ^ 46). rewrite <- Z.mul_assoc, <- Z.pow_add_r by lia.
    replace (53 - d + 53) with (60 - d + 46) by lia. rewrite Z.pow_add_r, Z.mul_assoc, Z.div_mul_cancel_r by lia. done. }
  unfold Z.div in Hq at 1.
  destruct (Z.div_eucl (mantissa t * 2 ^ 53) 7036874417766400) as [q r]. subst q. change (xorb false false) with false.
  assert (Hrange : 2 ^ 59 ≤ t * 2 ^ (60 - d) < 2 ^ 60).
  { assert (H1 : 2 ^ 59 = 2 ^ (d - 1) * 2 ^ (60 - d)) by (rewrite <- Z.pow_add_r by lia; f_equal; lia).
    assert (H2 : 2 ^ 60 = 2 ^ d * 2 ^ (60 - d)) by (rewrite <- Z.pow_add_r by lia; f_equal; lia).
    rewrite H1, H2. pose proof (Z.pow_pos_nonneg 2 (60 - d)). nia. }
  destruct (round_near (t * 2 ^ (60 - d) / 100) (d - 60) (l r)) as (s & c & m & e' & -> & Hs & Hc & He & Hm);
    [split; [apply Z.div_le_lower_bound|apply Z.div_lt_upper_bound]; lia|lia|].
  rewrite Z.div_div in Hm by (pose proof (Z.pow_pos_nonneg 2 s); lia).
  replace (60 - d) with (60 - d - s + s) in Hm by lia. rewrite Z.pow_add_r, Z.mul_assoc, Z.div_mul_cancel_r in Hm by lia.
  pose proof (hundredth_floor t (60 - d - s) c ltac:(lia) ltac:(lia) Hc) as Hf. rewrite <- Hm in Hf.
  unfold uint64_of. rewrite Z.shiftl_div_pow2 by lia.
  replace (60 - d - s) with (- e' + (e' - (d - 60) - s)) in Hf by lia. rewrite Z.pow_add_r, Z.div_mul_cancel_r in Hf by lia.
  rewrite Hf. destruct (Z.ltb_spec (t / 100) (2 ^ 64)) as [|Hbig]; [done|].
  assert (t / 100 < 2 ^ 64) by (apply Z.div_lt_upper_bound; lia). lia.
Qed.
