(* ===== verification/FeeHistory.v ===== *)
(** * Gas prices for wallets
    (evmrpc/info.go, [GetReceiptWithRetry] of x/evm/keeper/receipt.go,
    [RPCContextProvider] of app/app.go)

    [eth_feeHistory] walks a window of blocks that ends at the requested one and
    reports, for each, the base fee and the priority fees its transactions paid
    at the requested percentiles of the gas; [eth_gasPrice] and
    [eth_maxPriorityFeePerGas] suggest prices from it.  Percentiles are float64
    (Float.v).

    The walk over the heights is an int64 loop: [None] stands for a loop that
    has not ended after as many rounds as the window has blocks, and
    [FeeHistory_window] shows that it ends. *)

From S2P Require Import Prelude Bytes Dec Store Params Keys World Keeper StateDB Fee Eth Block Instances EthTx Msg Receipts Heap Bloom Logs Float.
From Stdlib Require Import Strings.Byte Floats.SpecFloat.
Local Open Scope Z_scope.
Local Open Scope outcome_scope.

(** ** Percentiles of the gas *)

Record GasAndReward : Type := mkGasAndReward { gr_GasUsed : Z; gr_Reward : Z }.

(** [slices.SortStableFunc] by reward. *)
Fixpoint insert_reward (g : GasAndReward) (l : list GasAndReward) : list GasAndReward :=
  match l with
  | [] => [g]
  | h :: l' => if gr_Reward g <=? gr_Reward h then g :: l else h :: insert_reward g l'
  end.
Definition sort_rewards (l : list GasAndReward) : list GasAndReward := foldr insert_reward [] l.

Definition gas_threshold (unfit : float64 → Z) (total : Z) (p : float64) : Z :=
  uint64_of unfit (float_div (float_mul (float_of total) p) (float_of 100)).

(** The inner loop: at most one round for each transaction. *)
Fixpoint advance (rounds : nat) (gs : list GasAndReward) (threshold : Z) (txIndex : nat) (sumGasUsed : Z) : nat * Z :=
  match rounds with
  | O => (txIndex, sumGasUsed)
  | S r =>
      if (sumGasUsed <? threshold) && (txIndex <? length gs - 1)%nat then
        match gs !! S txIndex with
        | Some g => advance r gs threshold (S txIndex) (u64 (sumGasUsed + gr_GasUsed g))
        | None => (txIndex, sumGasUsed)
        end
      else (txIndex, sumGasUsed)
  end.

Fixpoint percentile_loop (gs : list GasAndReward) (thresholds : list Z) (txIndex : nat) (sumGasUsed : Z) : list Z :=
  match thresholds with
  | [] => []
  | t :: ts =>
      let '(i, s) := advance (length gs) gs t txIndex sumGasUsed in
      from_option gr_Reward 0 (gs !! i) :: percentile_loop gs ts i s
  end.

Definition CalculatePercentiles (unfit : float64 → Z) (rewardPercentiles : list float64) (GasAndRewards : list GasAndReward)
    (totalEVMGasUsed : Z) : list Z :=
  let gs := sort_rewards GasAndRewards in
  match gs with
  | [] => (λ _, 0) <$> rewardPercentiles
  | g :: _ => percentile_loop gs (gas_threshold unfit totalEVMGasUsed <$> rewardPercentiles) 0 (gr_GasUsed g)
  end.

(** ** Receipts that may not be there yet *)

(** [get] is what the store answers at each attempt. *)
Fixpoint retry_receipt (get : nat → Receipt + Err) (i left : nat) (lastErr : option Err) : option Receipt + Err :=
  match left with
  | O => match lastErr with None => inl None | Some e => inr e end
  | S l =>
      match get i with
      | inl r => inl (Some r)
      | inr e => if String.eqb e "not found" then retry_receipt get (S i) l (Some e) else inr e
      end
  end.
Definition GetReceiptWithRetry (get : nat → Receipt + Err) (maxRetries : nat) : option Receipt + Err :=
  retry_receipt get 0 maxRetries None.

(** ** The node *)

(** The context at a height: the latest one when there is none for it. *)
Definition RPCContextProvider {C : Type} (latest : C) (CreateQueryContext : Z → C + Err) (i : Z) : C :=
  if i =? -1 then latest else
  match CreateQueryContext i with inl c => c | inr _ => latest end.

(** What the calls ask of the node besides [Node]: the versions the bank store
    has, the gas limit of the consensus parameters of the latest context, the
    initial height of the genesis document, the latest block of the consensus
    client, the receipt store at the n-th attempt, the number that stands for the
    earliest block, and the configured number of blocks. *)
Record InfoAPI (B A R : Type) : Type := mkInfoAPI {
  ia_node : Node B A R;
  ia_bankVersionExists : Z → bool;
  ia_maxGas : option Z;
  ia_genesis : Z + Err;
  ia_latestBlock : option ResultBlock + Err;
  ia_receipts : nat → R;
  ia_earliest : Z;
  ia_maxBlocks : Z;
  ia_unfit : float64 → Z
}.
Arguments ia_node {B A R}. Arguments ia_bankVersionExists {B A R}. Arguments ia_maxGas {B A R}.
Arguments ia_genesis {B A R}. Arguments ia_latestBlock {B A R}. Arguments ia_receipts {B A R}.
Arguments ia_earliest {B A R}. Arguments ia_maxBlocks {B A R}. Arguments ia_unfit {B A R}.

Record FeeHistoryResult : Type := mkFeeHistoryResult {
  fh_OldestBlock : option Z;
  fh_Reward : list (list Z);
  fh_BaseFee : list Z;
  fh_GasUsedRatio : list float64
}.

Definition GasUsedRatio : float64 := S754_finite false 4503599627370496 (-53).
Definition defaultHighGasUsedThreshold : Z := 8500000.
Definition defaultPriorityFeePerGas : Z := 1000000000.

Section Info.
Context `{BK : BankKeeper B} `{AK : AccountKeeper A} `{EC : EthCrypto} `{CD : Codec} `{EH : EthHex} `{IL : IntLibs}.
Context `{SD : SdkDec} `{ET : EthTransactions T} `{TC : TxCodec} `{RS : ReceiptStore R}.
Variable api : InfoAPI B A R.
#[local] Notation nd := (ia_node api).

(** A context's height is the version its stores are asked for. *)
Definition CheckVersion (ctx : Z * World B A) : bool :=
  nd_VersionExists nd ctx.1 && ia_bankVersionExists api ctx.1.

Definition getEthTxForTxBz (height : Z) (tx : bytes) : outcome (option T) :=
  match nd_TxDecoder nd height tx with
  | inr _ => Ret None
  | inl [EVMMsg evmTx] =>
      let* assoc := IsAssociateTx evmTx in
      if assoc then Ret None else
      let* ethtx := AsTransaction evmTx in Ret (fst <$> ethtx)
  | inl _ => Ret None
  end.

Definition receipt_of (hash : Hash) : option Receipt + Err :=
  GetReceiptWithRetry (λ n, GetReceipt hash (ia_receipts api n) (nd_world nd)) 3.

(** One transaction of the block: nothing, or what it used and what it paid
    above the base fee. *)
Definition tx_reward (height baseFee : Z) (txbz : bytes) : outcome (option GasAndReward) :=
  let* ethtx := getEthTxForTxBz height txbz in
  match ethtx with
  | None => Ret None
  | Some t =>
      match receipt_of (tx_Hash t) with
      | inr _ => Ret None
      | inl None => Panic nil_deref
      | inl (Some receipt) =>
          if negb (rc_BlockNumber receipt =? u64 height) then Ret None else
          if rc_EffectiveGasPrice receipt <? baseFee then Ret None else
          Ret (Some (mkGasAndReward (rc_GasUsed receipt) (rc_EffectiveGasPrice receipt - baseFee)))
      end
  end.
Fixpoint txs_rewards (height baseFee : Z) (txs : list bytes) : outcome (list GasAndReward) :=
  match txs with
  | [] => Ret []
  | tx :: txs' =>
      let* g := tx_reward height baseFee tx in
      let* gs := txs_rewards height baseFee txs' in
      Ret (option_list g ++ gs)
  end.

(** The gas is added up in uint64. *)
Definition total_gas (gs : list GasAndReward) : Z := foldl (λ s g, u64 (s + gr_GasUsed g)) 0 gs.

Definition getRewards (block : ResultBlock) (baseFee : Z) (rewardPercentiles : list float64) : outcome (list Z) :=
  let* gs := txs_rewards (rb_Height block) baseFee (rb_Txs block) in
  Ret (CalculatePercentiles (ia_unfit api) rewardPercentiles gs (total_gas gs)).

(** A panic is no base fee. *)
Definition safeGetBaseFee (targetHeight : Z) : option Z :=
  match GetCurrBaseFeePerGas (nd_at nd targetHeight).2 with
  | Ret baseFee => Some (TruncateInt baseFee)
  | Panic _ => None
  end.

Definition blockByNumber (height : Z) : ResultBlock + Err := blockByNumberWithRetry nd height 0.

(** One block of the window. *)
Definition fee_step (rewardPercentiles : list float64) (blockNum : Z) (result : FeeHistoryResult) : outcome FeeHistoryResult :=
  let '(mkFeeHistoryResult oldest rewards baseFees ratios) := result in
  if negb (CheckVersion (nd_at nd blockNum)) then Ret result else
  let ratios := ratios ++ [GasUsedRatio] in
  match safeGetBaseFee blockNum with
  | None => Ret (mkFeeHistoryResult oldest rewards baseFees ratios)
  | Some baseFee =>
      let baseFees := baseFees ++ [baseFee] in
      match blockByNumber blockNum with
      | inr _ => Ret (mkFeeHistoryResult oldest rewards baseFees ratios)
      | inl block =>
          let* r := getRewards block baseFee rewardPercentiles in
          Ret (mkFeeHistoryResult oldest (rewards ++ [r]) baseFees ratios)
      end
  end.
Fixpoint fee_loop (rounds : nat) (rewardPercentiles : list float64) (blockNum lastBlockNumber : Z) (result : FeeHistoryResult)
    : option (outcome FeeHistoryResult) :=
  if lastBlockNumber <? blockNum then Some (Ret result) else
  match rounds with
  | O => None
  | S r =>
      match fee_step rewardPercentiles blockNum result with
      | Panic e => Some (Panic e)
      | Ret result' => fee_loop r rewardPercentiles (i64 (blockNum + 1)) lastBlockNumber result'
      end
  end.

Definition float_lt (a b : float64) : bool := SFltb a b.
Definition float_le (a b : float64) : bool := SFleb a b.

(** A percentile and the one before it. *)
Definition bad_percentile (prev : option float64) (p : float64) : bool :=
  float_lt p (float_of 0) || float_lt (float_of 100) p || match prev with Some q => float_le p q | None => false end.
Fixpoint bad_percentiles (prev : option float64) (ps : list float64) : bool :=
  match ps with
  | [] => false
  | p :: ps' => bad_percentile prev p || bad_percentiles (Some p) ps'
  end.

(** The last block of the window. *)
Definition last_block_number (genesisHeight lastBlock : Z) : Z :=
  let currentHeight := nd_latest nd in
  if bool_decide (lastBlock ∈ nd_tags nd) then currentHeight
  else if lastBlock =? ia_earliest api then genesisHeight
  else if currentHeight <? lastBlock then currentHeight else lastBlock.

Definition oldest_block (genesisHeight lastBlockNumber blockCount : Z) : Z :=
  if u64 (lastBlockNumber - genesisHeight) <? blockCount then genesisHeight
  else i64 (i64 (lastBlockNumber - i64 blockCount) + 1).

Definition FeeHistory (blockCount lastBlock : Z) (rewardPercentiles : list float64) : option (outcome (FeeHistoryResult + Err)) :=
  if blockCount <? 1 then Some (Ret (inl (mkFeeHistoryResult None [] [] []))) else
  let blockCount := if u64 (ia_maxBlocks api) <? blockCount then u64 (ia_maxBlocks api) else blockCount in
  if (100 <? length rewardPercentiles)%nat
  then Some (Ret (inr "rewardPercentiles length must be less than or equal to 100"%string)) else
  if bad_percentiles None rewardPercentiles
  then Some (Ret (inr "invalid reward percentiles: must be ascending and between 0 and 100"%string)) else
  match ia_genesis api with
  | inr e => Some (Ret (inr e))
  | inl genesisHeight =>
      let lastBlockNumber := last_block_number genesisHeight lastBlock in
      if lastBlockNumber <? genesisHeight then Some (Ret (inr "requested last block is before genesis height"%string)) else
      let oldest := oldest_block genesisHeight lastBlockNumber blockCount in
      match fee_loop (Z.to_nat (lastBlockNumber - oldest + 1)) rewardPercentiles oldest lastBlockNumber
              (mkFeeHistoryResult (Some oldest) [] [] []) with
      | None => None
      | Some o => Some (let* r := o in Ret (inl r))
      end
  end.

(** ** Suggested prices *)

(** The gas of the EVM transactions of the latest block. *)
Fixpoint congestion_gas (height : Z) (txs : list bytes) (total : Z) : outcome (Z + Err) :=
  match txs with
  | [] => Ret (inl total)
  | tx :: txs' =>
      let* ethtx := getEthTxForTxBz height tx in
      match ethtx with
      | None => congestion_gas height txs' total
      | Some t =>
          match receipt_of (tx_Hash t) with
          | inr e => Ret (inr e)
          | inl None => Panic nil_deref
          | inl (Some receipt) =>
              if negb (rc_BlockNumber receipt =? u64 height) then congestion_gas height txs' total
              else congestion_gas height txs' (u64 (total + rc_GasUsed receipt))
          end
      end
  end.
Definition getCongestionData : outcome (Z + Err) :=
  match ia_latestBlock api with
  | inr e => Ret (inr e)
  | inl None => Ret (inr "could not find block for height"%string)
  | inl (Some block) => congestion_gas (rb_Height block) (rb_Txs block) 0
  end.

Definition getCongestionThreshold : Z :=
  match ia_maxGas api with
  | Some maxGas => if 0 <? maxGas then u64 (Z.quot maxGas 10 * 8) else defaultHighGasUsedThreshold
  | None => defaultHighGasUsedThreshold
  end.

Definition GasPriceHelper (baseFee totalGasUsedPrevBlock medianRewardPrevBlock : Z) : Z :=
  if getCongestionThreshold <? totalGasUsedPrevBlock then medianRewardPrevBlock + baseFee
  else baseFee * 110 / 100.

Definition GasPrice (latestTag : Z) : option (outcome (Z + Err)) :=
  match GetCurrBaseFeePerGas (nd_world nd), getCongestionData with
  | Panic e, _ => Some (Panic e)
  | Ret _, Panic e => Some (Panic e)
  | Ret _, Ret (inr e) => Some (Ret (inr e))
  | Ret baseFee, Ret (inl totalGasUsed) =>
      match FeeHistory 1 latestTag [float_of 50] with
      | None => None
      | Some (Panic e) => Some (Panic e)
      | Some (Ret (inr e)) => Some (Ret (inr e))
      | Some (Ret (inl feeHist)) =>
          let medianReward := match fh_Reward feeHist with (r :: _) :: _ => r | _ => defaultPriorityFeePerGas end in
          Some (Ret (inl (GasPriceHelper (TruncateInt baseFee) totalGasUsed medianReward)))
      end
  end.

Definition MaxPriorityFeePerGas (latestTag : Z) : option (outcome (Z + Err)) :=
  match getCongestionData with
  | Panic e => Some (Panic e)
  | Ret (inr e) => Some (Ret (inr e))
  | Ret (inl totalGasUsed) =>
      if negb (getCongestionThreshold <? totalGasUsed) then Some (Ret (inl defaultPriorityFeePerGas)) else
      match FeeHistory 1 latestTag [float_of 50] with
      | None => None
      | Some (Panic e) => Some (Panic e)
      | Some (Ret (inr e)) => Some (Ret (inr e))
      | Some (Ret (inl feeHist)) => Some (Ret (inl (match fh_Reward feeHist with (r :: _) :: _ => r | _ => 0 end)))
      end
  end.

End Info.

(** ** Percentiles *)

Definition gas_sum (gs : list GasAndReward) : Z := foldr (λ g s, gr_GasUsed g + s) 0 gs.

(** The sum of the gas of a transaction and of all those before it. *)
Definition gas_up_to (gs : list GasAndReward) (j : nat) : Z := gas_sum (take (S j) gs).

(** The first transaction whose gas, with that of all those before it, is no
    less than [t]; the last one when there is none. *)
Definition lowest_index (gs : list GasAndReward) (t : Z) : nat :=
  match list_find (λ j, t ≤ gas_up_to gs j) (seq 0 (length gs)) with
  | Some (j, _) => j
  | None => length gs - 1
  end.
Definition percentile_reward (gs : list GasAndReward) (t : Z) : Z := from_option gr_Reward 0 (gs !! lowest_index gs t).

Fixpoint running_max (m : Z) (ts : list Z) : list Z :=
  match ts with [] => [] | t :: ts' => Z.max m t :: running_max (Z.max m t) ts' end.

Lemma running_max_sorted m ts : Sorted Z.le (m :: ts) → running_max m ts = ts.
Proof.
  revert m. induction ts as [|t ts IH]; intros m Hs; simpl; [done|].
  apply Sorted_inv in Hs as [Hs Hm]. apply HdRel_inv in Hm. rewrite Z.max_r by done. by rewrite IH.
Qed.

Lemma insert_reward_perm g l : insert_reward g l ≡ₚ g :: l.
Proof.
  induction l as [|h l IH]; simpl; [done|]. destruct (gr_Reward g <=? gr_Reward h); [done|].
  rewrite IH. apply Permutation_swap.
Qed.
Lemma sort_rewards_perm l : sort_rewards l ≡ₚ l.
Proof. induction l as [|g l IH]; simpl; [done|]. by rewrite insert_reward_perm, IH. Qed.

Definition lower_reward (g h : GasAndReward) : Prop := gr_Reward g ≤ gr_Reward h.

Lemma insert_reward_sorted g l : Sorted lower_reward l → Sorted lower_reward (insert_reward g l).
Proof.
  induction 1 as [|h l Hs IH Hh]; simpl; [by repeat constructor|].
  destruct (gr_Reward g <=? gr_Reward h) eqn:E.
  - apply Z.leb_le in E. by repeat constructor.
  - apply Z.leb_gt in E. constructor; [done|]. destruct Hh as [|h' l Hh]; simpl.
    + constructor. unfold lower_reward. lia.
    + destruct (gr_Reward g <=? gr_Reward h'); constructor; unfold lower_reward in *; lia.
Qed.
Lemma sort_rewards_sorted l : Sorted lower_reward (sort_rewards l).
Proof. induction l; simpl; [constructor|]. by apply insert_reward_sorted. Qed.

Lemma gas_sum_perm l k : l ≡ₚ k → gas_sum l = gas_sum k.
Proof. induction 1; simpl; lia. Qed.
Lemma gas_sum_app l k : gas_sum (l ++ k) = gas_sum l + gas_sum k.
Proof. induction l; simpl; lia. Qed.

(** What the first index with enough gas is. *)
Definition is_lowest (gs : list GasAndReward) (t : Z) (j : nat) : Prop :=
  (j < length gs)%nat ∧ (t ≤ gas_up_to gs j ∨ S j = length gs) ∧ ∀ k, (k < j)%nat → gas_up_to gs k < t.

Lemma is_lowest_index gs t j : is_lowest gs t j → lowest_index gs t = j.
Proof.
  intros (Hj & Hend & Hlow). unfold lowest_index.
  destruct (decide (t ≤ gas_up_to gs j)) as [Hr|Hr].
  - assert (list_find (λ j, t ≤ gas_up_to gs j) (seq 0 (length gs)) = Some (j, j)) as ->; [|done].
    apply list_find_Some. split_and!; [by apply lookup_seq|done|].
    intros k y Hk Hlt. apply lookup_seq in Hk as [-> Hk]. simpl. specialize (Hlow k Hlt). lia.
  - destruct Hend as [Hend|Hend]; [done|].
    assert (list_find (λ j, t ≤ gas_up_to gs j) (seq 0 (length gs)) = None) as ->; [|lia].
    apply list_find_None, Forall_forall. intros k Hk. apply elem_of_seq in Hk.
    destruct (decide (k = j)) as [->|]; [done|]. specialize (Hlow k ltac:(lia)). lia.
Qed.

Section Percentiles.
Variable gs : list GasAndReward.
Hypothesis gas_nonneg : Forall (λ g, 0 ≤ gr_GasUsed g) gs.
Hypothesis gas_fits : gas_sum gs ≤ maxUint64.

Lemma gas_sum_nonneg l : Forall (λ g, 0 ≤ gr_GasUsed g) l → 0 ≤ gas_sum l.
Proof. induction 1; simpl; lia. Qed.

Lemma gas_up_to_next j g : gs !! S j = Some g → gas_up_to gs (S j) = gas_up_to gs j + gr_GasUsed g.
Proof.
  intros Hg. unfold gas_up_to at 1. rewrite (take_S_r gs (S j) g) by done. rewrite gas_sum_app. simpl. unfold gas_up_to. lia.
Qed.
Lemma gas_up_to_u64 j : is_u64 (gas_up_to gs j).
Proof.
  pose proof gas_nonneg as Hn. unfold gas_up_to. rewrite <- (take_drop (S j) gs) in Hn. apply Forall_app in Hn as [H1 H2].
  apply gas_sum_nonneg in H1, H2. pose proof (gas_sum_app (take (S j) gs) (drop (S j) gs)) as E. rewrite take_drop in E.
  unfold is_u64, two64. unfold maxUint64 in gas_fits. lia.
Qed.

Lemma advance_lowest t rounds i :
  (i < length gs)%nat → (length gs - 1 - i ≤ rounds)%nat → (∀ k, (k < i)%nat → gas_up_to gs k < t) →
  ∃ j, advance rounds gs t i (gas_up_to gs i) = (j, gas_up_to gs j) ∧ is_lowest gs t j.
Proof.
  revert i. induction rounds as [|r IH]; intros i Hi Hr Hlow; simpl.
  - exists i. split; [done|]. split_and!; [done|lia|done].
  - destruct (Z.ltb_spec (gas_up_to gs i) t) as [Hlt|Hge]; simpl.
    2: { exists i. split; [done|]. split_and!; [done|by left|done]. }
    destruct (Nat.ltb_spec i (length gs - 1)) as [Hl|Hl].
    2: { exists i. split; [done|]. split_and!; [done|lia|done]. }
    destruct (lookup_lt_is_Some_2 gs (S i)) as [g Hg]; [lia|]. rewrite Hg.
    rewrite <- (gas_up_to_next _ _ Hg), u64_id by apply gas_up_to_u64.
    apply IH; [lia|lia|]. intros k Hk. destruct (decide (k = i)) as [->|]; [done|apply Hlow; lia].
Qed.

Lemma percentile_loop_spec ts m i :
  is_lowest gs m i → percentile_loop gs ts i (gas_up_to gs i) = percentile_reward gs <$> running_max m ts.
Proof.
  revert m i. induction ts as [|t ts IH]; intros m i Hi; simpl; [done|].
  assert (∃ j, advance (length gs) gs t i (gas_up_to gs i) = (j, gas_up_to gs j) ∧ is_lowest gs (Z.max m t) j) as (j & -> & Hj).
  { destruct Hi as (Hl & Hend & Hlow). destruct (Z.le_ge_cases m t) as [Hmt|Hmt].
    - rewrite Z.max_r by done. apply advance_lowest; [done|lia|]. intros k Hk. specialize (Hlow k Hk). lia.
    - rewrite Z.max_l by done. exists i. split; [|done]. destruct (length gs) as [|n] eqn:E; [lia|]. simpl.
      rewrite E. destruct Hend as [Hend|Hend].
      + assert (gas_up_to gs i <? t = false) as -> by (apply Z.ltb_ge; lia). done.
      + assert ((i <? S n - 1)%nat = false) as -> by (apply Nat.ltb_ge; lia). by rewrite andb_false_r. }
  rewrite (IH _ _ Hj). unfold percentile_reward at 2. by rewrite (is_lowest_index _ _ _ Hj).
Qed.

End Percentiles.

Lemma first_is_lowest gs g : Forall (λ g, 0 ≤ gr_GasUsed g) (g :: gs) → is_lowest (g :: gs) 0 0.
Proof.
  intros [Hg _]%Forall_cons. split_and!; [simpl; lia| |lia]. left. unfold gas_up_to. simpl. lia.
Qed.

(** The rewards in terms of the thresholds, whatever these are. *)
Lemma CalculatePercentiles_thresholds (unfit : float64 → Z) (ps : list float64) (gs : list GasAndReward) (total : Z) :
  Forall (λ g, 0 ≤ gr_GasUsed g) gs → gas_sum gs ≤ maxUint64 →
  CalculatePercentiles unfit ps gs total = percentile_reward (sort_rewards gs) <$> running_max 0 (gas_threshold unfit total <$> ps).
Proof.
  intros Hn Hfit. unfold CalculatePercentiles. rewrite <- (sort_rewards_perm gs) in Hn. rewrite <- (gas_sum_perm _ _ (sort_rewards_perm gs)) in Hfit.
  destruct (sort_rewards gs) as [|g l].
  - generalize 0 at 2. induction ps as [|p ps IH]; intros m; simpl; [done|]. f_equal. apply IH.
  - replace (gr_GasUsed g) with (gas_up_to (g :: l) 0) by (unfold gas_up_to; simpl; lia).
    apply percentile_loop_spec; [done..|]. by apply first_is_lowest.
Qed.

(** The threshold of a whole percentile is the share of the gas, rounded down. *)
Lemma gas_threshold_share unfit total k : 0 ≤ total < 2 ^ 45 → 0 ≤ k ≤ 100 → gas_threshold unfit total (float_of k) = total * k / 100.
Proof.
  intros Ht Hk. unfold gas_threshold. destruct (decide (total = 0)) as [->|]; [|destruct (decide (k = 0)) as [->|]].
  - destruct (decide (k = 0)) as [->|]; [done|]. by rewrite (float_of_whole k) by lia.
  - rewrite Z.mul_0_r. by rewrite (float_of_whole total) by lia.
  - assert (total * k < 2 ^ 52) by nia. rewrite float_mul_whole by lia. apply float_hundredth. lia.
Qed.

Lemma shares_sorted total ks : 0 ≤ total → Forall (λ k, 0 ≤ k ≤ 100) ks → Sorted Z.le ks → Sorted Z.le (0 :: ((λ k, total * k / 100) <$> ks)).
Proof.
  intros Ht Hks Hs. assert (Hs0 : Sorted Z.le (0 :: ks)) by (constructor; [done|]; destruct Hks; constructor; lia).
  replace (0 :: ((λ k, total * k / 100) <$> ks)) with ((λ k, total * k / 100) <$> 0 :: ks) by (rewrite fmap_cons, Z.mul_0_r; done).
  clear Hks Hs. induction Hs0 as [|k l _ IH Hk]; [constructor|]. rewrite fmap_cons. constructor; [done|].
  destruct Hk; constructor. apply Z.div_le_mono; nia.
Qed.


(** The share is rounded down: with three transactions of gas 1, 2 and 3, the first
    is reported at 18 percent, though its gas is less than 1.08. *)
Lemma percentile_rounds_down unfit :
  CalculatePercentiles unfit [float_of 18] [mkGasAndReward 1 10; mkGasAndReward 2 20; mkGasAndReward 3 30] 6 = [10] ∧
  1 * 100 < 6 * 18.
Proof. split; [vm_compute; reflexivity|lia]. Qed.

(** ** Windows *)

Section Window.
Context `{BK : BankKeeper B} `{AK : AccountKeeper A} `{EC : EthCrypto} `{CD : Codec} `{EH : EthHex} `{IL : IntLibs}.
Context `{SD : SdkDec} `{ET : EthTransactions T} `{TC : TxCodec} `{RS : ReceiptStore R}.
Variable api : InfoAPI B A R.
#[local] Notation nd := (ia_node api).

(** What the history says of a height. *)
Definition base_fee_at (h : Z) : option Z := if CheckVersion api (nd_at nd h) then safeGetBaseFee api h else None.
Definition block_at (h : Z) : option (ResultBlock * Z) :=
  base_fee_at h ≫= λ f, match blockByNumber api h with inl b => Some (b, f) | inr _ => None end.
Definition rewards_at (ps : list float64) (h : Z) : option (list Z) :=
  block_at h ≫= λ bf, match getRewards api bf.1 bf.2 ps with Ret r => Some r | Panic _ => None end.
Definition ratio_at (h : Z) : option float64 := if CheckVersion api (nd_at nd h) then Some GasUsedRatio else None.

Definition extend (ps : list float64) (h : Z) (r : FeeHistoryResult) : FeeHistoryResult :=
  mkFeeHistoryResult (fh_OldestBlock r) (fh_Reward r ++ option_list (rewards_at ps h))
    (fh_BaseFee r ++ option_list (base_fee_at h)) (fh_GasUsedRatio r ++ option_list (ratio_at h)).

Definition rewards_defined (ps : list float64) (h : Z) : Prop :=
  ∀ b f, block_at h = Some (b, f) → ∃ r, getRewards api b f ps = Ret r.

Lemma fee_step_extend ps h r : rewards_defined ps h → fee_step api ps h r = Ret (extend ps h r).
Proof.
  unfold rewards_defined, fee_step, extend, rewards_at, block_at, base_fee_at, ratio_at. intros Hd. destruct r as [o rw bf ra].
  destruct (CheckVersion api (nd_at nd h)); simpl in *; [|by rewrite !app_nil_r].
  destruct (safeGetBaseFee api h) as [f|]; simpl in *; [|by rewrite !app_nil_r].
  destruct (blockByNumber api h) as [b|e]; simpl in *; [|by rewrite !app_nil_r].
  destruct (Hd b f eq_refl) as [rs Hrs]. by rewrite Hrs.
Qed.

Lemma fee_loop_extend ps n h last r :
  last = h + Z.of_nat n - 1 → - 9223372036854775808 ≤ h → last < maxInt64 →
  (∀ k, h ≤ k ≤ last → rewards_defined ps k) →
  fee_loop api n ps h last r = Some (Ret (foldl (λ r k, extend ps k r) r (seqZ h (Z.of_nat n)))).
Proof.
  revert h r. induction n as [|n IH]; intros h r Hl Hlo Hhi Hd; cbn [fee_loop].
  - by replace (last <? h) with true by (symmetry; apply Z.ltb_lt; lia).
  - replace (last <? h) with false by (symmetry; apply Z.ltb_ge; lia).
    rewrite fee_step_extend by (apply Hd; lia). rewrite i64_id by lia. rewrite IH; [|lia|lia|lia|intros; apply Hd; lia].
    rewrite (seqZ_cons h (Z.of_nat (S n))) by lia. cbn [foldl]. by replace (Z.pred (Z.of_nat (S n))) with (Z.of_nat n) by lia.
Qed.

Lemma foldl_extend ps hs r :
  foldl (λ r k, extend ps k r) r hs =
    mkFeeHistoryResult (fh_OldestBlock r) (fh_Reward r ++ omap (rewards_at ps) hs)
      (fh_BaseFee r ++ omap base_fee_at hs) (fh_GasUsedRatio r ++ omap ratio_at hs).
Proof.
  revert r. induction hs as [|h hs IH]; intros r; simpl; [destruct r; simpl; by rewrite !app_nil_r|].
  rewrite IH. simpl. rewrite <- !app_assoc.
  by destruct (rewards_at ps h), (base_fee_at h), (ratio_at h).
Qed.

(** The number of blocks of a window. *)
Definition window_size (blockCount genesisHeight last : Z) : Z :=
  Z.min (Z.min blockCount (ia_maxBlocks api)) (last - genesisHeight + 1).

Lemma oldest_block_window g last blockCount :
  0 ≤ g ≤ last → last < maxInt64 → 1 ≤ blockCount ≤ maxInt64 →
  oldest_block g last blockCount = last - Z.min blockCount (last - g + 1) + 1.
Proof.
  intros Hg Hl Hb. unfold oldest_block. unfold maxInt64 in *. rewrite u64_id by (unfold is_u64, two64; lia).
  destruct (Z.ltb_spec (last - g) blockCount); [lia|].
  rewrite (i64_id blockCount), (i64_id (last - blockCount)), i64_id; unfold maxInt64; lia.
Qed.

(** C15: the fee history always ends, and covers the window of blocks that ends at
    the requested one: the requested number of blocks, cut to the configured
    maximum and at the genesis block.  Its base fees and rewards are those of the
    blocks of the window in order, blocks the node no longer has being left
    out. *)
Theorem FeeHistory_window (blockCount lastBlock g : Z) (ps : list float64) :
  let last := last_block_number api g lastBlock in
  let n := window_size blockCount g last in
  let window := seqZ (last - n + 1) n in
  ia_genesis api = inl g → 0 ≤ g ≤ last → nd_latest nd < maxInt64 → g < maxInt64 →
  1 ≤ blockCount → 1 ≤ ia_maxBlocks api ≤ maxInt64 →
  (length ps ≤ 100)%nat → bad_percentiles None ps = false →
  (∀ h, h ∈ window → rewards_defined ps h) →
  FeeHistory api blockCount lastBlock ps =
    Some (Ret (inl (mkFeeHistoryResult (Some (last - n + 1)) (omap (rewards_at ps) window) (omap base_fee_at window)
                      (omap ratio_at window)))) ∧
  length window = Z.to_nat n ∧ 1 ≤ n ≤ blockCount.
Proof.
  intros last n window Hgen Hg Hcur Hgm Hbc Hmb Hps Hbad Hd.
  assert (Hlast : last < maxInt64).
  { unfold last, last_block_number. destruct (bool_decide _); [lia|]. destruct (lastBlock =? _); [lia|].
    destruct (Z.ltb_spec (nd_latest nd) lastBlock); lia. }
  assert (Hn : 1 ≤ n ≤ blockCount) by (unfold n, window_size; lia).
  assert (Hw : 0 ≤ last - n + 1) by (unfold n, window_size; lia).
  split_and!; [|unfold window; apply length_seqZ|lia|lia]. unfold FeeHistory.
  replace (blockCount <? 1) with false by (symmetry; apply Z.ltb_ge; lia).
  replace (100 <? length ps)%nat with false by (symmetry; apply Nat.ltb_ge; lia).
  rewrite Hbad, Hgen. fold last. replace (last <? g) with false by (symmetry; apply Z.ltb_ge; lia).
  set (count := if u64 (ia_maxBlocks api) <? blockCount then u64 (ia_maxBlocks api) else blockCount).
  assert (count = Z.min blockCount (ia_maxBlocks api)) as Hc.
  { unfold count. rewrite u64_id by (unfold is_u64, two64; unfold maxInt64 in *; lia). destruct (Z.ltb_spec (ia_maxBlocks api) blockCount); lia. }
  rewrite oldest_block_window, Hc by (unfold maxInt64 in *; lia). fold (window_size blockCount g last) n.
  replace (last - (last - n + 1) + 1) with n by lia.
  rewrite fee_loop_extend; [|lia|lia|lia|].
  - rewrite foldl_extend. simpl. by rewrite Z2Nat.id by lia.
  - intros k Hk. apply Hd, elem_of_seqZ. lia.
Qed.

(** ** Suggested prices *)

Lemma tx_reward_nonneg height baseFee tx g : tx_reward api height baseFee tx = Ret (Some g) → 0 ≤ gr_Reward g.
Proof.
  unfold tx_reward. intros H. destruct (getEthTxForTxBz api height tx) as [[t|]|]; simpl in H; try done.
  destruct (receipt_of api (tx_Hash t)) as [[rc|]|]; try done. destruct (negb _); [done|].
  destruct (Z.ltb_spec (rc_EffectiveGasPrice rc) baseFee); [done|]. injection H as <-. simpl. lia.
Qed.
Lemma txs_rewards_nonneg height baseFee txs gs :
  txs_rewards api height baseFee txs = Ret gs → Forall (λ g, 0 ≤ gr_Reward g) gs.
Proof.
  revert gs. induction txs as [|tx txs IH]; intros gs; simpl; [by intros [= <-]|].
  destruct (tx_reward api height baseFee tx) as [g|] eqn:Eg; simpl; [|done].
  destruct (txs_rewards api height baseFee txs) as [gs'|]; simpl; [|done]. intros [= <-].
  apply Forall_app. split; [|by apply IH]. destruct g; constructor; [|done]. by eapply tx_reward_nonneg.
Qed.

Lemma percentile_loop_nonneg gs ts i s :
  Forall (λ g, 0 ≤ gr_Reward g) gs → Forall (Z.le 0) (percentile_loop gs ts i s).
Proof.
  intros Hgs. revert i s. induction ts as [|t ts IH]; intros i s; simpl; [done|].
  destruct (advance _ _ _ _ _) as [j s']. constructor; [|apply IH].
  destruct (gs !! j) as [g|] eqn:E; simpl; [|lia]. by eapply Forall_lookup_1 in Hgs.
Qed.

Lemma getRewards_nonneg b f ps r : getRewards api b f ps = Ret r → Forall (Z.le 0) r.
Proof.
  unfold getRewards. destruct (txs_rewards _ _ _ _) as [gs|] eqn:E; simpl; [|done]. intros [= <-].
  apply txs_rewards_nonneg in E. unfold CalculatePercentiles. rewrite <- (sort_rewards_perm gs) in E.
  destruct (sort_rewards gs); [|by apply percentile_loop_nonneg]. apply Forall_fmap, Forall_true. simpl. lia.
Qed.

Lemma fee_step_nonneg ps h r r' :
  fee_step api ps h r = Ret r' → Forall (Forall (Z.le 0)) (fh_Reward r) → Forall (Forall (Z.le 0)) (fh_Reward r').
Proof.
  unfold fee_step. destruct r as [o rw bf ra]. intros H Hr. repeat case_match; simplify_eq; simpl in *; try done.
  destruct (getRewards _ _ _ _) as [x|] eqn:E; simpl in *; [|done]. simplify_eq. simpl.
  apply Forall_app. split; [done|]. apply Forall_singleton. by eapply getRewards_nonneg.
Qed.
Lemma fee_loop_nonneg rounds ps h last r r' :
  fee_loop api rounds ps h last r = Some (Ret r') → Forall (Forall (Z.le 0)) (fh_Reward r) → Forall (Forall (Z.le 0)) (fh_Reward r').
Proof.
  revert h r. induction rounds as [|n IH]; intros h r; simpl; destruct (last <? h); try (by intros [= <-]); try done.
  destruct (fee_step api ps h r) as [r1|] eqn:E; [|done]. intros H Hr. eapply IH; [done|]. by eapply fee_step_nonneg.
Qed.
Lemma FeeHistory_nonneg blockCount lastBlock ps r :
  FeeHistory api blockCount lastBlock ps = Some (Ret (inl r)) → Forall (Forall (Z.le 0)) (fh_Reward r).
Proof.
  unfold FeeHistory. destruct (blockCount <? 1); [by intros [= <-]|]. destruct (100 <? _)%nat; [done|].
  destruct (bad_percentiles _ _); [done|]. destruct (ia_genesis api) as [g|]; [|done]. destruct (_ <? g); [done|].
  destruct (fee_loop _ _ _ _ _ _) as [[x|]|] eqn:E; simpl; try done. intros [= <-]. by eapply fee_loop_nonneg.
Qed.

(** The gas price suggested to wallets covers the base fee: whatever the
    latest blocks hold and whether the chain is congested or not, it is at least the
    whole part of the current base fee. *)
Theorem GasPrice_covers_base_fee (latestTag baseFee price : Z) :
  GetCurrBaseFeePerGas (nd_world nd) = Ret baseFee → 0 ≤ baseFee →
  GasPrice api latestTag = Some (Ret (inl price)) → TruncateInt baseFee ≤ price.
Proof.
  intros Hb Hpos. unfold GasPrice. rewrite Hb. destruct (getCongestionData api) as [[total|]|]; try done.
  destruct (FeeHistory _ _ _ _) as [[[h|]|]|] eqn:E; try done. intros [= <-].
  assert (0 ≤ TruncateInt baseFee) by (apply Z.quot_pos; unfold dec_one; lia).
  unfold GasPriceHelper. case_match; [|apply Z.div_le_lower_bound; lia].
  apply FeeHistory_nonneg in E. destruct (fh_Reward h) as [|[|r rs] l]; unfold defaultPriorityFeePerGas; [lia..|].
  apply Forall_cons in E as [[Hr _]%Forall_cons _]. lia.
Qed.

(** A height whose state cannot be loaded is reported with the base fee of the
    latest state when the latest version exists. *)
Lemma pruned_height_reports_latest create h e :
  (∀ k, nd_at nd k = RPCContextProvider (nd_latest nd, nd_world nd) create k) → create h = inr e →
  CheckVersion api (nd_latest nd, nd_world nd) = true →
  base_fee_at h = match GetCurrBaseFeePerGas (nd_world nd) with Ret f => Some (TruncateInt f) | Panic _ => None end.
Proof.
  intros Hat Hc Hv. unfold base_fee_at, safeGetBaseFee. rewrite Hat. unfold RPCContextProvider. rewrite Hc.
  destruct (h =? -1); by rewrite Hv.
Qed.

End Window.

(** * Examples *)

Section InfoExamples.
#[local] Existing Instances demo_bank_keeper demo_accounts demo_crypto live_config half_even_dec.
#[local] Existing Instances number_codec plain_hex strict_ints plain_transactions no_codec map_receipt_store.

(** A chain of blocks with one transaction each; block [h] has the transaction of
    nonce [h], which used [21000 * h] gas at a price of [3 + h] gwei. *)
Definition price_tx (h : Z) : MsgEVMTransaction :=
  mkMsgEVMTransaction (Some (mkAnyData (Some (TLegacy (mkLegacyTx h (Some 5000000000) 100000 "" (Some 5) []
    (big_Bytes 27) (big_Bytes 12345) (big_Bytes 67890)))) [])) None.
Definition price_hash (h : Z) : Hash := fit 32 (PutUint64 h).
Definition price_receipt (h : Z) : Receipt :=
  mkReceipt 2 0 "" "" (21000 * h) (3000000000 + h * 1000000000) h 0 1 "" "" "" [] [].
Definition price_receipts : kvstore :=
  foldr (λ h m, <[ReceiptKey (price_hash h) := Receipt_Marshal (price_receipt h)]> m) ∅ [1; 2; 3; 4; 5].
Definition price_node : Node demo_bank (gset bytes) kvstore :=
  mkNode _ _ _ 5 5 demo_world0 price_receipts (λ h, (h, demo_world0)) (λ _, true)
    (λ _ h, inl (Some (mkResultBlock [x0a] h [be_enc 8 h]))) (λ _ _, inr "no block"%string)
    (λ _ tx, inl [EVMMsg (price_tx (be_dec tx))]) (fit 32) [-4; -3; -2; -1].
Definition price_api : InfoAPI demo_bank (gset bytes) kvstore :=
  mkInfoAPI _ _ _ price_node (λ _, true) (Some 100000) (inl 1) (inl (Some (mkResultBlock [x0a] 5 [be_enc 8 5])))
    (λ _, price_receipts) 0 1024 (λ _, 0).


Lemma FeeHistory_window_witness :
  FeeHistory price_api 2 4 [float_of 50] =
    Some (Ret (inl (mkFeeHistoryResult (Some 3) [[5000000000]; [6000000000]] [1000000000; 1000000000] [GasUsedRatio; GasUsedRatio]))).
Proof.
  destruct (FeeHistory_window price_api 2 4 1 [float_of 50]) as [-> _].
  - reflexivity.
  - vm_compute. split; discriminate.
  - reflexivity.
  - reflexivity.
  - discriminate.
  - split; discriminate.
  - simpl. lia.
  - reflexivity.
  - intros h Hh b f Hb. assert (h = 3 ∨ h = 4) as [-> | ->].
    { apply elem_of_seqZ in Hh. change (3 ≤ h < 5) in Hh. lia. }
    + vm_compute in Hb. injection Hb as <- <-. eexists. vm_compute. reflexivity.
    + vm_compute in Hb. injection Hb as <- <-. eexists. vm_compute. reflexivity.
  - vm_compute. reflexivity.
Defined.

Lemma GasPrice_covers_base_fee_witness : TruncateInt 1000000000000000000000000000 ≤ 8000000000.
Proof.
  apply (GasPrice_covers_base_fee price_api (-2)).
  - vm_compute. reflexivity.
  - lia.
  - vm_compute. reflexivity.
Defined.
End InfoExamples.
