(* ===== verification/RpcTx.v ===== *)
(** * Transactions and receipts for wallets
    (evmrpc/tx.go and the helpers of evmrpc/utils.go)

    A block holds transactions of the EVM among others.  Wallets see only the
    former, numbered from zero, and find one by its number in a block, by its
    hash, or by its receipt, whose logs are numbered through the block.  All of
    them are computed from the block and the receipt store at each call.

    The metrics are not modelled, and neither is the signing of data with the keys
    of the node. *)

From S2P Require Import Prelude Bytes Dec Store Params Keys World Keeper StateDB Pending Fee Eth Block Instances EthTx Msg Receipts Heap Bloom Logs FeeHistory.
From Stdlib Require Import Strings.Byte.
Local Open Scope Z_scope.
Local Open Scope outcome_scope.

(** ** Data *)

(** [ethapi.RPCTransaction], the fields that are set here; a field that is not set
    is nil. *)
Record RPCTransaction : Type := mkRPCTransaction {
  rt_Type : Z; rt_From : Address; rt_Gas : Z; rt_GasPrice : option Z; rt_Hash : Hash; rt_Input : bytes; rt_Nonce : Z;
  rt_To : option Address; rt_Value : option Z; rt_V : option Z; rt_R : option Z; rt_S : option Z;
  rt_BlockHash : option Hash; rt_BlockNumber : option Z; rt_TransactionIndex : option Z
}.

(** The map that is returned for a receipt. *)
Record RpcReceipt : Type := mkRpcReceipt {
  rr_blockHash : Hash; rr_blockNumber : Z; rr_transactionHash : Hash; rr_transactionIndex : Z; rr_from : Address;
  rr_gasUsed : Z; rr_cumulativeGasUsed : Z; rr_logs : list FoundLog; rr_logsBloom : Bloom; rr_type : Z;
  rr_effectiveGasPrice : Z; rr_status : Z; rr_contractAddress : option Address; rr_to : option Address
}.

(** What go-ethereum gives: its form of a transaction in a block (with the time of
    the block, the number of the transaction, the base fee and the chain), and
    signers. *)
Class RpcLibs (T : Type) := {
  NewRPCTransaction : T → Hash → Z → Z → Z → Z → EthChainConfig → RPCTransaction;
  Signer : Type;
  MakeSigner : EthChainConfig → Z → Z → Signer;
  LatestSignerForChainID : Z → Signer;
  HomesteadSigner : Signer;
  FrontierSigner : Signer;
  Sender : Signer → T → Address + Err
}.

(** What the calls ask of the node besides [InfoAPI]: the name of the chain, the
    time of a block, the pages of the mempool, the pending nonces of the keeper and
    the number that stands for the pending block. *)
Record RpcAPI (B A R : Type) : Type := mkRpcAPI {
  ra_info : InfoAPI B A R;
  ra_ChainID : string;
  ra_time : ResultBlock → Z;
  ra_UnconfirmedTxs : Z → list bytes + Err;
  ra_pending : PendingState;
  ra_PendingBlockNumber : Z
}.
Arguments ra_info {B A R}. Arguments ra_ChainID {B A R}. Arguments ra_time {B A R}. Arguments ra_UnconfirmedTxs {B A R}.
Arguments ra_pending {B A R}. Arguments ra_PendingBlockNumber {B A R}.

(** A block by number or by hash. *)
Record BlockNumberOrHash : Type := mkBlockNumberOrHash { bn_BlockNumber : option Z; bn_BlockHash : option Hash }.

Definition ErrPanicTx : Err := "transaction is panic tx".
Definition UnconfirmedTxQueryMaxPage : nat := 20.

(** [strings.Contains(err.Error(), "not found")]. *)
Definition not_found (e : Err) : bool := match String.index 0 "not found" e with Some _ => true | None => false end.

Definition isReceiptFromAnteError (receipt : Receipt) : bool := rc_EffectiveGasPrice receipt =? 0.

Section RpcTx.
Context `{BK : BankKeeper B} `{AK : AccountKeeper A} `{EC : EthCrypto} `{CD : Codec} `{EH : EthHex} `{IL : IntLibs}.
Context `{SD : SdkDec} `{ET : EthTransactions T} `{TC : TxCodec} `{RS : ReceiptStore R} `{ER : EthReceipts} `{RL : RpcLibs T}.
Variable api : RpcAPI B A R.
#[local] Notation info := (ra_info api).
#[local] Notation nd := (ia_node (ra_info api)).
#[local] Notation eth_tx := (getEthTxForTxBz (ra_info api)).

(** ** Blocks (utils.go) *)

Definition getBlockNumber (number : Z) : option Z + Err :=
  if bool_decide (number ∈ nd_tags nd) then inl None
  else if number =? ia_earliest info then match ia_genesis info with inl g => inl (Some g) | inr e => inr e end
  else inl (Some number).

(** The block at a height, or the latest one; one attempt more after an error. *)
Definition block_at (height : option Z) : ResultBlock + Err :=
  match height with
  | Some h => blockByNumberWithRetry nd h 1
  | None =>
      match ia_latestBlock info with
      | inr e => inr e
      | inl None => inr "could not find block for height"%string
      | inl (Some b) => inl b
      end
  end.

Definition blockByHash (hash : Hash) : ResultBlock + Err := blockByHashWithRetry nd hash 0.

Definition GetBlockNumberByNrOrHash (b : BlockNumberOrHash) : outcome (option Z + Err) :=
  match bn_BlockHash b with
  | Some hash => Ret (match blockByHash hash with inl res => inl (Some (rb_Height res)) | inr e => inr e end)
  | None => match bn_BlockNumber b with Some n => Ret (getBlockNumber n) | None => Panic nil_deref end
  end.

(** ** Senders (utils.go) *)

Definition chain_config : EthChainConfig := EthereumConfig DefaultChainConfig (Some (GetEVMChainID (ra_ChainID api))).

Definition makeSignerForBlock (height blockTime : Z) : Signer := MakeSigner chain_config height (u64 blockTime).

Definition recoverSenderWithFallback (tx : T) (signer : Signer) : Address + Err :=
  match Sender signer tx with
  | inl from => inl from
  | inr _ =>
      let failed := inr "sender recovery failed"%string in
      if (tx_Type tx =? LegacyTxType) && negb (tx_Protected tx) then
        match Sender HomesteadSigner tx with
        | inl from => inl from
        | inr _ => match Sender FrontierSigner tx with inl from => inl from | inr _ => failed end
        end
      else failed
  end.

Definition recoverEVMSenderWithContext (tx : T) : Address + Err :=
  recoverSenderWithFallback tx (LatestSignerForChainID (GetEVMChainID (ra_ChainID api))).

(** ** The number of a transaction in its block *)

(** The store of receipts, read in a world. *)
Definition receipt_in (w : World B A) (hash : Hash) : Receipt + Err := GetReceipt hash (nd_receipts nd) w.
Definition checker (w : World B A) (hash : Hash) : option Receipt :=
  match receipt_in w hash with inl r => Some r | inr _ => None end.

(** A transaction of the block as the loop sees it: that of the EVM in it, if it
    is one, and its receipt. *)
Definition tx_receipt (receiptChecker : Hash → option Receipt) (height : Z) (tx : bytes) : outcome (option T * option Receipt) :=
  let* etx := eth_tx height tx in
  Ret (etx, receiptChecker (match etx with Some t => tx_Hash t | None => nd_sha256 nd tx end)).

(** The number of the transaction, its form, and the number of logs before it. *)
Fixpoint index_loop (receiptChecker : Hash → option Receipt) (includeSynthetic : bool) (height txIndex : Z)
    (txs : list bytes) (i evmTxIndex logIndex : Z) : outcome (option (Z * option T * Z)) :=
  match txs with
  | [] => Ret None
  | tx :: rest =>
      let* r := tx_receipt receiptChecker height tx in
      let '(etx, receipt) := r in
      let here := Ret (Some (evmTxIndex, etx, logIndex)) in
      let next := index_loop receiptChecker includeSynthetic height txIndex rest (i + 1) in
      let logs := match receipt with Some r => Z.of_nat (length (rc_Logs r)) | None => 0 end in
      match etx with
      | Some _ => if i =? txIndex then here else next (evmTxIndex + 1) (logIndex + logs)
      | None =>
          match receipt with
          | None => next evmTxIndex logIndex
          | Some _ =>
              if i =? txIndex then here
              else if includeSynthetic then next (evmTxIndex + 1) (logIndex + logs) else next evmTxIndex logIndex
          end
      end
  end.
Definition GetEvmTxIndex (txs : list bytes) (txIndex height : Z) (receiptChecker : Hash → option Receipt) (includeSynthetic : bool)
    : outcome (option (Z * option T * Z)) :=
  index_loop receiptChecker includeSynthetic height txIndex txs 0 0 0.

(** ** Receipts *)

Definition set_TransactionIndex (i : Z) (r : Receipt) : Receipt :=
  mkReceipt (rc_TxType r) (rc_CumulativeGasUsed r) (rc_ContractAddress r) (rc_TxHashHex r) (rc_GasUsed r) (rc_EffectiveGasPrice r)
    (rc_BlockNumber r) i (rc_Status r) (rc_From r) (rc_To r) (rc_VmError r) (rc_Logs r) (rc_LogsBloom r).

(** The texts of tendermint hashes are read back by [common.HexToHash]. *)
Definition encodeReceipt (receipt : Receipt) (block : ResultBlock) (height : Z) (receiptChecker : Hash → option Receipt)
    (includeSynthetic : bool) (signer : Signer) : outcome (RpcReceipt + Err) :=
  let bh := BytesToHash (rb_Hash block) in
  let* found := GetEvmTxIndex (rb_Txs block) (rc_TransactionIndex receipt) height receiptChecker includeSynthetic in
  match found with
  | None => Ret (inr "failed to find transaction in block"%string)
  | Some (evmTxIndex, etx, logIndexOffset) =>
      let receipt := set_TransactionIndex (u32 evmTxIndex) receipt in
      let logs := (λ l, mkFoundLog l bh) <$> GetLogsForTx receipt (u64 logIndexOffset) in
      let* bloom := BytesToBloom (rc_LogsBloom receipt) in
      let no_sender := String.eqb (rc_From receipt) "" in
      let recovered := match etx with Some t => if no_sender then Some t else None | None => None end in
      let from := match recovered with
                  | Some t => match recoverSenderWithFallback t signer with inl a => a | inr _ => HexToAddress (rc_From receipt) end
                  | None => HexToAddress (rc_From receipt)
                  end in
      let to := if negb (String.eqb (rc_To receipt) "") then Some (HexToAddress (rc_To receipt)) else recovered ≫= tx_To in
      let contract := if negb (String.eqb (rc_ContractAddress receipt) "") && String.eqb (rc_To receipt) ""
                      then Some (HexToAddress (rc_ContractAddress receipt)) else None in
      Ret (inl (mkRpcReceipt bh (rc_BlockNumber receipt) (HexToHash (rc_TxHashHex receipt)) (u64 evmTxIndex) from
             (rc_GasUsed receipt) (rc_CumulativeGasUsed receipt) logs bloom (rc_TxType receipt)
             (i64 (rc_EffectiveGasPrice receipt)) (rc_Status receipt) contract to))
  end.

(** The first transaction of the EVM with a hash. *)
Fixpoint find_eth_tx (height : Z) (hash : Hash) (txs : list bytes) : outcome (option T) :=
  match txs with
  | [] => Ret None
  | tx :: rest =>
      let* etx := eth_tx height tx in
      match etx with
      | Some t => if bool_decide (tx_Hash t = hash) then Ret (Some t) else find_eth_tx height hash rest
      | None => find_eth_tx height hash rest
      end
  end.

(** The receipt of a transaction that failed before it ran says nothing of its
    sender and recipient. *)
Definition with_parties (etx : T) (signer : Signer) (r : Receipt) : Receipt :=
  let '(from, to, contract) :=
    match recoverSenderWithFallback etx signer with
    | inl from =>
        match tx_To etx with
        | Some to => (addr_Hex from, addr_Hex to, ""%string)
        | None => (addr_Hex from, ""%string, addr_Hex (CreateAddress from (tx_Nonce etx)))
        end
    | inr _ => (rc_From r, rc_To r, rc_ContractAddress r)
    end in
  mkReceipt (u32 (tx_Type etx)) (rc_CumulativeGasUsed r) contract (rc_TxHashHex r) 0 (rc_EffectiveGasPrice r)
    (rc_BlockNumber r) (rc_TransactionIndex r) 0 from to (rc_VmError r) (rc_Logs r) (rc_LogsBloom r).

Definition getTransactionReceipt (hash : Hash) (isPanicTx : option (Hash → bool * option Err)) (includeSynthetic : bool)
    : outcome (option RpcReceipt + Err) :=
  let panic := match isPanicTx with
               | None => None
               | Some f => match f hash with
                           | (true, _) => Some ErrPanicTx
                           | (false, Some _) => Some "failed to check if tx is panic tx"%string
                           | (false, None) => None
                           end
               end in
  match panic with
  | Some e => Ret (inr e)
  | None =>
  match receipt_in (nd_world nd) hash with
  | inr e => Ret (if not_found e then inl None else inr e)
  | inl receipt =>
  let height := i64 (rc_BlockNumber receipt) in
  match block_at (Some height) with
  | inr e => Ret (inr e)
  | inl block =>
      let signer := makeSignerForBlock height (ra_time api block) in
      let* receipt :=
        if (rc_Status receipt =? 0) && (rc_GasUsed receipt =? 0) then
          let* etx := find_eth_tx (rb_Height block) hash (rb_Txs block) in
          Ret (match etx with Some t => with_parties t signer receipt | None => receipt end)
        else Ret receipt in
      let* r := encodeReceipt receipt block height (checker (nd_world nd)) includeSynthetic signer in
      Ret (match r with inl r => inl (Some r) | inr e => inr e end)
  end end end.

Definition GetTransactionReceiptExcludeTraceFail (isPanicTx : Hash → bool * option Err) (hash : Hash) : outcome (option RpcReceipt + Err) :=
  getTransactionReceipt hash (Some isPanicTx) true.
Definition GetTransactionReceipt (hash : Hash) : outcome (option RpcReceipt + Err) := getTransactionReceipt hash None false.

Definition GetVMError (hash : Hash) : string + Err :=
  match receipt_in (nd_world nd) hash with inl r => inl (rc_VmError r) | inr e => inr e end.
Definition GetTransactionErrorByHash (hash : Hash) : string + Err :=
  match receipt_in (nd_world nd) hash with
  | inl r => inl (rc_VmError r)
  | inr e => if not_found e then inl ""%string else inr e
  end.

(** ** Transactions *)

(** The form of a transaction that has a receipt. *)
Definition rpc_transaction (etx : T) (receipt : Receipt) (block : ResultBlock) (index : Z) : outcome RPCTransaction :=
  let height := i64 (rc_BlockNumber receipt) in
  let* fee := GetCurrBaseFeePerGas (nd_at nd height).2 in
  Ret (NewRPCTransaction etx (BytesToHash (rb_Hash block)) (u64 (rb_Height block)) (u64 (ra_time api block)) index
         (TruncateInt fee) chain_config).

Definition getTransactionWithBlockCosmosIndex (block : ResultBlock) (index : Z) : outcome (option RPCTransaction + Err) :=
  if Z.of_nat (length (rb_Txs block)) <=? i64 index then Ret (inl None) else
  if i64 index <? 0 then Panic "index out of range" else
  match rb_Txs block !! Z.to_nat (i64 index) with
  | None => Panic "index out of range"
  | Some tx =>
      let* ethtx := eth_tx (rb_Height block) tx in
      match ethtx with
      | None => Ret (inl None)
      | Some t =>
          match receipt_in (nd_world nd) (tx_Hash t) with
          | inr e => Ret (inr e)
          | inl receipt => let* r := rpc_transaction t receipt block (rc_TransactionIndex receipt) in Ret (inl (Some r))
          end
      end
  end.

Fixpoint nth_evm_tx (block : ResultBlock) (evmIndex : Z) (txs : list bytes) (evmCount : Z) : outcome (option RPCTransaction + Err) :=
  match txs with
  | [] => Ret (inl None)
  | tx :: rest =>
      let* ethtx := eth_tx (rb_Height block) tx in
      match ethtx with
      | None => nth_evm_tx block evmIndex rest evmCount
      | Some t =>
          if evmCount =? evmIndex then
            match receipt_in (nd_world nd) (tx_Hash t) with
            | inr e => Ret (inr e)
            | inl receipt => let* r := rpc_transaction t receipt block evmIndex in Ret (inl (Some r))
            end
          else nth_evm_tx block evmIndex rest (evmCount + 1)
      end
  end.
Definition getTransactionWithBlock (block : ResultBlock) (evmIndex : Z) : outcome (option RPCTransaction + Err) :=
  nth_evm_tx block evmIndex (rb_Txs block) 0.

Fixpoint evm_tx_by_hash (block : ResultBlock) (hash : Hash) (receipt : Receipt) (txs : list bytes) (evmIndex : Z) : outcome (option RPCTransaction) :=
  match txs with
  | [] => Ret None
  | tx :: rest =>
      let* ethtx := eth_tx (rb_Height block) tx in
      match ethtx with
      | None => evm_tx_by_hash block hash receipt rest evmIndex
      | Some t =>
          if bool_decide (tx_Hash t = hash) then let* r := rpc_transaction t receipt block evmIndex in Ret (Some r)
          else evm_tx_by_hash block hash receipt rest (evmIndex + 1)
      end
  end.
Definition getTransactionByHashFromBlock (hash : Hash) (receipt : Receipt) : outcome (option RPCTransaction + Err) :=
  match block_at (Some (i64 (rc_BlockNumber receipt))) with
  | inr e => Ret (inr e)
  | inl block => let* r := evm_tx_by_hash block hash receipt (rb_Txs block) 0 in Ret (inl r)
  end.

Definition by_number {X} (blockNr : Z) (f : ResultBlock → outcome (X + Err)) : outcome (X + Err) :=
  match getBlockNumber blockNr with
  | inr e => Ret (inr e)
  | inl blockNumber => match block_at blockNumber with inr e => Ret (inr e) | inl block => f block end
  end.
Definition by_hash {X} (blockHash : Hash) (f : ResultBlock → outcome (X + Err)) : outcome (X + Err) :=
  match blockByHash blockHash with inr e => Ret (inr e) | inl block => f block end.

Definition GetTransactionByBlockNumberAndIndex (blockNr index : Z) : outcome (option RPCTransaction + Err) :=
  by_number blockNr (λ block, getTransactionWithBlock block index).
Definition GetTransactionByBlockHashAndIndex (blockHash : Hash) (index : Z) : outcome (option RPCTransaction + Err) :=
  by_hash blockHash (λ block, getTransactionWithBlock block index).
(** The calls of the other name space count all transactions of the block. *)
Definition Tabi_GetTransactionByBlockNumberAndIndex (blockNr index : Z) : outcome (option RPCTransaction + Err) :=
  by_number blockNr (λ block, getTransactionWithBlockCosmosIndex block index).
Definition Tabi_GetTransactionByBlockHashAndIndex (blockHash : Hash) (index : Z) : outcome (option RPCTransaction + Err) :=
  by_hash blockHash (λ block, getTransactionWithBlockCosmosIndex block index).

(** A transaction that is not in a block yet. *)
Definition pending_transaction (etx : T) (from : Address) : RPCTransaction :=
  let '(v, r, s) := tx_RawSignatureValues etx in
  mkRPCTransaction (tx_Type etx) from (tx_Gas etx) (tx_GasPrice etx) (tx_Hash etx) (tx_Data etx) (tx_Nonce etx) (tx_To etx)
    (tx_Value etx) v r s None None None.

(** The pages of the mempool from one on, until an error or an empty page; [None]:
    it is not there. *)
Fixpoint mempool_loop (pages : nat) (page : Z) (hash : Hash) : outcome (option (RPCTransaction + Err)) :=
  match pages with
  | O => Ret None
  | S more =>
      match ra_UnconfirmedTxs api page with
      | inr _ | inl [] => Ret None
      | inl txs =>
          let* etx := find_eth_tx (-1) hash txs in
          match etx with
          | Some t =>
              Ret (Some (match recoverEVMSenderWithContext t with inr e => inr e | inl from => inl (pending_transaction t from) end))
          | None => mempool_loop more (page + 1) hash
          end
      end
  end.

Definition GetTransactionByHash (hash : Hash) : outcome (option RPCTransaction + Err) :=
  let* m := mempool_loop UnconfirmedTxQueryMaxPage 1 hash in
  match m with
  | Some (inl r) => Ret (inl (Some r))
  | Some (inr e) => Ret (inr e)
  | None =>
      match receipt_in (nd_world nd) hash with
      | inr e => Ret (if not_found e then inl None else inr e)
      | inl receipt => getTransactionByHashFromBlock hash receipt
      end
  end.

(** [None] as in [CalculateNextNonce]. *)
Definition GetTransactionCount (address : Address) (b : BlockNumberOrHash) : outcome (option Z + Err) :=
  let pending := bool_decide (bn_BlockHash b = None ∧ bn_BlockNumber b = Some (ra_PendingBlockNumber api)) in
  let* n := GetBlockNumberByNrOrHash b in
  match n with
  | inr e => Ret (inr e)
  | inl blkNr =>
      let ctx := match blkNr with Some h => Some (nd_at nd h) | None => None end in
      if match ctx with Some c => negb (CheckVersion info c) | None => false end
      then Ret (inr "evm or bank module does not exist on height"%string) else
      let* nonce := Keeper.GetNonce (match ctx with Some c => c.2 | None => nd_world nd end) address in
      Ret (inl (CalculateNextNonce (ra_pending api) nonce address pending))
  end.

End RpcTx.

(** * The numbers of a block *)

Section Numbers.
Context `{BK : BankKeeper B} `{AK : AccountKeeper A} `{EC : EthCrypto} `{CD : Codec} `{EH : EthHex} `{IL : IntLibs}.
Context `{SD : SdkDec} `{ET : EthTransactions T} `{TC : TxCodec} `{RS : ReceiptStore R} `{ER : EthReceipts} `{RL : RpcLibs T}.
Variable api : RpcAPI B A R.
#[local] Notation info := (ra_info api).
#[local] Notation nd := (ia_node (ra_info api)).
#[local] Notation eth_tx := (getEthTxForTxBz (ra_info api)).

(** The transaction of the EVM in a transaction, when it can be read. *)
Definition evm_of (height : Z) (tx : bytes) : option T := match eth_tx height tx with Ret o => o | Panic _ => None end.
Definition readable (height : Z) (tx : bytes) : Prop := is_ret (eth_tx height tx) = true.

Lemma readable_eq height tx : readable height tx → eth_tx height tx = Ret (evm_of height tx).
Proof. unfold readable, evm_of. by destruct (eth_tx height tx). Qed.

Section Index.
Variable (chk : Hash → option Receipt) (synthetic : bool) (height : Z).

Definition receipt_at (tx : bytes) : option Receipt := chk (match evm_of height tx with Some t => tx_Hash t | None => nd_sha256 nd tx end).
(** A transaction that is found, one that has a number, and its logs. *)
Definition listed (tx : bytes) : bool := bool_decide (is_Some (evm_of height tx)) || bool_decide (is_Some (receipt_at tx)).
Definition counted (tx : bytes) : bool :=
  bool_decide (is_Some (evm_of height tx)) || (synthetic && bool_decide (is_Some (receipt_at tx))).
Definition log_count (tx : bytes) : Z :=
  if counted tx then match receipt_at tx with Some r => Z.of_nat (length (rc_Logs r)) | None => 0 end else 0.
Definition count_of (txs : list bytes) : Z := Z.of_nat (length (filter (λ tx, counted tx = true) txs)).
Definition logs_of_txs (txs : list bytes) : Z := foldr (λ tx n, log_count tx + n) 0 txs.

Lemma count_of_cons tx txs : count_of (tx :: txs) = (if counted tx then 1 else 0) + count_of txs.
Proof.
  unfold count_of. destruct (counted tx) eqn:E; [rewrite filter_cons_True by done; simpl; lia|].
  by rewrite filter_cons_False by congruence.
Qed.

(** A step of the loop at a transaction that can be read. *)
Lemma index_loop_step k tx txs i e l : readable height tx →
  index_loop api chk synthetic height k (tx :: txs) i e l =
  if (i =? k) && listed tx then Ret (Some (e, evm_of height tx, l))
  else index_loop api chk synthetic height k txs (i + 1) (e + if counted tx then 1 else 0) (l + log_count tx).
Proof.
  intros Ht. cbn [index_loop]. unfold tx_receipt. rewrite (readable_eq _ _ Ht). cbn [outcome_bind]. fold (receipt_at tx).
  unfold log_count, counted, listed. destruct (evm_of height tx) as [t|]; cbn -[Z.of_nat]; [by destruct (i =? k)|].
  destruct (receipt_at tx) as [r|]; cbn -[Z.of_nat]; [|by destruct (i =? k), synthetic; cbn; rewrite ?Z.add_0_r].
  destruct (i =? k); [done|]. destruct synthetic; simpl; [done|]. by rewrite !Z.add_0_r.
Qed.

Lemma index_loop_past k txs i e l : Forall (readable height) txs → k < i → index_loop api chk synthetic height k txs i e l = Ret None.
Proof.
  intros Hr. revert i e l. induction Hr as [|tx txs Ht Hr IH]; intros i e l Hk; [done|].
  rewrite index_loop_step by done. destruct (Z.eqb_spec i k); [lia|]. simpl. apply IH. lia.
Qed.

Lemma index_loop_spec txs n i e l : Forall (readable height) txs →
  index_loop api chk synthetic height (i + Z.of_nat n) txs i e l =
  Ret (match txs !! n with
       | Some tx => if listed tx then Some (e + count_of (take n txs), evm_of height tx, l + logs_of_txs (take n txs)) else None
       | None => None
       end).
Proof.
  intros Hr. revert n i e l. induction Hr as [|tx txs Ht Hr IH]; intros n i e l; [done|].
  rewrite index_loop_step by done. destruct n as [|n].
  - rewrite Z.add_0_r, Z.eqb_refl. simpl. destruct (listed tx); [by rewrite !Z.add_0_r|]. by rewrite index_loop_past by (done || lia).
  - destruct (Z.eqb_spec i (i + Z.of_nat (S n))); [lia|]. cbn [andb].
    replace (i + Z.of_nat (S n)) with (i + 1 + Z.of_nat n) by lia. rewrite IH. cbn [lookup list_lookup take].
    destruct (txs !! n) as [tx'|]; [|done]. destruct (listed tx'); [|done]. rewrite count_of_cons. cbn [logs_of_txs foldr].
    fold (logs_of_txs (take n txs)). by rewrite !Z.add_assoc.
Qed.

(** The number of a transaction is that of the counted ones before it, and the
    first number of its logs that of the logs of those. *)
Lemma GetEvmTxIndex_spec txs n : Forall (readable height) txs →
  GetEvmTxIndex api txs (Z.of_nat n) height chk synthetic =
  Ret (match txs !! n with
       | Some tx => if listed tx then Some (count_of (take n txs), evm_of height tx, logs_of_txs (take n txs)) else None
       | None => None
       end).
Proof.
  intros Hr. unfold GetEvmTxIndex. rewrite <- (Z.add_0_l (Z.of_nat n)), index_loop_spec by done. simpl.
  by destruct (txs !! n).
Qed.
End Index.

(** ** A block whose transactions have their receipts *)

#[local] Notation w := (nd_world (ia_node (ra_info api))).

(** A receipt of the [n]-th transaction of a block at a height: its logs are
    numbered from zero. *)
Record placed (height : Z) (n : nat) (r : Receipt) : Prop := {
  pl_index : rc_TransactionIndex r = Z.of_nat n;
  pl_number : rc_BlockNumber r = height;
  pl_bloom : is_ret (BytesToBloom (rc_LogsBloom r)) = true;
  pl_logs : rl_Index <$> rc_Logs r = seqZ 0 (Z.of_nat (length (rc_Logs r)))
}.

#[local] Notation total b := (logs_of_txs (checker api w) false (rb_Height b) (rb_Txs b)).

Record rpc_block (b : ResultBlock) : Prop := {
  rb_found : block_at api (Some (rb_Height b)) = inl b;
  rb_height : 0 ≤ rb_Height b ≤ maxInt64;
  rb_readable : Forall (readable (rb_Height b)) (rb_Txs b);
  rb_receipts : ∀ n tx t, rb_Txs b !! n = Some tx → evm_of (rb_Height b) tx = Some t →
    ∃ r, receipt_in api w (tx_Hash t) = inl r ∧ placed (rb_Height b) n r;
  rb_count : Z.of_nat (length (rb_Txs b)) < 2 ^ 32;
  rb_logs : total b < two64
}.

(** The transactions of the EVM in a list. *)
Definition evm_txs (height : Z) (txs : list bytes) : list T := omap (evm_of height) txs.

Lemma counted_eth chk height tx : counted chk false height tx = bool_decide (is_Some (evm_of height tx)).
Proof. unfold counted. by rewrite orb_false_r. Qed.
Lemma evm_txs_cons height tx txs : evm_txs height (tx :: txs) = option_list (evm_of height tx) ++ evm_txs height txs.
Proof. unfold evm_txs. simpl. by destruct (evm_of height tx). Qed.
Lemma count_evm chk height txs : count_of chk false height txs = Z.of_nat (length (evm_txs height txs)).
Proof.
  induction txs as [|tx txs IH]; [done|]. rewrite count_of_cons, counted_eth, IH, evm_txs_cons, length_app.
  destruct (evm_of height tx); cbn -[Z.of_nat]; lia.
Qed.
Lemma evm_txs_length height txs : (length (evm_txs height txs) ≤ length txs)%nat.
Proof. induction txs as [|tx txs IH]; [done|]. rewrite evm_txs_cons, length_app. destruct (evm_of height tx); simpl; lia. Qed.
Lemma log_count_nonneg chk synthetic height tx : 0 ≤ log_count chk synthetic height tx.
Proof. unfold log_count. destruct (counted _ _ _ _); [|done]. destruct (receipt_at _ _ _); lia. Qed.
Lemma logs_of_txs_cons chk synthetic height tx txs :
  logs_of_txs chk synthetic height (tx :: txs) = log_count chk synthetic height tx + logs_of_txs chk synthetic height txs.
Proof. done. Qed.
Lemma logs_of_txs_app chk synthetic height l k :
  logs_of_txs chk synthetic height (l ++ k) = logs_of_txs chk synthetic height l + logs_of_txs chk synthetic height k.
Proof. induction l as [|tx l IH]; simpl; lia. Qed.
Lemma logs_of_txs_nonneg chk synthetic height l : 0 ≤ logs_of_txs chk synthetic height l.
Proof. induction l as [|tx l IH]; simpl; [done|]. pose proof (log_count_nonneg chk synthetic height tx). lia. Qed.

(** The logs of a receipt, with the number of its transaction and of its first
    log. *)
Definition numbered_logs (b : ResultBlock) (r : Receipt) (index first : Z) : list FoundLog :=
  (λ l, mkFoundLog (set_TxIndex index l) (BytesToHash (rb_Hash b))) <$> GetLogsForTx r first.

Lemma numbered_set_index b r r' i first :
  rc_Logs r' = rc_Logs r → rc_BlockNumber r' = rc_BlockNumber r → rc_TxHashHex r' = rc_TxHashHex r →
  (λ l, mkFoundLog l (BytesToHash (rb_Hash b))) <$> GetLogsForTx (set_TransactionIndex i r') first = numbered_logs b r i first.
Proof.
  intros Hl Hb Hh. unfold numbered_logs, GetLogsForTx. rewrite <- !list_fmap_compose. cbn [set_TransactionIndex rc_Logs]. rewrite Hl.
  apply list_fmap_ext. intros j l _. unfold compose, convertLog, set_TxIndex. simpl. by rewrite Hb, Hh.
Qed.

Lemma find_eth_tx_ret height hash txs : Forall (readable height) txs → is_ret (find_eth_tx api height hash txs) = true.
Proof.
  induction 1 as [|tx txs Ht _ IH]; [done|]. cbn [find_eth_tx]. rewrite (readable_eq _ _ Ht). cbn [outcome_bind].
  destruct (evm_of height tx); [by case_bool_decide|done].
Qed.

Lemma with_parties_keeps etx signer r : let r' := with_parties etx signer r in
  rc_Logs r' = rc_Logs r ∧ rc_BlockNumber r' = rc_BlockNumber r ∧ rc_TxHashHex r' = rc_TxHashHex r ∧
  rc_TransactionIndex r' = rc_TransactionIndex r ∧ rc_LogsBloom r' = rc_LogsBloom r.
Proof. unfold with_parties. destruct (recoverSenderWithFallback etx signer); [destruct (tx_To etx)|]; by split_and!. Qed.

Section Block.
Variable b : ResultBlock.
Hypothesis Hb : rpc_block b.
#[local] Notation h := (rb_Height b).
#[local] Notation chk := (checker api (nd_world (ia_node (ra_info api)))).
(** The numbers of the transactions and of the logs before the [n]-th. *)
Definition evm_index (n : nat) : Z := Z.of_nat (length (evm_txs h (take n (rb_Txs b)))).
Definition first_log (n : nat) : Z := logs_of_txs chk false h (take n (rb_Txs b)).

Lemma evm_index_range n : 0 ≤ evm_index n < 2 ^ 32.
Proof.
  pose proof (evm_txs_length h (take n (rb_Txs b))). rewrite length_take in H. pose proof (rb_count b Hb). unfold evm_index. lia.
Qed.
Lemma first_log_range n : 0 ≤ first_log n < two64.
Proof.
  pose proof (rb_logs b Hb) as Hl. rewrite <- (take_drop n (rb_Txs b)), logs_of_txs_app in Hl.
  pose proof (logs_of_txs_nonneg chk false h (drop n (rb_Txs b))). pose proof (logs_of_txs_nonneg chk false h (take n (rb_Txs b))).
  unfold first_log. lia.
Qed.

Lemma encode_placed n tx t r r' signer :
  rb_Txs b !! n = Some tx → evm_of h tx = Some t → placed h n r →
  rc_Logs r' = rc_Logs r → rc_BlockNumber r' = rc_BlockNumber r → rc_TxHashHex r' = rc_TxHashHex r →
  rc_TransactionIndex r' = rc_TransactionIndex r → rc_LogsBloom r' = rc_LogsBloom r →
  ∃ x, encodeReceipt api r' b h chk false signer = Ret (inl x) ∧ rr_transactionIndex x = evm_index n ∧
    rr_logs x = numbered_logs b r (evm_index n) (first_log n).
Proof.
  intros Hn Ht Hp Hl Hbn Hh Hi Hbl. unfold encodeReceipt. rewrite Hi, (pl_index _ _ _ Hp), (GetEvmTxIndex_spec _ _ _ _ _ (rb_readable b Hb)), Hn.
  assert (listed chk h tx = true) as -> by (unfold listed; by rewrite Ht). cbn [outcome_bind]. rewrite count_evm.
  fold (evm_index n) (first_log n). unfold u32, u64. pose proof (evm_index_range n). pose proof (first_log_range n).
  rewrite !Z.mod_small by (unfold two64 in *; lia). cbn [set_TransactionIndex rc_LogsBloom]. rewrite Hbl.
  pose proof (pl_bloom _ _ _ Hp). destruct (BytesToBloom (rc_LogsBloom r)); [|done]. cbn [outcome_bind].
  eexists. split; [reflexivity|]. cbn [rr_transactionIndex rr_logs]. split; [done|]. by apply numbered_set_index.
Qed.

(** The receipt of a transaction of the block. *)
Lemma receipt_served n tx t : rb_Txs b !! n = Some tx → evm_of h tx = Some t →
  ∃ r x, receipt_in api w (tx_Hash t) = inl r ∧ placed h n r ∧ GetTransactionReceipt api (tx_Hash t) = Ret (inl (Some x)) ∧
    rr_transactionIndex x = evm_index n ∧ rr_logs x = numbered_logs b r (evm_index n) (first_log n).
Proof.
  intros Hn Ht. destruct (rb_receipts b Hb n tx t Hn Ht) as (r & Hr & Hp). exists r.
  unfold GetTransactionReceipt, getTransactionReceipt. rewrite Hr, (pl_number _ _ _ Hp).
  assert (i64 h = h) as -> by (pose proof (rb_height b Hb); apply i64_id; unfold maxInt64 in *; lia).
  rewrite (rb_found b Hb). set (signer := makeSignerForBlock api h (ra_time api b)).
  pose proof (find_eth_tx_ret h (tx_Hash t) (rb_Txs b) (rb_readable b Hb)) as Hf.
  destruct (find_eth_tx api h (tx_Hash t) (rb_Txs b)) as [o|]; [|done]. cbn [outcome_bind].
  assert (∃ r', (if (rc_Status r =? 0) && (rc_GasUsed r =? 0)
      then Ret (match o with Some t' => with_parties t' signer r | None => r end) else Ret r) = Ret r' ∧
    rc_Logs r' = rc_Logs r ∧ rc_BlockNumber r' = rc_BlockNumber r ∧ rc_TxHashHex r' = rc_TxHashHex r ∧
    rc_TransactionIndex r' = rc_TransactionIndex r ∧ rc_LogsBloom r' = rc_LogsBloom r) as (r' & Hr' & H1 & H2 & H3 & H4 & H5).
  { destruct ((rc_Status r =? 0) && (rc_GasUsed r =? 0)); [destruct o as [t'|]|]; eexists; (split; [reflexivity|]); try done.
    apply with_parties_keeps. }
  rewrite Hr'. cbn [outcome_bind]. destruct (encode_placed n tx t r r' signer Hn Ht Hp H1 H2 H3 H4 H5) as (x & Hx & Hi & Hl).
  exists x. rewrite Hx. by split_and!.
Qed.

Lemma evm_index_step n tx : rb_Txs b !! n = Some tx → evm_index (S n) = evm_index n + Z.of_nat (length (option_list (evm_of h tx))).
Proof.
  intros Hn. unfold evm_index. rewrite (take_S_r _ _ _ Hn). unfold evm_txs. rewrite omap_app, length_app. simpl.
  destruct (evm_of h tx); simpl; lia.
Qed.
Lemma first_log_step n tx : rb_Txs b !! n = Some tx → first_log (S n) = first_log n + log_count chk false h tx.
Proof. intros Hn. unfold first_log. rewrite (take_S_r _ _ _ Hn), logs_of_txs_app. simpl. lia. Qed.

(** The logs of a receipt are numbered from the first. *)
Lemma numbered_indices n r i first : placed h n r → 0 ≤ first → first + Z.of_nat (length (rc_Logs r)) ≤ two64 →
  (λ l, l_Index (lg_log (fl_log l))) <$> numbered_logs b r i first = seqZ first (Z.of_nat (length (rc_Logs r))).
Proof.
  intros Hp H0 H1. unfold numbered_logs, GetLogsForTx. rewrite <- !list_fmap_compose.
  transitivity ((λ k, u64 (k + first)) <$> (rl_Index <$> rc_Logs r)); [by rewrite <- list_fmap_compose|].
  rewrite (pl_logs _ _ _ Hp). set (len := Z.of_nat (length (rc_Logs r))) in *.
  transitivity (Z.add first <$> seqZ 0 len); [|by rewrite fmap_add_seqZ, Z.add_0_r].
  apply list_fmap_ext. intros k z [-> Hz]%lookup_seqZ. unfold u64. rewrite Z.mod_small; lia.
Qed.

(** The receipts of the transactions from the [n]-th on, and their logs. *)
Definition unskipped : Prop :=
  ∀ t r, t ∈ evm_txs h (rb_Txs b) → receipt_in api w (tx_Hash t) = inl r → skip_receipt false r = false.
Record served_from (n : nat) (rs : list RpcReceipt) : Prop := {
  sf_served : Forall2 (λ t x, GetTransactionReceipt api (tx_Hash t) = Ret (inl (Some x))) (evm_txs h (drop n (rb_Txs b))) rs;
  sf_index : rr_transactionIndex <$> rs = seqZ (evm_index n) (Z.of_nat (length rs));
  sf_logs : (λ l, l_Index (lg_log (fl_log l))) <$> mjoin (rr_logs <$> rs)
            = seqZ (first_log n) (logs_of_txs chk false h (drop n (rb_Txs b)));
  sf_all : unskipped → mjoin (rr_logs <$> rs) = (λ l, mkFoundLog l (BytesToHash (rb_Hash b))) <$>
             all_logs_of nd false (tx_Hash <$> evm_txs h (drop n (rb_Txs b))) (first_log n) (evm_index n)
}.

Lemma log_count_evm tx t r : evm_of h tx = Some t → receipt_in api w (tx_Hash t) = inl r →
  log_count chk false h tx = Z.of_nat (length (rc_Logs r)).
Proof. intros Ht Hr. unfold log_count, counted, receipt_at, checker. by rewrite Ht, Hr. Qed.

Lemma served_step n tx rs : rb_Txs b !! n = Some tx → served_from (S n) rs → ∃ rs', served_from n rs'.
Proof.
  intros Hn [H1 H2 H3 H4]. pose proof (first_log_step n tx Hn) as Hf. pose proof (evm_index_step n tx Hn) as He.
  destruct (evm_of h tx) as [t|] eqn:Ht; last first.
  { assert (log_count chk false h tx = 0) as Hl by (unfold log_count, counted; by rewrite Ht).
    cbn [option_list length] in He. exists rs. rewrite Hl, Z.add_0_r in Hf. rewrite Z.add_0_r in He. rewrite Hf in H3, H4. rewrite He in H2, H4.
    split; rewrite ?(drop_S _ _ _ Hn), ?evm_txs_cons, ?Ht; try done. cbn [logs_of_txs foldr]. by rewrite Hl. }
  destruct (receipt_served n tx t Hn Ht) as (r & x & Hr & Hp & Hx & Hi & Hlogs). exists (x :: rs).
  pose proof (log_count_evm tx t r Ht Hr) as Hl. rewrite Hl in Hf. cbn [option_list length] in He.
  pose proof (first_log_range n). pose proof (first_log_range (S n)). pose proof (logs_of_txs_nonneg chk false h (drop (S n) (rb_Txs b))).
  split; rewrite ?(drop_S _ _ _ Hn), ?evm_txs_cons, ?Ht; cbn [option_list app].
  - by constructor.
  - cbn [fmap list_fmap length]. rewrite Hi, Nat2Z.inj_succ, seqZ_cons, Z.pred_succ by lia. f_equal. etransitivity; [exact H2|]. rewrite He. by rewrite Z.add_1_r.
  - cbn [mjoin list_join fmap list_fmap]. rewrite logs_of_txs_cons, fmap_app, Hlogs, (numbered_indices n), Hl by (done || lia).
    rewrite seqZ_app by lia. f_equal. etransitivity; [exact H3|]. f_equal. lia.
  - intros Hu. change (option_list (Some t) ++ ?l) with (t :: l). rewrite !fmap_cons. cbn [mjoin list_join all_logs_of].
    unfold receipt_in in Hr. rewrite Hr.
    rewrite (Hu t r) by (done || (apply list_elem_of_omap; exists tx; split; [by eapply list_elem_of_lookup_2|done])).
    rewrite fmap_app, Hlogs. unfold numbered_logs at 1. rewrite <- list_fmap_compose. f_equal. etransitivity; [exact (H4 Hu)|].
    rewrite Hf, He. unfold u64. by rewrite Z.mod_small by lia.
Qed.

Lemma receipts_from n : ∃ rs, served_from n rs.
Proof.
  remember (length (rb_Txs b) - n)%nat as k eqn:Ek. revert n Ek. induction k as [|k IH]; intros n Ek.
  { exists []. split; rewrite ?drop_ge by lia; by try constructor. }
  destruct (lookup_lt_is_Some_2 (rb_Txs b) n) as [tx Hn]; [lia|]. destruct (IH (S n)) as [rs Hrs]; [lia|].
  by eapply served_step.
Qed.

(** A transaction of the EVM is the only message of its transaction. *)
Definition alone : Prop :=
  ∀ tx m msgs, tx ∈ rb_Txs b → nd_TxDecoder nd h tx = inl (EVMMsg m :: msgs) →
    msgs = [] ∧ (IsAssociateTx m = Ret false → AsTransaction (T := T) m ≠ Ret None).

Lemma tx_hashes_evm tx : alone → tx ∈ rb_Txs b → readable h tx →
  tx_hashes nd false h tx = Ret (tx_Hash <$> option_list (evm_of h tx)).
Proof.
  intros Ha Hin. unfold readable, evm_of, tx_hashes, getEthTxForTxBz. destruct (nd_TxDecoder nd h tx) as [msgs|] eqn:Hd; [|done].
  destruct msgs as [|[m| | | |] msgs]; [done| |by destruct msgs..]. destruct (Ha tx m msgs Hin Hd) as [-> Has].
  destruct (IsAssociateTx m) as [[]|]; [done| |done]. cbn [outcome_bind]. specialize (Has eq_refl).
  destruct (AsTransaction m) as [[[t ?]|]|]; done.
Qed.
Lemma txs_hashes_evm txs : alone → Forall (readable h) txs → (∀ tx, tx ∈ txs → tx ∈ rb_Txs b) →
  txs_hashes nd false h txs = Ret (tx_Hash <$> evm_txs h txs).
Proof.
  intros Ha Hr. induction Hr as [|tx txs Ht _ IH]; intros Hin; [done|]. cbn [txs_hashes].
  rewrite (tx_hashes_evm tx Ha (Hin tx ltac:(left)) Ht), IH by (intros; apply Hin; by right).
  cbn [outcome_bind]. by rewrite evm_txs_cons, fmap_app.
Qed.
Lemma all_block_logs_evm : alone →
  all_block_logs nd false b = (λ l, mkFoundLog l (BytesToHash (rb_Hash b))) <$> all_logs_of nd false (tx_Hash <$> evm_txs h (rb_Txs b)) 0 0.
Proof. intros Ha. unfold all_block_logs, getTxHashesFromBlock. by rewrite (txs_hashes_evm _ Ha (rb_readable b Hb)) by done. Qed.

(** C13: The receipts of a block number it.  Every transaction of the EVM in a
    block that has its receipts is served one; the numbers of the transactions
    are those of their positions among the transactions of the EVM, and the logs
    of all of them are numbered from zero without a gap.  If moreover every
    transaction of the EVM is the only message of its transaction and none of the
    receipts is one [eth_getLogs] leaves out (a shell receipt, or one whose effective
    gas price is zero), the logs of the receipts are the logs it finds in the block,
    with the same numbers. *)
Theorem receipts_number_block :
  ∃ rs, Forall2 (λ t x, GetTransactionReceipt api (tx_Hash t) = Ret (inl (Some x))) (evm_txs h (rb_Txs b)) rs ∧
    rr_transactionIndex <$> rs = seqZ 0 (Z.of_nat (length rs)) ∧
    (λ l, l_Index (lg_log (fl_log l))) <$> mjoin (rr_logs <$> rs) = seqZ 0 (total b) ∧
    (alone → unskipped → mjoin (rr_logs <$> rs) = all_block_logs nd false b).
Proof.
  destruct (receipts_from 0) as [rs [H1 H2 H3 H4]]. exists rs. split_and!; [done..|].
  intros Ha Hu. rewrite all_block_logs_evm by done. exact (H4 Hu).
Qed.

(** ** The ways to find a transaction *)

Lemma nth_evm_tx_spec i k txs e : Forall (readable h) txs → i = e + Z.of_nat k →
  nth_evm_tx api b i txs e =
  match evm_txs h txs !! k with
  | None => Ret (inl None)
  | Some t => match receipt_in api w (tx_Hash t) with
              | inr err => Ret (inr err)
              | inl r => outcome_bind (rpc_transaction api t r b i) (λ x, Ret (inl (Some x)))
              end
  end.
Proof.
  intros Hr. revert k e. induction Hr as [|tx txs Ht _ IH]; intros k e Hi; [done|]. cbn [nth_evm_tx].
  rewrite (readable_eq _ _ Ht), evm_txs_cons. cbn [outcome_bind]. destruct (evm_of h tx) as [t|]; [|by apply IH].
  destruct (Z.eqb_spec e i) as [->|Hne]; [by replace k with 0%nat by lia|].
  destruct k as [|k]; [lia|]. cbn [option_list app lookup list_lookup]. apply IH. lia.
Qed.

Lemma evm_tx_by_hash_spec t r k txs e : Forall (readable h) txs → NoDup (tx_Hash <$> evm_txs h txs) → evm_txs h txs !! k = Some t →
  evm_tx_by_hash api b (tx_Hash t) r txs e = outcome_bind (rpc_transaction api t r b (e + Z.of_nat k)) (λ x, Ret (Some x)).
Proof.
  intros Hr. revert k e. induction Hr as [|tx txs Ht _ IH]; intros k e Hnd Hk; [done|]. cbn [evm_tx_by_hash].
  rewrite evm_txs_cons in Hnd, Hk. rewrite (readable_eq _ _ Ht). cbn [outcome_bind].
  destruct (evm_of h tx) as [t'|]; [|by apply IH]. apply NoDup_cons in Hnd as [Hnin Hnd].
  destruct k as [|k]; cbn in Hk; [injection Hk as ->; by rewrite bool_decide_true, Z.add_0_r|].
  rewrite bool_decide_false; [rewrite (IH k) by done; by replace (e + 1 + Z.of_nat k) with (e + Z.of_nat (S k)) by lia|].
  intros He. apply Hnin. rewrite He. apply list_elem_of_fmap. exists t. split; [done|]. by eapply list_elem_of_lookup_2.
Qed.

(** A hash is not in the mempool. *)
Definition not_pending (hash : Hash) : Prop :=
  ∀ page txs, ra_UnconfirmedTxs api page = inl txs → Forall (readable (-1)) txs ∧ hash ∉ tx_Hash <$> evm_txs (-1) txs.

Lemma find_eth_tx_absent height hash txs : Forall (readable height) txs → hash ∉ tx_Hash <$> evm_txs height txs →
  find_eth_tx api height hash txs = Ret None.
Proof.
  induction 1 as [|tx txs Ht _ IH]; [done|]. cbn [find_eth_tx]. rewrite (readable_eq _ _ Ht), evm_txs_cons, fmap_app. cbn [outcome_bind].
  intros Hn. rewrite not_elem_of_app in Hn. destruct Hn as [Hn Hns]. destruct (evm_of height tx) as [t|]; [|by apply IH].
  rewrite bool_decide_false; [by apply IH|]. intros <-. apply Hn. simpl. by left.
Qed.
Lemma mempool_loop_absent hash pages page : not_pending hash → mempool_loop api pages page hash = Ret None.
Proof.
  intros Hp. revert page. induction pages as [|pages IH]; intros page; [done|]. cbn [mempool_loop].
  destruct (ra_UnconfirmedTxs api page) as [[|tx txs]|] eqn:E; [done| |done]. destruct (Hp _ _ E) as [Hr Hn].
  rewrite find_eth_tx_absent by done. apply IH.
Qed.

Lemma evm_txs_position txs k t : evm_txs h txs !! k = Some t →
  ∃ n tx, txs !! n = Some tx ∧ evm_of h tx = Some t ∧ length (evm_txs h (take n txs)) = k.
Proof.
  revert k. induction txs as [|tx txs IH]; intros k Hk; [done|]. rewrite evm_txs_cons in Hk.
  destruct (evm_of h tx) as [t'|] eqn:Ht.
  - destruct k as [|k]; cbn in Hk; [injection Hk as ->; by exists 0%nat, tx|].
    destruct (IH k Hk) as (n & tx' & ? & ? & <-). exists (S n), tx'. split_and!; [done..|]. cbn [take]. by rewrite evm_txs_cons, Ht.
  - destruct (IH k Hk) as (n & tx' & ? & ? & <-). exists (S n), tx'. split_and!; [done..|]. cbn [take]. by rewrite evm_txs_cons, Ht.
Qed.

(** C14: A transaction of a block is found the same way by all calls.  For the
    [k]-th transaction of the EVM in a block that has its receipts, with a hash
    that no other one of the block and none of the mempool has, the calls by
    number and index, by block hash and index and by hash give the same
    transaction, with the number [k], its receipt has that number, and past the
    last one there is none. *)
Theorem lookups_agree k t fee :
  evm_txs h (rb_Txs b) !! k = Some t → NoDup (tx_Hash <$> evm_txs h (rb_Txs b)) → not_pending (tx_Hash t) →
  getBlockNumber api h = inl (Some h) → blockByHash api (BytesToHash (rb_Hash b)) = inl b →
  GetCurrBaseFeePerGas (nd_at nd h).2 = Ret fee →
  let x := NewRPCTransaction t (BytesToHash (rb_Hash b)) (u64 h) (u64 (ra_time api b)) (Z.of_nat k) (TruncateInt fee) (chain_config api) in
  GetTransactionByBlockNumberAndIndex api h (Z.of_nat k) = Ret (inl (Some x)) ∧
  GetTransactionByBlockHashAndIndex api (BytesToHash (rb_Hash b)) (Z.of_nat k) = Ret (inl (Some x)) ∧
  GetTransactionByHash api (tx_Hash t) = Ret (inl (Some x)) ∧
  (∃ rc, GetTransactionReceipt api (tx_Hash t) = Ret (inl (Some rc)) ∧ rr_transactionIndex rc = Z.of_nat k) ∧
  GetTransactionByBlockNumberAndIndex api h (Z.of_nat (length (evm_txs h (rb_Txs b)))) = Ret (inl None).
Proof.
  intros Hk Hnd Hp Hh Hhash Hfee x. destruct (evm_txs_position _ _ _ Hk) as (n & tx & Hn & Ht & Hlen).
  destruct (receipt_served n tx t Hn Ht) as (r & rc & Hr & Hpl & Hrc & Hi & _).
  pose proof (rb_readable b Hb) as Hread. pose proof (rb_height b Hb) as Hrange. 
  assert (i64 (rc_BlockNumber r) = h) as Hbn by (rewrite (pl_number _ _ _ Hpl); apply i64_id; unfold maxInt64 in *; lia).
  assert (rpc_transaction api t r b (Z.of_nat k) = Ret x) as Hx by (unfold rpc_transaction; by rewrite Hbn, Hfee).
  unfold GetTransactionByBlockNumberAndIndex, GetTransactionByBlockHashAndIndex, by_number, by_hash, getTransactionWithBlock.
  rewrite Hh, (rb_found b Hb), Hhash. rewrite !(nth_evm_tx_spec (Z.of_nat k) k _ 0) by done. rewrite Hk, Hr, Hx. cbn [outcome_bind].
  rewrite (nth_evm_tx_spec _ (length (evm_txs h (rb_Txs b))) _ 0) by done. rewrite lookup_ge_None_2 by lia.
  split_and!; [done..| | |done].
  - unfold GetTransactionByHash. rewrite (mempool_loop_absent _ _ _ Hp). cbn [outcome_bind]. unfold getTransactionByHashFromBlock.
    rewrite Hr, Hbn, (rb_found b Hb), (evm_tx_by_hash_spec t r k _ 0) by done. by rewrite Z.add_0_l, Hx.
  - exists rc. split; [done|]. by rewrite Hi, <- Hlen.
Qed.
End Block.
End Numbers.

(** * Examples *)

Section RpcExamples.
#[local] Existing Instances demo_bank_keeper demo_accounts demo_crypto live_config half_even_dec.
#[local] Existing Instances number_codec plain_hex strict_ints plain_transactions no_codec map_receipt_store demo_receipts_ops.

Definition demo_rpc_libs : RpcLibs EthTxData := {|
  NewRPCTransaction t bh n time i fee c :=
    mkRPCTransaction (tx_Type t) (addr_of 1) (tx_Gas t) (tx_GasPrice t) (tx_Hash t) (tx_Data t) (tx_Nonce t) (tx_To t) (tx_Value t)
      None None None (Some bh) (Some n) (Some i);
  Signer := unit;
  MakeSigner _ _ _ := tt;
  LatestSignerForChainID _ := tt;
  HomesteadSigner := tt;
  FrontierSigner := tt;
  Sender _ _ := inl (addr_of 1)
|}.
#[local] Existing Instance demo_rpc_libs.

(** A block of the transactions of nonces 1 and 2, with a transfer of the bank
    between them; the first one left two logs, the second one. *)
Definition rpc_log (i : Z) : RLog := mkRLog (addr_Hex (addr_of 5)) [] [x01] i false.
Definition rpc_receipt (i : Z) (logs : list RLog) : Receipt :=
  mkReceipt 0 0 "" "" 21000 5000000000 7 i 1 "" "" "" logs (replicate 256 xff).
Definition rpc_receipts : kvstore :=
  <[ReceiptKey (price_hash 1) := Receipt_Marshal (rpc_receipt 0 [rpc_log 0; rpc_log 1])]>
    {[ReceiptKey (price_hash 2) := Receipt_Marshal (rpc_receipt 2 [rpc_log 0])]}.
Definition rpc_demo_block : ResultBlock := mkResultBlock [x0a] 7 [[x01]; [x09]; [x02]].
Definition rpc_node : Node demo_bank (gset bytes) kvstore :=
  mkNode _ _ _ 7 7 demo_world0 rpc_receipts (λ h, (h, demo_world0)) (λ _, true)
    (λ _ _, inl (Some rpc_demo_block)) (λ _ _, inl (Some rpc_demo_block))
    (λ _ tx, inl [if be_dec tx =? 9 then OtherMsg "/cosmos.bank.v1beta1.MsgSend" else EVMMsg (price_tx (be_dec tx))])
    (fit 32) [-4; -3; -2; -1].
Definition rpc_api : RpcAPI demo_bank (gset bytes) kvstore :=
  mkRpcAPI _ _ _
    (mkInfoAPI _ _ _ rpc_node (λ _, true) (Some 100000) (inl 1) (inl (Some rpc_demo_block)) (λ _, rpc_receipts) 0 1024 (λ _, 0))
    "pacific-1" (λ _, 1700000000) (λ _, inl []) no_pending (-1).

Lemma rpc_demo_evm :
  (tx_Hash <$> evm_of rpc_api 7 [x01]) = Some (price_hash 1) ∧ evm_of rpc_api 7 [x09] = None ∧
  (tx_Hash <$> evm_of rpc_api 7 [x02]) = Some (price_hash 2).
Proof. vm_compute. by split_and!. Qed.
Lemma rpc_demo_receipts :
  receipt_in rpc_api demo_world0 (price_hash 1) = inl (rpc_receipt 0 [rpc_log 0; rpc_log 1]) ∧
  receipt_in rpc_api demo_world0 (price_hash 2) = inl (rpc_receipt 2 [rpc_log 0]).
Proof. vm_compute. by split. Qed.

Lemma rpc_demo_ready : rpc_block rpc_api rpc_demo_block.
Proof.
  destruct rpc_demo_evm as (H2 & H1 & H3), rpc_demo_receipts as [R1 R2]. split.
  - reflexivity.
  - change (0 ≤ 7 ≤ maxInt64). unfold maxInt64. lia.
  - repeat constructor; vm_compute; reflexivity.
  - intros [|[|[|n]]] tx t Hn Ht; cbn in Hn; [injection Hn as <-..|discriminate Hn].
    + exists (rpc_receipt 0 [rpc_log 0; rpc_log 1]). change (rb_Height rpc_demo_block) with 7 in *. rewrite Ht in H2. apply (inj Some (tx_Hash t)) in H2. rewrite H2.
      split; [exact R1|]. split; vm_compute; reflexivity.
    + change (rb_Height rpc_demo_block) with 7 in *. congruence.
    + exists (rpc_receipt 2 [rpc_log 0]). change (rb_Height rpc_demo_block) with 7 in *. rewrite Ht in H3. apply (inj Some (tx_Hash t)) in H3. rewrite H3.
      split; [exact R2|]. split; vm_compute; reflexivity.
  - vm_compute. reflexivity.
  - vm_compute. reflexivity.
Qed.

Lemma rpc_demo_hashes : (tx_Hash <$> evm_txs rpc_api 7 (rb_Txs rpc_demo_block)) = [price_hash 1; price_hash 2].
Proof. vm_compute. reflexivity. Qed.
Lemma rpc_demo_alone : alone rpc_api rpc_demo_block.
Proof.
  intros tx m msgs Hin Hd. cbn in Hd. injection Hd as Hm <-. split; [done|]. intros _.
  change (tx ∈ [[x01]; [x09]; [x02]]) in Hin. rewrite !elem_of_cons, elem_of_nil in Hin.
  destruct Hin as [-> | [-> | [-> | []]]].
  - injection Hm as <-. vm_compute. discriminate.
  - discriminate Hm.
  - injection Hm as <-. vm_compute. discriminate.
Qed.
Lemma rpc_demo_unskipped : unskipped rpc_api rpc_demo_block.
Proof.
  intros t r Hin Hr. destruct rpc_demo_receipts as [R1 R2]. apply (list_elem_of_fmap_2 tx_Hash) in Hin.
  change (rb_Height rpc_demo_block) with 7 in Hin. rewrite rpc_demo_hashes, !elem_of_cons, elem_of_nil in Hin.
  change (nd_world (ia_node (ra_info rpc_api))) with demo_world0 in Hr.
  destruct Hin as [Hh | [Hh | []]]; rewrite Hh in Hr.
  - rewrite R1 in Hr. injection Hr as <-. reflexivity.
  - rewrite R2 in Hr. injection Hr as <-. reflexivity.
Qed.

Lemma receipts_number_block_witness :
  ∃ rs, rr_transactionIndex <$> rs = [0; 1] ∧ (λ l, l_Index (lg_log (fl_log l))) <$> mjoin (rr_logs <$> rs) = [0; 1; 2] ∧
    mjoin (rr_logs <$> rs) = all_block_logs rpc_node false rpc_demo_block.
Proof.
  destruct (receipts_number_block rpc_api rpc_demo_block rpc_demo_ready) as (rs & H1 & H2 & H3 & H4). exists rs.
  apply Forall2_length in H1. split_and!.
  - rewrite H2, <- H1. vm_compute. reflexivity.
  - rewrite H3. vm_compute. reflexivity.
  - exact (H4 rpc_demo_alone rpc_demo_unskipped).
Defined.

Lemma rpc_demo_second : ∃ t, evm_txs rpc_api 7 (rb_Txs rpc_demo_block) !! 1%nat = Some t ∧ tx_Hash t = price_hash 2.
Proof.
  pose proof (f_equal (lookup 1%nat) rpc_demo_hashes) as H. rewrite list_lookup_fmap in H.
  apply fmap_Some in H as (t & Ht & Hh). exists t. split; [exact Ht|]. by symmetry.
Qed.
Lemma rpc_demo_nodup : NoDup [price_hash 1; price_hash 2].
Proof. apply (bool_decide_unpack _). vm_compute. exact I. Qed.

Lemma lookups_agree_witness :
  ∃ x, GetTransactionByBlockNumberAndIndex rpc_api 7 1 = Ret (inl (Some x)) ∧ GetTransactionByHash rpc_api (price_hash 2) = Ret (inl (Some x)) ∧
    rt_Hash x = price_hash 2 ∧ rt_TransactionIndex x = Some 1.
Proof.
  destruct rpc_demo_second as (t & Ht & Hh).
  destruct (lookups_agree rpc_api rpc_demo_block rpc_demo_ready 1 t 1000000000000000000000000000) as (H1 & _ & H3 & _).
  - exact Ht.
  - change (rb_Height rpc_demo_block) with 7. rewrite rpc_demo_hashes. exact rpc_demo_nodup.
  - intros page txs H. injection H as <-. split; [constructor|]. apply not_elem_of_nil.
  - reflexivity.
  - reflexivity.
  - vm_compute. reflexivity.
  - rewrite Hh in H3. eexists. split_and!; [exact H1|exact H3|exact Hh|reflexivity].
Defined.
End RpcExamples.
