(* ===== verification/Filters.v ===== *)
(** * Log and block filters
    (the filter API of evmrpc/filter.go)

    Clients install filters, poll them for what is new since the last poll, and
    uninstall them; a cleanup loop removes filters that were uninstalled or that
    nobody polled for a while.  A log filter remembers the height after the last
    block it has reported, a block filter the cursor of the last event.

    The requests run concurrently: each takes the lock several times, and what
    the others do between two of its critical sections is the function [others].
    The filters use the log fetcher through the interface [FilterEnv], whose laws
    [LogSource] the fetcher of Logs.v satisfies. *)

From S2P Require Import Prelude Bytes Dec Store Params Keys World Keeper StateDB Fee Eth Block Instances EthTx Msg Receipts Heap Bloom Logs.
From Stdlib Require Import Strings.Byte.

Local Open Scope Z_scope.
Local Open Scope stm_scope.

(** ** Data *)

Inductive FilterType : Type := UnknownSubscription | LogsSubscription | BlocksSubscription.

(** [cancelFunc] is the number of the context it cancels. *)
Record api_filter : Type := mkFilter {
  f_typ : FilterType;
  f_fc : FilterCriteria;
  f_cancelFunc : option nat;
  f_lastAccess : Z;
  f_blockCursor : string;
  f_lastToHeight : Z
}.

Definition DefaultMaxBlockRange : Z := 2000.
Definition DefaultMaxLogLimit : Z := 10000.
Definition RPSLimitThreshold : Z := 100.
Definition toDelete_capacity : nat := 1000.

(** A page of events: the encoded items, whether there are more, and the cursor
    of the newest. *)
Record EventsPage : Type := mkEventsPage { ev_Items : list bytes; ev_More : bool; ev_Newest : string }.

(** What the API uses of the node: the clock, [ethrpc.NewID], the client's
    events and the block hash in the JSON of one, the rate limiter, the latest
    height (and the one that a query finds when it reads it a second time), and the
    log fetcher with the configuration they share. *)
Class FilterEnv (S : Type) := {
  env_cfg : FilterConfig;
  env_now : S → Z;
  env_NewID : S → string * S;
  env_Events : S → string → EventsPage + Err;
  env_BlockHash : bytes → bytes + Err;
  env_Allow : S → bool * S;
  env_height : S → Z → Z;
  env_latest : S → Z;
  env_latest_again : S → Z;
  env_GetLogsByFilters : FilterCriteria → Z → stm S (option (list FoundLog * Z + Err))
}.

(** [fa_contexts] counts the contexts that were made, [fa_cancelled] are those
    that were cancelled. *)
Record FilterAPI (S : Type) : Type := mkFilterAPI {
  fa_filters : gmap string api_filter;
  fa_toDelete : list string;
  fa_closed : bool;
  fa_shutdown : bool;
  fa_contexts : nat;
  fa_cancelled : gset nat;
  fa_env : S
}.
Arguments mkFilterAPI {S}. Arguments fa_filters {S}. Arguments fa_toDelete {S}. Arguments fa_closed {S}. Arguments fa_shutdown {S}.
Arguments fa_contexts {S}. Arguments fa_cancelled {S}. Arguments fa_env {S}.

Definition set_filters {S : Type} (f : gmap string api_filter → gmap string api_filter) (a : FilterAPI S) : FilterAPI S :=
  mkFilterAPI (f (fa_filters a)) (fa_toDelete a) (fa_closed a) (fa_shutdown a) (fa_contexts a) (fa_cancelled a) (fa_env a).
Definition set_env {S : Type} (e : S) (a : FilterAPI S) : FilterAPI S :=
  mkFilterAPI (fa_filters a) (fa_toDelete a) (fa_closed a) (fa_shutdown a) (fa_contexts a) (fa_cancelled a) e.
Definition set_toDelete {S : Type} (q : list string) (a : FilterAPI S) : FilterAPI S :=
  mkFilterAPI (fa_filters a) q (fa_closed a) (fa_shutdown a) (fa_contexts a) (fa_cancelled a) (fa_env a).

(** [NewFilterAPI] replaces limits that are not positive, in the configuration
    that the fetcher shares, and starts without filters. *)
Definition NewFilterAPI_config (cfg : FilterConfig) : FilterConfig :=
  mkFilterConfig (cfg_timeout cfg)
    (if cfg_maxLog cfg <=? 0 then DefaultMaxLogLimit else cfg_maxLog cfg)
    (if cfg_maxBlock cfg <=? 0 then DefaultMaxBlockRange else cfg_maxBlock cfg).
Definition NewFilterAPI {S : Type} (env : S) : FilterAPI S := mkFilterAPI ∅ [] false false 0 ∅ env.

Definition shouldIncludeSynthetic (namespace : string) : outcome bool :=
  if negb (bool_decide (namespace = "eth"%string)) && negb (bool_decide (namespace = "tabi"%string))
  then Panic "unknown namespace" else Ret (bool_decide (namespace = "tabi"%string)).

(** [t.Sub(u)] of two times in nanoseconds saturates. *)
Definition time_Sub (t u : Z) : Z := Z.max (-9223372036854775808) (Z.min maxInt64 (t - u)).

(** What a poll returns: [nil], block hashes or logs. *)
Inductive Changes : Type := NoChanges | BlockHashes (l : list Hash) | LogChanges (l : list FoundLog).

Section Api.
Context {S : Type} `{FE : FilterEnv S}.
Variable others : FilterAPI S → FilterAPI S.

(** The lock is free: the others run. *)
Definition unlocked : stm (FilterAPI S) unit := sput others.

Definition lift_env {X : Type} (m : stm S X) : stm (FilterAPI S) X := λ a,
  match m (fa_env a) with Ret (x, e) => Ret (x, set_env e a) | Panic msg => Panic msg end.

(** ** Installing and removing *)

(** [context.WithCancel(a.shutdownCtx)]. *)
Definition WithCancel : stm (FilterAPI S) nat := λ a,
  Ret (fa_contexts a, mkFilterAPI (fa_filters a) (fa_toDelete a) (fa_closed a) (fa_shutdown a) (Datatypes.S (fa_contexts a))
                        (fa_cancelled a) (fa_env a)).
Definition cancel (c : option nat) (a : FilterAPI S) : FilterAPI S :=
  match c with
  | None => a
  | Some c => mkFilterAPI (fa_filters a) (fa_toDelete a) (fa_closed a) (fa_shutdown a) (fa_contexts a) ({[c]} ∪ fa_cancelled a) (fa_env a)
  end.

Definition install (f : S → api_filter) : stm (FilterAPI S) string := λ a,
  let '(curFilterID, e) := env_NewID (fa_env a) in
  Ret (curFilterID, set_env e (set_filters <[curFilterID := f (fa_env a)]> a)).

Definition NewFilter (crit : FilterCriteria) : stm (FilterAPI S) string :=
  let! c := WithCancel in
  do! unlocked;
  install (λ e, mkFilter LogsSubscription crit (Some c) (env_now e) "" 0).
Definition NewBlockFilter : stm (FilterAPI S) string :=
  let! c := WithCancel in
  do! unlocked;
  install (λ e, mkFilter BlocksSubscription (mkFilterCriteria None None None [] []) (Some c) (env_now e) "" 0).

Definition delete_filter (filterID : string) (a : FilterAPI S) : FilterAPI S :=
  match fa_filters a !! filterID with
  | Some f => cancel (f_cancelFunc f) (set_filters (delete filterID) a)
  | None => a
  end.
Definition removeFilter (filterID : string) : stm (FilterAPI S) unit := sput (delete_filter filterID).

(** The expired ones are looked up under the read lock and removed under the
    write lock. *)
Definition expired (timeout now : Z) (a : FilterAPI S) : list string :=
  fst <$> map_to_list (base.filter (λ e, timeout < time_Sub now (f_lastAccess e.2)) (fa_filters a)).
Definition cleanupExpiredFilters (timeout : Z) : stm (FilterAPI S) unit :=
  let! now := sget (λ a, env_now (fa_env a)) in
  do! unlocked;
  let! toRemove := sget (expired timeout now) in
  do! unlocked;
  swhen (0 <? length toRemove)%nat (sput (λ a, foldl (λ a id, delete_filter id a) a toRemove)).

Definition updateFilterAccess (filterID : string) : stm (FilterAPI S) unit := sput (λ a,
  set_filters (alter (λ f, mkFilter (f_typ f) (f_fc f) (f_cancelFunc f) (env_now (fa_env a)) (f_blockCursor f) (f_lastToHeight f)) filterID) a).

(** ** Polling *)

(** The headers of a page; an item that is not JSON of a block ends the request. *)
Fixpoint page_headers (items : list bytes) (headers : list Hash) : list Hash + Err :=
  match items with
  | [] => inl headers
  | item :: items' =>
      match env_BlockHash item with
      | inr e => inr e
      | inl h => page_headers items' (headers ++ [BytesToHash h])
      end
  end.
(** [None]: there are more pages after that many rounds. *)
Fixpoint headers_after (rounds : nat) (cursor : string) (headers : list Hash)
    : stm (FilterAPI S) (option (list Hash * string + Err)) :=
  match rounds with
  | O => sret None
  | Datatypes.S r =>
      let! page := sget (λ a, env_Events (fa_env a) cursor) in
      do! unlocked;
      match page with
      | inr e => sret (Some (inr e))
      | inl p =>
          match page_headers (ev_Items p) headers with
          | inr e => sret (Some (inr e))
          | inl headers => if ev_More p then headers_after r (ev_Newest p) headers else sret (Some (inl (headers, ev_Newest p)))
          end
      end
  end.
Definition getBlockHeadersAfter (rounds : nat) (cursor : string) : stm (FilterAPI S) (option (list Hash * string + Err)) :=
  headers_after rounds cursor [].

Definition set_cursor (cursor : string) (f : api_filter) : api_filter :=
  mkFilter (f_typ f) (f_fc f) (f_cancelFunc f) (f_lastAccess f) cursor (f_lastToHeight f).
Definition set_lastToHeight (h : Z) (f : api_filter) : api_filter :=
  mkFilter (f_typ f) (f_fc f) (f_cancelFunc f) (f_lastAccess f) (f_blockCursor f) h.
Definition write_filter (filterID : string) (f : api_filter → api_filter) : stm (FilterAPI S) unit :=
  do! unlocked; sput (set_filters (alter f filterID)).

Definition log_changes (filterID : string) (f : api_filter) : stm (FilterAPI S) (option (Changes + Err)) :=
  if match fc_BlockHash (f_fc f) with Some _ => 0 <? f_lastToHeight f | None => false end then sret (Some (inl NoChanges)) else
  if match fc_ToBlock (f_fc f) with Some t => i64 t <=? f_lastToHeight f | None => false end then sret (Some (inl NoChanges)) else
  let! res := lift_env (env_GetLogsByFilters (f_fc f) (f_lastToHeight f)) in
  match res with
  | None => sret None
  | Some (inr e) => sret (Some (inr e))
  | Some (inl (logs, lastToHeight)) =>
      do! write_filter filterID (set_lastToHeight (i64 (lastToHeight + 1)));
      sret (Some (inl (LogChanges logs)))
  end.
Definition block_changes (rounds : nat) (filterID : string) (f : api_filter) : stm (FilterAPI S) (option (Changes + Err)) :=
  let! res := getBlockHeadersAfter rounds (f_blockCursor f) in
  match res with
  | None => sret None
  | Some (inr e) => sret (Some (inr e))
  | Some (inl (hashes, cursor)) =>
      do! write_filter filterID (set_cursor cursor);
      sret (Some (inl (BlockHashes hashes)))
  end.

Definition no_filter : Err := "filter does not exist".

Definition GetFilterChanges (rounds : nat) (filterID : string) : stm (FilterAPI S) (option (Changes + Err)) :=
  let! found := sget (λ a, fa_filters a !! filterID) in
  do! unlocked;
  match found with
  | None => sret (Some (inr no_filter))
  | Some f =>
      do! updateFilterAccess filterID;
      do! unlocked;
      match f_typ f with
      | BlocksSubscription => block_changes rounds filterID f
      | LogsSubscription => log_changes filterID f
      | UnknownSubscription => sret (Some (inr "unknown filter type"%string))
      end
  end.

Definition GetFilterLogs (filterID : string) : stm (FilterAPI S) (option (list FoundLog + Err)) :=
  let! found := sget (λ a, fa_filters a !! filterID) in
  do! unlocked;
  match found with
  | None => sret (Some (inr no_filter))
  | Some f =>
      do! updateFilterAccess filterID;
      do! unlocked;
      let! res := lift_env (env_GetLogsByFilters (f_fc f) 0) in
      match res with
      | None => sret None
      | Some (inr e) => sret (Some (inr e))
      | Some (inl (logs, lastToHeight)) =>
          do! write_filter filterID (set_lastToHeight lastToHeight);
          sret (Some (inl logs))
      end
  end.

(** The range of [GetLogs], which knows no earlier query.  The fetcher reads the
    latest height itself, later. *)
Definition logs_range (e : S) (crit : FilterCriteria) : Z * Z :=
  let latest := env_latest e in
  let begin := match fc_FromBlock crit with Some n => env_height e n | None => latest end in
  let end_ := match fc_ToBlock crit with Some n => env_height e n | None => latest end in
  (match fc_ToBlock crit, fc_FromBlock crit with
   | Some _, None => if end_ <? begin then end_ else begin
   | _, _ => begin
   end, end_).
Definition GetLogs (crit : FilterCriteria) : stm (FilterAPI S) (option (list FoundLog + Err)) :=
  let! range := sget (λ a, logs_range (fa_env a) crit) in
  let blockRange := i64 (range.2 - range.1 + 1) in
  if cfg_maxBlock env_cfg <? blockRange then sret (Some (inr "block range too large"%string)) else
  let! allowed := if RPSLimitThreshold <? blockRange then lift_env (λ e, Ret (env_Allow e)) else sret true in
  if negb allowed then sret (Some (inr "log query rate limit exceeded for large queries, please try again later"%string)) else
  do! unlocked;
  let! res := lift_env (env_GetLogsByFilters crit 0) in
  sret (match res with
        | None => None
        | Some (inr e) => Some (inr e)
        | Some (inl (logs, _)) => Some (inl logs)
        end).

(** ** Uninstalling and shutting down *)

(** Sending on the channel of 1000 identifiers; a send on a closed channel panics. *)
Definition UninstallFilter (filterID : string) : stm (FilterAPI S) bool :=
  let! found := sget (λ a, fa_filters a !! filterID) in
  do! unlocked;
  match found with
  | None => sret false
  | Some _ => λ a,
      if fa_closed a then Panic "send on closed channel" else
      if (length (fa_toDelete a) <? toDelete_capacity)%nat then Ret (true, set_toDelete (fa_toDelete a ++ [filterID]) a)
      else (do! unlocked; do! removeFilter filterID; sret true) a
  end.

(** Cancelling the shutdown context cancels the contexts made from it. *)
Definition Cleanup : stm (FilterAPI S) unit :=
  do! sput (λ a, mkFilterAPI (fa_filters a) (fa_toDelete a) (fa_closed a) true (fa_contexts a)
                   (list_to_set (seq 0 (fa_contexts a)) ∪ fa_cancelled a) (fa_env a));
  do! unlocked;
  do! sput (λ a, set_filters (λ _, ∅) (map_fold (λ _ f a, cancel (f_cancelFunc f) a) a (fa_filters a)));
  do! unlocked;
  λ a, if fa_closed a then Panic "close of closed channel" else
       Ret (tt, mkFilterAPI (fa_filters a) (fa_toDelete a) true (fa_shutdown a) (fa_contexts a) (fa_cancelled a) (fa_env a)).

(** One turn of the cleanup loop: a tick, or an identifier from the channel (a
    closed channel that is empty gives the empty one). *)
Definition receive_toDelete : stm (FilterAPI S) string := λ a,
  match fa_toDelete a with
  | id :: rest => Ret (id, set_toDelete rest a)
  | [] => Ret (""%string, a)
  end.
Definition cleanup_delete : stm (FilterAPI S) unit := let! id := receive_toDelete in do! unlocked; removeFilter id.
Inductive cleanupLoop (timeout : Z) : FilterAPI S → FilterAPI S → Prop :=
  | loop_tick a a' : cleanupExpiredFilters timeout a = Ret (tt, a') → cleanupLoop timeout a a'
  | loop_delete a a' : fa_toDelete a ≠ [] ∨ fa_closed a = true →
      cleanup_delete a = Ret (tt, a') → cleanupLoop timeout a a'.
End Api.

(** * Lemmas *)

(** ** What the fetcher promises *)

(** A query from a height, or from the latest block, without an end. *)
Definition open_crit (crit : FilterCriteria) : Prop :=
  fc_BlockHash crit = None ∧ fc_ToBlock crit = None ∧ ∀ f, fc_FromBlock crit = Some f → 1 ≤ f ≤ maxInt64.
(** The first block of a poll. *)
Definition poll_begin (crit : FilterCriteria) (last latest : Z) : Z := Z.max last (default latest (fc_FromBlock crit)).

Section Source.
Context {S : Type} `{FE : FilterEnv S}.
(** The logs of a range of blocks that match. *)
Variable src_logs : FilterCriteria → Z → Z → list FoundLog.

(** The answer to an open query that finds the latest height [h1] and then [h2]:
    the size of the range is checked with the first and the range is that of the
    second, cut at its beginning if it is too long by now. *)
Definition fetch_begin (crit : FilterCriteria) (last h2 : Z) : Z :=
  let begin := poll_begin crit last h2 in
  if cfg_maxBlock env_cfg <? h2 - begin + 1 then Z.max 1 (h2 - cfg_maxBlock env_cfg + 1) else begin.
Definition fetch_result (crit : FilterCriteria) (last h1 h2 : Z) : list FoundLog * Z + Err :=
  if cfg_maxBlock env_cfg <? h1 - poll_begin crit last h1 + 1 then inr "block range too large"%string else
  if h2 <? fetch_begin crit last h2 then inr "fromBlock is after toBlock"%string else
  inl (take (Z.to_nat (cfg_maxLog env_cfg)) (src_logs crit (fetch_begin crit last h2) h2), h2).
(** The query loses no block of its range. *)
Definition uncut (crit : FilterCriteria) (step : Z * Z * Z) : Prop := let '(last, h1, h2) := step in
  cfg_maxBlock env_cfg < h1 - poll_begin crit last h1 + 1 ∨ h2 - poll_begin crit last h2 + 1 ≤ cfg_maxBlock env_cfg.

(** In a good state an open query gives the result above, and the state stays
    good; the logs of a range are those of its parts. *)
Class LogSource (src_ok : S → Prop) : Prop := {
  src_fetch : ∀ s crit last, src_ok s → open_crit crit → 0 ≤ last ≤ maxInt64 →
    ∃ s', env_GetLogsByFilters crit last s = Ret (Some (fetch_result crit last (env_latest s) (env_latest_again s)), s') ∧ src_ok s' ∧
      env_latest_again s ≤ env_latest s';
  src_latest : ∀ s, src_ok s → 1 ≤ env_latest s ∧ env_latest s ≤ env_latest_again s < maxInt64;
  src_split : ∀ crit a b c, a ≤ b + 1 → b ≤ c → src_logs crit a b ++ src_logs crit (b + 1) c = src_logs crit a c
}.
End Source.

(** ** Polls of a log filter *)

(** The filter as far as a poll depends on it. *)
Definition same_filter (f f' : api_filter) : Prop :=
  f_typ f' = f_typ f ∧ f_fc f' = f_fc f ∧ f_lastToHeight f' = f_lastToHeight f.

Section Polls.
Context {S : Type} `{FE : FilterEnv S}.
Variable src_logs : FilterCriteria → Z → Z → list FoundLog.
Variable src_ok : S → Prop.
Context `{LS : !LogSource src_logs src_ok}.
Variable others : FilterAPI S → FilterAPI S.
Variable id : string.

(** The others leave this filter alone (only its access time may change), and
    the chain only grows. *)
Record rely : Prop := {
  rely_filter : ∀ a f, fa_filters a !! id = Some f → ∃ f', fa_filters (others a) !! id = Some f' ∧ same_filter f f';
  rely_env : ∀ a, src_ok (fa_env a) → src_ok (fa_env (others a)) ∧ env_latest (fa_env a) ≤ env_latest (fa_env (others a))
}.
Hypothesis HR : rely.

(** The state of the poll: the filter is there, and the chain has grown from
    [l] at least. *)
Definition polling (f : api_filter) (l : Z) (a : FilterAPI S) : Prop :=
  (∃ f', fa_filters a !! id = Some f' ∧ same_filter f f') ∧ src_ok (fa_env a) ∧ l ≤ env_latest (fa_env a).

Lemma polling_others f l a : polling f l a → polling f l (others a).
Proof.
  intros ((f1 & Hf & H1 & H2 & H3) & Hok & Hl). destruct (rely_filter HR a f1 Hf) as (f2 & Hf2 & G1 & G2 & G3).
  destruct (rely_env HR a Hok). split; [|split; [done|lia]]. exists f2. split; [done|]. split_and!; congruence.
Qed.

Lemma polling_access f l a a' : polling f l a → updateFilterAccess id a = Ret (tt, a') → polling f l a'.
Proof.
  intros ((f1 & Hf & Hs) & Hok & Hl) [= <-]. split; [|done]. eexists. split.
  - unfold set_filters. cbn [fa_filters]. rewrite lookup_alter_eq, Hf. reflexivity.
  - exact Hs.
Qed.

Definition changes_of (r : list FoundLog * Z + Err) : Changes + Err :=
  match r with inl (logs, _) => inl (LogChanges logs) | inr e => inr e end.
Definition next_height (r : list FoundLog * Z + Err) (last : Z) : Z :=
  match r with inl (_, h) => h + 1 | inr _ => last end.

(** A poll sees the chain at heights [h1] and then [h2] between its start and
    its end. *)
Lemma GetFilterChanges_logs rounds a f : fa_filters a !! id = Some f → f_typ f = LogsSubscription → open_crit (f_fc f) →
  0 ≤ f_lastToHeight f ≤ maxInt64 → src_ok (fa_env a) →
  let e := fa_env (others (exec (updateFilterAccess id) (others a))) in let h2 := env_latest_again e in
  ∃ a', let r := fetch_result src_logs (f_fc f) (f_lastToHeight f) (env_latest e) h2 in
    GetFilterChanges others rounds id a = Ret (Some (changes_of r), a') ∧
    env_latest (fa_env a) ≤ env_latest e ∧ env_latest e ≤ h2 ∧ 1 ≤ h2 < maxInt64 ∧
    polling (set_lastToHeight (next_height r (f_lastToHeight f)) f) h2 a'.
Proof.
  intros Hf Ht Hc Hlast Hok. unfold GetFilterChanges. unfold sbind at 1, sget. rewrite Hf. unfold sbind at 1, unlocked at 1, sput at 1.
  assert (H1 : polling f (env_latest (fa_env a)) (others a)).
  { apply polling_others. split; [by exists f|]. split; [done|lia]. }
  unfold sbind at 1. destruct (updateFilterAccess id (others a)) as [[[] a1]|] eqn:E1; [|done].
  pose proof (polling_access _ _ _ _ H1 E1) as H2. unfold sbind at 1, unlocked at 1, sput at 1. apply polling_others in H2.
  rewrite Ht. unfold log_changes. pose proof Hc as (Hbh & Hto & Hfrom). rewrite Hbh, Hto.
  destruct H2 as (Hf2 & Hok2 & Hl2). cbv zeta. replace (exec (updateFilterAccess id) (others a)) with a1 by (unfold exec; by rewrite E1).
  set (a2 := others a1) in *.
  destruct (src_fetch _ (fa_env a2) (f_fc f) (f_lastToHeight f)) as (e & Ee & Hoke & Hle); [done|done|done|].
  destruct (src_latest src_logs _ Hok2) as [Hlat Hlat'].
  assert (H3 : polling f (env_latest_again (fa_env a2)) (set_env e a2)).
  { split; [exact Hf2|]. split; [done|]. simpl. lia. }
  unfold sbind at 1, lift_env. rewrite Ee.
  destruct (fetch_result src_logs (f_fc f) (f_lastToHeight f) _ _) as [[logs h]|err] eqn:Er.
  - assert (h = env_latest_again (fa_env a2)) as ->.
    { revert Er. unfold fetch_result. destruct (_ <? _); [done|]. destruct (_ <? _); [done|]. by intros [= _ <-]. }
    eexists. split; [reflexivity|]. split; [done|]. split; [lia|]. split; [lia|]. apply polling_others in H3.
    destruct H3 as ((f3 & Hf3 & G1 & G2 & G3) & Hok3 & Hl3). split; [|done].
    eexists. split; [unfold set_filters; cbn [fa_filters]; rewrite lookup_alter_eq; unfold unlocked, sput; by rewrite Hf3|].
    split_and!; [done|done|]. simpl. apply i64_id. lia.
  - eexists. split; [reflexivity|]. split; [done|]. split; [lia|]. split; [lia|]. exact H3.
Qed.

(** Polls in a row: for each the latest height before it, its result and the
    latest height after it. *)
Fixpoint polls (rounds n : nat) : stm (FilterAPI S) (list (Z * option (Changes + Err) * Z)) :=
  match n with
  | O => sret []
  | Datatypes.S n' =>
      let! l0 := sget (λ a, env_latest (fa_env a)) in
      let! r := GetFilterChanges others rounds id in
      let! l1 := sget (λ a, env_latest (fa_env a)) in
      do! unlocked others;
      let! more := polls rounds n' in
      sret ((l0, r, l1) :: more)
  end.

(** The abstract filter is a cursor: each poll queries from the cursor to the
    latest height it sees.  A step is the cursor and the two heights. *)
Inductive poll_trace (crit : FilterCriteria) : Z → list (Z * option (Changes + Err) * Z) → list (Z * Z * Z) → Z → Prop :=
  | trace_nil last : poll_trace crit last [] [] last
  | trace_poll last l0 l1 h1 h2 obs steps last' :
      let r := fetch_result src_logs crit last h1 h2 in
      l0 ≤ h1 → h1 ≤ h2 → h2 ≤ l1 → poll_trace crit (next_height r last) obs steps last' →
      poll_trace crit last ((l0, Some (changes_of r), l1) :: obs) ((last, h1, h2) :: steps) last'.

Lemma next_height_range crit last h1 h2 : 0 ≤ last ≤ maxInt64 → 1 ≤ h2 < maxInt64 →
  0 ≤ next_height (fetch_result src_logs crit last h1 h2) last ≤ maxInt64.
Proof. intros. unfold fetch_result. destruct (_ <? _); [done|]. destruct (_ <? _); [done|]. simpl. lia. Qed.

Lemma polls_trace rounds n f a l : polling f l a → f_typ f = LogsSubscription → open_crit (f_fc f) → 0 ≤ f_lastToHeight f ≤ maxInt64 →
  ∃ obs steps last' a', polls rounds n a = Ret (obs, a') ∧ poll_trace (f_fc f) (f_lastToHeight f) obs steps last' ∧
    length obs = n ∧ polling (set_lastToHeight last' f) l a'.
Proof.
  revert f a l. induction n as [|n IH]; intros f a l Hp Ht Hc Hlast; cbn [polls].
  { eexists [], [], _, a. split; [done|]. split; [constructor|]. split; [done|]. by destruct f. }
  destruct Hp as ((f1 & Hf & E1 & E2 & E3) & Hok & Hl). unfold sbind at 1, sget at 1.
  destruct (GetFilterChanges_logs rounds a f1) as (a1 & Eg & Hh1 & Hh2 & Hhb & Hp1); [done|congruence|by rewrite E2|by rewrite E3|done|].
  revert Eg Hh1 Hh2 Hhb Hp1. generalize (env_latest (fa_env (others (exec (updateFilterAccess id) (others a))))).
  generalize (env_latest_again (fa_env (others (exec (updateFilterAccess id) (others a))))). intros h2 h1 Eg Hh1 Hh2 Hhb Hp1.
  rewrite E2, E3 in *. set (r := fetch_result src_logs (f_fc f) (f_lastToHeight f) h1 h2) in *.
  unfold sbind at 1. rewrite Eg. unfold sbind at 1, sget at 1. unfold sbind at 1, unlocked at 1, sput at 1.
  pose proof (polling_others _ _ _ Hp1) as Hp2.
  destruct (IH (set_lastToHeight (next_height r (f_lastToHeight f)) f1) (others a1) h2) as (obs & steps & last' & a' & Eo & Htr & Hlen & Hp');
    [done|by rewrite <- Ht|by rewrite <- E2 in Hc|by apply next_height_range|].
  unfold sbind. rewrite Eo. eexists _, _, last', a'. split; [reflexivity|]. split.
  - econstructor; [exact Hh1|exact Hh2|apply Hp1|]. simpl in Htr. by rewrite E2 in Htr.
  - split; [simpl; by rewrite Hlen|]. destruct Hp' as ((f2 & G0 & G1 & G2 & G3) & Hok' & Hl').
    split; [|split; [done|lia]]. exists f2. split; [done|]. split_and!; simpl in *; congruence.
Qed.

Definition poll_logs (o : Z * option (Changes + Err) * Z) : list FoundLog :=
  match o with (_, Some (inl (LogChanges l)), _) => l | _ => [] end.
Definition delivered (obs : list (Z * option (Changes + Err) * Z)) : list FoundLog := obs ≫= poll_logs.

Lemma src_logs_empty crit a : src_logs crit a (a - 1) = [].
Proof.
  assert (H : src_logs crit a (a - 1) ++ src_logs crit (a - 1 + 1) (a - 1) = src_logs crit a (a - 1)) by (apply (src_split src_logs (src_ok := src_ok)); lia).
  replace (a - 1 + 1) with a in H by lia. apply (f_equal length) in H. rewrite length_app in H. apply length_zero_iff_nil. lia.
Qed.

Lemma fetch_begin_after crit from last h2 : fc_FromBlock crit = Some from → 1 ≤ from → 0 < cfg_maxBlock env_cfg →
  Z.max last from ≤ fetch_begin crit last h2 ∧ (h2 < fetch_begin crit last h2 ↔ h2 < Z.max last from).
Proof.
  intros Hfrom H1 Hm. unfold fetch_begin, poll_begin. rewrite Hfrom. simpl default.
  destruct (Z.ltb_spec (cfg_maxBlock env_cfg) (h2 - Z.max last from + 1)); lia.
Qed.

(** Nothing is delivered twice or out of order, and everything is if no step
    loses a block and no range has too many logs. *)
Lemma trace_delivers crit from last obs steps last' : fc_FromBlock crit = Some from → 1 ≤ from → 0 < cfg_maxBlock env_cfg →
  poll_trace crit last obs steps last' → let all := src_logs crit (Z.max last from) (Z.max last' from - 1) in
  Z.max last from ≤ Z.max last' from ∧ delivered obs `sublist_of` all ∧
  (Forall (uncut crit) steps →
   (∀ a b, b - a < cfg_maxBlock env_cfg → Z.of_nat (length (src_logs crit a b)) ≤ cfg_maxLog env_cfg) → delivered obs = all).
Proof.
  intros Hfrom H1 Hm H. induction H as [last|last l0 l1 h1 h2 obs steps last' r Hh1 Hh2 Hh3 H (IH1 & IH2 & IH3)].
  { cbv zeta. rewrite src_logs_empty. split; [lia|]. split; [apply sublist_nil_l|done]. }
  unfold delivered. rewrite bind_cons. fold (delivered obs). subst r. revert IH1 IH2 IH3. unfold fetch_result.
  destruct (fetch_begin_after crit from last h2 Hfrom H1 Hm) as [Hb Hlt].
  destruct (Z.ltb_spec (cfg_maxBlock env_cfg) (h1 - poll_begin crit last h1 + 1)) as [Hbig|Hbig].
  { intros IH1 IH2 IH3. split; [done|]. split; [done|]. intros Hs. apply IH3. by inversion Hs. }
  destruct (Z.ltb_spec h2 (fetch_begin crit last h2)).
  { intros IH1 IH2 IH3. split; [done|]. split; [done|]. intros Hs. apply IH3. by inversion Hs. }
  simpl next_height. simpl poll_logs. replace (Z.max (h2 + 1) from) with (h2 + 1) by lia. intros IH1 IH2 IH3.
  cbv zeta. rewrite <- (src_split src_logs (src_ok := src_ok) crit (Z.max last from) h2 (Z.max last' from - 1)) by lia.
  split; [lia|]. split.
  - apply sublist_app; [|done]. rewrite <- (src_split src_logs (src_ok := src_ok) crit (Z.max last from) (fetch_begin crit last h2 - 1) h2) by lia.
    apply sublist_inserts_l. replace (fetch_begin crit last h2 - 1 + 1) with (fetch_begin crit last h2) by lia. apply sublist_take.
  - intros Hs Hlim. inversion Hs as [|? ? Hu Hs']; subst. rewrite (IH3 Hs' Hlim). f_equal. cbn in Hu.
    assert (Hfb : fetch_begin crit last h2 = Z.max last from).
    { unfold fetch_begin. destruct (Z.ltb_spec (cfg_maxBlock env_cfg) (h2 - poll_begin crit last h2 + 1)); [lia|]. unfold poll_begin. by rewrite Hfrom. }
    rewrite Hfb. apply take_ge. unfold poll_begin in Hu, Hbig. rewrite Hfrom in Hu, Hbig. simpl default in Hu, Hbig.
    specialize (Hlim (Z.max last from) h2). lia.
Qed.
End Polls.

(** ** The fetcher of Logs.v keeps the promise *)

(** The node with the cache and the workers as they are, and what the clock, the
    random identifiers, the events and the rate limiter will give. *)
Record NodeState (B A R : Type) : Type := mkNodeState {
  ns_node : Node B A R;
  ns_cache : CacheState;
  ns_workers : Workers;
  ns_meanwhile : nat → gmap Z BlockCacheEntry → gmap Z BlockCacheEntry;
  ns_now : Z;
  ns_ids : list string;
  ns_events : string → EventsPage + Err;
  ns_tokens : list bool
}.
Arguments mkNodeState {B A R}. Arguments ns_node {B A R}. Arguments ns_cache {B A R}. Arguments ns_workers {B A R}.
Arguments ns_meanwhile {B A R}. Arguments ns_now {B A R}. Arguments ns_ids {B A R}. Arguments ns_events {B A R}. Arguments ns_tokens {B A R}.

(** The node after a query, when the chain is as long as the query has seen it. *)
Definition settled {B A R : Type} (nd : Node B A R) : Node B A R :=
  mkNode B A R (nd_latest_again nd) (nd_latest_again nd) (nd_world nd) (nd_receipts nd) (nd_at nd) (nd_VersionExists nd) (nd_Block nd)
    (nd_BlockByHash nd) (nd_TxDecoder nd) (nd_sha256 nd) (nd_tags nd).
Definition with_cache {B A R : Type} (s : NodeState B A R) (c : CacheState) : NodeState B A R :=
  mkNodeState (settled (ns_node s)) c (ns_workers s) (ns_meanwhile s) (ns_now s) (ns_ids s) (ns_events s) (ns_tokens s).

Section NodeEnv.
Context `{BK : BankKeeper B} `{AK : AccountKeeper A} `{EC : EthCrypto} `{CD : Codec} `{EH : EthHex} `{IL : IntLibs}.
Context `{ET : EthTransactions T} `{TC : TxCodec} `{RS : ReceiptStore R} `{SL : SortLogs} `{SLL : !SortLogsLaws}.
Variable cfg : FilterConfig.
Variable synthetic : bool.
Variable decode : bytes → bytes + Err.

#[local] Notation maxBlock := (cfg_maxBlock (NewFilterAPI_config cfg)).
#[local] Notation maxLog := (cfg_maxLog (NewFilterAPI_config cfg)).

Definition node_env : FilterEnv (NodeState B A R) := {|
  env_cfg := NewFilterAPI_config cfg;
  env_now := ns_now;
  env_NewID s := (hd ""%string (ns_ids s),
    mkNodeState (ns_node s) (ns_cache s) (ns_workers s) (ns_meanwhile s) (ns_now s) (tl (ns_ids s)) (ns_events s) (ns_tokens s));
  env_Events := ns_events;
  env_BlockHash := decode;
  env_Allow s := (hd false (ns_tokens s),
    mkNodeState (ns_node s) (ns_cache s) (ns_workers s) (ns_meanwhile s) (ns_now s) (ns_ids s) (ns_events s) (tl (ns_tokens s)));
  env_height s := getHeightFromBigIntBlockNumber (ns_node s) (nd_latest (ns_node s));
  env_latest s := nd_latest (ns_node s);
  env_latest_again s := nd_latest_again (ns_node s);
  env_GetLogsByFilters crit last s :=
    match GetLogsByFilters (ns_meanwhile s) (ns_node s) synthetic (ns_workers s) (NewFilterAPI_config cfg) (Z.to_nat maxBlock)
            crit last (ns_cache s) with
    | Ret (r, c) => Ret (r, with_cache s c)
    | Panic msg => Panic msg
    end
|}.

(** The blocks of the chain and the logs of each, which are in order and say
    which block they are of. *)
Variable chain : Z → ResultBlock.
Variable chain_logs : Z → list FoundLog.
Definition placed : Prop := ∀ h, StronglySorted log_lt (chain_logs h) ∧ Forall (λ l, log_number l = h) (chain_logs h).

Definition matching (crit : FilterCriteria) (h : Z) : list FoundLog := filter (λ l, matches crit l) (chain_logs h).
Definition logs_between (crit : FilterCriteria) (a b : Z) : list FoundLog := seqZ a (b - a + 1) ≫= matching crit.

(** The node has the chain up to its latest block and can serve it. *)
Record node_ready (s : NodeState B A R) : Prop := {
  nr_node : node_ok (ns_meanwhile s) (ns_node s) chain;
  nr_workers : workers_ok (ns_workers s);
  nr_cache : coherent (ns_node s) chain (cs_entries (ns_cache s));
  nr_latest : 1 ≤ nd_latest (ns_node s) ∧ nd_latest (ns_node s) ≤ nd_latest_again (ns_node s) ≤ maxInt64 - 200;
  nr_tags : Forall (λ t, t < 0) (nd_tags (ns_node s));
  nr_heights : ∀ crit h, 1 ≤ h ≤ nd_latest_again (ns_node s) → height_ok (ns_node s) synthetic chain crit h;
  nr_logs : ∀ h, 1 ≤ h ≤ nd_latest_again (ns_node s) → all_block_logs (ns_node s) synthetic (chain h) = chain_logs h
}.

Lemma config_positive : 0 < maxBlock ∧ 0 < maxLog.
Proof.
  unfold NewFilterAPI_config, DefaultMaxBlockRange, DefaultMaxLogLimit. cbn [cfg_maxBlock cfg_maxLog].
  destruct (Z.leb_spec (cfg_maxBlock cfg) 0), (Z.leb_spec (cfg_maxLog cfg) 0); lia.
Qed.

Lemma logs_between_split crit a b c : a ≤ b + 1 → b ≤ c → logs_between crit a b ++ logs_between crit (b + 1) c = logs_between crit a c.
Proof.
  intros Hab Hbc. unfold logs_between. rewrite <- bind_app. f_equal.
  replace (c - a + 1) with ((b - a + 1) + (c - (b + 1) + 1)) by lia.
  rewrite (seqZ_app a (b - a + 1) (c - (b + 1) + 1)) by lia. by replace (a + (b - a + 1)) with (b + 1) by lia.
Qed.

Lemma sorted_filter (P : FoundLog → bool) l : StronglySorted log_lt l → StronglySorted log_lt (filter (λ x, P x) l).
Proof.
  induction 1 as [|x l Hl IH Hx]; [constructor|]. rewrite filter_cons. destruct (decide (P x)); [|done].
  constructor; [done|]. apply Forall_forall. intros y [_ Hy]%list_elem_of_filter. rewrite Forall_forall in Hx. by apply Hx.
Qed.

Lemma logs_between_sorted crit a n : placed → StronglySorted log_lt (seqZ a (Z.of_nat n) ≫= matching crit).
Proof.
  intros Hp. revert a. induction n as [|n IH]; intros a; [constructor|].
  rewrite seqZ_cons by lia. rewrite bind_cons. replace (Z.pred (Z.of_nat (S n))) with (Z.of_nat n) by lia.
  destruct (Hp a) as [Hs Hn]. apply StronglySorted_app_2.
  - intros x y Hx (h & Hy & Hh%elem_of_seqZ)%list_elem_of_bind. left.
    apply list_elem_of_filter in Hx as [_ Hx], Hy as [_ Hy]. rewrite Forall_forall in Hn. rewrite (Hn _ Hx).
    destruct (Hp h) as [_ Hh']. rewrite Forall_forall in Hh'. rewrite (Hh' _ Hy). lia.
  - by apply sorted_filter.
  - apply IH.
Qed.

Lemma logs_between_sorted' crit a b : placed → a ≤ b → StronglySorted log_lt (logs_between crit a b).
Proof. intros Hp Hab. unfold logs_between. replace (b - a + 1) with (Z.of_nat (Z.to_nat (b - a + 1))) by lia. by apply logs_between_sorted. Qed.

Lemma range_logs_between s crit begin end_ : node_ready s → 1 ≤ begin → end_ ≤ nd_latest_again (ns_node s) →
  range_logs (ns_node s) synthetic chain crit begin end_ = logs_between crit begin end_.
Proof.
  intros Hr Hb He. unfold range_logs, logs_between. apply Forall_bind_ext, Forall_forall. intros h Hh%elem_of_seqZ.
  unfold height_logs, matching. destruct (Z.eqb_spec h 0); [lia|]. unfold block_logs. rewrite (nr_logs _ Hr); [done|lia].
Qed.

(** What the fetcher answers when the range is [r1] at its first reading of the
    latest height and [r2] at the second. *)
Definition range_size (r : Z * Z) : Z := r.2 - r.1 + 1.
Definition fetch_answer (crit : FilterCriteria) (r1 r2 : Z * Z) : list FoundLog * Z + Err :=
  let open := open_ended (NewFilterAPI_config cfg) crit in
  let begin := cut_begin (NewFilterAPI_config cfg) crit r2.1 r2.2 in
  if (maxBlock <? range_size r1) || (negb open && (maxBlock <? range_size r2)) then inr "block range too large"%string else
  if r2.2 <? begin then inr "fromBlock is after toBlock"%string else
  inl (if open then take (Z.to_nat maxLog) (logs_between crit begin r2.2) else logs_between crit begin r2.2, r2.2).

Lemma with_cache_ready s c : node_ready s → coherent (ns_node s) chain (cs_entries c) → node_ready (with_cache s c).
Proof.
  intros [[N1 N2 N3] Hw _ Hl Ht Hh Hlog] Hc. split; cbn [ns_node with_cache ns_meanwhile ns_workers ns_cache settled]; try done.
  cbn [nd_latest nd_latest_again settled]. lia.
Qed.

Lemma cut_begin_spec crit begin end_ : 1 ≤ begin → let b := cut_begin (NewFilterAPI_config cfg) crit begin end_ in
  1 ≤ b ∧ begin ≤ b ∧ (end_ < b ↔ end_ < begin) ∧
  (open_ended (NewFilterAPI_config cfg) crit = true ∨ end_ - begin + 1 ≤ maxBlock → end_ - b + 1 ≤ maxBlock).
Proof.
  intros Hb. cbv zeta. unfold cut_begin. destruct config_positive as [Hpos _].
  destruct (open_ended _ crit), (Z.ltb_spec maxBlock (end_ - begin + 1)); cbn [andb]; split_and!; try lia; intros [|]; (discriminate || lia).
Qed.

Lemma node_fetch s crit last r1 r2 : placed → node_ready s → fc_BlockHash crit = None →
  query_range (ns_node s) (nd_latest (ns_node s)) crit last = r1 → 1 ≤ r1.1 ≤ maxInt64 → 1 ≤ r1.2 ≤ nd_latest (ns_node s) →
  query_range (ns_node s) (nd_latest_again (ns_node s)) crit last = r2 → 1 ≤ r2.1 ≤ maxInt64 → 1 ≤ r2.2 ≤ nd_latest_again (ns_node s) →
  ∃ s', @env_GetLogsByFilters _ node_env crit last s = Ret (Some (fetch_answer crit r1 r2), s') ∧ node_ready s' ∧
    ns_node s' = settled (ns_node s).
Proof.
  intros Hp Hr Hbh Hq1 Hb1 He1 Hq2 Hb2 He2. destruct r1 as [b1 e1], r2 as [b2 e2]. cbn [fst snd] in *.
  pose proof (nr_latest _ Hr) as Hl. destruct config_positive as [Hpos _]. unfold fetch_answer, range_size. cbn [fst snd].
  assert (Hi1 : i64 (e1 - b1 + 1) = e1 - b1 + 1) by (apply i64_id; unfold maxInt64 in *; lia).
  assert (Hi2 : i64 (e2 - b2 + 1) = e2 - b2 + 1) by (apply i64_id; unfold maxInt64 in *; lia).
  destruct (cut_begin_spec crit b2 e2 ltac:(lia)) as (Hc1 & Hc2 & Hc3 & Hc4).
  assert (Hsame : ∀ r, GetLogsByFilters (ns_meanwhile s) (ns_node s) synthetic (ns_workers s) (NewFilterAPI_config cfg) (Z.to_nat maxBlock)
      crit last (ns_cache s) = Ret (r, ns_cache s) →
    ∃ s', @env_GetLogsByFilters _ node_env crit last s = Ret (r, s') ∧ node_ready s' ∧ ns_node s' = settled (ns_node s)).
  { intros r E. exists (with_cache s (ns_cache s)). cbn [env_GetLogsByFilters node_env]. rewrite E. split; [done|]. split; [|done].
    apply with_cache_ready; [done|apply Hr]. }
  destruct (Z.ltb_spec maxBlock (e1 - b1 + 1)) as [Hbig1|Hbig1]; cbn [orb].
  { apply Hsame. unfold GetLogsByFilters. rewrite Hq1, Hi1. destruct (Z.ltb_spec maxBlock (e1 - b1 + 1)); [done|lia]. }
  destruct (negb (open_ended (NewFilterAPI_config cfg) crit) && (maxBlock <? e2 - b2 + 1)) eqn:Hbig2.
  { apply Hsame. apply andb_true_iff in Hbig2 as [Ho Hbig2]. apply negb_true_iff in Ho. apply Z.ltb_lt in Hpos as Hpos'.
    unfold GetLogsByFilters, fetchBlocksByCrit. fold (open_ended (NewFilterAPI_config cfg) crit).
    rewrite Hq1, Hi1, Hbh, Hq2, Hi2, Ho, Hbig2, Hpos'. destruct (Z.ltb_spec maxBlock (e1 - b1 + 1)); [lia|done]. }
  assert (Hfit : open_ended (NewFilterAPI_config cfg) crit = true ∨ e2 - b2 + 1 ≤ maxBlock).
  { apply andb_false_iff in Hbig2 as [H|H]; [left; by apply negb_false_iff in H|right; by apply Z.ltb_ge in H]. }
  specialize (Hc4 Hfit).
  destruct (Z.ltb_spec e2 (cut_begin (NewFilterAPI_config cfg) crit b2 e2)) as [Hlt|Hge].
  { apply Hsame. unfold GetLogsByFilters, fetchBlocksByCrit. fold (open_ended (NewFilterAPI_config cfg) crit).
    rewrite Hq1, Hi1, Hbh, Hq2, Hi2. destruct (Z.ltb_spec maxBlock (e1 - b1 + 1)); [lia|].
    destruct (Z.ltb_spec maxBlock (e2 - b2 + 1)); [lia|]. rewrite !andb_false_r. destruct (Z.ltb_spec e2 b2); [done|lia]. }
  destruct (GetLogsByFilters_exact (ns_meanwhile s) (ns_node s) synthetic (ns_workers s) (NewFilterAPI_config cfg) chain
    (Z.to_nat maxBlock) crit last (ns_cache s) b1 e1 b2 e2) as (logs & c & E & Hc & _ & _ & Hex).
  1-4: by first [apply Hr|apply Hbh|apply Hq1].
  1,2,4-10: unfold maxInt64 in *; lia.
  { exact Hq2. }
  { intros h Hh. apply (nr_heights _ Hr). lia. }
  { apply Hr. }
  assert (logs = logs_between crit (cut_begin (NewFilterAPI_config cfg) crit b2 e2) e2) as ->.
  { rewrite (range_logs_between s) in Hex by (done || lia). apply Hex. apply logs_between_sorted'; [done|lia]. }
  exists (with_cache s c). cbn [env_GetLogsByFilters node_env]. rewrite E. split; [done|]. split; [by apply with_cache_ready|done].
Qed.

Lemma given_height (nd : Node B A R) latest f : Forall (λ t, t < 0) (nd_tags nd) → 1 ≤ i64 f → getHeightFromBigIntBlockNumber nd latest f = i64 f.
Proof.
  intros Ht Hf. rewrite Forall_forall in Ht. unfold getHeightFromBigIntBlockNumber. rewrite bool_decide_false; [done|]. intros H%Ht. lia.
Qed.

Lemma open_range s latest crit last : node_ready s → open_crit crit →
  query_range (ns_node s) latest crit last = (poll_begin crit last latest, latest).
Proof.
  intros Hr (_ & Hto & Hfrom). unfold query_range, poll_begin. rewrite Hto.
  destruct (fc_FromBlock crit) as [f|] eqn:Ef; simpl default.
  - specialize (Hfrom f eq_refl). assert (Hi : i64 f = f) by (apply i64_id; unfold maxInt64 in *; lia).
    rewrite given_height by (apply Hr || lia). rewrite Hi. f_equal. destruct (Z.ltb_spec f last); lia.
  - f_equal. destruct (Z.ltb_spec latest last); lia.
Qed.

Lemma open_is_ended crit : fc_ToBlock crit = None → open_ended (NewFilterAPI_config cfg) crit = true.
Proof.
  intros Hto. unfold open_ended. destruct config_positive as [_ Hpos]. rewrite Hto. apply Z.ltb_lt in Hpos. rewrite Hpos.
  by destruct (fc_FromBlock crit).
Qed.

Lemma node_source_all : placed → @LogSource _ node_env logs_between node_ready.
Proof.
  intros Hp. split.
  - intros s crit last Hr Hc Hlast. pose proof Hc as (Hbh & Hto & Hfrom). pose proof (nr_latest _ Hr) as Hl.
    assert (Hb : ∀ l, 1 ≤ l ≤ maxInt64 → 1 ≤ poll_begin crit last l ≤ maxInt64).
    { intros l Hll. unfold poll_begin. destruct (fc_FromBlock crit) as [f|] eqn:Ef; simpl default; [specialize (Hfrom f eq_refl)|]; lia. }
    destruct (node_fetch s crit last (poll_begin crit last (nd_latest (ns_node s)), nd_latest (ns_node s))
      (poll_begin crit last (nd_latest_again (ns_node s)), nd_latest_again (ns_node s))) as (s' & E & Hr' & Hn);
      [done|done|done|by apply open_range|apply Hb|cbn [snd]|by apply open_range|apply Hb|cbn [snd]|]; try (unfold maxInt64 in *; lia).
    exists s'. split; [|split; [done|cbn; by rewrite Hn]]. rewrite E. do 3 f_equal.
    unfold fetch_answer, fetch_result, fetch_begin, range_size, cut_begin. rewrite open_is_ended by done. cbn [fst snd negb andb env_cfg node_env].
    by rewrite orb_false_r.
  - intros s Hr. pose proof (nr_latest _ Hr). cbn. unfold maxInt64 in *. lia.
  - intros crit a b c. apply logs_between_split.
Qed.

Lemma fetch_settles crit last s r s' : @env_GetLogsByFilters _ node_env crit last s = Ret (r, s') → ns_node s' = settled (ns_node s).
Proof. unfold env_GetLogsByFilters, node_env. destruct (GetLogsByFilters _ _ _ _ _ _ _ _ _) as [[r' c]|]; [|done]. by intros [= _ <-]. Qed.

(** The promise also holds for the nodes of some kind only. *)
Lemma node_source (P : Node B A R → Prop) : (∀ nd, P nd → P (settled nd)) → placed →
  @LogSource _ node_env logs_between (λ s, node_ready s ∧ P (ns_node s)).
Proof.
  intros HPs Hp. destruct (node_source_all Hp) as [Hf Hl Hs]. split; [|intros s [H _]; by apply Hl|exact Hs].
  intros s crit last [Hr HP] Hc Hlast. destruct (Hf s crit last Hr Hc Hlast) as (s' & E & Hr' & Hle).
  exists s'. split; [done|]. split; [|done]. split; [done|]. rewrite (fetch_settles _ _ _ _ _ E). by apply HPs.
Qed.

(** ** Queries of [GetLogs] *)

(** What [GetLogs] answers when the range is [r0] at its own reading of the latest
    height and [r1] and [r2] at those of the fetcher, and [token] is what the rate
    limiter says. *)
Definition logs_answer (crit : FilterCriteria) (r0 r1 r2 : Z * Z) (token : bool) : list FoundLog + Err :=
  if maxBlock <? range_size r0 then inr "block range too large"%string else
  if (RPSLimitThreshold <? range_size r0) && negb token
  then inr "log query rate limit exceeded for large queries, please try again later"%string else
  match fetch_answer crit r1 r2 with inl (logs, _) => inl logs | inr e => inr e end.

(** A query by heights: tags, or heights that the chain has reached. *)
Definition servable (tags : list Z) (latest : Z) (crit : FilterCriteria) : Prop :=
  fc_BlockHash crit = None ∧ (∀ f, fc_FromBlock crit = Some f → i64 f ∈ tags ∨ 1 ≤ i64 f) ∧
  (∀ t, fc_ToBlock crit = Some t → i64 t ∈ tags ∨ 1 ≤ i64 t ≤ latest).

(** What other requests and new blocks do: the node stays able to serve the
    chain, which only grows. *)
Definition steady (others : FilterAPI (NodeState B A R) → FilterAPI (NodeState B A R)) : Prop := ∀ a, node_ready (fa_env a) →
  node_ready (fa_env (others a)) ∧ nd_latest (ns_node (fa_env a)) ≤ nd_latest (ns_node (fa_env (others a))) ∧
  nd_tags (ns_node (fa_env (others a))) = nd_tags (ns_node (fa_env a)).

Lemma servable_range nd latest0 latest crit : servable (nd_tags nd) latest0 crit → 1 ≤ latest0 → latest0 ≤ latest ≤ maxInt64 →
  let r := query_range (B := B) (A := A) (R := R) nd latest crit 0 in 1 ≤ r.1 ≤ maxInt64 ∧ 1 ≤ r.2 ≤ latest.
Proof.
  intros (_ & Hf & Ht) H0 Hl. cbv zeta. unfold query_range. cbn [fst snd].
  assert (Hn : ∀ n hi, i64 n ∈ nd_tags nd ∨ 1 ≤ i64 n ≤ hi → latest ≤ hi → 1 ≤ getHeightFromBigIntBlockNumber nd latest n ≤ hi).
  { intros n hi Hor Hhi. unfold getHeightFromBigIntBlockNumber. case_bool_decide; [lia|]. by destruct Hor. }
  assert (Hfrom : ∀ f, fc_FromBlock crit = Some f → 1 ≤ getHeightFromBigIntBlockNumber nd latest f ≤ maxInt64).
  { intros f E. apply Hn; [|lia]. destruct (Hf f E); [by left|right]. split; [done|]. apply i64_max. }
  assert (Hto : ∀ t, fc_ToBlock crit = Some t → 1 ≤ getHeightFromBigIntBlockNumber nd latest t ≤ latest).
  { intros t E. apply Hn; [|lia]. destruct (Ht t E); [by left|right; lia]. }
  destruct (fc_FromBlock crit) as [f|], (fc_ToBlock crit) as [t|];
    try specialize (Hfrom _ eq_refl); try specialize (Hto _ eq_refl); repeat case_match; lia.
Qed.

Lemma logs_range_query s crit : let r := query_range (ns_node s) (nd_latest (ns_node s)) crit 0 in 1 ≤ r.1 → @logs_range _ node_env s crit = r.
Proof.
  cbv zeta. unfold logs_range, query_range. cbn [env_latest env_height node_env fst snd].
  match goal with |- context [if ?x <? 0 then _ else _] => destruct (Z.ltb_spec x 0) end; [lia|done].
Qed.

Lemma query_range_tags (nd nd' : Node B A R) latest crit last : nd_tags nd' = nd_tags nd → query_range nd' latest crit last = query_range nd latest crit last.
Proof. intros E. unfold query_range, getHeightFromBigIntBlockNumber. by rewrite E. Qed.

(** For a range that both ends fix, the answer is all its matching logs. *)
Lemma logs_answer_closed crit r token : open_ended (NewFilterAPI_config cfg) crit = false → r.1 ≤ r.2 → range_size r ≤ maxBlock →
  (RPSLimitThreshold < range_size r → token = true) → logs_answer crit r r r token = inl (logs_between crit r.1 r.2).
Proof.
  intros Ho Hr Hs Ht. unfold logs_answer, fetch_answer, cut_begin. rewrite Ho. cbn [andb negb].
  destruct (Z.ltb_spec maxBlock (range_size r)); [lia|]. destruct (Z.ltb_spec (r.2) (r.1)); [lia|].
  destruct (Z.ltb_spec RPSLimitThreshold (range_size r)) as [Hthr|_]; [rewrite (Ht Hthr)|]; done.
Qed.
End NodeEnv.

(** ** Block filters *)

(** The node's log of events, newest first: cursors and encoded blocks. *)
Definition event_log : Type := list (string * bytes).
(** The entries after a cursor; after the empty one all of them. *)
Fixpoint newer (cursor : string) (log : event_log) : event_log :=
  match log with
  | [] => []
  | e :: log' => if bool_decide (e.1 = cursor) then [] else e :: newer cursor log'
  end.
Definition newest (log : event_log) : string := match log with e :: _ => e.1 | [] => ""%string end.

Section BlockFilters.
Context {S : Type} `{FE : FilterEnv S}.
Variable events : S → event_log.
Variable page : nat.
Variable block_hash : bytes → bytes.
Variable others : FilterAPI S → FilterAPI S.
Variable id : string.

(** What the client's documentation says of its events: the newest matching
    items after the cursor, from newest to oldest and no more than a page,
    whether older ones were left out, and the cursor of the newest item of the
    log. *)
Record EventLaws : Prop := {
  el_Events : ∀ s cursor, env_Events s cursor =
    inl (mkEventsPage (snd <$> take page (newer cursor (events s))) (bool_decide (page < length (newer cursor (events s)))%nat)
           (newest (events s)));
  el_cursors : ∀ s, Forall (λ e, e.1 ≠ ""%string) (events s);
  el_items : ∀ s, Forall (λ e, env_BlockHash e.2 = inl (block_hash e.2)) (events s)
}.
(** The others leave the filter and the events alone. *)
Record quiet : Prop := {
  quiet_filter : ∀ a f, fa_filters a !! id = Some f →
    ∃ f', fa_filters (others a) !! id = Some f' ∧ f_typ f' = f_typ f ∧ f_blockCursor f' = f_blockCursor f;
  quiet_events : ∀ a, events (fa_env (others a)) = events (fa_env a)
}.
Hypothesis EL : EventLaws.
Hypothesis HQ : quiet.

Lemma page_headers_eq l hs : Forall (λ e : string * bytes, env_BlockHash e.2 = inl (block_hash e.2)) l →
  page_headers (snd <$> l) hs = inl (hs ++ ((λ e, BytesToHash (block_hash e.2)) <$> l)).
Proof.
  intros H. revert hs. induction H as [|e l He Hl IH]; intros hs; [by rewrite app_nil_r|].
  simpl. rewrite He, IH. by rewrite <- app_assoc.
Qed.

Lemma newer_newest log : newer (newest log) log = [].
Proof. destruct log as [|e log]; [done|]. simpl. by rewrite bool_decide_true. Qed.

Lemma newer_suffix cursor log : ∃ old, log = newer cursor log ++ old.
Proof.
  induction log as [|e log [old IH]]; [by exists []|]. simpl. destruct (bool_decide _); [by eexists|]. exists old. simpl. by rewrite <- IH.
Qed.

Lemma page_of a cursor hs : page_headers (snd <$> take page (newer cursor (events (fa_env a)))) hs =
  inl (hs ++ ((λ e, BytesToHash (block_hash e.2)) <$> take page (newer cursor (events (fa_env a))))).
Proof.
  apply page_headers_eq, Forall_take. destruct (newer_suffix cursor (events (fa_env a))) as [old H].
  pose proof (el_items EL (fa_env a)) as Hi. rewrite H in Hi. by apply Forall_app in Hi as [? _].
Qed.

(** Two rounds are enough: the second finds nothing after the newest item. *)
Lemma getBlockHeadersAfter_page rounds cursor a : (2 ≤ rounds)%nat →
  ∃ a', getBlockHeadersAfter others rounds cursor a =
      Ret (Some (inl ((λ e, BytesToHash (block_hash e.2)) <$> take page (newer cursor (events (fa_env a))), newest (events (fa_env a)))), a') ∧
    (a' = others a ∨ a' = others (others a)).
Proof.
  intros Hr. destruct rounds as [|[|rounds]]; [lia..|]. unfold getBlockHeadersAfter. cbn [headers_after].
  unfold sbind at 1, sget at 1. rewrite (el_Events EL). unfold sbind at 1, unlocked at 1, sput at 1. cbn [ev_Items ev_More ev_Newest].
  rewrite page_of, app_nil_l. destruct (bool_decide _); [|eexists; split; [reflexivity|by left]].
  unfold sbind at 1, sget at 1. rewrite (el_Events EL). unfold sbind at 1, unlocked at 1, sput at 1. cbn [ev_Items ev_More ev_Newest].
  rewrite (quiet_events HQ). rewrite newer_newest, take_nil. simpl fmap. cbn [page_headers length]. rewrite bool_decide_false by lia.
  eexists. split; [reflexivity|by right].
Qed.

Definition keeps_cursor (cursor : string) (a : FilterAPI S) : Prop :=
  ∃ f, fa_filters a !! id = Some f ∧ f_typ f = BlocksSubscription ∧ f_blockCursor f = cursor.
Lemma keeps_cursor_others cursor a : keeps_cursor cursor a → keeps_cursor cursor (others a).
Proof.
  intros (f & Hf & Ht & Hc). destruct (quiet_filter HQ a f Hf) as (f' & Hf' & Ht' & Hc'). exists f'. split; [done|]. split; congruence.
Qed.

Lemma keeps_cursor_access cursor a : keeps_cursor cursor a → keeps_cursor cursor (exec (updateFilterAccess id) a).
Proof.
  intros (f & Hf & Ht & Hc). eexists. split.
  - unfold exec, updateFilterAccess, sput, set_filters. cbn [fa_filters]. rewrite lookup_alter_eq, Hf. reflexivity.
  - by split.
Qed.

Lemma write_cursor c c' a : keeps_cursor c a → keeps_cursor c' (set_filters (alter (set_cursor c') id) a).
Proof.
  intros (f & Hf & Ht & _). exists (set_cursor c' f). split; [|by split]. unfold set_filters. cbn [fa_filters].
  by rewrite lookup_alter_eq, Hf.
Qed.
End BlockFilters.

(** ** Uninstalling and expiring *)

Section Lifecycle.
Context {S : Type} `{FE : FilterEnv S}.
#[local] Notation alone := (λ a : FilterAPI S, a).

(** The context of a filter. *)
Definition contexts_of (m : gmap string api_filter) : gset nat :=
  list_to_set (omap (λ e, f_cancelFunc e.2) (map_to_list m)).

Lemma elem_of_contexts_of c m : c ∈ contexts_of m ↔ ∃ id f, m !! id = Some f ∧ f_cancelFunc f = Some c.
Proof.
  unfold contexts_of. rewrite elem_of_list_to_set, list_elem_of_omap. split.
  - intros ([id f] & H%elem_of_map_to_list & Hc). by exists id, f.
  - intros (id & f & H & Hc). exists (id, f). split; [by apply elem_of_map_to_list|done].
Qed.

(** Deleting a list of filters: they are gone and their contexts cancelled. *)
Lemma delete_filters ids (a : FilterAPI S) : let a' := foldl (λ a id, delete_filter id a) a ids in
  fa_filters a' = base.filter (λ e, e.1 ∉ ids) (fa_filters a) ∧
  fa_cancelled a' = contexts_of (base.filter (λ e, e.1 ∈ ids) (fa_filters a)) ∪ fa_cancelled a ∧
  fa_toDelete a' = fa_toDelete a ∧ fa_env a' = fa_env a.
Proof.
  cbv zeta. revert a. induction ids as [|id ids IH]; intros a; simpl.
  { split_and!; [| |done|done].
    - apply map_eq. intros i. apply option_eq. intros x. rewrite map_lookup_filter_Some. pose proof (not_elem_of_nil i). naive_solver.
    - apply set_eq. intros c. rewrite elem_of_union, elem_of_contexts_of. split; [by right|]. intros [(id & f & [_ H]%map_lookup_filter_Some & _)|H]; [|done].
      by apply elem_of_nil in H. }
  destruct (IH (delete_filter id a)) as (-> & -> & -> & ->). unfold delete_filter. destruct (fa_filters a !! id) as [f|] eqn:Ef.
  - split_and!.
    + destruct (f_cancelFunc f); cbn [cancel fa_filters set_filters]; apply map_eq; intros i; apply option_eq; intros x;
        rewrite !map_lookup_filter_Some, lookup_delete_Some; simpl; rewrite not_elem_of_cons; naive_solver.
    + apply set_eq. intros c. destruct (f_cancelFunc f) as [k|] eqn:Ek; cbn [cancel fa_filters fa_cancelled set_filters];
        rewrite ?elem_of_union, ?elem_of_contexts_of, ?elem_of_singleton; setoid_rewrite map_lookup_filter_Some; simpl;
        setoid_rewrite lookup_delete_Some; setoid_rewrite elem_of_cons.
      all: split; [|intros [(i & g & (Hg & [->|Hi]) & Hc)|?]; [naive_solver|destruct (decide (i = id)); naive_solver|naive_solver]].
      all: naive_solver.
    + by destruct (f_cancelFunc f).
    + by destruct (f_cancelFunc f).
  - split_and!; [| |done|done].
    + apply map_eq. intros i. apply option_eq. intros x. rewrite !map_lookup_filter_Some. simpl. rewrite not_elem_of_cons. naive_solver.
    + apply set_eq. intros c. rewrite !elem_of_union, !elem_of_contexts_of. setoid_rewrite map_lookup_filter_Some. simpl.
      setoid_rewrite elem_of_cons. naive_solver.
Qed.

Lemma delete_set_toDelete id q q' (a : FilterAPI S) :
  set_toDelete q (delete_filter id (set_toDelete q' a)) = delete_filter id (set_toDelete q a).
Proof. unfold delete_filter. cbn [fa_filters set_toDelete]. destruct (fa_filters a !! id) as [f|]; [|done]. by destruct (f_cancelFunc f). Qed.

Lemma toDelete_delete id (a : FilterAPI S) : fa_toDelete (delete_filter id a) = fa_toDelete a.
Proof. unfold delete_filter. destruct (fa_filters a !! id) as [f|]; [|done]. by destruct (f_cancelFunc f). Qed.

(** The cleanup loop receives what is queued. *)
Lemma loop_deletes timeout q a : fa_toDelete a = q →
  nsteps (cleanupLoop alone timeout) (length q) a (foldl (λ a id, delete_filter id a) (set_toDelete [] a) q).
Proof.
  revert a. induction q as [|id q IH]; intros a Hq; cbn [length foldl].
  - destruct a; simpl in Hq; subst. constructor.
  - rewrite <- (delete_set_toDelete id [] q). econstructor; [|apply IH; by rewrite toDelete_delete].
    apply loop_delete; [left; by rewrite Hq|]. unfold cleanup_delete, sbind, receive_toDelete, unlocked, removeFilter, sput. by rewrite Hq.
Qed.

Lemma delete_filters_of P `{!∀ e : string * api_filter, Decision (P e)} ids (a : FilterAPI S) :
  (∀ id f, fa_filters a !! id = Some f → id ∈ ids ↔ P (id, f)) →
  let a' := foldl (λ a id, delete_filter id a) a ids in
  fa_filters a' = base.filter (λ e, ¬ P e) (fa_filters a) ∧ fa_cancelled a' = contexts_of (base.filter P (fa_filters a)) ∪ fa_cancelled a ∧
  fa_toDelete a' = fa_toDelete a.
Proof.
  intros Hids. destruct (delete_filters ids a) as (E1 & E2 & E3 & _). cbv zeta in *. rewrite E1, E2, E3. split_and!; [| |done].
  - apply map_filter_ext. intros id f Hf. simpl. by rewrite (Hids id f Hf).
  - f_equal. f_equal. apply map_filter_ext. intros id f Hf. simpl. by apply Hids.
Qed.
End Lifecycle.

(** * Theorems *)

Section QueryTheorems.
Context `{BK : BankKeeper B} `{AK : AccountKeeper A} `{EC : EthCrypto} `{CD : Codec} `{EH : EthHex} `{IL : IntLibs}.
Context `{ET : EthTransactions T} `{TC : TxCodec} `{RS : ReceiptStore R} `{SL : SortLogs} `{SLL : !SortLogsLaws}.

End QueryTheorems.

Section FilterTheorems.
Context {S : Type} `{FE : FilterEnv S}.
Context (src_logs : FilterCriteria → Z → Z → list FoundLog) (src_ok : S → Prop) `{LS : !LogSource src_logs src_ok}.
Variable others : FilterAPI S → FilterAPI S.


(** A poll from a given height loses blocks when the chain grows within it: if the
    range is small enough at the first reading of the latest height and too large
    at the second, its first blocks are left out and the cursor moves past them. *)
Theorem growing_poll_skips crit from id rounds a f : let h1 := env_latest (fa_env a) in let h2 := env_latest_again (fa_env a) in
  open_crit crit → fc_FromBlock crit = Some from → rely src_ok others id → (∀ a, fa_env (others a) = fa_env a) →
  fa_filters a !! id = Some f → f_typ f = LogsSubscription → f_fc f = crit → 0 ≤ f_lastToHeight f ≤ from → src_ok (fa_env a) →
  h1 - from + 1 ≤ cfg_maxBlock env_cfg → 0 < cfg_maxBlock env_cfg < h2 - from + 1 →
  ∃ a' f', GetFilterChanges others rounds id a =
      Ret (Some (inl (LogChanges (take (Z.to_nat (cfg_maxLog env_cfg)) (src_logs crit (h2 - cfg_maxBlock env_cfg + 1) h2)))), a') ∧
    fa_filters a' !! id = Some f' ∧ f_lastToHeight f' = h2 + 1.
Proof.
  intros h1 h2 Hc Hfrom HR Hq Hf Ht Hfc Hl Hok Hs1 Hs2. subst crit. pose proof Hc as (_ & _ & Hfb). specialize (Hfb _ Hfrom).
  destruct (GetFilterChanges_logs src_logs src_ok others id HR rounds a f) as (a' & E & _ & _ & _ & ((f' & Hf' & _ & _ & Hl') & _));
    [done|done|done|unfold maxInt64 in *; lia|done|].
  assert (He : fa_env (others (exec (updateFilterAccess id) (others a))) = fa_env a) by (rewrite Hq; unfold exec, updateFilterAccess, sput; apply Hq).
  rewrite He in *. revert E Hl'. fold h1 h2. unfold fetch_result, fetch_begin, poll_begin. rewrite Hfrom. simpl default.
  rewrite Z.max_r by lia. destruct (Z.ltb_spec (cfg_maxBlock env_cfg) (h1 - from + 1)); [lia|].
  destruct (Z.ltb_spec (cfg_maxBlock env_cfg) (h2 - from + 1)); [|lia]. rewrite Z.max_r by lia.
  destruct (Z.ltb_spec h2 (h2 - cfg_maxBlock env_cfg + 1)); [lia|]. intros E Hl'. exists a', f'. by split.
Qed.

(** A filter without a first block misses blocks.  The first poll gives the
    logs of the latest block only; the second one fails if there is no new block,
    and otherwise again gives the logs of the latest block only, so those of the
    blocks in between are never delivered. *)
Theorem open_filter_skips crit id rounds a b f g :
  open_crit crit → fc_FromBlock crit = None → rely src_ok others id → (∀ a, fa_env (others a) = fa_env a) →
  1 ≤ cfg_maxBlock env_cfg →
  fa_filters a !! id = Some f → f_typ f = LogsSubscription → f_fc f = crit → f_lastToHeight f = 0 → src_ok (fa_env a) →
  env_latest_again (fa_env a) = env_latest (fa_env a) → env_latest_again (fa_env b) = env_latest (fa_env b) →
  fa_filters b !! id = Some g → same_filter (set_lastToHeight (env_latest (fa_env a) + 1) f) g → src_ok (fa_env b) →
  let logs h := take (Z.to_nat (cfg_maxLog env_cfg)) (src_logs crit h h) in
  (∃ a', GetFilterChanges others rounds id a = Ret (Some (inl (LogChanges (logs (env_latest (fa_env a))))), a') ∧
    ∃ f', fa_filters a' !! id = Some f' ∧ f_lastToHeight f' = env_latest (fa_env a) + 1) ∧
  (∃ b', GetFilterChanges others rounds id b =
    Ret (Some (if env_latest (fa_env b) <=? env_latest (fa_env a) then inr "fromBlock is after toBlock"%string
               else inl (LogChanges (logs (env_latest (fa_env b))))), b')).
Proof.
  intros Hc Hfrom HR Hq Hmax Hf Ht Hfc Hl Hok Hsa Hsb Hg (G1 & G2 & G3) Hokb. subst crit. simpl in G1, G2, G3. cbv zeta.
  pose proof (src_latest src_logs _ Hok) as Hla. pose proof (src_latest src_logs _ Hokb) as Hlb.
  assert (Hexec : ∀ a, fa_env (others (exec (updateFilterAccess id) (others a))) = fa_env a).
  { intros x. rewrite Hq. unfold exec, updateFilterAccess, sput. simpl. apply Hq. }
  split.
  - destruct (GetFilterChanges_logs src_logs src_ok others id HR rounds a f) as (a' & E & _ & _ & _ & Hp); [done|done|done|lia|done|].
    rewrite Hexec, Hl, Hsa in *. revert E Hp. unfold fetch_result, fetch_begin, poll_begin. rewrite Hfrom. simpl default.
    rewrite Z.max_r by lia. destruct (Z.ltb_spec (cfg_maxBlock env_cfg) (env_latest (fa_env a) - env_latest (fa_env a) + 1)); [lia|].
    rewrite Z.ltb_irrefl. intros E ((f' & Hf' & _ & _ & Hl') & _). exists a'. split; [exact E|]. by exists f'.
  - destruct (GetFilterChanges_logs src_logs src_ok others id HR rounds b g) as (b' & E & _); [done|congruence|by rewrite G2|lia|done|].
    rewrite Hexec, G2, G3, Hsb in E. exists b'. rewrite E. do 3 f_equal. unfold fetch_result, fetch_begin, poll_begin. rewrite Hfrom. simpl default.
    destruct (Z.leb_spec (env_latest (fa_env b)) (env_latest (fa_env a))).
    + rewrite Z.max_l by lia. destruct (Z.ltb_spec (cfg_maxBlock env_cfg) (env_latest (fa_env b) - (env_latest (fa_env a) + 1) + 1)); [lia|].
      destruct (Z.ltb_spec (env_latest (fa_env b)) (env_latest (fa_env a) + 1)); [done|lia].
    + rewrite Z.max_r by lia. destruct (Z.ltb_spec (cfg_maxBlock env_cfg) (env_latest (fa_env b) - env_latest (fa_env b) + 1)); [lia|].
      by rewrite Z.ltb_irrefl.
Qed.
End FilterTheorems.

Section ApiTheorems.
Context {S : Type} `{FE : FilterEnv S}.

(** A log filter whose last block is given by a tag such as latest reports
    nothing.  The tags are negative numbers, and the number is compared with the
    height reported so far without being resolved: every poll of such a filter
    answers that there is nothing new, whatever the chain holds. *)
Theorem latest_filter_silent others rounds id (a : FilterAPI S) f tag :
  fa_filters a !! id = Some f → f_typ f = LogsSubscription → fc_BlockHash (f_fc f) = None →
  fc_ToBlock (f_fc f) = Some tag → i64 tag < 0 → 0 ≤ f_lastToHeight f →
  ∃ a', GetFilterChanges others rounds id a = Ret (Some (inl NoChanges), a').
Proof.
  intros Hf Ht Hbh Hto Htag Hl. unfold GetFilterChanges. unfold sbind at 1, sget. rewrite Hf. unfold sbind, unlocked, sput, updateFilterAccess.
  rewrite Ht. unfold log_changes. rewrite Hbh, Hto. destruct (Z.leb_spec (i64 tag) (f_lastToHeight f)); [|lia]. by eexists.
Qed.

(** A poll of a block filter reports the newest blocks.  With a client whose
    events behave as documented the request needs two rounds at most; it returns
    the hashes of the blocks after the filter's cursor, newest first, but no more
    than one page of them, and leaves the cursor at the newest event, after which
    there is nothing: older blocks that did not fit are never reported. *)
Theorem block_filter_newest_page events page block_hash others id rounds (a : FilterAPI S) f :
  EventLaws events page block_hash → quiet events others id → (2 ≤ rounds)%nat →
  fa_filters a !! id = Some f → f_typ f = BlocksSubscription →
  let log := events (fa_env a) in
  ∃ a', GetFilterChanges others rounds id a =
      Ret (Some (inl (BlockHashes ((λ e, BytesToHash (block_hash e.2)) <$> take page (newer (f_blockCursor f) log)))), a') ∧
    (∃ f', fa_filters a' !! id = Some f' ∧ f_typ f' = BlocksSubscription ∧ f_blockCursor f' = newest log) ∧ newer (newest log) log = [].
Proof.
  intros EL HQ Hr Hf Ht. cbv zeta. unfold GetFilterChanges. unfold sbind at 1, sget. rewrite Hf. unfold sbind at 1, unlocked at 1, sput at 1.
  unfold sbind at 1. change (updateFilterAccess id (others a)) with (Ret (tt, exec (updateFilterAccess id) (others a))).
  unfold sbind at 1, unlocked at 1, sput at 1. rewrite Ht. set (a2 := others (exec _ _)).
  assert (He : events (fa_env a2) = events (fa_env a)).
  { unfold a2. rewrite (quiet_events _ _ _ HQ). unfold exec, updateFilterAccess, sput. simpl. apply (quiet_events _ _ _ HQ). }
  assert (H2 : keeps_cursor id (f_blockCursor f) a2).
  { apply (keeps_cursor_others events others id HQ), keeps_cursor_access, (keeps_cursor_others events others id HQ). by exists f. }
  unfold block_changes, sbind at 1.
  destruct (getBlockHeadersAfter_page events page block_hash others id EL HQ rounds (f_blockCursor f) a2 Hr) as (a3 & -> & H3).
  rewrite He. eexists. split; [reflexivity|]. split; [|apply newer_newest].
  pose proof (keeps_cursor_others events others id HQ) as Hk.
  apply (write_cursor id (f_blockCursor f)), Hk. destruct H3 as [-> | ->]; auto.
Qed.

(** Uninstalled filters go away.  After a request to uninstall a filter has
    been answered and the cleanup loop has received what is queued, the filters
    that are left are those that were not to be deleted, unchanged, and the
    context of every filter that is gone is cancelled; this also holds when the
    queue of 1000 is full and the request deletes the filter itself. *)
Theorem uninstall_removes timeout id (a : FilterAPI S) f :
  fa_filters a !! id = Some f → fa_closed a = false →
  let doomed e := e.1 ∈ id :: fa_toDelete a in
  ∃ a1 a2, UninstallFilter (λ a, a) id a = Ret (true, a1) ∧ nsteps (cleanupLoop (λ a, a) timeout) (length (fa_toDelete a1)) a1 a2 ∧
    fa_filters a2 = base.filter (λ e, ¬ doomed e) (fa_filters a) ∧ fa_toDelete a2 = [] ∧
    fa_cancelled a2 = contexts_of (base.filter doomed (fa_filters a)) ∪ fa_cancelled a.
Proof.
  intros Hf Hc. cbv zeta. unfold UninstallFilter. unfold sbind at 1, sget. rewrite Hf. unfold sbind at 1, unlocked at 1, sput at 1. rewrite Hc.
  destruct (_ <? _)%nat.
  - eexists _, _. split; [reflexivity|]. split; [by apply loop_deletes|]. cbn [fa_toDelete set_toDelete].
    destruct (delete_filters_of (λ e, e.1 ∈ id :: fa_toDelete a) (fa_toDelete a ++ [id]) (set_toDelete [] a)) as (H1 & H2 & H3); [|done].
    intros i g _. simpl. rewrite elem_of_app, list_elem_of_singleton, elem_of_cons. tauto.
  - unfold sbind, unlocked, removeFilter, sput, sret. eexists _, _. split; [reflexivity|]. split; [by apply loop_deletes|].
    rewrite toDelete_delete.
    destruct (delete_filters_of (λ e, e.1 ∈ id :: fa_toDelete a) (id :: fa_toDelete a) (set_toDelete [] a)) as (H1 & H2 & H3); [done|].
    cbn [foldl] in *. rewrite <- (delete_set_toDelete id [] (fa_toDelete a)) in *. by destruct a.
Qed.

(** The cleanup loop removes the filters that nobody used.  A tick removes
    exactly the filters whose last access is longer ago than the timeout and
    cancels their contexts; all other filters stay as they are. *)
Theorem cleanup_exact timeout (a : FilterAPI S) :
  let old e := timeout < time_Sub (env_now (fa_env a)) (f_lastAccess e.2) in
  ∃ a', cleanupExpiredFilters (λ a, a) timeout a = Ret (tt, a') ∧
    fa_filters a' = base.filter (λ e, ¬ old e) (fa_filters a) ∧
    fa_cancelled a' = contexts_of (base.filter old (fa_filters a)) ∪ fa_cancelled a.
Proof.
  cbv zeta. set (old := λ e : string * api_filter, timeout < time_Sub (env_now (fa_env a)) (f_lastAccess e.2)).
  destruct (delete_filters_of old (expired timeout (env_now (fa_env a)) a) a) as (H1 & H2 & _).
  { intros id f Hf. unfold expired. rewrite list_elem_of_fmap. split.
    - intros ([i g] & -> & [Hg Ho]%elem_of_map_to_list%map_lookup_filter_Some). simpl in Hf. simplify_eq. exact Ho.
    - intros Ho. exists (id, f). split; [done|]. by apply elem_of_map_to_list, map_lookup_filter_Some. }
  eexists. split; [|split; [exact H1|exact H2]]. unfold cleanupExpiredFilters, sbind, sget, unlocked, sput, swhen.
  destruct (expired timeout (env_now (fa_env a)) a) as [|i l]; done.
Qed.
End ApiTheorems.

(** * Examples *)

Lemma length_bind_le {X Y : Type} (f : X → list Y) (l : list X) k : (∀ x, (length (f x) ≤ k)%nat) → (length (l ≫= f) ≤ k * length l)%nat.
Proof. intros H. induction l as [|x l IH]; [simpl; lia|]. rewrite bind_cons, length_app. specialize (H x). simpl length. lia. Qed.

#[local] Instance log_le_dec a b : Decision (log_le a b).
Proof. unfold log_le. apply _. Defined.
#[local] Instance log_le_total : Total log_le.
Proof. intros a b. unfold log_le. lia. Qed.
Definition merge_sort_logs : SortLogs := {| sort_logs := merge_sort log_le |}.
Lemma merge_sort_logs_laws : @SortLogsLaws merge_sort_logs.
Proof. split; intros l; [apply merge_sort_Permutation|apply StronglySorted_merge_sort; apply _]. Qed.

Section FilterExamples.
#[local] Existing Instances demo_bank_keeper demo_accounts demo_crypto live_config.
#[local] Existing Instances number_codec number_codec_laws plain_hex plain_hex_laws strict_ints plain_transactions no_codec.
#[local] Existing Instances map_receipt_store merge_sort_logs merge_sort_logs_laws.

(** Blocks of one transaction, whose hash is its first byte and whose receipt
    has two logs. *)
Definition demo_rlog (h i : Z) : RLog := mkRLog (addr_Hex (addr_of 5)) [hash_Hex (hash_of h)] [x01] i false.
Definition demo_log_receipt (h : Z) : Receipt :=
  mkReceipt 2 0 "" "" 21000 1000000000 h 0 1 "" "" "" [demo_rlog h 0; demo_rlog h 1] (replicate 256 xff).
Definition demo_receipt_db : kvstore :=
  <[ReceiptKey (hash_of 1) := Receipt_Marshal (demo_log_receipt 1)]>
    (<[ReceiptKey (hash_of 2) := Receipt_Marshal (demo_log_receipt 2)]>
      {[ReceiptKey (hash_of 3) := Receipt_Marshal (demo_log_receipt 3)]}).
Definition demo_chain (h : Z) : ResultBlock := mkResultBlock [x0a] h [be_enc 8 h].
(** The node when block [l] is the latest, and [l'] when a query reads it again;
    blocks have a bloom with all bits. *)
Definition demo_node (l l' : Z) : Node demo_bank (gset bytes) kvstore :=
  mkNode _ _ _ l l' demo_world0 demo_receipt_db (λ h, (h, SetBlockBloom [full_bloom] demo_world0)) (λ _, true)
    (λ _ h, inl (Some (demo_chain h))) (λ _ _, inr "no block"%string) (λ _ _, inl [OtherMsg "/cosmos.bank.v1beta1.MsgSend"]) (fit 32) [-4; -3; -2; -1].
Definition demo_chain_logs (h : Z) : list FoundLog :=
  if (1 <=? h) && (h <=? 3) then all_block_logs (demo_node 3 3) true (demo_chain h) else [].
Definition demo_workers : Workers := mkWorkers (λ _, None) (λ _, None) (λ l, l) (λ l, l).
Definition demo_state (l : Z) : NodeState demo_bank (gset bytes) kvstore :=
  mkNodeState (demo_node l l) (mkCacheState 0 ∅) demo_workers (λ _ m, m) 0 ["a"%string] (λ _, inr "no events"%string) [].
Definition demo_config : FilterConfig := mkFilterConfig 300 0 3.

Lemma demo_receipts_of l l' hash rc : GetReceipt hash (nd_receipts (demo_node l l')) (nd_world (demo_node l l')) = inl rc →
  ∃ h, rc = demo_log_receipt h.
Proof.
  unfold GetReceipt. cbn [rs_GetLatestVersion rs_Get map_receipt_store nd_receipts nd_world demo_node].
  change (w_evm demo_world0) with (∅ : kvstore). rewrite lookup_empty.
  destruct (demo_receipt_db !! ReceiptKey hash) as [bz|] eqn:E; [|discriminate].
  assert (Hr : ∃ h, bz = Receipt_Marshal (demo_log_receipt h)).
  { unfold demo_receipt_db in E. rewrite !lookup_insert_Some, lookup_singleton_Some in E.
    destruct E as [[_ <-]|[_ [[_ <-]|[_ [_ <-]]]]]; by eexists. }
  destruct Hr as [h ->]. rewrite Receipt_codec. intros [= <-]. by exists h.
Qed.

Lemma demo_receipt_bloom h : receipt_bloom_ok (demo_log_receipt h).
Proof.
  right. cbn [rc_LogsBloom rc_Logs demo_log_receipt]. split; [by rewrite length_replicate|].
  rewrite <- full_bloom_bytes. repeat constructor; apply full_bloom_log.
Qed.

Lemma demo_height_bloom h : GetBlockBloomWithExists h (SetBlockBloom [full_bloom] demo_world0) = Ret (full_bloom, true).
Proof. vm_compute. reflexivity. Qed.

Lemma demo_height_ok l l' crit h : height_ok (demo_node l l') true demo_chain crit h.
Proof.
  intros _. split; [done|]. split; [done|]. unfold height_bloom. destruct (has_filters crit).
  - exists full_bloom, true. split.
    + cbn [nd_at nd_VersionExists demo_node]. rewrite Z.eqb_refl. apply demo_height_bloom.
    + intros _. apply Forall_true. intros x. apply full_bloom_log.
  - by exists zero_bloom, false.
Qed.

Lemma all_block_logs_latest l l' b : all_block_logs (demo_node l l') true b = all_block_logs (demo_node 3 3) true b.
Proof. reflexivity. Qed.

(** Every state of the node with a coherent cache is good. *)
Lemma demo_good (l l' : Z) (s : NodeState demo_bank (gset bytes) kvstore) : 1 ≤ l → l ≤ l' ≤ 3 → ns_node s = demo_node l l' → workers_ok (ns_workers s) →
  (∀ n m, coherent (demo_node 3 3) demo_chain m → coherent (demo_node 3 3) demo_chain (ns_meanwhile s n m)) →
  coherent (demo_node 3 3) demo_chain (cs_entries (ns_cache s)) → node_ready true demo_chain demo_chain_logs s.
Proof.
  intros Hl Hl' Hn Hw Hm Hc. split; rewrite ?Hn.
  - split; [done|exact Hm|]. intros hash rc [h ->]%demo_receipts_of. apply demo_receipt_bloom.
  - done.
  - exact Hc.
  - simpl. unfold maxInt64. lia.
  - repeat constructor.
  - intros crit h _. apply demo_height_ok.
  - intros h Hh. simpl in Hh. unfold demo_chain_logs. destruct (Z.leb_spec 1 h); [|lia]. destruct (Z.leb_spec h 3); [|lia]. cbn [andb].
    apply all_block_logs_latest.
Qed.

(** The places of the logs of a block. *)
Lemma demo_places h : 1 ≤ h ≤ 3 → (λ l, (log_number l, log_index l)) <$> all_block_logs (demo_node 3 3) true (demo_chain h) = [(h, 0); (h, 1)].
Proof. intros Hh. assert (h = 1 ∨ h = 2 ∨ h = 3) as [-> | [-> | ->]] by lia; vm_compute; reflexivity. Qed.

Lemma demo_placed : placed demo_chain_logs.
Proof.
  intros h. unfold demo_chain_logs. destruct (Z.leb_spec 1 h), (Z.leb_spec h 3); cbn [andb].
  2-4: split; constructor.
  pose proof (demo_places h ltac:(lia)) as Hp. destruct (all_block_logs _ _ _) as [|x [|y [|]]]; try discriminate Hp.
  injection Hp as H1 H2 H3 H4. split; [|repeat constructor; done].
  constructor; [repeat constructor|]. constructor; [|constructor]. right. lia.
Qed.

Lemma demo_few_logs crit a b : b - a < 3 → Z.of_nat (length (logs_between demo_chain_logs crit a b)) ≤ 10000.
Proof.
  intros Hab. unfold logs_between.
  assert (Hl : (length (seqZ a (b - a + 1) ≫= matching demo_chain_logs crit) ≤ 2 * length (seqZ a (b - a + 1)))%nat).
  { apply length_bind_le. intros h. unfold matching. etransitivity; [apply length_filter|]. unfold demo_chain_logs.
    destruct (Z.leb_spec 1 h), (Z.leb_spec h 3); cbn [andb]; [|simpl; lia..].
    pose proof (f_equal length (demo_places h ltac:(lia))) as E. rewrite length_fmap in E. simpl in E. lia. }
  rewrite length_seqZ in Hl. lia.
Qed.
#[local] Instance demo_env : FilterEnv (NodeState demo_bank (gset bytes) kvstore) := node_env demo_config true inl.
Definition demo_api (l : Z) : FilterAPI (NodeState demo_bank (gset bytes) kvstore) := NewFilterAPI (demo_state l).

Lemma demo_start l : 1 ≤ l ≤ 3 → node_ready true demo_chain demo_chain_logs (demo_state l).
Proof.
  intros Hl. apply (demo_good l l); [lia|lia|done|by split|done|]. intros h e. unfold demo_state. cbn [ns_cache cs_entries]. by rewrite lookup_empty.
Qed.

(** The good states of the example: the node has one of its three heights. *)
Definition demo_heights (nd : Node demo_bank (gset bytes) kvstore) : Prop := ∃ l l', 1 ≤ l ∧ l ≤ l' ≤ 3 ∧ nd = demo_node l l'.
Definition demo_ok (s : NodeState demo_bank (gset bytes) kvstore) : Prop :=
  node_ready true demo_chain demo_chain_logs s ∧ demo_heights (ns_node s).
#[local] Instance demo_source : LogSource (logs_between demo_chain_logs) demo_ok.
Proof.
  apply (node_source demo_config true inl demo_chain demo_chain_logs demo_heights); [|exact demo_placed].
  intros nd (l & l' & H1 & H2 & ->). exists l', l'. split_and!; [lia|lia|lia|done].
Qed.

(** While nobody holds the lock the chain grows by a block, up to the third, and by
    another one within the next query. *)
Definition grow (s : NodeState demo_bank (gset bytes) kvstore) : NodeState demo_bank (gset bytes) kvstore :=
  let l := nd_latest_again (ns_node s) in
  if l <? 3 then mkNodeState (demo_node (l + 1) (Z.min 3 (l + 2))) (ns_cache s) (ns_workers s) (ns_meanwhile s) (ns_now s) (ns_ids s) (ns_events s)
    (ns_tokens s)
  else s.
Definition growing (a : FilterAPI (NodeState demo_bank (gset bytes) kvstore)) := set_env (grow (fa_env a)) a.

Lemma grow_ok s : demo_ok s → demo_ok (grow s) ∧ nd_latest (ns_node s) ≤ nd_latest (ns_node (grow s)).
Proof.
  intros [Hr (l & l' & Hl & Hl' & Hn)]. unfold grow. rewrite Hn. cbn [nd_latest nd_latest_again demo_node]. destruct (Z.ltb_spec l' 3).
  2:{ rewrite Hn. split; [split; [done|by exists l, l']|done]. }
  split; [|simpl; lia]. split; [|exists (l' + 1), (Z.min 3 (l' + 2)); split_and!; (lia || done)].
  destruct Hr as [Hok Hw Hc _ _ _ _]. rewrite Hn in Hok, Hc.
  apply (demo_good (l' + 1) (Z.min 3 (l' + 2))); [lia|lia|done|done|exact (no_meanwhile _ _ _ Hok)|exact Hc].
Qed.

Lemma growing_rely id : rely demo_ok growing id.
Proof.
  split.
  - intros a f Hf. exists f. split; [exact Hf|by split].
  - intros a Ha. by apply grow_ok.
Qed.


Lemma demo_open crit : fc_BlockHash crit = None → fc_ToBlock crit = None → fc_FromBlock crit ∈ [None; Some 1] → open_crit crit.
Proof.
  intros H1 H2 H3. split; [done|]. split; [done|]. intros f Hf. rewrite Hf in H3. apply elem_of_cons in H3 as [|H3%list_elem_of_singleton]; [done|].
  injection H3 as ->. unfold maxInt64. lia.
Qed.


(** A filter without a first block, polled at block 1 and at block 3. *)
Definition demo_filter (typ : FilterType) (crit : FilterCriteria) (h : Z) : api_filter := mkFilter typ crit (Some 0%nat) 0 "" h.
Definition demo_polled (l : Z) (f : api_filter) : FilterAPI (NodeState demo_bank (gset bytes) kvstore) :=
  mkFilterAPI {["a"%string := f]} [] false false 1 ∅ (demo_state l).

Lemma alone_rely id : rely demo_ok (λ a, a) id.
Proof. split; [intros a f Hf; by exists f|done]. Qed.

Lemma open_filter_skips_witness :
  let crit := mkFilterCriteria None None None [] [] in
  let logs h := take 10000 (logs_between demo_chain_logs crit h h) in
  (∃ a', GetFilterChanges (λ a, a) 0 "a" (demo_polled 1 (demo_filter LogsSubscription crit 0)) = Ret (Some (inl (LogChanges (logs 1))), a')) ∧
  (∃ b', GetFilterChanges (λ a, a) 0 "a" (demo_polled 3 (demo_filter LogsSubscription crit 2)) = Ret (Some (inl (LogChanges (logs 3))), b')).
Proof.
  cbv zeta. set (crit := mkFilterCriteria _ _ _ _ _).
  destruct (open_filter_skips (logs_between demo_chain_logs) demo_ok (λ a, a) crit "a" 0 (demo_polled 1 (demo_filter LogsSubscription crit 0))
    (demo_polled 3 (demo_filter LogsSubscription crit 2)) (demo_filter LogsSubscription crit 0) (demo_filter LogsSubscription crit 2))
    as [(a' & H1 & _) (b' & H2)].
  - apply demo_open; [done|done|by left].
  - reflexivity.
  - apply alone_rely.
  - reflexivity.
  - vm_compute. discriminate.
  - reflexivity.
  - reflexivity.
  - reflexivity.
  - reflexivity.
  - split; [by apply demo_start|by exists 1, 1].
  - reflexivity.
  - reflexivity.
  - reflexivity.
  - by split.
  - split; [by apply demo_start|by exists 3, 3].
  - split; [by exists a'|by exists b'].
Defined.

Lemma latest_filter_silent_witness :
  let crit := mkFilterCriteria None (Some 1) (Some (-2)) [] [] in
  ∃ a', GetFilterChanges growing 0 "a" (demo_polled 3 (demo_filter LogsSubscription crit 0)) = Ret (Some (inl NoChanges), a').
Proof.
  cbv zeta. set (crit := mkFilterCriteria _ _ _ _ _).
  apply (latest_filter_silent growing 0 "a" _ (demo_filter LogsSubscription crit 0) (-2)); reflexivity || (vm_compute; congruence).
Defined.

Lemma uninstall_removes_witness :
  let f := demo_filter LogsSubscription (mkFilterCriteria None None None [] []) 0 in
  ∃ a1 a2, UninstallFilter (λ a, a) "a" (demo_polled 1 f) = Ret (true, a1) ∧ nsteps (cleanupLoop (λ a, a) 300) (length (fa_toDelete a1)) a1 a2 ∧
    fa_filters a2 !! "a"%string = None ∧ 0%nat ∈ fa_cancelled a2.
Proof.
  cbv zeta. set (f := demo_filter _ _ _).
  destruct (uninstall_removes 300 "a" (demo_polled 1 f) f) as (a1 & a2 & H1 & H2 & H3 & _ & H4); [reflexivity|reflexivity|].
  exists a1, a2. split; [exact H1|]. split; [exact H2|]. rewrite H3, H4. split; vm_compute; reflexivity.
Defined.

(** Three blocks since the last poll and pages of two. *)
Definition demo_events : event_log := [("3"%string, [x03]); ("2"%string, [x02]); ("1"%string, [x01]); ("0"%string, [x00])].
Definition paged_events (cursor : string) : EventsPage + Err :=
  inl (mkEventsPage (snd <$> take 2 (newer cursor demo_events)) (bool_decide (2 < length (newer cursor demo_events))%nat) (newest demo_events)).
Definition events_env : FilterEnv unit := {|
  env_cfg := demo_config; env_now _ := 0; env_NewID _ := ("a"%string, tt); env_Events _ := paged_events; env_BlockHash := inl;
  env_Allow _ := (true, tt); env_height _ h := h; env_latest _ := 3; env_latest_again _ := 3; env_GetLogsByFilters _ _ _ := Ret (None, tt)
|}.

Lemma block_filter_newest_page_witness :
  let f := mkFilter BlocksSubscription (mkFilterCriteria None None None [] []) (Some 0%nat) 0 "0" 0 in
  ∃ a', GetFilterChanges (FE := events_env) (λ a, a) 2 "a" (mkFilterAPI {["a"%string := f]} [] false false 1 ∅ tt) =
      Ret (Some (inl (BlockHashes [BytesToHash [x03]; BytesToHash [x02]])), a').
Proof.
  cbv zeta. set (f := mkFilter _ _ _ _ _ _).
  destruct (block_filter_newest_page (FE := events_env) (λ _, demo_events) 2 (λ b, b) (λ a, a) "a" 2
    (mkFilterAPI {["a"%string := f]} [] false false 1 ∅ tt) f) as (a' & E & _).
  - split; [reflexivity|intros _; repeat constructor; discriminate|intros _; repeat constructor].
  - split; [intros a g Hg; by exists g|reflexivity].
  - lia.
  - reflexivity.
  - reflexivity.
  - exists a'. exact E.
Defined.
End FilterExamples.
