(* ===== verification/WorkerPool.v ===== *)
(** * The pool of workers
    (evmrpc/worker_pool.go)

    Tasks are submitted to a bounded queue without waiting; a fixed number of
    workers take them; closing the pool lets the workers finish what is queued.
    The goroutines interleave, so the pool is a step relation: one step per
    critical section, channel operation or task.  [Submit] is two steps, since it
    looks at the flag under the lock and sends after releasing it. *)

From S2P Require Import Prelude.
Local Open Scope Z_scope.

(** A task is known by its number.  [wp_queue] is [taskQueue], [wp_busy] are the
    tasks that run, [wp_exited] counts the workers whose loop has ended;
    [wp_checked] are the calls of [Submit] between its two steps.  The last five
    record what happened: tasks accepted, tasks that ended (a panic is recovered
    and ends a task too), calls of [Submit] that panicked, whether the [Close] that
    closes the pool has returned after waiting for the workers, and how many calls of
    [Close] have returned without waiting for any: those of a pool that is closed
    already, or that was never started. *)
Record WorkerPool : Type := mkPool {
  wp_workers : nat;
  wp_capacity : nat;
  wp_started : bool;
  wp_queue : list nat;
  wp_busy : list nat;
  wp_exited : nat;
  wp_closed : bool;
  wp_done : bool;
  wp_queue_closed : bool;
  wp_checked : list nat;
  wp_accepted : list nat;
  wp_finished : list nat;
  wp_panicked : list nat;
  wp_returned : bool;
  wp_returned_early : nat
}.

Definition NewWorkerPool (workers queueSize : nat) : WorkerPool :=
  mkPool workers queueSize false [] [] 0 false false false [] [] [] [] false 0.

Definition WorkerCount (p : WorkerPool) : nat := wp_workers p.
Definition QueueSize (p : WorkerPool) : nat := wp_capacity p.

Section Updates.
Variable p : WorkerPool.

(** [start], once. *)
Definition start : WorkerPool :=
  mkPool (wp_workers p) (wp_capacity p) true (wp_queue p) (wp_busy p) (wp_exited p) (wp_closed p) (wp_done p) (wp_queue_closed p)
    (wp_checked p) (wp_accepted p) (wp_finished p) (wp_panicked p) (wp_returned p) (wp_returned_early p).

(** The calls of [Submit] in progress, the queue, and what was accepted. *)
Definition submitting (checked queue accepted panicked : list nat) : WorkerPool :=
  mkPool (wp_workers p) (wp_capacity p) (wp_started p) queue (wp_busy p) (wp_exited p) (wp_closed p) (wp_done p) (wp_queue_closed p)
    checked accepted (wp_finished p) panicked (wp_returned p) (wp_returned_early p).
(** The workers: the queue, the tasks that run, those that ended, and the
    workers that exited. *)
Definition working (queue busy finished : list nat) (exited : nat) : WorkerPool :=
  mkPool (wp_workers p) (wp_capacity p) (wp_started p) queue busy exited (wp_closed p) (wp_done p) (wp_queue_closed p)
    (wp_checked p) (wp_accepted p) finished (wp_panicked p) (wp_returned p) (wp_returned_early p).
(** How far [Close] is. *)
Definition closing (closed done queue_closed returned : bool) (early : nat) : WorkerPool :=
  mkPool (wp_workers p) (wp_capacity p) (wp_started p) (wp_queue p) (wp_busy p) (wp_exited p) closed done queue_closed
    (wp_checked p) (wp_accepted p) (wp_finished p) (wp_panicked p) returned early.

(** A worker that neither runs a task nor has ended. *)
Definition idle_worker : bool := wp_started p && (length (wp_busy p) + wp_exited p <? wp_workers p)%nat.
End Updates.

(** The steps of a call of [Submit]: a pool that is closed is refused; later the
    [select] takes one of the cases that are ready, and a send on a closed channel is
    one, which panics.  Without a buffer a send hands the task to a waiting worker. *)
Inductive Submit : WorkerPool → WorkerPool → Prop :=
  | Submit_check task p : wp_closed p = false →
      Submit p (submitting p (task :: wp_checked p) (wp_queue p) (wp_accepted p) (wp_panicked p))
  | Submit_refused p : wp_closed p = true → Submit p p
  | Submit_send task c1 c2 p : wp_checked p = c1 ++ task :: c2 → wp_queue_closed p = false → (length (wp_queue p) < wp_capacity p)%nat →
      Submit p (submitting p (c1 ++ c2) (wp_queue p ++ [task]) (task :: wp_accepted p) (wp_panicked p))
  | Submit_hand task c1 c2 p : wp_checked p = c1 ++ task :: c2 → wp_queue_closed p = false → wp_capacity p = 0%nat → idle_worker p = true →
      Submit p (submitting (working p (wp_queue p) (task :: wp_busy p) (wp_finished p) (wp_exited p)) (c1 ++ c2) (wp_queue p) (task :: wp_accepted p) (wp_panicked p))
  | Submit_full task c1 c2 p : wp_checked p = c1 ++ task :: c2 → wp_queue_closed p = false → (wp_capacity p ≤ length (wp_queue p))%nat →
      Submit p (submitting p (c1 ++ c2) (wp_queue p) (wp_accepted p) (wp_panicked p))
  | Submit_closing task c1 c2 p : wp_checked p = c1 ++ task :: c2 → wp_done p = true →
      Submit p (submitting p (c1 ++ c2) (wp_queue p) (wp_accepted p) (wp_panicked p))
  | Submit_send_closed task c1 c2 p : wp_checked p = c1 ++ task :: c2 → wp_queue_closed p = true →
      Submit p (submitting p (c1 ++ c2) (wp_queue p) (wp_accepted p) (task :: wp_panicked p)).

(** The steps of the workers that [start] starts: a worker takes the first task,
    ends a task, or exits when the queue is closed and empty. *)
Inductive worker_step : WorkerPool → WorkerPool → Prop :=
  | worker_take task q p : wp_queue p = task :: q → idle_worker p = true →
      worker_step p (working p q (task :: wp_busy p) (wp_finished p) (wp_exited p))
  | worker_finish task b1 b2 p : wp_busy p = b1 ++ task :: b2 →
      worker_step p (working p (wp_queue p) (b1 ++ b2) (task :: wp_finished p) (wp_exited p))
  | worker_exit p : wp_queue_closed p = true → wp_queue p = [] → idle_worker p = true →
      worker_step p (working p (wp_queue p) (wp_busy p) (wp_finished p) (S (wp_exited p))).

(** The steps of [Close]: the flag, the two channels, and waiting for the
    workers, of which there are none if the pool was never started.  A call that
    finds the flag set returns at once. *)
Inductive Close : WorkerPool → WorkerPool → Prop :=
  | Close_flag p : wp_closed p = false → Close p (closing p true (wp_done p) (wp_queue_closed p) (wp_returned p) (wp_returned_early p))
  | Close_again p : wp_closed p = true →
      Close p (closing p true (wp_done p) (wp_queue_closed p) (wp_returned p) (S (wp_returned_early p)))
  | Close_done p : wp_closed p = true → wp_done p = false →
      Close p (closing p true true (wp_queue_closed p) (wp_returned p) (wp_returned_early p))
  | Close_queue p : wp_done p = true → wp_queue_closed p = false →
      Close p (closing p (wp_closed p) true true (wp_returned p) (wp_returned_early p))
  | Close_wait p : wp_queue_closed p = true → wp_started p = true → wp_exited p = wp_workers p →
      Close p (closing p (wp_closed p) (wp_done p) true true (wp_returned_early p))
  | Close_unstarted p : wp_queue_closed p = true → wp_started p = false →
      Close p (closing p (wp_closed p) (wp_done p) true (wp_returned p) (S (wp_returned_early p))).

Inductive pool_step : WorkerPool → WorkerPool → Prop :=
  | pool_start p : pool_step p (start p)
  | pool_submit p p' : Submit p p' → pool_step p p'
  | pool_work p p' : worker_step p p' → pool_step p p'
  | pool_close p p' : Close p p' → pool_step p p'.

(** The pool of the process is started when it is made. *)
Definition WorkerQueueSize : nat := 200.
Definition GetGlobalWorkerPool (numCPU : nat) : WorkerPool := start (NewWorkerPool (numCPU * 2) WorkerQueueSize).
Definition pool_reachable (workers queueSize : nat) (p : WorkerPool) : Prop := rtc pool_step (NewWorkerPool workers queueSize) p.

(** ** The invariant *)

Record pool_inv (workers queueSize : nat) (p : WorkerPool) : Prop := {
  pi_sizes : wp_workers p = workers ∧ wp_capacity p = queueSize;
  pi_tasks : wp_accepted p ≡ₚ wp_finished p ++ wp_busy p ++ wp_queue p;
  pi_queue : (length (wp_queue p) ≤ queueSize)%nat;
  pi_workers : (length (wp_busy p) + wp_exited p ≤ workers)%nat;
  pi_exited : (0 < wp_exited p)%nat → wp_queue_closed p = true ∧ wp_queue p = [];
  pi_returned : wp_returned p = true → wp_queue_closed p = true ∧ wp_exited p = workers
}.

Lemma pool_submit_inv n k p p' : pool_inv n k p → Submit p p' → pool_inv n k p'.
Proof.
  intros [Hs Ht Hq Hw He Hr] H. destruct H as [| |task c1 c2 p Hc Hcl Hl|task c1 c2 p Hc Hcl H0 Hi| | |]; [by split|by split| | |by split..].
  - split; cbn [submitting wp_accepted wp_finished wp_busy wp_queue wp_capacity wp_workers wp_exited wp_queue_closed wp_returned wp_started];
      [done| | |done| |done].
    + rewrite Ht, !app_assoc. apply Permutation_cons_append.
    + destruct Hs as [_ <-]. rewrite length_app. simpl. lia.
    + intros H. destruct (He H). congruence.
  - apply andb_true_iff in Hi as [_ Hi%Nat.ltb_lt]. destruct Hs as [Hs1 Hs2].
    split; cbn [submitting working wp_accepted wp_finished wp_busy wp_queue wp_capacity wp_workers wp_exited wp_queue_closed wp_returned wp_started]; try done.
    + rewrite Ht. apply Permutation_middle.
    + simpl. lia.
Qed.

Lemma pool_worker_inv n k p p' : pool_inv n k p → worker_step p p' → pool_inv n k p'.
Proof.
  intros [Hs Ht Hq Hw He Hr] H. destruct H as [task q p E Hi|task b1 b2 p E|p Hc E Hi];
    split; cbn [working wp_accepted wp_finished wp_busy wp_queue wp_capacity wp_workers wp_exited wp_queue_closed wp_returned wp_started].
  all: try done.
  all: try (apply andb_true_iff in Hi as [_ Hi%Nat.ltb_lt]; destruct Hs as [Hs1 Hs2]).
  - rewrite Ht, E. apply Permutation_app_head. by rewrite <- Permutation_middle.
  - rewrite E in Hq. simpl in Hq. lia.
  - simpl. lia.
  - intros H. destruct (He H). congruence.
  - rewrite Ht, E. rewrite <- !app_assoc. simpl. by rewrite !Permutation_middle.
  - rewrite E, length_app in Hw. simpl in Hw. rewrite length_app. lia.
  - lia.
  - intros H%Hr. lia.
Qed.

Lemma pool_close_inv n k p p' : pool_inv n k p → Close p p' → pool_inv n k p'.
Proof.
  intros [Hs Ht Hq Hw He Hr] Hc. destruct Hc; (split; [done..| |]); cbn.
  all: try done.
  - intros Hx. destruct (He Hx). done.
  - intros Hx. destruct (Hr Hx). done.
  - intros Hx. destruct (He Hx). done.
  - intros _. destruct Hs as [<- _]. auto.
  - intros Hx. destruct (He Hx). done.
  - intros Hx. destruct (Hr Hx). done.
Qed.

Lemma reachable_inv n k p : pool_reachable n k p → pool_inv n k p.
Proof.
  unfold pool_reachable. intros H. assert (H0 : pool_inv n k (NewWorkerPool n k)) by (split; simpl; [done|done|lia|lia|lia|done]).
  induction H as [p|p1 p2 p3 H1 _ IH]; [done|]. apply IH. destruct H1 as [p1|p1 p2 H2|p1 p2 H2|p1 p2 H2].
  - destruct H0. by split.
  - by eapply pool_submit_inv.
  - by eapply pool_worker_inv.
  - by eapply pool_close_inv.
Qed.

(** Every step of a worker makes this smaller. *)
Definition pool_work_left (p : WorkerPool) : nat := 2 * length (wp_queue p) + length (wp_busy p) + (wp_workers p - wp_exited p).

Lemma worker_decreases n k p p' : pool_inv n k p → worker_step p p' → (pool_work_left p' < pool_work_left p)%nat.
Proof.
  intros [[Hn _] _ _ Hw _ _] H. unfold pool_work_left. destruct H as [task q p E Hi|task b1 b2 p E|p Hc E Hi]; cbn.
  - rewrite E. simpl. lia.
  - rewrite E, !length_app. simpl. lia.
  - apply andb_true_iff in Hi as [_ Hi%Nat.ltb_lt]. lia.
Qed.

Lemma worker_run_bounded n k m p p' : pool_inv n k p → nsteps worker_step m p p' → pool_inv n k p' ∧ (m + pool_work_left p' ≤ pool_work_left p)%nat.
Proof.
  intros Hp H. revert Hp. induction H as [p|m p1 p2 p3 H1 H2 IH]; intros Hp; [done|].
  destruct (IH (pool_worker_inv _ _ _ _ Hp H1)) as [H3 H4]. pose proof (worker_decreases _ _ _ _ Hp H1). split; [done|lia].
Qed.

Lemma workers_done n k p : (0 < n)%nat → wp_started p = true → pool_inv n k p → (∀ p', ¬ worker_step p p') → wp_queue p = [] ∧ wp_busy p = [].
Proof.
  intros Hn Hst [[Hs _] _ _ Hw He _] H.
  assert (Hb : wp_busy p = []).
  { destruct (wp_busy p) as [|t b] eqn:E; [done|]. destruct (H (working p (wp_queue p) ([] ++ b) (t :: wp_finished p) (wp_exited p))).
    by apply worker_finish. }
  split; [|done]. destruct (wp_queue p) as [|t q] eqn:E; [done|]. rewrite Hb in Hw. simpl in Hw.
  destruct (decide (0 < wp_exited p)%nat) as [Hx|Hx]; [by destruct (He Hx)|].
  destruct (H (working p q (t :: wp_busy p) (wp_finished p) (wp_exited p))). apply worker_take; [done|].
  unfold idle_worker. rewrite Hst, Hb. apply Nat.ltb_lt. simpl. lia.
Qed.

(** * Theorems *)

(** C18: the pool loses no task and runs none twice.  In every state that a pool,
    started or not, can reach under any interleaving of starting, submissions,
    workers and calls of Close, the accepted tasks are those that have ended, those
    that run and those that are queued, each once; the queue and the number of tasks
    that run are bounded; and when the Close that closed a started pool has returned,
    every accepted task has ended.  (Other calls of Close do not wait:
    [close_again_early].) *)
Theorem pool_runs_once workers queueSize p : (0 < workers)%nat → pool_reachable workers queueSize p →
  wp_accepted p ≡ₚ wp_finished p ++ wp_busy p ++ wp_queue p ∧
  (length (wp_queue p) ≤ queueSize)%nat ∧ (length (wp_busy p) ≤ workers)%nat ∧
  (wp_returned p = true → wp_finished p ≡ₚ wp_accepted p ∧ wp_queue p = [] ∧ wp_busy p = []).
Proof.
  intros Hn [_ Ht Hq Hw He Hr]%reachable_inv. split; [done|]. split; [done|]. split; [lia|]. intros [_ Hx]%Hr.
  assert (Hb : wp_busy p = []) by (apply length_zero_iff_nil; lia). destruct (He ltac:(lia)) as [_ E].
  split; [|done]. by rewrite Ht, Hb, E, !app_nil_r.
Qed.

(** Accepted tasks end.  From every state a started pool can reach, the workers
    alone can take only so many steps, and when they can take none all accepted
    tasks have ended. *)
Theorem pool_drains workers queueSize p m p' : (0 < workers)%nat → wp_started p = true → pool_reachable workers queueSize p → nsteps worker_step m p p' →
  (m ≤ 2 * queueSize + 2 * workers)%nat ∧
  ((∀ p'', ¬ worker_step p' p'') → wp_finished p' ≡ₚ wp_accepted p' ∧ wp_accepted p' = wp_accepted p).
Proof.
  intros Hn Hst Hp%reachable_inv Hm. destruct (worker_run_bounded _ _ _ _ _ Hp Hm) as [Hp' Hle]. split.
  - destruct Hp as [[Hs _] _ Hq Hw _ _]. unfold pool_work_left in Hle. lia.
  - assert (Hst' : wp_started p' = true) by (clear -Hm Hst; induction Hm as [|m p1 p2 p3 H1 H2 IH]; [done|]; apply IH; by destruct H1).
    intros Hstop. destruct (workers_done _ _ _ Hn Hst' Hp' Hstop) as [E1 E2]. split.
    + rewrite (pi_tasks _ _ _ Hp'), E1, E2. by rewrite !app_nil_r.
    + clear -Hm. induction Hm as [p|m p1 p2 p3 H1 H2 IH]; [done|]. rewrite IH. by destruct H1.
Qed.

(** Submitting can panic.  A call of Submit that has seen the pool open and
    sends only after Close has closed the queue sends on a closed channel, which
    panics in the caller instead of returning an error: such a state can be
    reached with any number of workers and any queue. *)
Theorem submit_close_race workers queueSize : ∃ p, pool_reachable workers queueSize p ∧ wp_panicked p = [0%nat] ∧ wp_accepted p = [].
Proof.
  eexists. split; [|split].
  - unfold pool_reachable. eapply rtc_l; [apply pool_start|].
    eapply rtc_l; [apply pool_submit, (Submit_check 0); reflexivity|]. eapply rtc_l; [apply pool_close, Close_flag; reflexivity|].
    eapply rtc_l; [apply pool_close, Close_done; reflexivity|]. eapply rtc_l; [apply pool_close, Close_queue; reflexivity|].
    eapply rtc_l; [apply pool_submit, (Submit_send_closed 0 [] []); reflexivity|]. apply rtc_refl.
  - reflexivity.
  - reflexivity.
Qed.

(** A second call of Close returns while a task still runs: the first one is still
    waiting. *)
Theorem close_again_early workers queueSize : (0 < workers)%nat → (0 < queueSize)%nat →
  ∃ p, pool_reachable workers queueSize p ∧ wp_returned_early p = 1%nat ∧ wp_returned p = false ∧ wp_busy p = [0%nat].
Proof.
  intros Hw Hq. eexists. split; [|split_and!].
  - unfold pool_reachable. eapply rtc_l; [apply pool_start|]. eapply rtc_l; [apply pool_submit, (Submit_check 0); reflexivity|].
    eapply rtc_l; [apply pool_submit, (Submit_send 0 [] []); [reflexivity|reflexivity|exact Hq]|].
    eapply rtc_l; [apply pool_work, (worker_take 0 []); [reflexivity|by apply Nat.ltb_lt]|].
    eapply rtc_l; [apply pool_close, Close_flag; reflexivity|]. eapply rtc_l; [apply pool_close, Close_again; reflexivity|]. apply rtc_refl.
  - reflexivity.
  - reflexivity.
  - reflexivity.
Qed.

(** * Examples *)

(** One task, accepted, run and ended. *)
Definition demo_pool : WorkerPool := start (NewWorkerPool 1 1).
Definition demo_queued : WorkerPool := submitting (submitting demo_pool [7%nat] [] [] []) [] [7%nat] [7%nat] [].
Definition demo_taken : WorkerPool := working demo_queued [] [7%nat] [] 0.
Definition demo_ended : WorkerPool := working demo_taken [] [] [7%nat] 0.

Lemma demo_queued_reachable : pool_reachable 1 1 demo_queued.
Proof.
  eapply rtc_l; [apply pool_start|]. eapply rtc_l; [apply pool_submit, (Submit_check 7); reflexivity|].
  eapply rtc_l; [apply pool_submit, (Submit_send 7 [] []); [reflexivity|reflexivity|simpl; lia]|]. apply rtc_refl.
Qed.
Lemma demo_run : nsteps worker_step 2 demo_queued demo_ended.
Proof.
  eapply nsteps_l; [by apply (worker_take 7 [])|]. eapply nsteps_l; [by apply (worker_finish 7 [] [])|]. apply nsteps_O.
Qed.

Lemma pool_runs_once_witness : wp_accepted demo_queued ≡ₚ [7%nat].
Proof. exact (proj1 (pool_runs_once 1 1 demo_queued ltac:(lia) demo_queued_reachable)). Defined.

Lemma demo_stops p : ¬ worker_step demo_ended p.
Proof. intros H. inversion H; simplify_eq/=. by destruct b1. Qed.

Lemma pool_drains_witness : wp_finished demo_ended ≡ₚ wp_accepted demo_ended.
Proof. exact (proj1 (proj2 (pool_drains 1 1 demo_queued 2 demo_ended ltac:(lia) eq_refl demo_queued_reachable demo_run) demo_stops)). Defined.
