(* ===== verification/Precompile.v ===== *)
(** * Running custom precompiles
    (precompiles/common/precompiles.go)

    A custom precompile is Go code that the EVM calls like a contract.  It works
    on the stores of the newest level of the state database under a gas meter of
    its own; what it emits is passed on only when it succeeds; its error is
    recorded in the database and becomes a revert of the call.

    Running out of gas is a panic in the middle of a keeper call.  Here a panic
    keeps the stores as they are at that moment: a call that reads leaves them, a
    call that writes may have done any part of its work ([sg_torn]). *)

From S2P Require Import Prelude Bytes Dec Store Params Keys World Instances Keeper StateDB Snapshots Supply Finalize Frame Fee Eth Block EthTx Msg Receipts Tx Associate.
From Stdlib Require Import Strings.Byte.
Local Open Scope Z_scope.

(** ** Values and calls *)

(** [interface{}] values of arguments and results, as far as the precompiles use
    them. *)
Inductive AbiValue : Type :=
| VAddress (a : Address)
| VString (s : string)
| VInt (z : Z)
| VBool (b : bool)
| VBytes (b : bytes)
| VStrings (l : list string)
| VCoins (l : list (Z * string))
| VStruct (fields : list AbiValue)
| VArray (l : list AbiValue).

(** go-ethereum's ABI of a precompile: methods by identifier, and the encoding of
    arguments and results. *)
Record ABI : Type := mkABI {
  MethodById : bytes → string + Err;
  Unpack : string → bytes → list AbiValue + Err;
  Pack : string → list AbiValue → bytes + Err
}.

(** The gas of the SDK's stores: the flat and per-byte costs, what a keeper call
    consumes, and what a write that runs out of gas leaves behind; and the meter
    with a limit that the SDK makes. *)
Class StoreGas (B A G : Type) := {
  WriteCostFlat : Z;
  WriteCostPerByte : Z;
  ReadCostFlat : Z;
  ReadCostPerByte : Z;
  sg_cost : string → World B A → Z;
  sg_torn : string → World B A → World B A;
  NewGasMeterWithMultiplier : Z → G
}.

(** A call as the executor sees it. *)
Record Call : Type := mkCall {
  cl_method : string;
  cl_caller : Address;
  cl_callingContract : Address;
  cl_args : list AbiValue;
  cl_value : option Z;
  cl_readOnly : bool;
  cl_delegate : bool
}.

(** The data, the gas left and the error. *)
Notation Returned := (bytes * Z * option Err)%type.
Definition failed (e : Err) : Returned := ([], 0, Some e).

(** ** Effects of executors *)

(** The context of the call and its gas meter. *)
Record Exec (MS G : Type) : Type := mkExec { ex_ctx : Ctx MS; ex_gas : G }.
Arguments mkExec {MS G}. Arguments ex_ctx {MS G}. Arguments ex_gas {MS G}.

Inductive Ran (MS G X : Type) : Type :=
| Done (x : X) (s : Exec MS G)
| Panicked (msg : string) (s : Exec MS G).
Arguments Done {MS G X}. Arguments Panicked {MS G X}.
Notation exec_m MS G X := (Exec MS G → Ran MS G X).

Definition xret {MS G X : Type} (x : X) : exec_m MS G X := Done x.
Definition xpanic {MS G X : Type} (msg : string) : exec_m MS G X := Panicked msg.
Definition xbind {MS G X Y : Type} (m : exec_m MS G X) (f : X → exec_m MS G Y) : exec_m MS G Y := λ s,
  match m s with Done x s' => f x s' | Panicked msg s' => Panicked msg s' end.
Definition xlift {MS G X : Type} (o : outcome X) : exec_m MS G X := λ s,
  match o with Ret x => Done x s | Panic msg => Panicked msg s end.

Declare Scope exec_scope.
Delimit Scope exec_scope with exec.
Notation "'let%' x := m 'in' k" := (xbind m (λ x, k))
  (at level 10, x name, m at level 100, k at level 200) : exec_scope.
(** An error ends the method. *)
Notation "'try%' x := e 'in' k" := (match e with inr err => xret (failed err) | inl x => k end)
  (at level 10, x name, e at level 100, k at level 200) : exec_scope.
Notation "'ensure%' e ; k" := (match e with Some err => xret (failed err) | None => k end)
  (at level 10, e at level 100, k at level 200) : exec_scope.
Local Open Scope exec_scope.

(** ** Checks *)

Definition UnknownMethodCallGas : Z := 3000.

Definition ExtractMethodID (input : bytes) : bytes + Err :=
  if (length input <? 4)%nat then inr "input too short to extract method ID"%string else inl (take 4 input).

Definition ValidateArgsLength (args : list AbiValue) (n : nat) : option Err :=
  if (length args =? n)%nat then None else Some "wrong number of arguments"%string.

Definition ValidateNonPayable (value : option Z) : option Err :=
  match value with
  | Some v => if v =? 0 then None else Some "sending funds to a non-payable function"%string
  | None => None
  end.

(** Type assertions on an argument, which panic. *)
Section Arguments.
Context {MS G : Type}.
Definition bad_assertion : string := "interface conversion".
Definition arg (args : list AbiValue) (i : nat) : exec_m MS G AbiValue :=
  match args !! i with Some v => xret v | None => xpanic "index out of range" end.
Definition arg_string (args : list AbiValue) (i : nat) : exec_m MS G string :=
  let% v := arg args i in match v with VString s => xret s | _ => xpanic bad_assertion end.
Definition arg_address (args : list AbiValue) (i : nat) : exec_m MS G Address :=
  let% v := arg args i in match v with VAddress a => xret a | _ => xpanic bad_assertion end.
Definition arg_int (args : list AbiValue) (i : nat) : exec_m MS G Z :=
  let% v := arg args i in match v with VInt z => xret z | _ => xpanic bad_assertion end.
End Arguments.

Section Common.
Context `{BK : BankKeeper B} `{CK : CoinsKeeper B} `{AK : AccountKeeper A} `{EC : EthCrypto} `{KC : KeeperConfig}.
Context `{MST : MultiStore MS (World B A)} `{SD : SdkDec} `{GM : GasMeters G} `{SG : StoreGas B A G}.
Notation World := (World B A).
Notation Ctx := (Ctx MS).
Notation DB := (DBImpl MS).
Notation M X := (exec_m MS G X).

Definition DefaultGasCost (input : bytes) (isTransaction : bool) : Z :=
  let n := Z.of_nat (length input) in
  if isTransaction then u64 (WriteCostFlat + u64 (WriteCostPerByte * n)) else u64 (ReadCostFlat + u64 (ReadCostPerByte * n)).

(** ** Keeper calls under the meter *)

Definition reads {X : Type} (name : string) (f : World → outcome X) : M X := λ s,
  match gm_ConsumeGas (sg_cost name (cview (ex_ctx s))) (ex_gas s) with
  | Panic msg => Panicked msg s
  | Ret g =>
      match f (cview (ex_ctx s)) with
      | Panic msg => Panicked msg (mkExec (ex_ctx s) g)
      | Ret x => Done x (mkExec (ex_ctx s) g)
      end
  end.
Definition writes {X : Type} (name : string) (f : Ctx → outcome (Ctx * X)) : M X := λ s,
  match gm_ConsumeGas (sg_cost name (cview (ex_ctx s))) (ex_gas s) with
  | Panic msg => Panicked msg (mkExec (cupd (sg_torn name) (ex_ctx s)) (ex_gas s))
  | Ret g =>
      match f (ex_ctx s) with
      | Panic msg => Panicked msg (mkExec (cupd (sg_torn name) (ex_ctx s)) g)
      | Ret (c, x) => Done x (mkExec c g)
      end
  end.

(** A bank call; with a fresh event manager its events are dropped. *)
Definition bank_writes (quiet : bool) (name : string) (f : B → bank_res B) : M (option Err) :=
  writes name (λ c, let '(c', e) := run_bank f c in Ret (if quiet then mkCtx (c_ms c') (c_events c) (c_info c') else c', e)).

Definition GetRemainingGas : M Z := λ s,
  reads "GetEVMGasLimitFromCtx" (λ w, getEvmGasLimitFromCtx (ex_gas s) w) s.

(** The result, packed, with the gas that is left. *)
Definition packed (a : ABI) (call : Call) (vs : list AbiValue) : M Returned :=
  let% gas := GetRemainingGas in
  xret (match Pack a (cl_method call) vs with inl bz => (bz, gas, None) | inr e => ([], gas, Some e) end).

(** The result of an executor with static gas. *)
Definition packed_static (a : ABI) (call : Call) (vs : list AbiValue) : M Returned :=
  xret (match Pack a (cl_method call) vs with inl bz => (bz, 0, None) | inr e => failed e end).

(** ** Payments

    The value of the call has been sent to the precompile; it is given back to
    the payer, from whom the precompile then takes it.  What the tracer is told
    is left out. *)

Definition HandlePaymentUtabi (precompileAddr payer : AccAddress) (value : Z) : M (Z + Err) :=
  let '(atabi, wei) := SplitAtabiWeiAmount value in
  if negb (wei =? 0) then xret (inr "selected precompile function does not allow payment with non-zero wei remainder"%string) else
  if atabi <? 0 then xpanic "negative coin amount" else
  let coins := if atabi =? 0 then [] else [(BaseDenom, atabi)] in
  let% e := bank_writes true "SendCoins" (λ b, bk_SendCoins b precompileAddr payer coins) in
  match e with Some e => xret (inr e) | None => xret (inl atabi) end.

Definition HandlePaymentUtabiWei (precompileAddr payer : AccAddress) (value : Z) : M (Z * Z + Err) :=
  let '(atabi, wei) := SplitAtabiWeiAmount value in
  let% e := bank_writes true "SendCoinsAndWei" (λ b, bk_SendCoinsAndWei b precompileAddr payer atabi wei) in
  match e with Some e => xret (inr e) | None => xret (inl (atabi, wei)) end.

Definition GetTabiAddressByEvmAddress (evmAddress : Address) : M (AccAddress + Err) :=
  reads "GetTabiAddress" (λ w, Ret (match GetTabiAddress w evmAddress with
                                    | Some a => inl a
                                    | None => inr "address is not linked"%string
                                    end)).
Definition GetTabiAddressFromArg (args : list AbiValue) (i : nat) : M (AccAddress + Err) :=
  let% a := arg_address args i in
  if bool_decide (a = zero_address) then xret (inr "invalid addr"%string) else GetTabiAddressByEvmAddress a.

(** ** Running *)

(** An executor runs one call; one with static gas has no use for the meter. *)
Notation Executor := (Call → M Returned).

Definition ErrExecutionReverted : Err := "execution reverted".

(** The deferred handling of an error. *)
Definition HandlePrecompileError (r : Returned) : stm DB Returned :=
  match r with
  | (ret, gas, Some e) => sbind (SetPrecompileError (Some e)) (λ _, sret (str_bytes e, gas, Some ErrExecutionReverted))
  | _ => sret r
  end.

Definition Prepare (a : ABI) (input : bytes) : string * list AbiValue + Err :=
  match ExtractMethodID input with
  | inr e => inr e
  | inl methodID =>
      match MethodById a methodID with
      | inr e => inr e
      | inl method =>
          match Unpack a method (drop 4 input) with
          | inr e => inr e
          | inl args => inl (method, args)
          end
      end
  end.

Definition RequiredGas (a : ABI) (required : bytes → string → Z) (input : bytes) : Z :=
  match ExtractMethodID input with
  | inr _ => UnknownMethodCallGas
  | inl methodID =>
      match MethodById a methodID with
      | inr _ => UnknownMethodCallGas
      | inl method => required (drop 4 input) method
      end
  end.

(** The executor runs with a fresh event manager; the events of a call that
    succeeds are passed on. *)
Definition run_executor (executor : Executor) (call : Call) (gas : G) : stm DB Returned := λ s,
  let c := ctx s in
  match executor call (mkExec (mkCtx (c_ms c) [] (c_info c)) gas) with
  | Panicked msg _ => Panic msg
  | Done (ret, gasLeft, e) x =>
      let c' := ex_ctx x in
      let events := match e with Some _ => c_events c | None => c_events c ++ c_events c' end in
      Ret ((ret, gasLeft, e), set_ctx (mkCtx (c_ms c') events (c_info c')) s)
  end.

(** [Precompile.Run]: the gas was charged before the call. *)
Definition Run (a : ABI) (executor : Executor) (meter : G) (caller callingContract : Address) (input : bytes) (value : option Z)
    (readOnly isFromDelegateCall : bool) : stm DB Returned :=
  match Prepare a input with
  | inr e => HandlePrecompileError (failed e)
  | inl (method, args) =>
      sbind (run_executor executor (mkCall method caller callingContract args value readOnly isFromDelegateCall) meter) HandlePrecompileError
  end.

Definition RunAndCalculateGas (a : ABI) (executor : Executor) (caller callingContract : Address) (input : bytes) (suppliedGas : Z)
    (value : option Z) (readOnly isFromDelegateCall : bool) : stm DB Returned :=
  match Prepare a input with
  | inr e => HandlePrecompileError (failed e)
  | inl (method, args) => λ s,
      match GetCosmosGasLimitFromEVMGas (cview (ctx s)) suppliedGas with
      | Panic msg => Panic msg
      | Ret gasLimit =>
          sbind (run_executor executor (mkCall method caller callingContract args value readOnly isFromDelegateCall)
                   (NewGasMeterWithMultiplier gasLimit)) HandlePrecompileError s
      end
  end.

(** A deferred recover, which makes an error of what was panicked with. *)
Definition recovering_as (prefix : string) (m : M Returned) : M Returned := λ s,
  match m s with
  | Panicked msg s' => Done (failed (prefix ++ msg)%string) s'
  | r => r
  end.
Definition recovering : M Returned → M Returned := recovering_as "execution reverted: ".
End Common.

(** * Lemmas *)

Section ExecLemmas.
Context `{BK : BankKeeper B} `{AK : AccountKeeper A} `{EC : EthCrypto} `{KC : KeeperConfig}.
Context `{MST : MultiStore MS (World B A)} `{MSL : !MultiStoreLaws MS (World B A)} `{SD : SdkDec} `{GM : GasMeters G} `{SG : StoreGas B A G}.
Notation M X := (exec_m MS G X).

(** The context at the end, whether the run ended or panicked. *)
Definition end_ctx {X : Type} (r : Ran MS G X) : Ctx MS := match r with Done _ s | Panicked _ s => ex_ctx s end.

(** A computation that only reads, and one that only writes on its level. *)
Definition xquiet {X : Type} (m : M X) : Prop := ∀ s, end_ctx (m s) = ex_ctx s.
Definition xlevel {X : Type} (m : M X) : Prop := ∀ s, ctx_ext (ex_ctx s) (end_ctx (m s)).

(** What a step of a transaction must keep. *)
Definition keeps_worth (c c' : Ctx MS) : Prop := bk_total (bank_of c') = bk_total (bank_of c) ∧ tx_frame (cview c') = tx_frame (cview c).
#[export] Instance keeps_worth_preorder : PreOrder keeps_worth.
Proof. split; [done|]. intros c1 c2 c3 [H1 H2] [H3 H4]. split; congruence. Qed.

(** The level is kept in any case, and the worth if the result is a good one. *)
Definition xkeeps {X : Type} (ok : X → Prop) (m : M X) : Prop :=
  xlevel m ∧ ∀ s x s', m s = Done x s' → ok x → keeps_worth (ex_ctx s) (ex_ctx s').

Lemma xquiet_ret {X} (x : X) : xquiet (xret x).
Proof. by intros s. Qed.
Lemma xquiet_panic {X} msg : xquiet (xpanic msg : M X).
Proof. by intros s. Qed.
Lemma xquiet_lift {X} (o : outcome X) : xquiet (xlift o : M X).
Proof. intros s. unfold xlift. by destruct o. Qed.
Lemma xquiet_bind {X Y} (m : M X) (f : X → M Y) : xquiet m → (∀ x, xquiet (f x)) → xquiet (xbind m f).
Proof.
  intros Hm Hf s. unfold xbind. specialize (Hm s). destruct (m s) as [x s'|msg s']; simpl in Hm |- *; [|done]. by rewrite Hf.
Qed.
Lemma xquiet_reads {X} name (f : World B A → outcome X) : xquiet (reads name f).
Proof. intros s. unfold reads. destruct (gm_ConsumeGas _ _) as [g|]; [|done]. by destruct (f _). Qed.
Lemma xquiet_reads_in {X} name (f : Exec MS G → World B A → outcome X) : xquiet (λ s, reads name (f s) s).
Proof. intros s. apply (xquiet_reads name (f s)). Qed.
Lemma xquiet_gas : xquiet GetRemainingGas.
Proof. apply (xquiet_reads_in "GetEVMGasLimitFromCtx" (λ s w, getEvmGasLimitFromCtx (ex_gas s) w)). Qed.
Lemma xquiet_recovering prefix (m : M Returned) : xquiet m → xquiet (recovering_as prefix m).
Proof. intros Hm s. specialize (Hm s). unfold recovering_as. by destruct (m s). Qed.

Lemma recovering_returns prefix (m : M Returned) s : ∃ r s', recovering_as prefix m s = Done r s'.
Proof. unfold recovering_as. destruct (m s) as [r s'|msg s']; by eexists _, _. Qed.

Lemma xquiet_keeps {X} ok (m : M X) : xquiet m → xkeeps ok m.
Proof.
  intros Hm. split.
  - intros s. by rewrite Hm.
  - intros s x s' E _. specialize (Hm s). rewrite E in Hm. simpl in Hm. by rewrite Hm.
Qed.
(** A result that is good only if the result before it was, of which more may be
    known. *)
Lemma xkeeps_bind_post {X Y} (post okx : X → Prop) (ok : Y → Prop) (m : M X) (f : X → M Y) : xkeeps okx m →
  (∀ s x s', m s = Done x s' → post x) → (∀ x, post x → xkeeps ok (f x)) →
  (∀ x s y s', f x s = Done y s' → ok y → okx x) → xkeeps ok (xbind m f).
Proof.
  intros [Hl Hm] Hp Hf Hok. split.
  - intros s. unfold xbind. specialize (Hl s). destruct (m s) as [x s'|] eqn:E; [|done]. etransitivity; [exact Hl|].
    apply (Hf x). by eapply Hp.
  - intros s y s' E Hy. unfold xbind in E. destruct (m s) as [x s1|] eqn:Em; [|done].
    etransitivity; [apply (Hm s x s1 Em); by eapply Hok|]. eapply Hf; eauto.
Qed.
Lemma xkeeps_bind {X Y} (okx : X → Prop) (ok : Y → Prop) (m : M X) (f : X → M Y) : xkeeps okx m → (∀ x, xkeeps ok (f x)) →
  (∀ x s y s', f x s = Done y s' → ok y → okx x) → xkeeps ok (xbind m f).
Proof. intros. by apply (xkeeps_bind_post (λ _, True) okx). Qed.
Lemma xkeeps_after {X Y} (ok : Y → Prop) (m : M X) (f : X → M Y) : xquiet m → (∀ x, xkeeps ok (f x)) → xkeeps ok (xbind m f).
Proof. intros Hm Hf. apply (xkeeps_bind (λ _, True)); [by apply xquiet_keeps|done|done]. Qed.

Definition succeeded (r : Returned) : Prop := r.2 = None.

Lemma xkeeps_recovering prefix (m : M Returned) : xkeeps succeeded m → xkeeps succeeded (recovering_as prefix m).
Proof.
  intros [Hl Hm]. split.
  - intros s. specialize (Hl s). unfold recovering_as. by destruct (m s).
  - intros s r s' E Hr. unfold recovering_as in E. destruct (m s) as [r1 s1|msg s1] eqn:Em; [|by injection E as <-].
    injection E as <- <-. by eapply Hm.
Qed.

(** A write that keeps the worth unless it fails. *)
Lemma xkeeps_writes {X} (ok : X → Prop) name (f : Ctx MS → outcome (Ctx MS * X)) :
  (∀ c c' x, f c = Ret (c', x) → ctx_ext c c' ∧ (ok x → keeps_worth c c')) → xkeeps ok (writes name f).
Proof.
  intros Hf. split.
  - intros s. unfold writes. destruct (gm_ConsumeGas _ _) as [g|]; [|apply ctx_ext_cupd].
    destruct (f (ex_ctx s)) as [[c x]|] eqn:E; [|apply ctx_ext_cupd]. simpl. by destruct (Hf _ _ _ E).
  - intros s x s' E. unfold writes in E. destruct (gm_ConsumeGas _ _) as [g|]; [|done].
    destruct (f (ex_ctx s)) as [[c y]|] eqn:Ef; [|done]. injection E as <- <-. apply (Hf _ _ _ Ef).
Qed.

Lemma xkeeps_bank quiet name (f : B → bank_res B) : (∀ b b' evs, f b = (b', evs, None) → bk_total b' = bk_total b) →
  xkeeps (λ e, e = None) (bank_writes quiet name f).
Proof.
  intros Hf. apply xkeeps_writes. intros c c' e. pose proof (ctx_ext_run_bank f c) as He. pose proof (run_bank_view f c) as [Hv Hr].
  destruct (run_bank f c) as [c1 e1]. simpl in He, Hv, Hr. intros [= <- <-]. split.
  - destruct quiet; [|done]. destruct He as (H1 & H2 & H3). split_and!; [exact H1|exact H2|]. exists []. by rewrite app_nil_r.
  - intros ->. assert (Hk : keeps_worth c c1).
    { unfold keeps_worth, bank_of. rewrite Hv. split; [|done]. simpl. destruct (f (w_bank (cview c))) as [[b evs] e0] eqn:E.
      simpl in Hr |- *. subst e0. by eapply Hf. }
    by destruct quiet.
Qed.

(** Runs that end, step by step. *)
Lemma xbind_done {X Y} (m : M X) (f : X → M Y) s y s' : xbind m f s = Done y s' → ∃ x s1, m s = Done x s1 ∧ f x s1 = Done y s'.
Proof. unfold xbind. destruct (m s) as [x s1|] eqn:E; [|done]. intros H. by exists x, s1. Qed.
Lemma reads_done {X} name (f : World B A → outcome X) s x s' : reads name f s = Done x s' → f (cview (ex_ctx s)) = Ret x ∧ ex_ctx s' = ex_ctx s.
Proof. unfold reads. destruct (gm_ConsumeGas _ _); [|done]. destruct (f _); [|done]. by intros [= <- <-]. Qed.
Lemma writes_done {X} name (f : Ctx MS → outcome (Ctx MS * X)) s x s' : writes name f s = Done x s' → f (ex_ctx s) = Ret (ex_ctx s', x).
Proof. unfold writes. destruct (gm_ConsumeGas _ _); [|done]. destruct (f _) as [[c y]|]; [|done]. by intros [= <- <-]. Qed.
Lemma bank_writes_done quiet name (f : B → bank_res B) s e s' : bank_writes quiet name f s = Done e s' →
  ∃ b evs, f (bank_of (ex_ctx s)) = (b, evs, e) ∧ cview (ex_ctx s') = set_bank b (cview (ex_ctx s)).
Proof.
  intros H%writes_done. pose proof (run_bank_view f (ex_ctx s)) as [Hv He]. destruct (run_bank f (ex_ctx s)) as [c e1].
  injection H as <- <-. simpl in Hv, He. unfold bank_of. destruct (f (w_bank (cview (ex_ctx s)))) as [[b evs] e2]. simpl in Hv, He. subst e2.
  exists b, evs. split; [done|]. by destruct quiet.
Qed.
Lemma quiet_done {X} (m : M X) s x s' : xquiet m → m s = Done x s' → ex_ctx s' = ex_ctx s.
Proof. intros H E. specialize (H s). by rewrite E in H. Qed.
Lemma recovering_done prefix (m : M Returned) s r s' : recovering_as prefix m s = Done r s' → succeeded r → m s = Done r s'.
Proof. unfold recovering_as. destruct (m s); [done|]. by intros [= <- _]. Qed.

Lemma xquiet_packed a call vs : xquiet (packed a call vs).
Proof. apply xquiet_bind; [apply xquiet_gas|]. intros gas. apply xquiet_ret. Qed.

Lemma xquiet_packed_static a call vs : xquiet (packed_static a call vs : M Returned).
Proof. apply xquiet_ret. Qed.
Lemma xquiet_GetTabiAddressFromArg args i : xquiet (GetTabiAddressFromArg args i : M (AccAddress + Err)).
Proof.
  unfold GetTabiAddressFromArg, GetTabiAddressByEvmAddress, arg_address, arg. repeat apply xquiet_bind; intros;
  repeat case_match; apply xquiet_ret || apply xquiet_panic || apply xquiet_reads.
Qed.

Lemma xquiet_arg args i : xquiet (arg args i : M AbiValue).
Proof. unfold arg. destruct (args !! i); [apply xquiet_ret|apply xquiet_panic]. Qed.
Lemma xquiet_arg_string args i : xquiet (arg_string args i : M string).
Proof. apply xquiet_bind; [apply xquiet_arg|]. intros []; apply xquiet_ret || apply xquiet_panic. Qed.
Lemma xquiet_arg_address args i : xquiet (arg_address args i : M Address).
Proof. apply xquiet_bind; [apply xquiet_arg|]. intros []; apply xquiet_ret || apply xquiet_panic. Qed.
Lemma xquiet_arg_int args i : xquiet (arg_int args i : M Z).
Proof. apply xquiet_bind; [apply xquiet_arg|]. intros []; apply xquiet_ret || apply xquiet_panic. Qed.

Lemma lift_done {X} (o : outcome X) (x : Exec MS G) y x' : xlift o x = Done y x' → o = Ret y ∧ x' = x.
Proof. unfold xlift. destruct o; [|done]. by intros [= <- <-]. Qed.
Lemma ValidateArgsLength_done args n : ValidateArgsLength args n = None → length args = n.
Proof. unfold ValidateArgsLength. by destruct (Nat.eqb_spec (length args) n). Qed.
Lemma ValidateNonPayable_done value : ValidateNonPayable value = None → default 0 value = 0.
Proof. unfold ValidateNonPayable. destruct value as [v|]; [|done]. by destruct (Z.eqb_spec v 0). Qed.
Lemma arg_done args i (s : Exec MS G) v s' : arg args i s = Done v s' → args !! i = Some v ∧ s' = s.
Proof. unfold arg. destruct (args !! i); [|done]. by intros [= <- <-]. Qed.
Lemma arg_string_done args i (s : Exec MS G) v s' : arg_string args i s = Done v s' → args !! i = Some (VString v) ∧ s' = s.
Proof. intros (a & s1 & [Ha ->]%arg_done & H)%xbind_done. destruct a; try done. by injection H as <- <-. Qed.
Lemma arg_address_done args i (s : Exec MS G) v s' : arg_address args i s = Done v s' → args !! i = Some (VAddress v) ∧ s' = s.
Proof. intros (a & s1 & [Ha ->]%arg_done & H)%xbind_done. destruct a; try done. by injection H as <- <-. Qed.
Lemma arg_int_done args i (s : Exec MS G) v s' : arg_int args i s = Done v s' → args !! i = Some (VInt v) ∧ s' = s.
Proof. intros (a & s1 & [Ha ->]%arg_done & H)%xbind_done. destruct a; try done. by injection H as <- <-. Qed.
End ExecLemmas.

Create HintDb exec.
#[export] Hint Resolve xquiet_ret xquiet_panic xquiet_lift xquiet_reads xquiet_reads_in xquiet_gas xquiet_packed xquiet_packed_static xquiet_GetTabiAddressFromArg
  xquiet_arg xquiet_arg_string xquiet_arg_address xquiet_arg_int : exec.

(** A computation of reads, by its structure. *)
Ltac quiet :=
  intros; cbv zeta;
  repeat first [ solve [auto with exec] | apply xquiet_bind; [|intros ?]
               | match goal with |- xquiet (match ?e with _ => _ end) => destruct e end ].

(** One of reads and writes, where a write fails with an error and nothing
    succeeds after it. *)
Ltac keeps :=
  intros; cbv zeta;
  repeat first [ solve [auto with exec] | apply xquiet_keeps; solve [quiet] | apply xkeeps_after; [solve [quiet]|intros ?]
               | match goal with |- xkeeps _ (match ?e with _ => _ end) => destruct e end ].

(** What is relied on of the messages of other modules: they write on the newest
    level, and one that is handled without an error moves coins between accounts
    and leaves the EVM module's transient store and parameters alone. *)
Definition handler_safe `{BK : BankKeeper B} `{MST : MultiStore MS (World B A)} (f : Ctx MS → Ctx MS * option Err) : Prop :=
  ∀ c, ctx_ext c (f c).1 ∧ ((f c).2 = None → keeps_worth c (f c).1).

(** An error ends the method: a write that may fail, a message of another module
    in particular, and then what only reads. *)
Section Ensured.
Context `{BK : BankKeeper B} `{MST : MultiStore MS (World B A)} `{MSL : !MultiStoreLaws MS (World B A)} `{GM : GasMeters G} `{SG : StoreGas B A G}.
Lemma ensured_keeps (m : exec_m MS G (option Err)) (k : exec_m MS G Returned) : xkeeps (λ e, e = None) m → xquiet k →
  xkeeps succeeded (let% e := m in ensure% e; k).
Proof.
  intros Hm Hk. apply (xkeeps_bind (λ e, e = None)); [done|intros []; keeps|]. intros [e|] s r s' H Hr; [by injection H as <- _|done].
Qed.
Lemma handled_keeps name (f : Ctx MS → Ctx MS * option Err) : handler_safe f →
  xkeeps (λ e, e = None) (writes name (λ c, Ret (f c)) : exec_m MS G (option Err)).
Proof.
  intros Hf. apply xkeeps_writes. intros c c' e [= E]. destruct (Hf c) as [H1 H2]. rewrite E in H1, H2. by split.
Qed.
End Ensured.
#[export] Hint Resolve ensured_keeps handled_keeps : exec.

(** A run that ended in an error has not succeeded. *)
Ltac no_success H := solve [by injection H as <- _].

(** ** Moves of coins *)

(** Moves on one account add up, and a move of nothing changes nothing. *)
Section Moves.
Context `{BK : BankKeeper B}.
Lemma bank_moved_add (b b1 b2 : B) a d e : bank_moved b b1 a d → bank_moved b1 b2 a e → bank_moved b b2 a (d + e).
Proof.
  intros (V1 & O1 & L1 & T1) (V2 & O2 & L2 & T2). split_and!; [lia| | |lia]; [intros a' Ha; by rewrite O2, O1|intros a'; by rewrite L2].
Qed.
Lemma bank_moved_0_value (b b1 : B) a a' : bank_moved b b1 a 0 → wei_value b1 a' = wei_value b a'.
Proof. intros (V & O & _). destruct (decide (a' = a)) as [->|]; [lia|by apply O]. Qed.
Lemma bank_moved_nothing (b b1 b2 : B) a c d : bank_moved b b1 a 0 → bank_moved b1 b2 c d → bank_moved b b2 c d.
Proof.
  intros M1 (V2 & O2 & L2 & T2). pose proof (λ a', bank_moved_0_value _ _ _ a' M1) as HV. destruct M1 as (_ & _ & L1 & T1).
  split_and!; [by rewrite V2, HV|intros a' Ha; by rewrite O2, HV|intros a'; by rewrite L2|lia].
Qed.

(** What was paid to another account and paid back has not been moved. *)
Lemma moved_back (b b1 b2 b3 b4 : B) from p v : bank_moved b b1 from (- v) → bank_moved b1 b2 p v →
  bank_moved b2 b3 p (- v) → bank_moved b3 b4 from v → bank_moved b b4 from 0.
Proof.
  intros M1 M2 M3 M4. pose proof (bank_moved_add _ _ _ _ _ _ M2 M3) as M23. rewrite Z.add_opp_diag_r in M23.
  pose proof (bank_moved_add _ _ _ _ _ _ M1 (bank_moved_nothing _ _ _ _ _ _ M23 M4)) as M14. by rewrite Z.add_opp_diag_l in M14.
Qed.
End Moves.

(** ** Payments of calls *)

Section PaymentLemmas.
Context `{BK : BankKeeper B} `{CK : CoinsKeeper B} `{AK : AccountKeeper A} `{MST : MultiStore MS (World B A)} `{MSL : !MultiStoreLaws MS (World B A)}.
Context `{GM : GasMeters G} `{SG : StoreGas B A G} `{BL : !BankLaws B}.
Notation M X := (exec_m MS G X).

Lemma split_range v : 0 ≤ v → 0 ≤ (SplitAtabiWeiAmount v).1 ∧ 0 ≤ (SplitAtabiWeiAmount v).2 < AtabiToWeiMultiplier.
Proof.
  intros Hv. pose proof (SplitAtabiWeiAmount_spec v Hv) as H. destruct (SplitAtabiWeiAmount v) as [n w]. simpl. lia.
Qed.

Lemma send_conserves from to n w : 0 ≤ n → 0 ≤ w < AtabiToWeiMultiplier →
  ∀ (b b' : B) evs, bk_SendCoinsAndWei b from to n w = (b', evs, None) → bk_total b' = bk_total b.
Proof.
  intros Hn Hw b b' evs H. apply bk_SendCoinsAndWei_ok in H as (b1 & (_ & _ & _ & H1) & (_ & _ & _ & H2)); [|done|done]. lia.
Qed.

Lemma HandlePaymentUtabiWei_keeps p t v : 0 ≤ v → xkeeps (λ r, ∃ a, r = inl a) (HandlePaymentUtabiWei p t v : M (Z * Z + Err)).
Proof.
  intros Hv. unfold HandlePaymentUtabiWei. destruct (split_range v Hv) as [Hn Hw]. destruct (SplitAtabiWeiAmount v) as [n w]. simpl in Hn, Hw.
  apply (xkeeps_bind (λ e, e = None)).
  - apply xkeeps_bank. by apply send_conserves.
  - intros e. keeps.
  - intros [e|] s r s' E [a ->]; [|done]. by injection E.
Qed.

Lemma HandlePaymentUtabiWei_amounts p t v s a s' : (HandlePaymentUtabiWei p t v : M (Z * Z + Err)) s = Done (inl a) s' →
  a = SplitAtabiWeiAmount v ∧ ∃ b evs, bk_SendCoinsAndWei (bank_of (ex_ctx s)) p t a.1 a.2 = (b, evs, None) ∧
    cview (ex_ctx s') = set_bank b (cview (ex_ctx s)).
Proof.
  unfold HandlePaymentUtabiWei. destruct (SplitAtabiWeiAmount v) as [n w] eqn:Es. intros (e & s1 & E1 & E2)%xbind_done.
  destruct e; [done|]. injection E2 as <- <-. split; [done|]. apply bank_writes_done in E1 as (b & evs & E & Hv). by exists b, evs.
Qed.

(** A payment, and what is done with it if it succeeds. *)
Lemma paid_keeps p t v (f : Z * Z → M Returned) : 0 ≤ v → (∀ n w, 0 ≤ n → 0 ≤ w < AtabiToWeiMultiplier → xkeeps succeeded (f (n, w))) →
  xkeeps succeeded (let% paid := HandlePaymentUtabiWei p t v in try% amounts := paid in f amounts).
Proof.
  intros Hv Hf. apply (xkeeps_bind_post (λ r, ∀ a, r = inl a → a = SplitAtabiWeiAmount v) (λ r, ∃ a, r = inl a)).
  - by apply HandlePaymentUtabiWei_keeps.
  - intros s r s' E a ->. by apply HandlePaymentUtabiWei_amounts in E as [-> _].
  - intros [a|e] Ha; [|keeps]. rewrite (Ha a eq_refl). destruct (split_range v Hv). destruct (SplitAtabiWeiAmount v). by apply Hf.
  - intros [a|e] s r s' E Hr; [by eexists|]. by injection E as <- _.
Qed.

Context `{CL : !CoinsLaws B}.

Lemma HandlePaymentUtabi_keeps p t v : xkeeps (λ r, ∃ n, r = inl n) (HandlePaymentUtabi p t v : M (Z + Err)).
Proof.
  unfold HandlePaymentUtabi. destruct (SplitAtabiWeiAmount v) as [n w]. keeps. apply (xkeeps_bind (λ e, e = None)).
  - apply xkeeps_bank. intros b b' evs H. apply bk_SendCoins_ok in H as (b1 & (_ & _ & _ & H1) & (_ & _ & _ & H2) & _). lia.
  - intros e. keeps.
  - intros [e|] s r s' H [k ->]; [|done]. by injection H.
Qed.

Lemma paid_utabi_keeps p t v (f : Z → M Returned) : (∀ n, xkeeps succeeded (f n)) →
  xkeeps succeeded (let% paid := HandlePaymentUtabi p t v in try% coin := paid in f coin).
Proof.
  intros Hf. apply (xkeeps_bind (λ r, ∃ n, r = inl n)); [apply HandlePaymentUtabi_keeps| |].
  - intros [n|e]; [apply Hf|keeps].
  - intros [n|e] s r s' H Hr; [by eexists|no_success H].
Qed.
Lemma HandlePaymentUtabi_done p t v x n x' : 0 ≤ v → (HandlePaymentUtabi p t v : M (Z + Err)) x = Done (inl n) x' →
  v = n * AtabiToWeiMultiplier ∧ 0 ≤ n ∧
  ∃ b1 b2, bank_moved (bank_of (ex_ctx x)) b1 p (- v) ∧ bank_moved b1 b2 t v ∧ cview (ex_ctx x') = set_bank b2 (cview (ex_ctx x)).
Proof.
  intros Hv. unfold HandlePaymentUtabi. pose proof (SplitAtabiWeiAmount_spec v Hv) as Hsp. destruct (SplitAtabiWeiAmount v) as [q w].
  destruct Hsp as (Hval & Hw & Hq). destruct (Z.eqb_spec w 0) as [->|]; [|done]. simpl. destruct (Z.ltb_spec q 0) as [|_]; [done|].
  set (coins := if q =? 0 then [] else [(BaseDenom, q)]). intros (e & x1 & (b & evs & Hb & Vb)%bank_writes_done & H)%xbind_done.
  destruct e; [done|]. injection H as <- <-. apply bk_SendCoins_ok in Hb as (b1 & M1 & M2 & _).
  assert (Ha : AmountOf BaseDenom coins = q) by (unfold coins; by destruct (Z.eqb_spec q 0)).
  rewrite Ha in M1, M2. replace (q * AtabiToWeiMultiplier) with v in M1, M2 by lia. split_and!; [lia|done|]. by exists b1, b.
Qed.

End PaymentLemmas.

#[export] Hint Extern 2 (xkeeps succeeded (xbind (HandlePaymentUtabi _ _ _) _)) => apply paid_utabi_keeps; keeps : exec.

(** ** Calls of the EVM

    The call of a precompile by the EVM of go-ethereum, given what sends the value
    of the call and the run of the precompile: it takes a snapshot, sends the value,
    runs the precompile, and goes back to the snapshot on an error. *)

Class EVMCalls (MS : Type) := evm_call_precompile : list db_op → stm (DBImpl MS) Returned → stm (DBImpl MS) Returned.
Class EVMCallsLaws (MS B A : Type) `{BK : BankKeeper B} `{AK : AccountKeeper A} `{EC : EthCrypto} `{KC : KeeperConfig}
    `{MST : MultiStore MS (World B A)} `{EVC : EVMCalls MS} : Prop :=
  evm_call_unfolds : ∀ transfer run, evm_call_precompile transfer run =
    sbind Snapshot (λ snapshot,
    sbind (run_ops transfer) (λ _,
    sbind run (λ r,
    match r.2 with
    | Some _ => sbind (RevertToSnapshot snapshot) (λ _, sret r)
    | None => sret r
    end))).

Section Calls.
Context `{BK : BankKeeper B} `{AK : AccountKeeper A} `{EC : EthCrypto} `{KC : KeeperConfig}.
Context `{MST : MultiStore MS (World B A)} `{MSL : !MultiStoreLaws MS (World B A)} `{MR : MapRange} `{SD : SdkDec}.
Context `{GM : GasMeters G} `{SG : StoreGas B A G}.
Context `{EVC : EVMCalls MS} `{EVL : !EVMCallsLaws MS B A}.
Notation M X := (exec_m MS G X).
Notation DB := (DBImpl MS).

(** What the EVM relies on of an executor: it writes on the newest level only,
    and keeps the worth of the bank and the frame of the transaction when it
    succeeds; one that recovers from panics returns; and one that knows of static
    calls writes nothing in them. *)
Class LevelExecutor (executor : Call → M Returned) : Prop :=
  safe_keeps : ∀ call, 0 ≤ default 0 (cl_value call) → xkeeps succeeded (executor call).
Class SafeExecutor (executor : Call → M Returned) : Prop := {
  safe_level :: LevelExecutor executor;
  safe_returns : ∀ call s, ∃ r s', executor call s = Done r s'
}.
Class StaticExecutor (executor : Call → M Returned) : Prop :=
  safe_static : ∀ call, cl_readOnly call = true → xquiet (executor call).

(** What a run of such an executor does to the database. *)
Definition run_safe (s : DB) (r : Returned) (s' : DB) : Prop :=
  level_step s s' ∧ err s' = err s ∧ tempStateCurrent s' = tempStateCurrent s ∧ (succeeded r → keeps_worth (ctx s) (ctx s')).
Definition run_pure (s s' : DB) : Prop :=
  cview (ctx s') = cview (ctx s) ∧ tempStateCurrent s' = tempStateCurrent s ∧ snapshottedCtxs s' = snapshottedCtxs s.

Lemma run_executor_safe executor call gas (s : DB) r s' : LevelExecutor executor → 0 ≤ default 0 (cl_value call) →
  run_executor executor call gas s = Ret (r, s') → run_safe s r s'.
Proof.
  intros HE Hval H. unfold run_executor in H. set (x0 := mkExec (mkCtx (c_ms (ctx s)) [] (c_info (ctx s))) gas) in H.
  destruct (executor call x0) as [[[ret left_] e] x|] eqn:E; [|done]. destruct (safe_keeps call Hval) as [Hl Hk].
  injection H as <- <-. split_and!; [|done|done|].
  - apply level_set_ctx. specialize (Hl x0). rewrite E in Hl. destruct Hl as (H1 & H2 & evs & H3). split_and!; [exact H1|exact H2|].
    destruct e; [exists []; by rewrite app_nil_r|]. by eexists.
  - intros He. exact (Hk _ _ _ E He).
Qed.
Lemma run_executor_pure executor call gas (s : DB) r s' : StaticExecutor executor → cl_readOnly call = true →
  run_executor executor call gas s = Ret (r, s') → run_pure s s'.
Proof.
  intros HE Hro H. unfold run_executor in H. set (x0 := mkExec (mkCtx (c_ms (ctx s)) [] (c_info (ctx s))) gas) in H.
  pose proof (safe_static call Hro x0) as Hq. destruct (executor call x0) as [[[ret left_] e] x|] eqn:E; [|done].
  injection H as <- <-. split_and!; [|done|done]. simpl in Hq. unfold cview. simpl. by rewrite Hq.
Qed.

(** The run of the executor within a call, and the handling of its error. *)
Lemma Run_split a (executor : Call → M Returned) meter caller contract input value readOnly delegate (s : DB) r s' :
  Run a executor meter caller contract input value readOnly delegate s = Ret (r, s') →
  (∃ e, HandlePrecompileError (failed e) s = Ret (r, s')) ∨
  ∃ method args r1 s1, run_executor executor (mkCall method caller contract args value readOnly delegate) meter s = Ret (r1, s1) ∧
    Prepare a input = inl (method, args) ∧ HandlePrecompileError r1 s1 = Ret (r, s').
Proof.
  unfold Run. destruct (Prepare a input) as [[method args]|e]; [|left; by eexists]. unfold sbind.
  destruct (run_executor _ _ _ s) as [[r1 s1]|] eqn:E; [|done]. right. by eexists _, _, _, _.
Qed.
Lemma RunAndCalculateGas_split a (executor : Call → M Returned) caller contract input gas value readOnly delegate (s : DB) r s' :
  RunAndCalculateGas a executor caller contract input gas value readOnly delegate s = Ret (r, s') →
  (∃ e, HandlePrecompileError (failed e) s = Ret (r, s')) ∨
  ∃ method args meter r1 s1, run_executor executor (mkCall method caller contract args value readOnly delegate) meter s = Ret (r1, s1) ∧
    Prepare a input = inl (method, args) ∧ HandlePrecompileError r1 s1 = Ret (r, s').
Proof.
  unfold RunAndCalculateGas. destruct (Prepare a input) as [[method args]|e]; [|left; by eexists].
  destruct (GetCosmosGasLimitFromEVMGas _ _); [|done]. unfold sbind.
  destruct (run_executor _ _ _ s) as [[r1 s1]|] eqn:E; [|done]. right. by eexists _, _, _, _, _.
Qed.

Lemma handled_safe (s s1 : DB) r r' s' : run_safe s r s1 → HandlePrecompileError r s1 = Ret (r', s') → run_safe s r' s'.
Proof. intros H E. destruct r as [[ret left_] [e|]]; injection E as <- <-; [|done]. by destruct H as (H1 & H2 & H3 & H4). Qed.
Lemma handled_pure (s s1 : DB) r r' s' : run_pure s s1 → HandlePrecompileError r s1 = Ret (r', s') → run_pure s s'.
Proof. intros H E. destruct r as [[ret left_] [e|]]; by injection E as <- <-. Qed.

Lemma Run_safe a executor meter caller contract input value readOnly delegate (s : DB) r s' : LevelExecutor executor → 0 ≤ default 0 value →
  Run a executor meter caller contract input value readOnly delegate s = Ret (r, s') → run_safe s r s'.
Proof.
  intros HE Hval [(e & H)|(method & args & r1 & s1 & E & _ & H)]%Run_split; [injection H as <- <-; by split_and!|].
  eapply handled_safe; [|exact H]. by eapply run_executor_safe in E.
Qed.
Lemma RunAndCalculateGas_safe a executor caller contract input gas value readOnly delegate (s : DB) r s' : LevelExecutor executor →
  0 ≤ default 0 value → RunAndCalculateGas a executor caller contract input gas value readOnly delegate s = Ret (r, s') → run_safe s r s'.
Proof.
  intros HE Hval [(e & H)|(method & args & meter & r1 & s1 & E & _ & H)]%RunAndCalculateGas_split; [injection H as <- <-; by split_and!|].
  eapply handled_safe; [|exact H]. by eapply run_executor_safe in E.
Qed.
Lemma RunAndCalculateGas_pure a executor caller contract input gas value delegate (s : DB) r s' : StaticExecutor executor →
  RunAndCalculateGas a executor caller contract input gas value true delegate s = Ret (r, s') → run_pure s s'.
Proof.
  intros HE [(e & H)|(method & args & meter & r1 & s1 & E & _ & H)]%RunAndCalculateGas_split; [injection H as <- <-; by split_and!|].
  eapply handled_pure; [|exact H]. by eapply run_executor_pure in E.
Qed.

Lemma RunAndCalculateGas_returns a executor caller contract input gas value readOnly delegate (s : DB) limit : SafeExecutor executor →
  GetCosmosGasLimitFromEVMGas (cview (ctx s)) gas = Ret limit →
  ∃ r s', RunAndCalculateGas a executor caller contract input gas value readOnly delegate s = Ret (r, s').
Proof.
  intros HE Hg. unfold RunAndCalculateGas. destruct (Prepare a input) as [[method args]|e]; [|by eexists _, _].
  rewrite Hg. unfold sbind, run_executor. set (x0 := mkExec _ _). set (call := mkCall _ _ _ _ _ _ _).
  destruct (safe_returns call x0) as ([[ret left_] e] & x & ->). destruct e; by eexists _, _.
Qed.

Lemma evm_call_done transfer (run : stm DB Returned) (s : DB) r s' : evm_call_precompile transfer run s = Ret (r, s') → succeeded r →
  ∃ n s1 s2, Snapshot s = Ret (n, s1) ∧ run_ops transfer s1 = Ret (tt, s2) ∧ run s2 = Ret (r, s').
Proof.
  rewrite evm_call_unfolds. unfold sbind, sret. destruct (Snapshot s) as [[n s1]|]; [|done]. destruct (run_ops transfer s1) as [[[] s2]|] eqn:E2; [|done].
  destruct (run s2) as [[r3 s3]|] eqn:E3; [|done]. intros H Hr. exists n, s1, s2. split_and!; [done..|].
  destruct (r3.2) eqn:E4; [destruct (RevertToSnapshot n s3) as [[] |]; [|done]; injection H as <- <-; unfold succeeded in Hr; congruence|].
  by injection H as <- <-.
Qed.

(** A run that succeeded ran the method that was asked for, to its end. *)
Definition ran_method (a : ABI) (executor : Call → M Returned) (input : bytes) (mk : string → list AbiValue → Call) (s : DB) (r : Returned) (s' : DB) : Prop :=
  ∃ method args x x', Prepare a input = inl (method, args) ∧ executor (mk method args) x = Done r x' ∧
    cview (ex_ctx x) = cview (ctx s) ∧ c_info (ex_ctx x) = c_info (ctx s) ∧ cview (ctx s') = cview (ex_ctx x') ∧
    tempStateCurrent s' = tempStateCurrent s ∧ err s' = err s.

Lemma run_executor_done a (executor : Call → M Returned) method caller contract args value readOnly delegate input gas (s s1 s' : DB) r r1 :
  Prepare a input = inl (method, args) →
  run_executor executor (mkCall method caller contract args value readOnly delegate) gas s = Ret (r1, s1) →
  HandlePrecompileError r1 s1 = Ret (r, s') → succeeded r →
  ran_method a executor input (λ m l, mkCall m caller contract l value readOnly delegate) s r s'.
Proof.
  intros Hp E H Hr. unfold run_executor in E. set (x0 := mkExec _ _) in E.
  destruct (executor _ x0) as [[[ret left_] e] x'|] eqn:Ex; [|done]. injection E as <- <-.
  destruct e; [no_success H|]. injection H as <- <-. exists method, args, x0, x'. by split_and!.
Qed.

Lemma RunAndCalculateGas_done a (executor : Call → M Returned) caller contract input gas value readOnly delegate (s : DB) r s' :
  RunAndCalculateGas a executor caller contract input gas value readOnly delegate s = Ret (r, s') → succeeded r →
  ran_method a executor input (λ m l, mkCall m caller contract l value readOnly delegate) s r s'.
Proof.
  intros [(e & H)|(method & args & meter & r1 & s1 & E & Hp & H)]%RunAndCalculateGas_split Hr; [no_success H|]. by eapply run_executor_done.
Qed.
Lemma Run_done a (executor : Call → M Returned) meter caller contract input value readOnly delegate (s : DB) r s' :
  Run a executor meter caller contract input value readOnly delegate s = Ret (r, s') → succeeded r →
  ran_method a executor input (λ m l, mkCall m caller contract l value readOnly delegate) s r s'.
Proof.
  intros [(e & H)|(method & args & r1 & s1 & E & Hp & H)]%Run_split Hr; [no_success H|]. by eapply run_executor_done.
Qed.
End Calls.

(** * Theorems *)

Section CallTheorems.
Context `{BK : BankKeeper B} `{AK : AccountKeeper A} `{EC : EthCrypto} `{KC : KeeperConfig}.
Context `{MST : MultiStore MS (World B A)} `{MSL : !MultiStoreLaws MS (World B A)} `{MR : MapRange} `{SD : SdkDec}.
Context `{GM : GasMeters G} `{SG : StoreGas B A G} `{BL : !BankLaws B}.
Context `{EVC : EVMCalls MS} `{EVL : !EVMCallsLaws MS B A}.
Notation DB := (DBImpl MS).

(** The state after going back to the snapshot: as after taking it, but for what
    a snapshot does not restore. *)
Definition reverted (s1 s2 : DB) : DB :=
  mkDBImpl (ctx s1) (snapshottedCtxs s1) (tempStateCurrent s1) (tempStatesHist s1) (err s2) (precompileErr s2)
    (coinbaseAddress s2) (coinbaseEvmAddress s2) (simulation s2) (eventsSuppressed s2) (logger s2) (hook_calls s2).

Lemma revert_after (s s2 : DB) n s1 : length (tempStatesHist s) = length (snapshottedCtxs s) →
  Snapshot s = Ret (n, s1) → level_step s1 s2 → RevertToSnapshot n s2 = Ret (tt, reverted s1 s2).
Proof.
  intros Hlen [= <- <-] (H1 & H2 & _). simpl in H1, H2. unfold RevertToSnapshot. rewrite H1, H2.
  rewrite length_app. simpl length. destruct (Z.ltb_spec (Z.of_nat (length (snapshottedCtxs s) + 1) - 1) 0); [lia|].
  replace (Z.to_nat (Z.of_nat (length (snapshottedCtxs s) + 1) - 1)) with (length (snapshottedCtxs s)) by lia.
  rewrite list_lookup_middle by done. rewrite list_lookup_middle by done. rewrite !take_app_length'; [|done|done].
  unfold sbind, Snapshot, sret, reverted. simpl. done.
Qed.

Lemma transfer_conserves (Hlive : EthReplayConfig_Enabled = false) (ops : list db_op) (s s' : DB) u :
  Forall (λ op, is_level_op op = true ∧ is_conserving op = true) ops → run_ops ops s = Ret (u, s') → conserves s s' ∧ same_frame tx_frame s s'.
Proof.
  intros H. revert s. induction H as [|op ops [Hl Hc] Hops IH]; intros s E.
  - injection E as _ <-. split; [done|]. done.
  - unfold run_ops in E. simpl in E. unfold sbind in E. destruct (run_op op s) as [[u1 s1]|] eqn:E1; [|done].
    destruct (IH _ E) as [H1 H2]. split.
    + etransitivity; [|exact H1]. by eapply (cons_run_op Hlive op).
    + pose proof (fr_run_op tx_frame Hlive op Hl s u1 s1 E1) as Hf. unfold same_frame in *. congruence.
Qed.

(** The value of a call is with the precompile when it runs. *)
Lemma precompile_paid (Hlive : EthReplayConfig_Enabled = false) caller p v (s s1 s2 : DB) n :
  coinbaseEvmAddress s ≠ caller → coinbaseEvmAddress s ≠ p → 0 ≤ v ≤ balance_of s caller →
  Snapshot s = Ret (n, s1) → run_ops [OpTransferWithoutEvents caller p v] s1 = Ret (tt, s2) →
  ∃ b1 b2, bank_moved (bank_of (ctx s)) b1 (GetTabiAddressOrDefault (cview (ctx s)) caller) (- v) ∧
    bank_moved b1 b2 (GetTabiAddressOrDefault (cview (ctx s)) p) v ∧
    cview (ctx s2) = set_bank b2 (cview (ctx s)) ∧ surplus (tempStateCurrent s2) = 0.
Proof.
  intros Hc1 Hc2 Hv Hs1 Hops. assert (Hv1 : cview (ctx s1) = cview (ctx s)) by (injection Hs1 as _ <-; apply cview_cbranch).
  assert (Ht : ∀ a, coinbaseEvmAddress s ≠ a → tabi_of s a = GetTabiAddressOrDefault (cview (ctx s)) a)
    by (intros a Ha; unfold tabi_of; by rewrite bool_decide_eq_false_2).
  assert (Ht1 : ∀ a, tabi_of s1 a = tabi_of s a) by (intros a; unfold tabi_of; rewrite Hv1; by injection Hs1 as _ <-).
  assert (Hb1 : balance_of s1 caller = balance_of s caller) by (unfold balance_of; by rewrite Ht1, Hv1).
  destruct (TransferWithoutEvents_moves Hlive caller p v s1 ltac:(by rewrite Hb1)) as (s3 & s4 & E & M1 & _ & M2 & _).
  unfold run_ops in Hops. simpl in Hops. unfold sbind in Hops. rewrite E in Hops. injection Hops as <-.
  rewrite Ht1, Ht in M1, M2 by done. destruct M1 as ((b1 & V1 & M1) & T1 & _). destruct M2 as ((b2 & V2 & M2) & T2 & _). simpl in *.
  unfold bank_of in *. rewrite V1 in M2. simpl in M1. rewrite Hv1 in M1. exists b1, b2. split_and!; [done..| |].
  - by rewrite V2, V1, Hv1.
  - rewrite T2, T1. simpl. injection Hs1 as _ <-. simpl. lia.
Qed.

(** A paid call of a precompile with static gas that succeeded ran the method; an
    executor that gives the value back to the account of the caller leaves every
    account with what it had before the call. *)
Lemma paid_run_done (Hlive : EthReplayConfig_Enabled = false) a (executor : Call → exec_m MS G Returned) meter caller contract p input v
    readOnly delegate (s s' : DB) r :
  coinbaseEvmAddress s ≠ caller → coinbaseEvmAddress s ≠ p → 0 ≤ v ≤ balance_of s caller →
  evm_call_precompile [OpTransferWithoutEvents caller p v]
    (Run a executor meter caller contract input (Some v) readOnly delegate) s = Ret (r, s') → succeeded r →
  ∃ method args x x', Prepare a input = inl (method, args) ∧
    executor (mkCall method caller contract args (Some v) readOnly delegate) x = Done r x' ∧
    w_evm (cview (ex_ctx x)) = w_evm (cview (ctx s)) ∧ cview (ctx s') = cview (ex_ctx x') ∧ surplus (tempStateCurrent s') = 0 ∧
    ∀ from b3 b4, GetTabiAddress (cview (ctx s)) caller = Some from →
      bank_moved (bank_of (ex_ctx x)) b3 (GetTabiAddressOrDefault (cview (ex_ctx x)) p) (- v) → bank_moved b3 b4 from v →
      ∀ a, wei_value b4 a = wei_value (bank_of (ctx s)) a.
Proof.
  intros Hc1 Hc2 Hv H Hr. apply evm_call_done in H as (k & s1 & s2 & Hs1 & Hops & Hrun); [|done].
  destruct (precompile_paid Hlive _ _ _ _ _ _ _ Hc1 Hc2 Hv Hs1 Hops) as (b1 & b2 & M1 & M2 & V2 & T2).
  apply Run_done in Hrun as (method & args & x & x' & Hp & Hx & Vx & _ & Vx' & Tx & _); [|done].
  assert (Hws : w_evm (cview (ex_ctx x)) = w_evm (cview (ctx s))) by (by rewrite Vx, V2).
  exists method, args, x, x'. split_and!; [done|done|done|done|by rewrite Tx|].
  intros from b3 b4 Hfrom M3 M4 acc. assert (Hbx : bank_of (ex_ctx x) = b2) by (unfold bank_of; by rewrite Vx, V2).
  unfold GetTabiAddressOrDefault, GetTabiAddress in M3. rewrite Hbx, Hws in M3.
  unfold GetTabiAddressOrDefault at 1 in M1. rewrite Hfrom in M1. pose proof (moved_back _ _ _ _ _ _ _ _ M1 M2 M3 M4) as M0.
  by apply (bank_moved_0_value _ _ from).
Qed.

(** A call that returns has made steps of the transaction, or has failed and
    left things as they were at the snapshot. *)
Definition call_outcome (s : DB) (r : Returned) (s' : DB) : Prop :=
  rtc evm_step s s' ∧
  (r.2 = None ∨ cview (ctx s') = cview (ctx s) ∧ tempStateCurrent s' = NewTemporaryState ∧
                tempStatesHist s' = tempStatesHist s ++ [tempStateCurrent s]).

Lemma call_steps (Hlive : EthReplayConfig_Enabled = false) transfer (run : stm DB Returned) (s s1 s2 s3 : DB) n r :
  length (tempStatesHist s) = length (snapshottedCtxs s) → Forall (λ op, is_level_op op = true ∧ is_conserving op = true) transfer →
  Snapshot s = Ret (n, s1) → run_ops transfer s1 = Ret (tt, s2) → run s2 = Ret (r, s3) → run_safe s2 r s3 →
  ∃ s', evm_call_precompile transfer run s = Ret (r, s') ∧ call_outcome s r s'.
Proof.
  intros Hlen Htr Hsnap Hops E (Hl & He & Ht & Hk). rewrite evm_call_unfolds. unfold sbind. rewrite Hsnap, Hops, E.
  assert (Hsteps : rtc evm_step s s1).
  { eapply rtc_l; [|apply rtc_refl]. apply (evm_call OpSnapshot tt); [done|]. unfold run_op, sbind. by rewrite Hsnap. }
  destruct (transfer_conserves Hlive _ _ _ _ Htr Hops) as [Hc2 Hf2]. destruct (r.2) as [e|] eqn:Er.
  - assert (H13 : level_step s1 s3) by (etransitivity; [apply Hc2|done]). rewrite (revert_after s s3 n s1 Hlen Hsnap H13).
    exists (reverted s1 s3). split; [done|]. split.
    + etransitivity; [exact Hsteps|]. eapply rtc_l; [|apply rtc_refl]. apply evm_precompile; [|done].
      split; [destruct H13 as (_ & _ & _ & H1 & H2 & H3); by split_and!|]. intros He3. simpl in He3.
      destruct Hc2 as [_ Hc2]. rewrite He in He3. by destruct (Hc2 He3).
    + right. injection Hsnap as _ <-. simpl. split; [apply cview_cbranch|done].
  - exists s3. split; [done|]. split; [|by left]. etransitivity; [exact Hsteps|].
    etransitivity; [eapply run_ops_steps; [|exact Hops]; eapply Forall_impl; [exact Htr|]; by intros op []|].
    eapply rtc_l; [|apply rtc_refl]. destruct (Hk Er) as [Hw Hf]. apply evm_precompile; [|done].
    split; [done|]. intros He3. split; [by rewrite <- He|]. unfold cur_worth. by rewrite Hw, Ht.
Qed.

(** A call of a safe executor with dynamic gas is a step of the transaction. *)
Lemma safe_call_steps a executor transfer caller contract input gas value readOnly delegate (s s1 s2 : DB) n limit :
  EthReplayConfig_Enabled = false → SafeExecutor executor → 0 ≤ default 0 value → length (tempStatesHist s) = length (snapshottedCtxs s) →
  Forall (λ op, is_level_op op = true ∧ is_conserving op = true) transfer →
  Snapshot s = Ret (n, s1) → run_ops transfer s1 = Ret (tt, s2) → GetCosmosGasLimitFromEVMGas (cview (ctx s2)) gas = Ret limit →
  ∃ r s', evm_call_precompile transfer (RunAndCalculateGas a executor caller contract input gas value readOnly delegate) s = Ret (r, s') ∧
    call_outcome s r s'.
Proof.
  intros Hlive HE Hval Hlen Htr Hsnap Hops Hg.
  destruct (RunAndCalculateGas_returns a executor caller contract input gas value readOnly delegate s2 limit HE Hg) as (r & s3 & E).
  destruct (call_steps Hlive transfer _ s s1 s2 s3 n r Hlen Htr Hsnap Hops E) as (s' & H1 & H2); [|by exists r, s'].
  eapply RunAndCalculateGas_safe; [apply _|done|exact E].
Qed.

(** A precompile with static gas is also a step of the transaction.  When a
    call of it returns, and does not stop the transaction with a panic, it has made
    conserving steps, or it has failed and everything is as at the snapshot. *)
Theorem static_gas_call_steps a (executor : Call → exec_m MS G Returned) transfer (meter : G) caller contract input value readOnly delegate (s s' : DB) r :
  EthReplayConfig_Enabled = false → LevelExecutor executor → 0 ≤ default 0 value → length (tempStatesHist s) = length (snapshottedCtxs s) →
  Forall (λ op, is_level_op op = true ∧ is_conserving op = true) transfer →
  evm_call_precompile transfer (Run a executor meter caller contract input value readOnly delegate) s = Ret (r, s') → call_outcome s r s'.
Proof.
  intros Hlive HE Hval Hlen Htr H. rewrite evm_call_unfolds in H. unfold sbind in H. destruct (Snapshot s) as [[n s1]|] eqn:Hsnap; [|done].
  destruct (run_ops transfer s1) as [[[] s2]|] eqn:Hops; [|done]. destruct (Run _ _ _ _ _ _ _ _ _ s2) as [[r3 s3]|] eqn:E; [|done].
  pose proof (Run_safe _ _ _ _ _ _ _ _ _ _ _ _ HE Hval E) as Hsafe.
  destruct (call_steps Hlive transfer _ s s1 s2 s3 n r3 Hlen Htr Hsnap Hops E Hsafe) as (s4 & H4 & Hout).
  rewrite evm_call_unfolds in H4. unfold sbind in H4. rewrite Hsnap, Hops, E in H4. rewrite H4 in H. by injection H as <- <-.
Qed.

(** A static call changes nothing.  In a static call every precompile that
    knows of them leaves the stores of the database as they are, whatever it is
    asked and whether it succeeds, fails or runs out of gas. *)
Theorem static_call_pure a executor caller contract input gas value delegate (s : DB) limit :
  SafeExecutor executor → StaticExecutor executor → GetCosmosGasLimitFromEVMGas (cview (ctx s)) gas = Ret limit →
  ∃ r s', RunAndCalculateGas a executor caller contract input gas value true delegate s = Ret (r, s') ∧
    cview (ctx s') = cview (ctx s) ∧ tempStateCurrent s' = tempStateCurrent s ∧ snapshottedCtxs s' = snapshottedCtxs s.
Proof.
  intros HE HS Hg. destruct (RunAndCalculateGas_returns a executor caller contract input gas value true delegate s limit HE Hg) as (r & s' & E).
  exists r, s'. split; [done|]. by eapply RunAndCalculateGas_pure.
Qed.
End CallTheorems.

(** * Examples *)

(** Every keeper call costs ten units; a write that runs out of gas leaves
    nothing; and an ABI of one method. *)
Definition demo_gas : StoreGas demo_bank (gset (list Byte.byte)) (Z * Z) := {|
  WriteCostFlat := 2000;
  WriteCostPerByte := 30;
  ReadCostFlat := 1000;
  ReadCostPerByte := 3;
  sg_cost _ _ := 10;
  sg_torn _ w := w;
  NewGasMeterWithMultiplier n := (n, 0)
|}.
Definition demo_selector : bytes := [x01; x02; x03; x04].
Definition demo_abi (method : string) (args : list AbiValue) : ABI := {|
  MethodById id := if bool_decide (id = demo_selector) then inl method else inr "no method with id"%string;
  Unpack m bz := inl args;
  Pack m vs := inl [x01]
|}.

(** A run that returned without an error. *)
Definition succeeds {S : Type} (o : outcome (Returned * S)) : bool := match o with Ret ((_, _, None), _) => true | _ => false end.
Lemma succeeds_ret {S : Type} (o : outcome (Returned * S)) : succeeds o = true → ∃ r s, o = Ret (r, s) ∧ r.2 = None.
Proof. destruct o as [[[[bz gas] [e|]] s]|]; try done. intros _. by eexists _, _. Qed.

(** The calls of an EVM. *)
Definition plain_calls `{BK : BankKeeper B} `{AK : AccountKeeper A} `{EC : EthCrypto} `{KC : KeeperConfig} `{MST : MultiStore MS (World B A)} : EVMCalls MS :=
  λ transfer run, sbind Snapshot (λ n, sbind (run_ops transfer) (λ _, sbind run (λ r,
    match r.2 with Some _ => sbind (RevertToSnapshot n) (λ _, sret r) | None => sret r end))).
Lemma plain_calls_laws `{BK : BankKeeper B} `{AK : AccountKeeper A} `{EC : EthCrypto} `{KC : KeeperConfig} `{MST : MultiStore MS (World B A)} :
  EVMCallsLaws (EVC := plain_calls) MS B A.
Proof. done. Qed.

Section PrecompileExamples.
#[local] Existing Instances demo_bank_keeper demo_bank_laws demo_accounts demo_crypto live_config half_even_dec plain_meter demo_gas.
#[local] Existing Instances demo_call_stores demo_call_stores_laws demo_call_range plain_calls plain_calls_laws.
Notation DB := (DBImpl (stack_ms demo_world)).

(** Address 7 is the account of the bytes [alice], which has five atabi and nine
    wei. *)
Definition alice_acc : AccAddress := str_bytes "alice".
Definition alice_ctx : Ctx (stack_ms demo_world) :=
  SetAddressMapping alice_acc (addr_of 7) (demo_ctx (set_bank {[alice_acc := 5000000000009%N]} demo_world0)).
Definition alice_db : DB := match NewDBImpl demo_cache alice_ctx false with Ret (s, _) => s | Panic _ => tx_db end.

(** An executor that gives the value back to the account of [alice]. *)
Definition giving_back (call : Call) : exec_m (stack_ms demo_world) (Z * Z) Returned := recovering (
  if cl_readOnly call then xret (failed "static") else
  let% paid := HandlePaymentUtabiWei (ba (addr_of 9)) alice_acc (default 0 (cl_value call)) in
  try% amounts := paid in xret ([x01], 0, None)).

Lemma giving_back_safe : SafeExecutor giving_back.
Proof.
  split; [|intros call s; apply recovering_returns]. intros call Hv. apply xkeeps_recovering. keeps. apply paid_keeps; [done|keeps].
Qed.
Lemma giving_back_static : StaticExecutor giving_back.
Proof. intros call Hro. apply xquiet_recovering. rewrite Hro. quiet. Qed.

Definition pay_nine : list db_op := [OpTransferWithoutEvents (addr_of 7) (addr_of 9) 2000000000003].
Definition alice_snap : DB := exec Snapshot alice_db.
Definition alice_paid : DB := exec (run_ops pay_nine) alice_snap.

Lemma static_gas_call_steps_witness :
  ∃ r s', evm_call_precompile pay_nine (Run (demo_abi "f" []) giving_back (100000, 0) (addr_of 7) (addr_of 7) demo_selector
            (Some 2000000000003) false false) alice_db = Ret (r, s') ∧ rtc evm_step alice_db s'.
Proof.
  assert (Hlive : EthReplayConfig_Enabled = false) by reflexivity.
  assert (Hv : 0 ≤ default 0 (Some 2000000000003)) by (simpl; lia).
  assert (Hlen : length (tempStatesHist alice_db) = length (snapshottedCtxs alice_db)) by reflexivity.
  assert (Htr : Forall (λ op, is_level_op op = true ∧ is_conserving op = true) pay_nine)
    by (constructor; [split; reflexivity|constructor]).
  set (run := evm_call_precompile pay_nine (Run (demo_abi "f" []) giving_back (100000, 0) (addr_of 7) (addr_of 7) demo_selector
            (Some 2000000000003) false false)).
  assert (Hi : is_ret (run alice_db) = true) by (vm_compute; reflexivity).
  destruct (run alice_db) as [[r s']|] eqn:E; [|discriminate Hi]. exists r, s'. split; [reflexivity|]. unfold run in E.
  exact (proj1 (static_gas_call_steps (demo_abi "f" []) giving_back pay_nine (100000, 0) (addr_of 7) (addr_of 7) demo_selector (Some 2000000000003)
    false false alice_db s' r Hlive (safe_level (SafeExecutor := giving_back_safe)) Hv Hlen Htr E)).
Defined.

Lemma static_call_pure_witness :
  ∃ r s', RunAndCalculateGas (demo_abi "f" []) giving_back (addr_of 7) (addr_of 7) demo_selector 100000 None true false alice_db = Ret (r, s') ∧
    cview (ctx s') = cview (ctx alice_db).
Proof.
  assert (Hg : GetCosmosGasLimitFromEVMGas (cview (ctx alice_db)) 100000 = Ret 100000) by (vm_compute; reflexivity).
  destruct (static_call_pure (demo_abi "f" []) giving_back (addr_of 7) (addr_of 7) demo_selector 100000 None false alice_db 100000
    giving_back_safe giving_back_static Hg) as (r & s' & H1 & H2 & _).
  exists r, s'. split; [exact H1|exact H2].
Defined.
End PrecompileExamples.
