(* ===== verification/StaticCall.v ===== *)
(** * Reading from contracts
    (StaticCallEVM, callEVM and createReadOnlyEVM of x/evm/keeper/evm.go,
    x/evm/keeper/view.go, and the query StaticCall of x/evm/keeper/grpc_query.go)

    Modules and wasm contracts read from an EVM contract by a static call on a
    state database of its own, which is dropped afterwards.  A query is a
    computation on a context, its gas meter and the keeper's cache that may fail
    with an error or panic ([query_m]); the gas that the stores charge for reads
    is not modelled. *)

From S2P Require Import Prelude Bytes Dec Store Params Keys World Instances Keeper StateDB Snapshots Supply Finalize Frame.
From S2P Require Import Fee Eth EthTx Msg Block Receipts Tx Precompile.
From Stdlib Require Import Strings.Byte.
Local Open Scope Z_scope.
Local Open Scope outcome_scope.

Declare Scope query_scope.
Delimit Scope query_scope with query.

(** ** The monad of queries *)

Record QState (MS G : Type) : Type := mkQState { q_ctx : Ctx MS; q_meter : G; q_cache : option Address }.
Arguments mkQState {MS G}. Arguments q_ctx {MS G}. Arguments q_meter {MS G}. Arguments q_cache {MS G}.

Definition query_m (MS G X : Type) : Type := QState MS G → outcome ((X + Err) * QState MS G).
Definition qret {MS G X} (x : X) : query_m MS G X := λ s, Ret (inl x, s).
Definition qfail {MS G X} (e : Err) : query_m MS G X := λ s, Ret (inr e, s).
Definition qpanic {MS G X} (msg : string) : query_m MS G X := λ _, Panic msg.
Definition qbind {MS G X Y} (m : query_m MS G X) (k : X → query_m MS G Y) : query_m MS G Y := λ s,
  match m s with
  | Ret (inl x, s') => k x s'
  | Ret (inr e, s') => Ret (inr e, s')
  | Panic msg => Panic msg
  end.
(** A value or an error, a call that may panic, and a value that may be missing. *)
Definition qsum {MS G X} (r : X + Err) : query_m MS G X := match r with inl x => qret x | inr e => qfail e end.
Definition qout {MS G X} (o : outcome X) : query_m MS G X := match o with Ret x => qret x | Panic msg => qpanic msg end.
Definition qopt {MS G X} (e : Err) (o : option X) : query_m MS G X := match o with Some x => qret x | None => qfail e end.

Notation "'let?' x := m 'in' k" := (qbind m (λ x, k)) (at level 200, x name, m at level 100, k at level 200) : query_scope.
Local Open Scope query_scope.

(** ** What is run

    [vm.EVM.StaticCall]: the chain configuration, the block, the origin, the
    caller, the contract, the input and the gas; it returns data, the gas that is
    left and an error. *)
Class StaticEVM (MS : Type) := {
  evm_StaticCall : EthChainConfig → BlockContext (DBImpl MS) → Address → Address → Address → bytes → Z →
    stm (DBImpl MS) (bytes * Z * option Err)
}.
Class StaticEVMLaws (MS : Type) `{StaticEVM MS} `{BK : BankKeeper B} `{AK : AccountKeeper A} `{EC : EthCrypto} `{KC : KeeperConfig}
    `{MST : MultiStore MS (World B A)} : Prop := {
  evm_StaticCall_steps : ∀ cfg bc origin caller to input gas s r s',
    evm_StaticCall cfg bc origin caller to input gas s = Ret (r, s') → rtc evm_step s s'
}.

(** The ABI of the contracts of a kind ([artifacts.GetParsedABI]). *)
Class ParsedABIs := { GetParsedABI : string → ABI }.

Section StaticCall.
Context `{BK : BankKeeper B} `{AK : AccountKeeper A} `{EC : EthCrypto} `{KC : KeeperConfig}.
Context `{MST : MultiStore MS (World B A)} `{MR : MapRange} `{SD : SdkDec} `{CD : Codec}.
Context `{EH : EthHex} `{IL : IntLibs} `{ET : EthTransactions T} `{TC : TxCodec} `{ER : EthReceipts}.
Context `{VM : EVM MS} `{GM : GasMeters G} `{SV : StaticEVM MS} `{PAB : ParsedABIs}.
Notation World := (World B A).
Notation Ctx := (Ctx MS).
Notation Q X := (query_m MS G X).
Variable env : TxEnv.

(** A reading of the stores the context shows. *)
Definition qview {X} (f : World → X) : Q X := λ s, Ret (inl (f (cview (q_ctx s))), s).

(** The database of a static call and what its EVM is made from. *)
Definition createReadOnlyEVM (from : AccAddress) : Q (DBImpl MS * BlockContext (DBImpl MS) * EthChainConfig * Address) := λ s,
  let c := q_ctx s in
  let* n := NewDBImpl (q_cache s) c true in
  let* b := GetVMBlockContext env n.2 c in
  let s' := mkQState c (q_meter s) b.2 in
  match b.1 with
  | inr e => Ret (inr e, s')
  | inl blockCtx =>
      let cfg := EthereumConfig DefaultChainConfig (Some (Keeper_ChainID env)) in
      Ret (inl (n.1, blockCtx, cfg, GetEVMAddressOrDefault (cview c) from), s')
  end.

(** [f] runs on a database over the context, whose first context it returns. *)
Definition callEVM (from : Address) (to : option Address) (val : option Z) (data : bytes)
    (f : Address → option Address → bytes → Z → Z → outcome (bytes * Z * option Err * Ctx)) : Q bytes := λ s,
  let* evmGasLimit := getEvmGasLimitFromCtx (q_meter s) (cview (q_ctx s)) in
  let value := default 0 val in
  let* r := f from to data evmGasLimit value in
  let '(ret, leftoverGas, err, c') := r in
  let* gm := consumeEvmGas (u64 (evmGasLimit - leftoverGas)) (cview c') (q_meter s) in
  Ret (match err with Some e => inr e | None => inl ret end, mkQState c' gm (q_cache s)).

Definition StaticCallEVM (from : AccAddress) (to : option Address) (data : bytes) : Q bytes :=
  let? evm := createReadOnlyEVM from in
  let '(db, blockCtx, cfg, origin) := evm in
  λ s, callEVM (GetEVMAddressOrDefault (cview (q_ctx s)) from) to None data (λ caller addr input gas _,
    match addr with
    | None => Panic nil_deref
    | Some addr =>
        let* r := evm_StaticCall cfg blockCtx origin caller addr input gas db in
        Ret (r.1, base_ctx (q_ctx s) r.2)
    end) s.

(** ** Queries of one output (view.go)

    The errors of packing and unpacking are dropped: nothing is then sent, or
    read. *)
Definition QueryERCSingleOutput (typ : string) (addr : Address) (query : string) : Q (option AbiValue) :=
  let q := match Pack (GetParsedABI typ) query [] with inl bz => bz | inr _ => [] end in
  let? r := StaticCallEVM (ak_GetModuleAddress ModuleName) (Some addr) q in
  let o := match Unpack (GetParsedABI typ) query r with inl l => l | inr _ => [] end in
  qret (match o with [v] => Some v | _ => None end).

(** ** The query StaticCall (grpc_query.go) *)

Variable new_meter : Z → G.
Variable QueryConfig_GasLimit : Z.

Definition Querier_StaticCall (To : string) (Data : bytes) : Q bytes := λ s,
  if String.eqb To "" then Ret (inr "cannot use static call to create contracts"%string, s) else
  let meter := if gm_Limit (q_meter s) =? 0 then new_meter QueryConfig_GasLimit else q_meter s in
  StaticCallEVM (ak_GetModuleAddress ModuleName) (Some (HexToAddress To)) Data (mkQState (q_ctx s) meter (q_cache s)).

End StaticCall.

(** * Queries only read *)

Section StaticCallLemmas.
Context `{BK : BankKeeper B} `{AK : AccountKeeper A} `{EC : EthCrypto} `{KC : KeeperConfig}.
Context `{MST : MultiStore MS (World B A)} `{MSL : !MultiStoreLaws MS (World B A)} `{MR : MapRange}.
Hypothesis Hlive : EthReplayConfig_Enabled = false.
Notation DB := (DBImpl MS).

(** A step of the EVM does not touch the first context of the database. *)
Lemma evm_step_base (s s' : DB) : evm_step s s' → keeps 0 s s'.
Proof.
  intros [op u s1 s1' _ Hrun|s1 s1' [Hl _] _]; [|by apply keeps_level].
  assert (reverts_from (Z.of_nat 0) op) as Hr.
  { destruct op; try done. unfold run_op, RevertToSnapshot in Hrun. simpl. destruct (Z.ltb_spec rev 0); [done|lia]. }
  exact (keeps_run_op Hlive 0 op Hr s1 u s1' Hrun).
Qed.

Lemma evm_steps_base (s s' : DB) : rtc evm_step s s' → keeps 0 s s'.
Proof.
  induction 1 as [s|s1 s2 s3 Hs _ IH]; [done|]. intros Hd. destruct (evm_step_base _ _ Hs Hd) as (Hd2 & H1 & H2).
  destruct (IH Hd2) as (Hd3 & H3 & H4). split_and!; [done|congruence..].
Qed.

Lemma base_ctx_kept cache sim (c : Ctx MS) n (s' : DB) :
  NewDBImpl cache c sim = Ret n → rtc evm_step n.1 s' → base_ctx c s' = c.
Proof.
  intros Hn Hs. assert (snapshottedCtxs n.1 = [c] ∧ deep 0 n.1) as [Hc Hd].
  { unfold NewDBImpl in Hn. destruct (GetFeeCollectorAddress cache (cview c)) as [[a e] ch]. unfold Snapshot in Hn.
    injection Hn as <-. by split; [|split; [simpl; lia|]]. }
  destruct (evm_steps_base _ _ Hs Hd) as (_ & Ht & _). rewrite Hc in Ht. unfold base_ctx.
  destruct (snapshottedCtxs s') as [|c0 rest]; [done|]. injection Ht as ->. by destruct c.
Qed.
End StaticCallLemmas.

(** A query that leaves the context as it is. *)
Definition q_reads {MS G X} (m : query_m MS G X) : Prop := ∀ s r s', m s = Ret (r, s') → q_ctx s' = q_ctx s.

Create HintDb query_reads.

Lemma qret_reads {MS G X} (x : X) : q_reads (MS := MS) (G := G) (qret x).
Proof. by intros s r s' [= <- <-]. Qed.
Lemma qfail_reads {MS G X} e : q_reads (MS := MS) (G := G) (X := X) (qfail e).
Proof. by intros s r s' [= <- <-]. Qed.
Lemma qpanic_reads {MS G X} msg : q_reads (MS := MS) (G := G) (X := X) (qpanic msg).
Proof. by intros s r s'. Qed.
Lemma qbind_reads {MS G X Y} (m : query_m MS G X) (k : X → query_m MS G Y) :
  q_reads m → (∀ x, q_reads (k x)) → q_reads (qbind m k).
Proof.
  intros Hm Hk s r s' H. unfold qbind in H. destruct (m s) as [[[x|e] s1]|] eqn:E; [| |done].
  - by rewrite (Hk x s1 r s' H), (Hm s _ s1 E).
  - injection H as <- <-. exact (Hm s _ s1 E).
Qed.
Lemma qsum_reads {MS G X} (r : X + Err) : q_reads (MS := MS) (G := G) (qsum r).
Proof. destruct r; [apply qret_reads|apply qfail_reads]. Qed.
Lemma qout_reads {MS G X} (o : outcome X) : q_reads (MS := MS) (G := G) (qout o).
Proof. destruct o; [apply qret_reads|apply qpanic_reads]. Qed.
Lemma qopt_reads {MS G X} e (o : option X) : q_reads (MS := MS) (G := G) (qopt e o).
Proof. destruct o; [apply qret_reads|apply qfail_reads]. Qed.
#[export] Hint Resolve qret_reads qfail_reads qpanic_reads qsum_reads qout_reads qopt_reads : query_reads.

(** Takes a query apart into the steps it is made of. *)
Ltac reading :=
  repeat first
    [ solve [auto with query_reads]
    | apply qbind_reads; [|intros ?]
    | progress case_match ].

Section StaticCallReads.
Context `{BK : BankKeeper B} `{AK : AccountKeeper A} `{EC : EthCrypto} `{KC : KeeperConfig}.
Context `{MST : MultiStore MS (World B A)} `{MSL : !MultiStoreLaws MS (World B A)} `{MR : MapRange} `{SD : SdkDec} `{CD : Codec}.
Context `{EH : EthHex} `{IL : IntLibs} `{ET : EthTransactions T} `{TC : TxCodec} `{ER : EthReceipts}.
Context `{VM : EVM MS} `{GM : GasMeters G} `{SV : StaticEVM MS} `{SVL : !StaticEVMLaws MS} `{PAB : ParsedABIs}.
Hypothesis Hlive : EthReplayConfig_Enabled = false.
Variable env : TxEnv.

Lemma qview_reads {X} (f : World B A → X) : q_reads (G := G) (qview f).
Proof. by intros s r s' [= <- <-]. Qed.

(** Whatever the contract does, a static call leaves the context as it was. *)
Lemma StaticCallEVM_reads from to data : q_reads (StaticCallEVM env from to data).
Proof.
  intros s r s' H. unfold StaticCallEVM, qbind, createReadOnlyEVM in H.
  destruct (NewDBImpl (q_cache s) (q_ctx s) true) as [n|] eqn:Hn; [|done]. cbn [outcome_bind] in H.
  destruct (GetVMBlockContext env n.2 (q_ctx s)) as [[[bc|e] cache]|]; cbn [outcome_bind fst snd] in H; [| |done].
  - unfold callEVM in H. cbn [q_ctx q_meter q_cache] in H.
    destruct (getEvmGasLimitFromCtx _ _) as [gas|]; [|done]. cbn [outcome_bind] in H.
    destruct to as [addr|]; [|done]. destruct (evm_StaticCall _ _ _ _ _ _ _ _) as [[[[ret left] err] db]|] eqn:Hs; [|done].
    cbn [outcome_bind fst snd] in H. destruct (consumeEvmGas _ _ _) as [gm|]; [|done]. injection H as <- <-. cbn [q_ctx].
    apply evm_StaticCall_steps in Hs. exact (base_ctx_kept Hlive _ _ _ _ _ Hn Hs).
  - by injection H as <- <-.
Qed.

Lemma QueryERCSingleOutput_reads typ addr query : q_reads (QueryERCSingleOutput env typ addr query).
Proof. unfold QueryERCSingleOutput. apply qbind_reads; [apply StaticCallEVM_reads|intros ?]. apply qret_reads. Qed.

Lemma Querier_StaticCall_reads new_meter limit to data : q_reads (Querier_StaticCall env new_meter limit to data).
Proof.
  intros s r s' H. unfold Querier_StaticCall in H. destruct (String.eqb to ""); [by injection H as <- <-|].
  by apply StaticCallEVM_reads in H.
Qed.
End StaticCallReads.
