(* ===== verification/BankPrecompile.v ===== *)
(** * The bank precompile
    (precompiles/bank/bank.go)

    Contracts send native coins through it: [sendNative] pays the value of the
    call to an account given by its text form, and [send] moves coins of a
    denomination on behalf of the contract that is the denomination's pointer.
    The other methods read balances, metadata and supply. *)

From S2P Require Import Prelude Bytes Dec Store Params Keys World Instances Keeper StateDB Snapshots Supply Finalize Frame Fee Eth Block EthTx Msg Receipts Tx Associate.
From S2P Require Import Pointer MsgServer Precompile.
From Stdlib Require Import Strings.Byte.
Local Open Scope Z_scope.
Local Open Scope exec_scope.

(** The readers of the bank module, and the check of its message. *)
Class BankQueries (B : Type) := {
  bk_GetAllBalances : B → AccAddress → Coins;
  bk_GetDenomMetaData : B → string → option (string * string);
  bk_GetSupply : B → string → Z;
  valid_denom : string → bool;
  MsgSend_ValidateBasic : bytes → bytes → Coins → option Err
}.

Definition SendMethod : string := "send".
Definition SendNativeMethod : string := "sendNative".
Definition BalanceMethod : string := "balance".
Definition AllBalancesMethod : string := "all_balances".
Definition NameMethod : string := "name".
Definition SymbolMethod : string := "symbol".
Definition DecimalsMethod : string := "decimals".
Definition SupplyMethod : string := "supply".
Definition BankAddress : string := "0x0000000000000000000000000000000000001001".

Definition IsTransaction (method : string) : bool := String.eqb method SendMethod || String.eqb method SendNativeMethod.

Section Bank.
Context `{BK : BankKeeper B} `{AK : AccountKeeper A} `{EC : EthCrypto} `{KC : KeeperConfig} `{BQ : BankQueries B}.
Context `{MST : MultiStore MS (World B A)} `{SD : SdkDec} `{GM : GasMeters G} `{SG : StoreGas B A G}.
Context `{EH : EthHex} `{BE : Bech32} `{BMS : BankMsgServer MS}.
Variable abi : ABI.
Notation M X := (exec_m MS G X).

(** An address that is not associated stands for the account of the same bytes. *)
Definition accAddressFromArg (args : list AbiValue) (i : nat) : M (AccAddress + Err) :=
  let% addr := arg_address args i in
  if bool_decide (addr = zero_address) then xret (inr "invalid addr"%string) else
  reads "GetTabiAddress" (λ w, Ret (inl (default (ba addr) (GetTabiAddress w addr)))).

Definition NewCoins (denom : string) (amount : Z) : M Coins :=
  if negb (valid_denom denom) then xpanic "invalid denom" else
  if amount <? 0 then xpanic "negative coin amount" else
  xret (if amount =? 0 then [] else [(denom, amount)]).

Definition send (call : Call) : M Returned :=
  let args := cl_args call in
  if cl_readOnly call then xret (failed "cannot call send from staticcall") else
  ensure% ValidateNonPayable (cl_value call);
  ensure% ValidateArgsLength args 4;
  let% denom := arg_string args 2 in
  if String.eqb denom "" then xret (failed "invalid denom") else
  let% pointer := (λ s, reads "GetERC20NativePointer" (λ w, GetERC20NativePointer (ci_isTracing (c_info (ex_ctx s))) w (str_bytes denom)) s) in
  if negb (bool_decide (fst <$> pointer = Some (cl_caller call))) then xret (failed "only the pointer can send the denomination") else
  let% amount := arg_int args 3 in
  if amount =? 0 then packed abi call [VBool true] else
  let% sender := accAddressFromArg args 0 in
  try% senderTabiAddr := sender in
  let% receiver := accAddressFromArg args 1 in
  try% receiverTabiAddr := receiver in
  let% coins := NewCoins denom amount in
  ensure% MsgSend_ValidateBasic (acc_String senderTabiAddr) (acc_String receiverTabiAddr) coins;
  let% e := writes "Send" (λ c, Ret (bank_Send (acc_String senderTabiAddr) (acc_String receiverTabiAddr) coins c)) in
  ensure% e;
  packed abi call [VBool true].

Definition sendNative (call : Call) : M Returned :=
  let args := cl_args call in
  if cl_readOnly call then xret (failed "cannot call sendNative from staticcall") else
  if cl_delegate call then xret (failed "cannot delegatecall sendNative") else
  ensure% ValidateArgsLength args 1;
  match cl_value call with
  | None | Some 0 => xret (failed "set `value` field to non-zero to send")
  | Some value =>
  let% sender := reads "GetTabiAddress" (λ w, Ret (GetTabiAddress w (cl_caller call))) in
  match sender with
  | None => xret (failed "invalid addr")
  | Some senderTabiAddr =>
  let% receiverAddr := arg args 0 in
  match receiverAddr with
  | VString receiverAddr =>
      if String.eqb receiverAddr "" then xret (failed "invalid addr") else
      match AccAddressFromBech32 (str_bytes receiverAddr) with
      | None => xret (failed ErrBech32)
      | Some receiverTabiAddr =>
          let% precompileAddr := reads "GetTabiAddressOrDefault" (λ w, Ret (GetTabiAddressOrDefault w (HexToAddress BankAddress))) in
          let% paid := HandlePaymentUtabiWei precompileAddr senderTabiAddr value in
          try% amounts := paid in
          let% e := bank_writes false "SendCoinsAndWei" (λ b, bk_SendCoinsAndWei b senderTabiAddr receiverTabiAddr amounts.1 amounts.2) in
          ensure% e;
          let% accExists := reads "HasAccount" (λ w, Ret (ak_HasAccount (w_acct w) receiverTabiAddr)) in
          let% _ := if accExists then xret tt
                    else writes "SetAccount" (λ c, Ret (cupd (λ w, set_acct (ak_SetNewAccount (w_acct w) receiverTabiAddr) w) c, tt)) in
          packed abi call [VBool true]
      end
  | _ => xret (failed "invalid addr")
  end
  end
  end.

Definition balance (call : Call) : M Returned :=
  let args := cl_args call in
  ensure% ValidateNonPayable (cl_value call);
  ensure% ValidateArgsLength args 2;
  let% r := accAddressFromArg args 0 in
  try% addr := r in
  let% denom := arg_string args 1 in
  if String.eqb denom "" then xret (failed "invalid denom") else
  let% amount := reads "GetBalance" (λ w, Ret (bk_GetBalance (w_bank w) addr denom)) in
  packed abi call [VInt amount].

Definition all_balances (call : Call) : M Returned :=
  let args := cl_args call in
  ensure% ValidateNonPayable (cl_value call);
  ensure% ValidateArgsLength args 1;
  let% r := accAddressFromArg args 0 in
  try% addr := r in
  let% coins := reads "GetAllBalances" (λ w, Ret (bk_GetAllBalances (w_bank w) addr)) in
  packed abi call [VCoins ((λ c, (c.2, c.1)) <$> coins)].

(** The common part of [name] and [symbol]. *)
Definition metadata (field : string * string → string) (call : Call) : M Returned :=
  let args := cl_args call in
  ensure% ValidateNonPayable (cl_value call);
  ensure% ValidateArgsLength args 1;
  let% denom := arg_string args 0 in
  let% data := reads "GetDenomMetaData" (λ w, Ret (bk_GetDenomMetaData (w_bank w) denom)) in
  match data with
  | None => xret (failed "denom not found")
  | Some m => packed abi call [VString (field m)]
  end.
Definition name : Call → M Returned := metadata fst.
Definition symbol : Call → M Returned := metadata snd.

Definition decimals (call : Call) : M Returned :=
  ensure% ValidateNonPayable (cl_value call);
  packed abi call [VInt 0].

Definition totalSupply (call : Call) : M Returned :=
  let args := cl_args call in
  ensure% ValidateNonPayable (cl_value call);
  ensure% ValidateArgsLength args 1;
  let% denom := arg_string args 0 in
  let% amount := reads "GetSupply" (λ w, Ret (bk_GetSupply (w_bank w) denom)) in
  packed abi call [VInt amount].

(** A method that is not known returns nothing. *)
Definition dispatch (call : Call) : M Returned :=
  let m := cl_method call in
  if String.eqb m SendMethod then send call else
  if String.eqb m SendNativeMethod then sendNative call else
  if String.eqb m BalanceMethod then balance call else
  if String.eqb m AllBalancesMethod then all_balances call else
  if String.eqb m NameMethod then name call else
  if String.eqb m SymbolMethod then symbol call else
  if String.eqb m DecimalsMethod then decimals call else
  if String.eqb m SupplyMethod then totalSupply call else
  xret ([], 0, None).
Definition Execute (call : Call) : M Returned := recovering (dispatch call).

(** [RequiredGas] of the executor. *)
Definition bank_RequiredGas (input : bytes) (method : string) : Z := DefaultGasCost input (IsTransaction method).
End Bank.

(** * Lemmas *)

(** What the precompile relies on of the message server: it writes on the newest
    level; a payment moves the coins between the accounts and changes nothing of
    the EVM module. *)
Class BankMsgLaws (MS : Type) `{BK : BankKeeper B} `{MST : MultiStore MS (World B A)} `{BE : Bech32} `{BMS : BankMsgServer MS} : Prop := {
  bank_Send_level : ∀ from to coins c, ctx_ext c (bank_Send from to coins c).1;
  bank_Send_ok : ∀ from to coins c c', bank_Send (acc_String from) (acc_String to) coins c = (c', None) →
    ∃ b1, bank_moved (bank_of c) b1 from (- (AmountOf BaseDenom coins * AtabiToWeiMultiplier)) ∧
          bank_moved b1 (bank_of c') to (AmountOf BaseDenom coins * AtabiToWeiMultiplier) ∧ tx_frame (cview c') = tx_frame (cview c)
}.

Section BankLemmas.
Context `{BK : BankKeeper B} `{AK : AccountKeeper A} `{EC : EthCrypto} `{KC : KeeperConfig} `{BQ : BankQueries B}.
Context `{MST : MultiStore MS (World B A)} `{MSL : !MultiStoreLaws MS (World B A)} `{SD : SdkDec} `{GM : GasMeters G} `{SG : StoreGas B A G}.
Context `{EH : EthHex} `{BE : Bech32} `{BMS : BankMsgServer MS} `{BL : !BankLaws B} `{BML : !BankMsgLaws MS}.
Variable abi : ABI.
Notation M X := (exec_m MS G X).

Lemma xquiet_accAddressFromArg args i : xquiet (accAddressFromArg args i : M (AccAddress + Err)).
Proof. unfold accAddressFromArg. quiet. Qed.
Lemma xquiet_NewCoins denom amount : xquiet (NewCoins denom amount : M Coins).
Proof. unfold NewCoins. quiet. Qed.
#[local] Hint Resolve xquiet_accAddressFromArg xquiet_NewCoins : exec.

Lemma send_keeps call : xkeeps succeeded (send abi call : M Returned).
Proof.
  unfold send. keeps. apply (xkeeps_bind (λ e, e = None)).
  - apply xkeeps_writes. intros c c' e [= E]. split; [replace c' with (c', e).1 by done; rewrite <- E; apply bank_Send_level|].
    intros ->. apply bank_Send_ok in E as (b1 & (_ & _ & _ & H1) & (_ & _ & _ & H2) & H3). split; [lia|done].
  - intros e. keeps.
  - intros [e|] s r s' E Hr; [|done]. by injection E as <-.
Qed.

(** The account of the receiver is made if there is none. *)
Lemma SetAccount_keeps r (accExists : bool) : xkeeps (λ _, True)
  (if accExists then xret tt else writes "SetAccount" (λ c, Ret (cupd (λ w, set_acct (ak_SetNewAccount (w_acct w) r) w) c, tt)) : M unit).
Proof.
  destruct accExists; [keeps|]. apply xkeeps_writes. intros c c' [] [= <-]. split; [apply ctx_ext_cupd|]. intros _. split; [unfold bank_of|]; by rewrite cview_cupd.
Qed.

Lemma sendNative_keeps call : 0 ≤ default 0 (cl_value call) → xkeeps succeeded (sendNative abi call : M Returned).
Proof.
  intros Hv. unfold sendNative. destruct (cl_value call) as [v|]; [|keeps]. simpl in Hv. keeps;
  (apply paid_keeps; [done|]; intros n w Hn Hw; apply (xkeeps_bind (λ e, e = None)); [|keeps|]).
  all: try (apply (xkeeps_bind (λ _, True)); [apply SetAccount_keeps|keeps|done]).
  all: try (apply xkeeps_bank; by apply send_conserves).
  all: intros [e|] x1 r1 x2 E Hr; [by injection E as <- _|done].
Qed.

Lemma quiet_balance call : xquiet (balance abi call : M Returned).
Proof. unfold balance. quiet. Qed.
Lemma quiet_all_balances call : xquiet (all_balances abi call : M Returned).
Proof. unfold all_balances. quiet. Qed.
Lemma quiet_metadata field call : xquiet (metadata abi field call : M Returned).
Proof. unfold metadata. quiet. Qed.
Lemma quiet_decimals call : xquiet (decimals abi call : M Returned).
Proof. unfold decimals. quiet. Qed.
Lemma quiet_totalSupply call : xquiet (totalSupply abi call : M Returned).
Proof. unfold totalSupply. quiet. Qed.
#[local] Hint Resolve quiet_balance quiet_all_balances quiet_metadata quiet_decimals quiet_totalSupply : exec.

(** The bank precompile is one the EVM may call. *)
Lemma bank_LevelExecutor : LevelExecutor (Execute abi : Call → M Returned).
Proof. intros call Hv. apply xkeeps_recovering. unfold dispatch, name, symbol. keeps; [apply send_keeps|by apply sendNative_keeps]. Qed.
Lemma bank_SafeExecutor : SafeExecutor (Execute abi : Call → M Returned).
Proof. split; [apply bank_LevelExecutor|]. intros call s. apply recovering_returns. Qed.
Lemma bank_StaticExecutor : StaticExecutor (Execute abi : Call → M Returned).
Proof. intros call Hro. apply xquiet_recovering. unfold dispatch, name, symbol, send, sendNative. rewrite Hro. quiet. Qed.

(** ** What a call that succeeds has done *)

Lemma sendNative_done call x r x' : 0 ≤ default 0 (cl_value call) → (sendNative abi call : M Returned) x = Done r x' → succeeded r →
  ∃ v text from to b1 b2 evs1 evs2, let '(n, w) := SplitAtabiWeiAmount v in
    cl_readOnly call = false ∧ cl_delegate call = false ∧ cl_value call = Some v ∧ v ≠ 0 ∧ cl_args call = [VString text] ∧
    GetTabiAddress (cview (ex_ctx x)) (cl_caller call) = Some from ∧ AccAddressFromBech32 (str_bytes text) = Some to ∧
    bk_SendCoinsAndWei (bank_of (ex_ctx x)) (GetTabiAddressOrDefault (cview (ex_ctx x)) (HexToAddress BankAddress)) from n w = (b1, evs1, None) ∧
    bk_SendCoinsAndWei b1 from to n w = (b2, evs2, None) ∧ bank_of (ex_ctx x') = b2 ∧
    w_evm (cview (ex_ctx x')) = w_evm (cview (ex_ctx x)).
Proof.
  intros Hv0 H Hr. unfold sendNative in H. destruct (cl_readOnly call); [no_success H|].
  destruct (cl_delegate call); [no_success H|]. unfold ValidateArgsLength in H.
  destruct (cl_args call) as [|a0 [|]]; [no_success H| |no_success H]. simpl in H.
  destruct (cl_value call) as [v|]; [|no_success H]. simpl in Hv0.
  assert (Hv : v ≠ 0) by (intros ->; no_success H).
  destruct v as [|v|v]; [done| |lia]. clear Hv0.
  apply xbind_done in H as (from & x1 & [[= Hf] Hx1]%reads_done & H). destruct from as [from|]; [|no_success H].
  destruct a0 as [|text| | | | | | |]; try no_success H. apply xbind_done in H as (? & ? & [= <- <-] & H).
  destruct (String.eqb text ""); [no_success H|]. destruct (AccAddressFromBech32 (str_bytes text)) as [to|] eqn:Hto; [|no_success H].
  apply xbind_done in H as (p & x2 & [[= Hp] Hx2]%reads_done & H). apply xbind_done in H as (paid & x3 & E3 & H).
  destruct paid as [a|]; [|no_success H]. apply HandlePaymentUtabiWei_amounts in E3 as (-> & b1 & evs1 & E3 & V3).
  apply xbind_done in H as (e & x4 & (b2 & evs2 & E4 & V4)%bank_writes_done & H). destruct e; [no_success H|].
  apply xbind_done in H as (ex & x5 & [_ Hx5]%reads_done & H). apply xbind_done in H as (u & x6 & E6 & H).
  apply (quiet_done _ _ _ _ (xquiet_packed _ _ _)) in H.
  assert (H6 : bank_of (ex_ctx x6) = bank_of (ex_ctx x5) ∧ w_evm (cview (ex_ctx x6)) = w_evm (cview (ex_ctx x5))).
  { destruct ex; [by injection E6 as _ <-|]. apply writes_done in E6. injection E6 as E6 _. rewrite <- E6. unfold bank_of. by rewrite !cview_cupd. }
  destruct H6 as [H6 H7].
  assert (Hb : bank_of (ex_ctx x3) = b1) by (unfold bank_of; by rewrite V3). rewrite Hb in E4. rewrite Hx2, Hx1 in E3.
  exists (Zpos v), text, from, to, b1, b2, evs1, evs2. destruct (SplitAtabiWeiAmount (Zpos v)) as [n w]. rewrite Hx1 in Hp. rewrite Hp.
  split_and!; try done.
  - rewrite H, H6, Hx5. unfold bank_of. by rewrite V4.
  - by rewrite H, H7, Hx5, V4, V3, Hx2, Hx1.
Qed.

Lemma accAddressFromArg_done args i x t x' : (accAddressFromArg args i : M (AccAddress + Err)) x = Done (inl t) x' →
  ∃ a, args !! i = Some (VAddress a) ∧ t = GetTabiAddressOrDefault (cview (ex_ctx x)) a ∧ ex_ctx x' = ex_ctx x.
Proof.
  intros (a & x1 & [Ha ->]%arg_address_done & H)%xbind_done. exists a. destruct (bool_decide _); [done|].
  apply reads_done in H as [[= <-] Hx]. split_and!; [done| |done]. unfold GetTabiAddressOrDefault. by destruct (GetTabiAddress _ _).
Qed.

Lemma NewCoins_done denom amount x cs x' : amount ≠ 0 → (NewCoins denom amount : M Coins) x = Done cs x' →
  0 < amount ∧ cs = [(denom, amount)] ∧ x' = x.
Proof.
  intros Hnz. unfold NewCoins. destruct (negb _); [done|]. destruct (Z.ltb_spec amount 0); [done|].
  destruct (Z.eqb_spec amount 0); [done|]. intros [= <- <-]. split_and!; [lia|done..].
Qed.

(** The coins moved by a call of [send]. *)
Definition sent_by (call : Call) (denom : string) (amount : Z) (c c' : Ctx MS) : Prop :=
  amount = 0 ∧ c' = c ∨
  ∃ from to, 0 < amount ∧ cl_args call !! 0%nat = Some (VAddress from) ∧ cl_args call !! 1%nat = Some (VAddress to) ∧
    bank_Send (acc_String (GetTabiAddressOrDefault (cview c) from)) (acc_String (GetTabiAddressOrDefault (cview c) to))
      [(denom, amount)] c = (c', None).

Lemma send_done call x r x' : (send abi call : M Returned) x = Done r x' → succeeded r →
  ∃ denom amount version, cl_readOnly call = false ∧ default 0 (cl_value call) = 0 ∧
    cl_args call !! 2%nat = Some (VString denom) ∧ cl_args call !! 3%nat = Some (VInt amount) ∧
    GetERC20NativePointer (ci_isTracing (c_info (ex_ctx x))) (cview (ex_ctx x)) (str_bytes denom) = Ret (Some (cl_caller call, version)) ∧
    sent_by call denom amount (ex_ctx x) (ex_ctx x').
Proof.
  intros H Hr. unfold send in H. destruct (cl_readOnly call); [no_success H|].
  destruct (ValidateNonPayable (cl_value call)) eqn:Hv; [no_success H|]. destruct (ValidateArgsLength _ _); [no_success H|].
  apply xbind_done in H as (denom & x1 & [Hd ->]%arg_string_done & H). destruct (String.eqb denom ""); [no_success H|].
  apply xbind_done in H as (ptr & x2 & [Hp Hx2]%reads_done & H). destruct (bool_decide_reflect (fst <$> ptr = Some (cl_caller call))) as [Hc|]; [|no_success H].
  apply xbind_done in H as (amount & x3 & [Ha ->]%arg_int_done & H).
  assert (Hptr : ∃ version, ptr = Some (cl_caller call, version)) by (destruct ptr as [[q ver]|]; [injection Hc as ->; by eexists|done]).
  destruct Hptr as [version ->]. exists denom, amount, version. split_and!; try done.
  { by apply ValidateNonPayable_done. }
  destruct (Z.eqb_spec amount 0) as [->|Hnz]; [left; split; [done|]; by rewrite (quiet_done _ _ _ _ (xquiet_packed _ _ _) H)|].
  apply xbind_done in H as ([from|] & x4 & E4 & H); [|no_success H]. apply accAddressFromArg_done in E4 as (f & Hf & -> & Hx4).
  apply xbind_done in H as ([to|] & x5 & E5 & H); [|no_success H]. apply accAddressFromArg_done in E5 as (t & Ht & -> & Hx5).
  apply xbind_done in H as (cs & x6 & (Hpos & -> & ->)%NewCoins_done & H); [|done]. destruct (MsgSend_ValidateBasic _ _ _); [no_success H|].
  apply xbind_done in H as (e & x7 & E7%writes_done & H). destruct e; [no_success H|]. right. exists f, t. split_and!; try done.
  injection E7 as E7. rewrite (quiet_done _ _ _ _ (xquiet_packed _ _ _) H), <- E7, Hx5, Hx4, Hx2. done.
Qed.
End BankLemmas.

(** * Theorems *)

Section BankTheorems.
Context `{BK : BankKeeper B} `{AK : AccountKeeper A} `{EC : EthCrypto} `{KC : KeeperConfig} `{BQ : BankQueries B}.
Context `{MST : MultiStore MS (World B A)} `{MSL : !MultiStoreLaws MS (World B A)} `{SD : SdkDec} `{GM : GasMeters G} `{SG : StoreGas B A G}.
Context `{EH : EthHex} `{BE : Bech32} `{BMS : BankMsgServer MS} `{BL : !BankLaws B}.
Context `{EVC : EVMCalls MS} `{EVL : !EVMCallsLaws MS B A}.
Variable abi : ABI.
Notation DB := (DBImpl MS).

(** C8: [sendNative] pays exactly the value of the call.  The EVM sends the value
    to the precompile, which gives it back to the caller's account and sends it on
    from there; when the call succeeds, what was moved in all is the value, from
    the account associated with the caller to the account in the argument.  No other
    account, the precompile's own included, has more or less than before, nothing
    is left as surplus and nothing of the EVM module's state has changed. *)
Theorem sendNative_pays caller contract input gas v readOnly delegate args (s s' : DB) r : EthReplayConfig_Enabled = false →
  coinbaseEvmAddress s ≠ caller → coinbaseEvmAddress s ≠ HexToAddress BankAddress → 0 ≤ v ≤ balance_of s caller →
  Prepare abi input = inl (SendNativeMethod, args) →
  evm_call_precompile [OpTransferWithoutEvents caller (HexToAddress BankAddress) v]
    (RunAndCalculateGas abi (Execute abi) caller contract input gas (Some v) readOnly delegate) s = Ret (r, s') → r.2 = None →
  ∃ text from to, args = [VString text] ∧ v ≠ 0 ∧ readOnly = false ∧ delegate = false ∧
    GetTabiAddress (cview (ctx s)) caller = Some from ∧ AccAddressFromBech32 (str_bytes text) = Some to ∧
    (from ≠ to → transferred (bank_of (ctx s)) (bank_of (ctx s')) from to v) ∧
    surplus (tempStateCurrent s') = 0 ∧ w_evm (cview (ctx s')) = w_evm (cview (ctx s)).
Proof.
  intros Hlive Hc1 Hc2 Hv Hprep H Hr. apply evm_call_done in H as (n & s1 & s2 & Hs1 & Hops & Hrun); [|done].
  destruct (precompile_paid Hlive _ _ _ _ _ _ _ Hc1 Hc2 Hv Hs1 Hops) as (b1 & b2 & M1 & M2 & V2 & T2).
  apply RunAndCalculateGas_done in Hrun as (method & args' & x & x' & Hp & Hx & Vx & _ & Vx' & Tx & _); [|done].
  rewrite Hprep in Hp. injection Hp as <- <-. apply recovering_done in Hx; [|done]. change (sendNative abi (mkCall SendNativeMethod caller contract args (Some v) readOnly delegate) x = Done r x') in Hx.
  apply sendNative_done in Hx as (v' & text & from & to & b3 & b4 & evs1 & evs2 & Hx); [|simpl; lia|done].
  pose proof (SplitAtabiWeiAmount_spec v ltac:(lia)) as Hsp.
  destruct (SplitAtabiWeiAmount v') as [q w] eqn:Hsplit. simpl in Hx. destruct Hx as (Hro & Hdel & [= <-] & Hnz & -> & Hfrom & Hto & P1 & P2 & Hb & Hw).
  rewrite Hsplit in Hsp. destruct Hsp as (Hval & Hwr & Hq).
  assert (Hws : w_evm (cview (ex_ctx x)) = w_evm (cview (ctx s))) by (by rewrite Vx, V2).
  assert (Hfrom' : GetTabiAddress (cview (ctx s)) caller = Some from) by (unfold GetTabiAddress in *; by rewrite <- Hws).
  assert (Hpre : GetTabiAddressOrDefault (cview (ex_ctx x)) (HexToAddress BankAddress) = GetTabiAddressOrDefault (cview (ctx s)) (HexToAddress BankAddress))
    by (unfold GetTabiAddressOrDefault, GetTabiAddress; by rewrite Hws).
  assert (Hbx : bank_of (ex_ctx x) = b2) by (unfold bank_of; by rewrite Vx, V2).
  assert (Hbx' : bank_of (ctx s') = b4) by (unfold bank_of in *; by rewrite Vx', Hb).
  rewrite Hbx, Hpre in P1. apply bk_SendCoinsAndWei_ok in P1 as (c1 & M3 & M4); [|done..].
  apply bk_SendCoinsAndWei_ok in P2 as (c2 & M5 & M6); [|done..]. rewrite <- Hval in M3, M4, M5, M6.
  exists text, from, to. split_and!; try done.
  - intros Hne. rewrite Hbx'. unfold GetTabiAddressOrDefault at 1 in M1. rewrite Hfrom' in M1. eapply moved_transferred; [done| |exact M6].
    eapply bank_moved_nothing; [by eapply moved_back|done].
  - by rewrite Tx.
  - by rewrite Vx', Hw, Hws.
Qed.

(** C32: only a registered pointer sends.  When a call of [send] succeeds, its
    caller is a contract registered as the ERC20 pointer of the denomination in the
    argument or, as entries are found by the prefix of their key, of one whose name
    extends it; where no such longer denomination has a pointer, it is the latest
    pointer of the denomination itself.  No value was paid, and the bank was made to
    send exactly this amount of exactly this denomination, from the account of the
    first argument to that of the second (of nothing, it sends nothing); a static
    call never succeeds. *)
Theorem send_only_pointer caller contract input gas value readOnly delegate args (s s' : DB) r :
  Prepare abi input = inl (SendMethod, args) →
  RunAndCalculateGas abi (Execute abi) caller contract input gas value readOnly delegate s = Ret (r, s') → r.2 = None →
  ∃ denom amount c c', readOnly = false ∧ default 0 value = 0 ∧ args !! 2%nat = Some (VString denom) ∧ args !! 3%nat = Some (VInt amount) ∧
    native_pointer_found (cview (ctx s)) (str_bytes denom) caller ∧
    cview c = cview (ctx s) ∧ cview c' = cview (ctx s') ∧
    sent_by (mkCall SendMethod caller contract args value readOnly delegate) denom amount c c'.
Proof.
  intros Hprep Hrun Hr. apply RunAndCalculateGas_done in Hrun as (method & args' & x & x' & Hp & Hx & Vx & Ix & Vx' & _ & _); [|done].
  rewrite Hprep in Hp. injection Hp as <- <-. apply recovering_done in Hx; [|done].
  apply (send_done abi (mkCall SendMethod caller contract args value readOnly delegate)) in Hx as (denom & amount & version & Hx); [|done].
  rewrite Vx, Ix in Hx. destruct Hx as (H1 & H2 & H3 & H4 & H5 & H6).
  apply GetERC20NativePointer_found in H5. exists denom, amount, (ex_ctx x), (ex_ctx x'). by split_and!.
Qed.
End BankTheorems.

(** * Examples *)

Definition demo_queries : BankQueries demo_bank := {|
  bk_GetAllBalances b a := [(BaseDenom, demo_worth b a `div` AtabiToWeiMultiplier)];
  bk_GetDenomMetaData b d := if String.eqb d BaseDenom then Some ("Tabi", "TABI")%string else None;
  bk_GetSupply b d := if String.eqb d BaseDenom then demo_total b `div` AtabiToWeiMultiplier else 0;
  valid_denom d := (2 <? String.length d)%nat;
  MsgSend_ValidateBasic f t cs := if Coins_IsZero cs then Some "invalid coins"%string else None
|}.

Section BankExamples.
#[local] Existing Instances demo_bank_keeper demo_bank_laws demo_coins demo_coins_laws demo_accounts demo_crypto live_config half_even_dec plain_meter demo_gas.
#[local] Existing Instances demo_call_stores demo_call_stores_laws demo_call_range plain_calls plain_calls_laws demo_queries plain_hex marked_bech32.

(** A message server that sends with the bank's keeper. *)
#[local] Instance demo_bank_msgs : BankMsgServer (stack_ms demo_world) := {|
  bank_Send f t cs c :=
    match AccAddressFromBech32 f, AccAddressFromBech32 t with
    | Some from, Some to => run_bank (λ b, bk_SendCoins b from to cs) c
    | _, _ => (c, Some "decoding bech32 failed"%string)
    end
|}.
Lemma demo_bank_msgs_laws : BankMsgLaws (stack_ms demo_world).
Proof.
  split.
  - intros f t cs c. unfold bank_Send, demo_bank_msgs. destruct (AccAddressFromBech32 f), (AccAddressFromBech32 t); try done. apply ctx_ext_run_bank.
  - intros from to cs c c' H. unfold bank_Send, demo_bank_msgs in H.
    assert (Hb : ∀ a b, AccAddressFromBech32 (acc_String a) = Some b → b = a) by (intros a b [= <-]; done).
    destruct (AccAddressFromBech32 (acc_String from)) as [f|] eqn:Ef; [|done]. destruct (AccAddressFromBech32 (acc_String to)) as [t|] eqn:Et; [|done].
    apply Hb in Ef as ->. apply Hb in Et as ->. destruct (run_bank_view (λ b, bk_SendCoins b from to cs) c) as [V R]. rewrite H in V, R.
    destruct (bk_SendCoins (w_bank (cview c)) from to cs) as [[b evs] e] eqn:E. cbn [fst snd] in V, R. subst e.
    apply bk_SendCoins_ok in E as (b1 & M1 & M2 & _). exists b1. unfold bank_of. rewrite V. by split_and!.
Qed.

(** Address 7 sends two atabi and three wei to the account of the bytes [bob]. *)
Definition send_abi : ABI := demo_abi SendNativeMethod [VString "tbob"].
Lemma native_runs : ∃ r s',
  evm_call_precompile [OpTransferWithoutEvents (addr_of 7) (HexToAddress BankAddress) 2000000000003]
    (RunAndCalculateGas send_abi (Execute send_abi) (addr_of 7) (addr_of 7) demo_selector 100000 (Some 2000000000003) false false) alice_db = Ret (r, s') ∧ r.2 = None.
Proof. apply succeeds_ret. vm_compute. reflexivity. Qed.

Lemma sendNative_pays_witness : ∃ r s' from to,
  evm_call_precompile [OpTransferWithoutEvents (addr_of 7) (HexToAddress BankAddress) 2000000000003]
    (RunAndCalculateGas send_abi (Execute send_abi) (addr_of 7) (addr_of 7) demo_selector 100000 (Some 2000000000003) false false) alice_db = Ret (r, s') ∧ AccAddressFromBech32 (str_bytes "tbob") = Some to ∧
  (from ≠ to → transferred (bank_of (ctx alice_db)) (bank_of (ctx s')) from to 2000000000003).
Proof.
  assert (Hlive : EthReplayConfig_Enabled = false) by reflexivity.
  assert (H1 : coinbaseEvmAddress alice_db ≠ addr_of 7) by (vm_compute; discriminate).
  assert (H2 : coinbaseEvmAddress alice_db ≠ HexToAddress BankAddress) by (vm_compute; discriminate).
  assert (Hb : balance_of alice_db (addr_of 7) = 5000000000009) by (vm_compute; reflexivity).
  assert (Hv : 0 ≤ 2000000000003 ≤ balance_of alice_db (addr_of 7)) by lia.
  assert (Hp : Prepare send_abi demo_selector = inl (SendNativeMethod, [VString "tbob"])) by reflexivity.
  destruct native_runs as (r & s' & E & Hr).
  destruct (sendNative_pays send_abi (addr_of 7) (addr_of 7) demo_selector 100000 2000000000003 false false [VString "tbob"] alice_db s' r
    Hlive H1 H2 Hv Hp E Hr) as (text & from & to & Ht & _ & _ & _ & _ & Hto & Htr & _).
  injection Ht as <-. exists r, s', from, to. split; [exact E|]. split; [exact Hto|exact Htr].
Defined.

(** The contract at address 20 is the pointer of a denomination. *)
Definition pointer_ctx : Ctx (stack_ms demo_world) :=
  cput (setPointerInfo (PointerERC20NativeKey (str_bytes BaseDenom)) (ba (addr_of 20)) native_CurrentVersion (cview alice_ctx)) alice_ctx.
Definition pointer_db : DBImpl (stack_ms demo_world) :=
  match NewDBImpl demo_cache pointer_ctx false with Ret (s, _) => s | Panic _ => tx_db end.
Definition denom_args : list AbiValue := [VAddress (addr_of 7); VAddress (addr_of 8); VString BaseDenom; VInt 3].
Definition denom_abi : ABI := demo_abi SendMethod denom_args.
Definition denom_run : stm (DBImpl (stack_ms demo_world)) Returned :=
  RunAndCalculateGas denom_abi (Execute denom_abi) (addr_of 20) (addr_of 20) demo_selector 100000 None false false.

Lemma send_only_pointer_witness : ∃ r s' c c' denom amount, denom_run pointer_db = Ret (r, s') ∧
  native_pointer_found (cview (ctx pointer_db)) (str_bytes denom) (addr_of 20) ∧
  sent_by (mkCall SendMethod (addr_of 20) (addr_of 20) denom_args None false false) denom amount c c'.
Proof.
  assert (Hp : Prepare denom_abi demo_selector = inl (SendMethod, denom_args)) by reflexivity.
  assert (Hok : succeeds (denom_run pointer_db) = true) by (vm_compute; reflexivity).
  destruct (succeeds_ret _ Hok) as (r & s' & E & Hr). pose proof E as E'. unfold denom_run in E'.
  destruct (send_only_pointer denom_abi (addr_of 20) (addr_of 20) demo_selector 100000 None false false denom_args pointer_db s' r Hp E' Hr)
    as (denom & amount & c & c' & _ & _ & _ & _ & H1 & _ & _ & H2).
  exists r, s', c, c', denom, amount. split; [exact E|]. split; [exact H1|exact H2].
Defined.
End BankExamples.
