(* ===== verification/AddrPrecompile.v ===== *)
(** * The address precompile
    (precompiles/addr/addr.go)

    Contracts look up the account associated with an EVM address and the other
    way round, and associate the two addresses of a key: [associate] takes a
    signature over a message from which the key is recovered, [associatePubKey]
    the key itself. *)

From S2P Require Import Prelude Bytes Dec Store Params Keys World Instances Keeper StateDB Snapshots Supply Finalize Frame Fee Eth Block EthTx Msg Receipts Tx Associate.
From S2P Require Import Pointer MsgServer Precompile.
From Stdlib Require Import Strings.Byte Strings.Ascii.
Local Open Scope Z_scope.
Local Open Scope exec_scope.

(** ** Hexadecimal strings *)

Definition fromHexChar (c : ascii) : option Z :=
  let n := Z.of_nat (nat_of_ascii c) in
  if (48 <=? n) && (n <=? 57) then Some (n - 48)
  else if (97 <=? n) && (n <=? 102) then Some (n - 87)
  else if (65 <=? n) && (n <=? 70) then Some (n - 55) else None.

(** [hex.DecodeString]. *)
Fixpoint hex_DecodeString (s : string) : bytes + Err :=
  match s with
  | EmptyString => inl []
  | String c EmptyString =>
      inr (match fromHexChar c with Some _ => "encoding/hex: odd length hex string" | None => "encoding/hex: invalid byte" end)%string
  | String c (String d s') =>
      match fromHexChar c, fromHexChar d with
      | Some x, Some y =>
          match hex_DecodeString s' with inl l => inl (byte_of_Z (16 * x + y) :: l) | inr e => inr e end
      | _, _ => inr "encoding/hex: invalid byte"%string
      end
  end.

Definition decodeHexString (hexString : string) : bytes + Err :=
  let trimmed := match hexString with String "0" (String "x" s) => s | s => s end in
  let trimmed := if Nat.odd (String.length trimmed) then String "0" trimmed else trimmed in
  hex_DecodeString trimmed.

(** The parser of compressed keys: the uncompressed form of the key. *)
Class PubKeyParser := { ParsePubKey : bytes → bytes + Err }.

Definition GetTabiAddressMethod : string := "getTabiAddr".
Definition GetEvmAddressMethod : string := "getEvmAddr".
Definition AssociateMethod : string := "associate".
Definition AssociatePubKeyMethod : string := "associatePubKey".
Definition AddrAddress : string := "0x0000000000000000000000000000000000001004".

Definition IsTransaction (method : string) : bool := String.eqb method AssociateMethod.

Section Addr.
Context `{BK : BankKeeper B} `{CK : CoinsKeeper B} `{AK : AccountKeeper A} `{AKK : AccountKeys A} `{EC : EthCrypto} `{KC : KeeperConfig}.
Context `{MST : MultiStore MS (World B A)} `{SD : SdkDec} `{GM : GasMeters G} `{SG : StoreGas B A G}.
Context `{EH : EthHex} `{BE : Bech32} `{SC : Secp256k1} `{PKP : PubKeyParser}.
Variable abi : ABI.
Notation M X := (exec_m MS G X).

Definition acc_text (a : AccAddress) : string := String.string_of_list_byte (acc_String a).

Definition addr_RequiredGas (input : bytes) (method : string) : Z :=
  if String.eqb method AssociateMethod || String.eqb method AssociatePubKeyMethod then 50000
  else DefaultGasCost input (IsTransaction method).

Definition getTabiAddr (call : Call) : M Returned :=
  let args := cl_args call in
  ensure% ValidateNonPayable (cl_value call);
  ensure% ValidateArgsLength args 1;
  let% evmAddr := arg_address args 0 in
  let% found := reads "GetTabiAddress" (λ w, Ret (GetTabiAddress w evmAddr)) in
  match found with
  | None => xret (failed "EVM address is not associated")
  | Some tabiAddr => packed abi call [VString (acc_text tabiAddr)]
  end.

Definition getEvmAddr (call : Call) : M Returned :=
  let args := cl_args call in
  ensure% ValidateNonPayable (cl_value call);
  ensure% ValidateArgsLength args 1;
  let% text := arg_string args 0 in
  match AccAddressFromBech32 (str_bytes text) with
  | None => xret (failed ErrBech32)
  | Some tabiAddr =>
      let% found := reads "GetEVMAddress" (λ w, Ret (GetEVMAddress w tabiAddr)) in
      match found with
      | None => xret (failed "tabi address is not associated")
      | Some evmAddr => packed abi call [VAddress evmAddr]
      end
  end.

Definition associateAddresses (call : Call) (evmAddr : Address) (tabiAddr : AccAddress) (pubkey : bytes) : M Returned :=
  let% found := reads "GetEVMAddress" (λ w, Ret (GetEVMAddress w tabiAddr)) in
  match found with
  | Some _ => xret (failed "address is already associated")
  | None =>
      let% e := writes "AssociateAddresses" (AssociateAddresses tabiAddr evmAddr pubkey) in
      ensure% e;
      packed abi call [VString (acc_text tabiAddr); VAddress evmAddr]
  end.

Definition associate (call : Call) : M Returned :=
  let args := cl_args call in
  ensure% ValidateNonPayable (cl_value call);
  ensure% ValidateArgsLength args 4;
  let% v := arg_string args 0 in
  let% r := arg_string args 1 in
  let% s := arg_string args 2 in
  let% customMessage := arg_string args 3 in
  try% rBytes := decodeHexString r in
  try% sBytes := decodeHexString s in
  try% vBytes := decodeHexString v in
  let% addrs := xlift (GetAddresses (be_dec vBytes + 27) (be_dec rBytes) (be_dec sBytes) (Keccak256Hash (str_bytes customMessage))) in
  try% a := addrs in
  associateAddresses call a.1.1 a.1.2 a.2.

Definition associatePublicKey (call : Call) : M Returned :=
  let args := cl_args call in
  ensure% ValidateNonPayable (cl_value call);
  ensure% ValidateArgsLength args 1;
  let% pubKeyHex := arg_string args 0 in
  try% pubKeyBytes := hex_DecodeString pubKeyHex in
  try% uncompressedPubKey := ParsePubKey pubKeyBytes in
  let% addrs := xlift (GetAddressesFromPubkeyBytes uncompressedPubKey) in
  try% a := addrs in
  associateAddresses call a.1.1 a.1.2 a.2.

Definition dispatch (call : Call) : M Returned :=
  let m := cl_method call in
  if String.eqb m GetTabiAddressMethod then getTabiAddr call else
  if String.eqb m GetEvmAddressMethod then getEvmAddr call else
  if String.eqb m AssociateMethod then
    if cl_readOnly call then xret (failed "cannot call associate precompile from staticcall") else associate call else
  if String.eqb m AssociatePubKeyMethod then
    if cl_readOnly call then xret (failed "cannot call associate pub key precompile from staticcall") else associatePublicKey call else
  xret ([], 0, None).
Definition Execute (call : Call) : M Returned := recovering (dispatch call).
End Addr.

(** * Lemmas *)

Section AddrLemmas.
Context `{BK : BankKeeper B} `{CK : CoinsKeeper B} `{AK : AccountKeeper A} `{AKK : AccountKeys A} `{EC : EthCrypto} `{KC : KeeperConfig}.
Context `{MST : MultiStore MS (World B A)} `{MSL : !MultiStoreLaws MS (World B A)} `{SD : SdkDec} `{GM : GasMeters G} `{SG : StoreGas B A G}.
Context `{EH : EthHex} `{BE : Bech32} `{SC : Secp256k1} `{PKP : PubKeyParser} `{BL : !BankLaws B} `{CL : !CoinsLaws B}.
Variable abi : ABI.
Notation M X := (exec_m MS G X).

Lemma associateAddresses_keeps call e t pk : xkeeps succeeded (associateAddresses abi call e t pk : M Returned).
Proof.
  unfold associateAddresses. keeps. apply (xkeeps_bind (λ e, e = None)); [|keeps|].
  - apply xkeeps_writes. intros c c' r H. split; [by eapply AssociateAddresses_ext|]. intros ->.
    apply AssociateAddresses_keeps in H as (H1 & H2 & H3 & _); [|done..]. split; [done|]. unfold tx_frame. by rewrite H2, H3.
  - intros [err|] x1 r x2 H Hr; [no_success H|done].
Qed.

Lemma quiet_getTabiAddr call : xquiet (getTabiAddr abi call : M Returned).
Proof. unfold getTabiAddr. quiet. Qed.
Lemma quiet_getEvmAddr call : xquiet (getEvmAddr abi call : M Returned).
Proof. unfold getEvmAddr. quiet. Qed.
#[local] Hint Resolve quiet_getTabiAddr quiet_getEvmAddr associateAddresses_keeps : exec.

(** The address precompile is one the EVM may call. *)
Lemma addr_LevelExecutor : LevelExecutor (Execute abi : Call → M Returned).
Proof. intros call _. apply xkeeps_recovering. unfold dispatch, associate, associatePublicKey. keeps. Qed.
Lemma addr_SafeExecutor : SafeExecutor (Execute abi : Call → M Returned).
Proof. split; [apply addr_LevelExecutor|]. intros call s. apply recovering_returns. Qed.
Lemma addr_StaticExecutor : StaticExecutor (Execute abi : Call → M Returned).
Proof. intros call Hro. apply xquiet_recovering. unfold dispatch. rewrite Hro. quiet. Qed.

(** ** What a call that succeeds has done *)

Lemma associateAddresses_done call e t pk x r x' : (associateAddresses abi call e t pk : M Returned) x = Done r x' → succeeded r →
  GetEVMAddress (cview (ex_ctx x)) t = None ∧ AssociateAddresses t e pk (ex_ctx x) = Ret (ex_ctx x', None).
Proof.
  intros H Hr. unfold associateAddresses in H. apply xbind_done in H as (found & x1 & [[= <-] Hx1]%reads_done & H).
  destruct (GetEVMAddress _ t); [no_success H|]. apply xbind_done in H as (err & x2 & E%writes_done & H). destruct err; [no_success H|].
  split; [done|]. by rewrite (quiet_done _ _ _ _ (xquiet_packed _ _ _) H), <- Hx1.
Qed.

(** The key that a call proves: the one that signed the message, or the one that
    was given. *)
Definition key_of (call : Call) (key : Address * AccAddress * bytes) : Prop :=
  (∃ v r s msg vb rb sb, cl_method call = AssociateMethod ∧ cl_args call = [VString v; VString r; VString s; VString msg] ∧
     decodeHexString v = inl vb ∧ decodeHexString r = inl rb ∧ decodeHexString s = inl sb ∧
     GetAddresses (be_dec vb + 27) (be_dec rb) (be_dec sb) (Keccak256Hash (str_bytes msg)) = Ret (inl key)) ∨
  (∃ hex pb ub, cl_method call = AssociatePubKeyMethod ∧ cl_args call = [VString hex] ∧
     hex_DecodeString hex = inl pb ∧ ParsePubKey pb = inl ub ∧ GetAddressesFromPubkeyBytes ub = Ret (inl key)).

Lemma associate_done call x r x' : cl_method call = AssociateMethod → (associate abi call : M Returned) x = Done r x' → succeeded r →
  ∃ key x1, key_of call key ∧ ex_ctx x1 = ex_ctx x ∧ associateAddresses abi call key.1.1 key.1.2 key.2 x1 = Done r x'.
Proof.
  intros Hm H Hr. unfold associate in H. destruct (ValidateNonPayable _); [no_success H|].
  destruct (ValidateArgsLength _ _) eqn:Hlen; [no_success H|]. apply ValidateArgsLength_done in Hlen.
  apply xbind_done in H as (v & x1 & [Hv ->]%arg_string_done & H). apply xbind_done in H as (rr & x1 & [Hrr ->]%arg_string_done & H).
  apply xbind_done in H as (ss & x1 & [Hss ->]%arg_string_done & H). apply xbind_done in H as (msg & x1 & [Hmsg ->]%arg_string_done & H).
  destruct (decodeHexString rr) eqn:Er; [|no_success H]. destruct (decodeHexString ss) eqn:Es; [|no_success H].
  destruct (decodeHexString v) eqn:Ev; [|no_success H]. apply xbind_done in H as ([key|] & x1 & [Hk ->]%lift_done & H); [|no_success H].
  exists key, x. split_and!; [|done|done]. left. destruct (cl_args call) as [|a1 [|a2 [|a3 [|a4 [|]]]]]; try done. simpl in *. simplify_eq.
  by eexists _, _, _, _, _, _, _.
Qed.

Lemma associatePublicKey_done call x r x' : cl_method call = AssociatePubKeyMethod → (associatePublicKey abi call : M Returned) x = Done r x' →
  succeeded r → ∃ key x1, key_of call key ∧ ex_ctx x1 = ex_ctx x ∧ associateAddresses abi call key.1.1 key.1.2 key.2 x1 = Done r x'.
Proof.
  intros Hm H Hr. unfold associatePublicKey in H. destruct (ValidateNonPayable _); [no_success H|].
  destruct (ValidateArgsLength _ _) eqn:Hlen; [no_success H|]. apply ValidateArgsLength_done in Hlen.
  apply xbind_done in H as (hex & x1 & [Hx ->]%arg_string_done & H).
  destruct (hex_DecodeString hex) eqn:Eh; [|no_success H]. destruct (ParsePubKey _) eqn:Ep; [|no_success H].
  apply xbind_done in H as ([key|] & x1 & [Hk ->]%lift_done & H); [|no_success H].
  exists key, x. split_and!; [|done|done]. right. destruct (cl_args call) as [|a1 [|]]; try done. simpl in *. simplify_eq. by eexists _, _, _.
Qed.
End AddrLemmas.

(** * Theorems *)

Section AddrTheorems.
Context `{BK : BankKeeper B} `{CK : CoinsKeeper B} `{AK : AccountKeeper A} `{AKK : AccountKeys A} `{EC : EthCrypto} `{KC : KeeperConfig}.
Context `{MST : MultiStore MS (World B A)} `{MSL : !MultiStoreLaws MS (World B A)} `{SD : SdkDec} `{GM : GasMeters G} `{SG : StoreGas B A G}.
Context `{EH : EthHex} `{BE : Bech32} `{SC : Secp256k1} `{PKP : PubKeyParser} `{BL : !BankLaws B} `{CL : !CoinsLaws B}.
Variable abi : ABI.
Notation DB := (DBImpl MS).

(** A contract associates only the two addresses of one key.  When a call of
    [associate] or of [associatePubKey] succeeds, the EVM address and the account it
    has associated are those of the key recovered from the signature over the
    message, or of the key in the argument; the account was associated with nothing
    before; afterwards each of the two is found from the other, and the bank's total
    and the frame of the transaction are as before.  A static call never succeeds. *)
Theorem associate_by_key method caller contract input gas value readOnly delegate args (s s' : DB) r :
  Prepare abi input = inl (method, args) → method = AssociateMethod ∨ method = AssociatePubKeyMethod →
  RunAndCalculateGas abi (Execute abi) caller contract input gas value readOnly delegate s = Ret (r, s') → r.2 = None →
  ∃ e t pk, key_of (mkCall method caller contract args value readOnly delegate) (e, t, pk) ∧ readOnly = false ∧
    GetEVMAddress (cview (ctx s)) t = None ∧ GetTabiAddress (cview (ctx s')) e = Some t ∧ GetEVMAddress (cview (ctx s')) t = Some e ∧
    bk_total (bank_of (ctx s')) = bk_total (bank_of (ctx s)) ∧ tx_frame (cview (ctx s')) = tx_frame (cview (ctx s)).
Proof.
  intros Hprep Hm Hrun Hr. apply RunAndCalculateGas_done in Hrun as (method' & args' & x & x' & Hp & Hx & Vx & _ & Vx' & _ & _); [|done].
  rewrite Hprep in Hp. injection Hp as <- <-. apply recovering_done in Hx; [|done]. set (call := mkCall _ _ _ _ _ _ _) in *.
  assert (∃ key x1, readOnly = false ∧ key_of call key ∧ ex_ctx x1 = ex_ctx x ∧ associateAddresses abi call key.1.1 key.1.2 key.2 x1 = Done r x')
    as ([[e t] pk] & x1 & Hro & Hk & Hx1 & E).
  { unfold dispatch in Hx. replace (cl_method call) with method in Hx by done. replace (cl_readOnly call) with readOnly in Hx by done.
    destruct Hm as [Hm|Hm]; rewrite Hm in Hx; simpl in Hx; destruct readOnly.
    - no_success Hx.
    - apply associate_done in Hx as (key & x1 & Hx); [by exists key, x1|done..].
    - no_success Hx.
    - apply associatePublicKey_done in Hx as (key & x1 & Hx); [by exists key, x1|done..]. }
  apply associateAddresses_done in E as [Hnone E]; [|done]. rewrite Hx1 in Hnone, E.
  destruct (AssociateAddresses_maps _ _ _ _ _ BL CL E) as [HT HE]. apply AssociateAddresses_keeps in E as (H1 & H2 & H3 & _); [|done..].
  exists e, t, pk. unfold bank_of, tx_frame. rewrite Vx', <- Vx, H2, H3. by split_and!.
Qed.
End AddrTheorems.

(** * Examples *)

(** A key is its own compressed form. *)
Definition demo_parser : PubKeyParser := {| ParsePubKey b := if (length b =? 33)%nat then inl (x04 :: tail b) else inr "malformed public key"%string |}.

Section AddrExamples.
#[local] Existing Instances demo_bank_keeper demo_bank_laws demo_coins demo_coins_laws demo_accounts demo_account_keys demo_crypto live_config.
#[local] Existing Instances half_even_dec plain_meter demo_gas demo_call_stores demo_call_stores_laws demo_call_range plain_hex marked_bech32.
#[local] Existing Instances demo_secp demo_parser.

(** A signature over a message, given in hexadecimal. *)
Definition associate_args : list AbiValue := [VString "0x01"; VString "0xabc"; VString "1f"; VString "hello"].
Definition associate_abi : ABI := demo_abi AssociateMethod associate_args.
Definition associate_run : stm (DBImpl (stack_ms demo_world)) Returned :=
  RunAndCalculateGas associate_abi (Execute associate_abi) (addr_of 7) (addr_of 7) demo_selector 100000 None false false.

Lemma associate_by_key_witness : ∃ r s' e t, associate_run alice_db = Ret (r, s') ∧
  GetTabiAddress (cview (ctx s')) e = Some t ∧ GetEVMAddress (cview (ctx s')) t = Some e.
Proof.
  assert (Hp : Prepare associate_abi demo_selector = inl (AssociateMethod, associate_args)) by reflexivity.
  assert (Hok : succeeds (associate_run alice_db) = true) by (vm_compute; reflexivity).
  destruct (succeeds_ret _ Hok) as (r & s' & E & Hr). pose proof E as E'. unfold associate_run in E'.
  destruct (associate_by_key associate_abi AssociateMethod (addr_of 7) (addr_of 7) demo_selector 100000 None false false associate_args alice_db s' r
    Hp (or_introl eq_refl) E' Hr) as (e & t & pk & _ & _ & _ & H1 & H2 & _).
  exists r, s', e, t. split; [exact E|]. split; [exact H1|exact H2].
Defined.
End AddrExamples.
