(* ===== verification/PointerViewPrecompile.v ===== *)
(** * The pointer-view precompile
    (precompiles/pointerview/pointerview.go)

    Contracts look up the pointers of native and wasm tokens.  The gas is a
    constant, so the executor runs on the meter of the transaction. *)

From S2P Require Import Prelude Bytes Dec Store Params Keys World Instances Keeper StateDB Snapshots Supply Finalize Frame Fee Eth Block EthTx Msg Receipts Tx Associate.
From S2P Require Import Pointer MsgServer Precompile.
Local Open Scope Z_scope.
Local Open Scope exec_scope.

Definition GetNativePointer : string := "getNativePointer".
Definition GetCW20Pointer : string := "getCW20Pointer".
Definition GetCW721Pointer : string := "getCW721Pointer".
Definition GetCW1155Pointer : string := "getCW1155Pointer".
Definition PointerViewAddress : string := "0x000000000000000000000000000000000000100A".

Definition view_RequiredGas : Z := 2000.

Section PointerView.
Context `{BK : BankKeeper B} `{AK : AccountKeeper A} `{MST : MultiStore MS (World B A)} `{GM : GasMeters G} `{SG : StoreGas B A G}.
Variable abi : ABI.
Variable chainID : string.
Variable versionOverride : Z.
Notation M X := (exec_m MS G X).

(** The common part: the pointer and its version, zero if there is none. *)
Definition pointer_of (get : bool → World B A → bytes → outcome (option (Address * Z))) (call : Call) : M Returned :=
  ensure% ValidateArgsLength (cl_args call) 1;
  let% token := arg_string (cl_args call) 0 in
  let% found := (λ s, reads "GetPointer" (λ w, get (ci_isTracing (c_info (ex_ctx s))) w (str_bytes token)) s) in
  packed_static abi call
    (match found with
     | Some (a, v) => [VAddress a; VInt v; VBool true]
     | None => [VAddress zero_address; VInt 0; VBool false]
     end).

Definition GetNative : Call → M Returned := pointer_of GetERC20NativePointer.
Definition GetCW20 : Call → M Returned := pointer_of (GetERC20CW20Pointer chainID versionOverride).
Definition GetCW721 : Call → M Returned := pointer_of GetERC721CW721Pointer.
Definition GetCW1155 : Call → M Returned := pointer_of GetERC1155CW1155Pointer.

Definition Execute (call : Call) : M Returned :=
  ensure% ValidateNonPayable (cl_value call);
  let m := cl_method call in
  if String.eqb m GetNativePointer then GetNative call else
  if String.eqb m GetCW20Pointer then GetCW20 call else
  if String.eqb m GetCW721Pointer then GetCW721 call else
  if String.eqb m GetCW1155Pointer then GetCW1155 call else
  xret (failed "unknown method").
End PointerView.

(** * Lemmas *)

Section PointerViewLemmas.
Context `{BK : BankKeeper B} `{AK : AccountKeeper A} `{MST : MultiStore MS (World B A)} `{MSL : !MultiStoreLaws MS (World B A)}.
Context `{GM : GasMeters G} `{SG : StoreGas B A G}.
Variable abi : ABI.
Variable chainID : string.
Variable versionOverride : Z.
Notation M X := (exec_m MS G X).

(** It only reads, in any call. *)
Lemma quiet_pointer_of get call : xquiet (pointer_of abi get call : M Returned).
Proof. unfold pointer_of. quiet. Qed.
#[local] Hint Resolve quiet_pointer_of : exec.
Lemma view_quiet call : xquiet (Execute abi chainID versionOverride call : M Returned).
Proof. unfold Execute, GetNative, GetCW20, GetCW721, GetCW1155. quiet. Qed.
Lemma view_LevelExecutor : LevelExecutor (Execute abi chainID versionOverride : Call → M Returned).
Proof. intros call _. apply xquiet_keeps, view_quiet. Qed.
Lemma view_StaticExecutor : StaticExecutor (Execute abi chainID versionOverride : Call → M Returned).
Proof. intros call _. apply view_quiet. Qed.
End PointerViewLemmas.
