(* ===== verification/WasmQueries.v ===== *)
(** * Queries of wasm contracts
    (x/evm/client/wasm/query.go and its bindings, wasmbinding/queries.go and
    wasmbinding/query_plugin.go)

    A wasm contract asks the chain about EVM contracts and associations, and for
    the call data of token operations (payloads), by JSON; the answers are JSON
    again.  Accounts are bech32 texts, EVM addresses hexadecimal texts, and token
    identifiers decimal texts.  The JSON codec, the ABIs of the token contracts and
    the parser of integers are parameters. *)

From S2P Require Import Prelude Bytes Base64 Dec Store Params Keys World Instances Keeper StateDB Snapshots Supply Finalize Frame.
From S2P Require Import Fee Eth EthTx Msg Block Receipts Tx Associate Pointer MsgServer Precompile StaticCall AddrPrecompile.
From Stdlib Require Import Strings.Byte Strings.Ascii.
Local Open Scope Z_scope.
Local Open Scope query_scope.

(** ** Data of the queries *)

(** [EVMQueryType]: the kinds of queries, and none. *)
Inductive EVMQueryType : Type :=
| StaticCallType | ERC20TransferType | ERC20TransferFromType | ERC20ApproveType
| ERC20AllowanceType | ERC20TokenInfoType | ERC20BalanceType | ERC721OwnerType
| ERC721TransferType | ERC721ApproveType | ERC721SetApprovalAllType | ERC721ApprovedType
| ERC721IsApprovedForAllType | ERC721TotalSupplyType | ERC721NameSymbolType | ERC721UriType
| ERC721RoyaltyInfoType | ERC1155TransferType | ERC1155BatchTransferType | ERC1155SetApprovalAllType
| ERC1155IsApprovedForAllType | ERC1155BalanceOfType | ERC1155BalanceOfBatchType | ERC1155TotalSupplyType
| ERC1155TotalSupplyForTokenType | ERC1155TokenExistsType | ERC1155NameSymbolType | ERC1155UriType
| ERC1155RoyaltyInfoType | GetEvmAddressType | GetTabiAddressType | SupportsInterfaceType
| NoQueryType.

(** ** Requests

    A pointer to an [sdk.Int] may be nil. *)

Record StaticCallRequest : Type := mkStaticCall { StaticCall_From : string; StaticCall_To : string; StaticCall_Data : bytes }.
Record ERC20TransferPayloadRequest : Type := mkERC20TransferPayload { ERC20TransferPayload_Recipient : string; ERC20TransferPayload_Amount : option Z }.
Record ERC20TransferFromPayloadRequest : Type := mkERC20TransferFromPayload { ERC20TransferFromPayload_Owner : string; ERC20TransferFromPayload_Recipient : string; ERC20TransferFromPayload_Amount : option Z }.
Record ERC20ApprovePayloadRequest : Type := mkERC20ApprovePayload { ERC20ApprovePayload_Spender : string; ERC20ApprovePayload_Amount : option Z }.
Record ERC20AllowanceRequest : Type := mkERC20Allowance { ERC20Allowance_ContractAddress : string; ERC20Allowance_Owner : string; ERC20Allowance_Spender : string }.
Record ERC20TokenInfoRequest : Type := mkERC20TokenInfo { ERC20TokenInfo_ContractAddress : string; ERC20TokenInfo_Caller : string }.
Record ERC20BalanceRequest : Type := mkERC20Balance { ERC20Balance_ContractAddress : string; ERC20Balance_Account : string }.
Record ERC721OwnerRequest : Type := mkERC721Owner { ERC721Owner_Caller : string; ERC721Owner_ContractAddress : string; ERC721Owner_TokenID : string }.
Record ERC721TransferPayloadRequest : Type := mkERC721TransferPayload { ERC721TransferPayload_From : string; ERC721TransferPayload_Recipient : string; ERC721TransferPayload_TokenID : string }.
Record ERC721ApprovePayloadRequest : Type := mkERC721ApprovePayload { ERC721ApprovePayload_Spender : string; ERC721ApprovePayload_TokenID : string }.
Record ERC721SetApprovalAllPayloadRequest : Type := mkERC721SetApprovalAllPayload { ERC721SetApprovalAllPayload_To : string; ERC721SetApprovalAllPayload_Approved : bool }.
Record ERC721ApprovedRequest : Type := mkERC721Approved { ERC721Approved_Caller : string; ERC721Approved_ContractAddress : string; ERC721Approved_TokenID : string }.
Record ERC721IsApprovedForAllRequest : Type := mkERC721IsApprovedForAll { ERC721IsApprovedForAll_Caller : string; ERC721IsApprovedForAll_ContractAddress : string; ERC721IsApprovedForAll_Owner : string; ERC721IsApprovedForAll_Operator : string }.
Record ERC721TotalSupplyRequest : Type := mkERC721TotalSupply { ERC721TotalSupply_Caller : string; ERC721TotalSupply_ContractAddress : string }.
Record ERC721NameSymbolRequest : Type := mkERC721NameSymbol { ERC721NameSymbol_Caller : string; ERC721NameSymbol_ContractAddress : string }.
Record ERC721UriRequest : Type := mkERC721Uri { ERC721Uri_Caller : string; ERC721Uri_ContractAddress : string; ERC721Uri_TokenID : string }.
Record ERC721RoyaltyInfoRequest : Type := mkERC721RoyaltyInfo { ERC721RoyaltyInfo_Caller : string; ERC721RoyaltyInfo_ContractAddress : string; ERC721RoyaltyInfo_TokenID : string; ERC721RoyaltyInfo_SalePrice : option Z }.
Record ERC1155TransferPayloadRequest : Type := mkERC1155TransferPayload { ERC1155TransferPayload_From : string; ERC1155TransferPayload_Recipient : string; ERC1155TransferPayload_TokenID : string; ERC1155TransferPayload_Amount : option Z }.
Record ERC1155BatchTransferPayloadRequest : Type := mkERC1155BatchTransferPayload { ERC1155BatchTransferPayload_From : string; ERC1155BatchTransferPayload_Recipient : string; ERC1155BatchTransferPayload_TokenIDs : list string; ERC1155BatchTransferPayload_Amounts : list (option Z) }.
Record ERC1155SetApprovalAllPayloadRequest : Type := mkERC1155SetApprovalAllPayload { ERC1155SetApprovalAllPayload_To : string; ERC1155SetApprovalAllPayload_Approved : bool }.
Record ERC1155IsApprovedForAllRequest : Type := mkERC1155IsApprovedForAll { ERC1155IsApprovedForAll_Caller : string; ERC1155IsApprovedForAll_ContractAddress : string; ERC1155IsApprovedForAll_Owner : string; ERC1155IsApprovedForAll_Operator : string }.
Record ERC1155BalanceOfRequest : Type := mkERC1155BalanceOf { ERC1155BalanceOf_Caller : string; ERC1155BalanceOf_ContractAddress : string; ERC1155BalanceOf_Account : string; ERC1155BalanceOf_TokenID : string }.
Record ERC1155BalanceOfBatchRequest : Type := mkERC1155BalanceOfBatch { ERC1155BalanceOfBatch_Caller : string; ERC1155BalanceOfBatch_ContractAddress : string; ERC1155BalanceOfBatch_Accounts : list string; ERC1155BalanceOfBatch_TokenIDs : list string }.
Record ERC1155TotalSupplyRequest : Type := mkERC1155TotalSupply { ERC1155TotalSupply_Caller : string; ERC1155TotalSupply_ContractAddress : string }.
Record ERC1155TotalSupplyForTokenRequest : Type := mkERC1155TotalSupplyForToken { ERC1155TotalSupplyForToken_Caller : string; ERC1155TotalSupplyForToken_ContractAddress : string; ERC1155TotalSupplyForToken_TokenID : string }.
Record ERC1155TokenExistsRequest : Type := mkERC1155TokenExists { ERC1155TokenExists_Caller : string; ERC1155TokenExists_ContractAddress : string; ERC1155TokenExists_TokenID : string }.
Record ERC1155NameSymbolRequest : Type := mkERC1155NameSymbol { ERC1155NameSymbol_Caller : string; ERC1155NameSymbol_ContractAddress : string }.
Record ERC1155UriRequest : Type := mkERC1155Uri { ERC1155Uri_Caller : string; ERC1155Uri_ContractAddress : string; ERC1155Uri_TokenID : string }.
Record ERC1155RoyaltyInfoRequest : Type := mkERC1155RoyaltyInfo { ERC1155RoyaltyInfo_Caller : string; ERC1155RoyaltyInfo_ContractAddress : string; ERC1155RoyaltyInfo_TokenID : string; ERC1155RoyaltyInfo_SalePrice : option Z }.
Record GetEvmAddressRequest : Type := mkGetEvmAddress { GetEvmAddress_TabiAddress : string }.
Record GetTabiAddressRequest : Type := mkGetTabiAddress { GetTabiAddress_EvmAddress : string }.
Record SupportsInterfaceRequest : Type := mkSupportsInterface { SupportsInterface_Caller : string; SupportsInterface_ContractAddress : string; SupportsInterface_InterfaceID : string }.

Record TabiEVMQuery : Type := mkTabiEVMQuery {
  q_StaticCall : option StaticCallRequest;
  q_ERC20TransferPayload : option ERC20TransferPayloadRequest;
  q_ERC20TransferFromPayload : option ERC20TransferFromPayloadRequest;
  q_ERC20ApprovePayload : option ERC20ApprovePayloadRequest;
  q_ERC20Allowance : option ERC20AllowanceRequest;
  q_ERC20TokenInfo : option ERC20TokenInfoRequest;
  q_ERC20Balance : option ERC20BalanceRequest;
  q_ERC721Owner : option ERC721OwnerRequest;
  q_ERC721TransferPayload : option ERC721TransferPayloadRequest;
  q_ERC721ApprovePayload : option ERC721ApprovePayloadRequest;
  q_ERC721SetApprovalAllPayload : option ERC721SetApprovalAllPayloadRequest;
  q_ERC721Approved : option ERC721ApprovedRequest;
  q_ERC721IsApprovedForAll : option ERC721IsApprovedForAllRequest;
  q_ERC721TotalSupply : option ERC721TotalSupplyRequest;
  q_ERC721NameSymbol : option ERC721NameSymbolRequest;
  q_ERC721Uri : option ERC721UriRequest;
  q_ERC721RoyaltyInfo : option ERC721RoyaltyInfoRequest;
  q_ERC1155TransferPayload : option ERC1155TransferPayloadRequest;
  q_ERC1155BatchTransferPayload : option ERC1155BatchTransferPayloadRequest;
  q_ERC1155SetApprovalAllPayload : option ERC1155SetApprovalAllPayloadRequest;
  q_ERC1155IsApprovedForAll : option ERC1155IsApprovedForAllRequest;
  q_ERC1155BalanceOf : option ERC1155BalanceOfRequest;
  q_ERC1155BalanceOfBatch : option ERC1155BalanceOfBatchRequest;
  q_ERC1155TotalSupply : option ERC1155TotalSupplyRequest;
  q_ERC1155TotalSupplyForToken : option ERC1155TotalSupplyForTokenRequest;
  q_ERC1155TokenExists : option ERC1155TokenExistsRequest;
  q_ERC1155NameSymbol : option ERC1155NameSymbolRequest;
  q_ERC1155Uri : option ERC1155UriRequest;
  q_ERC1155RoyaltyInfo : option ERC1155RoyaltyInfoRequest;
  q_GetEvmAddress : option GetEvmAddressRequest;
  q_GetTabiAddress : option GetTabiAddressRequest;
  q_SupportsInterface : option SupportsInterfaceRequest
}.

Definition GetQueryType (q : TabiEVMQuery) : EVMQueryType :=
  if bool_decide (is_Some (q_StaticCall q)) then StaticCallType else
  if bool_decide (is_Some (q_ERC20TransferPayload q)) then ERC20TransferType else
  if bool_decide (is_Some (q_ERC20TransferFromPayload q)) then ERC20TransferFromType else
  if bool_decide (is_Some (q_ERC20ApprovePayload q)) then ERC20ApproveType else
  if bool_decide (is_Some (q_ERC20Allowance q)) then ERC20AllowanceType else
  if bool_decide (is_Some (q_ERC20TokenInfo q)) then ERC20TokenInfoType else
  if bool_decide (is_Some (q_ERC20Balance q)) then ERC20BalanceType else
  if bool_decide (is_Some (q_ERC721Owner q)) then ERC721OwnerType else
  if bool_decide (is_Some (q_ERC721TransferPayload q)) then ERC721TransferType else
  if bool_decide (is_Some (q_ERC721ApprovePayload q)) then ERC721ApproveType else
  if bool_decide (is_Some (q_ERC721SetApprovalAllPayload q)) then ERC721SetApprovalAllType else
  if bool_decide (is_Some (q_ERC721Approved q)) then ERC721ApprovedType else
  if bool_decide (is_Some (q_ERC721IsApprovedForAll q)) then ERC721IsApprovedForAllType else
  if bool_decide (is_Some (q_ERC721TotalSupply q)) then ERC721TotalSupplyType else
  if bool_decide (is_Some (q_ERC721NameSymbol q)) then ERC721NameSymbolType else
  if bool_decide (is_Some (q_ERC721Uri q)) then ERC721UriType else
  if bool_decide (is_Some (q_ERC721RoyaltyInfo q)) then ERC721RoyaltyInfoType else
  if bool_decide (is_Some (q_ERC1155TransferPayload q)) then ERC1155TransferType else
  if bool_decide (is_Some (q_ERC1155BatchTransferPayload q)) then ERC1155BatchTransferType else
  if bool_decide (is_Some (q_ERC1155SetApprovalAllPayload q)) then ERC1155SetApprovalAllType else
  if bool_decide (is_Some (q_ERC1155IsApprovedForAll q)) then ERC1155IsApprovedForAllType else
  if bool_decide (is_Some (q_ERC1155BalanceOf q)) then ERC1155BalanceOfType else
  if bool_decide (is_Some (q_ERC1155BalanceOfBatch q)) then ERC1155BalanceOfBatchType else
  if bool_decide (is_Some (q_ERC1155TotalSupply q)) then ERC1155TotalSupplyType else
  if bool_decide (is_Some (q_ERC1155TotalSupplyForToken q)) then ERC1155TotalSupplyForTokenType else
  if bool_decide (is_Some (q_ERC1155TokenExists q)) then ERC1155TokenExistsType else
  if bool_decide (is_Some (q_ERC1155NameSymbol q)) then ERC1155NameSymbolType else
  if bool_decide (is_Some (q_ERC1155Uri q)) then ERC1155UriType else
  if bool_decide (is_Some (q_ERC1155RoyaltyInfo q)) then ERC1155RoyaltyInfoType else
  if bool_decide (is_Some (q_GetEvmAddress q)) then GetEvmAddressType else
  if bool_decide (is_Some (q_GetTabiAddress q)) then GetTabiAddressType else
  if bool_decide (is_Some (q_SupportsInterface q)) then SupportsInterfaceType else
  NoQueryType.

(** ** Responses *)

Inductive EVMResponse : Type :=
| StaticCallResponse (EncodedData : string)
| ERCPayloadResponse (EncodedPayload : string)
| ERC20AllowanceResponse (Allowance : option Z)
| ERC721OwnerResponse (Owner : string)
| ERC20TokenInfoResponse (Name : string) (Symbol : string) (Decimals : Z) (TotalSupply : option Z)
| ERC20BalanceResponse (Balance : option Z)
| ERC721ApprovedResponse (Approved : string)
| ERC721IsApprovedForAllResponse (IsApproved : bool)
| ERC721TotalSupplyResponse (Supply : option Z)
| ERC721NameSymbolResponse (Name : string) (Symbol : string)
| ERC721UriResponse (Uri : string)
| ERC721RoyaltyInfoResponse (Receiver : string) (RoyaltyAmount : option Z)
| ERC1155IsApprovedForAllResponse (IsApproved : bool)
| ERC1155BalanceOfResponse (Balance : option Z)
| ERC1155BalanceOfBatchResponse (Balances : list (option Z))
| ERC1155TotalSupplyResponse (Supply : option Z)
| ERC1155TotalSupplyForTokenResponse (Supply : option Z)
| ERC1155TokenExistsResponse (Exists : bool)
| ERC1155NameSymbolResponse (Name : string) (Symbol : string)
| ERC1155UriResponse (Uri : string)
| ERC1155RoyaltyInfoResponse (Receiver : string) (RoyaltyAmount : option Z)
| GetEvmAddressResponse (EvmAddress : string) (Associated : bool)
| GetTabiAddressResponse (TabiAddress : string) (Associated : bool)
| SupportsInterfaceResponse (Supported : bool).

(** The staking extension. *)
Record UnbondingDelegationsRequest : Type := mkUnbondingDelegationsRequest { UnbondingDelegations_Delegator : string }.
Record StakingExtQuery : Type := mkStakingExtQuery { seq_UnbondingDelegations : option UnbondingDelegationsRequest }.
Record UnbondingDelegationEntry : Type := mkUnbondingDelegationEntry {
  ue_CreationHeight : Z; ue_CompletionTime : string; ue_InitialBalance : Z; ue_Balance : Z
}.
Record UnbondingDelegationsResponse : Type := mkUnbondingDelegationsResponse { ur_Entries : list UnbondingDelegationEntry }.
(** An entry of an unbonding delegation in the staking module. *)
Record StakingEntry : Type := mkStakingEntry { se_CreationHeight : Z; se_CompletionTime : Z; se_InitialBalance : Z; se_Balance : Z }.

Record TabiQueryWrapper : Type := mkTabiQueryWrapper { qw_Route : string; qw_QueryData : bytes }.
Definition EVMRoute : string := "evm".
Definition StakingExtRoute : string := "stakingext".

(** ** What is used of libraries *)

(** [encoding/json] on the types above. *)
Class QueryJson := {
  json_Unmarshal_Query : bytes → TabiEVMQuery + Err;
  json_Unmarshal_StakingExt : bytes → StakingExtQuery + Err;
  json_Unmarshal_Wrapper : bytes → TabiQueryWrapper + Err;
  json_Marshal : EVMResponse → bytes + Err;
  json_Marshal_Unbonding : UnbondingDelegationsResponse → bytes + Err
}.
(** The ABIs of the token contracts, as the bindings parse them. *)
Class TokenABIs := { native_GetAbi : ABI + Err; cw721_GetAbi : ABI + Err; cw1155_GetAbi : ABI + Err }.
(** [sdk.NewIntFromString], the unbonding delegations of an account (the entries
    of each of them) up to a number, and [time.Time.String]. *)
Class QueryLibs (MS : Type) := {
  NewIntFromString : string → option Z;
  sk_GetUnbondingDelegations : Ctx MS → AccAddress → Z → list (list StakingEntry);
  time_String : Z → string
}.

(** Type assertions on unpacked values. *)
Definition assert_at {X} (f : AbiValue → option X) (l : list AbiValue) (i : nat) : outcome X :=
  match l !! i with
  | None => Panic "index out of range"
  | Some v => match f v with Some x => Ret x | None => Panic "interface conversion" end
  end.
Definition as_int (v : AbiValue) : option Z := match v with VInt z => Some z | _ => None end.
Definition as_byte (v : AbiValue) : option Z :=
  match v with VInt z => if (0 <=? z) && (z <? 256) then Some z else None | _ => None end.
Definition as_string (v : AbiValue) : option string := match v with VString s => Some s | _ => None end.
Definition as_bool (v : AbiValue) : option bool := match v with VBool b => Some b | _ => None end.
Definition as_addr (v : AbiValue) : option Address := match v with VAddress a => Some a | _ => None end.
Definition as_ints (v : AbiValue) : option (list Z) := match v with VArray l => mapM as_int l | _ => None end.

Definition trim_0x (s : string) : string := match s with String "0" (String "x" r) => r | s => s end.

Fixpoint qmap {MS G X Y} (f : X → query_m MS G Y) (l : list X) : query_m MS G (list Y) :=
  match l with
  | [] => qret []
  | x :: rest => let? y := f x in let? ys := qmap f rest in qret (y :: ys)
  end.

Section WasmQueries.
Context `{BK : BankKeeper B} `{AK : AccountKeeper A} `{EC : EthCrypto} `{KC : KeeperConfig}.
Context `{MST : MultiStore MS (World B A)} `{MR : MapRange} `{SD : SdkDec} `{CD : Codec}.
Context `{EH : EthHex} `{IL : IntLibs} `{ET : EthTransactions T} `{TC : TxCodec} `{ER : EthReceipts}.
Context `{VM : EVM MS} `{GM : GasMeters G} `{SV : StaticEVM MS} `{BE : Bech32}.
Context `{QJ : QueryJson} `{TA : TokenABIs} `{QL : QueryLibs MS}.
Notation World := (World B A).
Notation Q X := (query_m MS G X).
Variable env : TxEnv.

(** ** What the handlers share *)

(** An account from its text, with an error or a panic; its EVM address. *)
Definition account (text : string) : Q AccAddress := qopt ErrBech32 (AccAddressFromBech32 (str_bytes text)).
Definition evm_address (a : AccAddress) : Q Address :=
  let? found := qview (λ w, GetEVMAddress w a) in qopt AssociationMissingErr found.
Definition must_evm_address (text : string) : Q Address :=
  let? a := qout (MustAccAddressFromBech32 (str_bytes text)) in evm_address a.
(** A token identifier; the number behind a pointer. *)
Definition token_id (e : Err) (text : string) : Q Z := qopt e (NewIntFromString text).
Definition big_int (p : option Z) : Q Z := qout (match p with Some z => Ret z | None => Panic nil_deref end).
Definition ErrTokenID721 : Err := "invalid token ID for ERC721, must be a big Int".
Definition ErrTokenID1155 : Err := "invalid token ID for ERC1155, must be a big Int".

(** Calls a view of a contract and unpacks what it returns. *)
Definition call_view (abi : ABI) (caller : AccAddress) (contract : Address) (method : string) (args : list AbiValue) : Q (list AbiValue) :=
  let? bz := qsum (Pack abi method args) in
  let? res := StaticCallEVM env caller (Some contract) bz in
  qsum (Unpack abi method res).
Definition value_at {X} (f : AbiValue → option X) (l : list AbiValue) (i : nat) : Q X := qout (assert_at f l i).
Definition sdk_int_at (l : list AbiValue) (i : nat) : Q Z :=
  let? z := value_at as_int l i in qout (NewIntFromBigInt z).
(** The account of an EVM address; the zero address has none. *)
Definition account_text_at (l : list AbiValue) (i : nat) : Q string :=
  let? a := value_at as_addr l i in
  if bool_decide (a = BytesToAddress []) then qret ""%string else
  qview (λ w, acc_text (GetTabiAddressOrDefault w a)).

Definition answer_with (r : EVMResponse) : Q bytes := qsum (json_Marshal r).
(** The call data of a method, in base64. *)
Definition payload (abi : ABI) (method : string) (args : list AbiValue) : Q bytes :=
  let? bz := qsum (Pack abi method args) in answer_with (ERCPayloadResponse (base64_EncodeToString bz)).

(** ** Static calls and ERC20 *)

Definition HandleStaticCall (from to : string) (data : bytes) : Q bytes :=
  let? fromAddr := account from in
  let toAddr := if String.eqb to "" then None else Some (HexToAddress to) in
  let? res := StaticCallEVM env fromAddr toAddr data in
  answer_with (StaticCallResponse (base64_EncodeToString res)).

Definition HandleERC20TransferPayload (recipient : string) (amount : option Z) : Q bytes :=
  let? abi := qsum native_GetAbi in
  let? evmAddr := must_evm_address recipient in
  let? a := big_int amount in
  payload abi "transfer" [VAddress evmAddr; VInt a].

Definition HandleERC20TokenInfo (contractAddress caller : string) : Q bytes :=
  let? callerAddr := account caller in
  let contract := HexToAddress contractAddress in
  let? abi := qsum native_GetAbi in
  let? unpacked := call_view abi callerAddr contract "totalSupply" [] in
  let? totalSupply := sdk_int_at unpacked 0 in
  let? unpacked := call_view abi callerAddr contract "name" [] in
  let? name := value_at as_string unpacked 0 in
  let? unpacked := call_view abi callerAddr contract "symbol" [] in
  let? symbol := value_at as_string unpacked 0 in
  let? unpacked := call_view abi callerAddr contract "decimals" [] in
  let? decimals := value_at as_byte unpacked 0 in
  answer_with (ERC20TokenInfoResponse name symbol decimals (Some totalSupply)).

Definition HandleERC20Balance (contractAddress account_ : string) : Q bytes :=
  let? addr := account account_ in
  let? evmAddr := evm_address addr in
  let contract := HexToAddress contractAddress in
  let? abi := qsum native_GetAbi in
  let? unpacked := call_view abi addr contract "balanceOf" [VAddress evmAddr] in
  let? balance := sdk_int_at unpacked 0 in
  answer_with (ERC20BalanceResponse (Some balance)).

Definition HandleERC20TransferFromPayload (owner recipient : string) (amount : option Z) : Q bytes :=
  let? abi := qsum native_GetAbi in
  let? ownerEvmAddr := must_evm_address owner in
  let? recipientEvmAddr := must_evm_address recipient in
  let? a := big_int amount in
  payload abi "transferFrom" [VAddress ownerEvmAddr; VAddress recipientEvmAddr; VInt a].

Definition HandleERC20ApprovePayload (spender : string) (amount : option Z) : Q bytes :=
  let? abi := qsum native_GetAbi in
  let? spenderEvmAddr := must_evm_address spender in
  let? a := big_int amount in
  payload abi "approve" [VAddress spenderEvmAddr; VInt a].

Definition HandleERC20Allowance (contractAddress owner spender : string) : Q bytes :=
  let? ownerAddr := account owner in
  let? ownerEvmAddr := evm_address ownerAddr in
  let? spenderEvmAddr := must_evm_address spender in
  let contract := HexToAddress contractAddress in
  let? abi := qsum native_GetAbi in
  let? typed := call_view abi ownerAddr contract "allowance" [VAddress ownerEvmAddr; VAddress spenderEvmAddr] in
  let? allowance := sdk_int_at typed 0 in
  answer_with (ERC20AllowanceResponse (Some allowance)).

(** ** ERC721 *)

Definition HandleERC721Owner (caller contractAddress tokenId : string) : Q bytes :=
  let? callerAddr := account caller in
  let contract := HexToAddress contractAddress in
  let? abi := qsum cw721_GetAbi in
  let? t := token_id ErrTokenID721 tokenId in
  let? typed := call_view abi callerAddr contract "ownerOf" [VInt t] in
  let? owner := account_text_at typed 0 in
  answer_with (ERC721OwnerResponse owner).

Definition HandleERC721TransferPayload (from recipient tokenId : string) : Q bytes :=
  let? abi := qsum cw721_GetAbi in
  let? fromEvmAddr := must_evm_address from in
  let? toEvmAddr := must_evm_address recipient in
  let? t := token_id ErrTokenID721 tokenId in
  payload abi "transferFrom" [VAddress fromEvmAddr; VAddress toEvmAddr; VInt t].

(** An empty spender revokes the approval. *)
Definition HandleERC721ApprovePayload (spender tokenId : string) : Q bytes :=
  let? spenderEvmAddr := if String.eqb spender "" then qret (BytesToAddress []) else must_evm_address spender in
  let? abi := qsum cw721_GetAbi in
  let? t := token_id ErrTokenID721 tokenId in
  payload abi "approve" [VAddress spenderEvmAddr; VInt t].

Definition HandleERC721SetApprovalAllPayload (to : string) (approved : bool) : Q bytes :=
  let? evmAddr := must_evm_address to in
  let? abi := qsum cw721_GetAbi in
  payload abi "setApprovalForAll" [VAddress evmAddr; VBool approved].

Definition HandleERC721Approved (caller contractAddress tokenId : string) : Q bytes :=
  let? callerAddr := account caller in
  let contract := HexToAddress contractAddress in
  let? abi := qsum cw721_GetAbi in
  let? t := token_id ErrTokenID721 tokenId in
  let? typed := call_view abi callerAddr contract "getApproved" [VInt t] in
  let? a := account_text_at typed 0 in
  answer_with (ERC721ApprovedResponse a).

Definition HandleERC721IsApprovedForAll (caller contractAddress owner operator : string) : Q bytes :=
  let? callerAddr := account caller in
  let? ownerEvmAddr := must_evm_address owner in
  let? operatorEvmAddr := must_evm_address operator in
  let contract := HexToAddress contractAddress in
  let? abi := qsum cw721_GetAbi in
  let? typed := call_view abi callerAddr contract "isApprovedForAll" [VAddress ownerEvmAddr; VAddress operatorEvmAddr] in
  let? b := value_at as_bool typed 0 in
  answer_with (ERC721IsApprovedForAllResponse b).

Definition HandleERC721TotalSupply (caller contractAddress : string) : Q bytes :=
  let? callerAddr := account caller in
  let contract := HexToAddress contractAddress in
  let? abi := qsum cw721_GetAbi in
  let? typed := call_view abi callerAddr contract "totalSupply" [] in
  let? totalSupply := sdk_int_at typed 0 in
  answer_with (ERC721TotalSupplyResponse (Some totalSupply)).

Definition HandleERC721NameSymbol (caller contractAddress : string) : Q bytes :=
  let? callerAddr := account caller in
  let contract := HexToAddress contractAddress in
  let? abi := qsum cw721_GetAbi in
  let? typed := call_view abi callerAddr contract "name" [] in
  let? name := value_at as_string typed 0 in
  let? typed := call_view abi callerAddr contract "symbol" [] in
  let? symbol := value_at as_string typed 0 in
  answer_with (ERC721NameSymbolResponse name symbol).

Definition HandleERC721Uri (caller contractAddress tokenId : string) : Q bytes :=
  let? callerAddr := account caller in
  let? t := token_id ErrTokenID721 tokenId in
  let contract := HexToAddress contractAddress in
  let? abi := qsum cw721_GetAbi in
  let? typed := call_view abi callerAddr contract "tokenURI" [VInt t] in
  let? uri := value_at as_string typed 0 in
  answer_with (ERC721UriResponse uri).

Definition HandleERC721RoyaltyInfo (caller contractAddress tokenId : string) (salePrice : option Z) : Q bytes :=
  let? callerAddr := account caller in
  let? t := token_id ErrTokenID721 tokenId in
  let contract := HexToAddress contractAddress in
  let? abi := qsum cw721_GetAbi in
  let? price := big_int salePrice in
  let? typed := call_view abi callerAddr contract "royaltyInfo" [VInt t; VInt price] in
  let? receiver := account_text_at typed 0 in
  let? royaltyAmount := sdk_int_at typed 1 in
  answer_with (ERC721RoyaltyInfoResponse receiver (Some royaltyAmount)).

(** ** ERC1155

    The data of a transfer is the text 0x0. *)

Definition transfer_data : AbiValue := VBytes (str_bytes "0x0").

Definition HandleERC1155TransferPayload (from recipient tokenId : string) (amount : option Z) : Q bytes :=
  let? abi := qsum cw1155_GetAbi in
  let? fromEvmAddr := must_evm_address from in
  let? toEvmAddr := must_evm_address recipient in
  let? t := token_id ErrTokenID721 tokenId in
  let? a := big_int amount in
  payload abi "safeTransferFrom" [VAddress fromEvmAddr; VAddress toEvmAddr; VInt t; VInt a; transfer_data].

Definition HandleERC1155BatchTransferPayload (from recipient : string) (tokenIds : list string) (amounts : list (option Z)) : Q bytes :=
  let? abi := qsum cw1155_GetAbi in
  if negb (Nat.eqb (length tokenIds) (length amounts)) then qfail "mismatched argument lengths for tokenIds and amounts" else
  let? fromEvmAddr := must_evm_address from in
  let? toEvmAddr := must_evm_address recipient in
  let? tIds := qmap (token_id ErrTokenID1155) tokenIds in
  let? tAmounts := qmap big_int amounts in
  payload abi "safeBatchTransferFrom"
    [VAddress fromEvmAddr; VAddress toEvmAddr; VArray (VInt <$> tIds); VArray (VInt <$> tAmounts); transfer_data].

Definition HandleERC1155SetApprovalAllPayload (to : string) (approved : bool) : Q bytes :=
  let? evmAddr := must_evm_address to in
  let? abi := qsum cw1155_GetAbi in
  payload abi "setApprovalForAll" [VAddress evmAddr; VBool approved].

Definition HandleERC1155IsApprovedForAll (caller contractAddress owner operator : string) : Q bytes :=
  let? callerAddr := account caller in
  let? ownerEvmAddr := must_evm_address owner in
  let? operatorEvmAddr := must_evm_address operator in
  let contract := HexToAddress contractAddress in
  let? abi := qsum cw1155_GetAbi in
  let? typed := call_view abi callerAddr contract "isApprovedForAll" [VAddress ownerEvmAddr; VAddress operatorEvmAddr] in
  let? b := value_at as_bool typed 0 in
  answer_with (ERC1155IsApprovedForAllResponse b).

Definition HandleERC1155BalanceOf (caller contractAddress account_ tokenId : string) : Q bytes :=
  let? callerAddr := account caller in
  let? abi := qsum cw1155_GetAbi in
  let? addr := account account_ in
  let? evmAddr := evm_address addr in
  let? t := token_id ErrTokenID1155 tokenId in
  let contract := HexToAddress contractAddress in
  let? unpacked := call_view abi callerAddr contract "balanceOf" [VAddress evmAddr; VInt t] in
  let? balance := sdk_int_at unpacked 0 in
  answer_with (ERC1155BalanceOfResponse (Some balance)).

Definition HandleERC1155BalanceOfBatch (caller contractAddress : string) (accounts tokenIds : list string) : Q bytes :=
  if negb (Nat.eqb (length accounts) (length tokenIds)) then qfail "mismatched argument lengths for accounts and tokenIds" else
  let? callerAddr := account caller in
  let? abi := qsum cw1155_GetAbi in
  let contract := HexToAddress contractAddress in
  let? evmAddrs := qmap (λ text, let? addr := account text in evm_address addr) accounts in
  let? tIds := qmap (token_id ErrTokenID1155) tokenIds in
  let? unpacked := call_view abi callerAddr contract "balanceOfBatch" [VArray (VAddress <$> evmAddrs); VArray (VInt <$> tIds)] in
  let? balances_res := value_at as_ints unpacked 0 in
  let? balances := qmap (λ z, qout (NewIntFromBigInt z)) balances_res in
  answer_with (ERC1155BalanceOfBatchResponse (Some <$> balances)).

Definition HandleERC1155Uri (caller contractAddress tokenId : string) : Q bytes :=
  let? callerAddr := account caller in
  let? t := token_id ErrTokenID1155 tokenId in
  let contract := HexToAddress contractAddress in
  let? abi := qsum cw1155_GetAbi in
  let? typed := call_view abi callerAddr contract "uri" [VInt t] in
  let? uri := value_at as_string typed 0 in
  answer_with (ERC1155UriResponse uri).

Definition HandleERC1155TotalSupply (caller contractAddress : string) : Q bytes :=
  let? callerAddr := account caller in
  let contract := HexToAddress contractAddress in
  let? abi := qsum cw1155_GetAbi in
  let? typed := call_view abi callerAddr contract "totalSupply" [] in
  let? totalSupply := sdk_int_at typed 0 in
  answer_with (ERC1155TotalSupplyResponse (Some totalSupply)).

(** The second method of the name is [totalSupply0] in the bindings. *)
Definition HandleERC1155TotalSupplyForToken (caller contractAddress tokenId : string) : Q bytes :=
  let? callerAddr := account caller in
  let? t := token_id ErrTokenID1155 tokenId in
  let contract := HexToAddress contractAddress in
  let? abi := qsum cw1155_GetAbi in
  let? typed := call_view abi callerAddr contract "totalSupply0" [VInt t] in
  let? totalSupply := sdk_int_at typed 0 in
  answer_with (ERC1155TotalSupplyResponse (Some totalSupply)).

Definition HandleERC1155TokenExists (caller contractAddress tokenId : string) : Q bytes :=
  let? callerAddr := account caller in
  let? t := token_id ErrTokenID1155 tokenId in
  let contract := HexToAddress contractAddress in
  let? abi := qsum cw1155_GetAbi in
  let? typed := call_view abi callerAddr contract "exists" [VInt t] in
  let? b := value_at as_bool typed 0 in
  answer_with (ERC1155TokenExistsResponse b).

Definition HandleERC1155NameSymbol (caller contractAddress : string) : Q bytes :=
  let? callerAddr := account caller in
  let contract := HexToAddress contractAddress in
  let? abi := qsum cw1155_GetAbi in
  let? typed := call_view abi callerAddr contract "name" [] in
  let? name := value_at as_string typed 0 in
  let? typed := call_view abi callerAddr contract "symbol" [] in
  let? symbol := value_at as_string typed 0 in
  answer_with (ERC1155NameSymbolResponse name symbol).

Definition HandleERC1155RoyaltyInfo (caller contractAddress tokenId : string) (salePrice : option Z) : Q bytes :=
  let? callerAddr := account caller in
  let? t := token_id ErrTokenID1155 tokenId in
  let contract := HexToAddress contractAddress in
  let? abi := qsum cw1155_GetAbi in
  let? price := big_int salePrice in
  let? typed := call_view abi callerAddr contract "royaltyInfo" [VInt t; VInt price] in
  let? receiver := account_text_at typed 0 in
  let? royaltyAmount := sdk_int_at typed 1 in
  answer_with (ERC1155RoyaltyInfoResponse receiver (Some royaltyAmount)).

(** ** Interfaces and associations *)

Definition HandleSupportsInterface (caller id contractAddress : string) : Q bytes :=
  let? callerAddr := account caller in
  let contract := HexToAddress contractAddress in
  let? abi := qsum cw721_GetAbi in
  let? idbz := qsum (hex_DecodeString (trim_0x id)) in
  let aid := take 4 (idbz ++ replicate 4 x00)%list in
  let? typed := call_view abi callerAddr contract "supportsInterface" [VBytes aid] in
  let? b := value_at as_bool typed 0 in
  answer_with (SupportsInterfaceResponse b).

Definition HandleGetEvmAddress (tabiAddr : string) : Q bytes :=
  let? addr := account tabiAddr in
  let? found := qview (λ w, GetEVMAddress w addr) in
  answer_with (GetEvmAddressResponse (addr_Hex (default (BytesToAddress []) found)) (bool_decide (is_Some found))).

Definition HandleGetTabiAddress (evmAddr : string) : Q bytes :=
  let addr := HexToAddress evmAddr in
  let? found := qview (λ w, GetTabiAddress w addr) in
  answer_with (GetTabiAddressResponse (match found with Some a => acc_text a | None => "" end) (bool_decide (is_Some found))).

(** ** Dispatch (wasmbinding/queries.go, wasmbinding/query_plugin.go) *)

(** The request of a query whose kind says that it has one. *)
Definition on {R} (c : option R) (f : R → Q bytes) : Q bytes :=
  match c with Some c => f c | None => qpanic nil_deref end.

Definition HandleEVMQuery (queryData : bytes) : Q bytes :=
  match json_Unmarshal_Query queryData with
  | inr _ => qfail "invalid EVM query"
  | inl parsedQuery =>
      match GetQueryType parsedQuery with
      | StaticCallType => on (q_StaticCall parsedQuery) (λ c, HandleStaticCall (StaticCall_From c) (StaticCall_To c) (StaticCall_Data c))
      | ERC20TransferType => on (q_ERC20TransferPayload parsedQuery) (λ c, HandleERC20TransferPayload (ERC20TransferPayload_Recipient c) (ERC20TransferPayload_Amount c))
      | ERC20TransferFromType => on (q_ERC20TransferFromPayload parsedQuery) (λ c, HandleERC20TransferFromPayload (ERC20TransferFromPayload_Owner c) (ERC20TransferFromPayload_Recipient c) (ERC20TransferFromPayload_Amount c))
      | ERC20ApproveType => on (q_ERC20ApprovePayload parsedQuery) (λ c, HandleERC20ApprovePayload (ERC20ApprovePayload_Spender c) (ERC20ApprovePayload_Amount c))
      | ERC20AllowanceType => on (q_ERC20Allowance parsedQuery) (λ c, HandleERC20Allowance (ERC20Allowance_ContractAddress c) (ERC20Allowance_Owner c) (ERC20Allowance_Spender c))
      | ERC20TokenInfoType => on (q_ERC20TokenInfo parsedQuery) (λ c, HandleERC20TokenInfo (ERC20TokenInfo_ContractAddress c) (ERC20TokenInfo_Caller c))
      | ERC20BalanceType => on (q_ERC20Balance parsedQuery) (λ c, HandleERC20Balance (ERC20Balance_ContractAddress c) (ERC20Balance_Account c))
      | ERC721OwnerType => on (q_ERC721Owner parsedQuery) (λ c, HandleERC721Owner (ERC721Owner_Caller c) (ERC721Owner_ContractAddress c) (ERC721Owner_TokenID c))
      | ERC721TransferType => on (q_ERC721TransferPayload parsedQuery) (λ c, HandleERC721TransferPayload (ERC721TransferPayload_From c) (ERC721TransferPayload_Recipient c) (ERC721TransferPayload_TokenID c))
      | ERC721ApproveType => on (q_ERC721ApprovePayload parsedQuery) (λ c, HandleERC721ApprovePayload (ERC721ApprovePayload_Spender c) (ERC721ApprovePayload_TokenID c))
      | ERC721SetApprovalAllType => on (q_ERC721SetApprovalAllPayload parsedQuery) (λ c, HandleERC721SetApprovalAllPayload (ERC721SetApprovalAllPayload_To c) (ERC721SetApprovalAllPayload_Approved c))
      | ERC721ApprovedType => on (q_ERC721Approved parsedQuery) (λ c, HandleERC721Approved (ERC721Approved_Caller c) (ERC721Approved_ContractAddress c) (ERC721Approved_TokenID c))
      | ERC721IsApprovedForAllType => on (q_ERC721IsApprovedForAll parsedQuery) (λ c, HandleERC721IsApprovedForAll (ERC721IsApprovedForAll_Caller c) (ERC721IsApprovedForAll_ContractAddress c) (ERC721IsApprovedForAll_Owner c) (ERC721IsApprovedForAll_Operator c))
      | ERC721TotalSupplyType => on (q_ERC721TotalSupply parsedQuery) (λ c, HandleERC721TotalSupply (ERC721TotalSupply_Caller c) (ERC721TotalSupply_ContractAddress c))
      | ERC721NameSymbolType => on (q_ERC721NameSymbol parsedQuery) (λ c, HandleERC721NameSymbol (ERC721NameSymbol_Caller c) (ERC721NameSymbol_ContractAddress c))
      | ERC721UriType => on (q_ERC721Uri parsedQuery) (λ c, HandleERC721Uri (ERC721Uri_Caller c) (ERC721Uri_ContractAddress c) (ERC721Uri_TokenID c))
      | ERC721RoyaltyInfoType => on (q_ERC721RoyaltyInfo parsedQuery) (λ c, HandleERC721RoyaltyInfo (ERC721RoyaltyInfo_Caller c) (ERC721RoyaltyInfo_ContractAddress c) (ERC721RoyaltyInfo_TokenID c) (ERC721RoyaltyInfo_SalePrice c))
      | ERC1155TransferType => on (q_ERC1155TransferPayload parsedQuery) (λ c, HandleERC1155TransferPayload (ERC1155TransferPayload_From c) (ERC1155TransferPayload_Recipient c) (ERC1155TransferPayload_TokenID c) (ERC1155TransferPayload_Amount c))
      | ERC1155BatchTransferType => on (q_ERC1155BatchTransferPayload parsedQuery) (λ c, HandleERC1155BatchTransferPayload (ERC1155BatchTransferPayload_From c) (ERC1155BatchTransferPayload_Recipient c) (ERC1155BatchTransferPayload_TokenIDs c) (ERC1155BatchTransferPayload_Amounts c))
      | ERC1155SetApprovalAllType => on (q_ERC1155SetApprovalAllPayload parsedQuery) (λ c, HandleERC1155SetApprovalAllPayload (ERC1155SetApprovalAllPayload_To c) (ERC1155SetApprovalAllPayload_Approved c))
      | ERC1155IsApprovedForAllType => on (q_ERC1155IsApprovedForAll parsedQuery) (λ c, HandleERC1155IsApprovedForAll (ERC1155IsApprovedForAll_Caller c) (ERC1155IsApprovedForAll_ContractAddress c) (ERC1155IsApprovedForAll_Owner c) (ERC1155IsApprovedForAll_Operator c))
      | ERC1155BalanceOfType => on (q_ERC1155BalanceOf parsedQuery) (λ c, HandleERC1155BalanceOf (ERC1155BalanceOf_Caller c) (ERC1155BalanceOf_ContractAddress c) (ERC1155BalanceOf_Account c) (ERC1155BalanceOf_TokenID c))
      | ERC1155BalanceOfBatchType => on (q_ERC1155BalanceOfBatch parsedQuery) (λ c, HandleERC1155BalanceOfBatch (ERC1155BalanceOfBatch_Caller c) (ERC1155BalanceOfBatch_ContractAddress c) (ERC1155BalanceOfBatch_Accounts c) (ERC1155BalanceOfBatch_TokenIDs c))
      | ERC1155UriType => on (q_ERC1155Uri parsedQuery) (λ c, HandleERC1155Uri (ERC1155Uri_Caller c) (ERC1155Uri_ContractAddress c) (ERC1155Uri_TokenID c))
      | ERC1155TotalSupplyType => on (q_ERC1155TotalSupply parsedQuery) (λ c, HandleERC1155TotalSupply (ERC1155TotalSupply_Caller c) (ERC1155TotalSupply_ContractAddress c))
      | ERC1155TotalSupplyForTokenType => on (q_ERC1155TotalSupplyForToken parsedQuery) (λ c, HandleERC1155TotalSupplyForToken (ERC1155TotalSupplyForToken_Caller c) (ERC1155TotalSupplyForToken_ContractAddress c) (ERC1155TotalSupplyForToken_TokenID c))
      | ERC1155TokenExistsType => on (q_ERC1155TokenExists parsedQuery) (λ c, HandleERC1155TokenExists (ERC1155TokenExists_Caller c) (ERC1155TokenExists_ContractAddress c) (ERC1155TokenExists_TokenID c))
      | ERC1155NameSymbolType => on (q_ERC1155NameSymbol parsedQuery) (λ c, HandleERC1155NameSymbol (ERC1155NameSymbol_Caller c) (ERC1155NameSymbol_ContractAddress c))
      | ERC1155RoyaltyInfoType => on (q_ERC1155RoyaltyInfo parsedQuery) (λ c, HandleERC1155RoyaltyInfo (ERC1155RoyaltyInfo_Caller c) (ERC1155RoyaltyInfo_ContractAddress c) (ERC1155RoyaltyInfo_TokenID c) (ERC1155RoyaltyInfo_SalePrice c))
      | GetEvmAddressType => on (q_GetEvmAddress parsedQuery) (λ c, HandleGetEvmAddress (GetEvmAddress_TabiAddress c))
      | GetTabiAddressType => on (q_GetTabiAddress parsedQuery) (λ c, HandleGetTabiAddress (GetTabiAddress_EvmAddress c))
      | SupportsInterfaceType => on (q_SupportsInterface parsedQuery) (λ c, HandleSupportsInterface (SupportsInterface_Caller c) (SupportsInterface_InterfaceID c) (SupportsInterface_ContractAddress c))
      | NoQueryType => qfail "unknown EVM query"
      end
  end.

(** The initial balance of an entry of the answer is the balance of the entry. *)
Definition unbonding_entry (entry : StakingEntry) : UnbondingDelegationEntry :=
  mkUnbondingDelegationEntry (se_CreationHeight entry) (time_String (se_CompletionTime entry)) (se_Balance entry) (se_Balance entry).

Definition HandleStakingExtQuery (queryData : bytes) : Q bytes :=
  match json_Unmarshal_StakingExt queryData with
  | inr _ => qfail "invalid Staking extension query"
  | inl parsedQuery =>
      match seq_UnbondingDelegations parsedQuery with
      | None => qfail "unknown Staking extension query"
      | Some c =>
          match AccAddressFromBech32 (str_bytes (UnbondingDelegations_Delegator c)) with
          | None => qfail "invalid delegator string"
          | Some delegator =>
              λ s, qsum (json_Marshal_Unbonding (mkUnbondingDelegationsResponse
                     (unbonding_entry <$> concat (sk_GetUnbondingDelegations (q_ctx s) delegator 65535)))) s
          end
      end
  end.

Definition CustomQuerier (request : bytes) : Q bytes :=
  match json_Unmarshal_Wrapper request with
  | inr e => qfail ("Error parsing request data: " ++ e)%string
  | inl contractQuery =>
      if String.eqb (qw_Route contractQuery) EVMRoute then HandleEVMQuery (qw_QueryData contractQuery)
      else if String.eqb (qw_Route contractQuery) StakingExtRoute then HandleStakingExtQuery (qw_QueryData contractQuery)
      else qfail "Unknown Tabi Query Route"
  end.

End WasmQueries.

(** * Queries only read *)

Section WasmQueriesReads.
Context `{BK : BankKeeper B} `{AK : AccountKeeper A} `{EC : EthCrypto} `{KC : KeeperConfig}.
Context `{MST : MultiStore MS (World B A)} `{MSL : !MultiStoreLaws MS (World B A)} `{MR : MapRange} `{SD : SdkDec} `{CD : Codec}.
Context `{EH : EthHex} `{IL : IntLibs} `{ET : EthTransactions T} `{TC : TxCodec} `{ER : EthReceipts}.
Context `{VM : EVM MS} `{GM : GasMeters G} `{SV : StaticEVM MS} `{SVL : !StaticEVMLaws MS} `{BE : Bech32}.
Context `{QJ : QueryJson} `{TA : TokenABIs} `{QL : QueryLibs MS}.
Hypothesis Hlive : EthReplayConfig_Enabled = false.
Variable env : TxEnv.

Lemma qmap_reads {X Y} (f : X → query_m MS G Y) l : (∀ x, q_reads (f x)) → q_reads (qmap f l).
Proof. intros Hf. induction l; simpl; reading. Qed.
Lemma static_call_reads from to data : q_reads (StaticCallEVM env from to data).
Proof. by apply StaticCallEVM_reads. Qed.
#[local] Hint Resolve qview_reads static_call_reads qmap_reads : query_reads.

Lemma account_reads text : q_reads (MS := MS) (G := G) (account text).
Proof. unfold account. reading. Qed.
Lemma evm_address_reads a : q_reads (G := G) (evm_address a).
Proof. unfold evm_address. reading. Qed.
#[local] Hint Resolve account_reads evm_address_reads : query_reads.
Lemma must_evm_address_reads text : q_reads (G := G) (must_evm_address text).
Proof. unfold must_evm_address. reading. Qed.
Lemma call_view_reads abi caller contract method args : q_reads (call_view env abi caller contract method args).
Proof. unfold call_view. reading. Qed.
Lemma sdk_int_at_reads l i : q_reads (MS := MS) (G := G) (sdk_int_at l i).
Proof. unfold sdk_int_at, value_at. reading. Qed.
Lemma account_text_at_reads l i : q_reads (G := G) (account_text_at l i).
Proof. unfold account_text_at, value_at. reading. Qed.
Lemma payload_reads abi method args : q_reads (MS := MS) (G := G) (payload abi method args).
Proof. unfold payload, answer_with. reading. Qed.
#[local] Hint Resolve must_evm_address_reads call_view_reads sdk_int_at_reads account_text_at_reads payload_reads : query_reads.
Lemma value_at_reads {X} (f : AbiValue → option X) l i : q_reads (MS := MS) (G := G) (value_at f l i).
Proof. apply qout_reads. Qed.
Lemma token_id_reads e text : q_reads (MS := MS) (G := G) (token_id e text).
Proof. apply qopt_reads. Qed.
Lemma big_int_reads p : q_reads (MS := MS) (G := G) (big_int p).
Proof. apply qout_reads. Qed.
Lemma answer_with_reads r : q_reads (MS := MS) (G := G) (answer_with r).
Proof. apply qsum_reads. Qed.
#[local] Hint Resolve value_at_reads token_id_reads big_int_reads answer_with_reads : query_reads.

Lemma on_reads {R} (c : option R) (f : R → query_m MS G bytes) : (∀ x, q_reads (f x)) → q_reads (on c f).
Proof. intros Hf. unfold on. reading. Qed.

Lemma HandleEVMQuery_reads data : q_reads (HandleEVMQuery env data).
Proof.
  unfold HandleEVMQuery. destruct (json_Unmarshal_Query data) as [q|]; [|reading].
  unfold HandleStaticCall, HandleERC20TransferPayload, HandleERC20TokenInfo, HandleERC20Balance,
    HandleERC20TransferFromPayload, HandleERC20ApprovePayload, HandleERC20Allowance, HandleERC721Owner,
    HandleERC721TransferPayload, HandleERC721ApprovePayload, HandleERC721SetApprovalAllPayload, HandleERC721Approved,
    HandleERC721IsApprovedForAll, HandleERC721TotalSupply, HandleERC721NameSymbol, HandleERC721Uri,
    HandleERC721RoyaltyInfo, HandleERC1155TransferPayload, HandleERC1155BatchTransferPayload,
    HandleERC1155SetApprovalAllPayload, HandleERC1155IsApprovedForAll, HandleERC1155BalanceOf,
    HandleERC1155BalanceOfBatch, HandleERC1155Uri, HandleERC1155TotalSupply, HandleERC1155TotalSupplyForToken,
    HandleERC1155TokenExists, HandleERC1155NameSymbol, HandleERC1155RoyaltyInfo, HandleSupportsInterface,
    HandleGetEvmAddress, HandleGetTabiAddress.
  destruct (GetQueryType q); try (apply on_reads; intros c); reading; apply qmap_reads; intros; reading.
Qed.

Lemma HandleStakingExtQuery_reads data : q_reads (MS := MS) (G := G) (HandleStakingExtQuery data).
Proof.
  unfold HandleStakingExtQuery. destruct (json_Unmarshal_StakingExt data) as [q|]; [|reading].
  destruct (seq_UnbondingDelegations q) as [c|]; [|reading]. destruct (AccAddressFromBech32 _); [|reading].
  intros s r s' H. by apply qsum_reads in H.
Qed.

Lemma CustomQuerier_reads request : q_reads (CustomQuerier env request).
Proof.
  unfold CustomQuerier. destruct (json_Unmarshal_Wrapper request) as [q|]; [|reading].
  case_match; [apply HandleEVMQuery_reads|]. case_match; [apply HandleStakingExtQuery_reads|reading].
Qed.
End WasmQueriesReads.

(** * Payloads

    What a query for the call data of a token operation asks for: a method and
    its arguments, with every account given by its associated EVM address. *)

Definition is_payload (t : EVMQueryType) : bool :=
  match t with
  | ERC20TransferType | ERC20TransferFromType | ERC20ApproveType | ERC721TransferType | ERC721ApproveType
  | ERC721SetApprovalAllType | ERC1155TransferType | ERC1155BatchTransferType | ERC1155SetApprovalAllType => true
  | _ => false
  end.

(** A query that gave a value. *)
Lemma qbind_inl {MS G X Y} (m : query_m MS G X) (k : X → query_m MS G Y) s y s' :
  qbind m k s = Ret (inl y, s') → ∃ x s1, m s = Ret (inl x, s1) ∧ k x s1 = Ret (inl y, s').
Proof. unfold qbind. destruct (m s) as [[[x|e] s1]|]; [|done|done]. intros H. by exists x, s1. Qed.
Lemma qsum_inl {MS G X} (r : X + Err) (s s' : QState MS G) x : qsum r s = Ret (inl x, s') → r = inl x ∧ s' = s.
Proof. destruct r; [|done]. by intros [= -> ->]. Qed.
Lemma qout_inl {MS G X} (o : outcome X) (s s' : QState MS G) x : qout o s = Ret (inl x, s') → o = Ret x ∧ s' = s.
Proof. destruct o; [|done]. by intros [= -> ->]. Qed.
Lemma qopt_inl {MS G X} e (o : option X) (s s' : QState MS G) x : qopt e o s = Ret (inl x, s') → o = Some x ∧ s' = s.
Proof. destruct o; [|done]. by intros [= -> ->]. Qed.

Section Payloads.
Context `{BK : BankKeeper B} `{AK : AccountKeeper A} `{EC : EthCrypto} `{KC : KeeperConfig}.
Context `{MST : MultiStore MS (World B A)} `{MR : MapRange} `{SD : SdkDec} `{CD : Codec}.
Context `{EH : EthHex} `{IL : IntLibs} `{ET : EthTransactions T} `{TC : TxCodec} `{ER : EthReceipts}.
Context `{VM : EVM MS} `{GM : GasMeters G} `{SV : StaticEVM MS} `{BE : Bech32}.
Context `{QJ : QueryJson} `{TA : TokenABIs} `{QL : QueryLibs MS}.
Notation World := (World B A).
Variable env : TxEnv.

Definition linked (w : World) (text : string) (a : Address) : Prop :=
  ∃ acc, AccAddressFromBech32 (str_bytes text) = Some acc ∧ GetEVMAddress w acc = Some a.
(** The spender of an approval: none for an empty text. *)
Definition spender_of (w : World) (text : string) (a : Address) : Prop :=
  if String.eqb text "" then a = BytesToAddress [] else linked w text a.

Inductive payload_for (w : World) (q : TabiEVMQuery) : ABI → string → list AbiValue → Prop :=
| pay_erc20_transfer c abi a n :
    GetQueryType q = ERC20TransferType → q_ERC20TransferPayload q = Some c → native_GetAbi = inl abi →
    linked w (ERC20TransferPayload_Recipient c) a → ERC20TransferPayload_Amount c = Some n →
    payload_for w q abi "transfer" [VAddress a; VInt n]
| pay_erc20_transfer_from c abi o a n :
    GetQueryType q = ERC20TransferFromType → q_ERC20TransferFromPayload q = Some c → native_GetAbi = inl abi →
    linked w (ERC20TransferFromPayload_Owner c) o → linked w (ERC20TransferFromPayload_Recipient c) a →
    ERC20TransferFromPayload_Amount c = Some n →
    payload_for w q abi "transferFrom" [VAddress o; VAddress a; VInt n]
| pay_erc20_approve c abi a n :
    GetQueryType q = ERC20ApproveType → q_ERC20ApprovePayload q = Some c → native_GetAbi = inl abi →
    linked w (ERC20ApprovePayload_Spender c) a → ERC20ApprovePayload_Amount c = Some n →
    payload_for w q abi "approve" [VAddress a; VInt n]
| pay_erc721_transfer c abi o a t :
    GetQueryType q = ERC721TransferType → q_ERC721TransferPayload q = Some c → cw721_GetAbi = inl abi →
    linked w (ERC721TransferPayload_From c) o → linked w (ERC721TransferPayload_Recipient c) a →
    NewIntFromString (ERC721TransferPayload_TokenID c) = Some t →
    payload_for w q abi "transferFrom" [VAddress o; VAddress a; VInt t]
| pay_erc721_approve c abi a t :
    GetQueryType q = ERC721ApproveType → q_ERC721ApprovePayload q = Some c → cw721_GetAbi = inl abi →
    spender_of w (ERC721ApprovePayload_Spender c) a → NewIntFromString (ERC721ApprovePayload_TokenID c) = Some t →
    payload_for w q abi "approve" [VAddress a; VInt t]
| pay_erc721_approve_all c abi a :
    GetQueryType q = ERC721SetApprovalAllType → q_ERC721SetApprovalAllPayload q = Some c → cw721_GetAbi = inl abi →
    linked w (ERC721SetApprovalAllPayload_To c) a →
    payload_for w q abi "setApprovalForAll" [VAddress a; VBool (ERC721SetApprovalAllPayload_Approved c)]
| pay_erc1155_transfer c abi o a t n :
    GetQueryType q = ERC1155TransferType → q_ERC1155TransferPayload q = Some c → cw1155_GetAbi = inl abi →
    linked w (ERC1155TransferPayload_From c) o → linked w (ERC1155TransferPayload_Recipient c) a →
    NewIntFromString (ERC1155TransferPayload_TokenID c) = Some t → ERC1155TransferPayload_Amount c = Some n →
    payload_for w q abi "safeTransferFrom" [VAddress o; VAddress a; VInt t; VInt n; transfer_data]
| pay_erc1155_batch c abi o a ts ns :
    GetQueryType q = ERC1155BatchTransferType → q_ERC1155BatchTransferPayload q = Some c → cw1155_GetAbi = inl abi →
    linked w (ERC1155BatchTransferPayload_From c) o → linked w (ERC1155BatchTransferPayload_Recipient c) a →
    NewIntFromString <$> ERC1155BatchTransferPayload_TokenIDs c = Some <$> ts →
    ERC1155BatchTransferPayload_Amounts c = Some <$> ns → length ts = length ns →
    payload_for w q abi "safeBatchTransferFrom" [VAddress o; VAddress a; VArray (VInt <$> ts); VArray (VInt <$> ns); transfer_data]
| pay_erc1155_approve_all c abi a :
    GetQueryType q = ERC1155SetApprovalAllType → q_ERC1155SetApprovalAllPayload q = Some c → cw1155_GetAbi = inl abi →
    linked w (ERC1155SetApprovalAllPayload_To c) a →
    payload_for w q abi "setApprovalForAll" [VAddress a; VBool (ERC1155SetApprovalAllPayload_Approved c)].

Notation QS := (QState MS G).

Lemma must_evm_address_inl text (s s' : QS) a :
  must_evm_address text s = Ret (inl a, s') → linked (cview (q_ctx s)) text a ∧ s' = s.
Proof.
  intros (acc & s1 & H1 & H)%qbind_inl. apply qout_inl in H1 as [H1 ->]. unfold MustAccAddressFromBech32 in H1.
  destruct (AccAddressFromBech32 (str_bytes text)) as [x|] eqn:E; [|done]. injection H1 as ->.
  apply qbind_inl in H as (found & s2 & [= <- <-] & H). apply qopt_inl in H as [H ->]. split; [|done]. by exists acc.
Qed.
Lemma qmap_inl {X Y} (f : X → query_m MS G Y) (g : X → option Y) l (s s' : QS) ys :
  (∀ x s y s', f x s = Ret (inl y, s') → g x = Some y ∧ s' = s) →
  qmap f l s = Ret (inl ys, s') → g <$> l = Some <$> ys ∧ s' = s.
Proof.
  intros Hf. revert s s' ys. induction l as [|x l IH]; intros s s' ys H; cbn [qmap] in H; [by injection H as <- <-|].
  apply qbind_inl in H as (y & s1 & Hy & H). apply Hf in Hy as [Hy ->].
  apply qbind_inl in H as (zs & s2 & Hz & H). apply IH in Hz as [Hz ->]. injection H as <- <-.
  by rewrite !fmap_cons, Hy, Hz.
Qed.
Lemma big_int_inl p (s s' : QS) z : big_int p s = Ret (inl z, s') → p = Some z ∧ s' = s.
Proof. intros [H ->]%qout_inl. destruct p; [|done]. by injection H as ->. Qed.
Lemma payload_inl abi method args (s s' : QS) bz :
  payload abi method args s = Ret (inl bz, s') →
  ∃ input, Pack abi method args = inl input ∧ json_Marshal (ERCPayloadResponse (base64_EncodeToString input)) = inl bz.
Proof.
  intros (input & s1 & H1 & H)%qbind_inl. apply qsum_inl in H1 as [H1 ->]. apply qsum_inl in H as [H _]. by exists input.
Qed.

(** Steps through a handler that gave a value. *)
Ltac qstep H :=
  match type of H with
  | qbind _ _ _ = _ =>
      let x := fresh "x" in let s1 := fresh "s" in let H1 := fresh "Hstep" in
      apply qbind_inl in H as (x & s1 & H1 & H);
      first [ apply must_evm_address_inl in H1 as [H1 ->] | apply big_int_inl in H1 as [H1 ->]
            | apply qsum_inl in H1 as [H1 ->] | apply qopt_inl in H1 as [H1 ->] | idtac ]
  end.

Lemma payload_found w q abi method args (s s' : QS) bz :
  payload_for w q abi method args → payload abi method args s = Ret (inl bz, s') →
  ∃ abi method args input, payload_for w q abi method args ∧ Pack abi method args = inl input ∧
    json_Marshal (ERCPayloadResponse (base64_EncodeToString input)) = inl bz.
Proof. intros Hf (input & Hi & Hb)%payload_inl. by exists abi, method, args, input. Qed.

(** A query for a payload that gave one gave that of its method and arguments. *)
Lemma payload_query data q (s s' : QS) bz :
  json_Unmarshal_Query data = inl q → is_payload (GetQueryType q) = true →
  HandleEVMQuery env data s = Ret (inl bz, s') →
  ∃ abi method args input, payload_for (cview (q_ctx s)) q abi method args ∧ Pack abi method args = inl input ∧
    json_Marshal (ERCPayloadResponse (base64_EncodeToString input)) = inl bz.
Proof.
  intros Hq Hp H. unfold HandleEVMQuery in H. rewrite Hq in H.
  destruct (GetQueryType q) eqn:Et; try discriminate Hp; unfold on in H; case_match; try discriminate H.
  - unfold HandleERC20TransferPayload in H. repeat qstep H. eapply payload_found; [|exact H]. by eapply pay_erc20_transfer.
  - unfold HandleERC20TransferFromPayload in H. repeat qstep H. eapply payload_found; [|exact H]. by eapply pay_erc20_transfer_from.
  - unfold HandleERC20ApprovePayload in H. repeat qstep H. eapply payload_found; [|exact H]. by eapply pay_erc20_approve.
  - unfold HandleERC721TransferPayload in H. repeat qstep H. eapply payload_found; [|exact H]. by eapply pay_erc721_transfer.
  - unfold HandleERC721ApprovePayload in H. repeat qstep H.
    eapply (payload_found (cview (q_ctx s))); [|exact H]. eapply pay_erc721_approve; try done. unfold spender_of.
    destruct (String.eqb _ _); [by injection Hstep as <- ->|by apply must_evm_address_inl in Hstep as [Hstep ->]].
  - unfold HandleERC721SetApprovalAllPayload in H. repeat qstep H. eapply payload_found; [|exact H]. by eapply pay_erc721_approve_all.
  - unfold HandleERC1155TransferPayload in H. repeat qstep H. eapply payload_found; [|exact H]. by eapply pay_erc1155_transfer.
  - unfold HandleERC1155BatchTransferPayload in H. qstep H. destruct (Nat.eqb_spec (length (ERC1155BatchTransferPayload_TokenIDs e)) (length (ERC1155BatchTransferPayload_Amounts e))); [|done].
    cbn [negb] in H. repeat qstep H.
    apply (qmap_inl _ NewIntFromString) in Hstep2 as [Hids ->]; [|intros; by eapply qopt_inl].
    apply (qmap_inl _ id) in Hstep3 as [Hns ->]; [|intros; by eapply big_int_inl]. rewrite list_fmap_id in Hns.
    eapply payload_found; [|exact H]. eapply pay_erc1155_batch; try done.
    apply (f_equal length) in Hids. apply (f_equal length) in Hns. rewrite !length_fmap in Hids. rewrite length_fmap in Hns. lia.
  - unfold HandleERC1155SetApprovalAllPayload in H. repeat qstep H. eapply payload_found; [|exact H]. by eapply pay_erc1155_approve_all.
Qed.
End Payloads.

(** * Theorems *)

Section WasmQueriesTheorems.
Context `{BK : BankKeeper B} `{AK : AccountKeeper A} `{EC : EthCrypto} `{KC : KeeperConfig}.
Context `{MST : MultiStore MS (World B A)} `{MSL : !MultiStoreLaws MS (World B A)} `{MR : MapRange} `{SD : SdkDec} `{CD : Codec}.
Context `{EH : EthHex} `{IL : IntLibs} `{ET : EthTransactions T} `{TC : TxCodec} `{ER : EthReceipts}.
Context `{VM : EVM MS} `{GM : GasMeters G} `{SV : StaticEVM MS} `{BE : Bech32}.
Context `{QJ : QueryJson} `{TA : TokenABIs} `{QL : QueryLibs MS}.

(** C34: no query of a wasm contract changes the state of the chain: whatever it asks
    for, also when it fails, and whatever the EVM contract that is read from does,
    the context has the stores and the events it had. *)
Theorem queries_only_read (env : TxEnv) (request : bytes) (s s' : QState MS G) (r : bytes + Err) :
  EthReplayConfig_Enabled = false → StaticEVMLaws MS → CustomQuerier env request s = Ret (r, s') → q_ctx s' = q_ctx s.
Proof. intros Hlive Hl H. exact (CustomQuerier_reads Hlive env request s r s' H). Qed.

(** A static call without a contract panics. *)
Lemma static_call_to_nothing (env : TxEnv) from data acc (s s1 : QState MS G) evm gas :
  AccAddressFromBech32 (str_bytes from) = Some acc → createReadOnlyEVM env acc s = Ret (inl evm, s1) →
  getEvmGasLimitFromCtx (q_meter s1) (cview (q_ctx s1)) = Ret gas → HandleStaticCall env from "" data s = Panic nil_deref.
Proof.
  intros Ha He Hg. unfold HandleStaticCall, account. rewrite Ha. unfold StaticCallEVM, qbind, qopt, qret. rewrite He.
  destruct evm as [[[db bc] cfg] origin]. unfold callEVM. by rewrite Hg.
Qed.
End WasmQueriesTheorems.

(** * Examples *)

(** The answers in a plain form, and requests by their first byte: a payload for
    any other. *)
Definition no_query : TabiEVMQuery :=
  mkTabiEVMQuery None None None None None None None None None None None None None None None None
    None None None None None None None None None None None None None None None None.
Definition account_name (a : AccAddress) : string := String.string_of_list_byte (x74 :: a).
Definition static_query : TabiEVMQuery :=
  mkTabiEVMQuery (Some (mkStaticCall (account_name [x05]) "0000000000000000000000000000000000000002" [x2a]))
    None None None None None None None None None None None None None None None
    None None None None None None None None None None None None None None None None.
Definition transfer_query : TabiEVMQuery :=
  mkTabiEVMQuery None (Some (mkERC20TransferPayload (account_name [x08]) (Some 1000)))
    None None None None None None None None None None None None None None
    None None None None None None None None None None None None None None None None.
Definition demo_json : QueryJson := {|
  json_Unmarshal_Query bz := match bz with [x01] => inl static_query | [x02] => inl transfer_query | _ => inl no_query end;
  json_Unmarshal_StakingExt bz := inr "no query"%string;
  json_Unmarshal_Wrapper bz := inl (mkTabiQueryWrapper EVMRoute bz);
  json_Marshal r := match r with ERCPayloadResponse e | StaticCallResponse e => inl (str_bytes e) | _ => inl [] end;
  json_Marshal_Unbonding r := inl []
|}.
(** The input of a call is the name of its method. *)
Definition named_abi : ABI := {|
  MethodById bz := inl (String.string_of_list_byte bz);
  Unpack m bz := inl [];
  Pack m vs := inl (str_bytes m)
|}.
Definition demo_token_abis : TokenABIs := {| native_GetAbi := inl named_abi; cw721_GetAbi := inl named_abi; cw1155_GetAbi := inl named_abi |}.

Section WasmQueriesExamples.
#[local] Existing Instances demo_bank_keeper demo_bank_laws demo_accounts demo_crypto live_config.
#[local] Existing Instances number_codec number_codec_laws plain_hex strict_ints plain_transactions no_codec.
#[local] Existing Instances half_even_dec demo_receipts_ops plain_meter demo_call_stores demo_call_stores_laws demo_call_range demo_evm.
#[local] Existing Instances marked_bech32 marked_bech32_laws demo_json demo_token_abis.
Definition demo_query_libs : QueryLibs (stack_ms demo_world) := {|
  NewIntFromString s := None;
  sk_GetUnbondingDelegations c a n := [];
  time_String t := ""%string
|}.
#[local] Existing Instance demo_query_libs.

(** A contract that writes what it can before it answers with its input. *)
Definition writing_evm : StaticEVM (stack_ms demo_world) := {|
  evm_StaticCall cfg bc origin caller to input gas s :=
    outcome_bind (run_ops tx_ops s) (λ r, Ret ((input, gas - 21000, None), r.2))
|}.
#[local] Existing Instance writing_evm.
Lemma writing_evm_laws : StaticEVMLaws (stack_ms demo_world).
Proof.
  split. intros cfg bc origin caller to input gas s r s'. simpl.
  destruct (run_ops tx_ops s) as [[u s1]|] eqn:E; [|done]. intros [= <- <-]. eapply run_ops_steps; [|exact E]. repeat constructor.
Qed.

Definition demo_query_state : QState (stack_ms demo_world) (Z * Z) := mkQState funded_ctx (1000000, 0) demo_cache.
Definition answered {S : Type} (o : outcome ((bytes + Err) * S)) (bz : bytes) : bool :=
  match o with Ret (inl r, _) => bool_decide (r = bz) | _ => false end.
Lemma answered_ret {S : Type} (o : outcome ((bytes + Err) * S)) bz : answered o bz = true → ∃ s, o = Ret (inl bz, s).
Proof. destruct o as [[[r|e] s]|]; try done. simpl. intros ->%bool_decide_eq_true. by exists s. Qed.

Lemma demo_static_answer : answered (CustomQuerier demo_env [x01] demo_query_state) (str_bytes "Kg==") = true.
Proof. vm_compute. reflexivity. Qed.

Lemma queries_only_read_witness : ∃ s', CustomQuerier demo_env [x01] demo_query_state = Ret (inl (str_bytes "Kg=="), s') ∧ q_ctx s' = funded_ctx.
Proof.
  destruct (answered_ret _ _ demo_static_answer) as [s' Hs].
  exists s'. split; [exact Hs|]. exact (queries_only_read demo_env [x01] demo_query_state s' _ eq_refl writing_evm_laws Hs).
Defined.
End WasmQueriesExamples.
