(* ===== verification/StakingPrecompile.v ===== *)
(** * The staking precompile
    (precompiles/staking/staking.go)

    Contracts delegate, redelegate and undelegate, and create and edit
    validators, in the name of the account associated with the caller.  What is
    delegated is the value of the call.  The gas is a constant of the method, so
    the executor runs on the meter of the transaction. *)

From S2P Require Import Prelude Bytes Dec Store Params Keys World Instances Keeper StateDB Snapshots Supply Finalize Frame Fee Eth Block EthTx Msg Receipts Tx Associate.
From S2P Require Import Pointer MsgServer Precompile AddrPrecompile.
Local Open Scope Z_scope.
Local Open Scope exec_scope.

(** ** Messages *)

Record CommissionRates : Type := mkCommissionRates { cr_Rate : Z; cr_MaxRate : Z; cr_MaxChangeRate : Z }.
Record MsgCreateValidator : Type := mkMsgCreateValidator {
  cv_ValidatorAddress : AccAddress;
  cv_PubKey : bytes;
  cv_Value : Z;
  cv_Moniker : string;
  cv_Commission : CommissionRates;
  cv_MinSelfDelegation : Z
}.
Record MsgEditValidator : Type := mkMsgEditValidator {
  ev_ValidatorAddress : AccAddress;
  ev_Moniker : string;
  ev_CommissionRate : option Z;
  ev_MinSelfDelegation : option Z
}.
Record DelegationResponse : Type := mkDelegationResponse {
  dr_Amount : Z;
  dr_Denom : string;
  dr_DelegatorAddress : string;
  dr_Shares : Z;
  dr_ValidatorAddress : string
}.

(** The staking module: its message server, its querier, the checks of its
    messages and the parser of decimals.  Amounts are of the base denomination. *)
Class StakingKeeper (MS B A : Type) := {
  sk_Delegate : bytes → string → Z → Ctx MS → Ctx MS * option Err;
  sk_BeginRedelegate : bytes → string → string → Z → Ctx MS → Ctx MS * option Err;
  sk_Undelegate : bytes → string → Z → Ctx MS → Ctx MS * option Err;
  sk_CreateValidator : MsgCreateValidator → Ctx MS → Ctx MS * option Err;
  sk_EditValidator : MsgEditValidator → Ctx MS → Ctx MS * option Err;
  sq_Delegation : World B A → bytes → string → DelegationResponse + Err;
  NewMsgCreateValidator : MsgCreateValidator → option Err;
  MsgCreateValidator_ValidateBasic : MsgCreateValidator → option Err;
  MsgEditValidator_ValidateBasic : MsgEditValidator → option Err;
  NewDecFromStr : string → option Z
}.

Definition DelegateMethod : string := "delegate".
Definition RedelegateMethod : string := "redelegate".
Definition UndelegateMethod : string := "undelegate".
Definition DelegationMethod : string := "delegation".
Definition CreateValidatorMethod : string := "createValidator".
Definition EditValidatorMethod : string := "editValidator".
Definition StakingAddress : string := "0x0000000000000000000000000000000000001005".

Definition dec_Precision : Z := 18.

(** [RequiredGas] of the executor. *)
Definition staking_RequiredGas (input : bytes) (method : string) : Z :=
  if String.eqb method DelegateMethod then 50000 else
  if String.eqb method RedelegateMethod then 70000 else
  if String.eqb method UndelegateMethod then 50000 else
  if String.eqb method CreateValidatorMethod then 100000 else
  if String.eqb method EditValidatorMethod then 100000 else
  UnknownMethodCallGas.

Section Staking.
Context `{BK : BankKeeper B} `{CK : CoinsKeeper B} `{AK : AccountKeeper A} `{EC : EthCrypto} `{KC : KeeperConfig}.
Context `{MST : MultiStore MS (World B A)} `{SD : SdkDec} `{GM : GasMeters G} `{SG : StoreGas B A G}.
Context `{EH : EthHex} `{BE : Bech32} `{SK : StakingKeeper MS B A}.
Variable abi : ABI.
Notation M X := (exec_m MS G X).

(** [sdk.NewCoin] of the base denomination. *)
Definition NewBaseCoin (amount : Z) : M Z := if amount <? 0 then xpanic "negative coin amount" else xret amount.

Definition delegate (call : Call) : M Returned :=
  let args := cl_args call in
  ensure% ValidateArgsLength args 1;
  let% found := reads "GetTabiAddress" (λ w, Ret (GetTabiAddress w (cl_caller call))) in
  match found with
  | None => xret (failed AssociationMissingErr)
  | Some delegator =>
  let% validatorBech32 := arg_string args 0 in
  match cl_value call with
  | None | Some 0 => xret (failed "set `value` field to non-zero to send delegate fund")
  | Some value =>
      let% precompileAddr := reads "GetTabiAddressOrDefault" (λ w, Ret (GetTabiAddressOrDefault w (HexToAddress StakingAddress))) in
      let% paid := HandlePaymentUtabi precompileAddr delegator value in
      try% coin := paid in
      let% e := writes "Delegate" (λ c, Ret (sk_Delegate (acc_String delegator) validatorBech32 coin c)) in
      ensure% e;
      packed_static abi call [VBool true]
  end
  end.

Definition redelegate (call : Call) : M Returned :=
  let args := cl_args call in
  ensure% ValidateNonPayable (cl_value call);
  ensure% ValidateArgsLength args 3;
  let% found := reads "GetTabiAddress" (λ w, Ret (GetTabiAddress w (cl_caller call))) in
  match found with
  | None => xret (failed AssociationMissingErr)
  | Some delegator =>
      let% srcValidatorBech32 := arg_string args 0 in
      let% dstValidatorBech32 := arg_string args 1 in
      let% amount := arg_int args 2 in
      let% coin := NewBaseCoin amount in
      let% e := writes "BeginRedelegate" (λ c, Ret (sk_BeginRedelegate (acc_String delegator) srcValidatorBech32 dstValidatorBech32 coin c)) in
      ensure% e;
      packed_static abi call [VBool true]
  end.

Definition undelegate (call : Call) : M Returned :=
  let args := cl_args call in
  ensure% ValidateNonPayable (cl_value call);
  ensure% ValidateArgsLength args 2;
  let% found := reads "GetTabiAddress" (λ w, Ret (GetTabiAddress w (cl_caller call))) in
  match found with
  | None => xret (failed AssociationMissingErr)
  | Some delegator =>
      let% validatorBech32 := arg_string args 0 in
      let% amount := arg_int args 1 in
      let% coin := NewBaseCoin amount in
      let% e := writes "Undelegate" (λ c, Ret (sk_Undelegate (acc_String delegator) validatorBech32 coin c)) in
      ensure% e;
      packed_static abi call [VBool true]
  end.

Definition delegation (call : Call) : M Returned :=
  let args := cl_args call in
  ensure% ValidateNonPayable (cl_value call);
  ensure% ValidateArgsLength args 2;
  let% r := GetTabiAddressFromArg args 0 in
  try% tabiDelegatorAddress := r in
  let% validatorBech32 := arg_string args 1 in
  let% resp := reads "Delegation" (λ w, Ret (sq_Delegation w (acc_String tabiDelegatorAddress) validatorBech32)) in
  try% d := resp in
  packed_static abi call
    [VStruct [VStruct [VInt (dr_Amount d); VString (dr_Denom d)];
              VStruct [VString (dr_DelegatorAddress d); VInt (dr_Shares d); VInt dec_Precision; VString (dr_ValidatorAddress d)]]].

Definition createValidator (call : Call) : M Returned :=
  let args := cl_args call in
  ensure% ValidateArgsLength args 6;
  let% pubKeyHex := arg_string args 0 in
  let% moniker := arg_string args 1 in
  let% commissionRateStr := arg_string args 2 in
  let% commissionMaxRateStr := arg_string args 3 in
  let% commissionMaxChangeRateStr := arg_string args 4 in
  let% minSelfDelegation := arg_int args 5 in
  let% found := reads "GetTabiAddress" (λ w, Ret (GetTabiAddress w (cl_caller call))) in
  match found with
  | None => xret (failed AssociationMissingErr)
  | Some valAddress =>
  match hex_DecodeString pubKeyHex with
  | inr _ => xret (failed "invalid public key hex format")
  | inl pubKey =>
  match NewDecFromStr commissionRateStr, NewDecFromStr commissionMaxRateStr, NewDecFromStr commissionMaxChangeRateStr with
  | None, _, _ => xret (failed "invalid commission rate")
  | _, None, _ => xret (failed "invalid commission max rate")
  | _, _, None => xret (failed "invalid commission max change rate")
  | Some commissionRate, Some commissionMaxRate, Some commissionMaxChangeRate =>
  match cl_value call with
  | None | Some 0 => xret (failed "set `value` field to non-zero to send delegate fund")
  | Some value =>
      let% precompileAddr := reads "GetTabiAddressOrDefault" (λ w, Ret (GetTabiAddressOrDefault w (HexToAddress StakingAddress))) in
      let% paid := HandlePaymentUtabi precompileAddr valAddress value in
      try% coin := paid in
      let msg := mkMsgCreateValidator valAddress pubKey coin moniker
                   (mkCommissionRates commissionRate commissionMaxRate commissionMaxChangeRate) minSelfDelegation in
      ensure% NewMsgCreateValidator msg;
      ensure% MsgCreateValidator_ValidateBasic msg;
      let% e := writes "CreateValidator" (λ c, Ret (sk_CreateValidator msg c)) in
      ensure% e;
      packed_static abi call [VBool true]
  end
  end
  end
  end.

(** An empty rate and a self-delegation of zero leave what there is. *)
Definition editValidator (call : Call) : M Returned :=
  let args := cl_args call in
  ensure% ValidateNonPayable (cl_value call);
  ensure% ValidateArgsLength args 3;
  let% moniker := arg_string args 0 in
  let% commissionRateStr := arg_string args 1 in
  let% minSelfDelegation := arg_int args 2 in
  let% found := reads "GetTabiAddress" (λ w, Ret (GetTabiAddress w (cl_caller call))) in
  match found with
  | None => xret (failed AssociationMissingErr)
  | Some valAddress =>
      let rate := if String.eqb commissionRateStr "" then inl None
                  else match NewDecFromStr commissionRateStr with Some r => inl (Some r) | None => inr "invalid commission rate"%string end in
      try% commissionRate := rate in
      let msg := mkMsgEditValidator valAddress moniker commissionRate (if 0 <? minSelfDelegation then Some minSelfDelegation else None) in
      ensure% MsgEditValidator_ValidateBasic msg;
      let% e := writes "EditValidator" (λ c, Ret (sk_EditValidator msg c)) in
      ensure% e;
      packed_static abi call [VBool true]
  end.

(** Only the query may be made in a static call, and nothing in a delegate call. *)
Definition Execute (call : Call) : M Returned :=
  let m := cl_method call in
  let write (run : Call → M Returned) : M Returned :=
    if cl_readOnly call then xret (failed "cannot call staking precompile from staticcall") else run call in
  if cl_delegate call then xret (failed "cannot delegatecall staking") else
  if String.eqb m DelegateMethod then write delegate else
  if String.eqb m RedelegateMethod then write redelegate else
  if String.eqb m UndelegateMethod then write undelegate else
  if String.eqb m CreateValidatorMethod then write createValidator else
  if String.eqb m EditValidatorMethod then write editValidator else
  if String.eqb m DelegationMethod then delegation call else
  xret ([], 0, None).
End Staking.

(** * Lemmas *)

(** What the precompile relies on of the staking module. *)
Class StakingLaws (MS B A : Type) `{BK : BankKeeper B} `{MST : MultiStore MS (World B A)} `{SK : StakingKeeper MS B A} : Prop := {
  sk_Delegate_safe : ∀ d v n, handler_safe (sk_Delegate d v n);
  sk_BeginRedelegate_safe : ∀ d v v' n, handler_safe (sk_BeginRedelegate d v v' n);
  sk_Undelegate_safe : ∀ d v n, handler_safe (sk_Undelegate d v n);
  sk_CreateValidator_safe : ∀ m, handler_safe (sk_CreateValidator m);
  sk_EditValidator_safe : ∀ m, handler_safe (sk_EditValidator m)
}.

Section StakingLemmas.
Context `{BK : BankKeeper B} `{CK : CoinsKeeper B} `{AK : AccountKeeper A} `{EC : EthCrypto} `{KC : KeeperConfig}.
Context `{MST : MultiStore MS (World B A)} `{MSL : !MultiStoreLaws MS (World B A)} `{SD : SdkDec} `{GM : GasMeters G} `{SG : StoreGas B A G}.
Context `{EH : EthHex} `{BE : Bech32} `{SK : StakingKeeper MS B A}.
Context `{BL : !BankLaws B} `{CL : !CoinsLaws B} `{SKL : !StakingLaws MS B A}.
Variable abi : ABI.
Notation M X := (exec_m MS G X).

Lemma xquiet_NewBaseCoin n : xquiet (NewBaseCoin n : M Z).
Proof. unfold NewBaseCoin. quiet. Qed.
#[local] Hint Resolve xquiet_NewBaseCoin : exec.

#[local] Hint Resolve sk_Delegate_safe sk_BeginRedelegate_safe sk_Undelegate_safe sk_CreateValidator_safe sk_EditValidator_safe : exec.

(** The staking precompile is one the EVM may call. *)
Lemma staking_LevelExecutor : LevelExecutor (Execute abi : Call → M Returned).
Proof. intros call _. unfold Execute, delegate, redelegate, undelegate, createValidator, editValidator, delegation. keeps. Qed.
Lemma staking_StaticExecutor : StaticExecutor (Execute abi : Call → M Returned).
Proof. intros call Hro. unfold Execute, delegation. rewrite Hro. quiet. Qed.

(** ** What a call that succeeds has done *)

Lemma delegate_done call x r x' : 0 ≤ default 0 (cl_value call) → (delegate abi call : M Returned) x = Done r x' → succeeded r →
  ∃ v n from val b1 b2 c, cl_value call = Some v ∧ 0 < n ∧ v = n * AtabiToWeiMultiplier ∧ cl_args call = [VString val] ∧
    GetTabiAddress (cview (ex_ctx x)) (cl_caller call) = Some from ∧
    bank_moved (bank_of (ex_ctx x)) b1 (GetTabiAddressOrDefault (cview (ex_ctx x)) (HexToAddress StakingAddress)) (- v) ∧
    bank_moved b1 b2 from v ∧ cview c = set_bank b2 (cview (ex_ctx x)) ∧ sk_Delegate (acc_String from) val n c = (ex_ctx x', None).
Proof.
  intros Hv0 H Hr. unfold delegate in H. destruct (ValidateArgsLength _ _) eqn:Hlen; [no_success H|]. apply ValidateArgsLength_done in Hlen.
  apply xbind_done in H as (found & x1 & [[= <-] Hx1]%reads_done & H). destruct (GetTabiAddress _ _) as [from|] eqn:Hfrom; [|no_success H].
  apply xbind_done in H as (val & x2 & [Hval ->]%arg_string_done & H). destruct (cl_value call) as [v|]; [|no_success H]. simpl in Hv0.
  assert (Hnz : v ≠ 0) by (intros ->; no_success H). destruct v as [|v|v]; [done| |lia].
  apply xbind_done in H as (p & x3 & [[= <-] Hx3]%reads_done & H). rewrite Hx1 in H.
  apply xbind_done in H as ([n|] & x4 & E4 & H); [|no_success H]. apply HandlePaymentUtabi_done in E4 as (Hvn & Hn & b1 & b2 & M1 & M2 & V4); [|done].
  apply xbind_done in H as (e & x5 & E5%writes_done & H). destruct e; [no_success H|]. injection E5 as E5. rewrite Hx3, Hx1 in M1, V4.
  exists (Zpos v), n, from, val, b1, b2, (ex_ctx x4). rewrite (quiet_done _ _ _ _ (xquiet_packed_static _ _ _) H).
  destruct (cl_args call) as [|a [|]]; try done. simpl in Hval. injection Hval as ->. split_and!; try done.
  destruct (decide (n = 0)) as [->|]; [done|lia].
Qed.
End StakingLemmas.

(** * Theorems *)

Section StakingTheorems.
Context `{BK : BankKeeper B} `{CK : CoinsKeeper B} `{AK : AccountKeeper A} `{EC : EthCrypto} `{KC : KeeperConfig}.
Context `{MST : MultiStore MS (World B A)} `{MSL : !MultiStoreLaws MS (World B A)} `{SD : SdkDec} `{GM : GasMeters G} `{SG : StoreGas B A G}.
Context `{EH : EthHex} `{BE : Bech32} `{SK : StakingKeeper MS B A} `{BL : !BankLaws B} `{CL : !CoinsLaws B}.
Context `{EVC : EVMCalls MS} `{EVL : !EVMCallsLaws MS B A}.
Variable abi : ABI.
Notation DB := (DBImpl MS).

(** C21: [delegate] stakes exactly the value of the call.  When a call succeeds, the
    value was a whole, positive number of atabi, and the staking module was asked to
    delegate that number, in the name of the account associated with the caller, to
    the validator in the argument; it was asked when the value had already gone back
    from the precompile to that account, so every account then had what it had before
    the call, and what the staking module made of it is the result of the call. *)
Theorem delegate_stakes_value (meter : G) caller contract input v readOnly isDelegateCall args (s s' : DB) r : EthReplayConfig_Enabled = false →
  coinbaseEvmAddress s ≠ caller → coinbaseEvmAddress s ≠ HexToAddress StakingAddress → 0 ≤ v ≤ balance_of s caller →
  Prepare abi input = inl (DelegateMethod, args) →
  evm_call_precompile [OpTransferWithoutEvents caller (HexToAddress StakingAddress) v]
    (Run abi (Execute abi) meter caller contract input (Some v) readOnly isDelegateCall) s = Ret (r, s') → r.2 = None →
  ∃ val from n c c', args = [VString val] ∧ 0 < n ∧ v = n * AtabiToWeiMultiplier ∧ readOnly = false ∧ isDelegateCall = false ∧
    GetTabiAddress (cview (ctx s)) caller = Some from ∧ sk_Delegate (acc_String from) val n c = (c', None) ∧ cview (ctx s') = cview c' ∧
    (∀ a, wei_value (bank_of c) a = wei_value (bank_of (ctx s)) a) ∧ w_evm (cview c) = w_evm (cview (ctx s)) ∧
    surplus (tempStateCurrent s') = 0.
Proof.
  intros Hlive Hc1 Hc2 Hv Hprep H Hr.
  destruct (paid_run_done Hlive _ _ _ _ _ _ _ _ _ _ _ _ _ Hc1 Hc2 Hv H Hr) as (method & args' & x & x' & Hp & Hx & Hws & Vx' & T & Hback).
  rewrite Hprep in Hp. injection Hp as <- <-. unfold Execute in Hx. cbn [cl_delegate cl_readOnly cl_method] in Hx.
  destruct isDelegateCall; [no_success Hx|]. change (String.eqb DelegateMethod DelegateMethod) with true in Hx. cbv iota in Hx.
  destruct readOnly; [no_success Hx|]. apply delegate_done in Hx as (v' & n & from & val & b3 & b4 & c & Hx); [|simpl; lia|done].
  cbn [cl_value cl_args cl_caller] in Hx. destruct Hx as ([= <-] & Hn & Hvn & -> & Hfrom & M3 & M4 & Vc & Hdel).
  assert (Hfrom' : GetTabiAddress (cview (ctx s)) caller = Some from) by (unfold GetTabiAddress in *; by rewrite <- Hws).
  exists val, from, n, c, (ex_ctx x'). unfold bank_of at 1. rewrite Vc. split_and!; try done. by eapply Hback.
Qed.
End StakingTheorems.

(** * Examples *)

Section StakingExamples.
#[local] Existing Instances demo_bank_keeper demo_bank_laws demo_coins demo_coins_laws demo_accounts demo_crypto live_config half_even_dec.
#[local] Existing Instances plain_meter demo_gas demo_call_stores demo_call_stores_laws demo_call_range plain_calls plain_calls_laws plain_hex marked_bech32.

(** Delegations are paid to the pool of bonded coins. *)
#[local] Instance demo_staking : StakingKeeper (stack_ms demo_world) demo_bank (gset (list Byte.byte)) := {|
  sk_Delegate d v n c :=
    match AccAddressFromBech32 d with
    | Some a => run_bank (λ b, bk_SendCoins b a (str_bytes "bonded") [(BaseDenom, n)]) c
    | None => (c, Some "decoding bech32 failed"%string)
    end;
  sk_BeginRedelegate _ _ _ _ c := (c, None);
  sk_Undelegate _ _ _ c := (c, None);
  sk_CreateValidator _ c := (c, None);
  sk_EditValidator _ c := (c, None);
  sq_Delegation _ _ _ := inr "no delegation"%string;
  NewMsgCreateValidator _ := None;
  MsgCreateValidator_ValidateBasic _ := None;
  MsgEditValidator_ValidateBasic _ := None;
  NewDecFromStr _ := None
|}.

Definition delegate_abi : ABI := demo_abi DelegateMethod [VString "validator"].
Lemma delegate_runs : ∃ r s',
  evm_call_precompile [OpTransferWithoutEvents (addr_of 7) (HexToAddress StakingAddress) 3000000000000]
    (Run delegate_abi (Execute delegate_abi) (100000, 0) (addr_of 7) (addr_of 7) demo_selector (Some 3000000000000) false false) alice_db = Ret (r, s') ∧ r.2 = None.
Proof. apply succeeds_ret. vm_compute. reflexivity. Qed.

Lemma delegate_stakes_value_witness : ∃ r s' from n c c',
  evm_call_precompile [OpTransferWithoutEvents (addr_of 7) (HexToAddress StakingAddress) 3000000000000]
    (Run delegate_abi (Execute delegate_abi) (100000, 0) (addr_of 7) (addr_of 7) demo_selector (Some 3000000000000) false false) alice_db = Ret (r, s') ∧
  3000000000000 = n * AtabiToWeiMultiplier ∧ sk_Delegate (acc_String from) "validator" n c = (c', None) ∧ cview (ctx s') = cview c'.
Proof.
  assert (Hlive : EthReplayConfig_Enabled = false) by reflexivity.
  assert (H1 : coinbaseEvmAddress alice_db ≠ addr_of 7) by (vm_compute; discriminate).
  assert (H2 : coinbaseEvmAddress alice_db ≠ HexToAddress StakingAddress) by (vm_compute; discriminate).
  assert (Hb : balance_of alice_db (addr_of 7) = 5000000000009) by (vm_compute; reflexivity).
  assert (Hv : 0 ≤ 3000000000000 ≤ balance_of alice_db (addr_of 7)) by lia.
  assert (Hp : Prepare delegate_abi demo_selector = inl (DelegateMethod, [VString "validator"])) by reflexivity.
  destruct delegate_runs as (r & s' & E & Hr).
  destruct (delegate_stakes_value delegate_abi (100000, 0) (addr_of 7) (addr_of 7) demo_selector 3000000000000 false false [VString "validator"]
    alice_db s' r Hlive H1 H2 Hv Hp E Hr) as (val & from & n & c & c' & Ha & _ & Hn & _ & _ & _ & Hd & Hc & _).
  injection Ha as <-. exists r, s', from, n, c, c'. split; [exact E|]. split; [exact Hn|]. split; [exact Hd|exact Hc].
Defined.
End StakingExamples.
