(* ===== verification/DistrPrecompile.v ===== *)
(** * The distribution precompile
    (precompiles/distribution/distribution.go)

    Contracts withdraw the rewards of the account associated with the caller,
    one validator or several at a time, set where they are paid, withdraw the
    commission of a validator and ask for the rewards that are outstanding. *)

From S2P Require Import Prelude Bytes Dec Store Params Keys World Instances Keeper StateDB Snapshots Supply Finalize Frame Fee Eth Block EthTx Msg Receipts Tx Associate.
From S2P Require Import Pointer MsgServer Precompile.
Local Open Scope Z_scope.
Local Open Scope exec_scope.

(** [DecCoins]: amounts, scaled by the precision, with their denominations. *)
Notation DecCoins := (list (string * Z)).
Record DelegationTotalRewardsResponse : Type := mkTotalRewards { tr_Rewards : list (string * DecCoins); tr_Total : DecCoins }.

(** The distribution module, and the text form of validators.  Its query of the
    rewards closes the current period of the validators, so it may write. *)
Class DistributionKeeper (MS : Type) := {
  dk_SetWithdrawAddr : AccAddress → AccAddress → Ctx MS → Ctx MS * option Err;
  dk_WithdrawDelegationRewards : AccAddress → bytes → Ctx MS → Ctx MS * option Err;
  dk_WithdrawValidatorCommission : bytes → Ctx MS → Ctx MS * option Err;
  dk_DelegationTotalRewards : bytes → Ctx MS → Ctx MS * (DelegationTotalRewardsResponse + Err);
  ValAddressFromBech32 : string → bytes + Err
}.

Definition SetWithdrawAddressMethod : string := "setWithdrawAddress".
Definition WithdrawDelegationRewardsMethod : string := "withdrawDelegationRewards".
Definition WithdrawMultipleDelegationRewardsMethod : string := "withdrawMultipleDelegationRewards".
Definition WithdrawValidatorCommissionMethod : string := "withdrawValidatorCommission".
Definition RewardsMethod : string := "rewards".
Definition DistrAddress : string := "0x0000000000000000000000000000000000001007".

Definition validateInput (value : option Z) (args : list AbiValue) (expectedArgsLength : nat) : option Err :=
  match ValidateNonPayable value with
  | Some e => Some e
  | None => ValidateArgsLength args expectedArgsLength
  end.

(** Amounts with their denomination and the number of their decimals. *)
Definition coin_outputs (cs : DecCoins) : AbiValue := VArray ((λ c, VStruct [VInt c.2; VString c.1; VInt 18]) <$> cs).
Definition getResponseOutput (r : DelegationTotalRewardsResponse) : AbiValue :=
  VStruct [VArray ((λ x, VStruct [VString x.1; coin_outputs x.2]) <$> tr_Rewards r); coin_outputs (tr_Total r)].

Section Distr.
Context `{BK : BankKeeper B} `{AK : AccountKeeper A} `{EC : EthCrypto} `{KC : KeeperConfig}.
Context `{MST : MultiStore MS (World B A)} `{SD : SdkDec} `{GM : GasMeters G} `{SG : StoreGas B A G}.
Context `{BE : Bech32} `{DK : DistributionKeeper MS}.
Variable abi : ABI.
Notation M X := (exec_m MS G X).

Definition accAddressFromArg (args : list AbiValue) (i : nat) : M (AccAddress + Err) :=
  let% addr := arg_address args i in
  if bool_decide (addr = zero_address) then xret (inr "invalid addr"%string) else
  reads "GetTabiAddress" (λ w, Ret (match GetTabiAddress w addr with
                                    | Some a => inl a
                                    | None => inr "cannot use an unassociated address as withdraw address"%string
                                    end)).

Definition getDelegator (caller : Address) : M (AccAddress + Err) :=
  reads "GetTabiAddress" (λ w, Ret (match GetTabiAddress w caller with Some a => inl a | None => inr AssociationMissingErr end)).

Definition withdraw (delegator : AccAddress) (validatorAddress : string) : M (option Err) :=
  match ValAddressFromBech32 validatorAddress with
  | inr e => xret (Some e)
  | inl validator => writes "WithdrawDelegationRewards" (λ c, Ret (dk_WithdrawDelegationRewards delegator validator c))
  end.

(** The loop over the validators, which stops at the first error. *)
Fixpoint withdraw_each (delegator : AccAddress) (validators : list string) : M (option Err) :=
  match validators with
  | [] => xret None
  | v :: vs =>
      let% e := withdraw delegator v in
      match e with Some e => xret (Some e) | None => withdraw_each delegator vs end
  end.

Definition setWithdrawAddress (call : Call) : M Returned := recovering_as "" (
  let args := cl_args call in
  ensure% ValidateNonPayable (cl_value call);
  ensure% ValidateArgsLength args 1;
  let% d := getDelegator (cl_caller call) in
  try% delegator := d in
  let% a := accAddressFromArg args 0 in
  try% withdrawAddr := a in
  let% e := writes "SetWithdrawAddr" (λ c, Ret (dk_SetWithdrawAddr delegator withdrawAddr c)) in
  ensure% e;
  packed abi call [VBool true]).

Definition withdrawDelegationRewards (call : Call) : M Returned := recovering_as "" (
  let args := cl_args call in
  ensure% validateInput (cl_value call) args 1;
  let% d := getDelegator (cl_caller call) in
  try% delegator := d in
  let% validator := arg_string args 0 in
  let% e := withdraw delegator validator in
  ensure% e;
  packed abi call [VBool true]).

Definition arg_strings (args : list AbiValue) (i : nat) : M (list string) :=
  let% v := arg args i in match v with VStrings l => xret l | _ => xpanic bad_assertion end.

Definition withdrawMultipleDelegationRewards (call : Call) : M Returned := recovering_as "" (
  let args := cl_args call in
  ensure% validateInput (cl_value call) args 1;
  let% d := getDelegator (cl_caller call) in
  try% delegator := d in
  let% validators := arg_strings args 0 in
  let% e := withdraw_each delegator validators in
  ensure% e;
  packed abi call [VBool true]).

Definition getValidatorFromArg (args : list AbiValue) (i : nat) : M (bytes + Err) :=
  let% validatorAddress := arg_string args i in xret (ValAddressFromBech32 validatorAddress).

(** Whoever the caller is. *)
Definition withdrawValidatorCommission (call : Call) : M Returned := recovering_as "" (
  let args := cl_args call in
  ensure% validateInput (cl_value call) args 1;
  let% v := getValidatorFromArg args 0 in
  try% validatorAddr := v in
  let% e := writes "WithdrawValidatorCommission" (λ c, Ret (dk_WithdrawValidatorCommission validatorAddr c)) in
  ensure% e;
  packed abi call [VBool true]).

Definition rewards (call : Call) : M Returned := recovering_as "" (
  let args := cl_args call in
  ensure% ValidateArgsLength args 1;
  let% a := accAddressFromArg args 0 in
  try% tabiDelegatorAddress := a in
  let% response := writes "DelegationTotalRewards" (λ c, Ret (dk_DelegationTotalRewards (acc_String tabiDelegatorAddress) c)) in
  try% r := response in
  packed abi call [getResponseOutput r]).

Definition Execute (call : Call) : M Returned :=
  let m := cl_method call in
  let write (run : Call → M Returned) : M Returned :=
    if cl_readOnly call then xret (failed "cannot call distr precompile from staticcall") else run call in
  if cl_delegate call then xret (failed "cannot delegatecall distr") else
  if String.eqb m SetWithdrawAddressMethod then write setWithdrawAddress else
  if String.eqb m WithdrawDelegationRewardsMethod then write withdrawDelegationRewards else
  if String.eqb m WithdrawMultipleDelegationRewardsMethod then write withdrawMultipleDelegationRewards else
  if String.eqb m WithdrawValidatorCommissionMethod then write withdrawValidatorCommission else
  if String.eqb m RewardsMethod then rewards call else
  xret ([], 0, None).
End Distr.

(** * Lemmas *)

(** What the precompile relies on of the distribution module. *)
Class DistributionLaws (MS B A : Type) `{BK : BankKeeper B} `{MST : MultiStore MS (World B A)} `{DK : DistributionKeeper MS} : Prop := {
  dk_SetWithdrawAddr_safe : ∀ d a, handler_safe (dk_SetWithdrawAddr d a);
  dk_WithdrawDelegationRewards_safe : ∀ d v, handler_safe (dk_WithdrawDelegationRewards d v);
  dk_WithdrawValidatorCommission_safe : ∀ v, handler_safe (dk_WithdrawValidatorCommission v);
  dk_DelegationTotalRewards_safe : ∀ d c, ctx_ext c (dk_DelegationTotalRewards d c).1 ∧ keeps_worth c (dk_DelegationTotalRewards d c).1
}.

Section DistrLemmas.
Context `{BK : BankKeeper B} `{AK : AccountKeeper A} `{EC : EthCrypto} `{KC : KeeperConfig}.
Context `{MST : MultiStore MS (World B A)} `{MSL : !MultiStoreLaws MS (World B A)} `{SD : SdkDec} `{GM : GasMeters G} `{SG : StoreGas B A G}.
Context `{BE : Bech32} `{DK : DistributionKeeper MS}.
Variable abi : ABI.
Notation M X := (exec_m MS G X).

(** The validators' rewards, withdrawn one after the other. *)
Inductive withdrawn (d : AccAddress) : list string → Ctx MS → Ctx MS → Prop :=
| withdrawn_none c : withdrawn d [] c c
| withdrawn_one t v vs c c1 c' : ValAddressFromBech32 t = inl v → dk_WithdrawDelegationRewards d v c = (c1, None) →
    withdrawn d vs c1 c' → withdrawn d (t :: vs) c c'.

Lemma withdraw_each_done d vs x x' : (withdraw_each d vs : M (option Err)) x = Done None x' → withdrawn d vs (ex_ctx x) (ex_ctx x').
Proof.
  revert x. induction vs as [|t vs IH]; intros x H; [injection H as <-; constructor|].
  simpl in H. apply xbind_done in H as ([e|] & x1 & E & H); [done|]. unfold withdraw in E.
  destruct (ValAddressFromBech32 t) as [v|] eqn:Hv; [|done]. apply writes_done in E. injection E as E.
  econstructor; [done|exact E|by apply IH].
Qed.

Lemma xquiet_distr_accAddressFromArg args i : xquiet (accAddressFromArg args i : M (AccAddress + Err)).
Proof. unfold accAddressFromArg. quiet. Qed.
Lemma xquiet_getDelegator a : xquiet (getDelegator a : M (AccAddress + Err)).
Proof. unfold getDelegator. quiet. Qed.
Lemma xquiet_arg_strings args i : xquiet (arg_strings args i : M (list string)).
Proof. unfold arg_strings. quiet. Qed.
Lemma xquiet_getValidatorFromArg args i : xquiet (getValidatorFromArg args i : M (bytes + Err)).
Proof. unfold getValidatorFromArg. quiet. Qed.
#[local] Hint Resolve xquiet_distr_accAddressFromArg xquiet_getDelegator xquiet_arg_strings xquiet_getValidatorFromArg : exec.

Lemma withdrawMultiple_done call x r x' : (withdrawMultipleDelegationRewards abi call : M Returned) x = Done r x' → succeeded r →
  ∃ d vs, cl_args call = [VStrings vs] ∧ default 0 (cl_value call) = 0 ∧ GetTabiAddress (cview (ex_ctx x)) (cl_caller call) = Some d ∧
    withdrawn d vs (ex_ctx x) (ex_ctx x').
Proof.
  intros H Hr. apply recovering_done in H; [|done]. unfold validateInput in H. destruct (ValidateNonPayable _) eqn:Hv; [no_success H|].
  destruct (ValidateArgsLength _ _) eqn:Hlen; [no_success H|]. apply ValidateArgsLength_done in Hlen.
  apply xbind_done in H as ([d|] & x1 & [Hd Hx1]%reads_done & H); [|no_success H].
  destruct (GetTabiAddress _ _) as [d'|] eqn:Hg; [|done]. injection Hd as ->.
  apply xbind_done in H as (vs & x2 & Hvs & H). apply xbind_done in Hvs as (a & x3 & [Ha ->]%arg_done & Hvs). destruct a; try done.
  injection Hvs as <- <-. apply xbind_done in H as ([e|] & x4 & E & H); [no_success H|]. apply withdraw_each_done in E.
  exists d, l. rewrite (quiet_done _ _ _ _ (xquiet_packed _ _ _) H). rewrite Hx1 in E. split_and!; [|by apply ValidateNonPayable_done|done|done].
  destruct (cl_args call) as [|a [|]]; try done. simpl in Ha. by injection Ha as ->.
Qed.

Context `{DKL : !DistributionLaws MS B A}.
#[local] Hint Resolve dk_SetWithdrawAddr_safe dk_WithdrawDelegationRewards_safe dk_WithdrawValidatorCommission_safe : exec.

Lemma withdraw_keeps d v : xkeeps (λ e, e = None) (withdraw d v : M (option Err)).
Proof. unfold withdraw. keeps. Qed.
Lemma withdraw_each_keeps d vs : xkeeps (λ e, e = None) (withdraw_each d vs : M (option Err)).
Proof.
  induction vs as [|v vs IH]; simpl; [keeps|]. apply (xkeeps_bind (λ e, e = None)); [apply withdraw_keeps|intros []; [keeps|done]|].
  intros [e|] s r s' H ->; [done|done].
Qed.

#[local] Hint Resolve withdraw_keeps withdraw_each_keeps : exec.

Lemma rewards_keeps call : xkeeps succeeded (rewards abi call : M Returned).
Proof.
  apply xkeeps_recovering. keeps. apply (xkeeps_bind (λ _, True)); [|intros []; keeps|done].
  apply xkeeps_writes. intros c c' e [= E%(f_equal fst)]. simpl in E. rewrite <- E. split; [|intros _]; apply dk_DelegationTotalRewards_safe.
Qed.

(** The distribution precompile is one the EVM may call. *)
Lemma distr_LevelExecutor : LevelExecutor (Execute abi : Call → M Returned).
Proof.
  intros call _. unfold Execute. cbv zeta. repeat case_match; try keeps; try apply rewards_keeps; apply xkeeps_recovering; keeps.
Qed.
Lemma distr_SafeExecutor : SafeExecutor (Execute abi : Call → M Returned).
Proof.
  split; [apply distr_LevelExecutor|]. intros call s. unfold Execute. cbv zeta.
  repeat case_match; try apply recovering_returns; by eexists _, _.
Qed.
End DistrLemmas.

(** * Theorems *)

Section DistrTheorems.
Context `{BK : BankKeeper B} `{AK : AccountKeeper A} `{EC : EthCrypto} `{KC : KeeperConfig}.
Context `{MST : MultiStore MS (World B A)} `{MSL : !MultiStoreLaws MS (World B A)} `{SD : SdkDec} `{GM : GasMeters G} `{SG : StoreGas B A G}.
Context `{MR : MapRange} `{BL : !BankLaws B} `{BE : Bech32} `{DK : DistributionKeeper MS} `{DKL : !DistributionLaws MS B A}.
Context `{EVC : EVMCalls MS} `{EVL : !EVMCallsLaws MS B A}.
Variable abi : ABI.
Notation DB := (DBImpl MS).

(** C22: rewards are withdrawn from all the validators or from none.  A call of
    [withdrawMultipleDelegationRewards] returns; when it succeeds, the rewards of
    the account associated with the caller were withdrawn from every validator of
    the list, one after the other in the order of the list; when it fails, because
    of a validator in the middle or for lack of gas, the stores are as before the
    call, though rewards had been withdrawn already. *)
Theorem withdraw_multiple_all_or_nothing caller contract input gas value readOnly delegate args (s s1 : DB) n limit :
  EthReplayConfig_Enabled = false → length (tempStatesHist s) = length (snapshottedCtxs s) → 0 ≤ default 0 value →
  Prepare abi input = inl (WithdrawMultipleDelegationRewardsMethod, args) →
  Snapshot s = Ret (n, s1) → GetCosmosGasLimitFromEVMGas (cview (ctx s1)) gas = Ret limit →
  ∃ r s', evm_call_precompile [] (RunAndCalculateGas abi (Execute abi) caller contract input gas value readOnly delegate) s = Ret (r, s') ∧
    (r.2 = None ∧ (∃ d vs c c', args = [VStrings vs] ∧ readOnly = false ∧ GetTabiAddress (cview (ctx s)) caller = Some d ∧
                     withdrawn d vs c c' ∧ cview c = cview (ctx s) ∧ cview c' = cview (ctx s')) ∨
     r.2 ≠ None ∧ cview (ctx s') = cview (ctx s)).
Proof.
  intros Hlive Hlen Hval Hprep Hs1 Hg.
  destruct (RunAndCalculateGas_returns abi (Execute abi) caller contract input gas value readOnly delegate s1 limit (distr_SafeExecutor abi) Hg)
    as (r & s3 & E).
  pose proof (RunAndCalculateGas_safe _ _ _ _ _ _ _ _ _ _ _ _ (distr_LevelExecutor abi) Hval E) as Hsafe.
  destruct (call_steps Hlive [] _ s s1 s1 s3 n r Hlen (List.Forall_nil _) Hs1 eq_refl E Hsafe) as (s' & H1 & _ & H2).
  exists r, s'. split; [done|]. destruct (r.2) as [e|] eqn:Er; [right; split; [done|]; by destruct H2 as [|[]]|left; split; [done|]].
  apply evm_call_done in H1 as (n2 & s1' & s2' & Hs1' & Hops & Hrun); [|done]. rewrite Hs1 in Hs1'. injection Hs1' as <- <-. injection Hops as <-.
  apply RunAndCalculateGas_done in Hrun as (method & args' & x & x' & Hp & Hx & Vx & _ & Vx' & _); [|done]. rewrite Hprep in Hp. injection Hp as <- <-.
  unfold Execute in Hx. cbn [cl_delegate cl_readOnly cl_method] in Hx. destruct delegate; [no_success Hx|].
  simpl in Hx. destruct readOnly; [no_success Hx|]. apply withdrawMultiple_done in Hx as (d & vs & Ha & _ & Hd & Hw); [|done]. simpl in Ha, Hd.
  assert (Hv : cview (ctx s1) = cview (ctx s)) by (injection Hs1 as _ <-; apply cview_cbranch).
  rewrite Vx, Hv in Hd. exists d, vs, (ex_ctx x), (ex_ctx x'). by rewrite Vx, Hv.
Qed.
End DistrTheorems.

(** * Examples *)

Section DistrExamples.
#[local] Existing Instances demo_bank_keeper demo_bank_laws demo_accounts demo_crypto live_config half_even_dec.
#[local] Existing Instances plain_meter demo_gas demo_call_stores demo_call_stores_laws demo_call_range plain_calls plain_calls_laws marked_bech32.

(** Each withdrawal pays one atabi from the pool of rewards. *)
Definition pool : AccAddress := str_bytes "rewards".
#[local] Instance demo_distribution : DistributionKeeper (stack_ms demo_world) := {|
  dk_SetWithdrawAddr _ _ c := (c, None);
  dk_WithdrawDelegationRewards d v c := run_bank (λ b, bk_SendCoinsAndWei b pool d 1 0) c;
  dk_WithdrawValidatorCommission v c := (c, None);
  dk_DelegationTotalRewards _ c := (c, inl (mkTotalRewards [] []));
  ValAddressFromBech32 t := if String.eqb t "" then inr "empty address string is not allowed"%string else inl (str_bytes t)
|}.
#[local] Instance demo_distribution_laws : DistributionLaws (stack_ms demo_world) demo_bank (gset (list Byte.byte)).
Proof.
  split; [intros d a c; by split| |intros v c; by split|intros d c; by split].
  intros d v c. split; [apply ctx_ext_run_bank|]. unfold dk_WithdrawDelegationRewards, demo_distribution.
  destruct (run_bank_view (λ b, bk_SendCoinsAndWei b pool d 1 0) c) as [V R]. intros H. unfold keeps_worth, bank_of. rewrite V. split; [|done].
  rewrite H in R. destruct (bk_SendCoinsAndWei (w_bank (cview c)) pool d 1 0) as [[b evs] e] eqn:E. cbn [snd] in R. subst e.
  apply (send_conserves pool d 1 0) in E; [exact E|lia|]. unfold AtabiToWeiMultiplier. lia.
Qed.

(** The pool can pay one of the two withdrawals. *)
Definition rewards_ctx : Ctx (stack_ms demo_world) :=
  SetAddressMapping alice_acc (addr_of 7) (demo_ctx (set_bank {[pool := 1500000000000%N]} demo_world0)).
Definition rewards_db : DBImpl (stack_ms demo_world) :=
  match NewDBImpl demo_cache rewards_ctx false with Ret (s, _) => s | Panic _ => tx_db end.
Definition withdraw_args : list AbiValue := [VStrings ["v1"; "v2"]%string].
Definition withdraw_abi : ABI := demo_abi WithdrawMultipleDelegationRewardsMethod withdraw_args.
Definition withdraw_run : stm (DBImpl (stack_ms demo_world)) Returned :=
  evm_call_precompile [] (RunAndCalculateGas withdraw_abi (Execute withdraw_abi) (addr_of 7) (addr_of 7) demo_selector 100000 None false false).

Lemma withdraw_multiple_all_or_nothing_witness : ∃ r s', withdraw_run rewards_db = Ret (r, s') ∧
  r.2 ≠ None ∧ cview (ctx s') = cview (ctx rewards_db).
Proof.
  assert (Hlive : EthReplayConfig_Enabled = false) by reflexivity.
  assert (Hlen : length (tempStatesHist rewards_db) = length (snapshottedCtxs rewards_db)) by reflexivity.
  assert (Hv : 0 ≤ default 0 (None : option Z)) by (simpl; lia).
  assert (Hp : Prepare withdraw_abi demo_selector = inl (WithdrawMultipleDelegationRewardsMethod, withdraw_args)) by reflexivity.
  assert (Hs : Snapshot rewards_db = Ret (1, exec Snapshot rewards_db)) by reflexivity.
  assert (Hg : GetCosmosGasLimitFromEVMGas (cview (ctx (exec Snapshot rewards_db))) 100000 = Ret 100000) by (vm_compute; reflexivity).
  assert (Hno : succeeds (withdraw_run rewards_db) = false) by (vm_compute; reflexivity).
  destruct (withdraw_multiple_all_or_nothing withdraw_abi (addr_of 7) (addr_of 7) demo_selector 100000 None false false withdraw_args
    rewards_db (exec Snapshot rewards_db) 1 100000 Hlive Hlen Hv Hp Hs Hg) as (r & s' & H & [[Hr _]|Ho]).
  - unfold withdraw_run in Hno. rewrite H in Hno. destruct r as [[bz gas] e]. simpl in Hr. subst e. discriminate Hno.
  - exists r, s'. split; [exact H|exact Ho].
Defined.
End DistrExamples.
