(* ===== verification/WasmdPrecompile.v ===== *)
(** * The wasm precompile
    (precompiles/wasmd/wasmd.go)

    Contracts of the EVM instantiate, execute and query wasm contracts, in the
    name of the account associated with the caller.  The coins given to a wasm
    contract must be worth the value of the call; a batch of messages shares it
    out.  In a delegate call, a wasm contract may only be executed by its own
    pointer. *)

From S2P Require Import Prelude Bytes Dec Store Params Keys World Instances Keeper StateDB Snapshots Supply Finalize Frame Fee Eth Block EthTx Msg Receipts Tx Associate.
From S2P Require Import Pointer MsgServer Precompile.
Local Open Scope Z_scope.
Local Open Scope exec_scope.

(** The keepers of the wasm module, the checks of its messages, and the JSON form
    of coins.  A query does not write. *)
Class WasmdKeeper (MS B A : Type) := {
  wd_Instantiate : Z → AccAddress → option AccAddress → bytes → string → Coins → Ctx MS → Ctx MS * (AccAddress * bytes + Err);
  wd_Execute : AccAddress → AccAddress → bytes → Coins → Ctx MS → Ctx MS * (bytes + Err);
  wd_QuerySmartSafe : World B A → AccAddress → bytes → bytes + Err;
  MsgInstantiate_ValidateBasic : bytes → Z → string → Coins → bytes → string → option Err;
  MsgExecute_ValidateBasic : bytes → bytes → bytes → Coins → option Err;
  RawContractMessage_ValidateBasic : bytes → option Err;
  UnmarshalCoins : bytes → Coins + Err
}.

Definition InstantiateMethod : string := "instantiate".
Definition ExecuteMethod : string := "execute".
Definition ExecuteBatchMethod : string := "execute_batch".
Definition QueryMethod : string := "query".

Record ExecuteMsg : Type := mkExecuteMsg { em_ContractAddress : string; em_Msg : bytes; em_Coins : bytes }.

(** The worth of the base coins in wei, and whether it is the value of the call. *)
Definition coins_value (coins : Coins) : Z := AmountOf BaseDenom coins * AtabiToWeiMultiplier.
Definition value_mismatch (value : option Z) (coinsValue : Z) : bool :=
  match value with None => 0 <? coinsValue | Some v => negb (coinsValue =? v) end.

Section Wasmd.
Context `{BK : BankKeeper B} `{CK : CoinsKeeper B} `{AK : AccountKeeper A} `{EC : EthCrypto} `{KC : KeeperConfig}.
Context `{MST : MultiStore MS (World B A)} `{SD : SdkDec} `{GM : GasMeters G} `{SG : StoreGas B A G}.
Context `{EH : EthHex} `{BE : Bech32} `{WD : WasmdKeeper MS B A}.
Variable abi : ABI.
Variable chainID : string.
Variable versionOverride : Z.
(** [ctx.IsEVM()] *)
Variable isEVM : bool.
Notation M X := (exec_m MS G X).

Definition arg_bytes (args : list AbiValue) (i : nat) : M bytes :=
  let% v := arg args i in match v with VBytes b => xret b | _ => xpanic bad_assertion end.
Definition to_execute_msg (v : AbiValue) : option ExecuteMsg :=
  match v with VStruct [VString c; VBytes m; VBytes f] => Some (mkExecuteMsg c m f) | _ => None end.
Definition arg_execute_msgs (args : list AbiValue) (i : nat) : M (list ExecuteMsg) :=
  let% v := arg args i in
  match v with
  | VArray l => match mapM to_execute_msg l with Some ms => xret ms | None => xpanic bad_assertion end
  | _ => xpanic bad_assertion
  end.

(** The payment of the coins, if there is a value and the coins are worth any of
    it. *)
Definition pay_coins (value : option Z) (payer : AccAddress) (coins : Coins) : M (option Err) :=
  let atabiAmt := AmountOf BaseDenom coins in
  match value with
  | Some _ =>
      if atabiAmt =? 0 then xret None else
      let% precompileAddr := reads "GetTabiAddressOrDefault" (λ w, Ret (GetTabiAddressOrDefault w (HexToAddress WasmdAddress))) in
      let% paid := HandlePaymentUtabi precompileAddr payer (atabiAmt * AtabiToWeiMultiplier) in
      match paid with
      | inr e => xret (Some e)
      | inl coin => xret (if coin =? atabiAmt then None else Some "mismatch between coins and payment value"%string)
      end
  | None => xret None
  end.

Definition instantiate (call : Call) : M Returned := recovering_as "" (
  let args := cl_args call in
  let value := cl_value call in
  if cl_readOnly call then xret (failed "cannot call instantiate from staticcall") else
  ensure% ValidateArgsLength args 5;
  if cl_delegate call then xret (failed "cannot delegatecall instantiate") else
  let% codeID := arg_int args 0 in
  let% found := reads "GetTabiAddress" (λ w, Ret (GetTabiAddress w (cl_caller call))) in
  match found with
  | None => xret (failed AssociationMissingErr)
  | Some creatorAddr =>
  let% adminAddrStr := arg_string args 1 in
  let admin := if String.eqb adminAddrStr "" then inl None
               else match AccAddressFromBech32 (str_bytes adminAddrStr) with Some a => inl (Some a) | None => inr ErrBech32 end in
  try% adminAddr := admin in
  let% msg := arg_bytes args 2 in
  let% label := arg_string args 3 in
  let% coinsBz := arg_bytes args 4 in
  try% coins := UnmarshalCoins coinsBz in
  if value_mismatch value (coins_value coins) then xret (failed "coin amount must equal value specified") else
  ensure% MsgInstantiate_ValidateBasic (acc_String creatorAddr) codeID label coins msg adminAddrStr;
  let% e := pay_coins value creatorAddr coins in
  ensure% e;
  let% r := writes "Instantiate" (λ c, Ret (wd_Instantiate codeID creatorAddr adminAddr msg label coins c)) in
  try% res := r in
  packed abi call [VString (String.string_of_list_byte (acc_String res.1)); VBytes res.2]
  end).

(** In a delegate call the calling contract must be a pointer of the wasm
    contract. *)
Definition is_pointer (callingContract : Address) (p : option (Address * Z)) : bool := bool_decide (fst <$> p = Some callingContract).
Definition check_pointer (call : Call) (contractAddrStr : string) : M (option Err) :=
  if cl_delegate call then
    let t := str_bytes contractAddrStr in
    let% p20 := (λ s, reads "GetERC20CW20Pointer" (λ w, GetERC20CW20Pointer chainID versionOverride (ci_isTracing (c_info (ex_ctx s))) w t) s) in
    let% p721 := (λ s, reads "GetERC721CW721Pointer" (λ w, GetERC721CW721Pointer (ci_isTracing (c_info (ex_ctx s))) w t) s) in
    let% p1155 := (λ s, reads "GetERC1155CW1155Pointer" (λ w, GetERC1155CW1155Pointer (ci_isTracing (c_info (ex_ctx s))) w t) s) in
    if existsb (is_pointer (cl_callingContract call)) [p20; p721; p1155] then xret None else xret (Some "not a pointer of the contract"%string)
  else xret None.

Definition execute (call : Call) : M Returned := recovering_as "" (
  let args := cl_args call in
  let value := cl_value call in
  if cl_readOnly call then xret (failed "cannot call execute from staticcall") else
  ensure% ValidateArgsLength args 3;
  let% contractAddrStr := arg_string args 0 in
  let% refused := check_pointer call contractAddrStr in
  ensure% refused;
  match AccAddressFromBech32 (str_bytes contractAddrStr) with
  | None => xret (failed ErrBech32)
  | Some contractAddr =>
  let% found := reads "GetTabiAddress" (λ w, Ret (GetTabiAddress w (cl_caller call))) in
  match found with
  | None => xret (failed AssociationMissingErr)
  | Some senderAddr =>
  let% msg := arg_bytes args 1 in
  let% coinsBz := arg_bytes args 2 in
  try% coins := UnmarshalCoins coinsBz in
  if value_mismatch value (coins_value coins) then xret (failed "coin amount must equal value specified") else
  ensure% MsgExecute_ValidateBasic (acc_String senderAddr) (acc_String contractAddr) msg coins;
  let% e := pay_coins value senderAddr coins in
  ensure% e;
  let% r := writes "Execute" (λ c, Ret (wd_Execute contractAddr senderAddr msg coins c)) in
  try% res := r in
  packed abi call [VBytes res]
  end
  end).

(** The first loop of a batch: the worth of the coins of all messages. *)
Fixpoint sum_values (msgs : list ExecuteMsg) (total : Z) : Z + Err :=
  match msgs with
  | [] => inl total
  | m :: ms => match UnmarshalCoins (em_Coins m) with inr e => inr e | inl coins => sum_values ms (total + coins_value coins) end
  end.

(** The payment of one message, out of what is left of the value. *)
Definition pay_message (rest : option Z) (senderAddr : AccAddress) (coins : Coins) : M (option Z + Err) :=
  let atabiAmt := AmountOf BaseDenom coins in
  match rest with
  | Some v =>
      if atabiAmt =? 0 then xret (inl rest) else
      let atabiAmtAsWei := atabiAmt * AtabiToWeiMultiplier in
      let% precompileAddr := reads "GetTabiAddressOrDefault" (λ w, Ret (GetTabiAddressOrDefault w (HexToAddress WasmdAddress))) in
      let% paid := HandlePaymentUtabi precompileAddr senderAddr atabiAmtAsWei in
      match paid with
      | inr e => xret (inr e)
      | inl coin =>
          if v - atabiAmtAsWei <? 0 then xret (inr "insufficient value provided for payment"%string) else
          if negb (coin =? atabiAmt) then xret (inr "mismatch between coins and payment value"%string) else
          xret (inl (Some (v - atabiAmtAsWei)))
      end
  | None => xret (inl None)
  end.

(** The second loop: what is left of the value, and the responses. *)
Fixpoint execute_each (call : Call) (msgs : list ExecuteMsg) (rest : option Z) (responses : list bytes) : M (option Z * list bytes + Err) :=
  match msgs with
  | [] => xret (inl (rest, responses))
  | m :: ms =>
      let contractAddrStr := em_ContractAddress m in
      let% refused := check_pointer call contractAddrStr in
      match refused with
      | Some e => xret (inr e)
      | None =>
      match AccAddressFromBech32 (str_bytes contractAddrStr) with
      | None => xret (inr ErrBech32)
      | Some contractAddr =>
      let% found := reads "GetTabiAddress" (λ w, Ret (GetTabiAddress w (cl_caller call))) in
      match found with
      | None => xret (inr AssociationMissingErr)
      | Some senderAddr =>
      match UnmarshalCoins (em_Coins m) with
      | inr e => xret (inr e)
      | inl coins =>
      let% paid := pay_message rest senderAddr coins in
      match paid with
      | inr e => xret (inr e)
      | inl rest' =>
      match MsgExecute_ValidateBasic (acc_String senderAddr) (acc_String contractAddr) (em_Msg m) coins with
      | Some e => xret (inr e)
      | None =>
      let% r := writes "Execute" (λ c, Ret (wd_Execute contractAddr senderAddr (em_Msg m) coins c)) in
      match r with
      | inr e => xret (inr e)
      | inl res => execute_each call ms rest' (responses ++ [res])
      end end end end end end end
  end.

Definition executeBatch (call : Call) : M Returned := recovering_as "" (
  let args := cl_args call in
  let value := cl_value call in
  if cl_readOnly call then xret (failed "cannot call execute from staticcall") else
  ensure% ValidateArgsLength args 1;
  let% executeMsgs := arg_execute_msgs args 0 in
  try% validateValue := sum_values executeMsgs 0 in
  if value_mismatch value validateValue then xret (failed "sum of coin amounts must equal value specified") else
  let% r := execute_each call executeMsgs value [] in
  try% out := r in
  if match out.1 with Some v => negb (v =? 0) | None => false end
  then xret (failed "value remaining after execution, must match provided amounts exactly") else
  packed abi call [VArray (VBytes <$> out.2)]).

Definition query (call : Call) : M Returned := recovering_as "" (
  let args := cl_args call in
  ensure% ValidateNonPayable (cl_value call);
  ensure% ValidateArgsLength args 2;
  let% contractAddrStr := arg_string args 0 in
  match AccAddressFromBech32 (str_bytes contractAddrStr) with
  | None => xret (failed ErrBech32)
  | Some contractAddr =>
      let% req := arg_bytes args 1 in
      ensure% RawContractMessage_ValidateBasic req;
      let% r := reads "QuerySmartSafe" (λ w, Ret (wd_QuerySmartSafe w contractAddr req)) in
      try% res := r in
      packed abi call [VBytes res]
  end).

(** A call that came from wasm may only query. *)
Definition Execute (call : Call) : M Returned :=
  let m := cl_method call in
  if negb (String.eqb m QueryMethod) && negb isEVM then xret (failed "tabi does not support CW->EVM->CW call pattern") else
  if String.eqb m InstantiateMethod then instantiate call else
  if String.eqb m ExecuteMethod then execute call else
  if String.eqb m ExecuteBatchMethod then executeBatch call else
  if String.eqb m QueryMethod then query call else
  xret ([], 0, None).
End Wasmd.

(** * Lemmas *)

Section WasmdLemmas.
Context `{BK : BankKeeper B} `{CK : CoinsKeeper B} `{AK : AccountKeeper A} `{EC : EthCrypto} `{KC : KeeperConfig}.
Context `{MST : MultiStore MS (World B A)} `{MSL : !MultiStoreLaws MS (World B A)} `{SD : SdkDec} `{GM : GasMeters G} `{SG : StoreGas B A G}.
Context `{EH : EthHex} `{BE : Bech32} `{WD : WasmdKeeper MS B A} `{BL : !BankLaws B} `{CL : !CoinsLaws B}.
Variable abi : ABI.
Variable chainID : string.
Variable versionOverride : Z.
Notation M X := (exec_m MS G X).

(** The calling contract is a pointer of the wasm contract. *)
Definition pointer_of_contract (call : Call) (text : string) (c : Ctx MS) : Prop :=
  let tracing := ci_isTracing (c_info c) in
  ∃ ver, GetERC20CW20Pointer chainID versionOverride tracing (cview c) (str_bytes text) = Ret (Some (cl_callingContract call, ver)) ∨
         GetERC721CW721Pointer tracing (cview c) (str_bytes text) = Ret (Some (cl_callingContract call, ver)) ∨
         GetERC1155CW1155Pointer tracing (cview c) (str_bytes text) = Ret (Some (cl_callingContract call, ver)).

(** The precompile has paid an amount back to the sender. *)
Definition paid_back (sender : AccAddress) (amount : Z) (c c' : Ctx MS) : Prop :=
  amount = 0 ∧ cview c' = cview c ∨
  0 < amount ∧ ∃ b1 b2, bank_moved (bank_of c) b1 (GetTabiAddressOrDefault (cview c) (HexToAddress WasmdAddress)) (- (amount * AtabiToWeiMultiplier)) ∧
    bank_moved b1 b2 sender (amount * AtabiToWeiMultiplier) ∧ cview c' = set_bank b2 (cview c).

(** The messages were executed one after the other, each with its own coins. *)
Inductive executed (call : Call) : list ExecuteMsg → Ctx MS → Ctx MS → list bytes → Prop :=
| executed_none c : executed call [] c c []
| executed_one m ms contract sender coins c c1 c2 c' res ress :
    (cl_delegate call = true → pointer_of_contract call (em_ContractAddress m) c) →
    AccAddressFromBech32 (str_bytes (em_ContractAddress m)) = Some contract → GetTabiAddress (cview c) (cl_caller call) = Some sender →
    UnmarshalCoins (em_Coins m) = inl coins → paid_back sender (AmountOf BaseDenom coins) c c1 →
    wd_Execute contract sender (em_Msg m) coins c1 = (c2, inl res) → executed call ms c2 c' ress →
    executed call (m :: ms) c c' (res :: ress).

Lemma check_pointer_done call text x x' : (check_pointer chainID versionOverride call text : M (option Err)) x = Done None x' →
  ex_ctx x' = ex_ctx x ∧ (cl_delegate call = true → pointer_of_contract call text (ex_ctx x)).
Proof.
  unfold check_pointer. destruct (cl_delegate call); [|by intros [= <-]]. cbv zeta.
  intros (p1 & x1 & [H1 Hx1]%reads_done & H)%xbind_done. apply xbind_done in H as (p2 & x2 & [H2 Hx2]%reads_done & H).
  apply xbind_done in H as (p3 & x3 & [H3 Hx3]%reads_done & H). rewrite Hx2, Hx1 in H3. rewrite Hx1 in H2.
  destruct (existsb _ _) eqn:Hp; [|done]. injection H as <-. split; [congruence|]. intros _.
  apply existsb_exists in Hp as (p & Hin & Hp). unfold is_pointer in Hp. apply bool_decide_eq_true in Hp.
  destruct p as [[q ver]|]; [|done]. injection Hp as ->. exists ver. rewrite H1, H2, H3. simpl in Hin. destruct Hin as [->|[->|[->|[]]]]; auto.
Qed.

Lemma split_whole n : SplitAtabiWeiAmount (n * AtabiToWeiMultiplier) = (n, 0).
Proof. unfold SplitAtabiWeiAmount. rewrite Z.quot_mul, Z.mod_mul by done. done. Qed.

Lemma pay_message_done v sender coins x rest x' : (pay_message (Some v) sender coins : M (option Z + Err)) x = Done (inl rest) x' →
  rest = Some (v - coins_value coins) ∧ paid_back sender (AmountOf BaseDenom coins) (ex_ctx x) (ex_ctx x').
Proof.
  unfold pay_message, coins_value. set (n := AmountOf BaseDenom coins).
  destruct (Z.eqb_spec n 0) as [->|Hn]; [intros [= <- <-]; split; [f_equal; lia|by left]|].
  intros (p & x1 & [[= <-] Hx1]%reads_done & H)%xbind_done. apply xbind_done in H as ([coin|] & x2 & E & H); [|done].
  assert (Hpos : 0 ≤ n).
  { unfold HandlePaymentUtabi in E. rewrite split_whole in E. simpl in E. by destruct (Z.ltb_spec n 0). }
  apply HandlePaymentUtabi_done in E as (_ & _ & b1 & b2 & M1 & M2 & V2); [|unfold AtabiToWeiMultiplier; lia].
  destruct (_ <? 0); [done|]. destruct (negb _); [done|]. injection H as <- <-. split; [done|]. right. split; [lia|].
  rewrite Hx1 in M1, V2. by exists b1, b2.
Qed.

Lemma execute_each_done call ms v resps x out x' :
  (execute_each chainID versionOverride call ms (Some v) resps : M (option Z * list bytes + Err)) x = Done (inl out) x' →
  ∃ ress, out.2 = resps ++ ress ∧ executed call ms (ex_ctx x) (ex_ctx x') ress.
Proof.
  revert v resps x. induction ms as [|m ms IH]; intros v resps x H.
  { injection H as <- <-. exists []. split; [by rewrite app_nil_r|constructor]. }
  simpl in H. apply xbind_done in H as ([e|] & x1 & E1 & H); [done|]. apply check_pointer_done in E1 as [Hx1 Hptr].
  destruct (AccAddressFromBech32 _) as [contract|] eqn:Hc; [|done].
  apply xbind_done in H as (found & x2 & [[= Hs] Hx2]%reads_done & H). destruct found as [sender|]; [|done].
  destruct (UnmarshalCoins _) as [coins|] eqn:Hcoins; [|done]. apply xbind_done in H as ([rest|] & x3 & E3 & H); [|done].
  apply pay_message_done in E3 as [-> Hpaid]. destruct (MsgExecute_ValidateBasic _ _ _ _); [done|].
  apply xbind_done in H as ([res|] & x4 & E4%writes_done & H); [|done]. injection E4 as E4. apply IH in H as (ress & Hout & Hex).
  exists (res :: ress). split; [by rewrite Hout, <- app_assoc|]. rewrite Hx2, Hx1 in Hpaid. rewrite Hx1 in Hs.
  econstructor; eauto.
Qed.

Lemma packed_done a call vs x r x' : (packed a call vs : M Returned) x = Done r x' → succeeded r →
  ex_ctx x' = ex_ctx x ∧ Pack a (cl_method call) vs = inl r.1.1.
Proof.
  intros H Hr. split; [by apply (quiet_done _ _ _ _ (xquiet_packed _ _ _) H)|]. apply xbind_done in H as (gas & x1 & _ & H).
  injection H as <- _. by destruct (Pack a _ vs).
Qed.
End WasmdLemmas.

(** * Theorems *)

Section WasmdTheorems.
Context `{BK : BankKeeper B} `{CK : CoinsKeeper B} `{AK : AccountKeeper A} `{EC : EthCrypto} `{KC : KeeperConfig}.
Context `{MST : MultiStore MS (World B A)} `{MSL : !MultiStoreLaws MS (World B A)} `{SD : SdkDec} `{GM : GasMeters G} `{SG : StoreGas B A G}.
Context `{EH : EthHex} `{BE : Bech32} `{WD : WasmdKeeper MS B A} `{BL : !BankLaws B} `{CL : !CoinsLaws B}.
Variable abi : ABI.
Variable chainID : string.
Variable versionOverride : Z.
Variable isEVM : bool.
Notation DB := (DBImpl MS).

(** C9: a batch of wasm messages shares out exactly the value of the call.  When a
    call of [execute_batch] succeeds, the base coins of its messages are together
    worth the value; the messages were executed one after the other, each with its
    own coins, which the precompile had given back to the account associated with
    the caller just before; in a delegate call, each wasm contract had the calling
    contract as a pointer when its turn came; and what is returned are the responses
    in the order of the messages.  A static call, or one that came from wasm, never
    succeeds. *)
Theorem execute_batch_shares_value caller contract input gas v readOnly delegate args (s s' : DB) r :
  Prepare abi input = inl (ExecuteBatchMethod, args) →
  RunAndCalculateGas abi (Execute abi chainID versionOverride isEVM) caller contract input gas (Some v) readOnly delegate s = Ret (r, s') → r.2 = None →
  ∃ vs msgs ress c c', args = [VArray vs] ∧ mapM to_execute_msg vs = Some msgs ∧ readOnly = false ∧ isEVM = true ∧
    sum_values msgs 0 = inl v ∧
    executed chainID versionOverride (mkCall ExecuteBatchMethod caller contract args (Some v) readOnly delegate) msgs c c' ress ∧
    cview c = cview (ctx s) ∧ cview c' = cview (ctx s') ∧ Pack abi ExecuteBatchMethod [VArray (VBytes <$> ress)] = inl r.1.1.
Proof.
  intros Hprep Hrun Hr. apply RunAndCalculateGas_done in Hrun as (method & args' & x & x' & Hp & Hx & Vx & _ & Vx' & _); [|done].
  rewrite Hprep in Hp. injection Hp as <- <-. set (call := mkCall _ _ _ _ _ _ _) in *. unfold Execute in Hx.
  replace (cl_method call) with ExecuteBatchMethod in Hx by done. simpl in Hx. destruct isEVM; [|no_success Hx].
  apply recovering_done in Hx; [|done]. replace (cl_readOnly call) with readOnly in Hx by done. destruct readOnly; [no_success Hx|].
  destruct (ValidateArgsLength _ _) eqn:Hlen; [no_success Hx|]. apply ValidateArgsLength_done in Hlen.
  apply xbind_done in Hx as (msgs & x1 & Hm & Hx). apply xbind_done in Hm as (a & x2 & [Ha ->]%arg_done & Hm).
  destruct a as [| | | | | | | |vs]; try done. destruct (mapM to_execute_msg vs) as [ms|] eqn:Hms; [|done]. injection Hm as <- <-.
  destruct (sum_values ms 0) as [total|] eqn:Hsum; [|no_success Hx]. replace (cl_value call) with (Some v) in Hx by done. simpl in Hx.
  destruct (Z.eqb_spec total v) as [->|]; [|no_success Hx]. simpl in Hx.
  apply xbind_done in Hx as ([out|] & x3 & E & Hx); [|no_success Hx]. apply execute_each_done in E as (ress & Hout & Hex).
  destruct (match out.1 with Some _ => _ | None => _ end); [no_success Hx|]. apply packed_done in Hx as [Hx3 Hpack]; [|done].
  rewrite Hout in Hpack. exists vs, ms, ress, (ex_ctx x), (ex_ctx x'). rewrite Hx3. rewrite Hx3 in Vx'.
  split_and!; try done. replace (cl_args call) with args in * by done. destruct args as [|a [|]]; try done. by injection Ha as ->.
Qed.
End WasmdTheorems.

(** * Examples *)

Section WasmdExamples.
#[local] Existing Instances demo_bank_keeper demo_bank_laws demo_coins demo_coins_laws demo_accounts demo_crypto live_config half_even_dec.
#[local] Existing Instances plain_meter demo_gas demo_call_stores demo_call_stores_laws demo_call_range plain_hex marked_bech32.

(** The coins are a number of base units in one byte; executing a contract pays
    it the coins and returns the message. *)
#[local] Instance demo_wasmd : WasmdKeeper (stack_ms demo_world) demo_bank (gset (list Byte.byte)) := {|
  wd_Instantiate _ _ _ m _ _ c := (c, inl (str_bytes "new", m));
  wd_Execute contract sender m cs c :=
    match run_bank (λ b, bk_SendCoins b sender contract cs) c with
    | (c', None) => (c', inl m)
    | (c', Some e) => (c', inr e)
    end;
  wd_QuerySmartSafe _ _ m := inl m;
  MsgInstantiate_ValidateBasic _ _ _ _ _ _ := None;
  MsgExecute_ValidateBasic _ _ _ _ := None;
  RawContractMessage_ValidateBasic _ := None;
  UnmarshalCoins b := match b with [] => inl [] | [n] => inl [(BaseDenom, bval n)] | _ => inr "invalid coins"%string end
|}.

(** The precompile has been paid three atabi, for messages with two, none and one. *)
Definition batch_ctx : Ctx (stack_ms demo_world) :=
  SetAddressMapping alice_acc (addr_of 7) (demo_ctx (set_bank {[ba (HexToAddress WasmdAddress) := 3000000000000%N]} demo_world0)).
Definition batch_db : DBImpl (stack_ms demo_world) :=
  match NewDBImpl demo_cache batch_ctx false with Ret (s, _) => s | Panic _ => tx_db end.
Definition batch_msgs : list AbiValue :=
  [VStruct [VString "ta"; VBytes [Byte.x0a]; VBytes [Byte.x02]]; VStruct [VString "tb"; VBytes [Byte.x0b]; VBytes []];
   VStruct [VString "ta"; VBytes [Byte.x0c]; VBytes [Byte.x01]]].
Definition batch_abi : ABI := demo_abi ExecuteBatchMethod [VArray batch_msgs].

Lemma batch_runs : ∃ r s',
  RunAndCalculateGas batch_abi (Execute batch_abi "" 0 true) (addr_of 7) (addr_of 7) demo_selector 100000 (Some 3000000000000) false false batch_db =
  Ret (r, s') ∧ r.2 = None.
Proof. apply succeeds_ret. vm_compute. reflexivity. Qed.

Lemma execute_batch_shares_value_witness : ∃ msgs c c' ress,
  executed "" 0 (mkCall ExecuteBatchMethod (addr_of 7) (addr_of 7) [VArray batch_msgs] (Some 3000000000000) false false) msgs c c' ress ∧
  sum_values msgs 0 = inl 3000000000000 ∧ cview c = cview (ctx batch_db).
Proof.
  destruct batch_runs as (r & s' & E & Hr).
  assert (Hp : Prepare batch_abi demo_selector = inl (ExecuteBatchMethod, [VArray batch_msgs])) by reflexivity.
  destruct (execute_batch_shares_value batch_abi "" 0 true (addr_of 7) (addr_of 7) demo_selector 100000 3000000000000 false false [VArray batch_msgs]
    batch_db s' r Hp E Hr) as (vs & msgs & ress & c & c' & _ & _ & _ & _ & Hsum & Hex & Hc & _).
  exists msgs, c, c', ress. split; [exact Hex|]. split; [exact Hsum|exact Hc].
Defined.
End WasmdExamples.
