(* ===== verification/IBCPrecompile.v ===== *)
(** * The IBC precompile
    (precompiles/ibc/ibc.go)

    Contracts send coins of the account associated with the caller to another
    chain, with a timeout they give or with one computed from the state of the
    counterparty's light client.  Heights and timestamps are uint64 and wrap
    around. *)

From S2P Require Import Prelude Bytes Dec Store Params Keys World Instances Keeper StateDB Snapshots Supply Finalize Frame Fee Eth Block EthTx Msg Receipts Tx Associate.
From S2P Require Import Pointer MsgServer Precompile.
Local Open Scope Z_scope.
Local Open Scope exec_scope.

(** [clienttypes.Height] and [types.MsgTransfer]. *)
Record Height : Type := mkHeight { RevisionNumber : Z; RevisionHeight : Z }.
Record MsgTransfer : Type := mkMsgTransfer {
  mt_SourcePort : string;
  mt_SourceChannel : string;
  mt_Denom : string;
  mt_Amount : Z;
  mt_Sender : bytes;
  mt_Receiver : string;
  mt_TimeoutHeight : Height;
  mt_TimeoutTimestamp : Z;
  mt_Memo : string
}.

(** The IBC modules: channels (by their connection hops), connections (by their
    client), clients (by their latest height), the timestamps of consensus
    states, the checks and the handler of a transfer, and the default timeouts. *)
Class IbcKeepers (MS : Type) := {
  ik_GetChannel : Ctx MS → string → string → option (list string);
  ik_GetConnection : Ctx MS → string → option string;
  ik_GetClientState : Ctx MS → string → option Height;
  ik_GetClientConsensusState : Ctx MS → string → Height → option Z;
  MsgTransfer_ValidateBasic : MsgTransfer → option Err;
  ik_Transfer : MsgTransfer → Ctx MS → Ctx MS * option Err;
  DefaultRelativePacketTimeoutHeight : Height + Err;
  DefaultRelativePacketTimeoutTimestamp : Z
}.

Definition TransferMethod : string := "transfer".
Definition TransferWithDefaultTimeoutMethod : string := "transferWithDefaultTimeout".
Definition IBCAddress : string := "0x0000000000000000000000000000000000001009".

Record ValidatedArgs : Type := mkValidatedArgs {
  va_senderTabiAddr : AccAddress;
  va_receiverAddressString : string;
  va_port : string;
  va_channelID : string;
  va_denom : string;
  va_amount : Z
}.

Section Ibc.
Context `{BK : BankKeeper B} `{AK : AccountKeeper A} `{EC : EthCrypto} `{KC : KeeperConfig}.
Context `{MST : MultiStore MS (World B A)} `{SD : SdkDec} `{GM : GasMeters G} `{SG : StoreGas B A G}.
Context `{BE : Bech32} `{IL : IntLibs} `{IK : IbcKeepers MS}.
Variable abi : ABI.
(** [ctx.BlockTime().UnixNano()], an int64. *)
Variable blockTime : Z.
Notation M X := (exec_m MS G X).

(** A read of another module's store. *)
Definition reads_ctx {X : Type} (name : string) (f : Ctx MS → X) : M X := λ s, reads name (λ _, Ret (f (ex_ctx s))) s.

(** Type assertions that are checked. *)
Definition string_ok (v : AbiValue) (e : Err) : string + Err := match v with VString s => inl s | _ => inr e end.
Definition int_ok (v : AbiValue) (e : Err) : Z + Err := match v with VInt z => inl z | _ => inr e end.

Definition validateCommonArgs (args : list AbiValue) (caller : Address) : M (ValidatedArgs + Err) :=
  let% found := reads "GetTabiAddress" (λ w, Ret (GetTabiAddress w caller)) in
  match found with
  | None => xret (inr "caller is not a valid SEI address"%string)
  | Some senderTabiAddr =>
  let% a0 := arg args 0 in
  match string_ok a0 "receiverAddress is not a string or empty" with
  | inr e => xret (inr e)
  | inl receiver =>
  if String.eqb receiver "" then xret (inr "receiverAddress is not a string or empty"%string) else
  let% a1 := arg args 1 in
  match string_ok a1 "port is not a string" with
  | inr e => xret (inr e)
  | inl port =>
  if String.eqb port "" then xret (inr "port cannot be empty"%string) else
  let% a2 := arg args 2 in
  match string_ok a2 "channelID is not a string" with
  | inr e => xret (inr e)
  | inl channelID =>
  if String.eqb channelID "" then xret (inr "channelID cannot be empty"%string) else
  let% denom := arg_string args 3 in
  if String.eqb denom "" then xret (inr "invalid denom"%string) else
  let% a4 := arg args 4 in
  match int_ok a4 "amount is not a big.Int" with
  | inr e => xret (inr e)
  | inl amount => xret (inl (mkValidatedArgs senderTabiAddr receiver port channelID denom amount))
  end end end end end.

(** What both methods do with a message: the memo is the last argument. *)
Definition send_msg (call : Call) (v : ValidatedArgs) (amount : Z) (height : Height) (timestamp : Z) (memo : nat) : M Returned :=
  let% m := arg_string (cl_args call) memo in
  let msg := mkMsgTransfer (va_port v) (va_channelID v) (va_denom v) amount (acc_String (va_senderTabiAddr v))
               (va_receiverAddressString v) height timestamp m in
  ensure% MsgTransfer_ValidateBasic msg;
  let% e := writes "Transfer" (λ c, Ret (ik_Transfer msg c)) in
  ensure% e;
  packed abi call [VBool true].

Definition transfer (call : Call) : M Returned := recovering_as "" (
  let args := cl_args call in
  ensure% ValidateArgsLength args 9;
  let% r := validateCommonArgs args (cl_caller call) in
  try% v := r in
  if va_amount v =? 0 then packed abi call [VBool true] else
  let% amount := xlift (NewIntFromBigInt (va_amount v)) in
  let% a5 := arg args 5 in
  try% revisionNumber := int_ok a5 "revisionNumber is not a uint64" in
  let% a6 := arg args 6 in
  try% revisionHeight := int_ok a6 "revisionHeight is not a uint64" in
  let% a7 := arg args 7 in
  try% timeoutTimestamp := int_ok a7 "timeoutTimestamp is not a uint64" in
  send_msg call v amount (mkHeight revisionNumber revisionHeight) timeoutTimestamp 8).

(** The client of the channel's first connection. *)
Definition getChannelConnection (port channelID : string) : M (string + Err) :=
  let% channel := reads_ctx "GetChannel" (λ c, ik_GetChannel c port channelID) in
  match channel with
  | None => xret (inr "channel not found"%string)
  | Some [] => xpanic "index out of range"
  | Some (hop :: _) =>
      let% connection := reads_ctx "GetConnection" (λ c, ik_GetConnection c hop) in
      xret (match connection with Some clientId => inl clientId | None => inr "connection not found"%string end)
  end.

Definition getConsensusLatestHeight (clientId : string) : M (Height + Err) :=
  let% state := reads_ctx "GetClientState" (λ c, ik_GetClientState c clientId) in
  xret (match state with Some h => inl h | None => inr "could not get the client state"%string end).

Definition GetAdjustedHeight (latest : Height) : Height + Err :=
  match DefaultRelativePacketTimeoutHeight with
  | inr e => inr e
  | inl d => inl (mkHeight (u64 (RevisionNumber latest + RevisionNumber d)) (u64 (RevisionHeight latest + RevisionHeight d)))
  end.

Definition adjusted_timestamp (consensusStateTimestamp : Z) : Z + Err :=
  if 0 <? blockTime then
    let now := u64 blockTime in
    if consensusStateTimestamp <? now then inl (u64 (now + DefaultRelativePacketTimeoutTimestamp))
    else inl (u64 (consensusStateTimestamp + DefaultRelativePacketTimeoutTimestamp))
  else inr "block time is not greater than Jan 1st, 1970 12:00 AM"%string.
Definition GetAdjustedTimestamp (clientId : string) (height : Height) : M (Z + Err) :=
  let% state := reads_ctx "GetClientConsensusState" (λ c, ik_GetClientConsensusState c clientId height) in
  xret (adjusted_timestamp (default 0 state)).

Definition transferWithDefaultTimeout (call : Call) : M Returned := recovering_as "" (
  let args := cl_args call in
  ensure% ValidateArgsLength args 6;
  let% r := validateCommonArgs args (cl_caller call) in
  try% v := r in
  if va_amount v =? 0 then packed abi call [VBool true] else
  let% amount := xlift (NewIntFromBigInt (va_amount v)) in
  let% connection := getChannelConnection (va_port v) (va_channelID v) in
  try% clientId := connection in
  let% latest := getConsensusLatestHeight clientId in
  try% latestConsensusHeight := latest in
  try% height := GetAdjustedHeight latestConsensusHeight in
  let% timestamp := GetAdjustedTimestamp clientId latestConsensusHeight in
  try% timeoutTimestamp := timestamp in
  send_msg call v amount height timeoutTimestamp 5).

Definition Execute (call : Call) : M Returned :=
  ensure% ValidateNonPayable (cl_value call);
  if cl_readOnly call then xret (failed "cannot call IBC precompile from staticcall") else
  if cl_delegate call then xret (failed "cannot delegatecall IBC") else
  if String.eqb (cl_method call) TransferMethod then transfer call else
  if String.eqb (cl_method call) TransferWithDefaultTimeoutMethod then transferWithDefaultTimeout call else
  xret ([], 0, None).
End Ibc.

(** * Lemmas *)

(** What the precompile relies on of the IBC modules: a transfer moves coins, and
    the default timeout is an uint64. *)
Class IbcLaws (MS B A : Type) `{BK : BankKeeper B} `{MST : MultiStore MS (World B A)} `{IK : IbcKeepers MS} : Prop := {
  ik_Transfer_safe : ∀ m, handler_safe (ik_Transfer m);
  default_timeout_range : 0 < DefaultRelativePacketTimeoutTimestamp ≤ maxInt64
}.

Section IbcLemmas.
Context `{BK : BankKeeper B} `{AK : AccountKeeper A} `{EC : EthCrypto} `{KC : KeeperConfig}.
Context `{MST : MultiStore MS (World B A)} `{MSL : !MultiStoreLaws MS (World B A)} `{SD : SdkDec} `{GM : GasMeters G} `{SG : StoreGas B A G}.
Context `{BE : Bech32} `{IL : IntLibs} `{IK : IbcKeepers MS} `{IKL : !IbcLaws MS B A}.
Variable abi : ABI.
Variable blockTime : Z.
Notation M X := (exec_m MS G X).

Lemma xquiet_reads_ctx {X} name (f : Ctx MS → X) : xquiet (reads_ctx name f : M X).
Proof. apply (xquiet_reads_in name (λ s _, Ret (f (ex_ctx s)))). Qed.
#[local] Hint Resolve xquiet_reads_ctx : exec.
Lemma xquiet_validateCommonArgs args caller : xquiet (validateCommonArgs args caller : M (ValidatedArgs + Err)).
Proof. unfold validateCommonArgs. quiet. Qed.
Lemma xquiet_getChannelConnection p c : xquiet (getChannelConnection p c : M (string + Err)).
Proof. unfold getChannelConnection. quiet. Qed.
Lemma xquiet_getConsensusLatestHeight c : xquiet (getConsensusLatestHeight c : M (Height + Err)).
Proof. unfold getConsensusLatestHeight. quiet. Qed.
Lemma xquiet_GetAdjustedTimestamp c h : xquiet (GetAdjustedTimestamp blockTime c h : M (Z + Err)).
Proof. unfold GetAdjustedTimestamp. quiet. Qed.
#[local] Hint Resolve xquiet_validateCommonArgs xquiet_getChannelConnection xquiet_getConsensusLatestHeight xquiet_GetAdjustedTimestamp : exec.
#[local] Hint Resolve ik_Transfer_safe : exec.

Lemma send_msg_keeps call v n h t i : xkeeps succeeded (send_msg abi call v n h t i : M Returned).
Proof. unfold send_msg. keeps. Qed.
#[local] Hint Resolve send_msg_keeps : exec.

(** The IBC precompile is one the EVM may call. *)
Lemma ibc_LevelExecutor : LevelExecutor (Execute abi blockTime : Call → M Returned).
Proof. intros call _. unfold Execute. repeat case_match; try keeps; apply xkeeps_recovering; keeps. Qed.
Lemma ibc_SafeExecutor : SafeExecutor (Execute abi blockTime : Call → M Returned).
Proof.
  split; [apply ibc_LevelExecutor|]. intros call s. unfold Execute. repeat case_match; try apply recovering_returns; by eexists _, _.
Qed.
Lemma ibc_StaticExecutor : StaticExecutor (Execute abi blockTime : Call → M Returned).
Proof. intros call Hro. unfold Execute. rewrite Hro. quiet. Qed.

(** ** What a call that succeeds has done *)

Lemma reads_ctx_done {X} name (f : Ctx MS → X) x y x' : (reads_ctx name f : M X) x = Done y x' → y = f (ex_ctx x) ∧ ex_ctx x' = ex_ctx x.
Proof. intros H. apply reads_done in H as [[= <-] H]. by split. Qed.

Lemma string_ok_inl v e t : string_ok v e = inl t → v = VString t.
Proof. destruct v; try done. by intros [= ->]. Qed.
Lemma int_ok_inl v e z : int_ok v e = inl z → v = VInt z.
Proof. destruct v; try done. by intros [= ->]. Qed.

Lemma validateCommonArgs_done args caller x v x' : (validateCommonArgs args caller : M (ValidatedArgs + Err)) x = Done (inl v) x' →
  ex_ctx x' = ex_ctx x ∧ GetTabiAddress (cview (ex_ctx x)) caller = Some (va_senderTabiAddr v) ∧
  take 5 args = [VString (va_receiverAddressString v); VString (va_port v); VString (va_channelID v); VString (va_denom v); VInt (va_amount v)].
Proof.
  intros H. unfold validateCommonArgs in H.
  apply xbind_done in H as (found & x1 & [[= <-] Hx1]%reads_done & H). destruct (GetTabiAddress _ _) as [from|] eqn:Hfrom; [|done].
  apply xbind_done in H as (a0 & x2 & [H0 ->]%arg_done & H). destruct (string_ok a0 _) as [t0|] eqn:E0; [|done]. destruct (String.eqb t0 ""); [done|].
  apply xbind_done in H as (a1 & x2 & [H1 ->]%arg_done & H). destruct (string_ok a1 _) as [t1|] eqn:E1; [|done]. destruct (String.eqb t1 ""); [done|].
  apply xbind_done in H as (a2 & x2 & [H2 ->]%arg_done & H). destruct (string_ok a2 _) as [t2|] eqn:E2; [|done]. destruct (String.eqb t2 ""); [done|].
  apply xbind_done in H as (t3 & x2 & [H3 ->]%arg_string_done & H). destruct (String.eqb t3 ""); [done|].
  apply xbind_done in H as (a4 & x2 & [H4 ->]%arg_done & H). destruct (int_ok a4 _) as [n|] eqn:E4; [|done]. injection H as <- <-.
  apply string_ok_inl in E0 as ->. apply string_ok_inl in E1 as ->. apply string_ok_inl in E2 as ->. apply int_ok_inl in E4 as ->.
  split_and!; [done|done|]. destruct args as [|b0 [|b1 [|b2 [|b3 [|b4 args]]]]]; try done.
  simpl in H0, H1, H2, H3, H4. by simplify_eq/=.
Qed.

(** The message that was handled. *)
Definition sent (v : ValidatedArgs) (h : Height) (t : Z) (c c' : Ctx MS) : Prop :=
  ∃ m, ik_Transfer m c = (c', None) ∧ NewIntFromBigInt (va_amount v) = Ret (mt_Amount m) ∧ mt_Sender m = acc_String (va_senderTabiAddr v) ∧
    mt_Receiver m = va_receiverAddressString v ∧ mt_SourcePort m = va_port v ∧ mt_SourceChannel m = va_channelID v ∧
    mt_Denom m = va_denom v ∧ mt_TimeoutHeight m = h ∧ mt_TimeoutTimestamp m = t.

Lemma send_msg_done call v n h t i x r x' : NewIntFromBigInt (va_amount v) = Ret n →
  (send_msg abi call v n h t i : M Returned) x = Done r x' → succeeded r → sent v h t (ex_ctx x) (ex_ctx x').
Proof.
  intros Hn H Hr. unfold send_msg in H. apply xbind_done in H as (m & x1 & [_ ->]%arg_string_done & H).
  destruct (MsgTransfer_ValidateBasic _); [no_success H|]. apply xbind_done in H as (e & x2 & E%writes_done & H).
  destruct e; [no_success H|]. injection E as E. rewrite (quiet_done _ _ _ _ (xquiet_packed _ _ _) H). by eexists.
Qed.

(** Where the timeout of a transfer comes from. *)
Definition client_of (c : Ctx MS) (v : ValidatedArgs) (client : string) (latest : Height) : Prop :=
  ∃ hop hops, ik_GetChannel c (va_port v) (va_channelID v) = Some (hop :: hops) ∧ ik_GetConnection c hop = Some client ∧
    ik_GetClientState c client = Some latest.

Lemma transferWithDefaultTimeout_done call x r x' : (transferWithDefaultTimeout abi blockTime call : M Returned) x = Done r x' → succeeded r →
  ∃ v, length (cl_args call) = 6%nat ∧ GetTabiAddress (cview (ex_ctx x)) (cl_caller call) = Some (va_senderTabiAddr v) ∧
    take 5 (cl_args call) = [VString (va_receiverAddressString v); VString (va_port v); VString (va_channelID v); VString (va_denom v); VInt (va_amount v)] ∧
    (va_amount v = 0 ∧ ex_ctx x' = ex_ctx x ∨
     va_amount v ≠ 0 ∧ ∃ client latest h t, client_of (ex_ctx x) v client latest ∧ GetAdjustedHeight latest = inl h ∧
       adjusted_timestamp blockTime (default 0 (ik_GetClientConsensusState (ex_ctx x) client latest)) = inl t ∧
       sent v h t (ex_ctx x) (ex_ctx x')).
Proof.
  intros H Hr. apply recovering_done in H; [|done]. destruct (ValidateArgsLength _ _) eqn:Hlen; [no_success H|]. apply ValidateArgsLength_done in Hlen.
  apply xbind_done in H as ([v|] & x1 & E1 & H); [|no_success H]. apply validateCommonArgs_done in E1 as (Hx1 & Hfrom & Hargs).
  exists v. split; [done|]. split; [done|]. split; [done|]. destruct (Z.eqb_spec (va_amount v) 0) as [E0|Hnz].
  { left. split; [done|]. rewrite (quiet_done _ _ _ _ (xquiet_packed _ _ _) H). done. }
  right. split; [done|]. apply xbind_done in H as (n & x2 & [Hn ->]%lift_done & H).
  apply xbind_done in H as ([client|] & x3 & Hc & H); [|no_success H].
  apply xbind_done in Hc as (ch & x4 & [-> Hx4]%reads_ctx_done & Hc). destruct (ik_GetChannel _ _ _) as [[|hop hops]|] eqn:Hch; try done.
  apply xbind_done in Hc as (cn & x5 & [-> Hx5]%reads_ctx_done & Hc). destruct (ik_GetConnection _ _) as [cl|] eqn:Hcn; [|done]. injection Hc as -> ->.
  apply xbind_done in H as ([latest|] & x6 & Hl & H); [|no_success H].
  apply xbind_done in Hl as (st & x7 & [-> Hx7]%reads_ctx_done & Hl). destruct (ik_GetClientState _ _) as [lh|] eqn:Hst; [|done]. injection Hl as -> ->.
  destruct (GetAdjustedHeight latest) as [h|] eqn:Hh; [|no_success H].
  apply xbind_done in H as (t & x8 & Ht & H). apply xbind_done in Ht as (cs & x9 & [-> Hx9]%reads_ctx_done & Ht). injection Ht as <- ->.
  rewrite Hx7, Hx5, Hx4, Hx1 in *. destruct (adjusted_timestamp _ _) as [t|] eqn:Ht; [|no_success H].
  apply (send_msg_done _ _ _ _ _ _ _ _ _ Hn) in H; [|done]. rewrite Hx9 in H. exists client, latest, h, t. split; [|done]. by exists hop, hops.
Qed.

(** The timeout lies after the block, unless the counterparty's clock is about to
    leave the range of uint64. *)
Lemma adjusted_timestamp_later ts t : blockTime ≤ maxInt64 → 0 ≤ ts → adjusted_timestamp blockTime ts = inl t →
  t = u64 (Z.max blockTime ts + DefaultRelativePacketTimeoutTimestamp) ∧
  (ts + DefaultRelativePacketTimeoutTimestamp ≤ maxUint64 → blockTime < t ∧ ts < t).
Proof.
  intros Hb Hts. pose proof default_timeout_range as Hd. unfold adjusted_timestamp. destruct (Z.ltb_spec 0 blockTime) as [Hpos|]; [|done].
  unfold maxInt64, maxUint64 in *. rewrite (u64_id blockTime) by (unfold is_u64, two64; lia).
  destruct (Z.ltb_spec ts blockTime); intros [= <-]; [rewrite Z.max_l by lia|rewrite Z.max_r by lia]; (split; [done|]);
    intros Hfit; rewrite u64_id by (unfold is_u64, two64; lia); lia.
Qed.
End IbcLemmas.

(** * Theorems *)

Section IbcTheorems.
Context `{BK : BankKeeper B} `{AK : AccountKeeper A} `{EC : EthCrypto} `{KC : KeeperConfig}.
Context `{MST : MultiStore MS (World B A)} `{MSL : !MultiStoreLaws MS (World B A)} `{SD : SdkDec} `{GM : GasMeters G} `{SG : StoreGas B A G}.
Context `{MR : MapRange} `{BL : !BankLaws B} `{BE : Bech32} `{IL : IntLibs} `{IK : IbcKeepers MS} `{IKL : !IbcLaws MS B A}.
Context `{EVC : EVMCalls MS} `{EVL : !EVMCallsLaws MS B A}.
Variable abi : ABI.
Variable blockTime : Z.
Notation DB := (DBImpl MS).

(** C25: a transfer with the default timeout times out in the future.  The call
    returns; when it succeeds with an amount that is not zero, the message that
    was handled sends that amount from the account associated with the caller, and
    its timeout is the later of the block time and the timestamp of the
    counterparty's latest consensus state plus the default interval: after both of
    them, unless the counterparty's timestamp is within that interval of the largest
    uint64, where the sum wraps around.  A call that fails, or sends nothing, leaves
    the stores as they were. *)
Theorem default_timeout_in_future caller contract input gas value readOnly delegate args (s s1 : DB) n limit :
  EthReplayConfig_Enabled = false → length (tempStatesHist s) = length (snapshottedCtxs s) → 0 ≤ default 0 value → blockTime ≤ maxInt64 →
  (∀ c client h, 0 ≤ default 0 (ik_GetClientConsensusState c client h)) →
  Prepare abi input = inl (TransferWithDefaultTimeoutMethod, args) →
  Snapshot s = Ret (n, s1) → GetCosmosGasLimitFromEVMGas (cview (ctx s1)) gas = Ret limit →
  ∃ r s', evm_call_precompile [] (RunAndCalculateGas abi (Execute abi blockTime) caller contract input gas value readOnly delegate) s = Ret (r, s') ∧
    (cview (ctx s') = cview (ctx s) ∨
     r.2 = None ∧ readOnly = false ∧ delegate = false ∧ ∃ v client latest h c c',
       GetTabiAddress (cview (ctx s)) caller = Some (va_senderTabiAddr v) ∧ va_amount v ≠ 0 ∧ args !! 4%nat = Some (VInt (va_amount v)) ∧
       client_of c v client latest ∧ GetAdjustedHeight latest = inl h ∧
       let ts := default 0 (ik_GetClientConsensusState c client latest) in
       let t := u64 (Z.max blockTime ts + DefaultRelativePacketTimeoutTimestamp) in
       sent v h t c c' ∧ (ts + DefaultRelativePacketTimeoutTimestamp ≤ maxUint64 → blockTime < t ∧ ts < t) ∧
       cview c = cview (ctx s) ∧ cview c' = cview (ctx s')).
Proof.
  intros Hlive Hlen Hval Hbt Hts Hprep Hs1 Hg.
  destruct (RunAndCalculateGas_returns abi (Execute abi blockTime) caller contract input gas value readOnly delegate s1 limit (ibc_SafeExecutor abi blockTime) Hg)
    as (r & s3 & E).
  pose proof (RunAndCalculateGas_safe _ _ _ _ _ _ _ _ _ _ _ _ (ibc_LevelExecutor abi blockTime) Hval E) as Hsafe.
  destruct (call_steps Hlive [] _ s s1 s1 s3 n r Hlen (List.Forall_nil _) Hs1 eq_refl E Hsafe) as (s' & H1 & _ & H2).
  exists r, s'. split; [done|]. destruct (r.2) as [e|] eqn:Er; [left; by destruct H2 as [|[]]|].
  apply evm_call_done in H1 as (n2 & s1' & s2' & Hs1' & Hops & Hrun); [|done]. rewrite Hs1 in Hs1'. injection Hs1' as <- <-. injection Hops as <-.
  apply RunAndCalculateGas_done in Hrun as (method & args' & x & x' & Hp & Hx & Vx & _ & Vx' & _); [|done]. rewrite Hprep in Hp. injection Hp as <- <-.
  unfold Execute in Hx. cbn [cl_value cl_delegate cl_readOnly cl_method] in Hx. destruct (ValidateNonPayable value); [no_success Hx|].
  destruct readOnly; [no_success Hx|]. destruct delegate; [no_success Hx|]. simpl in Hx.
  apply transferWithDefaultTimeout_done in Hx as (v & _ & Hfrom & Hargs & Hcase); [|done]. simpl in Hfrom, Hargs.
  assert (Hv : cview (ctx s1) = cview (ctx s)) by (injection Hs1 as _ <-; apply cview_cbranch).
  rewrite Vx, Hv in Hfrom. destruct Hcase as [[_ E0]|(Hnz & client & latest & h & t & Hcl & Hh & Ht & Hsent)].
  { left. rewrite Vx', E0, Vx. done. }
  right. split_and!; [done..|]. exists v, client, latest, h, (ex_ctx x), (ex_ctx x').
  apply adjusted_timestamp_later in Ht as [-> Hlater]; [|done|apply Hts].
  split_and!; try done; [|by rewrite Vx, Hv].
  assert (take 5 args !! 4%nat = Some (VInt (va_amount v))) as Ha by (by rewrite Hargs). by rewrite lookup_take in Ha by lia.
Qed.
End IbcTheorems.

(** * Examples *)

Section IbcExamples.
#[local] Existing Instances demo_bank_keeper demo_bank_laws demo_accounts demo_crypto live_config half_even_dec.
#[local] Existing Instances plain_meter demo_gas demo_call_stores demo_call_stores_laws demo_call_range plain_calls plain_calls_laws marked_bech32 strict_ints.

(** One channel, over a client at height 50; a transfer is paid into an escrow. *)
Definition escrow : AccAddress := str_bytes "escrow".
#[local] Instance demo_ibc : IbcKeepers (stack_ms demo_world) := {|
  ik_GetChannel _ port channel := if String.eqb channel "channel-0" then Some ["connection-0"%string] else None;
  ik_GetConnection _ hop := Some "client-0"%string;
  ik_GetClientState _ client := Some (mkHeight 1 50);
  ik_GetClientConsensusState _ client h := Some 1600000000000000000;
  MsgTransfer_ValidateBasic _ := None;
  ik_Transfer m c :=
    match AccAddressFromBech32 (mt_Sender m) with
    | Some a => if 0 <=? mt_Amount m then run_bank (λ b, bk_SendCoinsAndWei b a escrow (mt_Amount m) 0) c else (c, Some "negative amount"%string)
    | None => (c, Some "decoding bech32 failed"%string)
    end;
  DefaultRelativePacketTimeoutHeight := inl (mkHeight 0 1000);
  DefaultRelativePacketTimeoutTimestamp := 600000000000
|}.
#[local] Instance demo_ibc_laws : IbcLaws (stack_ms demo_world) demo_bank (gset (list Byte.byte)).
Proof.
  split; [|simpl; unfold maxInt64; lia]. intros m c. unfold ik_Transfer, demo_ibc. destruct (AccAddressFromBech32 _) as [a|]; [|by split].
  destruct (Z.leb_spec 0 (mt_Amount m)) as [Hn|]; [|by split]. split; [apply ctx_ext_run_bank|].
  destruct (run_bank_view (λ b, bk_SendCoinsAndWei b a escrow (mt_Amount m) 0) c) as [V R]. intros H. unfold keeps_worth, bank_of. rewrite V. split; [|done].
  rewrite H in R. destruct (bk_SendCoinsAndWei (w_bank (cview c)) a escrow (mt_Amount m) 0) as [[b evs] e] eqn:E. cbn [snd] in R. subst e.
  apply (send_conserves a escrow (mt_Amount m) 0) in E; [exact E|lia|]. unfold AtabiToWeiMultiplier. lia.
Qed.

Definition ibc_args : list AbiValue := [VString "cosmos1bob"; VString "transfer"; VString "channel-0"; VString "atabi"; VInt 2; VString ""].
Definition ibc_abi : ABI := demo_abi TransferWithDefaultTimeoutMethod ibc_args.

Lemma default_timeout_in_future_witness : ∃ r s',
  evm_call_precompile [] (RunAndCalculateGas ibc_abi (Execute ibc_abi 1700000000000000000) (addr_of 7) (addr_of 7) demo_selector 100000 None false false)
    alice_db = Ret (r, s') ∧
  (cview (ctx s') = cview (ctx alice_db) ∨
   r.2 = None ∧ ∃ v c c', va_amount v = 2 ∧ sent v (mkHeight 1 1050) 1700000600000000000 c c' ∧ cview c' = cview (ctx s')).
Proof.
  assert (Hlive : EthReplayConfig_Enabled = false) by reflexivity.
  assert (Hlen : length (tempStatesHist alice_db) = length (snapshottedCtxs alice_db)) by reflexivity.
  assert (Hv : 0 ≤ default 0 (None : option Z)) by (simpl; lia).
  assert (Hb : 1700000000000000000 ≤ maxInt64) by (unfold maxInt64; lia).
  assert (Ht : ∀ c client h, 0 ≤ default 0 (ik_GetClientConsensusState c client h)) by (intros; simpl; lia).
  assert (Hp : Prepare ibc_abi demo_selector = inl (TransferWithDefaultTimeoutMethod, ibc_args)) by reflexivity.
  assert (Hs : Snapshot alice_db = Ret (1, exec Snapshot alice_db)) by reflexivity.
  assert (Hg : GetCosmosGasLimitFromEVMGas (cview (ctx (exec Snapshot alice_db))) 100000 = Ret 100000) by (vm_compute; reflexivity).
  destruct (default_timeout_in_future ibc_abi 1700000000000000000 (addr_of 7) (addr_of 7) demo_selector 100000 None false false ibc_args
    alice_db (exec Snapshot alice_db) 1 100000 Hlive Hlen Hv Hb Ht Hp Hs Hg) as (r & s' & H & Hcase).
  exists r, s'. split; [exact H|]. destruct Hcase as [Hc|(Hr & _ & _ & v & client & latest & h & c & c' & _ & _ & Ha & (hop & hops & _ & _ & Hl) & Hh & Hsent & _ & _ & Hc')].
  - left. exact Hc.
  - right. split; [exact Hr|]. exists v, c, c'. injection Ha as <-. injection Hl as <-. injection Hh as <-. split; [reflexivity|]. split; [exact Hsent|exact Hc'].
Defined.

(** The call does succeed. *)
Lemma ibc_transfer_succeeds : succeeds (evm_call_precompile []
  (RunAndCalculateGas ibc_abi (Execute ibc_abi 1700000000000000000) (addr_of 7) (addr_of 7) demo_selector 100000 None false false) alice_db) = true.
Proof. vm_compute. reflexivity. Qed.
End IbcExamples.
