(* ===== verification/DynamicGas.v ===== *)
(** * The precompiles with dynamic gas
    (precompiles/common/precompiles.go with the executors of precompiles/addr,
    precompiles/bank, precompiles/distribution and precompiles/ibc)

    What holds of every call of these four precompiles, whatever the method: their
    executors recover from panics, so that a call always returns. *)

From S2P Require Import Prelude Bytes Dec Store Params Keys World Instances Keeper StateDB Snapshots Supply Finalize Frame Fee Eth Block EthTx Msg Receipts Tx Associate.
From S2P Require Import Pointer MsgServer Precompile BankPrecompile AddrPrecompile DistrPrecompile IBCPrecompile.
Local Open Scope Z_scope.

Inductive DynamicPrecompile : Type := AddrP | BankP | DistributionP | IbcP.

Section DynamicGas.
Context `{BK : BankKeeper B} `{CK : CoinsKeeper B} `{AK : AccountKeeper A} `{AKK : AccountKeys A} `{EC : EthCrypto} `{KC : KeeperConfig}.
Context `{MST : MultiStore MS (World B A)} `{MSL : !MultiStoreLaws MS (World B A)} `{SD : SdkDec} `{GM : GasMeters G} `{SG : StoreGas B A G}.
Context `{MR : MapRange} `{EH : EthHex} `{BE : Bech32} `{SC : Secp256k1} `{PKP : PubKeyParser} `{IL : IntLibs}.
Context `{BQ : BankQueries B} `{BMS : BankMsgServer MS} `{DK : DistributionKeeper MS} `{IK : IbcKeepers MS}.
Context `{BL : !BankLaws B} `{CL : !CoinsLaws B} `{BML : !BankMsgLaws MS} `{DKL : !DistributionLaws MS B A} `{IKL : !IbcLaws MS B A}.
Context `{EVC : EVMCalls MS} `{EVL : !EVMCallsLaws MS B A}.
Variable abi : DynamicPrecompile → ABI.
Variable blockTime : Z.
Notation DB := (DBImpl MS).

Definition executor_of (p : DynamicPrecompile) : Call → exec_m MS G Returned :=
  match p with
  | AddrP => AddrPrecompile.Execute (abi AddrP)
  | BankP => BankPrecompile.Execute (abi BankP)
  | DistributionP => DistrPrecompile.Execute (abi DistributionP)
  | IbcP => IBCPrecompile.Execute (abi IbcP) blockTime
  end.

Lemma executor_of_safe p : SafeExecutor (executor_of p).
Proof. destruct p; [apply addr_SafeExecutor|apply bank_SafeExecutor|apply distr_SafeExecutor|apply ibc_SafeExecutor]; apply _. Qed.

(** C7: a call of the addr, bank, distribution or ibc precompile is a step of the
    transaction.  However the EVM calls one of them, by whatever method, with
    whatever input, gas and value, the call returns, provided that sending the value
    does and that the gas converts to gas of the chain; what it leads to can be
    reached by steps that conserve value and keep the frame of the transaction; and
    if it fails, the stores and the temporary state are those at the snapshot the EVM
    took before it, even when the precompile was stopped in the middle of a write.
    The modules of the SDK that the precompiles call are taken to conserve value when
    a message succeeds. *)
Theorem dynamic_call_steps p transfer caller contract input gas value readOnly delegate (s s1 s2 : DB) n limit :
  EthReplayConfig_Enabled = false → 0 ≤ default 0 value → length (tempStatesHist s) = length (snapshottedCtxs s) →
  Forall (λ op, is_level_op op = true ∧ is_conserving op = true) transfer →
  Snapshot s = Ret (n, s1) → run_ops transfer s1 = Ret (tt, s2) → GetCosmosGasLimitFromEVMGas (cview (ctx s2)) gas = Ret limit →
  ∃ r s', evm_call_precompile transfer (RunAndCalculateGas (abi p) (executor_of p) caller contract input gas value readOnly delegate) s = Ret (r, s') ∧
    rtc evm_step s s' ∧
    (r.2 = None ∨ cview (ctx s') = cview (ctx s) ∧ tempStateCurrent s' = NewTemporaryState ∧
                  tempStatesHist s' = tempStatesHist s ++ [tempStateCurrent s]).
Proof. intros Hlive Hval Hlen Htr Hsnap Hops Hg. exact (safe_call_steps (abi p) _ _ _ _ _ _ _ _ _ s s1 s2 n limit Hlive (executor_of_safe p) Hval Hlen Htr Hsnap Hops Hg). Qed.
End DynamicGas.

(** * Examples *)

Section DynamicGasExamples.
#[local] Existing Instances demo_bank_keeper demo_bank_laws demo_coins demo_coins_laws demo_accounts demo_account_keys demo_crypto live_config half_even_dec plain_meter demo_gas.
#[local] Existing Instances demo_call_stores demo_call_stores_laws demo_call_range plain_calls plain_calls_laws demo_queries plain_hex marked_bech32 strict_ints.
#[local] Existing Instances demo_secp demo_parser demo_bank_msgs demo_bank_msgs_laws demo_distribution demo_distribution_laws demo_ibc demo_ibc_laws.
Notation DB := (DBImpl (stack_ms demo_world)).

(** Address 7 pays two atabi and three wei to the bank precompile and has them sent on. *)
Definition to_bank : list db_op := [OpTransferWithoutEvents (addr_of 7) (HexToAddress BankAddress) 2000000000003].
Definition bank_snap : DB := exec Snapshot alice_db.
Definition bank_paid : DB := exec (run_ops to_bank) bank_snap.

Lemma dynamic_call_steps_witness :
  ∃ r s', evm_call_precompile to_bank (RunAndCalculateGas send_abi (BankPrecompile.Execute send_abi) (addr_of 7) (addr_of 7) demo_selector 100000
            (Some 2000000000003) false false) alice_db = Ret (r, s') ∧ r.2 = None ∧ rtc evm_step alice_db s'.
Proof.
  assert (Hlive : EthReplayConfig_Enabled = false) by reflexivity.
  assert (Hv : 0 ≤ default 0 (Some 2000000000003)) by (simpl; lia).
  assert (Hlen : length (tempStatesHist alice_db) = length (snapshottedCtxs alice_db)) by reflexivity.
  assert (Htr : Forall (λ op, is_level_op op = true ∧ is_conserving op = true) to_bank)
    by (constructor; [split; reflexivity|constructor]).
  assert (Hi2 : is_ret (run_ops to_bank bank_snap) = true) by (vm_compute; reflexivity).
  assert (Hs : Snapshot alice_db = Ret (1, bank_snap)) by reflexivity.
  pose proof (exec_ret (run_ops to_bank) bank_snap Hi2 : run_ops to_bank bank_snap = Ret (tt, bank_paid)) as Ho.
  assert (Hg : GetCosmosGasLimitFromEVMGas (cview (ctx bank_paid)) 100000 = Ret 100000) by (vm_compute; reflexivity).
  destruct (dynamic_call_steps (λ _, send_abi) 0 BankP to_bank (addr_of 7) (addr_of 7) demo_selector 100000 (Some 2000000000003) false false
    alice_db bank_snap bank_paid 1 100000 Hlive Hv Hlen Htr Hs Ho Hg) as (r & s' & H1 & H2 & _).
  destruct native_runs as (r1 & s1 & E & Hr). exists r, s'. split; [exact H1|]. split; [|exact H2].
  assert (Hrr : Ret (r, s') = Ret (r1, s1)) by (rewrite <- H1; exact E). injection Hrr as -> _. exact Hr.
Defined.
End DynamicGasExamples.
