(* ===== verification/GovPrecompile.v ===== *)
(** * The gov precompile
    (precompiles/gov/gov.go, precompiles/gov/handler.go)

    Contracts vote, deposit and submit proposals in the name of the account
    associated with the caller; deposits are the value of the call.  A proposal is
    given as JSON, and a handler for its type makes the content of it.  The gas is
    a constant of the method. *)

From S2P Require Import Prelude Bytes Dec Store Params Keys World Instances Keeper StateDB Snapshots Supply Finalize Frame Fee Eth Block EthTx Msg Receipts Tx Associate.
From S2P Require Import Pointer MsgServer Precompile.
Local Open Scope Z_scope.
Local Open Scope exec_scope.

(** ** Proposals *)

Record SoftwareUpgradePlan : Type := mkPlan { pl_Name : string; pl_Height : Z; pl_Info : string }.
Record CommunityPoolSpend : Type := mkSpend { cs_Recipient : string; cs_Amount : string }.
(** The value is an [interface{}], given here by its JSON text. *)
Record Change : Type := mkChange { ch_Subspace : string; ch_Key : string; ch_Value : string }.
Record AccessOperation : Type := mkAccessOperation { ao_ResourceType : string; ao_AccessType : string; ao_IdentifierTemplate : string }.
Record ResourceDependencyMapping : Type := mkMapping {
  rm_Resource : string;
  rm_Dependencies : list string;
  rm_AccessOps : list AccessOperation;
  rm_DynamicEnabled : bool
}.
Record Proposal : Type := mkProposal {
  pr_Title : string;
  pr_Description : string;
  pr_Type : string;
  pr_IsExpedited : bool;
  pr_Plan : option SoftwareUpgradePlan;
  pr_CommunityPoolSpend : option CommunityPoolSpend;
  pr_ResourceMapping : option ResourceDependencyMapping;
  pr_Changes : list Change
}.

Notation Coins := (list (string * Z)).

(** [govtypes.Content], with the SDK's constructors; the dependency mappings of a
    resource proposal are given by the keys of their messages, each of which gets
    the SDK's synchronous mapping. *)
Inductive Content : Type :=
| TextProposal (title description : string) (expedited : bool)
| ParameterChangeProposal (title description : string) (changes : list (string * string * string)) (expedited : bool)
| SoftwareUpgradeProposal (title description : string) (plan : SoftwareUpgradePlan)
| CancelSoftwareUpgradeProposal (title description : string)
| CommunityPoolSpendProposal (title description : string) (recipient : AccAddress) (amount : Coins)
| UpdateResourceDependencyMappingProposal (title description : string) (synchronous : list string).

Record MsgSubmitProposal : Type := mkMsgSubmitProposal {
  sp_Content : Content;
  sp_InitialDeposit : Coins;
  sp_Proposer : AccAddress;
  sp_IsExpedited : bool
}.

(** The gov module: its message server and the checks of its messages; the names
    of the kinds of proposals; JSON; and the SDK's parsers of coins and
    decimals. *)
Class GovKeeper (MS : Type) := {
  gv_Vote : AccAddress → Z → Z → Ctx MS → Ctx MS * option Err;
  gv_VoteWeighted : AccAddress → Z → list (Z * Z) → Ctx MS → Ctx MS * option Err;
  gv_Deposit : AccAddress → Z → Coins → Ctx MS → Ctx MS * option Err;
  gv_SubmitProposal : MsgSubmitProposal → Ctx MS → Ctx MS * (Z + Err);
  MsgVote_ValidateBasic : AccAddress → Z → Z → option Err;
  MsgVoteWeighted_ValidateBasic : AccAddress → Z → list (Z * Z) → option Err;
  MsgDeposit_ValidateBasic : AccAddress → Z → Coins → option Err;
  NewMsgSubmitProposalWithExpedite : MsgSubmitProposal → option Err;
  MsgSubmitProposal_ValidateBasic : MsgSubmitProposal → option Err;
  ProposalTypeText : string;
  ProposalTypeChange : string;
  ProposalTypeSoftwareUpgrade : string;
  ProposalTypeCancelSoftwareUpgrade : string;
  ProposalTypeCommunityPoolSpend : string;
  ProposalUpdateResourceDependencyMapping : string;
  Proposal_Unmarshal : string → Proposal + Err;
  json_Marshal : string → string + Err;
  ParseCoinsNormalized : string → Coins + Err;
  gov_NewDecFromStr : string → option Z
}.

Definition VoteMethod : string := "vote".
Definition VoteWeightedMethod : string := "voteWeighted".
Definition DepositMethod : string := "deposit".
Definition SubmitProposalMethod : string := "submitProposal".
Definition GovAddress : string := "0x0000000000000000000000000000000000001006".

(** [RequiredGas] of the executor. *)
Definition gov_RequiredGas (input : bytes) (method : string) : Z :=
  if String.eqb method VoteMethod || String.eqb method VoteWeightedMethod then 30000 else
  if String.eqb method DepositMethod then 30000 else
  if String.eqb method SubmitProposalMethod then 50000 else
  UnknownMethodCallGas.

(** [sdk.NewCoins] of a coin of the base denomination. *)
Definition base_coins (n : Z) : Coins := if n =? 0 then [] else [(BaseDenom, n)].
Definition coins_IsZero (cs : Coins) : bool := forallb (λ c, c.2 =? 0) cs.

(** The handlers that are registered. *)
Inductive ProposalHandler : Type :=
| TextProposalHandler
| ParameterChangeProposalHandler
| SoftwareUpgradeProposalHandler
| CancelSoftwareUpgradeProposalHandler
| CommunityPoolSpendProposalHandler
| UpdateResourceDependencyMappingProposalHandler.

Definition unsupported_types : list string :=
  ["UpdateWasmDependencyMapping"; "StoreCode"; "InstantiateContract"; "MigrateContract"; "SudoContract"; "ExecuteContract"; "UpdateAdmin";
   "ClearAdmin"; "PinCodes"; "UnpinCodes"; "UpdateInstantiateConfig"; "ClientUpdate"; "IBCUpgrade"]%string.

Section Gov.
Context `{BK : BankKeeper B} `{CK : CoinsKeeper B} `{AK : AccountKeeper A} `{EC : EthCrypto} `{KC : KeeperConfig}.
Context `{MST : MultiStore MS (World B A)} `{SD : SdkDec} `{GM : GasMeters G} `{SG : StoreGas B A G}.
Context `{EH : EthHex} `{GV : GovKeeper MS}.
Variable abi : ABI.
Notation M X := (exec_m MS G X).

(** *** Handlers *)

Definition handler_Type (h : ProposalHandler) : string :=
  match h with
  | TextProposalHandler => ProposalTypeText
  | ParameterChangeProposalHandler => ProposalTypeChange
  | SoftwareUpgradeProposalHandler => ProposalTypeSoftwareUpgrade
  | CancelSoftwareUpgradeProposalHandler => ProposalTypeCancelSoftwareUpgrade
  | CommunityPoolSpendProposalHandler => ProposalTypeCommunityPoolSpend
  | UpdateResourceDependencyMappingProposalHandler => ProposalUpdateResourceDependencyMapping
  end.

Definition RegisterProposalHandlers : gmap string ProposalHandler :=
  let register h (m : gmap string ProposalHandler) := <[handler_Type h := h]> m in
  register UpdateResourceDependencyMappingProposalHandler (register CommunityPoolSpendProposalHandler
    (register CancelSoftwareUpgradeProposalHandler (register SoftwareUpgradeProposalHandler (register ParameterChangeProposalHandler
      (<[""%string := TextProposalHandler]> (register TextProposalHandler ∅)))))).

Definition GetProposalHandler (handlers : gmap string ProposalHandler) (proposalType : string) : ProposalHandler + Err :=
  match handlers !! proposalType with Some h => inl h | None => inr ("unsupported proposal type: " ++ proposalType)%string end.

(** Each change with its value as JSON; the first value that cannot be written is
    an error. *)
Fixpoint param_changes (changes : list Change) : list (string * string * string) + Err :=
  match changes with
  | [] => inl []
  | c :: rest =>
      match json_Marshal (ch_Value c) with
      | inr _ => inr "failed to marshal parameter value"%string
      | inl v => match param_changes rest with inr e => inr e | inl l => inl ((ch_Subspace c, ch_Key c, v) :: l) end
      end
  end.

Definition parameter_change (p : Proposal) : Content + Err :=
  match pr_Changes p with
  | [] => inr "at least one parameter change must be specified"%string
  | changes =>
      match param_changes changes with
      | inr e => inr e
      | inl l => inl (ParameterChangeProposal (pr_Title p) (pr_Description p) l (pr_IsExpedited p))
      end
  end.

Definition software_upgrade (p : Proposal) : Content + Err :=
  match pr_Plan p with
  | None => inr "upgrade plan must be specified"%string
  | Some plan =>
      if pl_Height plan =? 0 then inr "upgrade height must be specified"%string else
      if String.eqb (pl_Name plan) "" then inr "upgrade name must be specified"%string else
      inl (SoftwareUpgradeProposal (pr_Title p) (pr_Description p) plan)
  end.

Definition community_pool_spend (p : Proposal) : M (Content + Err) :=
  match pr_CommunityPoolSpend p with
  | None => xret (inr "community pool spend parameters must be specified"%string)
  | Some spend =>
      if negb (IsHexAddress (cs_Recipient spend)) then xret (inr "invalid ethereum address format"%string) else
      match ParseCoinsNormalized (cs_Amount spend) with
      | inr _ => xret (inr "invalid amount format"%string)
      | inl amount =>
          if coins_IsZero amount then xret (inr "amount must be greater than zero"%string) else
          let% found := reads "GetTabiAddress" (λ w, Ret (GetTabiAddress w (HexToAddress (cs_Recipient spend)))) in
          xret (match found with
                | None => inr "no tabi address found for ethereum address"%string
                | Some tabiAddr => inl (CommunityPoolSpendProposal (pr_Title p) (pr_Description p) tabiAddr amount)
                end)
      end
  end.

Definition resource_mapping (p : Proposal) : Content + Err :=
  match pr_ResourceMapping p with
  | None => inr "resource mapping must be specified"%string
  | Some mapping =>
      if String.eqb (rm_Resource mapping) "" then inr "resource must be specified"%string else
      match rm_Dependencies mapping, last (rm_AccessOps mapping) with
      | [], _ => inr "at least one dependency must be specified"%string
      | _, None => inr "at least one access operation must be specified"%string
      | deps, Some lastOp =>
          if negb (String.eqb (ao_AccessType lastOp) "COMMIT") then inr "last access operation must be COMMIT"%string else
          inl (UpdateResourceDependencyMappingProposal (pr_Title p) (pr_Description p) deps)
      end
  end.

Definition HandleProposal (h : ProposalHandler) (p : Proposal) : M (Content + Err) :=
  match h with
  | TextProposalHandler => xret (inl (TextProposal (pr_Title p) (pr_Description p) (pr_IsExpedited p)))
  | ParameterChangeProposalHandler => xret (parameter_change p)
  | SoftwareUpgradeProposalHandler => xret (software_upgrade p)
  | CancelSoftwareUpgradeProposalHandler => xret (inl (CancelSoftwareUpgradeProposal (pr_Title p) (pr_Description p)))
  | CommunityPoolSpendProposalHandler => community_pool_spend p
  | UpdateResourceDependencyMappingProposalHandler => xret (resource_mapping p)
  end.

Definition createProposalContent (p : Proposal) : M (Content + Err) :=
  if String.eqb (pr_Title p) "" then xret (inr "proposal title cannot be empty"%string) else
  if String.eqb (pr_Description p) "" then xret (inr "proposal description cannot be empty"%string) else
  match GetProposalHandler RegisterProposalHandlers (pr_Type p) with
  | inr e =>
      xret (inr (if existsb (String.eqb (pr_Type p)) unsupported_types
                 then (pr_Type p ++ " proposals are not supported yet via precompile")%string else e))
  | inl h => HandleProposal h p
  end.

(** *** Methods *)

Definition vote (call : Call) : M Returned :=
  let args := cl_args call in
  ensure% ValidateNonPayable (cl_value call);
  ensure% ValidateArgsLength args 2;
  let% found := reads "GetTabiAddress" (λ w, Ret (GetTabiAddress w (cl_caller call))) in
  match found with
  | None => xret (failed AssociationMissingErr)
  | Some voter =>
      let% proposalID := arg_int args 0 in
      let% voteOption := arg_int args 1 in
      ensure% MsgVote_ValidateBasic voter proposalID voteOption;
      let% e := writes "Vote" (λ c, Ret (gv_Vote voter proposalID voteOption c)) in
      ensure% e;
      packed_static abi call [VBool true]
  end.

(** The options of the struct array. *)
Fixpoint weighted_structs (vs : list AbiValue) : option (list (Z * string)) :=
  match vs with
  | [] => Some []
  | VStruct [VInt option; VString weight] :: rest => cons (option, weight) <$> weighted_structs rest
  | _ => None
  end.
Fixpoint vote_options (l : list (Z * string)) : list (Z * Z) + Err :=
  match l with
  | [] => inl []
  | (option, text) :: rest =>
      match gov_NewDecFromStr text with
      | None => inr "invalid weight format"%string
      | Some weight => match vote_options rest with inr e => inr e | inl r => inl ((option, weight) :: r) end
      end
  end.

Definition voteWeighted (call : Call) : M Returned :=
  let args := cl_args call in
  ensure% ValidateNonPayable (cl_value call);
  ensure% ValidateArgsLength args 2;
  let% found := reads "GetTabiAddress" (λ w, Ret (GetTabiAddress w (cl_caller call))) in
  match found with
  | None => xret (failed AssociationMissingErr)
  | Some voter =>
      let% proposalID := arg_int args 0 in
      let% a := arg args 1 in
      match a with
      | VArray vs =>
          match weighted_structs vs with
          | None => xpanic bad_assertion
          | Some structs =>
              if (4 <? length structs)%nat then xret (failed "too many vote options provided: maximum allowed is 4") else
              try% options := vote_options structs in
              ensure% MsgVoteWeighted_ValidateBasic voter proposalID options;
              let% e := writes "VoteWeighted" (λ c, Ret (gv_VoteWeighted voter proposalID options c)) in
              ensure% e;
              packed_static abi call [VBool true]
          end
      | _ => xpanic bad_assertion
      end
  end.

Definition deposit (call : Call) : M Returned :=
  let args := cl_args call in
  ensure% ValidateArgsLength args 1;
  let% found := reads "GetTabiAddress" (λ w, Ret (GetTabiAddress w (cl_caller call))) in
  match found with
  | None => xret (failed AssociationMissingErr)
  | Some depositor =>
  let% proposalID := arg_int args 0 in
  match cl_value call with
  | None | Some 0 => xret (failed "set `value` field to non-zero to deposit fund")
  | Some value =>
      let% precompileAddr := reads "GetTabiAddressOrDefault" (λ w, Ret (GetTabiAddressOrDefault w (HexToAddress GovAddress))) in
      let% paid := HandlePaymentUtabi precompileAddr depositor value in
      try% coin := paid in
      ensure% MsgDeposit_ValidateBasic depositor proposalID (base_coins coin);
      let% e := writes "Deposit" (λ c, Ret (gv_Deposit depositor proposalID (base_coins coin) c)) in
      ensure% e;
      packed_static abi call [VBool true]
  end
  end.


Definition submitProposal (call : Call) : M Returned :=
  let args := cl_args call in
  ensure% ValidateArgsLength args 1;
  let% found := reads "GetTabiAddress" (λ w, Ret (GetTabiAddress w (cl_caller call))) in
  match found with
  | None => xret (failed AssociationMissingErr)
  | Some proposer =>
  let% proposalJSON := arg_string args 0 in
  match Proposal_Unmarshal proposalJSON with
  | inr e => xret (failed ("failed to parse proposal JSON: " ++ e)%string)
  | inl proposal =>
  let% precompileAddr := reads "GetTabiAddressOrDefault" (λ w, Ret (GetTabiAddressOrDefault w (HexToAddress GovAddress))) in
  match cl_value call with
  | None => xpanic nil_deref
  | Some value =>
      let% paid := HandlePaymentUtabi precompileAddr proposer value in
      try% initialDeposit := paid in
      let% created := createProposalContent proposal in
      try% content := created in
      let msg := mkMsgSubmitProposal content (base_coins initialDeposit) proposer (pr_IsExpedited proposal) in
      ensure% NewMsgSubmitProposalWithExpedite msg;
      ensure% MsgSubmitProposal_ValidateBasic msg;
      let% res := writes "SubmitProposal" (λ c, Ret (gv_SubmitProposal msg c)) in
      try% proposalId := res in
      packed_static abi call [VInt proposalId]
  end
  end
  end.

Definition Execute (call : Call) : M Returned :=
  let m := cl_method call in
  if cl_readOnly call then xret (failed "cannot call gov precompile from staticcall") else
  if cl_delegate call then xret (failed "cannot delegatecall gov") else
  if String.eqb m VoteMethod then vote call else
  if String.eqb m VoteWeightedMethod then voteWeighted call else
  if String.eqb m DepositMethod then deposit call else
  if String.eqb m SubmitProposalMethod then submitProposal call else
  xret ([], 0, None).
End Gov.

(** * Lemmas *)

(** What the precompile relies on of the gov module. *)
Class GovLaws (MS B A : Type) `{BK : BankKeeper B} `{MST : MultiStore MS (World B A)} `{GV : GovKeeper MS} : Prop := {
  gv_Vote_safe : ∀ a p o, handler_safe (gv_Vote a p o);
  gv_VoteWeighted_safe : ∀ a p o, handler_safe (gv_VoteWeighted a p o);
  gv_Deposit_safe : ∀ a p cs, handler_safe (gv_Deposit a p cs);
  gv_SubmitProposal_safe : ∀ m c, ctx_ext c (gv_SubmitProposal m c).1 ∧ (∀ id, (gv_SubmitProposal m c).2 = inl id → keeps_worth c (gv_SubmitProposal m c).1)
}.

Section GovLemmas.
Context `{BK : BankKeeper B} `{CK : CoinsKeeper B} `{AK : AccountKeeper A} `{EC : EthCrypto} `{KC : KeeperConfig}.
Context `{MST : MultiStore MS (World B A)} `{MSL : !MultiStoreLaws MS (World B A)} `{SD : SdkDec} `{GM : GasMeters G} `{SG : StoreGas B A G}.
Context `{EH : EthHex} `{GV : GovKeeper MS} `{BL : !BankLaws B} `{CL : !CoinsLaws B}.
Variable abi : ABI.
Notation M X := (exec_m MS G X).

Lemma xquiet_HandleProposal h p : xquiet (HandleProposal h p : M (Content + Err)).
Proof. unfold HandleProposal, community_pool_spend. destruct h; quiet. Qed.
Lemma xquiet_createProposalContent p : xquiet (createProposalContent p : M (Content + Err)).
Proof. unfold createProposalContent. repeat case_match; try apply xquiet_HandleProposal; quiet. Qed.
#[local] Hint Resolve xquiet_createProposalContent : exec.

(** A content of the kind that the type of the proposal names (a text when there is
    no type), with what the proposal says for this kind.  Of a resource mapping that
    is the list of the dependencies; its resource and access operations are only
    checked. *)
Definition content_ok (w : World B A) (p : Proposal) (c : Content) : Prop :=
  match c with
  | TextProposal t d e => (pr_Type p = ProposalTypeText ∨ pr_Type p = ""%string) ∧ t = pr_Title p ∧ d = pr_Description p ∧ e = pr_IsExpedited p
  | ParameterChangeProposal t d l e => pr_Type p = ProposalTypeChange ∧ t = pr_Title p ∧ d = pr_Description p ∧ e = pr_IsExpedited p ∧ l ≠ [] ∧
      Forall2 (λ ch x, x.1.1 = ch_Subspace ch ∧ x.1.2 = ch_Key ch ∧ json_Marshal (ch_Value ch) = inl x.2) (pr_Changes p) l
  | SoftwareUpgradeProposal t d plan => pr_Type p = ProposalTypeSoftwareUpgrade ∧ t = pr_Title p ∧ d = pr_Description p ∧
      pr_Plan p = Some plan ∧ pl_Height plan ≠ 0 ∧ pl_Name plan ≠ ""%string
  | CancelSoftwareUpgradeProposal t d => pr_Type p = ProposalTypeCancelSoftwareUpgrade ∧ t = pr_Title p ∧ d = pr_Description p
  | CommunityPoolSpendProposal t d rcpt amount => pr_Type p = ProposalTypeCommunityPoolSpend ∧ t = pr_Title p ∧ d = pr_Description p ∧
      ∃ sp, pr_CommunityPoolSpend p = Some sp ∧
      GetTabiAddress w (HexToAddress (cs_Recipient sp)) = Some rcpt ∧ ParseCoinsNormalized (cs_Amount sp) = inl amount ∧ coins_IsZero amount = false
  | UpdateResourceDependencyMappingProposal t d keys => pr_Type p = ProposalUpdateResourceDependencyMapping ∧ t = pr_Title p ∧ d = pr_Description p ∧
      ∃ m op, pr_ResourceMapping p = Some m ∧ rm_Resource m ≠ ""%string ∧ keys = rm_Dependencies m ∧ keys ≠ [] ∧
      last (rm_AccessOps m) = Some op ∧ ao_AccessType op = "COMMIT"%string
  end.

(** The handler that is found for a type. *)
Lemma GetProposalHandler_type t h : GetProposalHandler RegisterProposalHandlers t = inl h → t = handler_Type h ∨ t = ""%string ∧ h = TextProposalHandler.
Proof.
  unfold GetProposalHandler. destruct (RegisterProposalHandlers !! t) as [h'|] eqn:E; [|done]. intros [= <-]. unfold RegisterProposalHandlers in E.
  repeat (apply lookup_insert_Some in E as [[<- <-]|[_ E]]; [auto|]). by rewrite lookup_empty in E.
Qed.

Lemma param_changes_spec changes l : param_changes changes = inl l →
  Forall2 (λ ch x, x.1.1 = ch_Subspace ch ∧ x.1.2 = ch_Key ch ∧ json_Marshal (ch_Value ch) = inl x.2) changes l.
Proof.
  revert l. induction changes as [|ch changes IH]; simpl; intros l; [intros [= <-]; constructor|].
  destruct (json_Marshal (ch_Value ch)) as [v|] eqn:E; [|done]. destruct (param_changes changes) as [l'|]; [|done].
  intros [= <-]. constructor; [done|by apply IH].
Qed.

Lemma parameter_change_ok w p c : pr_Type p = ProposalTypeChange → parameter_change p = inl c → content_ok w p c.
Proof.
  intros Ht. unfold parameter_change. destruct (pr_Changes p) as [|ch changes] eqn:E; [done|]. destruct (param_changes _) as [l|] eqn:El; [|done].
  intros [= <-]. apply param_changes_spec in El. simpl. rewrite E. split_and!; try done. intros ->. by apply Forall2_nil_inv_r in El.
Qed.
Lemma software_upgrade_ok w p c : pr_Type p = ProposalTypeSoftwareUpgrade → software_upgrade p = inl c → content_ok w p c.
Proof.
  intros Ht. unfold software_upgrade. destruct (pr_Plan p) as [plan|] eqn:E; [|done]. destruct (Z.eqb_spec (pl_Height plan) 0); [done|].
  destruct (String.eqb_spec (pl_Name plan) ""); [done|]. intros [= <-]. simpl. by rewrite E.
Qed.
Lemma resource_mapping_ok w p c : pr_Type p = ProposalUpdateResourceDependencyMapping → resource_mapping p = inl c → content_ok w p c.
Proof.
  intros Ht. unfold resource_mapping. destruct (pr_ResourceMapping p) as [m|] eqn:E; [|done]. destruct (String.eqb_spec (rm_Resource m) ""); [done|].
  destruct (rm_Dependencies m) as [|k ks] eqn:Ek; [done|]. destruct (last _) as [op|] eqn:El; [|done]. destruct (String.eqb_spec (ao_AccessType op) "COMMIT"); [|done].
  intros [= <-]. simpl. split_and!; try done. exists m, op. by rewrite Ek.
Qed.
Lemma community_pool_spend_ok p x c x' : pr_Type p = ProposalTypeCommunityPoolSpend → (community_pool_spend p : M (Content + Err)) x = Done (inl c) x' → content_ok (cview (ex_ctx x)) p c.
Proof.
  intros Ht. unfold community_pool_spend. intros H. destruct (pr_CommunityPoolSpend p) as [sp|] eqn:Es; [|done].
  destruct (negb _); [done|]. destruct (ParseCoinsNormalized _) as [amount|] eqn:Ea; [|done]. destruct (coins_IsZero amount) eqn:Ez; [done|].
  apply xbind_done in H as (found & x1 & [[= <-] _]%reads_done & H). destruct (GetTabiAddress _ _) as [a|] eqn:Hg; [|done].
  injection H as <- _. simpl. split_and!; try done. exists sp. by rewrite Hg.
Qed.

Lemma createProposalContent_done p x c x' : (createProposalContent p : M (Content + Err)) x = Done (inl c) x' →
  content_ok (cview (ex_ctx x)) p c ∧ pr_Title p ≠ ""%string ∧ pr_Description p ≠ ""%string ∧ ex_ctx x' = ex_ctx x.
Proof.
  intros H. pose proof (quiet_done _ _ _ _ (xquiet_createProposalContent p) H) as Hx. unfold createProposalContent in H.
  destruct (String.eqb_spec (pr_Title p) ""); [done|]. destruct (String.eqb_spec (pr_Description p) ""); [done|].
  destruct (GetProposalHandler _ _) as [h|] eqn:Hh; [|done]. split; [|done]. apply GetProposalHandler_type in Hh.
  destruct h; unfold HandleProposal in H; (destruct Hh as [Ht|[Ht Hh]]; [|try discriminate Hh]); simpl in Ht.
  - injection H as <- _. simpl. auto.
  - injection H as <- _. simpl. auto.
  - injection H as H _. by apply parameter_change_ok.
  - injection H as H _. by apply software_upgrade_ok.
  - by injection H as <- _.
  - by apply community_pool_spend_ok in H.
  - injection H as H _. by apply resource_mapping_ok.
Qed.

(** ** What a call that succeeds has done *)

Lemma submitProposal_done call x r x' : 0 ≤ default 0 (cl_value call) → (submitProposal abi call : M Returned) x = Done r x' → succeeded r →
  ∃ v n proposer json p content b1 b2 c id, cl_value call = Some v ∧ 0 ≤ n ∧ v = n * AtabiToWeiMultiplier ∧ cl_args call = [VString json] ∧
    Proposal_Unmarshal json = inl p ∧ GetTabiAddress (cview (ex_ctx x)) (cl_caller call) = Some proposer ∧
    bank_moved (bank_of (ex_ctx x)) b1 (GetTabiAddressOrDefault (cview (ex_ctx x)) (HexToAddress GovAddress)) (- v) ∧
    bank_moved b1 b2 proposer v ∧ cview c = set_bank b2 (cview (ex_ctx x)) ∧ content_ok (cview c) p content ∧
    gv_SubmitProposal (mkMsgSubmitProposal content (base_coins n) proposer (pr_IsExpedited p)) c = (ex_ctx x', inl id).
Proof.
  intros Hv0 H Hr. unfold submitProposal in H. destruct (ValidateArgsLength _ _) eqn:Hlen; [no_success H|]. apply ValidateArgsLength_done in Hlen.
  apply xbind_done in H as (found & x1 & [[= <-] Hx1]%reads_done & H). destruct (GetTabiAddress _ _) as [from|] eqn:Hfrom; [|no_success H].
  apply xbind_done in H as (json & x2 & [Hj ->]%arg_string_done & H). destruct (Proposal_Unmarshal json) as [p|] eqn:Hp; [|no_success H].
  apply xbind_done in H as (pa & x3 & [[= <-] Hx3]%reads_done & H). destruct (cl_value call) as [v|]; [|done]. rewrite Hx1 in H.
  apply xbind_done in H as ([n|] & x4 & E4 & H); [|no_success H]. apply HandlePaymentUtabi_done in E4 as (Hvn & Hn & b1 & b2 & M1 & M2 & V4); [|done].
  apply xbind_done in H as ([content|] & x5 & E5 & H); [|no_success H]. apply createProposalContent_done in E5 as (Hok & _ & _ & Hx5).
  destruct (NewMsgSubmitProposalWithExpedite _); [no_success H|]. destruct (MsgSubmitProposal_ValidateBasic _); [no_success H|].
  apply xbind_done in H as ([id|] & x6 & E6 & H); [|no_success H]. apply writes_done in E6. injection E6 as E6. rewrite Hx3, Hx1 in M1, V4. rewrite Hx5 in E6.
  exists v, n, from, json, p, content, b1, b2, (ex_ctx x4), id. rewrite (quiet_done _ _ _ _ (xquiet_packed_static _ _ _) H).
  destruct (cl_args call) as [|a [|]]; try done. simpl in Hj. injection Hj as ->. by split_and!.
Qed.

Context `{GVL : !GovLaws MS B A}.
#[local] Hint Resolve gv_Vote_safe gv_VoteWeighted_safe gv_Deposit_safe : exec.

Lemma submitted_keeps m call : xkeeps succeeded (
  let% res := writes "SubmitProposal" (λ c, Ret (gv_SubmitProposal m c)) in
  try% proposalId := res in packed_static abi call [VInt proposalId] : M Returned).
Proof.
  apply (xkeeps_bind (λ r, ∃ id, r = inl id)).
  - apply xkeeps_writes. intros c c' e [= E]. destruct (gv_SubmitProposal_safe m c) as [H1 H2]. rewrite E in H1, H2. split; [done|]. intros [id ->]. by eapply H2.
  - intros [id|e]; keeps.
  - intros [id|e] s r s' H Hr; [by eexists|no_success H].
Qed.
#[local] Hint Resolve submitted_keeps : exec.

(** The gov precompile is one the EVM may call. *)
Lemma gov_LevelExecutor : LevelExecutor (Execute abi : Call → M Returned).
Proof. intros call _. unfold Execute, vote, voteWeighted, deposit, submitProposal. keeps. Qed.
Lemma gov_StaticExecutor : StaticExecutor (Execute abi : Call → M Returned).
Proof. intros call Hro. unfold Execute. rewrite Hro. quiet. Qed.
End GovLemmas.

(** * Theorems *)

Section GovTheorems.
Context `{BK : BankKeeper B} `{CK : CoinsKeeper B} `{AK : AccountKeeper A} `{EC : EthCrypto} `{KC : KeeperConfig}.
Context `{MST : MultiStore MS (World B A)} `{MSL : !MultiStoreLaws MS (World B A)} `{SD : SdkDec} `{GM : GasMeters G} `{SG : StoreGas B A G}.
Context `{EH : EthHex} `{GV : GovKeeper MS} `{BL : !BankLaws B} `{CL : !CoinsLaws B}.
Context `{EVC : EVMCalls MS} `{EVL : !EVMCallsLaws MS B A}.
Variable abi : ABI.
Notation DB := (DBImpl MS).

Lemma content_ok_ext (w w' : World B A) p c : w_evm w' = w_evm w → content_ok w p c → content_ok w' p c.
Proof. intros E. destruct c; simpl; try done. unfold GetTabiAddress. by rewrite E. Qed.

(** C23: a proposal submitted through the precompile is the one that was asked for.
    When a call of [submitProposal] succeeds, the gov module was asked to submit, in
    the name of the account associated with the caller, a content of the kind named by
    the type in the JSON (a text when there is none), with the title, the description
    and what the JSON says for this kind: the account paid from the community pool is
    the one associated with the address in it, and of a resource mapping only the
    dependencies enter the content, as synchronous mappings.  The whole value of the
    call is the deposit; the module was asked when the value had gone back to that
    account, so every account then had what it had before the call. *)
Theorem submitProposal_submits (meter : G) caller contract input v readOnly isDelegateCall args (s s' : DB) r : EthReplayConfig_Enabled = false →
  coinbaseEvmAddress s ≠ caller → coinbaseEvmAddress s ≠ HexToAddress GovAddress → 0 ≤ v ≤ balance_of s caller →
  Prepare abi input = inl (SubmitProposalMethod, args) →
  evm_call_precompile [OpTransferWithoutEvents caller (HexToAddress GovAddress) v]
    (Run abi (Execute abi) meter caller contract input (Some v) readOnly isDelegateCall) s = Ret (r, s') → r.2 = None →
  ∃ json p proposer content n c c' id, args = [VString json] ∧ Proposal_Unmarshal json = inl p ∧ readOnly = false ∧ isDelegateCall = false ∧
    GetTabiAddress (cview (ctx s)) caller = Some proposer ∧ 0 ≤ n ∧ v = n * AtabiToWeiMultiplier ∧ content_ok (cview (ctx s)) p content ∧
    gv_SubmitProposal (mkMsgSubmitProposal content (base_coins n) proposer (pr_IsExpedited p)) c = (c', inl id) ∧
    (∀ a, wei_value (bank_of c) a = wei_value (bank_of (ctx s)) a) ∧ w_evm (cview c) = w_evm (cview (ctx s)) ∧
    cview (ctx s') = cview c' ∧ surplus (tempStateCurrent s') = 0.
Proof.
  intros Hlive Hc1 Hc2 Hv Hprep H Hr.
  destruct (paid_run_done Hlive _ _ _ _ _ _ _ _ _ _ _ _ _ Hc1 Hc2 Hv H Hr) as (method & args' & x & x' & Hp & Hx & Hws & Vx' & T & Hback).
  rewrite Hprep in Hp. injection Hp as <- <-. unfold Execute in Hx. cbn [cl_delegate cl_readOnly cl_method] in Hx.
  destruct readOnly; [no_success Hx|]. destruct isDelegateCall; [no_success Hx|]. simpl in Hx.
  apply submitProposal_done in Hx as (v' & n & from & json & p & content & b3 & b4 & c & id & Hx); [|simpl; lia|done].
  cbn [cl_value cl_args cl_caller] in Hx. destruct Hx as ([= <-] & Hn & Hvn & -> & Hj & Hfrom & M3 & M4 & Vc & Hok & Hsub).
  assert (Hfrom' : GetTabiAddress (cview (ctx s)) caller = Some from) by (unfold GetTabiAddress in *; by rewrite <- Hws).
  assert (Hwc : w_evm (cview c) = w_evm (cview (ctx s))) by (by rewrite Vc).
  exists json, p, from, content, n, c, (ex_ctx x'), id. split_and!; try done.
  - by apply (content_ok_ext (cview c)).
  - intros a. unfold bank_of at 1. rewrite Vc. by eapply Hback.
Qed.
End GovTheorems.

(** * Examples *)

Section GovExamples.
#[local] Existing Instances demo_bank_keeper demo_bank_laws demo_coins demo_coins_laws demo_accounts demo_crypto live_config half_even_dec.
#[local] Existing Instances plain_meter demo_gas demo_call_stores demo_call_stores_laws demo_call_range plain_calls plain_calls_laws plain_hex.

(** One text, a proposal to spend 7 of the community pool; deposits are paid to
    the gov account. *)
Definition spend_proposal : Proposal :=
  mkProposal "Pay" "Pay the developer" "CommunityPoolSpend" false None (Some (mkSpend (addr_Hex (addr_of 7)) "7atabi")) None [].
#[local] Instance demo_gov : GovKeeper (stack_ms demo_world) := {|
  gv_Vote _ _ _ c := (c, None);
  gv_VoteWeighted _ _ _ c := (c, None);
  gv_Deposit a _ cs c := run_bank (λ b, bk_SendCoins b a (str_bytes "gov") cs) c;
  gv_SubmitProposal m c :=
    match run_bank (λ b, bk_SendCoins b (sp_Proposer m) (str_bytes "gov") (sp_InitialDeposit m)) c with
    | (c', None) => (c', inl 1)
    | (c', Some e) => (c', inr e)
    end;
  MsgVote_ValidateBasic _ _ _ := None;
  MsgVoteWeighted_ValidateBasic _ _ _ := None;
  MsgDeposit_ValidateBasic _ _ _ := None;
  NewMsgSubmitProposalWithExpedite _ := None;
  MsgSubmitProposal_ValidateBasic _ := None;
  ProposalTypeText := "Text";
  ProposalTypeChange := "ParameterChange";
  ProposalTypeSoftwareUpgrade := "SoftwareUpgrade";
  ProposalTypeCancelSoftwareUpgrade := "CancelSoftwareUpgrade";
  ProposalTypeCommunityPoolSpend := "CommunityPoolSpend";
  ProposalUpdateResourceDependencyMapping := "UpdateResourceDependencyMapping";
  Proposal_Unmarshal t := if String.eqb t "pay" then inl spend_proposal else inr "invalid character"%string;
  json_Marshal := inl;
  ParseCoinsNormalized t := if String.eqb t "7atabi" then inl [(BaseDenom, 7)] else inr "invalid decimal coin expression"%string;
  gov_NewDecFromStr _ := None
|}.

Definition submit_abi : ABI := demo_abi SubmitProposalMethod [VString "pay"].
Lemma submit_runs : ∃ r s',
  evm_call_precompile [OpTransferWithoutEvents (addr_of 7) (HexToAddress GovAddress) 3000000000000]
    (Run submit_abi (Execute submit_abi) (100000, 0) (addr_of 7) (addr_of 7) demo_selector (Some 3000000000000) false false) alice_db = Ret (r, s') ∧ r.2 = None.
Proof. apply succeeds_ret. vm_compute. reflexivity. Qed.

Lemma submitProposal_submits_witness : ∃ r s' content n proposer c c' id,
  evm_call_precompile [OpTransferWithoutEvents (addr_of 7) (HexToAddress GovAddress) 3000000000000]
    (Run submit_abi (Execute submit_abi) (100000, 0) (addr_of 7) (addr_of 7) demo_selector (Some 3000000000000) false false) alice_db = Ret (r, s') ∧
  3000000000000 = n * AtabiToWeiMultiplier ∧ content_ok (cview (ctx alice_db)) spend_proposal content ∧
  gv_SubmitProposal (mkMsgSubmitProposal content (base_coins n) proposer false) c = (c', inl id) ∧ cview (ctx s') = cview c'.
Proof.
  assert (Hlive : EthReplayConfig_Enabled = false) by reflexivity.
  assert (H1 : coinbaseEvmAddress alice_db ≠ addr_of 7) by (vm_compute; discriminate).
  assert (H2 : coinbaseEvmAddress alice_db ≠ HexToAddress GovAddress) by (vm_compute; discriminate).
  assert (Hb : balance_of alice_db (addr_of 7) = 5000000000009) by (vm_compute; reflexivity).
  assert (Hv : 0 ≤ 3000000000000 ≤ balance_of alice_db (addr_of 7)) by lia.
  assert (Hp : Prepare submit_abi demo_selector = inl (SubmitProposalMethod, [VString "pay"])) by reflexivity.
  destruct submit_runs as (r & s' & E & Hr).
  destruct (submitProposal_submits submit_abi (100000, 0) (addr_of 7) (addr_of 7) demo_selector 3000000000000 false false [VString "pay"]
    alice_db s' r Hlive H1 H2 Hv Hp E Hr) as (json & p & proposer & content & n & c & c' & id & Ha & Hj & _ & _ & _ & _ & Hn & Hok & Hs & _ & _ & Hc & _).
  injection Ha as <-. injection Hj as <-. exists r, s', content, n, proposer, c, c', id. split; [exact E|]. split; [exact Hn|]. split; [exact Hok|].
  split; [exact Hs|exact Hc].
Defined.
End GovExamples.
