(* ===== verification/PointerPrecompile.v ===== *)
(** * The pointer precompile
    (precompiles/pointer/pointer.go, x/evm/keeper/pointer_upgrade.go)

    Anyone may have the pointer contract of a native or wasm token deployed, or
    brought up to the current version: an existing pointer keeps its address and
    gets new code.  The deployment itself is done by the EVM, on levels its snapshots
    put above the context the precompile was given; its answer is a parameter.  The
    keeper writes to the given context, beneath those levels, and this context is the
    state here. *)

From S2P Require Import Prelude Bytes Dec Store Params Keys World Instances Keeper StateDB Snapshots Supply Finalize Frame Fee Eth Block EthTx Msg Receipts Tx Associate.
From S2P Require Import Pointer MsgServer Precompile.
From Stdlib Require Import Strings.Byte.
Local Open Scope Z_scope.
Local Open Scope exec_scope.

(** ** Metadata *)

(** [utils.ERCMetadata], and the bank's metadata of a denomination. *)
Record ERCMetadata : Type := mkERCMetadata { em_Name : string; em_Symbol : string; em_Decimals : Z }.
Record DenomUnit : Type := mkDenomUnit { du_Denom : string; du_Exponent : Z; du_Aliases : list string }.
Record Metadata : Type := mkMetadata { md_Name : string; md_Symbol : string; md_DenomUnits : list DenomUnit }.

(** The answers of the EVM that deploys on top of a context, the artifacts of the pointer contracts, the metadata of
    the bank, and the queries of wasm contracts.  The answer of a contract is a JSON
    object: [None] is a field that is not a string. *)
Class PointerEnv (MS B : Type) := {
  pe_GetDeploymentCode : Address → bytes → Z → Address → Ctx MS → outcome (bytes * Z * option Err);
  pe_Create : Address → bytes → Z → Ctx MS → outcome (Address * Z * option Err);
  artifact_Pack : string → list AbiValue → bytes + Err;
  artifact_Bin : string → bytes;
  pe_GetDenomMetaData : B → string → option Metadata;
  pe_QuerySmartSafe : Ctx MS → AccAddress → bytes → bytes + Err;
  json_object : bytes → (string → option string) + Err
}.

Definition AddNativePointer : string := "addNativePointer".
Definition AddCW20Pointer : string := "addCW20Pointer".
Definition AddCW721Pointer : string := "addCW721Pointer".
Definition AddCW1155Pointer : string := "addCW1155Pointer".
Definition PointerAddress : string := "0x000000000000000000000000000000000000100b".

(** The loop over the units: the unit with the greatest exponent that is a
    uint8, the first of them. *)
Fixpoint unit_loop (units : list DenomUnit) (acc : ERCMetadata) : ERCMetadata :=
  match units with
  | [] => acc
  | u :: rest =>
      unit_loop rest
        (if (em_Decimals acc <? du_Exponent u) && (du_Exponent u <=? 255)
         then mkERCMetadata (match du_Aliases u with a :: _ => a | [] => du_Denom u end) (du_Denom u) (du_Exponent u)
         else acc)
  end.
Definition native_metadata (m : Metadata) : ERCMetadata := unit_loop (md_DenomUnits m) (mkERCMetadata (md_Name m) (md_Symbol m) 0).

Section Upsert.
Context `{BK : BankKeeper B} `{AK : AccountKeeper A} `{EC : EthCrypto} `{KC : KeeperConfig}.
Context `{MST : MultiStore MS (World B A)} `{SD : SdkDec} `{GM : GasMeters G} `{SG : StoreGas B A G}.
Context `{EH : EthHex} `{BE : Bech32} `{PE : PointerEnv MS B}.
Variable abi : ABI.
Variable chainID : string.
Variable versionOverride : Z.
(** [AccountKeeper().GetModuleAddress(types.ModuleName)]. *)
Variable moduleAccount : AccAddress.
Notation World := (World B A).
Notation M X := (exec_m MS G X).
Notation Getter := (bool → World → bytes → outcome (option (Address * Z))).
Notation Setter := (bytes → Address → World → outcome (World * option Err)).

(** [ctx.GasMeter().ConsumeGas] of what the EVM used. *)
Definition consume_evm_gas (used : Z) : M unit := λ s,
  match GetCosmosGasLimitFromEVMGas (cview (ex_ctx s)) used with
  | Panic msg => Panicked msg s
  | Ret n => match gm_ConsumeGas n (ex_gas s) with Ret g => Done tt (mkExec (ex_ctx s) g) | Panic msg => Panicked msg s end
  end.

Definition emits (evs : list Event) : M unit := λ s, Done tt (mkExec (cemit evs (ex_ctx s)) (ex_gas s)).

(** A setter on the stores. *)
Definition run_setter (setter : Setter) (pointee : bytes) (addr : Address) : M (option Err) :=
  writes "SetPointer" (λ c, match setter pointee addr (cview c) with Ret (w, e) => Ret (cupd (λ _, w) c, e) | Panic msg => Panic msg end).

(** What the EVM answers on top of the context. *)
Definition deploys {X} (f : Ctx MS → outcome X) : M X := λ s,
  match f (ex_ctx s) with Ret x => Done x s | Panic msg => Panicked msg s end.

(** New code for the pointer there is, or a new pointer: its address, the gas
    left and the error. *)
Definition deploy (moduleAddr : Address) (bin : bytes) (gas : Z) (existing : option (Address * Z)) : M (Address * Z * option Err) :=
  match existing with
  | Some (addr, _) =>
      let% r := deploys (pe_GetDeploymentCode moduleAddr bin gas addr) in
      let '(ret, left_, e) := r in
      let% u := writes "SetCode" (λ c, Ret (Keeper.SetCode addr ret c, tt)) in
      xret (addr, left_, e)
  | None => deploys (pe_Create moduleAddr bin gas)
  end.

Definition UpsertERCPointer (typ : string) (pointee : string) (args : list AbiValue) (getter : Getter) (setter : Setter) : M (Address + Err) :=
  let% moduleAddr := reads "GetEVMAddressOrDefault" (λ w, Ret (GetEVMAddressOrDefault w moduleAccount)) in
  match artifact_Pack typ args with
  | inr e => xpanic e
  | inl packedArgs =>
      let bin := artifact_Bin typ ++ packedArgs in
      let% existing := (λ s, reads "GetPointer" (λ w, getter (ci_isTracing (c_info (ex_ctx s))) w (str_bytes pointee)) s) in
      let% suppliedGas := GetRemainingGas in
      let% r := deploy moduleAddr bin suppliedGas existing in
      let '(contractAddr, remainingGas, e) := r in
      match e with
      | Some e => xret (inr e)
      | None =>
          let% u := consume_evm_gas (u64 (suppliedGas - remainingGas)) in
          let% e := run_setter setter (str_bytes pointee) contractAddr in
          match e with
          | Some e => xret (inr e)
          | None =>
              let% u := emits [mkEvent EventTypePointerRegistered
                [(AttributeKeyPointerType, VStr typ); (AttributeKeyPointerAddress, VHex contractAddr); (AttributeKeyPointee, VStr pointee)]] in
              xret (inl contractAddr)
          end
      end
  end.

Definition UpsertERCNativePointer (token : string) (m : ERCMetadata) : M (Address + Err) :=
  UpsertERCPointer "native" token [VString token; VString (em_Name m); VString (em_Symbol m); VInt (em_Decimals m)]
    GetERC20NativePointer SetERC20NativePointer.
Definition UpsertERCCW20Pointer (cw20Addr : string) (m : ERCMetadata) : M (Address + Err) :=
  UpsertERCPointer "cw20" cw20Addr [VString cw20Addr; VString (em_Name m); VString (em_Symbol m)]
    (GetERC20CW20Pointer chainID versionOverride) (SetERC20CW20Pointer chainID versionOverride).
Definition UpsertERCCW721Pointer (cw721Addr : string) (m : ERCMetadata) : M (Address + Err) :=
  UpsertERCPointer "cw721" cw721Addr [VString cw721Addr; VString (em_Name m); VString (em_Symbol m)]
    GetERC721CW721Pointer SetERC721CW721Pointer.
Definition UpsertERCCW1155Pointer (cw1155Addr : string) (m : ERCMetadata) : M (Address + Err) :=
  UpsertERCPointer "cw1155" cw1155Addr [VString cw1155Addr; VString (em_Name m); VString (em_Symbol m)]
    GetERC1155CW1155Pointer SetERC1155CW1155Pointer.

(** ** The executor *)

Definition AddNative (call : Call) : M Returned :=
  ensure% ValidateNonPayable (cl_value call);
  ensure% ValidateArgsLength (cl_args call) 1;
  let% token := arg_string (cl_args call) 0 in
  let% found := reads "GetDenomMetaData" (λ w, Ret (pe_GetDenomMetaData (w_bank w) token)) in
  match found with
  | None => xret (failed "denom does not have metadata stored and thus can only have its pointer set through gov proposal")
  | Some metadata =>
      let% r := UpsertERCNativePointer token (native_metadata metadata) in
      try% contractAddr := r in
      packed abi call [VAddress contractAddr]
  end.

(** The queries of the contracts' names. *)
Definition quoted_query (name : string) : bytes := str_bytes "{" ++ [x22] ++ str_bytes name ++ [x22] ++ str_bytes ":{}}".

(** The common part of the three kinds of wasm tokens; a name that is not a string
    is a panic. *)
Definition add_cw (query : bytes) (upsert : string → ERCMetadata → M (Address + Err)) (call : Call) : M Returned :=
  ensure% ValidateNonPayable (cl_value call);
  ensure% ValidateArgsLength (cl_args call) 1;
  let% cwAddr := arg_string (cl_args call) 0 in
  match AccAddressFromBech32 (str_bytes cwAddr) with
  | None => xret (failed "decoding bech32 failed")
  | Some cwAddress =>
      let% answer := (λ s, reads "QuerySmartSafe" (λ _, Ret (pe_QuerySmartSafe (ex_ctx s) cwAddress query)) s) in
      try% res := answer in
      try% fields := json_object res in
      match fields "name"%string, fields "symbol"%string with
      | Some name, Some symbol =>
          let% r := upsert cwAddr (mkERCMetadata name symbol 0) in
          try% contractAddr := r in
          packed abi call [VAddress contractAddr]
      | _, _ => xpanic bad_assertion
      end
  end.

Definition AddCW20 : Call → M Returned := add_cw (quoted_query "token_info") UpsertERCCW20Pointer.
Definition AddCW721 : Call → M Returned := add_cw (quoted_query "contract_info") UpsertERCCW721Pointer.
Definition AddCW1155 : Call → M Returned := add_cw (quoted_query "contract_info") UpsertERCCW1155Pointer.

Definition Execute (call : Call) : M Returned :=
  let m := cl_method call in
  if cl_readOnly call then xret (failed "cannot call pointer precompile from staticcall") else
  if cl_delegate call then xret (failed "cannot delegatecall pointer") else
  if String.eqb m AddNativePointer then AddNative call else
  if String.eqb m AddCW20Pointer then AddCW20 call else
  if String.eqb m AddCW721Pointer then AddCW721 call else
  if String.eqb m AddCW1155Pointer then AddCW1155 call else
  xret (failed "unknown method").
End Upsert.

(** * Lemmas *)

(** The chosen unit. *)
Lemma unit_loop_spec units acc :
  let r := unit_loop units acc in
  em_Decimals acc ≤ em_Decimals r ∧ (∀ u, u ∈ units → du_Exponent u ≤ 255 → du_Exponent u ≤ em_Decimals r) ∧
  (r = acc ∨ ∃ u, u ∈ units ∧ em_Decimals r = du_Exponent u ∧ du_Exponent u ≤ 255 ∧ em_Symbol r = du_Denom u ∧
                em_Name r = default (du_Denom u) (head (du_Aliases u))).
Proof.
  revert acc. induction units as [|u units IH]; intros acc; simpl; [split_and!; [done|intros u Hu; by apply elem_of_nil in Hu|by left]|].
  set (acc' := if _ : bool then _ else _). destruct (IH acc') as (H1 & H2 & H3). simpl in H1, H2, H3.
  assert (Hacc : em_Decimals acc ≤ em_Decimals acc' ∧ (du_Exponent u ≤ 255 → du_Exponent u ≤ em_Decimals acc')).
  { unfold acc'. destruct (Z.ltb_spec (em_Decimals acc) (du_Exponent u)), (Z.leb_spec (du_Exponent u) 255); simpl; lia. }
  split_and!; [lia|intros u' [->|Hu]%elem_of_cons; [lia|by apply H2]|].
  destruct H3 as [->|(u' & Hu & H3)]; [|right; exists u'; split; [by right|done]].
  unfold acc'. destruct ((em_Decimals acc <? du_Exponent u) && (du_Exponent u <=? 255)) eqn:E; [|by left].
  right. exists u. apply andb_true_iff in E as [_ E%Z.leb_le]. split_and!; [by left|done|done|done|]. simpl. by destruct (du_Aliases u).
Qed.

Section PointerLemmas.
Context `{BK : BankKeeper B} `{AK : AccountKeeper A} `{EC : EthCrypto} `{KC : KeeperConfig}.
Context `{MST : MultiStore MS (World B A)} `{MSL : !MultiStoreLaws MS (World B A)} `{SD : SdkDec} `{GM : GasMeters G} `{SG : StoreGas B A G}.
Context `{EH : EthHex} `{BE : Bech32} `{PE : PointerEnv MS B}.
Variable abi : ABI.
Variable chainID : string.
Variable versionOverride : Z.
Variable moduleAccount : AccAddress.
Notation World := (World B A).
Notation M X := (exec_m MS G X).

Lemma run_setter_done (key : bytes → bytes) version p addr (x x' : Exec MS G) :
  (run_setter (λ p a w, set_pointer (cwAddressIsPointer w p) (key p) (ba a) a p version w) p addr : M (option Err)) x = Done None x' →
  cwAddressIsPointer (cview (ex_ctx x)) p = Ret false ∧
  cview (ex_ctx x') = setPointerInfo (PointerReverseRegistryKey addr) p version (setPointerInfo (key p) (ba addr) version (cview (ex_ctx x))).
Proof.
  unfold run_setter. intros H%writes_done. unfold set_pointer in H. destruct (cwAddressIsPointer _ p) as [[]|]; [done| |done].
  cbn [outcome_bind] in H. injection H as <-. by rewrite cview_cupd.
Qed.
Lemma emits_done evs x u x' : (emits evs : M unit) x = Done u x' → cview (ex_ctx x') = cview (ex_ctx x).
Proof. intros [= _ <-]. apply cview_cemit. Qed.
Lemma consume_done n x u x' : (consume_evm_gas n : M unit) x = Done u x' → ex_ctx x' = ex_ctx x.
Proof. unfold consume_evm_gas. intros H. destruct (GetCosmosGasLimitFromEVMGas _ _); [|done]. by destruct (gm_ConsumeGas _ _); [injection H as _ <-|]. Qed.

(** Where the code of a pointer that already exists comes from, and the address of
    a new one. *)
Lemma deploys_done {X} (f : Ctx MS → outcome X) x r x' : (deploys f : M X) x = Done r x' → f (ex_ctx x) = Ret r ∧ x' = x.
Proof. unfold deploys. destruct (f (ex_ctx x)); [|done]. by intros [= <- <-]. Qed.
Lemma deploy_done a bin g existing x addr left_ e x' : (deploy a bin g existing : M (Address * Z * option Err)) x = Done (addr, left_, e) x' →
  match existing with
  | Some (old, _) => addr = old ∧ ∃ code, pe_GetDeploymentCode a bin g old (ex_ctx x) = Ret (code, left_, e) ∧ ex_ctx x' = Keeper.SetCode old code (ex_ctx x)
  | None => pe_Create a bin g (ex_ctx x) = Ret (addr, left_, e) ∧ ex_ctx x' = ex_ctx x
  end.
Proof.
  unfold deploy. destruct existing as [[old v]|]; intros H; [|by apply deploys_done in H as [H ->]].
  apply xbind_done in H as ([[code l] e1] & x1 & [E1 ->]%deploys_done & H).
  apply xbind_done in H as (u & x2 & E2%writes_done & H). injection H as <- <- <- <-. injection E2 as E2 _.
  split; [done|]. by exists code.
Qed.

(** The deployment of the artifact [typ] with the arguments [args] on top of the
    context [c]: new code at the address there was, or a contract at a new address. *)
Definition deployed (typ : string) (args : list AbiValue) (existing : option (Address * Z)) (addr : Address) (c c1 : Ctx MS) : Prop :=
  ∃ packedArgs moduleAddr gas left_, artifact_Pack typ args = inl packedArgs ∧
    match existing with
    | Some (old, _) => addr = old ∧ ∃ code,
        pe_GetDeploymentCode moduleAddr (artifact_Bin typ ++ packedArgs) gas old c = Ret (code, left_, None) ∧ c1 = Keeper.SetCode old code c
    | None => pe_Create moduleAddr (artifact_Bin typ ++ packedArgs) gas c = Ret (addr, left_, None) ∧ c1 = c
    end.

(** Both entries of a pointer at [version], over the stores [w]. *)
Definition registered_over (w : World) (key p : bytes) (addr : Address) (version : Z) (w' : World) : Prop :=
  w' = setPointerInfo (PointerReverseRegistryKey addr) p version (setPointerInfo key (ba addr) version w).

Lemma UpsertERCPointer_done typ pointee args getter key version x addr x' :
  (UpsertERCPointer moduleAccount typ pointee args getter
     (λ p a w, set_pointer (cwAddressIsPointer w p) (key p) (ba a) a p version w) : M (Address + Err)) x = Done (inl addr) x' →
  let p := str_bytes pointee in
  ∃ existing c1, getter (ci_isTracing (c_info (ex_ctx x))) (cview (ex_ctx x)) p = Ret existing ∧
    deployed typ args existing addr (ex_ctx x) c1 ∧ cwAddressIsPointer (cview c1) p = Ret false ∧
    registered_over (cview c1) (key p) p addr version (cview (ex_ctx x')).
Proof.
  cbv zeta. intros H. unfold UpsertERCPointer in H. apply xbind_done in H as (ma & x1 & [_ Hx1]%reads_done & H).
  destruct (artifact_Pack typ args) as [bin|] eqn:Hbin; [|done].
  apply xbind_done in H as (existing & x2 & [Hget Hx2]%reads_done & H). rewrite Hx1 in Hget.
  apply xbind_done in H as (gas & x3 & Hg & H). apply (quiet_done _ _ _ _ xquiet_gas) in Hg.
  apply xbind_done in H as ([[addr' left_] e] & x4 & Hd & H). apply deploy_done in Hd. destruct e; [done|].
  apply xbind_done in H as (u & x5 & Hc%consume_done & H). apply xbind_done in H as ([e|] & x6 & Hs & H); [done|].
  apply run_setter_done in Hs as [Hp Hv]. apply xbind_done in H as (u' & x7 & He%emits_done & H). injection H as <- <-.
  exists existing, (ex_ctx x4). rewrite Hg, Hx2, Hx1 in Hd. rewrite Hc in Hp. unfold registered_over.
  split_and!; [done|by exists bin, ma, gas, left_|done|congruence].
Qed.

(** The arguments of the constructor of the pointer contract of a native token. *)
Definition native_args (token : string) (m : ERCMetadata) : list AbiValue :=
  [VString token; VString (em_Name m); VString (em_Symbol m); VInt (em_Decimals m)].

Lemma AddNative_done call x r x' : (AddNative abi moduleAccount call : M Returned) x = Done r x' → succeeded r →
  ∃ token md existing addr c1, cl_args call = [VString token] ∧ pe_GetDenomMetaData (w_bank (cview (ex_ctx x))) token = Some md ∧
    GetERC20NativePointer (ci_isTracing (c_info (ex_ctx x))) (cview (ex_ctx x)) (str_bytes token) = Ret existing ∧
    deployed "native" (native_args token (native_metadata md)) existing addr (ex_ctx x) c1 ∧ cwAddressIsPointer (cview c1) (str_bytes token) = Ret false ∧
    registered_over (cview c1) (PointerERC20NativeKey (str_bytes token)) (str_bytes token) addr native_CurrentVersion (cview (ex_ctx x')) ∧
    Pack abi (cl_method call) [VAddress addr] = inl r.1.1.
Proof.
  intros H Hr. unfold AddNative in H. destruct (ValidateNonPayable _); [no_success H|].
  destruct (ValidateArgsLength _ _) eqn:Hlen; [no_success H|]. apply ValidateArgsLength_done in Hlen.
  apply xbind_done in H as (token & x1 & [Ht ->]%arg_string_done & H).
  apply xbind_done in H as (found & x2 & [[= <-] Hx2]%reads_done & H). destruct (pe_GetDenomMetaData _ token) as [md|] eqn:Hmd; [|no_success H].
  apply xbind_done in H as ([addr|] & x3 & E & H); [|no_success H].
  apply (UpsertERCPointer_done _ _ _ _ PointerERC20NativeKey) in E as (existing & c1 & Hget & Hd & Hp & Hv). rewrite Hx2 in Hget, Hd.
  pose proof (quiet_done _ _ _ _ (xquiet_packed _ _ _) H) as Hx'. unfold packed in H. apply xbind_done in H as (g & x4 & _ & H).
  exists token, md, existing, addr, c1. destruct (cl_args call) as [|a0 [|]]; try done. simpl in Ht. injection Ht as ->.
  split_and!; try done; [by rewrite Hx'|]. destruct (Pack abi (cl_method call) [VAddress addr]); [by injection H as <- _|no_success H].
Qed.

(** A static call writes nothing. *)
Lemma pointer_StaticExecutor : StaticExecutor (Execute abi chainID versionOverride moduleAccount : Call → M Returned).
Proof. intros call Hro. unfold Execute. rewrite Hro. quiet. Qed.
End PointerLemmas.

(** * Theorems *)

Section PointerTheorems.
Context `{BK : BankKeeper B} `{AK : AccountKeeper A} `{EC : EthCrypto} `{KC : KeeperConfig}.
Context `{MST : MultiStore MS (World B A)} `{MSL : !MultiStoreLaws MS (World B A)} `{SD : SdkDec} `{GM : GasMeters G} `{SG : StoreGas B A G}.
Context `{EH : EthHex} `{BE : Bech32} `{PE : PointerEnv MS B}.
Variable abi : ABI.
Variable chainID : string.
Variable versionOverride : Z.
Variable moduleAccount : AccAddress.

End PointerTheorems.

(** * Examples *)

Section PointerExamples.
#[local] Existing Instances demo_bank_keeper demo_bank_laws demo_accounts demo_crypto live_config half_even_dec.
#[local] Existing Instances plain_meter demo_gas demo_call_stores demo_call_stores_laws demo_call_range plain_calls plain_calls_laws marked_bech32 plain_hex.

(** A token counted in units of its millionth part.  A deployment
    creates the contract 99, or answers the binary as the code of the pointer there is. *)
Definition uatom : Metadata := mkMetadata "uatom" "UATOM" [mkDenomUnit "uatom" 0 []; mkDenomUnit "atom" 6 ["Atom"%string]; mkDenomUnit "huge" 300 []].
#[local] Instance demo_pointers : PointerEnv (stack_ms demo_world) demo_bank := {|
  pe_GetDeploymentCode _ bin g _ _ := Ret (bin, g - 10, None);
  pe_Create _ bin g _ := Ret (addr_of 99, g - 10, None);
  artifact_Pack _ _ := inl [x02];
  artifact_Bin _ := [x01];
  pe_GetDenomMetaData _ denom := if String.eqb denom "uatom" then Some uatom else None;
  pe_QuerySmartSafe _ _ _ := inr "no such contract"%string;
  json_object _ := inr "invalid character"%string
|}.
Definition pointer_abi : ABI := demo_abi AddNativePointer [VString "uatom"].
Definition pointer_call : Call := mkCall AddNativePointer (addr_of 7) (addr_of 7) [VString "uatom"] None false false.
Definition pointer_run : Ran (stack_ms demo_world) (Z * Z) Returned :=
  Execute pointer_abi "tabi" 0 (str_bytes "evm") pointer_call (mkExec alice_ctx (100000, 0)).

(** The pointer of the token has six decimals: the unit with an exponent beyond a uint8 does not count. *)
Lemma uatom_metadata : native_metadata uatom = mkERCMetadata "Atom" "atom" 6.
Proof. reflexivity. Qed.

End PointerExamples.
