(* ===== verification/Migrations.v ===== *)
(** * Upgrades of the module's state
    (x/evm/migrations, the migrations registered by x/evm/module.go)

    What the module does to its stores when the chain is upgraded: parameters get
    values, legacy entries are deleted, the code of the wasm pointers is uploaded
    and the pointers are moved to it, the supply is set right, and what was paid
    to the cast account of an associated address goes to its account.  The upgrades
    that redeploy pointer contracts of the EVM are not modelled: the keeper writes
    to a context below the one the EVM they start works on. *)

From S2P Require Import Prelude Bytes Dec Store Params Keys World Instances Keeper Snapshots Fee Eth Block Associate Pointer MsgServer Genesis.
From Stdlib Require Import Strings.Byte.
Local Open Scope Z_scope.
Local Open Scope outcome_scope.

(** ** What is called *)

(** Further calls of the bank: all balances, and the supply of the base
    denomination.  [SplitAtabiWeiAmount] and [OneAtabiInWei] are the bank keeper's. *)
Class SupplyKeeper (B : Type) := {
  sk_GetAccountsBalances : B → list (AccAddress * Coins);
  sk_AllWeiBalances : B → list (AccAddress * Z);
  sk_GetSupply : B → Z;
  sk_SetSupply : Z → B → B;
  sk_SplitAtabiWeiAmount : Z → Z * Z;
  sk_OneAtabiInWei : Z
}.
(** [WasmKeeper().Migrate(ctx, contract, caller, codeID, msg)] *)
Class WasmMigrate (MS : Type) := { wm_Migrate : AccAddress → AccAddress → Z → bytes → Ctx MS → Ctx MS * option Err }.

Section Migrations.
Context `{BK : BankKeeper B} `{CK : CoinsKeeper B} `{SK : SupplyKeeper B} `{AK : AccountKeeper A} `{SD : SdkDec}.
Context `{MST : MultiStore MS (World B A)} `{BE : Bech32} `{WC : WasmCodes MS} `{WM : WasmMigrate MS}.
Notation World := (World B A).
Notation Ctx := (Ctx MS).

(** ** Parameters

    The parameters all exist here, so [GetParamsIfExists] reads what [GetParams]
    reads. *)

Definition AddNewParamsAndSetAllToDefaults (c : Ctx) : Ctx * option Err := (cupd (SetParams DefaultParams) c, None).

Definition MigrateDisableRegisterPointer (c : Ctx) : Ctx * option Err :=
  let p := GetParams (cview c) in
  (cupd (SetParams (mkParams (PriorityNormalizer p) (BaseFeePerGas p) (MaxDynamicBaseFeeUpwardAdjustment p) (MaxDynamicBaseFeeDownwardAdjustment p)
     (MinimumFeePerGas p) (DeliverTxHookWasmGasLimit p) (WhitelistedCwCodeHashesForDelegateCall p) (TargetGasUsedPerBlock p) (MaximumFeePerGas p)
     true)) c, None).

Definition MigrateDeliverTxHookWasmGasLimitParam (c : Ctx) : Ctx * option Err :=
  let p := GetParams (cview c) in
  (cupd (SetParams (mkParams (PriorityNormalizer p) (BaseFeePerGas p) (MaxDynamicBaseFeeUpwardAdjustment p) (MaxDynamicBaseFeeDownwardAdjustment p)
     (MinimumFeePerGas p) (DeliverTxHookWasmGasLimit DefaultParams) (WhitelistedCwCodeHashesForDelegateCall p) (TargetGasUsedPerBlock p)
     (MaximumFeePerGas p) (RegisterPointerDisabled p))) c, None).

Definition MigrateEip1559MaxFeePerGas (c : Ctx) : Ctx * option Err :=
  let p := GetParams (cview c) in
  (cupd (SetParams (mkParams (PriorityNormalizer p) (BaseFeePerGas p) (MaxDynamicBaseFeeUpwardAdjustment p) (MaxDynamicBaseFeeDownwardAdjustment p)
     (MinimumFeePerGas p) (DeliverTxHookWasmGasLimit p) (WhitelistedCwCodeHashesForDelegateCall p) (TargetGasUsedPerBlock p)
     (MaximumFeePerGas DefaultParams) (RegisterPointerDisabled p))) c, None).

Definition MigrateEip1559Params (c : Ctx) : Ctx * option Err :=
  let p := GetParams (cview c) in
  (cupd (SetParams (mkParams (PriorityNormalizer p) (BaseFeePerGas p) (MaxDynamicBaseFeeUpwardAdjustment DefaultParams)
     (MaxDynamicBaseFeeDownwardAdjustment DefaultParams) (MinimumFeePerGas DefaultParams) (DeliverTxHookWasmGasLimit p)
     (WhitelistedCwCodeHashesForDelegateCall p) (TargetGasUsedPerBlock DefaultParams) (MaximumFeePerGas p) (RegisterPointerDisabled p))) c, None).

Definition MigrateBaseFeeOffByOne (c : Ctx) : outcome (Ctx * option Err) :=
  let* baseFee := GetCurrBaseFeePerGas (cview c) in
  Ret (cupd (SetNextBaseFeePerGas baseFee) c, None).

(** ** Legacy entries *)

Definition MigrateBlockBloom (c : Ctx) : Ctx * option Err :=
  let c1 := cupd (SetLegacyBlockBloomCutoffHeight (u64 (ci_height (c_info c)))) c in
  let prefsToDelete := IterateAll (cview c1) BlockBloomPrefix
    (λ key _ acc, (if (0 <? length key)%nat then acc ++ [key] else acc, false)) [] in
  (cupd (set_evm (λ m, foldl (λ acc k, prefix_delete BlockBloomPrefix k acc) m prefsToDelete)) c1, None).

(** [store.DeleteAll(nil, nil)] deletes what the iterator of the prefix store gives. *)
Definition RemoveTxHashes (c : Ctx) : Ctx * option Err :=
  let keys := fst <$> Iterator (prefix_store TxHashesPrefix (w_evm (cview c))) in
  (cupd (set_evm (λ m, foldl (λ acc k, prefix_delete TxHashesPrefix k acc) m keys)) c, None).

(** ** Wasm pointers *)

(** One upload of [StoreCWPointerCode]. *)
Definition store_code (t : PointerType) (prefix : bytes) (version : Z) (c : Ctx) : outcome Ctx :=
  let '(c1, r) := wk_Create t c in
  match r with
  | inr e => Panic e
  | inl codeID => Ret (cupd (set_evm (prefix_set (PointerCWCodePrefix ++ prefix) (PutUint16 version) (PutUint64 codeID))) c1)
  end.
Definition StoreCWPointerCode (store20 store721 store1155 : bool) (c : Ctx) : outcome (Ctx * option Err) :=
  let* c1 := if store20 then store_code PT_ERC20 PointerCW20ERC20Prefix erc20_CurrentVersion c else Ret c in
  let* c2 := if store721 then store_code PT_ERC721 PointerCW721ERC721Prefix erc721_CurrentVersion c1 else Ret c1 in
  let* c3 := if store1155 then store_code PT_ERC1155 PointerCW1155ERC1155Prefix erc1155_CurrentVersion c2 else Ret c2 in
  Ret (c3, None).

(** The loop of the migrations of wasm pointers: the entries, keys descending, and
    the tokens seen. *)
Fixpoint cw_loop (codeID : Z) (entries : list (bytes * bytes)) (seen : list bytes) (c : Ctx) : outcome (Ctx * option Err) :=
  match entries with
  | [] => Ret (c, None)
  | (key, value) :: rest =>
      if (length key <? 2)%nat then Panic "slice bounds out of range" else
      let evmAddr := take (length key - 2) key in
      if bool_decide (evmAddr ∈ seen) then cw_loop codeID rest seen c else
      match AccAddressFromBech32 value with
      | None => Ret (c, Some "decoding bech32 failed"%string)
      | Some addr =>
          match wm_Migrate addr (ak_GetModuleAddress ModuleName) codeID (str_bytes "{}") c with
          | (c', Some e) => Ret (c', Some e)
          | (c', None) => cw_loop codeID rest (evmAddr :: seen) c'
          end
      end
  end.
Definition MigrateCWPointers (t : PointerType) (prefix : bytes) (c : Ctx) : outcome (Ctx * option Err) :=
  let entries := rev (Iterator (prefix_store (PointerRegistryPrefix ++ prefix) (w_evm (cview c)))) in
  let* codeID := GetStoredPointerCodeID (cview c) t in
  cw_loop codeID entries [] c.
Definition MigrateCWERC20Pointers : Ctx → outcome (Ctx * option Err) := MigrateCWPointers PT_ERC20 PointerCW20ERC20Prefix.
Definition MigrateCWERC721Pointers : Ctx → outcome (Ctx * option Err) := MigrateCWPointers PT_ERC721 PointerCW721ERC721Prefix.
Definition MigrateCWERC1155Pointers : Ctx → outcome (Ctx * option Err) := MigrateCWPointers PT_ERC1155 PointerCW1155ERC1155Prefix.

(** ** Balances *)

Definition FixTotalSupply (c : Ctx) : Ctx * option Err :=
  let b := w_bank (cview c) in
  let correctSupply := foldl (λ acc e, acc + AmountOf BaseDenom e.2) 0 (sk_GetAccountsBalances b) in
  let totalWeiBalance := foldl (λ acc e, acc + e.2) 0 (sk_AllWeiBalances b) in
  let '(weiInAtabi, weiRemainder) := sk_SplitAtabiWeiAmount totalWeiBalance in
  let '(c1, e, weiInAtabi) :=
    if weiRemainder =? 0 then (c, None, weiInAtabi) else
    let '(c1, e) := run_bank (λ b, bk_AddWei b (ak_GetModuleAddress ModuleName) (sk_OneAtabiInWei - weiRemainder)) c in
    (c1, e, weiInAtabi + 1) in
  match e with
  | Some e => (c1, Some e)
  | None =>
      let correctSupply := correctSupply + weiInAtabi in
      (if sk_GetSupply (w_bank (cview c1)) =? correctSupply then c1
       else cupd (λ w, set_bank (sk_SetSupply correctSupply (w_bank w)) w) c1, None)
  end.

Definition MigrateCastAddressBalances (c : Ctx) : Ctx * option Err :=
  IterateTabiAddressMapping (cview c) (λ evmAddr tabiAddr s,
    let '(c', e) := move_spendable (ba evmAddr) tabiAddr s.1 in ((c', e), bool_decide (e ≠ None))) (c, None).
End Migrations.

(** What the supply's migration relies on: the balances add up to the bank's total,
    and the supply is a record apart from them. *)
Class SupplyLaws (B : Type) `{BK : BankKeeper B} `{SK : SupplyKeeper B} : Prop := {
  sk_balances_total : ∀ b, bk_total b = foldl (λ acc e, acc + AmountOf BaseDenom e.2) 0 (sk_GetAccountsBalances b) * AtabiToWeiMultiplier +
                                        foldl (λ acc e, acc + e.2) 0 (sk_AllWeiBalances b);
  sk_wei_nonneg : ∀ b, Forall (λ e, 0 ≤ e.2) (sk_AllWeiBalances b);
  sk_supply_set : ∀ n b, sk_GetSupply (sk_SetSupply n b) = n;
  sk_set_keeps : ∀ n b, (∀ a, wei_value (sk_SetSupply n b) a = wei_value b a) ∧ bk_total (sk_SetSupply n b) = bk_total b;
  sk_Split_spec : ∀ n, 0 ≤ n → sk_SplitAtabiWeiAmount n = (n `div` AtabiToWeiMultiplier, n `mod` AtabiToWeiMultiplier);
  sk_One_spec : sk_OneAtabiInWei = AtabiToWeiMultiplier
}.

Lemma foldl_add_nonneg {X : Type} (f : X → Z) (l : list X) acc : 0 ≤ acc → Forall (λ e, 0 ≤ f e) l → 0 ≤ foldl (λ acc e, acc + f e) acc l.
Proof. intros Ha H. revert acc Ha. induction H as [|x l Hx H IH]; intros acc Ha; simpl; [done|]. apply IH. lia. Qed.

(** ** Entries by token *)

(** The entries the loop acts on: the first one of each token. *)
Definition key_token (key : bytes) : bytes := take (length key - 2) key.
Fixpoint first_entries (entries : list (bytes * bytes)) (seen : list bytes) : list (bytes * bytes) :=
  match entries with
  | [] => []
  | e :: rest => if bool_decide (key_token e.1 ∈ seen) then first_entries rest seen else e :: first_entries rest (key_token e.1 :: seen)
  end.

Lemma first_entries_in entries seen e : e ∈ first_entries entries seen → e ∈ entries ∧ key_token e.1 ∉ seen.
Proof.
  revert seen. induction entries as [|x l IH]; intros seen; simpl; [intros H; by apply elem_of_nil in H|].
  case_bool_decide as Hs; [intros [? ?]%IH; split; [by right|done]|].
  intros [->|[H1 H2]%IH]%elem_of_cons; [split; [by left|done]|]. split; [by right|]. intros H. apply H2. by right.
Qed.
Lemma first_entries_NoDup entries seen : base.NoDup (key_token ∘ fst <$> first_entries entries seen).
Proof.
  revert seen. induction entries as [|x l IH]; intros seen; simpl; [apply NoDup_nil_2|].
  case_bool_decide; [apply IH|]. simpl. apply NoDup_cons. split; [|apply IH].
  intros (e & E & [_ He]%first_entries_in)%list_elem_of_fmap. apply He. simpl in E. rewrite E. by left.
Qed.

(** In a descending list the first entry of a token is the greatest one, and every
    token has one. *)
Lemma first_entries_max entries seen e e' : StronglySorted (flip entry_le) entries → e ∈ first_entries entries seen → e' ∈ entries →
  key_token e'.1 = key_token e.1 → bytes_le e'.1 e.1.
Proof.
  intros Hs. revert seen. induction Hs as [|x l Hs IH Hx]; intros seen He He' Ht; [by apply elem_of_nil in He'|].
  rewrite Forall_forall in Hx. simpl in He. case_bool_decide as Hin.
  - apply elem_of_cons in He' as [->|He']; [|by eapply IH]. apply first_entries_in in He as [_ He]. by rewrite Ht in Hin.
  - apply elem_of_cons in He as [->|He].
    + apply elem_of_cons in He' as [->|He']; [apply bytes_le_refl|by apply Hx].
    + apply elem_of_cons in He' as [->|He']; [|by eapply IH]. apply first_entries_in in He as [_ He]. destruct He. rewrite Ht. by left.
Qed.
Lemma first_entries_all entries seen e : e ∈ entries → key_token e.1 ∉ seen → ∃ e', e' ∈ first_entries entries seen ∧ key_token e'.1 = key_token e.1.
Proof.
  revert seen. induction entries as [|x l IH]; intros seen He Hs; [by apply elem_of_nil in He|]. simpl. case_bool_decide as Hin.
  - apply elem_of_cons in He as [->|He]; [done|by apply IH].
  - destruct (decide (key_token e.1 = key_token x.1)) as [E|Hne]; [exists x; split; [by left|done]|].
    apply elem_of_cons in He as [->|He]; [done|]. destruct (IH (key_token x.1 :: seen) He) as (e' & H1 & H2).
    + rewrite elem_of_cons. tauto.
    + exists e'. split; [by right|done].
Qed.

Lemma elem_of_rev {X : Type} (x : X) l : x ∈ rev l ↔ x ∈ l.
Proof. by rewrite !list_elem_of_In, <- in_rev. Qed.
Lemma Iterator_rev_sorted (m : kvstore) : StronglySorted (flip entry_le) (rev (Iterator m)).
Proof.
  pose proof (Iterator_sorted m) as H. induction H as [|x l Hs IH Hx]; simpl; [constructor|].
  rewrite Forall_forall in Hx. clear Hs.
  assert (Hl : ∀ y, y ∈ rev l → flip entry_le y x) by (intros y Hy; by apply Hx, elem_of_rev).
  induction IH as [|y l' IH' IHl Hy]; simpl; [repeat constructor|]. constructor; [apply IHl; intros z Hz; apply Hl; by right|].
  apply Forall_app. split; [done|]. apply Forall_singleton, Hl. by left.
Qed.

Lemma bytes_le_app_head (p a b : bytes) : bytes_le (p ++ a) (p ++ b) ↔ bytes_le a b.
Proof. unfold bytes_le. induction p as [|x p IH]; simpl; [done|]. by rewrite Z.ltb_irrefl. Qed.

(** The pointers of a list of texts are moved to a code, until one fails. *)
Fixpoint upgrade_all `{BE : Bech32} `{WM : WasmMigrate MS} (moduleAcct : AccAddress) (codeID : Z) (texts : list bytes) (c : Ctx MS) : Ctx MS * option Err :=
  match texts with
  | [] => (c, None)
  | text :: rest =>
      match AccAddressFromBech32 text with
      | None => (c, Some "decoding bech32 failed"%string)
      | Some addr =>
          match wm_Migrate addr moduleAcct codeID (str_bytes "{}") c with
          | (c', Some e) => (c', Some e)
          | (c', None) => upgrade_all moduleAcct codeID rest c'
          end
      end
  end.

Section PointerUpgrades.
Context `{BK : BankKeeper B} `{AK : AccountKeeper A} `{MST : MultiStore MS (World B A)} `{BE : Bech32} `{WM : WasmMigrate MS}.
Notation Ctx := (Ctx MS).

Lemma cw_loop_eq codeID entries seen (c : Ctx) : Forall (λ e, (2 ≤ length e.1)%nat) entries →
  cw_loop codeID entries seen c = Ret (upgrade_all (ak_GetModuleAddress ModuleName) codeID (snd <$> first_entries entries seen) c).
Proof.
  intros H. revert seen c. induction H as [|[k v] l Hk H IH]; intros seen c; simpl; [done|]. simpl in Hk.
  destruct (Nat.ltb_spec (length k) 2); [lia|]. fold (key_token k). case_bool_decide; [apply IH|]. simpl.
  destruct (AccAddressFromBech32 v); [|done]. by destruct (wm_Migrate _ _ _ _ c) as [c' [e|]].
Qed.

(** Entries of a kind of pointers: each key is an address and a version. *)
Definition versioned_keys (t : PointerType) (m : kvstore) : Prop :=
  ∀ s, is_Some (m !! type_key t s) → ∃ (a : Address) v, is_u16 v ∧ s = ba a ++ PutUint16 v.

Lemma key_token_versioned p v : key_token (p ++ PutUint16 v) = p.
Proof. unfold key_token. rewrite length_app. unfold PutUint16. rewrite length_be_enc. rewrite Nat.add_sub. apply take_app_length. Qed.

(** The first entries of the descending iterator are the latest pointers. *)
Lemma first_entries_latest (t : PointerType) (m : kvstore) (a : Address) (text : bytes) : versioned_keys t m →
  let firsts := first_entries (rev (Iterator (prefix_store (type_key t []) m))) [] in
  (∃ k, (k, text) ∈ firsts ∧ key_token k = ba a) ↔ ∃ k, ReverseIterator_first (prefix_store (type_key t (ba a)) m) = Some (k, text).
Proof.
  intros Hv firsts. set (es := rev (Iterator (prefix_store (type_key t []) m))) in *.
  assert (Hes : ∀ k x, (k, x) ∈ es ↔ m !! type_key t k = Some x) by (intros k x; unfold es; by rewrite elem_of_rev, elem_of_Iterator, lookup_prefix_store).
  assert (Hin : ∀ k x, (k, x) ∈ firsts → m !! type_key t k = Some x) by (intros k x [H _]%first_entries_in; by apply Hes).
  assert (Hsub : ∀ k, prefix_store (type_key t (ba a)) m !! k = m !! type_key t (ba a ++ k)) by (intros k; by rewrite lookup_prefix_store).
  assert (Htok : ∀ k x, m !! type_key t k = Some x → key_token k = ba a → ∃ v, k = ba a ++ PutUint16 v).
  { intros k x H Hk. destruct (Hv k) as (a' & v & _ & ->); [by eexists|]. rewrite key_token_versioned in Hk. exists v. by rewrite Hk. }
  split.
  - intros (k & Hf & Hk). destruct (Htok k text (Hin _ _ Hf) Hk) as [v ->]. exists (PutUint16 v). apply ReverseIterator_first_Some.
    rewrite Hsub. split; [by apply Hin|]. intros k' x'. rewrite Hsub. intros H'. destruct (Hv (ba a ++ k')) as (a' & v' & _ & E); [by eexists|].
    apply bytes_le_app_head with (p := ba a).
    apply (first_entries_max es [] (ba a ++ PutUint16 v, text) (ba a ++ k', x')); [apply Iterator_rev_sorted|done|by apply Hes|].
    simpl. rewrite Hk, E, key_token_versioned. rewrite <- Hk in E. simpl in E. apply app_inj_1 in E as [E _]; [by rewrite <- E, Hk|by rewrite Hk, !ba_length].
  - intros (k & [Hk Hmax]%ReverseIterator_first_Some). rewrite Hsub in Hk. destruct (Hv (ba a ++ k)) as (a' & v & _ & E); [by eexists|].
    apply app_inj_1 in E as [Ea ->]; [|by rewrite !ba_length].
    destruct (first_entries_all es [] (ba a ++ PutUint16 v, text)) as ([k' x'] & Hf & Ht); [by apply Hes|by apply not_elem_of_nil|].
    simpl in Ht. rewrite key_token_versioned in Ht. destruct (Htok k' x' (Hin _ _ Hf) Ht) as [v' ->].
    assert (PutUint16 v' = PutUint16 v) as E.
    { apply (anti_symm bytes_le); [apply (Hmax _ x'); rewrite Hsub; by apply Hin|]. apply bytes_le_app_head with (p := ba a).
      apply (first_entries_max es [] (ba a ++ PutUint16 v', x') (ba a ++ PutUint16 v, text)); [apply Iterator_rev_sorted|done|by apply Hes|].
      simpl. by rewrite !key_token_versioned. }
    exists (ba a ++ PutUint16 v). split; [|apply key_token_versioned]. apply Hin in Hf as Hx. rewrite E in Hf, Hx. rewrite Hx in Hk. injection Hk as <-. exact Hf.
Qed.
End PointerUpgrades.

(** * Theorems *)

Section MigrationTheorems.
Context `{BK : BankKeeper B} `{CK : CoinsKeeper B} `{SK : SupplyKeeper B} `{AK : AccountKeeper A} `{SD : SdkDec}.
Context `{MST : MultiStore MS (World B A)} `{MSL : !MultiStoreLaws MS (World B A)} `{BE : Bech32} `{WM : WasmMigrate MS}.
Notation World := (World B A).
Notation Ctx := (Ctx MS).

(** ** Balances *)

(** The associations, in key order, and those whose account is not the cast account
    of their own address, as that of a contract is; what an account receives from a
    list of them. *)
Definition associations (w : World) : list (Address * AccAddress) :=
  (λ e, (BytesToAddress e.1, e.2)) <$> Iterator (prefix_store EVMAddressToTabiAddressKeyPrefix (w_evm w)).
Definition elsewhere (l : list (Address * AccAddress)) : list (Address * AccAddress) := filter (λ p, ba p.1 ≠ p.2) l.
Fixpoint received (b : B) (l : list (Address * AccAddress)) (a : AccAddress) : Z :=
  match l with
  | [] => 0
  | (e, t) :: rest => (if bool_decide (t = a) then spendable b (ba e) else 0) + received b rest a
  end.

Lemma received_ext b b' l a : (∀ e t, (e, t) ∈ l → spendable b' (ba e) = spendable b (ba e)) → received b' l a = received b l a.
Proof.
  induction l as [|[e t] l IH]; intros H; simpl; [done|]. rewrite (H e t) by (by left). rewrite IH; [done|].
  intros e' t' Hin. apply (H e' t'). by right.
Qed.
Lemma received_none b l a : (∀ e t, (e, t) ∈ l → t ≠ a) → received b l a = 0.
Proof.
  induction l as [|[e t] l IH]; intros H; simpl; [done|]. rewrite bool_decide_false by (apply (H e); by left). rewrite IH; [done|].
  intros e' t' Hin. apply (H e' t'). by right.
Qed.

(** The associations of a store whose keys are addresses. *)
Lemma associations_NoDup (w : World) :
  (∀ k, is_Some (w_evm w !! (EVMAddressToTabiAddressKeyPrefix ++ k)) → length k = 20%nat) → base.NoDup (fst <$> associations w).
Proof.
  intros Hk. unfold associations. pose proof (Iterator_NoDup (prefix_store EVMAddressToTabiAddressKeyPrefix (w_evm w))) as Hnd.
  assert (Hall : Forall (λ e : bytes * bytes, length e.1 = 20%nat) (Iterator (prefix_store EVMAddressToTabiAddressKeyPrefix (w_evm w)))).
  { apply Forall_forall. intros [k x] Hin%elem_of_Iterator. rewrite lookup_prefix_store in Hin. apply Hk. by exists x. }
  rewrite <- list_fmap_compose. revert Hnd Hall. generalize (Iterator (prefix_store EVMAddressToTabiAddressKeyPrefix (w_evm w))) as es0.
  intros es0 Hnd Hall. induction Hall as [|[k x] es Hlen Hall IH]; [constructor|]. cbn [fmap list_fmap compose fst] in Hnd |- *.
  apply NoDup_cons in Hnd as [Hnew Hnd]. apply NoDup_cons. split; [|by apply IH]. intros ([k' x'] & E & Hin)%list_elem_of_fmap. apply Hnew.
  rewrite Forall_forall in Hall. specialize (Hall _ Hin). simpl in E, Hlen, Hall. apply (f_equal ba) in E.
  unfold BytesToAddress in E. rewrite !ba_fit_id in E by done. apply list_elem_of_fmap. by exists (k', x').
Qed.

Lemma cast_loop (BL : BankLaws B) (CL : CoinsLaws B) es (c c' : Ctx) :
  let l := (λ e : bytes * bytes, (BytesToAddress e.1, e.2)) <$> es in
  iterate_until (λ e s, let '(c', e) := move_spendable (ba (BytesToAddress e.1)) e.2 s.1 in ((c', e), bool_decide (e ≠ None))) es (c, None) = (c', None) →
  base.NoDup (fst <$> l) → (∀ p q, p ∈ l → q ∈ l → ba p.1 = q.2 → p = q) →
  moves_only_bank c c' ∧ ∀ a, spendable (w_bank (cview c')) a =
    if bool_decide (a ∈ ba ∘ fst <$> elsewhere l) then 0 else spendable (w_bank (cview c)) a + received (w_bank (cview c)) (elsewhere l) a.
Proof.
  cbv zeta. revert c. induction es as [|[k t] es IH]; intros c.
  { intros [= <-] _ _. split; [done|]. intros a. simpl. lia. }
  rewrite !fmap_cons. cbn [iterate_until fst snd compose]. set (e := BytesToAddress k). set (l := _ <$> es) in *.
  intros H Hnd Hdis. destruct (move_spendable (ba e) t c) as [c1 [err|]] eqn:E; [done|].
  apply NoDup_cons in Hnd as [Hnew Hnd]. destruct (move_spendable_moves _ _ _ _ E) as [K1 T1].
  destruct (IH c1 H Hnd) as [K2 S2]; [intros p q Hp Hq; apply Hdis; by right|].
  split; [destruct K1 as (?&?&?&?&?), K2 as (?&?&?&?&?); unfold moves_only_bank; split_and!; congruence|].
  unfold elsewhere. rewrite filter_cons. fold (elsewhere l). cbn [fst snd].
  destruct (decide (ba e ≠ t)) as [Hne|Hself].
  2:{ apply dec_stable in Hself. subst t. assert (S1 := move_spendable_self _ _ _ E). intros a. rewrite S2, S1.
      by rewrite (received_ext (w_bank (cview c)) (w_bank (cview c1)) (elsewhere l) a (λ e' t' _, S1 (ba e'))). }
  destruct (transferred_spendable _ _ _ _ _ (T1 Hne)) as (S3 & S4 & S5).
  assert (Hin : ∀ p, p ∈ elsewhere l → p ∈ l ∧ ba p.1 ≠ p.2) by (intros p [? ?]%list_elem_of_filter; done).
  assert (Hcast : ∀ e' t', (e', t') ∈ elsewhere l → ba e' ≠ ba e).
  { intros e' t' [Hp _]%Hin Ee. apply ba_inj in Ee. subst e'. apply Hnew. by apply (list_elem_of_fmap_2 fst _ (e, t')). }
  intros a. rewrite S2, fmap_cons. cbn [received compose fst]. rewrite (received_ext (w_bank (cview c)) _ (elsewhere l) a).
  2:{ intros e' t' Hp. apply S5; [by eapply Hcast|]. apply Hin in Hp as [Hp Hs]. intros Et.
      injection (Hdis (e', t') (e, t) ltac:(by right) ltac:(by left) Et) as -> ->. done. }
  destruct (decide (a = ba e)) as [->|Ha].
  - rewrite bool_decide_false by (intros ([e' t'] & Ee & Hp)%list_elem_of_fmap; by apply (Hcast e' t')).
    rewrite bool_decide_true by (by left). rewrite received_none; [lia|].
    intros e' t' [Hp Hs]%Hin Et. injection (Hdis (e, t) (e', t') ltac:(by left) ltac:(by right) ltac:(done)) as <- <-. simpl in Hs. congruence.
  - rewrite (bool_decide_ext (a ∈ ba e :: (ba ∘ fst <$> elsewhere l)) (a ∈ ba ∘ fst <$> elsewhere l)) by (rewrite elem_of_cons; tauto).
    destruct (bool_decide (a ∈ ba ∘ fst <$> elsewhere l)); [done|]. destruct (decide (t = a)) as [<-|Ht].
    + rewrite bool_decide_true by done. lia.
    + rewrite bool_decide_false by done. rewrite S5 by congruence. lia.
Qed.


(** The supply is right after [d] wei have gone to the account [m]. *)
Definition supply_right (m : AccAddress) (c c' : Ctx) : Prop :=
  let b := w_bank (cview c) in let b' := w_bank (cview c') in
  sk_GetSupply b' * AtabiToWeiMultiplier = bk_total b' ∧ 0 ≤ bk_total b' - bk_total b < AtabiToWeiMultiplier ∧
  wei_value b' m = wei_value b m + (bk_total b' - bk_total b) ∧ (∀ a, a ≠ m → wei_value b' a = wei_value b a) ∧ w_evm (cview c') = w_evm (cview c).

Lemma supply_set_right (SL : SupplyLaws B) m (c c1 : Ctx) n d :
  bank_moved (w_bank (cview c)) (w_bank (cview c1)) m d → w_evm (cview c1) = w_evm (cview c) → 0 ≤ d < AtabiToWeiMultiplier →
  bk_total (w_bank (cview c)) + d = n * AtabiToWeiMultiplier →
  supply_right m c (if sk_GetSupply (w_bank (cview c1)) =? n then c1 else cupd (λ w, set_bank (sk_SetSupply n (w_bank w)) w) c1).
Proof.
  intros (Hv & Ho & _ & Ht) He Hd Hn. unfold supply_right. cbv zeta. destruct (Z.eqb_spec (sk_GetSupply (w_bank (cview c1))) n) as [Hs|_].
  - rewrite Hs. split_and!; [lia|lia|lia|lia|done|done].
  - rewrite cview_cupd. cbn [w_bank w_evm set_bank]. destruct (sk_set_keeps n (w_bank (cview c1))) as [Hk Hk'].
    rewrite sk_supply_set, Hk', Hk. split_and!; [lia|lia|lia|lia| |done]. intros a Ha. rewrite Hk. by apply Ho.
Qed.

(** The supply's upgrade always returns, with a supply that is right.  What
    the accounts hold is then exactly the supply: if the wei of all accounts do not
    make whole atabi, the module's account gets the rest of one, which is less than
    one atabi, and no other account changes. *)
Theorem FixTotalSupply_exact (c : Ctx) : BankLaws B → SupplyLaws B →
  ∃ c', FixTotalSupply c = (c', None) ∧ supply_right (ak_GetModuleAddress ModuleName) c c'.
Proof.
  intros BL SL. unfold FixTotalSupply. set (b := w_bank (cview c)). set (coins := foldl _ 0 (sk_GetAccountsBalances b)).
  set (wei := foldl _ 0 (sk_AllWeiBalances b)). set (m := ak_GetModuleAddress ModuleName). set (M := AtabiToWeiMultiplier).
  assert (Htot : bk_total b = coins * M + wei) by apply sk_balances_total. assert (HM : 0 < M) by reflexivity.
  assert (Hwei : 0 ≤ wei) by (apply foldl_add_nonneg; [done|apply sk_wei_nonneg]).
  rewrite sk_Split_spec, sk_One_spec by done. fold M. pose proof (Z.div_mod wei M ltac:(lia)) as Hdm. pose proof (Z.mod_pos_bound wei M HM) as Hr.
  destruct (Z.eqb_spec (wei `mod` M) 0) as [Hz|Hz].
  { eexists. split; [reflexivity|]. apply (supply_set_right SL _ _ _ _ 0); [apply bank_moved_refl|done|done|fold b M; lia]. }
  assert (Hw : 0 ≤ M - wei `mod` M < M) by lia. destruct (run_bank_view (λ b, bk_AddWei b m (M - wei `mod` M)) c) as [V R].
  fold b in V, R. pose proof (bk_AddWei_enough b m _ Hw) as Hok. destruct (bk_AddWei b m (M - wei `mod` M)) as [[b1 ev] e1] eqn:Hadd.
  simpl in Hok. subst e1. apply bk_AddWei_ok in Hadd; [|done]. destruct (run_bank _ c) as [c1 e]. cbn [fst snd] in V, R. subst e.
  eexists. split; [reflexivity|]. apply (supply_set_right SL _ _ _ _ (M - wei `mod` M)); [by rewrite V|by rewrite V|done|fold b M; lia].
Qed.

(** ** Wasm pointers *)

Definition migrate_cw (t : PointerType) : Ctx → outcome (Ctx * option Err) :=
  match t with PT_ERC20 => MigrateCWERC20Pointers | PT_ERC721 => MigrateCWERC721Pointers | _ => MigrateCWERC1155Pointers end.

(** C29: an upgrade of wasm pointers reaches every token once, at its latest
    pointer.  When the keys of the registry are addresses and versions, the upgrade
    of a kind moves to the stored code the contracts of a list of pointers, in
    order, until one fails: the list has one entry for each token of the kind that
    has a pointer, and it is the one of the greatest version, the one the getters
    return. *)
Theorem migrate_cw_latest (t : PointerType) (c : Ctx) codeID maxVersion : erc_type t = true → versioned_keys t (w_evm (cview c)) →
  GetStoredPointerCodeID (cview c) t = Ret codeID →
  ∃ ps : list (Address * bytes), base.NoDup (fst <$> ps) ∧
    (∀ a text, (a, text) ∈ ps ↔ ∃ v, GetPointerInfo false (cview c) (type_key t (ba a)) maxVersion = Ret (Some (text, v))) ∧
    migrate_cw t c = Ret (upgrade_all (ak_GetModuleAddress ModuleName) codeID (snd <$> ps) c).
Proof.
  intros Ht Hv Hid. set (m := w_evm (cview c)) in *. set (entries := rev (Iterator (prefix_store (type_key t []) m))).
  set (firsts := first_entries entries []). set (ps := (λ e : bytes * bytes, (BytesToAddress (key_token e.1), e.2)) <$> firsts).
  assert (Hkey : ∀ k x, (k, x) ∈ entries → ∃ (a : Address) v, is_u16 v ∧ k = ba a ++ PutUint16 v).
  { intros k x H. unfold entries in H. rewrite elem_of_rev, elem_of_Iterator, lookup_prefix_store in H. apply Hv. by exists x. }
  assert (Htok : ∀ e, e ∈ firsts → ba (BytesToAddress (key_token e.1)) = key_token e.1).
  { intros [k x] [H _]%first_entries_in. destruct (Hkey k x H) as (a & v & _ & ->). cbn [fst]. by rewrite key_token_versioned, BytesToAddress_ba. }
  assert (Hlen : Forall (λ e, (2 ≤ length e.1)%nat) entries).
  { apply Forall_forall. intros [k x] H. destruct (Hkey k x H) as (a & v & _ & ->). simpl. rewrite length_app, ba_length. lia. }
  exists ps. split_and!.
  - apply (NoDup_fmap_1 ba). unfold ps. rewrite <- !list_fmap_compose. rewrite (list_fmap_ext _ (key_token ∘ fst)); [apply first_entries_NoDup|].
    intros i e He. apply Htok. by eapply list_elem_of_lookup_2.
  - intros a text. transitivity (∃ k, (k, text) ∈ firsts ∧ key_token k = ba a).
    + unfold ps. rewrite list_elem_of_fmap. split.
      * intros ([k x] & [= -> ->] & He). exists k. split; [done|]. symmetry. by apply (Htok (k, x)).
      * intros (k & He & Hk). exists (k, text). split; [|done]. cbn [fst snd]. by rewrite Hk, BytesToAddress_ba.
    + etransitivity; [exact (first_entries_latest t m a text Hv)|]. unfold GetPointerInfo. fold m. split.
      * intros (k & E). rewrite E. apply ReverseIterator_first_Some in E as [E _]. rewrite lookup_prefix_store in E.
        destruct (Hv (ba a ++ k)) as (a' & v & Hu & E'); [by exists text|]. apply app_inj_1 in E' as [_ ->]; [|by rewrite !ba_length].
        exists v. by rewrite Uint16_u16.
      * intros (v & E). destruct (ReverseIterator_first _) as [[k x]|]; [|done]. exists k.
        destruct (Uint16 k); [|done]. cbn [outcome_bind] in E. by injection E as -> _.
  - replace (snd <$> ps) with (snd <$> firsts) by (unfold ps; by rewrite <- list_fmap_compose).
    rewrite <- (cw_loop_eq codeID entries [] c Hlen). destruct t; try done; cbn [migrate_cw];
      unfold MigrateCWERC20Pointers, MigrateCWERC721Pointers, MigrateCWERC1155Pointers, MigrateCWPointers; by rewrite Hid.
Qed.
End MigrationTheorems.

(** ** Legacy entries and parameters *)

Section MigrationLemmas.
Context `{BK : BankKeeper B} `{AK : AccountKeeper A} `{SD : SdkDec} `{MST : MultiStore MS (World B A)} `{MSL : !MultiStoreLaws MS (World B A)}.
Notation Ctx := (Ctx MS).

Lemma bloom_keys (l : list (bytes * bytes)) acc :
  iterate_until (λ e s, ((if (0 <? length e.1)%nat then s ++ [e.1] else s), false)) l acc = acc ++ filter (λ k, (0 < length k)%nat) (fst <$> l).
Proof.
  revert acc. induction l as [|[k v] l IH]; intros acc; cbn [iterate_until fst]; [by rewrite app_nil_r|]. rewrite IH, fmap_cons, filter_cons.
  cbn [fst]. destruct (Nat.ltb_spec 0 (length k)); case_decide; try lia; [by rewrite <- app_assoc|done].
Qed.

(** The legacy blooms are gone, and the bloom of the block and everything else but
    the cutoff height are as they were. *)
Lemma MigrateBlockBloom_exact (c : Ctx) :
  let m := w_evm (cview c) in let m' := w_evm (cview (MigrateBlockBloom c).1) in
  (∀ k, k ≠ [] → m' !! (BlockBloomPrefix ++ k) = None) ∧
  m' !! LegacyBlockBloomCutoffHeightKey = Some (PutUint64 (u64 (ci_height (c_info c)))) ∧
  ∀ k, k ≠ LegacyBlockBloomCutoffHeightKey → (∀ k', k' ≠ [] → k ≠ BlockBloomPrefix ++ k') → m' !! k = m !! k.
Proof.
  cbv zeta. unfold MigrateBlockBloom, IterateAll. cbn [fst]. set (c1 := cupd (SetLegacyBlockBloomCutoffHeight _) c).
  assert (V1 : w_evm (cview c1) = <[LegacyBlockBloomCutoffHeightKey := PutUint64 (u64 (ci_height (c_info c)))]> (w_evm (cview c))) by (unfold c1; by rewrite cview_cupd).
  rewrite bloom_keys, cview_cupd. cbn [w_evm set_evm app]. set (ks := filter _ _).
  assert (Hks : ∀ k, k ∈ ks ↔ k ≠ [] ∧ is_Some (w_evm (cview c1) !! (BlockBloomPrefix ++ k))).
  { intros k. unfold ks. rewrite list_elem_of_filter. split.
    - intros [Hk ([k' v] & -> & Hin)%list_elem_of_fmap]. rewrite elem_of_Iterator, lookup_prefix_store in Hin. split; [|by exists v].
      intros E. simpl in E. subst k'. simpl in Hk. lia.
    - intros [Hk [v Hv]]. split; [destruct k; [done|simpl; lia]|]. apply list_elem_of_fmap. exists (k, v). by rewrite elem_of_Iterator, lookup_prefix_store. }
  split_and!.
  - intros k Hk. rewrite lookup_delete_keys. case_bool_decide as H; [done|]. destruct (w_evm (cview c1) !! (BlockBloomPrefix ++ k)) eqn:E; [|done].
    destruct H. apply Hks. split; [done|by rewrite E].
  - rewrite lookup_delete_keys_out by done. rewrite V1. apply lookup_insert_eq.
  - intros k H1 H2. destruct (decide (k = BlockBloomPrefix)) as [->|Hne].
    + rewrite <- (app_nil_r BlockBloomPrefix), lookup_delete_keys, bool_decide_false by (intros [? _]%Hks; done). rewrite V1. by apply lookup_insert_ne.
    + rewrite lookup_delete_keys_out; [rewrite V1; by apply lookup_insert_ne|]. intros k' ->. apply (H2 k'); [|done].
      intros ->. by rewrite app_nil_r in Hne.
Qed.

(** After the upgrades of the fee market its parameters are those the bounds of the
    base fee need. *)
Lemma fee_market_upgraded (c : Ctx) : fee_params (w_params (cview (MigrateEip1559MaxFeePerGas (MigrateEip1559Params c).1).1))
  DefaultMinFeePerGas DefaultMaxFeePerGas DefaultMaxDynamicBaseFeeUpwardAdjustment DefaultMaxDynamicBaseFeeDownwardAdjustment.
Proof.
  unfold MigrateEip1559MaxFeePerGas, MigrateEip1559Params. cbn [fst]. rewrite !cview_cupd.
  split; [reflexivity..| | |]; vm_compute; split; first [reflexivity|discriminate].
Qed.
End MigrationLemmas.

(** * Examples *)

(** The bank of Instances.v with a record of the supply. *)
Notation supplied_bank := (demo_bank * Z)%type.
Definition with_supply (s : Z) (r : bank_res demo_bank) : bank_res supplied_bank := let '(b, ev, e) := r in ((b, s), ev, e).
Definition supplied_keeper : BankKeeper supplied_bank :=
  let K := demo_bank_keeper in {|
  bk_GetBalance b := bk_GetBalance b.1;
  bk_LockedCoins b := bk_LockedCoins b.1;
  bk_GetWeiBalance b := bk_GetWeiBalance b.1;
  bk_SubUnlockedCoins b a d n := with_supply b.2 (bk_SubUnlockedCoins b.1 a d n);
  bk_AddCoins b a d n := with_supply b.2 (bk_AddCoins b.1 a d n);
  bk_SubWei b a w := with_supply b.2 (bk_SubWei b.1 a w);
  bk_AddWei b a w := with_supply b.2 (bk_AddWei b.1 a w);
  bk_SendCoinsAndWei b from to n w := with_supply b.2 (bk_SendCoinsAndWei b.1 from to n w);
  bk_MintCoins b md d n := with_supply b.2 (bk_MintCoins b.1 md d n);
  bk_total b := bk_total b.1
|}.
Definition supplied_supply : SupplyKeeper supplied_bank := {|
  sk_GetAccountsBalances b := (λ e, (e.1, [(BaseDenom, Z.of_N e.2 `div` AtabiToWeiMultiplier)])) <$> map_to_list b.1;
  sk_AllWeiBalances b := (λ e, (e.1, Z.of_N e.2 `mod` AtabiToWeiMultiplier)) <$> map_to_list b.1;
  sk_GetSupply b := b.2;
  sk_SetSupply n b := (b.1, n);
  sk_SplitAtabiWeiAmount n := (n `quot` AtabiToWeiMultiplier, n `rem` AtabiToWeiMultiplier);
  sk_OneAtabiInWei := AtabiToWeiMultiplier
|}.

Lemma with_supply_inv s r b' ev e : with_supply s r = (b', ev, e) → r = (b'.1, ev, e).
Proof. destruct r as [[b ev0] e0]. by intros [= <- <- <-]. Qed.
Lemma with_supply_err s r : (with_supply s r).2 = r.2.
Proof. by destruct r as [[b ev0] e0]. Qed.

Lemma supplied_bank_laws : @BankLaws supplied_bank supplied_keeper.
Proof.
  pose proof demo_bank_laws as [H1 H2 H3 H4 H5 H6 H7 H8 H9 H10 H11 H12 H13]. split; cbn [supplied_keeper bk_GetBalance bk_LockedCoins bk_GetWeiBalance
    bk_SubUnlockedCoins bk_AddCoins bk_SubWei bk_AddWei bk_SendCoinsAndWei]; intros; rewrite ?with_supply_err;
    try match goal with H : with_supply _ _ = _ |- _ => apply with_supply_inv in H end.
  - apply H1.
  - by eapply H2.
  - by apply H3.
  - by apply H4.
  - by eapply H5.
  - by apply H6.
  - by eapply H7.
  - by apply H8.
  - by apply H9.
  - by eapply H10.
  - by apply H11.
  - edestruct H12 as (b1 & M1 & M2); [..|eassumption|]; [done|done|]. exists (b1, 0). by split.
  - by apply H13.
Qed.

Lemma foldl_fmap_add {X Y : Type} (g : X → Y) (f : Y → Z) (l : list X) acc :
  foldl (λ acc e, acc + f e) acc (g <$> l) = acc + foldr (λ e acc, f (g e) + acc) 0 l.
Proof. revert acc. induction l as [|x l IH]; intros acc; simpl; [lia|]. rewrite IH. lia. Qed.

Lemma supplied_supply_laws : @SupplyLaws supplied_bank supplied_keeper supplied_supply.
Proof.
  assert (HM : 0 < AtabiToWeiMultiplier) by reflexivity. split; try done.
  - intros [b s]. cbn [sk_GetAccountsBalances sk_AllWeiBalances supplied_supply bk_total supplied_keeper fst].
    rewrite !(foldl_fmap_add _ (λ e, _)). simpl. unfold demo_total. rewrite map_fold_foldr.
    induction (map_to_list b) as [|[a v] l IH]; [done|]. simpl. rewrite IH. unfold AmountOf. simpl.
    pose proof (Z.div_mod (Z.of_N v) AtabiToWeiMultiplier ltac:(lia)). lia.
  - intros [b s]. simpl. apply Forall_fmap, Forall_forall. intros [a v] _. simpl. apply Z.mod_pos_bound. lia.
  - intros n Hn. simpl. rewrite Z.quot_div_nonneg, Z.rem_mod_nonneg by lia. done.
Qed.

Section SupplyExamples.
Notation supplied_world := (World supplied_bank (gset (list Byte.byte))).
#[local] Existing Instances supplied_keeper supplied_supply demo_accounts.
#[local] Instance supplied_stores : MultiStore (stack_ms supplied_world) supplied_world := stack_multistore supplied_world.
#[local] Instance supplied_stores_laws : MultiStoreLaws (stack_ms supplied_world) supplied_world := stack_multistore_laws supplied_world.

(** One account with two atabi and five wei, and a supply of seven. *)
Definition supplied_ctx : Ctx (stack_ms supplied_world) :=
  mkCtx (mkWorld ∅ ∅ ({[str_bytes "alice" := 2000000000005%N]}, 7) ∅ DefaultParams, []) [] (mkBlockInfo 0 1 false None).

Lemma FixTotalSupply_exact_witness : ∃ c', FixTotalSupply supplied_ctx = (c', None) ∧ supply_right (str_bytes ModuleName) supplied_ctx c'.
Proof. exact (FixTotalSupply_exact supplied_ctx supplied_bank_laws supplied_supply_laws). Defined.

(** The supply becomes three atabi. *)
Lemma supplied_fixed : sk_GetSupply (w_bank (cview (FixTotalSupply supplied_ctx).1)) = 3.
Proof. vm_compute. reflexivity. Qed.
End SupplyExamples.

Section MigrationExamples.
#[local] Existing Instances demo_bank_keeper demo_bank_laws demo_accounts demo_coins demo_coins_laws marked_bech32.
#[local] Instance demo_migration_stores : MultiStore (stack_ms demo_world) demo_world := stack_multistore demo_world.
#[local] Instance demo_migration_stores_laws : MultiStoreLaws (stack_ms demo_world) demo_world := stack_multistore_laws demo_world.

(** Alice is associated with the address 7, whose cast account was sent two atabi
    and five wei; the address 8 is a contract, associated with its own cast account. *)
Definition cast_ctx : Ctx (stack_ms demo_world) := SetAddressMapping (ba (addr_of 8)) (addr_of 8) (SetAddressMapping (str_bytes "alice") (addr_of 7) demo_assoc_ctx).
Lemma cast_entries : Iterator (prefix_store EVMAddressToTabiAddressKeyPrefix (w_evm (cview cast_ctx))) =
  [(ba (addr_of 7), str_bytes "alice"); (ba (addr_of 8), ba (addr_of 8))].
Proof. vm_compute. reflexivity. Qed.
Lemma cast_associations : associations (cview cast_ctx) = [(addr_of 7, str_bytes "alice"); (addr_of 8, ba (addr_of 8))].
Proof. unfold associations. rewrite cast_entries. cbn [fmap list_fmap fst snd]. by rewrite !BytesToAddress_ba. Qed.
Lemma cast_migrates : (MigrateCastAddressBalances cast_ctx).2 = None.
Proof. vm_compute. reflexivity. Qed.


(** Two versions of the pointer to the token 9, at the accounts 1 and 2; the
    contract that is moved to the new code is recorded as an event. *)
#[local] Instance recording_migrate : WasmMigrate (stack_ms demo_world) := {|
  wm_Migrate contract caller codeID msg c := (cemit [mkEvent "migrate" [("contract"%string, VAcc contract)]] c, None)
|}.
Definition pointers_ctx : Ctx (stack_ms demo_world) :=
  demo_ctx (set_evm (λ m, <[type_key PT_ERC20 (ba (addr_of 9)) ++ PutUint16 1 := [x74; x01]]>
    (<[type_key PT_ERC20 (ba (addr_of 9)) ++ PutUint16 2 := [x74; x02]]> m)) demo_world0).
Lemma pointers_versioned : versioned_keys PT_ERC20 (w_evm (cview pointers_ctx)).
Proof.
  intros s [x H]. change (w_evm (cview pointers_ctx)) with (<[type_key PT_ERC20 (ba (addr_of 9)) ++ PutUint16 1 := [x74; x01]]>
    (<[type_key PT_ERC20 (ba (addr_of 9)) ++ PutUint16 2 := [x74; x02]]> (∅ : kvstore))) in H.
  exists (addr_of 9). rewrite lookup_insert_Some in H. destruct H as [[E _]|[_ H]].
  - exists 1. split; [done|]. injection E as <-. done.
  - rewrite lookup_insert_Some in H. destruct H as [[E _]|[_ H]]; [|by rewrite lookup_empty in H]. exists 2. split; [done|]. injection E as <-. done.
Qed.

Lemma migrate_cw_latest_witness : ∃ ps : list (Address * bytes), base.NoDup (fst <$> ps) ∧
  (∀ a text, (a, text) ∈ ps ↔ ∃ v, GetPointerInfo false (cview pointers_ctx) (type_key PT_ERC20 (ba a)) 2 = Ret (Some (text, v))) ∧
  MigrateCWERC20Pointers pointers_ctx = Ret (upgrade_all (str_bytes ModuleName) 0 (snd <$> ps) pointers_ctx).
Proof. exact (migrate_cw_latest PT_ERC20 pointers_ctx 0 2 eq_refl pointers_versioned eq_refl). Defined.

(** The second contract is moved, and only it. *)
Lemma second_pointer_migrated :
  c_events (result_or pointers_ctx (MigrateCWERC20Pointers pointers_ctx)) = [mkEvent "migrate" [("contract"%string, VAcc [x02])]].
Proof. vm_compute. reflexivity. Qed.
End MigrationExamples.
