(* ===== verification/AclMapping.v ===== *)
(** * Dependency mappings
    (aclmapping/bank, aclmapping/evm, aclmapping/wasm, aclmapping/staking,
    aclmapping/utils/resource_type.go, aclmapping/dependency_generator.go)

    To run transactions concurrently the application predicts which entries of
    which stores a message will read and write.  A generator turns a message into
    access operations: each has a kind of resource and an identifier, the
    hexadecimal form of a key.  The table of resources says under which prefix of
    which store the entries of a kind lie. *)

From S2P Require Import Prelude Bytes Store Params Keys World Instances Eth Keeper StateDB EthTx Msg Pointer.
From Stdlib Require Import Strings.Byte Strings.Ascii.
Local Open Scope Z_scope.
Local Open Scope outcome_scope.

(** ** Access operations *)

Inductive AccessType : Type := AT_UNKNOWN | AT_READ | AT_WRITE | AT_COMMIT.
Inductive ResourceType : Type :=
| RT_ANY | RT_KV | RT_Mem | RT_KV_EPOCH | RT_KV_ORACLE | RT_KV_ORACLE_AGGREGATE_VOTES | RT_KV_ORACLE_VOTE_TARGETS | RT_KV_ORACLE_FEEDERS
| RT_KV_ORACLE_EXCHANGE_RATE | RT_KV_ORACLE_VOTE_PENALTY_COUNTER | RT_KV_ORACLE_PRICE_SNAPSHOT | RT_KV_TOKENFACTORY | RT_KV_TOKENFACTORY_DENOM
| RT_KV_TOKENFACTORY_METADATA | RT_KV_TOKENFACTORY_ADMIN | RT_KV_TOKENFACTORY_CREATOR | RT_KV_BANK | RT_KV_BANK_BALANCES | RT_KV_BANK_SUPPLY
| RT_KV_BANK_DENOM | RT_KV_BANK_WEI_BALANCE | RT_KV_BANK_DEFERRED | RT_KV_BANK_DEFERRED_MODULE_TX_INDEX | RT_KV_AUTH | RT_KV_AUTH_ADDRESS_STORE
| RT_KV_AUTH_GLOBAL_ACCOUNT_NUMBER | RT_KV_AUTHZ | RT_KV_DISTRIBUTION | RT_KV_DISTRIBUTION_FEE_POOL | RT_KV_DISTRIBUTION_PROPOSER_KEY
| RT_KV_DISTRIBUTION_OUTSTANDING_REWARDS | RT_KV_DISTRIBUTION_DELEGATOR_WITHDRAW_ADDR | RT_KV_DISTRIBUTION_DELEGATOR_STARTING_INFO
| RT_KV_DISTRIBUTION_VAL_HISTORICAL_REWARDS | RT_KV_DISTRIBUTION_VAL_CURRENT_REWARDS | RT_KV_DISTRIBUTION_VAL_ACCUM_COMMISSION
| RT_KV_DISTRIBUTION_SLASH_EVENT | RT_KV_FEEGRANT | RT_KV_FEEGRANT_ALLOWANCE | RT_KV_STAKING | RT_KV_STAKING_VALIDATION_POWER
| RT_KV_STAKING_TOTAL_POWER | RT_KV_STAKING_VALIDATOR | RT_KV_STAKING_VALIDATORS_CON_ADDR | RT_KV_STAKING_VALIDATORS_BY_POWER | RT_KV_STAKING_DELEGATION
| RT_KV_STAKING_UNBONDING_DELEGATION | RT_KV_STAKING_UNBONDING_DELEGATION_VAL | RT_KV_STAKING_REDELEGATION | RT_KV_STAKING_REDELEGATION_VAL_SRC
| RT_KV_STAKING_REDELEGATION_VAL_DST | RT_KV_STAKING_UNBONDING | RT_KV_STAKING_REDELEGATION_QUEUE | RT_KV_STAKING_VALIDATOR_QUEUE
| RT_KV_STAKING_HISTORICAL_INFO | RT_KV_SLASHING | RT_KV_SLASHING_VAL_SIGNING_INFO | RT_KV_SLASHING_ADDR_PUBKEY_RELATION_KEY | RT_KV_ACCESSCONTROL
| RT_KV_ACCESSCONTROL_WASM_DEPENDENCY_MAPPING | RT_KV_WASM | RT_KV_WASM_CODE | RT_KV_WASM_CONTRACT_ADDRESS | RT_KV_WASM_CONTRACT_STORE
| RT_KV_WASM_SEQUENCE_KEY | RT_KV_WASM_CONTRACT_CODE_HISTORY | RT_KV_WASM_CONTRACT_BY_CODE_ID | RT_KV_WASM_PINNED_CODE_INDEX | RT_KV_EVM
| RT_KV_EVM_BALANCE | RT_KV_EVM_TRANSIENT | RT_KV_EVM_ACCOUNT_TRANSIENT | RT_KV_EVM_MODULE_TRANSIENT | RT_KV_EVM_NONCE | RT_KV_EVM_RECEIPT
| RT_KV_EVM_S2E | RT_KV_EVM_E2S | RT_KV_EVM_CODE_HASH | RT_KV_EVM_CODE | RT_KV_EVM_CODE_SIZE.
Record AccessOperation : Type := mkAccessOperation { ao_AccessType : AccessType; ao_ResourceType : ResourceType; ao_IdentifierTemplate : string }.

#[export] Instance ResourceType_eq_dec : EqDecision ResourceType.
Proof. solve_decision. Defined.

(** [hex.EncodeToString] *)
Definition hex_digit (z : Z) : ascii := ascii_of_nat (Z.to_nat (if z <? 10 then 48 + z else 87 + z)).
Fixpoint hex_EncodeToString (b : bytes) : string :=
  match b with
  | [] => EmptyString
  | x :: rest => String (hex_digit (bval x / 16)) (String (hex_digit (bval x `mod` 16)) (hex_EncodeToString rest))
  end.
Notation hex := hex_EncodeToString.

Notation reads_op := (mkAccessOperation AT_READ).
Notation writes_op := (mkAccessOperation AT_WRITE).

(** ** What is called *)

(** Constants of the SDK's packages, by their names. *)
Class SdkConstants := { sdk_bytes : string → bytes; sdk_string : string → string; CommitAccessOp : AccessOperation }.

(** Keys of the SDK's modules.  The functions that take a text decode it first. *)
Class SdkKeys (Validator : Type) := {
  CreateAccountBalancesPrefix : AccAddress → bytes;
  CreateAccountBalancesPrefixFromBech32 : string → bytes;
  AddressStoreKey : AccAddress → bytes;
  CreateAddressStoreKeyFromBech32 : string → bytes;
  GetDelegationKey : AccAddress → AccAddress → bytes;
  GetValidatorKey : AccAddress → bytes;
  GetValidatorsByPowerIndexKey : Validator → Z → bytes;
  GetValidatorByConsAddrKey : AccAddress → bytes;
  GetUBDKey : AccAddress → AccAddress → bytes;
  GetUBDsByValIndexKey : AccAddress → bytes;
  GetREDsKey : AccAddress → bytes;
  GetREDByValSrcIndexKey : AccAddress → AccAddress → AccAddress → bytes;
  GetREDByValDstIndexKey : AccAddress → AccAddress → AccAddress → bytes;
  GetDelegatorStartingInfoKey : AccAddress → AccAddress → bytes;
  GetValidatorCurrentRewardsKey : AccAddress → bytes;
  GetValidatorOutstandingRewardsKey : AccAddress → bytes;
  GetValidatorHistoricalRewardsPrefix : AccAddress → bytes;
  ValAddressFromBech32 : bytes → option AccAddress;
  GetConsAddr : Validator → AccAddress
}.

(** Messages of the application, by type. *)
Record MsgSend : Type := mkMsgSend { ms_FromAddress : string; ms_ToAddress : string }.
Record MsgDelegate : Type := mkMsgDelegate { md_DelegatorAddress : string; md_ValidatorAddress : string }.
Record MsgBeginRedelegate : Type := mkMsgBeginRedelegate { mr_DelegatorAddress : string; mr_ValidatorSrcAddress : string; mr_ValidatorDstAddress : string }.
Record MsgExecuteContract : Type := mkMsgExecuteContract { me_Sender : string; me_Contract : string; me_Msg : bytes }.
Inductive SdkMsg : Type :=
| SMsgSend (m : MsgSend)
| SMsgDelegate (m : MsgDelegate)
| SMsgUndelegate (m : MsgDelegate)
| SMsgBeginRedelegate (m : MsgBeginRedelegate)
| SMsgExecuteContract (m : MsgExecuteContract)
| SMsgEVMTransaction (m : MsgEVMTransaction)
| SMsgOther (url : string).

Notation GenOut := (list AccessOperation + Err)%type.

(** ** The tables of resources *)

Definition DefaultIDTemplate : string := "*".
Definition evmtypes_StoreKey : string := "evm".
Definition TransientStateKeyPrefix : bytes := [x04].
Definition AccountTransientStateKeyPrefix : bytes := [x05].
Definition TransientModuleStateKeyPrefix : bytes := [x06].

Section Tables.
Context `{SC : SdkConstants}.
Local Open Scope string_scope.
Notation EmptyPrefix := (sdk_bytes "aclsdktypes.EmptyPrefix").

Definition StoreKeyToResourceTypePrefixMap : list (string * list (ResourceType * bytes)) :=
  [
    (sdk_string "aclsdktypes.ParentNodeKey", [
      (RT_ANY, EmptyPrefix); (RT_KV, EmptyPrefix); (RT_Mem, EmptyPrefix); (RT_KV_EPOCH, EmptyPrefix); (RT_KV_ORACLE, EmptyPrefix);
      (RT_KV_ORACLE_AGGREGATE_VOTES, EmptyPrefix); (RT_KV_ORACLE_VOTE_TARGETS, EmptyPrefix); (RT_KV_ORACLE_FEEDERS, EmptyPrefix);
      (RT_KV_ORACLE_EXCHANGE_RATE, EmptyPrefix); (RT_KV_ORACLE_VOTE_PENALTY_COUNTER, EmptyPrefix); (RT_KV_ORACLE_PRICE_SNAPSHOT, EmptyPrefix);
      (RT_KV_TOKENFACTORY, EmptyPrefix); (RT_KV_TOKENFACTORY_DENOM, EmptyPrefix); (RT_KV_TOKENFACTORY_METADATA, EmptyPrefix);
      (RT_KV_TOKENFACTORY_ADMIN, EmptyPrefix); (RT_KV_TOKENFACTORY_CREATOR, EmptyPrefix)]);
    (sdk_string "banktypes.StoreKey", [
      (RT_KV_BANK, EmptyPrefix); (RT_KV_BANK_BALANCES, sdk_bytes "banktypes.BalancesPrefix"); (RT_KV_BANK_SUPPLY, sdk_bytes "banktypes.SupplyKey");
      (RT_KV_BANK_DENOM, sdk_bytes "banktypes.DenomMetadataPrefix"); (RT_KV_BANK_WEI_BALANCE, sdk_bytes "banktypes.WeiBalancesPrefix")]);
    (sdk_string "banktypes.DeferredCacheStoreKey", [
      (RT_KV_BANK_DEFERRED, EmptyPrefix); (RT_KV_BANK_DEFERRED_MODULE_TX_INDEX, sdk_bytes "banktypes.DeferredCachePrefix")]);
    (sdk_string "authtypes.StoreKey", [
      (RT_KV_AUTH, EmptyPrefix); (RT_KV_AUTH_ADDRESS_STORE, sdk_bytes "authtypes.AddressStoreKeyPrefix");
      (RT_KV_AUTH_GLOBAL_ACCOUNT_NUMBER, sdk_bytes "authtypes.GlobalAccountNumberKey")]);
    (sdk_string "authztypes.StoreKey", [
      (RT_KV_AUTHZ, EmptyPrefix)]);
    (sdk_string "distributiontypes.StoreKey", [
      (RT_KV_DISTRIBUTION, EmptyPrefix); (RT_KV_DISTRIBUTION_FEE_POOL, sdk_bytes "distributiontypes.FeePoolKey");
      (RT_KV_DISTRIBUTION_PROPOSER_KEY, sdk_bytes "distributiontypes.ProposerKey");
      (RT_KV_DISTRIBUTION_OUTSTANDING_REWARDS, sdk_bytes "distributiontypes.ValidatorOutstandingRewardsPrefix");
      (RT_KV_DISTRIBUTION_DELEGATOR_WITHDRAW_ADDR, sdk_bytes "distributiontypes.DelegatorWithdrawAddrPrefix");
      (RT_KV_DISTRIBUTION_DELEGATOR_STARTING_INFO, sdk_bytes "distributiontypes.DelegatorStartingInfoPrefix");
      (RT_KV_DISTRIBUTION_VAL_HISTORICAL_REWARDS, sdk_bytes "distributiontypes.ValidatorHistoricalRewardsPrefix");
      (RT_KV_DISTRIBUTION_VAL_CURRENT_REWARDS, sdk_bytes "distributiontypes.ValidatorCurrentRewardsPrefix");
      (RT_KV_DISTRIBUTION_VAL_ACCUM_COMMISSION, sdk_bytes "distributiontypes.ValidatorAccumulatedCommissionPrefix");
      (RT_KV_DISTRIBUTION_SLASH_EVENT, sdk_bytes "distributiontypes.ValidatorSlashEventPrefix")]);
    (sdk_string "feegranttypes.StoreKey", [
      (RT_KV_FEEGRANT, EmptyPrefix); (RT_KV_FEEGRANT_ALLOWANCE, sdk_bytes "feegranttypes.FeeAllowanceKeyPrefix")]);
    (sdk_string "stakingtypes.StoreKey", [
      (RT_KV_STAKING, EmptyPrefix); (RT_KV_STAKING_VALIDATION_POWER, sdk_bytes "stakingtypes.LastValidatorPowerKey");
      (RT_KV_STAKING_TOTAL_POWER, sdk_bytes "stakingtypes.LastTotalPowerKey"); (RT_KV_STAKING_VALIDATOR, sdk_bytes "stakingtypes.ValidatorsKey");
      (RT_KV_STAKING_VALIDATORS_CON_ADDR, sdk_bytes "stakingtypes.ValidatorsByConsAddrKey");
      (RT_KV_STAKING_VALIDATORS_BY_POWER, sdk_bytes "stakingtypes.ValidatorsByPowerIndexKey");
      (RT_KV_STAKING_DELEGATION, sdk_bytes "stakingtypes.DelegationKey");
      (RT_KV_STAKING_UNBONDING_DELEGATION, sdk_bytes "stakingtypes.UnbondingDelegationKey");
      (RT_KV_STAKING_UNBONDING_DELEGATION_VAL, sdk_bytes "stakingtypes.UnbondingDelegationByValIndexKey");
      (RT_KV_STAKING_REDELEGATION, sdk_bytes "stakingtypes.RedelegationKey");
      (RT_KV_STAKING_REDELEGATION_VAL_SRC, sdk_bytes "stakingtypes.RedelegationByValSrcIndexKey");
      (RT_KV_STAKING_REDELEGATION_VAL_DST, sdk_bytes "stakingtypes.RedelegationByValDstIndexKey");
      (RT_KV_STAKING_UNBONDING, sdk_bytes "stakingtypes.UnbondingQueueKey");
      (RT_KV_STAKING_REDELEGATION_QUEUE, sdk_bytes "stakingtypes.RedelegationQueueKey");
      (RT_KV_STAKING_VALIDATOR_QUEUE, sdk_bytes "stakingtypes.ValidatorQueueKey");
      (RT_KV_STAKING_HISTORICAL_INFO, sdk_bytes "stakingtypes.HistoricalInfoKey")]);
    (sdk_string "slashingtypes.StoreKey", [
      (RT_KV_SLASHING, EmptyPrefix); (RT_KV_SLASHING_VAL_SIGNING_INFO, sdk_bytes "slashingtypes.ValidatorSigningInfoKeyPrefix");
      (RT_KV_SLASHING_ADDR_PUBKEY_RELATION_KEY, sdk_bytes "slashingtypes.AddrPubkeyRelationKeyPrefix")]);
    (sdk_string "acltypes.StoreKey", [
      (RT_KV_ACCESSCONTROL, EmptyPrefix); (RT_KV_ACCESSCONTROL_WASM_DEPENDENCY_MAPPING, sdk_bytes "acltypes.GetWasmMappingKey")]);
    (sdk_string "wasmtypes.StoreKey", [
      (RT_KV_WASM, EmptyPrefix); (RT_KV_WASM_CODE, sdk_bytes "wasmtypes.CodeKeyPrefix");
      (RT_KV_WASM_CONTRACT_ADDRESS, sdk_bytes "wasmtypes.ContractKeyPrefix"); (RT_KV_WASM_CONTRACT_STORE, sdk_bytes "wasmtypes.ContractStorePrefix");
      (RT_KV_WASM_SEQUENCE_KEY, sdk_bytes "wasmtypes.SequenceKeyPrefix");
      (RT_KV_WASM_CONTRACT_CODE_HISTORY, sdk_bytes "wasmtypes.ContractCodeHistoryElementPrefix");
      (RT_KV_WASM_CONTRACT_BY_CODE_ID, sdk_bytes "wasmtypes.ContractByCodeIDAndCreatedSecondaryIndexPrefix");
      (RT_KV_WASM_PINNED_CODE_INDEX, sdk_bytes "wasmtypes.PinnedCodeIndexPrefix")]);
    (evmtypes_StoreKey, [
      (RT_KV_EVM, EmptyPrefix); (RT_KV_EVM_BALANCE, EmptyPrefix); (RT_KV_EVM_TRANSIENT, TransientStateKeyPrefix);
      (RT_KV_EVM_ACCOUNT_TRANSIENT, AccountTransientStateKeyPrefix); (RT_KV_EVM_MODULE_TRANSIENT, TransientModuleStateKeyPrefix);
      (RT_KV_EVM_NONCE, NonceKeyPrefix); (RT_KV_EVM_RECEIPT, ReceiptKeyPrefix); (RT_KV_EVM_S2E, TabiAddressToEVMAddressKeyPrefix);
      (RT_KV_EVM_E2S, EVMAddressToTabiAddressKeyPrefix); (RT_KV_EVM_CODE_HASH, CodeHashKeyPrefix); (RT_KV_EVM_CODE, CodeKeyPrefix);
      (RT_KV_EVM_CODE_SIZE, CodeSizeKeyPrefix)])
  ].

Definition ResourceTypeToStoreKeyMap : list (ResourceType * string) :=
  [
    (RT_KV_BANK, sdk_string "banktypes.StoreKey"); (RT_KV_BANK_BALANCES, sdk_string "banktypes.StoreKey");
    (RT_KV_BANK_SUPPLY, sdk_string "banktypes.StoreKey"); (RT_KV_BANK_DENOM, sdk_string "banktypes.StoreKey");
    (RT_KV_BANK_WEI_BALANCE, sdk_string "banktypes.StoreKey"); (RT_KV_BANK_DEFERRED, sdk_string "banktypes.DeferredCacheStoreKey");
    (RT_KV_BANK_DEFERRED_MODULE_TX_INDEX, sdk_string "banktypes.DeferredCacheStoreKey"); (RT_KV_AUTH, sdk_string "authtypes.StoreKey");
    (RT_KV_AUTH_ADDRESS_STORE, sdk_string "authtypes.StoreKey"); (RT_KV_AUTH_GLOBAL_ACCOUNT_NUMBER, sdk_string "authtypes.StoreKey");
    (RT_KV_AUTHZ, sdk_string "authztypes.StoreKey"); (RT_KV_DISTRIBUTION, sdk_string "distributiontypes.StoreKey");
    (RT_KV_DISTRIBUTION_FEE_POOL, sdk_string "distributiontypes.StoreKey");
    (RT_KV_DISTRIBUTION_PROPOSER_KEY, sdk_string "distributiontypes.StoreKey");
    (RT_KV_DISTRIBUTION_OUTSTANDING_REWARDS, sdk_string "distributiontypes.StoreKey");
    (RT_KV_DISTRIBUTION_DELEGATOR_WITHDRAW_ADDR, sdk_string "distributiontypes.StoreKey");
    (RT_KV_DISTRIBUTION_DELEGATOR_STARTING_INFO, sdk_string "distributiontypes.StoreKey");
    (RT_KV_DISTRIBUTION_VAL_HISTORICAL_REWARDS, sdk_string "distributiontypes.StoreKey");
    (RT_KV_DISTRIBUTION_VAL_CURRENT_REWARDS, sdk_string "distributiontypes.StoreKey");
    (RT_KV_DISTRIBUTION_VAL_ACCUM_COMMISSION, sdk_string "distributiontypes.StoreKey");
    (RT_KV_DISTRIBUTION_SLASH_EVENT, sdk_string "distributiontypes.StoreKey"); (RT_KV_FEEGRANT, sdk_string "feegranttypes.StoreKey");
    (RT_KV_FEEGRANT_ALLOWANCE, sdk_string "feegranttypes.StoreKey"); (RT_KV_STAKING, sdk_string "stakingtypes.StoreKey");
    (RT_KV_STAKING_VALIDATION_POWER, sdk_string "stakingtypes.StoreKey"); (RT_KV_STAKING_TOTAL_POWER, sdk_string "stakingtypes.StoreKey");
    (RT_KV_STAKING_VALIDATOR, sdk_string "stakingtypes.StoreKey"); (RT_KV_STAKING_VALIDATORS_CON_ADDR, sdk_string "stakingtypes.StoreKey");
    (RT_KV_STAKING_VALIDATORS_BY_POWER, sdk_string "stakingtypes.StoreKey"); (RT_KV_STAKING_DELEGATION, sdk_string "stakingtypes.StoreKey");
    (RT_KV_STAKING_UNBONDING_DELEGATION, sdk_string "stakingtypes.StoreKey");
    (RT_KV_STAKING_UNBONDING_DELEGATION_VAL, sdk_string "stakingtypes.StoreKey"); (RT_KV_STAKING_REDELEGATION, sdk_string "stakingtypes.StoreKey");
    (RT_KV_STAKING_REDELEGATION_VAL_SRC, sdk_string "stakingtypes.StoreKey");
    (RT_KV_STAKING_REDELEGATION_VAL_DST, sdk_string "stakingtypes.StoreKey"); (RT_KV_STAKING_UNBONDING, sdk_string "stakingtypes.StoreKey");
    (RT_KV_STAKING_REDELEGATION_QUEUE, sdk_string "stakingtypes.StoreKey"); (RT_KV_STAKING_VALIDATOR_QUEUE, sdk_string "stakingtypes.StoreKey");
    (RT_KV_STAKING_HISTORICAL_INFO, sdk_string "stakingtypes.StoreKey"); (RT_KV_SLASHING, sdk_string "slashingtypes.StoreKey");
    (RT_KV_SLASHING_VAL_SIGNING_INFO, sdk_string "slashingtypes.StoreKey");
    (RT_KV_SLASHING_ADDR_PUBKEY_RELATION_KEY, sdk_string "slashingtypes.StoreKey"); (RT_KV_EPOCH, sdk_string "aclsdktypes.ParentNodeKey");
    (RT_KV_ORACLE, sdk_string "aclsdktypes.ParentNodeKey"); (RT_KV_ORACLE_AGGREGATE_VOTES, sdk_string "aclsdktypes.ParentNodeKey");
    (RT_KV_ORACLE_VOTE_TARGETS, sdk_string "aclsdktypes.ParentNodeKey"); (RT_KV_ORACLE_FEEDERS, sdk_string "aclsdktypes.ParentNodeKey");
    (RT_KV_ORACLE_EXCHANGE_RATE, sdk_string "aclsdktypes.ParentNodeKey");
    (RT_KV_ORACLE_VOTE_PENALTY_COUNTER, sdk_string "aclsdktypes.ParentNodeKey");
    (RT_KV_ORACLE_PRICE_SNAPSHOT, sdk_string "aclsdktypes.ParentNodeKey"); (RT_KV_TOKENFACTORY, sdk_string "aclsdktypes.ParentNodeKey");
    (RT_KV_TOKENFACTORY_DENOM, sdk_string "aclsdktypes.ParentNodeKey"); (RT_KV_TOKENFACTORY_METADATA, sdk_string "aclsdktypes.ParentNodeKey");
    (RT_KV_TOKENFACTORY_ADMIN, sdk_string "aclsdktypes.ParentNodeKey"); (RT_KV_TOKENFACTORY_CREATOR, sdk_string "aclsdktypes.ParentNodeKey");
    (RT_KV_ACCESSCONTROL, sdk_string "acltypes.StoreKey"); (RT_KV_ACCESSCONTROL_WASM_DEPENDENCY_MAPPING, sdk_string "acltypes.StoreKey");
    (RT_KV_WASM, sdk_string "wasmtypes.StoreKey"); (RT_KV_WASM_CODE, sdk_string "wasmtypes.StoreKey");
    (RT_KV_WASM_CONTRACT_ADDRESS, sdk_string "wasmtypes.StoreKey"); (RT_KV_WASM_CONTRACT_STORE, sdk_string "wasmtypes.StoreKey");
    (RT_KV_WASM_SEQUENCE_KEY, sdk_string "wasmtypes.StoreKey"); (RT_KV_WASM_CONTRACT_CODE_HISTORY, sdk_string "wasmtypes.StoreKey");
    (RT_KV_WASM_CONTRACT_BY_CODE_ID, sdk_string "wasmtypes.StoreKey"); (RT_KV_WASM_PINNED_CODE_INDEX, sdk_string "wasmtypes.StoreKey");
    (RT_KV_EVM, evmtypes_StoreKey); (RT_KV_EVM_BALANCE, evmtypes_StoreKey); (RT_KV_EVM_TRANSIENT, evmtypes_StoreKey);
    (RT_KV_EVM_ACCOUNT_TRANSIENT, evmtypes_StoreKey); (RT_KV_EVM_MODULE_TRANSIENT, evmtypes_StoreKey); (RT_KV_EVM_NONCE, evmtypes_StoreKey);
    (RT_KV_EVM_RECEIPT, evmtypes_StoreKey); (RT_KV_EVM_S2E, evmtypes_StoreKey); (RT_KV_EVM_E2S, evmtypes_StoreKey);
    (RT_KV_EVM_CODE_HASH, evmtypes_StoreKey); (RT_KV_EVM_CODE, evmtypes_StoreKey); (RT_KV_EVM_CODE_SIZE, evmtypes_StoreKey)
  ].
End Tables.

(** ** Generators *)

Section Generators.
Context `{SC : SdkConstants} `{SKK : SdkKeys Validator} `{BK : BankKeeper B} `{AK : AccountKeeper A} `{BE : Bech32}.
Context `{EC : EthCrypto} `{EH : EthHex} `{IL : IntLibs} `{ET : EthTransactions T} `{TC : TxCodec}.
Context `{SP : Secp256k1} `{SG : Signers T} `{FR : ForkRules}.
Notation World := (World B A).
Local Open Scope string_scope.

(** *** Payments *)

Definition MsgSendDependencyGenerator (w : World) (msg : SdkMsg) : GenOut :=
  match msg with
  | SMsgSend msgSend =>
      let fromAddrIdentifier := hex (CreateAccountBalancesPrefixFromBech32 (ms_FromAddress msgSend)) in
      let toAddrIdentifier := hex (CreateAccountBalancesPrefixFromBech32 (ms_ToAddress msgSend)) in
      let commit := mkAccessOperation AT_COMMIT RT_ANY DefaultIDTemplate in
      let accessOperations :=
        [ reads_op RT_KV_BANK_BALANCES fromAddrIdentifier; writes_op RT_KV_BANK_BALANCES fromAddrIdentifier;
          reads_op RT_KV_BANK_BALANCES toAddrIdentifier; writes_op RT_KV_BANK_BALANCES toAddrIdentifier;
          reads_op RT_KV_AUTH_ADDRESS_STORE (hex (CreateAddressStoreKeyFromBech32 (ms_ToAddress msgSend)));
          writes_op RT_KV_AUTH_ADDRESS_STORE (hex (CreateAddressStoreKeyFromBech32 (ms_ToAddress msgSend)));
          reads_op RT_KV_AUTH_ADDRESS_STORE (hex (CreateAddressStoreKeyFromBech32 (ms_FromAddress msgSend)));
          reads_op RT_KV_AUTH_GLOBAL_ACCOUNT_NUMBER (hex (sdk_bytes "authtypes.GlobalAccountNumberKey"));
          commit ]%list in
      match AccAddressFromBech32 (str_bytes (ms_ToAddress msgSend)) with
      | None => inl (accessOperations ++ [commit])%list
      | Some toAddr =>
          let accessOperations :=
            if negb (ak_HasAccount (w_acct w) toAddr)
            then (accessOperations ++ [writes_op RT_KV_AUTH_GLOBAL_ACCOUNT_NUMBER (hex (sdk_bytes "authtypes.GlobalAccountNumberKey"))])%list
            else accessOperations in
          inl (accessOperations ++ [commit])%list
      end
  | _ => inr "invalid message received for bank module"
  end.

(** *** Transactions of the EVM *)

Definition appendRWBalanceOps (ops : list AccessOperation) (addr : AccAddress) : list AccessOperation :=
  let idTempl := hex (CreateAccountBalancesPrefix addr) in
  (ops ++ [reads_op RT_KV_BANK_BALANCES idTempl; writes_op RT_KV_BANK_BALANCES idTempl;
           reads_op RT_KV_AUTH_ADDRESS_STORE (hex (AddressStoreKey addr))])%list.

(** The operations on the entries of the receiver. *)
Definition receiver_ops (w : World) (toAddress : Address) (ops : list AccessOperation) : list AccessOperation :=
  let tabiAddress := GetTabiAddressOrDefault w toAddress in
  (appendRWBalanceOps ops tabiAddress ++
   [ reads_op RT_KV_EVM_E2S (hex (EVMAddressToTabiAddressKey toAddress));
     reads_op RT_KV_EVM_CODE_HASH (hex (CodeHashKeyPrefix ++ ba toAddress));
     reads_op RT_KV_EVM_CODE (hex (CodeKeyPrefix ++ ba toAddress));
     reads_op RT_KV_EVM_CODE_SIZE (hex (CodeSizeKeyPrefix ++ ba toAddress));
     reads_op RT_KV_EVM_NONCE (hex (NonceKeyPrefix ++ ba toAddress)) ])%list.

(** The operations on the entries of the sender, and those of every transaction. *)
Definition sender_ops (txHash : Hash) (evmAddr : Address) (tabiAddr : AccAddress) : list AccessOperation :=
  [ reads_op RT_KV_EVM_NONCE (hex (NonceKeyPrefix ++ ba evmAddr)); writes_op RT_KV_EVM_NONCE (hex (NonceKeyPrefix ++ ba evmAddr));
    writes_op RT_KV_EVM_RECEIPT (hex (ReceiptKey txHash));
    reads_op RT_KV_EVM_S2E (hex (TabiAddressToEVMAddressKey (ak_GetModuleAddress FeeCollectorName)));
    reads_op RT_KV_EVM_E2S (hex (EVMAddressToTabiAddressKey evmAddr));
    reads_op RT_KV_EVM_S2E (hex (TabiAddressToEVMAddressKey tabiAddr));
    reads_op RT_KV_EVM_CODE_HASH (hex (CodeHashKeyPrefix ++ ba evmAddr));
    mkAccessOperation AT_UNKNOWN RT_ANY "*"; CommitAccessOp ]%list.

Definition TransactionDependencyGenerator (height time txIndex : Z) (w : World) (msg : SdkMsg) : outcome GenOut :=
  match msg with
  | SMsgEVMTransaction evmMsg =>
      let* isAssociate := IsAssociateTx evmMsg in
      if isAssociate then Ret (inl [CommitAccessOp]) else
      let* p := Preprocess height time evmMsg in
      let '(evmMsg, err) := p in
      match err with
      | Some e => Ret (inr e)
      | None =>
          match msg_Derived evmMsg with
          | None => Panic nil_deref
          | Some derived =>
              let sender := dv_SenderTabiAddr derived in
              let ops := appendRWBalanceOps [] (GetCoinbaseAddress txIndex) in
              let ops := (appendRWBalanceOps ops sender ++
                [reads_op RT_KV_BANK_WEI_BALANCE (hex (sdk_bytes "banktypes.WeiBalancesPrefix" ++ sender))])%list in
              let* t := AsTransaction evmMsg in
              match t with
              | None => Panic nil_deref
              | Some (tx, _) =>
                  let ops := match tx_To tx with Some toAddress => receiver_ops w toAddress ops | None => ops end in
                  Ret (inl (ops ++ sender_ops (tx_Hash tx) (dv_SenderEVMAddr derived) sender)%list)
              end
          end
      end
  | _ => Ret (inr "invalid message received for EVM Module")
  end.

(** *** Wasm contracts

    The message is decoded and the operations are chosen by the accesscontrol
    module. *)
Variable NewExecuteMessageInfo : bytes → option bytes.
Variable GetWasmDependencyAccessOps : World → AccAddress → string → bytes → list AccessOperation + Err.
Definition WasmExecuteContractGenerator (w : World) (msg : SdkMsg) : GenOut :=
  match msg with
  | SMsgExecuteContract m =>
      match AccAddressFromBech32 (str_bytes (me_Contract m)) with
      | None => inr "decoding bech32 failed"
      | Some contractAddr =>
          match NewExecuteMessageInfo (me_Msg m) with
          | None => inr "invalid message"
          | Some msgInfo => GetWasmDependencyAccessOps w contractAddr (me_Sender m) msgInfo
          end
      end
  | _ => inr "invalid message received for type WasmExecuteContract"
  end.

(** The generators by the type of message they are registered for. *)
Inductive MessageKey : Type := KMsgSend | KMsgExecuteContract | KMsgEVMTransaction | KOther (url : string).
Definition GenerateMessageKey (msg : SdkMsg) : MessageKey :=
  match msg with
  | SMsgSend _ => KMsgSend
  | SMsgExecuteContract _ => KMsgExecuteContract
  | SMsgEVMTransaction _ => KMsgEVMTransaction
  | SMsgDelegate _ => KOther "MsgDelegate"
  | SMsgUndelegate _ => KOther "MsgUndelegate"
  | SMsgBeginRedelegate _ => KOther "MsgBeginRedelegate"
  | SMsgOther url => KOther url
  end.
Definition GetCustomDependencyGenerators (height time txIndex : Z) (key : MessageKey) : option (World → SdkMsg → outcome GenOut) :=
  match key with
  | KMsgSend => Some (λ w m, Ret (MsgSendDependencyGenerator w m))
  | KMsgExecuteContract => Some (λ w m, Ret (WasmExecuteContractGenerator w m))
  | KMsgEVMTransaction => Some (TransactionDependencyGenerator height time txIndex)
  | KOther _ => None
  end.

(** *** Staking

    An address that does not decode is empty. *)
Variable GetValidator : World → AccAddress → Validator.
Variable powerReduction : Z.
Definition acc_of (s : string) : AccAddress := default [] (AccAddressFromBech32 (str_bytes s)).
Definition val_of (s : string) : AccAddress := default [] (ValAddressFromBech32 (str_bytes s)).
Notation bondedModuleAdr := (ak_GetModuleAddress (sdk_string "stakingtypes.BondedPoolName")).
Notation notBondedModuleAdr := (ak_GetModuleAddress (sdk_string "stakingtypes.NotBondedPoolName")).

Definition delegate_ops (w : World) (m : MsgDelegate) : list AccessOperation :=
  let delegateAddr := acc_of (md_DelegatorAddress m) in
  let validatorAddr := val_of (md_ValidatorAddress m) in
  let validator := GetValidator w validatorAddr in
  let delegationKey := hex (GetDelegationKey delegateAddr validatorAddr) in
  let validatorKey := hex (GetValidatorKey validatorAddr) in
  let delegatorBalanceKey := hex (CreateAccountBalancesPrefixFromBech32 (md_DelegatorAddress m)) in
  let validatorBalanceKey := hex (CreateAccountBalancesPrefixFromBech32 (md_ValidatorAddress m)) in
  [
    reads_op RT_KV_STAKING_DELEGATION delegationKey; writes_op RT_KV_STAKING_DELEGATION delegationKey;
    reads_op RT_KV_STAKING_VALIDATORS_BY_POWER (hex (GetValidatorsByPowerIndexKey validator powerReduction));
    writes_op RT_KV_STAKING_VALIDATORS_BY_POWER (hex (GetValidatorsByPowerIndexKey validator powerReduction));
    reads_op RT_KV_DISTRIBUTION_DELEGATOR_STARTING_INFO (hex (GetDelegatorStartingInfoKey validatorAddr delegateAddr));
    writes_op RT_KV_DISTRIBUTION_DELEGATOR_STARTING_INFO (hex (GetDelegatorStartingInfoKey validatorAddr delegateAddr));
    reads_op RT_KV_DISTRIBUTION_VAL_CURRENT_REWARDS (hex (GetValidatorCurrentRewardsKey validatorAddr));
    writes_op RT_KV_DISTRIBUTION_VAL_CURRENT_REWARDS (hex (GetValidatorCurrentRewardsKey validatorAddr));
    reads_op RT_KV_DISTRIBUTION_OUTSTANDING_REWARDS (hex (GetValidatorOutstandingRewardsKey validatorAddr));
    writes_op RT_KV_DISTRIBUTION_OUTSTANDING_REWARDS (hex (GetValidatorOutstandingRewardsKey validatorAddr));
    reads_op RT_KV_DISTRIBUTION_FEE_POOL (hex (sdk_bytes "distributiontypes.FeePoolKey"));
    writes_op RT_KV_DISTRIBUTION_FEE_POOL (hex (sdk_bytes "distributiontypes.FeePoolKey"));
    reads_op RT_KV_DISTRIBUTION_VAL_HISTORICAL_REWARDS (hex (GetValidatorHistoricalRewardsPrefix validatorAddr));
    writes_op RT_KV_DISTRIBUTION_VAL_HISTORICAL_REWARDS (hex (GetValidatorHistoricalRewardsPrefix validatorAddr));
    reads_op RT_KV_AUTH_ADDRESS_STORE (hex (AddressStoreKey bondedModuleAdr));
    reads_op RT_KV_AUTH_ADDRESS_STORE (hex (AddressStoreKey notBondedModuleAdr));
    reads_op RT_KV_AUTH_ADDRESS_STORE (hex (AddressStoreKey delegateAddr)); reads_op RT_KV_BANK_BALANCES delegatorBalanceKey;
    writes_op RT_KV_BANK_BALANCES delegatorBalanceKey; reads_op RT_KV_BANK_BALANCES validatorBalanceKey;
    writes_op RT_KV_BANK_BALANCES validatorBalanceKey; reads_op RT_KV_STAKING_VALIDATOR validatorKey; writes_op RT_KV_STAKING_VALIDATOR validatorKey;
    reads_op RT_KV_STAKING_TOTAL_POWER (hex (sdk_bytes "stakingtypes.LastTotalPowerKey")); CommitAccessOp
  ]%list.
Definition MsgDelegateDependencyGenerator (w : World) (msg : SdkMsg) : GenOut :=
  match msg with SMsgDelegate m => inl (delegate_ops w m) | _ => inr "invalid message received for staking module" end.

Definition undelegate_ops (w : World) (m : MsgDelegate) : list AccessOperation :=
  let delegateAddr := acc_of (md_DelegatorAddress m) in
  let validatorAddr := val_of (md_ValidatorAddress m) in
  let validator := GetValidator w validatorAddr in
  let validatorCons := GetConsAddr validator in
  let validatorAddrCons := hex (GetValidatorByConsAddrKey validatorCons) in
  let delegationKey := hex (GetDelegationKey delegateAddr validatorAddr) in
  let validatorKey := hex (GetValidatorKey validatorAddr) in
  let delegatorBalanceKey := hex (CreateAccountBalancesPrefixFromBech32 (md_DelegatorAddress m)) in
  let validatorBalanceKey := hex (CreateAccountBalancesPrefixFromBech32 (md_ValidatorAddress m)) in
  [
    reads_op RT_KV_STAKING_DELEGATION delegationKey; writes_op RT_KV_STAKING_DELEGATION delegationKey;
    reads_op RT_KV_STAKING_UNBONDING_DELEGATION (hex (GetUBDKey delegateAddr validatorAddr));
    writes_op RT_KV_STAKING_UNBONDING_DELEGATION (hex (GetUBDKey delegateAddr validatorAddr));
    reads_op RT_KV_STAKING_UNBONDING_DELEGATION_VAL (hex (GetUBDsByValIndexKey validatorAddr));
    writes_op RT_KV_STAKING_UNBONDING_DELEGATION_VAL (hex (GetUBDsByValIndexKey validatorAddr));
    reads_op RT_KV_STAKING_UNBONDING_DELEGATION delegationKey; reads_op RT_KV_STAKING_UNBONDING (hex (sdk_bytes "stakingtypes.UnbondingQueueKey"));
    writes_op RT_KV_STAKING_UNBONDING (hex (sdk_bytes "stakingtypes.UnbondingQueueKey"));
    reads_op RT_KV_STAKING_VALIDATORS_CON_ADDR validatorAddrCons;
    reads_op RT_KV_STAKING_VALIDATORS_CON_ADDR (hex (GetUBDsByValIndexKey validatorAddr));
    reads_op RT_KV_STAKING_VALIDATORS_BY_POWER (hex (GetValidatorsByPowerIndexKey validator powerReduction));
    writes_op RT_KV_STAKING_VALIDATORS_BY_POWER (hex (GetValidatorsByPowerIndexKey validator powerReduction));
    reads_op RT_KV_DISTRIBUTION_DELEGATOR_STARTING_INFO (hex (GetDelegatorStartingInfoKey validatorAddr delegateAddr));
    reads_op RT_KV_DISTRIBUTION_VAL_CURRENT_REWARDS (hex (GetValidatorCurrentRewardsKey validatorAddr));
    writes_op RT_KV_DISTRIBUTION_VAL_CURRENT_REWARDS (hex (GetValidatorCurrentRewardsKey validatorAddr));
    reads_op RT_KV_DISTRIBUTION_OUTSTANDING_REWARDS (hex (GetValidatorOutstandingRewardsKey validatorAddr));
    writes_op RT_KV_DISTRIBUTION_OUTSTANDING_REWARDS (hex (GetValidatorOutstandingRewardsKey validatorAddr));
    reads_op RT_KV_DISTRIBUTION_FEE_POOL (hex (sdk_bytes "distributiontypes.FeePoolKey"));
    writes_op RT_KV_DISTRIBUTION_FEE_POOL (hex (sdk_bytes "distributiontypes.FeePoolKey"));
    reads_op RT_KV_DISTRIBUTION_VAL_HISTORICAL_REWARDS (hex (GetValidatorHistoricalRewardsPrefix validatorAddr));
    writes_op RT_KV_DISTRIBUTION_VAL_HISTORICAL_REWARDS (hex (GetValidatorHistoricalRewardsPrefix validatorAddr));
    reads_op RT_KV_AUTH_ADDRESS_STORE (hex (AddressStoreKey bondedModuleAdr));
    reads_op RT_KV_AUTH_ADDRESS_STORE (hex (AddressStoreKey notBondedModuleAdr));
    writes_op RT_KV_DISTRIBUTION_DELEGATOR_STARTING_INFO (hex (GetDelegatorStartingInfoKey validatorAddr delegateAddr));
    reads_op RT_KV_BANK_BALANCES delegatorBalanceKey; writes_op RT_KV_BANK_BALANCES delegatorBalanceKey;
    reads_op RT_KV_BANK_BALANCES validatorBalanceKey; writes_op RT_KV_BANK_BALANCES validatorBalanceKey;
    reads_op RT_KV_STAKING_VALIDATOR validatorKey; writes_op RT_KV_STAKING_VALIDATOR validatorKey; CommitAccessOp
  ]%list.
Definition MsgUndelegateDependencyGenerator (w : World) (msg : SdkMsg) : GenOut :=
  match msg with SMsgUndelegate m => inl (undelegate_ops w m) | _ => inr "invalid message received for staking module" end.

Definition redelegate_ops (w : World) (m : MsgBeginRedelegate) : list AccessOperation :=
  let delegateAddr := acc_of (mr_DelegatorAddress m) in
  let srcValidatorAddr := val_of (mr_ValidatorSrcAddress m) in
  let dstValidatorAddr := val_of (mr_ValidatorDstAddress m) in
  let srcValidator := GetValidator w srcValidatorAddr in
  let dstValidator := GetValidator w dstValidatorAddr in
  let srcDelegationKey := hex (GetDelegationKey delegateAddr srcValidatorAddr) in
  let dstDelegationKey := hex (GetDelegationKey delegateAddr dstValidatorAddr) in
  let srcValidatorKey := hex (GetValidatorKey srcValidatorAddr) in
  let dstValidatorKey := hex (GetValidatorKey dstValidatorAddr) in
  let dstValidatorBalanceKey := hex (CreateAccountBalancesPrefixFromBech32 (mr_ValidatorDstAddress m)) in
  [
    reads_op RT_KV_STAKING_DELEGATION srcDelegationKey; reads_op RT_KV_STAKING_DELEGATION dstDelegationKey;
    reads_op RT_KV_STAKING_REDELEGATION (hex (GetREDsKey delegateAddr)); writes_op RT_KV_STAKING_REDELEGATION (hex (GetREDsKey delegateAddr));
    writes_op RT_KV_STAKING_DELEGATION srcDelegationKey; writes_op RT_KV_STAKING_DELEGATION dstDelegationKey;
    reads_op RT_KV_STAKING_VALIDATORS_BY_POWER (hex (GetValidatorsByPowerIndexKey srcValidator powerReduction));
    writes_op RT_KV_STAKING_VALIDATORS_BY_POWER (hex (GetValidatorsByPowerIndexKey srcValidator powerReduction));
    reads_op RT_KV_STAKING_VALIDATORS_BY_POWER (hex (GetValidatorsByPowerIndexKey dstValidator powerReduction));
    writes_op RT_KV_STAKING_VALIDATORS_BY_POWER (hex (GetValidatorsByPowerIndexKey dstValidator powerReduction));
    reads_op RT_KV_DISTRIBUTION_DELEGATOR_STARTING_INFO (hex (GetDelegatorStartingInfoKey srcValidatorAddr delegateAddr));
    reads_op RT_KV_DISTRIBUTION_DELEGATOR_STARTING_INFO (hex (GetDelegatorStartingInfoKey dstValidatorAddr delegateAddr));
    reads_op RT_KV_DISTRIBUTION_VAL_CURRENT_REWARDS (hex (GetValidatorCurrentRewardsKey srcValidatorAddr));
    writes_op RT_KV_DISTRIBUTION_VAL_CURRENT_REWARDS (hex (GetValidatorCurrentRewardsKey srcValidatorAddr));
    reads_op RT_KV_DISTRIBUTION_VAL_CURRENT_REWARDS (hex (GetValidatorCurrentRewardsKey dstValidatorAddr));
    writes_op RT_KV_DISTRIBUTION_VAL_CURRENT_REWARDS (hex (GetValidatorCurrentRewardsKey dstValidatorAddr));
    reads_op RT_KV_DISTRIBUTION_OUTSTANDING_REWARDS (hex (GetValidatorOutstandingRewardsKey srcValidatorAddr));
    writes_op RT_KV_DISTRIBUTION_OUTSTANDING_REWARDS (hex (GetValidatorOutstandingRewardsKey srcValidatorAddr));
    reads_op RT_KV_DISTRIBUTION_FEE_POOL (hex (sdk_bytes "distributiontypes.FeePoolKey"));
    writes_op RT_KV_DISTRIBUTION_FEE_POOL (hex (sdk_bytes "distributiontypes.FeePoolKey"));
    reads_op RT_KV_DISTRIBUTION_VAL_HISTORICAL_REWARDS (hex (GetValidatorHistoricalRewardsPrefix srcValidatorAddr));
    writes_op RT_KV_DISTRIBUTION_VAL_HISTORICAL_REWARDS (hex (GetValidatorHistoricalRewardsPrefix srcValidatorAddr));
    reads_op RT_KV_DISTRIBUTION_VAL_HISTORICAL_REWARDS (hex (GetValidatorHistoricalRewardsPrefix dstValidatorAddr));
    writes_op RT_KV_DISTRIBUTION_VAL_HISTORICAL_REWARDS (hex (GetValidatorHistoricalRewardsPrefix dstValidatorAddr));
    reads_op RT_KV_STAKING_REDELEGATION_QUEUE (hex (sdk_bytes "stakingtypes.RedelegationQueueKey"));
    writes_op RT_KV_STAKING_REDELEGATION_QUEUE (hex (sdk_bytes "stakingtypes.RedelegationQueueKey"));
    reads_op RT_KV_AUTH_ADDRESS_STORE (hex (AddressStoreKey bondedModuleAdr));
    reads_op RT_KV_AUTH_ADDRESS_STORE (hex (AddressStoreKey notBondedModuleAdr));
    writes_op RT_KV_DISTRIBUTION_DELEGATOR_STARTING_INFO (hex (GetDelegatorStartingInfoKey srcValidatorAddr delegateAddr));
    writes_op RT_KV_DISTRIBUTION_DELEGATOR_STARTING_INFO (hex (GetDelegatorStartingInfoKey dstValidatorAddr delegateAddr));
    reads_op RT_KV_BANK_BALANCES dstValidatorBalanceKey; writes_op RT_KV_BANK_BALANCES dstValidatorBalanceKey;
    writes_op RT_KV_STAKING_REDELEGATION_VAL_SRC (hex (GetREDByValSrcIndexKey delegateAddr srcValidatorAddr dstValidatorAddr));
    writes_op RT_KV_STAKING_REDELEGATION_VAL_DST (hex (GetREDByValDstIndexKey delegateAddr srcValidatorAddr dstValidatorAddr));
    reads_op RT_KV_STAKING_VALIDATOR srcValidatorKey; reads_op RT_KV_STAKING_VALIDATOR dstValidatorKey;
    writes_op RT_KV_STAKING_VALIDATOR srcValidatorKey; writes_op RT_KV_STAKING_VALIDATOR dstValidatorKey;
    reads_op RT_KV_STAKING_TOTAL_POWER (hex (sdk_bytes "stakingtypes.LastTotalPowerKey")); CommitAccessOp
  ]%list.
Definition MsgBeginRedelegateDependencyGenerator (w : World) (msg : SdkMsg) : GenOut :=
  match msg with SMsgBeginRedelegate m => inl (redelegate_ops w m) | _ => inr "invalid message received for staking module" end.
End Generators.

(** * What is expected of the keys *)

(** A key that begins with a constant of the SDK. *)
Definition under `{SdkConstants} (name : string) (key : bytes) : Prop := ∃ s, key = sdk_bytes name ++ s.

Class SdkKeysLaws (Validator : Type) `{SC : SdkConstants} `{SKK : SdkKeys Validator} : Prop := {
  commit_op : CommitAccessOp = mkAccessOperation AT_COMMIT RT_ANY "*";
  balances_under : ∀ a, under "banktypes.BalancesPrefix" (CreateAccountBalancesPrefix a);
  balances_text_under : ∀ a, under "banktypes.BalancesPrefix" (CreateAccountBalancesPrefixFromBech32 a);
  accounts_under : ∀ a, under "authtypes.AddressStoreKeyPrefix" (AddressStoreKey a);
  accounts_text_under : ∀ a, under "authtypes.AddressStoreKeyPrefix" (CreateAddressStoreKeyFromBech32 a);
  delegations_under : ∀ a v, under "stakingtypes.DelegationKey" (GetDelegationKey a v);
  validators_under : ∀ v, under "stakingtypes.ValidatorsKey" (GetValidatorKey v);
  powers_under : ∀ v p, under "stakingtypes.ValidatorsByPowerIndexKey" (GetValidatorsByPowerIndexKey v p);
  consensus_under : ∀ a, under "stakingtypes.ValidatorsByConsAddrKey" (GetValidatorByConsAddrKey a);
  unbonding_under : ∀ a v, under "stakingtypes.UnbondingDelegationKey" (GetUBDKey a v);
  unbonding_val_under : ∀ v, under "stakingtypes.UnbondingDelegationByValIndexKey" (GetUBDsByValIndexKey v);
  redelegations_under : ∀ a, under "stakingtypes.RedelegationKey" (GetREDsKey a);
  redelegations_src_under : ∀ a v v', under "stakingtypes.RedelegationByValSrcIndexKey" (GetREDByValSrcIndexKey a v v');
  redelegations_dst_under : ∀ a v v', under "stakingtypes.RedelegationByValDstIndexKey" (GetREDByValDstIndexKey a v v');
  starting_info_under : ∀ v a, under "distributiontypes.DelegatorStartingInfoPrefix" (GetDelegatorStartingInfoKey v a);
  current_rewards_under : ∀ v, under "distributiontypes.ValidatorCurrentRewardsPrefix" (GetValidatorCurrentRewardsKey v);
  outstanding_under : ∀ v, under "distributiontypes.ValidatorOutstandingRewardsPrefix" (GetValidatorOutstandingRewardsKey v);
  historical_under : ∀ v, under "distributiontypes.ValidatorHistoricalRewardsPrefix" (GetValidatorHistoricalRewardsPrefix v)
}.
Create HintDb acl_keys.
#[export] Hint Resolve balances_under balances_text_under accounts_under accounts_text_under delegations_under validators_under powers_under
  consensus_under unbonding_under unbonding_val_under redelegations_under redelegations_src_under redelegations_dst_under starting_info_under
  current_rewards_under outstanding_under historical_under : acl_keys.

Section WellFiled.
Context `{SC : SdkConstants}.

(** The prefix the table gives for a kind of resource; an operation is well filed
    when its identifier is of a key with that prefix, or stands for every key. *)
Definition table_entries : list (ResourceType * bytes) := mjoin (snd <$> StoreKeyToResourceTypePrefixMap).
Definition resource_prefix (r : ResourceType) : option bytes := snd <$> find (λ e, bool_decide (e.1 = r)) table_entries.
Definition well_filed (op : AccessOperation) : Prop :=
  ao_IdentifierTemplate op = "*"%string ∨
  ∃ p s, resource_prefix (ao_ResourceType op) = Some p ∧ ao_IdentifierTemplate op = hex (p ++ s).

Lemma filed_under t r name key : resource_prefix r = Some (sdk_bytes name) → under name key → well_filed (mkAccessOperation t r (hex key)).
Proof. intros Hr [s ->]. right. by exists (sdk_bytes name), s. Qed.
Lemma filed_const t r name : resource_prefix r = Some (sdk_bytes name) → well_filed (mkAccessOperation t r (hex (sdk_bytes name))).
Proof. intros Hr. right. exists (sdk_bytes name), []. by rewrite app_nil_r. Qed.
Lemma filed_key t r p s : resource_prefix r = Some p → well_filed (mkAccessOperation t r (hex (p ++ s))).
Proof. intros Hr. right. by exists p, s. Qed.
Lemma filed_any t r : well_filed (mkAccessOperation t r "*").
Proof. by left. Qed.
End WellFiled.

(** Each operation of a list of them: by the key's law, by its constant, or by the
    module's own prefix. *)
Ltac filed :=
  repeat first [apply Forall_nil_2 | apply Forall_cons_2];
  first [ apply filed_any
        | eapply filed_under; [|solve [eauto with acl_keys]]; reflexivity
        | apply filed_const; reflexivity
        | apply filed_key; reflexivity ].

(** * Theorems *)

Section AclTheorems.
Context `{SC : SdkConstants} `{SKK : SdkKeys Validator} `{SKL : !SdkKeysLaws Validator} `{BK : BankKeeper B} `{AK : AccountKeeper A} `{BE : Bech32}.
Context `{EC : EthCrypto} `{EH : EthHex} `{IL : IntLibs} `{ET : EthTransactions T} `{TC : TxCodec}.
Context `{SP : Secp256k1} `{SG : Signers T} `{FR : ForkRules}.
Variable GetValidator : World B A → AccAddress → Validator.
Variable powerReduction : Z.
Notation World := (World B A).

(** The operations generated for a message, by the application's generators and
    those of the staking module but for undelegations. *)
Definition generates (height time txIndex : Z) (w : World) (msg : SdkMsg) (ops : list AccessOperation) : Prop :=
  match msg with
  | SMsgSend _ => MsgSendDependencyGenerator w msg = inl ops
  | SMsgEVMTransaction _ => TransactionDependencyGenerator height time txIndex w msg = Ret (inl ops)
  | SMsgDelegate _ => MsgDelegateDependencyGenerator GetValidator powerReduction w msg = inl ops
  | SMsgBeginRedelegate _ => MsgBeginRedelegateDependencyGenerator GetValidator powerReduction w msg = inl ops
  | _ => False
  end.

Definition writes_balance (ops : list AccessOperation) (key : bytes) : Prop := writes_op RT_KV_BANK_BALANCES (hex key) ∈ ops.

Definition writes_all (ops : list AccessOperation) (entries : list (ResourceType * bytes)) : Prop :=
  Forall (λ e, writes_op e.1 (hex e.2) ∈ ops) entries.

(** The entries of a delegation to a validator in the stores of the staking and the
    distribution module. *)
Definition delegation_entries (a v : AccAddress) : list (ResourceType * bytes) :=
  [(RT_KV_STAKING_DELEGATION, GetDelegationKey a v); (RT_KV_DISTRIBUTION_DELEGATOR_STARTING_INFO, GetDelegatorStartingInfoKey v a)].
(** Those of the validator, which gains or loses tokens and settles its rewards. *)
Definition validator_entries (w : World) (v : AccAddress) : list (ResourceType * bytes) :=
  [(RT_KV_STAKING_VALIDATOR, GetValidatorKey v); (RT_KV_STAKING_VALIDATORS_BY_POWER, GetValidatorsByPowerIndexKey (GetValidator w v) powerReduction);
   (RT_KV_DISTRIBUTION_VAL_CURRENT_REWARDS, GetValidatorCurrentRewardsKey v);
   (RT_KV_DISTRIBUTION_VAL_HISTORICAL_REWARDS, GetValidatorHistoricalRewardsPrefix v)].

(** What a message writes: a payment the balances of both sides, and the account
    number when the receiver is new; a transaction of the EVM the balances of the
    coinbase, the sender and the receiver, the nonce and the receipt; a delegation
    the balance of the delegator and the entries of the delegation and the
    validator; a redelegation those of both validators and the index of
    redelegations. *)
Definition declares_writes (height time txIndex : Z) (w : World) (msg : SdkMsg) (ops : list AccessOperation) : Prop :=
  match msg with
  | SMsgSend m =>
      writes_balance ops (CreateAccountBalancesPrefixFromBech32 (ms_FromAddress m)) ∧
      writes_balance ops (CreateAccountBalancesPrefixFromBech32 (ms_ToAddress m)) ∧
      (∀ a, AccAddressFromBech32 (str_bytes (ms_ToAddress m)) = Some a → ak_HasAccount (w_acct w) a = false →
        writes_op RT_KV_AUTH_GLOBAL_ACCOUNT_NUMBER (hex (sdk_bytes "authtypes.GlobalAccountNumberKey")) ∈ ops)
  | SMsgEVMTransaction m => IsAssociateTx m = Ret true ∨ ∃ m' d tx td,
      Preprocess height time m = Ret (m', None) ∧ msg_Derived m' = Some d ∧ AsTransaction m = Ret (Some (tx, td)) ∧
      writes_balance ops (CreateAccountBalancesPrefix (GetCoinbaseAddress txIndex)) ∧
      writes_balance ops (CreateAccountBalancesPrefix (dv_SenderTabiAddr d)) ∧
      (∀ a, tx_To tx = Some a → writes_balance ops (CreateAccountBalancesPrefix (GetTabiAddressOrDefault w a))) ∧
      writes_op RT_KV_EVM_NONCE (hex (NonceKeyPrefix ++ ba (dv_SenderEVMAddr d))) ∈ ops ∧
      writes_op RT_KV_EVM_RECEIPT (hex (ReceiptKey (tx_Hash tx))) ∈ ops
  | SMsgDelegate m =>
      let a := acc_of (md_DelegatorAddress m) in
      let v := val_of (md_ValidatorAddress m) in
      writes_balance ops (CreateAccountBalancesPrefixFromBech32 (md_DelegatorAddress m)) ∧
      writes_all ops (delegation_entries a v) ∧ writes_all ops (validator_entries w v) ∧
      writes_all ops [(RT_KV_DISTRIBUTION_OUTSTANDING_REWARDS, GetValidatorOutstandingRewardsKey v);
                      (RT_KV_DISTRIBUTION_FEE_POOL, sdk_bytes "distributiontypes.FeePoolKey")]
  | SMsgBeginRedelegate m =>
      let a := acc_of (mr_DelegatorAddress m) in
      let src := val_of (mr_ValidatorSrcAddress m) in
      let dst := val_of (mr_ValidatorDstAddress m) in
      writes_all ops (delegation_entries a src) ∧ writes_all ops (delegation_entries a dst) ∧
      writes_all ops (validator_entries w src) ∧ writes_all ops (validator_entries w dst) ∧
      writes_all ops [(RT_KV_STAKING_REDELEGATION, GetREDsKey a);
                      (RT_KV_STAKING_REDELEGATION_VAL_SRC, GetREDByValSrcIndexKey a src dst);
                      (RT_KV_STAKING_REDELEGATION_VAL_DST, GetREDByValDstIndexKey a src dst);
                      (RT_KV_STAKING_REDELEGATION_QUEUE, sdk_bytes "stakingtypes.RedelegationQueueKey");
                      (RT_KV_DISTRIBUTION_OUTSTANDING_REWARDS, GetValidatorOutstandingRewardsKey src);
                      (RT_KV_DISTRIBUTION_FEE_POOL, sdk_bytes "distributiontypes.FeePoolKey")]
  | _ => True
  end.

Lemma balance_ops_filed ops a : Forall well_filed ops → Forall well_filed (appendRWBalanceOps ops a).
Proof. intros H. unfold appendRWBalanceOps. apply Forall_app. split; [done|filed]. Qed.
Lemma balance_ops_writes ops a op : op ∈ ops ∨ op = writes_op RT_KV_BANK_BALANCES (hex (CreateAccountBalancesPrefix a)) → op ∈ appendRWBalanceOps ops a.
Proof. unfold appendRWBalanceOps. rewrite elem_of_app, !elem_of_cons. tauto. Qed.
Lemma sender_ops_filed h e a : Forall well_filed (sender_ops h e a).
Proof. unfold sender_ops. rewrite commit_op. filed. Qed.
Lemma receiver_ops_filed (w : World) a ops : Forall well_filed ops → Forall well_filed (receiver_ops w a ops).
Proof. intros H. unfold receiver_ops. apply Forall_app. split; [by apply balance_ops_filed|filed]. Qed.

Lemma send_ops (w : World) m ops : MsgSendDependencyGenerator w (SMsgSend m) = inl ops →
  Forall well_filed ops ∧ last ops = Some CommitAccessOp ∧ declares_writes 0 0 0 w (SMsgSend m) ops.
Proof.
  intros H. unfold MsgSendDependencyGenerator in H. rewrite commit_op.
  destruct (AccAddressFromBech32 _) as [a|] eqn:Ea; [destruct (ak_HasAccount _ a) eqn:Eh|]; injection H as <-;
    (split; [filed|]); (split; [done|]); (split_and!; [by repeat (left || right)..|]); intros a' Ha Hn; congruence || by repeat (left || right).
Qed.

Lemma evm_ops height time txIndex (w : World) m ops : TransactionDependencyGenerator height time txIndex w (SMsgEVMTransaction m) = Ret (inl ops) →
  Forall well_filed ops ∧ last ops = Some CommitAccessOp ∧ declares_writes height time txIndex w (SMsgEVMTransaction m) ops.
Proof.
  intros H. unfold TransactionDependencyGenerator in H. destruct (IsAssociateTx m) as [[]|] eqn:Ea; [| |done]; cbn [outcome_bind] in H.
  { injection H as <-. split_and!; [rewrite commit_op; filed|done|by left]. }
  destruct (Preprocess height time m) as [[m' [e|]]|] eqn:Ep; [done| |done]. cbn [outcome_bind] in H. destruct (msg_Derived m') as [d|] eqn:Ed; [|done].
  assert (AsTransaction m' = AsTransaction m) as Em by (unfold AsTransaction; by rewrite (Preprocess_keeps_data _ _ _ _ Ep)).
  destruct (AsTransaction m') as [[[tx td]|]|] eqn:Et; [|done|done]. cbn [outcome_bind] in H. set (ops0 := (_ ++ [_])%list) in H.
  assert (H0 : Forall well_filed ops0).
  { unfold ops0. apply Forall_app. split; [by apply balance_ops_filed, balance_ops_filed|filed]. }
  assert (Hc : ∀ a, a = GetCoinbaseAddress txIndex ∨ a = dv_SenderTabiAddr d → writes_balance ops0 (CreateAccountBalancesPrefix a)).
  { intros a Ha. unfold writes_balance, ops0. apply elem_of_app. left. apply balance_ops_writes. destruct Ha as [->| ->]; [left|by right].
    apply balance_ops_writes. by right. }
  injection H as <-. set (ops1 := match tx_To tx with Some _ => _ | None => _ end).
  assert (H1 : Forall well_filed ops1) by (unfold ops1; destruct (tx_To tx); [by apply receiver_ops_filed|done]).
  assert (Hsub : ∀ op, op ∈ ops0 → op ∈ ops1).
  { intros op Hop. unfold ops1. destruct (tx_To tx); [|done]. apply elem_of_app. left. apply balance_ops_writes. by left. }
  split_and!; [apply Forall_app; split; [done|apply sender_ops_filed]|by rewrite last_app|]. right. exists m', d, tx, td.
  unfold writes_balance. split_and!; [done|done|done|..]; rewrite ?elem_of_app; try (left; apply Hsub, Hc; tauto).
  - intros a Ha. apply elem_of_app. left. unfold ops1. rewrite Ha. apply elem_of_app. left. apply balance_ops_writes. by right.
  - right. by repeat (left || right).
  - right. by repeat (left || right).
Qed.

(** The keys of a list of operations are found in it. *)
Ltac listed := repeat first [apply Forall_nil_2 | apply Forall_cons_2 | split]; by repeat (left || right).


(** The two tables of resources agree.  Every kind of resource is in the table
    of prefixes, under one store; the table of stores is that table inverted, but
    for the three kinds that belong to no store. *)
Theorem resource_tables_agree :
  base.NoDup (fst <$> table_entries) ∧ (∀ r, r ∈ fst <$> table_entries) ∧
  ResourceTypeToStoreKeyMap ≡ₚ
    filter (λ e, e.1 ∉ [RT_ANY; RT_KV; RT_Mem]) (mjoin ((λ e, (λ q, (q.1, e.1)) <$> e.2) <$> StoreKeyToResourceTypePrefixMap)).
Proof.
  split_and!.
  - apply (bool_decide_unpack _). vm_compute. done.
  - intros r. apply (bool_decide_unpack _). destruct r; vm_compute; done.
  - set (l := filter _ _). set (m := ResourceTypeToStoreKeyMap).
    assert (E : (m = take 42 m ++ take 13 (drop 42 m) ++ drop 55 m)%list) by reflexivity.
    assert (E' : (l = take 13 (drop 42 m) ++ take 42 m ++ drop 55 m)%list) by (vm_compute; reflexivity).
    rewrite E' , E at 1. apply Permutation_app_swap_app.
Qed.
End AclTheorems.

(** * Examples *)

Section AclExamples.
#[local] Existing Instances demo_bank_keeper demo_accounts demo_crypto plain_hex strict_ints plain_transactions marked_bech32.
#[local] Existing Instances demo_secp demo_signers demo_forks no_codec.
Local Open Scope string_scope.

Definition staking_prefixes : list (string * bytes) :=
  [("stakingtypes.LastTotalPowerKey", [x12]); ("stakingtypes.ValidatorsKey", [x21]); ("stakingtypes.ValidatorsByConsAddrKey", [x22]);
   ("stakingtypes.ValidatorsByPowerIndexKey", [x23]); ("stakingtypes.DelegationKey", [x31]); ("stakingtypes.UnbondingDelegationKey", [x32]);
   ("stakingtypes.UnbondingDelegationByValIndexKey", [x33]); ("stakingtypes.RedelegationKey", [x34])]%list.
#[local] Instance demo_constants : SdkConstants := {|
  sdk_bytes name := match find (λ e, String.eqb e.1 name) staking_prefixes with Some e => e.2 | None => str_bytes name end;
  sdk_string name := name;
  CommitAccessOp := mkAccessOperation AT_COMMIT RT_ANY "*"
|}.
#[local] Instance demo_keys : SdkKeys unit := {|
  CreateAccountBalancesPrefix a := (sdk_bytes "banktypes.BalancesPrefix" ++ a)%list;
  CreateAccountBalancesPrefixFromBech32 a := (sdk_bytes "banktypes.BalancesPrefix" ++ str_bytes a)%list;
  AddressStoreKey a := (sdk_bytes "authtypes.AddressStoreKeyPrefix" ++ a)%list;
  CreateAddressStoreKeyFromBech32 a := (sdk_bytes "authtypes.AddressStoreKeyPrefix" ++ str_bytes a)%list;
  GetDelegationKey a v := (sdk_bytes "stakingtypes.DelegationKey" ++ a ++ v)%list;
  GetValidatorKey v := (sdk_bytes "stakingtypes.ValidatorsKey" ++ v)%list;
  GetValidatorsByPowerIndexKey _ p := (sdk_bytes "stakingtypes.ValidatorsByPowerIndexKey" ++ PutUint64 p)%list;
  GetValidatorByConsAddrKey a := (sdk_bytes "stakingtypes.ValidatorsByConsAddrKey" ++ a)%list;
  GetUBDKey a v := (sdk_bytes "stakingtypes.UnbondingDelegationKey" ++ a ++ v)%list;
  GetUBDsByValIndexKey v := (sdk_bytes "stakingtypes.UnbondingDelegationByValIndexKey" ++ v)%list;
  GetREDsKey a := (sdk_bytes "stakingtypes.RedelegationKey" ++ a)%list;
  GetREDByValSrcIndexKey a v v' := (sdk_bytes "stakingtypes.RedelegationByValSrcIndexKey" ++ v ++ a ++ v')%list;
  GetREDByValDstIndexKey a v v' := (sdk_bytes "stakingtypes.RedelegationByValDstIndexKey" ++ v' ++ a ++ v)%list;
  GetDelegatorStartingInfoKey v a := (sdk_bytes "distributiontypes.DelegatorStartingInfoPrefix" ++ v ++ a)%list;
  GetValidatorCurrentRewardsKey v := (sdk_bytes "distributiontypes.ValidatorCurrentRewardsPrefix" ++ v)%list;
  GetValidatorOutstandingRewardsKey v := (sdk_bytes "distributiontypes.ValidatorOutstandingRewardsPrefix" ++ v)%list;
  GetValidatorHistoricalRewardsPrefix v := (sdk_bytes "distributiontypes.ValidatorHistoricalRewardsPrefix" ++ v)%list;
  ValAddressFromBech32 s := Some s;
  GetConsAddr _ := []
|}.
#[local] Instance demo_keys_laws : SdkKeysLaws unit.
Proof. split; [done|..]; intros; eexists; reflexivity. Qed.

Definition demo_send : SdkMsg := SMsgSend (mkMsgSend "talice" "tbob").
Definition demo_send_ops : list AccessOperation :=
  match MsgSendDependencyGenerator demo_world0 demo_send with inl ops => ops | inr _ => [] end.


(** A payment to an account that does not exist declares the write of the account
    number after a commit. *)
Lemma write_after_commit : demo_send_ops !! 8%nat = Some (mkAccessOperation AT_COMMIT RT_ANY "*") ∧
  demo_send_ops !! 9%nat = Some (writes_op RT_KV_AUTH_GLOBAL_ACCOUNT_NUMBER (hex (sdk_bytes "authtypes.GlobalAccountNumberKey"))).
Proof. split; reflexivity. Qed.

(** Two of the operations of an undelegation are filed under a kind of resource
    whose keys do not look like theirs. *)
Lemma undelegate_misfiled : ∃ op op', op ≠ op' ∧ ¬ well_filed op ∧ ¬ well_filed op' ∧
  undelegate_ops (λ _ _, tt) 1 demo_world0 (mkMsgDelegate "talice" "val") !! 6%nat = Some op ∧
  undelegate_ops (λ _ _, tt) 1 demo_world0 (mkMsgDelegate "talice" "val") !! 10%nat = Some op'.
Proof.
  eexists (reads_op RT_KV_STAKING_UNBONDING_DELEGATION _), (reads_op RT_KV_STAKING_VALIDATORS_CON_ADDR _).
  split_and!; [done| | |reflexivity|reflexivity]; (intros [H|(p & s & Hp & H)]; [by vm_compute in H|]); vm_compute in Hp; injection Hp as <-;
    cbn [ao_IdentifierTemplate] in H; vm_compute in H; discriminate.
Qed.
End AclExamples.
