(* ===== verification/WasmBindings.v ===== *)
(** * Messages of wasm contracts
    (wasmbinding/encoder.go, wasmbinding/message_plugin.go and
    x/evm/client/wasm/encoder.go)

    A wasm contract calls an EVM contract by a custom message in JSON, which is
    encoded into an internal message of the module and routed to its handler.  With
    it stand the functions that compare the accesses a contract declares with those
    it makes. *)

From S2P Require Import Prelude Bytes Base64 Dec Store Params Keys World Instances Keeper StateDB Snapshots Supply Finalize Frame.
From S2P Require Import Fee Eth EthTx Msg Block Receipts Tx Associate Pointer MsgServer Precompile StaticCall AddrPrecompile WasmQueries AclMapping.
From Stdlib Require Import Strings.Byte Strings.Ascii.
Local Open Scope Z_scope.

(** ** Data *)

(** [bindings.CallEVM] and [bindings.DelegateCallEVM]; the data is in base64. *)
Record CallEVMBinding : Type := mkCallEVMBinding { cb_Value : option Z; cb_To : string; cb_Data : string }.
Record DelegateCallEVMBinding : Type := mkDelegateCallEVMBinding { db_To : string; db_Data : string }.
(** The fields that are not nil; the messages of the token factory are not
    handled. *)
Record TabiWasmMessage : Type := mkTabiWasmMessage {
  wm_CreateDenom : option bytes; wm_MintTokens : option bytes; wm_BurnTokens : option bytes; wm_ChangeAdmin : option bytes;
  wm_SetMetadata : option bytes; wm_CallEVM : option bytes; wm_DelegateCallEVM : option bytes
}.
Record MessageInfo : Type := mkMessageInfo { mi_Sender : string }.
Record CodeInfo : Type := mkCodeInfo { ci_CodeHash : bytes }.

(** The messages the router tells apart; the others are those of the SDK. *)
Inductive RoutedMsg (X : Type) : Type :=
| RInternalEVMCall (m : MsgInternalEVMCall)
| RInternalEVMDelegateCall (m : MsgInternalEVMDelegateCall)
| ROther (x : X).
Arguments RInternalEVMCall {X}. Arguments RInternalEVMDelegateCall {X}. Arguments ROther {X}.

(** [encoding/json] on these types. *)
Class MessageJson := {
  json_Unmarshal_Message : bytes → TabiWasmMessage + Err;
  json_Unmarshal_CallEVM : bytes → CallEVMBinding + Err;
  json_Unmarshal_DelegateCallEVM : bytes → DelegateCallEVMBinding + Err
}.

(** ** Encoding (encoder.go) *)

Section Encoder.
Context `{BE : Bech32} `{MJ : MessageJson} {X : Type}.

Definition EncodeCallEVM (rawMsg : bytes) (sender : AccAddress) (info : MessageInfo) : list (RoutedMsg X) + Err :=
  match json_Unmarshal_CallEVM rawMsg with
  | inr e => inr e
  | inl encodedCallEVM =>
      match base64_DecodeString (cb_Data encodedCallEVM) with
      | inr e => inr e
      | inl decodedData =>
          inl [RInternalEVMCall (mkMsgInternalEVMCall (acc_String sender) (cb_To encodedCallEVM) (cb_Value encodedCallEVM) decodedData)]
      end
  end.

(** The sender is the one of the contract's own message, if it can be read. *)
Definition EncodeDelegateCallEVM (rawMsg : bytes) (sender : AccAddress) (info : MessageInfo) (codeInfo : CodeInfo) : list (RoutedMsg X) + Err :=
  match json_Unmarshal_DelegateCallEVM rawMsg with
  | inr e => inr e
  | inl encodedCallEVM =>
      match base64_DecodeString (db_Data encodedCallEVM) with
      | inr e => inr e
      | inl decodedData =>
          let s := default sender (AccAddressFromBech32 (str_bytes (mi_Sender info))) in
          inl [RInternalEVMDelegateCall (mkMsgInternalEVMDelegateCall (acc_String s) (acc_String sender) (db_To encodedCallEVM)
                 (ci_CodeHash codeInfo) decodedData)]
      end
  end.

Definition CustomEncoder (sender : AccAddress) (msg : bytes) (info : MessageInfo) (codeInfo : CodeInfo) : list (RoutedMsg X) + Err :=
  match json_Unmarshal_Message msg with
  | inr e => inr ("Error parsing Tabi Wasm Message: " ++ e)%string
  | inl parsedMessage =>
      match wm_CallEVM parsedMessage, wm_DelegateCallEVM parsedMessage with
      | Some raw, _ => EncodeCallEVM raw sender info
      | None, Some raw => EncodeDelegateCallEVM raw sender info codeInfo
      | None, None => inr "Unknown Tabi Wasm Message"%string
      end
  end.
End Encoder.

(** ** Routing (message_plugin.go) *)

Section Router.
Context `{BK : BankKeeper B} `{AK : AccountKeeper A} `{EC : EthCrypto} `{KC : KeeperConfig}.
Context `{MST : MultiStore MS (World B A)} `{MR : MapRange} `{SD : SdkDec} `{CD : Codec}.
Context `{EH : EthHex} `{IL : IntLibs} `{ET : EthTransactions T} `{TC : TxCodec} `{ER : EthReceipts}.
Context `{VM : EVM MS} `{GM : GasMeters G} `{BE : Bech32}.
Notation TxOut := (TxOut (MS := MS) (G := G)).

(** A handler of messages: the data of the result. *)
Definition MsgHandler : Type := TxEnv → option Address → G → Ctx MS → outcome (TxOut bytes).

(** The router of the SDK. *)
Variable (X : Type) (MessageRouter_Handler : X → MsgHandler).

Definition CustomRouter_Handler (msg : RoutedMsg X) : MsgHandler :=
  match msg with
  | RInternalEVMCall m => λ env cache gm c, HandleInternalEVMCall env m cache gm c
  | RInternalEVMDelegateCall m => λ env cache gm c, HandleInternalEVMDelegateCall env m cache gm c
  | ROther x => MessageRouter_Handler x
  end.
End Router.

(** ** Declared accesses (message_plugin.go) *)

#[export] Instance AccessType_eq_dec : EqDecision AccessType.
Proof. solve_decision. Defined.
Record ResourceAccess : Type := mkResourceAccess { ra_ResourceType : ResourceType; ra_AccessType : AccessType }.
#[export] Instance ResourceAccess_eq_dec : EqDecision ResourceAccess.
Proof. solve_decision. Defined.

(** A Go map from accesses to sets of identifiers, as the list of its entries. *)
Notation LookupMap := (list (ResourceAccess * list string)).
Fixpoint lm_get (m : LookupMap) (k : ResourceAccess) : option (list string) :=
  match m with
  | [] => None
  | (k', ids) :: rest => if decide (k' = k) then Some ids else lm_get rest k
  end.
Fixpoint lm_add (m : LookupMap) (k : ResourceAccess) (id : string) : LookupMap :=
  match m with
  | [] => [(k, [id])]
  | (k', ids) :: rest => if decide (k' = k) then (k', id :: ids) :: rest else (k', ids) :: lm_add rest k id
  end.

Fixpoint build_from (m : LookupMap) (accessOps : list AccessOperation) : LookupMap :=
  match accessOps with
  | [] => m
  | op :: rest => build_from (lm_add m (mkResourceAccess (ao_ResourceType op) (ao_AccessType op)) (ao_IdentifierTemplate op)) rest
  end.
Definition BuildWasmDependencyLookupMap (accessOps : list AccessOperation) : LookupMap := build_from [] accessOps.

Definition GenerateAllowedResourceAccess (resource : ResourceType) (access : AccessType) : list ResourceAccess :=
  let accesses := [mkResourceAccess resource AT_WRITE; mkResourceAccess resource AT_UNKNOWN] in
  if decide (access = AT_READ) then (accesses ++ [mkResourceAccess resource access])%list else accesses.

Section Fulfilled.
(** [ResourceType.GetParentResources] of the SDK. *)
Variable GetParentResources : ResourceType → list ResourceType.

Definition AreDependenciesFulfilled (lookupMap : LookupMap) (accessOp : AccessOperation) : bool :=
  let listed ra := match lm_get lookupMap ra with Some ids => bool_decide (ao_IdentifierTemplate accessOp ∈ ids) | None => false end in
  let present ra := match lm_get lookupMap ra with Some _ => true | None => false end in
  existsb listed (GenerateAllowedResourceAccess (ao_ResourceType accessOp) (ao_AccessType accessOp)) ||
  existsb (λ parent, existsb present (GenerateAllowedResourceAccess parent (ao_AccessType accessOp)))
    (GetParentResources (ao_ResourceType accessOp)).
End Fulfilled.

(** * Theorems *)

(** ** Declared accesses *)

(** A declared access allows another one: writes and unknown accesses allow every
    kind of access, reads only reads. *)
Definition allows (declared access : AccessType) : Prop :=
  declared = AT_WRITE ∨ declared = AT_UNKNOWN ∨ declared = AT_READ ∧ access = AT_READ.
Definition access_of (op : AccessOperation) : ResourceAccess := mkResourceAccess (ao_ResourceType op) (ao_AccessType op).

Lemma lm_get_add m k id k' :
  lm_get (lm_add m k id) k' = if decide (k = k') then Some (id :: default [] (lm_get m k)) else lm_get m k'.
Proof.
  induction m as [|[k0 ids] m IH]; cbn [lm_add lm_get]; [by destruct (decide (k = k'))|].
  destruct (decide (k0 = k)) as [->|Hne]; cbn [lm_get].
  - by destruct (decide (k = k')) as [->|].
  - rewrite IH. destruct (decide (k0 = k')) as [->|]; [|done]. by destruct (decide (k = k')) as [->|].
Qed.

Lemma present_add m k id k' : is_Some (lm_get (lm_add m k id) k') ↔ is_Some (lm_get m k') ∨ k = k'.
Proof.
  rewrite lm_get_add. destruct (decide (k = k')) as [<-|Hne]; [split; [by right|by eexists]|].
  split; [by left|by intros [?|?]].
Qed.
Lemma listed_add m k id k' x :
  x ∈ default [] (lm_get (lm_add m k id) k') ↔ x ∈ default [] (lm_get m k') ∨ k = k' ∧ id = x.
Proof.
  rewrite lm_get_add. destruct (decide (k = k')) as [<-|Hne]; [|split; [by left|by intros [?|[? _]]]].
  simpl. rewrite elem_of_cons. split; [intros [->|?]; [by right|by left]|intros [?|[_ ->]]; [by right|by left]].
Qed.

Lemma build_from_get m ops k :
  (is_Some (lm_get (build_from m ops) k) ↔ is_Some (lm_get m k) ∨ ∃ op, op ∈ ops ∧ access_of op = k) ∧
  (∀ id, id ∈ default [] (lm_get (build_from m ops) k) ↔
    id ∈ default [] (lm_get m k) ∨ ∃ op, op ∈ ops ∧ access_of op = k ∧ ao_IdentifierTemplate op = id).
Proof.
  revert m. induction ops as [|op ops IH]; intros m; cbn [build_from].
  { split; [|intros id]; (split; [by left|intros [?|(o & Ho & _)]; [done|by apply not_elem_of_nil in Ho]]). }
  destruct (IH (lm_add m (access_of op) (ao_IdentifierTemplate op))) as [H1 H2]. fold (access_of op).
  split; [rewrite H1, present_add|intros id; rewrite H2, listed_add].
  - split.
    + intros [[?|?]|(o & ? & ?)]; [by left|right; exists op; split; [by left|done]|right; exists o; split; [by right|done]].
    + intros [?|(o & [->|?]%elem_of_cons & ?)]; [by left; left|by left; right|right; by exists o].
  - split.
    + intros [[?|?]|(o & ? & ?)]; [by left|right; exists op; split; [by left|done]|right; exists o; split; [by right|done]].
    + intros [?|(o & [->|?]%elem_of_cons & ?)]; [by left; left|by left; right|right; by exists o].
Qed.

Lemma allowed_accesses ra resource access :
  ra ∈ GenerateAllowedResourceAccess resource access ↔ ra_ResourceType ra = resource ∧ allows (ra_AccessType ra) access.
Proof.
  destruct ra as [r a]. unfold GenerateAllowedResourceAccess, allows. simpl.
  destruct (decide (access = AT_READ)) as [->|]; simpl; rewrite !elem_of_cons, elem_of_nil; naive_solver.
Qed.

Section FulfilledTheorem.
Variable GetParentResources : ResourceType → list ResourceType.

(** The declared accesses fulfil an access exactly when one of them covers it: it
    allows that kind of access, and is of the same resource with the same
    identifier, or of a resource that contains it, whatever its identifier. *)
Theorem dependencies_fulfilled_exact (accessOps : list AccessOperation) (op : AccessOperation) :
  AreDependenciesFulfilled GetParentResources (BuildWasmDependencyLookupMap accessOps) op = true ↔
  ∃ d, d ∈ accessOps ∧ allows (ao_AccessType d) (ao_AccessType op) ∧
    (ao_ResourceType d = ao_ResourceType op ∧ ao_IdentifierTemplate d = ao_IdentifierTemplate op ∨
     ao_ResourceType d ∈ GetParentResources (ao_ResourceType op)).
Proof.
  unfold AreDependenciesFulfilled, BuildWasmDependencyLookupMap. rewrite orb_true_iff, !existsb_exists.
  setoid_rewrite <- list_elem_of_In. setoid_rewrite existsb_exists. setoid_rewrite <- list_elem_of_In. setoid_rewrite allowed_accesses.
  split.
  - intros [(ra & [Hr Ha] & Hl)|(p & Hp & ra & [Hr Ha] & Hl)].
    + destruct (lm_get _ ra) as [ids|] eqn:E; [|done]. apply bool_decide_eq_true in Hl.
      destruct (proj1 (proj2 (build_from_get [] accessOps ra) (ao_IdentifierTemplate op))) as [?|(d & Hd & Hk & Hi)];
        [by rewrite E|by apply not_elem_of_nil in H|].
      subst ra. simpl in Hr, Ha. exists d. naive_solver.
    + destruct (proj1 (proj1 (build_from_get [] accessOps ra))) as [[? ?]|(d & Hd & Hk)];
        [by destruct (lm_get _ ra); [eexists|]|done|].
      subst ra p. simpl in Hp, Ha. exists d. naive_solver.
  - intros (d & Hd & Ha & [[Hr Hi]|Hp]).
    + left. exists (access_of d). split; [done|].
      pose proof (proj2 (proj2 (build_from_get [] accessOps (access_of d)) (ao_IdentifierTemplate op)) ltac:(right; by exists d)) as Hin.
      destruct (lm_get _ (access_of d)); [by apply bool_decide_eq_true|by apply not_elem_of_nil in Hin].
    + right. exists (ao_ResourceType d). split; [done|]. exists (access_of d). split; [done|].
      destruct (proj2 (proj1 (build_from_get [] accessOps (access_of d))) ltac:(right; by exists d)) as [ids E]. by rewrite E.
Qed.
End FulfilledTheorem.

(** ** From a payload to a call *)

Section PayloadTheorem.
Context `{BK : BankKeeper B} `{AK : AccountKeeper A} `{EC : EthCrypto} `{KC : KeeperConfig}.
Context `{MST : MultiStore MS (World B A)} `{MSL : !MultiStoreLaws MS (World B A)} `{MR : MapRange} `{SD : SdkDec} `{CD : Codec}.
Context `{EH : EthHex} `{IL : IntLibs} `{ET : EthTransactions T} `{TC : TxCodec} `{ER : EthReceipts}.
Context `{VM : EVM MS} `{GM : GasMeters G} `{SV : StaticEVM MS} `{BE : Bech32} `{BEL : !Bech32Laws}.
Context `{QJ : QueryJson} `{TA : TokenABIs} `{QL : QueryLibs MS} `{MJ : MessageJson}.
Variable (X : Type) (MessageRouter_Handler : X → MsgHandler (MS := MS) (G := G)).
Notation Handler := (CustomRouter_Handler X MessageRouter_Handler).

(** The account of a wasm contract. *)
Definition contract_account (a : AccAddress) : Prop := a ≠ [] ∧ (length a ≤ 255)%nat.

(** A contract that sends [encoded] as the data of a call. *)
Definition calls_with (msg : bytes) (encoded : string) (b : CallEVMBinding) : Prop :=
  ∃ m raw, json_Unmarshal_Message msg = inl m ∧ wm_CallEVM m = Some raw ∧ json_Unmarshal_CallEVM raw = inl b ∧ cb_Data b = encoded.

Lemma call_encoded (sender : AccAddress) msg input b info codeInfo :
  calls_with msg (base64_EncodeToString input) b →
  CustomEncoder sender msg info codeInfo =
    inl [RInternalEVMCall (X := X) (mkMsgInternalEVMCall (acc_String sender) (cb_To b) (cb_Value b) input)].
Proof.
  intros (m & raw & Hm & Hr & Hb & Hd). unfold CustomEncoder, EncodeCallEVM. by rewrite Hm, Hr, Hb, Hd, base64_roundtrip.
Qed.

(** C33: a payload reaches the EVM as it was asked for.  When a wasm contract gets the
    payload of a token operation and sends it back as the data of a call, the
    message it sends is one internal call, and handling that calls the EVM from the
    address of the wasm contract, with the contract and the value of the message, and
    with the encoding of the method and the arguments of the operation, where each
    account is the EVM address associated with it. *)
Theorem payload_reaches_contract (env : TxEnv) (data bz : bytes) (q : TabiEVMQuery) (s s' : QState MS G) (sender : AccAddress) :
  contract_account sender → json_Unmarshal_Query data = inl q → is_payload (GetQueryType q) = true →
  HandleEVMQuery env data s = Ret (inl bz, s') →
  ∃ abi method args input encoded,
    payload_for (cview (q_ctx s)) q abi method args ∧ Pack abi method args = inl input ∧
    json_Marshal (ERCPayloadResponse encoded) = inl bz ∧
    ∀ msg b info codeInfo, calls_with msg encoded b →
      ∃ r, CustomEncoder sender msg info codeInfo = inl [r] ∧
        ∀ env' cache gm c, Handler r env' cache gm c =
          CallEVM env' (GetEVMAddressOrDefault (cview c) sender)
            (if String.eqb (cb_To b) "" then None else Some (HexToAddress (cb_To b))) (cb_Value b) input cache gm c.
Proof.
  intros [Hs1 Hs2] Hq Hp H. destruct (payload_query env data q s s' bz Hq Hp H) as (abi & method & args & input & Hf & Hi & Hb).
  exists abi, method, args, input, (base64_EncodeToString input). split_and!; [done..|]. intros msg b info codeInfo Hc.
  eexists. split; [exact (call_encoded sender msg input b info codeInfo Hc)|]. intros env' cache gm c. simpl.
  unfold HandleInternalEVMCall. cbn [ic_Sender ic_To ic_Value ic_Data]. by rewrite (bech32_roundtrip sender Hs1 Hs2).
Qed.
End PayloadTheorem.

(** * Examples *)

Section WasmBindingsExamples.
#[local] Existing Instances demo_bank_keeper demo_bank_laws demo_accounts demo_crypto live_config.
#[local] Existing Instances number_codec number_codec_laws plain_hex strict_ints plain_transactions no_codec.
#[local] Existing Instances half_even_dec demo_receipts_ops plain_meter demo_call_stores demo_call_stores_laws demo_call_range demo_evm.
#[local] Existing Instances marked_bech32 marked_bech32_laws demo_json demo_token_abis demo_query_libs writing_evm.

Definition demo_binding : CallEVMBinding := mkCallEVMBinding None "0000000000000000000000000000000000000002" "dHJhbnNmZXI=".
Definition demo_message_json : MessageJson := {|
  json_Unmarshal_Message bz := inl (mkTabiWasmMessage None None None None None (Some bz) None);
  json_Unmarshal_CallEVM bz := inl demo_binding;
  json_Unmarshal_DelegateCallEVM bz := inr "no message"%string
|}.
#[local] Existing Instance demo_message_json.

(** The recipient is associated. *)
Definition payload_state : QState (stack_ms demo_world) (Z * Z) :=
  mkQState (cupd (set_evm (<[TabiAddressToEVMAddressKey [x08] := ba (addr_of 7)]>)) funded_ctx) (1000000, 0) demo_cache.
Lemma demo_payload : answered (HandleEVMQuery demo_env [x02] payload_state) (str_bytes "dHJhbnNmZXI=") = true.
Proof. vm_compute. reflexivity. Qed.

Lemma payload_reaches_contract_witness : ∃ r input, CustomEncoder (X := Empty_set) [x05] [] (mkMessageInfo "") (mkCodeInfo []) = inl [r] ∧
  CustomRouter_Handler Empty_set (λ x _ _ _ _, match x with end) r demo_env demo_cache (1000000, 0) funded_ctx =
  CallEVM demo_env (GetEVMAddressOrDefault (cview funded_ctx) [x05]) (Some (addr_of 2)) None input demo_cache (1000000, 0) funded_ctx.
Proof.
  destruct (answered_ret _ _ demo_payload) as [s' Hs].
  assert (Hc : contract_account [x05]) by (split; [discriminate|simpl; lia]).
  assert (Hq : json_Unmarshal_Query [x02] = inl transfer_query) by reflexivity.
  assert (Hp : is_payload (GetQueryType transfer_query) = true) by reflexivity.
  destruct (payload_reaches_contract Empty_set (λ x _ _ _ _, match x with end) demo_env [x02] (str_bytes "dHJhbnNmZXI=") transfer_query
    payload_state s' [x05] Hc Hq Hp Hs) as (abi & method & args & input & encoded & _ & _ & Hm & Hr).
  assert (He : encoded = "dHJhbnNmZXI="%string).
  { injection Hm as Hm. rewrite <- (String.string_of_list_byte_of_string encoded). unfold str_bytes in Hm. by rewrite Hm. }
  destruct (Hr [] demo_binding (mkMessageInfo "") (mkCodeInfo [])) as (r & H1 & H2).
  { exists (mkTabiWasmMessage None None None None None (Some []) None), []. by split_and!. }
  exists r, input. split; [exact H1|]. rewrite H2. f_equal.
Defined.
End WasmBindingsExamples.
