(* ===== verification/Queries.v ===== *)
(** * Queries of the module
    (x/evm/keeper/grpc_query.go)

    What the module answers about associations and pointers, as the clients of the
    chain see it: addresses are texts, and an entry that does not exist is an
    answer, not an error.  The query that runs a contract is in StaticCall. *)

From S2P Require Import Prelude Bytes Store Params Keys World Instances Eth Keeper Pointer MsgServer.
From Stdlib Require Import Strings.Byte.
Local Open Scope Z_scope.
Local Open Scope outcome_scope.

Record QueryAddressResponse : Type := mkQueryAddressResponse { qa_Address : bytes; qa_Associated : bool }.
Record QueryPointerResponse : Type := mkQueryPointerResponse { qp_Pointer : bytes; qp_Version : Z; qp_Exists : bool }.
Record QueryPointerVersionResponse : Type := mkQueryPointerVersionResponse { qv_Version : Z; qv_CwCodeId : Z }.

Section Queries.
Context `{BK : BankKeeper B} `{AK : AccountKeeper A} `{BE : Bech32} `{EH : EthHex}.
Notation World := (World B A).
Variable chainID : string.
Variable versionOverride : Z.

(** ** Associations *)

Definition TabiAddressByEVMAddress (w : World) (EvmAddress : string) : QueryAddressResponse + Err :=
  if String.eqb EvmAddress "" then inr "invalid request"%string else
  match GetTabiAddress w (HexToAddress EvmAddress) with
  | None => inl (mkQueryAddressResponse [] false)
  | Some addr => inl (mkQueryAddressResponse (acc_String addr) true)
  end.

Definition EVMAddressByTabiAddress (w : World) (TabiAddress : bytes) : QueryAddressResponse + Err :=
  match TabiAddress with
  | [] => inr "invalid request"%string
  | _ =>
      match AccAddressFromBech32 TabiAddress with
      | None => inr "decoding bech32 failed"%string
      | Some tabiAddr =>
          match GetEVMAddress w tabiAddr with
          | None => inl (mkQueryAddressResponse [] false)
          | Some addr => inl (mkQueryAddressResponse (str_bytes (addr_Hex addr)) true)
          end
      end
  end.

(** ** Pointers *)

(** A version is a uint16, and [uint32(v)] the same number. *)
Definition answer (text : bytes) (version : Z) : QueryPointerResponse := mkQueryPointerResponse text version true.
Definition no_answer : QueryPointerResponse := mkQueryPointerResponse [] 0 false.
Definition erc_answer (r : outcome (option (Address * Z))) : outcome (QueryPointerResponse + Err) :=
  let* o := r in Ret (inl (match o with Some (p, v) => answer (str_bytes (addr_Hex p)) v | None => no_answer end)).
Definition cw_answer (r : outcome (option (AccAddress * Z))) : outcome (QueryPointerResponse + Err) :=
  let* o := r in Ret (inl (match o with Some (p, v) => answer (acc_String p) v | None => no_answer end)).
Definition text_answer (r : outcome (option (bytes * Z))) : outcome (QueryPointerResponse + Err) :=
  let* o := r in Ret (inl (match o with Some (p, v) => answer p v | None => no_answer end)).

Definition Pointer (isTracing : bool) (w : World) (PointerType : PointerType) (Pointee : string) : outcome (QueryPointerResponse + Err) :=
  if String.eqb Pointee "" then Ret (inr "must specify pointee"%string) else
  match PointerType with
  | PT_NATIVE => erc_answer (GetERC20NativePointer isTracing w (str_bytes Pointee))
  | PT_CW20 => erc_answer (GetERC20CW20Pointer chainID versionOverride isTracing w (str_bytes Pointee))
  | PT_CW721 => erc_answer (GetERC721CW721Pointer isTracing w (str_bytes Pointee))
  | PT_CW1155 => erc_answer (GetERC1155CW1155Pointer isTracing w (str_bytes Pointee))
  | PT_ERC20 => cw_answer (GetCW20ERC20Pointer isTracing w (HexToAddress Pointee))
  | PT_ERC721 => cw_answer (GetCW721ERC721Pointer isTracing w (HexToAddress Pointee))
  | PT_ERC1155 => cw_answer (GetCW1155ERC1155Pointer isTracing w (HexToAddress Pointee))
  end.

Definition PointerVersion (w : World) (PointerType : PointerType) : outcome QueryPointerVersionResponse :=
  match PointerType with
  | PT_NATIVE => Ret (mkQueryPointerVersionResponse native_CurrentVersion 0)
  | PT_CW20 => Ret (mkQueryPointerVersionResponse (cw20_CurrentVersion chainID versionOverride) 0)
  | PT_CW721 => Ret (mkQueryPointerVersionResponse cw721_CurrentVersion 0)
  | PT_CW1155 => Ret (mkQueryPointerVersionResponse cw1155_CurrentVersion 0)
  | PT_ERC20 => let* id := GetStoredPointerCodeID w PT_ERC20 in Ret (mkQueryPointerVersionResponse erc20_CurrentVersion id)
  | PT_ERC721 => let* id := GetStoredPointerCodeID w PT_ERC721 in Ret (mkQueryPointerVersionResponse erc721_CurrentVersion id)
  | PT_ERC1155 => let* id := GetStoredPointerCodeID w PT_ERC1155 in Ret (mkQueryPointerVersionResponse erc1155_CurrentVersion id)
  end.

Definition Pointee (w : World) (PointerType : PointerType) (Pointer : string) : outcome (QueryPointerResponse + Err) :=
  if String.eqb Pointer "" then Ret (inr "must specify pointer"%string) else
  match PointerType with
  | PT_NATIVE => text_answer (GetNativePointee w (HexToAddress Pointer))
  | PT_CW20 => text_answer (GetCW20Pointee w (HexToAddress Pointer))
  | PT_CW721 => text_answer (GetCW721Pointee w (HexToAddress Pointer))
  | PT_CW1155 => text_answer (GetCW1155Pointee w (HexToAddress Pointer))
  | PT_ERC20 => erc_answer (GetERC20Pointee w (str_bytes Pointer))
  | PT_ERC721 => erc_answer (GetERC721Pointee w (str_bytes Pointer))
  | PT_ERC1155 => erc_answer (GetERC1155Pointee w (str_bytes Pointer))
  end.
End Queries.

(** * Theorems *)

Section QueryTheorems.
Context `{BK : BankKeeper B} `{AK : AccountKeeper A} `{BE : Bech32} `{HBL : !Bech32Laws} `{EH : EthHex} `{EHL : !EthHexLaws}.
Context `{MST : MultiStore MS (World B A)} `{MSL : !MultiStoreLaws MS (World B A)}.
Notation World := (World B A).
Variable chainID : string.
Variable versionOverride : Z.
Variable tokens : PointerType → bytes → Prop.

Lemma nonempty_text (s : string) : s ≠ ""%string → String.eqb s "" = false.
Proof. intros H. by apply String.eqb_neq. Qed.

(** What the answer to a query for the entry [o] is. *)
Definition as_address (o : option (bytes * Z)) : QueryPointerResponse :=
  match o with Some (x, v) => answer (str_bytes (addr_Hex (BytesToAddress x))) v | None => no_answer end.
Definition as_text (o : option (bytes * Z)) : QueryPointerResponse :=
  match o with Some (x, v) => answer x v | None => no_answer end.

(** C31: the queries answer what the table holds, as long as no token of a kind is
    a prefix of another one.  After any run of setters and deletions from an empty
    registry on such tokens, the query for the pointer of a token answers the pointer
    of the latest version in the table, as an address of the EVM or of a wasm
    contract, and the query for the token of a pointer answers the token of the
    latest version; an entry there is not is answered as such.  No query fails or
    panics.  (Without the proviso the pointer of the longer token may be answered for
    the shorter one: [native_pointer_confused].) *)
Theorem queries_answer_table (ops : list PointerOp) (w : World) :
  no_pointers w → no_confusion tokens → Forall (legal_op tokens) ops →
  ∃ w' es r, exec_ops chainID versionOverride ops w = Ret (w', es) ∧ table_ops (mkRegistry ∅ ∅) ops r es ∧
    (∀ tr t token, token ≠ ""%string → tokens t (str_bytes token) → erc_type t = false →
      ∃ o, Pointer chainID versionOverride tr w' t token = Ret (inl (as_address o)) ∧ is_latest (λ v, rg_pointer r !! (t, str_bytes token, v)) o) ∧
    (∀ tr t a, tokens t (ba a) → erc_type t = true →
      ∃ o, Pointer chainID versionOverride tr w' t (addr_Hex a) = Ret (inl (as_text o)) ∧ is_latest (λ v, rg_pointer r !! (t, ba a, v)) o) ∧
    (∀ t a, erc_type t = false →
      ∃ o, Pointee w' t (addr_Hex a) = Ret (inl (as_text o)) ∧ is_latest (λ v, rg_token r !! (a, v)) o) ∧
    (∀ t p, p ≠ ""%string → erc_type t = true →
      ∃ o, Pointee w' t p = Ret (inl (as_address o)) ∧ is_latest (λ v, rg_token r !! (BytesToAddress (str_bytes p), v)) o).
Proof.
  intros Hw Hnc Hops. destruct (exec_ops_refines chainID versionOverride tokens ops w _ Hnc Hops (holds_empty tokens w Hw)) as (w' & es & r & E & Ht & Hh).
  exists w', es, r. split; [done|]. split; [done|]. split_and!.
  - intros tr t token Hne Htok Het. destruct (get_erc_latest chainID versionOverride tokens w' r tr t (str_bytes token) Hnc Hh Htok Het) as (o & Hg & HL).
    exists o. split; [|done]. unfold Pointer. rewrite (nonempty_text _ Hne).
    destruct t; try done; cbn [get_erc] in Hg; rewrite Hg; by destruct o as [[x v]|].
  - intros tr t a Htok Het. destruct (get_cw_latest tokens w' r tr t a Hnc Hh Htok Het) as (o & Hg & HL & _).
    eexists. split; [|exact HL]. unfold Pointer. rewrite (nonempty_text _ (addr_Hex_nonempty a)), HexToAddress_Hex.
    destruct t; try done; cbn [get_cw] in Hg; rewrite Hg; by destruct o as [[x v]|].
  - intros t a Het. destruct (GetAnyPointerInfo_latest tokens w' r a Hh) as (o & Hg & HL). exists o. split; [|done].
    unfold Pointee. rewrite (nonempty_text _ (addr_Hex_nonempty a)), HexToAddress_Hex.
    unfold GetNativePointee, GetCW20Pointee, GetCW721Pointee, GetCW1155Pointee. destruct t; try done; by rewrite Hg.
  - intros t p Hne Het. destruct (GetAnyPointerInfo_latest tokens w' r (BytesToAddress (str_bytes p)) Hh) as (o & Hg & HL). exists o. split; [|done].
    unfold Pointee. rewrite (nonempty_text _ Hne). unfold GetERC20Pointee, GetERC721Pointee, GetERC1155Pointee.
    destruct t; try done; rewrite Hg; by destruct o as [[x v]|].
Qed.

(** The two queries for associations are inverse to each other after an association. *)
Lemma association_queries (t : AccAddress) (e : Address) (c : Ctx MS) : t ≠ [] → (length t ≤ 255)%nat → acc_String t ≠ [] →
  let w := cview (SetAddressMapping t e c) in
  TabiAddressByEVMAddress w (addr_Hex e) = inl (mkQueryAddressResponse (acc_String t) true) ∧
  EVMAddressByTabiAddress w (acc_String t) = inl (mkQueryAddressResponse (str_bytes (addr_Hex e)) true).
Proof.
  intros Ht Hl Hs. cbv zeta. unfold TabiAddressByEVMAddress, EVMAddressByTabiAddress. rewrite (nonempty_text _ (addr_Hex_nonempty e)), HexToAddress_Hex.
  rewrite SetAddressMapping_GetTabi, decide_True by done. split; [done|]. rewrite bech32_roundtrip by done.
  destruct (acc_String t); [done|]. by rewrite SetAddressMapping_GetEVM, decide_True.
Qed.
End QueryTheorems.

(** * Examples *)

Section QueryExamples.
#[local] Existing Instances demo_bank_keeper demo_accounts marked_bech32 marked_bech32_laws plain_hex plain_hex_laws.

Lemma queries_answer_table_witness : ∃ w' es r, exec_ops "" 0 demo_ops demo_world0 = Ret (w', es) ∧ table_ops (mkRegistry ∅ ∅) demo_ops r es ∧
  ∃ o, Pointer "" 0 false w' PT_NATIVE "abc" = Ret (inl (as_address o)) ∧ is_latest (λ v, rg_pointer r !! (PT_NATIVE, str_bytes "abc", v)) o.
Proof.
  destruct (queries_answer_table "" 0 demo_tokens demo_ops demo_world0) as (w' & es & r & E & Ht & Hq & _).
  - split; intros s; apply lookup_empty.
  - apply demo_no_confusion.
  - repeat constructor; simpl; done || lia.
  - exists w', es, r. split; [done|]. split; [done|]. by apply Hq.
Defined.

(** After the run of the example the token has its second pointer. *)
Definition demo_answer : outcome (QueryPointerResponse + Err) :=
  let* r := exec_ops "" 0 demo_ops demo_world0 in Pointer "" 0 false r.1 PT_NATIVE "abc".
Lemma demo_answered : demo_answer = Ret (inl (answer (str_bytes (addr_Hex (fit 20 [x03]))) 2)).
Proof. vm_compute. reflexivity. Qed.
End QueryExamples.
